(* ===== verification/_CoqProject ===== *)
-Q . S2P
Prelude.v
Text.v
Bitcoin.v
Concrete.v
Rpc.v
Errors.v
Limits.v
P2mrOutput.v
InterpBase.v
ScriptNum.v
Encoding.v
Deferred.v
Interp.v
InterpProps.v
InterpFrame.v
InterpSpec.v
VaultSpec.v
Tapscript.v
Merkle.v
LeafScript.v
Schemes.v
Spend.v
P2mrUtxo.v
Pqc.v
ParseBlockFiles.v
Dbs.v
BlockHandler.v
Sync.v
SyncHeaders.v
SyncBlocks.v
BlockFiles.v
BlockFilesSpec.v
Enforcer.v
SyncState.v
Server.v
Signer.v
P2mrStore.v
BlockProducer.v
Mine.v
WalletP2mr.v
SeedStore.v
WalletSync.v
WalletTx.v
WalletDriver.v
WalletLocks.v
WalletDb.v
Startup.v
P2p.v
RestClient.v
NodeSync.v
FetchBlocks.v
AppSync.v
ServerWallet.v
ChainSource.v
Http.v
Cli.v
SignetMine.v
MiningService.v
Events.v
Progress.v
App.v
Tasks.v
Logging.v
Wire.v
WireTypes.v
WireView.v
WireRef.v
ProtoCommon.v
ProtoCrypto.v
ProtoValidator.v
ProtoWallet.v
ProtoCommonView.v
ProtoCryptoView.v
ProtoValidatorView.v
ProtoWalletView.v
Proto.v
Connect.v
Services.v
Remote.v
RemoteCrypto.v
