(* ===== verification/Prelude.v ===== *)
(** * The BIP360+ enforcer, verified

    The repository is a consensus enforcer that runs beside a Bitcoin Core node
    and adds rules to it: P2MR outputs with post-quantum signatures (BIP 360) and
    the tapscript opcodes OP_CAT (BIP 347), OP_CHECKTEMPLATEVERIFY (BIP 119) and
    OP_VAULT / OP_VAULT_RECOVER (BIP 345).  This development models its validator
    in Rocq, with the wallet, the servers and the binary around it, and proves what
    makes them correct.  Source paths are below `src/lib/`, except `app/main.rs` and
    `app/error.rs`, which are below `src/`.

    ** How the parts fit together

    Consensus rules.  For each input that spends a P2MR output, [Spend]
    (`validator/pqc/spend.rs`) checks the revealed leaf against the output
    ([Merkle], [P2mrOutput]), parses it ([LeafScript]) and verifies the signatures
    at its checksig sites ([Schemes]) under the block's time budget ([Limits]).
    For each input that reveals a leaf with one of the new opcodes, [Tapscript]
    (`validator/tapscript/mod.rs`) runs the interpreter ([InterpBase],
    [ScriptNum], [Encoding], [Interp]: `tapscript/interp.rs`), which queues the
    vault value checks that [Deferred] evaluates over the whole transaction.
    [Pqc] (`validator/pqc/mod.rs`) runs both over a block while [P2mrUtxo]
    (`pqc/p2mr_utxo.rs`) tracks the P2MR outputs the block creates and spends.

    State.  [Dbs] (`validator/dbs/`) holds the tables: headers, heights,
    cumulative work, stored diffs, the P2MR UTXO set and the tip.  [BlockHandler]
    (`validator/task/mod.rs`) connects and disconnects blocks on it; [Enforcer]
    (`validator/enforcer.rs`, `validator/mod.rs`) wraps both in the node-facing
    calls (connect, disconnect, accept a transaction, dry-run a block) with their
    nested transactions and the lookup of out-of-band prevouts.

    Sync.  [Sync] (`validator/task/mod.rs`) follows the node: [SyncHeaders] proves
    the fork search and the header download, [SyncBlocks] the reorganisation and
    the batched connection.  Blocks come from the node's RPC interface, or from
    its block files: [ParseBlockFiles] (`validator/parse_block_files.rs`) reads
    them and [BlockFiles] (`validator/task/block_files.rs`) connects what it reads;
    [BlockFilesSpec] proves that it meets the contract [SyncBlocks.file_sync_spec]
    against which [SyncBlocks] is proved.  The headers come from the node's REST
    interface, whose client is [RestClient] (`validator/main_rest_client.rs`), the
    blocks in batches from its RPC interface ([FetchBlocks]: `validator/task/mod.rs`).
    [NodeSync] composes the two syncs into the driver's one call, and [FetchBlocks]
    puts the two clients in.  [Progress] (`validator/enforcer.rs`, `validator/mod.rs`,
    `server/validator/grpc.rs`) has the lock of that call and the streams of its
    progress.

    Wallet and mining.  [Signer] (`validator/pqc/signer.rs`) builds and signs P2MR
    spends; [P2mrStore] (`wallet/p2mr_store.rs`) keeps the keys in a file.
    [BlockProducer] (`block_producer/mod.rs`) queues signed spends, which the node's
    mempool does not relay, and adds them to block templates; [Mine]
    (`block_producer/mine.rs`) mines the templates, on signet by the script that
    [SignetMine] (`block_producer/mine.rs`, `bins.rs`) finds and runs.  [WalletP2mr]
    (`wallet/mod.rs`, `wallet/block_producer.rs`) puts them together: it looks an output up in the
    validator's set, signs its spend with a stored key and queues it.  The wallet's
    ordinary keys come from a seed, which [SeedStore] (`wallet/seed_store.rs`,
    `wallet/mnemonic.rs`, `wallet/mod.rs`) encrypts, stores and unlocks.
    [WalletSync] (`wallet/sync.rs`, `wallet/mod.rs`, `wallet/block_producer.rs`)
    keeps the bdk wallet on the validator's chain, [WalletDriver]
    (`wallet/block_producer.rs`) composes it with the validator in the node-facing
    calls, and [WalletTx] (`wallet/mod.rs`, `rpc_client.rs`) lists, builds, signs and
    broadcasts its transactions.  [WalletLocks] (`wallet/mod.rs`, `wallet/util.rs` and
    the two others) runs these operations at once, under the wallet's locks, and
    [WalletDb] (`wallet/thread_safe_connection.rs`) has the transactions of its database.

    Interfaces.  [Rpc] (`proto.rs`, `server/mod.rs`) has the hex fields, field errors
    and status codes of the gRPC services; [Server] (`server/validator/grpc.rs`,
    `server/crypto.rs`, `server/mining.rs`) the validator, crypto and mining
    services; [MiningService] whole mining requests, from the fields to the node, with
    the status codes of `block_producer/error.rs`; [Errors] (`errors.rs`,
    `display.rs`, `proto.rs`) the text of an error and of its status; [ServerWallet]
    (`server/wallet/grpc.rs`) the wallet service.
    [Events] (`validator/mod.rs`, `server/validator/grpc.rs`) has the event streams,
    [P2p] (`p2p.rs`) the broadcast of nonstandard transactions to peers, and [Http]
    (`app/main.rs`) the layers every Connect request passes.

    Messages.  The requests and answers of the services are the generated messages of
    four packages (`proto/generated/buffa/cusf.*.v1.rs`).  [Wire] has the wire format as a
    specification, the statements the generated methods are made of and the interface
    [Message] with its laws; [WireTypes] the well-known types, [WireView] the views that
    borrow from the buffer.  [ProtoCommon], [ProtoCrypto], [ProtoValidator] and
    [ProtoWallet] have one module per message, [ProtoCommonView] and its three siblings one
    per view, each with the struct, its methods as they are generated, its fields by the
    `.proto` file and its laws; [Proto] quantifies over all of them.  [WireRef] is a runtime
    that satisfies the laws, for the witnesses.  The generated services
    (`proto/generated/connect/cusf.*.v1.rs`) are in [Services]: for each the class of its
    handlers, their registration with a router, the dispatcher and the client, over the
    runtime of [Connect]; [Remote] puts them behind the router of `app/main.rs` and has
    what a call of a client does there; [RemoteCrypto] puts the handlers of `server/crypto.rs`
    behind it, on their messages.  The other handlers themselves are those of [Server],
    [MiningService], [ServerWallet], [Events] and [Progress], on the fields of the messages.

    The binary.  [Cli] (`cli.rs`, `bins.rs`, `rpc_client.rs`) has the configuration
    and its dump, the credentials and the commands of the node's tools; [Startup]
    (`validator/dbs/mod.rs`, `version.rs`) the checks of the data directory and of
    the node's version; [ChainSource] (`wallet/mod.rs`, `wallet/error.rs`) the wait
    for the wallet's chain source.  [App] (`app/main.rs`) composes them into the
    start-up: waiting for the node, its checks, the mode, the wallet, the tasks; [Tasks]
    (`app/main.rs`) has the mempool tasks and the end of the process, [Logging]
    (`app/logging.rs`, `app/file_descriptors.rs`) the log filter.
    [SyncState] (`validator/sync_state_summary.rs`) summarises the databases, and
    [AppSync] (`app/main.rs`) syncs to a height and verifies the summary against a
    file.

    ** Files

    - [Text]: the operations of Rust's [str] that the code uses.
    - [Prelude]: outcomes of fallible code ([Ok], [Err], [Panic]), the state and
      error monad [st], machine integers, bytes, list lemmas, the tactics.
    - [Bitcoin]: the data types and the classes of third-party code;
      [Concrete]: instances of them, for the witnesses only.
    - [Limits] `pqc/limits.rs`, `pqc/activation.rs`; [P2mrOutput]
      `pqc/p2mr_output.rs`; [Merkle] `pqc/merkle.rs`; [LeafScript]
      `pqc/leaf_script.rs`; [Schemes] `pqc/schemes.rs`; [Spend] `pqc/spend.rs`;
      [P2mrUtxo] `pqc/p2mr_utxo.rs`; [Pqc] `pqc/mod.rs`.
    - [InterpBase], [ScriptNum], [Encoding], [Deferred], [Interp]:
      `tapscript/interp.rs`, with [InterpProps] (each handler), [InterpFrame] (the
      queue of deferred checks), [InterpSpec] and [VaultSpec] (what scripts
      authorise); [Tapscript]: `tapscript/mod.rs`.
    - [Dbs]: `dbs/*.rs`; [BlockHandler]: `task/mod.rs`, `task/error.rs`; [Sync],
      [SyncHeaders], [SyncBlocks]: `task/mod.rs`; [ParseBlockFiles]:
      `parse_block_files.rs`; [BlockFiles], [BlockFilesSpec]:
      `task/block_files.rs`; [Enforcer]: `enforcer.rs`, `mod.rs`.
    - [Signer], [P2mrStore], [BlockProducer], [Mine], [WalletP2mr], [SeedStore],
      [WalletSync], [WalletTx], [WalletDriver], [WalletLocks],
      [WalletDb]: see above, with the error types of
      `wallet/error.rs` and `block_producer/error.rs`.
    - [Rpc], [Errors], [Server], [ServerWallet], [MiningService], [SignetMine],
      [Events], [Progress], [P2p], [Http], [RestClient], [NodeSync], [FetchBlocks],
      [Cli], [Startup], [ChainSource], [App], [Tasks], [Logging], [SyncState],
      [AppSync], [Wire], [WireTypes], [WireView], [WireRef], [ProtoCommon], [ProtoCrypto],
      [ProtoValidator], [ProtoWallet], their views, [Proto], [Connect], [Services], [Remote],
      [RemoteCrypto]: see above.

    The wallet's state is in three records that its operations do not share: the
    keys of [SeedStore], the producer and key store of [WalletP2mr], and the bdk
    wallet, opaque, of [WalletSync] and [WalletTx]; [WalletDriver] pairs the last
    two.  [WalletLocks] has of each operation only the guards it takes and when it
    changes the wallet and its database.

    Definitions keep the names of the Rust functions and fields.  A function with
    [&mut] arguments is an [st] computation over the record of what it mutates, and
    what it wrote before an error stays written; a write transaction that is
    dropped is a state thrown away ([Sync.write_txn]).

    ** What the theorems show

    - Databases: on every reachable database the tip, the diffs and the UTXO set
      are those of one chain, connected and disconnected block by block
      ([BlockHandler.reachable_db_inv]); the verdict of [connect_block] is exactly
      the rules on that chain; disconnecting undoes connecting; the fork search
      returns the last common ancestor.
    - Spends: a block or transaction is accepted only if every P2MR input reveals a
      leaf of the output's tree with a valid signature at every site, and only
      inputs that fail one of these are refused ([Spend], [Schemes], [Merkle],
      [LeafScript]).
    - Interpreter: no panic, bounded stacks, and for the vault opcodes: a trigger
      moves the value to the rewritten taptree, a recovery to the committed script,
      a withdrawal needs the delay and the template; deferred checks conserve
      value.
    - Blocks: the incremental diff of a block is the diff of its whole transaction
      list; validation with and without diff agree.
    - Node interface: [enforcer_connect_block] refines [connect_block] under its
      nested transaction; dry-run validation agrees with it.
    - Sync: from any state the header sync and the block sync end at the node's tip,
      at a rejected block or at a shutdown, with the databases of a prefix of the
      node's chain.  The block-file sync is proved to keep its contract on
      directories of any content; block files, index entries and varints are read
      back exactly.  Through the REST client and the batches of the RPC
      client the node is the one the syncs are proved against, and one call of the
      driver ends at the node's tip.  Syncs exclude each other, and a stream of the
      progress answers the last value sent at each of its polls, and ends with its sync.
    - Binary: a start-up that succeeds has waited for the node and checked it, marked
      the databases, started the wallet of its directory and spawned exactly one task
      that writes to the databases; `--verify-consensus-state` succeeds exactly when
      two validators agree; the chain source is awaited with capped delays and wrong
      settings fail at once; the configuration dump leaks no secret; the exit status is
      that of the first task to end, and no task outlives the process's drain.
    - Events: a subscriber gets the events from its start on, each once and in order,
      and an error, never a gap, when it falls too far behind, if the broadcast channel does
      what it is documented to do.
    - Wallet: what the signer signs the validator accepts, for every scheme and
      sighash type; creating a key is atomic under every write fault; a wallet spend
      conserves value, pays the requested fee and queues an acceptable transaction,
      or leaves the producer as it was; two spends of one output, which the wallet
      lets through, are both in every template until a block with one of them is accepted,
      and while the output is unspent every block with such a template is refused.
    - Seed: a creation stores one seed or none, an existing seed is never replaced,
      and a created wallet comes back after a restart, with its password when it
      has one.
    - bdk wallet: connecting a block keeps it at the validator's tip; the search for
      the blocks it misses ends; the full scan reveals every used address up to the
      first unused one; the amounts of a listed transaction are its net change, and
      listing it panics exactly when it is a loss below the fee; a payment
      is reported as sent only when the node took it.
    - Concurrency of the wallet: whatever operations run at once, the guards exclude each
      other, no upgrade finds the wallet gone, and they never block each other for good,
      for every policy of the locks that serves a waiting task when it can; its
      database is the log of the change sets that were reported as stored.
    - Interfaces: a listed P2MR output is the one a spend request of it spends; a
      payment request is refused as the client's error or asks for what it says; a
      mnemonic file counts as its words; a tip answered by the validator service is
      found by a query for it; signatures of the crypto service verify; two
      validators have one summary exactly when they agree.
    - Mining: the queue is the map its history prescribes, a template carries it
      once and an accepted block drains it, the proof-of-work loop stops at the
      least valid nonce, and a generated block extends the validator's tip; the status
      code of a mining request that fails says why, code by code, and at most one is served at a
      time.
    - Messages: every message is written in the wire format, at the numbers and types of
      its `.proto` file and in exactly the size computed; it is read back from what was
      written, with fields of a later version among its own too; its view is the same
      message; a field at a wrong wire type is refused.
    - Services: a call of a generated client is one call of the server's handler, on the
      client's request and with the handler's response or error; beside the runtime's health
      and reflection services, the server serves exactly the methods of the services that
      are enabled, by router and by dispatcher.  A key and a
      signature that a client gets over the wire verify over the wire.
    - Errors: the text of a status is the error with all its causes, in order.

    ** Third-party code

    Hashing, script decoding, BIP 341 sighashes, signature verification, tree
    hashes, header hashes and work, consensus decoding and the node's RPC answers
    are methods of the classes of [Bitcoin] and of [Sync.NodeRpc]; those of the
    components outside the validator are in their own files ([SeedStore.SeedLib],
    [WalletSync.BdkLib], [P2p.P2pLib], [RestClient.RestLib], [FetchBlocks.RpcLib],
    [SignetMine.Utf8Lib], [Http.HttpLib], [Events.BroadcastLib], [Events.UnfoldLib],
    [Progress.WatchLib],
    [Wire.Buffa], [WireTypes.BuffaTypes], [WireView.BuffaViews], [Connect.Connect],
    [Connect.Routing], [Connect.RuntimeServices], [Connect.Client], [RemoteCrypto.Answers],
    [Cli.CliLib], [ChainSource.ChainServers], [App.AppEnv], [WalletLocks.LockPolicy], [WalletDb.SqliteLib] and
    others).  Their documented
    behaviour, where a theorem needs it, is a law class (injective hashes, decoders
    that read a prefix, positive work, a node that serves the blocks it lists);
    [Concrete] has an instance of each, or the file of the class.

    Messages and services are proved for clients that speak protobuf and for messages
    within the runtime's size limit ([Connect.message_limit], a parameter: neither side sets
    one, so it is the runtime's default); what happens to a larger one is not stated.  The
    well-known types may keep unknown fields ([WireTypes]): a well-formed message has none
    in them.

    ** Integers, fuel, time

    Machine integers are [Z] with the checks or the wrapping the code has; where it
    uses plain arithmetic, overflow is [Panic], the behaviour of a build with
    overflow checks; only the u32 sums of the message sizes are written with their
    wrap-around, which a message below 2 GiB is proved not to reach.  Recursion that is not structural takes fuel and returns
    [None] when it runs out, and each such loop has a theorem that enough fuel gives
    a result: 33 rounds for the binary search over u32 heights, the number of
    headers for the header download, one more than the blocks of the two branches
    for the reorganisation, [2n + 1] rounds for a directory of [n] files and one
    more than its bytes for the loop over its blocks, 10 digits for a varint,
    [2h + 2] rounds for the blocks missing below height [h], and [n / 1000 + 11] for
    the search for the last of [n] used addresses, 6 requests to the REST interface,
    and one more than the failed attempts for the loops that wait for the node and
    for the chain source.
    The wall clock is an argument: the durations a block's verifications take.
    Cancellation is an argument: what the token answers at each poll of the header
    sync, the block sync and the block-file sync.

    ** Not modelled

    LMDB, LevelDB, SQLite and file-system failures (other than those of the writes of
    the key store, the seed file, the version marker and the state file, and of the
    files a start-up reads); async scheduling other than what [WalletLocks], [Progress],
    [Events] and [Tasks] interleave; the layers of the log and the text of the single
    error messages.  The
    network of a block-file sync is an argument.  The inside of bdk_wallet
    (descriptors, coin selection, PSBTs, its persistence), of the HTTP, JSON-RPC and
    Electrum clients and servers and of clap, the mempool library's loop
    and the signet miner script are third-party and have no definitions here.  Of the
    generated code, the serde and reflection methods, the descriptor pools, the handles of
    owned views, the accessors of the clients and the instances that let a view or a
    message be encoded hand everything to their runtimes and are left out; the
    health and reflection services of the server are registered, but what they answer is
    the runtime's;
    what a failed read leaves in a message is not modelled, nor the runtime's limit on
    unknown fields. *)
From Stdlib Require Import ZArith Lia Strings.Byte.
From stdpp Require Import base list gmap countable numbers.
#[local] Open Scope Z_scope.
#[export] Set Warnings "-clear-no-such-hyp".

(** ** Outcomes of fallible Rust code

    [Ok] and [Err] are the constructors of [Result]; [Panic] is a Rust panic
    (out-of-range index, [expect] on [None], arithmetic overflow in a
    checked build).  [?] is the monadic bind. *)
Inductive outcome (E A : Type) : Type :=
| Ok (a : A)
| Err (e : E)
| Panic.
Arguments Ok {E A} a.
Arguments Err {E A} e.
Arguments Panic {E A}.

#[export] Instance outcome_ret {E} : MRet (outcome E) := @Ok E.
#[export] Instance outcome_bind {E} : MBind (outcome E) :=
  λ A B k m, match m with Ok a => k a | Err e => Err e | Panic => Panic end.

(** [m.map_err(f)] *)
Definition map_err {E F A} (f : E → F) (m : outcome E A) : outcome F A :=
  match m with Ok a => Ok a | Err e => Err (f e) | Panic => Panic end.

(** [o.ok_or(e)] *)
Definition ok_or {E A} (o : option A) (e : E) : outcome E A :=
  match o with Some a => Ok a | None => Err e end.

(** [o.expect(..)] / [o.unwrap()] *)
Definition expect {E A} (o : option A) : outcome E A :=
  match o with Some a => Ok a | None => Panic end.

(** [l[i]] *)
Definition index {E A} (l : list A) (i : nat) : outcome E A := expect (l !! i).

(** [if b { return Err(e) }] *)
Definition reject_if {E} (b : bool) (e : E) : outcome E unit :=
  if b then Err e else Ok tt.

(** [for x in l { s = f(x, s)? }] *)
Fixpoint for_each {E A S} (f : A → S → outcome E S) (l : list A) (s : S) : outcome E S :=
  match l with
  | [] => Ok s
  | x :: l => s' ← f x s; for_each f l s'
  end.

(** [iter().map(f).collect::<Result<Vec<_>, _>>()] *)
Fixpoint collect_results {E A B} (f : A → outcome E B) (l : list A) : outcome E (list B) :=
  match l with
  | [] => Ok []
  | x :: l => y ← f x; ys ← collect_results f l; Ok (y :: ys)
  end.

(** A third party's result: an error or an answer. *)
Definition of_sum {E A} (r : E + A) : outcome E A :=
  match r with inl e => Err e | inr a => Ok a end.

Definition is_ok {E A} (m : outcome E A) : bool :=
  match m with Ok _ => true | _ => false end.

(** ** State and errors

    [st S E A] is a computation on a mutable state [S] that may fail; the state
    reached at a failure is kept, as it is for a [&mut] argument. *)
Definition st (S E A : Type) : Type := S → outcome E A * S.

#[export] Instance st_ret {S E} : MRet (st S E) := λ A a s, (Ok a, s).
#[export] Instance st_bind {S E} : MBind (st S E) := λ A B k m s,
  match m s with
  | (Ok a, s') => k a s'
  | (Err e, s') => (Err e, s')
  | (Panic, s') => (Panic, s')
  end.

Definition st_lift {S E A} (m : outcome E A) : st S E A := λ s, (m, s).
Definition st_get {S E} : st S E S := λ s, (Ok s, s).
Definition st_put {S E} (s : S) : st S E unit := λ _, (Ok tt, s).
Definition st_map_err {S E F A} (f : E → F) (m : st S E A) : st S F A :=
  λ s, let '(o, s') := m s in (map_err f o, s').

(** [for x in l { f(x)? }] *)
Fixpoint st_for_each {S E A} (f : A → st S E unit) (l : list A) : st S E unit :=
  match l with
  | [] => mret tt
  | x :: l => _ ← f x; st_for_each f l
  end.

(** [iter().enumerate()] *)
Definition enumerate {A} (l : list A) : list (nat * A) := imap pair l.

(** ** Machine integers

    A [w]-bit unsigned integer is a [Z] in [0 .. 2^w - 1]; casts and wrapping
    operations are written out with [wrap_u]/[wrap_i]. *)
Definition wrap_u (w : Z) (z : Z) : Z := z mod 2 ^ w.
Lemma wrap_u_id w z : 0 ≤ z < 2 ^ w → wrap_u w z = z.
Proof. apply Z.mod_small. Qed.
Definition wrap_i (w : Z) (z : Z) : Z := (z + 2 ^ (w - 1)) mod 2 ^ w - 2 ^ (w - 1).
Definition in_u (w z : Z) : Prop := 0 ≤ z < 2 ^ w.
(** The value of [+] or [-] on [w]-bit unsigned integers, in a build with overflow checks. *)
Definition checked_u {E} (w z : Z) : outcome E Z := if (0 <=? z) && (z <? 2 ^ w) then Ok z else Panic.
Lemma checked_u_Ok {E} w z : in_u w z → checked_u (E := E) w z = Ok z.
Proof.
  unfold checked_u, in_u. intros [H0 H1]. by rewrite (proj2 (Z.leb_le _ _) H0), (proj2 (Z.ltb_lt _ _) H1).
Qed.
Definition in_i (w z : Z) : Prop := - 2 ^ (w - 1) ≤ z < 2 ^ (w - 1).

Definition checked_add (w a b : Z) : option Z :=
  if a + b <? 2 ^ w then Some (a + b) else None.
Definition checked_sub (a b : Z) : option Z :=
  if b <=? a then Some (a - b) else None.
Definition saturating_add (w a b : Z) : Z := Z.min (a + b) (2 ^ w - 1).

(** ** Bytes *)
Abbreviation bytes := (list byte).

Definition b2z (b : byte) : Z := Z.of_N (Byte.to_N b).
Definition z2b (z : Z) : byte :=
  match Byte.of_N (Z.to_N (z mod 256)) with Some b => b | None => x00 end.

#[export] Instance byte_eq_decision : EqDecision byte := Byte.byte_eq_dec.
#[export] Program Instance byte_countable : Countable byte :=
  inj_countable Byte.to_N Byte.of_N _.
Next Obligation. intros b. apply Byte.of_to_N. Qed.

(** [v.len()] *)
Definition len {A} (l : list A) : Z := Z.of_nat (length l).

(** [z.to_le_bytes()] at [n] bytes, and its inverse. *)
Fixpoint le_bytes (n : nat) (z : Z) : bytes :=
  match n with
  | O => []
  | S n => z2b z :: le_bytes n (Z.shiftr z 8)
  end.

Fixpoint le_decode (l : bytes) : Z :=
  match l with
  | [] => 0
  | b :: l => b2z b + 256 * le_decode l
  end.

(** ** [Vec] operations: the top of a stack is the end of the vector *)
Definition vec_pop {A} (l : list A) : option (list A * A) :=
  match rev l with
  | [] => None
  | x :: r => Some (rev r, x)
  end.

(** * Lemmas *)

(** [slice.chunks_exact(n)] *)
Fixpoint chunks_exact_fuel {A} (fuel n : nat) (l : list A) : list (list A) :=
  match fuel with
  | O => []
  | S fuel => if bool_decide (n ≤ length l)%nat
              then take n l :: chunks_exact_fuel fuel n (drop n l) else []
  end.
Definition chunks_exact {A} (n : nat) (l : list A) : list (list A) :=
  chunks_exact_fuel (length l) n l.

(** The order of byte strings, and of hashes. *)
Fixpoint bytes_leb (a b : bytes) : bool :=
  match a, b with
  | [], _ => true
  | _ :: _, [] => false
  | x :: a, y :: b => if bool_decide (x = y) then bytes_leb a b else b2z x <? b2z y
  end.

Create HintDb rust discriminated.
Create Rewrite HintDb len.

Lemma b2z_range b : 0 ≤ b2z b < 256.
Proof. unfold b2z. pose proof (Byte.to_N_bounded b). lia. Qed.

Lemma z2b_b2z b : z2b (b2z b) = b.
Proof.
  unfold z2b. rewrite Z.mod_small by apply b2z_range.
  unfold b2z. by rewrite N2Z.id, Byte.of_to_N.
Qed.

Lemma b2z_z2b z : b2z (z2b z) = z mod 256.
Proof.
  unfold z2b. assert (0 ≤ z mod 256 < 256) by (apply Z.mod_pos_bound; lia).
  destruct (Byte.of_N _) as [b|] eqn:Hb.
  - apply Byte.to_of_N in Hb. unfold b2z. rewrite Hb. lia.
  - apply Byte.of_N_None_iff in Hb. lia.
Qed.

Lemma b2z_inj a b : b2z a = b2z b → a = b.
Proof. intros H. by rewrite <- (z2b_b2z a), H, z2b_b2z. Qed.

(** [Ord] of byte strings: a total order. *)
Lemma bytes_leb_total a b : bytes_leb a b = true ∨ bytes_leb b a = true.
Proof.
  revert b. induction a as [|x a IH]; intros [|y b]; cbn; auto.
  destruct (decide (x = y)) as [->|Hne]; [rewrite bool_decide_true by done; apply IH|].
  rewrite !bool_decide_false by congruence. rewrite !Z.ltb_lt. assert (b2z x ≠ b2z y) by by intros ?%b2z_inj. lia.
Qed.

Lemma bytes_leb_antisym a b : bytes_leb a b = true → bytes_leb b a = true → a = b.
Proof.
  revert b. induction a as [|x a IH]; intros [|y b]; cbn; [done..|].
  destruct (decide (x = y)) as [->|Hne].
  - rewrite bool_decide_true by done. intros H1 H2. f_equal. by apply IH.
  - rewrite !bool_decide_false by congruence. rewrite !Z.ltb_lt. lia.
Qed.

Lemma bytes_leb_trans a b c : bytes_leb a b = true → bytes_leb b c = true → bytes_leb a c = true.
Proof.
  revert b c. induction a as [|x a IH]; intros [|y b] [|z c]; cbn; try done.
  destruct (decide (x = y)) as [->|Hxy], (decide (y = z)) as [->|Hyz].
  - rewrite !bool_decide_true by done. apply IH.
  - rewrite bool_decide_true, bool_decide_false by done. done.
  - rewrite bool_decide_false, bool_decide_true by done. rewrite ?bool_decide_false by done. done.
  - rewrite !(bool_decide_false (_ = _)) by done. rewrite !Z.ltb_lt. intros H1 H2.
    rewrite bool_decide_false; [apply Z.ltb_lt; lia|]. intros ->. lia.
Qed.

Lemma len_nonneg {A} (l : list A) : 0 ≤ len l.
Proof. unfold len. lia. Qed.

Lemma len_nil {A} : len (@nil A) = 0.
Proof. done. Qed.

Lemma len_cons {A} (x : A) l : len (x :: l) = 1 + len l.
Proof. unfold len. cbn [length]. lia. Qed.

Lemma len_app {A} (l k : list A) : len (l ++ k) = len l + len k.
Proof. unfold len. rewrite length_app. lia. Qed.

Lemma len_snoc {A} (l : list A) x : len (l ++ [x]) = len l + 1.
Proof. by rewrite len_app, len_cons, len_nil. Qed.

Lemma len_replicate {A} n (x : A) : len (replicate n x) = Z.of_nat n.
Proof. unfold len. by rewrite length_replicate. Qed.

Lemma len_zero_nil {A} (l : list A) : len l = 0 → l = [].
Proof. destruct l; [done|]. rewrite len_cons. pose proof (len_nonneg l). lia. Qed.

#[export] Hint Rewrite @len_nil @len_cons @len_app @len_replicate : len.

Lemma vec_pop_snoc {A} (l : list A) x : vec_pop (l ++ [x]) = Some (l, x).
Proof. unfold vec_pop. rewrite rev_app_distr. cbn. by rewrite rev_involutive. Qed.

Lemma vec_pop_None {A} (l : list A) : vec_pop l = None ↔ l = [].
Proof.
  unfold vec_pop. split.
  - destruct (rev l) eqn:E; [|done]. intros _.
    apply (f_equal (@rev A)) in E. by rewrite rev_involutive in E.
  - by intros ->.
Qed.

Lemma vec_pop_Some {A} (l k : list A) x : vec_pop l = Some (k, x) ↔ l = k ++ [x].
Proof.
  split; [|intros ->; apply vec_pop_snoc].
  unfold vec_pop. destruct (rev l) as [|y r] eqn:E; [done|].
  intros [= <- <-]. apply (f_equal (@rev A)) in E.
  by rewrite rev_involutive in E.
Qed.

Lemma length_le_bytes n z : length (le_bytes n z) = n.
Proof. revert z. induction n as [|n IH]; intros z; cbn; [done|]. by rewrite IH. Qed.

Lemma le_decode_range l : 0 ≤ le_decode l < 256 ^ len l.
Proof.
  induction l as [|b l IH]; [done|].
  rewrite len_cons, Z.pow_add_r by (pose proof (len_nonneg l); lia). cbn [le_decode].
  pose proof (b2z_range b). lia.
Qed.

(** [from_le_bytes] inverts [to_le_bytes] up to truncation to [n] bytes. *)
Lemma le_decode_le_bytes n z : le_decode (le_bytes n z) = z mod 256 ^ Z.of_nat n.
Proof.
  revert z. induction n as [|n IH]; intros z.
  - cbn. symmetry. apply Z.mod_1_r.
  - cbn [le_bytes le_decode]. rewrite IH, b2z_z2b, Z.shiftr_div_pow2 by lia.
    rewrite Nat2Z.inj_succ, Z.pow_succ_r by lia.
    change (2 ^ 8) with 256.
    rewrite Z.rem_mul_r; lia.
Qed.

Lemma le_bytes_le_decode l : le_bytes (length l) (le_decode l) = l.
Proof.
  induction l as [|b l IH]; [done|]. cbn [length le_bytes le_decode].
  rewrite Z.shiftr_div_pow2 by lia. change (2 ^ 8) with 256.
  pose proof (b2z_range b).
  f_equal.
  - apply b2z_inj. rewrite b2z_z2b, (Z.mul_comm 256), Z.mod_add by lia.
    by apply Z.mod_small.
  - rewrite (Z.mul_comm 256), Z.div_add by lia.
    by rewrite Z.div_small.
Qed.

(** Byte-level bit facts, checked on all 256 bytes. *)
Lemma byte_land_7f b : Z.land (b2z b) 0x7f = b2z b mod 128.
Proof. by destruct b. Qed.

Lemma byte_land_80 b : (Z.land (b2z b) 0x80 =? 0) = (b2z b <? 128).
Proof. by destruct b. Qed.

(** Oring disjoint bit ranges is addition. *)
Lemma lor_disjoint a b k :
  0 ≤ k → 0 ≤ a < 2 ^ k → Z.lor a (2 ^ k * b) = a + 2 ^ k * b.
Proof.
  intros Hk Ha. rewrite <- (Z.add_lor_land a (2 ^ k * b)).
  enough (Z.land a (2 ^ k * b) = 0) by lia.
  apply Z.bits_inj'. intros i Hi. rewrite Z.land_spec, Z.bits_0.
  destruct (Z.ltb_spec i k).
  - rewrite Z.mul_comm, Z.mul_pow2_bits_low by lia. apply andb_false_r.
  - rewrite <- (Z.mod_small a (2 ^ k)) by done.
    by rewrite Z.mod_pow2_bits_high by lia.
Qed.

(** ** Reasoning about outcomes *)

Lemma bind_Ok {E A B} (m : outcome E A) (k : A → outcome E B) b :
  (m ≫= k) = Ok b ↔ ∃ a, m = Ok a ∧ k a = Ok b.
Proof. destruct m; cbn; naive_solver. Qed.

Lemma bind_Panic {E A B} (m : outcome E A) (k : A → outcome E B) :
  (m ≫= k) = Panic ↔ m = Panic ∨ ∃ a, m = Ok a ∧ k a = Panic.
Proof. destruct m; cbn; naive_solver. Qed.

Lemma bind_no_panic {E A B} (m : outcome E A) (k : A → outcome E B) :
  m ≠ Panic → (∀ a, m = Ok a → k a ≠ Panic) → m ≫= k ≠ Panic.
Proof. destruct m; cbn; naive_solver. Qed.

Lemma reject_if_Ok {E} b (e : E) u : reject_if b e = Ok u ↔ b = false.
Proof. destruct b, u; cbn; naive_solver. Qed.

Lemma reject_if_Panic {E} b (e : E) : reject_if b e ≠ Panic.
Proof. by destruct b. Qed.

Lemma ok_or_Ok {E A} (o : option A) (e : E) a : ok_or o e = Ok a ↔ o = Some a.
Proof. destruct o; cbn; naive_solver. Qed.

Lemma of_sum_Ok {E A} (r : E + A) a : of_sum r = Ok a ↔ r = inr a.
Proof. destruct r; cbn; split; congruence. Qed.
Lemma of_sum_Err {E A} (r : E + A) e : of_sum r = Err e ↔ r = inl e.
Proof. destruct r; cbn; split; congruence. Qed.
Lemma ok_or_no_panic {E A} (o : option A) (e : E) : ok_or o e ≠ Panic.
Proof. by destruct o. Qed.

Lemma index_no_panic {E A} (l : list A) i : (i < length l)%nat → index (E := E) l i ≠ Panic.
Proof. intros [x Hx]%lookup_lt_is_Some_2. unfold index. by rewrite Hx. Qed.

Lemma expect_Ok {E A} (o : option A) a : expect (E:=E) o = Ok a ↔ o = Some a.
Proof. destruct o; cbn; naive_solver. Qed.

Lemma map_err_Ok {E F A} (f : E → F) (m : outcome E A) a :
  map_err f m = Ok a ↔ m = Ok a.
Proof. destruct m; cbn; naive_solver. Qed.

Lemma map_err_Panic {E F A} (f : E → F) (m : outcome E A) :
  map_err f m = Panic ↔ m = Panic.
Proof. destruct m; cbn; naive_solver. Qed.

Lemma map_err_Err {E F A} (f : E → F) (m : outcome E A) e' :
  map_err f m = Err e' ↔ ∃ e, m = Err e ∧ e' = f e.
Proof. destruct m; cbn; naive_solver. Qed.

Lemma st_bind_Ok {S E A B} (m : st S E A) (k : A → st S E B) s b s' :
  (m ≫= k) s = (Ok b, s') ↔ ∃ a s1, m s = (Ok a, s1) ∧ k a s1 = (Ok b, s').
Proof. unfold mbind, st_bind. destruct (m s) as [[a|e|] s1]; naive_solver. Qed.

Lemma st_bind_Err {S E A B} (m : st S E A) (k : A → st S E B) s e s' :
  (m ≫= k) s = (Err e, s') ↔
  m s = (Err e, s') ∨ ∃ a s1, m s = (Ok a, s1) ∧ k a s1 = (Err e, s').
Proof. unfold mbind, st_bind. destruct (m s) as [[a|e'|] s1]; naive_solver. Qed.

Lemma st_lift_Err {S E A} (m : outcome E A) (s : S) e s' :
  st_lift m s = (Err e, s') ↔ m = Err e ∧ s' = s.
Proof. unfold st_lift. naive_solver. Qed.

Lemma st_map_err_Err {S E F A} (f : E → F) (m : st S E A) s e s' :
  st_map_err f m s = (Err e, s') ↔ ∃ e', m s = (Err e', s') ∧ e = f e'.
Proof. unfold st_map_err. destruct (m s) as [[?|?|] ?]; cbn; naive_solver. Qed.

Lemma bind_Err {E A B} (m : outcome E A) (k : A → outcome E B) e :
  (m ≫= k) = Err e ↔ m = Err e ∨ ∃ a, m = Ok a ∧ k a = Err e.
Proof. destruct m; cbn; naive_solver. Qed.

Lemma ok_or_Err {E A} (o : option A) (e e' : E) : ok_or o e = Err e' ↔ o = None ∧ e' = e.
Proof. destruct o; cbn; naive_solver. Qed.

Lemma st_lift_Ok {S E A} (m : outcome E A) (s : S) a s' :
  st_lift m s = (Ok a, s') ↔ m = Ok a ∧ s' = s.
Proof. unfold st_lift. naive_solver. Qed.

Lemma st_ret_Ok {S E A} (a b : A) (s s' : S) :
  (mret a : st S E A) s = (Ok b, s') ↔ b = a ∧ s' = s.
Proof. unfold mret, st_ret. naive_solver. Qed.

Lemma st_map_err_Ok {S E F A} (f : E → F) (m : st S E A) s a s' :
  st_map_err f m s = (Ok a, s') ↔ m s = (Ok a, s').
Proof. unfold st_map_err. destruct (m s) as [[?|?|] ?]; cbn; naive_solver. Qed.

(** A successful loop runs the body on every element, threading the state. *)
Lemma st_for_each_Ok {S E A} (f : A → st S E unit) l s s' :
  st_for_each f l s = (Ok tt, s') →
  ∀ x, x ∈ l → ∃ s1 s2, f x s1 = (Ok tt, s2).
Proof.
  revert s. induction l as [|y l IH]; intros s; cbn [st_for_each]; [set_solver|].
  intros Hr x Hx. apply st_bind_Ok in Hr as ([] & s1 & Hy & Hr).
  apply elem_of_cons in Hx as [->|Hx]; [eauto|by eapply IH].
Qed.

Lemma st_for_each_cons {S E A} (f : A → st S E unit) x l s s' :
  f x s = (Ok tt, s') → st_for_each f (x :: l) s = st_for_each f l s'.
Proof. intros Hx. cbn [st_for_each]. unfold mbind, st_bind. by rewrite Hx. Qed.

Lemma elem_of_enumerate {A} (l : list A) i x : (i, x) ∈ enumerate l ↔ l !! i = Some x.
Proof.
  unfold enumerate. rewrite list_elem_of_lookup. setoid_rewrite list_lookup_imap. split.
  - intros (j & Hj). destruct (l !! j) eqn:Hl; [|done]. cbn in Hj. by injection Hj as -> ->.
  - intros Hl. exists i. by rewrite Hl.
Qed.

Lemma chunks_exact_fuel_concat {A} (n : nat) (l : list (list A)) fuel :
  (0 < n)%nat → Forall (λ c, length c = n) l → (length (concat l) ≤ fuel)%nat →
  chunks_exact_fuel fuel n (concat l) = l.
Proof.
  intros Hn Hl. revert fuel. induction Hl as [|c l Hc Hl IH]; intros fuel Hf; cbn in *.
  - destruct fuel; cbn; [done|]. by rewrite bool_decide_false by lia.
  - rewrite length_app in Hf. destruct fuel as [|fuel]; [lia|]. cbn.
    rewrite bool_decide_true by (rewrite length_app; lia).
    rewrite take_app_length', drop_app_length' by done. f_equal. apply IH. lia.
Qed.

(** Splitting a concatenation of [n]-byte chunks gives the chunks back. *)
Lemma chunks_exact_concat {A} (n : nat) (l : list (list A)) :
  (0 < n)%nat → Forall (λ c, length c = n) l → chunks_exact n (concat l) = l.
Proof. intros. by apply chunks_exact_fuel_concat. Qed.

(** Loop rule for [for_each]: an invariant over the processed prefix. *)
Lemma for_each_inv {E A S} (f : A → S → outcome E S) (I : list A → S → Prop) l s s' :
  I [] s →
  (∀ done x rest s s', l = done ++ x :: rest → I done s → f x s = Ok s' → I (done ++ [x]) s') →
  for_each f l s = Ok s' → I l s'.
Proof.
  intros H0 Hstep.
  assert (∀ rest done s, l = done ++ rest → I done s →
            for_each f rest s = Ok s' → I l s') as H; [|by apply (H l [])].
  induction rest as [|x rest IH]; intros pre t Hl HI; cbn.
  - intros [= <-]. rewrite app_nil_r in Hl. by subst.
  - rewrite bind_Ok. intros (t' & Hf & Hr).
    apply (IH (pre ++ [x]) t'); [by rewrite <- app_assoc| |done].
    by apply (Hstep pre x rest t).
Qed.

Lemma for_each_no_panic {E A S} (f : A → S → outcome E S) (I : S → Prop) l s :
  I s →
  (∀ x s, x ∈ l → I s → f x s ≠ Panic ∧ ∀ s', f x s = Ok s' → I s') →
  for_each f l s ≠ Panic.
Proof.
  revert s. induction l as [|x l IH]; intros s HI Hf; [done|]. cbn.
  destruct (Hf x s) as [Hp Ho]; [set_solver|done|].
  destruct (f x s) as [s'|e|] eqn:Hfx; cbn; [|done|done].
  apply IH; [by apply Ho|]. intros y t Hy. apply Hf. set_solver.
Qed.

(** ** [collect_results] *)

Lemma collect_results_Ok {E A B} (f : A → outcome E B) l ys :
  collect_results f l = Ok ys ↔ Forall2 (λ x y, f x = Ok y) l ys.
Proof.
  revert ys. induction l as [|x l IH]; intros ys; cbn.
  - split; [intros [= <-]; constructor|]. by inversion 1.
  - split.
    + intros Hc. apply bind_Ok in Hc as (y & Hy & Hc). apply bind_Ok in Hc as (ys' & Hys & [= <-]).
      constructor; [done|]. by apply IH.
    + intros Hf. inversion_clear Hf as [|? y ? ys' Hy Hys]. rewrite Hy. cbn. by rewrite (proj2 (IH ys') Hys).
Qed.

(** The error is that of the first element that has one. *)
Lemma collect_results_Err {E A B} (f : A → outcome E B) l e :
  collect_results f l = Err e →
  ∃ pre x post ys, l = pre ++ x :: post ∧ Forall2 (λ x y, f x = Ok y) pre ys ∧ f x = Err e.
Proof.
  induction l as [|x l IH]; cbn; [done|]. destruct (f x) as [y|e'|] eqn:Hx; cbn; [|intros [= ->]|done].
  - destruct (collect_results f l) as [ys|e'|]; cbn; [done| |done]. intros [= ->].
    destruct (IH eq_refl) as (pre & x' & post & ys & -> & Hpre & He).
    exists (x :: pre), x', post, (y :: ys). split_and!; [done|by constructor|done].
  - exists [], x, l, []. split_and!; [done|constructor|done].
Qed.

(** An error comes from one of the elements. *)
Lemma collect_results_not {E A B} (f : A → outcome E B) (P : E → Prop) l :
  (∀ x, match f x with Ok _ => True | Err e => P e | Panic => False end) →
  match collect_results f l with Ok _ => True | Err e => P e | Panic => False end.
Proof.
  intros Hf. induction l as [|x l IH]; cbn; [done|]. specialize (Hf x).
  destruct (f x); cbn; [|done..]. by destruct (collect_results f l).
Qed.

#[export] Hint Resolve reject_if_Panic ok_or_no_panic index_no_panic : rust.

(** [no_panic] walks a body of binds, guards and branches, leaving the callees
    without a lemma in [rust]. *)
Ltac no_panic :=
  repeat match goal with
  | |- ?m ≫= _ ≠ Panic => apply bind_no_panic; [|intros ? ?]
  | |- (if ?b then _ else _) ≠ Panic => destruct b eqn:?
  | |- match ?x with _ => _ end ≠ Panic => destruct x eqn:?
  | |- Ok _ ≠ Panic => discriminate
  | |- Err _ ≠ Panic => discriminate
  | |- _ ≠ Panic => solve [auto with rust]
  end.

(** [okinv] takes apart every successful outcome among the hypotheses, through
    binds and guards. *)
Ltac okinv_step :=
  match goal with
  | H : (_ ≫= _) = Ok _ |- _ => apply bind_Ok in H as (? & ? & ?)
  | H : reject_if _ _ = Ok _ |- _ => apply reject_if_Ok in H
  | H : ok_or _ _ = Ok _ |- _ => apply ok_or_Ok in H
  | H : expect _ = Ok _ |- _ => apply expect_Ok in H
  | H : index _ _ = Ok _ |- _ => apply expect_Ok in H
  | H : map_err _ _ = Ok _ |- _ => apply map_err_Ok in H
  | u : unit |- _ => destruct u
  end.
Ltac okinv := repeat (okinv_step; simplify_eq/=).

(** [stinv] does the same for successful stateful computations. *)
Ltac stinv_step :=
  match goal with
  | H : (_ ≫= _) _ = (Ok _, _) |- _ => apply st_bind_Ok in H as (? & ? & ? & ?)
  | H : st_lift _ _ = (Ok _, _) |- _ => apply st_lift_Ok in H as [? ?]
  | H : mret _ _ = (Ok _, _) |- _ => apply st_ret_Ok in H as [? ?]
  | H : st_map_err _ _ _ = (Ok _, _) |- _ => apply st_map_err_Ok in H
  | _ => okinv_step
  end.
Ltac stinv := repeat (stinv_step; simplify_eq/=).

Lemma st_lift_bind {S E A B} (m : outcome E A) (a : A) (k : A → st S E B) s :
  m = Ok a → (st_lift m ≫= k) s = k a s.
Proof. by intros ->. Qed.

(** [errinv] does the same for failing outcomes and computations: one case per
    step that can have failed. *)
Ltac errinv_step :=
  match goal with
  | H : (_ ≫= _) _ = (Err _, _) |- _ => apply st_bind_Err in H as [H|(? & ? & ? & H)]
  | H : st_lift _ _ = (Err _, _) |- _ => apply st_lift_Err in H as [H ?]
  | H : st_map_err _ _ _ = (Err _, _) |- _ => apply st_map_err_Err in H as (? & H & ?)
  | H : map_err _ _ = Err _ |- _ => apply map_err_Err in H as (? & H & ?)
  | H : (_ ≫= _) = Err _ |- _ => apply bind_Err in H as [H|(? & ? & H)]
  | H : ok_or _ _ = Err _ |- _ => apply ok_or_Err in H as [? ?]
  | H : (Ok _, _) = (Err _, _) |- _ => discriminate H
  | H : mret _ _ = (Err _, _) |- _ => discriminate H
  | H : st_get _ = (Err _, _) |- _ => discriminate H
  | H : st_put _ _ = (Err _, _) |- _ => discriminate H
  end.
Ltac errinv := repeat (errinv_step; simplify_eq/=).
