(* ===== verification/Text.v ===== *)
(** The string operations of Rust's standard library that the program uses on
    addresses, headers, queries and marker files: splitting, trimming, prefixes and
    decimal numbers. *)
From Stdlib Require Import ZArith Lia Strings.String Strings.Ascii.
From stdpp Require Import base list strings.
From S2P Require Import Prelude.
#[local] Open Scope Z_scope.
#[global] Arguments String.append !_ _ / : simpl nomatch.

(** ** Splitting *)

(** [str::split(c)]: never empty. *)
Fixpoint split (c : ascii) (s : string) : list string :=
  match s with
  | EmptyString => [EmptyString]
  | String a s =>
      if Ascii.eqb a c then EmptyString :: split c s
      else match split c s with
           | [] => [String a EmptyString]
           | h :: t => String a h :: t
           end
  end.

(** [s.split(c).next().unwrap_or("")] *)
Definition split_next (c : ascii) (s : string) : string := default EmptyString (head (split c s)).

(** [str::rsplit_once(c)] *)
Fixpoint rsplit_once (c : ascii) (s : string) : option (string * string) :=
  match s with
  | EmptyString => None
  | String a s =>
      match rsplit_once c s with
      | Some (h, t) => Some (String a h, t)
      | None => if Ascii.eqb a c then Some (EmptyString, s) else None
      end
  end.

(** [s.contains([..])] *)
Fixpoint contains_any (cs : list ascii) (s : string) : bool :=
  match s with
  | EmptyString => false
  | String a s => existsb (Ascii.eqb a) cs || contains_any cs s
  end.

(** [str::strip_prefix] *)
Fixpoint strip_prefix (p s : string) : option string :=
  match p, s with
  | EmptyString, s => Some s
  | String a p, String b s => if Ascii.eqb a b then strip_prefix p s else None
  | String _ _, EmptyString => None
  end.

Definition is_empty (s : string) : bool := String.eqb s EmptyString.

Definition newline : string := String "010"%char "".

(** [[String]::join(sep)] *)
Fixpoint join (sep : string) (l : list string) : string :=
  match l with
  | [] => EmptyString
  | [s] => s
  | s :: l => s ++ sep ++ join sep l
  end%string.

(** ** [str::trim], [eq_ignore_ascii_case]: on ASCII *)

Definition is_space (a : ascii) : bool :=
  existsb (Ascii.eqb a) ["009"%char; "010"%char; "011"%char; "012"%char; "013"%char; " "%char].
Fixpoint trim_start (s : string) : string :=
  match s with
  | EmptyString => EmptyString
  | String a s' => if is_space a then trim_start s' else s
  end.
Fixpoint trim_end (s : string) : string :=
  match s with
  | EmptyString => EmptyString
  | String a s => match trim_end s with
                  | EmptyString => if is_space a then EmptyString else String a EmptyString
                  | t => String a t
                  end
  end.
Definition trim (s : string) : string := trim_end (trim_start s).

Definition ascii_lower (a : ascii) : ascii :=
  let n := nat_of_ascii a in
  if (65 <=? n)%nat && (n <=? 90)%nat then ascii_of_nat (n + 32) else a.
Fixpoint eq_ignore_ascii_case (s t : string) : bool :=
  match s, t with
  | EmptyString, EmptyString => true
  | String a s, String b t => Ascii.eqb (ascii_lower a) (ascii_lower b) && eq_ignore_ascii_case s t
  | _, _ => false
  end.

(** ** Decimal numbers: [uN::from_str] and [Display] *)

Definition digit (a : ascii) : option Z :=
  let n := Z.of_nat (nat_of_ascii a) in
  if (48 <=? n) && (n <=? 57) then Some (n - 48) else None.
Fixpoint parse_digits (w : Z) (s : string) (acc : Z) : option Z :=
  match s with
  | EmptyString => Some acc
  | String a s =>
      d ← digit a;
      let acc := acc * 10 + d in
      if acc <? 2 ^ w then parse_digits w s acc else None
  end.
(** An optional [+] sign, then digits, without overflow of the width [w]. *)
Definition parse_uint (w : Z) (s : string) : option Z :=
  match s with
  | EmptyString => None
  | String a s' =>
      if Ascii.eqb a "+" then (if is_empty s' then None else parse_digits w s' 0)
      else parse_digits w s 0
  end.

Definition digit_char (d : Z) : ascii := ascii_of_nat (Z.to_nat (48 + d)).
Fixpoint show_fuel (fuel : nat) (z : Z) (acc : string) : string :=
  match fuel with
  | O => acc
  | S fuel => let acc := String (digit_char (z mod 10)) acc in
              if z <? 10 then acc else show_fuel fuel (z / 10) acc
  end.
(** A number below [2 ^ n] has at most [n + 1] digits. *)
Definition show (z : Z) : string := show_fuel (S (Z.to_nat (Z.log2 z))) z EmptyString.

(** * Lemmas *)

Lemma append_assoc (a b c : string) : ((a ++ b) ++ c = a ++ b ++ c)%string.
Proof. induction a as [|x a IH]; [done|]. cbn [append]. by f_equal. Qed.
Lemma append_empty_r (a : string) : (a ++ "" = a)%string.
Proof. induction a as [|x a IH]; [done|]. cbn [append]. by f_equal. Qed.
Lemma append_eq_empty (a b : string) : (a ++ b = "")%string ↔ a = ""%string ∧ b = ""%string.
Proof. destruct a; cbn; [naive_solver|]. split; [discriminate|by intros []]. Qed.

Lemma is_empty_spec s : reflect (s = ""%string) (is_empty s).
Proof. apply String.eqb_spec. Qed.

Lemma split_ne c s : split c s ≠ [].
Proof. destruct s as [|a s]; [done|]. cbn. destruct (Ascii.eqb a c); [done|]. by destruct (split c s). Qed.

(** No separator: one part. *)
Lemma split_none c s : contains_any [c] s = false → split c s = [s].
Proof.
  induction s as [|a s IH]; [done|]. cbn [contains_any existsb split].
  rewrite orb_false_r. intros [Ha Hs]%orb_false_iff. by rewrite Ha, IH.
Qed.

(** Appending after a separator appends parts. *)
Lemma split_app_sep c s t : split c (s ++ String c t) = split c s ++ split c t.
Proof.
  induction s as [|a s IH].
  - cbn. by rewrite Ascii.eqb_refl.
  - cbn [append split]. rewrite IH. destruct (Ascii.eqb a c); [done|].
    pose proof (split_ne c s). by destruct (split c s).
Qed.

Lemma split_next_app c s t : split_next c (s ++ String c t) = split_next c s.
Proof. unfold split_next. rewrite split_app_sep. pose proof (split_ne c s). by destruct (split c s). Qed.

Lemma contains_sep c h t : contains_any [c] (h ++ String c t) = true.
Proof.
  induction h as [|a h IH]; cbn [append contains_any existsb].
  - by rewrite Ascii.eqb_refl.
  - by rewrite IH, orb_true_r.
Qed.

Lemma rsplit_once_None c s : rsplit_once c s = None ↔ contains_any [c] s = false.
Proof.
  induction s as [|a s IH]; [done|]. cbn [rsplit_once contains_any existsb]. rewrite orb_false_r.
  rewrite orb_false_iff, <- IH. destruct (rsplit_once c s) as [[h t]|]; [naive_solver|].
  destruct (Ascii.eqb a c); naive_solver.
Qed.

(** The last separator splits the string. *)
Lemma rsplit_once_Some c s h t :
  rsplit_once c s = Some (h, t) ↔ s = (h ++ String c t)%string ∧ contains_any [c] t = false.
Proof.
  revert h t. induction s as [|a s IH]; intros h t; cbn [rsplit_once].
  { split; [done|]. intros [H%eq_sym _]. by apply append_eq_empty in H as []. }
  destruct (rsplit_once c s) as [[h' t']|] eqn:Hs.
  - pose proof (proj1 (IH h' t') eq_refl) as [-> Ht']. split.
    + intros [= <- <-]. done.
    + intros [He Ht]. destruct h as [|b h]; cbn [append] in He; injection He as -> He.
      * by rewrite <- He, contains_sep in Ht.
      * pose proof (proj2 (IH h t) (conj He Ht)). by simplify_eq.
  - apply rsplit_once_None in Hs. destruct (Ascii.eqb_spec a c) as [->|Hne]; split.
    + by intros [= <- <-].
    + intros [He Ht]. destruct h as [|b h]; cbn [append] in He; injection He as He; [by subst|].
      subst s. by rewrite contains_sep in Hs.
    + done.
    + intros [He Ht]. destruct h as [|b h]; cbn [append] in He; injection He as -> He; [done|].
      subst s. by rewrite contains_sep in Hs.
Qed.

Lemma strip_prefix_Some p s t : strip_prefix p s = Some t ↔ s = (p ++ t)%string.
Proof.
  revert s. induction p as [|a p IH]; intros s; cbn; [naive_solver|].
  destruct s as [|b s]; [done|]. destruct (Ascii.eqb_spec a b) as [->|Hne]; [rewrite IH|]; naive_solver.
Qed.

Lemma digit_digit_char d : 0 ≤ d < 10 → digit (digit_char d) = Some d.
Proof.
  intros Hd. assert (d ∈ seqZ 0 10) as Hin by by apply elem_of_seqZ.
  assert (Forall (λ d, digit (digit_char d) = Some d) (seqZ 0 10)) as Hall by (vm_compute; repeat constructor).
  rewrite Forall_forall in Hall. by apply Hall.
Qed.

Lemma digit_char_no_sign d : 0 ≤ d < 10 → digit_char d ≠ "+"%char.
Proof. intros Hd He. pose proof (digit_digit_char d Hd) as H. rewrite He in H. discriminate. Qed.

(** The digits in front of [acc]. *)
Lemma parse_show_fuel w fuel z acc :
  0 ≤ z < 10 ^ Z.of_nat fuel → z < 2 ^ w → (0 < fuel)%nat →
  parse_digits w (show_fuel fuel z acc) 0 = parse_digits w acc z.
Proof.
  revert z acc. induction fuel as [|fuel IH]; intros z acc Hz Hw Hf; [lia|]. cbn [show_fuel].
  pose proof (Z.mod_pos_bound z 10 ltac:(lia)) as Hmod.
  destruct (Z.ltb_spec z 10) as [Hlt|Hge].
  - rewrite Z.mod_small in * by lia. cbn [parse_digits]. rewrite digit_digit_char by lia. cbn.
    change (0 * 10 + z) with z. destruct (Z.ltb_spec z (2 ^ w)); [done|lia].
  - rewrite Nat2Z.inj_succ, Z.pow_succ_r in Hz by lia. pose proof (Z.div_mod z 10 ltac:(lia)).
    destruct fuel as [|fuel]; [cbn in Hz; lia|].
    rewrite IH; [|split; [apply Z.div_pos; lia|apply Z.div_lt_upper_bound; lia]| |lia].
    2: { pose proof (Z.div_le_upper_bound z 10 z ltac:(lia)). lia. }
    cbn [parse_digits]. rewrite digit_digit_char by lia. cbn [mbind option_bind].
    replace (z / 10 * 10 + z mod 10) with z by lia. destruct (Z.ltb_spec z (2 ^ w)); [done|lia].
Qed.

Lemma show_fuel_first fuel z acc : (0 < fuel)%nat → 0 ≤ z →
  ∃ d s, show_fuel fuel z acc = String (digit_char d) s ∧ 0 ≤ d < 10.
Proof.
  revert z acc. induction fuel as [|fuel IH]; intros z acc Hf Hz; [lia|]. cbn [show_fuel].
  pose proof (Z.mod_pos_bound z 10 ltac:(lia)).
  destruct (z <? 10); [by eexists _, _|]. destruct fuel as [|fuel]; [by eexists _, _|].
  apply IH; [lia|apply Z.div_pos; lia].
Qed.

Lemma log2_digits z : 0 ≤ z → z < 10 ^ Z.of_nat (S (Z.to_nat (Z.log2 z))).
Proof.
  intros Hz. destruct (decide (z = 0)) as [->|Hne]; [vm_compute; done|].
  pose proof (Z.log2_spec z ltac:(lia)) as [_ Hlt]. pose proof (Z.log2_nonneg z).
  rewrite Nat2Z.inj_succ, Z2Nat.id by lia. eapply Z.lt_le_trans; [exact Hlt|].
  apply Z.pow_le_mono_l. lia.
Qed.

(** What [Display] prints is read back. *)
Lemma parse_uint_show w z : 0 ≤ z < 2 ^ w → parse_uint w (show z) = Some z.
Proof.
  intros Hz. pose proof (log2_digits z ltac:(lia)) as Hd. unfold show.
  pose proof (parse_show_fuel w (S (Z.to_nat (Z.log2 z))) z EmptyString ltac:(lia) ltac:(lia) ltac:(lia)) as Hp.
  destruct (show_fuel_first (S (Z.to_nat (Z.log2 z))) z EmptyString ltac:(lia) ltac:(lia)) as (d & s & He & Hdr).
  rewrite He in *. unfold parse_uint. destruct (Ascii.eqb_spec (digit_char d) "+") as [Hs|_]; [|done].
  by apply digit_char_no_sign in Hs.
Qed.

(** A parsed number fits. *)
Lemma parse_digits_range w s acc z : 0 ≤ acc < 2 ^ w → parse_digits w s acc = Some z → 0 ≤ z < 2 ^ w.
Proof.
  revert acc. induction s as [|a s IH]; intros acc Hacc; cbn [parse_digits]; [by intros [= <-]|].
  intros (d & Hd & H)%bind_Some. unfold digit in Hd. destruct (_ && _) eqn:Hr; simplify_eq.
  apply andb_true_iff in Hr as [H1%Z.leb_le H2%Z.leb_le].
  destruct (Z.ltb_spec (acc * 10 + (Z.of_nat (nat_of_ascii a) - 48)) (2 ^ w)); [|done]. apply IH in H; [done|lia].
Qed.
Lemma parse_uint_range w s z : 0 ≤ w → parse_uint w s = Some z → 0 ≤ z < 2 ^ w.
Proof.
  intros Hw. pose proof (Z.pow_pos_nonneg 2 w ltac:(lia) Hw).
  unfold parse_uint. destruct s as [|a s]; [done|].
  destruct (Ascii.eqb a "+"); [destruct (is_empty s); [done|]|]; apply parse_digits_range; lia.
Qed.

(** Digits are not separators. *)
Lemma show_no_sep cs z : 0 ≤ z → Forall (λ c, digit c = None) cs → contains_any cs (show z) = false.
Proof.
  intros Hz Hcs. unfold show. assert (contains_any cs EmptyString = false) as Hacc by done.
  revert Hacc Hz. generalize EmptyString as acc. generalize (S (Z.to_nat (Z.log2 z))) as fuel.
  intros fuel. revert z. induction fuel as [|fuel IH]; intros z acc Hacc Hz; [done|]. cbn [show_fuel].
  pose proof (Z.mod_pos_bound z 10 ltac:(lia)) as Hmod.
  assert (contains_any cs (String (digit_char (z mod 10)) acc) = false) as Hd.
  { cbn [contains_any]. rewrite Hacc, orb_false_r. apply not_true_is_false. intros (c & Hc & He)%existsb_exists.
    apply Ascii.eqb_eq in He. rewrite <- He, <- list_elem_of_In in Hc. rewrite Forall_forall in Hcs.
    apply Hcs in Hc. rewrite digit_digit_char in Hc by lia. done. }
  destruct (z <? 10); [done|]. apply IH; [done|]. apply Z.div_pos; lia.
Qed.

Lemma show_inj a b : 0 ≤ a → 0 ≤ b → show a = show b → a = b.
Proof.
  intros Ha Hb He. set (w := 1 + Z.log2 (Z.max a b)).
  assert (∀ z, 0 ≤ z ≤ Z.max a b → parse_uint w (show z) = Some z) as Hp.
  { intros z Hz. apply parse_uint_show. split; [lia|]. unfold w. destruct (decide (Z.max a b = 0)) as [Hm|Hm].
    - assert (z = 0) as -> by lia. rewrite Hm. done.
    - pose proof (Z.log2_spec (Z.max a b) ltac:(lia)). replace (1 + Z.log2 (Z.max a b)) with (Z.succ (Z.log2 (Z.max a b))) by lia. lia. }
  pose proof (Hp a ltac:(lia)) as H1. pose proof (Hp b ltac:(lia)) as H2. rewrite He in H1. congruence.
Qed.

(** Parts without the separator are found again. *)
Lemma split_join c l :
  l ≠ [] → Forall (λ s, contains_any [c] s = false) l → split c (join (String c EmptyString) l) = l.
Proof.
  intros Hne Hl. induction Hl as [|s l Hs Hl IH]; [done|]. destruct l as [|t l].
  - by apply split_none.
  - change (join (String c EmptyString) (s :: t :: l)) with (s ++ String c (join (String c EmptyString) (t :: l)))%string.
    rewrite split_app_sep, (split_none _ _ Hs), IH by done. done.
Qed.

Lemma contains_any_app cs s t : contains_any cs (s ++ t) = contains_any cs s || contains_any cs t.
Proof. induction s as [|a s IH]; [done|]. cbn [append contains_any]. by rewrite IH, orb_assoc. Qed.
