(* ===== verification/Bitcoin.v ===== *)
(** The Bitcoin data types the enforcer reads and writes (the public fields of
    the `bitcoin` crate's structs), and the interfaces of the third-party
    crates it calls.

    Code of the `bitcoin`, `secp256k1`, `bitcoin-p2mr-pqc` and `bitcoinpqc`
    crates is not part of the repository: it appears as the methods of the
    classes below, and every definition that calls it takes the class as an
    argument.  The documented behaviour some theorems rely on is collected in
    the law classes [ScriptLaws], [HashLaws] and [SighashLaws]. *)
From stdpp Require Import base list gmap countable numbers.
From Stdlib Require Import ZArith Lia Strings.Byte.
From S2P Require Import Prelude.
#[local] Open Scope Z_scope.

(** Scripts and hashes are byte strings ([Script::as_bytes],
    [Hash::to_byte_array]); an [Opcode] is one byte ([Opcode::to_u8]). *)
Abbreviation Script := bytes.
Abbreviation Hash32 := bytes.
Abbreviation Txid := bytes.
Abbreviation BlockHash := bytes.
Abbreviation Opcode := byte.
(** A [Witness] is the stack of its elements, bottom first. *)
Abbreviation Witness := (list bytes).
(** [Amount] in satoshi (u64). *)
Abbreviation Amount := Z.

(** [Hash::all_zeros()] *)
Definition all_zeros : Hash32 := replicate 32 x00.

Record OutPoint := mkOutPoint { txid : Txid; vout : Z (* u32 *) }.
Record TxOut := mkTxOut { value : Amount; script_pubkey : Script }.
Record TxIn := mkTxIn {
  previous_output : OutPoint;
  script_sig : Script;
  sequence : Z; (* u32 *)
  witness : Witness
}.
Record Transaction := mkTransaction {
  version : Z;   (* i32 *)
  lock_time : Z; (* u32 *)
  input : list TxIn;
  output : list TxOut
}.
(** The fields of a block header the enforcer inspects; [header_rest] stands
    for the others (version, merkle root, bits, nonce), which only the hash and
    the work depend on. *)
Record Header := mkHeader { prev_blockhash : BlockHash; time : Z; header_rest : bytes }.
Record Block := mkBlock { header : Header; txdata : list Transaction }.

#[export] Instance OutPoint_eq_dec : EqDecision OutPoint.
Proof. solve_decision. Defined.
#[export] Program Instance OutPoint_countable : Countable OutPoint :=
  inj_countable' (λ o, (txid o, vout o)) (λ p, mkOutPoint p.1 p.2) _.
Next Obligation. by intros []. Qed.
#[export] Instance TxOut_eq_dec : EqDecision TxOut.
Proof. solve_decision. Defined.
#[export] Instance TxIn_eq_dec : EqDecision TxIn.
Proof. solve_decision. Defined.
#[export] Instance Transaction_eq_dec : EqDecision Transaction.
Proof. solve_decision. Defined.
#[export] Instance Header_eq_dec : EqDecision Header.
Proof. solve_decision. Defined.

(** The order of the keys [(txid, vout)]; a txid is compared as its bytes. *)
Definition outpoint_leb (a b : OutPoint) : bool :=
  if bool_decide (txid a = txid b) then vout a <=? vout b else bytes_leb (txid a) (txid b).

Lemma outpoint_leb_total a b : outpoint_leb a b = true ∨ outpoint_leb b a = true.
Proof.
  unfold outpoint_leb. destruct (decide (txid a = txid b)) as [He|Hne].
  - rewrite He, !bool_decide_true by done. rewrite !Z.leb_le. lia.
  - rewrite !bool_decide_false by congruence. apply bytes_leb_total.
Qed.

Lemma outpoint_leb_antisym a b : outpoint_leb a b = true → outpoint_leb b a = true → a = b.
Proof.
  destruct a as [t v], b as [t' v']. unfold outpoint_leb. cbn. destruct (decide (t = t')) as [->|Hne].
  - rewrite !bool_decide_true by done. rewrite !Z.leb_le. intros ? ?. f_equal. lia.
  - rewrite !bool_decide_false by congruence. intros H1 H2. by destruct Hne; apply bytes_leb_antisym.
Qed.

Lemma outpoint_leb_trans a b c : outpoint_leb a b = true → outpoint_leb b c = true → outpoint_leb a c = true.
Proof.
  destruct a as [t v], b as [t' v'], c as [t'' v'']. unfold outpoint_leb. cbn.
  destruct (decide (t = t')) as [->|H1], (decide (t' = t'')) as [->|H2].
  - rewrite !bool_decide_true by done. rewrite !Z.leb_le. lia.
  - rewrite bool_decide_true by done. rewrite !bool_decide_false by done. done.
  - rewrite bool_decide_false by done. rewrite bool_decide_true by done. done.
  - rewrite !(bool_decide_false (_ = _)) by done. intros Ha Hb. rewrite bool_decide_false; [by eapply bytes_leb_trans|].
    intros ->. by apply H1, bytes_leb_antisym.
Qed.

(** [u64] bounds of the amounts of a transaction, and the number of outputs a
    32-bit index can name. *)
Definition tx_amounts_ok (tx : Transaction) : Prop :=
  Forall (λ o, in_u 64 (value o)) (output tx).

Abbreviation PrevoutMap := (gmap OutPoint TxOut).

(** ** Scripts *)

(** [bitcoin::script::Instruction] *)
Inductive Instruction :=
| PushBytes (data : bytes)
| Op (opcode : Opcode).

(** Opcodes of `bitcoin::blockdata::opcodes::all` the enforcer names. *)
Definition OP_PUSHBYTES_0 : Opcode := x00.
Definition OP_PUSHDATA1 : Opcode := x4c.
Definition OP_PUSHDATA2 : Opcode := x4d.
Definition OP_PUSHNUM_1 : Opcode := x51.
Definition OP_PUSHNUM_16 : Opcode := x60.
Definition OP_VERIFY : Opcode := x69.
Definition OP_DROP : Opcode := x75.
Definition OP_DUP : Opcode := x76.
Definition OP_SWAP : Opcode := x7c.
Definition OP_SUBSTR : Opcode := x7f.
Definition OP_EQUAL : Opcode := x87.
Definition OP_EQUALVERIFY : Opcode := x88.
Definition OP_BOOLAND : Opcode := x9a.
Definition OP_RIPEMD160 : Opcode := xa6.
Definition OP_SHA256 : Opcode := xa8.
Definition OP_HASH160 : Opcode := xa9.
Definition OP_HASH256 : Opcode := xaa.
Definition OP_CHECKSIG : Opcode := xac.
Definition OP_CHECKSIGVERIFY : Opcode := xad.
Definition OP_CHECKMULTISIG : Opcode := xae.
Definition OP_CHECKMULTISIGVERIFY : Opcode := xaf.
Definition OP_CLTV : Opcode := xb1.
Definition OP_CSV : Opcode := xb2.
Definition OP_CHECKSIGADD : Opcode := xba.

(** ** Sighash types and prevouts *)

(** [bitcoin::sighash::TapSighashType] and its discriminants. *)
Inductive TapSighashType :=
| SighashDefault | SighashAll | SighashNone | SighashSingle
| AllPlusAnyoneCanPay | NonePlusAnyoneCanPay | SinglePlusAnyoneCanPay.

#[export] Instance TapSighashType_eq_dec : EqDecision TapSighashType.
Proof. solve_decision. Defined.

(** [sighash_type as u8] *)
Definition sighash_to_u8 (t : TapSighashType) : byte :=
  match t with
  | SighashDefault => x00 | SighashAll => x01 | SighashNone => x02
  | SighashSingle => x03 | AllPlusAnyoneCanPay => x81
  | NonePlusAnyoneCanPay => x82 | SinglePlusAnyoneCanPay => x83
  end.

(** [bitcoin::sighash::Prevouts] *)
Inductive Prevouts :=
| PrevoutsOne (input_index : nat) (prevout : TxOut)
| PrevoutsAll (prevouts : list TxOut).

(** [bitcoin::taproot::ControlBlock], with the keys and hashes as their
    serialized bytes and the leaf version as its consensus byte. *)
Record ControlBlock := mkControlBlock {
  cb_leaf_version : byte;
  cb_internal_key : bytes;
  cb_merkle_branch : list Hash32
}.

(** [LeafVersion::TapScript] (consensus byte 0xc0). *)
Definition LeafVersion_TapScript : byte := xc0.

(** ** Third-party crates *)

(** Hash functions of `bitcoin::hashes`. *)
Class HashLib := {
  sha256 : bytes → bytes;
  sha256d : bytes → bytes;
  hash160 : bytes → bytes;
  ripemd160 : bytes → bytes
}.

(** [Script::instructions] (the error, [None], ends the iteration) and
    [Script::is_p2tr]. *)
Class ScriptLib := {
  instructions : Script → list (option Instruction);
  is_p2tr : Script → bool
}.

(** Consensus encoding and identifiers. *)
Class TxLib := {
  serialize_txout : TxOut → bytes;
  serialize_script : Script → bytes;
  compute_txid : Transaction → Txid;
  block_hash : Header → BlockHash;
  header_work : Header → Z
}.

(** Taproot: control blocks, tagged hashes, key tweaking, BIP341 sighashes and
    BIP340 signatures.  X-only keys and signatures are opaque values, obtained
    from bytes by the [from_slice] functions. *)
Class TaprootLib := {
  control_block_decode : bytes → option ControlBlock;
  tap_node_from_script : Script → byte → Hash32;
  tap_node_from_node_hashes : Hash32 → Hash32 → Hash32;
  tap_tweak : bytes → Hash32 → bytes;
  new_p2tr_tweaked : bytes → Script;
  tap_leaf_hash : Script → byte → Hash32;
  sighash_from_consensus_u8 : byte → option TapSighashType;
  xonly_from_slice : bytes → option bytes;
  schnorr_sig_from_slice : bytes → option bytes;
  taproot_sig_from_slice : bytes → option (bytes * TapSighashType);
  annex_new : bytes → option bytes;
  taproot_signature_hash :
    Transaction → nat → Prevouts → option bytes → option (Hash32 * Z) →
    TapSighashType → option Hash32;
  taproot_script_spend_signature_hash :
    Transaction → nat → Prevouts → Hash32 → TapSighashType → option Hash32;
  secp_verify_schnorr : bytes → Hash32 → bytes → bool
}.

(** `bitcoin-p2mr-pqc`: the P2MR constants and its own copy of the tagged
    merkle hashes. *)
Class P2mrLib := {
  P2MR_CONTROL_BYTE : byte;
  P2MR_LEAF_VERSION : byte;
  p2mr_leaf_version_from_consensus : byte → option byte;
  leaf_version_from_consensus : byte → option byte;
  p2mr_node_from_script : Script → byte → Hash32;
  p2mr_node_from_node_hashes : Hash32 → Hash32 → Hash32
}.

(** `bitcoinpqc`: [Signature::try_from_slice], [PublicKey::try_from_slice] and
    [verify] for its algorithms. *)
Inductive PqcAlgorithm := SECP256K1_SCHNORR | ML_DSA_44 | SLH_DSA_SHA2_128S.

#[export] Instance PqcAlgorithm_eq_dec : EqDecision PqcAlgorithm.
Proof. solve_decision. Defined.

Class PqcLib := {
  pqc_sig_from_slice : PqcAlgorithm → bytes → option bytes;
  pqc_pk_from_slice : PqcAlgorithm → bytes → option bytes;
  pqc_verify : bytes → bytes → bytes → bool
}.

(** ** Documented behaviour *)

(** The script push grammar: [OP_0] and the direct pushes and PUSHDATA1/2
    yield the pushed bytes, any opcode above [OP_PUSHDATA4] yields itself. *)
Class ScriptLaws `{ScriptLib} : Prop := {
  instructions_nil : instructions [] = [];
  instructions_push n d rest :
    0 ≤ b2z n < 0x4c → len d = b2z n →
    instructions (n :: d ++ rest) = Some (PushBytes d) :: instructions rest;
  instructions_pushdata1 n d rest :
    len d = b2z n → 0x4c ≤ len d →
    instructions (OP_PUSHDATA1 :: n :: d ++ rest) = Some (PushBytes d) :: instructions rest;
  instructions_pushdata2 d rest :
    0x100 ≤ len d < 0x10000 →
    instructions (OP_PUSHDATA2 :: le_bytes 2 (len d) ++ d ++ rest) =
      Some (PushBytes d) :: instructions rest;
  instructions_op o rest :
    0x4e < b2z o → instructions (o :: rest) = Some (Op o) :: instructions rest
}.

(** Sighash bytes decode to the type they encode, and nothing else does. *)
Class SighashLaws `{TaprootLib} : Prop := {
  sighash_from_to_u8 t : sighash_from_consensus_u8 (sighash_to_u8 t) = Some t;
  sighash_to_from_u8 b t : sighash_from_consensus_u8 b = Some t → sighash_to_u8 t = b
}.

(** Digest sizes. *)
Class HashLaws `{HashLib} : Prop := {
  len_sha256 m : len (sha256 m) = 32;
  len_sha256d m : len (sha256d m) = 32;
  len_hash160 m : len (hash160 m) = 20;
  len_ripemd160 m : len (ripemd160 m) = 20
}.

(** ** Networks and consensus decoding *)

(** [bitcoin::Network] *)
Inductive Network := NetworkBitcoin | Testnet | Testnet4 | Signet | Regtest.

#[export] Instance Network_eq_dec : EqDecision Network.
Proof. solve_decision. Defined.

(** [Decodable::consensus_decode] of a header and a u32 return the value and how
    many bytes they consumed; transactions are decoded from a whole slice. *)
Class ConsensusCodec := {
  header_decode : bytes → option Header * nat;
  u32_decode : bytes → option Z * nat;
  txs_decode : bytes → option (list Transaction);
  network_magic : Network → bytes;
  chain_hash : Network → BlockHash
}.

(** What the decoders are documented to do: a u32 is four little-endian bytes; a
    header is 80 bytes, whatever follows them. *)
Class ConsensusLaws `{ConsensusCodec} : Prop := {
  u32_decode_spec l :
    u32_decode l = if bool_decide (4 ≤ length l)%nat then (Some (le_decode (take 4 l)), 4%nat)
                   else (None, length l);
  header_decode_size l h n : header_decode l = (Some h, n) → n = 80%nat ∧ (80 ≤ length l)%nat;
  header_decode_prefix l h rest :
    header_decode l = (Some h, 80%nat) → header_decode (take 80 l ++ rest) = (Some h, 80%nat)
}.
