(* ===== verification/Concrete.v ===== *)
(** Concrete instances of the third-party interfaces, at which the witnesses
    evaluate the theorems: an executable script parser for the push grammar, and
    toy hashes and signatures that satisfy the documented laws.  Only witnesses
    use this file. *)
From Stdlib Require Import ZArith Lia Strings.Byte.
From stdpp Require Import base list gmap.
From S2P Require Import Prelude Bitcoin.
#[local] Open Scope Z_scope.

(** ** Hashes: pad or truncate to the digest size *)
Definition toy_digest (n : nat) (m : bytes) : bytes := take n (m ++ replicate n x00).

Definition toy_hash : HashLib := {|
  sha256 := toy_digest 32; sha256d := toy_digest 32;
  hash160 := toy_digest 20; ripemd160 := toy_digest 20
|}.

Lemma len_toy_digest n m : len (toy_digest n m) = Z.of_nat n.
Proof. unfold toy_digest, len. rewrite length_take, length_app, length_replicate. lia. Qed.

Lemma toy_hash_laws : @HashLaws toy_hash.
Proof. split; intros m; apply len_toy_digest. Qed.

(** ** The script grammar *)

(** Take a push of [n] bytes off [l]; a short script is a parse error. *)
Definition split_push (n : nat) (l : bytes) : option (bytes * bytes) :=
  if bool_decide (n ≤ length l)%nat then Some (take n l, drop n l) else None.

Definition parse_one (s : Script) : option (Instruction * Script) :=
  match s with
  | [] => None
  | b :: l =>
      let push o := match o with Some (d, r) => Some (PushBytes d, r) | None => None end in
      if b2z b <? 0x4c then push (split_push (Z.to_nat (b2z b)) l)
      else if b2z b =? 0x4c then
        match split_push 1 l with
        | Some (n, r) => push (split_push (Z.to_nat (le_decode n)) r) | None => None end
      else if b2z b =? 0x4d then
        match split_push 2 l with
        | Some (n, r) => push (split_push (Z.to_nat (le_decode n)) r) | None => None end
      else if b2z b =? 0x4e then
        match split_push 4 l with
        | Some (n, r) => push (split_push (Z.to_nat (le_decode n)) r) | None => None end
      else Some (Op b, l)
  end.

Fixpoint parse_script (fuel : nat) (s : Script) : list (option Instruction) :=
  match s, fuel with
  | [], _ => []
  | _, O => []
  | _, S fuel => match parse_one s with
                 | None => [None]
                 | Some (i, r) => Some i :: parse_script fuel r
                 end
  end.

Definition toy_script : ScriptLib := {|
  instructions s := parse_script (length s) s;
  is_p2tr s := bool_decide (len s = 34) && bool_decide (take 2 s = [x51; x20])
|}.

Lemma split_push_app d r : split_push (length d) (d ++ r) = Some (d, r).
Proof.
  unfold split_push. rewrite bool_decide_true by (rewrite length_app; lia).
  by rewrite take_app_length, drop_app_length.
Qed.

Lemma split_push_length n l d r :
  split_push n l = Some (d, r) → (length r ≤ length l)%nat.
Proof. unfold split_push. case_match; [|done]. intros [= <- <-]. rewrite length_drop. lia. Qed.

Lemma parse_one_length s i r : parse_one s = Some (i, r) → (length r < length s)%nat.
Proof.
  destruct s as [|b l]; [done|]. cbn. intros H.
  repeat case_match; simplify_eq;
    repeat match goal with H : split_push _ _ = _ |- _ => apply split_push_length in H end; lia.
Qed.

Lemma parse_script_fuel n m s :
  (length s ≤ n)%nat → (length s ≤ m)%nat → parse_script n s = parse_script m s.
Proof.
  revert m s. induction n as [|n IH]; intros [|m] [|b l] Hn Hm; cbn -[parse_one] in *; try lia; try done.
  destruct (parse_one (b :: l)) as [[i r]|] eqn:Hp; [|done].
  apply parse_one_length in Hp. cbn in Hp. f_equal. apply IH; lia.
Qed.

Lemma parse_script_step s i r :
  parse_one s = Some (i, r) →
  parse_script (length s) s = Some i :: parse_script (length r) r.
Proof.
  intros H. pose proof (parse_one_length _ _ _ H). destruct s as [|b l]; [done|].
  cbn [length parse_script]. rewrite H. f_equal. cbn in *. apply parse_script_fuel; lia.
Qed.

Lemma to_nat_len {A} (l : list A) : Z.to_nat (len l) = length l.
Proof. unfold len. lia. Qed.

Lemma toy_script_laws : @ScriptLaws toy_script.
Proof.
  split; cbn.
  - done.
  - intros n d rest Hn Hd. apply (parse_script_step (n :: d ++ rest)). cbn.
    rewrite (proj2 (Z.ltb_lt _ _)), <- Hd, to_nat_len, split_push_app by lia. done.
  - intros n d rest Hn Hd. apply (parse_script_step (OP_PUSHDATA1 :: n :: d ++ rest)).
    change (match split_push (Z.to_nat (le_decode [n])) (d ++ rest) with
            | Some (d, r) => Some (PushBytes d, r) | None => None end = Some (PushBytes d, rest)).
    cbn [le_decode]. rewrite Z.add_0_r, <- Hn, to_nat_len, split_push_app. done.
  - intros d rest Hd. apply (parse_script_step (OP_PUSHDATA2 :: le_bytes 2 (len d) ++ d ++ rest)).
    change (match split_push (Z.to_nat (le_decode (le_bytes 2 (len d)))) (d ++ rest) with
            | Some (d, r) => Some (PushBytes d, r) | None => None end = Some (PushBytes d, rest)).
    rewrite le_decode_le_bytes, Z.mod_small by (change (256 ^ Z.of_nat 2) with 0x10000; lia).
    by rewrite to_nat_len, split_push_app.
  - intros o rest Ho. apply (parse_script_step (o :: rest)). cbn.
    rewrite (proj2 (Z.ltb_ge _ _)), !(proj2 (Z.eqb_neq _ _)) by lia. done.
Qed.

(** ** Transactions, taproot and signatures *)

Definition toy_tx : TxLib := {|
  serialize_txout o := le_bytes 8 (value o) ++ z2b (len (script_pubkey o)) :: script_pubkey o;
  serialize_script s := z2b (len s) :: s;
  compute_txid tx := toy_digest 32 (le_bytes 4 (lock_time tx) ++ le_bytes 4 (version tx));
  block_hash h := toy_digest 32 (le_bytes 4 (time h) ++ header_rest h ++ prev_blockhash h);
  header_work h := 1
|}.

Fixpoint chunks (fuel : nat) (n : nat) (l : bytes) : list bytes :=
  match fuel, l with
  | S fuel, _ :: _ => take n l :: chunks fuel n (drop n l)
  | _, _ => []
  end.

Definition toy_sighash_from_u8 (b : byte) : option TapSighashType :=
  match b with
  | x00 => Some SighashDefault | x01 => Some SighashAll | x02 => Some SighashNone
  | x03 => Some SighashSingle | x81 => Some AllPlusAnyoneCanPay
  | x82 => Some NonePlusAnyoneCanPay | x83 => Some SinglePlusAnyoneCanPay
  | _ => None
  end.

Definition toy_control_block (b : bytes) : option ControlBlock :=
  match b with
  | v :: r => if bool_decide (len r mod 32 = 0) && bool_decide (32 ≤ len r) then
                Some (mkControlBlock (z2b (Z.land (b2z v) 0xfe)) (take 32 r)
                        (chunks (length r) 32 (drop 32 r)))
              else None
  | [] => None
  end.

Definition toy_taproot : TaprootLib := {|
  control_block_decode := toy_control_block;
  tap_node_from_script s v := toy_digest 32 (v :: s);
  tap_node_from_node_hashes a b := toy_digest 32 (take 16 a ++ take 16 b);
  tap_tweak key root := root;
  new_p2tr_tweaked k := x51 :: x20 :: k;
  tap_leaf_hash s v := toy_digest 32 (v :: s);
  sighash_from_consensus_u8 := toy_sighash_from_u8;
  xonly_from_slice k := if bool_decide (len k = 32) then Some k else None;
  schnorr_sig_from_slice s := if bool_decide (len s = 64) then Some s else None;
  taproot_sig_from_slice s :=
    if bool_decide (len s = 64) then Some (s, SighashDefault)
    else match vec_pop s with
         | Some (r, b) => if bool_decide (len r = 64) then
                            match toy_sighash_from_u8 b with
                            | Some t => Some (r, t) | None => None end
                          else None
         | None => None
         end;
  annex_new a := match a with x50 :: _ => Some a | _ => None end;
  taproot_signature_hash tx i ps annex leaf t :=
    if bool_decide (i < length (input tx))%nat
    then Some (toy_digest 32 (sighash_to_u8 t :: le_bytes 4 (lock_time tx))) else None;
  taproot_script_spend_signature_hash tx i ps leaf t :=
    if bool_decide (i < length (input tx))%nat
       && (Z.leb 0x81 (b2z (sighash_to_u8 t)) || match ps with PrevoutsAll _ => true | _ => false end)
    then Some (toy_digest 32 (sighash_to_u8 t :: le_bytes 4 (lock_time tx))) else None;
  secp_verify_schnorr sig msg key := bool_decide (sig = key ++ msg)
|}.

Lemma toy_sighash_laws : @SighashLaws toy_taproot.
Proof.
  split; [by intros []|]. intros b t. cbn. unfold toy_sighash_from_u8.
  by destruct b; intros [= <-].
Qed.

Definition toy_p2mr : P2mrLib := {|
  P2MR_CONTROL_BYTE := xc1; P2MR_LEAF_VERSION := xc0;
  p2mr_leaf_version_from_consensus b := if bool_decide (b = x50) then None else Some b;
  leaf_version_from_consensus b :=
    if bool_decide (b = x50) || Z.odd (b2z b) then None else Some b;
  p2mr_node_from_script s v := toy_digest 32 (v :: s);
  p2mr_node_from_node_hashes a b := le_bytes 32 (le_decode a + le_decode b)
|}.

Definition toy_sig_len (a : PqcAlgorithm) : Z :=
  match a with SECP256K1_SCHNORR => 64 | ML_DSA_44 => 2420 | SLH_DSA_SHA2_128S => 7856 end.
Definition toy_pk_len (a : PqcAlgorithm) : Z :=
  match a with ML_DSA_44 => 1312 | _ => 32 end.

Definition toy_pqc : PqcLib := {|
  pqc_sig_from_slice a s := if bool_decide (len s = toy_sig_len a) then Some s else None;
  pqc_pk_from_slice a k := if bool_decide (len k = toy_pk_len a) then Some k else None;
  pqc_verify pk msg sig := bool_decide (take 32 sig = msg)
|}.

(** ** Consensus decoding: a header is its parent, its time and the rest; a
    transaction is one byte, its version. *)
Definition toy_codec : ConsensusCodec := {|
  header_decode l :=
    if bool_decide (80 ≤ length l)%nat
    then (Some (mkHeader (take 32 l) (le_decode (take 4 (drop 32 l))) (take 44 (drop 36 l))), 80%nat)
    else (None, length l);
  u32_decode l :=
    if bool_decide (4 ≤ length l)%nat then (Some (le_decode (take 4 l)), 4%nat) else (None, length l);
  txs_decode l := Some (map (λ b, mkTransaction (b2z b) 0 [] []) l);
  network_magic n :=
    match n with
    | NetworkBitcoin => [xf9; xbe; xb4; xd9] | Testnet => [x0b; x11; x09; x07]
    | Testnet4 => [x1c; x16; x3f; x28] | Signet => [x0a; x03; xcf; x40]
    | Regtest => [xfa; xbf; xb5; xda]
    end;
  chain_hash n := replicate 32 xaa
|}.

Lemma slice_prefix {A} n m k (l rest : list A) :
  (n + m ≤ k)%nat → (k ≤ length l)%nat → take n (drop m (take k l ++ rest)) = take n (drop m l).
Proof.
  intros Hn Hk. rewrite drop_app_le by (rewrite length_take; lia).
  rewrite take_app_le by (rewrite length_drop, length_take; lia).
  by rewrite skipn_firstn_comm, take_take, Nat.min_l by lia.
Qed.

Lemma toy_codec_laws : @ConsensusLaws toy_codec.
Proof.
  split; cbn -[take drop].
  - done.
  - intros l h n. case_bool_decide; [|done]. by intros [= <- <-].
  - intros l h rest. case_bool_decide as Hl; [|done]. intros [= <-].
    rewrite bool_decide_true by (rewrite length_app, length_take; lia).
    assert (take 32 (take 80 l ++ rest) = take 32 l) as -> by (apply (slice_prefix 32 0); lia).
    by rewrite !slice_prefix by lia.
Qed.
