(* ===== verification/Rpc.v ===== *)
(** What the RPC interfaces share: errors of the node's RPC, the status codes of the
    gRPC servers (`proto.rs`, `server/mod.rs`, `block_producer/error.rs`) and the
    hex-encoded fields of their messages (`proto.rs`). *)
From Stdlib Require Import ZArith Lia Strings.Byte Strings.String Strings.Ascii.
From stdpp Require Import base list strings.
From S2P Require Import Prelude Bitcoin.
#[local] Open Scope Z_scope.

(** [str::contains] *)
Fixpoint str_contains (pat s : string) : bool :=
  String.prefix pat s || match s with String _ s => str_contains pat s | EmptyString => false end.

(** [jsonrpsee]'s client error: of the node, with its code and message, of the
    transport, or another one. *)
Inductive ClientError := Call (code : Z) (message : string) | Transport | OtherClientError.

(** ** Status codes

    [connectrpc::ErrorCode]; of a [StatusBuilder] only the code is modelled, the
    messages are not.  [StatusBuilder::new] has the code [Unknown]; [with_code] takes
    that of the source. *)
Inductive ErrorCode :=
| Unknown | InvalidArgument | DeadlineExceeded | NotFound | StatusAlreadyExists
| ResourceExhausted | FailedPrecondition | Internal | Unavailable.

#[global] Instance ErrorCode_eq_dec : EqDecision ErrorCode.
Proof. solve_decision. Defined.

(** [trait ToStatus] *)
Class ToStatus (E : Type) := builder : E → ErrorCode.

(** [proto::Error] *)
Inductive ProtoError :=
| InvalidEnumVariant (field_name message_name variant_name : string)
| InvalidFieldValue (field_name message_name value : string)
| InvalidRepeatedValue (field_name message_name value : string)
| MissingField (field_name message_name : string)
| UnknownEnumTag (field_name message_name : string) (tag : Z).

Definition proto_error_builder (e : ProtoError) : ErrorCode := InvalidArgument.
#[global] Instance proto_error_status : ToStatus ProtoError := proto_error_builder.

(** [ConnectError]: its code, and the error of a message's field when it is one. *)
Record ConnectError := mkConnectError { ce_code : ErrorCode; ce_field : option ProtoError }.

Definition to_connect_error `{ToStatus E} (e : E) : ConnectError := mkConnectError (builder e) None.
Definition from_proto_error (e : ProtoError) : ConnectError := mkConnectError (builder e) (Some e).

(** `server/mod.rs` *)
Definition invalid_field_value (message_name field_name value : string) : ConnectError :=
  from_proto_error (InvalidFieldValue field_name message_name value).
Definition missing_field (message_name field_name : string) : ConnectError :=
  from_proto_error (MissingField field_name message_name).
Definition internal_err : ConnectError := mkConnectError Internal None.
Definition invalid_argument : ConnectError := mkConnectError InvalidArgument None.

(** An error of the node. *)
Definition BITCOIN_CORE_RPC_ERROR_H_NOT_FOUND : Z := -18.
Definition bitcoin_core_rpc_builder (e : ClientError) : ErrorCode :=
  match e with
  | Call code message =>
      if (code =? BITCOIN_CORE_RPC_ERROR_H_NOT_FOUND) && str_contains "No wallet is loaded" message
      then FailedPrecondition else Unknown
  | _ => Unknown
  end.
#[global] Instance bitcoin_core_rpc_status : ToStatus ClientError := bitcoin_core_rpc_builder.

(** ** Hex fields

    The [hex] crate, and the encoding of a type by the [bitcoin] crate. *)
Class HexLib := { hex_encode : bytes → string; hex_decode : string → option bytes }.
Class ConsensusType (T : Type) := {
  serialize : T → bytes;
  deserialize : bytes → option T;
  serialize_hex : T → string;
  deserialize_hex : string → option T
}.
Class HexLaws `{HexLib} : Prop := { hex_roundtrip b : hex_decode (hex_encode b) = Some b }.
Class ConsensusTypeLaws `{ConsensusType T} : Prop := {
  deserialize_serialize v : deserialize (serialize v) = Some v;
  deserialize_serialize_hex v : deserialize_hex (serialize_hex v) = Some v
}.

Record ConsensusHex := mkConsensusHex { consensus_hex : option string }.
Record Hex := mkHex { hex : option string }.
Record ReverseHex := mkReverseHex { reverse_hex : option string }.

Section fields.
Context `{HexLib}.

Definition decode_consensus_hex `{ConsensusType T} (self : ConsensusHex) (message_name field_name : string) :
    outcome ProtoError T :=
  s ← ok_or (consensus_hex self) (MissingField "hex" "cusf.common.v1.ConsensusHex");
  ok_or (deserialize_hex s) (InvalidFieldValue field_name message_name s).
Definition encode_consensus_hex `{ConsensusType T} (value : T) : ConsensusHex :=
  mkConsensusHex (Some (serialize_hex value)).

(** [from_hex]: [FromHex] of the type, from the bytes. *)
Definition decode_hex {T} (from_bytes : bytes → option T) (self : Hex) (message_name field_name : string) :
    outcome ProtoError T :=
  s ← ok_or (hex self) (MissingField "hex" "cusf.common.v1.Hex");
  ok_or (hex_decode s ≫= from_bytes) (InvalidFieldValue field_name message_name s).
Definition encode_hex (value : bytes) : Hex := mkHex (Some (hex_encode value)).

Definition decode_reverse_hex `{ConsensusType T} (self : ReverseHex) (message_name field_name : string) :
    outcome ProtoError T :=
  s ← ok_or (reverse_hex self) (MissingField "hex" "cusf.common.v1.ReverseHex");
  b ← ok_or (hex_decode s) (InvalidFieldValue field_name message_name s);
  ok_or (deserialize (rev b)) (InvalidFieldValue field_name message_name s).
Definition encode_reverse_hex `{ConsensusType T} (value : T) : ReverseHex :=
  mkReverseHex (Some (hex_encode (rev (serialize value)))).

(** [decode_status], and the field itself when it must be set. *)
Definition decode_status {A} (o : outcome ProtoError A) : outcome ConnectError A := map_err from_proto_error o.
Definition required {A B} (message_name field_name : string) (field : option A) (decode : A → outcome ProtoError B) :
    outcome ConnectError B :=
  a ← ok_or field (missing_field message_name field_name);
  decode_status (decode a).
End fields.

(** * Lemmas *)

Lemma reverse_hex_roundtrip `{HexLib} `{!HexLaws} `{ConsensusType T} `{!ConsensusTypeLaws} (v : T) m f :
  decode_reverse_hex (encode_reverse_hex v) m f = Ok v.
Proof.
  unfold decode_reverse_hex, encode_reverse_hex. cbn [reverse_hex ok_or mbind outcome_bind].
  rewrite hex_roundtrip. cbn [ok_or mbind outcome_bind]. by rewrite rev_involutive, deserialize_serialize.
Qed.

Lemma consensus_hex_roundtrip `{ConsensusType T} `{!ConsensusTypeLaws} (v : T) m f :
  decode_consensus_hex (encode_consensus_hex v) m f = Ok v.
Proof. unfold decode_consensus_hex, encode_consensus_hex. cbn. by rewrite deserialize_serialize_hex. Qed.

Lemma hex_field_roundtrip `{HexLib} `{!HexLaws} b m f : decode_hex Some (encode_hex b) m f = Ok b.
Proof. unfold decode_hex, encode_hex. cbn. by rewrite hex_roundtrip. Qed.

(** A required field is an error of the caller when it is missing or malformed. *)
Lemma required_Err {A B} m f (field : option A) (decode : A → outcome ProtoError B) e :
  required m f field decode = Err e → ce_code e = InvalidArgument.
Proof.
  unfold required, decode_status. intros Hr. apply bind_Err in Hr as [[_ ->]%ok_or_Err|(a & _ & Hr)]; [done|].
  by apply map_err_Err in Hr as (e' & _ & ->).
Qed.
