(* ===== verification/Errors.v ===== *)
(** Error chains and status messages (`errors.rs`: [ErrorChain]; `proto.rs`:
    [StatusBuilder]; `display.rs`).

    A Rust error is its text, in both modes of formatting ([alternate] is `{:#}`), and
    its source.  A transparent error has the text and the source of what it wraps. *)
From Stdlib Require Import ZArith Lia Strings.String.
From stdpp Require Import base list strings.
From S2P Require Import Prelude Text Bitcoin Rpc.

Inductive error := Error (display : bool → string) (source : option error).
Definition display (e : error) : bool → string := let '(Error d _) := e in d.
Definition source (e : error) : option error := let '(Error _ s) := e in s.

(** ** ErrorChain *)

(** The loop over the causes of an error. *)
Fixpoint causes (alternate : bool) (e : error) : string :=
  match e with
  | Error _ None => ""
  | Error _ (Some cause) => ": " ++ display cause alternate ++ causes alternate cause
  end.
Definition error_chain (alternate : bool) (e : error) : string := display e alternate ++ causes alternate e.

(** [Splittable] and [DisplayFn] change nothing. *)
Definition splittable (e : error) : error := e.
Definition display_fn (f : bool → string) : bool → string := f.

(** ** StatusBuilder *)

Inductive StatusBuilder :=
| mkBuilder (code : ErrorCode) (fmt_message : bool → string) (source : option (StatusBuilder + error)).
Definition builder_code (b : StatusBuilder) : ErrorCode := let '(mkBuilder c _ _) := b in c.

Definition new (err : error) : StatusBuilder := mkBuilder Unknown (display err) (inr <$> source err).
Definition code (b : StatusBuilder) (c : ErrorCode) : StatusBuilder :=
  let '(mkBuilder _ m s) := b in mkBuilder c m s.
Definition message (b : StatusBuilder) (m : bool → string) : StatusBuilder :=
  let '(mkBuilder c _ s) := b in mkBuilder c m s.
Definition set_source (b source : StatusBuilder) : StatusBuilder :=
  let '(mkBuilder c m _) := b in mkBuilder c m (Some (inl source)).
Definition with_code (err_msg : bool → string) (source_builder : StatusBuilder) : StatusBuilder :=
  mkBuilder (builder_code source_builder) err_msg (Some (inl source_builder)).

Fixpoint status_message (alternate : bool) (b : StatusBuilder) : string :=
  let '(mkBuilder _ m s) := b in
  m alternate ++
  if negb alternate then "" else
  match s with
  | Some (inl source) => ": " ++ status_message alternate source
  | Some (inr source) => ": " ++ display source alternate ++ causes alternate source
  | None => ""
  end.

(** The code and the text sent to the client. *)
Definition to_connect_error (b : StatusBuilder) : ErrorCode * string :=
  (builder_code b, display_fn (λ alternate, status_message alternate b) true).

(** * Lemmas *)

Lemma append_nil_r (s : string) : (s ++ "")%string = s.
Proof. induction s as [|c s IH]; [done|]. cbn. by rewrite IH. Qed.

Lemma error_chain_eq alternate e :
  error_chain alternate e
  = (display e alternate ++ match source e with Some cause => ": " ++ error_chain alternate cause | None => "" end)%string.
Proof. by destruct e as [d [[d' s']|]]. Qed.

Lemma status_message_code alternate b c : status_message alternate (code b c) = status_message alternate b.
Proof. by destruct b. Qed.

(** * Properties *)

(** How the implementations of [ToStatus] build a status from an error: [new] for an
    error whose source has no status of its own, whatever code is then set; [with_code]
    for one whose source has. *)
Inductive built : StatusBuilder → error → Prop :=
| built_new err : built (new err) err
| built_code b err c : built b err → built (code b c) err
| built_with_code b err cause : source err = Some cause → built b cause → built (with_code (display err) b) err.

(** What a client is told of an error that was built as [ToStatus] asks for is
    exactly what the log says of it: the text of the error and of each of its causes,
    in order; nothing of the chain is lost or repeated, however deep the status of the
    source is nested. *)
Lemma status_message_is_chain b err :
  built b err → (to_connect_error b).2 = error_chain true err.
Proof.
  intros Hb. cbn [to_connect_error snd]. unfold display_fn. induction Hb as [err|b err c _ IH|b err cause Hs _ IH].
  - by destruct err as [d [[d' s']|]].
  - by rewrite status_message_code.
  - rewrite error_chain_eq, Hs. cbn [with_code status_message negb]. by rewrite IH.
Qed.

(** The code is that of the innermost status a [with_code] delegates to. *)
Lemma with_code_delegates err_msg b c :
  (to_connect_error (with_code err_msg (code b c))).1 = c.
Proof. by destruct b. Qed.

(** The test of [ErrorChain]. *)
Definition ex_error (name : string) (source : option error) : error :=
  Error (λ alternate, "error " ++ name ++ if alternate then " (Alternate)" else "")%string source.
Definition ex_error_c : error := ex_error "C" (Some (ex_error "B" (Some (ex_error "A" None)))).

Lemma error_chain_examples :
  error_chain false ex_error_c = "error C: error B: error A"%string
  ∧ error_chain true ex_error_c = "error C (Alternate): error B (Alternate): error A (Alternate)"%string.
Proof. vm_compute. split; reflexivity. Qed.

Lemma status_message_is_chain_witness :
  to_connect_error (with_code (display ex_error_c) (code (new (ex_error "B" (Some (ex_error "A" None)))) Unavailable))
  = (Unavailable, "error C (Alternate): error B (Alternate): error A (Alternate)"%string).
Proof.
  apply (f_equal2 pair); [reflexivity|].
  apply (status_message_is_chain _ ex_error_c).
  apply (built_with_code _ ex_error_c (ex_error "B" (Some (ex_error "A" None)))); [reflexivity|apply built_code, built_new].
Defined.
