(* ===== verification/Limits.v ===== *)
(** Activation height gating (`pqc/activation.rs`) and the consensus limits and
    per-block verification budget (`pqc/limits.rs`). *)
From Stdlib Require Import ZArith Lia.
From stdpp Require Import base list.
From S2P Require Import Prelude.
#[local] Open Scope Z_scope.

(** ** activation.rs *)

(** [Bip360Activation(pub u32)] *)
Record Bip360Activation := mkBip360Activation { activation_height : Z }.

Definition is_active (self : Bip360Activation) (height : Z) : bool :=
  activation_height self <=? height.

(** ** limits.rs *)

Definition SLH_DSA_PUBLIC_KEY_SIZE : Z := 32.
Definition ML_DSA_44_PUBLIC_KEY_SIZE : Z := 1312.
Definition SCHNORR_SIGNATURE_SIZE : Z := 64.
Definition ML_DSA_44_SIGNATURE_SIZE : Z := 2420.
Definition SLH_DSA_128S_SIGNATURE_SIZE : Z := 7856.
Definition MAX_P2MR_WITNESS_STACK : Z := 100.
Definition MAX_P2MR_LEAF_SCRIPT_SIZE : Z := 10000.
Definition MAX_PQC_SIG_WU_PER_INPUT : Z := 12288.
Definition DEFAULT_PQC_VERIFY_BUDGET_MS : Z := 500.
Definition PQC_SIGNATURE_SIZE_TOLERANCE : Z := 4.

Definition estimate_sig_wu (sig_len : Z) : Z := sig_len.

(** A [Duration] is a number of nanoseconds. *)
Record PqcVerifyBudget := mkBudget { budget : Z; elapsed : Z }.

Definition with_budget_ms (ms : Z) : PqcVerifyBudget :=
  {| budget := ms * 1000000; elapsed := 0 |}.

Definition new_default : PqcVerifyBudget := with_budget_ms DEFAULT_PQC_VERIFY_BUDGET_MS.

(** [record]: the updated budget, and whether it is exceeded. *)
Definition record (self : PqcVerifyBudget) (duration : Z) : PqcVerifyBudget * bool :=
  let self' := {| budget := budget self; elapsed := elapsed self + duration |} in
  (self', budget self' <? elapsed self').

(** * Lemmas *)

Lemma is_active_spec a h : is_active a h = true ↔ activation_height a ≤ h.
Proof. unfold is_active. lia. Qed.

(** Activation is monotone in the height. *)
Lemma is_active_mono a h h' : h ≤ h' → is_active a h = true → is_active a h' = true.
Proof. rewrite !is_active_spec. lia. Qed.

(** Recording a run of durations: the budget is exceeded exactly when their sum
    passes the limit. *)
Fixpoint record_all (b : PqcVerifyBudget) (ds : list Z) : PqcVerifyBudget :=
  match ds with
  | [] => b
  | d :: ds => record_all (record b d).1 ds
  end.

Lemma record_all_elapsed b ds :
  elapsed (record_all b ds) = elapsed b + foldr Z.add 0 ds.
Proof. revert b. induction ds as [|d ds IH]; intros b; cbn; [lia|]. rewrite IH. cbn. lia. Qed.

Lemma record_all_budget b ds : budget (record_all b ds) = budget b.
Proof. revert b. induction ds as [|d ds IH]; intros b; cbn; [done|]. by rewrite IH. Qed.
