(* ===== verification/P2mrOutput.v ===== *)
(** Structural validation of P2MR `scriptPubKey`s (`pqc/p2mr_output.rs`). *)
From Stdlib Require Import ZArith Lia Strings.Byte.
From stdpp Require Import base list.
From S2P Require Import Prelude Bitcoin.
#[local] Open Scope Z_scope.

(** [P2mrMerkleRoot = [u8; 32]] *)
Abbreviation P2mrMerkleRoot := bytes.

Inductive P2mrOutputError :=
| NotP2mr
| InvalidLength
| InvalidMerkleRoot.

(** [bytes.len() == 34 && bytes[0] == 0x52 && bytes[1] == 0x20]: the indexing is
    guarded by the length. *)
Definition is_p2mr_script (script : Script) : bool :=
  bool_decide (len script = 34) && bool_decide (script !! 0%nat = Some x52)
  && bool_decide (script !! 1%nat = Some x20).

Definition validate_p2mr_output (script : Script) : outcome P2mrOutputError P2mrMerkleRoot :=
  _ ← reject_if (negb (is_p2mr_script script)) NotP2mr;
  _ ← reject_if (bool_decide (len script ≠ 34) || bool_decide (script !! 0%nat ≠ Some x52)
                 || bool_decide (script !! 1%nat ≠ Some x20)) InvalidLength;
  let merkle_root_bytes := take 32 (drop 2 script) in
  _ ← reject_if (bool_decide (len merkle_root_bytes ≠ 32)) InvalidMerkleRoot;
  Ok merkle_root_bytes.

Section control.
Context `{P2mrLib}.
Definition is_valid_p2mr_control_byte (b : byte) : bool :=
  bool_decide (b = P2MR_CONTROL_BYTE).
End control.

(** * Lemmas *)

Lemma is_p2mr_script_spec s :
  is_p2mr_script s = true ↔ ∃ root, s = x52 :: x20 :: root ∧ len root = 32.
Proof.
  unfold is_p2mr_script. rewrite !andb_true_iff, !bool_decide_eq_true. split.
  - intros [[Hl H0] H1]. destruct s as [|a [|b root]]; simplify_eq/=.
    exists root. split; [done|]. autorewrite with len in Hl. lia.
  - intros (root & -> & Hl). autorewrite with len. repeat split; [lia].
Qed.

(** [validate_p2mr_output] is total on P2MR scripts: only [NotP2mr] can be
    returned, and on success the root is the 32-byte program. *)
Lemma validate_p2mr_output_spec s :
  validate_p2mr_output s =
    if is_p2mr_script s then Ok (drop 2 s) else Err NotP2mr.
Proof.
  unfold validate_p2mr_output. destruct (is_p2mr_script s) eqn:Hs; [|done].
  apply is_p2mr_script_spec in Hs as (root & -> & Hl).
  assert (len (x52 :: x20 :: root) = 34) as -> by (autorewrite with len; lia).
  cbn -[take]. rewrite drop_0, take_ge by (unfold len in Hl; lia).
  by rewrite Hl.
Qed.

Lemma validate_p2mr_output_Ok s root :
  validate_p2mr_output s = Ok root ↔ s = x52 :: x20 :: root ∧ len root = 32.
Proof.
  rewrite validate_p2mr_output_spec. destruct (is_p2mr_script s) eqn:Hs.
  - apply is_p2mr_script_spec in Hs as (root' & -> & Hl). cbn. naive_solver.
  - split; [done|]. intros [-> Hl].
    assert (is_p2mr_script (x52 :: x20 :: root) = true)
      by (apply is_p2mr_script_spec; eauto). congruence.
Qed.
