(* ===== verification/InterpBase.v ===== *)
(** The data of the BIP360+ tapscript interpreter
    (`tapscript/interp.rs`): its errors, limits, deferred checks, leaf context
    and execution stack, and the state monad its handlers run in. *)
From Stdlib Require Import ZArith Lia Strings.Byte.
From stdpp Require Import base list gmap strings.
From S2P Require Import Prelude Bitcoin.
#[local] Open Scope Z_scope.

Definition OP_CAT : Opcode := xfe.
Definition OP_CTV : Opcode := xfd.
Definition OP_VAULT : Opcode := xfc.
Definition OP_VAULT_RECOVER : Opcode := xfb.

Definition CTV_HASH_LEN : Z := 32.
Definition RECOVERY_SPK_HASH_LEN : Z := 32.
Definition MAX_SCRIPT_ELEMENT_SIZE : Z := 520.
Definition MAX_STACK_SIZE : Z := 1000.
Definition SEQUENCE_LOCKTIME_DISABLE_FLAG : Z := Z.shiftl 1 31.
Definition SEQUENCE_LOCKTIME_TYPE_FLAG : Z := Z.shiftl 1 22.
Definition SEQUENCE_LOCKTIME_MASK : Z := 0x0000ffff.
Definition LOCKTIME_THRESHOLD : Z := 500000000.
Definition NO_CODESEPARATOR : Z := 0xffffffff.

Inductive InterpError :=
| MalformedScript
| StackUnderflow (opcode : string)
| ElementTooLarge (size : Z)
| StackOverflow
| ReservedOpcode (byte : byte)
| CtvBadArgLength (len : Z)
| CtvTemplateMismatch
| UnimplementedOpcode (opcode : Opcode)
| VerifyFailed
| CleanStackRequired (n : Z)
| EvalFalse
| MissingPrevout
| BadSignatureEncoding
| UnknownPubkeyType (len : Z)
| SchnorrVerifyFailed
| SighashError
| TimelockNotSatisfied
| BadScriptNum
| VaultBadStack
| VaultTriggerNotV1
| VaultTriggerMismatch
| VaultRevaultMismatch
| VaultRecoverBadHashLen (len : Z)
| VaultRecoverMismatch
| VaultValueNotPreserved.

(** A deferred, cross-input value-preservation check. *)
Inductive DeferredCheck :=
| Trigger (input_amount revault_amount : Z (* u64 *)) (trigger_idx : nat) (revault_idx : Z (* i64 *))
| Recovery (input_amount : Z (* u64 *)) (vout_idx : nat).

(** [LeafContext]: the read-only per-input context. *)
Record LeafContext := mkLeafContext {
  tx : Transaction;
  input_index : nat;
  prevouts : PrevoutMap;
  input_txout : option TxOut;
  control : ControlBlock;
  annex : option bytes;
  leaf : Script
}.

(** The mutable state of a leaf's execution: [Stack::items] (bottom first, as
    the [Vec]) and the queue of deferred checks. *)
Record interp_state := mkState { items : list bytes; deferred : list DeferredCheck }.

(** ** The interpreter's monad: [Result] over the mutable state *)

Definition interp (A : Type) : Type := interp_state → outcome InterpError (A * interp_state).

#[export] Instance interp_ret : MRet interp := λ A a s, Ok (a, s).
#[export] Instance interp_bind : MBind interp := λ A B k m s, '(a, s') ← m s; k a s'.

(** A pure fallible computation, run inside the interpreter. *)
Definition lift {A} (m : outcome InterpError A) : interp A := λ s, a ← m; Ok (a, s).
Definition fail {A} (e : InterpError) : interp A := λ _, Err e.
Definition get_items : interp (list bytes) := λ s, Ok (items s, s).
(** [if b { return Err(e) }] *)
Definition bail_if (b : bool) (e : InterpError) : interp unit := lift (reject_if b e).

(** ** Stack *)

(** [Stack::new] *)
Definition stack_new (initial : list bytes) : outcome InterpError (list bytes) :=
  _ ← for_each (λ item _, reject_if (MAX_SCRIPT_ELEMENT_SIZE <? len item)
                            (ElementTooLarge (len item))) initial tt;
  _ ← reject_if (MAX_STACK_SIZE <? len initial) StackOverflow;
  Ok initial.

(** [Stack::push] *)
Definition push (item : bytes) : interp unit := λ s,
  _ ← reject_if (MAX_SCRIPT_ELEMENT_SIZE <? len item) (ElementTooLarge (len item));
  let items' := items s ++ [item] in
  _ ← reject_if (MAX_STACK_SIZE <? len items') StackOverflow;
  Ok (tt, mkState items' (deferred s)).

(** [Stack::pop] *)
Definition pop (opcode : string) : interp bytes := λ s,
  '(items', x) ← ok_or (vec_pop (items s)) (StackUnderflow opcode);
  Ok (x, mkState items' (deferred s)).

(** [Stack::top] *)
Definition top (opcode : string) : interp bytes := λ s,
  '(_, x) ← ok_or (vec_pop (items s)) (StackUnderflow opcode);
  Ok (x, s).

(** [deferred.push(check)] *)
Definition defer (check : DeferredCheck) : interp unit := λ s,
  Ok (tt, mkState (items s) (deferred s ++ [check])).

(** [is_truthy]: the loop returns at the first non-zero byte. *)
Fixpoint is_truthy (v : bytes) : bool :=
  match v with
  | [] => false
  | b :: rest =>
      if bool_decide (b ≠ x00) then negb (bool_decide (rest = []) && bool_decide (b = x80))
      else is_truthy rest
  end.

(** * Hoare triples over the interpreter

    [hoare P m Q]: from a state satisfying [P], [m] does not panic, and if it
    returns [a] in state [s'], then [Q a s'] holds. *)
Definition hoare {A} (P : interp_state → Prop) (m : interp A)
    (Q : A → interp_state → Prop) : Prop :=
  ∀ s, P s → match m s with Ok (a, s') => Q a s' | Err _ => True | Panic => False end.

Lemma hoare_ret {A} (P : interp_state → Prop) (a : A) (Q : A → interp_state → Prop) :
  (∀ s, P s → Q a s) → hoare P (mret a) Q.
Proof. intros H s Hs. by apply H. Qed.

Lemma hoare_bind {A B} P (m : interp A) R (k : A → interp B) Q :
  hoare P m R → (∀ a, hoare (R a) (k a) Q) → hoare P (m ≫= k) Q.
Proof.
  intros Hm Hk s Hs. specialize (Hm s Hs). unfold mbind, interp_bind.
  destruct (m s) as [[a s']|e|]; cbn; [by apply Hk|done|done].
Qed.

Lemma hoare_fail {A} P e (Q : A → interp_state → Prop) : hoare P (fail e) Q.
Proof. done. Qed.

Lemma hoare_lift {A} P (m : outcome InterpError A) Q :
  m ≠ Panic → (∀ a s, m = Ok a → P s → Q a s) → hoare P (lift m) Q.
Proof. intros Hp Hq s Hs. unfold lift. destruct m; cbn; auto. Qed.

Lemma hoare_weaken {A} (P P' : interp_state → Prop) (m : interp A) Q :
  hoare P' m Q → (∀ s, P s → P' s) → hoare P m Q.
Proof. intros H HP s Hs. by apply H, HP. Qed.

Lemma hoare_post {A} (P : interp_state → Prop) (m : interp A)
    (Q Q' : A → interp_state → Prop) :
  hoare P m Q' → (∀ a s, Q' a s → Q a s) → hoare P m Q.
Proof.
  intros H HQ s Hs. specialize (H s Hs).
  destruct (m s) as [[a s']|e|]; [by apply HQ|done|done].
Qed.

Lemma hoare_bail_if P b e Q :
  (∀ s, b = false → P s → Q tt s) → hoare P (bail_if b e) Q.
Proof. intros H s Hs. destruct b; cbn; [done|]. by apply H. Qed.

(** ** Inversion of successful runs *)

Lemma interp_bind_Ok {A B} (m : interp A) (k : A → interp B) s r :
  (m ≫= k) s = Ok r ↔ ∃ a s', m s = Ok (a, s') ∧ k a s' = Ok r.
Proof.
  unfold mbind, interp_bind. destruct (m s) as [[a s']|e|]; cbn; naive_solver.
Qed.

Lemma lift_Ok {A} (m : outcome InterpError A) s a s' :
  lift m s = Ok (a, s') ↔ m = Ok a ∧ s' = s.
Proof. unfold lift. destruct m; cbn; naive_solver. Qed.

Lemma ret_Ok {A} (a b : A) s s' : (mret a : interp A) s = Ok (b, s') ↔ b = a ∧ s' = s.
Proof. unfold mret, interp_ret. naive_solver. Qed.

Lemma fail_Ok {A} e s r : (fail e : interp A) s = Ok r ↔ False.
Proof. done. Qed.

Lemma get_items_Ok s l s' : get_items s = Ok (l, s') ↔ l = items s ∧ s' = s.
Proof. unfold get_items. naive_solver. Qed.

Lemma bail_if_Ok b e s u s' : bail_if b e s = Ok (u, s') ↔ b = false ∧ s' = s.
Proof. unfold bail_if. rewrite lift_Ok, reject_if_Ok. done. Qed.

Lemma pop_Ok op s x s' :
  pop op s = Ok (x, s') ↔ s = mkState (items s' ++ [x]) (deferred s').
Proof.
  unfold pop. destruct s as [l d], s' as [l' d']; cbn.
  destruct (vec_pop l) as [[k y]|] eqn:Hv; cbn.
  - apply vec_pop_Some in Hv as ->. split; [naive_solver|].
    intros [= Hl ->]. by apply app_inj_tail in Hl as [-> ->].
  - apply vec_pop_None in Hv as ->. split; [done|]. intros [= Hl _]. by destruct l'.
Qed.

Lemma top_Ok op s x s' :
  top op s = Ok (x, s') ↔ s' = s ∧ ∃ l, items s = l ++ [x].
Proof.
  unfold top. destruct (vec_pop (items s)) as [[k y]|] eqn:Hv; cbn.
  - apply vec_pop_Some in Hv. rewrite Hv. split.
    + intros [= -> ->]. eauto.
    + intros [-> [l Hl]]. apply app_inj_tail in Hl as [-> ->]. done.
  - apply vec_pop_None in Hv. rewrite Hv. split; [done|]. intros [_ [l Hl]]. by destruct l.
Qed.

Lemma push_Ok x s u s' :
  push x s = Ok (u, s') ↔
    len x ≤ MAX_SCRIPT_ELEMENT_SIZE ∧ len (items s) + 1 ≤ MAX_STACK_SIZE
    ∧ s' = mkState (items s ++ [x]) (deferred s).
Proof.
  unfold push. rewrite len_snoc. destruct u.
  destruct (Z.ltb_spec MAX_SCRIPT_ELEMENT_SIZE (len x)); cbn; [split; [done|lia]|].
  destruct (Z.ltb_spec MAX_STACK_SIZE (len (items s) + 1)); cbn; [split; [done|lia]|].
  naive_solver.
Qed.

Lemma defer_Ok c s u s' :
  defer c s = Ok (u, s') ↔ s' = mkState (items s) (deferred s ++ [c]).
Proof. unfold defer. destruct u. naive_solver. Qed.

(** [iinv] takes apart every successful run among the hypotheses. *)
Ltac iinv_step :=
  match goal with
  | H : (_ ≫= _) _ = Ok _ |- _ => apply interp_bind_Ok in H as (? & ? & ? & ?)
  | H : lift _ _ = Ok _ |- _ => apply lift_Ok in H as [? ?]
  | H : mret _ _ = Ok _ |- _ => apply ret_Ok in H as [? ?]
  | H : fail _ _ = Ok _ |- _ => by apply fail_Ok in H
  | H : get_items _ = Ok _ |- _ => apply get_items_Ok in H as [? ?]
  | H : bail_if _ _ _ = Ok _ |- _ => apply bail_if_Ok in H as [? ?]
  | H : pop _ _ = Ok _ |- _ => apply pop_Ok in H
  | H : top _ _ = Ok _ |- _ => apply top_Ok in H as [? [? ?]]
  | H : push _ _ = Ok _ |- _ => apply push_Ok in H as (? & ? & ?)
  | H : defer _ _ = Ok _ |- _ => apply defer_Ok in H
  | H : ok_or _ _ = Ok _ |- _ => apply ok_or_Ok in H
  | H : index _ _ = Ok _ |- _ => apply expect_Ok in H
  | u : unit |- _ => destruct u
  end.
Ltac iinv := repeat (iinv_step; simplify_eq/=).

(** ** Truthiness *)

(** [is_truthy] is "not a zero": neither all zero bytes, nor zero bytes followed
    by a single 0x80 sign byte. *)
Lemma is_truthy_spec v :
  is_truthy v = false ↔
    ∃ n, v = replicate n x00 ∨ v = replicate n x00 ++ [x80].
Proof.
  induction v as [|b rest IH]; cbn.
  { split; [|done]. intros _. exists 0%nat. by left. }
  case_bool_decide as Hb.
  - rewrite negb_false_iff, andb_true_iff, !bool_decide_eq_true. split.
    + intros [-> ->]. exists 0%nat. by right.
    + intros [[|n] [H|H]]; simplify_eq/=; done.
  - subst b. rewrite IH. split.
    + intros [n [->| ->]]; exists (S n); cbn; auto.
    + intros [[|n] [H|H]]; simplify_eq/=; eauto.
Qed.
