(* ===== verification/ScriptNum.v ===== *)
(** [CScriptNum] decoding and encoding ([read_scriptnum] and
    [encode_scriptnum] of `tapscript/interp.rs`): minimally encoded
    little-endian sign-magnitude integers, with the i64 arithmetic written
    out. *)
From Stdlib Require Import ZArith Lia Strings.Byte.
From stdpp Require Import base list.
From S2P Require Import Prelude Bitcoin InterpBase.
#[local] Open Scope Z_scope.

(** [for (i, &b) in bytes.iter().enumerate() { result |= (b as i64) << (8 * i) }] *)
Fixpoint lor_bytes (i : Z) (bytes : bytes) (result : Z) : Z :=
  match bytes with
  | [] => result
  | b :: rest => lor_bytes (i + 1) rest (Z.lor result (wrap_i 64 (Z.shiftl (b2z b) (8 * i))))
  end.

Definition read_scriptnum (bytes : bytes) (max_len : Z) : outcome InterpError Z :=
  _ ← reject_if (max_len <? len bytes) BadScriptNum;
  match vec_pop bytes with
  | None => Ok 0
  | Some (init, last) =>
      let next_ok := match vec_pop init with
                     | None => false
                     | Some (_, prev) => negb (Z.land (b2z prev) 0x80 =? 0)
                     end in
      _ ← reject_if ((Z.land (b2z last) 0x7f =? 0) && negb next_ok) BadScriptNum;
      let result := lor_bytes 0 bytes 0 in
      if negb (Z.land (b2z last) 0x80 =? 0) then
        let sign_bit := wrap_i 64 (Z.shiftl 0x80 (8 * (len bytes - 1))) in
        Ok (- (Z.land result (Z.lnot sign_bit)))
      else Ok result
  end.

(** [while abs > 0 { out.push((abs & 0xff) as u8); abs >>= 8; }]: eight rounds
    empty a u64, see [abs_bytes_fuel]. *)
Fixpoint abs_bytes (fuel : nat) (abs : Z) : bytes :=
  match fuel with
  | O => []
  | S fuel => if 0 <? abs then z2b (Z.land abs 0xff) :: abs_bytes fuel (Z.shiftr abs 8) else []
  end.

Definition encode_scriptnum (n : Z) : bytes :=
  if n =? 0 then [] else
  let neg := n <? 0 in
  let abs := Z.abs n in
  let out := abs_bytes 8 abs in
  match vec_pop out with
  | None => [] (* [expect("non-zero")]: not reached, see [abs_bytes_nonempty] *)
  | Some (init, top) =>
      if negb (Z.land (b2z top) 0x80 =? 0) then out ++ [if neg then x80 else x00]
      else if neg then init ++ [z2b (Z.lor (b2z top) 0x80)]
      else out
  end.

(** * Lemmas *)

(** Byte-level bit facts, checked on all 256 bytes. *)
Lemma byte_lor_80 b : b2z b < 128 → b2z (z2b (Z.lor (b2z b) 0x80)) = b2z b + 128.
Proof. by destruct b. Qed.

Lemma wrap_i_small w z : 0 < w → - 2 ^ (w - 1) ≤ z < 2 ^ (w - 1) → wrap_i w z = z.
Proof.
  intros Hw Hz. unfold wrap_i.
  assert (2 ^ w = 2 * 2 ^ (w - 1)).
  { replace w with (Z.succ (w - 1)) at 1 by lia. rewrite Z.pow_succ_r; lia. }
  rewrite Z.mod_small; lia.
Qed.

Lemma shiftl_byte_small b i : 0 ≤ i < 7 → wrap_i 64 (Z.shiftl (b2z b) (8 * i)) = 2 ^ (8 * i) * b2z b.
Proof.
  intros Hi. pose proof (b2z_range b). rewrite Z.shiftl_mul_pow2, Z.mul_comm by lia.
  apply wrap_i_small; [lia|].
  assert (2 ^ (8 * i) ≤ 2 ^ 48) by (apply Z.pow_le_mono_r; lia).
  assert (0 < 2 ^ (8 * i)) by lia.
  change (2 ^ 48) with 281474976710656 in *.
  change (2 ^ (64 - 1)) with 9223372036854775808. nia.
Qed.

Lemma pow256 n : 0 ≤ n → 256 ^ n = 2 ^ (8 * n).
Proof. intros Hn. rewrite Z.pow_mul_r by lia. done. Qed.

(** For at most seven bytes (every call of the interpreter) the decoding loop is
    little-endian decoding. *)
Lemma lor_bytes_spec l i acc :
  0 ≤ i → i + len l ≤ 7 → 0 ≤ acc < 2 ^ (8 * i) →
  lor_bytes i l acc = acc + 2 ^ (8 * i) * le_decode l.
Proof.
  revert i acc. induction l as [|b l IH]; intros i acc Hi Hl Hacc; cbn [lor_bytes le_decode].
  { lia. }
  rewrite len_cons in Hl. pose proof (len_nonneg l). pose proof (b2z_range b).
  rewrite shiftl_byte_small, lor_disjoint by lia.
  assert (2 ^ (8 * (i + 1)) = 256 * 2 ^ (8 * i)) as Hpow.
  { replace (8 * (i + 1)) with (8 + 8 * i) by lia. rewrite Z.pow_add_r by lia. done. }
  rewrite IH by nia. rewrite Hpow. ring.
Qed.

Lemma le_decode_snoc l b : le_decode (l ++ [b]) = le_decode l + 256 ^ len l * b2z b.
Proof.
  induction l as [|c l IH].
  - cbn -[b2z Z.mul Z.add]. change (256 ^ len []) with 1. lia.
  - cbn [app le_decode]. rewrite IH, len_cons, Z.pow_add_r by (pose proof (len_nonneg l); lia).
    ring.
Qed.

(** Clearing a set bit subtracts it. *)
Lemma clear_top_bit lo b k :
  0 ≤ k → 0 ≤ lo < 2 ^ k → 128 ≤ b < 256 →
  Z.land (lo + 2 ^ k * b) (Z.lnot (2 ^ k * 128)) = lo + 2 ^ k * (b - 128).
Proof.
  intros Hk Hlo Hb. rewrite <- Z.ldiff_land.
  replace (2 ^ k * 128) with (2 ^ (k + 7)) by (rewrite Z.pow_add_r by lia; ring).
  rewrite <- Z.sub_nocarry_ldiff.
  { rewrite Z.pow_add_r by lia. ring. }
  apply Z.bits_inj'. intros i Hi. rewrite Z.ldiff_spec, Z.bits_0, Z.pow2_bits_eqb by lia.
  destruct (Z.eqb_spec (k + 7) i) as [<-|]; [|done]. cbn.
  rewrite negb_false_iff, Z.testbit_true by lia.
  rewrite Z.pow_add_r, <- Z.div_div by lia.
  rewrite (Z.mul_comm (2 ^ k)), Z.div_add by lia. rewrite (Z.div_small lo) by done.
  assert ((0 + b) / 2 ^ 7 = 1) as ->; [|done].
  symmetry. apply Z.div_unique with (b - 128); change (2 ^ 7) with 128; lia.
Qed.

(** A byte string whose most significant byte, if any, is non-zero. *)
Definition nonzero_last (l : bytes) : Prop := ∀ x, last l = Some x → b2z x ≠ 0.

Lemma nonzero_last_snoc l x : nonzero_last (l ++ [x]) ↔ b2z x ≠ 0.
Proof. unfold nonzero_last. rewrite last_snoc. naive_solver. Qed.

Lemma nonzero_last_cons b l : nonzero_last (b :: l) → nonzero_last l.
Proof. unfold nonzero_last. rewrite last_cons. destruct (last l); naive_solver. Qed.

Lemma le_decode_pos l : l ≠ [] → nonzero_last l → 0 < le_decode l.
Proof.
  induction l as [|b l IH]; [done|]. intros _ Hnz. cbn [le_decode].
  pose proof (b2z_range b). destruct l as [|c l].
  - specialize (Hnz b eq_refl). cbn. lia.
  - specialize (IH ltac:(done) (nonzero_last_cons _ _ Hnz)). lia.
Qed.

Lemma land_ff a : 0 ≤ a → Z.land a 0xff = a mod 256.
Proof. intros. change 0xff with (Z.ones 8). by rewrite Z.land_ones by lia. Qed.

(** The encoding loop inverts little-endian decoding on minimal strings, and
    eight rounds are enough for any u64. *)
Lemma abs_bytes_le_decode fuel l :
  (length l ≤ fuel)%nat → nonzero_last l → abs_bytes fuel (le_decode l) = l.
Proof.
  revert fuel. induction l as [|b l IH]; intros fuel Hf Hnz.
  { destruct fuel; done. }
  destruct fuel as [|fuel]; [cbn in Hf; lia|].
  pose proof (le_decode_pos (b :: l) ltac:(done) Hnz).
  pose proof (b2z_range b). pose proof (le_decode_range l).
  cbn [abs_bytes]. rewrite (proj2 (Z.ltb_lt 0 _)) by done.
  cbn [le_decode] in *. rewrite land_ff, Z.shiftr_div_pow2 by lia. change (2 ^ 8) with 256.
  rewrite (Z.mul_comm 256), Z.mod_add, Z.div_add by lia.
  rewrite Z.mod_small, Z.div_small, z2b_b2z by lia. f_equal. apply IH.
  - cbn in Hf. lia.
  - by eapply nonzero_last_cons.
Qed.

Lemma abs_bytes_spec fuel a :
  0 ≤ a < 256 ^ Z.of_nat fuel →
  le_decode (abs_bytes fuel a) = a ∧ nonzero_last (abs_bytes fuel a).
Proof.
  revert a. induction fuel as [|fuel IH]; intros a Ha.
  { change (256 ^ Z.of_nat 0) with 1 in Ha. cbn. split; [lia|done]. }
  rewrite Nat2Z.inj_succ, Z.pow_succ_r in Ha by lia. cbn [abs_bytes].
  case_match eqn:Hpos; [|cbn; split; [lia|done]].
  rewrite Z.shiftr_div_pow2 by lia. change (2 ^ 8) with 256.
  destruct (IH (a / 256)) as [Hd Hnz].
  { split; [apply Z.div_pos; lia|apply Z.div_lt_upper_bound; lia]. }
  cbn [le_decode]. rewrite land_ff, b2z_z2b, Hd, Zmod_mod by lia. split.
  - pose proof (Z.div_mod a 256). lia.
  - intros x. rewrite last_cons. destruct (last (abs_bytes fuel (a / 256))) eqn:Hl.
    + intros [= <-]. by apply Hnz.
    + intros [= <-]. apply last_None in Hl. rewrite Hl in Hd. cbn in Hd.
      rewrite b2z_z2b, Zmod_mod. pose proof (Z.div_mod a 256). lia.
Qed.

Lemma length_abs_bytes fuel a : (length (abs_bytes fuel a) ≤ fuel)%nat.
Proof.
  revert a. induction fuel as [|fuel IH]; intros a; cbn; [lia|].
  case_match; cbn; [|lia]. specialize (IH (Z.shiftr a 8)). lia.
Qed.

Lemma abs_bytes_fuel a :
  0 ≤ a < 2 ^ 64 → le_decode (abs_bytes 8 a) = a.
Proof. intros Ha. apply abs_bytes_spec. done. Qed.

(** [read_scriptnum] in closed form: sign and magnitude of the last byte. *)
Definition top_bit_set (l : bytes) : bool :=
  match vec_pop l with None => false | Some (_, p) => 128 <=? b2z p end.

Lemma read_scriptnum_snoc lo top max_len :
  len lo + 1 ≤ max_len ≤ 7 →
  read_scriptnum (lo ++ [top]) max_len =
    if (b2z top mod 128 =? 0) && negb (top_bit_set lo) then Err BadScriptNum
    else
      let m := le_decode lo + 256 ^ len lo * (b2z top mod 128) in
      Ok (if 128 <=? b2z top then - m else m).
Proof.
  intros Hl. unfold read_scriptnum, top_bit_set.
  rewrite len_snoc, (proj2 (Z.ltb_ge max_len _)) by lia. cbn [reject_if mbind outcome_bind].
  rewrite vec_pop_snoc, byte_land_7f.
  assert (match vec_pop lo with
          | Some (_, prev) => negb (Z.land (b2z prev) 128 =? 0) | None => false end
          = match vec_pop lo with Some (_, p) => 128 <=? b2z p | None => false end) as ->.
  { destruct (vec_pop lo) as [[? p]|]; [|done]. rewrite byte_land_80. lia. }
  destruct (_ && _); [done|]. cbn [reject_if mbind outcome_bind].
  pose proof (len_nonneg lo). pose proof (b2z_range top).
  pose proof (le_decode_range lo) as Hlo. rewrite pow256 in Hlo |- * by lia.
  rewrite lor_bytes_spec by (try rewrite len_snoc; cbn; lia).
  rewrite le_decode_snoc, pow256, byte_land_80 by lia. f_equal.
  change (2 ^ (8 * 0)) with 1. rewrite !Z.mul_1_l, Z.add_0_l.
  destruct (Z.ltb_spec (b2z top) 128) as [Htop|Htop]; cbn [negb].
  - rewrite (Z.mod_small (b2z top)), (proj2 (Z.leb_gt 128 _)) by lia. done.
  - rewrite (proj2 (Z.leb_le 128 _)) by lia. f_equal. f_equal.
    assert (b2z top mod 128 = b2z top - 128) as ->.
    { symmetry. apply Z.mod_unique with 1; lia. }
    replace (len lo + 1 - 1) with (len lo) by lia.
    change 0x80 with (b2z x80). rewrite shiftl_byte_small by lia.
    apply clear_top_bit; lia.
Qed.

Lemma read_scriptnum_nil max_len : 0 ≤ max_len → read_scriptnum [] max_len = Ok 0.
Proof.
  intros. unfold read_scriptnum.
  assert ((max_len <? len (@nil byte)) = false) as -> by (apply Z.ltb_ge; by rewrite len_nil). done.
Qed.

(** [encode_scriptnum] in closed form, on the minimal magnitude bytes. *)
Lemma encode_scriptnum_snoc n init top :
  len (init ++ [top]) ≤ 8 → b2z top ≠ 0 → Z.abs n = le_decode (init ++ [top]) →
  encode_scriptnum n =
    if 128 <=? b2z top then (init ++ [top]) ++ [if n <? 0 then x80 else x00]
    else if n <? 0 then init ++ [z2b (Z.lor (b2z top) 0x80)] else init ++ [top].
Proof.
  intros Hl Htop Hn. unfold encode_scriptnum.
  assert (nonzero_last (init ++ [top])) as Hnz by by rewrite nonzero_last_snoc.
  assert (init ++ [top] ≠ []) as Hne by (by destruct init).
  pose proof (le_decode_pos _ Hne Hnz).
  rewrite (proj2 (Z.eqb_neq n 0)) by lia.
  assert (length (init ++ [top]) ≤ 8)%nat by (unfold len in Hl; lia).
  rewrite Hn, abs_bytes_le_decode by done. rewrite vec_pop_snoc, byte_land_80.
  rewrite Z.leb_antisym. by destruct (b2z top <? 128).
Qed.

(** Splitting off the top byte of the magnitude of a non-zero i64. *)
Lemma magnitude_split n :
  in_i 64 n → n ≠ 0 → ∃ init top,
    Z.abs n = le_decode (init ++ [top]) ∧ b2z top ≠ 0 ∧ len (init ++ [top]) ≤ 8.
Proof.
  unfold in_i. change (2 ^ (64 - 1)) with 9223372036854775808. intros Hn Hn0.
  assert (0 ≤ Z.abs n < 256 ^ Z.of_nat 8) as Ha.
  { change (256 ^ Z.of_nat 8) with 18446744073709551616. lia. }
  destruct (abs_bytes_spec 8 _ Ha) as [Hd Hnz].
  destruct (vec_pop (abs_bytes 8 (Z.abs n))) as [[init top]|] eqn:Hv.
  - apply vec_pop_Some in Hv. exists init, top. rewrite Hv in Hd, Hnz.
    rewrite nonzero_last_snoc in Hnz. split; [done|]. split; [done|].
    rewrite <- Hv. unfold len. pose proof (length_abs_bytes 8 (Z.abs n)). lia.
  - apply vec_pop_None in Hv. rewrite Hv in Hd. cbn in Hd. lia.
Qed.

(** Both branches of the encoder are read back. *)
Lemma read_encoded n init top max_len :
  b2z top ≠ 0 → Z.abs n = le_decode (init ++ [top]) → len (init ++ [top]) ≤ 8 →
  len (encode_scriptnum n) ≤ max_len ≤ 7 →
  read_scriptnum (encode_scriptnum n) max_len = Ok n.
Proof.
  intros Htop Hn Hl. rewrite (encode_scriptnum_snoc n init top) by done.
  pose proof (b2z_range top). rewrite le_decode_snoc in Hn.
  assert (n = if n <? 0 then - Z.abs n else Z.abs n) as Hsign by (case_match; lia).
  destruct (128 <=? b2z top) eqn:Hhi.
  - rewrite !len_snoc. intros Hmax. rewrite read_scriptnum_snoc by (rewrite len_snoc; lia).
    unfold top_bit_set. rewrite vec_pop_snoc, Hhi, andb_false_r.
    rewrite le_decode_snoc. cbn zeta. f_equal.
    destruct (Z.ltb_spec n 0); cbn -[le_decode Z.mul Z.add Z.pow].
    + change (128 mod 128) with 0. lia.
    + change (0 mod 128) with 0. lia.
  - destruct (n <? 0).
    + rewrite len_snoc. intros Hmax. rewrite read_scriptnum_snoc by lia.
      rewrite byte_lor_80 by lia.
      assert ((b2z top + 128) mod 128 = b2z top) as ->.
      { symmetry. apply Z.mod_unique with 1; lia. }
      rewrite (proj2 (Z.eqb_neq _ 0)), (proj2 (Z.leb_le 128 _)) by lia. cbn. f_equal. lia.
    + rewrite len_snoc. intros Hmax. rewrite read_scriptnum_snoc by lia.
      rewrite Z.mod_small, (proj2 (Z.eqb_neq _ 0)), Hhi by lia. cbn. f_equal. lia.
Qed.

Lemma encode_scriptnum_0 : encode_scriptnum 0 = [].
Proof. done. Qed.

(** What [read_scriptnum] accepts, by the shape of the input. *)
Lemma read_scriptnum_Ok_inv bs max_len n :
  read_scriptnum bs max_len = Ok n → max_len ≤ 7 →
  (bs = [] ∧ n = 0) ∨
  ∃ lo top, bs = lo ++ [top] ∧ len lo + 1 ≤ max_len ∧
    (b2z top mod 128 ≠ 0 ∨ top_bit_set lo = true) ∧
    n = (if 128 <=? b2z top then -1 else 1) * (le_decode lo + 256 ^ len lo * (b2z top mod 128)).
Proof.
  intros H Hmax. destruct (vec_pop bs) as [[lo top]|] eqn:Hv.
  - apply vec_pop_Some in Hv as ->. right. exists lo, top.
    assert (len lo + 1 ≤ max_len) as Hl.
    { destruct (Z.leb_spec (len (lo ++ [top])) max_len) as [Hle|Hgt].
      - by rewrite len_snoc in Hle.
      - unfold read_scriptnum in H. by rewrite (proj2 (Z.ltb_lt _ _) Hgt) in H. }
    rewrite read_scriptnum_snoc in H by lia. split_and!; [done|done| |].
    + destruct (Z.eqb_spec (b2z top mod 128) 0); [right|by left].
      by destruct (top_bit_set lo).
    + destruct ((b2z top mod 128 =? 0) && _); [done|]. injection H as <-. case_match; lia.
  - apply vec_pop_None in Hv as ->. left. split; [done|].
    unfold read_scriptnum in H. destruct (max_len <? len (@nil byte)); [done|]. by injection H.
Qed.

Lemma top_bit_set_inv lo :
  top_bit_set lo = true → ∃ lo' p, lo = lo' ++ [p] ∧ 128 ≤ b2z p.
Proof.
  unfold top_bit_set. destruct (vec_pop lo) as [[lo' p]|] eqn:Hv; [|done].
  apply vec_pop_Some in Hv as ->. intros Hp. exists lo', p. split; [done|lia].
Qed.

Lemma byte_mod_128_0 b : b2z b mod 128 = 0 → b = if 128 <=? b2z b then x80 else x00.
Proof. by destruct b. Qed.

Lemma byte_split_128 b :
  b2z b mod 128 ≠ 0 →
  let t := z2b (b2z b mod 128) in
  b2z t = b2z b mod 128 ∧ b = if 128 <=? b2z b then z2b (Z.lor (b2z t) 0x80) else t.
Proof. by destruct b. Qed.

Lemma byte_mod_range b : 0 ≤ b2z b mod 128 < 128.
Proof. apply Z.mod_pos_bound. lia. Qed.

Lemma encode_read bs max_len n :
  max_len ≤ 7 → read_scriptnum bs max_len = Ok n → encode_scriptnum n = bs.
Proof.
  intros Hmax H. apply read_scriptnum_Ok_inv in H as [[-> ->]|(lo & top & -> & Hl & Hmin & Hn)]; [done| |done].
  pose proof (le_decode_range lo). pose proof (byte_mod_range top). pose proof (len_nonneg lo).
  assert (0 < 256 ^ len lo) by (apply Z.pow_pos_nonneg; lia).
  destruct (decide (b2z top mod 128 = 0)) as [Hm0|Hm0].
  - destruct Hmin as [?|Hmin]; [done|].
    apply top_bit_set_inv in Hmin as (lo' & p & -> & Hp).
    assert (0 < le_decode (lo' ++ [p])).
    { apply le_decode_pos; [by destruct lo'|]. rewrite nonzero_last_snoc. lia. }
    rewrite Hm0, Z.mul_0_r, Z.add_0_r in Hn.
    rewrite (encode_scriptnum_snoc n lo' p) by (first [lia | case_match; lia]).
    rewrite (proj2 (Z.leb_le 128 _)) by done. f_equal. f_equal.
    pose proof (byte_mod_128_0 top Hm0) as Htop.
    destruct (128 <=? b2z top), (Z.ltb_spec n 0); rewrite Htop; done || lia.
  - destruct (byte_split_128 top Hm0) as [Ht Htop]. set (t := z2b _) in *.
    assert (Z.abs n = le_decode (lo ++ [t])) as Habs.
    { rewrite le_decode_snoc, Ht, Hn. case_match; nia. }
    rewrite (encode_scriptnum_snoc n lo t) by (rewrite ?len_snoc; lia || done).
    assert (0 ≤ 256 ^ len lo * (b2z top mod 128)) by nia.
    assert (0 < 256 ^ len lo * (b2z top mod 128)) by nia.
    rewrite Ht, (proj2 (Z.leb_gt 128 _)) by lia.
    destruct (128 <=? b2z top), (Z.ltb_spec n 0); rewrite ?Ht in Htop;
      try rewrite <- Htop; try done; try (exfalso; lia).
Qed.

Lemma read_scriptnum_zero_tail k b max_len :
  b2z b mod 128 = 0 → max_len ≤ 7 →
  read_scriptnum (replicate k x00 ++ [b]) max_len = Err BadScriptNum.
Proof.
  intros Hb Hmax. destruct (Z.ltb_spec max_len (len (replicate k x00 ++ [b]))) as [Hl|Hl].
  { unfold read_scriptnum. by rewrite (proj2 (Z.ltb_lt _ _) Hl). }
  rewrite len_snoc in Hl. rewrite read_scriptnum_snoc by lia. rewrite Hb. cbn [Z.eqb andb].
  assert (top_bit_set (replicate k x00) = false) as ->; [|done].
  destruct k as [|k]; [done|]. rewrite replicate_S_end.
  unfold top_bit_set. by rewrite vec_pop_snoc.
Qed.

(** An integer below [2^(8m-1)] in magnitude takes at most [m] bytes. *)
Lemma encode_scriptnum_len n m :
  1 ≤ m ≤ 7 → Z.abs n < 2 ^ (8 * m - 1) → len (encode_scriptnum n) ≤ m.
Proof.
  intros Hm Hn. destruct (decide (n = 0)) as [->|Hn0].
  { rewrite encode_scriptnum_0, len_nil. lia. }
  assert (2 ^ (8 * m - 1) ≤ 2 ^ 55) by (apply Z.pow_le_mono_r; lia).
  destruct (magnitude_split n) as (init & top & Habs & Htop & Hl); [|done|].
  { unfold in_i. change (2 ^ (64 - 1)) with (256 * 2 ^ 55). lia. }
  rewrite (encode_scriptnum_snoc n init top) by done.
  rewrite le_decode_snoc in Habs. pose proof (b2z_range top). pose proof (le_decode_range init).
  pose proof (len_nonneg init).
  assert (128 * 256 ^ (m - 1) = 2 ^ (8 * m - 1)) as Hp.
  { rewrite pow256 by lia. change 128 with (2 ^ 7). rewrite <- Z.pow_add_r by lia. f_equal. lia. }
  assert (len init ≤ m - 1).
  { destruct (Z.le_gt_cases (len init) (m - 1)); [done|exfalso].
    assert (256 ^ m ≤ 256 ^ len init) by (apply Z.pow_le_mono_r; lia).
    assert (256 ^ m = 256 * 256 ^ (m - 1)).
    { replace m with (Z.succ (m - 1)) at 1 by lia. rewrite Z.pow_succ_r; lia. }
    nia. }
  destruct (Z.leb_spec 128 (b2z top)).
  - assert (len init ≠ m - 1) by (intros Heq; rewrite Heq in *; nia).
    rewrite !len_snoc. lia.
  - destruct (n <? 0); rewrite !len_snoc; lia.
Qed.

Lemma read_scriptnum_abs bs m n :
  1 ≤ m ≤ 7 → read_scriptnum bs m = Ok n → Z.abs n < 2 ^ (8 * m - 1).
Proof.
  intros Hm H. apply read_scriptnum_Ok_inv in H as [[-> ->]|(lo & top & -> & Hl & _ & ->)]; [| |lia].
  { change (Z.abs 0) with 0. apply Z.pow_pos_nonneg; lia. }
  pose proof (le_decode_range lo). pose proof (byte_mod_range top). pose proof (len_nonneg lo).
  assert (128 * 256 ^ (m - 1) = 2 ^ (8 * m - 1)) as <-.
  { rewrite pow256 by lia. change 128 with (2 ^ 7). rewrite <- Z.pow_add_r by lia. f_equal. lia. }
  assert (256 ^ len lo ≤ 256 ^ (m - 1)) by (apply Z.pow_le_mono_r; lia).
  destruct (128 <=? b2z top); nia.
Qed.

(** * Properties *)

Lemma read_scriptnum_spec bs max_len n :
  1 ≤ max_len ≤ 7 →
  read_scriptnum bs max_len = Ok n ↔
    Z.abs n < 2 ^ (8 * max_len - 1) ∧ bs = encode_scriptnum n.
Proof.
  intros Hm. split.
  - intros H. split; [by apply (read_scriptnum_abs bs)|].
    symmetry. apply (encode_read bs max_len); [lia|done].
  - intros [Hn ->]. pose proof (encode_scriptnum_len _ _ Hm Hn).
    destruct (decide (n = 0)) as [->|Hn0].
    { rewrite encode_scriptnum_0. apply read_scriptnum_nil. lia. }
    assert (2 ^ (8 * max_len - 1) ≤ 2 ^ 55) by (apply Z.pow_le_mono_r; lia).
    destruct (magnitude_split n) as (init & top & Habs & Htop & Hl); [|done|].
    { unfold in_i. change (2 ^ (64 - 1)) with (256 * 2 ^ 55). lia. }
    apply (read_encoded n init top); done || lia.
Qed.

(** [read_scriptnum] and [encode_scriptnum] are inverse on the numbers a
    [max_len]-byte operand can hold: an operand decodes to [n] exactly when it is
    the encoding of [n] and [n] has at most [8 * max_len - 1] magnitude bits.
    In particular every number has one accepted encoding, and non-minimal or
    over-long operands are errors. *)
Lemma read_scriptnum_iff bs max_len n :
  1 ≤ max_len ≤ 7 →
  read_scriptnum bs max_len = Ok n ↔
    Z.abs n < 2 ^ (8 * max_len - 1) ∧ bs = encode_scriptnum n.
Proof. apply read_scriptnum_spec. Qed.

Lemma read_scriptnum_iff_witness :
  read_scriptnum [x00; x81] 4 = Ok (-256) ∧ [x00; x81] = encode_scriptnum (-256).
Proof.
  split; [|reflexivity].
  apply (read_scriptnum_iff [x00; x81] 4 (-256)); [lia|].
  split; [reflexivity|reflexivity].
Defined.

(** A script number is truthy exactly when it is not zero: on the operands
    [read_scriptnum] accepts, [is_truthy] agrees with the decoded value. *)
Lemma read_scriptnum_truthy bs max_len n :
  max_len ≤ 7 → read_scriptnum bs max_len = Ok n → is_truthy bs = negb (n =? 0).
Proof.
  intros Hm H. destruct (Z.eqb_spec n 0) as [->|Hn].
  - apply encode_read in H; [|done]. by rewrite <- H, encode_scriptnum_0.
  - destruct (is_truthy bs) eqn:Ht; [done|exfalso].
    apply is_truthy_spec in Ht as [k [->| ->]].
    + destruct k as [|k].
      { apply read_scriptnum_Ok_inv in H as [[_ ?]|(lo & top & Hnil & _)]; [done|by destruct lo|done]. }
      rewrite replicate_S_end in H. by rewrite read_scriptnum_zero_tail in H.
    + by rewrite read_scriptnum_zero_tail in H.
Qed.

Lemma read_scriptnum_truthy_witness : is_truthy [x00; x81] = negb (-256 =? 0).
Proof. apply (read_scriptnum_truthy [x00; x81] 4); [lia|reflexivity]. Defined.
