(* ===== verification/Encoding.v ===== *)
(** The byte encodings the interpreter commits to (`tapscript/interp.rs`):
    minimal pushes, [CompactSize], BIP340 tagged hashes, the BIP345 recovery
    hash and the BIP119 template hash. *)
From Stdlib Require Import ZArith Lia Strings.Byte Strings.String.
From stdpp Require Import base list gmap.
From S2P Require Import Prelude Bitcoin Concrete InterpBase.
#[local] Open Scope Z_scope.

(** ** Minimal pushes *)

(** The last arm of [push_minimal]: a length-prefixed data push. *)
Definition push_data (out data : bytes) : bytes :=
  let n := len data in
  let out :=
    if n <? 0x4c then out ++ [z2b n]
    else if n <=? 0xff then out ++ [OP_PUSHDATA1] ++ [z2b n]
    else out ++ [OP_PUSHDATA2] ++ le_bytes 2 (wrap_u 16 n) in
  out ++ data.

Definition push_minimal (out data : bytes) : bytes :=
  match data with
  | [] => out ++ [x00]
  | [b] =>
      if (1 <=? b2z b) && (b2z b <=? 16) then out ++ [z2b (0x50 + b2z b)]
      else if bool_decide (b = x81) then out ++ [x4f]
      else push_data out data
  | _ => push_data out data
  end.

(** ** CompactSize *)
Definition compact_size (n : Z) (out : bytes) : bytes :=
  if n <? 0xfd then out ++ [z2b n]
  else if n <=? 0xffff then out ++ [xfd] ++ le_bytes 2 (wrap_u 16 n)
  else if n <=? 0xffffffff then out ++ [xfe] ++ le_bytes 4 (wrap_u 32 n)
  else out ++ [xff] ++ le_bytes 8 n.

(** ** Hashes *)
Section hashes.
Context `{HashLib} `{TxLib}.

Definition tagged_hash (tag msg : bytes) : bytes :=
  let tag_hash := sha256 tag in
  sha256 (tag_hash ++ tag_hash ++ msg).

Definition vault_recovery_spk_hash (spk : Script) : bytes :=
  let msg := compact_size (len spk) [] ++ spk in
  tagged_hash (list_byte_of_string "VaultRecoverySPK") msg.

(** The parts of the BIP119 preimage, in the order the code builds them.  The
    i32 version and the [as u32] casts are truncated by [le_bytes 4]. *)
Definition ctv_sequences (tx : Transaction) : bytes :=
  flat_map (λ i, le_bytes 4 (sequence i)) (input tx).
Definition ctv_outputs (tx : Transaction) : bytes :=
  flat_map serialize_txout (output tx).
Definition ctv_script_sigs (tx : Transaction) : option bytes :=
  if existsb (λ i, negb (bool_decide (script_sig i = []))) (input tx)
  then Some (flat_map (λ i, serialize_script (script_sig i)) (input tx)) else None.

Definition ctv_preimage (tx : Transaction) (input_index : nat) : bytes :=
  le_bytes 4 (version tx) ++ le_bytes 4 (lock_time tx)
  ++ match ctv_script_sigs tx with Some ss => sha256 ss | None => [] end
  ++ le_bytes 4 (len (input tx)) ++ sha256 (ctv_sequences tx)
  ++ le_bytes 4 (len (output tx)) ++ sha256 (ctv_outputs tx)
  ++ le_bytes 4 (Z.of_nat input_index).

Definition default_check_template_verify_hash (tx : Transaction) (input_index : nat) : bytes :=
  sha256 (ctv_preimage tx input_index).

End hashes.

(** * Lemmas *)

Lemma push_data_out out d : push_data out d = out ++ push_data [] d.
Proof. unfold push_data. repeat case_match; by rewrite <- ?app_assoc. Qed.

Lemma push_minimal_out out d : push_minimal out d = out ++ push_minimal [] d.
Proof.
  unfold push_minimal. destruct d as [|b [|c d]]; [done| |apply push_data_out].
  repeat case_match; try done. apply push_data_out.
Qed.

Lemma foldl_push_minimal_out items out :
  foldl push_minimal out items = out ++ foldl push_minimal [] items.
Proof.
  revert out. induction items as [|d items IH]; intros out; cbn; [by rewrite app_nil_r|].
  rewrite IH, (IH (push_minimal [] d)), push_minimal_out. by rewrite <- app_assoc.
Qed.

Lemma compact_size_out n out : compact_size n out = out ++ compact_size n [].
Proof. unfold compact_size. by repeat case_match. Qed.

(** The instruction a minimal push parses to. *)
Definition minimal_instruction (d : bytes) : Instruction :=
  match d with
  | [b] => if (1 <=? b2z b) && (b2z b <=? 16) then Op (z2b (0x50 + b2z b))
           else if bool_decide (b = x81) then Op x4f else PushBytes d
  | _ => PushBytes d
  end.

Section push.
Context `{ScriptLib} `{!ScriptLaws}.

Lemma instructions_push_data d rest :
  len d < 0x10000 →
  instructions (push_data [] d ++ rest) = Some (PushBytes d) :: instructions rest.
Proof.
  intros Hd. pose proof (len_nonneg d). unfold push_data. cbn [app].
  destruct (Z.ltb_spec (len d) 0x4c) as [Hs|Hs]; [|destruct (Z.leb_spec (len d) 0xff) as [Hm|Hm]].
  - cbn. apply instructions_push; rewrite b2z_z2b, Z.mod_small; lia.
  - cbn. apply instructions_pushdata1; [rewrite b2z_z2b, Z.mod_small; lia|done].
  - unfold wrap_u. rewrite Z.mod_small by (change (2 ^ 16) with 0x10000; lia).
    rewrite <- (app_assoc _ d rest). 
    apply instructions_pushdata2. lia.
Qed.

Lemma instructions_push_minimal d rest :
  len d < 0x10000 →
  instructions (push_minimal [] d ++ rest) = Some (minimal_instruction d) :: instructions rest.
Proof.
  intros Hd. unfold push_minimal, minimal_instruction.
  destruct d as [|b [|c d]].
  - apply (instructions_push x00 []); [cbn; lia|done].
  - destruct ((1 <=? b2z b) && (b2z b <=? 16)) eqn:Hb.
    + cbn. apply instructions_op. rewrite b2z_z2b, Z.mod_small; lia.
    + case_bool_decide; [|by apply instructions_push_data].
      cbn. apply instructions_op. cbn. lia.
  - by apply instructions_push_data.
Qed.
Lemma instructions_push_all items body :
  Forall (λ d, len d ≤ MAX_SCRIPT_ELEMENT_SIZE) items →
  instructions (foldl push_minimal [] items ++ body) =
    map (λ d, Some (minimal_instruction d)) items ++ instructions body.
Proof.
  induction 1 as [|d items Hd Hitems IH]; [done|]. cbn.
  rewrite foldl_push_minimal_out, <- app_assoc, instructions_push_minimal
    by (unfold MAX_SCRIPT_ELEMENT_SIZE in Hd; lia).
  by rewrite IH.
Qed.
End push.

(** Parsing back a [CompactSize] prefix (the specification of the encoding). *)
Definition compact_size_decode (l : bytes) : option (Z * bytes) :=
  match l with
  | [] => None
  | b :: l =>
      let n := if b2z b <? 0xfd then 0%nat else if b2z b =? 0xfd then 2%nat
               else if b2z b =? 0xfe then 4%nat else 8%nat in
      match n with
      | O => Some (b2z b, l)
      | _ => if bool_decide (length l < n)%nat then None
             else Some (le_decode (take n l), drop n l)
      end
  end.

Lemma le_decode_exact n z : 0 ≤ z < 256 ^ Z.of_nat n → le_decode (le_bytes n z) = z.
Proof. intros. rewrite le_decode_le_bytes. by apply Z.mod_small. Qed.

Lemma le_bytes_inj n a b :
  0 ≤ a < 256 ^ Z.of_nat n → 0 ≤ b < 256 ^ Z.of_nat n → le_bytes n a = le_bytes n b → a = b.
Proof. intros Ha Hb H. rewrite <- (le_decode_exact n a), H by done. by apply le_decode_exact. Qed.

Lemma compact_size_decode_le b n z rest :
  (b2z b = 0xfd ∧ n = 2%nat ∨ b2z b = 0xfe ∧ n = 4%nat ∨ b2z b = 0xff ∧ n = 8%nat) →
  0 ≤ z < 256 ^ Z.of_nat n →
  compact_size_decode (b :: le_bytes n z ++ rest) = Some (z, rest).
Proof.
  intros Hb Hz. unfold compact_size_decode.
  destruct Hb as [[-> ->]|[[-> ->]|[-> ->]]]; cbn -[take drop le_bytes];
    rewrite bool_decide_false by (rewrite length_app, length_le_bytes; lia);
    rewrite take_app_length', drop_app_length' by (by rewrite length_le_bytes);
    by rewrite le_decode_exact.
Qed.

Lemma compact_size_decode_encode n rest :
  in_u 64 n → compact_size_decode (compact_size n [] ++ rest) = Some (n, rest).
Proof.
  unfold in_u. change (2 ^ 64) with 0x10000000000000000. intros Hn. unfold compact_size.
  destruct (Z.ltb_spec n 0xfd) as [H1|H1].
  { cbn. rewrite b2z_z2b, Z.mod_small by lia. by rewrite (proj2 (Z.ltb_lt _ _)) by lia. }
  unfold wrap_u. cbn [app].
  destruct (Z.leb_spec n 0xffff) as [H2|H2]; [|destruct (Z.leb_spec n 0xffffffff) as [H3|H3]].
  - change (2 ^ 16) with 0x10000. rewrite Z.mod_small by lia.
    apply compact_size_decode_le; [by left|]. change (256 ^ Z.of_nat 2) with 0x10000. lia.
  - change (2 ^ 32) with 0x100000000. rewrite Z.mod_small by lia.
    apply compact_size_decode_le; [by right; left|]. change (256 ^ Z.of_nat 4) with 0x100000000. lia.
  - apply compact_size_decode_le; [by right; right|].
    change (256 ^ Z.of_nat 8) with 0x10000000000000000. lia.
Qed.

(** ** Properties *)

Section binding.
Context `{HashLib} `{TxLib} `{!HashLaws}.

(** Two different messages with one digest. *)
Definition collision (a b : bytes) : Prop := a ≠ b ∧ sha256 a = sha256 b.

Lemma sha256_eq a b : sha256 a = sha256 b → collision a b ∨ a = b.
Proof. intros H'. destruct (decide (a = b)); [by right|left; done]. Qed.

Lemma app_inv_len {A} (a b c d : list A) :
  length a = length b → a ++ c = b ++ d → a = b ∧ c = d.
Proof. intros Hl He. by apply app_inj_1 in He. Qed.

Lemma length_sha256 m : length (sha256 m) = 32%nat.
Proof. pose proof (len_sha256 m) as Hl. unfold len in Hl. lia. Qed.

Lemma ctv_sequences_inj l l' :
  Forall (λ i, in_u 32 (sequence i)) l → Forall (λ i, in_u 32 (sequence i)) l' →
  flat_map (λ i, le_bytes 4 (sequence i)) l = flat_map (λ i, le_bytes 4 (sequence i)) l' →
  map sequence l = map sequence l'.
Proof.
  intros Hl. revert l'. induction Hl as [|x l Hx Hl IH]; intros [|y l'] Hl' He; try done.
  apply Forall_cons in Hl' as [Hy Hl']. cbn -[le_bytes] in He.
  apply app_inv_len in He as [He1 He2]; [|by rewrite !length_le_bytes].
  cbn. f_equal; [by apply (le_bytes_inj 4)|by apply IH].
Qed.

(** What the template hash of [tx] at [i] commits to. *)
Record ctv_template := mkTemplate {
  t_version : Z; t_lock_time : Z; t_script_sigs : option bytes;
  t_inputs : Z; t_sequences : list Z; t_outputs : Z; t_outs : bytes; t_index : Z
}.
Definition ctv_template_of (tx : Transaction) (i : nat) : ctv_template :=
  {| t_version := version tx; t_lock_time := lock_time tx;
     t_script_sigs := ctv_script_sigs tx; t_inputs := len (input tx);
     t_sequences := map sequence (input tx);
     t_outputs := len (output tx); t_outs := ctv_outputs tx; t_index := Z.of_nat i |}.

(** The machine-integer ranges of a transaction's committed fields. *)
Definition ctv_ranges (tx : Transaction) (i : nat) : Prop :=
  in_i 32 (version tx) ∧ in_u 32 (lock_time tx) ∧ in_u 32 (len (input tx))
  ∧ in_u 32 (len (output tx)) ∧ in_u 32 (Z.of_nat i)
  ∧ Forall (λ i, in_u 32 (sequence i)) (input tx).

Lemma le_bytes_i32_inj a b :
  in_i 32 a → in_i 32 b → le_bytes 4 a = le_bytes 4 b → a = b.
Proof.
  intros Ha Hb Hab. apply (f_equal le_decode) in Hab. rewrite !le_decode_le_bytes in Hab.
  unfold in_i in *. change (2 ^ (32 - 1)) with 0x80000000 in *.
  change (256 ^ Z.of_nat 4) with 0x100000000 in *.
  pose proof (Z.div_mod a 0x100000000). pose proof (Z.div_mod b 0x100000000). lia.
Qed.

Lemma ctv_preimage_inj tx i tx' i' :
  ctv_ranges tx i → ctv_ranges tx' i' → ctv_preimage tx i = ctv_preimage tx' i' →
  version tx = version tx' ∧ lock_time tx = lock_time tx'
  ∧ option_map sha256 (ctv_script_sigs tx) = option_map sha256 (ctv_script_sigs tx')
  ∧ len (input tx) = len (input tx')
  ∧ sha256 (ctv_sequences tx) = sha256 (ctv_sequences tx')
  ∧ len (output tx) = len (output tx')
  ∧ sha256 (ctv_outputs tx) = sha256 (ctv_outputs tx') ∧ Z.of_nat i = Z.of_nat i'.
Proof.
  intros (Hv & Hlt & Hi & Ho & Hx & _) (Hv' & Hlt' & Hi' & Ho' & Hx' & _) He.
  unfold ctv_preimage in He.
  assert (length match ctv_script_sigs tx with Some ss => sha256 ss | None => [] end
        = length match ctv_script_sigs tx' with Some ss => sha256 ss | None => [] end) as Hss.
  { apply (f_equal length) in He. rewrite !length_app, !length_le_bytes, !length_sha256 in He. lia. }
  apply app_inv_len in He as [E1 He]; [|by rewrite !length_le_bytes].
  apply app_inv_len in He as [E2 He]; [|by rewrite !length_le_bytes].
  apply app_inv_len in He as [E3 He]; [|done].
  apply app_inv_len in He as [E4 He]; [|by rewrite !length_le_bytes].
  apply app_inv_len in He as [E5 He]; [|by rewrite !length_sha256].
  apply app_inv_len in He as [E6 He]; [|by rewrite !length_le_bytes].
  apply app_inv_len in He as [E7 E8]; [|by rewrite !length_sha256].
  split_and!; try done; try (by apply (le_bytes_inj 4)).
  - by apply le_bytes_i32_inj.
  - destruct (ctv_script_sigs tx), (ctv_script_sigs tx'); cbn in *; try done; try congruence;
      by rewrite length_sha256 in Hss.
Qed.
End binding.

(** A [CompactSize] prefix is read back with the rest of the input
    untouched, for every u64. *)
Lemma compact_size_roundtrip n rest :
  in_u 64 n → compact_size_decode (compact_size n [] ++ rest) = Some (n, rest).
Proof. apply compact_size_decode_encode. Qed.

Lemma compact_size_roundtrip_witness :
  compact_size_decode (compact_size 70000 [] ++ [x07]) = Some (70000, [x07]).
Proof. apply (compact_size_roundtrip 70000 [x07]). split; reflexivity || discriminate. Defined.

(** The BIP345 recovery hash binds the recovery script: two scripts with
    one hash are equal, or their tagged preimages are a SHA256 collision. *)
Lemma vault_recovery_spk_hash_binding `{HashLib} spk spk' :
  in_u 64 (len spk) → in_u 64 (len spk') →
  vault_recovery_spk_hash spk = vault_recovery_spk_hash spk' →
  let pre s := let tag := sha256 (list_byte_of_string "VaultRecoverySPK") in
               tag ++ tag ++ compact_size (len s) [] ++ s in
  spk = spk' ∨ collision (pre spk) (pre spk').
Proof.
  intros Hl Hl' He pre. unfold vault_recovery_spk_hash, tagged_hash in He.
  apply sha256_eq in He as [Hc|He]; [by right|left].
  apply app_inv_head, app_inv_head in He.
  apply (f_equal compact_size_decode) in He.
  rewrite !compact_size_decode_encode in He by done. by injection He.
Qed.

Lemma vault_recovery_spk_hash_binding_witness :
  let pre s := let tag := toy_digest 32 (list_byte_of_string "VaultRecoverySPK") in
               tag ++ tag ++ compact_size (len s) [] ++ s in
  [x51] = [x52] ∨ @collision toy_hash (pre [x51]) (pre [x52]).
Proof.
  apply (@vault_recovery_spk_hash_binding toy_hash [x51] [x52]);
    [split; reflexivity || discriminate|split; reflexivity || discriminate|reflexivity].
Defined.

(** The BIP119 template hash binds the transaction: two transactions (at
    their input indices) with one hash agree on the version, lock time, script
    sigs, input count, sequences, output count, serialized outputs and index, or
    one of the four SHA256 preimages is a collision. *)
Lemma ctv_binding `{HashLib} `{TxLib} `{!HashLaws} tx i tx' i' :
  ctv_ranges tx i → ctv_ranges tx' i' →
  default_check_template_verify_hash tx i = default_check_template_verify_hash tx' i' →
  ctv_template_of tx i = ctv_template_of tx' i'
  ∨ collision (ctv_preimage tx i) (ctv_preimage tx' i')
  ∨ collision (ctv_sequences tx) (ctv_sequences tx')
  ∨ collision (ctv_outputs tx) (ctv_outputs tx')
  ∨ ∃ s s', ctv_script_sigs tx = Some s ∧ ctv_script_sigs tx' = Some s' ∧ collision s s'.
Proof.
  intros Hr Hr' He. apply sha256_eq in He as [?|He]; [by right; left|].
  apply ctv_preimage_inj in He as (Hv & Hlt & Hss & Hi & Hseq & Ho & Hout & Hx); [|done..].
  apply sha256_eq in Hseq as [?|Hseq]; [by right; right; left|].
  apply sha256_eq in Hout as [?|Hout]; [by do 3 right; left|].
  assert (ctv_script_sigs tx = ctv_script_sigs tx' ∨
    ∃ s s', ctv_script_sigs tx = Some s ∧ ctv_script_sigs tx' = Some s' ∧ collision s s')
    as [Hs|Hs]; [|left|by do 4 right].
  { destruct (ctv_script_sigs tx) as [s|], (ctv_script_sigs tx') as [s'|]; try done; [|by left].
    injection Hss as Hss. apply sha256_eq in Hss as [?| ->]; [right; eauto|by left]. }
  unfold ctv_template_of. f_equal; try done.
  apply ctv_sequences_inj; [apply Hr|apply Hr'|done].
Qed.

Definition ctv_example (w : Witness) : Transaction :=
  mkTransaction 2 0 [mkTxIn (mkOutPoint all_zeros 0) [] 0xffffffff w] [mkTxOut 5 [x51]].

Lemma ctv_example_ranges w : ctv_ranges (ctv_example w) 0.
Proof.
  unfold ctv_ranges, in_i, in_u, len. cbn [input output version lock_time ctv_example length].
  split_and!; try lia. constructor; [|constructor]. cbn. lia.
Qed.

(** The hash does not commit to the witness. *)
Lemma ctv_binding_witness :
  let tx := ctv_example [] in let tx' := ctv_example [[x01]] in
  @ctv_template_of toy_tx tx 0 = @ctv_template_of toy_tx tx' 0
  ∨ @collision toy_hash (@ctv_preimage toy_hash toy_tx tx 0) (@ctv_preimage toy_hash toy_tx tx' 0)
  ∨ @collision toy_hash (ctv_sequences tx) (ctv_sequences tx')
  ∨ @collision toy_hash (@ctv_outputs toy_tx tx) (@ctv_outputs toy_tx tx')
  ∨ ∃ s s', @ctv_script_sigs toy_tx tx = Some s ∧ @ctv_script_sigs toy_tx tx' = Some s'
            ∧ @collision toy_hash s s'.
Proof.
  apply (@ctv_binding toy_hash toy_tx toy_hash_laws);
    [apply ctv_example_ranges|apply ctv_example_ranges|reflexivity].
Defined.
