(* ===== verification/Deferred.v ===== *)
(** BIP345 deferred value checks ([evaluate_deferred_checks] of
    `tapscript/interp.rs`): what each queued check demands of the outputs, the
    u64 accumulation, and the specification of the verdict. *)
From Stdlib Require Import ZArith Lia Strings.Byte.
From stdpp Require Import base list gmap.
From S2P Require Import Prelude Bitcoin InterpBase.
#[local] Open Scope Z_scope.

(** The closure [add] over the accumulator [out_map]. *)
Definition add_expected (idx : nat) (amount : Z) (out_map : gmap nat Z) :
    outcome InterpError (gmap nat Z) :=
  let entry := default 0 (out_map !! idx) in
  entry ← ok_or (checked_add 64 entry amount) VaultValueNotPreserved;
  Ok (<[idx := entry]> out_map).

Definition accumulate (check : DeferredCheck) (out_map : gmap nat Z) :
    outcome InterpError (gmap nat Z) :=
  match check with
  | Trigger input_amount revault_amount trigger_idx revault_idx =>
      carry ← ok_or (checked_sub input_amount revault_amount) VaultValueNotPreserved;
      out_map ← add_expected trigger_idx carry out_map;
      if 0 <? revault_amount
      then add_expected (Z.to_nat (wrap_u 64 revault_idx)) revault_amount out_map
      else Ok out_map
  | Recovery input_amount vout_idx => add_expected vout_idx input_amount out_map
  end.

(** The final loop runs over a [HashMap] in an unspecified order; every failing
    entry gives the same error, so the order of [map_to_list] is as good. *)
Definition evaluate_deferred_checks (checks : list DeferredCheck) (tx : Transaction) :
    outcome InterpError unit :=
  if bool_decide (checks = []) then Ok tt else
  out_map ← for_each accumulate checks ∅;
  for_each (λ '(idx, amount) _,
    out ← index (output tx) idx;
    reject_if (value out <? amount) VaultValueNotPreserved) (map_to_list out_map) tt.

(** * Specification *)

(** What a check demands: amounts per output index. *)
Definition demands (c : DeferredCheck) : list (nat * Z) :=
  match c with
  | Trigger ia ra ti ri =>
      (ti, ia - ra) :: (if 0 <? ra then [(Z.to_nat ri, ra)] else [])
  | Recovery ia vi => [(vi, ia)]
  end.

(** The amount a list of demands asks of output [idx]. *)
Fixpoint total (idx : nat) (l : list (nat * Z)) : Z :=
  match l with
  | [] => 0
  | (i, a) :: l => if decide (i = idx) then a + total idx l else total idx l
  end.

(** The input amount a check protects, and whether it is split within bounds. *)
Definition check_amount (c : DeferredCheck) : Z :=
  match c with Trigger ia _ _ _ => ia | Recovery ia _ => ia end.
Definition carry_ok (c : DeferredCheck) : Prop :=
  match c with Trigger ia ra _ _ => ra ≤ ia | Recovery _ _ => True end.

(** The checks the interpreter queues for [tx]: amounts are u64 and every index
    names an output. *)
Definition check_wf (tx : Transaction) (c : DeferredCheck) : Prop :=
  in_u 64 (check_amount c)
  ∧ match c with
    | Trigger ia ra ti ri =>
        in_u 63 ra ∧ (ti < length (output tx))%nat
        ∧ (0 < ra → 0 ≤ ri < 2 ^ 63 ∧ (Z.to_nat ri < length (output tx))%nat)
    | Recovery _ vi => (vi < length (output tx))%nat
    end.

(** * Lemmas *)

Lemma total_app idx l k : total idx (l ++ k) = total idx l + total idx k.
Proof. induction l as [|[i a] l IH]; cbn; [done|]. case_decide; lia. Qed.

Lemma total_nonneg idx l : Forall (λ p, 0 ≤ p.2) l → 0 ≤ total idx l.
Proof. induction 1 as [|[i a] l Ha _ IH]; cbn in *; [done|]. case_decide; lia. Qed.

(** [out_map] holds the totals of the demands [l]: an index without an entry has
    no demand. *)
Definition accounts (l : list (nat * Z)) (m : gmap nat Z) : Prop :=
  ∀ idx, total idx l = default 0 (m !! idx) ∧ (is_Some (m !! idx) ↔ idx ∈ l.*1).

Lemma accounts_add l m idx a :
  accounts l m → accounts (l ++ [(idx, a)]) (<[idx := default 0 (m !! idx) + a]> m).
Proof.
  intros Hm j. rewrite total_app, fmap_app, elem_of_app. cbn.
  destruct (Hm j) as [Ht Hs]. destruct (decide (idx = j)) as [->|Hne].
  - rewrite lookup_insert. rewrite decide_True by done. cbn. split; [lia|].
    split; [set_solver|eauto].
  - rewrite lookup_insert_ne by done. rewrite Ht. split; [lia|].
    rewrite Hs. set_solver.
Qed.

Lemma add_expected_spec idx a m :
  add_expected idx a m =
    if default 0 (m !! idx) + a <? 2 ^ 64
    then Ok (<[idx := default 0 (m !! idx) + a]> m) else Err VaultValueNotPreserved.
Proof. unfold add_expected, checked_add. by destruct (_ <? _). Qed.

Lemma wrap_u_small w z : in_u w z → wrap_u w z = z.
Proof. apply Z.mod_small. Qed.

Lemma carry_ok_dec c : {carry_ok c} + {¬ carry_ok c}.
Proof. destruct c; cbn; [apply Z_le_dec|by left]. Qed.

Lemma demands_nonneg tx c : check_wf tx c → carry_ok c → Forall (λ p, 0 ≤ p.2) (demands c).
Proof.
  unfold check_wf, in_u. destruct c as [ia ra ti ri|ia vi]; cbn; intros [Ha Hw] Hc.
  - constructor; cbn; [lia|]. destruct (Z.ltb_spec 0 ra); repeat constructor; cbn; lia.
  - repeat constructor. cbn. lia.
Qed.

(** One check: either its demands are added to the accounts, or it splits more
    than its input, or some output's total leaves the u64 range. *)
Lemma accumulate_spec tx c l m :
  check_wf tx c → accounts l m → 
  match accumulate c m with
  | Ok m' => accounts (l ++ demands c) m' ∧ carry_ok c
  | Err e => e = VaultValueNotPreserved ∧
      (¬ carry_ok c ∨ ∃ idx p, p `prefix_of` demands c ∧ 2 ^ 64 ≤ total idx (l ++ p))
  | Panic => False
  end.
Proof.
  intros Hw Hm. destruct c as [ia ra ti ri|ia vi]; cbn [accumulate demands carry_ok].
  - unfold checked_sub. destruct (Z.leb_spec ra ia) as [Hc|Hc]; cbn -[add_expected Z.pow];
      [|split; [done|left; lia]].
    rewrite add_expected_spec.
    destruct (Z.ltb_spec (default 0 (m !! ti) + (ia - ra)) (2 ^ 64)) as [Ht|Ht]; cbn -[add_expected Z.pow].
    2: { split; [done|right]. exists ti, [(ti, ia - ra)]. split; [by apply prefix_cons, prefix_nil|].
         rewrite total_app. cbn -[Z.pow]. rewrite decide_True by done.
         destruct (Hm ti) as [-> _]. lia. }
    destruct (Z.ltb_spec 0 ra) as [Hra|Hra].
    2: { split; [by apply accounts_add|lia]. }
    destruct Hw as (_ & _ & _ & Hri). destruct (Hri Hra) as [Hri' _].
    rewrite wrap_u_small by (unfold in_u; change (2 ^ 64) with (2 * 2 ^ 63); lia).
    pose proof (accounts_add _ _ ti (ia - ra) Hm) as Hm'.
    rewrite add_expected_spec.
    destruct (Z.ltb_spec (default 0 (<[ti:=default 0 (m !! ti) + (ia - ra)]> m !! Z.to_nat ri) + ra) (2 ^ 64)) as [Hr|Hr]; cbn -[Z.pow].
    + split; [|lia]. rewrite (app_assoc l [_] [_] : l ++ (ti, ia - ra) :: [(Z.to_nat ri, ra)] = _).
      by apply accounts_add.
    + split; [done|right]. eexists (Z.to_nat ri), _. split; [done|].
      rewrite (app_assoc l [_] [_] : l ++ (ti, ia - ra) :: [(Z.to_nat ri, ra)] = _), total_app.
      cbn -[Z.pow]. rewrite (decide_True (P := Z.to_nat ri = Z.to_nat ri)) by done.
      destruct (Hm' (Z.to_nat ri)) as [-> _]. lia.
  - rewrite add_expected_spec.
    destruct (Z.ltb_spec (default 0 (m !! vi) + ia) (2 ^ 64)) as [Ht|Ht].
    + split; [by apply accounts_add|done].
    + split; [done|right]. exists vi, [(vi, ia)]. split; [done|].
      rewrite total_app. cbn -[Z.pow]. rewrite decide_True by done.
      destruct (Hm vi) as [-> _]. lia.
Qed.

Lemma accumulate_all tx checks l m :
  Forall (check_wf tx) checks → accounts l m →
  match for_each accumulate checks m with
  | Ok m' => accounts (l ++ flat_map demands checks) m' ∧ Forall carry_ok checks
  | Err e => e = VaultValueNotPreserved ∧
      (¬ Forall carry_ok checks
       ∨ ∃ idx p, p `prefix_of` flat_map demands checks ∧ 2 ^ 64 ≤ total idx (l ++ p))
  | Panic => False
  end.
Proof.
  intros Hw. revert l m. induction Hw as [|c checks Hc Hw IH]; intros l m Hm; cbn -[Z.pow].
  { rewrite app_nil_r. by split. }
  pose proof (accumulate_spec tx c l m Hc Hm) as Hspec.
  destruct (accumulate c m) as [m1|e|]; cbn -[Z.pow]; [| |done].
  - destruct Hspec as [Hm1 Hcarry]. specialize (IH _ _ Hm1).
    destruct (for_each accumulate checks m1) as [m2|e|]; [| |done].
    + rewrite app_assoc. destruct IH. split; [done|]. by constructor.
    + destruct IH as [-> IH]. split; [done|]. destruct IH as [IH|(idx & p & Hp & Ht)].
      * left. by intros [_ ?]%Forall_cons.
      * right. exists idx, (demands c ++ p). split; [by apply prefix_app|by rewrite app_assoc].
  - destruct Hspec as [-> [?|(idx & p & Hp & Ht)]]; (split; [done|]).
    + left. by intros [? _]%Forall_cons.
    + right. exists idx, p. split; [by apply prefix_app_r|done].
Qed.

Lemma demands_index tx c idx : check_wf tx c → idx ∈ (demands c).*1 → (idx < length (output tx))%nat.
Proof.
  destruct c as [ia ra ti ri|ia vi]; cbn; intros [_ Hw].
  - destruct Hw as (_ & Hti & Hri). destruct (Z.ltb_spec 0 ra) as [Hra|]; cbn.
    + destruct (Hri Hra). set_solver.
    + set_solver.
  - set_solver.
Qed.

Lemma total_absent idx l : idx ∉ l.*1 → total idx l = 0.
Proof. induction l as [|[i a] l IH]; cbn; [done|]. case_decide; set_solver. Qed.

Lemma flat_map_demands_index tx checks idx :
  Forall (check_wf tx) checks → idx ∈ (flat_map demands checks).*1 → (idx < length (output tx))%nat.
Proof.
  induction 1 as [|c checks Hc _ IH]; cbn; [set_solver|].
  rewrite fmap_app, elem_of_app. intros [?|?]; [by eapply demands_index|by apply IH].
Qed.

Lemma flat_map_demands_nonneg tx checks :
  Forall (check_wf tx) checks → Forall carry_ok checks →
  Forall (λ p, 0 ≤ p.2) (flat_map demands checks).
Proof.
  induction 1 as [|c checks Hc _ IH]; cbn; [done|]. intros [? ?]%Forall_cons.
  apply Forall_app. split; [by eapply demands_nonneg|by apply IH].
Qed.

(** The final loop succeeds when every accumulated amount is covered. *)
Lemma covered_spec (outs : list TxOut) (l : list (nat * Z)) (E := InterpError) :
  (∀ p, p ∈ l → (p.1 < length outs)%nat) →
  match for_each (λ '(idx, amount) _,
      out ← index outs idx;
      reject_if (value out <? amount) VaultValueNotPreserved) l tt with
  | Ok _ => ∀ i a o, (i, a) ∈ l → outs !! i = Some o → a ≤ value o
  | Err e => e = VaultValueNotPreserved ∧ ∃ i a o, (i, a) ∈ l ∧ outs !! i = Some o ∧ value o < a
  | Panic => False
  end.
Proof.
  induction l as [|[i a] l IH]; intros Hl; [set_solver|]. cbn.
  destruct (lookup_lt_is_Some_2 outs i) as [o Ho]; [apply (Hl (i, a)); set_solver|].
  unfold index. rewrite Ho. cbn. destruct (Z.ltb_spec (value o) a) as [Hlt|Hge]; cbn.
  { split; [done|]. exists i, a, o. set_solver. }
  specialize (IH (λ p Hp, Hl p (list_elem_of_further _ _ _ Hp))).
  destruct (for_each _ l tt) as [u|e|]; [| |done].
  - intros j b o' [[= -> ->]|Hin]%elem_of_cons Ho'; [by simplify_eq|by eapply IH].
  - destruct IH as (-> & j & b & o' & ? & ? & ?). split; [done|]. exists j, b, o'. set_solver.
Qed.

(** The verdict on well-formed checks is an error or success, never a panic, and
    success means that every demand is met. *)
Definition demands_met (checks : list DeferredCheck) (tx : Transaction) : Prop :=
  Forall carry_ok checks ∧
  ∀ idx o, output tx !! idx = Some o → total idx (flat_map demands checks) ≤ value o.

Lemma evaluate_deferred_checks_spec checks tx :
  Forall (check_wf tx) checks → tx_amounts_ok tx →
  match evaluate_deferred_checks checks tx with
  | Ok _ => demands_met checks tx
  | Err e => e = VaultValueNotPreserved ∧ ¬ demands_met checks tx
  | Panic => False
  end.
Proof.
  intros Hw Htx. unfold evaluate_deferred_checks. case_bool_decide as Hnil.
  { subst checks. split; [done|]. intros idx o Ho. cbn.
    apply (Forall_lookup_1 _ _ _ _ Htx) in Ho. unfold in_u in Ho. lia. }
  assert (accounts [] ∅) as H0.
  { intros idx. rewrite lookup_empty. split; [done|]. split; [by intros []|set_solver]. }
  pose proof (accumulate_all tx checks [] ∅ Hw H0) as Hacc.
  destruct (for_each accumulate checks ∅) as [m|e|]; cbn -[Z.pow]; [| |done]; cbn in Hacc.
  - destruct Hacc as [Hm Hcarry].
    assert (∀ p, p ∈ map_to_list m → (p.1 < length (output tx))%nat) as Hidx.
    { intros [i a] Hin%elem_of_map_to_list. cbn. eapply flat_map_demands_index; [done|].
      apply Hm. eauto. }
    pose proof (covered_spec (output tx) (map_to_list m) Hidx) as Hcov.
    destruct (for_each _ (map_to_list m) tt) as [u|e|]; [| |done].
    + split; [done|]. intros idx o Ho. destruct (Hm idx) as [-> _].
      destruct (m !! idx) as [a|] eqn:Ha; cbn.
      * eapply Hcov; [by apply elem_of_map_to_list|done].
      * apply (Forall_lookup_1 _ _ _ _ Htx) in Ho. unfold in_u in Ho. lia.
    + destruct Hcov as (-> & i & a & o & Hin%elem_of_map_to_list & Ho & Hlt).
      split; [done|]. intros [_ Hmet]. specialize (Hmet i o Ho).
      destruct (Hm i) as [Ht _]. rewrite Hin in Ht. cbn in Ht. lia.
  - destruct Hacc as [-> Hbad]. split; [done|]. intros [Hcarry Hmet].
    destruct Hbad as [?|(idx & p & [q Hq] & Ht)]; [done|].
    pose proof (flat_map_demands_nonneg tx checks Hw Hcarry) as Hnn.
    rewrite Hq in Hnn. apply Forall_app in Hnn as [_ Hnn].
    pose proof (total_nonneg idx q Hnn).
    destruct (decide (idx ∈ (flat_map demands checks).*1)) as [Hin|Hin].
    + destruct (lookup_lt_is_Some_2 (output tx) idx) as [o Ho];
        [by eapply flat_map_demands_index|].
      specialize (Hmet idx o Ho). rewrite Hq, total_app in Hmet.
      apply (Forall_lookup_1 _ _ _ _ Htx) in Ho. unfold in_u in Ho. lia.
    + apply total_absent in Hin. rewrite Hq, total_app in Hin. lia.
Qed.

Definition sum_z (l : list Z) : Z := foldr Z.add 0 l.

Lemma sum_z_total_cons i a l s n :
  sum_z (map (λ j, total j ((i, a) :: l)) (seq s n)) =
    (if bool_decide (s ≤ i < s + n)%nat then a else 0) + sum_z (map (λ j, total j l) (seq s n)).
Proof.
  revert s. induction n as [|n IH]; intros s; cbn.
  { rewrite bool_decide_false by lia. done. }
  unfold sum_z in IH. cbn in IH. rewrite IH. repeat case_bool_decide; case_decide; lia.
Qed.

(** Counting the demands by output or one by one is the same. *)
Lemma sum_z_total l n :
  Forall (λ p, (p.1 < n)%nat) l → sum_z (map (λ j, total j l) (seq 0 n)) = sum_z l.*2.
Proof.
  induction 1 as [|[i a] l Hi _ IH].
  - cbn. generalize 0%nat. induction n as [|n IH]; intros s; [done|]. cbn. apply IH.
  - rewrite sum_z_total_cons, IH. cbn in *. by rewrite bool_decide_true by lia.
Qed.

Lemma sum_z_covered (outs : list TxOut) (f : nat → Z) s :
  (∀ idx o, outs !! idx = Some o → f (s + idx)%nat ≤ value o) →
  sum_z (map f (seq s (length outs))) ≤ sum_z (map value outs).
Proof.
  revert s. induction outs as [|o outs IH]; intros s Hf; cbn; [done|].
  pose proof (Hf 0%nat o eq_refl) as H0. rewrite Nat.add_0_r in H0.
  specialize (IH (S s)). unfold sum_z in *.
  enough (foldr Z.add 0 (map f (seq (S s) (length outs))) ≤ foldr Z.add 0 (map value outs)) by lia.
  apply IH. intros idx o' Ho'. specialize (Hf (S idx) o' Ho'). by rewrite Nat.add_succ_r in Hf.
Qed.

Lemma sum_z_app l k : sum_z (l ++ k) = sum_z l + sum_z k.
Proof. induction l as [|x l IH]; cbn; [done|]. unfold sum_z in *. lia. Qed.

Lemma demands_sum tx c : check_wf tx c → sum_z (demands c).*2 = check_amount c.
Proof.
  unfold sum_z, check_wf, in_u. destruct c as [ia ra ti ri|ia vi]; cbn -[Z.pow]; [|lia].
  intros [_ [Hra _]]. destruct (Z.ltb_spec 0 ra); cbn; lia.
Qed.

(** * Properties *)

Lemma evaluate_deferred_checks_Ok checks tx :
  Forall (check_wf tx) checks → tx_amounts_ok tx →
  (evaluate_deferred_checks checks tx = Ok tt ↔ demands_met checks tx)
  ∧ (¬ demands_met checks tx → evaluate_deferred_checks checks tx = Err VaultValueNotPreserved).
Proof.
  intros Hw Htx. pose proof (evaluate_deferred_checks_spec checks tx Hw Htx) as Hspec.
  destruct (evaluate_deferred_checks checks tx) as [[]|e|]; naive_solver.
Qed.

(** The deferred-check loop decides value preservation: on the checks the
    interpreter queues, it accepts exactly when every check splits no more than
    its input and every output carries at least the sum demanded of it; otherwise
    it reports [VaultValueNotPreserved].  The u64 accumulation never wraps and no
    output index is out of range. *)
Lemma evaluate_deferred_checks_correct checks tx :
  Forall (check_wf tx) checks → tx_amounts_ok tx →
  (evaluate_deferred_checks checks tx = Ok tt ↔ demands_met checks tx)
  ∧ (¬ demands_met checks tx → evaluate_deferred_checks checks tx = Err VaultValueNotPreserved).
Proof. apply evaluate_deferred_checks_Ok. Qed.

(** Two vault inputs sharing a trigger output. *)
Definition batch_tx : Transaction :=
  mkTransaction 2 0 [] [mkTxOut 90 [x51]; mkTxOut 30 [x52]].
Definition batch_checks : list DeferredCheck := [Trigger 70 30 0 1; Trigger 50 0 0 (-1)].

Lemma batch_tx_ok : tx_amounts_ok batch_tx.
Proof. repeat constructor; cbn; lia. Qed.
Lemma batch_checks_wf : Forall (check_wf batch_tx) batch_checks.
Proof. repeat constructor; cbn; lia. Qed.

Lemma evaluate_deferred_checks_correct_witness : demands_met batch_checks batch_tx.
Proof.
  apply (evaluate_deferred_checks_correct batch_checks batch_tx batch_checks_wf batch_tx_ok).
  vm_compute. reflexivity.
Defined.

(** C26: vault value is conserved across inputs: when the deferred checks pass,
    the outputs together carry at least the sum of the amounts of every input
    that queued a check, however the checks share outputs. *)
Theorem deferred_value_conserved checks tx :
  Forall (check_wf tx) checks → tx_amounts_ok tx →
  evaluate_deferred_checks checks tx = Ok tt →
  sum_z (map check_amount checks) ≤ sum_z (map value (output tx)).
Proof.
  intros Hw Htx He. pose proof (evaluate_deferred_checks_spec checks tx Hw Htx) as Hspec.
  rewrite He in Hspec. destruct Hspec as [_ Hmet].
  assert (sum_z (map check_amount checks) = sum_z (flat_map demands checks).*2) as ->.
  { clear -Hw. induction Hw as [|c checks Hc _ IH]; [done|]. cbn [map flat_map].
    rewrite fmap_app, sum_z_app, (demands_sum tx) by done. cbn. by rewrite <- IH. }
  rewrite <- (sum_z_total _ (length (output tx))).
  - apply sum_z_covered. apply Hmet.
  - apply Forall_forall. intros p Hp. apply (flat_map_demands_index tx checks); [done|].
    by apply list_elem_of_fmap_2.
Qed.

Lemma deferred_value_conserved_witness : 70 + (50 + 0) ≤ 90 + (30 + 0).
Proof.
  apply (deferred_value_conserved batch_checks batch_tx batch_checks_wf batch_tx_ok).
  vm_compute. reflexivity.
Defined.
