(* ===== verification/Interp.v ===== *)
(** The BIP360+ tapscript interpreter (`tapscript/interp.rs`): every opcode
    handler, the leaf loop, and the deferred cross-input value checks. *)
From Stdlib Require Import ZArith Lia Strings.Byte.
From stdpp Require Import base list gmap strings.
From S2P Require Import Prelude Bitcoin Concrete InterpBase ScriptNum Encoding.
#[local] Open Scope Z_scope.

Section interp.
Context `{HashLib} `{ScriptLib} `{TxLib} `{TaprootLib}.

Definition reconstruct_trigger_spk (control : ControlBlock) (leaf_update : Script) : Script :=
  let node := tap_node_from_script leaf_update LeafVersion_TapScript in
  let node := foldl tap_node_from_node_hashes node (cb_merkle_branch control) in
  new_p2tr_tweaked (tap_tweak (cb_internal_key control) node).

Definition ordered_prevouts (tx : Transaction) (prevouts : PrevoutMap) :
    outcome InterpError (list TxOut) :=
  for_each (λ input all,
    txout ← ok_or (prevouts !! previous_output input) MissingPrevout;
    Ok (all ++ [txout])) (input tx) [].

Definition is_acp (t : TapSighashType) : bool :=
  match t with
  | AllPlusAnyoneCanPay | NonePlusAnyoneCanPay | SinglePlusAnyoneCanPay => true
  | _ => false
  end.

Definition verify_schnorr (sig_bytes pubkey_bytes : bytes) (ctx : LeafContext) :
    outcome InterpError bool :=
  _ ← reject_if (negb (len pubkey_bytes =? 32)) (UnknownPubkeyType (len pubkey_bytes));
  xonly ← ok_or (xonly_from_slice pubkey_bytes) (UnknownPubkeyType (len pubkey_bytes));
  '(sig, sighash_type) ← ok_or (taproot_sig_from_slice sig_bytes) BadSignatureEncoding;
  let leaf_hash := tap_leaf_hash (leaf ctx) LeafVersion_TapScript in
  annex ← match annex ctx with
          | Some b => a ← ok_or (annex_new b) MalformedScript; Ok (Some a)
          | None => Ok None
          end;
  sighash ←
    (if is_acp sighash_type then
       txout ← ok_or (input_txout ctx) MissingPrevout;
       ok_or (taproot_signature_hash (tx ctx) (input_index ctx)
                (PrevoutsOne (input_index ctx) txout) annex
                (Some (leaf_hash, NO_CODESEPARATOR)) sighash_type) SighashError
     else
       all ← ordered_prevouts (tx ctx) (prevouts ctx);
       ok_or (taproot_signature_hash (tx ctx) (input_index ctx) (PrevoutsAll all) annex
                (Some (leaf_hash, NO_CODESEPARATOR)) sighash_type) SighashError);
  Ok (secp_verify_schnorr sig sighash xonly).

(** BIP112.  [tx.version.0 as u32] is the i32 reinterpreted unsigned. *)
Definition check_sequence (n : Z) (tx : Transaction) (input_index : nat) :
    outcome InterpError unit :=
  if negb (Z.land n SEQUENCE_LOCKTIME_DISABLE_FLAG =? 0) then Ok tt else
  _ ← reject_if (wrap_u 32 (version tx) <? 2) TimelockNotSatisfied;
  txin ← index (input tx) input_index;
  let tx_seq := sequence txin in
  _ ← reject_if (negb (Z.land tx_seq SEQUENCE_LOCKTIME_DISABLE_FLAG =? 0)) TimelockNotSatisfied;
  let mask := Z.lor SEQUENCE_LOCKTIME_TYPE_FLAG SEQUENCE_LOCKTIME_MASK in
  let tx_masked := Z.land tx_seq mask in
  let n_masked := Z.land n mask in
  let same_type :=
    ((tx_masked <? SEQUENCE_LOCKTIME_TYPE_FLAG) && (n_masked <? SEQUENCE_LOCKTIME_TYPE_FLAG))
    || ((SEQUENCE_LOCKTIME_TYPE_FLAG <=? tx_masked) && (SEQUENCE_LOCKTIME_TYPE_FLAG <=? n_masked)) in
  reject_if (negb same_type || (tx_masked <? n_masked)) TimelockNotSatisfied.

(** BIP65. *)
Definition check_locktime (n : Z) (tx : Transaction) (input_index : nat) :
    outcome InterpError unit :=
  let tx_lock := lock_time tx in
  let same_type := ((tx_lock <? LOCKTIME_THRESHOLD) && (n <? LOCKTIME_THRESHOLD))
                   || ((LOCKTIME_THRESHOLD <=? tx_lock) && (LOCKTIME_THRESHOLD <=? n)) in
  _ ← reject_if (negb same_type || (tx_lock <? n)) TimelockNotSatisfied;
  txin ← index (input tx) input_index;
  reject_if (sequence txin =? 0xffffffff) TimelockNotSatisfied.

(** ** OP_VAULT *)

(** [for _ in 0..n { items.push(stack.pop(..)?) }]: first popped first. *)
Fixpoint pop_n (n : nat) (opcode : string) : interp (list bytes) :=
  match n with
  | O => mret []
  | S n => x ← pop opcode; xs ← pop_n n opcode; mret (x :: xs)
  end.

(** The operand of [OP_VAULT] of at most [max_len] bytes. *)
Definition pop_num (opcode : string) (max_len : Z) : interp Z :=
  x ← pop opcode; lift (read_scriptnum x max_len).

Definition exec_op_vault (ctx : LeafContext) : interp unit :=
  input_txout ← lift (ok_or (input_txout ctx) MissingPrevout);
  let outputs := output (tx ctx) in
  let num_outputs := len outputs in
  body ← pop "OP_VAULT";
  push_count ← pop_num "OP_VAULT" 4;
  _ ← bail_if (push_count <? 0) VaultBadStack;
  stack ← get_items;
  _ ← bail_if (len stack <? 3 + push_count) VaultBadStack;
  items ← pop_n (Z.to_nat push_count) "OP_VAULT";
  let leaf_update_script := foldl push_minimal [] (rev items) ++ body in
  trigger_idx ← pop_num "OP_VAULT" 4;
  _ ← bail_if ((trigger_idx <? 0) || (num_outputs <=? trigger_idx)) VaultBadStack;
  let trigger_idx := Z.to_nat trigger_idx in
  revault_idx ← pop_num "OP_VAULT" 4;
  _ ← bail_if ((num_outputs <=? revault_idx)
               || ((revault_idx <? 0) && negb (revault_idx =? -1))) VaultBadStack;
  revault_amount ← pop_num "OP_VAULT" 7;
  _ ← bail_if ((revault_amount <? 0) || ((0 <? revault_amount) && (revault_idx <? 0))
               || ((revault_amount =? 0) && negb (revault_idx =? -1))) VaultBadStack;
  trigger_out ← lift (index outputs trigger_idx);
  _ ← bail_if (negb (is_p2tr (script_pubkey trigger_out))) VaultTriggerNotV1;
  let expected := reconstruct_trigger_spk (control ctx) leaf_update_script in
  _ ← bail_if (negb (bool_decide (script_pubkey trigger_out = expected))) VaultTriggerMismatch;
  _ ← (if 0 <=? revault_idx then
         revault_out ← lift (index outputs (Z.to_nat revault_idx));
         bail_if (negb (bool_decide (script_pubkey revault_out = script_pubkey input_txout)))
           VaultRevaultMismatch
       else mret tt);
  let input_amount := value input_txout in
  revault_value ← (if 0 <=? revault_idx then
                     revault_out ← lift (index outputs (Z.to_nat revault_idx));
                     mret (value revault_out)
                   else mret 0);
  total ← lift (ok_or (checked_add 64 (value trigger_out) revault_value) VaultValueNotPreserved);
  _ ← bail_if (total <? input_amount) VaultValueNotPreserved;
  _ ← defer (Trigger input_amount revault_amount trigger_idx revault_idx);
  push [x01].

Definition exec_op_vault_recover (ctx : LeafContext) : interp unit :=
  input_txout ← lift (ok_or (input_txout ctx) MissingPrevout);
  let num_outputs := len (output (tx ctx)) in
  hash_arg ← pop "OP_VAULT_RECOVER";
  _ ← bail_if (negb (len hash_arg =? RECOVERY_SPK_HASH_LEN)) (VaultRecoverBadHashLen (len hash_arg));
  vout_idx ← pop_num "OP_VAULT_RECOVER" 4;
  _ ← bail_if ((vout_idx <? 0) || (num_outputs <=? vout_idx)) VaultBadStack;
  let vout_idx := Z.to_nat vout_idx in
  recovery_out ← lift (index (output (tx ctx)) vout_idx);
  _ ← bail_if (negb (bool_decide (vault_recovery_spk_hash (script_pubkey recovery_out) = hash_arg)))
        VaultRecoverMismatch;
  _ ← defer (Recovery (value input_txout) vout_idx);
  push [x01].

(** ** Dispatch *)

Definition exec_checksig (op : Opcode) (ctx : LeafContext) : interp unit :=
  if bool_decide (op = OP_CHECKSIG) then
    pubkey ← pop "OP_CHECKSIG";
    sig ← pop "OP_CHECKSIG";
    if bool_decide (sig = []) then push [] else
    ok ← lift (verify_schnorr sig pubkey ctx);
    if (ok : bool) then push [x01] else fail SchnorrVerifyFailed
  else if bool_decide (op = OP_CHECKSIGVERIFY) then
    pubkey ← pop "OP_CHECKSIGVERIFY";
    sig ← pop "OP_CHECKSIGVERIFY";
    if bool_decide (sig = []) then fail VerifyFailed else
    ok ← lift (verify_schnorr sig pubkey ctx);
    if (ok : bool) then mret tt else fail SchnorrVerifyFailed
  else if bool_decide (op = OP_CHECKSIGADD) then
    pubkey ← pop "OP_CHECKSIGADD";
    n ← pop_num "OP_CHECKSIGADD" 4;
    sig ← pop "OP_CHECKSIGADD";
    if bool_decide (sig = []) then push (encode_scriptnum n) else
    ok ← lift (verify_schnorr sig pubkey ctx);
    if (ok : bool) then push (encode_scriptnum (n + 1)) else fail SchnorrVerifyFailed
  else fail (UnimplementedOpcode op).

(** The [match op] of [exec_op], for the opcodes that are not BIP360+. *)
Definition exec_standard (op : Opcode) (ctx : LeafContext) : interp unit :=
  if (b2z OP_PUSHNUM_1 <=? b2z op) && (b2z op <=? b2z OP_PUSHNUM_16) then
    push [z2b (b2z op - (b2z OP_PUSHNUM_1 - 1))]
  else if bool_decide (op = OP_DUP) then
    t ← pop "OP_DUP"; _ ← push t; push t
  else if bool_decide (op = OP_DROP) then
    _ ← pop "OP_DROP"; mret tt
  else if bool_decide (op = OP_SWAP) then
    a ← pop "OP_SWAP"; b ← pop "OP_SWAP"; _ ← push a; push b
  else if bool_decide (op = OP_EQUAL) then
    a ← pop "OP_EQUAL"; b ← pop "OP_EQUAL";
    push (if bool_decide (a = b) then [x01] else [])
  else if bool_decide (op = OP_EQUALVERIFY) then
    a ← pop "OP_EQUALVERIFY"; b ← pop "OP_EQUALVERIFY";
    if bool_decide (a = b) then mret tt else fail VerifyFailed
  else if bool_decide (op = OP_VERIFY) then
    t ← pop "OP_VERIFY"; if is_truthy t then mret tt else fail VerifyFailed
  else if bool_decide (op = OP_SHA256) then t ← pop "OP_SHA256"; push (sha256 t)
  else if bool_decide (op = OP_HASH256) then t ← pop "OP_HASH256"; push (sha256d t)
  else if bool_decide (op = OP_HASH160) then t ← pop "OP_HASH160"; push (hash160 t)
  else if bool_decide (op = OP_RIPEMD160) then t ← pop "OP_RIPEMD160"; push (ripemd160 t)
  else if bool_decide (op = OP_CSV) then
    t ← top "OP_CHECKSEQUENCEVERIFY";
    n ← lift (read_scriptnum t 5);
    _ ← bail_if (n <? 0) TimelockNotSatisfied;
    lift (check_sequence n (tx ctx) (input_index ctx))
  else if bool_decide (op = OP_CLTV) then
    t ← top "OP_CHECKLOCKTIMEVERIFY";
    n ← lift (read_scriptnum t 5);
    _ ← bail_if (n <? 0) TimelockNotSatisfied;
    lift (check_locktime n (tx ctx) (input_index ctx))
  else exec_checksig op ctx.

Definition exec_op (op : Opcode) (ctx : LeafContext) : interp unit :=
  if bool_decide (op = OP_CAT) then
    x2 ← pop "OP_CAT"; x1 ← pop "OP_CAT";
    let cat := x1 ++ x2 in
    _ ← bail_if (MAX_SCRIPT_ELEMENT_SIZE <? len cat) (ElementTooLarge (len cat));
    push cat
  else if bool_decide (op = OP_CTV) then
    arg ← top "OP_CHECKTEMPLATEVERIFY";
    _ ← bail_if (negb (len arg =? CTV_HASH_LEN)) (CtvBadArgLength (len arg));
    bail_if (negb (bool_decide (arg = default_check_template_verify_hash (tx ctx) (input_index ctx))))
      CtvTemplateMismatch
  else if bool_decide (op = OP_VAULT) then exec_op_vault ctx
  else if bool_decide (op = OP_VAULT_RECOVER) then exec_op_vault_recover ctx
  else exec_standard op ctx.

(** ** The leaf loop *)

Definition exec_instruction (ctx : LeafContext) (i : option Instruction) : interp unit :=
  match i with
  | None => fail MalformedScript
  | Some (PushBytes b) => push b
  | Some (Op op) => exec_op op ctx
  end.

Fixpoint exec_instructions (ctx : LeafContext) (l : list (option Instruction)) : interp unit :=
  match l with
  | [] => mret tt
  | i :: l => _ ← exec_instruction ctx i; exec_instructions ctx l
  end.

(** [execute_leaf], returning the queue of deferred checks. *)
Definition execute_leaf (ctx : LeafContext) (initial_stack : list bytes)
    (deferred0 : list DeferredCheck) : outcome InterpError (list DeferredCheck) :=
  stack ← stack_new initial_stack;
  '(_, s) ← exec_instructions ctx (instructions (leaf ctx)) (mkState stack deferred0);
  match items s with
  | [x] => if is_truthy x then Ok (deferred s) else Err EvalFalse
  | l => Err (CleanStackRequired (len l))
  end.

End interp.
