(* ===== verification/InterpProps.v ===== *)
(** Correctness of the tapscript interpreter: it never panics, keeps the stack
    within its limits, queues only well-formed deferred checks, and its
    signature, timelock and vault opcodes succeed only on what they authorise. *)
From Stdlib Require Import ZArith Lia Strings.Byte.
From stdpp Require Import base list gmap strings.
From S2P Require Import Prelude Bitcoin Concrete InterpBase ScriptNum Encoding Deferred Interp.
#[local] Open Scope Z_scope.

(** The BIP342 resource limits on the execution stack. *)
Definition elem_ok (x : bytes) : Prop := len x ≤ MAX_SCRIPT_ELEMENT_SIZE.
Definition stack_ok (l : list bytes) : Prop := len l ≤ MAX_STACK_SIZE ∧ Forall elem_ok l.

(** What the interpreter's caller guarantees of a context. *)
Definition ctx_ok (ctx : LeafContext) : Prop :=
  (input_index ctx < length (input (tx ctx)))%nat
  ∧ ∀ o, input_txout ctx = Some o → in_u 64 (value o).

(** The invariant of the interpreter's state. *)
Definition inv (ctx : LeafContext) (s : interp_state) : Prop :=
  stack_ok (items s) ∧ Forall (check_wf (tx ctx)) (deferred s).

Lemma stack_new_Ok l l' : stack_new l = Ok l' ↔ l' = l ∧ stack_ok l.
Proof.
  unfold stack_new.
  assert (∀ u, for_each (E := InterpError) (λ item _, reject_if (MAX_SCRIPT_ELEMENT_SIZE <? len item)
            (ElementTooLarge (len item))) l tt = Ok u ↔ Forall elem_ok l) as Hall.
  { intros []. induction l as [|x l IH]; cbn; [split; [constructor|done]|].
    rewrite Forall_cons. unfold elem_ok at 1.
    destruct (Z.ltb_spec MAX_SCRIPT_ELEMENT_SIZE (len x)); cbn; [split; [done|lia]|].
    rewrite IH. split; [by split|by intros []]. }
  rewrite bind_Ok. setoid_rewrite bind_Ok. setoid_rewrite reject_if_Ok. setoid_rewrite Hall.
  unfold stack_ok. split.
  - intros (_ & Hl & _ & Hn & [= ->]). split_and!; [done|lia|done].
  - intros (-> & Hn & Hl). exists tt. split; [done|]. exists tt. split; [lia|done].
Qed.

Lemma stack_new_no_panic l : stack_new l ≠ Panic.
Proof.
  unfold stack_new. rewrite bind_Panic. intros [H|(u & _ & H)].
  - by apply (for_each_no_panic _ (λ _, True)) in H; [|done|intros; split; [apply reject_if_Panic|]].
  - apply bind_Panic in H as [H|(? & _ & H)]; [by apply reject_if_Panic in H|done].
Qed.

Lemma read_scriptnum_no_panic bs m : read_scriptnum bs m ≠ Panic.
Proof.
  unfold read_scriptnum. no_panic.
Qed.

(** ** Hoare rules of the stack operations *)
Section rules.
Context (ctx : LeafContext).

Lemma hoare_push x : hoare (inv ctx) (push x) (λ _, inv ctx).
Proof.
  intros s [[Hn Hl] Hd]. unfold push.
  destruct (Z.ltb_spec MAX_SCRIPT_ELEMENT_SIZE (len x)) as [|Hx]; [done|]. cbn -[len].
  destruct (Z.ltb_spec MAX_STACK_SIZE (len (items s ++ [x]))) as [|Hs]; [done|]. cbn.
  repeat split; cbn; [done| |done]. apply Forall_app. by repeat constructor.
Qed.

Lemma hoare_pop op : hoare (inv ctx) (pop op) (λ x s, elem_ok x ∧ inv ctx s).
Proof.
  intros s [[Hn Hl] Hd]. unfold pop.
  destruct (vec_pop (items s)) as [[l x]|] eqn:Hv; [|done]. cbn.
  apply vec_pop_Some in Hv. rewrite Hv in Hn, Hl. rewrite len_snoc in Hn.
  apply Forall_app in Hl as [Hl [Hx _]%Forall_cons]. 
  split; [done|]. split; [split; cbn; [lia|done]|done].
Qed.

Lemma hoare_top op : hoare (inv ctx) (top op) (λ x s, elem_ok x ∧ inv ctx s).
Proof.
  intros s [[Hn Hl] Hd]. unfold top.
  destruct (vec_pop (items s)) as [[l x]|] eqn:Hv; [|done]. cbn.
  apply vec_pop_Some in Hv. pose proof Hl as Hl'. rewrite Hv in Hl'.
  by apply Forall_app in Hl' as [_ [Hx _]%Forall_cons].
Qed.

Lemma hoare_get_items : hoare (inv ctx) get_items (λ l s, inv ctx s).
Proof. intros s Hs. done. Qed.

Lemma hoare_pop_num op m :
  1 ≤ m ≤ 7 → hoare (inv ctx) (pop_num op m) (λ n s, Z.abs n < 2 ^ (8 * m - 1) ∧ inv ctx s).
Proof.
  intros Hm. unfold pop_num. eapply hoare_bind; [apply hoare_pop|]. intros x.
  apply hoare_lift; [apply read_scriptnum_no_panic|]. intros n s Hn [_ Hs].
  split; [by eapply read_scriptnum_abs|done].
Qed.

Lemma hoare_pop_n n op : hoare (inv ctx) (pop_n n op) (λ _, inv ctx).
Proof.
  induction n as [|n IH]; cbn [pop_n]; [by apply hoare_ret|].
  eapply hoare_bind; [apply hoare_pop|]. intros x.
  eapply hoare_bind; [eapply hoare_weaken; [apply IH|tauto]|intros; by apply hoare_ret].
Qed.

Lemma hoare_defer c :
  check_wf (tx ctx) c → hoare (inv ctx) (defer c) (λ _, inv ctx).
Proof.
  intros Hc s [Hs Hd]. cbn. split; [done|]. cbn. apply Forall_app. split; [done|]. constructor; [done|constructor].
Qed.

(** Facts carried by a precondition that do not depend on the state. *)
Lemma hoare_pure {A} (P : Prop) (R : interp_state → Prop) (m : interp A) Q :
  (P → hoare R m Q) → hoare (λ s, P ∧ R s) m Q.
Proof. intros H s [HP HR]. by apply H. Qed.

Lemma hoare_if {A} (b : bool) P (m1 m2 : interp A) Q :
  (b = true → hoare P m1 Q) → (b = false → hoare P m2 Q) → hoare P (if b then m1 else m2) Q.
Proof. destruct b; auto. Qed.

Lemma hoare_bail_bind {A} b e P (k : unit → interp A) Q :
  (b = false → hoare P (k tt) Q) → hoare P (bail_if b e ≫= k) Q.
Proof.
  intros H. eapply hoare_bind; [apply (hoare_bail_if _ _ _ (λ _ s, b = false ∧ P s)); auto|].
  intros []. exact (hoare_pure _ _ _ _ H).
Qed.

Lemma hoare_lift_bind {A B} (m : outcome InterpError A) P (k : A → interp B) Q :
  m ≠ Panic → (∀ a, m = Ok a → hoare P (k a) Q) → hoare P (lift m ≫= k) Q.
Proof.
  intros Hm H. eapply hoare_bind; [apply (hoare_lift _ _ (λ a s, m = Ok a ∧ P s)); [done|auto]|].
  intros a. exact (hoare_pure _ _ _ _ (H a)).
Qed.
Lemma hoare_ret_bind {A B} P (a : A) (k : A → interp B) Q :
  hoare P (k a) Q → hoare P (mret a ≫= k) Q.
Proof. done. Qed.

Lemma hoare_bind_assoc {A B C} P (m : interp A) (k : A → interp B) (k' : B → interp C) Q :
  hoare P (m ≫= λ a, k a ≫= k') Q → hoare P ((m ≫= k) ≫= k') Q.
Proof.
  intros H s Hs. specialize (H s Hs). unfold mbind, interp_bind in *.
  by destruct (m s) as [[a s']|e|].
Qed.
End rules.

#[export] Hint Resolve hoare_push hoare_pop hoare_top hoare_get_items hoare_pop_n hoare_defer : rust.
#[export] Hint Resolve read_scriptnum_no_panic stack_new_no_panic : rust.

(** [hstep] applies one rule of the program logic; [hsteps] runs a handler. *)
Ltac hstep :=
  match goal with
  | |- hoare (λ s, _ ∧ _) _ _ => apply hoare_pure; intros ?
  | |- hoare _ (bail_if _ _ ≫= _) _ => apply hoare_bail_bind; intros ?
  | |- hoare _ (lift _ ≫= _) _ => apply hoare_lift_bind; [auto with rust|intros ? ?]
  | |- hoare _ ((_ ≫= _) ≫= _) _ => apply hoare_bind_assoc
  | |- hoare _ ((if ?b then _ else _) ≫= _) _ => destruct b eqn:?
  | |- hoare _ (defer _ ≫= _) _ => eapply hoare_bind; [apply hoare_defer|intros []]
  | |- hoare _ (mret _ ≫= _) _ => apply hoare_ret_bind
  | |- hoare _ (pop_num _ _ ≫= _) _ => eapply hoare_bind; [apply hoare_pop_num; lia|intros ?]
  | |- hoare _ (_ ≫= _) _ => eapply hoare_bind; [solve [eauto with rust]|intros ?]
  | |- hoare _ (fail _) _ => apply hoare_fail
  | |- hoare _ (mret _) _ => apply hoare_ret; auto
  | |- hoare _ (bail_if _ _) _ => apply hoare_bail_if; auto
  | |- hoare _ (lift _) _ => apply hoare_lift; [auto with rust|auto]
  | |- hoare _ (if _ then _ else _) _ => apply hoare_if; intros ?
  | |- hoare _ _ _ => solve [eauto with rust]
  end.
Ltac hsteps := repeat (cbv beta zeta; hstep).

Section handlers.
Context `{HashLib} `{ScriptLib} `{TxLib} `{TaprootLib}.

Lemma ordered_prevouts_no_panic tx ps : ordered_prevouts tx ps ≠ Panic.
Proof.
  apply (for_each_no_panic _ (λ _, True)); [done|]. intros x s _ _.
  split; [by destruct (ps !! _)|done].
Qed.

Lemma verify_schnorr_no_panic sig pk ctx : verify_schnorr sig pk ctx ≠ Panic.
Proof.
  unfold verify_schnorr. pose proof ordered_prevouts_no_panic. no_panic.
Qed.

Lemma check_sequence_no_panic n tx i :
  (i < length (input tx))%nat → check_sequence n tx i ≠ Panic.
Proof. intros Hi. unfold check_sequence. no_panic. Qed.

Lemma check_locktime_no_panic n tx i :
  (i < length (input tx))%nat → check_locktime n tx i ≠ Panic.
Proof. intros Hi. unfold check_locktime. no_panic. Qed.

Lemma output_index_ok n (outs : list TxOut) :
  0 ≤ n < len outs → (Z.to_nat n < length outs)%nat.
Proof. unfold len. lia. Qed.

Context (ctx : LeafContext) (Hctx : ctx_ok ctx).

Lemma input_value_ok o : ok_or (input_txout ctx) MissingPrevout = Ok o → in_u 64 (value o).
Proof using Hctx. rewrite ok_or_Ok. apply Hctx. Qed.

(** The operands [OP_VAULT] accepts make a well-formed check. *)
Lemma trigger_wf amount ti ri ra :
  in_u 64 amount → (ti <? 0) || (len (output (tx ctx)) <=? ti) = false →
  Z.abs ri < 2 ^ (8 * 4 - 1) → Z.abs ra < 2 ^ (8 * 7 - 1) →
  (len (output (tx ctx)) <=? ri) || (ri <? 0) && negb (ri =? -1) = false →
  (ra <? 0) || (0 <? ra) && (ri <? 0) || (ra =? 0) && negb (ri =? -1) = false →
  check_wf (tx ctx) (Trigger amount ra (Z.to_nat ti) ri).
Proof.
  intros Ha Hti Hri Hra Hri' Hra'. split; [done|]. unfold in_u, len in *.
  assert (2 ^ (8 * 4 - 1) ≤ 2 ^ 63) by (apply Z.pow_le_mono_r; lia).
  assert (2 ^ (8 * 7 - 1) ≤ 2 ^ 63) by (apply Z.pow_le_mono_r; lia).
  split_and!; [lia|lia|lia|]. intros Hpos. lia.
Qed.

Lemma hoare_exec_op_vault : hoare (inv ctx) (exec_op_vault ctx) (λ _, inv ctx).
Proof using Hctx.
  pose proof input_value_ok. unfold exec_op_vault. hsteps;
    first [apply index_no_panic, output_index_ok; lia | apply trigger_wf; eauto].
Qed.

Lemma hoare_exec_op_vault_recover : hoare (inv ctx) (exec_op_vault_recover ctx) (λ _, inv ctx).
Proof using Hctx.
  pose proof input_value_ok. unfold exec_op_vault_recover. hsteps;
    first [apply index_no_panic, output_index_ok; lia
          | split; [by eauto|apply output_index_ok; lia]].
Qed.

Lemma hoare_exec_standard op : hoare (inv ctx) (exec_standard op ctx) (λ _, inv ctx).
Proof using Hctx.
  pose proof verify_schnorr_no_panic. pose proof (proj1 Hctx).
  unfold exec_standard, exec_checksig.
  hsteps; try apply hoare_lift; auto using check_sequence_no_panic, check_locktime_no_panic.
Qed.

(** Every opcode keeps the invariant and does not panic. *)
Lemma hoare_exec_op op : hoare (inv ctx) (exec_op op ctx) (λ _, inv ctx).
Proof using Hctx.
  pose proof hoare_exec_op_vault. pose proof hoare_exec_op_vault_recover.
  pose proof hoare_exec_standard. unfold exec_op. hsteps.
Qed.

Lemma hoare_exec_instructions l : hoare (inv ctx) (exec_instructions ctx l) (λ _, inv ctx).
Proof using Hctx.
  induction l as [|i l IH]; cbn [exec_instructions]; [by apply hoare_ret|].
  eapply hoare_bind; [|intros ?; apply IH].
  destruct i as [[b|op]|]; cbn; [apply hoare_push|apply hoare_exec_op|apply hoare_fail].
Qed.

(** A leaf's execution never panics, and queues well-formed checks. *)
Lemma execute_leaf_safe stack ds :
  Forall (check_wf (tx ctx)) ds →
  match execute_leaf ctx stack ds with
  | Ok ds' => Forall (check_wf (tx ctx)) ds'
  | Err _ => True
  | Panic => False
  end.
Proof using Hctx.
  intros Hds. unfold execute_leaf.
  destruct (stack_new stack) as [st|e|] eqn:Hst; [cbn|done|by apply stack_new_no_panic in Hst].
  apply stack_new_Ok in Hst as [-> Hst].
  pose proof (hoare_exec_instructions (instructions (leaf ctx)) (mkState stack ds) (conj Hst Hds)) as Hx.
  destruct (exec_instructions _ _ _) as [[? s']|e|]; [cbn|done|done].
  destruct (items s') as [|x [|y r]]; [done| |done]. destruct (is_truthy x); [apply Hx|done].
Qed.
End handlers.

(** ** Inversion of the handlers *)

Lemma pop_num_Ok op m s n s' :
  pop_num op m s = Ok (n, s') ↔
    ∃ x, s = mkState (items s' ++ [x]) (deferred s') ∧ read_scriptnum x m = Ok n.
Proof.
  unfold pop_num. rewrite interp_bind_Ok. setoid_rewrite lift_Ok. setoid_rewrite pop_Ok.
  split; [intros (x & t & -> & ? & ->); eauto|intros (x & -> & ?); eexists _, _; eauto].
Qed.

(** The popped operand is the canonical encoding of the number read. *)
Lemma pop_num_encode op m s n s' :
  1 ≤ m ≤ 7 → pop_num op m s = Ok (n, s') →
  s = mkState (items s' ++ [encode_scriptnum n]) (deferred s').
Proof. intros Hm (x & -> & Hx)%pop_num_Ok. by apply read_scriptnum_spec in Hx as [_ ->]. Qed.

Lemma pop_n_Ok n op s xs s' :
  pop_n n op s = Ok (xs, s') →
  length xs = n ∧ s = mkState (items s' ++ rev xs) (deferred s').
Proof.
  revert s xs. induction n as [|n IH]; intros s xs; cbn [pop_n]; intros H.
  - apply ret_Ok in H as [-> ->]. cbn. rewrite app_nil_r. by destruct s.
  - apply interp_bind_Ok in H as (x & t & Hx & H). apply interp_bind_Ok in H as (ys & t' & Hys & H).
    apply ret_Ok in H as [-> ->]. apply IH in Hys as [Hl ->]. apply pop_Ok in Hx as ->.
    cbn. split; [by rewrite Hl|]. by rewrite app_assoc.
Qed.

Section inversion.
Context `{HashLib} `{ScriptLib} `{TxLib} `{TaprootLib}.

(** The outputs a successful [OP_VAULT] designates. *)
Record vault_trigger (ctx : LeafContext) (o : TxOut) (data : list bytes) (body : bytes)
    (ti : nat) (ri ra : Z) : Prop := {
  vt_input : input_txout ctx = Some o;
  vt_out : ∃ t, output (tx ctx) !! ti = Some t ∧ is_p2tr (script_pubkey t) = true
    ∧ script_pubkey t
        = reconstruct_trigger_spk (control ctx) (foldl push_minimal [] data ++ body)
    ∧ value o ≤ value t
        + match output (tx ctx) !! Z.to_nat ri with
          | Some r => if 0 <? ra then value r else 0 | None => 0 end;
  vt_revault : 0 < ra ∧ 0 ≤ ri ∧ (∃ r, output (tx ctx) !! Z.to_nat ri = Some r
                                        ∧ script_pubkey r = script_pubkey o)
               ∨ ra = 0 ∧ ri = -1
}.

(** The two passes over the revault output: its script is checked, then its
    value read. *)
Lemma revault_Ok outs ri spk s u s1 v s2 :
  (if 0 <=? ri then
     r ← lift (index outs (Z.to_nat ri));
     bail_if (negb (bool_decide (script_pubkey r = spk))) VaultRevaultMismatch
   else mret tt) s = Ok (u, s1) →
  (if 0 <=? ri then r ← lift (index outs (Z.to_nat ri)); mret (value r) else mret 0) s1
    = Ok (v, s2) →
  s1 = s ∧ s2 = s
  ∧ (0 ≤ ri ∧ (∃ r, outs !! Z.to_nat ri = Some r ∧ script_pubkey r = spk ∧ v = value r)
     ∨ ri < 0 ∧ v = 0).
Proof.
  destruct (Z.leb_spec 0 ri); intros Ha Hb; iinv; (split_and!; [done|done|]); [left|by right].
  split; [done|]. eexists. split_and!; [done| |done].
  rename select (negb _ = false) into Hn. apply negb_false_iff, bool_decide_eq_true in Hn. done.
Qed.

Lemma exec_op_vault_Ok ctx s s' :
  exec_op_vault ctx s = Ok (tt, s') →
  ∃ o data body ti ri ra rest,
    vault_trigger ctx o data body ti ri ra
    ∧ items s = rest ++ [encode_scriptnum ra; encode_scriptnum ri; encode_scriptnum (Z.of_nat ti)]
                ++ data ++ [encode_scriptnum (len data); body]
    ∧ s' = mkState (rest ++ [[x01]]) (deferred s ++ [Trigger (value o) ra ti ri]).
Proof.
  unfold exec_op_vault. intros Hr. iinv.
  rename select (pop_n _ _ _ = _) into Hpn. apply pop_n_Ok in Hpn as [Hlen Hpn].
  repeat match goal with
  | Hp : pop_num _ _ _ = _ |- _ => apply pop_num_encode in Hp; [|lia]
  end.
  match goal with
  | Ha : (if 0 <=? _ then _ else _) _ = _, Hb : (if 0 <=? _ then _ else _) _ = _ |- _ =>
      destruct (revault_Ok _ _ _ _ _ _ _ _ Ha Hb) as (-> & -> & Hrev); clear Ha Hb
  end.
  rename select (input_txout ctx = Some _) into Hin.
  rename select (output _ !! _ = Some _) into Ht.
  rename select (negb (is_p2tr _) = false) into Hp2tr. apply negb_false_iff in Hp2tr.
  rename select (negb (bool_decide _) = false) into Hspk.
  apply negb_false_iff, bool_decide_eq_true in Hspk.
  rename select (checked_add _ _ _ = _) into Hadd.
  unfold checked_add in Hadd. destruct (_ <? 2 ^ 64); [|done]. simplify_eq/=.
  exists x, (rev x11), x1, (Z.to_nat x13), x17, x21, (items x22). split; [|split].
  - split; [done| |].
    + exists x25. split_and!; try done.
      destruct Hrev as [(Hri & r & Hr & _ & ->)|[Hri ->]].
      * rewrite Hr. destruct (Z.ltb_spec 0 x21); lia.
      * destruct (output _ !! Z.to_nat x17), (Z.ltb_spec 0 x21); lia.
    + destruct Hrev as [(Hri & r & Hr & Hs & _)|[Hri _]]; [left|right; lia].
      split_and!; [lia|lia|eauto].
  - assert (len (rev x11) = x3) as -> by (unfold len; rewrite length_rev; lia).
    rewrite Z2Nat.id by lia. by rewrite <- !app_assoc.
  - done.
Qed.

Lemma exec_op_vault_recover_Ok ctx s s' :
  exec_op_vault_recover ctx s = Ok (tt, s') →
  ∃ o r hash vi rest,
    input_txout ctx = Some o ∧ output (tx ctx) !! vi = Some r
    ∧ vault_recovery_spk_hash (script_pubkey r) = hash ∧ len hash = 32
    ∧ items s = rest ++ [encode_scriptnum (Z.of_nat vi); hash]
    ∧ s' = mkState (rest ++ [[x01]]) (deferred s ++ [Recovery (value o) vi]).
Proof.
  unfold exec_op_vault_recover. intros Hr. iinv.
  rename select (pop_num _ _ _ = _) into Hp. apply pop_num_encode in Hp; [|lia].
  rename select (negb (bool_decide _) = false) into Hhash.
  apply negb_false_iff, bool_decide_eq_true in Hhash.
  rename select (negb (len _ =? _) = false) into Hlen. unfold RECOVERY_SPK_HASH_LEN in Hlen.
  rename select (output _ !! _ = Some _) into Ht. simplify_eq/=.
  do 4 eexists. eexists (items _). split_and!; try done; [lia| ].
  rewrite Z2Nat.id by lia. by rewrite <- app_assoc.
Qed.
End inversion.
