(* ===== verification/InterpFrame.v ===== *)
(** The interpreter only appends to the queue of deferred checks: running a leaf
    after others is running it alone and concatenating the queues. *)
From Stdlib Require Import ZArith Lia Strings.Byte.
From stdpp Require Import base list gmap strings.
From S2P Require Import Prelude Bitcoin InterpBase ScriptNum Encoding Deferred Interp.
#[local] Open Scope Z_scope.

Definition add_frame {A} (d0 : list DeferredCheck) (o : outcome InterpError (A * interp_state)) :
    outcome InterpError (A * interp_state) :=
  '(a, s) ← o; Ok (a, mkState (items s) (d0 ++ deferred s)).

(** [m] neither reads nor removes the checks already queued. *)
Definition framed {A} (m : interp A) : Prop :=
  ∀ it d0 d, m (mkState it (d0 ++ d)) = add_frame d0 (m (mkState it d)).

Lemma framed_ret {A} (a : A) : framed (mret a).
Proof. done. Qed.
Lemma framed_fail {A} e : framed (fail e : interp A).
Proof. done. Qed.
Lemma framed_lift {A} (m : outcome InterpError A) : framed (lift m).
Proof. intros it d0 d. unfold lift. by destruct m. Qed.
Lemma framed_bail_if b e : framed (bail_if b e).
Proof. apply framed_lift. Qed.
Lemma framed_get_items : framed get_items.
Proof. done. Qed.
Lemma framed_pop op : framed (pop op).
Proof. intros it d0 d. unfold pop. cbn. by destruct (vec_pop it) as [[? ?]|]. Qed.
Lemma framed_top op : framed (top op).
Proof. intros it d0 d. unfold top. cbn. by destruct (vec_pop it) as [[? ?]|]. Qed.
Lemma framed_push x : framed (push x).
Proof.
  intros it d0 d. unfold push. cbn -[len]. destruct (_ <? len x); [done|]. cbn -[len].
  by destruct (_ <? _).
Qed.
Lemma framed_defer c : framed (defer c).
Proof. intros it d0 d. cbn. by rewrite app_assoc. Qed.

Lemma framed_bind {A B} (m : interp A) (k : A → interp B) :
  framed m → (∀ a, framed (k a)) → framed (m ≫= k).
Proof.
  intros Hm Hk it d0 d. unfold mbind, interp_bind. rewrite Hm.
  destruct (m (mkState it d)) as [[a [it' d']]|e|]; cbn; [apply Hk|done|done].
Qed.

Lemma framed_if {A} (b : bool) (m1 m2 : interp A) :
  framed m1 → framed m2 → framed (if b then m1 else m2).
Proof. by destruct b. Qed.

#[export] Hint Resolve framed_ret framed_fail framed_lift framed_bail_if framed_get_items
  framed_pop framed_top framed_push framed_defer : rust.

Ltac framed_tac :=
  repeat (cbv beta zeta; match goal with
  | |- framed (_ ≫= _) => apply framed_bind; [|intros ?]
  | |- framed (if _ then _ else _) => apply framed_if
  | |- framed _ => solve [auto with rust]
  end).

Lemma framed_pop_num op m : framed (pop_num op m).
Proof. unfold pop_num. framed_tac. Qed.

Lemma framed_pop_n n op : framed (pop_n n op).
Proof. induction n as [|n IH]; cbn [pop_n]; framed_tac; done. Qed.

#[export] Hint Resolve framed_pop_num framed_pop_n : rust.

Section frame.
Context `{HashLib} `{ScriptLib} `{TxLib} `{TaprootLib} (ctx : LeafContext).

Lemma framed_exec_op_vault : framed (exec_op_vault ctx).
Proof. unfold exec_op_vault. framed_tac. Qed.

Lemma framed_exec_op_vault_recover : framed (exec_op_vault_recover ctx).
Proof. unfold exec_op_vault_recover. framed_tac. Qed.

Lemma framed_exec_op op : framed (exec_op op ctx).
Proof.
  pose proof framed_exec_op_vault. pose proof framed_exec_op_vault_recover.
  unfold exec_op, exec_standard, exec_checksig. framed_tac.
Qed.

Lemma framed_exec_instructions l : framed (exec_instructions ctx l).
Proof.
  induction l as [|i l IH]; cbn [exec_instructions]; [framed_tac|].
  apply framed_bind; [|done]. destruct i as [[b|op]|]; cbn; auto using framed_exec_op with rust.
Qed.

Lemma execute_leaf_frame stack d0 :
  execute_leaf ctx stack d0 = q ← execute_leaf ctx stack []; Ok (d0 ++ q).
Proof.
  unfold execute_leaf. destruct (stack_new stack) as [st|e|]; cbn -[len]; [|done..].
  pose proof (framed_exec_instructions (instructions (leaf ctx)) st d0 []) as Hf.
  rewrite app_nil_r in Hf. rewrite Hf. clear Hf. unfold add_frame.
  destruct (exec_instructions ctx (instructions (leaf ctx)) (mkState st []))
    as [[u [it d]]|e|]; cbn -[len]; [|done..].
  destruct it as [|x [|y r]]; [done| |done]. by destruct (is_truthy x).
Qed.
End frame.
