(* ===== verification/InterpSpec.v ===== *)
(** What the opcodes authorise: the BIP112 relative timelock, the BIP342
    signature checks, and the OP_VAULT trigger, recovery and withdrawal
    scripts. *)
From Stdlib Require Import ZArith Lia Strings.Byte.
From stdpp Require Import base list gmap strings.
From S2P Require Import Prelude Bitcoin Concrete InterpBase ScriptNum Encoding Deferred Interp.
From S2P Require Import InterpProps.
#[local] Open Scope Z_scope.

(** ** Timelocks *)

(** The masked comparison of [check_sequence]: bit 22 and the low 16 bits. *)
Lemma sequence_mask x :
  Z.land x (Z.lor SEQUENCE_LOCKTIME_TYPE_FLAG SEQUENCE_LOCKTIME_MASK) =
    (if Z.testbit x 22 then 2 ^ 22 else 0) + x mod 2 ^ 16.
Proof.
  assert (x mod 2 ^ 16 = Z.land x SEQUENCE_LOCKTIME_MASK) as -> by (symmetry; apply (Z.land_ones x 16); lia).
  rewrite Z.land_lor_distr_r.
  assert (Z.land x SEQUENCE_LOCKTIME_TYPE_FLAG = if Z.testbit x 22 then 2 ^ 22 else 0) as ->.
  { apply Z.bits_inj'. intros n Hn. rewrite Z.land_spec.
    change SEQUENCE_LOCKTIME_TYPE_FLAG with (2 ^ 22). rewrite Z.pow2_bits_eqb by lia.
    destruct (Z.eqb_spec 22 n) as [<-|Hne].
    - rewrite andb_true_r. by destruct (Z.testbit x 22).
    - rewrite andb_false_r. destruct (Z.testbit x 22); [|by rewrite Z.bits_0].
      rewrite Z.pow2_bits_eqb by lia. symmetry. by apply Z.eqb_neq. }
  rewrite <- Z.add_lor_land.
  assert (Z.land (if Z.testbit x 22 then 2 ^ 22 else 0) (Z.land x SEQUENCE_LOCKTIME_MASK) = 0) as ->; [|lia].
  rewrite Z.land_assoc, (Z.land_comm _ x), <- Z.land_assoc.
  destruct (Z.testbit x 22); apply Z.land_0_r.
Qed.

Lemma disable_flag x : (Z.land x SEQUENCE_LOCKTIME_DISABLE_FLAG =? 0) = negb (Z.testbit x 31).
Proof.
  change SEQUENCE_LOCKTIME_DISABLE_FLAG with (2 ^ 31).
  destruct (Z.testbit x 31) eqn:Hb; cbn [negb].
  - apply Z.eqb_neq. intros H0. apply (f_equal (λ z, Z.testbit z 31)) in H0.
    by rewrite Z.land_spec, Hb, Z.pow2_bits_true, Z.bits_0 in H0 by lia.
  - apply Z.eqb_eq, Z.bits_inj'. intros n Hn. rewrite Z.land_spec, Z.pow2_bits_eqb, Z.bits_0 by lia.
    destruct (Z.eqb_spec 31 n) as [<-|]; [by rewrite Hb|apply andb_false_r].
Qed.

(** BIP112, as the BIP states it: bit 31 of the operand disables the check;
    otherwise the transaction has version 2 or more (as u32), the input's
    sequence is a relative lock of the operand's type (bit 22), and its 16-bit
    value is at least the operand's. *)
Definition bip112 (n : Z) (tx : Transaction) (seq : Z) : Prop :=
  Z.testbit n 31 = true
  ∨ 2 ≤ wrap_u 32 (version tx) ∧ Z.testbit seq 31 = false
    ∧ Z.testbit seq 22 = Z.testbit n 22 ∧ n mod 2 ^ 16 ≤ seq mod 2 ^ 16.

(** OP_CHECKSEQUENCEVERIFY is BIP112: [check_sequence] accepts an operand
    exactly when the BIP's conditions hold, for every operand and sequence. *)
Lemma check_sequence_bip112 n tx i txin :
  input tx !! i = Some txin →
  check_sequence n tx i = Ok tt ↔ bip112 n tx (sequence txin).
Proof.
  intros Hi. unfold check_sequence, bip112, index. rewrite Hi. rewrite !disable_flag, negb_involutive.
  destruct (Z.testbit n 31); [split; [by left|done]|].
  destruct (Z.ltb_spec (wrap_u 32 (version tx)) 2); cbn -[Z.pow Z.modulo Z.testbit];
    [split; [done|intros [?|?]; [done|lia]]|].
  rewrite disable_flag, negb_involutive.
  destruct (Z.testbit (sequence txin) 31); [split; [done|by intros [?|(_ & ? & _)]]|].
  cbn -[Z.pow Z.modulo Z.land Z.lor Z.testbit]. rewrite reject_if_Ok, !sequence_mask.
  change SEQUENCE_LOCKTIME_TYPE_FLAG with (2 ^ 22).
  assert (0 ≤ n mod 2 ^ 16 < 2 ^ 16) by (apply Z.mod_pos_bound; lia).
  assert (0 ≤ sequence txin mod 2 ^ 16 < 2 ^ 16) by (apply Z.mod_pos_bound; lia).
  change (2 ^ 22) with 4194304 in *. change (2 ^ 16) with 65536 in *.
  destruct (Z.testbit (sequence txin) 22), (Z.testbit n 22);
    (split; [intros Hb; right; split_and!; try done; lia|intros [?|(_ & _ & ? & ?)]; [done|]; try done; lia]).
Qed.

Definition csv_tx (v s : Z) : Transaction :=
  mkTransaction v 0 [mkTxIn (mkOutPoint all_zeros 0) [] s []] [].

Lemma check_sequence_bip112_witness : bip112 6 (csv_tx 2 10) 10.
Proof.
  apply (check_sequence_bip112 6 (csv_tx 2 10) 0 (mkTxIn (mkOutPoint all_zeros 0) [] 10 []));
    reflexivity.
Defined.

Section spec.
Context `{HashLib} `{ScriptLib} `{TxLib} `{TaprootLib}.

(** ** Signatures *)

(** [sig] is a BIP342 signature by the 32-byte key [pk] over the sighash of the
    spending transaction at this input and leaf; unless it is ANYONECANPAY, the
    sighash commits to the resolved prevout of every input. *)
Definition valid_signature (ctx : LeafContext) (sig pk : bytes) : Prop :=
  ∃ key raw ty an ps digest,
    len pk = 32 ∧ xonly_from_slice pk = Some key
    ∧ taproot_sig_from_slice sig = Some (raw, ty)
    ∧ an = match annex ctx with Some a => annex_new a | None => None end
    ∧ (if is_acp ty
       then ∃ o, input_txout ctx = Some o ∧ ps = PrevoutsOne (input_index ctx) o
       else ∃ l, Forall2 (λ i o, prevouts ctx !! previous_output i = Some o) (input (tx ctx)) l
                 ∧ ps = PrevoutsAll l)
    ∧ taproot_signature_hash (tx ctx) (input_index ctx) ps an
        (Some (tap_leaf_hash (leaf ctx) LeafVersion_TapScript, NO_CODESEPARATOR)) ty = Some digest
    ∧ secp_verify_schnorr raw digest key = true.

Lemma ordered_prevouts_Ok tx ps l :
  ordered_prevouts tx ps = Ok l →
  Forall2 (λ i o, ps !! previous_output i = Some o) (input tx) l.
Proof.
  unfold ordered_prevouts. intros He.
  eapply (for_each_inv _ (λ done acc, Forall2 (λ i o, ps !! previous_output i = Some o) done acc))
    in He; [done|constructor|].
  intros pre x rest s s' _ HI Hs. okinv. apply Forall2_app; [done|]. by repeat constructor.
Qed.

Lemma verify_schnorr_valid sig pk ctx :
  verify_schnorr sig pk ctx = Ok true → valid_signature ctx sig pk.
Proof.
  unfold verify_schnorr. intros Hv.
  apply bind_Ok in Hv as ([] & Hlen%reject_if_Ok & Hv).
  apply bind_Ok in Hv as (key & Hkey%ok_or_Ok & Hv).
  apply bind_Ok in Hv as ([raw ty] & Hsig%ok_or_Ok & Hv).
  apply bind_Ok in Hv as (an & Han & Hv). apply bind_Ok in Hv as (digest & Hdig & Hv).
  injection Hv as Hv.
  assert (an = match annex ctx with Some a => annex_new a | None => None end) as Hann.
  { destruct (annex ctx) as [a|]; [|by injection Han as <-].
    apply bind_Ok in Han as (b & Hb%ok_or_Ok & [= <-]). done. }
  destruct (is_acp ty) eqn:Hacp.
  - apply bind_Ok in Hdig as (o & Ho%ok_or_Ok & Hd%ok_or_Ok).
    exists key, raw, ty, an, (PrevoutsOne (input_index ctx) o), digest. rewrite Hacp.
    split_and!; try done; [lia|eauto].
  - apply bind_Ok in Hdig as (l & Hl%ordered_prevouts_Ok & Hd%ok_or_Ok).
    exists key, raw, ty, an, (PrevoutsAll l), digest. rewrite Hacp.
    split_and!; try done; [lia|eauto].
Qed.

Lemma execute_leaf_inv ctx stack ds ds' :
  execute_leaf ctx stack ds = Ok ds' →
  stack_ok stack ∧ ∃ x, is_truthy x = true ∧
    exec_instructions ctx (instructions (leaf ctx)) (mkState stack ds) = Ok (tt, mkState [x] ds').
Proof.
  unfold execute_leaf. rewrite bind_Ok. intros (st & [-> Hst]%stack_new_Ok & He).
  apply bind_Ok in He as ([[] [its d]] & Hx & He). cbn in He.
  destruct its as [|x [|y r]]; [done| |done]. destruct (is_truthy x) eqn:Htr; [|done].
  injection He as <-. eauto.
Qed.

Lemma exec_checksigverify ctx s s' :
  exec_op OP_CHECKSIGVERIFY ctx s = Ok (tt, s') →
  ∃ sig pk, items s = items s' ++ [sig; pk] ∧ deferred s' = deferred s ∧ valid_signature ctx sig pk.
Proof.
  change (exec_op OP_CHECKSIGVERIFY ctx) with
    (pubkey ← pop "OP_CHECKSIGVERIFY"; sig ← pop "OP_CHECKSIGVERIFY";
     if bool_decide (sig = []) then fail VerifyFailed else
     ok ← lift (verify_schnorr sig pubkey ctx);
     if (ok : bool) then mret tt else fail SchnorrVerifyFailed).
  intros He. iinv. case_bool_decide; iinv. destruct (_ : bool); iinv.
  eexists _, _. rewrite <- app_assoc. split_and!; [done..|by apply verify_schnorr_valid].
Qed.

(** ** Replaying the pushes of a leaf update *)

(** Running the minimal push of [d] pushes [d]; only [OP_1NEGATE], the push of
    0x81, is not an opcode of the interpreter. *)
Lemma exec_minimal ctx d :
  exec_instruction ctx (Some (minimal_instruction d)) =
    if bool_decide (d = [x81]) then fail (UnimplementedOpcode x4f) else push d.
Proof.
  unfold minimal_instruction. destruct d as [|b [|c d]]; [done| |by rewrite bool_decide_false by congruence].
  destruct ((1 <=? b2z b) && (b2z b <=? 16)) eqn:Hb.
  - assert (b ≠ x81) by (intros ->; by vm_compute in Hb). rewrite bool_decide_false by congruence.
    by destruct b.
  - case_bool_decide as E1; case_bool_decide as E2; try congruence; [|done]. done.
Qed.

Lemma exec_instructions_app ctx l k s :
  exec_instructions ctx (l ++ k) s =
    '(_, s') ← exec_instructions ctx l s; exec_instructions ctx k s'.
Proof.
  revert s. induction l as [|i l IH]; intros s; [done|]. cbn.
  unfold mbind at 1 3, interp_bind. destruct (exec_instruction ctx i s) as [[u s']|e|]; [|done..].
  cbn. apply IH.
Qed.

Lemma push_fits x st ds :
  elem_ok x → len st + 1 ≤ MAX_STACK_SIZE → push x (mkState st ds) = Ok (tt, mkState (st ++ [x]) ds).
Proof. intros. by apply push_Ok. Qed.

Lemma exec_minimal_pushes ctx data st ds :
  Forall (λ d, elem_ok d ∧ d ≠ [x81]) data → len st + len data ≤ MAX_STACK_SIZE →
  exec_instructions ctx (map (λ d, Some (minimal_instruction d)) data) (mkState st ds) =
    Ok (tt, mkState (st ++ data) ds).
Proof.
  intros Hd. revert st. induction Hd as [|d data [Hd Hne] _ IH]; intros st Hl.
  { by rewrite app_nil_r. }
  rewrite len_cons in Hl. pose proof (len_nonneg data).
  cbn [map exec_instructions]. unfold mbind, interp_bind.
  rewrite exec_minimal, bool_decide_false, push_fits by (done || lia). cbn -[exec_instructions].
  rewrite IH by (rewrite len_snoc; lia). by rewrite <- app_assoc.
Qed.

(** The withdrawal script of a vault: [<ctv-hash> <delay> CSV DROP CTV]. *)
Definition withdrawal_leaf (h d : bytes) : Script :=
  foldl push_minimal [] [h; d] ++ [OP_CSV; OP_DROP; OP_CTV].

Lemma exec_csv ctx st d ds s' :
  exec_op OP_CSV ctx (mkState (st ++ [d]) ds) = Ok (tt, s') ↔
    s' = mkState (st ++ [d]) ds ∧ ∃ n, read_scriptnum d 5 = Ok n ∧ 0 ≤ n ∧
      check_sequence n (tx ctx) (input_index ctx) = Ok tt.
Proof.
  change (exec_op OP_CSV ctx) with
    (t ← top "OP_CHECKSEQUENCEVERIFY"; n ← lift (read_scriptnum t 5);
     _ ← bail_if (n <? 0) TimelockNotSatisfied;
     lift (check_sequence n (tx ctx) (input_index ctx))).
  split.
  - intros He. iinv. match goal with Hl : _ ++ _ = _ ++ _ |- _ => apply app_inj_tail in Hl as [-> ->] end.
    split; [done|]. eexists. split_and!; [done|lia|done].
  - intros [-> (n & Hn & Hpos & Hc)]. rewrite interp_bind_Ok. exists d, (mkState (st ++ [d]) ds).
    split; [by apply top_Ok; eauto|]. rewrite interp_bind_Ok. eexists _, _.
    split; [by apply lift_Ok|]. rewrite interp_bind_Ok. exists tt. eexists.
    split; [apply bail_if_Ok; split; [lia|done]|]. by apply lift_Ok.
Qed.

Lemma exec_ctv ctx st h ds s' :
  exec_op OP_CTV ctx (mkState (st ++ [h]) ds) = Ok (tt, s') ↔
    s' = mkState (st ++ [h]) ds ∧ len h = 32 ∧
    h = default_check_template_verify_hash (tx ctx) (input_index ctx).
Proof.
  change (exec_op OP_CTV ctx) with
    (arg ← top "OP_CHECKTEMPLATEVERIFY";
     _ ← bail_if (negb (len arg =? CTV_HASH_LEN)) (CtvBadArgLength (len arg));
     bail_if (negb (bool_decide (arg = default_check_template_verify_hash (tx ctx) (input_index ctx))))
       CtvTemplateMismatch).
  unfold CTV_HASH_LEN. split.
  - intros He. iinv. match goal with Hl : _ ++ _ = _ ++ _ |- _ => apply app_inj_tail in Hl as [-> ->] end.
    rename select (negb (bool_decide _) = false) into Hb.
    apply negb_false_iff, bool_decide_eq_true in Hb. split_and!; [done|lia|done].
  - intros (-> & Hl & Hh). rewrite interp_bind_Ok. exists h, (mkState (st ++ [h]) ds).
    split; [by apply top_Ok; eauto|]. rewrite interp_bind_Ok. exists tt. eexists.
    split; [apply bail_if_Ok; split; [lia|done]|]. apply bail_if_Ok. split; [|done].
    by rewrite bool_decide_true.
Qed.

Lemma exec_drop ctx st d ds : exec_op OP_DROP ctx (mkState (st ++ [d]) ds) = Ok (tt, mkState st ds).
Proof.
  change (exec_op OP_DROP ctx) with (_ ← pop "OP_DROP"; (mret tt : interp unit)).
  rewrite interp_bind_Ok. exists d, (mkState st ds). split; [by apply pop_Ok|done].
Qed.

Lemma exec_instructions_cons ctx i l s r :
  exec_instructions ctx (i :: l) s = Ok r ↔
    ∃ s1, exec_instruction ctx i s = Ok (tt, s1) ∧ exec_instructions ctx l s1 = Ok r.
Proof.
  cbn [exec_instructions]. rewrite interp_bind_Ok. split.
  - intros ([] & s1 & ? & ?). eauto.
  - intros (s1 & ? & ?). eauto.
Qed.

(** The instructions of the withdrawal script, run from any stack. *)
Lemma exec_withdrawal ctx h d st ds s' :
  len h = 32 → elem_ok d → len st + 2 ≤ MAX_STACK_SIZE →
  exec_instructions ctx
    [Some (PushBytes h); Some (minimal_instruction d); Some (Op OP_CSV); Some (Op OP_DROP);
     Some (Op OP_CTV)] (mkState st ds) = Ok (tt, s') ↔
  s' = mkState (st ++ [h]) ds
  ∧ h = default_check_template_verify_hash (tx ctx) (input_index ctx)
  ∧ ∃ n, read_scriptnum d 5 = Ok n ∧ 0 ≤ n
         ∧ check_sequence n (tx ctx) (input_index ctx) = Ok tt.
Proof.
  intros Hh Hd Hst. rewrite exec_instructions_cons. setoid_rewrite exec_instructions_cons.
  rewrite exec_minimal. setoid_rewrite exec_instructions_cons.
  cbn [exec_instruction]. split.
  - intros (s1 & Hp1%push_Ok & s2 & Hp2 & s3 & Hcsv & Hr). destruct Hp1 as (_ & _ & ->).
    case_bool_decide; [by apply fail_Ok in Hp2|]. apply push_Ok in Hp2 as (_ & _ & ->).
    apply exec_csv in Hcsv as [-> Hn]. apply exec_instructions_cons in Hr as (s4 & Hdrop & Hr).
    cbn [exec_instruction] in Hdrop. rewrite exec_drop in Hdrop. injection Hdrop as <-.
    apply exec_instructions_cons in Hr as (s5 & Hctv & [= <-]).
    cbn [exec_instruction] in Hctv. apply exec_ctv in Hctv as (-> & _ & ->). done.
  - intros (-> & Hctv & n & Hn & Hpos & Hc).
    assert (d ≠ [x81]) by (intros ->; vm_compute in Hn; injection Hn as <-; lia).
    rewrite bool_decide_false by done.
    exists (mkState (st ++ [h]) ds). split; [apply push_fits; [unfold elem_ok, MAX_SCRIPT_ELEMENT_SIZE|]; lia|].
    exists (mkState ((st ++ [h]) ++ [d]) ds). split; [apply push_fits; [done|rewrite len_snoc; lia]|].
    exists (mkState ((st ++ [h]) ++ [d]) ds). split; [apply exec_csv; eauto 6|].
    apply exec_instructions_cons. exists (mkState (st ++ [h]) ds). split; [apply exec_drop|].
    apply exec_instructions_cons. exists (mkState (st ++ [h]) ds). split; [by apply exec_ctv|done].
Qed.

Lemma instructions_withdrawal `{!ScriptLaws} h d :
  len h = 32 → elem_ok d →
  instructions (withdrawal_leaf h d) =
    [Some (PushBytes h); Some (minimal_instruction d); Some (Op OP_CSV); Some (Op OP_DROP);
     Some (Op OP_CTV)].
Proof.
  intros Hh Hd. unfold withdrawal_leaf, elem_ok, MAX_SCRIPT_ELEMENT_SIZE in *. cbn [foldl].
  rewrite push_minimal_out, <- app_assoc, !instructions_push_minimal by lia.
  rewrite !instructions_op, instructions_nil by done.
  by destruct h as [|b [|c h]].
Qed.

End spec.

(** * Properties *)

(** C40: every opcode keeps the machine within its limits: from a stack of at
    most 1000 elements of at most 520 bytes and a queue of well-formed deferred
    checks, no opcode panics, and a successful one leaves such a state. *)
Theorem exec_op_invariant `{HashLib} `{ScriptLib} `{TxLib} `{TaprootLib} op ctx s :
  ctx_ok ctx → inv ctx s →
  exec_op op ctx s ≠ Panic ∧ ∀ s', exec_op op ctx s = Ok (tt, s') → inv ctx s'.
Proof.
  intros Hctx Hs. pose proof (hoare_exec_op ctx Hctx op s Hs) as Hx.
  destruct (exec_op op ctx s) as [[[] s1]|e|]; [|done|done]. split; [done|]. by intros ? [= <-].
Qed.

(** C27: the withdrawal script OP_VAULT commits to enforces both the timelock and
    the template: with hash [h] and delay [d] it accepts exactly the empty
    witness stack, on a spend whose template hash is [h] and whose sequence
    satisfies the delay under [check_sequence]; it queues no deferred check. *)
Theorem withdrawal_leaf_spec `{HashLib} `{ScriptLib} `{TxLib} `{TaprootLib} `{!ScriptLaws}
    ctx h d stack ds ds' :
  len h = 32 → elem_ok d → leaf ctx = withdrawal_leaf h d →
  execute_leaf ctx stack ds = Ok ds' ↔
    ds' = ds ∧ stack = [] ∧ is_truthy h = true
    ∧ h = default_check_template_verify_hash (tx ctx) (input_index ctx)
    ∧ ∃ n, read_scriptnum d 5 = Ok n ∧ 0 ≤ n
           ∧ check_sequence n (tx ctx) (input_index ctx) = Ok tt.
Proof.
  intros Hh Hd Hleaf. split.
  - intros (_ & x & Hx & Hr)%execute_leaf_inv. rewrite Hleaf, instructions_withdrawal in Hr by done.
    destruct (Z.le_gt_cases (len stack + 2) MAX_STACK_SIZE) as [Hs|Hs].
    + apply exec_withdrawal in Hr as ([= Hst ->] & Hctv & Hn); [|done..].
      destruct stack as [|y stack]; [|by destruct stack]. injection Hst as ->. done.
    + apply exec_instructions_cons in Hr as (s1 & Hp%push_Ok & Hr). cbn in Hp.
      destruct Hp as (_ & Hp & ->). apply exec_instructions_cons in Hr as (s2 & Hp2 & _).
      rewrite exec_minimal in Hp2. case_bool_decide; [done|]. apply push_Ok in Hp2 as (_ & Hp2 & _).
      cbn in Hp2. rewrite len_snoc in Hp2. lia.
  - intros (-> & -> & Htr & Hctv & Hn). unfold execute_leaf.
    rewrite Hleaf, instructions_withdrawal by done.
    rewrite (proj2 (stack_new_Ok [] [])) by (split; [done|split; [done|constructor]]). cbn [mbind outcome_bind].
    rewrite (proj2 (exec_withdrawal ctx h d [] ds (mkState ([] ++ [h]) ds) Hh Hd ltac:(done))) by done.
    cbn. by rewrite Htr.
Qed.
