(* ===== verification/VaultSpec.v ===== *)
(** The vault protocol end to end: the canonical trigger leaf
    [<pk> CHECKSIGVERIFY <delay> 2 <body> OP_VAULT] and the recovery leaf
    [<hash> OP_VAULT_RECOVER], as scripts run by [execute_leaf]. *)
From Stdlib Require Import ZArith Lia Strings.Byte.
From stdpp Require Import base list gmap strings.
From S2P Require Import Prelude Bitcoin Concrete InterpBase ScriptNum Encoding Deferred Interp.
From S2P Require Import InterpProps InterpSpec.
#[local] Open Scope Z_scope.

Definition trigger_leaf (pk delay body : bytes) : Script :=
  push_minimal [] pk ++ [OP_CHECKSIGVERIFY] ++ foldl push_minimal [] [delay; [x02]; body] ++ [OP_VAULT].

Definition recover_leaf (hash : bytes) : Script := push_minimal [] hash ++ [OP_VAULT_RECOVER].

Section vault.
Context `{HashLib} `{ScriptLib} `{TxLib} `{TaprootLib} `{!ScriptLaws}.

Lemma minimal_32 h : len h = 32 → minimal_instruction h = PushBytes h.
Proof. by destruct h as [|b [|c h]]. Qed.

Lemma instructions_trigger pk delay body :
  len pk = 32 → elem_ok delay → elem_ok body →
  instructions (trigger_leaf pk delay body) =
    Some (PushBytes pk) :: Some (Op OP_CHECKSIGVERIFY)
    :: map (λ d, Some (minimal_instruction d)) [delay; [x02]; body] ++ [Some (Op OP_VAULT)].
Proof.
  intros Hpk Hd Hb. unfold trigger_leaf, elem_ok, MAX_SCRIPT_ELEMENT_SIZE in *.
  rewrite instructions_push_minimal, (minimal_32 pk) by lia. cbn [app].
  rewrite instructions_op by done. f_equal. f_equal.
  cbn [foldl]. rewrite (push_minimal_out (push_minimal _ _)), (push_minimal_out (push_minimal _ _)).
  rewrite <- !app_assoc, !instructions_push_minimal by (done || lia).
  by rewrite instructions_op, instructions_nil.
Qed.

Lemma instructions_recover hash :
  len hash = 32 → instructions (recover_leaf hash) = [Some (PushBytes hash); Some (Op OP_VAULT_RECOVER)].
Proof.
  intros Hh. unfold recover_leaf.
  by rewrite instructions_push_minimal, (minimal_32 hash), instructions_op, instructions_nil by (done || lia).
Qed.

(** A minimal push that runs pushes its bytes. *)
Lemma exec_minimal_Ok ctx d s s' :
  exec_instruction ctx (Some (minimal_instruction d)) s = Ok (tt, s') →
  len (items s) + 1 ≤ MAX_STACK_SIZE ∧ s' = mkState (items s ++ [d]) (deferred s).
Proof.
  rewrite exec_minimal. case_bool_decide; [done|]. by intros (_ & ? & ->)%push_Ok.
Qed.

Lemma encode_scriptnum_inj4 n m :
  Z.abs n < 2 ^ 31 → Z.abs m < 2 ^ 31 → encode_scriptnum n = encode_scriptnum m → n = m.
Proof.
  intros Hn Hm He. assert (read_scriptnum (encode_scriptnum n) 4 = Ok n) as Hr
    by (apply read_scriptnum_spec; [lia|done]).
  rewrite He, (proj2 (read_scriptnum_spec (encode_scriptnum m) 4 m ltac:(lia))) in Hr by done.
  by injection Hr.
Qed.

(** The operands of [OP_VAULT] when its top three elements come from the leaf. *)
Lemma vault_operands st delay body rest ra ri ti data body' :
  len st ≤ MAX_STACK_SIZE →
  ((st ++ [delay]) ++ [[x02]]) ++ [body]
    = rest ++ [ra; ri; ti] ++ data ++ [encode_scriptnum (len data); body'] →
  ∃ h, data = [h; delay] ∧ body' = body ∧ st = rest ++ [ra; ri; ti; h].
Proof.
  unfold MAX_STACK_SIZE. intros Hl He.
  assert (len data ≤ 1000).
  { apply (f_equal len) in He. rewrite !len_app in He. cbn -[len] in He.
    rewrite !len_cons, !len_nil in He. pose proof (len_nonneg rest). lia. }
  change [encode_scriptnum (len data); body'] with ([encode_scriptnum (len data)] ++ [body']) in He.
  rewrite !app_assoc in He. apply app_inj_tail in He as [He <-].
  apply app_inj_tail in He as [He Hc].
  change [x02] with (encode_scriptnum 2) in Hc. pose proof (len_nonneg data).
  apply encode_scriptnum_inj4 in Hc; [|lia..].
  destruct data as [|h [|d [|? data]]]; try discriminate; [|rewrite !len_cons in Hc; pose proof (len_nonneg data); lia].
  change [h; d] with ([h] ++ [d]) in He. rewrite app_assoc in He.
  apply app_inj_tail in He as [-> <-]. exists h. split_and!; [done|done|]. by rewrite <- !app_assoc.
Qed.

Lemma exec_trigger ctx pk delay body st ds s' :
  stack_ok st →
  exec_instructions ctx
    (Some (PushBytes pk) :: Some (Op OP_CHECKSIGVERIFY)
     :: map (λ d, Some (minimal_instruction d)) [delay; [x02]; body] ++ [Some (Op OP_VAULT)])
    (mkState st ds) = Ok (tt, s') →
  ∃ rest ra ri ti h sig o,
    st = rest ++ [encode_scriptnum ra; encode_scriptnum ri; encode_scriptnum (Z.of_nat ti); h; sig]
    ∧ valid_signature ctx sig pk ∧ vault_trigger ctx o [h; delay] body ti ri ra
    ∧ s' = mkState (rest ++ [[x01]]) (ds ++ [Trigger (value o) ra ti ri]).
Proof.
  intros [Hst _] Hr. cbn [map app] in Hr. repeat setoid_rewrite exec_instructions_cons in Hr.
  destruct Hr as (s1 & Hpk & s2 & Hsig & s3 & Hdelay & s4 & Htwo & s5 & Hbody & s6 & Hv & [= <-]).
  apply push_Ok in Hpk as (_ & _ & ->).
  apply exec_checksigverify in Hsig as (sig & pk' & Hit & Hds & Hval). cbn in Hit, Hds.
  change [sig; pk'] with ([sig] ++ [pk']) in Hit. rewrite app_assoc in Hit.
  apply app_inj_tail in Hit as [-> <-].
  apply exec_minimal_Ok in Hdelay as (_ & ->). apply exec_minimal_Ok in Htwo as (_ & ->).
  apply exec_minimal_Ok in Hbody as (_ & ->).
  apply exec_op_vault_Ok in Hv as (o & data & body' & ti & ri & ra & rest & Hvt & Hits & ->).
  cbn [items deferred] in *. rewrite len_snoc in Hst.
  apply vault_operands in Hits as (h & -> & -> & Hs2); [|lia].
  rewrite Hs2, Hds. do 7 eexists. split_and!; [|done|done|done]. by rewrite <- app_assoc.
Qed.
End vault.

(** * Properties *)

(** C24: a vault can only be triggered by its key, and only into its own
    withdrawal.  If the trigger leaf for key [pk], delay and body accepts, the
    witness is exactly [ra, ri, ti, h, sig], where [sig] is a valid signature by
    [pk]; output [ti] is the input's taptree with the executing leaf replaced by
    the leaf update [<h> <delay> body], it carries the input amount with the
    revault output, the revault output (if any) goes back to the same script,
    and the value check queued is for those outputs. *)
Theorem trigger_leaf_sound `{HashLib} `{ScriptLib} `{TxLib} `{TaprootLib} `{!ScriptLaws}
    ctx pk delay body stack ds ds' :
  len pk = 32 → elem_ok delay → elem_ok body →
  leaf ctx = trigger_leaf pk delay body →
  execute_leaf ctx stack ds = Ok ds' →
  ∃ ra ri ti h sig o,
    stack = [encode_scriptnum ra; encode_scriptnum ri; encode_scriptnum (Z.of_nat ti); h; sig]
    ∧ valid_signature ctx sig pk
    ∧ vault_trigger ctx o [h; delay] body ti ri ra
    ∧ ds' = ds ++ [Trigger (value o) ra ti ri].
Proof.
  intros Hpk Hd Hb Hleaf (Hst & x & _ & Hr)%execute_leaf_inv.
  rewrite Hleaf, instructions_trigger in Hr by done.
  apply exec_trigger in Hr as (rest & ra & ri & ti & h & sig & o & -> & Hval & Hvt & [= Hx ->]); [|done].
  destruct rest as [|y rest]; [|by destruct rest].
  exists ra, ri, ti, h, sig, o. done.
Qed.

(** C25: a recovery leaf only lets the funds go to the script it was made for:
    if [<hash> OP_VAULT_RECOVER] accepts, the witness is a single output index,
    that output's script has recovery hash [hash], and the whole input amount is
    queued for it. *)
Theorem recover_leaf_sound `{HashLib} `{ScriptLib} `{TxLib} `{TaprootLib} `{!ScriptLaws}
    ctx hash stack ds ds' :
  len hash = 32 → leaf ctx = recover_leaf hash →
  execute_leaf ctx stack ds = Ok ds' →
  ∃ o r vi, stack = [encode_scriptnum (Z.of_nat vi)]
    ∧ input_txout ctx = Some o ∧ output (tx ctx) !! vi = Some r
    ∧ vault_recovery_spk_hash (script_pubkey r) = hash
    ∧ ds' = ds ++ [Recovery (value o) vi].
Proof.
  intros Hh Hleaf (_ & x & _ & Hr)%execute_leaf_inv. rewrite Hleaf, instructions_recover in Hr by done.
  repeat setoid_rewrite exec_instructions_cons in Hr.
  destruct Hr as (s1 & Hp & s2 & Hv & [= ->]). apply push_Ok in Hp as (_ & _ & ->).
  apply exec_op_vault_recover_Ok in Hv as (o & r & h & vi & rest & Ho & Hr & Hhash & _ & Hit & [= Hx ->]).
  cbn in Hit. destruct rest as [|y rest]; [|by destruct rest].
  change ([] ++ [encode_scriptnum (Z.of_nat vi); h]) with ([encode_scriptnum (Z.of_nat vi)] ++ [h]) in Hit.
  apply app_inj_tail in Hit as [-> <-]. eauto 10.
Qed.

(** The leaf update replays its parameters: running the script OP_VAULT
    reconstructs from [data] and [body] is running [body] on the stack with
    [data] pushed, provided no item is the byte 0x81. *)
Lemma leaf_update_replays `{HashLib} `{ScriptLib} `{TxLib} `{TaprootLib} `{!ScriptLaws}
    ctx data body st ds :
  Forall (λ d, elem_ok d ∧ d ≠ [x81]) data → len st + len data ≤ MAX_STACK_SIZE →
  exec_instructions ctx (instructions (foldl push_minimal [] data ++ body)) (mkState st ds) =
    exec_instructions ctx (instructions body) (mkState (st ++ data) ds).
Proof.
  intros Hd Hl. rewrite instructions_push_all; [|eapply Forall_impl; [done|]; naive_solver].
  by rewrite exec_instructions_app, exec_minimal_pushes.
Qed.

(** An item 0x81 (the number -1) freezes the withdrawal: OP_VAULT accepts it
    and pushes it as [OP_1NEGATE], which the interpreter does not implement, so
    the reconstructed leaf never runs to success. *)
Lemma leaf_update_negative_one `{HashLib} `{ScriptLib} `{TxLib} `{TaprootLib} `{!ScriptLaws}
    ctx pre post body st ds :
  Forall elem_ok pre → Forall elem_ok post →
  is_ok (exec_instructions ctx
    (instructions (foldl push_minimal [] (pre ++ [x81] :: post) ++ body)) (mkState st ds)) = false.
Proof.
  intros Hpre Hpost. destruct (exec_instructions _ _ _) as [[[] s']|e|] eqn:Hr; [exfalso|done|done].
  rewrite instructions_push_all in Hr by (apply Forall_app; split; [done|by constructor]).
  rewrite map_app, <- app_assoc, exec_instructions_app in Hr.
  apply bind_Ok in Hr as ([[] s1] & _ & Hr). cbn [map app] in Hr.
  apply exec_instructions_cons in Hr as (s2 & Hx & _). by rewrite exec_minimal in Hx.
Qed.

(** * Witnesses: a vault of 100000 sat, triggered and withdrawn *)

Definition ex_pk : bytes := replicate 32 x02.
Definition ex_hash : bytes := replicate 32 x77.
Definition ex_body : bytes := [OP_CSV; OP_DROP; OP_CTV].
Definition ex_control : ControlBlock := mkControlBlock LeafVersion_TapScript (replicate 32 x22) [].
Definition ex_outpoint : OutPoint := mkOutPoint all_zeros 0.
Definition ex_input_txout : TxOut := mkTxOut 100000 (x51 :: x20 :: replicate 32 x09).
Definition ex_trigger_out : TxOut :=
  mkTxOut 100000 (@reconstruct_trigger_spk toy_taproot ex_control (withdrawal_leaf ex_hash [x06])).
Definition ex_tx (outs : list TxOut) : Transaction :=
  mkTransaction 2 0 [mkTxIn ex_outpoint [] 10 []] outs.
Definition ex_ctx (outs : list TxOut) (l : Script) : LeafContext :=
  mkLeafContext (ex_tx outs) 0 {[ ex_outpoint := ex_input_txout ]} (Some ex_input_txout)
    ex_control None l.
Definition ex_sig : bytes := ex_pk ++ replicate 32 x00.
Definition ex_recovery_hash : bytes := @vault_recovery_spk_hash toy_hash [x51].

Lemma elem_ok_small x : bool_decide (len x ≤ 520) = true → elem_ok x.
Proof. apply bool_decide_eq_true. Qed.

Lemma exec_op_invariant_witness :
  @exec_op toy_hash toy_script toy_tx toy_taproot OP_DUP (ex_ctx [] []) (mkState [[x05]] [])
    ≠ Panic
  ∧ ∀ s', @exec_op toy_hash toy_script toy_tx toy_taproot OP_DUP (ex_ctx [] []) (mkState [[x05]] [])
            = Ok (tt, s') → inv (ex_ctx [] []) s'.
Proof.
  apply (@exec_op_invariant toy_hash toy_script toy_tx toy_taproot).
  - split; [vm_compute; lia|]. intros o [= <-]. split; vm_compute; congruence.
  - split; [|constructor]. split; [vm_compute; congruence|].
    constructor; [by apply elem_ok_small|constructor].
Defined.

Lemma withdrawal_leaf_spec_witness :
  let h := @default_check_template_verify_hash toy_hash toy_tx (ex_tx []) 0 in
  @execute_leaf toy_hash toy_script toy_tx toy_taproot (ex_ctx [] (withdrawal_leaf h [x06])) [] []
    = Ok [].
Proof.
  intros h.
  apply (@withdrawal_leaf_spec toy_hash toy_script toy_tx toy_taproot toy_script_laws
           (ex_ctx [] (withdrawal_leaf h [x06])) h [x06] [] [] []);
    [reflexivity|by apply elem_ok_small|reflexivity|].
  split_and!; [reflexivity..|]. exists 6. split_and!; [reflexivity|lia|reflexivity].
Defined.

Lemma trigger_leaf_sound_witness :
  ∃ ra ri ti h sig o,
    [encode_scriptnum 0; encode_scriptnum (-1); encode_scriptnum 0; ex_hash; ex_sig]
      = [encode_scriptnum ra; encode_scriptnum ri; encode_scriptnum (Z.of_nat ti); h; sig]
    ∧ @valid_signature toy_taproot
        (ex_ctx [ex_trigger_out] (trigger_leaf ex_pk [x06] ex_body)) sig ex_pk
    ∧ @vault_trigger toy_script toy_taproot
        (ex_ctx [ex_trigger_out] (trigger_leaf ex_pk [x06] ex_body)) o [h; [x06]] ex_body ti ri ra
    ∧ [Trigger 100000 0 0 (-1)] = [] ++ [Trigger (value o) ra ti ri].
Proof.
  apply (@trigger_leaf_sound toy_hash toy_script toy_tx toy_taproot toy_script_laws
           (ex_ctx [ex_trigger_out] (trigger_leaf ex_pk [x06] ex_body)));
    [reflexivity|by apply elem_ok_small|by apply elem_ok_small|reflexivity|vm_compute; reflexivity].
Defined.

Lemma recover_leaf_sound_witness :
  let ctx := ex_ctx [mkTxOut 100000 [x51]] (recover_leaf ex_recovery_hash) in
  ∃ o r vi, [encode_scriptnum 0] = [encode_scriptnum (Z.of_nat vi)]
    ∧ input_txout ctx = Some o ∧ output (tx ctx) !! vi = Some r
    ∧ @vault_recovery_spk_hash toy_hash (script_pubkey r) = ex_recovery_hash
    ∧ [Recovery 100000 0] = [] ++ [Recovery (value o) vi].
Proof.
  intros ctx. apply (@recover_leaf_sound toy_hash toy_script toy_tx toy_taproot toy_script_laws ctx);
    [reflexivity|reflexivity|vm_compute; reflexivity].
Defined.

Lemma leaf_update_replays_witness :
  let run := @exec_instructions toy_hash toy_script toy_tx toy_taproot (ex_ctx [] []) in
  run (@instructions toy_script (foldl push_minimal [] [[x05]; []] ++ [OP_SWAP])) (mkState [[x01]] [])
  = run (@instructions toy_script [OP_SWAP]) (mkState [[x01]; [x05]; []] []).
Proof.
  intros run. apply (@leaf_update_replays toy_hash toy_script toy_tx toy_taproot toy_script_laws
    (ex_ctx [] []) [[x05]; []] [OP_SWAP] [[x01]] []); [|vm_compute; congruence].
  repeat (constructor; [split; [by apply elem_ok_small|done]|]). constructor.
Defined.

Lemma leaf_update_negative_one_witness :
  is_ok (@exec_instructions toy_hash toy_script toy_tx toy_taproot (ex_ctx [] [])
    (@instructions toy_script (foldl push_minimal [] ([[x05]] ++ [x81] :: []) ++ [OP_DROP]))
    (mkState [] [])) = false.
Proof.
  apply (@leaf_update_negative_one toy_hash toy_script toy_tx toy_taproot toy_script_laws);
    repeat (constructor; [by apply elem_ok_small|]); constructor.
Defined.
