(* ===== verification/Tapscript.v ===== *)
(** Tapscript enforcement over a transaction (`tapscript/mod.rs`): which
    witnesses reveal an enforced leaf, and the per-transaction verdict. *)
From Stdlib Require Import ZArith Lia Strings.Byte.
From stdpp Require Import base list gmap.
From S2P Require Import Prelude Bitcoin Concrete InterpBase ScriptNum Encoding Deferred Interp.
From S2P Require Import InterpProps InterpFrame InterpSpec VaultSpec.
#[local] Open Scope Z_scope.

Definition ENFORCED_OPCODES : list Opcode := [OP_CAT; OP_CTV; OP_VAULT; OP_VAULT_RECOVER].
Definition ANNEX_PREFIX : byte := x50.

Inductive TapscriptError :=
| TapscriptInterp (input_index : nat) (source : InterpError)
| TapscriptDeferred (source : InterpError).

(** [EnforcedLeaf]: the leaf, the initial stack, the control block, the annex. *)
Record EnforcedLeaf := mkEnforcedLeaf {
  el_leaf : Script;
  el_stack : list bytes;
  el_control : ControlBlock;
  el_annex : option bytes
}.

(** The loop shared by the two [leaf_uses_*] functions: a match on the opcode
    returns true, a parse error ends the loop. *)
Fixpoint any_opcode (p : Opcode → bool) (l : list (option Instruction)) : bool :=
  match l with
  | [] => false
  | Some (Op op) :: l => if p op then true else any_opcode p l
  | Some (PushBytes _) :: l => any_opcode p l
  | None :: _ => false
  end.

Section tapscript.
Context `{HashLib} `{ScriptLib} `{TxLib} `{TaprootLib}.

Definition leaf_uses_vault_opcode (leaf : Script) : bool :=
  any_opcode (λ op, bool_decide (op = OP_VAULT) || bool_decide (op = OP_VAULT_RECOVER))
    (instructions leaf).

Definition leaf_uses_enforced_opcode (leaf : Script) : bool :=
  any_opcode (λ op, bool_decide (op ∈ ENFORCED_OPCODES)) (instructions leaf).

(** The [expect("len checked")] are kept as possible panics. *)
Definition detect_enforced_leaf (witness : Witness) :
    outcome TapscriptError (option EnforcedLeaf) :=
  let elems := witness in
  if len elems <? 2 then Ok None else
  let '(annex, elems) :=
    match vec_pop elems with
    | Some (rest, e) => if bool_decide (head e = Some ANNEX_PREFIX)
                        then (Some e, rest) else (None, elems)
    | None => (None, elems)
    end in
  if len elems <? 2 then Ok None else
  '(elems, control_block) ← expect (vec_pop elems);
  '(elems, leaf_bytes) ← expect (vec_pop elems);
  match control_block_decode control_block with
  | None => Ok None
  | Some control =>
      if bool_decide (cb_leaf_version control ≠ LeafVersion_TapScript) then Ok None else
      if negb (leaf_uses_enforced_opcode leaf_bytes) then Ok None else
      Ok (Some (mkEnforcedLeaf leaf_bytes elems control annex))
  end.

Definition input_reveals_vault_leaf (witness : Witness) : outcome TapscriptError bool :=
  o ← detect_enforced_leaf witness;
  match o with
  | Some l => Ok (leaf_uses_vault_opcode (el_leaf l))
  | None => Ok false
  end.

(** The context built for input [input_index]. *)
Definition leaf_context (tx : Transaction) (prevouts : PrevoutMap) (input_index : nat)
    (input : TxIn) (l : EnforcedLeaf) : LeafContext :=
  mkLeafContext tx input_index prevouts (prevouts !! previous_output input)
    (el_control l) (el_annex l) (el_leaf l).

(** One round of the input loop. *)
Definition enforce_input (tx : Transaction) (prevouts : PrevoutMap)
    (i : nat * TxIn) (deferred : list DeferredCheck) :
    outcome TapscriptError (list DeferredCheck) :=
  let '(input_index, input) := i in
  o ← detect_enforced_leaf (witness input);
  match o with
  | Some l => map_err (TapscriptInterp input_index)
                (execute_leaf (leaf_context tx prevouts input_index input l) (el_stack l) deferred)
  | None => Ok deferred
  end.

Definition enforce_transaction (tx : Transaction) (prevouts : PrevoutMap) :
    outcome TapscriptError unit :=
  deferred ← for_each (enforce_input tx prevouts) (enumerate (input tx)) [];
  map_err TapscriptDeferred (evaluate_deferred_checks deferred tx).

(** * Lemmas *)

(** The witness shape that reveals an enforced leaf. *)
Lemma detect_enforced_leaf_Ok w l :
  detect_enforced_leaf w = Ok (Some l) →
  ∃ cb, w = el_stack l ++ [el_leaf l; cb] ++ (match el_annex l with Some a => [a] | None => [] end)
    ∧ control_block_decode cb = Some (el_control l)
    ∧ cb_leaf_version (el_control l) = LeafVersion_TapScript
    ∧ leaf_uses_enforced_opcode (el_leaf l) = true
    ∧ (∀ a, el_annex l = Some a → head a = Some ANNEX_PREFIX).
Proof.
  unfold detect_enforced_leaf. destruct (len w <? 2); [done|].
  destruct (match vec_pop w with Some _ => _ | None => _ end) as [an elems] eqn:Han.
  assert (w = elems ++ (match an with Some a => [a] | None => [] end)
          ∧ ∀ a, an = Some a → head a = Some ANNEX_PREFIX) as [Hw Hhd].
  { destruct (vec_pop w) as [[rest e]|] eqn:Hv; [apply vec_pop_Some in Hv|].
    - case_bool_decide; simplify_eq; [split; [done|naive_solver]|by rewrite app_nil_r].
    - simplify_eq. by rewrite app_nil_r. }
  destruct (len elems <? 2); [done|]. intros Hr.
  apply bind_Ok in Hr as ([e1 cb] & Hcb%expect_Ok%vec_pop_Some & Hr).
  apply bind_Ok in Hr as ([e2 lf] & Hlf%expect_Ok%vec_pop_Some & Hr).
  destruct (control_block_decode cb) as [control|] eqn:Hdec; [|done].
  case_bool_decide as Hver; [done|]. destruct (leaf_uses_enforced_opcode lf) eqn:Huse; [|done].
  injection Hr as <-. cbn. exists cb. split_and!; try done.
  rewrite Hw, Hcb, Hlf. by rewrite <- !app_assoc.
Qed.

Lemma detect_enforced_leaf_no_panic w : detect_enforced_leaf w ≠ Panic.
Proof.
  unfold detect_enforced_leaf. destruct (len w <? 2); [done|].
  destruct (match vec_pop w with Some _ => _ | None => _ end) as [an elems].
  destruct (Z.ltb_spec (len elems) 2) as [|Hl]; [done|].
  destruct (vec_pop elems) as [[e1 cb]|] eqn:Hv.
  - apply vec_pop_Some in Hv as ->. rewrite len_snoc in Hl. cbn.
    destruct (vec_pop e1) as [[e2 lf]|] eqn:Hv; cbn.
    + destruct (control_block_decode cb); [|done]. case_bool_decide; [done|]. by destruct (negb _).
    + apply vec_pop_None in Hv as ->. rewrite len_nil in Hl. lia.
  - apply vec_pop_None in Hv as ->. rewrite len_nil in Hl. lia.
Qed.

Lemma input_reveals_vault_leaf_no_panic w : input_reveals_vault_leaf w ≠ Panic.
Proof.
  unfold input_reveals_vault_leaf. pose proof (detect_enforced_leaf_no_panic w).
  destruct (detect_enforced_leaf w) as [[l|]|e|]; done.
Qed.

(** Amounts of the resolved prevouts are u64. *)
Definition prevouts_ok (prevouts : PrevoutMap) : Prop :=
  ∀ op o, prevouts !! op = Some o → in_u 64 (value o).

(** The verdict on one input, alone: the checks [q] its leaf queues. *)
Definition input_verdict (tx : Transaction) (prevouts : PrevoutMap) (i : nat * TxIn)
    (q : list DeferredCheck) : Prop :=
  match detect_enforced_leaf (witness i.2) with
  | Ok (Some l) => execute_leaf (leaf_context tx prevouts i.1 i.2 l) (el_stack l) [] = Ok q
  | Ok None => q = []
  | _ => False
  end.

Lemma enforce_input_frame tx prevouts i ds ds' :
  enforce_input tx prevouts i ds = Ok ds' ↔ ∃ q, input_verdict tx prevouts i q ∧ ds' = ds ++ q.
Proof.
  destruct i as [i txin]. unfold enforce_input, input_verdict. cbn [fst snd].
  destruct (detect_enforced_leaf (witness txin)) as [[l|]|e|]; cbn.
  - rewrite map_err_Ok, execute_leaf_frame. rewrite bind_Ok. naive_solver.
  - split; [intros [= <-]; exists []; by rewrite app_nil_r|].
    intros (q & -> & ->). by rewrite app_nil_r.
  - naive_solver.
  - naive_solver.
Qed.

Lemma enforce_inputs_frame tx prevouts l ds ds' :
  for_each (enforce_input tx prevouts) l ds = Ok ds' ↔
    ∃ qs, Forall2 (input_verdict tx prevouts) l qs ∧ ds' = ds ++ concat qs.
Proof.
  revert ds. induction l as [|i l IH]; intros ds; cbn [for_each].
  - split.
    + intros [= <-]. exists []. split; [constructor|]. cbn. by rewrite app_nil_r.
    + intros (qs & Hq & ->). inversion Hq. cbn. by rewrite app_nil_r.
  - rewrite bind_Ok. setoid_rewrite enforce_input_frame. split.
    + intros (? & (q & Hq & ->) & Hr). apply IH in Hr as (qs & Hqs & ->).
      exists (q :: qs). split; [by constructor|]. cbn. by rewrite app_assoc.
    + intros (qs & Hqs & ->). inversion Hqs as [|? q ? qs' Hq Hqs']; subst.
      exists (ds ++ q). split; [eauto|]. apply IH. exists qs'. split; [done|]. cbn. by rewrite app_assoc.
Qed.

Lemma leaf_context_ok tx prevouts i txin l :
  prevouts_ok prevouts → input tx !! i = Some txin → ctx_ok (leaf_context tx prevouts i txin l).
Proof.
  intros Hp Hi. split; cbn; [by eapply lookup_lt_Some|]. intros o. apply Hp.
Qed.

Lemma enforce_input_safe tx prevouts i txin ds :
  prevouts_ok prevouts → input tx !! i = Some txin → Forall (check_wf tx) ds →
  match enforce_input tx prevouts (i, txin) ds with
  | Ok ds' => Forall (check_wf tx) ds'
  | Err _ => True
  | Panic => False
  end.
Proof.
  intros Hp Hi Hds. unfold enforce_input. pose proof (detect_enforced_leaf_no_panic (witness txin)).
  destruct (detect_enforced_leaf (witness txin)) as [[l|]|e|]; cbn; try done.
  pose proof (execute_leaf_safe _ (leaf_context_ok tx prevouts i txin l Hp Hi) (el_stack l) ds Hds) as Hs.
  by destruct (execute_leaf _ _ _).
Qed.

Lemma enforce_inputs_safe tx prevouts :
  prevouts_ok prevouts →
  match for_each (enforce_input tx prevouts) (enumerate (input tx)) [] with
  | Ok ds => Forall (check_wf tx) ds
  | Err _ => True
  | Panic => False
  end.
Proof.
  intros Hp.
  assert (∀ l ds, (∀ i x, (i, x) ∈ l → input tx !! i = Some x) → Forall (check_wf tx) ds →
    match for_each (enforce_input tx prevouts) l ds with
    | Ok ds => Forall (check_wf tx) ds | Err _ => True | Panic => False end) as Hall.
  { induction l as [|[i x] l IH]; intros ds Hl Hds; cbn [for_each]; [done|].
    pose proof (enforce_input_safe tx prevouts i x ds Hp (Hl i x ltac:(set_solver)) Hds) as Hs.
    destruct (enforce_input tx prevouts (i, x) ds) as [ds1|e|]; cbn; [|done|done].
    apply IH; [|done]. intros j y Hy. apply Hl. set_solver. }
  apply Hall; [intros i x; apply elem_of_enumerate|constructor].
Qed.
End tapscript.

(** * Properties *)

(** Enforcement is total: on any transaction and prevouts with u64 amounts,
    [enforce_transaction] returns a verdict; no witness, script or index makes it
    panic. *)
Lemma enforce_transaction_no_panic `{HashLib} `{ScriptLib} `{TxLib} `{TaprootLib} tx prevouts :
  prevouts_ok prevouts → tx_amounts_ok tx → enforce_transaction tx prevouts ≠ Panic.
Proof.
  intros Hp Htx. unfold enforce_transaction. pose proof (enforce_inputs_safe tx prevouts Hp) as Hs.
  destruct (for_each _ _ _) as [ds|e|]; cbn; [|done|done].
  pose proof (evaluate_deferred_checks_spec ds tx Hs Htx) as He.
  by destruct (evaluate_deferred_checks ds tx).
Qed.

(** C7: the verdict on a transaction is the conjunction of one independent
    verdict per input and one joint value check: it is accepted exactly when every
    input that reveals an enforced leaf runs that leaf to success on its own, and
    the outputs meet the demands of all the checks the leaves queued. *)
Theorem enforce_transaction_iff `{HashLib} `{ScriptLib} `{TxLib} `{TaprootLib} tx prevouts :
  prevouts_ok prevouts → tx_amounts_ok tx →
  enforce_transaction tx prevouts = Ok tt ↔
    ∃ qs, Forall2 (input_verdict tx prevouts) (enumerate (input tx)) qs
          ∧ demands_met (concat qs) tx.
Proof.
  intros Hp Htx. unfold enforce_transaction. rewrite bind_Ok. setoid_rewrite map_err_Ok.
  pose proof (enforce_inputs_safe tx prevouts Hp) as Hs.
  setoid_rewrite enforce_inputs_frame. split.
  - intros (ds & (qs & Hqs & ->) & He). cbn in *. exists qs. split; [done|].
    rewrite (proj2 (enforce_inputs_frame tx prevouts _ [] (concat qs))) in Hs by eauto.
    by apply evaluate_deferred_checks_Ok.
  - intros (qs & Hqs & Hmet). exists (concat qs). split; [by exists qs|].
    rewrite (proj2 (enforce_inputs_frame tx prevouts _ [] (concat qs))) in Hs by eauto.
    by apply evaluate_deferred_checks_Ok.
Qed.


(** * Witnesses: a recovery spend of a vault *)

Definition ex_recovery_tx : Transaction :=
  mkTransaction 2 0
    [mkTxIn ex_outpoint [] 10
       [[]; recover_leaf ex_recovery_hash; xc0 :: replicate 32 x22]]
    [mkTxOut 100000 [x51]].
Definition ex_prevouts : PrevoutMap := {[ ex_outpoint := ex_input_txout ]}.

Lemma ex_prevouts_ok : prevouts_ok ex_prevouts.
Proof.
  intros op o Ho. unfold ex_prevouts in Ho. apply lookup_singleton_Some in Ho as [_ <-]. split; vm_compute; congruence.
Qed.
Lemma ex_recovery_tx_ok : tx_amounts_ok ex_recovery_tx.
Proof. constructor; [split; vm_compute; congruence|constructor]. Qed.

Lemma enforce_transaction_no_panic_witness :
  @enforce_transaction toy_hash toy_script toy_tx toy_taproot ex_recovery_tx ex_prevouts ≠ Panic.
Proof.
  apply (@enforce_transaction_no_panic toy_hash toy_script toy_tx toy_taproot);
    [apply ex_prevouts_ok|apply ex_recovery_tx_ok].
Defined.

Lemma enforce_transaction_iff_witness :
  ∃ qs, Forall2 (@input_verdict toy_hash toy_script toy_tx toy_taproot ex_recovery_tx ex_prevouts)
          (enumerate (input ex_recovery_tx)) qs
        ∧ demands_met (concat qs) ex_recovery_tx.
Proof.
  apply (@enforce_transaction_iff toy_hash toy_script toy_tx toy_taproot);
    [apply ex_prevouts_ok|apply ex_recovery_tx_ok|vm_compute; reflexivity].
Defined.
