(* ===== verification/Merkle.v ===== *)
(** P2MR merkle path verification (`pqc/merkle.rs`): the control-block layout,
    Core wire and legacy padded, and the fold to the committed root. *)
From Stdlib Require Import ZArith Lia Strings.Byte.
From stdpp Require Import base list gmap.
From S2P Require Import Prelude Bitcoin Concrete P2mrOutput.
#[local] Open Scope Z_scope.

Definition P2MR_CONTROL_BASE_SIZE_CORE : nat := 1.
Definition MERKLE_NODE_SIZE : nat := 32.
Definition LEGACY_PADDED_BASE_SIZE : nat := 33.

Inductive MerkleError :=
| InvalidControlBlockSize
| InvalidControlByte
| DecodeFailed
| MerkleRootMismatch.

Section merkle.
Context `{P2mrLib}.

Definition merkle_branch_bytes (control_block_bytes : bytes) : outcome MerkleError bytes :=
  match control_block_bytes with
  | [] => Err InvalidControlBlockSize
  | c0 :: _ =>
      _ ← reject_if (negb (is_valid_p2mr_control_byte c0)) InvalidControlByte;
      let n := length control_block_bytes in
      if bool_decide (LEGACY_PADDED_BASE_SIZE ≤ n)%nat
         && forallb (λ b, bool_decide (b = x00))
              (take (LEGACY_PADDED_BASE_SIZE - P2MR_CONTROL_BASE_SIZE_CORE)
                 (drop P2MR_CONTROL_BASE_SIZE_CORE control_block_bytes))
         && bool_decide ((n - LEGACY_PADDED_BASE_SIZE) mod MERKLE_NODE_SIZE = 0)%nat
      then Ok (drop LEGACY_PADDED_BASE_SIZE control_block_bytes) else
      let branch := drop P2MR_CONTROL_BASE_SIZE_CORE control_block_bytes in
      _ ← reject_if (negb (bool_decide (length branch mod MERKLE_NODE_SIZE = 0)%nat))
            InvalidControlBlockSize;
      Ok branch
  end.

Definition recompute_merkle_root (leaf_script : Script) (control_block_bytes : bytes) :
    outcome MerkleError Hash32 :=
  branch ← merkle_branch_bytes control_block_bytes;
  leaf_version ← ok_or (p2mr_leaf_version_from_consensus P2MR_LEAF_VERSION) DecodeFailed;
  let curr_hash := p2mr_node_from_script leaf_script leaf_version in
  Ok (foldl p2mr_node_from_node_hashes curr_hash (chunks_exact MERKLE_NODE_SIZE branch)).

Definition verify_merkle_path (leaf_script : Script) (merkle_root : P2mrMerkleRoot)
    (control_block_bytes : bytes) : outcome MerkleError unit :=
  derived ← recompute_merkle_root leaf_script control_block_bytes;
  reject_if (bool_decide (derived ≠ merkle_root)) MerkleRootMismatch.

(** * Lemmas *)

(** The control block on the wire, and its legacy padded form. *)
Definition core_control_block (path : list Hash32) : bytes := P2MR_CONTROL_BYTE :: concat path.
Definition legacy_control_block (path : list Hash32) : bytes :=
  P2MR_CONTROL_BYTE :: replicate 32 x00 ++ concat path.

Definition path_ok (path : list Hash32) : Prop := Forall (λ h, length h = 32%nat) path.

Lemma length_path path : path_ok path → length (concat path) = (32 * length path)%nat.
Proof.
  induction 1 as [|h path Hh _ IH]; cbn [concat length]; [done|]. rewrite length_app, Hh, IH. lia.
Qed.

Lemma is_valid_control_byte : is_valid_p2mr_control_byte P2MR_CONTROL_BYTE = true.
Proof. by apply bool_decide_eq_true. Qed.

Lemma mod_32 k : ((32 * k) mod MERKLE_NODE_SIZE = 0)%nat.
Proof. unfold MERKLE_NODE_SIZE. rewrite Nat.mul_comm. apply Nat.Div0.mod_mul. Qed.

Lemma branch_legacy path :
  path_ok path → merkle_branch_bytes (legacy_control_block path) = Ok (concat path).
Proof.
  intros Hp. unfold merkle_branch_bytes, legacy_control_block.
  rewrite is_valid_control_byte. cbn [negb reject_if mbind outcome_bind].
  cbn [length]. rewrite length_app, length_replicate, length_path by done.
  unfold LEGACY_PADDED_BASE_SIZE, P2MR_CONTROL_BASE_SIZE_CORE.
  rewrite bool_decide_true by lia. replace (S (32 + 32 * length path) - 33)%nat with (32 * length path)%nat by lia.
  rewrite (bool_decide_true (_ mod _ = _)%nat) by apply mod_32. done.
Qed.

Lemma branch_core path :
  path_ok path → head path ≠ Some (replicate 32 x00) →
  merkle_branch_bytes (core_control_block path) = Ok (concat path).
Proof.
  intros Hp Hz. unfold merkle_branch_bytes, core_control_block.
  rewrite is_valid_control_byte. cbn [negb reject_if mbind outcome_bind length].
  rewrite length_path by done.
  unfold LEGACY_PADDED_BASE_SIZE, P2MR_CONTROL_BASE_SIZE_CORE.
  change (drop 1 (P2MR_CONTROL_BYTE :: concat path)) with (concat path).
  assert (bool_decide (33 ≤ S (32 * length path))%nat
    && forallb (λ b, bool_decide (b = x00)) (take (33 - 1) (concat path)) = false) as ->.
  { destruct path as [|h path]; [done|]. inversion Hp as [|? ? Hh _]; subst.
    cbn [concat]. apply andb_false_iff. right.
    change (33 - 1)%nat with 32%nat. rewrite take_app_length' by done.
    destruct (forallb _ h) eqn:Hall; [|done]. destruct Hz. cbn. f_equal.
    assert (∀ b, b ∈ h → b = x00) as Hb.
    { intros b Hb. rewrite forallb_forall in Hall. apply list_elem_of_In in Hb.
      apply Hall in Hb. by apply bool_decide_eq_true in Hb. }
    symmetry. by refine (proj2 (replicate_as_elem_of _ 32 h) _). }
  cbn [andb]. rewrite length_path, (bool_decide_true (_ mod _ = _)%nat) by (done || apply mod_32). done.
Qed.

(** Verification is the fold of the path from the leaf, compared to the root. *)
Lemma verify_fold cb path leaf root lv :
  path_ok path → merkle_branch_bytes cb = Ok (concat path) →
  p2mr_leaf_version_from_consensus P2MR_LEAF_VERSION = Some lv →
  verify_merkle_path leaf root cb = Ok tt ↔
    foldl p2mr_node_from_node_hashes (p2mr_node_from_script leaf lv) path = root.
Proof.
  intros Hp Hb Hlv. unfold verify_merkle_path, recompute_merkle_root.
  rewrite Hb, Hlv. cbn [mbind outcome_bind ok_or].
  rewrite chunks_exact_concat by (done || unfold MERKLE_NODE_SIZE; lia).
  rewrite reject_if_Ok. split; [intros H'; by apply bool_decide_eq_false, dec_stable in H'|].
  intros ->. by apply bool_decide_eq_false; intros [].
Qed.

(** A script tree, its root and the path to a leaf. *)
Inductive tree := Leaf (s : Script) | Branch (l r : tree).

Fixpoint tree_root (lv : byte) (t : tree) : Hash32 :=
  match t with
  | Leaf s => p2mr_node_from_script s lv
  | Branch l r => p2mr_node_from_node_hashes (tree_root lv l) (tree_root lv r)
  end.

(** [leaf_path lv t s p]: [s] is a leaf of [t], [p] the siblings from the leaf up. *)
Inductive leaf_path (lv : byte) : tree → Script → list Hash32 → Prop :=
| path_leaf s : leaf_path lv (Leaf s) s []
| path_left l r s p : leaf_path lv l s p → leaf_path lv (Branch l r) s (p ++ [tree_root lv r])
| path_right l r s p : leaf_path lv r s p → leaf_path lv (Branch l r) s (p ++ [tree_root lv l]).

(** Documented behaviour of the taproot node hashes: 32-byte digests of the two
    children in sorted order. *)
Class MerkleLaws : Prop := {
  node_comm a b : p2mr_node_from_node_hashes a b = p2mr_node_from_node_hashes b a;
  node_script_len s v : length (p2mr_node_from_script s v) = 32%nat;
  node_hashes_len a b : length (p2mr_node_from_node_hashes a b) = 32%nat
}.

Lemma tree_root_len `{!MerkleLaws} lv t : length (tree_root lv t) = 32%nat.
Proof. destruct t; [apply node_script_len|apply node_hashes_len]. Qed.

Lemma leaf_path_ok `{!MerkleLaws} lv t s p : leaf_path lv t s p → path_ok p.
Proof.
  induction 1; [constructor| |]; apply Forall_app; (split; [done|]); repeat constructor; apply tree_root_len.
Qed.

Lemma leaf_path_fold `{!MerkleLaws} lv t s p :
  leaf_path lv t s p →
  foldl p2mr_node_from_node_hashes (p2mr_node_from_script s lv) p = tree_root lv t.
Proof.
  induction 1 as [|l r s p _ IH|l r s p _ IH]; [done| |]; rewrite foldl_app, IH; cbn; [done|].
  apply node_comm.
Qed.

(** Along one path, two different scripts: the first pair of different hashes
    that become equal. *)
Fixpoint fold_collides (a b : Hash32) (path : list Hash32) : Prop :=
  match path with
  | [] => False
  | x :: path =>
      (a ≠ b ∧ p2mr_node_from_node_hashes a x = p2mr_node_from_node_hashes b x)
      ∨ fold_collides (p2mr_node_from_node_hashes a x) (p2mr_node_from_node_hashes b x) path
  end.

Lemma fold_binding path a b :
  foldl p2mr_node_from_node_hashes a path = foldl p2mr_node_from_node_hashes b path →
  a = b ∨ fold_collides a b path.
Proof.
  revert a b. induction path as [|x path IH]; intros a b; cbn [foldl fold_collides]; [by left|].
  intros He. destruct (decide (a = b)) as [|Hne]; [by left|right].
  apply IH in He as [He|Hc]; [by left|by right].
Qed.
End merkle.

(** * Properties *)

(** Every leaf of a committed tree can be spent: for a leaf [s] of tree [t]
    with path [p], the legacy padded control block always verifies against the
    root of [t], and so does the Core wire form unless its first sibling is all
    zeros, which the padding detection would swallow. *)
Lemma verify_merkle_path_complete `{P2mrLib} `{!MerkleLaws} lv t s p :
  p2mr_leaf_version_from_consensus P2MR_LEAF_VERSION = Some lv →
  leaf_path lv t s p →
  verify_merkle_path s (tree_root lv t) (legacy_control_block p) = Ok tt
  ∧ (head p ≠ Some (replicate 32 x00) →
     verify_merkle_path s (tree_root lv t) (core_control_block p) = Ok tt).
Proof.
  intros Hlv Hp. pose proof (leaf_path_ok _ _ _ _ Hp) as Hok. split; [|intros Hz].
  - apply (verify_fold _ p _ _ lv); [done|by apply branch_legacy|done|by apply leaf_path_fold].
  - apply (verify_fold _ p _ _ lv); [done|by apply branch_core|done|by apply leaf_path_fold].
Qed.

(** C38: the root binds the leaf script: if two scripts verify against one root
    with one control block, they are hashed to the same leaf node, or the fold of
    that control block contains a node collision. *)
Theorem verify_merkle_path_binding `{P2mrLib} s s' root cb :
  verify_merkle_path s root cb = Ok tt → verify_merkle_path s' root cb = Ok tt →
  ∃ lv branch, merkle_branch_bytes cb = Ok branch
    ∧ p2mr_leaf_version_from_consensus P2MR_LEAF_VERSION = Some lv
    ∧ let a := p2mr_node_from_script s lv in let b := p2mr_node_from_script s' lv in
      a = b ∨ fold_collides a b (chunks_exact MERKLE_NODE_SIZE branch).
Proof.
  unfold verify_merkle_path, recompute_merkle_root. intros Hv Hv'. okinv.
  repeat match goal with
  | Hd : bool_decide (_ ≠ _) = false |- _ => apply bool_decide_eq_false, dec_stable in Hd
  end. do 2 eexists. split_and!; [done|done|]. apply fold_binding. congruence.
Qed.

(** * Witnesses *)

Lemma toy_merkle_laws : @MerkleLaws toy_p2mr.
Proof.
  split.
  - intros a b. cbn [p2mr_node_from_node_hashes toy_p2mr]. by rewrite Z.add_comm.
  - intros s v. apply Nat2Z.inj, (len_toy_digest 32 (v :: s)).
  - intros a b. apply length_le_bytes.
Qed.

Definition ex_tree : tree := Branch (Leaf [x51]) (Branch (Leaf [x52]) (Leaf [x53])).
Definition ex_path : list Hash32 :=
  [@p2mr_node_from_script toy_p2mr [x53] xc0; @p2mr_node_from_script toy_p2mr [x51] xc0].

Lemma verify_merkle_path_complete_witness :
  @verify_merkle_path toy_p2mr [x52] (@tree_root toy_p2mr xc0 ex_tree)
    (@legacy_control_block toy_p2mr ex_path) = Ok tt
  ∧ (head ex_path ≠ Some (replicate 32 x00) →
     @verify_merkle_path toy_p2mr [x52] (@tree_root toy_p2mr xc0 ex_tree)
       (@core_control_block toy_p2mr ex_path) = Ok tt).
Proof.
  apply (@verify_merkle_path_complete toy_p2mr toy_merkle_laws xc0 ex_tree [x52] ex_path eq_refl).
  apply (@path_right toy_p2mr xc0 (Leaf [x51]) (Branch (Leaf [x52]) (Leaf [x53])) [x52]
           [@p2mr_node_from_script toy_p2mr [x53] xc0]).
  exact (@path_left toy_p2mr xc0 (Leaf [x52]) (Leaf [x53]) [x52] [] (@path_leaf toy_p2mr xc0 [x52])).
Defined.

Lemma verify_merkle_path_binding_witness :
  ∃ lv branch, @merkle_branch_bytes toy_p2mr [xc1] = Ok branch
    ∧ @p2mr_leaf_version_from_consensus toy_p2mr (@P2MR_LEAF_VERSION toy_p2mr) = Some lv
    ∧ let a := @p2mr_node_from_script toy_p2mr [x51] lv in
      let b := @p2mr_node_from_script toy_p2mr [x51; x00] lv in
      a = b ∨ @fold_collides toy_p2mr a b (chunks_exact MERKLE_NODE_SIZE branch).
Proof.
  apply (@verify_merkle_path_binding toy_p2mr [x51] [x51; x00] (xc0 :: x51 :: replicate 30 x00) [xc1]);
    vm_compute; reflexivity.
Defined.
