(* ===== verification/LeafScript.v ===== *)
(** The P2MR leaf-script parser (`pqc/leaf_script.rs`): extraction of the
    overloaded signature-check sites in execution order. *)
From Stdlib Require Import ZArith Lia Strings.Byte.
From stdpp Require Import base list sets.
From S2P Require Import Prelude Bitcoin Concrete Limits Encoding.
#[local] Open Scope Z_scope.

Definition SIG_CHECK_OPCODES : list Opcode :=
  [OP_CHECKSIG; OP_CHECKSIGVERIFY; OP_CHECKSIGADD; OP_CHECKMULTISIG; OP_CHECKMULTISIGVERIFY].

Inductive LeafScriptError :=
| OpSubstrForbidden
| InvalidPush
| InvalidOpcode
| ForbiddenOpcode (opcode : Opcode)
| NoSigCheckOpcode
| MissingPubkeyPush
| InvalidPubkeySize (size : Z)
| WitnessSigCountMismatch (witness_sigs script_sites : nat)
| MultisigMissingKeyCount
| MultisigPubkeyCountMismatch (expected found : nat)
| DanglingMultisigKeyCount
| LeafScriptTooLarge
| EmptyScript.

Record SigCheckSite := mkSite { pubkey : bytes; opcode : Opcode }.
Record ParsedLeafScript := mkParsed { sig_sites : list SigCheckSite }.

Definition is_sig_check_opcode (opcode : Opcode) : bool := bool_decide (opcode ∈ SIG_CHECK_OPCODES).

Definition is_pushnum_opcode (opcode : Opcode) : bool :=
  (b2z OP_PUSHNUM_1 <=? b2z opcode) && (b2z opcode <=? b2z OP_PUSHNUM_16).

Definition decode_pushnum (opcode : Opcode) : option nat :=
  if is_pushnum_opcode opcode then Some (Z.to_nat (b2z opcode - b2z OP_PUSHNUM_1 + 1)) else None.

Definition is_allowed_between_sig_sites (opcode : Opcode) : bool :=
  bool_decide (opcode = OP_BOOLAND) || bool_decide (opcode = OP_VERIFY)
  || bool_decide (opcode = OP_PUSHBYTES_0) || is_pushnum_opcode opcode.

Definition validate_pubkey_size (pubkey : bytes) : outcome LeafScriptError unit :=
  let size := len pubkey in
  if (size =? SLH_DSA_PUBLIC_KEY_SIZE) || (size =? ML_DSA_44_PUBLIC_KEY_SIZE)
  then Ok tt else Err (InvalidPubkeySize size).

Definition push_single_sig_site (sig_sites : list SigCheckSite) (pubkey : bytes) (opcode : Opcode) :
    outcome LeafScriptError (list SigCheckSite) :=
  _ ← validate_pubkey_size pubkey;
  Ok (sig_sites ++ [mkSite pubkey opcode]).

(** Returns the extended sites and the drained push buffer. *)
Definition push_multisig_sites (sig_sites : list SigCheckSite) (push_buffer : list bytes)
    (key_count : nat) (opcode : Opcode) :
    outcome LeafScriptError (list SigCheckSite * list bytes) :=
  _ ← reject_if (bool_decide (length push_buffer < key_count)%nat)
        (MultisigPubkeyCountMismatch key_count (length push_buffer));
  let start := (length push_buffer - key_count)%nat in
  sites ← for_each (λ pk sites, push_single_sig_site sites pk opcode)
            (drop start push_buffer) sig_sites;
  Ok (sites, take start push_buffer).

(** The local variables of [parse_leaf_script]'s loop. *)
Record parse_state := mkParse {
  ps_sites : list SigCheckSite;
  ps_last_push : option bytes;
  ps_push_buffer : list bytes;
  ps_pending : option nat
}.

(** One round of the loop. *)
Definition parse_instruction (result : option Instruction) (s : parse_state) :
    outcome LeafScriptError parse_state :=
  instruction ← ok_or result InvalidOpcode;
  match instruction with
  | PushBytes data =>
      if bool_decide (data = [])
      then Ok (mkParse (ps_sites s) None (ps_push_buffer s) (ps_pending s))
      else Ok (mkParse (ps_sites s) (Some data) (ps_push_buffer s ++ [data]) (ps_pending s))
  | Op opcode =>
      _ ← reject_if (bool_decide (opcode = OP_SUBSTR)) OpSubstrForbidden;
      if is_sig_check_opcode opcode then
        if bool_decide (opcode = OP_CHECKMULTISIG) || bool_decide (opcode = OP_CHECKMULTISIGVERIFY)
        then
          key_count ← ok_or (ps_pending s) MultisigMissingKeyCount;
          '(sites, buffer) ← push_multisig_sites (ps_sites s) (ps_push_buffer s) key_count opcode;
          Ok (mkParse sites None buffer None)
        else
          pubkey ← ok_or (ps_last_push s) MissingPubkeyPush;
          sites ← push_single_sig_site (ps_sites s) pubkey opcode;
          Ok (mkParse sites None [] None)
      else
        match decode_pushnum opcode with
        | Some key_count => Ok (mkParse (ps_sites s) None (ps_push_buffer s) (Some key_count))
        | None =>
            if is_allowed_between_sig_sites opcode
            then Ok (mkParse (ps_sites s) None (ps_push_buffer s) (ps_pending s))
            else Err (ForbiddenOpcode opcode)
        end
  end.

Definition parse_init : parse_state := mkParse [] None [] None.

Section leaf_script.
Context `{ScriptLib}.

Definition parse_leaf_script (script : Script) : outcome LeafScriptError ParsedLeafScript :=
  _ ← reject_if (bool_decide (script = [])) EmptyScript;
  _ ← reject_if (MAX_P2MR_LEAF_SCRIPT_SIZE <? len script) LeafScriptTooLarge;
  s ← for_each parse_instruction (instructions script) parse_init;
  _ ← reject_if (bool_decide (is_Some (ps_pending s))) DanglingMultisigKeyCount;
  _ ← reject_if (bool_decide (ps_sites s = [])) NoSigCheckOpcode;
  Ok (mkParsed (ps_sites s)).

Definition validate_witness_sig_count (script : Script) (witness_sig_count : nat) :
    outcome LeafScriptError ParsedLeafScript :=
  parsed ← parse_leaf_script script;
  let script_sites := length (sig_sites parsed) in
  _ ← reject_if (bool_decide (witness_sig_count ≠ script_sites))
        (WitnessSigCountMismatch witness_sig_count script_sites);
  Ok parsed.

End leaf_script.

#[export] Instance SigCheckSite_eq_dec : EqDecision SigCheckSite.
Proof. solve_decision. Defined.

(** * Lemmas *)

(** A site the parser may report: an accepted key size and a signature opcode. *)
Definition pubkey_ok (pk : bytes) : Prop :=
  len pk = SLH_DSA_PUBLIC_KEY_SIZE ∨ len pk = ML_DSA_44_PUBLIC_KEY_SIZE.
Definition site_ok (s : SigCheckSite) : Prop :=
  pubkey_ok (pubkey s) ∧ opcode s ∈ SIG_CHECK_OPCODES.

Lemma validate_pubkey_size_Ok pk u : validate_pubkey_size pk = Ok u ↔ pubkey_ok pk.
Proof.
  unfold validate_pubkey_size, pubkey_ok. destruct u.
  destruct (Z.eqb_spec (len pk) SLH_DSA_PUBLIC_KEY_SIZE),
    (Z.eqb_spec (len pk) ML_DSA_44_PUBLIC_KEY_SIZE); cbn; naive_solver.
Qed.

Lemma push_single_Ok sites pk op sites' :
  push_single_sig_site sites pk op = Ok sites' ↔ pubkey_ok pk ∧ sites' = sites ++ [mkSite pk op].
Proof.
  unfold push_single_sig_site. rewrite bind_Ok. setoid_rewrite validate_pubkey_size_Ok.
  split; [naive_solver|]. intros [? ->]. by exists tt.
Qed.

Lemma push_keys_Ok pks sites op sites' :
  for_each (λ pk sites, push_single_sig_site sites pk op) pks sites = Ok sites' ↔
    Forall pubkey_ok pks ∧ sites' = sites ++ map (λ pk, mkSite pk op) pks.
Proof.
  revert sites. induction pks as [|pk pks IH]; intros sites; cbn [for_each map].
  - rewrite app_nil_r. split; [intros [= ->]; by repeat constructor|by intros [_ ->]].
  - rewrite bind_Ok. setoid_rewrite push_single_Ok. setoid_rewrite IH. rewrite Forall_cons. split.
    + intros (? & [? ->] & ? & ->). by rewrite <- app_assoc.
    + intros [[? ?] ->]. eexists. split; [done|]. split; [done|]. by rewrite <- app_assoc.
Qed.

(** The loop only ever reports well-formed sites. *)
Lemma parse_instruction_sites i s s' :
  Forall site_ok (ps_sites s) → parse_instruction i s = Ok s' → Forall site_ok (ps_sites s').
Proof.
  intros Hs Hp. unfold parse_instruction in Hp. apply bind_Ok in Hp as (ins & _ & Hp).
  destruct ins as [d|op]; [case_bool_decide; by simplify_eq/=|].
  apply bind_Ok in Hp as ([] & _ & Hp).
  destruct (is_sig_check_opcode op) eqn:Hsig.
  - apply bool_decide_eq_true in Hsig. destruct (_ || _).
    + apply bind_Ok in Hp as (k & _ & Hp). apply bind_Ok in Hp as ([sites buf] & Hm & [= <-]).
      unfold push_multisig_sites in Hm. okinv.
      rename select (for_each _ _ _ = _) into Hk. apply push_keys_Ok in Hk as [Hk ->].
      cbn. apply Forall_app. split; [done|]. apply Forall_map.
      eapply Forall_impl; [done|]. by split.
    + okinv. rename select (push_single_sig_site _ _ _ = _) into Hk. apply push_single_Ok in Hk as [Hk ->].
      cbn. apply Forall_app. split; [done|]. constructor; [by split|constructor].
  - destruct (decode_pushnum op); [by simplify_eq/=|].
    destruct (is_allowed_between_sig_sites op); by simplify_eq/=.
Qed.

(** ** The leaf grammar *)

(** One segment of a leaf: a single-key check, a multisig over [pks], or a
    trailing combinator. *)
Inductive segment :=
| Single (pk : bytes) (op : Opcode)
| Multi (pks : list bytes) (op : Opcode)
| Combinator (op : Opcode).

Definition segment_ok (s : segment) : Prop :=
  match s with
  | Single pk op => pubkey_ok pk ∧ op ∈ [OP_CHECKSIG; OP_CHECKSIGVERIFY; OP_CHECKSIGADD]
  | Multi pks op => Forall pubkey_ok pks ∧ (1 ≤ length pks ≤ 16)%nat
                    ∧ op ∈ [OP_CHECKMULTISIG; OP_CHECKMULTISIGVERIFY]
  | Combinator op => op ∈ [OP_BOOLAND; OP_VERIFY]
  end.

Definition op_n (n : nat) : Opcode := z2b (b2z OP_PUSHNUM_1 + Z.of_nat n - 1).

(** The instructions a segment is written as. *)
Definition render (s : segment) : list Instruction :=
  match s with
  | Single pk op => [PushBytes pk; Op op]
  | Multi pks op => PushBytes [] :: map PushBytes pks ++ [Op (op_n (length pks)); Op op]
  | Combinator op => [Op op]
  end.

Definition segment_sites (s : segment) : list SigCheckSite :=
  match s with
  | Single pk op => [mkSite pk op]
  | Multi pks op => map (λ pk, mkSite pk op) pks
  | Combinator _ => []
  end.

Lemma pubkey_ok_nonempty pk : pubkey_ok pk → pk ≠ [].
Proof. by intros [Hl|Hl] ->. Qed.

Lemma for_each_app {E A S} (f : A → S → outcome E S) l k s :
  for_each f (l ++ k) s = s' ← for_each f l s; for_each f k s'.
Proof.
  revert s. induction l as [|x l IH]; intros s; [done|]. cbn.
  destruct (f x s); cbn; [apply IH|done|done].
Qed.

Lemma parse_pushes pks s :
  Forall (λ pk, pk ≠ []) pks →
  ∃ lp, for_each parse_instruction (map (λ pk, Some (PushBytes pk)) pks) s =
    Ok (mkParse (ps_sites s) lp (ps_push_buffer s ++ pks) (ps_pending s)).
Proof.
  intros Hp. revert s. induction Hp as [|pk pks Hne _ IH]; intros s.
  - exists (ps_last_push s). rewrite app_nil_r. by destruct s.
  - cbn [map for_each parse_instruction ok_or mbind outcome_bind].
    rewrite bool_decide_false by done. cbn [mbind outcome_bind].
    edestruct IH as [lp ->]. exists lp. cbn. by rewrite <- app_assoc.
Qed.

Lemma decode_op_n n : (1 ≤ n ≤ 16)%nat → decode_pushnum (op_n n) = Some n.
Proof.
  intros Hn. unfold decode_pushnum, is_pushnum_opcode, op_n. change (b2z OP_PUSHNUM_1) with 81.
  change (b2z OP_PUSHNUM_16) with 96. rewrite b2z_z2b, Z.mod_small by lia.
  rewrite (proj2 (Z.leb_le 81 _)), (proj2 (Z.leb_le _ 96)) by lia. cbn [andb]. f_equal. lia.
Qed.

(** Between segments the parser holds no push and no pending count. *)
Definition idle (sites : list SigCheckSite) (lp : option bytes) : parse_state :=
  mkParse sites lp [] None.

Lemma parse_op_n n s :
  (1 ≤ n ≤ 16)%nat →
  parse_instruction (Some (Op (op_n n))) s = Ok (mkParse (ps_sites s) None (ps_push_buffer s) (Some n)).
Proof.
  intros Hn. pose proof (decode_op_n n Hn) as Hd.
  assert (b2z (op_n n) ≤ 96) as Hb.
  { unfold op_n. change (b2z OP_PUSHNUM_1) with 81. rewrite b2z_z2b, Z.mod_small; lia. }
  cbn [parse_instruction ok_or mbind outcome_bind].
  rewrite (bool_decide_false (op_n n = OP_SUBSTR)) by (intros He; rewrite He in Hb; by apply Hb).
  cbn [reject_if mbind outcome_bind].
  assert (is_sig_check_opcode (op_n n) = false) as ->; [|by rewrite Hd].
  apply bool_decide_eq_false. intros Hin. unfold SIG_CHECK_OPCODES in Hin.
  repeat (apply elem_of_cons in Hin as [He|Hin]; [rewrite He in Hb; by apply Hb|]).
  set_solver.
Qed.

Lemma parse_segment seg sites lp :
  segment_ok seg → ∃ lp',
  for_each parse_instruction (map Some (render seg)) (idle sites lp) =
    Ok (idle (sites ++ segment_sites seg) lp').
Proof.
  destruct seg as [pk op|pks op|op]; cbn [segment_ok render segment_sites].
  - intros [Hpk Hop]. exists None. cbn [map for_each parse_instruction ok_or mbind outcome_bind].
    rewrite (bool_decide_false (pk = [])) by by apply pubkey_ok_nonempty.
    cbn [mbind outcome_bind ps_sites ps_last_push ps_push_buffer ps_pending idle].
    assert (push_single_sig_site sites pk op = Ok (sites ++ [mkSite pk op])) as Hps
      by by apply push_single_Ok.
    repeat (apply elem_of_cons in Hop as [->|Hop]; [cbn -[push_single_sig_site]; by rewrite Hps|]).
    set_solver.
  - intros (Hpks & Hn & Hop). exists None.
    cbn [map]. rewrite map_app, map_map. cbn [map].
    change (Some (PushBytes []) :: ?l) with ([Some (PushBytes [])] ++ l).
    rewrite for_each_app. cbn [for_each parse_instruction ok_or mbind outcome_bind].
    rewrite (bool_decide_true (@nil byte = [])) by done. cbn [mbind outcome_bind].
    rewrite for_each_app.
    edestruct (parse_pushes pks) as [lp' ->];
      [eapply Forall_impl; [done|]; apply pubkey_ok_nonempty|].
    cbn [mbind outcome_bind for_each ps_sites ps_push_buffer ps_pending idle app].
    rewrite parse_op_n by done. cbn [mbind outcome_bind ps_sites ps_push_buffer].
    assert (push_multisig_sites sites pks (length pks) op
            = Ok (sites ++ map (λ pk, mkSite pk op) pks, [])) as Hm.
    { unfold push_multisig_sites. rewrite bool_decide_false by lia. cbn [reject_if mbind outcome_bind].
      rewrite Nat.sub_diag, drop_0, take_0.
      by rewrite (proj2 (push_keys_Ok pks sites op _) (conj Hpks eq_refl)). }
    repeat (apply elem_of_cons in Hop as [->|Hop]; [cbn -[push_multisig_sites]; by rewrite Hm|]).
    set_solver.
  - intros Hop. exists None. rewrite app_nil_r.
    repeat (apply elem_of_cons in Hop as [->|Hop]; [done|]). set_solver.
Qed.

Lemma parse_segments segs sites lp :
  Forall segment_ok segs → ∃ lp',
  for_each parse_instruction (map Some (flat_map render segs)) (idle sites lp) =
    Ok (idle (sites ++ flat_map segment_sites segs) lp').
Proof.
  intros Hs. revert sites lp. induction Hs as [|seg segs Hseg _ IH]; intros sites lp.
  - exists lp. cbn. by rewrite app_nil_r.
  - cbn [flat_map]. rewrite map_app, for_each_app.
    destruct (parse_segment seg sites lp Hseg) as [lp' ->]. cbn [mbind outcome_bind].
    rewrite app_assoc. apply IH.
Qed.

(** The bytes of a segment. *)
Definition segment_script (s : segment) : Script :=
  match s with
  | Single pk op => push_minimal [] pk ++ [op]
  | Multi pks op => foldl push_minimal [] ([] :: pks) ++ [op_n (length pks); op]
  | Combinator op => [op]
  end.
Definition leaf_of (segs : list segment) : Script := flat_map segment_script segs.

Section bytes.
Context `{ScriptLib} `{!ScriptLaws}.

Lemma pubkey_minimal pk : pubkey_ok pk → minimal_instruction pk = PushBytes pk ∧ len pk < 0x10000.
Proof.
  unfold pubkey_ok, SLH_DSA_PUBLIC_KEY_SIZE, ML_DSA_44_PUBLIC_KEY_SIZE.
  intros Hl. split; [|lia]. destruct pk as [|b [|c pk]]; [done| |done].
  change (len [b]) with 1 in Hl. lia.
Qed.

Lemma instructions_pushes pks rest :
  Forall pubkey_ok pks →
  instructions (foldl push_minimal [] pks ++ rest)
    = map (λ pk, Some (PushBytes pk)) pks ++ instructions rest.
Proof.
  induction 1 as [|pk pks Hpk _ IH]; [done|]. cbn.
  destruct (pubkey_minimal pk Hpk) as [Hm Hl].
  by rewrite foldl_push_minimal_out, <- app_assoc, instructions_push_minimal, Hm, IH.
Qed.

Lemma instructions_op_0 rest : instructions (x00 :: rest) = Some (PushBytes []) :: instructions rest.
Proof. apply (instructions_push x00 []); [cbn; lia|done]. Qed.

Lemma op_n_above n : (1 ≤ n ≤ 16)%nat → 0x4e < b2z (op_n n).
Proof.
  intros Hn. unfold op_n. change (b2z OP_PUSHNUM_1) with 81. rewrite b2z_z2b, Z.mod_small; lia.
Qed.

Lemma elem_of_op_above op (l : list Opcode) :
  forallb (λ o, 0x4e <? b2z o) l = true → op ∈ l → 0x4e < b2z op.
Proof. rewrite forallb_forall. intros Hl Hop%list_elem_of_In%Hl. lia. Qed.

Lemma instructions_segment seg rest :
  segment_ok seg →
  instructions (segment_script seg ++ rest) = map Some (render seg) ++ instructions rest.
Proof.
  destruct seg as [pk op|pks op|op]; cbn [segment_ok segment_script render map app].
  - intros [Hpk Hop]. destruct (pubkey_minimal pk Hpk) as [Hm Hl].
    rewrite <- app_assoc, instructions_push_minimal, Hm by done. cbn [app].
    by rewrite instructions_op by (by apply (fun H0 => elem_of_op_above _ _ H0 Hop)).
  - intros (Hpks & Hn & Hop). cbn [foldl]. rewrite foldl_push_minimal_out.
    change (push_minimal [] []) with [x00]. cbn [app].
    rewrite instructions_op_0. f_equal.
    rewrite <- app_assoc, instructions_pushes by done. cbn [app].
    rewrite instructions_op by by apply op_n_above.
    rewrite instructions_op by (by apply (fun H0 => elem_of_op_above _ _ H0 Hop)).
    rewrite map_app, map_map. by rewrite <- app_assoc.
  - intros Hop. by rewrite instructions_op by (by apply (fun H0 => elem_of_op_above _ _ H0 Hop)).
Qed.

Lemma instructions_leaf_of segs rest :
  Forall segment_ok segs →
  instructions (leaf_of segs ++ rest) = map Some (flat_map render segs) ++ instructions rest.
Proof.
  induction 1 as [|seg segs Hseg _ IH]; [done|]. unfold leaf_of in *. cbn [flat_map].
  by rewrite <- app_assoc, instructions_segment, IH, map_app, <- app_assoc.
Qed.

Lemma leaf_of_nonempty segs : flat_map segment_sites segs ≠ [] → leaf_of segs ≠ [].
Proof.
  intros Hs Hl. apply Hs. clear Hs. unfold leaf_of in Hl.
  induction segs as [|seg segs IH]; [done|]. cbn [flat_map] in *.
  apply app_eq_nil in Hl as [Hl1 Hl2]. exfalso. clear -Hl1. destruct seg; cbn in Hl1;
    [by apply app_eq_nil in Hl1 as [_ ?]|by apply app_eq_nil in Hl1 as [_ ?]|done].
Qed.

End bytes.

(** What an accepted instruction can be. *)
Definition instruction_ok (i : option Instruction) : Prop :=
  match i with
  | None => False
  | Some (PushBytes _) => True
  | Some (Op op) => op ∈ SIG_CHECK_OPCODES ∨ is_pushnum_opcode op = true
                    ∨ op ∈ [OP_BOOLAND; OP_VERIFY; OP_PUSHBYTES_0]
  end.

Lemma parse_instruction_ok i s s' : parse_instruction i s = Ok s' → instruction_ok i.
Proof.
  intros Hp. unfold parse_instruction in Hp. apply bind_Ok in Hp as (ins & Hi%ok_or_Ok & Hp).
  subst i. destruct ins as [d|op]; [done|]. cbn [instruction_ok].
  apply bind_Ok in Hp as ([] & _ & Hp).
  destruct (is_sig_check_opcode op) eqn:Hsig; [left; by apply bool_decide_eq_true in Hsig|right].
  unfold decode_pushnum in Hp. destruct (is_pushnum_opcode op) eqn:Hn; [by left|right].
  destruct (is_allowed_between_sig_sites op) eqn:Ha; [|done].
  unfold is_allowed_between_sig_sites in Ha.
  rewrite Hn, !orb_true_iff, !bool_decide_eq_true in Ha. set_solver.
Qed.

(** * Properties *)

(** What the leaf parser accepts is safe to check signatures against: the
    script is non-empty and at most 10000 bytes, every instruction is a push, a
    signature check, a small number or a combinator (never OP_SUBSTR), and there
    is at least one site, each with a 32- or 1312-byte key. *)
Lemma parse_leaf_script_sound `{ScriptLib} script p :
  parse_leaf_script script = Ok p →
  script ≠ [] ∧ len script ≤ MAX_P2MR_LEAF_SCRIPT_SIZE
  ∧ Forall instruction_ok (instructions script)
  ∧ sig_sites p ≠ [] ∧ Forall site_ok (sig_sites p).
Proof.
  unfold parse_leaf_script. intros Hp. okinv.
  repeat match goal with
  | Hd : bool_decide _ = false |- _ => apply bool_decide_eq_false in Hd
  end.
  rename select (for_each _ _ _ = _) into Hloop.
  eapply (for_each_inv _ (λ done s, Forall instruction_ok done ∧ Forall site_ok (ps_sites s)))
    in Hloop as [Hins Hsites]; [split_and!; try done; lia|by split|].
  intros pre i rest s1 s2 _ [Hi Hs] Hstep. split; [|by eapply parse_instruction_sites].
  apply Forall_app. split; [done|]. constructor; [by eapply parse_instruction_ok|constructor].
Qed.

Lemma parse_leaf_of `{ScriptLib} `{!ScriptLaws} segs :
  Forall segment_ok segs → flat_map segment_sites segs ≠ [] →
  len (leaf_of segs) ≤ MAX_P2MR_LEAF_SCRIPT_SIZE →
  parse_leaf_script (leaf_of segs) = Ok (mkParsed (flat_map segment_sites segs)).
Proof.
  intros Hsegs Hne Hl. unfold parse_leaf_script.
  rewrite (bool_decide_false (leaf_of segs = [])) by by apply leaf_of_nonempty.
  rewrite (proj2 (Z.ltb_ge _ _)) by done. cbn [reject_if mbind outcome_bind].
  rewrite <- (app_nil_r (leaf_of segs)), instructions_leaf_of, instructions_nil, app_nil_r by done.
  destruct (parse_segments segs [] None Hsegs) as [lp Hp].
  change parse_init with (idle [] None). rewrite Hp. cbn [mbind outcome_bind ps_pending ps_sites idle app].
  rewrite (bool_decide_false (is_Some None)) by by intros [].
  cbn [reject_if mbind outcome_bind]. by rewrite (bool_decide_false (_ = [])).
Qed.

(** C39: the leaf grammar round-trips: a script written from single-key checks,
    multisig groups and combinators parses to exactly its signature sites, in
    order. *)
Theorem parse_leaf_script_complete `{ScriptLib} `{!ScriptLaws} segs :
  Forall segment_ok segs → flat_map segment_sites segs ≠ [] →
  len (leaf_of segs) ≤ MAX_P2MR_LEAF_SCRIPT_SIZE →
  parse_leaf_script (leaf_of segs) = Ok (mkParsed (flat_map segment_sites segs)).
Proof. apply parse_leaf_of. Qed.

(** A trailing small number is rejected: appending OP_1..OP_16 (OP_TRUE
    among them) to any accepted leaf gives [DanglingMultisigKeyCount], although
    the parser's documentation lists OP_TRUE as a supported trailing
    combinator. *)
Lemma parse_leaf_script_trailing_pushnum `{ScriptLib} `{!ScriptLaws} segs n :
  Forall segment_ok segs → flat_map segment_sites segs ≠ [] → (1 ≤ n ≤ 16)%nat →
  len (leaf_of segs ++ [op_n n]) ≤ MAX_P2MR_LEAF_SCRIPT_SIZE →
  parse_leaf_script (leaf_of segs ++ [op_n n]) = Err DanglingMultisigKeyCount.
Proof.
  intros Hsegs Hne Hn Hl. unfold parse_leaf_script.
  rewrite (bool_decide_false (leaf_of segs ++ [op_n n] = [])) by (by destruct (leaf_of segs)).
  rewrite (proj2 (Z.ltb_ge _ _)) by done. cbn [reject_if mbind outcome_bind].
  rewrite instructions_leaf_of, instructions_op, instructions_nil, for_each_app by (done || by apply op_n_above).
  destruct (parse_segments segs [] None Hsegs) as [lp Hp].
  change parse_init with (idle [] None). rewrite Hp. cbn [mbind outcome_bind for_each].
  rewrite parse_op_n by done. cbn [mbind outcome_bind ps_pending].
  by rewrite (bool_decide_true (is_Some (Some n))).
Qed.

(** * Witnesses *)

Definition ex_keys : list bytes := [replicate 32 x01; replicate 32 x02].
Definition ex_segments : list segment :=
  [Multi ex_keys OP_CHECKMULTISIG; Single (replicate 1312 x03) OP_CHECKSIG;
   Combinator OP_BOOLAND; Combinator OP_VERIFY].

Lemma ex_segments_ok : Forall segment_ok ex_segments.
Proof.
  unfold ex_segments, ex_keys. rewrite !Forall_cons, Forall_nil. cbn [segment_ok].
  rewrite !Forall_cons, Forall_nil. unfold pubkey_ok. rewrite !len_replicate. cbn [length].
  split_and!; try lia; try done; try (by left); try (by right); set_solver.
Qed.

Lemma parse_leaf_script_sound_witness :
  leaf_of ex_segments ≠ [] ∧ len (leaf_of ex_segments) ≤ MAX_P2MR_LEAF_SCRIPT_SIZE
  ∧ Forall instruction_ok (@instructions toy_script (leaf_of ex_segments))
  ∧ flat_map segment_sites ex_segments ≠ []
  ∧ Forall site_ok (flat_map segment_sites ex_segments).
Proof.
  apply (@parse_leaf_script_sound toy_script _ (mkParsed (flat_map segment_sites ex_segments))).
  vm_compute. reflexivity.
Defined.

Lemma parse_leaf_script_complete_witness :
  @parse_leaf_script toy_script (leaf_of ex_segments) = Ok (mkParsed (flat_map segment_sites ex_segments)).
Proof.
  apply (@parse_leaf_script_complete toy_script toy_script_laws ex_segments ex_segments_ok);
    [discriminate|vm_compute; congruence].
Defined.

Lemma parse_leaf_script_trailing_pushnum_witness :
  @parse_leaf_script toy_script (leaf_of ex_segments ++ [op_n 1]) = Err DanglingMultisigKeyCount.
Proof.
  apply (@parse_leaf_script_trailing_pushnum toy_script toy_script_laws ex_segments 1 ex_segments_ok);
    [discriminate|lia|vm_compute; congruence].
Defined.
