(* ===== verification/Schemes.v ===== *)
(** Size-gated signature schemes (`pqc/schemes.rs`): sighash suffixes, scheme
    selection, and verification under the per-block time budget. *)
From Stdlib Require Import ZArith Lia Strings.Byte.
From stdpp Require Import base list.
From S2P Require Import Prelude Bitcoin Concrete Limits.
#[local] Open Scope Z_scope.

Inductive SignatureScheme := Schnorr | MlDsa44 | SlhDsaSha2128s.

Inductive SchemeError :=
| UnrecognizedSize (size : Z)
| InvalidSchnorr
| InvalidMlDsa44
| InvalidSlhDsaSha2128s
| PubkeySchemeMismatch (pubkey_size : Z) (scheme : SignatureScheme)
| Sighash
| PqcVerifyBudgetExceeded
| BlockVerifyBudgetExhausted.

(** The disjunction shared by [parse_sighash_type] and [strip_sighash_byte]. *)
Definition canonical_size (without_sighash : bytes) : bool :=
  (len without_sighash =? SCHNORR_SIGNATURE_SIZE)
  || (len without_sighash =? ML_DSA_44_SIGNATURE_SIZE)
  || (len without_sighash =? SLH_DSA_128S_SIGNATURE_SIZE).

(** What verification reads and changes: [ctx.pqc_budget], and the wall clock as
    the durations its next measurements return. *)
Record verify_state := mkVerify { pqc_budget : option PqcVerifyBudget; clock : list Z }.

Section schemes.
Context `{TaprootLib} `{PqcLib}.

Definition parse_sighash_type (signature : bytes) : TapSighashType :=
  if len signature <=? 1 then SighashDefault else
  match vec_pop signature with
  | None => SighashDefault
  | Some (without_sighash, last) =>
      if canonical_size without_sighash
      then default SighashDefault (sighash_from_consensus_u8 last)
      else SighashDefault
  end.

Definition strip_sighash_byte (signature : bytes) : bytes :=
  if len signature <=? 1 then signature else
  match vec_pop signature with
  | None => signature
  | Some (without_sighash, last) =>
      match sighash_from_consensus_u8 last with
      | None => signature
      | Some _ => if canonical_size without_sighash then without_sighash else signature
      end
  end.

Definition classify_signature (signature : bytes) : outcome SchemeError SignatureScheme :=
  let size := len (strip_sighash_byte signature) in
  if size =? SCHNORR_SIGNATURE_SIZE then Ok Schnorr else
  if (ML_DSA_44_SIGNATURE_SIZE <=? size + PQC_SIGNATURE_SIZE_TOLERANCE)
     && (size <=? ML_DSA_44_SIGNATURE_SIZE + PQC_SIGNATURE_SIZE_TOLERANCE) then Ok MlDsa44 else
  if (SLH_DSA_128S_SIGNATURE_SIZE <=? size + PQC_SIGNATURE_SIZE_TOLERANCE)
     && (size <=? SLH_DSA_128S_SIGNATURE_SIZE + PQC_SIGNATURE_SIZE_TOLERANCE)
  then Ok SlhDsaSha2128s else
  Err (UnrecognizedSize size).

Definition expected_pubkey_size (scheme : SignatureScheme) : Z :=
  match scheme with
  | Schnorr | SlhDsaSha2128s => SLH_DSA_PUBLIC_KEY_SIZE
  | MlDsa44 => ML_DSA_44_PUBLIC_KEY_SIZE
  end.

(** [TapscriptVerifyContext] without the budget, which is the state. *)
Record TapscriptVerifyContext := mkVerifyContext {
  vc_tx : Transaction;
  vc_input_index : nat;
  vc_prevouts : Prevouts;
  vc_leaf_hash : Hash32
}.

Definition validate_pubkey_for_scheme (pubkey_bytes : bytes) (scheme : SignatureScheme) :
    outcome SchemeError unit :=
  let size := len pubkey_bytes in
  if size =? expected_pubkey_size scheme then Ok tt else Err (PubkeySchemeMismatch size scheme).

Definition verify_schnorr (signature message pubkey_bytes : bytes) : outcome SchemeError unit :=
  let sig_bytes := strip_sighash_byte signature in
  sig ← ok_or (schnorr_sig_from_slice sig_bytes) InvalidSchnorr;
  pubkey ← ok_or (xonly_from_slice pubkey_bytes) InvalidSchnorr;
  if secp_verify_schnorr sig message pubkey then Ok tt else Err InvalidSchnorr.

(** The closure of [verify_pqc]. *)
Definition pqc_result (algorithm : PqcAlgorithm) (sig_bytes message pubkey_bytes : bytes)
    (invalid : SchemeError) : outcome SchemeError unit :=
  pqc_sig ← ok_or (pqc_sig_from_slice algorithm sig_bytes) invalid;
  pqc_pk ← ok_or (pqc_pk_from_slice algorithm pubkey_bytes) invalid;
  if pqc_verify pqc_pk message pqc_sig then Ok tt else Err invalid.

(** [start.elapsed()] *)
Definition next_duration (c : list Z) : Z * list Z :=
  match c with [] => (0, []) | d :: c => (d, c) end.

Definition verify_pqc (algorithm : PqcAlgorithm) (sig_bytes message pubkey_bytes : bytes)
    (invalid : SchemeError) : st verify_state SchemeError unit := λ s,
  let result := pqc_result algorithm sig_bytes message pubkey_bytes invalid in
  match pqc_budget s with
  | None => (result, s)
  | Some b =>
      let '(d, c) := next_duration (clock s) in
      let '(b', exceeded) := record b d in
      let s' := mkVerify (Some b') c in
      if exceeded then (Err PqcVerifyBudgetExceeded, s') else (result, s')
  end.

Definition verify_ml_dsa_44 (signature message pubkey_bytes : bytes) :
    st verify_state SchemeError unit :=
  verify_pqc ML_DSA_44 (strip_sighash_byte signature) message pubkey_bytes InvalidMlDsa44.

Definition verify_slh_dsa_sha2_128s (signature message pubkey_bytes : bytes) :
    st verify_state SchemeError unit :=
  verify_pqc SLH_DSA_SHA2_128S (strip_sighash_byte signature) message pubkey_bytes
    InvalidSlhDsaSha2128s.

Definition verify_tapscript_signature (scheme : SignatureScheme) (signature pubkey_bytes : bytes)
    (ctx : TapscriptVerifyContext) : st verify_state SchemeError unit :=
  let sighash_type := parse_sighash_type signature in
  sighash ← st_lift (ok_or (taproot_script_spend_signature_hash (vc_tx ctx) (vc_input_index ctx)
                       (vc_prevouts ctx) (vc_leaf_hash ctx) sighash_type) Sighash);
  match scheme with
  | Schnorr => st_lift (verify_schnorr signature sighash pubkey_bytes)
  | MlDsa44 => verify_ml_dsa_44 signature sighash pubkey_bytes
  | SlhDsaSha2128s => verify_slh_dsa_sha2_128s signature sighash pubkey_bytes
  end.

Definition verify_overloaded_checksig (pubkey_bytes signature : bytes)
    (ctx : TapscriptVerifyContext) : st verify_state SchemeError unit :=
  s ← st_get;
  _ ← st_lift (reject_if (match pqc_budget s with
                          | Some b => budget b <? elapsed b
                          | None => false
                          end) BlockVerifyBudgetExhausted);
  scheme ← st_lift (classify_signature signature);
  _ ← st_lift (validate_pubkey_for_scheme pubkey_bytes scheme);
  verify_tapscript_signature scheme signature pubkey_bytes ctx.

(** * Lemmas *)

Lemma canonical_size_spec raw :
  canonical_size raw = true ↔ len raw ∈ [64; 2420; 7856].
Proof.
  unfold canonical_size. rewrite !orb_true_iff, !Z.eqb_eq.
  unfold SCHNORR_SIGNATURE_SIZE, ML_DSA_44_SIGNATURE_SIZE, SLH_DSA_128S_SIGNATURE_SIZE.
  rewrite !list_elem_of_In. cbn. intuition lia.
Qed.

(** A canonical body is never mistaken for one with a suffix. *)
Lemma canonical_pop raw init last :
  canonical_size raw = true → raw = init ++ [last] → canonical_size init = false.
Proof.
  intros Hc ->. destruct (canonical_size init) eqn:Hi; [|done].
  apply canonical_size_spec in Hc, Hi. rewrite len_snoc in Hc.
  rewrite list_elem_of_In in Hc, Hi. cbn in Hc, Hi. lia.
Qed.

Lemma canonical_len raw : canonical_size raw = true → 64 ≤ len raw.
Proof. rewrite canonical_size_spec, list_elem_of_In. cbn. lia. Qed.

(** What the scheme verifies, without the budget: the reference verdict. *)
Definition signature_ok (pk sig : bytes) (ctx : TapscriptVerifyContext) : Prop :=
  ∃ scheme msg,
    classify_signature sig = Ok scheme ∧ len pk = expected_pubkey_size scheme
    ∧ taproot_script_spend_signature_hash (vc_tx ctx) (vc_input_index ctx) (vc_prevouts ctx)
        (vc_leaf_hash ctx) (parse_sighash_type sig) = Some msg
    ∧ match scheme with
      | Schnorr => verify_schnorr sig msg pk = Ok tt
      | MlDsa44 => pqc_result ML_DSA_44 (strip_sighash_byte sig) msg pk InvalidMlDsa44 = Ok tt
      | SlhDsaSha2128s => pqc_result SLH_DSA_SHA2_128S (strip_sighash_byte sig) msg pk
                            InvalidSlhDsaSha2128s = Ok tt
      end.

(** The budget has not run out. *)
Definition within_budget (s : verify_state) : Prop :=
  match pqc_budget s with Some b => elapsed b ≤ budget b | None => True end.

Lemma verify_pqc_Ok a sig msg pk inv s s' :
  verify_pqc a sig msg pk inv s = (Ok tt, s') →
  pqc_result a sig msg pk inv = Ok tt ∧ (within_budget s → within_budget s').
Proof.
  unfold verify_pqc. destruct (pqc_budget s) as [b|] eqn:Hb.
  - destruct (next_duration (clock s)) as [d c]. cbn.
    destruct (Z.ltb_spec (budget b) (elapsed b + d)); [done|].
    intros [= <- <-]. split; [done|]. intros _. unfold within_budget. cbn. lia.
  - intros [= <- <-]. done.
Qed.

Lemma validate_pubkey_for_scheme_Ok pk scheme u :
  validate_pubkey_for_scheme pk scheme = Ok u ↔ len pk = expected_pubkey_size scheme.
Proof.
  unfold validate_pubkey_for_scheme. destruct u.
  destruct (Z.eqb_spec (len pk) (expected_pubkey_size scheme)); naive_solver.
Qed.

Lemma verify_overloaded_checksig_Ok pk sig ctx s s' :
  verify_overloaded_checksig pk sig ctx s = (Ok tt, s') →
  signature_ok pk sig ctx ∧ within_budget s ∧ within_budget s'.
Proof.
  unfold verify_overloaded_checksig, verify_tapscript_signature. intros Hv.
  apply st_bind_Ok in Hv as (s0 & s1 & Hg & Hv). injection Hg as <- <-.
  apply st_bind_Ok in Hv as ([] & s1 & [Hb ->]%st_lift_Ok & Hv). apply reject_if_Ok in Hb.
  assert (within_budget s) as Hw.
  { unfold within_budget. destruct (pqc_budget s); [lia|done]. }
  apply st_bind_Ok in Hv as (scheme & s1 & [Hcl ->]%st_lift_Ok & Hv).
  apply st_bind_Ok in Hv as ([] & s1 & [Hpk%validate_pubkey_for_scheme_Ok ->]%st_lift_Ok & Hv).
  apply st_bind_Ok in Hv as (msg & s1 & [Hm%ok_or_Ok ->]%st_lift_Ok & Hv).
  destruct scheme.
  - apply st_lift_Ok in Hv as [Hv ->]. split; [|done]. exists Schnorr, msg. done.
  - apply verify_pqc_Ok in Hv as [Hv Hw']. split; [|auto]. exists MlDsa44, msg. done.
  - apply verify_pqc_Ok in Hv as [Hv Hw']. split; [|auto]. exists SlhDsaSha2128s, msg. done.
Qed.

(** With budget left, the check is the scheme's own verification. *)
Lemma verify_overloaded_checksig_run pk sig ctx scheme msg s :
  within_budget s → classify_signature sig = Ok scheme → len pk = expected_pubkey_size scheme →
  taproot_script_spend_signature_hash (vc_tx ctx) (vc_input_index ctx) (vc_prevouts ctx)
    (vc_leaf_hash ctx) (parse_sighash_type sig) = Some msg →
  verify_overloaded_checksig pk sig ctx s =
    match scheme with
    | Schnorr => (verify_schnorr sig msg pk, s)
    | MlDsa44 => verify_ml_dsa_44 sig msg pk s
    | SlhDsaSha2128s => verify_slh_dsa_sha2_128s sig msg pk s
    end.
Proof.
  intros Hw Hcl Hpk Hm.
  unfold verify_overloaded_checksig, verify_tapscript_signature, mbind, st_bind, st_get, st_lift.
  assert (match pqc_budget s with Some b => budget b <? elapsed b | None => false end = false) as ->.
  { unfold within_budget in Hw. destruct (pqc_budget s); [lia|done]. }
  rewrite Hcl, (proj2 (validate_pubkey_for_scheme_Ok pk scheme tt) Hpk), Hm. by destruct scheme.
Qed.

(** Without a budget the verdict is the reference verdict, whatever the clock. *)
Lemma verify_overloaded_checksig_unbudgeted pk sig ctx c :
  signature_ok pk sig ctx →
  verify_overloaded_checksig pk sig ctx (mkVerify None c) = (Ok tt, mkVerify None c).
Proof.
  intros (scheme & msg & Hcl & Hpk & Hm & Hv).
  rewrite (verify_overloaded_checksig_run pk sig ctx scheme msg) by done.
  destruct scheme; [by rewrite Hv| |];
    unfold verify_ml_dsa_44, verify_slh_dsa_sha2_128s, verify_pqc; cbn; by rewrite Hv.
Qed.

End schemes.

(** The signer's suffix ([append_sighash] of `signer.rs`): only the default type
    is left implicit. *)
Definition with_suffix (raw : bytes) (t : TapSighashType) : bytes :=
  if bool_decide (t = SighashDefault) then raw else raw ++ [sighash_to_u8 t].

(** * Properties *)

Lemma suffix_roundtrip `{TaprootLib} `{!SighashLaws} raw t :
  canonical_size raw = true →
  parse_sighash_type (with_suffix raw t) = t
  ∧ strip_sighash_byte (with_suffix raw t) = raw
  ∧ classify_signature (with_suffix raw t) =
      Ok (if len raw =? 64 then Schnorr else if len raw =? 2420 then MlDsa44 else SlhDsaSha2128s).
Proof.
  intros Hc. pose proof (canonical_len raw Hc) as Hl.
  assert (strip_sighash_byte (with_suffix raw t) = raw) as Hs.
  { unfold with_suffix, strip_sighash_byte. case_bool_decide.
    - rewrite (proj2 (Z.leb_gt _ _)) by lia. destruct (vec_pop raw) as [[i x]|] eqn:Hv; [|done].
      apply vec_pop_Some in Hv. rewrite (canonical_pop raw i x) by done.
      by destruct (sighash_from_consensus_u8 x).
    - rewrite len_snoc, (proj2 (Z.leb_gt _ _)) by lia.
      by rewrite vec_pop_snoc, sighash_from_to_u8, Hc. }
  split_and!; [|done|].
  - unfold with_suffix, parse_sighash_type. case_bool_decide as Ht.
    + rewrite (proj2 (Z.leb_gt _ _)) by lia. destruct (vec_pop raw) as [[i x]|] eqn:Hv; [|done].
      apply vec_pop_Some in Hv. by rewrite (canonical_pop raw i x).
    + rewrite len_snoc, (proj2 (Z.leb_gt _ _)) by lia.
      by rewrite vec_pop_snoc, Hc, sighash_from_to_u8.
  - unfold classify_signature. rewrite Hs. apply canonical_size_spec in Hc.
    rewrite list_elem_of_In in Hc. cbn in Hc. destruct Hc as [<-|[<-|[<-|[]]]]; done.
Qed.

(** Sighash suffixes round-trip: for a signature body of a canonical size
    and any sighash type, the suffixed signature is read back as that type, the
    suffix strips off to the body, and the scheme is chosen by the body's size. *)
Lemma sighash_suffix_roundtrip `{TaprootLib} `{!SighashLaws} raw t :
  canonical_size raw = true →
  parse_sighash_type (with_suffix raw t) = t
  ∧ strip_sighash_byte (with_suffix raw t) = raw
  ∧ classify_signature (with_suffix raw t) =
      Ok (if len raw =? 64 then Schnorr else if len raw =? 2420 then MlDsa44 else SlhDsaSha2128s).
Proof. apply suffix_roundtrip. Qed.

(** An explicit SIGHASH_DEFAULT suffix is accepted: appending the byte 0x00
    to a canonical signature changes neither its type, its body nor its scheme,
    so every valid bare signature has a second valid encoding (BIP341 forbids
    the suffix 0x00). *)
Lemma default_suffix_malleable `{TaprootLib} `{PqcLib} `{!SighashLaws} raw pk ctx :
  canonical_size raw = true → signature_ok pk raw ctx → signature_ok pk (raw ++ [x00]) ctx.
Proof.
  intros Hc (scheme & msg & Hcl & Hpk & Hm & Hv). pose proof (canonical_len raw Hc) as Hl.
  pose proof (sighash_from_to_u8 SighashDefault) as Hd. change (sighash_to_u8 _) with x00 in Hd.
  destruct (suffix_roundtrip raw SighashDefault Hc) as (Hp & Hs & _). cbn in Hp, Hs.
  change (with_suffix raw SighashDefault) with raw in Hp, Hs.
  assert (strip_sighash_byte (raw ++ [x00]) = raw) as Hs'.
  { unfold strip_sighash_byte. rewrite len_snoc, (proj2 (Z.leb_gt _ _)) by lia.
    by rewrite vec_pop_snoc, Hd, Hc. }
  assert (parse_sighash_type (raw ++ [x00]) = SighashDefault) as Hp'.
  { unfold parse_sighash_type. rewrite len_snoc, (proj2 (Z.leb_gt _ _)) by lia.
    by rewrite vec_pop_snoc, Hc, Hd. }
  exists scheme, msg. split_and!; [|done|by rewrite Hp', <- Hp|].
  - unfold classify_signature in *. rewrite Hs in Hcl. by rewrite Hs'.
  - destruct scheme; unfold verify_schnorr in *; rewrite Hs in Hv; by rewrite Hs'.
Qed.

(** The time budget can only turn acceptance into refusal: a signature check
    that succeeds under any budget and clock is a valid signature by the
    reference verdict (and so succeeds without a budget), and leaves the budget
    unexhausted. *)
Lemma budget_sound `{TaprootLib} `{PqcLib} pk sig ctx s s' :
  verify_overloaded_checksig pk sig ctx s = (Ok tt, s') →
  signature_ok pk sig ctx ∧ within_budget s'
  ∧ ∀ c, verify_overloaded_checksig pk sig ctx (mkVerify None c) = (Ok tt, mkVerify None c).
Proof.
  intros (Hok & _ & Hw)%verify_overloaded_checksig_Ok. split_and!; [done|done|].
  intros c. by apply verify_overloaded_checksig_unbudgeted.
Qed.

(** And it does: with the default budget of 500 ms, a valid ML-DSA signature
    is refused when its verification is measured above the budget, whatever the
    keys and message; the verdict on a block depends on the machine's clock. *)
Lemma budget_clock_dependent `{TaprootLib} `{PqcLib} pk sig ctx d c :
  signature_ok pk sig ctx → classify_signature sig = Ok MlDsa44 → 500 * 1000000 < d →
  (verify_overloaded_checksig pk sig ctx (mkVerify (Some new_default) (d :: c))).1
    = Err PqcVerifyBudgetExceeded.
Proof.
  intros (scheme & msg & Hcl & Hpk & Hm & _) Hml Hd. rewrite Hcl in Hml. injection Hml as ->.
  rewrite (verify_overloaded_checksig_run pk sig ctx MlDsa44 msg) by done.
  unfold verify_ml_dsa_44, verify_pqc, record. cbn [pqc_budget clock next_duration budget elapsed new_default with_budget_ms].
  unfold DEFAULT_PQC_VERIFY_BUDGET_MS.
  assert ((500 * 1000000 <? 0 + d) = true) as -> by lia. done.
Qed.

(** * Witnesses *)

Definition ex_verify_ctx : TapscriptVerifyContext :=
  mkVerifyContext (mkTransaction 2 7 [mkTxIn (mkOutPoint all_zeros 0) [] 0 []] []) 0
    (PrevoutsAll []) all_zeros.
(** The toy digest the signatures below sign. *)
Definition ex_digest : bytes := toy_digest 32 (x00 :: le_bytes 4 7).
Definition ex_schnorr_sig : bytes := replicate 32 x02 ++ ex_digest.
Definition ex_ml_sig : bytes := ex_digest ++ replicate 2388 x00.

Lemma sighash_suffix_roundtrip_witness :
  @parse_sighash_type toy_taproot (with_suffix ex_schnorr_sig SighashSingle) = SighashSingle
  ∧ @strip_sighash_byte toy_taproot (with_suffix ex_schnorr_sig SighashSingle) = ex_schnorr_sig
  ∧ @classify_signature toy_taproot (with_suffix ex_schnorr_sig SighashSingle) = Ok Schnorr.
Proof.
  apply (@sighash_suffix_roundtrip toy_taproot toy_sighash_laws ex_schnorr_sig SighashSingle).
  reflexivity.
Defined.

Lemma ex_schnorr_ok :
  @signature_ok toy_taproot toy_pqc (replicate 32 x02) ex_schnorr_sig ex_verify_ctx.
Proof. exists Schnorr, ex_digest. split_and!; vm_compute; reflexivity. Qed.

Lemma ex_ml_ok :
  @signature_ok toy_taproot toy_pqc (replicate 1312 x03) ex_ml_sig ex_verify_ctx.
Proof. exists MlDsa44, ex_digest. split_and!; vm_compute; reflexivity. Qed.

Lemma default_suffix_malleable_witness :
  @signature_ok toy_taproot toy_pqc (replicate 32 x02) (ex_schnorr_sig ++ [x00]) ex_verify_ctx.
Proof.
  apply (@default_suffix_malleable toy_taproot toy_pqc toy_sighash_laws);
    [reflexivity|apply ex_schnorr_ok].
Defined.

Lemma budget_sound_witness :
  @signature_ok toy_taproot toy_pqc (replicate 1312 x03) ex_ml_sig ex_verify_ctx
  ∧ within_budget (mkVerify (Some (mkBudget 500000000 3000000)) [])
  ∧ ∀ c, @verify_overloaded_checksig toy_taproot toy_pqc (replicate 1312 x03) ex_ml_sig ex_verify_ctx
           (mkVerify None c) = (Ok tt, mkVerify None c).
Proof.
  apply (@budget_sound toy_taproot toy_pqc (replicate 1312 x03) ex_ml_sig ex_verify_ctx
           (mkVerify (Some new_default) [3000000])).
  vm_compute. reflexivity.
Defined.

Lemma budget_clock_dependent_witness :
  (@verify_overloaded_checksig toy_taproot toy_pqc (replicate 1312 x03) ex_ml_sig ex_verify_ctx
    (mkVerify (Some new_default) [600000000])).1 = Err PqcVerifyBudgetExceeded.
Proof.
  apply (@budget_clock_dependent toy_taproot toy_pqc); [apply ex_ml_ok|vm_compute; reflexivity|lia].
Defined.
