(* ===== verification/Spend.v ===== *)
(** P2MR script-path spend validation (`pqc/spend.rs`), one input and a whole
    transaction. *)
From Stdlib Require Import ZArith Lia Strings.Byte.
From stdpp Require Import base list gmap.
From S2P Require Import Prelude Bitcoin Concrete Limits P2mrOutput Merkle Encoding LeafScript.
From S2P Require Import Schemes.
#[local] Open Scope Z_scope.

Inductive SpendError :=
| EmptyWitness
| WitnessStackTooLarge
| IncompleteWitness
| SignatureWeightExceeded (sig_wu : Z)
| SpendLeafScriptTooLarge
| InvalidP2mrLeafVersion
| SpendLeafScript (e : LeafScriptError)
| SpendMissingPrevout (input_index : nat)
| UnverifiableSpend (input_index : nat)
| SpendOutput (e : P2mrOutputError)
| SpendMerkle (e : MerkleError)
| SpendScheme (e : SchemeError).

Section spend.
Context `{ScriptLib} `{TxLib} `{TaprootLib} `{P2mrLib} `{PqcLib}.

Definition p2mr_leaf_version : outcome SpendError byte :=
  ok_or (leaf_version_from_consensus P2MR_LEAF_VERSION) InvalidP2mrLeafVersion.

Definition validate_p2mr_input_spend (tx : Transaction) (input_index : nat) (prevout : TxOut)
    (prevouts : Prevouts) : st verify_state SpendError unit :=
  input ← st_lift (ok_or (input tx !! input_index) (SpendMissingPrevout input_index));
  let witness := witness input in
  _ ← st_lift (reject_if (bool_decide (witness = [])) EmptyWitness);
  _ ← st_lift (reject_if (MAX_P2MR_WITNESS_STACK <? len witness) WitnessStackTooLarge);
  merkle_root ← st_lift (map_err SpendOutput (validate_p2mr_output (script_pubkey prevout)));
  let witness_len := length witness in
  _ ← st_lift (reject_if (bool_decide (witness_len < 2)%nat) IncompleteWitness);
  control_block_bytes ← st_lift (index witness (witness_len - 1));
  leaf_script_bytes ← st_lift (index witness (witness_len - 2));
  _ ← st_lift (reject_if (MAX_P2MR_LEAF_SCRIPT_SIZE <? len leaf_script_bytes) SpendLeafScriptTooLarge);
  let signature_count := (witness_len - 2)%nat in
  _ ← st_lift (reject_if (bool_decide (signature_count = 0%nat)) EmptyWitness);
  let sig_wu := foldr Z.add 0 (map (λ sig, estimate_sig_wu (len sig)) (take signature_count witness)) in
  _ ← st_lift (reject_if (MAX_PQC_SIG_WU_PER_INPUT <? sig_wu) (SignatureWeightExceeded sig_wu));
  parsed ← st_lift (map_err SpendLeafScript
                      (validate_witness_sig_count leaf_script_bytes signature_count));
  _ ← st_lift (map_err SpendMerkle
                 (verify_merkle_path leaf_script_bytes merkle_root control_block_bytes));
  leaf_version ← st_lift p2mr_leaf_version;
  let leaf_hash := tap_leaf_hash leaf_script_bytes leaf_version in
  let verify_ctx := mkVerifyContext tx input_index prevouts leaf_hash in
  st_for_each (λ '(site, signature),
    st_map_err SpendScheme (verify_overloaded_checksig (pubkey site) signature verify_ctx))
    (zip (sig_sites parsed) (take signature_count witness)).

Definition validate_p2mr_outputs (tx : Transaction) : outcome SpendError unit :=
  for_each (λ output _,
    if is_p2mr_script (script_pubkey output)
    then _ ← map_err SpendOutput (validate_p2mr_output (script_pubkey output)); Ok tt
    else Ok tt) (output tx) tt.

(** [(vout, output)] of a transaction as outpoints; [vout as u32]. *)
Definition tx_outpoints (tx : Transaction) : list (OutPoint * TxOut) :=
  imap (λ vout o, (mkOutPoint (compute_txid tx) (wrap_u 32 (Z.of_nat vout)), o)) (output tx).

Definition utxo_map_from_transactions (txs : list Transaction) : PrevoutMap :=
  foldl (λ map tx, foldl (λ map '(op, o), <[op := o]> map) map (tx_outpoints tx)) ∅ txs.

Definition sighash_anyonecanpay (sighash_type : TapSighashType) : bool :=
  match sighash_type with
  | AllPlusAnyoneCanPay | NonePlusAnyoneCanPay | SinglePlusAnyoneCanPay => true
  | _ => false
  end.

(** [owned_prevouts] is scratch storage for the returned slice. *)
Definition prevouts_for_p2mr_input (tx : Transaction) (input_index : nat)
    (available_prevouts : PrevoutMap) (sighash_type : TapSighashType) :
    outcome SpendError (option Prevouts) :=
  input0 ← index (input tx) input_index;
  match available_prevouts !! previous_output input0 with
  | None => Ok None
  | Some prevout =>
      if sighash_anyonecanpay sighash_type then Ok (Some (PrevoutsOne input_index prevout)) else
      if bool_decide (length (input tx) = 1%nat) then Ok (Some (PrevoutsAll [prevout])) else
      match mapM (λ i, available_prevouts !! previous_output i) (input tx) with
      | Some owned => Ok (Some (PrevoutsAll owned))
      | None => Ok None
      end
  end.

(** One round of the loop of [validate_transaction_spends]. *)
Definition validate_spend_input (tx : Transaction) (available_prevouts : PrevoutMap)
    (chain_p2mr_utxos : option PrevoutMap) (spent_p2mr_in_block : option (gset OutPoint))
    (i : nat * TxIn) : st verify_state SpendError unit :=
  let '(input_index, input) := i in
  match available_prevouts !! previous_output input with
  | None =>
      st_lift (reject_if
        (negb (bool_decide (witness input = []))
         && (match chain_p2mr_utxos with
             | Some chain => bool_decide (is_Some (chain !! previous_output input))
             | None => false end
             || match spent_p2mr_in_block with
                | Some spent => bool_decide (previous_output input ∈ spent)
                | None => false end))
        (SpendMissingPrevout input_index))
  | Some prevout =>
      if negb (is_p2mr_script (script_pubkey prevout)) then mret tt else
      _ ← st_lift (reject_if (bool_decide (witness input = [])) EmptyWitness);
      let sighash_type := parse_sighash_type (default [] (witness input !! 0%nat)) in
      o ← st_lift (prevouts_for_p2mr_input tx input_index available_prevouts sighash_type);
      match o with
      | None => st_lift (Err (UnverifiableSpend input_index))
      | Some prevouts => validate_p2mr_input_spend tx input_index prevout prevouts
      end
  end.

Definition validate_transaction_spends (tx : Transaction) (available_prevouts : PrevoutMap)
    (chain_p2mr_utxos : option PrevoutMap) (spent_p2mr_in_block : option (gset OutPoint)) :
    st verify_state SpendError unit :=
  _ ← st_lift (validate_p2mr_outputs tx);
  st_for_each (validate_spend_input tx available_prevouts chain_p2mr_utxos spent_p2mr_in_block)
    (enumerate (input tx)).

(** * Specification *)

Definition sig_weight (sigs : list bytes) : Z := foldr Z.add 0 (map len sigs).

(** Input [i] of [tx] is an authorised spend of the P2MR output [prevout]: the
    witness is [sigs ++ [leaf; control]], the leaf is committed by the output's
    merkle root, and every signature site of the leaf has its own signature,
    valid for the site's key over the sighash of this input and leaf. *)
Record p2mr_spend_ok (tx : Transaction) (i : nat) (prevout : TxOut) (prevouts : Prevouts) : Prop := {
  so_witness : ∃ txin sigs leaf cb root p lv,
    input tx !! i = Some txin
    ∧ witness txin = sigs ++ [leaf; cb]
    ∧ sigs ≠ [] ∧ len (witness txin) ≤ MAX_P2MR_WITNESS_STACK
    ∧ sig_weight sigs ≤ MAX_PQC_SIG_WU_PER_INPUT
    ∧ script_pubkey prevout = x52 :: x20 :: root ∧ len root = 32
    ∧ verify_merkle_path leaf root cb = Ok tt
    ∧ parse_leaf_script leaf = Ok p
    ∧ leaf_version_from_consensus P2MR_LEAF_VERSION = Some lv
    ∧ Forall2 (λ site sig, signature_ok (pubkey site) sig
                 (mkVerifyContext tx i prevouts (tap_leaf_hash leaf lv)))
        (sig_sites p) sigs
}.

(** * Lemmas *)

Lemma witness_split (w : Witness) :
  (2 ≤ length w)%nat → ∃ sigs leaf cb, w = sigs ++ [leaf; cb].
Proof.
  intros Hl. destruct (vec_pop w) as [[w1 cb]|] eqn:H1'; [|apply vec_pop_None in H1'; subst; cbn in Hl; lia].
  apply vec_pop_Some in H1' as ->. rewrite length_app in Hl. cbn in Hl.
  destruct (vec_pop w1) as [[sigs lf]|] eqn:H2'; [|apply vec_pop_None in H2'; subst; cbn in Hl; lia].
  apply vec_pop_Some in H2' as ->. exists sigs, lf, cb. by rewrite <- app_assoc.
Qed.

Lemma witness_lookup (sigs : list bytes) lf cb :
  let w := sigs ++ [lf; cb] in
  w !! (length w - 1)%nat = Some cb ∧ w !! (length w - 2)%nat = Some lf
  ∧ take (length w - 2) w = sigs ∧ (length w - 2)%nat = length sigs.
Proof.
  cbn zeta. rewrite length_app. cbn [length]. split_and!.
  - rewrite lookup_app_r by lia. by replace (length sigs + 2 - 1 - length sigs)%nat with 1%nat by lia.
  - rewrite lookup_app_r by lia. by replace (length sigs + 2 - 2 - length sigs)%nat with 0%nat by lia.
  - apply take_app_length'. lia.
  - lia.
Qed.

Lemma validate_witness_sig_count_Ok script n p :
  validate_witness_sig_count script n = Ok p ↔
    parse_leaf_script script = Ok p ∧ length (sig_sites p) = n.
Proof.
  unfold validate_witness_sig_count. split.
  - intros Hv. okinv. rename select (bool_decide _ = false) into Hb.
    apply bool_decide_eq_false, dec_stable in Hb. done.
  - intros [-> <-]. cbn. by rewrite bool_decide_false by (by intros []).
Qed.

(** The signature loop: each site is checked against its own signature. *)
Lemma check_sites_Ok sites sigs ctx s s' :
  length sites = length sigs →
  st_for_each (λ '(site, signature),
    st_map_err SpendScheme (verify_overloaded_checksig (pubkey site) signature ctx))
    (zip sites sigs) s = (Ok tt, s') →
  Forall2 (λ site sig, signature_ok (pubkey site) sig ctx) sites sigs.
Proof.
  revert sigs s. induction sites as [|site sites IH]; intros [|sig sigs] s Hl Hr; try done.
  cbn [zip zip_with st_for_each] in Hr. apply st_bind_Ok in Hr as ([] & s1 & Hc & Hr).
  apply st_map_err_Ok, verify_overloaded_checksig_Ok in Hc as (Hc & _).
  constructor; [done|]. eapply IH; [|done]. cbn in Hl. lia.
Qed.

Lemma check_sites_unbudgeted sites sigs ctx c :
  Forall2 (λ site sig, signature_ok (pubkey site) sig ctx) sites sigs →
  st_for_each (λ '(site, signature),
    st_map_err SpendScheme (verify_overloaded_checksig (pubkey site) signature ctx))
    (zip sites sigs) (mkVerify None c) = (Ok tt, mkVerify None c).
Proof.
  induction 1 as [|site sig sites sigs Hs _ IH]; [done|].
  cbn [zip zip_with st_for_each]. apply st_bind_Ok. eexists tt, _. split; [|exact IH].
  apply st_map_err_Ok. by apply verify_overloaded_checksig_unbudgeted.
Qed.

Lemma validate_p2mr_input_spend_Ok tx i prevout ps s s' :
  validate_p2mr_input_spend tx i prevout ps s = (Ok tt, s') → p2mr_spend_ok tx i prevout ps.
Proof.
  unfold validate_p2mr_input_spend. intros Hv. stinv.
  repeat match goal with
  | Hd : bool_decide _ = false |- _ => apply bool_decide_eq_false in Hd
  end.
  rename select (input tx !! i = Some _) into Hin.
  rename select (validate_p2mr_output _ = Ok _) into Hout. apply validate_p2mr_output_Ok in Hout as [Hspk Hroot].
  rename select (validate_witness_sig_count _ _ = Ok _) into Hcount.
  apply validate_witness_sig_count_Ok in Hcount as [Hparse Hcount].
  rename select (p2mr_leaf_version = Ok _) into Hlv. apply ok_or_Ok in Hlv.
  destruct (witness_split (witness x)) as (sigs & lf & cb & Hw); [lia|].
  destruct (witness_lookup sigs lf cb) as (Hcb & Hlf & Htake & Hn). rewrite <- Hw in *.
  rename select (st_for_each _ _ _ = _) into Hloop.
  pose proof (conj Htake I) as Ht. clear Htake. simplify_eq. destruct Ht as [Htake _].
  rewrite Htake in Hloop. rewrite Hn in Hcount.
  apply check_sites_Ok in Hloop; [|done].
  constructor. do 7 eexists. split_and!; try done.
  - intros ->. cbn in *. done.
  - lia.
  - rename select ((MAX_PQC_SIG_WU_PER_INPUT <? _) = false) into Hwu. rewrite Htake in Hwu.
    exact (proj1 (Z.ltb_ge _ _) Hwu).
Qed.

(** Without a budget, every authorised spend is accepted. *)
Lemma validate_p2mr_input_spend_complete tx i prevout ps c :
  p2mr_spend_ok tx i prevout ps →
  validate_p2mr_input_spend tx i prevout ps (mkVerify None c) = (Ok tt, mkVerify None c).
Proof.
  intros [(txin & sigs & lf & cb & root & p & lv & Hin & Hw & Hne & Hlen & Hwu & Hspk & Hroot
           & Hver & Hparse & Hlv & Hsigs)].
  destruct (witness_lookup sigs lf cb) as (Hcb & Hlf & Htake & Hn). rewrite <- Hw in *.
  assert (length sigs ≠ 0%nat) by by destruct sigs.
  unfold validate_p2mr_input_spend.
  rewrite (st_lift_bind _ txin) by (by rewrite Hin).
  rewrite (st_lift_bind _ tt) by (apply reject_if_Ok, bool_decide_eq_false; rewrite Hw; by destruct sigs).
  rewrite (st_lift_bind _ tt) by (apply reject_if_Ok; lia).
  rewrite (st_lift_bind _ root) by (apply map_err_Ok; by apply validate_p2mr_output_Ok).
  rewrite (st_lift_bind _ tt) by (apply reject_if_Ok, bool_decide_eq_false; lia).
  rewrite (st_lift_bind _ cb) by (by apply expect_Ok).
  rewrite (st_lift_bind _ lf) by (by apply expect_Ok).
  pose proof Hparse as Hsize. unfold parse_leaf_script in Hsize.
  apply bind_Ok in Hsize as ([] & _ & Hsize). apply bind_Ok in Hsize as ([] & Hsize%reject_if_Ok & _).
  rewrite (st_lift_bind _ tt) by (by apply reject_if_Ok).
  rewrite Htake, Hn.
  rewrite (st_lift_bind _ tt) by (apply reject_if_Ok, bool_decide_eq_false; lia).
  rewrite (st_lift_bind _ tt) by (apply reject_if_Ok; apply Z.ltb_ge; exact Hwu).
  rewrite (st_lift_bind _ p).
  2: { apply map_err_Ok, validate_witness_sig_count_Ok. split; [done|]. by apply Forall2_length in Hsigs. }
  rewrite (st_lift_bind _ tt) by (by apply map_err_Ok).
  rewrite (st_lift_bind _ lv) by (unfold p2mr_leaf_version; by rewrite Hlv).
  by apply check_sites_unbudgeted.
Qed.

(** The prevouts handed to the sighash: this input's alone for an ANYONECANPAY
    first signature, otherwise the resolved prevout of every input. *)
Definition prevouts_resolved (tx : Transaction) (i : nat) (prevout : TxOut)
    (available : PrevoutMap) (t : TapSighashType) (ps : Prevouts) : Prop :=
  if sighash_anyonecanpay t then ps = PrevoutsOne i prevout
  else ∃ l, Forall2 (λ txin o, available !! previous_output txin = Some o) (input tx) l
            ∧ ps = PrevoutsAll l.

Lemma prevouts_for_p2mr_input_Ok tx i txin prevout available t ps :
  input tx !! i = Some txin → available !! previous_output txin = Some prevout →
  prevouts_for_p2mr_input tx i available t = Ok (Some ps) →
  prevouts_resolved tx i prevout available t ps.
Proof.
  intros Hi Hp. unfold prevouts_for_p2mr_input, prevouts_resolved, index. rewrite Hi. cbn. rewrite Hp.
  destruct (sighash_anyonecanpay t); [by intros [= <-]|]. case_bool_decide as Hl.
  - intros [= <-]. exists [prevout]. split; [|done].
    destruct (input tx) as [|x [|y r]]; try done. destruct i; [|done]. simplify_eq/=. by repeat constructor.
  - destruct (mapM _ _) as [l|] eqn:Hm; [|done]. intros [= <-]. exists l. split; [|done].
    by apply mapM_Some.
Qed.

(** The type of the first witness element, which selects the prevouts. *)
Definition first_type (txin : TxIn) : TapSighashType :=
  parse_sighash_type (default [] (witness txin !! 0%nat)).

Lemma validate_spend_input_Ok tx available chain spent i txin s s' :
  input tx !! i = Some txin →
  validate_spend_input tx available chain spent (i, txin) s = (Ok tt, s') →
  match available !! previous_output txin with
  | Some prevout =>
      is_p2mr_script (script_pubkey prevout) = true →
      ∃ ps, prevouts_resolved tx i prevout available (first_type txin) ps
            ∧ p2mr_spend_ok tx i prevout ps
  | None =>
      (∃ m, chain = Some m ∧ is_Some (m !! previous_output txin))
      ∨ (∃ m, spent = Some m ∧ previous_output txin ∈ m) → witness txin = []
  end.
Proof.
  intros Hi Hv. unfold validate_spend_input in Hv.
  destruct (available !! previous_output txin) as [prevout|] eqn:Hp.
  - intros Hspk. rewrite Hspk in Hv. cbn [negb] in Hv. stinv.
    rename select (prevouts_for_p2mr_input _ _ _ _ = _) into Hps.
    match type of Hps with _ = Ok ?o => destruct o as [ps|] end; [|stinv; done].
    exists ps. split; [by eapply prevouts_for_p2mr_input_Ok|by eapply validate_p2mr_input_spend_Ok].
  - stinv. rename select (_ && _ = false) into Hb. apply andb_false_iff in Hb as [Hb|Hb].
    + intros _. apply negb_false_iff, bool_decide_eq_true in Hb. done.
    + apply orb_false_iff in Hb as [Hc Hs]. intros [(m & -> & Hm)|(m & -> & Hm)].
      * by apply bool_decide_eq_false in Hc.
      * by apply bool_decide_eq_false in Hs.
Qed.
End spend.

(** * Properties *)

Lemma spends_sound
    `{ScriptLib} `{TxLib} `{TaprootLib} `{P2mrLib} `{PqcLib} tx available chain spent s s' :
  validate_transaction_spends tx available chain spent s = (Ok tt, s') →
  ∀ i txin, input tx !! i = Some txin →
  match available !! previous_output txin with
  | Some prevout =>
      is_p2mr_script (script_pubkey prevout) = true →
      ∃ ps, prevouts_resolved tx i prevout available (first_type txin) ps
            ∧ p2mr_spend_ok tx i prevout ps
  | None =>
      (∃ m, chain = Some m ∧ is_Some (m !! previous_output txin))
      ∨ (∃ m, spent = Some m ∧ previous_output txin ∈ m) → witness txin = []
  end.
Proof.
  unfold validate_transaction_spends. intros Hv i txin Hi. stinv.
  rename select (st_for_each _ _ _ = _) into Hloop.
  destruct (st_for_each_Ok _ _ _ _ Hloop (i, txin)) as (s1 & s2 & Hx); [by apply elem_of_enumerate|].
  by eapply validate_spend_input_Ok.
Qed.

(** C6: no P2MR output is spent without its signatures: if a transaction passes
    (under any budget and clock), every input whose available prevout is a P2MR
    output is an authorised spend of it, with the sighash over this input's
    prevout or over the resolved prevouts of all inputs; and an input whose
    prevout is unavailable but is a tracked P2MR output, or one spent earlier in
    the block, has no witness. *)
Theorem validate_transaction_spends_sound
    `{ScriptLib} `{TxLib} `{TaprootLib} `{P2mrLib} `{PqcLib} tx available chain spent s s' :
  validate_transaction_spends tx available chain spent s = (Ok tt, s') →
  ∀ i txin, input tx !! i = Some txin →
  match available !! previous_output txin with
  | Some prevout =>
      is_p2mr_script (script_pubkey prevout) = true →
      ∃ ps, prevouts_resolved tx i prevout available (first_type txin) ps
            ∧ p2mr_spend_ok tx i prevout ps
  | None =>
      (∃ m, chain = Some m ∧ is_Some (m !! previous_output txin))
      ∨ (∃ m, spent = Some m ∧ previous_output txin ∈ m) → witness txin = []
  end.
Proof. apply spends_sound. Qed.

(** C11: the reference verdict on a P2MR input is exactly what the code computes:
    without a time budget, [validate_p2mr_input_spend] accepts an input iff it is
    an authorised spend; with one, it accepts only authorised spends. *)
Theorem validate_p2mr_input_spend_iff
    `{ScriptLib} `{TxLib} `{TaprootLib} `{P2mrLib} `{PqcLib} tx i prevout ps c :
  ((validate_p2mr_input_spend tx i prevout ps (mkVerify None c)).1 = Ok tt
     ↔ p2mr_spend_ok tx i prevout ps)
  ∧ ∀ s, (validate_p2mr_input_spend tx i prevout ps s).1 = Ok tt → p2mr_spend_ok tx i prevout ps.
Proof.
  assert (∀ s, (validate_p2mr_input_spend tx i prevout ps s).1 = Ok tt → p2mr_spend_ok tx i prevout ps)
    as Hs.
  { intros s Hv. destruct (validate_p2mr_input_spend tx i prevout ps s) as [o s'] eqn:He.
    cbn in Hv. subst o. by eapply validate_p2mr_input_spend_Ok. }
  split; [|done]. split; [apply Hs|]. intros Hok. by rewrite validate_p2mr_input_spend_complete.
Qed.

(** Signatures of one input must agree on ANYONECANPAY with the first: the
    prevouts are chosen from the first signature's type, and BIP341 defines no
    digest over one prevout for the other types, so an input whose first
    signature is ANYONECANPAY and another is not is always refused, whatever
    each signature is worth under its own type. *)
Lemma mixed_sighash_refused
    `{ScriptLib} `{TxLib} `{TaprootLib} `{P2mrLib} `{PqcLib}
    (Hone : ∀ tx i o lh t, sighash_anyonecanpay t = false →
      taproot_script_spend_signature_hash tx i (PrevoutsOne i o) lh t = None)
    tx available chain spent s i txin prevout sigs leaf cb sig :
  input tx !! i = Some txin → available !! previous_output txin = Some prevout →
  is_p2mr_script (script_pubkey prevout) = true →
  witness txin = sigs ++ [leaf; cb] → sig ∈ sigs →
  sighash_anyonecanpay (first_type txin) = true →
  sighash_anyonecanpay (parse_sighash_type sig) = false →
  (validate_transaction_spends tx available chain spent s).1 ≠ Ok tt.
Proof.
  intros Hi Hp Hspk Hw Hsig Hfirst Hother Hv.
  destruct (validate_transaction_spends tx available chain spent s) as [o s'] eqn:He.
  cbn in Hv. subst o. pose proof (spends_sound _ _ _ _ _ _ He i txin Hi) as Hs.
  rewrite Hp in Hs. destruct (Hs Hspk) as (ps & Hps & [Hok]).
  unfold prevouts_resolved in Hps. rewrite Hfirst in Hps. subst ps.
  destruct Hok as (txin' & sigs' & leaf' & cb' & root & p & lv & Hi' & Hw' & _ & _ & _ & _ & _ & _ & _ & _ & Hall).
  simplify_eq. rewrite Hw in Hw'.
  change [leaf; cb] with ([leaf] ++ [cb]) in Hw'. change [leaf'; cb'] with ([leaf'] ++ [cb']) in Hw'.
  rewrite !app_assoc in Hw'. apply app_inj_tail in Hw' as [Hw' _]. apply app_inj_tail in Hw' as [<- _].
  apply list_elem_of_lookup in Hsig as [j Hj].
  destruct (Forall2_lookup_r _ _ _ _ _ Hall Hj) as (site & _ & scheme & msg & _ & _ & Hm & _).
  cbn in Hm. by rewrite Hone in Hm.
Qed.

(** * Witnesses: a single-key spend, and a 2-of-2 with mixed sighash types *)

Definition ex_leaf : Script := leaf_of [Single (replicate 32 x02) OP_CHECKSIG].
Definition ex_root : bytes := toy_digest 32 (xc0 :: ex_leaf).
Definition ex_p2mr_out (root : bytes) : TxOut := mkTxOut 50000 (x52 :: x20 :: root).
Definition ex_p2mr_outpoint : OutPoint := mkOutPoint all_zeros 3.
Definition ex_spend_tx (w : Witness) : Transaction :=
  mkTransaction 2 7 [mkTxIn ex_p2mr_outpoint [] 0 w] [].
Definition ex_spend_witness : Witness := [ex_schnorr_sig; ex_leaf; [xc1]].
Definition ex_available (root : bytes) : PrevoutMap := {[ ex_p2mr_outpoint := ex_p2mr_out root ]}.

Lemma validate_p2mr_input_spend_iff_witness :
  @p2mr_spend_ok toy_script toy_taproot toy_p2mr toy_pqc (ex_spend_tx ex_spend_witness) 0
    (ex_p2mr_out ex_root) (PrevoutsAll [ex_p2mr_out ex_root]).
Proof.
  apply (@validate_p2mr_input_spend_iff toy_script toy_tx toy_taproot toy_p2mr toy_pqc
           (ex_spend_tx ex_spend_witness) 0 (ex_p2mr_out ex_root)
           (PrevoutsAll [ex_p2mr_out ex_root]) []).
  vm_compute. reflexivity.
Defined.

Lemma validate_transaction_spends_sound_witness :
  ∃ ps, @prevouts_resolved (ex_spend_tx ex_spend_witness) 0 (ex_p2mr_out ex_root)
          (ex_available ex_root) SighashDefault ps
        ∧ @p2mr_spend_ok toy_script toy_taproot toy_p2mr toy_pqc (ex_spend_tx ex_spend_witness) 0
            (ex_p2mr_out ex_root) ps.
Proof.
  assert (ex_available ex_root !! ex_p2mr_outpoint = Some (ex_p2mr_out ex_root)) as Hl by reflexivity.
  pose proof (@validate_transaction_spends_sound toy_script toy_tx toy_taproot toy_p2mr toy_pqc
           (ex_spend_tx ex_spend_witness) (ex_available ex_root) None None
           (mkVerify (Some new_default) []) (mkVerify (Some new_default) [])
           ltac:(vm_compute; reflexivity) 0%nat (mkTxIn ex_p2mr_outpoint [] 0 ex_spend_witness) eq_refl) as Hs.
  cbn [previous_output] in Hs. rewrite Hl in Hs. exact (Hs eq_refl).
Defined.

Definition ex_multi_leaf : Script := leaf_of [Multi ex_keys OP_CHECKMULTISIG].
Definition ex_mixed_witness : Witness :=
  [ex_schnorr_sig ++ [x81]; ex_schnorr_sig; ex_multi_leaf; [xc1]].

Lemma mixed_sighash_refused_witness :
  (@validate_transaction_spends toy_script toy_taproot toy_p2mr toy_pqc (ex_spend_tx ex_mixed_witness)
     (ex_available (toy_digest 32 (xc0 :: ex_multi_leaf))) None None (mkVerify None [])).1 ≠ Ok tt.
Proof.
  assert (∀ tx i o lh t, sighash_anyonecanpay t = false →
    @taproot_script_spend_signature_hash toy_taproot tx i (PrevoutsOne i o) lh t = None) as Hone.
  { intros tx i o lh t Ht. cbn. by destruct t; rewrite ?andb_false_r. }
  apply (@mixed_sighash_refused toy_script toy_tx toy_taproot toy_p2mr toy_pqc Hone
    _ _ _ _ _ 0 (mkTxIn ex_p2mr_outpoint [] 0 ex_mixed_witness)
    (ex_p2mr_out (toy_digest 32 (xc0 :: ex_multi_leaf)))
    [ex_schnorr_sig ++ [x81]; ex_schnorr_sig] ex_multi_leaf [xc1] ex_schnorr_sig);
    [reflexivity|reflexivity|reflexivity|reflexivity|right; left|reflexivity|reflexivity].
Defined.
