(* ===== verification/P2mrUtxo.v ===== *)
(** P2MR UTXO diffs of a block (`pqc/p2mr_utxo.rs`): the incremental prevout
    maps, and the diff persisted for connect and disconnect. *)
From Stdlib Require Import ZArith Lia Strings.Byte.
From stdpp Require Import base list gmap.
From S2P Require Import Prelude Bitcoin Concrete P2mrOutput Spend.
#[local] Open Scope Z_scope.

Record P2mrUtxoBlockDiff := mkDiff { spent : PrevoutMap; created : PrevoutMap }.
Definition diff_default : P2mrUtxoBlockDiff := mkDiff ∅ ∅.

(** The maps an update threads: [available], the two of [diff], and
    [spent_p2mr_in_block]. *)
Record utxo_state := mkUtxo {
  u_available : PrevoutMap;
  u_diff : option P2mrUtxoBlockDiff;
  u_spent_p2mr : gset OutPoint
}.

(** [created.remove(&op)]; if it was absent, [spent.insert(op, prevout)]. *)
Definition diff_spend (d : P2mrUtxoBlockDiff) (op : OutPoint) (prevout : TxOut) : P2mrUtxoBlockDiff :=
  match created d !! op with
  | Some _ => mkDiff (spent d) (delete op (created d))
  | None => mkDiff (<[op := prevout]> (spent d)) (delete op (created d))
  end.

Definition diff_create (d : P2mrUtxoBlockDiff) (op : OutPoint) (o : TxOut) : P2mrUtxoBlockDiff :=
  mkDiff (spent d) (<[op := o]> (created d)).

Section p2mr_utxo.
Context `{TxLib}.

(** The input loop of [apply_tx_to_validation_available]. *)
Definition validation_spend (s : utxo_state) (input : TxIn) : utxo_state :=
  let op := previous_output input in
  let available := delete op (u_available s) in
  match u_available s !! op with
  | Some prevout =>
      if is_p2mr_script (script_pubkey prevout)
      then mkUtxo available (option_map (λ d, diff_spend d op prevout) (u_diff s))
             ({[op]} ∪ u_spent_p2mr s)
      else mkUtxo available (u_diff s) (u_spent_p2mr s)
  | None => mkUtxo available (u_diff s) (u_spent_p2mr s)
  end.

(** Its output loop. *)
Definition validation_create (s : utxo_state) (p : OutPoint * TxOut) : utxo_state :=
  let '(op, o) := p in
  mkUtxo (<[op := o]> (u_available s))
    (if is_p2mr_script (script_pubkey o) then option_map (λ d, diff_create d op o) (u_diff s)
     else u_diff s)
    (u_spent_p2mr s).

Definition apply_tx_to_validation_available (tx : Transaction) (s : utxo_state) : utxo_state :=
  foldl validation_create (foldl validation_spend s (input tx)) (tx_outpoints tx).

(** [apply_tx_to_available]: the P2MR-only update. *)
Definition available_spend (s : PrevoutMap * P2mrUtxoBlockDiff) (input : TxIn) :
    PrevoutMap * P2mrUtxoBlockDiff :=
  let '(available, d) := s in
  let op := previous_output input in
  match available !! op with
  | Some prevout =>
      if is_p2mr_script (script_pubkey prevout) then (delete op available, diff_spend d op prevout)
      else (delete op available, d)
  | None => (delete op available, d)
  end.

Definition available_create (s : PrevoutMap * P2mrUtxoBlockDiff) (p : OutPoint * TxOut) :
    PrevoutMap * P2mrUtxoBlockDiff :=
  let '(available, d) := s in
  let '(op, o) := p in
  if is_p2mr_script (script_pubkey o) then (<[op := o]> available, diff_create d op o) else (available, d).

Definition apply_tx_to_available (tx : Transaction) (s : PrevoutMap * P2mrUtxoBlockDiff) :
    PrevoutMap * P2mrUtxoBlockDiff :=
  foldl available_create (foldl available_spend s (input tx)) (tx_outpoints tx).

Definition compute_block_diff (block : Block) (chain_utxos : PrevoutMap) : P2mrUtxoBlockDiff :=
  (foldl (λ s tx, apply_tx_to_available tx s) (chain_utxos, diff_default) (txdata block)).2.

(** * Specification *)

(** The P2MR UTXO set after a transaction: its inputs are removed, its P2MR
    outputs added. *)
Definition p2mr_step (utxos : PrevoutMap) (tx : Transaction) : PrevoutMap :=
  foldl (λ m '(op, o), if is_p2mr_script (script_pubkey o) then <[op := o]> m else m)
    (foldl (λ m i, delete (previous_output i) m) utxos (input tx)) (tx_outpoints tx).

Definition p2mr_after (utxos : PrevoutMap) (txs : list Transaction) : PrevoutMap :=
  foldl p2mr_step utxos txs.

(** Applying and undoing a diff on a UTXO set ([P2mrUtxoDbs]). *)
Definition diff_apply (d : P2mrUtxoBlockDiff) (utxos : PrevoutMap) : PrevoutMap :=
  created d ∪ (utxos ∖ spent d).
Definition diff_undo (d : P2mrUtxoBlockDiff) (utxos : PrevoutMap) : PrevoutMap :=
  spent d ∪ (utxos ∖ created d).

(** The chain set holds only P2MR outputs, and the transactions create no
    outpoint that is already in it (BIP30/34: no transaction id is reused). *)
Definition all_p2mr (m : PrevoutMap) : Prop :=
  map_Forall (λ _ o, is_p2mr_script (script_pubkey o) = true) m.
Definition fresh_outputs (utxos : PrevoutMap) (txs : list Transaction) : Prop :=
  ∀ tx op o, tx ∈ txs → (op, o) ∈ tx_outpoints tx → utxos !! op = None.

(** * Lemmas *)

(** [d] is the difference between the chain set and the current set. *)
Record diff_inv (chain available : PrevoutMap) (d : P2mrUtxoBlockDiff) : Prop := {
  inv_available : available = diff_apply d chain;
  inv_p2mr : all_p2mr available;
  inv_spent : spent d ⊆ chain;
  inv_created : created d ##ₘ chain
}.

Lemma diff_apply_lookup d m op :
  diff_apply d m !! op =
    match created d !! op with
    | Some o => Some o
    | None => match spent d !! op with Some _ => None | None => m !! op end
    end.
Proof.
  unfold diff_apply. destruct (created d !! op) as [o|] eqn:Hc.
  - by apply lookup_union_Some_l.
  - rewrite lookup_union_r by done. rewrite lookup_difference.
    by destruct (spent d !! op).
Qed.

Lemma diff_inv_init chain : all_p2mr chain → diff_inv chain chain diff_default.
Proof.
  intros Hc. split; [|done|apply map_empty_subseteq|apply map_disjoint_empty_l].
  apply map_eq. intros op. rewrite diff_apply_lookup. cbn. by rewrite !lookup_empty.
Qed.

Lemma diff_spend_inv chain available d op :
  diff_inv chain available d →
  diff_inv chain (delete op available)
    (match available !! op with Some prevout => diff_spend d op prevout | None => d end).
Proof.
  intros [Hav Hp Hs Hc]. destruct (available !! op) as [prevout|] eqn:Hop.
  2: { by rewrite delete_id. }
  rewrite Hav, diff_apply_lookup in Hop. unfold diff_spend.
  destruct (created d !! op) as [o|] eqn:Hco; rewrite ?Hco in Hop.
  - simplify_eq. split; cbn [spent created diff_create]; [|by apply map_Forall_delete|done|by apply map_disjoint_delete_l].
    apply map_eq. intros j. rewrite diff_apply_lookup. cbn. destruct (decide (op = j)) as [<-|Hne].
    + rewrite !lookup_delete_eq. destruct (spent d !! op) eqn:Hso; [done|].
      symmetry. by eapply map_disjoint_Some_r.
    + rewrite !lookup_delete_ne by done. by rewrite diff_apply_lookup.
  - destruct (spent d !! op) eqn:Hso; rewrite ?Hso in Hop; [done|].
    assert (delete op (created d) = created d) as -> by by apply delete_id.
    split; cbn [spent created diff_create]; [|by apply map_Forall_delete| |done].
    + subst available. apply map_eq. intros j. rewrite diff_apply_lookup. cbn.
      destruct (decide (op = j)) as [<-|Hne].
      * by rewrite lookup_delete_eq, Hco, lookup_insert_eq.
      * by rewrite lookup_delete_ne, lookup_insert_ne, diff_apply_lookup by done.
    + by apply insert_subseteq_l.
Qed.

Lemma diff_create_inv chain available d op o :
  diff_inv chain available d → is_p2mr_script (script_pubkey o) = true → chain !! op = None →
  diff_inv chain (<[op := o]> available) (diff_create d op o).
Proof.
  intros [Hav Hp Hs Hc] Ho Hfresh. split; cbn [spent created diff_create]; [|by apply map_Forall_insert_2|done|].
  - subst available. apply map_eq. intros j. rewrite diff_apply_lookup. cbn.
    destruct (decide (op = j)) as [<-|Hne].
    + by rewrite !lookup_insert_eq.
    + by rewrite !lookup_insert_ne, diff_apply_lookup by done.
  - by apply map_disjoint_insert_l.
Qed.

(** The two loops keep the invariant and compute [p2mr_step]. *)
Lemma available_spends_inv chain inputs available d :
  diff_inv chain available d →
  let s := foldl available_spend (available, d) inputs in
  diff_inv chain s.1 s.2 ∧ s.1 = foldl (λ m i, delete (previous_output i) m) available inputs.
Proof.
  revert available d. induction inputs as [|i inputs IH]; intros available d Hi; [done|]. cbn [foldl].
  assert (available_spend (available, d) i
    = (delete (previous_output i) available,
       match available !! previous_output i with
       | Some prevout => diff_spend d (previous_output i) prevout | None => d end)) as ->.
  { unfold available_spend. destruct (available !! previous_output i) as [o|] eqn:Ho; [|done].
    by rewrite (inv_p2mr _ _ _ Hi _ _ Ho). }
  apply IH. by apply diff_spend_inv.
Qed.

Lemma available_creates_inv chain outs available d :
  diff_inv chain available d → (∀ op o, (op, o) ∈ outs → chain !! op = None) →
  let s := foldl available_create (available, d) outs in
  diff_inv chain s.1 s.2
  ∧ s.1 = foldl (λ m '(op, o), if is_p2mr_script (script_pubkey o) then <[op := o]> m else m)
            available outs.
Proof.
  revert available d. induction outs as [|[op o] outs IH]; intros available d Hi Hf; [done|].
  cbn [foldl available_create]. destruct (is_p2mr_script (script_pubkey o)) eqn:Ho.
  - apply IH; [|intros ?? ?; eapply Hf; by right]. apply diff_create_inv; [done|done|].
    eapply Hf. by left.
  - apply IH; [done|]. intros ?? ?; eapply Hf; by right.
Qed.

Lemma apply_txs_inv chain txs available d :
  diff_inv chain available d → fresh_outputs chain txs →
  let s := foldl (λ s tx, apply_tx_to_available tx s) (available, d) txs in
  diff_inv chain s.1 s.2 ∧ s.1 = p2mr_after available txs.
Proof.
  revert available d. induction txs as [|tx txs IH]; intros available d Hi Hf; [done|].
  cbn [foldl]. destruct (apply_tx_to_available tx (available, d)) as [av2 d2] eqn:Htx.
  unfold apply_tx_to_available in Htx.
  destruct (available_spends_inv chain (input tx) available d Hi) as [Hi1 Hs1].
  destruct (foldl available_spend (available, d) (input tx)) as [av1 d1]. cbn in Hi1, Hs1.
  destruct (available_creates_inv chain (tx_outpoints tx) av1 d1 Hi1) as [Hi2 Hs2].
  { intros op o Hop. eapply Hf; [by left|done]. }
  rewrite Htx in Hi2, Hs2. cbn in Hi2, Hs2.
  destruct (IH av2 d2 Hi2) as [Hi3 Hs3]; [intros t op o Ht; apply Hf; by right|].
  split; [done|]. rewrite Hs3. unfold p2mr_after. cbn [foldl]. f_equal. unfold p2mr_step.
  by rewrite Hs2, Hs1.
Qed.
End p2mr_utxo.

(** Undoing an applied diff gives the set back. *)
Lemma diff_undo_apply chain d :
  spent d ⊆ chain → created d ##ₘ chain → diff_undo d (diff_apply d chain) = chain.
Proof.
  intros Hs Hc. apply map_eq. intros op. unfold diff_undo.
  destruct (spent d !! op) as [o|] eqn:Hso.
  - rewrite (lookup_union_Some_l _ _ op o) by done. symmetry. by eapply lookup_weaken.
  - rewrite lookup_union_r, lookup_difference, diff_apply_lookup, Hso by done.
    destruct (created d !! op) eqn:Hco; [|done]. symmetry. by eapply map_disjoint_Some_l.
Qed.

Lemma compute_block_diff_inv `{TxLib} block chain :
  all_p2mr chain → fresh_outputs chain (txdata block) →
  diff_inv chain (p2mr_after chain (txdata block)) (compute_block_diff block chain).
Proof.
  intros Hc Hf. unfold compute_block_diff.
  destruct (apply_txs_inv chain (txdata block) chain diff_default (diff_inv_init chain Hc) Hf)
    as [Hi Hs]. by rewrite <- Hs.
Qed.

(** * Properties *)

(** The block diff is the UTXO set's change: applying
    [compute_block_diff block chain] to the chain's P2MR set gives the set
    obtained by running the block's transactions in order, and undoing it gives
    the chain's set back exactly; every spent entry is in the chain's set, every
    created one is new. *)
Lemma compute_block_diff_correct `{TxLib} block chain :
  all_p2mr chain → fresh_outputs chain (txdata block) →
  let d := compute_block_diff block chain in
  diff_apply d chain = p2mr_after chain (txdata block)
  ∧ diff_undo d (diff_apply d chain) = chain
  ∧ spent d ⊆ chain ∧ created d ##ₘ chain.
Proof.
  intros Hc Hf d. destruct (compute_block_diff_inv block chain Hc Hf) as [Hav _ Hs Hd].
  split_and!; [done|by apply diff_undo_apply|done|done].
Qed.

(** * Witness: a block that spends the tracked output and creates two, one of
    which it spends itself *)

Definition ex_p2mr_spk : Script := x52 :: x20 :: replicate 32 x05.
Definition ex_diff_chain : PrevoutMap := {[ mkOutPoint all_zeros 3 := mkTxOut 50000 ex_p2mr_spk ]}.
Definition ex_diff_tx (op : OutPoint) (lt : Z) (outs : list TxOut) : Transaction :=
  mkTransaction 2 lt [mkTxIn op [] 0 []] outs.
Definition ex_diff_block : Block :=
  let tx1 := ex_diff_tx (mkOutPoint all_zeros 3) 9
               [mkTxOut 20000 ex_p2mr_spk; mkTxOut 20000 []; mkTxOut 10000 ex_p2mr_spk] in
  mkBlock (mkHeader all_zeros 0 [])
    [ex_diff_tx (mkOutPoint all_zeros 0xffffffff) 8 [mkTxOut 100 []]; tx1;
     ex_diff_tx (mkOutPoint (@compute_txid toy_tx tx1) 0) 10 [mkTxOut 20000 ex_p2mr_spk]].

(** A decidable form of [fresh_outputs]. *)
Lemma fresh_outputs_dec `{TxLib} utxos txs :
  forallb (λ tx, forallb (λ p, bool_decide (utxos !! p.1 = None)) (tx_outpoints tx)) txs = true →
  fresh_outputs utxos txs.
Proof.
  intros Hf tx op o Htx Hop. rewrite forallb_forall in Hf.
  apply list_elem_of_In in Htx, Hop. specialize (Hf tx Htx). rewrite forallb_forall in Hf.
  exact (bool_decide_eq_true_1 _ (Hf _ Hop)).
Qed.

Lemma compute_block_diff_correct_witness :
  diff_apply (@compute_block_diff toy_tx ex_diff_block ex_diff_chain) ex_diff_chain
    = @p2mr_after toy_tx ex_diff_chain (txdata ex_diff_block)
  ∧ size (created (@compute_block_diff toy_tx ex_diff_block ex_diff_chain)) = 2%nat.
Proof.
  split; [|vm_compute; reflexivity].
  apply (@compute_block_diff_correct toy_tx ex_diff_block ex_diff_chain).
  - apply map_Forall_singleton. reflexivity.
  - apply fresh_outputs_dec. vm_compute. reflexivity.
Defined.
