(* ===== verification/Pqc.v ===== *)
(** Per-transaction and per-block BIP 360 validation (`pqc/mod.rs`). *)
From Stdlib Require Import ZArith Lia Strings.Byte.
From stdpp Require Import base list gmap.
From S2P Require Import Prelude Bitcoin Concrete Limits P2mrOutput Schemes Spend P2mrUtxo.
From S2P Require Import InterpBase Deferred Interp InterpProps Tapscript.
#[local] Open Scope Z_scope.

Inductive PqcValidationError :=
| PqcTransaction (txid : Txid) (source : SpendError)
| PqcBlock
| PqcTapscript (txid : Txid) (source : TapscriptError).

Section pqc.
Context `{HashLib} `{ScriptLib} `{TxLib} `{TaprootLib} `{P2mrLib} `{PqcLib}.

Definition validate_transaction (tx : Transaction) (height : Z) (activation : Bip360Activation)
    (available_prevouts : PrevoutMap) (chain_p2mr_utxos : option PrevoutMap)
    (spent_p2mr_in_block : option (gset OutPoint)) : st verify_state PqcValidationError unit :=
  if negb (is_active activation height) then mret tt else
  _ ← st_map_err (PqcTransaction (compute_txid tx))
        (validate_transaction_spends tx available_prevouts chain_p2mr_utxos spent_p2mr_in_block);
  st_lift (map_err (PqcTapscript (compute_txid tx)) (enforce_transaction tx available_prevouts)).

(** [available.insert(outpoint, output)] for every output of [tx]. *)
Definition insert_outputs (tx : Transaction) (available : PrevoutMap) : PrevoutMap :=
  foldl (λ m '(op, o), <[op := o]> m) available (tx_outpoints tx).

Definition seed_coinbase_outputs (block : Block) (available : PrevoutMap) : PrevoutMap :=
  match txdata block with
  | [] => available
  | coinbase :: _ => insert_outputs coinbase available
  end.

Definition seed_coinbase_p2mr_diff (block : Block) (available created : PrevoutMap) :
    PrevoutMap * PrevoutMap :=
  match txdata block with
  | [] => (available, created)
  | coinbase :: _ =>
      (insert_outputs coinbase available,
       foldl (λ m '(op, o), if is_p2mr_script (script_pubkey o) then <[op := o]> m else m)
         created (tx_outpoints coinbase))
  end.

(** The loop over [block.txdata.iter().skip(1)], shared by the two block
    validators: each transaction is validated against the running maps, then
    applied to them. *)
Fixpoint validate_txs (height : Z) (activation : Bip360Activation) (chain_p2mr_utxos : PrevoutMap)
    (txs : list Transaction) (u : utxo_state) : st verify_state PqcValidationError utxo_state :=
  match txs with
  | [] => mret u
  | tx :: txs =>
      _ ← validate_transaction tx height activation (u_available u) (Some chain_p2mr_utxos)
            (Some (u_spent_p2mr u));
      validate_txs height activation chain_p2mr_utxos txs (apply_tx_to_validation_available tx u)
  end.

(** [clock]: the durations the block's PQC verifications are measured at. *)
Definition validate_block_transactions (block : Block) (height : Z) (activation : Bip360Activation)
    (chain_p2mr_utxos : PrevoutMap) (pqc_verify_budget_ms : Z) (clock : list Z) :
    outcome PqcValidationError unit :=
  if negb (is_active activation height) then Ok tt else
  let available := seed_coinbase_outputs block chain_p2mr_utxos in
  let '(o, _) := validate_txs height activation chain_p2mr_utxos (tail (txdata block))
                   (mkUtxo available None ∅)
                   (mkVerify (Some (with_budget_ms pqc_verify_budget_ms)) clock) in
  _ ← o; Ok tt.

Definition validate_mempool_transaction (tx : Transaction) (height : Z)
    (activation : Bip360Activation) : outcome PqcValidationError unit :=
  if negb (is_active activation height) then Ok tt else
  (validate_transaction tx height activation ∅ None None (mkVerify None [])).1.

Definition validate_and_diff_block_transactions (block : Block) (height : Z)
    (activation : Bip360Activation) (chain_p2mr_utxos extra_prevouts : PrevoutMap)
    (pqc_verify_budget_ms : Z) (clock : list Z) : outcome PqcValidationError P2mrUtxoBlockDiff :=
  if negb (is_active activation height) then Ok (compute_block_diff block chain_p2mr_utxos) else
  let '(available, created) := seed_coinbase_p2mr_diff block chain_p2mr_utxos ∅ in
  let available := available ∪ extra_prevouts in
  let '(o, _) := validate_txs height activation chain_p2mr_utxos (tail (txdata block))
                   (mkUtxo available (Some (mkDiff ∅ created)) ∅)
                   (mkVerify (Some (with_budget_ms pqc_verify_budget_ms)) clock) in
  u ← o; Ok (default diff_default (u_diff u)).

(** * Lemmas *)

(** The running maps before transaction [k] of [txs]. *)
Definition utxo_before (u : utxo_state) (txs : list Transaction) (k : nat) : utxo_state :=
  foldl (λ u tx, apply_tx_to_validation_available tx u) u (take k txs).

Lemma validate_txs_Ok height activation chain txs u s u' s' :
  validate_txs height activation chain txs u s = (Ok u', s') →
  u' = foldl (λ u tx, apply_tx_to_validation_available tx u) u txs
  ∧ ∀ k tx, txs !! k = Some tx →
      ∃ s1 s2, validate_transaction tx height activation (u_available (utxo_before u txs k))
                 (Some chain) (Some (u_spent_p2mr (utxo_before u txs k))) s1 = (Ok tt, s2).
Proof.
  revert u s. induction txs as [|tx txs IH]; intros u s; cbn [validate_txs foldl].
  - intros [-> ->]%st_ret_Ok. done.
  - intros ([] & s1 & Hv & Hr)%st_bind_Ok. apply IH in Hr as [-> Hr]. split; [done|].
    intros [|k] t Hk; cbn in Hk; [|exact (Hr k t Hk)]. simplify_eq.
    eexists s, s1. exact Hv.
Qed.

Lemma validate_transaction_Ok tx height activation available chain spent s s' :
  is_active activation height = true →
  validate_transaction tx height activation available chain spent s = (Ok tt, s') →
  (∃ s1, validate_transaction_spends tx available chain spent s = (Ok tt, s1))
  ∧ enforce_transaction tx available = Ok tt.
Proof.
  unfold validate_transaction. intros -> Hv. cbn [negb] in Hv. stinv. eauto.
Qed.

(** ** The two incremental maps agree *)

(** The P2MR entries of a prevout map. *)
Definition p2mr_view (m : PrevoutMap) (op : OutPoint) : option TxOut :=
  match m !! op with
  | Some o => if is_p2mr_script (script_pubkey o) then Some o else None
  | None => None
  end.

(** [apply_tx_to_validation_available] sees the P2MR entries of
    [apply_tx_to_available], and records the same diff. *)
Definition views (u : utxo_state) (p : PrevoutMap * P2mrUtxoBlockDiff) : Prop :=
  u_diff u = Some p.2 ∧ ∀ op, p.1 !! op = p2mr_view (u_available u) op.

Lemma views_spend u p i : views u p → views (validation_spend u i) (available_spend p i).
Proof.
  destruct u as [av ud us], p as [avp d]. intros [Hd Hv]. cbn in Hd, Hv. subst ud.
  unfold validation_spend, available_spend. cbn [u_available u_diff u_spent_p2mr].
  pose proof (Hv (previous_output i)) as Hi. unfold p2mr_view in Hi.
  assert (∀ op, delete (previous_output i) avp !! op
                = p2mr_view (delete (previous_output i) av) op) as Hdel.
  { intros op. unfold p2mr_view. destruct (decide (previous_output i = op)) as [<-|Hne].
    - by rewrite !lookup_delete_eq.
    - rewrite !lookup_delete_ne by done. apply Hv. }
  destruct (av !! previous_output i) as [o|].
  - destruct (is_p2mr_script (script_pubkey o)) eqn:Ho; rewrite Hi, ?Ho; done.
  - rewrite Hi. done.
Qed.

Lemma views_spends inputs u p :
  views u p → views (foldl validation_spend u inputs) (foldl available_spend p inputs).
Proof. revert u p. induction inputs as [|i inputs IH]; intros u p Hv; [done|]. by apply IH, views_spend. Qed.

(** The outpoints still to be created are new to the P2MR map. *)
Definition unused (ops : list OutPoint) (p : PrevoutMap * P2mrUtxoBlockDiff) : Prop :=
  NoDup ops ∧ ∀ op, op ∈ ops → p.1 !! op = None.

Lemma unused_spends ops inputs p : unused ops p → unused ops (foldl available_spend p inputs).
Proof.
  revert p. induction inputs as [|i inputs IH]; intros [av d] [Hn Hu]; [done|]. apply IH.
  split; [done|]. intros op Hop. specialize (Hu op Hop). cbn in Hu.
  unfold available_spend. destruct (av !! previous_output i) as [o|]; cbn;
    [destruct (is_p2mr_script (script_pubkey o))|]; cbn; by apply lookup_delete_None; right.
Qed.

Lemma views_create u p op o :
  views u p → p.1 !! op = None → views (validation_create u (op, o)) (available_create p (op, o)).
Proof.
  destruct u as [av ud us], p as [avp d]. intros [Hd Hv] Hop. cbn in Hd, Hv, Hop. subst ud.
  unfold validation_create, available_create. cbn [u_available u_diff u_spent_p2mr].
  destruct (is_p2mr_script (script_pubkey o)) eqn:Ho; (split; [done|]); intros op'; cbn; unfold p2mr_view;
    (destruct (decide (op = op')) as [<-|Hne];
     [rewrite ?lookup_insert_eq, Ho; done|rewrite ?lookup_insert_ne by done; apply Hv]).
Qed.

Lemma views_creates outs rest u p :
  views u p → unused (outs.*1 ++ rest) p →
  views (foldl validation_create u outs) (foldl available_create p outs)
  ∧ unused rest (foldl available_create p outs).
Proof.
  revert u p. induction outs as [|[op o] outs IH]; intros u p Hv [Hn Hu]; [done|].
  cbn [foldl]. cbn in Hn, Hu. apply NoDup_cons in Hn as [Hnotin Hn].
  apply IH; [apply views_create; [done|apply Hu; by left]|]. split; [done|].
  intros op' Hop'. destruct p as [avp d]. cbn in Hu |- *.
  destruct (is_p2mr_script (script_pubkey o)); cbn; [|apply Hu; by right].
  rewrite lookup_insert_ne by (by intros ->). apply Hu. by right.
Qed.

(** The outpoints a list of transactions creates. *)
Definition txs_outpoints (txs : list Transaction) : list OutPoint :=
  flat_map (λ tx, (tx_outpoints tx).*1) txs.

Lemma views_txs txs u p :
  views u p → unused (txs_outpoints txs) p →
  views (foldl (λ u tx, apply_tx_to_validation_available tx u) u txs)
        (foldl (λ p tx, apply_tx_to_available tx p) p txs).
Proof.
  revert u p. induction txs as [|tx txs IH]; intros u p Hv Hu; [done|]. cbn [foldl].
  destruct (views_creates (tx_outpoints tx) (txs_outpoints txs)
              (foldl validation_spend u (input tx)) (foldl available_spend p (input tx)))
    as [Hv' Hu']; [by apply views_spends|by apply unused_spends|].
  by apply IH.
Qed.

(** Inserting the outputs of the coinbase is applying it, if it spends nothing
    tracked. *)
Lemma available_spends_none inputs av d :
  (∀ i, i ∈ inputs → av !! previous_output i = None) →
  foldl available_spend (av, d) inputs = (av, d).
Proof.
  induction inputs as [|i inputs IH]; intros Hi; [done|]. cbn [foldl available_spend].
  rewrite Hi by (by left). rewrite delete_id by (apply Hi; by left). apply IH.
  intros j Hj. apply Hi. by right.
Qed.

Lemma views_seed outs rest av d created avp :
  (∀ op, avp !! op = p2mr_view av op) → d = mkDiff ∅ created →
  unused (outs.*1 ++ rest) (avp, d) →
  let u' := (foldl (λ m '(op, o), <[op := o]> m) av outs,
             foldl (λ m '(op, o), if is_p2mr_script (script_pubkey o) then <[op := o]> m else m)
               created outs) in
  let p' := foldl available_create (avp, d) outs in
  p'.2 = mkDiff ∅ u'.2 ∧ (∀ op, p'.1 !! op = p2mr_view u'.1 op) ∧ unused rest p'.
Proof.
  intros Hv -> Hu.
  destruct (views_creates outs rest (mkUtxo av (Some (mkDiff ∅ created)) ∅) (avp, mkDiff ∅ created))
    as [[Hd Hv'] Hu']; [done|done|].
  assert (∀ av created us, foldl validation_create (mkUtxo av (Some (mkDiff ∅ created)) us) outs
    = mkUtxo (foldl (λ m '(op, o), <[op := o]> m) av outs)
        (Some (mkDiff ∅ (foldl (λ m '(op, o), if is_p2mr_script (script_pubkey o)
                                 then <[op := o]> m else m) created outs))) us) as Hf.
  { clear. induction outs as [|[op o] outs IH]; intros av created us; [done|]. cbn [foldl validation_create].
    destruct (is_p2mr_script (script_pubkey o)); apply IH. }
  rewrite Hf in Hd, Hv'. cbn in Hd, Hv' |- *. split_and!; [by injection Hd|done|done].
Qed.
End pqc.

Lemma validate_and_diff_compute
    `{HashLib} `{ScriptLib} `{TxLib} `{TaprootLib} `{P2mrLib} `{PqcLib}
    block height activation chain extra ms clock d :
  all_p2mr chain → fresh_outputs chain (txdata block) →
  NoDup (txs_outpoints (txdata block)) →
  map_Forall (λ _ o, is_p2mr_script (script_pubkey o) = false) extra →
  (∀ cb i, head (txdata block) = Some cb → i ∈ input cb → chain !! previous_output i = None) →
  validate_and_diff_block_transactions block height activation chain extra ms clock = Ok d →
  d = compute_block_diff block chain.
Proof.
  intros Hc Hf Hn He Hcb Hv. unfold validate_and_diff_block_transactions in Hv.
  destruct (negb (is_active activation height)); [by injection Hv|].
  unfold compute_block_diff.
  assert (unused (txs_outpoints (txdata block)) (chain, diff_default)) as Hu.
  { split; [done|]. intros op Hop. unfold txs_outpoints in Hop.
    apply list_elem_of_In, in_flat_map in Hop as (tx & Htx & Hop).
    apply list_elem_of_In in Htx, Hop. apply list_elem_of_fmap in Hop as ([op' o] & -> & Hop).
    by eapply Hf. }
  assert (∀ op, chain !! op = p2mr_view chain op) as Hview.
  { intros op. unfold p2mr_view. destruct (chain !! op) as [o|] eqn:Ho; [|done].
    by rewrite (Hc op o Ho). }
  destruct (seed_coinbase_p2mr_diff block chain ∅) as [av created] eqn:Hseed.
  destruct (validate_txs _ _ _ _ _ _) as [o s'] eqn:Hrun.
  apply bind_Ok in Hv as (u' & -> & Hd). injection Hd as <-.
  apply validate_txs_Ok in Hrun as [-> _].
  set (p0 := match txdata block with [] => (chain, diff_default)
             | cb :: _ => apply_tx_to_available cb (chain, diff_default) end).
  assert (views (mkUtxo (av ∪ extra) (Some (mkDiff ∅ created)) ∅) p0
          ∧ unused (txs_outpoints (tail (txdata block))) p0) as [Hv0 Hu0].
  { assert (∀ avp : PrevoutMap, (∀ op, avp !! op = p2mr_view av op) →
      ∀ op, avp !! op = p2mr_view (av ∪ extra) op) as Hextra.
    { intros avp Ha op. rewrite Ha. unfold p2mr_view. destruct (av !! op) as [o|] eqn:Ho.
      - by rewrite (lookup_union_Some_l _ _ op o).
      - rewrite lookup_union_r by done. destruct (extra !! op) as [o|] eqn:Hx; [|done].
        by rewrite (He op o Hx). }
    unfold seed_coinbase_p2mr_diff in Hseed. subst p0.
    destruct (txdata block) as [|cb txs]; injection Hseed as <- <-.
    - split; [split; [done|by apply Hextra]|by split; [constructor|set_solver]].
    - destruct (views_seed (tx_outpoints cb) (txs_outpoints txs) chain diff_default ∅ chain
                  Hview eq_refl Hu) as (Hd & Hv' & Hu').
      unfold apply_tx_to_available. rewrite available_spends_none by (intros i; by apply Hcb).
      split; [split|done]; [by rewrite Hd|by apply Hextra]. }
  pose proof (views_txs _ _ _ Hv0 Hu0) as [Hd _]. rewrite Hd. cbn [default].
  subst p0. by destruct (txdata block) as [|cb txs].
Qed.

(** * Properties *)

(** C29: validation and indexing agree: when a block is validated (active rules)
    and accepted, the diff built alongside validation is the diff
    [compute_block_diff] computes independently, for any prefetched prevouts that
    are not P2MR outputs; the block creates each outpoint once, none already
    tracked, and its coinbase spends nothing tracked. *)
Theorem validate_and_diff_is_compute_diff
    `{HashLib} `{ScriptLib} `{TxLib} `{TaprootLib} `{P2mrLib} `{PqcLib}
    block height activation chain extra ms clock d :
  all_p2mr chain → fresh_outputs chain (txdata block) →
  NoDup (txs_outpoints (txdata block)) →
  map_Forall (λ _ o, is_p2mr_script (script_pubkey o) = false) extra →
  (∀ cb i, head (txdata block) = Some cb → i ∈ input cb → chain !! previous_output i = None) →
  validate_and_diff_block_transactions block height activation chain extra ms clock = Ok d →
  d = compute_block_diff block chain.
Proof. apply validate_and_diff_compute. Qed.

(** Block validation is complete: if a block passes under active rules, then
    every transaction after the coinbase passed the P2MR spend rules and the
    tapscript rules against the prevouts available at its position (the chain's
    P2MR set, the coinbase, the prefetched prevouts and the earlier transactions
    of the block). *)
Lemma validate_and_diff_validates_all
    `{HashLib} `{ScriptLib} `{TxLib} `{TaprootLib} `{P2mrLib} `{PqcLib}
    block height activation chain extra ms clock d cb txs k tx :
  is_active activation height = true → txdata block = cb :: txs → txs !! k = Some tx →
  validate_and_diff_block_transactions block height activation chain extra ms clock = Ok d →
  ∃ u s1 s2, u = utxo_before
                   (mkUtxo (insert_outputs cb chain ∪ extra)
                      (Some (mkDiff ∅ (seed_coinbase_p2mr_diff block chain ∅).2)) ∅) txs k
    ∧ validate_transaction_spends tx (u_available u) (Some chain) (Some (u_spent_p2mr u)) s1 = (Ok tt, s2)
    ∧ enforce_transaction tx (u_available u) = Ok tt.
Proof.
  intros Hact Htx Hk Hv. unfold validate_and_diff_block_transactions, seed_coinbase_p2mr_diff in *.
  rewrite Hact, Htx in *. cbn [negb tail] in Hv.
  destruct (validate_txs _ _ _ _ _ _) as [o s'] eqn:Hrun.
  apply bind_Ok in Hv as (u' & -> & _). apply validate_txs_Ok in Hrun as [_ Hall].
  destruct (Hall k tx Hk) as (s1 & s2 & Hone).
  apply validate_transaction_Ok in Hone as [[s3 Hs] He]; [|done].
  eexists _, s1, s3. split_and!; [reflexivity|exact Hs|exact He].
Qed.

(** * Witness: a coinbase with a P2MR output, then a spend of the chain's one *)

Definition ex_coinbase : Transaction :=
  mkTransaction 2 1 [mkTxIn (mkOutPoint all_zeros 0xffffffff) [] 0 []]
    [mkTxOut 100 (script_pubkey (ex_p2mr_out ex_root))].
Definition ex_pqc_block : Block :=
  mkBlock (mkHeader all_zeros 0 []) [ex_coinbase; ex_spend_tx ex_spend_witness].
Definition ex_extra : PrevoutMap := {[ mkOutPoint all_zeros 9 := mkTxOut 7 [] ]}.
Definition ex_pqc_run : outcome PqcValidationError P2mrUtxoBlockDiff :=
  @validate_and_diff_block_transactions toy_hash toy_script toy_tx toy_taproot toy_p2mr toy_pqc
    ex_pqc_block 10 (mkBip360Activation 5) (ex_available ex_root) ex_extra 100 [].

Lemma is_ok_Ok {E A} (m : outcome E A) : is_ok m = true → ∃ a, m = Ok a.
Proof. destruct m; [eauto|done|done]. Qed.

Lemma ex_pqc_run_ok : ∃ d, ex_pqc_run = Ok d.
Proof. apply is_ok_Ok. vm_compute. reflexivity. Qed.

Definition ex_pqc_diff : P2mrUtxoBlockDiff :=
  @compute_block_diff toy_tx ex_pqc_block (ex_available ex_root).

Lemma validate_and_diff_is_compute_diff_witness :
  ∃ d, @validate_and_diff_block_transactions toy_hash toy_script toy_tx toy_taproot toy_p2mr toy_pqc
         ex_pqc_block 10 (mkBip360Activation 5) (ex_available ex_root) ex_extra 100 [] = Ok d
       ∧ d = ex_pqc_diff.
Proof.
  destruct ex_pqc_run_ok as [d Hv].
  exists d. split; [done|].
  apply (@validate_and_diff_is_compute_diff toy_hash toy_script toy_tx toy_taproot toy_p2mr toy_pqc
           ex_pqc_block 10 (mkBip360Activation 5) (ex_available ex_root) ex_extra 100 []).
  - apply map_Forall_singleton. reflexivity.
  - apply fresh_outputs_dec. vm_compute. reflexivity.
  - apply (bool_decide_eq_true_1 _). vm_compute. reflexivity.
  - apply map_Forall_singleton. reflexivity.
  - intros cb i [= <-] [-> |[]%not_elem_of_nil]%elem_of_cons. reflexivity.
  - exact Hv.
Defined.

Lemma validate_and_diff_validates_all_witness :
  ∃ u, @enforce_transaction toy_hash toy_script toy_tx toy_taproot (ex_spend_tx ex_spend_witness)
         (u_available u) = Ok tt.
Proof.
  destruct ex_pqc_run_ok as [d Hv].
  destruct (@validate_and_diff_validates_all toy_hash toy_script toy_tx toy_taproot toy_p2mr toy_pqc
           ex_pqc_block 10 (mkBip360Activation 5) (ex_available ex_root) ex_extra 100 [] d ex_coinbase
           [ex_spend_tx ex_spend_witness] 0%nat (ex_spend_tx ex_spend_witness)
           eq_refl eq_refl eq_refl Hv) as (u & _ & _ & _ & _ & He).
  exists u. exact He.
Defined.
