(* ===== verification/ParseBlockFiles.v ===== *)
(** Reading Bitcoin Core's block files (`parse_block_files.rs`): the XOR reader,
    the block records of a `blk*.dat` file, iteration over the files of a
    directory, and the block-index entries with their variable-length integers.

    A file is the bytes it holds on disk and a directory a snapshot of its files;
    a read fails only at the end of a file.  Consensus decoding is the `bitcoin`
    crate's: the class [ConsensusCodec], with its documented laws. *)
From Stdlib Require Import ZArith Lia Strings.Byte.
From stdpp Require Import base list gmap.
From S2P Require Import Prelude Bitcoin Concrete.
#[local] Open Scope Z_scope.

(** ** Errors *)

(** The kinds of [std::io::Error] the reader distinguishes. *)
Inductive IoError := UnexpectedEof | InvalidData | NotFoundIo.

(** Decoding errors of the crate are opaque. *)
Inductive ParseBlockFileError :=
| Io (e : IoError)
| InvalidMagic (found expected : bytes) (offset : Z)
| InvalidNetwork (found expected : Network)
| BlockSizeTooLarge (size : Z)
| BlockSizeTooSmall (size : Z)
| TxDataDecode
| HeaderDecode
| UintDecode
| ParseUnexpectedEof
| BlockSizeMismatch (expected actual : Z).

Record ParseAllBlocksError := mkParseAllBlocksError {
  pa_file_path : Z; pa_index : nat; pa_source : ParseBlockFileError
}.

Inductive FetchBlockIndexError :=
| IndexNotFound (hash : BlockHash)
| IndexDeserialize (hash : BlockHash) (source : IoError)
| MissingFileNumber
| MissingDataPos.

Inductive BlockDirectoryParserError := ReadXorKey.

(** ** The XOR reader *)

Definition XorKey : Type := bytes.

Record XorReader := mkXorReader { file : bytes; xor_key : option XorKey; offset : Z }.

(** [buf[i] ^= xor_key[(offset + i) % xor_key.len()]], for the bytes read from
    [offset] on. *)
Definition xor_byte (key : XorKey) (pos : Z) (b : byte) : byte :=
  z2b (Z.lxor (b2z b) (b2z (default x00 (key !! Z.to_nat (pos mod len key))))).
Fixpoint apply_xor (key : XorKey) (pos : Z) (data : bytes) : bytes :=
  match data with
  | [] => []
  | b :: data => xor_byte key pos b :: apply_xor key (pos + 1) data
  end.

(** What remains to be read, decoded. *)
Definition remaining (r : XorReader) : bytes :=
  let raw := drop (Z.to_nat (offset r)) (file r) in
  match xor_key r with Some key => apply_xor key (offset r) raw | None => raw end.

Definition advance (n : nat) (r : XorReader) : XorReader :=
  mkXorReader (file r) (xor_key r) (offset r + Z.of_nat n).

(** [read_exact]: at the end of the file, what is left has been consumed. *)
Definition read_exact (n : nat) : st XorReader IoError bytes := λ r,
  let data := take n (remaining r) in
  (if bool_decide (length data = n) then Ok data else Err UnexpectedEof, advance (length data) r).

(** A decoder of the crate, run on the reader. *)
Definition decode_with {A} (d : bytes → option A * nat) (e : ParseBlockFileError) :
    st XorReader ParseBlockFileError A := λ r,
  let '(o, n) := d (remaining r) in (ok_or o e, advance n r).

Definition seek (pos : Z) (r : XorReader) : XorReader := mkXorReader (file r) (xor_key r) pos.

(** ** Block files *)

Definition MAINNET_MAGIC : bytes := [xf9; xbe; xb4; xd9].
Definition TESTNET_MAGIC : bytes := [x0b; x11; x09; x07].
Definition SIGNET_MAGIC : bytes := [x0a; x03; xcf; x40].
Definition REGTEST_MAGIC : bytes := [xfa; xbf; xb5; xda].
Definition MAX_BLOCK_SERIALIZED_SIZE : Z := 4000000.

Definition magic_for_network (network : Network) : bytes :=
  match network with
  | NetworkBitcoin => MAINNET_MAGIC
  | Testnet | Testnet4 => TESTNET_MAGIC
  | Signet => SIGNET_MAGIC
  | Regtest => REGTEST_MAGIC
  end.

Record ParsedBlock := mkParsedBlock { pb_header : Header; raw_tx_data : bytes; pb_offset : Z }.

(** A file is named by its number. *)
Record BlockFileParser := mkBlockFileParser {
  file_path : Z; reader : XorReader; bf_network : Network
}.

Definition set_reader (p : BlockFileParser) (r : XorReader) : BlockFileParser :=
  mkBlockFileParser (file_path p) r (bf_network p).

(** The end of the data: the four bytes as stored in the file are zero. *)
Definition is_end_of_file (r : XorReader) (magic : bytes) : bool :=
  match xor_key r with
  | Some key => forallb (λ b, bool_decide (b = x00)) (apply_xor key (offset r - 4) magic)
  | None => forallb (λ b, bool_decide (b = x00)) magic
  end.

Section parser.
Context `{ConsensusCodec}.

Definition parse_tx_data (b : ParsedBlock) : outcome ParseBlockFileError (list Transaction) :=
  ok_or (txs_decode (raw_tx_data b)) TxDataDecode.

(** The body of a record, after its magic. *)
Definition read_record (start : Z) : st XorReader ParseBlockFileError ParsedBlock :=
  size ← decode_with u32_decode UintDecode;
  _ ← st_lift (reject_if (MAX_BLOCK_SERIALIZED_SIZE <? size) (BlockSizeTooLarge size));
  header ← decode_with header_decode HeaderDecode;
  txdata_len ← st_lift (ok_or (checked_sub size 80) (BlockSizeTooSmall size));
  txdata ← st_map_err Io (read_exact (Z.to_nat txdata_len));
  mret (mkParsedBlock header txdata start).

(** [BlockFileParser::next_block], on the reader; [None] at the end of the data. *)
Definition next_block (network : Network) : st XorReader ParseBlockFileError (option ParsedBlock) := λ r,
  let start := offset r in
  match read_exact 4 r with
  | (Err UnexpectedEof, r) => (Ok None, r)
  | (Err e, r) => (Err (Io e), r)
  | (Panic, r) => (Panic, r)
  | (Ok magic, r) =>
      if is_end_of_file r magic then (Ok None, r) else
      let expected_magic := magic_for_network network in
      if bool_decide (magic ≠ expected_magic) then
        match find (λ net, bool_decide (network_magic net = magic))
                [NetworkBitcoin; Regtest; Testnet; Signet] with
        | Some found => (Err (InvalidNetwork found network), r)
        | None => (Err (InvalidMagic magic expected_magic start), r)
        end
      else (b ← read_record start; mret (Some b)) r
  end.

(** [BlockFileParser::all_blocks]; [None] is out of fuel. *)
Fixpoint all_blocks_loop (fuel : nat) (p : BlockFileParser) (blocks : list ParsedBlock) :
    option (outcome ParseAllBlocksError (list ParsedBlock) * BlockFileParser) :=
  match fuel with
  | O => None
  | S fuel =>
      match next_block (bf_network p) (reader p) with
      | (Ok (Some b), r) => all_blocks_loop fuel (set_reader p r) (blocks ++ [b])
      | (Ok None, r) => Some (Ok blocks, set_reader p r)
      | (Err e, r) => Some (Err (mkParseAllBlocksError (file_path p) (length blocks) e), set_reader p r)
      | (Panic, r) => Some (Panic, set_reader p r)
      end
  end.
Definition all_blocks (fuel : nat) (p : BlockFileParser) := all_blocks_loop fuel p [].

(** ** The directory *)

(** The files of a blocks directory: `xor.dat`, the `blk*.dat` files by number,
    and the entries of `index`. *)
Record BlocksDir := mkBlocksDir {
  xor_dat : option bytes;
  blk_files : gmap Z bytes;
  block_index : gmap bytes bytes
}.

Record BlockDirectoryParser := mkBlockDirectoryParser {
  dir_xor_key : option XorKey;
  dir_network : Network;
  file_index : Z; (* u32 *)
  current_parser : option BlockFileParser
}.

(** [BlockFileParser::new] *)
Definition open_block_file (dir : BlocksDir) (key : option XorKey) (i : Z) (network : Network) :
    outcome IoError BlockFileParser :=
  content ← ok_or (blk_files dir !! i) NotFoundIo;
  Ok (mkBlockFileParser i (mkXorReader content key 0) network).

(** [BlockDirectoryParser::new]: a key of any other length than 8 panics. *)
Definition directory_parser_new (dir : BlocksDir) (network : Network) :
    outcome BlockDirectoryParserError BlockDirectoryParser :=
  key ← ok_or (xor_dat dir) ReadXorKey;
  key ← expect (if bool_decide (length key = 8%nat) then Some key else None);
  let key := if forallb (λ b, bool_decide (b = x00)) key then None else Some key in
  Ok (mkBlockDirectoryParser key network 0 None).

Definition set_file_number (num : Z) (p : BlockDirectoryParser) : BlockDirectoryParser :=
  mkBlockDirectoryParser (dir_xor_key p) (dir_network p) num (current_parser p).

Definition set_current (c : option BlockFileParser) (p : BlockDirectoryParser) : BlockDirectoryParser :=
  mkBlockDirectoryParser (dir_xor_key p) (dir_network p) (file_index p) c.

Definition get_or_init_parser (dir : BlocksDir) : st BlockDirectoryParser IoError BlockFileParser := λ p,
  match current_parser p with
  | Some c => (Ok c, p)
  | None => match open_block_file dir (dir_xor_key p) (file_index p) (dir_network p) with
            | Ok c => (Ok c, set_current (Some c) p)
            | Err e => (Err e, p)
            | Panic => (Panic, p)
            end
  end.

(** [BlockDirectoryParser::set_offset] *)
Definition set_offset (dir : BlocksDir) (pos : Z) : st BlockDirectoryParser IoError unit :=
  c ← get_or_init_parser dir;
  p ← st_get;
  st_put (set_current (Some (set_reader c (seek pos (reader c)))) p).

(** [BlockDirectoryParser::next_block]; [None] outside is out of fuel. *)
Fixpoint dir_next_block (fuel : nat) (dir : BlocksDir) (p : BlockDirectoryParser) :
    option (outcome ParseBlockFileError (option ParsedBlock) * BlockDirectoryParser) :=
  match fuel with
  | O => None
  | S fuel =>
      match current_parser p with
      | Some c =>
          let '(o, r) := next_block (bf_network c) (reader c) in
          match o with
          | Ok (Some b) => Some (Ok (Some b), set_current (Some (set_reader c r)) p)
          | Ok None =>
              match checked_add 32 (file_index p) 1 with
              | Some i => dir_next_block fuel dir (set_current None (set_file_number i p))
              | None => Some (Panic, set_current None p)
              end
          | Err e => Some (Err e, set_current (Some (set_reader c r)) p)
          | Panic => Some (Panic, p)
          end
      | None =>
          if bool_decide (blk_files dir !! file_index p = None) then Some (Ok None, p) else
          match open_block_file dir (dir_xor_key p) (file_index p) (dir_network p) with
          | Ok c => dir_next_block fuel dir (set_current (Some c) p)
          | Err e => Some (Err (Io e), p)
          | Panic => Some (Panic, p)
          end
      end
  end.
End parser.

(** ** The block index *)

(** [read_exact] of [n] bytes from a byte slice, which a failure empties. *)
Definition slice_read_exact (n : nat) : st bytes IoError bytes := λ l,
  if bool_decide (n ≤ length l)%nat then (Ok (take n l), drop n l) else (Err UnexpectedEof, []).

(** [read_varint], on a byte slice; [n] is the accumulator. *)
Fixpoint read_varint_loop (n : Z) (l : bytes) : outcome IoError Z * bytes :=
  match l with
  | [] => (Err UnexpectedEof, [])
  | ch_data :: l =>
      if Z.shiftr (2 ^ 64 - 1) 7 <? n then (Err InvalidData, l) else
      let n := Z.lor (Z.shiftl n 7) (Z.land (b2z ch_data) 0x7f) in
      if negb (Z.land (b2z ch_data) 0x80 =? 0) then
        if n =? 2 ^ 64 - 1 then (Err InvalidData, l) else read_varint_loop (n + 1) l
      else (Ok n, l)
  end.
Definition read_varint : st bytes IoError Z := read_varint_loop 0.

Definition read_uint256 : st bytes IoError bytes := slice_read_exact 32.
Definition read_uint32 : st bytes IoError Z := buf ← slice_read_exact 4; mret (le_decode buf).

(** [BlockStatus], a u32 of flags. *)
Definition BlockStatus : Type := Z.
Definition VALID_TREE : Z := 2.
Definition VALID_MASK : Z := 7.
Definition HAVE_DATA : Z := 8.
Definition HAVE_UNDO : Z := 16.
Definition FAILED_VALID : Z := 32.
Definition FAILED_CHILD : Z := 64.
Definition OPT_WITNESS : Z := 128.
Definition validation_level (s : BlockStatus) : Z := Z.land s VALID_MASK.
Definition has_data (s : BlockStatus) : bool := negb (Z.land s HAVE_DATA =? 0).
Definition has_undo (s : BlockStatus) : bool := negb (Z.land s HAVE_UNDO =? 0).
Definition is_valid (s : BlockStatus) : bool := VALID_TREE <=? validation_level s.
Definition has_witness (s : BlockStatus) : bool := negb (Z.land s OPT_WITNESS =? 0).
Definition is_failed (s : BlockStatus) : bool := negb (Z.land s (Z.lor FAILED_VALID FAILED_CHILD) =? 0).

Record CDiskBlockIndex := mkCDiskBlockIndex {
  di_version : Z;
  di_height : Z;
  di_status : BlockStatus;
  tx_count : Z;
  file_number : option Z;
  data_pos : option Z;
  undo_pos : option Z;
  block_version : Z;
  di_prev_block_hash : bytes;
  di_merkle_root : bytes;
  di_timestamp : Z;
  difficulty_target : Z;
  di_nonce : Z
}.

(** [CDiskBlockIndex::adjusted_data_pos] *)
Definition adjusted_data_pos (i : CDiskBlockIndex) : option Z :=
  pos ← data_pos i; checked_sub pos 8.

(** [if b { Some(m?) } else { None }] *)
Definition read_if {A} (b : bool) (m : st bytes IoError A) : st bytes IoError (option A) :=
  if b then x ← m; mret (Some x) else mret None.

(** [CDiskBlockIndex::deserialize] *)
Definition deserialize : st bytes IoError CDiskBlockIndex :=
  version ← read_varint;
  height ← read_varint;
  status_raw ← read_varint;
  let status := wrap_u 32 status_raw in
  tx_count ← read_varint;
  file_number ← read_if (has_data status || has_undo status) (n ← read_varint; mret (wrap_u 32 n));
  data_pos ← read_if (has_data status) read_varint;
  undo_pos ← read_if (has_undo status) read_varint;
  block_version ← read_uint32;
  prev_block_hash ← read_uint256;
  merkle_root ← read_uint256;
  timestamp ← read_uint32;
  difficulty_target ← read_uint32;
  nonce ← read_uint32;
  mret (mkCDiskBlockIndex version height status tx_count file_number data_pos undo_pos
          block_version prev_block_hash merkle_root timestamp difficulty_target nonce).

(** The entry of a block: key `b` and the hash. *)
Definition fetch_block_index (db : gmap bytes bytes) (hash : BlockHash) :
    outcome FetchBlockIndexError CDiskBlockIndex :=
  value ← ok_or (db !! (x62 :: hash)) (IndexNotFound hash);
  map_err (IndexDeserialize hash) (deserialize value).1.

(** * Specification *)

(** A record of a block file. *)
Definition block_record (network : Network) (header_bytes raw : bytes) : bytes :=
  magic_for_network network ++ le_bytes 4 (80 + len raw) ++ header_bytes ++ raw.

(** * The XOR reader *)

Lemma lxor_range w a b : 0 ≤ a < 2 ^ w → 0 ≤ b < 2 ^ w → 0 ≤ Z.lxor a b < 2 ^ w.
Proof.
  intros [Ha1 Ha2] [Hb1 Hb2]. assert (0 ≤ Z.lxor a b) as Hn by (by apply Z.lxor_nonneg).
  split; [done|]. destruct (Z.eq_dec (Z.lxor a b) 0) as [->|Hz]; [lia|].
  destruct (Z.eq_dec a 0) as [->|Ha]; [by rewrite Z.lxor_0_l|].
  destruct (Z.eq_dec b 0) as [->|Hb]; [by rewrite Z.lxor_0_r|].
  apply Z.log2_lt_pow2; [lia|]. apply (Z.le_lt_trans _ (Z.max (Z.log2 a) (Z.log2 b))).
  - by apply Z.log2_lxor.
  - apply Z.max_lub_lt; apply Z.log2_lt_pow2; lia.
Qed.

Lemma b2z_xor_byte key pos b :
  b2z (xor_byte key pos b) = Z.lxor (b2z b) (b2z (default x00 (key !! Z.to_nat (pos mod len key)))).
Proof.
  unfold xor_byte. rewrite b2z_z2b. apply Z.mod_small. apply (lxor_range 8); apply b2z_range.
Qed.

Lemma xor_byte_involutive key pos b : xor_byte key pos (xor_byte key pos b) = b.
Proof.
  apply b2z_inj. rewrite !b2z_xor_byte, Z.lxor_assoc, Z.lxor_nilpotent. apply Z.lxor_0_r.
Qed.

Lemma apply_xor_involutive key pos l : apply_xor key pos (apply_xor key pos l) = l.
Proof.
  revert pos. induction l as [|b l IH]; intros pos; [done|]. cbn [apply_xor].
  by rewrite xor_byte_involutive, IH.
Qed.

Lemma length_apply_xor key pos l : length (apply_xor key pos l) = length l.
Proof. revert pos. induction l as [|b l IH]; intros pos; cbn [apply_xor length]; [done|]. by rewrite IH. Qed.

Lemma apply_xor_app key pos a b :
  apply_xor key pos (a ++ b) = apply_xor key pos a ++ apply_xor key (pos + len a) b.
Proof.
  revert pos. induction a as [|x a IH]; intros pos; cbn [app apply_xor].
  - by rewrite len_nil, Z.add_0_r.
  - rewrite IH, len_cons. by replace (pos + 1 + len a) with (pos + (1 + len a)) by lia.
Qed.

Lemma apply_xor_drop key pos n l :
  drop n (apply_xor key pos l) = apply_xor key (pos + Z.of_nat n) (drop n l).
Proof.
  revert pos l. induction n as [|n IH]; intros pos l; [by rewrite !drop_0, Z.add_0_r|].
  destruct l as [|b l]; [done|]. cbn [apply_xor drop]. rewrite IH. f_equal. lia.
Qed.

(** The key applied to what is stored from [pos] on. *)
Definition plain (key : option XorKey) (pos : Z) (raw : bytes) : bytes :=
  match key with Some k => apply_xor k pos raw | None => raw end.

Lemma plain_involutive key pos l : plain key pos (plain key pos l) = l.
Proof. destruct key; [apply apply_xor_involutive|done]. Qed.

Lemma plain_app key pos a b : plain key pos (a ++ b) = plain key pos a ++ plain key (pos + len a) b.
Proof. destruct key; [apply apply_xor_app|done]. Qed.

Lemma length_plain key pos l : length (plain key pos l) = length l.
Proof. destruct key; [apply length_apply_xor|done]. Qed.

Lemma len_plain key pos l : len (plain key pos l) = len l.
Proof. unfold len. by rewrite length_plain. Qed.

Lemma remaining_advance n r : 0 ≤ offset r → remaining (advance n r) = drop n (remaining r).
Proof.
  intros Ho. unfold remaining, advance. cbn [file xor_key offset].
  rewrite Z2Nat.inj_add, Nat2Z.id, <- drop_drop by lia.
  destruct (xor_key r); [by rewrite apply_xor_drop|done].
Qed.

Lemma advance_advance n m r : advance m (advance n r) = advance (n + m) r.
Proof. unfold advance. cbn [file xor_key offset]. f_equal. lia. Qed.

Lemma offset_advance n r : offset (advance n r) = offset r + Z.of_nat n.
Proof. done. Qed.

Lemma read_exact_spec n r :
  read_exact n r = if bool_decide (n ≤ length (remaining r))%nat
                   then (Ok (take n (remaining r)), advance n r)
                   else (Err UnexpectedEof, advance (length (remaining r)) r).
Proof.
  unfold read_exact. rewrite length_take. case_bool_decide as H1; case_bool_decide as H2; try lia.
  - by rewrite Nat.min_l by lia.
  - by rewrite Nat.min_r by lia.
Qed.

(** ** Records *)
Section records.
Context `{ConsensusLaws}.

Lemma read_exact_Ok n r d r' :
  read_exact n r = (Ok d, r') ↔ d = take n (remaining r) ∧ length d = n ∧ r' = advance n r.
Proof.
  rewrite read_exact_spec. case_bool_decide as Hn; split.
  - intros [= <- <-]. split_and!; [done|rewrite length_take; lia|done].
  - by intros (-> & _ & ->).
  - done.
  - intros (-> & Hl & _). rewrite length_take in Hl. lia.
Qed.

Lemma decode_u32_Ok r n r' :
  decode_with u32_decode UintDecode r = (Ok n, r') ↔
  (4 ≤ length (remaining r))%nat ∧ n = le_decode (take 4 (remaining r)) ∧ r' = advance 4 r.
Proof.
  unfold decode_with. rewrite u32_decode_spec. case_bool_decide; cbn [ok_or]; naive_solver.
Qed.

Lemma decode_header_Ok r h r' :
  decode_with header_decode HeaderDecode r = (Ok h, r') ↔
  header_decode (remaining r) = (Some h, 80%nat) ∧ r' = advance 80 r.
Proof.
  unfold decode_with. destruct (header_decode (remaining r)) as [[h'|] n] eqn:Hd; cbn [ok_or].
  - destruct (header_decode_size _ _ _ Hd) as [-> _]. naive_solver.
  - naive_solver.
Qed.

Lemma read_record_Ok start r b r' :
  0 ≤ offset r →
  read_record start r = (Ok b, r') ↔
  ∃ header_bytes rest,
    remaining r = le_bytes 4 (80 + len (raw_tx_data b)) ++ header_bytes ++ raw_tx_data b ++ rest
    ∧ header_decode (header_bytes ++ raw_tx_data b ++ rest) = (Some (pb_header b), 80%nat)
    ∧ length header_bytes = 80%nat ∧ 80 + len (raw_tx_data b) ≤ MAX_BLOCK_SERIALIZED_SIZE
    ∧ pb_offset b = start ∧ r' = advance (84 + length (raw_tx_data b)) r.
Proof.
  intros Ho. unfold read_record. split.
  - intros Hr. apply st_bind_Ok in Hr as (n & r1 & Hu & Hr).
    apply decode_u32_Ok in Hu as (Hl & Hn & ->).
    apply st_bind_Ok in Hr as ([] & r2 & Hg & Hr). apply st_lift_Ok in Hg as [Hg ->].
    apply reject_if_Ok, Z.ltb_ge in Hg.
    apply st_bind_Ok in Hr as (h & r3 & Hh & Hr). apply decode_header_Ok in Hh as (Hh & ->).
    apply st_bind_Ok in Hr as (k & r4 & Hk & Hr). apply st_lift_Ok in Hk as [Hk ->].
    apply ok_or_Ok in Hk. unfold checked_sub in Hk.
    destruct (Z.leb_spec 80 n) as [Hle|]; [|done]. injection Hk as <-.
    apply st_bind_Ok in Hr as (raw & r5 & Hx & Hr). apply st_map_err_Ok, read_exact_Ok in Hx as (Hd & Hlen & ->).
    apply st_ret_Ok in Hr as [-> ->]. cbn [pb_header raw_tx_data pb_offset].
    rewrite !remaining_advance in Hd by (rewrite ?offset_advance; lia).
    rewrite remaining_advance in Hh by lia.
    destruct (header_decode_size _ _ _ Hh) as [_ H80].
    exists (take 80 (drop 4 (remaining r))), (drop (Z.to_nat (n - 80)) (drop 80 (drop 4 (remaining r)))).
    assert (80 + len raw = n) as Hsize by (unfold len; lia).
    rewrite Hsize, Hd, !take_drop. split_and!; [|done|rewrite length_take; lia|done|done|].
    + rewrite <- (take_drop 4 (remaining r)) at 1. f_equal.
      rewrite Hn, <- (le_bytes_le_decode (take 4 (remaining r))) at 1. f_equal. rewrite length_take. lia.
    + rewrite !advance_advance. f_equal. rewrite <- Hd. lia.
  - intros (hb & rest & Hrem & Hh & Hhb & Hmax & <- & ->).
    set (n := 80 + len (raw_tx_data b)) in *. pose proof (len_nonneg (raw_tx_data b)).
    assert (le_decode (take 4 (remaining r)) = n) as Hn.
    { rewrite Hrem, take_app_length' by (by rewrite length_le_bytes). rewrite le_decode_le_bytes.
      apply Z.mod_small. unfold MAX_BLOCK_SERIALIZED_SIZE in Hmax. change (256 ^ Z.of_nat 4) with 4294967296. lia. }
    assert (drop 4 (remaining r) = hb ++ raw_tx_data b ++ rest) as Hd4
      by (by rewrite Hrem, drop_app_length' by (by rewrite length_le_bytes)).
    apply st_bind_Ok. exists n, (advance 4 r). split.
    { apply decode_u32_Ok. split_and!; [|done|done]. rewrite Hrem, length_app, length_le_bytes. lia. }
    rewrite (st_lift_bind _ tt) by (apply reject_if_Ok, Z.ltb_ge; lia).
    apply st_bind_Ok. exists (pb_header b), (advance 80 (advance 4 r)). split.
    { apply decode_header_Ok. rewrite remaining_advance, Hd4 by done. done. }
    rewrite (st_lift_bind _ (len (raw_tx_data b))).
    2:{ apply ok_or_Ok. unfold checked_sub. rewrite (proj2 (Z.leb_le _ _)) by lia. f_equal. lia. }
    apply st_bind_Ok. exists (raw_tx_data b), (advance (length (raw_tx_data b)) (advance 80 (advance 4 r))).
    split.
    { apply st_map_err_Ok, read_exact_Ok.
      rewrite !remaining_advance, Hd4 by (rewrite ?offset_advance; lia).
      unfold len. rewrite Nat2Z.id, drop_app_length' by done. by rewrite take_app_length. }
    apply st_ret_Ok. rewrite !advance_advance. split; [by destruct b|f_equal; lia].
Qed.

Lemma length_magic network : length (magic_for_network network) = 4%nat.
Proof. by destruct network. Qed.

Lemma length_block_record network hb raw :
  length hb = 80%nat → length (block_record network hb raw) = (88 + length raw)%nat.
Proof. intros Hhb. unfold block_record. rewrite !length_app, length_magic, length_le_bytes, Hhb. lia. Qed.

Lemma next_block_Ok network r b r' :
  0 ≤ offset r →
  next_block network r = (Ok (Some b), r') ↔
  ∃ header_bytes rest,
    remaining r = block_record network header_bytes (raw_tx_data b) ++ rest
    ∧ header_decode (header_bytes ++ raw_tx_data b ++ rest) = (Some (pb_header b), 80%nat)
    ∧ length header_bytes = 80%nat ∧ 80 + len (raw_tx_data b) ≤ MAX_BLOCK_SERIALIZED_SIZE
    ∧ pb_offset b = offset r ∧ is_end_of_file (advance 4 r) (magic_for_network network) = false
    ∧ r' = advance (88 + length (raw_tx_data b)) r.
Proof.
  intros Ho. unfold next_block. rewrite read_exact_spec.
  destruct (decide (4 ≤ length (remaining r))%nat) as [Hlen|Hlen].
  2:{ rewrite bool_decide_false by done. split; [done|].
      intros (hb & rest & Hrem & _ & Hhb & _). exfalso. apply Hlen. rewrite Hrem, length_app.
      rewrite length_block_record by done. lia. }
  rewrite bool_decide_true by done. cbv zeta. split.
  - destruct (is_end_of_file _ _) eqn:Heof; [done|].
    case_bool_decide as Hm; [by destruct (find _ _)|].
    intros Hr. apply st_bind_Ok in Hr as (b' & r2 & Hr & Hret). apply st_ret_Ok in Hret as [[= ->] ->].
    apply read_record_Ok in Hr as (hb & rest & Hrem & Hh & Hhb & Hmax & Hoff & ->);
      [|rewrite offset_advance; lia].
    exists hb, rest. split_and!; [|done|done|done|done|by rewrite <- Hm|rewrite advance_advance; f_equal; lia].
    rewrite remaining_advance in Hrem by done. unfold block_record.
    rewrite <- (take_drop 4 (remaining r)), Hm, Hrem. by rewrite <- !app_assoc.
  - intros (hb & rest & Hrem & Hh & Hhb & Hmax & Hoff & Heof & ->).
    assert (take 4 (remaining r) = magic_for_network network) as ->.
    { rewrite Hrem. unfold block_record. rewrite <- app_assoc.
      by rewrite take_app_length' by (by rewrite length_magic). }
    rewrite Heof, bool_decide_false by naive_solver.
    apply st_bind_Ok. exists b, (advance (88 + length (raw_tx_data b)) r). split; [|done].
    apply read_record_Ok; [rewrite offset_advance; lia|]. exists hb, rest.
    split_and!; [|done|done|done|done|rewrite advance_advance; f_equal; lia].
    rewrite remaining_advance, Hrem by done. unfold block_record. rewrite <- !app_assoc.
    by rewrite drop_app_length' by (by rewrite length_magic).
Qed.

(** ** Whole files *)

Definition zero_bytes (l : bytes) : bool := forallb (λ b, bool_decide (b = x00)) l.

Lemma zero_bytes_replicate l : zero_bytes l = true ↔ l = replicate (length l) x00.
Proof.
  unfold zero_bytes. rewrite forallb_forall. split.
  - intros Hz. symmetry. apply replicate_as_elem_of. split; [done|]. intros x Hx.
    apply list_elem_of_In in Hx. by apply Hz, bool_decide_eq_true_1 in Hx.
  - intros -> x Hx%list_elem_of_In. apply elem_of_replicate in Hx as [-> _]. by apply bool_decide_true.
Qed.

Lemma is_end_of_file_advance r m :
  is_end_of_file (advance 4 r) m = zero_bytes (plain (xor_key r) (offset r) m).
Proof.
  unfold is_end_of_file, plain, zero_bytes. cbn [xor_key advance offset].
  destruct (xor_key r); [|done]. do 2 f_equal. lia.
Qed.

(** At the zero padding, or the end of the file, there is no further block. *)
Lemma next_block_padding network r n :
  0 ≤ offset r → remaining r = plain (xor_key r) (offset r) (replicate n x00) →
  ∃ r', next_block network r = (Ok None, r').
Proof.
  intros Ho Hrem. unfold next_block. rewrite read_exact_spec.
  case_bool_decide as Hlen; [|by eexists]. rewrite is_end_of_file_advance.
  assert (zero_bytes (plain (xor_key r) (offset r) (take 4 (remaining r))) = true) as ->.
  { rewrite Hrem, length_plain, length_replicate in Hlen.
    replace n with (4 + (n - 4))%nat in Hrem by lia. rewrite Hrem, replicate_add, plain_app.
    rewrite take_app_length', plain_involutive by (by rewrite length_plain, length_replicate).
    by rewrite zero_bytes_replicate, length_replicate. }
  by eexists.
Qed.

(** A block as stored: its header's bytes, the header they decode to, and the
    transaction data. *)
Record stored_block := mkStored { sb_header_bytes : bytes; sb_header : Header; sb_raw : bytes }.

Definition stored_ok (b : stored_block) : Prop :=
  length (sb_header_bytes b) = 80%nat
  ∧ header_decode (sb_header_bytes b) = (Some (sb_header b), 80%nat)
  ∧ 80 + len (sb_raw b) ≤ MAX_BLOCK_SERIALIZED_SIZE.

Definition stored_record (network : Network) (b : stored_block) : bytes :=
  block_record network (sb_header_bytes b) (sb_raw b).

Lemma len_stored_record network b :
  length (sb_header_bytes b) = 80%nat → len (stored_record network b) = 88 + len (sb_raw b).
Proof. intros Hb. unfold stored_record, len. rewrite length_block_record by done. lia. Qed.

(** The blocks the parser should return, with their offsets. *)
Fixpoint parsed_from (pos : Z) (l : list stored_block) : list ParsedBlock :=
  match l with
  | [] => []
  | b :: l => mkParsedBlock (sb_header b) (sb_raw b) pos :: parsed_from (pos + 88 + len (sb_raw b)) l
  end.

(** A block file: the records, encrypted with the key, and zero padding. *)
Definition block_file (key : option XorKey) (network : Network) (l : list stored_block) (n : nat) : bytes :=
  plain key 0 (concat (map (stored_record network) l)) ++ replicate n x00.

(** The key nowhere turns the magic into zeros, which are taken for padding. *)
Definition magic_visible (key : option XorKey) (network : Network) : Prop :=
  ∀ pos, zero_bytes (plain key pos (magic_for_network network)) = false.

Lemma all_blocks_loop_Ok network fuel l n p blocks :
  bf_network p = network → 0 ≤ offset (reader p) → magic_visible (xor_key (reader p)) network →
  Forall stored_ok l →
  remaining (reader p) = concat (map (stored_record network) l)
    ++ plain (xor_key (reader p)) (offset (reader p) + len (concat (map (stored_record network) l)))
         (replicate n x00) →
  (length l < fuel)%nat →
  ∃ p', all_blocks_loop fuel p blocks = Some (Ok (blocks ++ parsed_from (offset (reader p)) l), p').
Proof.
  intros Hnet. revert p blocks Hnet. revert l. induction fuel as [|fuel IH]; intros l p blocks Hnet Ho Hkey Hl Hrem Hfuel; [lia|].
  cbn [all_blocks_loop]. rewrite Hnet. destruct l as [|b l].
  - cbn [map concat app] in Hrem. rewrite len_nil, Z.add_0_r in Hrem.
    destruct (next_block_padding network _ n Ho Hrem) as [r' ->]. eexists. by rewrite app_nil_r.
  - apply Forall_cons in Hl as [(Hhb & Hh & Hmax) Hl]. cbn [map concat] in Hrem.
    set (pb := mkParsedBlock (sb_header b) (sb_raw b) (offset (reader p))).
    assert (next_block network (reader p)
            = (Ok (Some pb), advance (88 + length (sb_raw b)) (reader p))) as ->.
    { apply next_block_Ok; [done|]. exists (sb_header_bytes b). eexists.
      split_and!; [rewrite Hrem, <- app_assoc; done| |done|done|done| |done].
      - rewrite <- (take_ge (sb_header_bytes b) 80) by lia. by apply header_decode_prefix.
      - rewrite is_end_of_file_advance. apply Hkey. }
    edestruct (IH l (set_reader p (advance (88 + length (sb_raw b)) (reader p))) (blocks ++ [pb]))
      as [p' Hp']; [done|cbn; lia|done|done| |cbn in Hfuel; lia|].
    + cbn [reader set_reader]. rewrite remaining_advance, Hrem, <- app_assoc by done.
      rewrite drop_app_length' by (unfold stored_record; rewrite length_block_record by done; done).
      f_equal. cbn [xor_key advance offset]. f_equal. rewrite len_app.
      rewrite len_stored_record by done. unfold len. lia.
    + exists p'. rewrite Hp'. cbn [parsed_from]. rewrite <- app_assoc. cbn [app reader set_reader].
      replace (offset (reader p) + 88 + len (sb_raw b))
        with (offset (advance (88 + length (sb_raw b)) (reader p)))
        by (rewrite offset_advance; unfold len; lia). done.
Qed.

Lemma remaining_at key (a c z : bytes) :
  remaining (mkXorReader (plain key 0 (a ++ c) ++ z) key (len a)) = c ++ plain key (len a + len c) z.
Proof.
  unfold remaining. cbn [xor_key offset file]. fold (plain key (len a)).
  replace (Z.to_nat (len a)) with (length (plain key 0 a)) by (rewrite length_plain; unfold len; lia).
  rewrite plain_app, Z.add_0_l, <- app_assoc, drop_app_length.
  change (plain key (len a) (plain key (len a) c ++ z) = c ++ plain key (len a + len c) z).
  by rewrite plain_app, plain_involutive, len_plain.
Qed.

(** The parser, placed at a record, reads its block. *)
Lemma next_block_at_record network key l b l' n :
  magic_visible key network → stored_ok b →
  let pos := len (concat (map (stored_record network) l)) in
  ∃ r', next_block network (mkXorReader (block_file key network (l ++ b :: l') n) key pos)
        = (Ok (Some (mkParsedBlock (sb_header b) (sb_raw b) pos)), r').
Proof.
  intros Hkey (Hhb & Hh & Hmax) pos. eexists. apply next_block_Ok; [apply len_nonneg|].
  exists (sb_header_bytes b). eexists. cbn [raw_tx_data pb_header pb_offset].
  split_and!; [| |done|done|done|rewrite is_end_of_file_advance; apply Hkey|done].
  - unfold block_file. rewrite map_app, concat_app. cbn [map concat].
    rewrite remaining_at, <- app_assoc. done.
  - rewrite <- (take_ge (sb_header_bytes b) 80) by lia. by apply header_decode_prefix.
Qed.

Lemma all_blocks_Ok p network l n fuel :
  bf_network p = network → magic_visible (xor_key (reader p)) network → Forall stored_ok l →
  file (reader p) = block_file (xor_key (reader p)) network l n → offset (reader p) = 0 →
  (length l < fuel)%nat →
  ∃ p', all_blocks fuel p = Some (Ok (parsed_from 0 l), p').
Proof.
  intros Hnet Hkey Hl Hfile Hoff Hfuel. rewrite <- Hoff.
  apply (all_blocks_loop_Ok network fuel l n p []); [done|lia|done|done| |done].
  destruct p as [path [f key off] net]. cbn [reader file xor_key offset] in *. subst f off.
  apply (remaining_at key [] (concat (map (stored_record network) l)) (replicate n x00)).
Qed.
End records.

(** ** Progress *)
Section progress.
Context `{ConsensusCodec}.

Definition advances {A} (r : XorReader) (p : outcome ParseBlockFileError A * XorReader) : Prop :=
  ∃ n, p.2 = advance n r.

Lemma advances_bind {A B} (m : st XorReader ParseBlockFileError A) (k : A → st XorReader _ B) r :
  advances r (m r) → (∀ a r, advances r (k a r)) → advances r ((m ≫= k) r).
Proof.
  intros [n Hm] Hk. unfold mbind, st_bind. destruct (m r) as [[a|e|] r'] eqn:He; cbn in Hm; subst r'.
  - destruct (Hk a (advance n r)) as [k' Hk']. exists (n + k')%nat. by rewrite Hk', advance_advance.
  - by exists n.
  - by exists n.
Qed.

Lemma advances_lift {A} (o : outcome ParseBlockFileError A) r : advances r (st_lift o r).
Proof. exists 0%nat. destruct r as [f k off]. unfold advance. cbn. by rewrite Z.add_0_r. Qed.

Lemma advances_decode {A} (d : bytes → option A * nat) e r : advances r (decode_with d e r).
Proof. unfold decode_with. destruct (d (remaining r)) as [o n]. by exists n. Qed.

Lemma read_record_advances start r : advances r (read_record start r).
Proof.
  unfold read_record.
  repeat (apply advances_bind; [|intros ? ?]); try apply advances_lift; try apply advances_decode.
  unfold st_map_err. by eexists.
Qed.

(** Each block read leaves less to read. *)
Lemma next_block_progress network r b r' :
  0 ≤ offset r → next_block network r = (Ok (Some b), r') →
  0 ≤ offset r' ∧ (length (remaining r') < length (remaining r))%nat.
Proof.
  intros Ho. unfold next_block. rewrite read_exact_spec.
  case_bool_decide as Hlen; [|done]. destruct (is_end_of_file _ _); [done|].
  case_bool_decide; [by destruct (find _ _)|]. intros Hr.
  apply st_bind_Ok in Hr as (b' & r2 & Hr & [_ ->]%st_ret_Ok).
  destruct (read_record_advances (offset r) (advance 4 r)) as [n Hn]. rewrite Hr in Hn. cbn in Hn. subst r2.
  rewrite advance_advance, remaining_advance, length_drop, offset_advance by done. lia.
Qed.

Lemma all_blocks_total fuel p blocks :
  0 ≤ offset (reader p) → (length (remaining (reader p)) < fuel)%nat →
  is_Some (all_blocks_loop fuel p blocks).
Proof.
  revert p blocks. induction fuel as [|fuel IH]; intros p blocks Ho Hf; [lia|]. cbn [all_blocks_loop].
  destruct (next_block (bf_network p) (reader p)) as [[[b|]|e|] r] eqn:Hn; [|by eexists..].
  apply next_block_progress in Hn as [Ho' Hl]; [|done]. apply IH; cbn [reader set_reader]; lia.
Qed.
End progress.

(** * Variable-length integers

    Core's `WriteVarInt`: base-128 digits, most significant first, every digit
    but the last marked and offset by one, so that each value has exactly one
    encoding.  Ten digits hold a u64. *)
Fixpoint varint_bytes (fuel : nat) (n mark : Z) : bytes :=
  match fuel with
  | O => []
  | S fuel => if n <? 128 then [z2b (n + mark)]
              else varint_bytes fuel (n / 128 - 1) 128 ++ [z2b (n mod 128 + mark)]
  end.
Definition write_varint (n : Z) : bytes := varint_bytes 10 n 0.

Lemma varint_fuel f g n mark :
  n < 128 ^ Z.of_nat f → n < 128 ^ Z.of_nat g → (0 < f)%nat → (0 < g)%nat →
  varint_bytes f n mark = varint_bytes g n mark.
Proof.
  revert g n mark. induction f as [|f IH]; intros [|g] n mark Hf Hg Hf0 Hg0; try lia.
  cbn [varint_bytes]. destruct (Z.ltb_spec n 128) as [|Hn]; [done|].
  rewrite Nat2Z.inj_succ, Z.pow_succ_r in Hf, Hg by lia.
  assert (∀ k, n < 128 * 128 ^ Z.of_nat k → n / 128 - 1 < 128 ^ Z.of_nat k ∧ (0 < k)%nat) as Hdiv.
  { intros k Hk. split; [|destruct k; cbn in Hk; lia].
    assert (n / 128 < 128 ^ Z.of_nat k) by (apply Z.div_lt_upper_bound; lia). lia. }
  destruct (Hdiv f Hf), (Hdiv g Hg). f_equal. by apply IH.
Qed.

Lemma b2z_digit d mark : 0 ≤ d < 128 → mark = 0 ∨ mark = 128 → b2z (z2b (d + mark)) = d + mark.
Proof. intros Hd Hm. rewrite b2z_z2b. apply Z.mod_small. lia. Qed.

Lemma varint_shift acc d : 0 ≤ d < 128 → Z.lor (Z.shiftl acc 7) d = acc * 128 + d.
Proof.
  intros Hd. rewrite Z.shiftl_mul_pow2, Z.lor_comm, Z.mul_comm by lia.
  rewrite (lor_disjoint d acc 7) by lia. change (2 ^ 7) with 128. lia.
Qed.

(** One round of the loop. *)
Lemma read_varint_loop_cons n b l :
  read_varint_loop n (b :: l) =
    if 2 ^ 57 - 1 <? n then (Err InvalidData, l) else
    let n := n * 128 + b2z b mod 128 in
    if b2z b <? 128 then (Ok n, l)
    else if n =? 2 ^ 64 - 1 then (Err InvalidData, l) else read_varint_loop (n + 1) l.
Proof.
  cbn [read_varint_loop]. rewrite byte_land_7f, byte_land_80, varint_shift by (apply Z.mod_pos_bound; lia).
  change (Z.shiftr (2 ^ 64 - 1) 7) with (2 ^ 57 - 1). by destruct (b2z b <? 128).
Qed.

(** Reading the digits of [n], with the last one marked or not. *)
Lemma read_varint_bytes fuel n mark rest :
  mark = 0 ∨ mark = 128 → 0 ≤ n → n + mark / 128 < 2 ^ 64 → n < 128 ^ Z.of_nat fuel → (0 < fuel)%nat →
  read_varint_loop 0 (varint_bytes fuel n mark ++ rest) =
    if mark =? 0 then (Ok n, rest) else read_varint_loop (n + 1) rest.
Proof.
  intros Hm. revert n mark rest Hm. induction fuel as [|fuel IH]; intros n mark rest Hm Hn Hmax Hf Hpos; [lia|].
  assert (∀ acc, acc = n / 128 → acc ≤ 2 ^ 57 - 1 →
            read_varint_loop acc (z2b (n mod 128 + mark) :: rest) =
              if mark =? 0 then (Ok n, rest) else read_varint_loop (n + 1) rest) as Hlast.
  { intros acc -> Hle. pose proof (Z.mod_pos_bound n 128 ltac:(lia)) as Hmod.
    rewrite read_varint_loop_cons, b2z_digit, (proj2 (Z.ltb_ge _ _)) by (done || lia). cbv zeta.
    assert ((n mod 128 + mark) mod 128 = n mod 128) as ->.
    { destruct Hm as [-> | ->]; [by rewrite Z.add_0_r, Z.mod_mod by lia|].
      rewrite <- (Z.mul_1_l 128) at 2. rewrite Z.mod_add by lia. by apply Z.mod_small. }
    rewrite Z.mul_comm, <- Z.div_mod by lia. destruct Hm as [-> | ->].
    - by rewrite (proj2 (Z.ltb_lt _ _)) by lia.
    - change (128 / 128) with 1 in Hmax.
      by rewrite (proj2 (Z.ltb_ge _ _)), (proj2 (Z.eqb_neq _ _)) by lia. }
  assert (n / 128 ≤ 2 ^ 57 - 1) as Hq.
  { assert (n / 128 < 2 ^ 57); [|lia]. apply Z.div_lt_upper_bound; [lia|].
    change (128 * 2 ^ 57) with (2 ^ 64). destruct Hm as [-> | ->];
      [change (0 / 128) with 0 in Hmax|change (128 / 128) with 1 in Hmax]; lia. }
  cbn [varint_bytes]. destruct (Z.ltb_spec n 128) as [Hlt|Hge].
  - rewrite <- (Z.mod_small n 128) at 1 by lia. apply Hlast; [by rewrite Z.div_small|lia].
  - rewrite Nat2Z.inj_succ, Z.pow_succ_r in Hf by lia.
    assert (n / 128 < 128 ^ Z.of_nat fuel) by (apply Z.div_lt_upper_bound; lia).
    assert (1 ≤ n / 128) by (apply Z.div_le_lower_bound; lia).
    rewrite <- app_assoc. rewrite IH; [|by right|lia|change (128 / 128) with 1; lia|lia|].
    + change (128 =? 0) with false. cbv iota. cbn [app]. apply Hlast; [lia|lia].
    + destruct fuel; [cbn in *; lia|lia].
Qed.

(** What was read, with the digits already consumed, is an encoding. *)
Lemma read_varint_canonical l acc n rest :
  0 ≤ acc → read_varint_loop acc l = (Ok n, rest) →
  0 ≤ n < 2 ^ 64
  ∧ (if acc =? 0 then [] else varint_bytes 10 (acc - 1) 128) ++ l = write_varint n ++ rest.
Proof.
  revert acc. induction l as [|b l IH]; intros acc Hacc; [done|]. rewrite read_varint_loop_cons.
  destruct (Z.ltb_spec (2 ^ 57 - 1) acc) as [|Hle]; [done|]. cbv zeta.
  pose proof (Z.mod_pos_bound (b2z b) 128 ltac:(lia)) as Hmod. pose proof (b2z_range b) as Hb.
  set (v := acc * 128 + b2z b mod 128). assert (0 ≤ v < 2 ^ 64) as Hv by (subst v; lia).
  assert (∀ mark, b2z b = b2z b mod 128 + mark →
            varint_bytes 10 v mark = (if acc =? 0 then [] else varint_bytes 10 (acc - 1) 128) ++ [b]) as Henc.
  { intros mark Hm. cbn [varint_bytes]. assert (v mod 128 = b2z b mod 128) as Hvm.
    { subst v. rewrite Z.add_comm, Z.mod_add, Z.mod_mod by lia. done. }
    assert (v / 128 = acc) as Hvd.
    { subst v. rewrite Z.add_comm, Z.div_add, Z.div_small by lia. lia. }
    rewrite Hvm, Hvd, <- Hm, z2b_b2z. destruct (Z.eqb_spec acc 0) as [->|Hnz].
    - assert (v = b2z b mod 128) as -> by (subst v; lia).
      rewrite (proj2 (Z.ltb_lt _ _)), <- Hm, z2b_b2z by lia. done.
    - rewrite (proj2 (Z.ltb_ge _ _)) by lia. f_equal.
      apply (varint_fuel 9 10); [|cbn; lia|lia|lia].
      apply (Z.lt_trans _ (2 ^ 57)); [lia|done]. }
  destruct (Z.ltb_spec (b2z b) 128) as [Hlo|Hhi].
  - intros [= <- <-]. split; [done|]. unfold write_varint.
    rewrite (Henc 0) by (rewrite Z.mod_small; lia). by rewrite <- app_assoc.
  - destruct (Z.eqb_spec v (2 ^ 64 - 1)); [done|]. intros Hr. apply IH in Hr as [Hn Hr]; [|lia].
    split; [done|]. rewrite (proj2 (Z.eqb_neq (v + 1) 0)), Z.add_simpl_r, (Henc 128) in Hr.
    + by rewrite <- Hr, <- app_assoc.
    + rewrite (Z.mod_eq (b2z b) 128) by lia. replace (b2z b / 128) with 1; [lia|].
      apply Z.div_unique with (b2z b - 128); lia.
    + lia.
Qed.

Lemma read_varint_Ok l n rest :
  read_varint l = (Ok n, rest) ↔ in_u 64 n ∧ l = write_varint n ++ rest.
Proof.
  unfold in_u. split.
  - intros Hr. apply read_varint_canonical in Hr; [|done]. done.
  - intros [Hn ->]. unfold write_varint, read_varint.
    rewrite (read_varint_bytes 10); [done|by left|lia|change (0 / 128) with 0; lia| |lia].
    apply (Z.lt_trans _ (2 ^ 64)); [lia|done].
Qed.

(** * Index entries *)

(** An entry as Core writes it: the positions it has data for. *)
Definition opt_bytes (f : Z → bytes) (o : option Z) : bytes := match o with Some n => f n | None => [] end.
Definition serialize_index (i : CDiskBlockIndex) : bytes :=
  write_varint (di_version i) ++ write_varint (di_height i) ++ write_varint (di_status i)
  ++ write_varint (tx_count i) ++ opt_bytes write_varint (file_number i)
  ++ opt_bytes write_varint (data_pos i) ++ opt_bytes write_varint (undo_pos i)
  ++ le_bytes 4 (block_version i) ++ di_prev_block_hash i ++ di_merkle_root i
  ++ le_bytes 4 (di_timestamp i) ++ le_bytes 4 (difficulty_target i) ++ le_bytes 4 (di_nonce i).

(** A field is present exactly when the status says so. *)
Definition present (b : bool) (w : Z) (o : option Z) : Prop :=
  if b then ∃ n, o = Some n ∧ in_u w n else o = None.
Record index_ok (i : CDiskBlockIndex) : Prop := {
  io_varints : in_u 64 (di_version i) ∧ in_u 64 (di_height i) ∧ in_u 64 (tx_count i);
  io_status : in_u 32 (di_status i);
  io_file : present (has_data (di_status i) || has_undo (di_status i)) 32 (file_number i);
  io_data : present (has_data (di_status i)) 64 (data_pos i);
  io_undo : present (has_undo (di_status i)) 64 (undo_pos i);
  io_words : in_u 32 (block_version i) ∧ in_u 32 (di_timestamp i)
             ∧ in_u 32 (difficulty_target i) ∧ in_u 32 (di_nonce i);
  io_hashes : length (di_prev_block_hash i) = 32%nat ∧ length (di_merkle_root i) = 32%nat
}.

(** [reads m x b]: [m] reads [x] from the bytes [b], whatever follows. *)
Definition reads {A} (m : st bytes IoError A) (x : A) (b : bytes) : Prop :=
  ∀ rest, m (b ++ rest) = (Ok x, rest).

Lemma reads_bind {A B} (m : st bytes IoError A) (k : A → st bytes IoError B) x y b c :
  reads m x b → reads (k x) y c → reads (m ≫= k) y (b ++ c).
Proof. intros Hm Hk rest. unfold mbind, st_bind. rewrite <- app_assoc, Hm. apply Hk. Qed.

Lemma reads_ret {A} (x : A) : reads (mret x) x [].
Proof. by intros rest. Qed.

Lemma reads_map {A B} (m : st bytes IoError A) (f : A → B) x y b :
  reads m x b → y = f x → reads (x ← m; mret (f x)) y b.
Proof. intros Hm -> rest. unfold mbind, st_bind. by rewrite Hm. Qed.

Lemma reads_varint n : in_u 64 n → reads read_varint n (write_varint n).
Proof. intros Hn rest. by apply read_varint_Ok. Qed.

Lemma reads_exact b n : length b = n → reads (slice_read_exact n) b b.
Proof.
  intros <- rest. unfold slice_read_exact. rewrite bool_decide_true by (rewrite length_app; lia).
  by rewrite take_app_length, drop_app_length.
Qed.

Lemma reads_uint32 n : in_u 32 n → reads read_uint32 n (le_bytes 4 n).
Proof.
  intros Hn. apply (reads_map _ _ (le_bytes 4 n)); [apply reads_exact, length_le_bytes|].
  rewrite le_decode_le_bytes. symmetry. by apply Z.mod_small.
Qed.

Lemma in_u_weaken w w' n : 0 ≤ w ≤ w' → in_u w n → in_u w' n.
Proof. unfold in_u. intros Hw [Hn Hlt]. split; [done|]. pose proof (Z.pow_le_mono_r 2 w w'). lia. Qed.

Lemma reads_if b w (m : st bytes IoError Z) o :
  present b w o → (∀ n, in_u w n → reads m n (write_varint n)) →
  reads (read_if b m) o (opt_bytes write_varint o).
Proof.
  unfold present. destruct b; cbn [read_if].
  - intros (n & -> & Hn) Hm. by apply (reads_map _ _ n); [apply Hm|].
  - intros -> _. apply reads_ret.
Qed.

Lemma reads_index i : index_ok i → reads deserialize i (serialize_index i).
Proof.
  intros [(Hv & Hh & Ht) Hs Hf Hd Hu (Hb & Hts & Hdt & Hn) [Hp Hm]].
  unfold deserialize, serialize_index.
  apply (reads_bind _ _ (di_version i)); [by apply reads_varint|].
  apply (reads_bind _ _ (di_height i)); [by apply reads_varint|].
  apply (reads_bind _ _ (di_status i)); [by apply reads_varint, (in_u_weaken 32)|].
  cbv zeta. rewrite (wrap_u_id 32 (di_status i)) by done.
  apply (reads_bind _ _ (tx_count i)); [by apply reads_varint|].
  apply (reads_bind _ _ (file_number i)).
  { apply (reads_if _ 32); [done|]. intros n Hn'. apply (reads_map _ _ n); [|by rewrite wrap_u_id].
    by apply reads_varint, (in_u_weaken 32). }
  apply (reads_bind _ _ (data_pos i)); [apply (reads_if _ 64); [done|apply reads_varint]|].
  apply (reads_bind _ _ (undo_pos i)); [apply (reads_if _ 64); [done|apply reads_varint]|].
  apply (reads_bind _ _ (block_version i)); [by apply reads_uint32|].
  apply (reads_bind _ _ (di_prev_block_hash i)); [by apply reads_exact|].
  apply (reads_bind _ _ (di_merkle_root i)); [by apply reads_exact|].
  apply (reads_bind _ _ (di_timestamp i)); [by apply reads_uint32|].
  apply (reads_bind _ _ (difficulty_target i)); [by apply reads_uint32|].
  apply (reads_map _ _ (di_nonce i)); [by apply reads_uint32|]. by destruct i.
Qed.

(** * Directories *)
Section directory.
Context `{ConsensusCodec}.

(** The bytes of [n] consecutive files. *)
Fixpoint files_bytes (dir : BlocksDir) (n : nat) (i : Z) : nat :=
  match n with
  | O => 0
  | S n => length (default [] (blk_files dir !! i)) + files_bytes dir n (i + 1)
  end.

(** The directory ends [n] files above the parser's. *)
Record dir_ok (dir : BlocksDir) (n : nat) (p : BlockDirectoryParser) : Prop := {
  dk_end : blk_files dir !! (file_index p + Z.of_nat n) = None;
  dk_index : file_index p + Z.of_nat n < 2 ^ 32;
  dk_current c : current_parser p = Some c → 0 ≤ offset (reader c) ∧ (0 < n)%nat
}.

(** The bytes still to be read. *)
Definition dir_left (dir : BlocksDir) (n : nat) (p : BlockDirectoryParser) : nat :=
  match current_parser p with
  | Some c => length (remaining (reader c)) + files_bytes dir (n - 1) (file_index p + 1)
  | None => files_bytes dir n (file_index p)
  end.

Lemma length_remaining_start f key : length (remaining (mkXorReader f key 0)) = length f.
Proof.
  unfold remaining. cbn [offset file xor_key]. rewrite drop_0.
  destruct key; [apply length_apply_xor|done].
Qed.

(** [next_block] over a directory ends, and each block leaves less to read. *)
Lemma dir_next_block_total dir n p fuel :
  dir_ok dir n p → (2 * n + 1 ≤ fuel)%nat →
  ∃ o p', dir_next_block fuel dir p = Some (o, p')
    ∧ ∀ b, o = Ok (Some b) →
      ∃ n', (n' ≤ n)%nat ∧ dir_ok dir n' p' ∧ (dir_left dir n' p' < dir_left dir n p)%nat.
Proof.
  revert p fuel. induction n as [|n IH]; intros p fuel [Hend Hidx Hcur] Hfuel;
    (destruct fuel as [|fuel]; [lia|]).
  - cbn [dir_next_block]. destruct (current_parser p) as [c|] eqn:Hc; [destruct (Hcur c); [done|lia]|].
    rewrite Z.add_0_r in Hend. rewrite bool_decide_true by done. by eexists _, _.
  - assert (∀ c fuel', (2 * n + 2 ≤ fuel')%nat → 0 ≤ offset (reader c) →
              ∃ o p', dir_next_block fuel' dir (set_current (Some c) p) = Some (o, p')
              ∧ ∀ b, o = Ok (Some b) →
                ∃ n', (n' ≤ S n)%nat ∧ dir_ok dir n' p'
                      ∧ (dir_left dir n' p' < dir_left dir (S n) (set_current (Some c) p))%nat) as Hsome.
    { intros c [|fuel'] Hf Ho; [lia|]. cbn [dir_next_block set_current current_parser].
      destruct (next_block (bf_network c) (reader c)) as [[[b|]|e|] r] eqn:Hn.
      - eexists _, _. split; [done|]. intros b' _. apply next_block_progress in Hn as [Ho' Hl]; [|done].
        exists (S n). split_and!; [lia| |].
        + split; cbn; [done|done|]. intros c' [= <-]. cbn. split; [done|lia].
        + unfold dir_left. cbn [current_parser set_current reader set_reader file_index]. lia.
      - cbn [file_index set_current]. unfold checked_add. rewrite (proj2 (Z.ltb_lt _ _)) by lia.
        edestruct (IH (set_current None (set_file_number (file_index p + 1) (set_current (Some c) p))) fuel')
          as (o & p' & Hr & Hb); [split; cbn; [|lia|done]|lia|].
        { rewrite <- Hend. f_equal. lia. }
        exists o, p'. split; [exact Hr|]. intros b' Ho'. destruct (Hb b' Ho') as (n' & ? & ? & Hlt).
        exists n'. split_and!; [lia|done|]. revert Hlt. unfold dir_left.
        cbn [current_parser set_current set_file_number file_index].
        replace (S n - 1)%nat with n by lia. lia.
      - by eexists _, _.
      - by eexists _, _. }
    destruct (current_parser p) as [c|] eqn:Hc.
    + destruct (Hcur c eq_refl) as [Ho _]. destruct (Hsome c (S fuel)) as (o & p' & Hr & Hb); [lia|done|].
      assert (set_current (Some c) p = p) as Hp by (destruct p; cbn in *; by subst).
      rewrite Hp in *. by exists o, p'.
    + cbn [dir_next_block]. rewrite Hc. case_bool_decide as Hf; [by eexists _, _|].
      unfold open_block_file. destruct (blk_files dir !! file_index p) as [content|] eqn:Hf'; [|done].
      cbn [ok_or mbind outcome_bind].
      edestruct (Hsome (mkBlockFileParser (file_index p) (mkXorReader content (dir_xor_key p) 0)
                          (dir_network p)) fuel) as (o & p' & Hr & Hb); [lia|done|].
      exists o, p'. split; [exact Hr|]. intros b Hob. destruct (Hb b Hob) as (n' & ? & ? & Hlt).
      exists n'. split_and!; [done|done|]. revert Hlt. unfold dir_left. rewrite Hc.
      cbn [current_parser set_current reader file_index files_bytes]. rewrite Hf'.
      rewrite length_remaining_start. cbn [default]. replace (S n - 1)%nat with n by lia. done.
Qed.
End directory.

(** ** Iterating over a directory *)
Section dir_yields.
Context `{ConsensusLaws}.

(** The blocks the iterator yields until its end. *)
Inductive dir_yields (dir : BlocksDir) : BlockDirectoryParser → list ParsedBlock → Prop :=
| yields_end fuel p p' : dir_next_block fuel dir p = Some (Ok None, p') → dir_yields dir p []
| yields_next fuel p b p' bs :
    dir_next_block fuel dir p = Some (Ok (Some b), p') → dir_yields dir p' bs →
    dir_yields dir p (b :: bs).

(** The parser inside file [i], after its first blocks [l]. *)
Definition at_block (key : option XorKey) (network : Network) (i : Z) (l l' : list stored_block)
    (n : nat) : BlockDirectoryParser :=
  mkBlockDirectoryParser key network i
    (Some (mkBlockFileParser i (mkXorReader (block_file key network (l ++ l') n) key
             (len (concat (map (stored_record network) l)))) network)).

Lemma dir_yields_skip dir p p' bs :
  (∀ fuel, dir_next_block (S fuel) dir p = dir_next_block fuel dir p') →
  dir_yields dir p' bs → dir_yields dir p bs.
Proof.
  intros Hskip Hy. inversion Hy; subst; [eapply (yields_end _ (S fuel))|eapply (yields_next _ (S fuel))];
    by rewrite ?Hskip.
Qed.

Lemma next_block_at_end network key l n :
  ∃ r', next_block network (mkXorReader (block_file key network l n) key
                              (len (concat (map (stored_record network) l)))) = (Ok None, r').
Proof.
  apply (next_block_padding network _ n); [apply len_nonneg|]. cbn [xor_key offset].
  unfold block_file. rewrite <- (app_nil_r (concat _)) at 1.
  by rewrite remaining_at, len_nil, Z.add_0_r.
Qed.

Lemma dir_yields_file dir key network i l l' n bs :
  magic_visible key network → Forall stored_ok (l ++ l') → 0 ≤ i → i + 1 < 2 ^ 32 →
  dir_yields dir (mkBlockDirectoryParser key network (i + 1) None) bs →
  dir_yields dir (at_block key network i l l' n)
    (parsed_from (len (concat (map (stored_record network) l))) l' ++ bs).
Proof.
  intros Hkey Hok Hi Hmax Hnext. revert l Hok. induction l' as [|b l' IH]; intros l Hok.
  - cbn [parsed_from app]. apply (dir_yields_skip _ _ (mkBlockDirectoryParser key network (i + 1) None)); [|done].
    intros fuel. cbn [dir_next_block at_block current_parser bf_network reader].
    rewrite app_nil_r. destruct (next_block_at_end network key l n) as [r' ->].
    cbn [file_index at_block]. unfold checked_add. by rewrite (proj2 (Z.ltb_lt (i + 1) _)) by lia.
  - assert (stored_ok b) as Hb by (apply (Forall_forall stored_ok (l ++ b :: l')); [done|set_solver]).
    cbn [parsed_from app]. destruct (next_block_at_record network key l b l' n Hkey Hb) as [r' Hr'].
    eapply (yields_next _ 1).
    { cbn [dir_next_block at_block current_parser bf_network reader]. by rewrite Hr'. }
    assert (r' = mkXorReader (block_file key network ((l ++ [b]) ++ l') n) key
                   (len (concat (map (stored_record network) (l ++ [b]))))) as ->.
    { apply next_block_Ok in Hr' as (_ & _ & _ & _ & _ & _ & _ & _ & ->); [|apply len_nonneg].
      unfold advance. cbn [file xor_key offset].
      rewrite <- app_assoc. f_equal. rewrite map_app, concat_app, len_app. cbn [map concat raw_tx_data].
      rewrite app_nil_r, len_stored_record by apply Hb. unfold len. lia. }
    replace (len (concat (map (stored_record network) l)) + 88 + len (sb_raw b))
      with (len (concat (map (stored_record network) (l ++ [b])))).
    + apply (IH (l ++ [b])). by rewrite <- app_assoc.
    + rewrite map_app, concat_app, len_app. cbn [map concat]. rewrite app_nil_r.
      rewrite len_stored_record by apply Hb. lia.
Qed.

Lemma dir_yields_files dir key network i files :
  magic_visible key network → 0 ≤ i → i + len files < 2 ^ 32 →
  Forall (λ f, Forall stored_ok f.1) files →
  (∀ j f, files !! j = Some f →
     blk_files dir !! (i + Z.of_nat j) = Some (block_file key network f.1 f.2)) →
  blk_files dir !! (i + len files) = None →
  dir_yields dir (mkBlockDirectoryParser key network i None) (concat (map (λ f, parsed_from 0 f.1) files)).
Proof.
  intros Hkey. revert i. induction files as [|[l n] files IH]; intros i Hi Hmax Hok Hfiles Hend.
  - rewrite len_nil, Z.add_0_r in Hend. eapply (yields_end _ 1). cbn [dir_next_block current_parser file_index].
    by rewrite bool_decide_true.
  - apply Forall_cons in Hok as [Hl Hok]. rewrite len_cons in *. cbn [map concat fst].
    pose proof (Hfiles 0%nat _ eq_refl) as H0'. rewrite Z.add_0_r in H0'. cbn [fst snd] in H0'.
    apply (dir_yields_skip _ _ (at_block key network i [] l n)).
    + intros fuel. cbn [dir_next_block current_parser file_index].
      rewrite bool_decide_false by (by rewrite H0'). unfold open_block_file.
      cbn [dir_xor_key dir_network file_index]. rewrite H0'. done.
    + apply (dir_yields_file dir key network i [] l n); [done|done|done|pose proof (len_nonneg files); lia|].
      apply IH; [lia|lia|done| |].
      * intros j f Hj. replace (i + 1 + Z.of_nat j) with (i + Z.of_nat (S j)) by lia. by apply Hfiles.
      * rewrite <- Hend. f_equal. lia.
Qed.
End dir_yields.

Lemma xor_byte_mod key pos b : len key ≠ 0 → xor_byte key (pos mod len key) b = xor_byte key pos b.
Proof. intros Hk. unfold xor_byte. by rewrite Z.mod_mod. Qed.

Lemma apply_xor_mod key pos l : len key ≠ 0 → apply_xor key (pos mod len key) l = apply_xor key pos l.
Proof.
  intros Hk. revert pos. induction l as [|b l IH]; intros pos; [done|]. cbn [apply_xor].
  rewrite xor_byte_mod by done. f_equal.
  by rewrite <- IH, <- (IH (pos + 1)), Z.add_mod_idemp_l.
Qed.

(** Eight positions decide whether the magic is visible under an 8-byte key. *)
Definition magic_visible_b (key : XorKey) (network : Network) : bool :=
  forallb (λ pos, negb (zero_bytes (apply_xor key pos (magic_for_network network)))) [0;1;2;3;4;5;6;7].

Lemma magic_visible_b_sound key network :
  len key = 8 → magic_visible_b key network = true → magic_visible (Some key) network.
Proof.
  unfold magic_visible_b. rewrite forallb_forall. intros Hk Hall pos.
  cbn [plain]. rewrite <- apply_xor_mod by lia. rewrite Hk.
  pose proof (Z.mod_pos_bound pos 8 ltac:(lia)). apply negb_true_iff, Hall.
  assert (∀ z, 0 ≤ z < 8 → In z [0;1;2;3;4;5;6;7]) as Hin by (intros z Hz; cbn; lia). by apply Hin.
Qed.

Lemma magic_visible_None network : magic_visible None network.
Proof. by destruct network. Qed.

(** * Properties *)

(** The key the directory's parser uses. *)
Definition directory_key (key : bytes) : option XorKey := if zero_bytes key then None else Some key.

Lemma directory_parser_new_Ok dir network key :
  xor_dat dir = Some key → length key = 8%nat →
  directory_parser_new dir network = Ok (mkBlockDirectoryParser (directory_key key) network 0 None).
Proof.
  intros Hx Hk. unfold directory_parser_new. rewrite Hx. cbn [ok_or mbind outcome_bind].
  by rewrite bool_decide_true.
Qed.

(** A block record is read back exactly: [next_block] returns a block if and
    only if the (decrypted) file continues, from the parser's offset, with the
    network's magic, the size of a header and the returned transaction data, the
    80 bytes of the returned header and that data, the size is at most 4,000,000
    bytes, and the magic is not mistaken for padding; it then stands right after
    the record.  So no record makes it allocate more than the consensus limit. *)
Lemma next_block_correct `{ConsensusLaws} network r b r' :
  0 ≤ offset r →
  next_block network r = (Ok (Some b), r') ↔
  ∃ header_bytes rest,
    remaining r = block_record network header_bytes (raw_tx_data b) ++ rest
    ∧ header_decode (header_bytes ++ raw_tx_data b ++ rest) = (Some (pb_header b), 80%nat)
    ∧ length header_bytes = 80%nat ∧ 80 + len (raw_tx_data b) ≤ MAX_BLOCK_SERIALIZED_SIZE
    ∧ pb_offset b = offset r ∧ is_end_of_file (advance 4 r) (magic_for_network network) = false
    ∧ r' = advance (88 + length (raw_tx_data b)) r.
Proof. apply next_block_Ok. Qed.

(** A blocks directory is read back completely: on a directory whose files
    0, 1, .. hold block records encrypted with the 8-byte key of `xor.dat` (all
    zeros for none) and then zero padding, the directory parser yields the blocks
    of every file, in order, with their offsets, and then ends.  The one
    assumption on the key is that it nowhere turns the magic into zeros. *)
Lemma block_directory_complete `{ConsensusLaws} dir network key files :
  xor_dat dir = Some key → length key = 8%nat → magic_visible (directory_key key) network →
  len files < 2 ^ 32 → Forall (λ f, Forall stored_ok f.1) files →
  (∀ j f, files !! j = Some f →
     blk_files dir !! Z.of_nat j = Some (block_file (directory_key key) network f.1 f.2)) →
  blk_files dir !! len files = None →
  ∃ p, directory_parser_new dir network = Ok p
       ∧ dir_yields dir p (concat (map (λ f, parsed_from 0 f.1) files)).
Proof.
  intros Hx Hk Hkey Hmax Hok Hfiles Hend. eexists. split; [by apply directory_parser_new_Ok|].
  by apply dir_yields_files.
Qed.

(** On any directory, of any content, the iteration ends: where the files
    after the parser's are [n] in number, [next] returns within [2n + 1] rounds
    of its loop, and a returned block leaves strictly fewer bytes to read. *)
Lemma directory_next_terminates `{ConsensusCodec} dir n p fuel :
  dir_ok dir n p → (2 * n + 1 ≤ fuel)%nat →
  ∃ o p', dir_next_block fuel dir p = Some (o, p')
    ∧ ∀ b, o = Ok (Some b) →
      ∃ n', (n' ≤ n)%nat ∧ dir_ok dir n' p' ∧ (dir_left dir n' p' < dir_left dir n p)%nat.
Proof. apply dir_next_block_total. Qed.

(** [read_varint] decodes Core's variable-length integers, canonically: it
    returns [n] exactly on the encoding of [n] by `WriteVarInt`, for the values of
    a u64.  So no value has two encodings it accepts, and neither a digit string
    that overflows 64 bits nor a truncated one is accepted. *)
Lemma read_varint_iff l n rest :
  read_varint l = (Ok n, rest) ↔ in_u 64 n ∧ l = write_varint n ++ rest.
Proof. apply read_varint_Ok. Qed.

(** The index leads to the block: when the index entry of [hash] names file
    [i] and the position of a block's data in it (8 bytes after its record, magic
    and size, begins), then the entry is read back with all its fields, and the
    directory parser, set to that file and the adjusted position, yields that
    block first. *)
Lemma indexed_block_found `{ConsensusLaws} dir network key hash idx tail i l b l' n fuel :
  block_index dir !! (x62 :: hash) = Some (serialize_index idx ++ tail) → index_ok idx →
  let pos := len (concat (map (stored_record network) l)) in
  file_number idx = Some i → data_pos idx = Some (pos + 8) →
  xor_dat dir = Some key → length key = 8%nat → magic_visible (directory_key key) network →
  blk_files dir !! i = Some (block_file (directory_key key) network (l ++ b :: l') n) →
  stored_ok b → (0 < fuel)%nat →
  fetch_block_index (block_index dir) hash = Ok idx
  ∧ adjusted_data_pos idx = Some pos
  ∧ ∃ p p' p'', directory_parser_new dir network = Ok p
      ∧ set_offset dir pos (set_file_number i p) = (Ok tt, p')
      ∧ dir_next_block fuel dir p' = Some (Ok (Some (mkParsedBlock (sb_header b) (sb_raw b) pos)), p'').
Proof.
  intros Hidx Hok pos Hfile Hpos Hx Hk Hkey Hblk Hb Hfuel. split_and!.
  - unfold fetch_block_index. rewrite Hidx. cbn [ok_or mbind outcome_bind].
    by rewrite (reads_index idx Hok tail).
  - unfold adjusted_data_pos. rewrite Hpos. cbn [mbind option_bind]. unfold checked_sub.
    pose proof (len_nonneg (concat (map (stored_record network) l))).
    rewrite (proj2 (Z.leb_le _ _)) by lia. f_equal. lia.
  - destruct (next_block_at_record network _ l b l' n Hkey Hb) as [r' Hr'].
    destruct fuel as [|fuel]; [lia|]. do 3 eexists.
    split_and!; [by apply directory_parser_new_Ok| |].
    + unfold set_offset, get_or_init_parser. unfold mbind, st_bind, open_block_file.
      cbn [set_file_number current_parser file_index dir_xor_key dir_network]. rewrite Hblk.
      cbn [ok_or mbind outcome_bind]. reflexivity.
    + cbn [dir_next_block set_current current_parser bf_network reader set_reader seek file xor_key].
      unfold seek. cbn [file xor_key]. subst pos. rewrite Hr'. reflexivity.
Qed.

(** ** Witnesses: a directory of two files of two blocks and one, under the key
    1, 2, .., 8. *)
Definition ex_key : bytes := [x01; x02; x03; x04; x05; x06; x07; x08].
Definition ex_stored (t : Z) (raw : bytes) : stored_block :=
  let hb := replicate 32 xbb ++ le_bytes 4 t ++ replicate 44 xcc in
  mkStored hb (mkHeader (replicate 32 xbb) t (replicate 44 xcc)) raw.
Definition ex_blocks_dir : BlocksDir :=
  mkBlocksDir (Some ex_key)
    (<[0 := block_file (Some ex_key) Regtest [ex_stored 1 [x01]; ex_stored 2 [x02; x03]] 5]>
      {[1 := block_file (Some ex_key) Regtest [ex_stored 3 []] 0]})
    {[ x62 :: replicate 32 xdd :=
         serialize_index (mkCDiskBlockIndex 259900 1 29 1 (Some 0) (Some 97) (Some 300) 4
           (replicate 32 xbb) (replicate 32 xee) 2 0x207fffff 7) ]}.

Lemma ex_stored_ok t raw :
  in_u 32 t → len raw ≤ 100 → @stored_ok toy_codec (ex_stored t raw).
Proof.
  intros Ht Hraw. split_and!; [done| |cbn [sb_raw ex_stored]; unfold MAX_BLOCK_SERIALIZED_SIZE; lia].
  assert (le_decode (le_bytes 4 t) = t) as Hle by (rewrite le_decode_le_bytes; by apply Z.mod_small).
  transitivity (Some (mkHeader (replicate 32 xbb) (le_decode (le_bytes 4 t)) (replicate 44 xcc)), 80%nat);
    [reflexivity|by rewrite Hle].
Qed.

Lemma ex_magic_visible : magic_visible (Some ex_key) Regtest.
Proof. by apply magic_visible_b_sound. Qed.

Lemma next_block_correct_witness :
  let hb := sb_header_bytes (ex_stored 1 [x01]) in
  let r := mkXorReader (default [] (blk_files ex_blocks_dir !! 0)) (Some ex_key) 0 in
  let b := mkParsedBlock (sb_header (ex_stored 1 [x01])) [x01] 0 in
  0 ≤ offset r ∧ @next_block toy_codec Regtest r = (Ok (Some b), advance 89 r).
Proof.
  intros hb r b. split; [done|].
  apply (proj2 (@next_block_correct toy_codec toy_codec_laws Regtest r b (advance 89 r) ltac:(done))).
  exists hb, (drop 89 (remaining r)). split_and!; try done; vm_compute; reflexivity.
Defined.

Lemma block_directory_complete_witness :
  ∃ p, directory_parser_new ex_blocks_dir Regtest = Ok p
       ∧ @dir_yields toy_codec ex_blocks_dir p
           [mkParsedBlock (mkHeader (replicate 32 xbb) 1 (replicate 44 xcc)) [x01] 0;
            mkParsedBlock (mkHeader (replicate 32 xbb) 2 (replicate 44 xcc)) [x02; x03] 89;
            mkParsedBlock (mkHeader (replicate 32 xbb) 3 (replicate 44 xcc)) [] 0].
Proof.
  apply (@block_directory_complete toy_codec toy_codec_laws ex_blocks_dir Regtest ex_key
           [([ex_stored 1 [x01]; ex_stored 2 [x02; x03]], 5%nat); ([ex_stored 3 []], 0%nat)]).
  - done.
  - done.
  - apply ex_magic_visible.
  - done.
  - repeat constructor; apply ex_stored_ok; done.
  - intros [|[|j]] f; [intros [= <-]; done|intros [= <-]; done|done].
  - done.
Defined.

Lemma directory_next_terminates_witness :
  ∃ o p', @dir_next_block toy_codec 5 ex_blocks_dir (mkBlockDirectoryParser (Some ex_key) Signet 0 None)
          = Some (o, p').
Proof.
  destruct (@directory_next_terminates toy_codec ex_blocks_dir 2
              (mkBlockDirectoryParser (Some ex_key) Signet 0 None) 5) as (o & p' & Hr & _).
  - by split.
  - lia.
  - by exists o, p'.
Defined.

Lemma read_varint_iff_witness :
  read_varint [x80; x00; x2a] = (Ok 128, [x2a]) ∧ write_varint 128 = [x80; x00].
Proof. split; [apply read_varint_iff; done|done]. Defined.

Lemma indexed_block_found_witness :
  ∃ idx, fetch_block_index (block_index ex_blocks_dir) (replicate 32 xdd) = Ok idx
         ∧ adjusted_data_pos idx = Some 89.
Proof.
  pose (idx := mkCDiskBlockIndex 259900 1 29 1 (Some 0) (Some 97) (Some 300) 4
           (replicate 32 xbb) (replicate 32 xee) 2 0x207fffff 7).
  exists idx.
  destruct (@indexed_block_found toy_codec toy_codec_laws ex_blocks_dir Regtest ex_key (replicate 32 xdd) idx []
              0 [ex_stored 1 [x01]] (ex_stored 2 [x02; x03]) [] 5 1) as (Hf & Ha & _).
  - vm_compute. reflexivity.
  - split; try done. by exists 0. by exists 97. by exists 300.
  - done.
  - done.
  - done.
  - done.
  - apply ex_magic_visible.
  - vm_compute. reflexivity.
  - by apply ex_stored_ok.
  - lia.
  - by split.
Defined.
