(* ===== verification/Dbs.v ===== *)
(** The validator databases (`dbs/`): the tables keyed by block hash, the P2MR
    UTXO table and the chain tip, and the operations on them.

    A read-write transaction is the [Dbs] value threaded through an [st]
    computation: what an operation wrote before failing is in the state it
    leaves, and a transaction that is dropped or aborted is a state that is
    thrown away.  LMDB failures (I/O, map full, encoding) are not modelled; a
    [get] of an absent key is. *)
From Stdlib Require Import ZArith Lia Strings.Byte.
From stdpp Require Import base list gmap.
From S2P Require Import Prelude Bitcoin Concrete P2mrOutput Spend P2mrUtxo.
#[local] Open Scope Z_scope.

(** [sneed::db::Error]: a missing key, and two tables that disagree. *)
Inductive DbError := DbGet | DbInconsistent.

(** ** types.rs *)
Record HeaderInfo := mkHeaderInfo {
  block_hash_ : BlockHash;
  prev_block_hash : BlockHash;
  height : Z; (* u32 *)
  work : Z;
  timestamp : Z (* u32 *)
}.
Record BlockInfo := mkBlockInfo { coinbase_txid : Txid }.

Inductive Event :=
| ConnectBlockEvent (header_info : HeaderInfo) (block_info : BlockInfo)
| DisconnectBlockEvent (block_hash : BlockHash).

(** ** Tables *)

(** [diff::Block] *)
Record DiffBlock := mkDiffBlock { p2mr_utxo : P2mrUtxoBlockDiff }.

Record BlockHashDbs := mkBlockHashDbs {
  coinbase_txids : gmap BlockHash Txid;
  cumulative_work : gmap BlockHash Z;
  diffs : gmap BlockHash DiffBlock;
  headers : gmap BlockHash Header;
  heights : gmap BlockHash Z
}.

Record Dbs := mkDbs {
  block_hashes : BlockHashDbs;
  current_chain_tip : option BlockHash;
  p2mr_utxos : PrevoutMap
}.

Definition dbs_empty : Dbs := mkDbs (mkBlockHashDbs ∅ ∅ ∅ ∅ ∅) None ∅.

(** An operation on one part of the databases. *)
Definition on_utxos {E A} (m : st PrevoutMap E A) : st Dbs E A :=
  λ db, let '(o, u) := m (p2mr_utxos db) in (o, mkDbs (block_hashes db) (current_chain_tip db) u).
Definition on_block_hashes {E A} (m : st BlockHashDbs E A) : st Dbs E A :=
  λ db, let '(o, b) := m (block_hashes db) in (o, mkDbs b (current_chain_tip db) (p2mr_utxos db)).

Definition put_tip (tip : option BlockHash) (db : Dbs) : Dbs :=
  mkDbs (block_hashes db) tip (p2mr_utxos db).

(** ** p2mr_utxos.rs *)

Definition load_map (db : Dbs) : PrevoutMap := p2mr_utxos db.

Definition utxo_delete (p : OutPoint * TxOut) : st PrevoutMap DbError unit :=
  utxos ← st_get; st_put (delete p.1 utxos).
Definition utxo_put (p : OutPoint * TxOut) : st PrevoutMap DbError unit :=
  utxos ← st_get; st_put (<[p.1 := p.2]> utxos).
(** [get], then [delete] *)
Definition utxo_take (p : OutPoint * TxOut) : st PrevoutMap DbError unit :=
  utxos ← st_get; _ ← st_lift (ok_or (utxos !! p.1) DbGet); utxo_delete p.

Definition apply_diff (d : P2mrUtxoBlockDiff) : st PrevoutMap DbError unit :=
  _ ← st_for_each utxo_take (map_to_list (spent d));
  st_for_each utxo_put (map_to_list (created d)).

Definition undo_diff (d : P2mrUtxoBlockDiff) : st PrevoutMap DbError unit :=
  _ ← st_for_each utxo_delete (map_to_list (created d));
  st_for_each utxo_put (map_to_list (spent d)).

(** ** diff.rs: [Diff for Block] *)
Definition apply (d : DiffBlock) : st Dbs DbError unit := on_utxos (apply_diff (p2mr_utxo d)).
Definition undo (d : DiffBlock) : st Dbs DbError unit := on_utxos (undo_diff (p2mr_utxo d)).

(** ** block_hashes.rs *)

Inductive PutBlockInfoError :=
| PutMissingHeader (block_hash : BlockHash)
| PutMissingParent (block_hash prev_block_hash : BlockHash).

Inductive LastCommonAncestorError :=
| LcaDb (e : DbError)
| MissingAncestor (block_hash : BlockHash) (depth height : Z).

Inductive GetHeaderInfoError :=
| GetHeaderDb (e : DbError)
| MissingHeader (block_hash : BlockHash).

Section block_hashes.
Context `{TxLib}.

Definition contains_header (db : BlockHashDbs) (bh : BlockHash) : bool :=
  bool_decide (is_Some (headers db !! bh)).

Definition put_header (db : BlockHashDbs) (bh : BlockHash) (hd : Header) : BlockHashDbs :=
  mkBlockHashDbs (coinbase_txids db) (cumulative_work db) (diffs db) (<[bh := hd]> (headers db))
    (heights db).
Definition put_height (db : BlockHashDbs) (bh : BlockHash) (h : Z) : BlockHashDbs :=
  mkBlockHashDbs (coinbase_txids db) (cumulative_work db) (diffs db) (headers db)
    (<[bh := h]> (heights db)).

(** [height - 1] is a u32 subtraction. *)
Definition put_headers {E} (hs : list (Header * Z)) : st BlockHashDbs E unit :=
  st_for_each (λ '(hd, h),
    db ← st_get;
    let bh := block_hash hd in
    let db := put_height (put_header db bh hd) bh h in
    _ ← st_put db;
    if bool_decide (prev_blockhash hd ≠ all_zeros) then
      h' ← st_lift (expect (checked_sub h 1));
      st_put (put_height db (prev_blockhash hd) h')
    else mret tt) hs.

Definition put_block_info (bh : BlockHash) (info : BlockInfo) (d : DiffBlock) :
    st BlockHashDbs PutBlockInfoError unit :=
  db ← st_get;
  hd ← st_lift (ok_or (headers db !! bh) (PutMissingHeader bh));
  w ← st_lift (if bool_decide (prev_blockhash hd = all_zeros) then Ok (header_work hd)
               else match cumulative_work db !! prev_blockhash hd with
                    | Some parent_cumulative_work => Ok (parent_cumulative_work + header_work hd)
                    | None => Err (PutMissingParent bh (prev_blockhash hd))
                    end);
  st_put (mkBlockHashDbs (<[bh := coinbase_txid info]> (coinbase_txids db))
            (<[bh := w]> (cumulative_work db)) (<[bh := d]> (diffs db)) (headers db) (heights db)).

(** [ancestor_headers]: the iterator's state is the next block hash. *)
Definition ancestors_next (db : BlockHashDbs) (bh : BlockHash) :
    option (BlockHash * Header) * BlockHash :=
  match headers db !! bh with
  | Some hd => (Some (bh, hd), prev_blockhash hd)
  | None => (None, bh)
  end.

(** [for depth in 0..n { if ancestors.next()?.is_none() { return Err(..) } }] *)
Fixpoint skip_ancestors (db : BlockHashDbs) (n : nat) (depth : Z) (h : Z) (bh0 bh : BlockHash) :
    outcome LastCommonAncestorError BlockHash :=
  match n with
  | O => Ok bh
  | S n => match ancestors_next db bh with
           | (Some _, bh') => skip_ancestors db n (depth + 1) h bh0 bh'
           | (None, _) => Err (MissingAncestor bh0 depth h)
           end
  end.

(** [for common_depth in 0..=min(height0, height1)], [n] iterations left. *)
Fixpoint common_loop (db : BlockHashDbs) (n : nat) (common_depth h0 h1 : Z)
    (bh0 bh1 a0 a1 : BlockHash) : outcome LastCommonAncestorError BlockHash :=
  match n with
  | O => Ok all_zeros
  | S n =>
      let current_height := Z.min h0 h1 - common_depth in
      match ancestors_next db a0, ancestors_next db a1 with
      | (None, _), _ => Err (MissingAncestor bh0 (h0 - current_height) h0)
      | _, (None, _) => Err (MissingAncestor bh1 (h1 - current_height) h1)
      | (Some (anc0, _), n0), (Some (anc1, _), n1) =>
          if bool_decide (anc0 = anc1) then Ok anc0
          else common_loop db n (common_depth + 1) h0 h1 bh0 bh1 n0 n1
      end
  end.

Definition last_common_ancestor (db : BlockHashDbs) (bh0 bh1 : BlockHash) :
    outcome LastCommonAncestorError BlockHash :=
  if bool_decide (bh0 = bh1) then Ok bh0 else
  if bool_decide (bh0 = all_zeros) || bool_decide (bh1 = all_zeros) then Ok all_zeros else
  h0 ← ok_or (heights db !! bh0) (LcaDb DbGet);
  h1 ← ok_or (heights db !! bh1) (LcaDb DbGet);
  a0 ← (if h1 <? h0 then skip_ancestors db (Z.to_nat (h0 - h1)) 0 h0 bh0 bh0 else Ok bh0);
  a1 ← (if h0 <? h1 then skip_ancestors db (Z.to_nat (h1 - h0)) 0 h1 bh1 bh1 else Ok bh1);
  common_loop db (Z.to_nat (Z.min h0 h1 + 1)) 0 h0 h1 bh0 bh1 a0 a1.

(** [assert_eq!(header.block_hash(), *block_hash)] panics. *)
Definition try_get_header_info (db : BlockHashDbs) (bh : BlockHash) :
    outcome DbError (option HeaderInfo) :=
  match headers db !! bh with
  | None => Ok None
  | Some hd =>
      if bool_decide (block_hash hd ≠ bh) then Panic else
      h ← ok_or (heights db !! bh) DbInconsistent;
      Ok (Some (mkHeaderInfo (block_hash hd) (prev_blockhash hd) h (header_work hd) (time hd)))
  end.

Definition get_header_info (db : BlockHashDbs) (bh : BlockHash) :
    outcome GetHeaderInfoError HeaderInfo :=
  o ← map_err GetHeaderDb (try_get_header_info db bh);
  ok_or o (MissingHeader bh).

(** The [while] of [try_get_header_infos]; [n] is its [ancestors] counter. *)
Fixpoint header_infos_loop (db : BlockHashDbs) (n : nat) (ancestor : BlockHash) :
    outcome DbError (list HeaderInfo) :=
  match n with
  | O => Ok []
  | S n =>
      if bool_decide (ancestor = all_zeros) then Ok [] else
      o ← try_get_header_info db ancestor;
      match o with
      | None => Ok []
      | Some info => l ← header_infos_loop db n (prev_block_hash info); Ok (info :: l)
      end
  end.

Definition try_get_header_infos (db : BlockHashDbs) (bh : BlockHash) (max_ancestors : nat) :
    outcome DbError (option (list HeaderInfo)) :=
  o ← try_get_header_info db bh;
  match o with
  | None => Ok None
  | Some info => l ← header_infos_loop db max_ancestors (prev_block_hash info); Ok (Some (info :: l))
  end.

Definition try_get_block_info (db : BlockHashDbs) (bh : BlockHash) : option BlockInfo :=
  option_map mkBlockInfo (coinbase_txids db !! bh).

Definition get_block_info (db : BlockHashDbs) (bh : BlockHash) : outcome BlockHash BlockInfo :=
  ok_or (try_get_block_info db bh) bh.
End block_hashes.

(** * Lemmas *)

(** ** The P2MR UTXO table *)

Lemma utxo_puts l m :
  NoDup l.*1 → st_for_each utxo_put l m = (Ok tt, list_to_map l ∪ m).
Proof.
  revert m. induction l as [|[op o] l IH]; intros m Hn.
  - cbn. by rewrite map_empty_union.
  - apply NoDup_cons in Hn as [Hop Hn]. cbn in Hop.
    rewrite (st_for_each_cons _ _ _ _ (<[op := o]> m)) by done.
    rewrite IH by done. cbn [list_to_map foldr]. f_equal. rewrite <- insert_union_r by by apply not_elem_of_list_to_map.
    by rewrite insert_union_l.
Qed.

Lemma delete_difference (m k : PrevoutMap) op o :
  delete op m ∖ k = m ∖ (<[op := o]> k).
Proof.
  apply map_eq. intros j. rewrite !lookup_difference. destruct (decide (op = j)) as [<-|Hne].
  - rewrite lookup_insert_eq, lookup_delete_eq. by destruct (k !! op).
  - by rewrite lookup_insert_ne, lookup_delete_ne.
Qed.

Lemma utxo_deletes l m : st_for_each utxo_delete l m = (Ok tt, m ∖ list_to_map l).
Proof.
  revert m. induction l as [|[op o] l IH]; intros m.
  - cbn. by rewrite map_difference_empty.
  - rewrite (st_for_each_cons _ _ _ _ (delete op m)) by done.
    by rewrite IH, (delete_difference _ _ op o).
Qed.

Lemma utxo_takes l m :
  NoDup l.*1 → (∀ op, op ∈ l.*1 → is_Some (m !! op)) →
  st_for_each utxo_take l m = (Ok tt, m ∖ list_to_map l).
Proof.
  revert m. induction l as [|[op o] l IH]; intros m Hn Hin.
  - cbn. by rewrite map_difference_empty.
  - apply NoDup_cons in Hn as [Hop Hn]. cbn in Hop.
    destruct (Hin op ltac:(by left)) as [o' Ho'].
    rewrite (st_for_each_cons _ _ _ _ (delete op m))
      by (unfold utxo_take, mbind, st_bind, st_get; cbn; by rewrite Ho').
    rewrite IH; [by rewrite (delete_difference _ _ op o)|done|].
    intros op' Hop'. rewrite lookup_delete_ne by (by intros ->). apply Hin. by right.
Qed.

(** [apply_diff] and [undo_diff] are [diff_apply] and [diff_undo]; applying fails
    exactly when a spent key is missing. *)
Lemma apply_diff_Ok d m :
  spent d ⊆ m → apply_diff d m = (Ok tt, diff_apply d m).
Proof.
  intros Hs. unfold apply_diff, mbind, st_bind. rewrite utxo_takes.
  - rewrite utxo_puts by apply NoDup_fst_map_to_list. by rewrite !list_to_map_to_list.
  - apply NoDup_fst_map_to_list.
  - intros op ([op' o] & -> & Hop)%list_elem_of_fmap. apply elem_of_map_to_list in Hop.
    exists o. by eapply lookup_weaken.
Qed.

Lemma undo_diff_Ok d m : undo_diff d m = (Ok tt, diff_undo d m).
Proof.
  unfold undo_diff, mbind, st_bind. rewrite utxo_deletes, utxo_puts by apply NoDup_fst_map_to_list.
  by rewrite !list_to_map_to_list.
Qed.

Lemma on_utxos_Ok {E A} (m : st PrevoutMap E A) db a db' :
  on_utxos m db = (Ok a, db') ↔
  ∃ u, m (p2mr_utxos db) = (Ok a, u) ∧ db' = mkDbs (block_hashes db) (current_chain_tip db) u.
Proof. unfold on_utxos. destruct (m _) as [o u]. naive_solver. Qed.

Lemma on_block_hashes_Ok {E A} (m : st BlockHashDbs E A) db a db' :
  on_block_hashes m db = (Ok a, db') ↔
  ∃ b, m (block_hashes db) = (Ok a, b) ∧ db' = mkDbs b (current_chain_tip db) (p2mr_utxos db).
Proof. unfold on_block_hashes. destruct (m _) as [o u]. naive_solver. Qed.

(** ** The header chain *)
Section header_chain.
Context `{TxLib}.
Implicit Type db : BlockHashDbs.

(** The consistency the comments of [BlockHashDbs] demand: headers are stored
    under their hash, every ancestor of a stored header is stored, and heights
    count from the genesis block. *)
Record headers_wf db : Prop := {
  wf_zeros : headers db !! all_zeros = None;
  wf_header bh hd : headers db !! bh = Some hd → block_hash hd = bh;
  wf_genesis bh hd : headers db !! bh = Some hd → prev_blockhash hd = all_zeros →
    heights db !! bh = Some 0;
  wf_parent bh hd : headers db !! bh = Some hd → prev_blockhash hd ≠ all_zeros →
    is_Some (headers db !! prev_blockhash hd) ∧
    ∃ h, 0 ≤ h ∧ heights db !! prev_blockhash hd = Some h ∧ heights db !! bh = Some (h + 1);
  wf_heights bh h : heights db !! bh = Some h → is_Some (headers db !! bh)
}.

(** A block hash at its height; the parent of a genesis block is at -1. *)
Definition at_height db (bh : BlockHash) (h : Z) : Prop :=
  (bh = all_zeros ∧ h = -1) ∨ (is_Some (headers db !! bh) ∧ heights db !! bh = Some h ∧ 0 ≤ h).
Definition known db (bh : BlockHash) : Prop := bh = all_zeros ∨ is_Some (headers db !! bh).
Definition parent db (bh p : BlockHash) : Prop :=
  ∃ hd, headers db !! bh = Some hd ∧ p = prev_blockhash hd.

(** [c] is the last common ancestor of [a] and [b]. *)
Definition is_lca db (a b c : BlockHash) : Prop :=
  rtc (parent db) a c ∧ rtc (parent db) b c
  ∧ ∀ c', rtc (parent db) a c' → rtc (parent db) b c' → rtc (parent db) c c'.

Lemma at_height_known db bh : headers_wf db → known db bh → ∃ h, at_height db bh h.
Proof.
  intros Hwf [->|[hd Hhd]]; [exists (-1); by left|].
  destruct (decide (prev_blockhash hd = all_zeros)) as [Hz|Hz].
  - exists 0. right. split_and!; [by eexists|by eapply wf_genesis|lia].
  - destruct (wf_parent _ Hwf bh hd Hhd Hz) as [_ (h & Hh & _ & Hb)].
    exists (h + 1). right. split_and!; [by eexists|done|lia].
Qed.

Lemma at_height_fun db bh h h' :
  headers_wf db → at_height db bh h → at_height db bh h' → h = h'.
Proof.
  intros Hwf [[-> ->]|(Hk & Hh & _)] [[? ->]|(Hk' & Hh' & _)]; [done| | |congruence].
  - rewrite (wf_zeros _ Hwf) in Hk'. by destruct Hk'.
  - subst. rewrite (wf_zeros _ Hwf) in Hk. by destruct Hk.
Qed.

Lemma parent_fun db b p q : parent db b p → parent db b q → p = q.
Proof. intros (hd & Hhd & ->) (hd' & Hhd' & ->). congruence. Qed.

Lemma parent_at_height db b p h :
  headers_wf db → parent db b p → at_height db b h → at_height db p (h - 1).
Proof.
  intros Hwf (hd & Hhd & ->) Hat.
  assert (is_Some (headers db !! b) ∧ heights db !! b = Some h) as [_ Hb].
  { destruct Hat as [[-> _]|(?&?&?)]; [|done]. rewrite (wf_zeros _ Hwf) in Hhd. done. }
  destruct (decide (prev_blockhash hd = all_zeros)) as [Hz|Hz].
  - left. split; [done|]. pose proof (wf_genesis _ Hwf b hd Hhd Hz). assert (h = 0) by congruence. lia.
  - destruct (wf_parent _ Hwf b hd Hhd Hz) as [Hk (h' & ? & Hp & Hb')].
    assert (h = h' + 1) as -> by congruence. right. rewrite Z.add_simpl_r. done.
Qed.

(** A known block above the root has a parent. *)
Lemma at_height_step db b h :
  headers_wf db → at_height db b h → 0 ≤ h →
  ∃ hd, headers db !! b = Some hd ∧ parent db b (prev_blockhash hd)
        ∧ at_height db (prev_blockhash hd) (h - 1).
Proof.
  intros Hwf Hat Hh. assert (is_Some (headers db !! b)) as [hd Hhd].
  { destruct Hat as [[_ ->]|(?&_)]; [lia|done]. }
  exists hd. assert (parent db b (prev_blockhash hd)) as Hp by by eexists.
  split_and!; [done|done|by eapply parent_at_height].
Qed.

Lemma ancestor_at_height db b c h :
  headers_wf db → rtc (parent db) b c → at_height db b h →
  ∃ h', at_height db c h' ∧ h' ≤ h ∧ (h' = h → c = b).
Proof.
  intros Hwf Hr. revert h. induction Hr as [b|b p c Hp Hr IH]; intros h Hat.
  - exists h. split_and!; [done|lia|done].
  - destruct (IH (h - 1)) as (h' & Hc & Hle & _); [by eapply parent_at_height|].
    exists h'. split_and!; [done|lia|lia].
Qed.

(** The ancestors of a block form a chain. *)
Lemma ancestor_between db b m c hm hc :
  headers_wf db → rtc (parent db) b m → rtc (parent db) b c →
  at_height db m hm → at_height db c hc → hc ≤ hm → rtc (parent db) m c.
Proof.
  intros Hwf Hm. induction Hm as [b|b p m Hp Hm IH]; intros Hc Hhm Hhc Hle; [done|].
  apply rtc_inv in Hc as [<-|(q & Hq & Hc)].
  - exfalso. pose proof (parent_at_height db b p hc Hwf Hp Hhc) as Hatp.
    destruct (ancestor_at_height db p m (hc - 1) Hwf Hm Hatp) as (h' & Hm' & Hle' & _).
    rewrite (at_height_fun db m hm h' Hwf Hhm Hm') in Hle. lia.
  - rewrite <- (parent_fun db b p q Hp Hq) in Hc. by apply IH.
Qed.

Lemma skip_ancestors_Ok db n depth h0 bh0 b h :
  headers_wf db → at_height db b h → Z.of_nat n ≤ h + 1 →
  ∃ b', skip_ancestors db n depth h0 bh0 b = Ok b' ∧ rtc (parent db) b b'
        ∧ at_height db b' (h - Z.of_nat n).
Proof.
  intros Hwf. revert depth b h. induction n as [|n IH]; intros depth b h Hat Hn.
  - exists b. split_and!; [done|done|by rewrite Z.sub_0_r].
  - destruct (at_height_step db b h Hwf Hat ltac:(lia)) as (hd & Hhd & Hp & Hat').
    cbn [skip_ancestors]. unfold ancestors_next. rewrite Hhd.
    destruct (IH (depth + 1) _ _ Hat' ltac:(lia)) as (b' & -> & Hr & Hb').
    exists b'. split_and!; [done|by eapply rtc_l|].
    by replace (h - Z.of_nat (S n)) with (h - 1 - Z.of_nat n) by lia.
Qed.

Lemma common_loop_Ok db n d h0 h1 bh0 bh1 a0 a1 :
  headers_wf db → at_height db a0 (Z.of_nat n - 1) → at_height db a1 (Z.of_nat n - 1) →
  ∃ c, common_loop db n d h0 h1 bh0 bh1 a0 a1 = Ok c ∧ is_lca db a0 a1 c.
Proof.
  intros Hwf. revert d a0 a1. induction n as [|n IH]; intros d a0 a1 H0 H1.
  - destruct H0 as [[-> _]|(_ & _ & ?)]; [|lia]. destruct H1 as [[-> _]|(_ & _ & ?)]; [|lia].
    by exists all_zeros.
  - destruct (at_height_step db a0 _ Hwf H0 ltac:(lia)) as (hd0 & Hhd0 & Hp0 & Hat0).
    destruct (at_height_step db a1 _ Hwf H1 ltac:(lia)) as (hd1 & Hhd1 & Hp1 & Hat1).
    cbn [common_loop]. unfold ancestors_next. rewrite Hhd0, Hhd1.
    destruct (decide (a0 = a1)) as [<-|Hne].
    + rewrite bool_decide_true by done. by exists a0.
    + rewrite bool_decide_false by done.
      replace (Z.of_nat (S n) - 1 - 1) with (Z.of_nat n - 1) in Hat0, Hat1 by lia.
      destruct (IH (d + 1) _ _ Hat0 Hat1) as (c & Hc & Hr0 & Hr1 & Hmax).
      exists c. split; [done|]. split_and!; [by eapply rtc_l|by eapply rtc_l|].
      intros c' Hc0 Hc1. apply Hmax.
      * apply rtc_inv in Hc0 as [<-|(q & Hq & ?)];
          [|by rewrite (parent_fun db _ _ _ Hp0 Hq)].
        destruct (ancestor_at_height db a1 a0 _ Hwf Hc1 H1) as (h' & Ha & _ & Heq).
        exfalso. apply Hne, Heq. by eapply at_height_fun.
      * apply rtc_inv in Hc1 as [<-|(q & Hq & ?)];
          [|by rewrite (parent_fun db _ _ _ Hp1 Hq)].
        destruct (ancestor_at_height db a0 a1 _ Hwf Hc0 H0) as (h' & Ha & _ & Heq).
        exfalso. apply Hne. symmetry. apply Heq. by eapply at_height_fun.
Qed.

(** There is one last common ancestor. *)
Lemma is_lca_unique db a b c c' h :
  headers_wf db → at_height db c h → is_lca db a b c → is_lca db a b c' → c = c'.
Proof.
  intros Hwf Hc (Ha & Hb & Hm) (Ha' & Hb' & Hm').
  pose proof (Hm _ Ha' Hb') as Hcc'. pose proof (Hm' _ Ha Hb) as Hc'c.
  destruct (ancestor_at_height db c c' h Hwf Hcc' Hc) as (h' & Hh' & Hle & Heq).
  destruct (ancestor_at_height db c' c h' Hwf Hc'c Hh') as (h'' & Hh'' & Hle' & _).
  pose proof (at_height_fun db c h h'' Hwf Hc Hh''). symmetry. apply Heq. lia.
Qed.

Lemma is_lca_sym db a b c : is_lca db a b c → is_lca db b a c.
Proof. intros (? & ? & Hm). split_and!; [done|done|]. intros c' ??. by apply Hm. Qed.

Lemma known_reaches_zeros db b h :
  headers_wf db → at_height db b h → rtc (parent db) b all_zeros.
Proof.
  intros Hwf Hat. assert (-1 ≤ h) as Hh by (destruct Hat as [[_ ->]|(_&_&?)]; lia).
  destruct (skip_ancestors_Ok db (Z.to_nat (h + 1)) 0 0 b b h Hwf Hat) as (b' & _ & Hr & Hb'); [lia|].
  destruct Hb' as [[-> _]|(_ & _ & ?)]; [done|lia].
Qed.

(** Skipping an ancestry down to a height the common ancestors do not exceed keeps
    them. *)
Lemma lca_skip db a b b' c h hb h' :
  headers_wf db → at_height db a h → at_height db b hb → at_height db b' h' → Z.min h hb ≤ h' →
  rtc (parent db) b b' → is_lca db a b' c → is_lca db a b c.
Proof.
  intros Hwf Ha Hb Hb' Hle Hr (Hac & Hbc & Hm). split_and!; [done|by etrans|].
  intros c' Hc0 Hc1. apply Hm; [done|].
  destruct (ancestor_at_height db a c' h Hwf Hc0 Ha) as (hc & Hhc & ? & _).
  destruct (ancestor_at_height db b c' hb Hwf Hc1 Hb) as (hc' & Hhc' & ? & _).
  rewrite <- (at_height_fun db c' hc hc' Hwf Hhc Hhc') in *.
  eapply ancestor_between; [done|exact Hr|done|done|exact Hhc|lia].
Qed.

(** The two skips bring both ancestries to the lower height. *)
Lemma equalize_Ok db a h h' :
  headers_wf db → at_height db a h → 0 ≤ h' →
  ∃ a', (if h' <? h then skip_ancestors db (Z.to_nat (h - h')) 0 h a a else Ok a) = Ok a'
        ∧ rtc (parent db) a a' ∧ at_height db a' (Z.min h h').
Proof.
  intros Hwf Ha Hh'. destruct (Z.ltb_spec h' h) as [Hlt|Hge].
  - destruct (skip_ancestors_Ok db (Z.to_nat (h - h')) 0 h a a h Hwf Ha) as (a' & -> & Hr & Ha'); [lia|].
    exists a'. split_and!; [done|done|]. by replace (Z.min h h') with (h - Z.of_nat (Z.to_nat (h - h'))) by lia.
  - exists a. split_and!; [done|done|]. by replace (Z.min h h') with h by lia.
Qed.
End header_chain.

(** ** Storing headers *)
Section put_headers.
Context `{TxLib}.
Implicit Type db : BlockHashDbs.

(** One iteration of [put_headers]. *)
Definition put_one (db : BlockHashDbs) (hd : Header) (h : Z) : BlockHashDbs :=
  let db := put_height (put_header db (block_hash hd) hd) (block_hash hd) h in
  if bool_decide (prev_blockhash hd ≠ all_zeros)
  then put_height db (prev_blockhash hd) (h - 1) else db.

(** A header fits the chain at height [h]: its hash is not reused, and its parent
    is the zero hash at height 0 or a stored header at [h - 1]. *)
Definition fits db (hd : Header) (h : Z) : Prop :=
  block_hash hd ≠ all_zeros
  ∧ (∀ hd', headers db !! block_hash hd = Some hd' → hd' = hd)
  ∧ (prev_blockhash hd = all_zeros → h = 0)
  ∧ (prev_blockhash hd ≠ all_zeros →
     0 < h ∧ prev_blockhash hd ≠ block_hash hd ∧ heights db !! prev_blockhash hd = Some (h - 1)).

Fixpoint all_fit db (hs : list (Header * Z)) : Prop :=
  match hs with
  | [] => True
  | (hd, h) :: hs => fits db hd h ∧ all_fit (put_one db hd h) hs
  end.

Lemma put_headers_cons {E} hd h hs db :
  fits db hd h → put_headers (E:=E) ((hd, h) :: hs) db = put_headers hs (put_one db hd h).
Proof.
  intros (_ & _ & _ & Hp). unfold put_headers. apply st_for_each_cons.
  unfold put_one, mbind, st_bind, st_get, st_put. destruct (decide (prev_blockhash hd = all_zeros)) as [Hz|Hz].
  - rewrite !(bool_decide_false (prev_blockhash hd ≠ all_zeros)) by (intros Hn; by apply Hn). done.
  - rewrite !(bool_decide_true (prev_blockhash hd ≠ all_zeros)) by done.
    destruct (Hp Hz) as (? & _ & _). unfold checked_sub. by rewrite (proj2 (Z.leb_le 1 h)) by lia.
Qed.

Lemma put_headers_Ok {E} hs db :
  all_fit db hs → put_headers (E:=E) hs db = (Ok tt, foldl (λ db p, put_one db p.1 p.2) db hs).
Proof.
  revert db. induction hs as [|[hd h] hs IH]; intros db Hf; [done|]. destruct Hf as [Hf Hfs].
  rewrite put_headers_cons by done. by apply IH.
Qed.

Lemma put_one_headers db hd h : headers (put_one db hd h) = <[block_hash hd := hd]> (headers db).
Proof. unfold put_one. by destruct (bool_decide _). Qed.

(** The height of the parent does not change. *)
Lemma put_one_heights db hd h :
  fits db hd h → heights (put_one db hd h) = <[block_hash hd := h]> (heights db).
Proof.
  intros (_ & _ & _ & Hp). unfold put_one. destruct (decide (prev_blockhash hd = all_zeros)) as [Hz|Hz].
  - by rewrite (bool_decide_false (prev_blockhash hd ≠ all_zeros)) by (intros Hn; by apply Hn).
  - rewrite (bool_decide_true (prev_blockhash hd ≠ all_zeros)) by done.
    destruct (Hp Hz) as (_ & Hne & Hh). cbn. rewrite insert_insert_ne by done.
    by rewrite (insert_id (heights db)).
Qed.

Lemma fits_height db hd h h' :
  headers_wf db → fits db hd h → headers db !! block_hash hd = Some hd →
  heights db !! block_hash hd = Some h' → h' = h.
Proof.
  intros Hwf (_ & _ & Hz & Hnz) Hhd Hh. destruct (decide (prev_blockhash hd = all_zeros)) as [Hp|Hp].
  - rewrite (wf_genesis _ Hwf _ _ Hhd Hp) in Hh. injection Hh as <-. by rewrite Hz.
  - destruct (wf_parent _ Hwf _ _ Hhd Hp) as [_ (k & _ & Hk & Hbk)].
    destruct (Hnz Hp) as (_ & _ & Hk'). assert (k = h - 1) by congruence. assert (h' = k + 1) by congruence. lia.
Qed.

(** Storing a header that fits changes no height already stored. *)
Lemma put_one_heights_mono db hd h bh k :
  headers_wf db → fits db hd h → heights db !! bh = Some k →
  heights (put_one db hd h) !! bh = Some k.
Proof.
  intros Hwf Hf Hk. rewrite put_one_heights by done. destruct (decide (block_hash hd = bh)) as [<-|Hne].
  - rewrite lookup_insert_eq. f_equal. symmetry. eapply fits_height; [done|done| |done].
    destruct (wf_heights _ Hwf _ _ Hk) as [hd' Hhd']. destruct Hf as (_ & Hsame & _).
    by rewrite (Hsame _ Hhd') in Hhd'.
  - by rewrite lookup_insert_ne.
Qed.

Lemma put_one_wf db hd h : headers_wf db → fits db hd h → headers_wf (put_one db hd h).
Proof.
  intros Hwf Hf. pose proof Hf as (Hnz & Hsame & Hz & Hpar).
  split.
  - rewrite put_one_headers, lookup_insert_ne by done. by apply wf_zeros.
  - intros bh hd'. rewrite put_one_headers. intros [[<- <-]|[_ ?]]%lookup_insert_Some; [done|].
    by eapply wf_header.
  - intros bh hd'. rewrite put_one_headers. intros [[<- <-]|[Hne Hhd]]%lookup_insert_Some Hp.
    + rewrite put_one_heights by done. rewrite lookup_insert_eq. by rewrite Hz.
    + apply put_one_heights_mono; [done|done|]. by eapply wf_genesis.
  - intros bh hd'. rewrite put_one_headers. intros [[<- <-]|[Hne Hhd]]%lookup_insert_Some Hp.
    + destruct (Hpar Hp) as (Hlt & Hne & Hk). destruct (wf_heights _ Hwf _ _ Hk) as [p Hpp].
      rewrite put_one_heights by done. rewrite !lookup_insert_ne, lookup_insert_eq by done.
      split; [by eexists|]. exists (h - 1). split_and!; [lia|done|f_equal; lia].
    + destruct (wf_parent _ Hwf _ _ Hhd Hp) as [[p Hpp] (k & ? & Hk & Hbk)]. split.
      * destruct (decide (block_hash hd = prev_blockhash hd')) as [->|?];
          [rewrite lookup_insert_eq; by eexists|rewrite lookup_insert_ne by done; by eexists].
      * exists k. split_and!; [done|by apply put_one_heights_mono|by apply put_one_heights_mono].
  - intros bh k. rewrite put_one_heights, put_one_headers by done.
    intros [[<- _]|[Hne Hk]]%lookup_insert_Some; [rewrite lookup_insert_eq; by eexists|].
    rewrite lookup_insert_ne by done. by eapply wf_heights.
Qed.

Lemma put_all_wf db hs :
  headers_wf db → all_fit db hs → headers_wf (foldl (λ db p, put_one db p.1 p.2) db hs).
Proof.
  revert db. induction hs as [|[hd h] hs IH]; intros db Hwf Hf; [done|]. destruct Hf as [Hf Hfs].
  apply IH; [by apply put_one_wf|done].
Qed.

Lemma headers_wf_empty : headers_wf (mkBlockHashDbs ∅ ∅ ∅ ∅ ∅).
Proof. split; cbn; by intros; simplify_map_eq. Qed.
End put_headers.

Lemma last_common_ancestor_Ok `{TxLib} db b0 b1 :
  headers_wf db → known db b0 → known db b1 →
  ∃ c, last_common_ancestor db b0 b1 = Ok c ∧ is_lca db b0 b1 c.
Proof.
  intros Hwf Hkn0 Hkn1.
  destruct (at_height_known db b0 Hwf Hkn0) as [h0 H0], (at_height_known db b1 Hwf Hkn1) as [h1 H1].
  unfold last_common_ancestor.
  destruct (decide (b0 = b1)) as [<-|Hne].
  { rewrite bool_decide_true by done. by exists b0. }
  rewrite bool_decide_false by done.
  destruct (decide (b0 = all_zeros)) as [->|Hz0].
  { rewrite bool_decide_true by done. exists all_zeros. split; [done|].
    split_and!; [done|by eapply known_reaches_zeros|done]. }
  destruct (decide (b1 = all_zeros)) as [->|Hz1].
  { rewrite (bool_decide_true (all_zeros = all_zeros)), orb_true_r by done.
    exists all_zeros. split; [done|]. split_and!; [by eapply known_reaches_zeros|done|done]. }
  rewrite !bool_decide_false by done. cbn [orb].
  destruct H0 as [[? _]|(Hk0 & Hh0 & Hpos0)]; [done|].
  destruct H1 as [[? _]|(Hk1 & Hh1 & Hpos1)]; [done|].
  assert (at_height db b0 h0) as Hat0 by by right. assert (at_height db b1 h1) as Hat1 by by right.
  rewrite Hh0, Hh1. cbn [ok_or mbind outcome_bind].
  destruct (equalize_Ok db b0 h0 h1 Hwf Hat0 Hpos1) as (a0 & -> & Hr0 & Ha0).
  destruct (equalize_Ok db b1 h1 h0 Hwf Hat1 Hpos0) as (a1 & -> & Hr1 & Ha1).
  cbn [mbind outcome_bind]. rewrite Z.min_comm in Ha1.
  destruct (common_loop_Ok db (Z.to_nat (Z.min h0 h1 + 1)) 0 h0 h1 b0 b1 a0 a1 Hwf) as (c & -> & Hc).
  { by replace (Z.of_nat _ - 1) with (Z.min h0 h1) by lia. }
  { by replace (Z.of_nat _ - 1) with (Z.min h0 h1) by lia. }
  exists c. split; [done|].
  apply is_lca_sym. eapply lca_skip; [done|exact Hat1|exact Hat0|exact Ha0|lia|done|].
  apply is_lca_sym. eapply lca_skip; [done|exact Ha0|exact Hat1|exact Ha1|lia|done|done].
Qed.

(** * Properties *)

(** The fork point is right: on a consistent header table,
    [last_common_ancestor] of two known blocks returns a block (never an error),
    and it is the last common ancestor: an ancestor of both, of which every
    common ancestor is an ancestor.  The zero hash is the parent of the genesis
    block. *)
Lemma last_common_ancestor_correct `{TxLib} db b0 b1 :
  headers_wf db → known db b0 → known db b1 →
  ∃ c, last_common_ancestor db b0 b1 = Ok c ∧ is_lca db b0 b1 c.
Proof. apply last_common_ancestor_Ok. Qed.

(** A header batch that extends the stored chain keeps the header table
    consistent, without a height underflow: [put_headers] returns [Ok], the result
    satisfies [headers_wf], every header of the batch is stored under its hash, and
    no height stored before changes. *)
Lemma put_headers_wf `{TxLib} E hs db :
  headers_wf db → all_fit db hs →
  ∃ db', put_headers (E:=E) hs db = (Ok tt, db') ∧ headers_wf db'
    ∧ (∀ hd h, (hd, h) ∈ hs → headers db' !! block_hash hd = Some hd
                              ∧ heights db' !! block_hash hd = Some h)
    ∧ (∀ bh h, heights db !! bh = Some h → heights db' !! bh = Some h)
    ∧ (∀ bh hd, headers db !! bh = Some hd → headers db' !! bh = Some hd).
Proof.
  intros Hwf Hf. rewrite put_headers_Ok by done. eexists. split; [reflexivity|].
  split; [by apply put_all_wf|]. revert db Hwf Hf.
  induction hs as [|[hd h] hs IH]; intros db Hwf Hf; [by split; [intros ?? ?%not_elem_of_nil|]|].
  destruct Hf as [Hf Hfs]. cbn [foldl fst snd].
  destruct (IH _ (put_one_wf db hd h Hwf Hf) Hfs) as (Hin & Hmono & Hhm).
  assert (headers (put_one db hd h) !! block_hash hd = Some hd) as Hhd
    by by rewrite put_one_headers, lookup_insert_eq.
  assert (heights (put_one db hd h) !! block_hash hd = Some h) as Hh
    by by rewrite put_one_heights, lookup_insert_eq.
  split_and!.
  - intros hd' h' [[= -> ->]|?]%elem_of_cons; [split; auto|by apply Hin].
  - intros bh k Hk. apply Hmono. by apply put_one_heights_mono.
  - intros bh hd' Hhd'. apply Hhm. rewrite put_one_headers.
    destruct (decide (block_hash hd = bh)) as [<-|?]; [|by rewrite lookup_insert_ne].
    rewrite lookup_insert_eq. f_equal. symmetry. by apply Hf.
Qed.

(** * Witnesses: a fork of two branches after a genesis header *)

Definition ex_header (t : Z) (prev : BlockHash) : Header := mkHeader prev t [].
Definition ex_g : Header := ex_header 1 all_zeros.
Definition ex_hash (hd : Header) : BlockHash := @block_hash toy_tx hd.
Definition ex_a1 : Header := ex_header 2 (ex_hash ex_g).
Definition ex_a2 : Header := ex_header 3 (ex_hash ex_a1).
Definition ex_b1 : Header := ex_header 4 (ex_hash ex_g).
Definition ex_headers : list (Header * Z) := [(ex_g, 0); (ex_a1, 1); (ex_a2, 2); (ex_b1, 1)].
Definition ex_header_db : BlockHashDbs :=
  foldl (λ db p, @put_one toy_tx db p.1 p.2) (mkBlockHashDbs ∅ ∅ ∅ ∅ ∅) ex_headers.

(** [fits], as a computation. *)
Definition fits_b (db : BlockHashDbs) (hd : Header) (h : Z) : bool :=
  let bh := ex_hash hd in
  bool_decide (bh ≠ all_zeros) && bool_decide (headers db !! bh = None)
  && if bool_decide (prev_blockhash hd = all_zeros) then bool_decide (h = 0)
     else bool_decide (0 < h) && bool_decide (prev_blockhash hd ≠ bh)
          && bool_decide (heights db !! prev_blockhash hd = Some (h - 1)).
Fixpoint all_fit_b (db : BlockHashDbs) (hs : list (Header * Z)) : bool :=
  match hs with
  | [] => true
  | (hd, h) :: hs => fits_b db hd h && all_fit_b (@put_one toy_tx db hd h) hs
  end.

Lemma fits_b_sound db hd h : fits_b db hd h = true → @fits toy_tx db hd h.
Proof.
  unfold fits_b. intros [[?%bool_decide_eq_true_1 Hn%bool_decide_eq_true_1]%andb_true_iff Hc]%andb_true_iff.
  split_and!; [done| |intros Hz|intros Hz].
  - intros hd' Hhd'. unfold ex_hash in Hn. congruence.
  - rewrite bool_decide_true in Hc by done. by apply bool_decide_eq_true_1 in Hc.
  - rewrite bool_decide_false in Hc by done.
    apply andb_true_iff in Hc as [[??]%andb_true_iff ?].
    split_and!; by eapply bool_decide_eq_true_1.
Qed.

Lemma all_fit_b_sound db hs : all_fit_b db hs = true → @all_fit toy_tx db hs.
Proof.
  revert db. induction hs as [|[hd h] hs IH]; intros db Hb; [done|].
  cbn in Hb. apply andb_true_iff in Hb as [? ?]. split; [by apply fits_b_sound|by apply IH].
Qed.

Lemma ex_header_db_wf : @headers_wf toy_tx ex_header_db.
Proof.
  apply put_all_wf; [apply headers_wf_empty|]. apply all_fit_b_sound. vm_compute. reflexivity.
Qed.

Lemma last_common_ancestor_correct_witness :
  ∃ c, last_common_ancestor ex_header_db (ex_hash ex_a2) (ex_hash ex_b1) = Ok c
       ∧ is_lca ex_header_db (ex_hash ex_a2) (ex_hash ex_b1) c.
Proof.
  apply (@last_common_ancestor_correct toy_tx ex_header_db (ex_hash ex_a2) (ex_hash ex_b1) ex_header_db_wf);
    right; eexists; vm_compute; reflexivity.
Defined.

Lemma put_headers_wf_witness :
  ∃ db', @put_headers toy_tx DbError ex_headers (mkBlockHashDbs ∅ ∅ ∅ ∅ ∅) = (Ok tt, db')
         ∧ @headers_wf toy_tx db'.
Proof.
  destruct (@put_headers_wf toy_tx DbError ex_headers (mkBlockHashDbs ∅ ∅ ∅ ∅ ∅) headers_wf_empty)
    as (db' & Hdb' & Hwf & _); [apply all_fit_b_sound; vm_compute; reflexivity|].
  exists db'. split; [exact Hdb'|exact Hwf].
Defined.
