(* ===== verification/BlockHandler.v ===== *)
(** Connecting and disconnecting blocks (`task/mod.rs`, `task/error.rs`): the
    handlers that validate a block, update the databases and move the chain tip,
    and the invariant they keep on every reachable database. *)
From Stdlib Require Import ZArith Lia Strings.Byte.
From stdpp Require Import base list gmap.
From S2P Require Import Prelude Bitcoin Concrete Limits P2mrOutput Spend P2mrUtxo Pqc Dbs.
#[local] Open Scope Z_scope.

(** ** error.rs *)

Inductive ValidateTransactionError :=
| ValidateTxDb (e : DbError)
| NoChainTip.

Inductive ConnectBlockError :=
| BlockParent (parent tip : BlockHash) (tip_height : Z)
| ConnectDb (e : DbError)
| NoCoinbase
| ConnectPutBlockInfo (e : PutBlockInfoError)
| Bip360 (block_hash : BlockHash) (source : PqcValidationError)
| RulesReject (block_hash : BlockHash) (reason : bytes).

(** [#[fatal(..)]] *)
Definition is_fatal (e : ConnectBlockError) : bool :=
  match e with
  | ConnectDb _ | ConnectPutBlockInfo _ => true
  | BlockParent _ _ _ | NoCoinbase | Bip360 _ _ | RulesReject _ _ => false
  end.

Inductive DisconnectBlockError :=
| DisconnectDb (e : DbError)
| DisconnectGetHeaderInfo (e : GetHeaderInfoError)
| TipHash (block_hash tip_hash : BlockHash)
| Undo (e : DbError).

(** ** The handlers *)

Record BlockHandler := mkBlockHandler {
  activation_height : Z;
  pqc_verify_budget_ms : Z;
  extra_prevouts : PrevoutMap
}.

Section handler.
Context `{HashLib} `{ScriptLib} `{TxLib} `{TaprootLib} `{P2mrLib} `{PqcLib}.

(** The nested write transaction is dropped: nothing is written. *)
Definition validate_tx (self : BlockHandler) (transaction : Transaction) (db : Dbs) :
    outcome ValidateTransactionError bool :=
  tip_hash ← ok_or (current_chain_tip db) NoChainTip;
  tip_height ← ok_or (heights (block_hashes db) !! tip_hash) (ValidateTxDb DbGet);
  match validate_mempool_transaction transaction tip_height
          (mkBip360Activation (activation_height self)) with
  | Ok _ => Ok true
  | Err _ => Ok false
  | Panic => Panic
  end.

(** [Some(cumulative_work) > current_tip_cumulative_work] *)
Definition heavier (work : Z) (tip_work : option Z) : bool :=
  match tip_work with Some w => w <? work | None => true end.

(** [clock]: the durations at which the PQC verifications of this call are
    measured. *)
Definition connect_block_pass_through (self : BlockHandler) (clock : list Z) (block : Block)
    (height : Z) (coinbase : Transaction) (bh prev : BlockHash) : st Dbs ConnectBlockError Event :=
  db ← st_get;
  let chain_utxos := load_map db in
  p2mr_utxo ← st_lift (map_err (Bip360 bh)
    (validate_and_diff_block_transactions block height (mkBip360Activation (activation_height self))
       chain_utxos (extra_prevouts self) (pqc_verify_budget_ms self) clock));
  let block_info := mkBlockInfo (compute_txid coinbase) in
  let block_diff := mkDiffBlock p2mr_utxo in
  _ ← st_map_err ConnectDb (apply block_diff);
  _ ← st_map_err ConnectPutBlockInfo (on_block_hashes (put_block_info bh block_info block_diff));
  db ← st_get;
  current_tip_cumulative_work ← st_lift
    match current_chain_tip db with
    | None => Ok None
    | Some tip => w ← ok_or (cumulative_work (block_hashes db) !! tip) (ConnectDb DbGet); Ok (Some w)
    end;
  work ← st_lift (ok_or (cumulative_work (block_hashes db) !! bh) (ConnectDb DbGet));
  _ ← (if heavier work current_tip_cumulative_work then st_put (put_tip (Some bh) db) else mret tt);
  mret (ConnectBlockEvent
          (mkHeaderInfo bh prev height (header_work (header block)) (time (header block))) block_info).

Definition connect_block (self : BlockHandler) (clock : list Z) (block : Block) :
    st Dbs ConnectBlockError Event :=
  db ← st_get;
  let parent := prev_blockhash (header block) in
  _ ← st_lift
    match current_chain_tip db with
    | Some tip =>
        if bool_decide (parent = tip) then Ok tt
        else Err (BlockParent parent tip (default 0 (heights (block_hashes db) !! tip)))
    | None =>
        if bool_decide (prev_blockhash (header block) = all_zeros) then Ok tt
        else Err (BlockParent parent all_zeros 0)
    end;
  height ← st_lift (ok_or (heights (block_hashes db) !! block_hash (header block)) (ConnectDb DbGet));
  coinbase ← st_lift (ok_or (head (txdata block)) NoCoinbase);
  connect_block_pass_through self clock block height coinbase (block_hash (header block))
    (prev_blockhash (header block)).

(** Returns the events broadcast. *)
Definition disconnect_block (bh : BlockHash) : st Dbs DisconnectBlockError (list Event) :=
  db ← st_get;
  match diffs (block_hashes db) !! bh with
  | None => mret []
  | Some diff =>
      _ ← st_lift
        match current_chain_tip db with
        | Some tip_hash => if bool_decide (tip_hash ≠ bh) then Err (TipHash bh tip_hash) else Ok tt
        | None => Ok tt
        end;
      header_info ← st_lift (map_err DisconnectGetHeaderInfo (get_header_info (block_hashes db) bh));
      _ ← st_map_err Undo (undo diff);
      db ← st_get;
      _ ← st_put (put_tip (if bool_decide (prev_block_hash header_info ≠ all_zeros)
                           then Some (prev_block_hash header_info) else None) db);
      mret [DisconnectBlockEvent bh]
  end.

(** * Specification *)

(** A chain of connected blocks, the tip first. *)
Definition tip_of (chain : list Block) : option BlockHash :=
  (λ b, block_hash (header b)) <$> head chain.
Fixpoint utxos_of (chain : list Block) : PrevoutMap :=
  match chain with
  | [] => ∅
  | b :: rest => p2mr_after (utxos_of rest) (txdata b)
  end.
Fixpoint work_of (chain : list Block) : Z :=
  match chain with
  | [] => 0
  | b :: rest => work_of rest + header_work (header b)
  end.

(** What the chain guarantees about a block (BIP30, BIP34): each outpoint is
    created once and is new, and the coinbase spends no tracked output. *)
Record block_ok (utxos : PrevoutMap) (b : Block) : Prop := {
  ok_fresh : fresh_outputs utxos (txdata b);
  ok_nodup : NoDup (txs_outpoints (txdata b));
  ok_coinbase : ∀ cb i, head (txdata b) = Some cb → i ∈ input cb → utxos !! previous_output i = None
}.

(** The tables describe the chain: each block's header is stored and its parent
    is the block below, its diff is the change it makes to the P2MR set, its
    cumulative work is the work of the chain up to it. *)
Fixpoint chain_stored (db : BlockHashDbs) (chain : list Block) : Prop :=
  match chain with
  | [] => True
  | b :: rest =>
      let bh := block_hash (header b) in
      headers db !! bh = Some (header b)
      ∧ prev_blockhash (header b) = default all_zeros (tip_of rest)
      ∧ diffs db !! bh = Some (mkDiffBlock (compute_block_diff b (utxos_of rest)))
      ∧ cumulative_work db !! bh = Some (work_of (b :: rest))
      ∧ is_Some (coinbase_txids db !! bh)
      ∧ fresh_outputs (utxos_of rest) (txdata b)
      ∧ chain_stored db rest
  end.

(** The databases are those of the chain. *)
Record db_inv (db : Dbs) (chain : list Block) : Prop := {
  inv_headers : headers_wf (block_hashes db);
  inv_tip : current_chain_tip db = tip_of chain;
  inv_utxos : p2mr_utxos db = utxos_of chain;
  inv_chain : chain_stored (block_hashes db) chain
}.

(** The operations the driver performs on the databases, with the chain they
    produce.  A block's header is stored before it is connected.  A block with a stored
    diff is disconnected only while there is a tip: without one [disconnect_block] has
    nothing to compare the block with, and undoes its diff again
    ([disconnect_without_tip]). *)
Inductive dbs_step : Dbs * list Block → Dbs * list Block → Prop :=
| step_headers hs db chain db' :
    all_fit (block_hashes db) hs →
    on_block_hashes (E:=DbError) (put_headers hs) db = (Ok tt, db') →
    dbs_step (db, chain) (db', chain)
| step_connect self clock block ev db chain db' :
    headers (block_hashes db) !! block_hash (header block) = Some (header block) →
    block_ok (utxos_of chain) block →
    map_Forall (λ _ o, is_p2mr_script (script_pubkey o) = false) (extra_prevouts self) →
    connect_block self clock block db = (Ok ev, db') →
    dbs_step (db, chain) (db', block :: chain)
| step_reject self clock block e db chain db' :
    connect_block self clock block db = (Err e, db') → is_fatal e = false →
    dbs_step (db, chain) (db', chain)
| step_disconnect bh evs db chain db' :
    (current_chain_tip db = None → diffs (block_hashes db) !! bh = None) →
    disconnect_block bh db = (Ok evs, db') →
    dbs_step (db, chain) (db', if bool_decide (evs = []) then chain else tail chain).
End handler.

(** * Lemmas *)
Section lemmas.
Context `{HashLib} `{ScriptLib} `{TxLib} `{TaprootLib} `{P2mrLib} `{PqcLib}.
Implicit Types (db : Dbs) (chain : list Block).

Lemma db_inv_empty : db_inv dbs_empty [].
Proof. split; [apply headers_wf_empty|done..]. Qed.

(** A block of the chain is at its distance from the genesis block. *)
Lemma chain_heights (db : BlockHashDbs) b rest :
  headers_wf db → chain_stored db (b :: rest) →
  heights db !! block_hash (header b) = Some (len rest).
Proof.
  intros Hwf. revert b. induction rest as [|c rest IH]; intros b (Hh & Hp & _ & _ & _ & _ & Hr).
  - rewrite len_nil. by eapply wf_genesis.
  - assert (headers db !! block_hash (header c) = Some (header c)) as Hc by apply Hr.
    cbn in Hp. assert (prev_blockhash (header b) ≠ all_zeros) as Hnz.
    { rewrite Hp. intros Hz. rewrite Hz, (wf_zeros _ Hwf) in Hc. done. }
    destruct (wf_parent _ Hwf _ _ Hh Hnz) as [_ (h & _ & Hk & ->)].
    rewrite Hp, (IH c Hr) in Hk. injection Hk as <-. f_equal. rewrite len_cons. lia.
Qed.

(** The height at which a block on top of the chain is stored. *)
Lemma next_height (db : BlockHashDbs) chain b :
  headers_wf db → chain_stored db chain →
  headers db !! block_hash (header b) = Some (header b) →
  prev_blockhash (header b) = default all_zeros (tip_of chain) →
  heights db !! block_hash (header b) = Some (len chain).
Proof.
  intros Hwf Hc Hh Hp. destruct chain as [|c rest].
  - cbn in Hp. rewrite len_nil. by eapply wf_genesis.
  - cbn in Hp. assert (headers db !! block_hash (header c) = Some (header c)) as Hcc by apply Hc.
    assert (prev_blockhash (header b) ≠ all_zeros) as Hnz.
    { rewrite Hp. intros Hz. rewrite Hz, (wf_zeros _ Hwf) in Hcc. done. }
    destruct (wf_parent _ Hwf _ _ Hh Hnz) as [_ (h & _ & Hk & ->)].
    rewrite Hp, (chain_heights db c rest Hwf Hc) in Hk. injection Hk as <-.
    f_equal. rewrite len_cons. lia.
Qed.

(** A new entry at a height the chain does not reach leaves the chain stored. *)
Lemma chain_stored_insert (db : BlockHashDbs) chain bh h t w d :
  headers_wf db → chain_stored db chain → heights db !! bh = Some h → len chain ≤ h →
  chain_stored (mkBlockHashDbs (<[bh := t]> (coinbase_txids db)) (<[bh := w]> (cumulative_work db))
                  (<[bh := d]> (diffs db)) (headers db) (heights db)) chain.
Proof.
  intros Hwf. revert h. induction chain as [|b rest IH]; intros h Hc Hh Hle; [done|].
  pose proof (chain_heights db b rest Hwf Hc) as Hb. rewrite len_cons in Hle.
  assert (bh ≠ block_hash (header b)) as Hne by (intros ->; assert (h = len rest) by congruence; lia).
  destruct Hc as (? & ? & ? & ? & ? & ? & Hr).
  cbn [chain_stored coinbase_txids cumulative_work diffs headers].
  split_and!; [done|done|by rewrite lookup_insert_ne..|done|]. apply (IH h); [done|done|lia].
Qed.

Lemma chain_stored_put (db : BlockHashDbs) hs chain :
  headers_wf db → all_fit db hs → chain_stored db chain →
  chain_stored (foldl (λ d p, put_one d p.1 p.2) db hs) chain.
Proof.
  revert db. induction hs as [|[hd h] hs IH]; intros db Hwf Hf Hc; [done|]. destruct Hf as [Hf Hfs].
  cbn [foldl fst snd]. apply IH; [by apply put_one_wf|done|]. clear IH Hfs. revert Hc. induction chain as [|b rest IH]; [done|].
  intros (Hh & ? & ? & ? & ? & ? & Hr).
  assert (diffs (put_one db hd h) = diffs db ∧ cumulative_work (put_one db hd h) = cumulative_work db
          ∧ coinbase_txids (put_one db hd h) = coinbase_txids db) as (Hd & Hw & Hcb)
    by (unfold put_one; by destruct (bool_decide _)).
  cbn [chain_stored]. rewrite Hd, Hw, Hcb, put_one_headers.
  split_and!; [|done|done|done|done|done|by apply IH].
  destruct (decide (block_hash hd = block_hash (header b))) as [He|?]; [|by rewrite lookup_insert_ne].
  rewrite <- He, lookup_insert_eq in *. f_equal. symmetry. by apply Hf.
Qed.

Lemma chain_stored_fresh (db : BlockHashDbs) chain :
  chain_stored db chain → all_p2mr (utxos_of chain).
Proof.
  induction chain as [|b rest IH]; [intros _ ? ? Hl; cbn in Hl; by rewrite lookup_empty in Hl|].
  intros (_ & _ & _ & _ & _ & Hf & Hr).
  by destruct (compute_block_diff_inv b (utxos_of rest) (IH Hr) Hf) as [_ ? _ _].
Qed.

(** ** connect_block *)

(** A successful [connect_block], step by step. *)
Lemma connect_block_Ok_inv self clock block db ev db' :
  connect_block self clock block db = (Ok ev, db') →
  ∃ h cb d u b tip_work w,
    prev_blockhash (header block) = default all_zeros (current_chain_tip db)
    ∧ heights (block_hashes db) !! block_hash (header block) = Some h
    ∧ head (txdata block) = Some cb
    ∧ validate_and_diff_block_transactions block h (mkBip360Activation (activation_height self))
        (p2mr_utxos db) (extra_prevouts self) (pqc_verify_budget_ms self) clock = Ok d
    ∧ apply_diff d (p2mr_utxos db) = (Ok tt, u)
    ∧ put_block_info (block_hash (header block)) (mkBlockInfo (compute_txid cb)) (mkDiffBlock d)
        (block_hashes db) = (Ok tt, b)
    ∧ match current_chain_tip db with
      | None => tip_work = None
      | Some tip => ∃ tw, cumulative_work b !! tip = Some tw ∧ tip_work = Some tw
      end
    ∧ cumulative_work b !! block_hash (header block) = Some w
    ∧ db' = mkDbs b (if heavier w tip_work then Some (block_hash (header block))
                     else current_chain_tip db) u
    ∧ ev = ConnectBlockEvent (mkHeaderInfo (block_hash (header block)) (prev_blockhash (header block)) h
             (header_work (header block)) (time (header block))) (mkBlockInfo (compute_txid cb)).
Proof.
  unfold connect_block, connect_block_pass_through, load_map.
  intros Hc. stinv.
  repeat match goal with
  | Hg : st_get _ = _ |- _ => injection Hg as <- <-
  | Ha : apply _ _ = _ |- _ => apply on_utxos_Ok in Ha as (u & Ha & ->)
  | Hb : on_block_hashes _ _ = _ |- _ => apply on_block_hashes_Ok in Hb as (b & Hb & ->)
  end.
  cbn [block_hashes current_chain_tip p2mr_utxos p2mr_utxo] in *.
  match goal with
  | Ht : context [BlockParent _ _ _], Hw : @eq (outcome _ (option Z)) _ _,
    Hs : (if heavier _ _ then _ else _) _ = _ |- _ => rename Ht into Htip, Hw into Hwork, Hs into Hput
  end.
  do 7 eexists. split_and!; [|done|done|done|done|done| |done| |done].
  - revert Htip. destruct (current_chain_tip db) as [t|]; by case_bool_decide.
  - revert Hwork. destruct (current_chain_tip db) as [t|]; [intros; okinv; eauto|by intros [= <-]].
  - destruct (heavier _ _); [by injection Hput as <-|]. by injection Hput as <-.
Qed.

Lemma put_block_info_Ok_inv (db db' : BlockHashDbs) bh info d :
  put_block_info bh info d db = (Ok tt, db') →
  ∃ hd w, headers db !! bh = Some hd
    ∧ (prev_blockhash hd = all_zeros → w = header_work hd)
    ∧ (prev_blockhash hd ≠ all_zeros →
       ∃ pw, cumulative_work db !! prev_blockhash hd = Some pw ∧ w = pw + header_work hd)
    ∧ db' = mkBlockHashDbs (<[bh := coinbase_txid info]> (coinbase_txids db))
              (<[bh := w]> (cumulative_work db)) (<[bh := d]> (diffs db)) (headers db) (heights db).
Proof.
  unfold put_block_info. intros Hp. stinv.
  repeat match goal with Hg : st_get _ = _ |- _ => injection Hg as <- <- end.
  match goal with Hw : (if _ then _ else _) = Ok ?w |- _ => rename Hw into Hwork; eexists _, w end.
  split_and!; [done| | |].
  - intros Hz. rewrite bool_decide_true in Hwork by done. by injection Hwork as <-.
  - intros Hz. rewrite bool_decide_false in Hwork by done.
    revert Hwork. destruct (cumulative_work db !! _) as [pw|]; [|done]. intros [= <-]. eauto.
  - by match goal with Hs : st_put _ _ = _ |- _ => injection Hs as <- end.
Qed.

(** Connecting a block on top of the chain extends it. *)
Lemma connect_block_inv self clock block db chain ev db' :
  (∀ hd, 0 < header_work hd) →
  db_inv db chain →
  headers (block_hashes db) !! block_hash (header block) = Some (header block) →
  block_ok (utxos_of chain) block →
  map_Forall (λ _ o, is_p2mr_script (script_pubkey o) = false) (extra_prevouts self) →
  connect_block self clock block db = (Ok ev, db') →
  db_inv db' (block :: chain).
Proof.
  intros Hwpos [Hwf Htip Hut Hch] Hhd [Hf Hn Hcb] Hx Hc.
  apply connect_block_Ok_inv in Hc
    as (h & cb & d & u & b & tw & w & Hp & Hh & Hcoin & Hv & Hap & Hput & Htw & Hw & -> & _).
  rewrite Htip in Hp. pose proof (chain_stored_fresh _ _ Hch) as Hall.
  rewrite Hut in Hv, Hap. apply validate_and_diff_compute in Hv as ->; [|done..].
  pose proof (compute_block_diff_inv block (utxos_of chain) Hall Hf) as [Hafter _ Hsub _].
  rewrite apply_diff_Ok in Hap by done. injection Hap as <-. rewrite <- Hafter.
  pose proof (next_height _ chain block Hwf Hch Hhd Hp) as Hnext.
  apply put_block_info_Ok_inv in Hput as (hd & w' & Hhd' & Hw0 & Hw1 & ->).
  rewrite Hhd in Hhd'. injection Hhd' as <-. cbn [cumulative_work] in Hw, Htw.
  rewrite lookup_insert_eq in Hw. injection Hw as ->.
  assert (w = work_of (block :: chain) ∧ heavier w tw = true) as [-> ->].
  { rewrite Htip in Htw. destruct chain as [|c rest]; cbn [tip_of head fmap option_fmap option_map default from_option id] in Hp, Htw.
    - subst tw. by rewrite Hw0.
    - pose proof (chain_heights _ c rest Hwf Hch) as Hc. rewrite len_cons in Hnext.
      destruct Hch as (Hhc & _ & _ & Hcw & _).
      assert (prev_blockhash (header block) ≠ all_zeros) as Hnz.
      { rewrite Hp. intros Hz. rewrite Hz, (wf_zeros _ Hwf) in Hhc. done. }
      destruct (Hw1 Hnz) as (pw & Hpw & ->). cbn in Hp. rewrite Hp, Hcw in Hpw. injection Hpw as <-.
      destruct Htw as (tw' & Htw & ->). cbn in Htw. rewrite lookup_insert_ne in Htw.
      2: { intros He. rewrite He, Hc in Hnext. injection Hnext. lia. }
      rewrite Hcw in Htw. injection Htw as <-. split; [done|]. cbn [heavier].
      apply Z.ltb_lt. specialize (Hwpos (header block)). cbn [work_of]. lia. }
  split; [by destruct Hwf; split|done|done|].
  cbn [chain_stored block_hashes headers diffs cumulative_work coinbase_txids].
  rewrite !lookup_insert_eq. split_and!; [done|done|done|done|by eexists|done|].
  eapply chain_stored_insert; [done|done|exact Hnext|lia].
Qed.

(** A rejection changes nothing. *)
Lemma connect_block_reject self clock block e db db' :
  is_fatal e = false → connect_block self clock block db = (Err e, db') → db' = db.
Proof.
  intros Hfatal. unfold connect_block, connect_block_pass_through. intros Hc. errinv.
  all: stinv; repeat match goal with Hg : st_get _ = _ |- _ => injection Hg as <- <- end; try done.
  - exfalso. revert Hc. match goal with |- match ?t with _ => _ end = _ → _ => destruct t end; intros Hc; errinv; done.
  - revert Hc. by destruct (heavier _ _).
Qed.

(** ** disconnect_block *)

Lemma db_inv_header_info db chain bh hd :
  db_inv db chain → headers (block_hashes db) !! bh = Some hd →
  ∃ h, get_header_info (block_hashes db) bh
       = Ok (mkHeaderInfo bh (prev_blockhash hd) h (header_work hd) (time hd)).
Proof.
  intros [Hwf _ _ _] Hhd. unfold get_header_info, try_get_header_info. rewrite Hhd.
  pose proof (wf_header _ Hwf _ _ Hhd) as Hb.
  rewrite bool_decide_false by (intros Hn; by apply Hn). rewrite Hb.
  destruct (at_height_known (block_hashes db) bh Hwf) as (h & [[-> _]|(_ & -> & _)]).
  - right. by eexists.
  - by rewrite (wf_zeros _ Hwf) in Hhd.
  - by exists h.
Qed.

(** Disconnecting the tip gives the databases of the chain below it. *)
Lemma disconnect_tip db b rest :
  db_inv db (b :: rest) →
  disconnect_block (block_hash (header b)) db
  = (Ok [DisconnectBlockEvent (block_hash (header b))],
     mkDbs (block_hashes db) (tip_of rest) (utxos_of rest))
  ∧ db_inv (mkDbs (block_hashes db) (tip_of rest) (utxos_of rest)) rest.
Proof.
  intros Hinv. pose proof Hinv as [Hwf Htip Hut Hch].
  pose proof Hch as (Hhd & Hp & Hd & _ & _ & Hf & Hr).
  split; [|by split].
  destruct (db_inv_header_info _ _ _ _ Hinv Hhd) as (h & Hinfo).
  assert (undo_diff (compute_block_diff b (utxos_of rest)) (p2mr_utxos db) = (Ok tt, utxos_of rest)) as Hundo.
  { rewrite undo_diff_Ok, Hut. cbn [utxos_of].
    pose proof (compute_block_diff_inv b _ (chain_stored_fresh _ _ Hr) Hf) as [-> _ ? ?].
    by rewrite diff_undo_apply. }
  unfold disconnect_block, mbind, st_bind, st_get. rewrite Hd, Htip. cbn [tip_of head fmap option_fmap option_map].
  rewrite bool_decide_false by (intros Hn; by apply Hn). cbn -[all_zeros].
  rewrite Hinfo. cbn -[all_zeros]. unfold st_map_err, undo, on_utxos. cbn -[all_zeros].
  rewrite Hundo. cbn -[all_zeros]. unfold put_tip. cbn -[all_zeros].
  do 2 f_equal. rewrite Hp. destruct rest as [|c rest]; [by rewrite bool_decide_false by (intros Hn; by apply Hn)|].
  cbn -[all_zeros]. rewrite bool_decide_true; [done|]. intros Hz. destruct Hr as (Hhc & _).
  by rewrite Hz, (wf_zeros _ Hwf) in Hhc.
Qed.

(** Any disconnection but the tip's is refused or does nothing. *)
Lemma disconnect_block_inv db chain bh evs db' :
  db_inv db chain → (current_chain_tip db = None → diffs (block_hashes db) !! bh = None) →
  disconnect_block bh db = (Ok evs, db') → db_inv db' (if bool_decide (evs = []) then chain else tail chain).
Proof.
  intros Hinv Htip Hdis. pose proof Hinv as [_ Ht _ _].
  destruct chain as [|b rest].
  { unfold disconnect_block, mbind, st_bind, st_get in Hdis. rewrite Htip in Hdis by done.
    by injection Hdis as <- <-. }
  destruct (decide (bh = block_hash (header b))) as [->|Hne].
  - destruct (disconnect_tip db b rest Hinv) as [Heq Hinv'].
    rewrite Heq in Hdis. injection Hdis as <- <-. by rewrite bool_decide_false.
  - unfold disconnect_block, mbind, st_bind, st_get in Hdis.
    destruct (diffs (block_hashes db) !! bh) as [d|]; [|by injection Hdis as <- <-; rewrite bool_decide_true].
    rewrite Ht in Hdis. cbn [tip_of head fmap option_fmap option_map] in Hdis.
    rewrite bool_decide_true in Hdis by (intros He; by apply Hne). done.
Qed.
End lemmas.

Section verdict.
Context `{HashLib} `{ScriptLib} `{TxLib} `{TaprootLib} `{P2mrLib} `{PqcLib}.

(** [put_block_info] finds the header and the parent's work. *)
Lemma put_block_info_run db chain block info d :
  headers_wf db → chain_stored db chain →
  headers db !! block_hash (header block) = Some (header block) →
  prev_blockhash (header block) = default all_zeros (tip_of chain) →
  put_block_info (block_hash (header block)) info d db
  = (Ok tt, mkBlockHashDbs (<[block_hash (header block) := coinbase_txid info]> (coinbase_txids db))
              (<[block_hash (header block) := work_of (block :: chain)]> (cumulative_work db))
              (<[block_hash (header block) := d]> (diffs db)) (headers db) (heights db)).
Proof.
  intros Hwf Hch Hhd Hp. unfold put_block_info, mbind, st_bind, st_get, st_lift. rewrite Hhd.
  cbn [ok_or]. destruct chain as [|c rest]; cbn [tip_of head fmap option_fmap option_map default from_option id] in Hp.
  - by rewrite bool_decide_true.
  - destruct Hch as (Hhc & _ & _ & Hcw & _). cbn [id] in Hp.
    assert (block_hash (header c) ≠ all_zeros) as Hnz by (intros Hz; by rewrite Hz, (wf_zeros _ Hwf) in Hhc).
    by rewrite bool_decide_false, Hp, Hcw by by rewrite Hp.
Qed.

(** A block whose parent is the tip and whose transactions validate connects. *)
Lemma connect_block_run self clock block db chain cb d :
  db_inv db chain →
  headers (block_hashes db) !! block_hash (header block) = Some (header block) →
  prev_blockhash (header block) = default all_zeros (tip_of chain) →
  head (txdata block) = Some cb →
  validate_and_diff_block_transactions block (len chain) (mkBip360Activation (activation_height self))
    (utxos_of chain) (extra_prevouts self) (pqc_verify_budget_ms self) clock = Ok d →
  spent d ⊆ utxos_of chain →
  ∃ db', connect_block self clock block db
    = (Ok (ConnectBlockEvent (mkHeaderInfo (block_hash (header block)) (prev_blockhash (header block))
             (len chain) (header_work (header block)) (time (header block)))
             (mkBlockInfo (compute_txid cb))), db').
Proof.
  intros [Hwf Htip Hut Hch] Hhd Hp Hcb Hv Hsub.
  pose proof (next_height _ chain block Hwf Hch Hhd Hp) as Hh.
  pose proof (put_block_info_run _ chain block (mkBlockInfo (compute_txid cb)) (mkDiffBlock d)
                Hwf Hch Hhd Hp) as Hput.
  assert (∀ tip, tip_of chain = Some tip → ∃ w : Z,
    <[block_hash (header block) := work_of (block :: chain)]> (cumulative_work (block_hashes db)) !! tip
    = Some w) as Hwork.
  { intros tip Ht. destruct (decide (block_hash (header block) = tip)) as [->|Hne].
    - rewrite lookup_insert_eq. eauto.
    - rewrite lookup_insert_ne by done. destruct chain as [|c rest]; [done|].
      injection Ht as <-. destruct Hch as (_ & _ & _ & -> & _). eauto. }
  unfold connect_block, connect_block_pass_through, load_map, mbind, st_bind, st_get, st_lift.
  rewrite Htip. assert (match tip_of chain with
    | Some tip => if bool_decide (prev_blockhash (header block) = tip) then Ok tt
                  else Err (BlockParent (prev_blockhash (header block)) tip
                              (default 0 (heights (block_hashes db) !! tip)))
    | None => if bool_decide (prev_blockhash (header block) = all_zeros) then Ok tt
              else Err (BlockParent (prev_blockhash (header block)) all_zeros 0)
    end = Ok tt) as -> by (by destruct (tip_of chain); rewrite bool_decide_true).
  rewrite Hh, Hcb. cbn [ok_or]. rewrite Hut, Hv. cbn [map_err].
  unfold st_map_err, apply, on_utxos, on_block_hashes. cbn [p2mr_utxo]. rewrite Hut, apply_diff_Ok by done.
  cbn [map_err block_hashes current_chain_tip p2mr_utxos]. rewrite Hput.
  cbn [map_err block_hashes current_chain_tip p2mr_utxos cumulative_work].
  rewrite Htip, lookup_insert_eq. cbn [ok_or].
  destruct (tip_of chain) as [tip|]; [destruct (Hwork tip eq_refl) as [w ->]|];
    cbn [ok_or mbind outcome_bind]; destruct (heavier _ _); by eexists.
Qed.

(** What [connect_block] checks before it writes: everything after succeeds. *)
Lemma connect_block_nonfatal self clock block db chain e db' :
  db_inv db chain →
  headers (block_hashes db) !! block_hash (header block) = Some (header block) →
  block_ok (utxos_of chain) block →
  map_Forall (λ _ o, is_p2mr_script (script_pubkey o) = false) (extra_prevouts self) →
  connect_block self clock block db = (Err e, db') → db' = db ∧ is_fatal e = false.
Proof.
  intros Hinv Hhd [Hf Hn Hcb] Hx Hc. pose proof Hinv as [Hwf Htip Hut Hch].
  assert (is_fatal e = false) as He; [|by split; [eapply connect_block_reject|]].
  pose proof Hc as Hrun. unfold connect_block, connect_block_pass_through in Hc.
  apply st_bind_Err in Hc as [Hc|(? & ? & Hg & Hc)]; [done|]. injection Hg as <- <-.
  apply st_bind_Err in Hc as [Hc|(? & ? & Hp & Hc)].
  { apply st_lift_Err in Hc as [Hc _]. revert Hc. destruct (current_chain_tip db); case_bool_decide; naive_solver. }
  apply st_lift_Ok in Hp as [Hp ->].
  assert (prev_blockhash (header block) = default all_zeros (tip_of chain)) as Hparent.
  { rewrite <- Htip. revert Hp. destruct (current_chain_tip db); by case_bool_decide. }
  pose proof (next_height _ chain block Hwf Hch Hhd Hparent) as Hh. rewrite Hh in Hc.
  apply st_bind_Err in Hc as [Hc|(? & ? & Hg & Hc)]; [done|]. injection Hg as <- <-.
  apply st_bind_Err in Hc as [Hc|(cb & ? & Hg & Hc)].
  { by apply st_lift_Err in Hc as [[_ ->]%ok_or_Err _]. }
  apply st_lift_Ok in Hg as [Hg%ok_or_Ok ->].
  apply st_bind_Err in Hc as [Hc|(? & ? & Hg' & Hc)]; [done|]. injection Hg' as <- <-.
  apply st_bind_Err in Hc as [Hc|(d & ? & Hv & Hc)].
  { by apply st_lift_Err in Hc as [(? & _ & ->)%map_err_Err _]. }
  apply st_lift_Ok in Hv as [Hv%map_err_Ok ->]. exfalso. unfold load_map in Hv. rewrite Hut in Hv.
  destruct (connect_block_run self clock block db chain cb d Hinv Hhd Hparent Hg Hv) as (? & Hok); [|congruence].
  apply validate_and_diff_compute in Hv as ->; [|by eapply chain_stored_fresh|done..].
  apply (compute_block_diff_inv block); [by eapply chain_stored_fresh|done].
Qed.

(** Every step keeps the invariant. *)
Lemma dbs_step_inv s s' :
  (∀ hd, 0 < header_work hd) → dbs_step s s' → db_inv s.1 s.2 → db_inv s'.1 s'.2.
Proof.
  intros Hw Hstep. destruct Hstep as [hs db chain db' Hf Hput|self clock block ev db chain db' Hhd Hok Hx Hc
    |self clock block e db chain db' Hc He|bh evs db chain db' Htip Hd]; cbn [fst snd]; intros Hinv.
  - apply on_block_hashes_Ok in Hput as (b & Hput & ->). rewrite put_headers_Ok in Hput by done.
    injection Hput as <-. destruct Hinv as [Hwf Ht Hu Hch].
    split; [by apply put_all_wf|done|done|by apply chain_stored_put].
  - by eapply connect_block_inv.
  - by apply connect_block_reject in Hc as ->.
  - by eapply disconnect_block_inv.
Qed.

Lemma dbs_steps_inv s s' :
  (∀ hd, 0 < header_work hd) → rtc dbs_step s s' → db_inv s.1 s.2 → db_inv s'.1 s'.2.
Proof.
  intros Hw Hr. induction Hr as [s|s s1 s2 Hstep Hr IH]; [done|]. intros Hi. by eapply IH, dbs_step_inv.
Qed.
End verdict.

(** * Properties *)

(** C1: on every reachable database, the tables are those of the chain of blocks
    connected and not disconnected: the tip is the last of them, the P2MR UTXO
    table is the set obtained by replaying their transactions from the genesis
    block, each has its header, its diff and the cumulative work up to it, and
    the header table is consistent.  Reachable: from empty databases by storing
    headers that extend the chain, connecting blocks whose header is stored, rejecting
    blocks and disconnecting blocks, in any order, but for one: once the genesis block
    has been disconnected, a block that was connected before is not disconnected again
    before a block is connected (the code does not notice, and undoes it twice). *)
Theorem reachable_db_inv `{HashLib} `{ScriptLib} `{TxLib} `{TaprootLib} `{P2mrLib} `{PqcLib} db chain :
  (∀ hd, 0 < header_work hd) →
  rtc dbs_step (dbs_empty, []) (db, chain) → db_inv db chain.
Proof. intros Hw Hr. exact (dbs_steps_inv _ _ Hw Hr db_inv_empty). Qed.

(** C2: the verdict of [connect_block]: for a block whose header is stored, on the
    databases of a chain, it either connects the block, reports its height and
    header in the event, and the databases become those of the extended chain; or
    it refuses it with a non-fatal error and changes nothing (fatal errors, a
    missing parent or a lost table entry, do not happen); or validation panicked.
    It connects exactly when the parent is the tip, there is a coinbase, and the
    block validates against the chain's P2MR set. *)
Theorem connect_block_verdict
    `{HashLib} `{ScriptLib} `{TxLib} `{TaprootLib} `{P2mrLib} `{PqcLib}
    self clock block db chain :
  (∀ hd, 0 < header_work hd) → db_inv db chain →
  headers (block_hashes db) !! block_hash (header block) = Some (header block) →
  block_ok (utxos_of chain) block →
  map_Forall (λ _ o, is_p2mr_script (script_pubkey o) = false) (extra_prevouts self) →
  let valid := prev_blockhash (header block) = default all_zeros (tip_of chain)
    ∧ is_Some (head (txdata block))
    ∧ ∃ d, validate_and_diff_block_transactions block (len chain)
             (mkBip360Activation (activation_height self)) (utxos_of chain)
             (extra_prevouts self) (pqc_verify_budget_ms self) clock = Ok d in
  match connect_block self clock block db with
  | (Ok ev, db') => valid ∧ db_inv db' (block :: chain)
      ∧ ∃ info b, ev = ConnectBlockEvent info b ∧ height info = len chain
                  ∧ block_hash_ info = block_hash (header block)
  | (Err e, db') => ¬ valid ∧ db' = db ∧ is_fatal e = false
  | (Panic, _) => ¬ valid
  end.
Proof.
  intros Hw Hinv Hhd Hok Hx valid. pose proof Hinv as [Hwf Htip Hut Hch]. pose proof Hok as [Hf Hn Hcb].
  assert (valid → ∃ ev db', connect_block self clock block db = (Ok ev, db')) as Hvalid.
  { intros (Hp & [cb Hc] & d & Hv).
    destruct (connect_block_run self clock block db chain cb d Hinv Hhd Hp Hc Hv) as (db' & ->); [|eauto].
    apply validate_and_diff_compute in Hv as ->; [|by eapply chain_stored_fresh|done..].
    apply (compute_block_diff_inv block); [by eapply chain_stored_fresh|done]. }
  destruct (connect_block self clock block db) as [[ev|e|] db'] eqn:Hc.
  - split_and!; [|by eapply connect_block_inv|].
    all: apply connect_block_Ok_inv in Hc
      as (h & cb & d & u & b & tw & w & Hp & Hh & Hcoin & Hv & _ & _ & _ & _ & _ & ->);
      rewrite Htip in Hp; rewrite (next_height _ chain block Hwf Hch Hhd Hp) in Hh; injection Hh as <-.
    + rewrite Hut in Hv. split_and!; eauto.
    + do 2 eexists. split_and!; reflexivity.
  - split; [intros (?&?&?)%Hvalid; simplify_eq|]. by eapply connect_block_nonfatal.
  - intros (?&?&?)%Hvalid. simplify_eq.
Qed.

(** C28: disconnecting a block just connected undoes it: the tip, the P2MR UTXO
    table and the headers are as before, the event is broadcast, and the databases
    are again those of the chain. *)
Theorem connect_disconnect_roundtrip
    `{HashLib} `{ScriptLib} `{TxLib} `{TaprootLib} `{P2mrLib} `{PqcLib}
    self clock block db chain ev db1 :
  (∀ hd, 0 < header_work hd) → db_inv db chain →
  headers (block_hashes db) !! block_hash (header block) = Some (header block) →
  block_ok (utxos_of chain) block →
  map_Forall (λ _ o, is_p2mr_script (script_pubkey o) = false) (extra_prevouts self) →
  connect_block self clock block db = (Ok ev, db1) →
  ∃ db2, disconnect_block (block_hash (header block)) db1
           = (Ok [DisconnectBlockEvent (block_hash (header block))], db2)
    ∧ current_chain_tip db2 = current_chain_tip db ∧ p2mr_utxos db2 = p2mr_utxos db
    ∧ headers (block_hashes db2) = headers (block_hashes db)
    ∧ heights (block_hashes db2) = heights (block_hashes db) ∧ db_inv db2 chain.
Proof.
  intros Hw Hinv Hhd Hok Hx Hc. pose proof (connect_block_inv _ _ _ _ _ _ _ Hw Hinv Hhd Hok Hx Hc) as Hinv1.
  destruct (disconnect_tip db1 block chain Hinv1) as [Hd Hinv2].
  apply connect_block_Ok_inv in Hc as (h & cb & d & u & b & tw & w & _ & _ & _ & _ & _ & Hput & _ & _ & -> & _).
  apply put_block_info_Ok_inv in Hput as (hd & w' & _ & _ & _ & ->).
  eexists. split; [exact Hd|]. destruct Hinv as [_ Ht Hu _]. split_and!; [by rewrite Ht|by rewrite Hu|done|done|done].
Qed.

(** A disconnected block keeps its diff: after a block was connected and
    disconnected, disconnecting it again (as the driver does for a block that was
    then rejected) is a [TipHash] error, not the no-op meant for rejected blocks,
    unless the chain is empty. *)
Lemma disconnect_twice_fails
    `{HashLib} `{ScriptLib} `{TxLib} `{TaprootLib} `{P2mrLib} `{PqcLib}
    self clock block db chain ev db1 evs db2 tip :
  (∀ hd, 0 < header_work hd) → db_inv db chain →
  headers (block_hashes db) !! block_hash (header block) = Some (header block) →
  block_ok (utxos_of chain) block →
  map_Forall (λ _ o, is_p2mr_script (script_pubkey o) = false) (extra_prevouts self) →
  tip_of chain = Some tip →
  connect_block self clock block db = (Ok ev, db1) →
  disconnect_block (block_hash (header block)) db1 = (Ok evs, db2) →
  disconnect_block (block_hash (header block)) db2
  = (Err (TipHash (block_hash (header block)) tip), db2).
Proof.
  intros Hw Hinv Hhd Hok Hx Htip Hc Hd. pose proof (connect_block_inv _ _ _ _ _ _ _ Hw Hinv Hhd Hok Hx Hc) as Hinv1.
  destruct (disconnect_tip db1 block chain Hinv1) as [Hd' _]. rewrite Hd' in Hd. injection Hd as _ <-.
  destruct Hinv1 as [Hwf1 _ _ Hch1]. pose proof Hch1 as (_ & _ & Hdiff & _).
  unfold disconnect_block, mbind, st_bind, st_get, st_lift. cbn [block_hashes current_chain_tip].
  rewrite Hdiff, Htip. rewrite bool_decide_true; [done|]. intros Heq.
  destruct chain as [|c rest]; [done|]. injection Htip as Htip.
  pose proof (chain_heights _ _ _ Hwf1 Hch1) as Hh.
  assert (chain_stored (block_hashes db1) (c :: rest)) as Hch2 by apply Hch1.
  pose proof (chain_heights _ _ _ Hwf1 Hch2) as Hh'. rewrite len_cons in Hh.
  rewrite Htip, Heq, Hh in Hh'. injection Hh'. lia.
Qed.

(** * Witnesses: a genesis block with a P2MR output, and a block that spends it *)

Definition ex_cb (lt : Z) (outs : list TxOut) : Transaction :=
  mkTransaction 2 lt [mkTxIn (mkOutPoint all_zeros 0xffffffff) [] 0 []] outs.
Definition ex_block0 : Block := mkBlock ex_g [ex_cb 1 [ex_p2mr_out ex_root]].
Definition ex_block1 : Block :=
  mkBlock ex_a1
    [ex_cb 2 [mkTxOut 100 []];
     mkTransaction 2 7
       [mkTxIn (mkOutPoint (@compute_txid toy_tx (ex_cb 1 [ex_p2mr_out ex_root])) 0) [] 0 ex_spend_witness]
       [ex_p2mr_out ex_root]].
Definition ex_handler : BlockHandler := mkBlockHandler 0 100 ∅.

Definition ex_connect (b : Block) : st Dbs ConnectBlockError Event :=
  @connect_block toy_hash toy_script toy_tx toy_taproot toy_p2mr toy_pqc ex_handler [] b.
Definition ex_disconnect (b : Block) : st Dbs DisconnectBlockError (list Event) :=
  @disconnect_block toy_tx (@block_hash toy_tx (header b)).
Definition ex_db0 : Dbs := mkDbs ex_header_db None ∅.
Definition ex_db1 : Dbs := (ex_connect ex_block0 ex_db0).2.
Definition ex_db2 : Dbs := (ex_connect ex_block1 ex_db1).2.
Definition ex_db3 : Dbs := (ex_disconnect ex_block1 ex_db2).2.

Lemma run_Ok {S E A} (m : st S E A) s : is_ok (m s).1 = true → ∃ a, m s = (Ok a, (m s).2).
Proof. destruct (m s) as [[a|e|] s']; [eauto|done|done]. Qed.

Lemma ex_connect0 : ∃ ev, ex_connect ex_block0 ex_db0 = (Ok ev, ex_db1).
Proof. unfold ex_db1. apply (run_Ok (ex_connect ex_block0) ex_db0). vm_compute. reflexivity. Qed.
Lemma ex_connect1 : ∃ ev, ex_connect ex_block1 ex_db1 = (Ok ev, ex_db2).
Proof. unfold ex_db2. apply (run_Ok (ex_connect ex_block1) ex_db1). vm_compute. reflexivity. Qed.
Lemma ex_disconnect1 : ∃ evs, ex_disconnect ex_block1 ex_db2 = (Ok evs, ex_db3).
Proof. unfold ex_db3. apply (run_Ok (ex_disconnect ex_block1) ex_db2). vm_compute. reflexivity. Qed.

Lemma toy_work_pos hd : 0 < @header_work toy_tx hd.
Proof. done. Qed.

Lemma ex_header_stored0 : 
  headers (block_hashes ex_db0) !! @block_hash toy_tx (header ex_block0) = Some (header ex_block0).
Proof. vm_compute. reflexivity. Qed.
Lemma ex_header_stored1 : 
  headers (block_hashes ex_db1) !! @block_hash toy_tx (header ex_block1) = Some (header ex_block1).
Proof. vm_compute. reflexivity. Qed.

(** A computable form of [block_ok]. *)
Lemma block_ok_dec `{TxLib} utxos b :
  forallb (λ tx, forallb (λ p, bool_decide (utxos !! p.1 = None)) (tx_outpoints tx)) (txdata b) = true →
  bool_decide (NoDup (txs_outpoints (txdata b))) = true →
  forallb (λ i, bool_decide (utxos !! previous_output i = None)) (flat_map input (take 1 (txdata b))) = true →
  block_ok utxos b.
Proof.
  intros Hf Hn Hc. split; [by apply fresh_outputs_dec|by apply bool_decide_eq_true_1 in Hn|].
  intros cb i Hcb Hi. destruct (txdata b) as [|t txs]; [done|]. injection Hcb as ->.
  cbn [take flat_map] in Hc. rewrite app_nil_r, forallb_forall in Hc.
  apply list_elem_of_In in Hi. exact (bool_decide_eq_true_1 _ (Hc i Hi)).
Qed.

Lemma ex_block_ok0 : @block_ok toy_tx (@utxos_of toy_tx []) ex_block0.
Proof. apply block_ok_dec; vm_compute; reflexivity. Qed.
Lemma ex_block_ok1 : @block_ok toy_tx (@utxos_of toy_tx [ex_block0]) ex_block1.
Proof. apply block_ok_dec; vm_compute; reflexivity. Qed.

Lemma ex_inv0 : @db_inv toy_tx ex_db0 [].
Proof. split; [exact ex_header_db_wf|done..]. Qed.
Lemma ex_inv1 : @db_inv toy_tx ex_db1 [ex_block0].
Proof.
  destruct ex_connect0 as [ev Hc].
  exact (@connect_block_inv toy_hash toy_script toy_tx toy_taproot toy_p2mr toy_pqc ex_handler [] ex_block0 ex_db0 [] ev ex_db1 toy_work_pos ex_inv0 ex_header_stored0 ex_block_ok0
           (map_Forall_empty _) Hc).
Qed.

Lemma reachable_db_inv_witness :
  @db_inv toy_tx ex_db3 [ex_block0]
  ∧ p2mr_utxos ex_db3 !! mkOutPoint (@compute_txid toy_tx (ex_cb 1 [ex_p2mr_out ex_root])) 0
    = Some (ex_p2mr_out ex_root).
Proof.
  split; [|vm_compute; reflexivity].
  apply (@reachable_db_inv toy_hash toy_script toy_tx toy_taproot toy_p2mr toy_pqc ex_db3 [ex_block0]
           toy_work_pos).
  destruct ex_connect0 as [ev0 H0], ex_connect1 as [ev1 H1], ex_disconnect1 as [evs H2].
  eapply rtc_l; [|eapply rtc_l; [|eapply rtc_l; [|eapply rtc_l; [|apply rtc_refl]]]].
  - apply (@step_headers toy_hash toy_script toy_tx toy_taproot toy_p2mr toy_pqc ex_headers dbs_empty [] ex_db0); [apply all_fit_b_sound|]; vm_compute; reflexivity.
  - exact (@step_connect toy_hash toy_script toy_tx toy_taproot toy_p2mr toy_pqc ex_handler [] ex_block0 ev0 ex_db0 [] ex_db1 ex_header_stored0 ex_block_ok0
             (map_Forall_empty _) H0).
  - exact (@step_connect toy_hash toy_script toy_tx toy_taproot toy_p2mr toy_pqc ex_handler [] ex_block1 ev1 ex_db1 [ex_block0] ex_db2 ex_header_stored1 ex_block_ok1
             (map_Forall_empty _) H1).
  - assert (evs = [DisconnectBlockEvent (@block_hash toy_tx ex_a1)]) as ->.
    { assert ((ex_disconnect ex_block1 ex_db2).1 = Ok [DisconnectBlockEvent (@block_hash toy_tx ex_a1)])
        as He by (vm_compute; reflexivity). rewrite H2 in He. by injection He. }
    apply (@step_disconnect toy_hash toy_script toy_tx toy_taproot toy_p2mr toy_pqc (@block_hash toy_tx ex_a1) [DisconnectBlockEvent (@block_hash toy_tx ex_a1)]
             ex_db2 [ex_block1; ex_block0] ex_db3); [intros He; by vm_compute in He|exact H2].
Defined.

Lemma connect_block_verdict_witness :
  ∃ ev db', ex_connect ex_block1 ex_db1 = (Ok ev, db') ∧ @db_inv toy_tx db' [ex_block1; ex_block0].
Proof.
  pose proof (@connect_block_verdict toy_hash toy_script toy_tx toy_taproot toy_p2mr toy_pqc
    ex_handler [] ex_block1 ex_db1 [ex_block0] toy_work_pos ex_inv1 ex_header_stored1 ex_block_ok1
    (map_Forall_empty _)) as Hv.
  destruct ex_connect1 as [ev Hc]. unfold ex_connect in Hc. cbv zeta in Hv. rewrite Hc in Hv.
  exists ev, ex_db2. split; [exact Hc|apply Hv].
Defined.

Lemma connect_disconnect_roundtrip_witness :
  ∃ db, ex_disconnect ex_block1 ex_db2
        = (Ok [DisconnectBlockEvent (@block_hash toy_tx ex_a1)], db) ∧ p2mr_utxos db = p2mr_utxos ex_db1.
Proof.
  destruct ex_connect1 as [ev Hc].
  destruct (@connect_disconnect_roundtrip toy_hash toy_script toy_tx toy_taproot toy_p2mr toy_pqc
    ex_handler [] ex_block1 ex_db1 [ex_block0] ev ex_db2 toy_work_pos ex_inv1 ex_header_stored1
    ex_block_ok1 (map_Forall_empty _) Hc) as (db & Hd & _ & Hu & _).
  exists db. split; [exact Hd|exact Hu].
Defined.

Lemma disconnect_twice_fails_witness :
  (ex_disconnect ex_block1 ex_db3).1
  = Err (TipHash (@block_hash toy_tx ex_a1) (@block_hash toy_tx ex_g)).
Proof.
  destruct ex_connect1 as [ev Hc], ex_disconnect1 as [evs Hd].
  pose proof (@disconnect_twice_fails toy_hash toy_script toy_tx toy_taproot toy_p2mr toy_pqc
    ex_handler [] ex_block1 ex_db1 [ex_block0] ev ex_db2 evs ex_db3 (@block_hash toy_tx ex_g)
    toy_work_pos ex_inv1 ex_header_stored1 ex_block_ok1 (map_Forall_empty _) eq_refl Hc Hd) as Ht.
  exact (f_equal fst Ht).
Defined.

(** Without a tip a block is undone twice: with both blocks disconnected, disconnecting the
    second one again succeeds, makes the genesis block the tip and brings back the output
    it had created. *)
Definition ex_db4 : Dbs := (ex_disconnect ex_block0 ex_db3).2.
Definition ex_db5 : Dbs := (ex_disconnect ex_block1 ex_db4).2.
Lemma disconnect_without_tip :
  current_chain_tip ex_db4 = None ∧ size (p2mr_utxos ex_db4) = 0%nat ∧
  (∃ evs, ex_disconnect ex_block1 ex_db4 = (Ok evs, ex_db5)) ∧
  current_chain_tip ex_db5 = Some (@block_hash toy_tx ex_g) ∧ size (p2mr_utxos ex_db5) = 1%nat.
Proof.
  split; [by vm_compute|]. split; [by vm_compute|]. split; [|split; by vm_compute].
  apply (run_Ok (ex_disconnect ex_block1) ex_db4). by vm_compute.
Qed.
