(* ===== verification/Sync.v ===== *)
(** Syncing to the node's tip (`task/mod.rs`): finding the fork point with the
    node, fetching headers, disconnecting the stale branch, and connecting the
    missing blocks in batches.

    The node is the class [NodeRpc]: a snapshot of what its RPC and REST
    interfaces answer during one sync.  The event channel is a list, in the order
    of the broadcasts; it is not rolled back with a transaction. *)
From Stdlib Require Import ZArith Lia Strings.Byte.
From stdpp Require Import base list gmap.
From S2P Require Import Prelude Bitcoin Concrete Limits P2mrOutput Spend P2mrUtxo Pqc Dbs.
From S2P Require Import ParseBlockFiles BlockHandler.
#[local] Open Scope Z_scope.

(** ** error.rs: [Sync] *)
Inductive SyncError :=
| BatchJsonRpc (errors : list bytes)
| SyncBlockDirectoryParser (e : BlockDirectoryParserError)
| BlockFileParserSetOffset (e : IoError)
| BlockNotInActiveChain (block_hash : BlockHash)
| CommitWriteTxn
| SyncConnectBlock (e : ConnectBlockError)
| SyncDb (e : DbError)
| SyncDecode
| SyncDisconnectBlock (e : DisconnectBlockError)
| SyncEnv
| SyncFetchBlockIndex (e : FetchBlockIndexError)
| SyncGetHeaderInfo (e : GetHeaderInfoError)
| HeaderSyncInProgress
| SyncHex
| JsonRpc
| JsonSerialize
| SyncLastCommonAncestor (e : LastCommonAncestorError)
| SyncParseBlockFiles (e : ParseBlockFileError)
| Rest
| Shutdown.

Definition sync_is_fatal (e : SyncError) : bool :=
  match e with
  | SyncConnectBlock e => BlockHandler.is_fatal e
  | SyncDecode | HeaderSyncInProgress | SyncHex => false
  | _ => true
  end.

(** The node: `getblockhash`, the height of `getblockheader`, batched `getblock`
    (with decoding), and the REST header endpoint. *)
Class NodeRpc := {
  getblockhash : Z → option BlockHash;
  getblockheader_height : BlockHash → option Z;
  fetch_blocks_batch : list BlockHash → outcome SyncError (list Block);
  get_block_headers : BlockHash → nat → option (list (Header * BlockHash * Z))
}.

(** Databases and the events broadcast so far. *)
Abbreviation task_state := (Dbs * list Event)%type.

Definition on_db {E A} (m : st Dbs E A) : st task_state E A :=
  λ s, let '(o, db) := m s.1 in (o, (db, s.2)).
Definition broadcast {E} (evs : list Event) : st task_state E unit :=
  λ s, (Ok tt, (s.1, s.2 ++ evs)).
(** A write transaction: dropped, so rolled back, on an early return. *)
Definition write_txn {E A} (m : st task_state E A) : st task_state E A :=
  λ s, match m s with
       | (Ok a, s') => (Ok a, s')
       | (o, s') => (o, (s.1, s'.2))
       end.

(** ** fetch_best_ancestor *)

(** [u32::midpoint] *)
Definition midpoint (a b : Z) : Z := (a + b) / 2.

Section sync.
Context `{HashLib} `{ScriptLib} `{TxLib} `{TaprootLib} `{P2mrLib} `{PqcLib} `{NodeRpc}.

(** The [loop]; [None] is out of fuel. *)
Fixpoint best_ancestor_loop (fuel : nat) (db : Dbs) (best : option (BlockHash * Z)) (oldest : Z) :
    option (outcome SyncError (option (BlockHash * Z))) :=
  match fuel with
  | O => None
  | S fuel =>
      let best_height := snd <$> best in
      let mid := midpoint oldest (default 0 best_height) in
      if bool_decide (Some mid = best_height) || bool_decide (mid = oldest) then Some (Ok best) else
      match getblockhash mid with
      | None => Some (Err JsonRpc)
      | Some h =>
          if contains_header (block_hashes db) h then best_ancestor_loop fuel db (Some (h, mid)) oldest
          else best_ancestor_loop fuel db best mid
      end
  end.

Definition fetch_best_ancestor (fuel : nat) (db : Dbs) (node_tip : BlockHash) (node_tip_height : Z) :
    option (outcome SyncError (option (BlockHash * Z))) :=
  if bool_decide (node_tip = all_zeros) then Some (Ok None) else
  if contains_header (block_hashes db) node_tip then Some (Ok (Some (node_tip, node_tip_height))) else
  best_ancestor_loop fuel db None node_tip_height.

(** ** sync_headers *)

Definition HEADER_FETCH_BATCH_SIZE : nat := 2000.

(** The batch loop, from [current]; each batch is committed. *)
(** [cancelled] is what [cancel.is_cancelled()] answers at each round. *)
Fixpoint sync_headers_loop (cancelled : nat → bool) (i fuel : nat) (main_tip : BlockHash) (main_tip_height : Z)
    (current : BlockHash) (current_height : Z) : st Dbs SyncError (option unit) :=
  match fuel with
  | O => mret None
  | S fuel =>
      _ ← st_lift (reject_if (cancelled i) Shutdown);
      missing ← st_lift (checked_u 32 (main_tip_height - current_height));
      headers_needed ← st_lift (checked_u 32 (missing + 1));
      let batch_size := Nat.min HEADER_FETCH_BATCH_SIZE (Z.to_nat headers_needed) in
      headers ← st_lift (ok_or (get_block_headers current batch_size) Rest);
      '(_, current, current_height) ← st_lift (ok_or (last headers) (BlockNotInActiveChain current));
      _ ← on_block_hashes (put_headers (map (λ '(hd, _, h), (hd, h)) headers));
      if bool_decide (current = main_tip) then mret (Some tt) else
      if bool_decide (current_height = main_tip_height)
      then st_lift (Err (BlockNotInActiveChain main_tip)) else
      sync_headers_loop cancelled (S i) fuel main_tip main_tip_height current current_height
  end.

(** [None] in the result: out of fuel. *)
Definition sync_headers (cancelled : nat → bool) (fuel : nat) (main_tip : BlockHash) : st Dbs SyncError (option unit) :=
  if bool_decide (main_tip = all_zeros) then mret (Some tt) else
  db ← st_get;
  main_tip_height ← st_lift (ok_or (getblockheader_height main_tip) JsonRpc);
  match fetch_best_ancestor fuel db main_tip main_tip_height with
  | None => mret None
  | Some o =>
      best_ancestor ← st_lift o;
      match best_ancestor with
      | Some (ancestor, height) =>
          if bool_decide (ancestor = main_tip) then mret (Some tt) else
          new_headers_needed ← st_lift (checked_u 32 (main_tip_height - height));
          sync_headers_loop cancelled 0 fuel main_tip main_tip_height ancestor height
      | None =>
          genesis ← st_lift (ok_or (getblockhash 0) JsonRpc);
          new_headers_needed ← st_lift (checked_u 32 (main_tip_height + 1));
          sync_headers_loop cancelled 0 fuel main_tip main_tip_height genesis 0
      end
  end.

(** ** handle_block_batch

    [trace]: whether the TRACE level is enabled, in which case the log statement
    looks the height up.  A rejected block ends the batch; its error stands for
    the formatted reason. *)
Definition connect_or_reject (self : BlockHandler) (clock : list Z) (block : Block) :
    st task_state SyncError (Event + ConnectBlockError) :=
  λ s, match on_db (connect_block self clock block) s with
       | (Ok event, s) => (Ok (inl event), s)
       | (Err e, s) => if is_fatal e then (Err (SyncConnectBlock e), s) else (Ok (inr e), s)
       | (Panic, s) => (Panic, s)
       end.

Fixpoint handle_block_batch (self : BlockHandler) (trace : bool) (clock : Block → list Z)
    (blocks : list Block) : st task_state SyncError (option (BlockHash * ConnectBlockError)) :=
  match blocks with
  | [] => mret None
  | block :: blocks =>
      let bh := block_hash (header block) in
      s ← st_get;
      _ ← st_lift (if (trace : bool) then _ ← ok_or (heights (block_hashes s.1) !! bh) (SyncDb DbGet); Ok tt
                   else Ok tt);
      r ← connect_or_reject self (clock block) block;
      match r with
      | inl event => _ ← broadcast [event]; handle_block_batch self trace clock blocks
      | inr e => mret (Some (bh, e))
      end
  end.

(** ** sync_blocks *)

Definition BLOCK_FETCH_BATCH_SIZE : nat := 50.

(** [while current_enforcer_tip != last_common_ancestor { disconnect .. }];
    [None] is out of fuel. *)
Fixpoint disconnect_loop (fuel : nat) (tip lca : BlockHash) : st task_state SyncError (option BlockHash) :=
  if bool_decide (tip = lca) then mret (Some tip) else
  match fuel with
  | O => mret None
  | S fuel =>
      evs ← st_map_err SyncDisconnectBlock (on_db (disconnect_block tip));
      _ ← broadcast evs;
      s ← st_get;
      disconnect_loop fuel (default all_zeros (current_chain_tip s.1)) lca
  end.

(** [ancestor_headers(main_tip).take_while(|h| h != tip).collect()], newest first;
    [None] is out of fuel. *)
Fixpoint missing_loop (fuel : nat) (db : BlockHashDbs) (bh tip : BlockHash) : option (list BlockHash) :=
  match fuel with
  | O => None
  | S fuel =>
      match ancestors_next db bh with
      | (None, _) => Some []
      | (Some (h, _), bh') =>
          if bool_decide (h = tip) then Some []
          else l ← missing_loop fuel db bh' tip; Some (h :: l)
      end
  end.

(** The chunk loop; [cancelled] is what [cancel.is_cancelled()] answers. *)
Fixpoint sync_chunks (self : BlockHandler) (trace : bool) (clock : Block → list Z) (cancelled : nat → bool)
    (i : nat) (chunks : list (list BlockHash)) :
    st task_state SyncError (option (BlockHash * ConnectBlockError)) :=
  match chunks with
  | [] => mret None
  | chunk :: chunks =>
      _ ← st_lift (reject_if (cancelled i) Shutdown);
      blocks ← st_lift (fetch_blocks_batch chunk);
      rejected ← write_txn (handle_block_batch self trace clock blocks);
      match rejected with
      | Some r => mret (Some r)
      | None => sync_chunks self trace clock cancelled (S i) chunks
      end
  end.

(** [slice::chunks(n)] *)
Fixpoint slice_chunks_fuel {A} (fuel n : nat) (l : list A) : list (list A) :=
  match fuel, l with
  | S fuel, _ :: _ => take n l :: slice_chunks_fuel fuel n (drop n l)
  | _, _ => []
  end.
Definition slice_chunks {A} (n : nat) (l : list A) : list (list A) := slice_chunks_fuel (length l) n l.

(** The fork point and the blocks to connect: the first block of [sync_blocks]. *)
Definition find_missing_blocks (fuel : nat) (main_tip : BlockHash) :
    st task_state SyncError (option (list BlockHash)) :=
  tip ← write_txn (
    s ← st_get;
    let tip := default all_zeros (current_chain_tip s.1) in
    lca ← st_lift (map_err SyncLastCommonAncestor
                     (last_common_ancestor (block_hashes s.1) tip main_tip));
    disconnect_loop fuel tip lca);
  s ← st_get;
  mret (tip ← tip; missing_loop fuel (block_hashes s.1) main_tip tip).

(** The block-file sync ([BlockFiles.sync_from_directory]) pops the hashes it has
    handled off the end of the list; [None] is out of fuel. *)
Definition block_file_sync : Type :=
  list BlockHash → task_state → option (outcome SyncError Z) * (list BlockHash * task_state).

(** Its error, if any, is logged, and the sync goes on with what is missing. *)
Definition run_file_sync (from_dir : option block_file_sync) (missing_blocks : list BlockHash) :
    st task_state SyncError (option (list BlockHash)) := λ s,
  match from_dir with
  | None => (Ok (Some missing_blocks), s)
  | Some f => match f missing_blocks s with
              | (None, (_, s)) => (Ok None, s)
              | (Some Panic, (_, s)) => (Panic, s)
              | (Some _, (l, s)) => (Ok (Some l), s)
              end
  end.

(** [from_dir] is [None] when no blocks directory is configured. *)
Definition sync_blocks (self : BlockHandler) (trace : bool) (clock : Block → list Z) (cancelled : nat → bool)
    (fuel : nat) (from_dir : option block_file_sync)
    (main_tip : BlockHash) :
    st task_state SyncError (option (option (BlockHash * ConnectBlockError))) :=
  missing ← find_missing_blocks fuel main_tip;
  match missing with
  | None => mret None
  | Some [] => mret (Some None)
  | Some missing_blocks =>
      missing_blocks ← run_file_sync from_dir missing_blocks;
      match missing_blocks with
      | None => mret None
      | Some missing_blocks =>
          r ← sync_chunks self trace clock cancelled 0
                (slice_chunks BLOCK_FETCH_BATCH_SIZE (rev missing_blocks));
          mret (Some r)
      end
  end.

(** The polls of the cancellation token, in the two loops. *)
Inductive cancel_poll := HeaderPoll (i : nat) | BlockPoll (i : nat).

Definition sync_to_tip (self : BlockHandler) (trace : bool) (clock : Block → list Z) (cancelled : cancel_poll → bool)
    (fuel : nat) (from_dir : option block_file_sync)
    (main_tip : BlockHash) :
    st task_state SyncError (option (option (BlockHash * ConnectBlockError))) :=
  synced ← on_db (sync_headers (λ i, cancelled (HeaderPoll i)) fuel main_tip);
  match synced with
  | None => mret None
  | Some _ => sync_blocks self trace clock (λ i, cancelled (BlockPoll i)) fuel from_dir main_tip
  end.
End sync.

(** * An example node *)

(** The chains of [BlockHandler]: [ex_block1] on top of [ex_block0], against a
    branch of one block. *)
Definition ex_fork_block : Block := mkBlock ex_b1 [ex_cb 3 [mkTxOut 100 []]].
Definition toy_node : NodeRpc := {|
  getblockhash k := nth_error [ex_hash ex_g; ex_hash ex_a1; ex_hash ex_a2] (Z.to_nat k);
  getblockheader_height h := if bool_decide (h = ex_hash ex_a2) then Some 2 else None;
  fetch_blocks_batch hs :=
    Ok (map (λ h, if bool_decide (h = ex_hash ex_b1) then ex_fork_block
                  else if bool_decide (h = ex_hash ex_a1) then ex_block1 else ex_block0) hs);
  get_block_headers h n :=
    Some (take n (if bool_decide (h = ex_hash ex_g)
      then [(ex_g, ex_hash ex_g, 0); (ex_a1, ex_hash ex_a1, 1); (ex_a2, ex_hash ex_a2, 2)]
      else if bool_decide (h = ex_hash ex_a1)
      then [(ex_a1, ex_hash ex_a1, 1); (ex_a2, ex_hash ex_a2, 2)]
      else [(ex_a2, ex_hash ex_a2, 2)]))
|}.
