(* ===== verification/SyncHeaders.v ===== *)
(** Header sync (`task/mod.rs`, [fetch_best_ancestor] and [sync_headers]): the
    binary search for the last block the enforcer and the node share is correct
    within 33 rounds, and the fetch loop stores the node's whole header chain. *)
From Stdlib Require Import ZArith Lia Strings.Byte.
From stdpp Require Import base list gmap.
From S2P Require Import Prelude Bitcoin Concrete Limits P2mrOutput Spend P2mrUtxo Pqc Dbs.
From S2P Require Import ParseBlockFiles BlockHandler Sync.
#[local] Open Scope Z_scope.

(** * The binary search *)
Section best_ancestor.
Context `{NodeRpc}.

(** What the search relies on: the node's best chain up to [node_tip_height]. *)
Record node_chain (hash_at : Z → BlockHash) (node_tip : BlockHash) (tip_height : Z) : Prop := {
  nc_tip : hash_at tip_height = node_tip;
  nc_rpc k : 0 ≤ k ≤ tip_height → getblockhash k = Some (hash_at k);
  nc_height : in_u 32 tip_height
}.

Definition known_at (db : Dbs) (hash_at : Z → BlockHash) (k : Z) : Prop :=
  contains_header (block_hashes db) (hash_at k) = true.

(** The stored headers of the node's chain are a prefix of it. *)
Definition prefix_known (db : Dbs) (hash_at : Z → BlockHash) (tip_height : Z) : Prop :=
  ∀ j k, 0 ≤ j ≤ k → k ≤ tip_height → known_at db hash_at k → known_at db hash_at j.

(** [r] is the highest known block of the node's chain. *)
Definition is_best_ancestor (db : Dbs) (hash_at : Z → BlockHash) (tip_height : Z)
    (r : option (BlockHash * Z)) : Prop :=
  match r with
  | Some (h, k) => 0 ≤ k ≤ tip_height ∧ h = hash_at k ∧ known_at db hash_at k
                   ∧ ∀ j, k < j ≤ tip_height → ¬ known_at db hash_at j
  | None => ∀ j, 0 ≤ j ≤ tip_height → ¬ known_at db hash_at j
  end.

(** The loop's invariant: the answer is between [best] and [oldest], and [fuel]
    rounds halve the distance to nothing. *)
Definition search_inv (db : Dbs) hash_at tip_height (fuel : nat) (best : option (BlockHash * Z)) (oldest : Z) : Prop :=
  0 ≤ oldest ≤ tip_height ∧ ¬ known_at db hash_at oldest ∧
  match best with
  | Some (h, k) => 0 ≤ k < oldest ∧ h = hash_at k ∧ known_at db hash_at k
                   ∧ oldest - k ≤ 2 ^ (Z.of_nat fuel - 1)
  | None => oldest < 2 ^ (Z.of_nat fuel - 1)
  end.

Lemma pow2_pred (n : nat) : 2 * 2 ^ (Z.of_nat (S (S n)) - 1 - 1) = 2 ^ (Z.of_nat (S (S n)) - 1).
Proof. rewrite <- Z.pow_succ_r by lia. f_equal. lia. Qed.

Lemma best_ancestor_loop_Ok db hash_at node_tip tip_height fuel best oldest :
  node_chain hash_at node_tip tip_height → prefix_known db hash_at tip_height → (0 < fuel)%nat →
  search_inv db hash_at tip_height fuel best oldest →
  ∃ r, best_ancestor_loop fuel db best oldest = Some (Ok r) ∧ is_best_ancestor db hash_at tip_height r.
Proof.
  intros [_ Hrpc _] Hpre. revert best oldest. induction fuel as [|fuel IH]; [lia|].
  intros best oldest _ (Hold & Hno & Hbest). cbn [best_ancestor_loop].
  assert (∀ j, oldest ≤ j ≤ tip_height → ¬ known_at db hash_at j) as Habove.
  { intros j Hj Hk. apply Hno. by apply (Hpre oldest j); [lia|lia|]. }
  set (lo := default 0 (snd <$> best)).
  assert (0 ≤ lo) as Hlo by (subst lo; destruct best as [[??]|]; cbn; lia).
  assert (lo ≤ oldest) as Hle by (subst lo; destruct best as [[??]|]; cbn; lia).
  assert (midpoint oldest lo = lo + (oldest - lo) / 2) as Hmid.
  { unfold midpoint. replace (oldest + lo) with (oldest - lo + lo * 2) by lia.
    rewrite Z.div_add by lia. lia. }
  pose proof (Z.div_mod (oldest - lo) 2 ltac:(lia)) as Hdm.
  pose proof (Z.mod_pos_bound (oldest - lo) 2 ltac:(lia)) as Hmb.
  set (mid := midpoint oldest lo) in *.
  destruct (bool_decide (Some mid = snd <$> best) || bool_decide (mid = oldest)) eqn:Hstop.
  - exists best. split; [done|]. apply orb_true_iff in Hstop as [Hs|Hs]; apply bool_decide_eq_true_1 in Hs.
    + destruct best as [[h k]|]; cbn in Hs; [|done]. injection Hs as Hs. cbn in lo. subst lo.
      destruct Hbest as (? & -> & Hk & _). split_and!; [lia|lia|done|done|]. intros j Hj. apply Habove. lia.
    + destruct best as [[h k]|]; cbn in lo; subst lo; [lia|]. intros j Hj. apply Habove. lia.
  - apply orb_false_iff in Hstop as [Hs1 Hs2].
    apply bool_decide_eq_false_1 in Hs1, Hs2. rewrite Hrpc by lia.
    destruct fuel as [|fuel].
    { exfalso. change (2 ^ (Z.of_nat 1 - 1)) with 1 in Hbest.
      destruct best as [[h k]|]; cbn in lo, Hs1; subst lo; [|lia]. apply Hs1. f_equal. lia. }
    pose proof (pow2_pred fuel) as Hpow.
    replace (Z.of_nat (S (S fuel)) - 1 - 1) with (Z.of_nat (S fuel) - 1) in Hpow by lia.
    destruct (contains_header (block_hashes db) (hash_at mid)) eqn:Hc.
    + apply IH; [lia|]. split_and!; [lia|lia|done|lia|lia|done|done|].
      destruct best as [[h k]|]; cbn in lo; subst lo; lia.
    + apply IH; [lia|]. split_and!; [lia|lia|by unfold known_at; rewrite Hc|].
      destruct best as [[h k]|]; cbn in lo; subst lo; [|lia].
      destruct Hbest as (? & -> & Hk & ?). split_and!; [lia| |done|done|lia].
      cbn in Hs1. assert (mid ≠ k) by congruence. lia.
Qed.
End best_ancestor.

Lemma fetch_best_ancestor_Ok `{NodeRpc} fuel db hash_at node_tip tip_height :
  node_chain hash_at node_tip tip_height → prefix_known db hash_at tip_height →
  node_tip ≠ all_zeros → (33 ≤ fuel)%nat →
  ∃ r, fetch_best_ancestor fuel db node_tip tip_height = Some (Ok r)
       ∧ is_best_ancestor db hash_at tip_height r.
Proof.
  intros Hnc Hpre Hz Hfuel. unfold fetch_best_ancestor. rewrite bool_decide_false by done.
  pose proof Hnc as [Htip _ Hu]. unfold in_u in Hu.
  destruct (contains_header (block_hashes db) node_tip) eqn:Hc.
  - eexists. split; [done|]. split_and!; [lia|lia|done| |lia]. unfold known_at. by rewrite Htip.
  - apply (best_ancestor_loop_Ok db hash_at node_tip tip_height); [done|done|lia|].
    split_and!; [lia|lia| |]. { unfold known_at. by rewrite Htip, Hc. }
    apply (Z.lt_le_trans _ (2 ^ 32)); [lia|]. apply Z.pow_le_mono_r; lia.
Qed.

(** The binary search for the fork with the node is correct and makes at most
    33 rounds: when the node answers with its best chain and the headers stored
    from that chain are a prefix of it, it finds the highest stored block of the
    chain, or [None] if there is none. *)
Lemma fetch_best_ancestor_correct `{NodeRpc} db hash_at node_tip tip_height :
  node_chain hash_at node_tip tip_height → prefix_known db hash_at tip_height →
  node_tip ≠ all_zeros →
  ∃ r, fetch_best_ancestor 33 db node_tip tip_height = Some (Ok r)
       ∧ is_best_ancestor db hash_at tip_height r.
Proof. intros. by apply (fetch_best_ancestor_Ok 33 _ _ node_tip). Qed.

(** * Header sync *)
Section header_sync.
Context `{HashLib} `{ScriptLib} `{TxLib} `{TaprootLib} `{P2mrLib} `{PqcLib} `{NodeRpc}.

(** A chain of headers, oldest first. *)
Record linked_headers (hs : list Header) : Prop := {
  lh_genesis hd : hs !! 0%nat = Some hd → prev_blockhash hd = all_zeros;
  lh_link k hd hd' : hs !! k = Some hd → hs !! S k = Some hd' → prev_blockhash hd' = block_hash hd;
  lh_nodup : NoDup (map block_hash hs);
  lh_nonzero k hd : hs !! k = Some hd → block_hash hd ≠ all_zeros
}.

(** [l], the headers from height [k], as the REST endpoint returns them. *)
Fixpoint segment (k : nat) (l : list Header) : list (Header * BlockHash * Z) :=
  match l with
  | [] => []
  | hd :: l => (hd, block_hash hd, Z.of_nat k) :: segment (S k) l
  end.

(** The node answers from a chain that starts with [hs]. *)
Record honest_headers (hs : list Header) : Prop := {
  hh_hash k hd : hs !! k = Some hd → getblockhash (Z.of_nat k) = Some (block_hash hd);
  hh_batch k hd n : hs !! k = Some hd → (k + n ≤ length hs)%nat →
    get_block_headers (block_hash hd) n = Some (segment k (take n (drop k hs)));
  hh_height hd : last hs = Some hd → getblockheader_height (block_hash hd) = Some (len hs - 1)
}.

(** The stored headers do not collide with the chain's. *)
Definition no_clash (db : BlockHashDbs) (hs : list Header) : Prop :=
  ∀ k hd hd', hs !! k = Some hd → headers db !! block_hash hd = Some hd' → hd' = hd.

(** The first [n] headers are stored, at their heights. *)
Definition stored_upto (db : BlockHashDbs) (hs : list Header) (n : nat) : Prop :=
  ∀ k hd, (k < n)%nat → hs !! k = Some hd →
    headers db !! block_hash hd = Some hd ∧ heights db !! block_hash hd = Some (Z.of_nat k).

Lemma linked_inj hs j k hd hd' :
  linked_headers hs → hs !! j = Some hd → hs !! k = Some hd' → block_hash hd = block_hash hd' → j = k.
Proof.
  intros Hl Hj Hk He. eapply (NoDup_lookup (map block_hash hs)); [by apply lh_nodup| |].
  - rewrite list_lookup_fmap, Hj. reflexivity.
  - rewrite list_lookup_fmap, Hk. cbn. by rewrite He.
Qed.

Lemma put_one_upto db hs n k hd :
  headers_wf db → linked_headers hs → no_clash db hs → stored_upto db hs n → (k ≤ n)%nat →
  hs !! k = Some hd →
  fits db hd (Z.of_nat k) ∧ no_clash (put_one db hd (Z.of_nat k)) hs
  ∧ stored_upto (put_one db hd (Z.of_nat k)) hs (Nat.max n (S k)).
Proof.
  intros Hwf Hl Hnc Hst Hle Hk.
  assert (fits db hd (Z.of_nat k)) as Hfit.
  { split_and!; [by eapply lh_nonzero|by intros hd'; apply Hnc with k| |].
    - intros Hz. destruct k as [|k]; [done|]. destruct (lookup_lt_is_Some_2 hs k) as [p Hp].
      { apply lookup_lt_Some in Hk. lia. }
      rewrite (lh_link _ Hl _ _ _ Hp Hk) in Hz. by apply (lh_nonzero _ Hl) in Hp.
    - intros Hz. destruct k as [|k]; [by apply (lh_genesis _ Hl) in Hk|].
      destruct (lookup_lt_is_Some_2 hs k) as [p Hp]; [apply lookup_lt_Some in Hk; lia|].
      rewrite (lh_link _ Hl _ _ _ Hp Hk). destruct (Hst k p ltac:(lia) Hp) as [_ Hh].
      split_and!; [lia| |by rewrite Hh; do 2 f_equal; lia].
      intros He. pose proof (linked_inj hs k (S k) p hd Hl Hp Hk He). lia. }
  split; [done|]. split.
  - intros j hj hj' Hj. rewrite put_one_headers. intros [[He <-]|[_ Hh]]%lookup_insert_Some; [|by eapply Hnc].
    rewrite (linked_inj hs k j hd hj Hl Hk Hj He) in Hk. congruence.
  - intros j hj Hj Hhj. rewrite put_one_headers, put_one_heights by done.
    destruct (decide (j = k)) as [->|Hne].
    + assert (hj = hd) as -> by congruence. by rewrite !lookup_insert_eq.
    + assert (block_hash hd ≠ block_hash hj) as Hneq.
      { intros He. apply Hne. symmetry. by eapply linked_inj. }
      rewrite !lookup_insert_ne by done. apply Hst; [lia|done].
Qed.

Lemma put_segment hs n k l db :
  headers_wf db → linked_headers hs → no_clash db hs → stored_upto db hs n → (k ≤ n)%nat →
  (∀ i hd, l !! i = Some hd → hs !! (k + i)%nat = Some hd) →
  let ps := map (λ '(hd, _, h), (hd, h)) (segment k l) in
  let db' := foldl (λ d p, put_one d p.1 p.2) db ps in
  all_fit db ps ∧ headers_wf db' ∧ no_clash db' hs ∧ stored_upto db' hs (Nat.max n (k + length l)).
Proof.
  revert n k db. induction l as [|hd l IH]; intros n k db Hwf Hl Hnc Hst Hle Hin.
  - cbn. split_and!; [done..|]. by rewrite Nat.add_0_r, Nat.max_l by lia.
  - assert (hs !! k = Some hd) as Hk by (rewrite <- (Nat.add_0_r k); by apply Hin).
    destruct (put_one_upto db hs n k hd Hwf Hl Hnc Hst Hle Hk) as (Hfit & Hnc' & Hst').
    destruct (IH (Nat.max n (S k)) (S k) (put_one db hd (Z.of_nat k))) as (Hf & Hw & Hn & Hs);
      [by apply put_one_wf|done|done|done|lia| |].
    { intros i hi Hi. replace (S k + i)%nat with (k + S i)%nat by lia. by apply Hin. }
    cbn [segment map foldl fst snd all_fit length]. split_and!; [done|done|done|done|].
    by replace (Nat.max n (k + S (length l))) with (Nat.max (Nat.max n (S k)) (S k + length l)) by lia.
Qed.

Lemma last_segment k l :
  last (segment k l) = (λ hd, (hd, block_hash hd, Z.of_nat (k + length l) - 1)) <$> last l.
Proof.
  revert k. induction l as [|hd l IH]; intros k; [done|]. destruct l as [|hd' l].
  - cbn. do 2 f_equal. lia.
  - cbn [segment]. cbn [segment] in IH. rewrite !last_cons_cons, IH. cbn [length].
    destruct (last (hd' :: l)); [|done]. cbn. do 2 f_equal. lia.
Qed.

(** A stored header of the chain has all its predecessors stored. *)
Lemma known_stored_upto db hs k hd :
  headers_wf db → linked_headers hs → no_clash db hs → hs !! k = Some hd →
  is_Some (headers db !! block_hash hd) → stored_upto db hs (S k).
Proof.
  intros Hwf Hl Hnc. revert hd. induction k as [|k IH]; intros hd Hk [hd' Hhd];
    pose proof (Hnc _ _ _ Hk Hhd) as ->.
  - intros [|j] hj Hj Hhj; [|lia]. assert (hj = hd) as -> by congruence. split; [done|].
    eapply wf_genesis; [done|done|by eapply lh_genesis].
  - destruct (lookup_lt_is_Some_2 hs k) as [p Hp]; [apply lookup_lt_Some in Hk; lia|].
    pose proof (lh_link _ Hl _ _ _ Hp Hk) as Hlink.
    assert (prev_blockhash hd ≠ all_zeros) as Hnz by (rewrite Hlink; by eapply lh_nonzero).
    destruct (wf_parent _ Hwf _ _ Hhd Hnz) as [Hpar (h & _ & Hh & Hh')]. rewrite Hlink in Hpar, Hh.
    pose proof (IH p Hp Hpar) as Hst. intros j hj Hj Hhj. destruct (decide (j = S k)) as [->|?].
    + assert (hj = hd) as -> by congruence. split; [done|].
      destruct (Hst k p ltac:(lia) Hp) as [_ Hhk]. rewrite Hh' . f_equal.
      assert (h = Z.of_nat k) by congruence. lia.
    + apply Hst; [lia|done].
Qed.

(** The header table [b] grew out of [db] by storing headers on known parents. *)
Definition header_growth (db b : BlockHashDbs) : Prop :=
  ∃ ps, all_fit db ps ∧ b = foldl (λ d p, put_one d p.1 p.2) db ps.

Lemma header_growth_refl db : header_growth db db.
Proof. by exists []. Qed.
Lemma header_growth_trans db b b' : header_growth db b → header_growth b b' → header_growth db b'.
Proof.
  intros (ps & Hps & ->) (qs & Hqs & ->). exists (ps ++ qs). rewrite foldl_app. split; [|done].
  clear -Hps Hqs. revert db Hps Hqs. induction ps as [|p ps IH]; intros db Hps Hqs; [done|].
  destruct p as [hd h]. destruct Hps as [Hp Hps]. split; [done|]. by apply IH.
Qed.

(** How a header sync ends: with every header of the chain stored, or cancelled; the
    headers only grow, and the rest of the databases is untouched. *)
Definition header_sync_outcome (cancelled : nat → bool) hs db (r : outcome SyncError (option unit) * Dbs) : Prop :=
  ∃ b, headers_wf b ∧ header_growth (block_hashes db) b
    ∧ (r = (Ok (Some tt), mkDbs b (current_chain_tip db) (p2mr_utxos db)) ∧ stored_upto b hs (length hs)
       ∨ r = (Err Shutdown, mkDbs b (current_chain_tip db) (p2mr_utxos db)) ∧ ∃ i, cancelled i = true).

Lemma sync_headers_loop_Ok cancelled n hs main fuel k hd db :
  linked_headers hs → honest_headers hs → last hs = Some main → in_u 32 (len hs) →
  headers_wf (block_hashes db) → no_clash (block_hashes db) hs → stored_upto (block_hashes db) hs k →
  hs !! k = Some hd → (length hs - k < fuel)%nat →
  header_sync_outcome cancelled hs db
    (sync_headers_loop cancelled n fuel (block_hash main) (len hs - 1) (block_hash hd) (Z.of_nat k) db).
Proof.
  intros Hl Hh Hmain Hu. revert n k hd db. induction fuel as [|fuel IH]; intros n k hd db Hwf Hnc Hst Hk Hfuel; [lia|].
  pose proof (lookup_lt_Some _ _ _ Hk) as Hlt.
  set (m := Nat.min HEADER_FETCH_BATCH_SIZE (Z.to_nat (len hs - 1 - Z.of_nat k + 1))).
  assert (m = Nat.min HEADER_FETCH_BATCH_SIZE (length hs - k)) as Hm by (subst m; f_equal; unfold len; lia).
  assert (∀ i x, take m (drop k hs) !! i = Some x → hs !! (k + i)%nat = Some x) as Hin.
  { intros i x [Hi _]%lookup_take_Some. by rewrite lookup_drop in Hi. }
  destruct (put_segment hs k k (take m (drop k hs)) (block_hashes db) Hwf Hl Hnc Hst ltac:(lia) Hin)
    as (Hfit & Hwf' & Hnc' & Hst').
  assert (length (take m (drop k hs)) = m) as Hlen.
  { rewrite length_take, length_drop. unfold HEADER_FETCH_BATCH_SIZE in Hm. lia. }
  rewrite Hlen in Hst'. rewrite Nat.max_r in Hst' by lia.
  assert (0 < m)%nat as Hmpos by (unfold HEADER_FETCH_BATCH_SIZE in Hm; lia).
  destruct (lookup_lt_is_Some_2 hs (k + m - 1)) as [x Hx]; [lia|].
  assert (last (take m (drop k hs)) = Some x) as Hlast.
  { rewrite last_lookup, Hlen, lookup_take_lt by lia. rewrite lookup_drop.
    by replace (k + Nat.pred m)%nat with (k + m - 1)%nat by lia. }
  cbn [sync_headers_loop]. unfold mbind at 1, st_bind at 1, st_lift at 1.
  destruct (cancelled n) eqn:Hcancel; cbn [reject_if].
  { exists (block_hashes db). split_and!; [done|apply header_growth_refl|]. right. split; [by destruct db|by exists n]. }
  unfold mbind at 1, st_bind at 1, st_lift at 1. rewrite checked_u_Ok by (unfold in_u, len in *; lia).
  unfold mbind at 1, st_bind at 1, st_lift at 1. rewrite checked_u_Ok by (unfold in_u, len in *; lia). fold m.
  unfold mbind at 1, st_bind at 1, st_lift. rewrite (hh_batch _ Hh _ _ m Hk) by lia. cbn [ok_or].
  unfold mbind at 1, st_bind at 1. rewrite last_segment, Hlast, Hlen. cbn [fmap option_fmap option_map ok_or].
  unfold mbind at 1, st_bind at 1, on_block_hashes. rewrite put_headers_Ok by done. cbn [block_hashes].
  set (b := foldl _ _ _) in *.
  assert (header_growth (block_hashes db) b) as Hgrow by (by eexists).
  assert (last hs = hs !! (length hs - 1)%nat) as Hlasths by (rewrite last_lookup; f_equal; lia).
  destruct (decide (k + m = length hs)%nat) as [Hend|Hmore].
  - assert (x = main) as -> by (rewrite Hlasths, <- Hend in Hmain; congruence).
    rewrite bool_decide_true by done. exists b. split_and!; [done|done|]. left. split; [done|]. by rewrite <- Hend.
  - assert (k + m < length hs)%nat as Hlt2 by (unfold HEADER_FETCH_BATCH_SIZE in Hm; lia).
    assert (m = HEADER_FETCH_BATCH_SIZE) as Hfull by lia.
    rewrite bool_decide_false.
    2: { intros He. rewrite Hlasths in Hmain.
         pose proof (linked_inj _ _ _ _ _ Hl Hx Hmain He). lia. }
    rewrite bool_decide_false by (unfold len; lia).
    replace (Z.of_nat (k + m) - 1) with (Z.of_nat (k + m - 1)) by lia.
    destruct (IH (S n) (k + m - 1)%nat x (mkDbs b (current_chain_tip db) (p2mr_utxos db))) as (b' & Hb' & Hgrow' & Hrun);
      [done|done| |done| |].
    + intros j hj Hj. apply Hst'. lia.
    + rewrite Hfull. unfold HEADER_FETCH_BATCH_SIZE. lia.
    + exists b'. split_and!; [done|by eapply header_growth_trans|done].
Qed.


(** The header sync, against an honest node. *)
Lemma sync_headers_Ok cancelled fuel hs main db :
  linked_headers hs → honest_headers hs → last hs = Some main → in_u 32 (len hs) →
  headers_wf (block_hashes db) → no_clash (block_hashes db) hs →
  (33 ≤ fuel)%nat → (length hs < fuel)%nat →
  header_sync_outcome cancelled hs db (sync_headers cancelled fuel (block_hash main) db).
Proof.
  intros Hl Hh Hmain Hu Hwf Hnc Hf Hlen.
  assert (hs !! (length hs - 1)%nat = Some main) as Hmain'.
  { rewrite last_lookup in Hmain. by replace (length hs - 1)%nat with (Nat.pred (length hs)) by lia. }
  pose proof (lookup_lt_Some _ _ _ Hmain') as Hlt.
  pose proof (lh_nonzero _ Hl _ _ Hmain') as Hnz.
  set (hash_at := λ k : Z, from_option block_hash all_zeros (hs !! Z.to_nat k)).
  assert (node_chain hash_at (block_hash main) (len hs - 1)) as Hnode.
  { split; [|intros k Hk|unfold in_u, len in *; lia].
    - unfold hash_at. replace (Z.to_nat (len hs - 1)) with (length hs - 1)%nat by (unfold len; lia).
      by rewrite Hmain'.
    - unfold hash_at, len in *. destruct (lookup_lt_is_Some_2 hs (Z.to_nat k)) as [hd Hk']; [lia|].
      rewrite Hk'. cbn. rewrite <- (hh_hash _ Hh _ _ Hk'). f_equal. lia. }
  assert (∀ k, known_at db hash_at k → 0 ≤ k ≤ len hs - 1 →
            ∃ hd, hs !! Z.to_nat k = Some hd ∧ stored_upto (block_hashes db) hs (S (Z.to_nat k))) as Hkn.
  { intros k Hk Hb. unfold len in Hb. destruct (lookup_lt_is_Some_2 hs (Z.to_nat k)) as [hd Hhd]; [lia|].
    exists hd. split; [done|]. apply (known_stored_upto _ hs _ hd); [done..|].
    unfold known_at, hash_at, contains_header in Hk. rewrite Hhd in Hk. by apply bool_decide_eq_true_1 in Hk. }
  assert (prefix_known db hash_at (len hs - 1)) as Hpre.
  { intros j k Hj Hk Hkk. destruct (Hkn k Hkk ltac:(lia)) as (_ & _ & Hst).
    unfold len in Hk. destruct (lookup_lt_is_Some_2 hs (Z.to_nat j)) as [hd Hhd]; [lia|].
    destruct (Hst (Z.to_nat j) hd ltac:(lia) Hhd) as [Hin _]. unfold known_at, hash_at, contains_header.
    rewrite Hhd. cbn. rewrite Hin. done. }
  destruct (fetch_best_ancestor_Ok fuel db hash_at _ _ Hnode Hpre Hnz Hf) as (r & Hr & Hbest).
  unfold sync_headers. rewrite bool_decide_false by done.
  unfold mbind, st_bind, st_get, st_lift. rewrite (hh_height _ Hh _ Hmain). cbn [ok_or]. rewrite Hr.
  destruct r as [[a k]|].
  - destruct Hbest as (Hk & -> & Hkk & _). destruct (Hkn k Hkk Hk) as (hd & Hhd & Hst).
    assert (hash_at k = block_hash hd) as -> by (unfold hash_at; by rewrite Hhd).
    destruct (decide (block_hash hd = block_hash main)) as [He|Hne].
    + rewrite bool_decide_true by done. exists (block_hashes db). split_and!; [done|apply header_growth_refl|].
      left. split; [by destruct db|].
      pose proof (linked_inj hs _ _ _ _ Hl Hhd Hmain' He) as Hkl. intros j hj Hj. apply Hst. lia.
    + rewrite bool_decide_false by done.
      assert (stored_upto (block_hashes db) hs (Z.to_nat k)) as Hst' by (intros j hj Hj; apply Hst; lia).
      rewrite checked_u_Ok by (unfold in_u, len in *; lia).
      pose proof (sync_headers_loop_Ok cancelled 0 hs main fuel (Z.to_nat k) hd db Hl Hh Hmain Hu Hwf Hnc Hst' Hhd
                    ltac:(lia)) as Hloop. by rewrite Z2Nat.id in Hloop by lia.
  - destruct hs as [|g hs']; [done|].
    pose proof (hh_hash _ Hh 0%nat g eq_refl) as Hg. change (Z.of_nat 0) with 0 in Hg. rewrite Hg. cbn [ok_or].
    rewrite checked_u_Ok by (unfold in_u, len in *; lia).
    apply (sync_headers_loop_Ok cancelled 0 _ main fuel 0 g);
      [done..| |done|lia]. intros j hj Hj. lia.
Qed.
End header_sync.

(** C31: header sync is complete and terminates: against a node that serves a
    linked chain of headers, from a consistent header table, [sync_headers] to the
    node's tip, unless cancelled, returns [Ok], every header of the chain is stored at its height,
    the table is still consistent, and the chain tip and P2MR set are untouched. *)
Theorem sync_headers_complete `{TxLib} `{NodeRpc} cancelled fuel hs main db :
  linked_headers hs → honest_headers hs → last hs = Some main → in_u 32 (len hs) →
  headers_wf (block_hashes db) → no_clash (block_hashes db) hs →
  (33 ≤ fuel)%nat → (length hs < fuel)%nat → (∀ i, cancelled i = false) →
  ∃ b, sync_headers cancelled fuel (block_hash main) db
       = (Ok (Some tt), mkDbs b (current_chain_tip db) (p2mr_utxos db))
    ∧ headers_wf b ∧ stored_upto b hs (length hs).
Proof.
  intros Hl Hh Hmain Hu Hwf Hnc Hf Hlen Hcancel.
  destruct (sync_headers_Ok cancelled fuel hs main db Hl Hh Hmain Hu Hwf Hnc Hf Hlen) as (b & ? & _ & [[? ?]|[_ [i Hi]]]).
  - by exists b.
  - by rewrite Hcancel in Hi.
Qed.

(** The loop does not check that a round makes progress: against a node whose chain
    ends at the header asked for, as it does after a reorganisation to a shorter chain
    during the sync, it repeats the same request until it is cancelled. *)
Lemma sync_headers_loop_stalls `{TxLib} `{NodeRpc} cancelled i fuel main_tip main_tip_height current height hd db :
  (∀ n, (0 < n)%nat → get_block_headers current n = Some [(hd, current, height)]) →
  on_block_hashes (E := SyncError) (put_headers [(hd, height)]) db = (Ok tt, db) →
  current ≠ main_tip → 0 ≤ height < main_tip_height → in_u 32 (main_tip_height + 1) → (∀ j, cancelled j = false) →
  sync_headers_loop cancelled i fuel main_tip main_tip_height current height db = (Ok None, db).
Proof.
  intros Hget Hput Hne Hh Hu Hc. revert i. induction fuel as [|fuel IH]; intros i; [done|]. cbn [sync_headers_loop].
  unfold mbind at 1, st_bind at 1, st_lift at 1. rewrite Hc. cbn [reject_if].
  do 2 (unfold mbind at 1, st_bind at 1, st_lift at 1; rewrite checked_u_Ok by (unfold in_u in *; lia)).
  unfold mbind at 1, st_bind at 1, st_lift at 1. rewrite Hget.
  2: { unfold HEADER_FETCH_BATCH_SIZE. lia. }
  cbn [ok_or last]. unfold mbind at 1, st_bind at 1, st_lift at 1. cbn [map].
  unfold mbind at 1, st_bind at 1. rewrite Hput. rewrite !bool_decide_false by (done || lia). apply IH.
Qed.

(** * Witnesses *)

(** Databases that know the genesis header and the one above it. *)
Definition ex_short_db : Dbs :=
  mkDbs (foldl (λ db p, @put_one toy_tx db p.1 p.2) (mkBlockHashDbs ∅ ∅ ∅ ∅ ∅) [(ex_g, 0); (ex_a1, 1)])
    None ∅.
Definition ex_hash_at (k : Z) : BlockHash :=
  if k =? 0 then ex_hash ex_g else if k =? 1 then ex_hash ex_a1 else ex_hash ex_a2.

Lemma fetch_best_ancestor_correct_witness :
  ∃ r, @fetch_best_ancestor toy_node 33 ex_short_db (ex_hash ex_a2) 2 = Some (Ok r)
       ∧ is_best_ancestor ex_short_db ex_hash_at 2 r.
Proof.
  apply (@fetch_best_ancestor_correct toy_node ex_short_db ex_hash_at (ex_hash ex_a2) 2).
  - split; [reflexivity| |split; [lia|vm_compute; reflexivity]]. intros k Hk.
    assert (k = 0 ∨ k = 1 ∨ k = 2) as [->|[->| ->]] by lia; reflexivity.
  - intros j k Hj Hk. assert (k = 0 ∨ k = 1 ∨ k = 2) as [->|[->| ->]] by lia;
      assert (j = 0 ∨ j = 1 ∨ j = 2) as [->|[->| ->]] by lia; try lia; intros Hkn; try exact Hkn;
      vm_compute in Hkn |- *; first [reflexivity|discriminate].
  - vm_compute. discriminate.
Defined.

(** The node's chain of [toy_node], synced to from the short database. *)
Lemma sync_headers_complete_witness :
  ∃ b, @sync_headers toy_tx toy_node (λ _, false) 40 (ex_hash ex_a2) ex_short_db = (Ok (Some tt), mkDbs b None ∅)
    ∧ @headers_wf toy_tx b ∧ @stored_upto toy_tx b [ex_g; ex_a1; ex_a2] 3.
Proof.
  apply (@sync_headers_complete toy_tx toy_node (λ _, false) 40 [ex_g; ex_a1; ex_a2] ex_a2 ex_short_db).
  - split.
    + intros hd [= <-]. reflexivity.
    + intros [|[|k]] hd hd' Hk Hk'; cbn in Hk, Hk'; simplify_eq; vm_compute; reflexivity.
    + apply (bool_decide_eq_true_1 _). vm_compute. reflexivity.
    + intros [|[|[|k]]] hd Hk; cbn in Hk; simplify_eq; vm_compute; discriminate.
  - split.
    + intros [|[|[|k]]] hd Hk; cbn in Hk; simplify_eq; reflexivity.
    + intros [|[|[|k]]] hd n Hk; cbn in Hk; simplify_eq.
      * destruct n as [|[|[|[|n]]]]; reflexivity.
      * destruct n as [|[|[|n]]]; reflexivity.
      * destruct n as [|[|n]]; reflexivity.
    + intros hd [= <-]. vm_compute. reflexivity.
  - reflexivity.
  - split; vm_compute; [discriminate|reflexivity].
  - apply put_all_wf; [apply headers_wf_empty|]. apply all_fit_b_sound. vm_compute. reflexivity.
  - intros [|[|[|k]]] hd hd' Hk; cbn in Hk; simplify_eq; vm_compute; intros; by simplify_eq.
  - lia.
  - cbn. lia.
  - reflexivity.
Defined.

(** A node that has gone back to the header the database has. *)
Definition ex_short_node : NodeRpc := {|
  getblockhash _ := None;
  getblockheader_height _ := None;
  fetch_blocks_batch _ := Err SyncDecode;
  get_block_headers _ _ := Some [(ex_a1, ex_hash ex_a1, 1)]
|}.
Lemma sync_headers_loop_stalls_witness fuel :
  @sync_headers_loop toy_tx ex_short_node (λ _, false) 0 fuel (ex_hash ex_a2) 2 (ex_hash ex_a1) 1 ex_short_db
  = (Ok None, ex_short_db).
Proof.
  apply (@sync_headers_loop_stalls toy_tx ex_short_node (λ _, false) 0 fuel (ex_hash ex_a2) 2 (ex_hash ex_a1) 1 ex_a1).
  - reflexivity.
  - vm_compute. reflexivity.
  - vm_compute. discriminate.
  - lia.
  - unfold in_u. lia.
  - reflexivity.
Defined.
