(* ===== verification/SyncBlocks.v ===== *)
(** Block sync (`task/mod.rs`, [sync_blocks] and [handle_block_batch]): following
    the node's chain through a reorganisation, with what the block-file sync must
    provide stated as [file_sync_spec]. *)
From Stdlib Require Import ZArith Lia Strings.Byte.
From stdpp Require Import base list gmap.
From S2P Require Import Prelude Bitcoin Concrete Limits P2mrOutput Spend P2mrUtxo Pqc Dbs.
From S2P Require Import ParseBlockFiles BlockHandler Sync.
#[local] Open Scope Z_scope.

(** * Following a reorganisation *)
Abbreviation hash_of := (λ b : Block, block_hash (header b)).
Section reorg.
Context `{HashLib} `{ScriptLib} `{TxLib} `{TaprootLib} `{P2mrLib} `{PqcLib} `{NodeRpc}.
Implicit Types (db : Dbs) (chain : list Block).

Definition tip_hash (chain : list Block) : BlockHash := default all_zeros (tip_of chain).

(** The headers of a chain (tip first) are stored and linked. *)
Fixpoint chain_linked (db : BlockHashDbs) (chain : list Block) : Prop :=
  match chain with
  | [] => True
  | b :: rest => headers db !! block_hash (header b) = Some (header b)
                 ∧ prev_blockhash (header b) = tip_hash rest ∧ chain_linked db rest
  end.

Lemma chain_stored_linked (db : BlockHashDbs) chain : chain_stored db chain → chain_linked db chain.
Proof.
  induction chain as [|b rest IH]; [done|]. intros (Hh & Hp & _ & _ & _ & _ & Hr).
  split_and!; [done|done|by apply IH].
Qed.

Lemma chain_linked_app (db : BlockHashDbs) l chain : chain_linked db (l ++ chain) → chain_linked db chain.
Proof. induction l as [|b l IH]; [done|]. intros (_ & _ & Hr). by apply IH. Qed.

Lemma tip_at_height (db : BlockHashDbs) chain :
  headers_wf db → chain_linked db chain → at_height db (tip_hash chain) (len chain - 1).
Proof.
  intros Hwf. induction chain as [|b rest IH]; [by left|]. intros (Hh & Hp & Hr).
  specialize (IH Hr). destruct (at_height_known db (hash_of b) Hwf) as [h Hat]; [right; by eexists|].
  assert (parent db (hash_of b) (tip_hash rest)) as Hpar by (exists (header b); by rewrite Hp).
  pose proof (parent_at_height db _ _ _ Hwf Hpar Hat) as Hat'.
  pose proof (at_height_fun db _ _ _ Hwf IH Hat'). rewrite len_cons.
  by replace (1 + len rest - 1) with h by lia.
Qed.

(** The height the databases have for the tip of their chain. *)
Lemma tip_height db block chain :
  db_inv db (block :: chain) → heights (block_hashes db) !! block_hash (header block) = Some (len chain).
Proof.
  intros Hinv. destruct (inv_chain _ _ Hinv) as (Hhd & _).
  pose proof (tip_at_height (block_hashes db) (block :: chain) (inv_headers _ _ Hinv)
                (chain_stored_linked _ _ (inv_chain _ _ Hinv))) as Hat.
  rewrite len_cons in Hat. replace (1 + len chain - 1) with (len chain) in Hat by lia.
  change (tip_hash (block :: chain)) with (block_hash (header block)) in Hat.
  destruct Hat as [[Hz _]|(_ & Hh & _)]; [|done].
  pose proof (wf_zeros _ (inv_headers _ _ Hinv)) as Hwz. rewrite <-Hz in Hwz. congruence.
Qed.

Lemma chain_ancestor (db : BlockHashDbs) l chain :
  chain_linked db (l ++ chain) → rtc (parent db) (tip_hash (l ++ chain)) (tip_hash chain).
Proof.
  induction l as [|b l IH]; [done|]. intros (Hh & Hp & Hr). eapply rtc_l; [|by apply IH].
  exists (header b). by rewrite Hp.
Qed.

(** [l1] and [l2] part right above [common]. *)
Definition diverge (l1 l2 : list Block) : Prop :=
  ∀ b1 b2, last l1 = Some b1 → last l2 = Some b2 → hash_of b1 ≠ hash_of b2.

Lemma diverge_lca (db : BlockHashDbs) l1 l2 common :
  headers_wf db → chain_linked db (l1 ++ common) → chain_linked db (l2 ++ common) → diverge l1 l2 →
  is_lca db (tip_hash (l1 ++ common)) (tip_hash (l2 ++ common)) (tip_hash common).
Proof.
  intros Hwf Hl1 Hl2 Hdiv. split_and!; [by apply chain_ancestor|by apply chain_ancestor|].
  intros c Hc1 Hc2.
  destruct l1 as [|b1 l1' _] using rev_ind; [done|]. destruct l2 as [|b2 l2' _] using rev_ind; [done|].
  specialize (Hdiv b1 b2 (last_snoc _ _) (last_snoc _ _)).
  rewrite <- !app_assoc in *. cbn [app] in *.
  pose proof (chain_linked_app _ _ _ Hl1) as Hb1. pose proof (chain_linked_app _ _ _ Hl2) as Hb2.
  assert (chain_linked db common) as Hcl by apply Hb1.
  pose proof (tip_at_height db common Hwf Hcl) as Hcom.
  pose proof (tip_at_height db _ Hwf Hb1) as Hat1. pose proof (tip_at_height db _ Hwf Hb2) as Hat2.
  pose proof (tip_at_height db _ Hwf Hl1) as Htop.
  destruct (ancestor_at_height db _ c _ Hwf Hc1 Htop) as (hc & Hhc & _ & _).
  rewrite len_cons in Hat1, Hat2. destruct (Z.leb_spec hc (len common - 1)) as [Hle|Hgt].
  - eapply ancestor_between; [done| |exact Hc1|exact Hcom|exact Hhc|lia].
    rewrite (app_assoc l1' [b1] common : l1' ++ b1 :: common = (l1' ++ [b1]) ++ common).
    apply chain_ancestor. by rewrite <- app_assoc.
  - exfalso. apply Hdiv.
    assert (rtc (parent db) c (hash_of b1)) as Hr1
      by (eapply ancestor_between; [done|exact Hc1|by apply chain_ancestor|exact Hhc|exact Hat1|lia]).
    assert (rtc (parent db) c (hash_of b2)) as Hr2
      by (eapply ancestor_between; [done|exact Hc2|by apply chain_ancestor|exact Hhc|exact Hat2|lia]).
    assert (rtc (parent db) (hash_of b1) (hash_of b2)) as Hr
      by (eapply ancestor_between; [done|exact Hr1|exact Hr2|exact Hat1|exact Hat2|lia]).
    destruct (ancestor_at_height db _ _ _ Hwf Hr Hat1) as (h & Hh & _ & Heq).
    symmetry. apply Heq. eapply at_height_fun; [done|exact Hh|exact Hat2].
Qed.

Lemma last_common_ancestor_diverge (db : BlockHashDbs) l1 l2 common :
  headers_wf db → chain_linked db (l1 ++ common) → chain_linked db (l2 ++ common) → diverge l1 l2 →
  last_common_ancestor db (tip_hash (l1 ++ common)) (tip_hash (l2 ++ common)) = Ok (tip_hash common).
Proof.
  intros Hwf Hl1 Hl2 Hdiv.
  assert (∀ l, chain_linked db l → known db (tip_hash l)) as Hkn.
  { intros l Hl. destruct (tip_at_height db l Hwf Hl) as [[? _]|[? _]]; [by left|by right]. }
  destruct (last_common_ancestor_Ok db _ _ Hwf (Hkn _ Hl1) (Hkn _ Hl2)) as (c & -> & Hc). f_equal.
  pose proof (diverge_lca db l1 l2 common Hwf Hl1 Hl2 Hdiv) as Hd.
  symmetry. eapply is_lca_unique; [done| |exact Hd|exact Hc].
  apply tip_at_height; [done|]. by eapply chain_linked_app.
Qed.

(** ** Disconnecting the stale branch *)

Lemma disconnect_loop_Ok fuel l common db evs :
  db_inv db (l ++ common) → (length l ≤ fuel)%nat →
  ∃ db' evs', disconnect_loop fuel (tip_hash (l ++ common)) (tip_hash common) (db, evs)
              = (Ok (Some (tip_hash common)), (db', evs'))
    ∧ db_inv db' common ∧ block_hashes db' = block_hashes db.
Proof.
  revert fuel db evs. induction l as [|b l IH]; intros fuel db evs Hinv Hfuel.
  - exists db, evs. split; [|done]. cbn [app]. destruct fuel; cbn [disconnect_loop];
      by rewrite bool_decide_true.
  - pose proof Hinv as [Hwf _ _ Hch].
    assert (chain_linked (block_hashes db) ((b :: l) ++ common)) as Hl by by apply chain_stored_linked.
    assert (tip_hash ((b :: l) ++ common) ≠ tip_hash common) as Hne.
    { intros He. pose proof (tip_at_height _ _ Hwf Hl) as Ht.
      pose proof (tip_at_height _ _ Hwf (chain_linked_app _ _ _ Hl)) as Hc. rewrite He in Ht.
      pose proof (at_height_fun _ _ _ _ Hwf Ht Hc) as Heq.
      cbn [app] in Heq. rewrite len_cons, len_app in Heq. pose proof (len_nonneg l). lia. }
    destruct fuel as [|fuel]; [cbn in Hfuel; lia|]. cbn [disconnect_loop].
    rewrite bool_decide_false by done. cbn [app] in *.
    destruct (disconnect_tip db b (l ++ common) Hinv) as [Hd Hinv'].
    change (tip_hash (b :: l ++ common)) with (hash_of b).
    unfold mbind, st_bind, st_map_err, on_db. cbn [fst snd]. rewrite Hd. cbn [map_err fst snd broadcast].
    destruct (IH fuel _ (evs ++ [DisconnectBlockEvent (hash_of b)]) Hinv') as (db' & evs' & Hrun & ? & ?);
      [cbn in Hfuel; lia|].
    exists db', evs'. split; [exact Hrun|done].
Qed.

(** ** The missing blocks *)

Lemma missing_loop_Ok (db : BlockHashDbs) fuel l common :
  headers_wf db → chain_linked db (l ++ common) → (length l < fuel)%nat →
  missing_loop fuel db (tip_hash (l ++ common)) (tip_hash common) = Some (map hash_of l).
Proof.
  intros Hwf. revert fuel. induction l as [|b l IH]; intros fuel Hl Hfuel.
  - destruct fuel as [|fuel]; [lia|]. cbn [app missing_loop]. unfold ancestors_next.
    destruct common as [|c rest].
    + change (tip_hash []) with all_zeros. by rewrite (wf_zeros _ Hwf).
    + destruct Hl as (Hh & _). change (tip_hash (c :: rest)) with (hash_of c). cbv beta.
      by rewrite Hh, bool_decide_true.
  - destruct fuel as [|fuel]; [lia|]. pose proof Hl as (Hh & Hp & Hr). cbn [app missing_loop].
    unfold ancestors_next. change (tip_hash (b :: l ++ common)) with (hash_of b). cbv beta. rewrite Hh.
    rewrite bool_decide_false.
    + rewrite Hp, IH; [done|done|cbn in Hfuel; lia].
    + intros He. pose proof (tip_at_height _ _ Hwf Hl) as Ht.
      pose proof (tip_at_height _ _ Hwf (chain_linked_app _ _ _ Hl)) as Hc.
      change (tip_hash ((b :: l) ++ common)) with (hash_of b) in Ht. cbv beta in Ht. rewrite He in Ht.
      pose proof (at_height_fun _ _ _ _ Hwf Ht Hc) as Heq.
      cbn [app] in Heq. rewrite len_cons, len_app in Heq. pose proof (len_nonneg l). lia.
Qed.

Lemma find_missing_blocks_Ok fuel l1 l2 common db evs :
  db_inv db (l1 ++ common) → chain_linked (block_hashes db) (l2 ++ common) → diverge l1 l2 →
  (length l1 + length l2 < fuel)%nat →
  ∃ db1 evs1, find_missing_blocks fuel (tip_hash (l2 ++ common)) (db, evs)
              = (Ok (Some (map hash_of l2)), (db1, evs1))
    ∧ db_inv db1 common ∧ block_hashes db1 = block_hashes db ∧ (l1 = [] → db1 = db ∧ evs1 = evs).
Proof.
  intros Hinv Hl2 Hdiv Hfuel. pose proof Hinv as [Hwf Htip _ Hch].
  pose proof (chain_stored_linked _ _ Hch) as Hl1.
  pose proof (last_common_ancestor_diverge _ _ _ _ Hwf Hl1 Hl2 Hdiv) as Hlca.
  destruct (disconnect_loop_Ok fuel l1 common db evs Hinv) as (db1 & evs1 & Hdis & Hinv1 & Hbh); [lia|].
  exists db1, evs1. split_and!; [|done|done|].
  - unfold find_missing_blocks, write_txn.
    unfold mbind at 1, st_bind at 1. unfold mbind at 1, st_bind at 1, st_get. cbn [fst snd]. rewrite Htip.
    change (default all_zeros (tip_of (l1 ++ common))) with (tip_hash (l1 ++ common)).
    unfold mbind at 1, st_bind at 1, st_lift at 1. rewrite Hlca. cbn [map_err]. rewrite Hdis. cbn [fst snd].
    unfold mbind at 1, st_bind at 1. cbn [fst]. unfold mret at 1, st_ret at 1. cbn [mbind option_bind].
    by rewrite Hbh, (missing_loop_Ok (block_hashes db) fuel l2 common Hwf Hl2) by lia.
  - intros ->. cbn [app] in Hdis. destruct fuel; cbn [disconnect_loop] in Hdis;
      rewrite bool_decide_true in Hdis by done; by injection Hdis as <- <-.
Qed.

(** ** Connecting a batch *)

(** [bs] (oldest first) can be put on top of [chain]: the headers are stored, and
    each block satisfies what the chain guarantees. *)
Fixpoint connectable (hdrs : gmap BlockHash Header) (chain : list Block) (bs : list Block) : Prop :=
  match bs with
  | [] => True
  | b :: bs => hdrs !! block_hash (header b) = Some (header b)
               ∧ prev_blockhash (header b) = tip_hash chain ∧ block_ok (utxos_of chain) b
               ∧ connectable hdrs (b :: chain) bs
  end.

Lemma connect_block_headers self clock block db ev db' :
  connect_block self clock block db = (Ok ev, db') →
  headers (block_hashes db') = headers (block_hashes db).
Proof.
  intros (h & cb & d & u & b & tw & w & _ & _ & _ & _ & _ & Hput & _ & _ & -> & _)%connect_block_Ok_inv.
  by apply put_block_info_Ok_inv in Hput as (hd & w' & _ & _ & _ & ->).
Qed.

(** What a batch can end in, from the databases of [chain]; [stopped]: when it may be cancelled. *)
Definition batch_outcome (stopped : Prop) (chain bs : list Block) (hdrs : gmap BlockHash Header)
    (r : outcome SyncError (option (BlockHash * ConnectBlockError)) * task_state) : Prop :=
  match r with
  | (Ok None, (db', _)) => db_inv db' (rev bs ++ chain) ∧ headers (block_hashes db') = hdrs
  | (Ok (Some (bh, e)), (db', _)) =>
      headers (block_hashes db') = hdrs
      ∧ ∃ pre b post, bs = pre ++ b :: post ∧ bh = hash_of b ∧ is_fatal e = false
                      ∧ db_inv db' (rev pre ++ chain)
  | (Err e, (db', _)) => e = Shutdown ∧ stopped ∧ ∃ pre post, bs = pre ++ post ∧ db_inv db' (rev pre ++ chain)
  | (Panic, _) => True
  end.

Lemma batch_outcome_cons stopped chain b bs hdrs r :
  batch_outcome stopped (b :: chain) bs hdrs r → batch_outcome stopped chain (b :: bs) hdrs r.
Proof.
  destruct r as [[[[bh e]|]|e|] [db evs]]; cbn [batch_outcome]; [| | |done].
  - intros (Hh & pre & b' & post & -> & -> & ? & Hi). split; [done|]. exists (b :: pre), b', post.
    cbn [rev]. rewrite <- app_assoc. done.
  - cbn [rev]. by rewrite <- app_assoc.
  - intros (-> & Hstop & pre & post & -> & Hi). split_and!; [done|done|]. exists (b :: pre), post.
    cbn [rev]. rewrite <- app_assoc. done.
Qed.

(** One round of the batch, on a block whose height is stored. *)
Lemma handle_block_batch_cons self trace clock b bs db evs :
  is_Some (heights (block_hashes db) !! hash_of b) →
  handle_block_batch self trace clock (b :: bs) (db, evs) =
    match connect_block self (clock b) b db with
    | (Ok ev, db') => handle_block_batch self trace clock bs (db', evs ++ [ev])
    | (Err e, db') => if is_fatal e then (Err (SyncConnectBlock e), (db', evs))
                      else (Ok (Some (hash_of b, e)), (db', evs))
    | (Panic, db') => (Panic, (db', evs))
    end.
Proof.
  intros [h Hh]. cbn [handle_block_batch].
  unfold mbind at 1, st_bind at 1, st_get. unfold mbind at 1, st_bind at 1, st_lift. cbn [fst].
  rewrite Hh. cbn [ok_or mbind outcome_bind].
  assert ((if trace then Ok tt else Ok tt : outcome SyncError unit) = Ok tt) as -> by by destruct trace.
  unfold mbind at 1, st_bind at 1, connect_or_reject, on_db. cbn [fst snd].
  destruct (connect_block self (clock b) b db) as [[ev|e|] db']; [done| |done].
  by destruct (is_fatal e).
Qed.

Lemma handle_block_batch_outcome self trace clock bs chain db evs :
  (∀ hd, 0 < header_work hd) → db_inv db chain → connectable (headers (block_hashes db)) chain bs →
  map_Forall (λ _ o, is_p2mr_script (script_pubkey o) = false) (extra_prevouts self) →
  (handle_block_batch self trace clock bs (db, evs)).1 ≠ Err Shutdown
  ∧ batch_outcome False chain bs (headers (block_hashes db)) (handle_block_batch self trace clock bs (db, evs)).
Proof.
  intros Hw. revert chain db evs. induction bs as [|b bs IH]; intros chain db evs Hinv Hcon Hx; [done|].
  destruct Hcon as (Hhd & Hp & Hok & Hrest).
  pose proof Hinv as [Hwf _ _ Hch]. pose proof (next_height _ chain b Hwf Hch Hhd Hp) as Hh.
  rewrite handle_block_batch_cons by (rewrite Hh; by eexists).
  destruct (connect_block self (clock b) b db) as [[ev|e|] db'] eqn:Hc.
  - pose proof (connect_block_inv _ _ _ _ _ _ _ Hw Hinv Hhd Hok Hx Hc) as Hinv'.
    pose proof (connect_block_headers _ _ _ _ _ _ Hc) as Hhdr. rewrite <- Hhdr in Hrest |- *.
    destruct (IH (b :: chain) db' (evs ++ [ev]) Hinv' Hrest Hx) as [Hns Hout].
    split; [exact Hns|exact (batch_outcome_cons _ _ _ _ _ _ Hout)].
  - destruct (connect_block_nonfatal _ _ _ _ _ _ _ Hinv Hhd Hok Hx Hc) as [-> He]. rewrite He.
    split; [done|]. split; [done|]. exists [], b, bs. done.
  - done.
Qed.

Lemma batch_outcome_app stopped chain c bs hdrs r :
  batch_outcome stopped (rev c ++ chain) bs hdrs r → batch_outcome stopped chain (c ++ bs) hdrs r.
Proof.
  revert chain. induction c as [|b c IH]; intros chain Hr; [done|]. cbn [app].
  apply batch_outcome_cons, IH. cbn [rev] in Hr. by rewrite <- app_assoc in Hr.
Qed.

Lemma connectable_app hdrs chain c bs :
  connectable hdrs chain (c ++ bs) → connectable hdrs chain c ∧ connectable hdrs (rev c ++ chain) bs.
Proof.
  revert chain. induction c as [|b c IH]; intros chain Hc; [done|].
  destruct Hc as (Hh & Hp & Hok & Hrest). destruct (IH _ Hrest) as [H1' H2'].
  cbn [rev]. rewrite <- app_assoc. split; [by split_and!|done].
Qed.

(** ** The chunks *)

Lemma slice_chunks_fuel_concat {A} fuel n (l : list A) :
  (0 < n)%nat → (length l ≤ fuel)%nat → concat (slice_chunks_fuel fuel n l) = l.
Proof.
  intros Hn. revert l. induction fuel as [|fuel IH]; intros [|x l] Hl; cbn in *; [done|lia|done|].
  destruct n as [|n]; [lia|]. cbn [take drop]. rewrite IH by (rewrite length_drop; lia).
  cbn [app]. by rewrite take_drop.
Qed.

Lemma slice_chunks_concat {A} n (l : list A) : (0 < n)%nat → concat (slice_chunks n l) = l.
Proof. intros. by apply slice_chunks_fuel_concat. Qed.

Lemma slice_chunks_map {A B} (f : A → B) n l :
  slice_chunks n (map f l) = map (map f) (slice_chunks n l).
Proof.
  unfold slice_chunks. rewrite length_map. generalize (length l) as fuel. intros fuel. revert l.
  induction fuel as [|fuel IH]; intros [|x l]; [done..|]. destruct n as [|n].
  - cbn. f_equal. apply (IH (x :: l)).
  - cbn [slice_chunks_fuel map take drop]. rewrite firstn_map, skipn_map. f_equal. apply IH.
Qed.

Lemma slice_chunks_nonempty {A} n (l : list A) c : (0 < n)%nat → c ∈ slice_chunks n l → c ≠ [].
Proof.
  intros Hn. unfold slice_chunks. generalize (length l) as fuel. intros fuel. revert l.
  induction fuel as [|fuel IH]; intros [|x l] Hc; try by apply elem_of_nil in Hc.
  cbn [slice_chunks_fuel] in Hc. apply elem_of_cons in Hc as [->|Hc]; [by destruct n; [lia|]|by apply IH in Hc].
Qed.

(** The node returns the block of each hash of [bs] it is asked for. *)
Definition honest_blocks (bs : list Block) : Prop :=
  ∀ l, l ≠ [] → (∀ b, b ∈ l → b ∈ bs) → fetch_blocks_batch (map hash_of l) = Ok l.

Lemma sync_chunks_outcome self trace clock cancelled i cs all chain db evs :
  (∀ hd, 0 < header_work hd) → db_inv db chain →
  connectable (headers (block_hashes db)) chain (concat cs) →
  map_Forall (λ _ o, is_p2mr_script (script_pubkey o) = false) (extra_prevouts self) →
  honest_blocks all → (∀ c, c ∈ cs → c ≠ []) → (∀ b, b ∈ concat cs → b ∈ all) →
  batch_outcome (∃ k, cancelled k = true) chain (concat cs) (headers (block_hashes db))
    (sync_chunks self trace clock cancelled i (map (map hash_of) cs) (db, evs)).
Proof.
  intros Hw Hinv Hcon Hx Hhon. revert i chain db evs Hinv Hcon.
  induction cs as [|c cs IH]; intros i chain db evs Hinv Hcon Hne Hall; [done|]. cbn [map sync_chunks concat].
  unfold mbind, st_bind, st_lift, reject_if. destruct (cancelled i) eqn:Hstop.
  { split_and!; [done|by exists i|]. by exists [], (c ++ concat cs). }
  rewrite (Hhon c) by (first [apply Hne; by left|intros b Hb; apply Hall; cbn [concat]; apply elem_of_app; by left]).
  apply connectable_app in Hcon as [Hcon Hrest]. unfold write_txn.
  destruct (handle_block_batch_outcome self trace clock c chain db evs Hw Hinv Hcon Hx) as [Hns Hout].
  destruct (handle_block_batch self trace clock c (db, evs)) as [[[[bh e]|]|e|] [db' evs']];
    cbn [batch_outcome fst snd] in Hns, Hout; [| | |done].
  - destruct Hout as (? & pre & b & post & -> & ? & ? & ?). split; [done|].
    exists pre, b, (post ++ concat cs). by rewrite <- app_assoc.
  - destruct Hout as [Hinv' Hhdr]. rewrite <- Hhdr in Hrest |- *. apply batch_outcome_app.
    apply IH; [done|done|intros c' Hc'; apply Hne; by right|]. intros b Hb. apply Hall. cbn [concat]. apply elem_of_app. by right.
  - by destruct Hout as [-> _].
Qed.

(** ** The block-file sync

    What [sync_blocks] requires of it: from the databases of [common], asked for
    the blocks [bs], it connects some first blocks of [bs] and leaves the hashes
    of the last ones; if it succeeds, the two make up [bs]; if it fails, blocks
    between them may be [lost]: neither connected nor left as missing. *)
Definition file_sync_spec (f : block_file_sync) (bs common : list Block)
    (hdrs : gmap BlockHash Header) : Prop :=
  ∀ db evs, db_inv db common → headers (block_hashes db) = hdrs →
  match f (rev (map hash_of bs)) (db, evs) with
  | (None, _) => False
  | (Some Panic, _) => True
  | (Some o, (missing, (db', _))) =>
      ∃ pre lost rest, bs = pre ++ lost ++ rest ∧ missing = rev (map hash_of rest)
        ∧ db_inv db' (rev pre ++ common) ∧ headers (block_hashes db') = hdrs
        ∧ (is_ok o = true → lost = []) ∧ (lost ≠ [] → rest ≠ [])
  end.

(** A block whose parent was lost is taken for an invalid one. *)
Lemma lost_block_rejected self clock db pre lost b common :
  db_inv db (rev pre ++ common) → lost ≠ [] →
  chain_linked (block_hashes db) (rev (pre ++ lost ++ [b]) ++ common) →
  ∃ h, connect_block self clock b db
       = (Err (BlockParent (prev_blockhash (header b)) (tip_hash (rev pre ++ common)) h), db).
Proof.
  intros [Hwf Htip _ Hch] Hlost Hl.
  rewrite !rev_app_distr, <- !app_assoc in Hl. cbn [rev app] in Hl. destruct Hl as (Hh & Hp & Hl).
  assert (prev_blockhash (header b) ≠ tip_hash (rev pre ++ common)) as Hne.
  { rewrite Hp. intros He. apply Hlost.
    pose proof (tip_at_height _ _ Hwf Hl) as H1'.
    pose proof (tip_at_height _ _ Hwf (chain_linked_app _ _ _ Hl)) as H2'.
    rewrite He in H1'. pose proof (at_height_fun _ _ _ _ Hwf H1' H2') as Heq.
    rewrite len_app in Heq. assert (len (rev lost) = 0) as Hz by lia. apply len_zero_nil in Hz.
    by rewrite <- (rev_involutive lost), Hz. }
  unfold connect_block. unfold mbind at 1, st_bind at 1, st_get.
  unfold mbind at 1, st_bind at 1, st_lift at 1. rewrite Htip. unfold tip_hash in Hne |- *.
  destruct (tip_of (rev pre ++ common)) as [t|]; cbn [default] in Hne |- *;
    rewrite bool_decide_false by done; by eexists.
Qed.

Lemma sync_chunks_lost self trace clock cancelled db evs pre lost b post common :
  db_inv db (rev pre ++ common) → lost ≠ [] →
  chain_linked (block_hashes db) (rev (pre ++ lost ++ b :: post) ++ common) →
  honest_blocks (pre ++ lost ++ b :: post) →
  ∃ h, sync_chunks self trace clock cancelled 0
         (map (map hash_of) (slice_chunks BLOCK_FETCH_BATCH_SIZE (b :: post))) (db, evs)
  = (if cancelled 0%nat then Err Shutdown
     else Ok (Some (hash_of b, BlockParent (prev_blockhash (header b)) (tip_hash (rev pre ++ common)) h)),
     (db, evs)).
Proof.
  intros Hinv Hlost Hl Hhon.
  assert (chain_linked (block_hashes db) (rev (pre ++ lost ++ [b]) ++ common)) as Hlb.
  { apply (chain_linked_app _ (rev post)). rewrite app_assoc, <- rev_app_distr, <- !app_assoc. done. }
  destruct (lost_block_rejected self (clock b) db pre lost b common Hinv Hlost Hlb) as [h Hc]. exists h.
  assert (is_Some (heights (block_hashes db) !! hash_of b)) as Hh.
  { rewrite app_assoc, rev_app_distr in Hlb. cbn [rev app] in Hlb. destruct Hlb as (Hhd & _).
    destruct (at_height_known _ (hash_of b) (inv_headers _ _ Hinv)) as [k [[Hz _]|(_ & Hk & _)]];
      [right; by eexists| |by eexists].
    rewrite Hz, (wf_zeros _ (inv_headers _ _ Hinv)) in Hhd. done. }
  assert (∃ tl, slice_chunks BLOCK_FETCH_BATCH_SIZE (b :: post) = (b :: take 49 post) :: tl) as [tl ->]
    by by eexists.
  cbn [map sync_chunks]. unfold mbind, st_bind, st_lift, reject_if. destruct (cancelled 0%nat); [done|].
  assert (fetch_blocks_batch (block_hash (header b) :: map hash_of (take 49 post))
          = Ok (b :: take 49 post)) as ->.
  { apply (Hhon (b :: take 49 post)); [done|]. intros b' [->|Hb']%elem_of_cons; [set_solver|].
    apply elem_of_app. right. apply elem_of_app. right. right. by apply (subseteq_take 49 post). }
  unfold write_txn. rewrite handle_block_batch_cons by done. rewrite Hc. done.
Qed.

(** How a sync can end, from the databases of [common], with [bs] to connect; [stopped]: when
    it may be cancelled. *)
Definition sync_outcome (may_lose stopped : Prop) (bs common : list Block)
    (r : outcome SyncError (option (option (BlockHash * ConnectBlockError))) * task_state) : Prop :=
  match r with
  | (Ok (Some None), (db', _)) => db_inv db' (rev bs ++ common)
  | (Ok (Some (Some (bh, e))), (db', _)) =>
      ∃ pre lost b post, bs = pre ++ lost ++ b :: post ∧ bh = hash_of b ∧ is_fatal e = false
        ∧ db_inv db' (rev pre ++ common)
        ∧ (lost ≠ [] → may_lose
           ∧ ∃ h, e = BlockParent (prev_blockhash (header b)) (tip_hash (rev pre ++ common)) h)
  | (Ok None, _) => False
  | (Err e, (db', _)) => e = Shutdown ∧ stopped ∧ ∃ pre post, bs = pre ++ post ∧ db_inv db' (rev pre ++ common)
  | (Panic, _) => True
  end.

(** The chunk loop on the blocks the file sync left. *)
Lemma sync_rest_outcome (may_lose : Prop) self trace clock cancelled db evs pre lost rest common :
  (∀ hd, 0 < header_work hd) → db_inv db (rev pre ++ common) → (lost ≠ [] → may_lose ∧ rest ≠ []) →
  chain_linked (block_hashes db) (rev (pre ++ lost ++ rest) ++ common) →
  connectable (headers (block_hashes db)) (rev (pre ++ lost) ++ common) rest →
  map_Forall (λ _ o, is_p2mr_script (script_pubkey o) = false) (extra_prevouts self) →
  honest_blocks (pre ++ lost ++ rest) →
  sync_outcome may_lose (∃ k, cancelled k = true) (pre ++ lost ++ rest) common
    ((r ← sync_chunks self trace clock cancelled 0
            (slice_chunks BLOCK_FETCH_BATCH_SIZE (map hash_of rest)); mret (Some r)) (db, evs)).
Proof.
  intros Hw Hinv Hrest Hl Hcon Hx Hhon. rewrite slice_chunks_map. unfold mbind, st_bind.
  destruct lost as [|x lost].
  - cbn [app] in *. rewrite app_nil_r in Hcon.
    rewrite <- (slice_chunks_concat BLOCK_FETCH_BATCH_SIZE rest) in Hcon by (unfold BLOCK_FETCH_BATCH_SIZE; lia).
    pose proof (sync_chunks_outcome self trace clock cancelled 0 (slice_chunks BLOCK_FETCH_BATCH_SIZE rest)
      (pre ++ rest) (rev pre ++ common) db evs Hw Hinv Hcon Hx Hhon) as Hout.
    rewrite slice_chunks_concat in Hout by (unfold BLOCK_FETCH_BATCH_SIZE; lia).
    specialize (Hout ltac:(intros c; apply slice_chunks_nonempty; unfold BLOCK_FETCH_BATCH_SIZE; lia) ltac:(set_solver)).
    destruct (sync_chunks _ _ _ _ _ _ _) as [[[[bh e]|]|e|] [db' evs']]; cbn [batch_outcome] in Hout.
    + destruct Hout as (_ & p & b & post & -> & -> & He & Hi).
      exists (pre ++ p), [], b, post. rewrite rev_app_distr, <- !app_assoc. by split_and!.
    + destruct Hout as [Hout _]. cbn. by rewrite rev_app_distr, <- app_assoc.
    + destruct Hout as (-> & Hstop & p & post & -> & Hi). split_and!; [done|done|]. exists (pre ++ p), post.
      by rewrite rev_app_distr, <- !app_assoc.
    + done.
  - destruct (Hrest ltac:(done)) as [Hmay Hne]. destruct rest as [|b post]; [done|].
    destruct (sync_chunks_lost self trace clock cancelled db evs pre (x :: lost) b post common Hinv
                ltac:(done) Hl Hhon) as [h ->].
    destruct (cancelled 0%nat) eqn:Hstop.
    + split_and!; [done|by exists 0%nat|]. by exists pre, ((x :: lost) ++ b :: post).
    + exists pre, (x :: lost), b, post. split_and!; [done|done|done|done|].
      intros _. split; [done|by exists h].
Qed.

Lemma chain_linked_headers (db db' : BlockHashDbs) l :
  headers db = headers db' → chain_linked db l → chain_linked db' l.
Proof. intros He. induction l as [|b l IH]; [done|]. cbn [chain_linked]. rewrite He. naive_solver. Qed.

(** From the missing blocks on. *)
Lemma sync_missing_outcome self trace clock cancelled from_dir db evs l2 common hdrs :
  (∀ hd, 0 < header_work hd) → db_inv db common → headers (block_hashes db) = hdrs →
  chain_linked (block_hashes db) (l2 ++ common) → connectable hdrs common (rev l2) →
  map_Forall (λ _ o, is_p2mr_script (script_pubkey o) = false) (extra_prevouts self) →
  honest_blocks (rev l2) →
  (∀ f, from_dir = Some f → file_sync_spec f (rev l2) common hdrs) →
  sync_outcome (from_dir ≠ None) (∃ k, cancelled k = true) (rev l2) common
    (match map hash_of l2 with
     | [] => mret (Some None)
     | _ :: _ =>
         missing_blocks ← run_file_sync from_dir (map hash_of l2);
         match missing_blocks with
         | None => mret None
         | Some missing_blocks =>
             r ← sync_chunks self trace clock cancelled 0
                   (slice_chunks BLOCK_FETCH_BATCH_SIZE (rev missing_blocks));
             mret (Some r)
         end
     end (db, evs)).
Proof.
  intros Hw Hinv Hhdr Hl2 Hcon Hx Hhon Hfile.
  destruct l2 as [|b0 l2']; [done|]. remember (b0 :: l2') as l2 eqn:Hl2'.
  assert (map hash_of l2 ≠ []) as Hne by by subst.
  destruct (map hash_of l2) as [|x xs] eqn:Hm; [done|]. rewrite <- Hm.
  assert (map hash_of l2 = rev (map hash_of (rev l2))) as Hrev by by rewrite map_rev, rev_involutive.
  unfold mbind at 1, st_bind at 1, run_file_sync. destruct from_dir as [f|].
  - specialize (Hfile f eq_refl db evs Hinv Hhdr). rewrite <- Hrev in Hfile.
    destruct (f (map hash_of l2) (db, evs)) as [[o|] [missing [db' evs']]]; [|done].
    assert (o = Panic ∨ ∃ pre lost rest, rev l2 = pre ++ lost ++ rest ∧ missing = rev (map hash_of rest)
              ∧ db_inv db' (rev pre ++ common) ∧ headers (block_hashes db') = hdrs
              ∧ (lost ≠ [] → rest ≠ []))
      as [->|(pre & lost & rest & Hbs & -> & Hinv' & Hhdr' & Hlost)]; [|done|].
    { destruct o as [n|e|]; [right|right|by left];
        destruct Hfile as (pre & lost & rest & ? & ? & ? & ? & _ & ?); by exists pre, lost, rest. }
    assert (sync_outcome (Some f ≠ None) (∃ k, cancelled k = true) (rev l2) common
      ((r ← sync_chunks self trace clock cancelled 0
              (slice_chunks BLOCK_FETCH_BATCH_SIZE (map hash_of rest)); mret (Some r)) (db', evs'))) as Hout.
    { pose proof (connectable_app hdrs common (pre ++ lost) rest) as Hc.
      rewrite <- app_assoc, <- Hbs in Hc. destruct (Hc Hcon) as [_ Hc'].
      rewrite Hbs. apply sync_rest_outcome; [done|done| | |by rewrite Hhdr'|done|by rewrite <- Hbs].
      - intros Hl. split; [done|by apply Hlost].
      - rewrite <- Hbs, rev_involutive. by apply (chain_linked_headers (block_hashes db)); [congruence|]. }
    by destruct o; rewrite ?rev_involutive.
  - rewrite Hrev, rev_involutive.
    apply (sync_rest_outcome _ self trace clock cancelled db evs [] [] (rev l2)); try done.
    + cbn [app]. by rewrite rev_involutive.
    + by rewrite Hhdr.
Qed.
End reorg.

(** A sync follows the node's chain through a reorganisation: from the
    databases of the chain [l1 ++ common], with the headers of the node's chain
    [l2 ++ common] stored, its blocks served by the node, and a block-file sync
    (if any) that meets [file_sync_spec], [sync_blocks] to the node's tip
    disconnects exactly [l1] and connects [l2] in order.  It ends with the
    databases of the node's chain; or it stops at a rejected block, named in the
    result; or it is cancelled between batches.  The blocks below a rejected one
    are connected, except that after a failed block-file sync some may be lost,
    and then the rejection is for the missing parent.  It always terminates, with
    no other error. *)
Lemma sync_blocks_correct
    `{HashLib} `{ScriptLib} `{TxLib} `{TaprootLib} `{P2mrLib} `{PqcLib} `{NodeRpc}
    self trace clock cancelled fuel from_dir db evs l1 l2 common :
  (∀ hd, 0 < header_work hd) → db_inv db (l1 ++ common) →
  chain_linked (block_hashes db) (l2 ++ common) → diverge l1 l2 →
  connectable (headers (block_hashes db)) common (rev l2) → honest_blocks (rev l2) →
  map_Forall (λ _ o, is_p2mr_script (script_pubkey o) = false) (extra_prevouts self) →
  (∀ f, from_dir = Some f → file_sync_spec f (rev l2) common (headers (block_hashes db))) →
  (length l1 + length l2 < fuel)%nat →
  match sync_blocks self trace clock cancelled fuel from_dir (tip_hash (l2 ++ common)) (db, evs) with
  | (Ok (Some None), (db', _)) => db_inv db' (l2 ++ common)
  | (Ok (Some (Some (bh, e))), (db', _)) =>
      ∃ pre lost b post, rev l2 = pre ++ lost ++ b :: post ∧ bh = block_hash (header b)
        ∧ is_fatal e = false ∧ db_inv db' (rev pre ++ common)
        ∧ (lost ≠ [] → from_dir ≠ None
           ∧ ∃ h, e = BlockParent (prev_blockhash (header b)) (tip_hash (rev pre ++ common)) h)
  | (Err e, (db', _)) => e = Shutdown ∧ ∃ pre post, rev l2 = pre ++ post ∧ db_inv db' (rev pre ++ common)
  | (Ok None, _) => False
  | (Panic, _) => True
  end.
Proof.
  intros Hw Hinv Hl2 Hdiv Hcon Hhon Hx Hfile Hfuel.
  destruct (find_missing_blocks_Ok fuel l1 l2 common db evs Hinv Hl2 Hdiv Hfuel)
    as (db1 & evs1 & Hfind & Hinv1 & Hbh & _).
  assert (sync_outcome (from_dir ≠ None) (∃ k, cancelled k = true) (rev l2) common
            (sync_blocks self trace clock cancelled fuel from_dir (tip_hash (l2 ++ common)) (db, evs))) as Hout.
  { unfold sync_blocks. unfold mbind at 1, st_bind at 1. rewrite Hfind.
    apply (sync_missing_outcome self trace clock cancelled from_dir db1 evs1 l2 common
             (headers (block_hashes db1))); rewrite ?Hbh; done. }
  revert Hout. clear. destruct (sync_blocks _ _ _ _ _ _ _ _) as [[[[[bh e]|]|]|e|] [db' evs']]; try done.
  - cbn [sync_outcome]. by rewrite rev_involutive.
  - cbn [sync_outcome]. intros (-> & _ & Hp). by split.
Qed.

(** Events outlive the transaction: in a batch whose second block fails
    fatally (its height is not stored), the write transaction is dropped and the
    databases are as before, but the first block's [ConnectBlock] event has been
    broadcast, though "events should only ever be sent after committing". *)
Lemma aborted_batch_broadcasts
    `{HashLib} `{ScriptLib} `{TxLib} `{TaprootLib} `{P2mrLib} `{PqcLib}
    self clock db evs b1 b2 ev db1 :
  connect_block self (clock b1) b1 db = (Ok ev, db1) →
  current_chain_tip db1 = Some (prev_blockhash (header b2)) →
  heights (block_hashes db1) !! block_hash (header b2) = None →
  write_txn (handle_block_batch self false clock [b1; b2]) (db, evs)
  = (Err (SyncConnectBlock (ConnectDb DbGet)), (db, evs ++ [ev])).
Proof.
  intros Hc Htip Hh. unfold write_txn.
  rewrite (handle_block_batch_cons self false clock b1 [b2] db evs).
  2: { by apply connect_block_Ok_inv in Hc as (h & cb & d & u & b & tw & w & _ & -> & _). }
  rewrite Hc. cbn [handle_block_batch].
  unfold mbind at 1, st_bind at 1, st_get, mbind at 1, st_bind at 1, st_lift.
  unfold mbind at 1, st_bind at 1, connect_or_reject, on_db. cbn [fst snd].
  assert (connect_block self (clock b2) b2 db1 = (Err (ConnectDb DbGet), db1)) as ->; [|done].
  unfold connect_block, mbind, st_bind, st_get, st_lift. rewrite Htip, bool_decide_true, Hh by done. done.
Qed.

(** * Witnesses *)

Lemma ex_inv2 : @db_inv toy_tx ex_db2 [ex_block1; ex_block0].
Proof.
  destruct ex_connect1 as [ev Hc].
  exact (@connect_block_inv toy_hash toy_script toy_tx toy_taproot toy_p2mr toy_pqc ex_handler [] ex_block1
           ex_db1 [ex_block0] ev ex_db2 toy_work_pos ex_inv1 ex_header_stored1 ex_block_ok1
           (map_Forall_empty _) Hc).
Qed.

Definition ex_sync : outcome SyncError (option (option (BlockHash * ConnectBlockError))) * task_state :=
  @sync_blocks toy_hash toy_script toy_tx toy_taproot toy_p2mr toy_pqc toy_node ex_handler true (λ _, [])
    (λ _, false) 3 None (ex_hash ex_b1) (ex_db2, []).

Lemma None_ne_Some {A} (a : A) : None = Some a → False.
Proof. done. Qed.

Lemma sync_blocks_correct_witness :
  ex_sync.1 = Ok (Some None) ∧ @db_inv toy_tx ex_sync.2.1 [ex_fork_block; ex_block0].
Proof.
  assert (ex_sync.1 = Ok (Some None)) as Hrun by (vm_compute; reflexivity). split; [exact Hrun|].
  pose proof (@sync_blocks_correct toy_hash toy_script toy_tx toy_taproot toy_p2mr toy_pqc toy_node
    ex_handler true (λ _, []) (λ _, false) 3 None ex_db2 [] [ex_block1] [ex_fork_block] [ex_block0]
    toy_work_pos ex_inv2) as Hs.
  assert (@chain_linked toy_tx (block_hashes ex_db2) ([ex_fork_block] ++ [ex_block0])) as Hl.
  { repeat (split; [vm_compute; reflexivity|]). exact I. }
  assert (@diverge toy_tx [ex_block1] [ex_fork_block]) as Hdiv.
  { intros b1 b2 [= <-] [= <-]. vm_compute. discriminate. }
  assert (@connectable toy_tx (headers (block_hashes ex_db2)) [ex_block0] [ex_fork_block]) as Hcon.
  { split_and!; [vm_compute; reflexivity|vm_compute; reflexivity| |exact I].
    apply block_ok_dec; vm_compute; reflexivity. }
  assert (@honest_blocks toy_tx toy_node [ex_fork_block]) as Hhon.
  { intros l _ Hl'. cbn. f_equal. induction l as [|b l IH]; [reflexivity|]. cbn [map]. f_equal.
    - specialize (Hl' b ltac:(by left)). apply list_elem_of_singleton in Hl' as ->. vm_compute. reflexivity.
    - apply IH. intros b' Hb'. apply Hl'. by right. }
  specialize (Hs Hl Hdiv Hcon Hhon (map_Forall_empty _) (λ f Hf, False_ind _ (None_ne_Some f Hf)) ltac:(cbn; lia)).
  change (@tip_hash toy_tx ([ex_fork_block] ++ [ex_block0])) with (ex_hash ex_b1) in Hs.
  fold ex_sync in Hs. destruct ex_sync as [o [db' evs]]. cbn in Hrun. subst o. exact Hs.
Defined.

(** A block on the tip whose header was never stored. *)
Definition ex_orphan : Block := mkBlock (ex_header 9 (ex_hash ex_a1)) [].

Lemma aborted_batch_broadcasts_witness :
  ∃ ev, write_txn (@handle_block_batch toy_hash toy_script toy_tx toy_taproot toy_p2mr toy_pqc
                     ex_handler false (λ _, []) [ex_block1; ex_orphan]) (ex_db1, [])
        = (Err (SyncConnectBlock (ConnectDb DbGet)), (ex_db1, [ev])).
Proof.
  destruct ex_connect1 as [ev Hc]. exists ev.
  apply (@aborted_batch_broadcasts toy_hash toy_script toy_tx toy_taproot toy_p2mr toy_pqc
    ex_handler (λ _, []) ex_db1 [] ex_block1 ex_orphan ev ex_db2); [exact Hc|vm_compute; reflexivity..].
Defined.

