(* ===== verification/BlockFiles.v ===== *)
(** Syncing from the node's block files (`task/block_files.rs`): the cache of
    blocks read out of order, which is a bounded FIFO, the batches of pending
    blocks, and the loop over the parsed blocks. *)
From Stdlib Require Import ZArith Lia Strings.Byte.
From stdpp Require Import base list gmap.
From S2P Require Import Prelude Bitcoin Concrete Limits P2mrOutput Spend P2mrUtxo Pqc Dbs.
From S2P Require Import ParseBlockFiles BlockHandler Sync.
#[local] Open Scope Z_scope.

(** ** The block cache *)

Record BlockCache := mkBlockCache {
  blocks : gmap BlockHash Block;
  insertion_order : list BlockHash;
  max_size : nat
}.

(** [BlockCache::new] *)
Definition cache_new (max_size : nat) : BlockCache := mkBlockCache ∅ [] max_size.

(** [while self.blocks.len() >= self.max_size { .. }]; [None] is out of fuel. *)
Fixpoint evict (fuel : nat) (c : BlockCache) : option BlockCache :=
  match fuel with
  | O => None
  | S fuel =>
      if bool_decide (max_size c ≤ size (blocks c))%nat then
        match insertion_order c with
        | oldest_hash :: rest => evict fuel (mkBlockCache (delete oldest_hash (blocks c)) rest (max_size c))
        | [] => evict fuel c
        end
      else Some c
  end.

(** [BlockCache::insert] *)
Definition cache_insert (bh : BlockHash) (block : Block) (c : BlockCache) : option BlockCache :=
  match blocks c !! bh with
  | Some _ => Some c
  | None =>
      c ← evict (S (length (insertion_order c))) c;
      Some (mkBlockCache (<[bh := block]> (blocks c)) (insertion_order c ++ [bh]) (max_size c))
  end.

(** The first occurrence is removed, if any. *)
Fixpoint remove_first (bh : BlockHash) (l : list BlockHash) : list BlockHash :=
  match l with
  | [] => []
  | h :: l => if bool_decide (h = bh) then l else h :: remove_first bh l
  end.

(** [BlockCache::remove] *)
Definition cache_remove (bh : BlockHash) (c : BlockCache) : option Block * BlockCache :=
  match blocks c !! bh with
  | Some block =>
      (Some block, mkBlockCache (delete bh (blocks c)) (remove_first bh (insertion_order c)) (max_size c))
  | None => (None, c)
  end.

Definition MAX_BLOCK_CACHE_SIZE : nat := 5000.
Definition MAX_ITERATIONS_WITHOUT_MATCH : Z := 5000.
Definition BLOCKS_DIR_CONNECT_BATCH_SIZE : Z := 2000.

(** ** The state of the sync *)

(** [missing_blocks] is a stack in a vector: the next block expected is last. *)
Record file_sync := mkFileSync {
  fs_task : task_state;
  missing_blocks : list BlockHash;
  fs_parser : BlockDirectoryParser;
  block_cache : BlockCache;
  pending_blocks : list Block;
  total_handled_blocks : Z;
  has_found_start : bool;
  iterations_without_match : Z
}.

Definition set_task t s := mkFileSync t (missing_blocks s) (fs_parser s) (block_cache s)
  (pending_blocks s) (total_handled_blocks s) (has_found_start s) (iterations_without_match s).
Definition set_missing m s := mkFileSync (fs_task s) m (fs_parser s) (block_cache s)
  (pending_blocks s) (total_handled_blocks s) (has_found_start s) (iterations_without_match s).
Definition set_parser p s := mkFileSync (fs_task s) (missing_blocks s) p (block_cache s)
  (pending_blocks s) (total_handled_blocks s) (has_found_start s) (iterations_without_match s).
Definition set_cache c s := mkFileSync (fs_task s) (missing_blocks s) (fs_parser s) c
  (pending_blocks s) (total_handled_blocks s) (has_found_start s) (iterations_without_match s).
Definition set_pending b s := mkFileSync (fs_task s) (missing_blocks s) (fs_parser s) (block_cache s)
  b (total_handled_blocks s) (has_found_start s) (iterations_without_match s).
Definition set_total n s := mkFileSync (fs_task s) (missing_blocks s) (fs_parser s) (block_cache s)
  (pending_blocks s) n (has_found_start s) (iterations_without_match s).
Definition set_found s := mkFileSync (fs_task s) (missing_blocks s) (fs_parser s) (block_cache s)
  (pending_blocks s) (total_handled_blocks s) true (iterations_without_match s).
Definition set_unmatched n s := mkFileSync (fs_task s) (missing_blocks s) (fs_parser s) (block_cache s)
  (pending_blocks s) (total_handled_blocks s) (has_found_start s) n.

Definition modify {S E} (f : S → S) : st S E unit := λ s, (Ok tt, f s).

Section block_files.
Context `{HashLib} `{ScriptLib} `{TxLib} `{TaprootLib} `{P2mrLib} `{PqcLib} `{ConsensusCodec}.
Context (self : BlockHandler) (trace : bool) (clock : Block → list Z).

(** [iter().position(|block| block.block_hash() == rejected)] *)
Fixpoint block_position (bh : BlockHash) (l : list Block) : option nat :=
  match l with
  | [] => None
  | b :: l => if bool_decide (block_hash (header b) = bh) then Some 0%nat
              else S <$> block_position bh l
  end.

(** The batch runs in its own write transaction; the hashes of the blocks from
    the rejected one on go back to the stack. *)
Definition connect_pending_blocks : st file_sync SyncError bool := λ s,
  match write_txn (handle_block_batch self trace clock (pending_blocks s)) (fs_task s) with
  | (Ok None, t) =>
      (Ok true, set_pending [] (set_total (total_handled_blocks s + len (pending_blocks s)) (set_task t s)))
  | (Ok (Some (rejected_block, _)), t) =>
      match block_position rejected_block (pending_blocks s) with
      | Some rejected_idx =>
          (Ok false,
           set_pending [] (set_total (total_handled_blocks s + Z.of_nat rejected_idx)
             (set_missing (missing_blocks s
                ++ map (λ b, block_hash (header b)) (rev (drop rejected_idx (pending_blocks s))))
                (set_task t s))))
      | None => (Panic, set_task t s)
      end
  | (Err e, t) => (Err e, set_task t s)
  | (Panic, t) => (Panic, set_task t s)
  end.

(** [if (pending.len() >= .. || missing.is_empty()) && !connect_pending_blocks(..)?] *)
Definition connect_if_full : st file_sync SyncError bool :=
  s ← st_get;
  if (BLOCKS_DIR_CONNECT_BATCH_SIZE <=? len (pending_blocks s)) || bool_decide (missing_blocks s = [])
  then connect_pending_blocks else mret true.

(** Push the block expected next, and pop its hash. *)
Definition push_expected (block : Block) : st file_sync SyncError unit :=
  modify (λ s, set_missing (removelast (missing_blocks s)) (set_pending (pending_blocks s ++ [block]) s)).

(** [process_cached_blocks]; [None] is out of fuel. *)
Fixpoint process_cached_loop (fuel : nat) : st file_sync SyncError (option bool) :=
  match fuel with
  | O => mret None
  | S fuel =>
      s ← st_get;
      match last (missing_blocks s) with
      | None => mret (Some true)
      | Some expected_block_hash =>
          match cache_remove expected_block_hash (block_cache s) with
          | (Some cached_block, c) =>
              _ ← modify (set_cache c);
              _ ← push_expected cached_block;
              ok ← connect_if_full;
              if (ok : bool) then process_cached_loop fuel else mret (Some false)
          | (None, _) => mret (Some true)
          end
      end
  end.
Definition process_cached_blocks : st file_sync SyncError (option bool) :=
  s ← st_get; process_cached_loop (S (length (missing_blocks s))).

Definition parsed_block (b : ParsedBlock) : st file_sync SyncError Block :=
  txdata ← st_lift (map_err SyncParseBlockFiles (parse_tx_data b));
  mret (mkBlock (pb_header b) txdata).

(** [block_cache.insert(..)]; [None] when its loop does not end. *)
Definition cache_block (block : Block) : st file_sync SyncError (option unit) :=
  s ← st_get;
  match cache_insert (block_hash (header block)) block (block_cache s) with
  | None => mret None
  | Some c => _ ← modify (set_cache c); mret (Some tt)
  end.

Definition connect_remaining : st file_sync SyncError unit :=
  s ← st_get;
  if bool_decide (pending_blocks s ≠ []) then _ ← connect_pending_blocks; mret tt else mret tt.

(** The body of the loop on a parsed block: [Some true] to continue, [Some false]
    to leave the loop, [None] out of fuel. *)
Definition file_sync_step (first_missing_block : BlockHash) (b : ParsedBlock) :
    st file_sync SyncError (option bool) :=
  s ← st_get;
  let current_block_hash := block_hash (pb_header b) in
  if negb (has_found_start s) && bool_decide (current_block_hash ≠ first_missing_block) then
    full_block ← parsed_block b;
    c ← cache_block full_block;
    mret ((λ _, true) <$> c)
  else
    _ ← modify set_found;
    match last (missing_blocks s) with
    | None => mret (Some false)
    | Some expected_block_hash =>
        if bool_decide (current_block_hash = expected_block_hash) then
          _ ← modify (set_unmatched 0);
          block ← parsed_block b;
          _ ← push_expected block;
          ok ← connect_if_full;
          if negb ok then mret (Some false) else process_cached_blocks
        else
          full_block ← parsed_block b;
          c ← cache_block full_block;
          match c with
          | None => mret None
          | Some _ =>
              let n := iterations_without_match s + 1 in
              _ ← modify (set_unmatched n);
              if MAX_ITERATIONS_WITHOUT_MATCH <=? n
              then _ ← connect_remaining; mret (Some false)
              else mret (Some true)
          end
    end.

(** The loop; [cancelled] is what [cancel.is_cancelled()] answers at each
    iteration.  [None] is out of fuel. *)
Fixpoint file_sync_loop (fuel parser_fuel : nat) (dir : BlocksDir) (cancelled : nat → bool)
    (first_missing_block : BlockHash) (iteration_count : nat) : st file_sync SyncError (option unit) :=
  match fuel with
  | O => mret None
  | S fuel =>
      if bool_decide (iteration_count mod 100 = 0)%nat && cancelled iteration_count then
        _ ← connect_remaining; st_lift (Err Shutdown)
      else
        s ← st_get;
        match dir_next_block parser_fuel dir (fs_parser s) with
        | None => mret None
        | Some (o, p) =>
            _ ← modify (set_parser p);
            block ← st_lift (map_err SyncParseBlockFiles o);
            match block with
            | None => mret (Some tt)
            | Some b =>
                r ← file_sync_step first_missing_block b;
                match r with
                | None => mret None
                | Some false => mret (Some tt)
                | Some true =>
                    file_sync_loop fuel parser_fuel dir cancelled first_missing_block (S iteration_count)
                end
            end
        end
  end.

(** Where the parser starts: the genesis block is in file 0, any other block is
    looked up in the index. *)
Definition open_directory (dir : BlocksDir) (network : Network) (first_missing_block : BlockHash) :
    outcome SyncError BlockDirectoryParser :=
  parser ← map_err SyncBlockDirectoryParser (directory_parser_new dir network);
  if bool_decide (first_missing_block = chain_hash network) then Ok parser else
  idx ← map_err SyncFetchBlockIndex (fetch_block_index (block_index dir) first_missing_block);
  num ← ok_or (file_number idx) (SyncFetchBlockIndex MissingFileNumber);
  pos ← ok_or (adjusted_data_pos idx) (SyncFetchBlockIndex MissingDataPos);
  let '(o, parser) := set_offset dir pos (set_file_number num parser) in
  _ ← map_err BlockFileParserSetOffset o;
  Ok parser.

(** [sync_from_directory], as a [block_file_sync]. *)
Definition sync_from_directory (dir : BlocksDir) (network : Network) (cancelled : nat → bool)
    (fuel parser_fuel : nat) : block_file_sync := λ missing t,
  match (first_missing_block ← expect (last missing);
         parser ← open_directory dir network first_missing_block;
         target ← expect (head missing);
         _ ← ok_or (heights (block_hashes t.1) !! target) (SyncDb DbGet);
         Ok (first_missing_block, parser)) with
  | Err e => (Some (Err e), (missing, t))
  | Panic => (Some Panic, (missing, t))
  | Ok (first_missing_block, parser) =>
      match (r ← file_sync_loop fuel parser_fuel dir cancelled first_missing_block 0;
             match r with
             | None => mret None
             | Some _ => _ ← connect_remaining; mret (Some tt)
             end)
            (mkFileSync t missing parser (cache_new MAX_BLOCK_CACHE_SIZE) [] 0 false 0) with
      | (Ok None, s) => (None, (missing_blocks s, fs_task s))
      | (Ok (Some _), s) => (Some (Ok (wrap_u 32 (total_handled_blocks s))), (missing_blocks s, fs_task s))
      | (Err e, s) => (Some (Err e), (missing_blocks s, fs_task s))
      | (Panic, s) => (Some Panic, (missing_blocks s, fs_task s))
      end
  end.
End block_files.

(** * The cache is a bounded FIFO

    The abstract cache is the list of its entries, oldest first. *)
Abbreviation entries := (list (BlockHash * Block)).
Definition fifo_lookup (bh : BlockHash) (l : entries) : option Block := (list_to_map l : gmap BlockHash Block) !! bh.
Definition fifo_insert (max : nat) (bh : BlockHash) (block : Block) (l : entries) : entries :=
  match fifo_lookup bh l with
  | Some _ => l
  | None => drop (S (length l) - max) l ++ [(bh, block)]
  end.
Definition fifo_remove (bh : BlockHash) (l : entries) : entries := filter (λ p, p.1 ≠ bh) l.

(** The concrete cache represents the abstract one. *)
Record cache_rep (c : BlockCache) (l : entries) : Prop := {
  rep_order : insertion_order c = l.*1;
  rep_nodup : NoDup l.*1;
  rep_blocks : blocks c = list_to_map l;
  rep_bound : (length l ≤ max_size c)%nat;
  rep_max : (0 < max_size c)%nat
}.

Lemma cache_new_rep max : (0 < max)%nat → cache_rep (cache_new max) [].
Proof. intros Hm. split; cbn; [done|constructor|done|lia|done]. Qed.

Lemma rep_size c l : blocks c = list_to_map l → NoDup l.*1 → size (blocks c) = length l.
Proof. intros -> Hn. by rewrite map_size_list_to_map. Qed.

Lemma delete_oldest (bh : BlockHash) (b : Block) (l : entries) :
  NoDup (((bh, b) :: l).*1) → delete bh (list_to_map ((bh, b) :: l) : gmap BlockHash Block) = list_to_map l.
Proof.
  cbn [fmap list_fmap list_to_map fst]. intros [Hni _]%NoDup_cons.
  change (delete bh (<[bh := b]> (list_to_map l : gmap BlockHash Block)) = list_to_map l).
  rewrite delete_insert_eq. apply delete_id. by apply not_elem_of_list_to_map.
Qed.

(** Eviction removes the oldest entries until there is room for one. *)
Lemma evict_rep fuel c l :
  insertion_order c = l.*1 → NoDup l.*1 → blocks c = list_to_map l → (0 < max_size c)%nat →
  (length l < fuel)%nat →
  let l' := drop (S (length l) - max_size c) l in
  evict fuel c = Some (mkBlockCache (list_to_map l') l'.*1 (max_size c)).
Proof.
  revert c l. induction fuel as [|fuel IH]; intros c l Ho Hn Hb Hm Hf; [lia|]. cbn [evict].
  rewrite (rep_size c l) by done. case_bool_decide as Hfull.
  - destruct l as [|[bh b] l]; [cbn in Hfull; lia|]. rewrite Ho. cbn [fmap list_fmap fst].
    rewrite Hb, delete_oldest by done.
    rewrite (IH (mkBlockCache (list_to_map l) l.*1 (max_size c)) l); cbn in *;
      [|done|by apply NoDup_cons in Hn as [_ Hn]|done|done|lia].
    replace (S (S (length l)) - max_size c)%nat with (S (S (length l) - max_size c)) by lia. done.
  - replace (S (length l) - max_size c)%nat with 0%nat by lia. rewrite drop_0, <- Ho, <- Hb. by destruct c.
Qed.

Lemma remove_first_filter (l : entries) (bh : BlockHash) :
  NoDup l.*1 → remove_first bh l.*1 = (fifo_remove bh l).*1.
Proof.
  unfold fifo_remove. induction l as [|[h b] l IH]; [done|]. cbn [fmap list_fmap fst remove_first].
  intros [Hni Hn]%NoDup_cons. rewrite filter_cons. case_bool_decide as Heq; cbn [fst].
  - subst h. rewrite decide_False by naive_solver. change (l.*1 = (filter (λ p, p.1 ≠ bh) l).*1).
    f_equal. clear IH Hn. induction l as [|[h' b'] l IH]; [done|]. rewrite filter_cons_True.
    + f_equal. apply IH. set_solver.
    + cbn [fst]. intros ->. apply Hni. by left.
  - rewrite decide_True by done. cbn [fmap list_fmap fst]. f_equal. by apply IH.
Qed.

Lemma fifo_remove_map (bh : BlockHash) (l : entries) :
  NoDup l.*1 → (list_to_map (fifo_remove bh l) : gmap BlockHash Block) = delete bh (list_to_map l).
Proof.
  unfold fifo_remove. induction l as [|[h b] l IH]; intros Hn; [symmetry; apply delete_empty|].
  apply NoDup_cons in Hn as [Hni Hn]. rewrite filter_cons. cbn [fst list_to_map foldr].
  destruct (decide (h ≠ bh)) as [Hne|Heq].
  - cbn [list_to_map foldr fst snd uncurry]. rewrite delete_insert_ne by done. f_equal. by apply IH.
  - apply dec_stable in Heq as ->. cbn [uncurry fst snd]. rewrite delete_insert_eq. by apply IH.
Qed.

Lemma fifo_insert_length max bh b (l : entries) :
  (0 < max)%nat → (length l ≤ max)%nat → (length (fifo_insert max bh b l) ≤ max)%nat.
Proof.
  intros Hm Hl. unfold fifo_insert. destruct (fifo_lookup bh l); [done|].
  rewrite length_app, length_drop. cbn. lia.
Qed.

Lemma cache_insert_rep c l bh b :
  cache_rep c l →
  ∃ c', cache_insert bh b c = Some c' ∧ cache_rep c' (fifo_insert (max_size c) bh b l)
        ∧ max_size c' = max_size c.
Proof.
  intros [Ho Hn Hb Hlen Hm].
  pose proof (fifo_insert_length (max_size c) bh b l Hm Hlen) as Hlen'.
  unfold cache_insert, fifo_insert, fifo_lookup in *. rewrite Hb.
  destruct (list_to_map l !! bh) as [x|] eqn:Hl; [exists c; by split_and!|].
  set (l' := drop (S (length l) - max_size c) l) in *.
  rewrite (evict_rep _ c l) by (done || (rewrite Ho, length_fmap; lia)).
  cbn [mbind option_bind blocks insertion_order max_size]. eexists. split_and!; [done| |done].
  apply not_elem_of_list_to_map_2 in Hl.
  assert (bh ∉ l'.*1) as Hl'.
  { intros Hin. apply Hl. subst l'. rewrite fmap_drop in Hin. by apply (subseteq_drop _ l.*1) in Hin. }
  assert (NoDup (l' ++ [(bh, b)]).*1) as Hnd.
  { rewrite fmap_app. apply NoDup_app. split_and!; [|set_solver|cbn; apply NoDup_singleton].
    subst l'. rewrite fmap_drop. rewrite <- (take_drop (S (length l) - max_size c) l.*1) in Hn.
    by apply NoDup_app in Hn as (_ & _ & Hn). }
  split; cbn [insertion_order blocks max_size]; [by rewrite fmap_app|done| |done|done].
  apply map_eq. intros k. rewrite list_to_map_app.
  destruct (decide (k = bh)) as [->|Hk].
  - rewrite lookup_insert_eq, lookup_union_r by by apply not_elem_of_list_to_map.
    cbn [list_to_map foldr uncurry fst snd]. by rewrite lookup_insert_eq.
  - rewrite lookup_insert_ne by done. cbn [list_to_map foldr uncurry fst snd].
    rewrite insert_empty, lookup_union, lookup_singleton_ne by done. by rewrite (right_id_L None (∪)).
Qed.

Lemma cache_remove_rep c l bh :
  cache_rep c l →
  ∃ c', cache_remove bh c = (fifo_lookup bh l, c') ∧ cache_rep c' (fifo_remove bh l)
        ∧ max_size c' = max_size c.
Proof.
  intros [Ho Hn Hb Hlen Hm]. unfold cache_remove. rewrite Hb. unfold fifo_lookup.
  destruct (list_to_map l !! bh) as [x|] eqn:Hl; eexists; (split_and!; [done| |done]).
  - split; cbn [insertion_order blocks max_size]; [| | | |done].
    + rewrite Ho. by apply remove_first_filter.
    + eapply sublist_NoDup; [exact Hn|]. apply fmap_sublist, sublist_filter.
    + by rewrite fifo_remove_map.
    + pose proof (length_filter (λ p : BlockHash * Block, p.1 ≠ bh) l). unfold fifo_remove. lia.
  - assert (fifo_remove bh l = l) as ->; [|by split].
    apply not_elem_of_list_to_map_2 in Hl. unfold fifo_remove. clear -Hl.
    induction l as [|[h b] l IH]; [done|]. rewrite filter_cons_True; [f_equal; apply IH; set_solver|].
    cbn [fst]. intros ->. apply Hl. by left.
Qed.
