(* ===== verification/BlockFilesSpec.v ===== *)
(** The block-file sync meets its contract: [sync_from_directory] satisfies
    [file_sync_spec], by an invariant of the loop and the termination of the
    directory's parser; the block cache is a bounded FIFO; and what a failed sync
    leaves behind. *)
From Stdlib Require Import ZArith Lia Strings.Byte.
From stdpp Require Import base list gmap.
From S2P Require Import Prelude Bitcoin Concrete Limits P2mrOutput Spend P2mrUtxo Pqc Dbs.
From S2P Require Import ParseBlockFiles BlockHandler Sync SyncBlocks BlockFiles.
#[local] Open Scope Z_scope.

(** * Keeping the contract of [sync_blocks] *)
Section file_sync_proofs.
Context `{HashLib} `{ScriptLib} `{TxLib} `{TaprootLib} `{P2mrLib} `{PqcLib} `{ConsensusCodec}.
Context (self : BlockHandler) (trace : bool) (clock : Block → list Z).
Context (bs common : list Block) (hdrs : gmap BlockHash Header).
Hypothesis work_pos : ∀ hd, 0 < header_work hd.
Hypothesis bs_connectable : connectable hdrs common bs.
Hypothesis bs_nodup : NoDup (map hash_of bs).
Hypothesis extra_ok : map_Forall (λ _ o, is_p2mr_script (script_pubkey o) = false) (extra_prevouts self).

(** A cached block is the block of the chain its hash names. *)
Definition cache_genuine (c : BlockCache) : Prop :=
  ∀ h b b0, blocks c !! h = Some b → b0 ∈ bs → hash_of b0 = h → b = b0.

(** So is a parsed block, once its transactions decode. *)
Definition genuine (pb : ParsedBlock) : Prop :=
  ∀ b0 txs, b0 ∈ bs → block_hash (pb_header pb) = hash_of b0 → txs_decode (raw_tx_data pb) = Some txs →
  mkBlock (pb_header pb) txs = b0.

(** [bs] is split in the connected blocks [pre], the pending ones, and the
    missing ones. *)
Record fs_inv (pre rest : list Block) (s : file_sync) : Prop := {
  fi_split : bs = pre ++ pending_blocks s ++ rest;
  fi_missing : missing_blocks s = rev (map hash_of rest);
  fi_db : db_inv (fs_task s).1 (rev pre ++ common);
  fi_headers : headers (block_hashes (fs_task s).1) = hdrs;
  fi_total : total_handled_blocks s = len pre;
  fi_cache : ∃ l, cache_rep (block_cache s) l;
  fi_genuine : cache_genuine (block_cache s)
}.

(** Between two steps, pending blocks wait only for missing ones. *)
Definition fs_ok (s : file_sync) : Prop :=
  ∃ pre rest, fs_inv pre rest s ∧ (pending_blocks s ≠ [] → rest ≠ []).

(** What is left of it when the sync fails: the pending blocks are lost. *)
Definition fs_lost (s : file_sync) : Prop :=
  ∃ pre lost rest, bs = pre ++ lost ++ rest ∧ missing_blocks s = rev (map hash_of rest)
    ∧ db_inv (fs_task s).1 (rev pre ++ common) ∧ headers (block_hashes (fs_task s).1) = hdrs
    ∧ (lost ≠ [] → rest ≠ []).

(** The final states: everything pending is connected or back on the stack. *)
Definition fs_done (s : file_sync) : Prop := fs_ok s ∧ pending_blocks s = [].

Lemma fs_ok_lost s : fs_ok s → fs_lost s.
Proof. intros (pre & rest & [] & Hp). exists pre, (pending_blocks s), rest. by split_and!. Qed.

(** [posts m s Q]: run on [s], [m] ends with [Q] of its result and state, fails
    only in a state where blocks may be lost, and does not run out of fuel when
    [Q] excludes it; a panic (an arithmetic overflow of the checked build inside
    the rules) is not excluded. *)
Definition posts {A} (m : st file_sync SyncError A) (s : file_sync) (Q : A → file_sync → Prop) : Prop :=
  match m s with
  | (Ok a, s') => Q a s'
  | (Err _, s') => fs_lost s'
  | (Panic, _) => True
  end.

Lemma posts_bind {A B} (m : st file_sync SyncError A) (k : A → st file_sync SyncError B) s Q R :
  posts m s Q → (∀ a s', Q a s' → posts (k a) s' R) → posts (m ≫= k) s R.
Proof.
  unfold posts. unfold mbind, st_bind. destruct (m s) as [[a|e|] s']; [|done|done]. intros HQ Hk. by apply Hk.
Qed.

Lemma posts_ret {A} (a : A) s (Q : A → file_sync → Prop) : Q a s → posts (mret a) s Q.
Proof. done. Qed.

Lemma posts_get s (Q : file_sync → file_sync → Prop) : Q s s → posts st_get s Q.
Proof. done. Qed.

Lemma posts_modify f s (Q : unit → file_sync → Prop) : Q tt (f s) → posts (modify f) s Q.
Proof. done. Qed.

Lemma posts_weaken {A} (m : st file_sync SyncError A) s (Q R : A → file_sync → Prop) :
  posts m s Q → (∀ a s', Q a s' → R a s') → posts m s R.
Proof. unfold posts. destruct (m s) as [[a|e|] s']; auto. Qed.

(** ** Connecting the pending blocks *)

Lemma block_position_Some pre b post :
  NoDup (map hash_of (pre ++ b :: post)) → block_position (hash_of b) (pre ++ b :: post) = Some (length pre).
Proof.
  induction pre as [|x pre IH]; cbn [app map block_position length].
  - intros _. by rewrite bool_decide_true.
  - intros [Hni Hn]%NoDup_cons. rewrite bool_decide_false, IH; [done|done|].
    intros He. apply Hni. cbv beta. rewrite He. change (hash_of b ∈ map hash_of (pre ++ b :: post)).
    rewrite map_app. set_solver.
Qed.

Lemma connect_pending_spec pre rest s :
  fs_inv pre rest s →
  posts (connect_pending_blocks self trace clock) s
    (λ ok s', pending_blocks s' = [] ∧ block_cache s' = block_cache s ∧ fs_parser s' = fs_parser s
              ∧ has_found_start s' = has_found_start s
              ∧ ∃ pre' rest', fs_inv pre' rest' s'
                ∧ ((ok : bool) = true → pre' = pre ++ pending_blocks s ∧ rest' = rest)).
Proof.
  intros [Hsplit Hmiss Hdb Hhd Htot Hc Hg].
  assert (connectable hdrs (rev pre ++ common) (pending_blocks s)) as Hcon.
  { rewrite Hsplit in bs_connectable. apply connectable_app in bs_connectable as [_ Hx].
    by apply connectable_app in Hx as [Hx _]. }
  unfold posts, connect_pending_blocks, write_txn.
  destruct (fs_task s) as [db evs] eqn:Ht. cbn [fst] in *. rewrite <- Hhd in Hcon.
  destruct (handle_block_batch_outcome self trace clock (pending_blocks s) (rev pre ++ common) db evs
              work_pos Hdb Hcon extra_ok) as [Hns Hout].
  destruct (handle_block_batch self trace clock (pending_blocks s) (db, evs)) as [[[[bh e]|]|e|] [db' evs']];
    cbn [batch_outcome fst snd] in Hns, Hout.
  - destruct Hout as (Hh' & p & b & post & Hp & -> & _ & Hi). rewrite Hp.
    rewrite block_position_Some; [|
      rewrite Hsplit, Hp, !map_app in bs_nodup;
      apply NoDup_app in bs_nodup as (_ & _ & Hn); apply NoDup_app in Hn as (Hn & _ & _); by rewrite map_app].
    split_and!; [done|done|done|done|]. exists (pre ++ p), ((b :: post) ++ rest).
    split; [|done]. split; cbn [pending_blocks missing_blocks fs_task total_handled_blocks block_cache set_pending
      set_total set_missing set_task fst].
    + rewrite Hsplit, Hp. cbn [app]. by rewrite <- !app_assoc.
    + rewrite drop_app_length, Hmiss, map_app, rev_app_distr. f_equal. by rewrite map_rev.
    + by rewrite rev_app_distr, <- app_assoc.
    + by rewrite Hh'.
    + rewrite Htot, len_app. done.
    + done.
    + done.
  - destruct Hout as [Hi Hh']. split_and!; [done|done|done|done|]. exists (pre ++ pending_blocks s), rest.
    split; [|done]. split; cbn [pending_blocks missing_blocks fs_task total_handled_blocks block_cache set_pending
      set_total set_missing set_task fst].
    + by rewrite <- app_assoc.
    + done.
    + by rewrite rev_app_distr, <- app_assoc.
    + by rewrite Hh'.
    + by rewrite Htot, len_app.
    + done.
    + done.
  - destruct Hout as [-> _]. done.
  - done.
Qed.

Lemma connect_remaining_spec s :
  fs_ok s → posts (connect_remaining self trace clock) s (λ _ s', fs_done s').
Proof.
  intros (pre & rest & Hinv & Hp). unfold connect_remaining.
  apply (posts_bind _ _ _ (λ x s', x = s ∧ s' = s)); [by apply posts_get|]. intros ? ? [-> ->].
  case_bool_decide as Hne.
  - eapply posts_bind; [by eapply connect_pending_spec|].
    intros ok s' (Hnil & _ & _ & _ & pre' & rest' & Hinv' & _). apply posts_ret.
    split; [|done]. exists pre', rest'. split; [done|]. by rewrite Hnil.
  - apply posts_ret. split; [|done]. by exists pre, rest.
Qed.

(** ** Taking the block expected next *)

Lemma connect_if_full_spec pre rest s :
  fs_inv pre rest s →
  posts (connect_if_full self trace clock) s
    (λ ok s', fs_parser s' = fs_parser s ∧ has_found_start s' = has_found_start s
              ∧ if (ok : bool)
                then fs_ok s' ∧ missing_blocks s' = missing_blocks s
                else fs_done s').
Proof.
  intros Hinv. unfold connect_if_full.
  apply (posts_bind _ _ _ (λ x s', x = s ∧ s' = s)); [by apply posts_get|]. intros ? ? [-> ->].
  destruct (_ || _) eqn:Hfull.
  - eapply posts_weaken; [by eapply connect_pending_spec|].
    intros ok s' (Hnil & _ & Hp & Hf & pre' & rest' & Hinv' & Hok). split_and!; [done|done|].
    assert (fs_ok s') as Hok' by (exists pre', rest'; split; [done|by rewrite Hnil]).
    destruct ok; [|by split]. split; [done|]. destruct (Hok eq_refl) as [_ ->].
    by rewrite (fi_missing _ _ _ Hinv), (fi_missing _ _ _ Hinv').
  - apply posts_ret. split_and!; [done|done| |done]. apply orb_false_iff in Hfull as [_ Hm].
    apply bool_decide_eq_false_1 in Hm. exists pre, rest. split; [done|]. intros _ ->.
    by rewrite (fi_missing _ _ _ Hinv) in Hm.
Qed.

Lemma push_expected_inv pre b rest s :
  fs_inv pre (b :: rest) s →
  posts (push_expected b) s
    (λ _ s', fs_inv pre rest s' ∧ fs_parser s' = fs_parser s ∧ has_found_start s' = has_found_start s).
Proof.
  intros [Hsplit Hmiss Hdb Hhd Htot Hc Hg]. apply posts_modify. split_and!; [|done|done].
  split; cbn [pending_blocks missing_blocks fs_task total_handled_blocks block_cache set_pending set_missing];
    [|rewrite Hmiss; cbn [map rev]; by rewrite removelast_last|done..].
  by rewrite Hsplit, <- !app_assoc.
Qed.

Lemma cache_remove_genuine bh c b c' :
  cache_genuine c → (∃ l, cache_rep c l) → cache_remove bh c = (b, c') →
  cache_genuine c' ∧ (∃ l, cache_rep c' l)
  ∧ ∀ x b0, b = Some x → b0 ∈ bs → hash_of b0 = bh → x = b0.
Proof.
  intros Hg [l Hr] Hrm. split_and!.
  - intros h y b0 Hl. revert Hrm. unfold cache_remove. destruct (blocks c !! bh); intros [= _ <-].
    + cbn [blocks] in Hl. apply lookup_delete_Some in Hl as [_ Hl]. by apply Hg.
    + by apply Hg.
  - destruct (cache_remove_rep c l bh Hr) as (c2 & Hr2 & Hrep & _). rewrite Hrm in Hr2.
    injection Hr2 as _ ->. by eexists.
  - intros x b0 -> Hb0 Hh. revert Hrm. unfold cache_remove. destruct (blocks c !! bh) eqn:Hl; [|done].
    intros [= -> _]. by apply (Hg bh).
Qed.

Lemma set_cache_inv pre rest s c :
  fs_inv pre rest s → cache_genuine c → (∃ l, cache_rep c l) → fs_inv pre rest (set_cache c s).
Proof. intros [] ? ?. by split. Qed.

(** What a step keeps: the loop goes on with [fs_ok], or stops with nothing
    pending. *)
Definition step_post (found : bool) (p : BlockDirectoryParser) (r : option bool) (s' : file_sync) : Prop :=
  match r with
  | Some true => fs_ok s' ∧ fs_parser s' = p ∧ has_found_start s' = found
  | Some false => fs_ok s'
  | None => False
  end.

Lemma process_cached_loop_spec fuel s :
  fs_ok s → (length (missing_blocks s) < fuel)%nat →
  posts (process_cached_loop self trace clock fuel) s (step_post (has_found_start s) (fs_parser s)).
Proof.
  revert s. induction fuel as [|fuel IH]; intros s Hok Hf; [lia|]. cbn [process_cached_loop].
  apply (posts_bind _ _ _ (λ x s', x = s ∧ s' = s)); [by apply posts_get|]. intros ? ? [-> ->].
  destruct Hok as (pre & rest & Hinv & Hp). rewrite (fi_missing _ _ _ Hinv).
  destruct rest as [|b rest]; [apply posts_ret; by split_and!; [exists pre, []|..]|].
  cbn [map rev]. rewrite last_snoc. cbv iota beta.
  destruct (cache_remove (block_hash (header b)) (block_cache s)) as [[x|] c] eqn:Hrm.
  2:{ apply posts_ret. split_and!; [by exists pre, (b :: rest)|done|done]. }
  destruct (cache_remove_genuine _ _ _ _ (fi_genuine _ _ _ Hinv) (fi_cache _ _ _ Hinv) Hrm) as (Hg & Hr & Hx).
  assert (x = b) as ->.
  { apply Hx; [done| |done]. rewrite (fi_split _ _ _ Hinv). set_solver. }
  apply (posts_bind _ _ _ (λ _ s1, fs_inv pre (b :: rest) s1 ∧ fs_parser s1 = fs_parser s
                                    ∧ has_found_start s1 = has_found_start s)).
  { apply posts_modify. split_and!; [by apply set_cache_inv|done|done]. }
  intros [] s1 (Hinv1 & Hp1 & Hf1).
  eapply posts_bind; [by apply push_expected_inv|]. intros [] s2 (Hinv2 & Hp2 & Hf2).
  eapply posts_bind; [by eapply connect_if_full_spec|]. intros ok s3 (Hp3 & Hf3 & Hs3).
  destruct ok.
  - destruct Hs3 as [Hok3 Hm3]. eapply posts_weaken; [apply IH; [done|]|].
    + rewrite Hm3, (fi_missing _ _ _ Hinv2). rewrite (fi_missing _ _ _ Hinv) in Hf.
      cbn [map rev] in Hf. rewrite length_app in Hf. cbn in Hf. lia.
    + intros r s'. by rewrite Hf3, Hf2, Hf1, Hp3, Hp2, Hp1.
  - apply posts_ret. by apply Hs3.
Qed.

(** ** A parsed block *)

Lemma cache_insert_genuine bh b c :
  cache_genuine c → (∃ l, cache_rep c l) → (∀ b0, b0 ∈ bs → hash_of b0 = bh → b = b0) →
  ∃ c', cache_insert bh b c = Some c' ∧ cache_genuine c' ∧ ∃ l, cache_rep c' l.
Proof.
  intros Hg [l Hr] Hb. destruct (cache_insert_rep c l bh b Hr) as (c' & Hi & Hr' & _).
  exists c'. split_and!; [done| |by eexists]. intros h y b0 Hl Hb0 Hh.
  rewrite (rep_blocks _ _ Hr') in Hl. pose proof (rep_blocks _ _ Hr) as Hbl.
  unfold fifo_insert, fifo_lookup in Hl. destruct (list_to_map l !! bh) as [z|] eqn:Hz.
  - rewrite <- Hbl in Hl. by apply (Hg h).
  - rewrite list_to_map_app in Hl. apply lookup_union_Some_raw in Hl as [Hl|[_ Hl]].
    + apply (Hg h); [|done|done]. rewrite Hbl.
      apply elem_of_list_to_map_2 in Hl. apply elem_of_list_to_map; [by destruct Hr|].
      by apply (subseteq_drop _ l) in Hl.
    + cbn [list_to_map foldr uncurry fst snd] in Hl. apply lookup_insert_Some in Hl as [[<- <-]|[_ Hl]].
      * by apply Hb.
      * by rewrite lookup_empty in Hl.
Qed.

Lemma parsed_block_spec pb s :
  genuine pb → fs_ok s →
  posts (parsed_block pb) s
    (λ b s', s' = s ∧ block_hash (header b) = block_hash (pb_header pb)
             ∧ ∀ b0, b0 ∈ bs → hash_of b0 = block_hash (pb_header pb) → b = b0).
Proof.
  intros Hg Hok. unfold posts, parsed_block, parse_tx_data, mbind, st_bind, st_lift.
  destruct (txs_decode (raw_tx_data pb)) as [txs|] eqn:Htx; cbn; [|by apply fs_ok_lost].
  split_and!; [done|done|]. intros b0 Hb0 Hh. by apply Hg.
Qed.

(** What reading and caching a block keeps. *)
Lemma cache_block_spec pre rest s b :
  fs_inv pre rest s → (∀ b0, b0 ∈ bs → hash_of b0 = block_hash (header b) → b = b0) →
  posts (cache_block b) s
    (λ r s', r = Some tt ∧ fs_inv pre rest s' ∧ pending_blocks s' = pending_blocks s
             ∧ fs_parser s' = fs_parser s ∧ has_found_start s' = has_found_start s
             ∧ iterations_without_match s' = iterations_without_match s).
Proof.
  intros Hinv Hb. unfold posts, cache_block, mbind, st_bind, st_get.
  destruct (cache_insert_genuine (block_hash (header b)) b (block_cache s)) as (c & -> & Hg & Hr);
    [by eapply fi_genuine|by eapply fi_cache|done|].
  split_and!; [done| |done..]. by apply set_cache_inv.
Qed.

Lemma set_found_ok pre rest s : fs_inv pre rest s → fs_inv pre rest (set_found s).
Proof. intros []. by split. Qed.

Lemma set_unmatched_ok pre rest n s : fs_inv pre rest s → fs_inv pre rest (set_unmatched n s).
Proof. intros []. by split. Qed.

Lemma set_parser_ok p s : fs_ok s → fs_ok (set_parser p s).
Proof. intros (pre & rest & [] & Hp). exists pre, rest. split; [by split|done]. Qed.

(** ** One step *)
Lemma file_sync_step_spec first pb s :
  genuine pb → fs_ok s →
  posts (file_sync_step self trace clock first pb) s
    (λ r s', match r with Some true => fs_ok s' ∧ fs_parser s' = fs_parser s
                        | Some false => fs_ok s' | None => False end).
Proof.
  intros Hg Hok. unfold file_sync_step.
  apply (posts_bind _ _ _ (λ x s', x = s ∧ s' = s)); [by apply posts_get|]. intros ? ? [-> ->].
  destruct (_ && _).
  - eapply posts_bind; [by apply parsed_block_spec|]. intros b s' (-> & Hh & Hb).
    destruct Hok as (pre & rest & Hinv & Hp).
    eapply posts_bind; [eapply cache_block_spec; [exact Hinv|by rewrite Hh]|].
    intros r s' (-> & Hinv' & Hp' & Hpa & _). apply posts_ret. cbn. split; [|done].
    exists pre, rest. by rewrite Hp'.
  - apply (posts_bind _ _ _ (λ _ s', s' = set_found s)); [by apply posts_modify|]. intros [] ? ->.
    destruct Hok as (pre & rest & Hinv & Hp). apply set_found_ok in Hinv.
    assert (fs_ok (set_found s)) as Hok by by exists pre, rest.
    rewrite (fi_missing _ _ _ Hinv : missing_blocks s = _).
    destruct rest as [|b rest]; [by apply posts_ret|].
    cbn [map rev]. rewrite last_snoc. cbv iota beta. case_bool_decide as Hexp.
    + apply (posts_bind _ _ _ (λ _ s', s' = set_unmatched 0 (set_found s))); [by apply posts_modify|].
      intros [] ? ->. apply (set_unmatched_ok _ _ 0) in Hinv.
      eapply posts_bind; [apply parsed_block_spec; [done|by exists pre, (b :: rest)]|].
      intros b' s' (-> & _ & Hb).
      assert (b' = b) as ->.
      { apply Hb; [|done]. rewrite (fi_split _ _ _ Hinv). set_solver. }
      eapply posts_bind; [by apply push_expected_inv|]. intros [] s2 (Hinv2 & Hp2 & _).
      eapply posts_bind; [by eapply connect_if_full_spec|]. intros ok s3 (Hp3 & _ & Hs3).
      destruct ok; [|by apply posts_ret, Hs3]. cbn [negb]. destruct Hs3 as [Hok3 _].
      unfold process_cached_blocks.
      apply (posts_bind _ _ _ (λ x s', x = s3 ∧ s' = s3)); [by apply posts_get|]. intros ? ? [-> ->].
      eapply posts_weaken; [apply process_cached_loop_spec; [done|lia]|].
      intros [[]|] s'; cbn; [|done|done]. intros (? & Hp4 & _). split; [done|]. by rewrite Hp4, Hp3, Hp2.
    + eapply posts_bind; [by apply parsed_block_spec|]. intros b' s' (-> & Hh & Hb).
      eapply posts_bind; [eapply cache_block_spec; [exact Hinv|by rewrite Hh]|].
      intros r s1 (-> & Hinv1 & Hp1 & Hpa1 & _).
      eapply posts_bind; [apply (posts_modify _ _ (λ _ s', s' = set_unmatched (iterations_without_match s + 1) s1));
                          reflexivity|].
      intros [] ? ->. apply (set_unmatched_ok _ _ (iterations_without_match s + 1)) in Hinv1.
      assert (fs_ok (set_unmatched (iterations_without_match s + 1) s1)) as Hok1
        by (by exists pre, (b :: rest)).
      destruct (_ <=? _).
      * eapply posts_bind; [by apply connect_remaining_spec|]. intros [] s2 [Hok2 _]. by apply posts_ret.
      * apply posts_ret. by split.
Qed.

(** ** The loop *)

(** The blocks the directory's parser reads. *)
Inductive dir_parses (parser_fuel : nat) (dir : BlocksDir) : BlockDirectoryParser → ParsedBlock → Prop :=
| parses_here p b p' :
    dir_next_block parser_fuel dir p = Some (Ok (Some b), p') → dir_parses parser_fuel dir p b
| parses_later p b p' b' :
    dir_next_block parser_fuel dir p = Some (Ok (Some b), p') → dir_parses parser_fuel dir p' b' →
    dir_parses parser_fuel dir p b'.

(** The loop keeps the invariant and ends: each block read leaves less to read. *)
Lemma file_sync_loop_spec parser_fuel dir cancelled first fuel n i s :
  fs_ok s → dir_ok dir n (fs_parser s) → (2 * n + 1 ≤ parser_fuel)%nat →
  (dir_left dir n (fs_parser s) < fuel)%nat →
  (∀ b, dir_parses parser_fuel dir (fs_parser s) b → genuine b) →
  posts (file_sync_loop self trace clock fuel parser_fuel dir cancelled first i) s
    (λ r s', r = Some tt ∧ fs_ok s').
Proof.
  revert n i s. induction fuel as [|fuel IH]; intros n i s Hok Hdir Hpf Hf Hg; [lia|].
  cbn [file_sync_loop]. destruct (_ && _).
  - eapply posts_bind; [by apply connect_remaining_spec|]. intros [] s' [Hok' _].
    unfold posts, st_lift. by apply fs_ok_lost.
  - apply (posts_bind _ _ _ (λ x s', x = s ∧ s' = s)); [by apply posts_get|]. intros ? ? [-> ->].
    destruct (dir_next_block_total dir n (fs_parser s) parser_fuel Hdir Hpf) as (o & p & Hn & Hb).
    rewrite Hn. apply (posts_bind _ _ _ (λ _ s', s' = set_parser p s)); [by apply posts_modify|].
    intros [] ? ->. apply (set_parser_ok p) in Hok.
    apply (posts_bind _ _ _ (λ b s', o = Ok b ∧ s' = set_parser p s)).
    { unfold posts, st_lift. destruct o; [done|by apply fs_ok_lost|done]. }
    intros [pb|] ? [-> ->]; [|by apply posts_ret].
    destruct (Hb pb eq_refl) as (n' & Hn' & Hdir' & Hlt).
    eapply posts_bind; [apply file_sync_step_spec; [apply Hg; by econstructor|done]|].
    intros [[]|] s'; [|by intros ?; apply posts_ret|done]. intros [Hok' Hp'].
    apply (IH n'); rewrite ?Hp'; [done|done|lia|cbn [fs_parser set_parser]; lia|].
    cbn [fs_parser set_parser]. intros b' Hb'. apply Hg. by eapply parses_later.
Qed.

(** The loop and the last batch. *)
Lemma file_sync_run_spec parser_fuel dir cancelled first fuel n s :
  fs_ok s → dir_ok dir n (fs_parser s) → (2 * n + 1 ≤ parser_fuel)%nat →
  (dir_left dir n (fs_parser s) < fuel)%nat →
  (∀ b, dir_parses parser_fuel dir (fs_parser s) b → genuine b) →
  posts (r ← file_sync_loop self trace clock fuel parser_fuel dir cancelled first 0;
         match r with
         | None => mret None
         | Some _ => _ ← connect_remaining self trace clock; mret (Some tt)
         end) s (λ r s', r = Some tt ∧ fs_done s').
Proof.
  intros Hok Hdir Hpf Hf Hg. eapply posts_bind; [by eapply file_sync_loop_spec|].
  intros r s' [-> Hok']. eapply posts_bind; [by apply connect_remaining_spec|]. intros [] s2 Hd.
  by apply posts_ret.
Qed.
End file_sync_proofs.

(** * Opening the directory *)
Section opening.
Context `{HashLib} `{ScriptLib} `{TxLib} `{TaprootLib} `{P2mrLib} `{PqcLib} `{ConsensusCodec}.

Lemma connectable_linked (db : BlockHashDbs) common bs :
  chain_linked db common → connectable (headers db) common bs → chain_linked db (rev bs ++ common).
Proof.
  revert common. induction bs as [|b bs IH]; intros common Hl; [done|]. intros (Hh & Hp & _ & Hc).
  cbn [rev]. rewrite <- app_assoc. cbn [app]. apply IH; [|done]. by split_and!.
Qed.

(** Blocks of a linked chain have distinct heights, so distinct hashes. *)
Lemma chain_linked_nodup (db : BlockHashDbs) chain :
  headers_wf db → chain_linked db chain → NoDup (map hash_of chain).
Proof.
  intros Hwf. induction chain as [|b chain IH]; intros Hl; [constructor|]. cbn [map]. apply NoDup_cons.
  pose proof (tip_at_height db _ Hwf Hl) as Hat. rewrite len_cons in Hat.
  destruct Hl as (_ & _ & Hl). split; [|by apply IH].
  intros Hin. apply list_elem_of_fmap in Hin as (b' & Heq & (l1 & l2 & ->)%list_elem_of_split).
  apply chain_linked_app in Hl. pose proof (tip_at_height db _ Hwf Hl) as Hat'.
  change (at_height db (block_hash (header b)) (1 + len (l1 ++ b' :: l2) - 1)) in Hat.
  change (at_height db (block_hash (header b')) (len (b' :: l2) - 1)) in Hat'.
  rewrite Heq in Hat. pose proof (at_height_fun _ _ _ _ Hwf Hat Hat') as He.
  rewrite len_app in He. pose proof (len_nonneg l1). lia.
Qed.

(** The files of a directory have numbers below [n]. *)
Definition dir_bounded (dir : BlocksDir) (n : nat) : Prop :=
  Z.of_nat n < 2 ^ 32 ∧ ∀ i f, blk_files dir !! i = Some f → 0 ≤ i < Z.of_nat n.

Lemma files_bytes_app dir a b i :
  files_bytes dir (a + b) i = (files_bytes dir a i + files_bytes dir b (i + Z.of_nat a))%nat.
Proof.
  revert i. induction a as [|a IH]; intros i; cbn [files_bytes Nat.add]; [by rewrite Z.add_0_r|].
  rewrite IH. replace (i + 1 + Z.of_nat a) with (i + Z.of_nat (S a)) by lia. lia.
Qed.

Lemma open_directory_ok dir network first n p :
  dir_bounded dir n → open_directory dir network first = Ok p →
  ∃ m, (m ≤ n)%nat ∧ dir_ok dir m p ∧ (dir_left dir m p ≤ files_bytes dir n 0)%nat.
Proof.
  intros [Hn Hfiles]. unfold open_directory, directory_parser_new.
  destruct (xor_dat dir) as [key|]; cbn [ok_or mbind outcome_bind map_err]; [|done].
  destruct (bool_decide (length key = 8%nat)); cbn [expect mbind outcome_bind map_err]; [|done].
  set (k := if forallb _ key then _ else _).
  assert (blk_files dir !! Z.of_nat n = None) as Hend.
  { destruct (blk_files dir !! Z.of_nat n) eqn:Hl; [|done]. apply Hfiles in Hl. lia. }
  case_bool_decide.
  - intros [= <-]. exists n. split_and!; [done| |done]. by split; cbn [file_index]; rewrite ?Z.add_0_l.
  - destruct (fetch_block_index _ _) as [idx|e|]; [|done|done]. cbn [map_err mbind outcome_bind].
    destruct (file_number idx) as [num|]; [|done]. destruct (adjusted_data_pos idx) as [pos|] eqn:Hpos; [|done].
    cbn [ok_or mbind outcome_bind]. unfold set_offset, get_or_init_parser, open_block_file.
    unfold mbind at 1, st_bind at 1. cbn [set_file_number current_parser file_index dir_xor_key dir_network].
    destruct (blk_files dir !! num) as [content|] eqn:Hnum; [|done]. apply Hfiles in Hnum as Hr.
    intros [= <-]. cbn [reader bf_network] in *. exists (n - Z.to_nat num)%nat.
    assert (0 ≤ pos) as Hp0.
    { revert Hpos. unfold adjusted_data_pos, checked_sub. destruct (data_pos idx); [|done].
      cbn [mbind option_bind]. destruct (_ <=? _) eqn:Hle; [|done]. intros [= <-].
      apply Z.leb_le in Hle. lia. }
    split_and!; [lia| |].
    + split; cbn [file_index set_current set_file_number current_parser].
      * rewrite <- Hend. f_equal. lia.
      * lia.
      * intros c [= <-]. cbn. split; [done|lia].
    + unfold dir_left. cbn [current_parser set_current file_index set_file_number reader set_reader].
      replace n with (Z.to_nat num + S (n - Z.to_nat num - 1))%nat at 2 by lia.
      rewrite files_bytes_app. cbn [files_bytes]. rewrite Z.add_0_l, Z2Nat.id, Hnum by lia. cbn [default].
      unfold remaining, seek. cbn [offset xor_key file].
      assert (length (drop (Z.to_nat pos) content) ≤ length content)%nat by (rewrite length_drop; lia).
      change (id content) with content.
      destruct k; rewrite ?length_apply_xor; lia.
Qed.
End opening.

(** ** Operations on the cache *)
Inductive cache_op := CacheInsert (bh : BlockHash) (block : Block) | CacheRemove (bh : BlockHash).

Definition cache_step (op : cache_op) (c : BlockCache) : option (option Block * BlockCache) :=
  match op with
  | CacheInsert bh block => c ← cache_insert bh block c; Some (None, c)
  | CacheRemove bh => Some (cache_remove bh c)
  end.
Fixpoint cache_run (ops : list cache_op) (c : BlockCache) : option (list (option Block) * BlockCache) :=
  match ops with
  | [] => Some ([], c)
  | op :: ops => '(r, c) ← cache_step op c; '(rs, c) ← cache_run ops c; Some (r :: rs, c)
  end.

Definition fifo_step (max : nat) (op : cache_op) (l : entries) : option Block * entries :=
  match op with
  | CacheInsert bh block => (None, fifo_insert max bh block l)
  | CacheRemove bh => (fifo_lookup bh l, fifo_remove bh l)
  end.
Fixpoint fifo_run (max : nat) (ops : list cache_op) (l : entries) : list (option Block) * entries :=
  match ops with
  | [] => ([], l)
  | op :: ops => let '(r, l) := fifo_step max op l in let '(rs, l) := fifo_run max ops l in (r :: rs, l)
  end.

Lemma cache_step_rep op c l :
  cache_rep c l →
  ∃ c', cache_step op c = Some ((fifo_step (max_size c) op l).1, c')
        ∧ cache_rep c' (fifo_step (max_size c) op l).2 ∧ max_size c' = max_size c.
Proof.
  intros Hr. destruct op as [bh b|bh]; cbn [cache_step fifo_step fst snd].
  - destruct (cache_insert_rep c l bh b Hr) as (c' & -> & ? & ?). by exists c'.
  - destruct (cache_remove_rep c l bh Hr) as (c' & -> & ? & ?). by exists c'.
Qed.

Lemma cache_run_rep ops c l :
  cache_rep c l →
  ∃ c', cache_run ops c = Some ((fifo_run (max_size c) ops l).1, c')
        ∧ cache_rep c' (fifo_run (max_size c) ops l).2 ∧ max_size c' = max_size c.
Proof.
  revert c l. induction ops as [|op ops IH]; intros c l Hr; [by exists c|].
  destruct (cache_step_rep op c l Hr) as (c1 & Hs & Hr1 & Hm). cbn [cache_run fifo_run]. rewrite Hs.
  destruct (fifo_step (max_size c) op l) as [r l1]. cbn [mbind option_bind fst snd] in *.
  destruct (IH c1 l1 Hr1) as (c2 & -> & Hr2 & Hm2). rewrite Hm in *.
  destruct (fifo_run (max_size c) ops l1) as [rs l2]. cbn [fst snd] in *. exists c2. split_and!; [done|done|congruence].
Qed.

(** The block cache is a bounded FIFO: from an empty cache, any sequence of
    [insert] and [remove] ends (the eviction loop included) and answers exactly
    as the list of the entries in the order of their insertion, where an insertion
    of a hash already present changes nothing, and one into a full cache drops the
    oldest entries; the map and the queue of the cache stay in step with that
    list, which never holds more than [max] entries. *)
Lemma block_cache_fifo max ops :
  (0 < max)%nat →
  ∃ c, cache_run ops (cache_new max) = Some ((fifo_run max ops []).1, c)
       ∧ cache_rep c (fifo_run max ops []).2 ∧ (length (fifo_run max ops []).2 ≤ max)%nat.
Proof.
  intros Hm. destruct (cache_run_rep ops (cache_new max) [] (cache_new_rep max Hm)) as (c & Hr & Hc & Hmax).
  cbn [cache_new max_size] in *. exists c. split_and!; [done|done|]. pose proof (rep_bound _ _ Hc). lia.
Qed.

(** ** The contract of [sync_blocks] *)

Lemma fs_start_ok `{TxLib} bs common hdrs t p :
  db_inv t.1 common → headers (block_hashes t.1) = hdrs →
  fs_ok bs common hdrs
    (mkFileSync t (rev (map hash_of bs)) p (cache_new MAX_BLOCK_CACHE_SIZE) [] 0 false 0).
Proof.
  intros Hinv Hh. exists [], bs. split; [|done]. split; cbn; try done.
  exists []. apply cache_new_rep. unfold MAX_BLOCK_CACHE_SIZE. lia.
Qed.

(** C30: syncing from the block files keeps the contract of [sync_blocks]
    ([file_sync_spec]): on the missing blocks of a chain, on any directory whose
    blocks are the chain's where their hashes say so, in any order, with any other
    blocks and errors in between, [sync_from_directory] ends; it connects some
    first blocks of the missing ones, in order, and pops exactly their hashes: a
    block rejected by the rules, blocks cached or pending and blocks not found are
    left as missing.  Only when it fails may the blocks pending be lost.  A panic is not
    excluded. *)
Theorem sync_from_directory_correct
    `{HashLib} `{ScriptLib} `{TxLib} `{TaprootLib} `{P2mrLib} `{PqcLib} `{ConsensusCodec}
    self trace clock dir network cancelled fuel parser_fuel n bs common hdrs :
  (∀ hd, 0 < header_work hd) → connectable hdrs common bs →
  map_Forall (λ _ o, is_p2mr_script (script_pubkey o) = false) (extra_prevouts self) →
  dir_bounded dir n → (2 * n + 1 ≤ parser_fuel)%nat → (files_bytes dir n 0 < fuel)%nat →
  (∀ first p b, head bs = Some first → open_directory dir network (block_hash (header first)) = Ok p →
     dir_parses parser_fuel dir p b → genuine bs b) →
  file_sync_spec (sync_from_directory self trace clock dir network cancelled fuel parser_fuel) bs common hdrs.
Proof.
  intros Hw Hcon Hx Hdir Hpf Hf Hg db evs Hinv Hh.
  assert (NoDup (map hash_of bs)) as Hnd.
  { pose proof Hinv as [Hwf _ _ Hch]. rewrite <- Hh in Hcon.
    pose proof (chain_linked_nodup _ _ Hwf (connectable_linked _ _ _ (chain_stored_linked _ _ Hch) Hcon)) as Hn.
    rewrite map_app, map_rev in Hn. apply NoDup_app in Hn as (Hn & _). rewrite <- (rev_involutive (map _ bs)).
    by apply NoDup_ListNoDup, NoDup_rev, NoDup_ListNoDup. }
  unfold sync_from_directory. destruct bs as [|first bs']; [done|]. cbn [map rev]. rewrite last_snoc.
  cbn [expect mbind outcome_bind].
  assert (∀ o : outcome SyncError Z, is_ok o = false →
    ∃ pre lost rest, first :: bs' = pre ++ lost ++ rest
      ∧ rev (map hash_of bs') ++ [hash_of first] = rev (map hash_of rest)
      ∧ db_inv db (rev pre ++ common) ∧ headers (block_hashes db) = hdrs
      ∧ (is_ok o = true → lost = []) ∧ (lost ≠ [] → rest ≠ [])) as Hfail.
  { intros o Ho. exists [], [], (first :: bs'). by rewrite Ho. }
  destruct (open_directory dir network (block_hash (header first))) as [p|e|] eqn:Hopen; [|by apply Hfail|done].
  cbn [mbind outcome_bind].
  destruct (head (rev (map hash_of bs') ++ _)) as [target|]; [|done]. cbn [expect mbind outcome_bind fst].
  destruct (heights (block_hashes db) !! target); [|by apply Hfail]. cbn [ok_or mbind outcome_bind].
  destruct (open_directory_ok dir network _ n p Hdir Hopen) as (m & Hm & Hok & Hleft).
  match goal with |- context [mkFileSync ?a ?b ?c ?d ?e ?f ?g ?h] =>
    pose proof (file_sync_run_spec self trace clock (first :: bs') common hdrs Hw Hcon Hnd Hx parser_fuel dir cancelled
      (block_hash (header first)) fuel m (mkFileSync a b c d e f g h)) as Hrun end.
  specialize (Hrun (fs_start_ok _ common hdrs (db, evs) p Hinv Hh) Hok ltac:(lia) ltac:(cbn; lia) (λ b, Hg first p b eq_refl Hopen)).
  revert Hrun. unfold posts. clear.
  match goal with |- context [?m (mkFileSync ?a ?b ?c ?d ?e ?f ?g ?h)] =>
    destruct (m (mkFileSync a b c d e f g h)) as [[r|e'|] s] end; [|intros Hrun|done].
  - intros [-> ((pre & rest & [Hs Hmi Hd Hh _ _ _] & _) & Hnil)]. rewrite Hnil in Hs.
    destruct (fs_task s) as [db' evs'] eqn:Ht. exists pre, [], rest. by split_and!.
  - destruct Hrun as (pre & lost & rest & ? & ? & ? & ? & ?).
    destruct (fs_task s) as [db' evs'] eqn:Ht. by exists pre, lost, rest.
Qed.

(** ** A failed block-file sync *)
Section failing.
Context `{HashLib} `{ScriptLib} `{TxLib} `{TaprootLib} `{P2mrLib} `{PqcLib} `{ConsensusCodec}.

(** A first block read and waiting for its successor. *)
Lemma file_sync_step_first self trace clock t h2 b1 p pb total n :
  pb_header pb = header b1 → txs_decode (raw_tx_data pb) = Some (txdata b1) →
  file_sync_step self trace clock (block_hash (header b1)) pb
    (mkFileSync t [h2; block_hash (header b1)] p (cache_new MAX_BLOCK_CACHE_SIZE) [] total false n)
  = (Ok (Some true), mkFileSync t [h2] p (cache_new MAX_BLOCK_CACHE_SIZE) [b1] total true 0).
Proof.
  intros Hhd Htx. unfold file_sync_step.
  unfold mbind at 1, st_bind at 1, st_get. rewrite Hhd, bool_decide_false by naive_solver.
  rewrite andb_false_r. unfold mbind at 1, st_bind at 1, modify. cbn [set_found missing_blocks last].
  rewrite bool_decide_true by done. unfold mbind at 1, st_bind at 1. cbn [set_unmatched].
  unfold mbind at 1, st_bind at 1, parsed_block, parse_tx_data. rewrite Htx, Hhd. by destruct b1.
Qed.

(** The first record is the first missing block; the next one cannot be read. *)
Lemma file_sync_fails self trace clock dir network cancelled fuel parser_fuel db evs h2 b1 p p1 p2 pb e ht :
  heights (block_hashes db) !! h2 = Some ht →
  open_directory dir network (block_hash (header b1)) = Ok p →
  dir_next_block parser_fuel dir p = Some (Ok (Some pb), p1) →
  pb_header pb = header b1 → txs_decode (raw_tx_data pb) = Some (txdata b1) →
  dir_next_block parser_fuel dir p1 = Some (Err e, p2) →
  cancelled 0%nat = false → (2 ≤ fuel)%nat →
  sync_from_directory self trace clock dir network cancelled fuel parser_fuel
    [h2; block_hash (header b1)] (db, evs)
  = (Some (Err (SyncParseBlockFiles e)), ([h2], (db, evs))).
Proof.
  intros Hht Hopen Hn1 Hhd Htx Hn2 Hc Hfuel. unfold sync_from_directory. cbn [last expect mbind outcome_bind].
  rewrite Hopen. cbn [mbind outcome_bind head expect fst]. rewrite Hht. cbn [ok_or mbind outcome_bind].
  destruct fuel as [|[|fuel]]; [lia|lia|].
  unfold mbind at 1, st_bind at 1. cbn [file_sync_loop]. rewrite Hc, andb_false_r.
  unfold mbind at 1, st_bind at 1, st_get. cbn [fs_parser]. rewrite Hn1.
  unfold mbind at 1, st_bind at 1, modify. unfold mbind at 1, st_bind at 1, st_lift. cbn [map_err].
  unfold mbind at 1, st_bind at 1. unfold set_parser at 1. cbn [fs_task missing_blocks block_cache pending_blocks
    total_handled_blocks has_found_start iterations_without_match].
  rewrite file_sync_step_first, (bool_decide_false (_ mod _ = 0)%nat) by done. cbn [andb].
  unfold mbind at 1, st_bind at 1. cbn [fs_parser]. rewrite Hn2. done.
Qed.
End failing.

(** A failed block-file sync loses blocks: when the first missing block is
    read and the next record of the file cannot be, [sync_from_directory] returns
    the error with the first block already off the list but never connected.  The
    error is only logged, so the sync goes on with the second block, and rejects
    it, though it is valid, because its parent is not the tip. *)
Lemma file_sync_error_loses_block
    `{HashLib} `{ScriptLib} `{TxLib} `{TaprootLib} `{P2mrLib} `{PqcLib} `{ConsensusCodec} `{NodeRpc}
    self trace clock dir network cancelled cancelled' fuel fuel' parser_fuel db evs b1 b2 common p p1 p2 pb e :
  db_inv db common → connectable (headers (block_hashes db)) common [b1; b2] → honest_blocks [b1; b2] →
  open_directory dir network (block_hash (header b1)) = Ok p →
  dir_next_block parser_fuel dir p = Some (Ok (Some pb), p1) →
  pb_header pb = header b1 → txs_decode (raw_tx_data pb) = Some (txdata b1) →
  dir_next_block parser_fuel dir p1 = Some (Err e, p2) →
  cancelled 0%nat = false → cancelled' 0%nat = false → (2 < fuel)%nat → (2 ≤ fuel')%nat →
  ∃ h, sync_blocks self trace clock cancelled fuel
         (Some (sync_from_directory self trace clock dir network cancelled' fuel' parser_fuel))
         (block_hash (header b2)) (db, evs)
  = (Ok (Some (Some (block_hash (header b2), BlockParent (block_hash (header b1)) (tip_hash common) h))),
     (db, evs)).
Proof.
  intros Hinv Hcon Hhon Hopen Hn1 Hhd Htx Hn2 Hc Hc' Hf Hf'. pose proof Hinv as [Hwf _ _ Hch].
  pose proof (connectable_linked _ _ _ (chain_stored_linked _ _ Hch) Hcon) as Hl. cbn [rev app] in Hl.
  destruct (find_missing_blocks_Ok fuel [] [b2; b1] common db evs Hinv Hl) as (? & ? & Hfind & _ & _ & Heq);
    [by intros ???|cbn; lia|]. destruct (Heq eq_refl) as [-> ->].
  unfold sync_blocks. unfold mbind at 1, st_bind at 1.
  change (tip_hash ([b2; b1] ++ common)) with (block_hash (header b2)) in Hfind. rewrite Hfind.
  pose proof Hl as (Hh2 & Hp2 & _).
  destruct (at_height_known _ (block_hash (header b2)) Hwf) as [k [[Hz _]|(_ & Hk & _)]];
    [right; by eexists|by rewrite Hz, (wf_zeros _ Hwf) in Hh2|].
  cbn [map]. unfold mbind at 1, st_bind at 1, run_file_sync.
  erewrite file_sync_fails by done.
  destruct (sync_chunks_lost self trace clock cancelled db evs [] [b1] b2 [] common Hinv) as [h Hsync];
    [done|done|done|].
  rewrite Hc in Hsync. pose proof (slice_chunks_map hash_of BLOCK_FETCH_BATCH_SIZE [b2]) as Hchunks.
  rewrite <- Hchunks in Hsync. exists h. cbn [map rev app] in Hsync |- *.
  unfold mbind at 1, st_bind at 1. rewrite Hsync. by rewrite Hp2.
Qed.

(** * Witnesses

    Block files with the blocks of [BlockHandler]'s example chain, out of order
    and with a stale block between them.  A header is named by its first byte. *)
Definition chain_codec : ConsensusCodec := {|
  header_decode l :=
    if bool_decide (80 ≤ length l)%nat
    then (match l with x00 :: _ => Some ex_g | x01 :: _ => Some ex_a1 | x02 :: _ => Some ex_b1 | _ => None end,
          80%nat)
    else (None, length l);
  u32_decode l :=
    if bool_decide (4 ≤ length l)%nat then (Some (le_decode (take 4 l)), 4%nat) else (None, length l);
  txs_decode l :=
    match l with
    | [x00] => Some (txdata ex_block0) | [x01] => Some (txdata ex_block1) | [x02] => Some []
    | _ => None
    end;
  network_magic := magic_for_network;
  chain_hash _ := ex_hash ex_g
|}.
Definition chain_record (b : byte) : bytes := block_record Regtest (replicate 80 b) [b].
Definition chain_dir : BlocksDir :=
  mkBlocksDir (Some (replicate 8 x00)) {[0 := chain_record x01 ++ chain_record x02 ++ chain_record x00]} ∅.
Definition corrupt_dir : BlocksDir :=
  mkBlocksDir (Some (replicate 8 x00)) {[0 := chain_record x00 ++ replicate 88 xff]} ∅.

Definition genuine_b (bs : list Block) (pb : ParsedBlock) : bool :=
  forallb (λ b0, negb (bool_decide (@block_hash toy_tx (pb_header pb) = @block_hash toy_tx (header b0)))
                 || bool_decide (pb_header pb = header b0)
                    && bool_decide (@txs_decode chain_codec (raw_tx_data pb) = Some (txdata b0))) bs.

Lemma genuine_b_sound bs pb : genuine_b bs pb = true → @genuine toy_tx chain_codec bs pb.
Proof.
  intros Hg b0 txs Hb0 Hh Htx. apply forallb_forall with (x := b0) in Hg; [|by apply list_elem_of_In].
  rewrite bool_decide_true in Hg by done. cbn [negb orb] in Hg. apply andb_true_iff in Hg as [H1 H2].
  apply bool_decide_eq_true_1 in H1 as ->. apply bool_decide_eq_true_1 in H2.
  rewrite Htx in H2. injection H2 as ->. by destruct b0.
Qed.

(** Every block the parser reads satisfies [f], and it ends within [k] blocks. *)
Fixpoint dir_all `{ConsensusCodec} (k parser_fuel : nat) (dir : BlocksDir) (f : ParsedBlock → bool)
    (p : BlockDirectoryParser) : bool :=
  match dir_next_block parser_fuel dir p with
  | Some (Ok (Some b), p') => match k with O => false | S k => f b && dir_all k parser_fuel dir f p' end
  | _ => true
  end.

Lemma dir_all_sound `{ConsensusCodec} k parser_fuel dir f p b :
  dir_all k parser_fuel dir f p = true → dir_parses parser_fuel dir p b → f b = true.
Proof.
  intros Ha Hp. revert k Ha. induction Hp as [p b p' Hn|p b p' b' Hn _ IH]; intros k; destruct k as [|k];
    cbn [dir_all]; rewrite Hn; try done; intros [Hb Ha]%andb_true_iff; [done|by eapply IH].
Qed.

Definition ex_file_sync (dir : BlocksDir) : block_file_sync :=
  @sync_from_directory toy_hash toy_script toy_tx toy_taproot toy_p2mr toy_pqc chain_codec
    ex_handler true (λ _, []) dir Regtest (λ _, false) 700 3.

Lemma ex_connectable :
  @connectable toy_tx (headers (block_hashes ex_db0)) [] [ex_block0; ex_block1].
Proof.
  split; [vm_compute; reflexivity|]. split; [vm_compute; reflexivity|]. split; [exact ex_block_ok0|].
  split; [vm_compute; reflexivity|]. split; [vm_compute; reflexivity|]. split; [exact ex_block_ok1|exact I].
Qed.

Lemma chain_dir_bounded : dir_bounded chain_dir 1.
Proof.
  split; [done|]. intros i f Hl. cbn [chain_dir blk_files] in Hl.
  apply lookup_singleton_Some in Hl as [<- _]. done.
Qed.

Lemma chain_dir_genuine first p b :
  head [ex_block0; ex_block1] = Some first →
  @open_directory chain_codec chain_dir Regtest (@block_hash toy_tx (header first)) = Ok p →
  @dir_parses chain_codec 3 chain_dir p b → @genuine toy_tx chain_codec [ex_block0; ex_block1] b.
Proof.
  intros [= <-] Hopen Hb. apply genuine_b_sound. revert Hb.
  apply (@dir_all_sound chain_codec 4).
  assert (@open_directory chain_codec chain_dir Regtest (ex_hash ex_g)
          = Ok (mkBlockDirectoryParser None Regtest 0 None)) as Ho by (vm_compute; reflexivity).
  change (@block_hash toy_tx (header ex_block0)) with (ex_hash ex_g) in Hopen. rewrite Ho in Hopen.
  injection Hopen as <-. vm_compute. reflexivity.
Qed.

Definition ex_file_run := ex_file_sync chain_dir [ex_hash ex_a1; ex_hash ex_g] (ex_db0, []).

Lemma ex_file_run_spec :
  match ex_file_run with
  | (Some (Ok n), (missing, (db', _))) =>
      n = 2 ∧ missing = []
  | _ => False
  end.
Proof.
  assert (ex_file_run.1 = Some (Ok 2) ∧ ex_file_run.2.1 = []) as [H1 H2] by (vm_compute; split; reflexivity).
  destruct ex_file_run as [o [missing [db' evs]]]. cbn in H1, H2. by subst.
Qed.

Lemma sync_from_directory_correct_witness :
  match ex_file_run with
  | (Some (Ok n), (missing, (db', _))) =>
      n = 2 ∧ missing = [] ∧ @db_inv toy_tx db' [ex_block1; ex_block0]
  | _ => False
  end.
Proof.
  pose proof (@sync_from_directory_correct toy_hash toy_script toy_tx toy_taproot toy_p2mr toy_pqc chain_codec
    ex_handler true (λ _, []) chain_dir Regtest (λ _, false) 700 3 1 [ex_block0; ex_block1] []
    (headers (block_hashes ex_db0)) toy_work_pos ex_connectable (map_Forall_empty _) chain_dir_bounded
    ltac:(lia) ltac:(apply Nat.ltb_lt; vm_compute; reflexivity) chain_dir_genuine ex_db0 [] ex_inv0 eq_refl) as Hs.
  change (rev (map (λ b, @block_hash toy_tx (header b)) [ex_block0; ex_block1]))
    with [ex_hash ex_a1; ex_hash ex_g] in Hs.
  fold (ex_file_sync chain_dir) in Hs. fold ex_file_run in Hs. pose proof ex_file_run_spec as Hr.
  destruct ex_file_run as [[[n|e|]|] [missing [db' evs]]]; try done.
  destruct Hr as [-> ->]. destruct Hs as (pre & lost & rest & Hbs & Hrest & Hinv & _ & Hlost & _).
  split; [reflexivity|]. split; [reflexivity|].
  rewrite (Hlost eq_refl) in Hbs.
  destruct rest as [|x rest]; [|by apply (f_equal length) in Hrest; rewrite length_rev in Hrest].
  rewrite !app_nil_r in Hbs. subst pre. exact Hinv.
Defined.

Lemma block_cache_fifo_witness :
  let ops := [CacheInsert [x01] ex_block0; CacheInsert [x02] ex_block1; CacheInsert [x03] ex_block0;
              CacheRemove [x01]; CacheRemove [x02]] in
  ∃ c, cache_run ops (cache_new 2) = Some ([None; None; None; None; Some ex_block1], c)
       ∧ cache_rep c [([x03], ex_block0)].
Proof.
  intros ops. destruct (block_cache_fifo 2 ops ltac:(lia)) as (c & Hr & Hc & _).
  exists c. split; [exact Hr|exact Hc].
Defined.

Lemma file_sync_error_loses_block_witness :
  ∃ h, @sync_blocks toy_hash toy_script toy_tx toy_taproot toy_p2mr toy_pqc toy_node ex_handler true (λ _, [])
         (λ _, false) 3 (Some (ex_file_sync corrupt_dir)) (ex_hash ex_a1) (ex_db0, [])
  = (Ok (Some (Some (ex_hash ex_a1, BlockParent (ex_hash ex_g) all_zeros h))), (ex_db0, [])).
Proof.
  assert (@honest_blocks toy_tx toy_node [ex_block0; ex_block1]) as Hhon.
  { intros l _ Hl. cbn. f_equal. induction l as [|b l IH]; [reflexivity|]. cbn [map]. f_equal.
    - specialize (Hl b ltac:(by left)). apply elem_of_cons in Hl as [->|Hl%list_elem_of_singleton];
        [|subst b]; vm_compute; reflexivity.
    - apply IH. intros b' Hb'. apply Hl. by right. }
  eapply (@file_sync_error_loses_block toy_hash toy_script toy_tx toy_taproot toy_p2mr toy_pqc chain_codec toy_node
    ex_handler true (λ _, []) corrupt_dir Regtest (λ _, false) (λ _, false) 3 700 3 ex_db0 []
    ex_block0 ex_block1 [] ).
  - exact ex_inv0.
  - exact ex_connectable.
  - exact Hhon.
  - vm_compute; reflexivity.
  - vm_compute; reflexivity.
  - reflexivity.
  - reflexivity.
  - vm_compute; reflexivity.
  - reflexivity.
  - reflexivity.
  - lia.
  - lia.
Defined.
