(* ===== verification/Enforcer.v ===== *)
(** The validator as the node's enforcer (`enforcer.rs`, `validator/mod.rs`): the
    calls of the block driver (connect, disconnect, dry-run validation, mempool
    admission), the prefetch of external prevouts, and the queries on the
    databases. *)
From Stdlib Require Import ZArith Lia Strings.Byte.
From stdpp Require Import base list gmap sorting.
From S2P Require Import Prelude Bitcoin Concrete Limits P2mrOutput Schemes Spend P2mrUtxo.
From S2P Require Import Tapscript Pqc Dbs BlockHandler Sync SyncBlocks.
#[local] Open Scope Z_scope.

(** ** Errors and actions *)

Inductive RejectReason :=
| RejectConnectBlock (e : ConnectBlockError)
| MissingParentHeight (block_hash parent : BlockHash).

(** Only fatal errors of [connect_block] and database failures. *)
Inductive EnforcerConnectError :=
| EnforcerConnectBlock (e : ConnectBlockError)
| EnforcerDb (e : DbError).

Inductive ConnectBlockAction := ConnectAccept (remove_mempool_txs : gset Txid) | ConnectReject.
Inductive TxAcceptAction :=
| TxAccept (conflicts_with : gset Txid) (weight_tweak : Z)
| TxReject.

(** [ConnectBlockRwTxnAction]: the parent transaction holds the header, the child
    the connected block. *)
Inductive ConnectBlockRwTxnAction :=
| RwAccept (event : Event) (remove_mempool_txs : gset Txid) (parent child : Dbs)
| RwReject (header_rwtxn : Dbs) (reason : RejectReason).

(** ** [getblock <hash> 3]

    The JSON response after deserialization; amounts are floating-point BTC,
    converted by [Amount::from_btc], scripts are hex. *)
Class GetBlockV3 := {
  F64 : Type;
  from_btc : F64 → option Z;
  hex_decode : bytes → option bytes
}.
Record GbPrevout `{GetBlockV3} := mkGbPrevout { gb_value : F64; gb_hex : bytes }.
Record GbVin `{GetBlockV3} := mkGbVin {
  gb_txid : option Txid; gb_vout : option Z; gb_prevout : option GbPrevout
}.
Abbreviation GbBlock := (list (list GbVin)).

Section enforcer.
Context `{HashLib} `{ScriptLib} `{TxLib} `{TaprootLib} `{P2mrLib} `{PqcLib}.

(** ** connect_block *)

Definition connect_block_no_commit (self : BlockHandler) (clock : list Z) (block : Block) (db : Dbs) :
    outcome EnforcerConnectError ConnectBlockRwTxnAction :=
  let bh := block_hash (header block) in
  let parent := prev_blockhash (header block) in
  let connect (parent_db : Dbs) :=
    match connect_block self clock block parent_db with
    | (Ok event, child) => Ok (RwAccept event ∅ parent_db child)
    | (Err e, _) => if is_fatal e then Err (EnforcerConnectBlock e)
                    else Ok (RwReject parent_db (RejectConnectBlock e))
    | (Panic, _) => Panic
    end in
  if contains_header (block_hashes db) bh then connect db else
  let store (h : Z) :=
    match on_block_hashes (put_headers [(header block, h)]) db with
    | (Ok _, parent_db) => connect parent_db
    | (Err e, _) => Err (EnforcerDb e)
    | (Panic, _) => Panic
    end in
  if bool_decide (parent = all_zeros) then store 0 else
  match heights (block_hashes db) !! parent with
  | Some parent_height => h ← expect (checked_add 32 parent_height 1); store h
  | None => Ok (RwReject db (MissingParentHeight bh parent))
  end.

(** [ConnectBlockCommit::connect_block]: commits, then broadcasts. *)
Definition connect_block_commit (self : BlockHandler) (clock : list Z) (block : Block) :
    st task_state EnforcerConnectError ConnectBlockAction :=
  λ s, match connect_block_no_commit self clock block s.1 with
       | Ok (RwAccept event remove_mempool_txs _ child) =>
           (Ok (ConnectAccept remove_mempool_txs), (child, s.2 ++ [event]))
       | Ok (RwReject header_rwtxn _) => (Ok ConnectReject, (header_rwtxn, s.2))
       | Err e => (Err e, s)
       | Panic => (Panic, s)
       end.

(** ** Prefetching *)

(** The outpoints of every output of the block. *)
Definition same_block (block : Block) : gset OutPoint :=
  list_to_set (flat_map (λ tx, (tx_outpoints tx).*1) (txdata block)).

(** [inputs.iter().any(input_reveals_vault_leaf)] *)
Fixpoint has_vault_input (inputs : list TxIn) : outcome TapscriptError bool :=
  match inputs with
  | [] => Ok false
  | i :: inputs => b ← input_reveals_vault_leaf (witness i);
                   if (b : bool) then Ok true else has_vault_input inputs
  end.

Definition multi_input_p2mr (chain_p2mr : PrevoutMap) (tx : Transaction) : bool :=
  (2 <=? len (input tx))
  && existsb (λ i, bool_decide (is_Some (chain_p2mr !! previous_output i))) (input tx).

(** The outpoints [prefetch_external_prevouts] asks for. *)
Definition wanted_prevouts (chain_p2mr : PrevoutMap) (block : Block) :
    outcome TapscriptError (gset OutPoint) :=
  for_each (λ tx wanted,
    vault ← has_vault_input (input tx);
    if negb vault && negb (multi_input_p2mr chain_p2mr tx) then Ok wanted else
    Ok (foldl (λ wanted i,
          if bool_decide (is_Some (chain_p2mr !! previous_output i))
             || bool_decide (previous_output i ∈ same_block block)
          then wanted else {[previous_output i]} ∪ wanted) wanted (input tx)))
    (tail (txdata block)) ∅.

Section getblock.
Context `{GetBlockV3}.

Definition resolve_vin (wanted : gset OutPoint) (resolved : PrevoutMap) (vin : GbVin) : PrevoutMap :=
  match gb_txid vin, gb_vout vin, gb_prevout vin with
  | Some txid, Some vout, Some prevout =>
      let outpoint := mkOutPoint txid vout in
      if bool_decide (outpoint ∉ wanted) then resolved else
      match from_btc (gb_value prevout), hex_decode (gb_hex prevout) with
      | Some value, Some spk_bytes => <[outpoint := mkTxOut value spk_bytes]> resolved
      | _, _ => resolved
      end
  | _, _, _ => resolved
  end.

(** [parsed]: the response to `getblock`, [None] on failure. *)
Definition fetch_prevouts_getblock_v3 (parsed : option GbBlock) (wanted : gset OutPoint) : PrevoutMap :=
  match parsed with
  | None => ∅
  | Some txs => foldl (λ m vins, foldl (resolve_vin wanted) m vins) ∅ txs
  end.

Definition prefetch_external_prevouts (parsed : option GbBlock) (block : Block) (db : Dbs) :
    outcome TapscriptError PrevoutMap :=
  wanted ← wanted_prevouts (load_map db) block;
  if bool_decide (wanted = ∅) then Ok ∅ else Ok (fetch_prevouts_getblock_v3 parsed wanted).
End getblock.

(** ** The driver's calls

    [v] carries the validator's settings; its [extra_prevouts] is empty. *)
Definition with_extra (v : BlockHandler) (extra : PrevoutMap) : BlockHandler :=
  mkBlockHandler (activation_height v) (pqc_verify_budget_ms v) extra.

Definition enforcer_connect_block `{GetBlockV3} (v : BlockHandler) (parsed : option GbBlock)
    (clock : list Z) (block : Block) : st task_state EnforcerConnectError ConnectBlockAction :=
  λ s, match prefetch_external_prevouts parsed block s.1 with
       | Ok extra => connect_block_commit (with_extra v extra) clock block s
       | _ => (Panic, s)
       end.

(** The event is broadcast inside the handler, before the commit. *)
Definition enforcer_disconnect_block (bh : BlockHash) : st task_state DisconnectBlockError unit :=
  write_txn (evs ← on_db (disconnect_block bh); broadcast evs).

Definition accept_tx (v : BlockHandler) (tx : Transaction) (db : Dbs) :
    outcome ValidateTransactionError TxAcceptAction :=
  ok ← validate_tx (with_extra v ∅) tx db;
  Ok (if (ok : bool) then TxAccept ∅ 0 else TxReject).

Definition try_get_block_height (db : Dbs) : outcome DbError (option Z) :=
  match current_chain_tip db with
  | None => Ok None
  | Some tip => h ← ok_or (heights (block_hashes db) !! tip) DbGet; Ok (Some h)
  end.

(** [Some(err)] stands for the formatted reason. *)
Definition validate_block (v : BlockHandler) (clock : list Z) (block : Block) (db : Dbs) :
    outcome DbError (option PqcValidationError) :=
  tip_height ← try_get_block_height db;
  match tip_height with
  | None => Ok None
  | Some tip_height =>
      height ← expect (checked_add 32 tip_height 1);
      match validate_block_transactions block height (mkBip360Activation (activation_height v))
              (load_map db) (pqc_verify_budget_ms v) clock with
      | Ok _ => Ok None
      | Err e => Ok (Some e)
      | Panic => Panic
      end
  end.

(** The result of a sync, for the driver. *)
Inductive SyncToTipError :=
| SyncInvalidBlock (block_hash : BlockHash) (reason : ConnectBlockError)
| SyncOther (e : SyncError).

Definition enforcer_sync_to_tip `{NodeRpc} (v : BlockHandler) (trace : bool) (clock : Block → list Z)
    (cancelled : cancel_poll → bool) (fuel : nat) (from_dir : option block_file_sync) (tip : BlockHash) :
    st task_state SyncToTipError (option unit) :=
  r ← st_map_err SyncOther (sync_to_tip (with_extra v ∅) trace clock cancelled fuel from_dir tip);
  match r with
  | None => mret None
  | Some None => mret (Some tt)
  | Some (Some (bh, reason)) => st_lift (Err (SyncInvalidBlock bh reason))
  end.

(** ** Queries (`validator/mod.rs`) *)

Definition try_get_mainchain_tip (db : Dbs) : option BlockHash := current_chain_tip db.
Definition get_mainchain_tip (db : Dbs) : outcome DbError BlockHash := ok_or (current_chain_tip db) DbGet.
Definition validator_p2mr_utxos (db : Dbs) : PrevoutMap := load_map db.
Definition get_p2mr_utxo (db : Dbs) (outpoint : OutPoint) : option TxOut := load_map db !! outpoint.

Fixpoint block_infos_loop (db : BlockHashDbs) (l : list HeaderInfo) : list (HeaderInfo * BlockInfo) :=
  match l with
  | [] => []
  | h :: l => match try_get_block_info db (block_hash_ h) with
              | Some info => (h, info) :: block_infos_loop db l
              | None => []
              end
  end.

Definition try_get_block_infos (db : BlockHashDbs) (bh : BlockHash) (max_ancestors : nat) :
    outcome DbError (option (list (HeaderInfo * BlockInfo))) :=
  o ← try_get_header_infos db bh max_ancestors;
  match o, try_get_block_info db bh with
  | Some (h :: l), Some info => Ok (Some ((h, info) :: block_infos_loop db l))
  | _, _ => Ok None
  end.

Inductive GetBlockInfosError := MissingHeaderBlock (bh : BlockHash) | TryGetBlockInfos (e : DbError).

Definition get_block_infos (db : BlockHashDbs) (bh : BlockHash) (max_ancestors : nat) :
    outcome GetBlockInfosError (list (HeaderInfo * BlockInfo)) :=
  o ← map_err TryGetBlockInfos (try_get_block_infos db bh max_ancestors);
  ok_or o (MissingHeaderBlock bh).

(** The table is iterated in an order of its own; the sort is by height. *)
Definition by_height (a b : Z * BlockHash) : Prop := a.1 ≤ b.1.
#[global] Instance by_height_dec a b : Decision (by_height a b) := decide (a.1 ≤ b.1).

(** [is_sorted_by] with a strict order, in the [debug_assert!]. *)
Fixpoint strictly_sorted (l : list (Z * BlockHash)) : bool :=
  match l with
  | a :: ((b :: _) as l') => (a.1 <? b.1) && strictly_sorted l'
  | _ => true
  end.

Definition list_headers (db : BlockHashDbs) (start_height : Z) : outcome DbError (list (Z * BlockHash)) :=
  let res := merge_sort by_height
               (filter (λ p, start_height ≤ p.1) (map (λ '(bh, h), (h, bh)) (map_to_list (heights db)))) in
  if strictly_sorted res then Ok res else Panic.
End enforcer.

(** * Lemmas *)
Section lemmas.
Context `{HashLib} `{ScriptLib} `{TxLib} `{TaprootLib} `{P2mrLib} `{PqcLib}.

(** Storing the header of a block on a known parent. *)
Lemma put_header_inv db chain (hd : Header) h :
  db_inv db chain → fits (block_hashes db) hd h →
  ∃ db', on_block_hashes (E:=DbError) (put_headers [(hd, h)]) db = (Ok tt, db')
    ∧ db_inv db' chain ∧ headers (block_hashes db') !! block_hash hd = Some hd
    ∧ current_chain_tip db' = current_chain_tip db ∧ p2mr_utxos db' = p2mr_utxos db.
Proof.
  intros [Hwf Ht Hu Hch] Hf.
  assert (all_fit (block_hashes db) [(hd, h)]) as Hfit by by split.
  unfold on_block_hashes. rewrite put_headers_Ok by done. eexists. split; [done|].
  split; [split; [by apply put_all_wf|done|done|by apply chain_stored_put]|].
  split; [|done]. cbn [foldl fst snd block_hashes]. by rewrite put_one_headers, lookup_insert_eq.
Qed.

(** The driver's connect on databases that already hold the header. *)
Definition connect_outcome (chain : list Block) (block : Block) (db : Dbs) (evs : list Event)
    (r : outcome EnforcerConnectError ConnectBlockAction * task_state) : Prop :=
  match r with
  | (Ok (ConnectAccept removed), (db', evs')) =>
      removed = ∅ ∧ db_inv db' (block :: chain) ∧ ∃ ev, evs' = evs ++ [ev]
  | (Ok ConnectReject, (db', evs')) =>
      db_inv db' chain ∧ evs' = evs ∧ current_chain_tip db' = current_chain_tip db
      ∧ p2mr_utxos db' = p2mr_utxos db
  | (Err _, _) => False
  | (Panic, _) => True
  end.

(** What the driver knows about a block's header: it hashes to no other stored
    header, and the height after its parent's is a u32. *)
Record header_ok (db : BlockHashDbs) (hd : Header) : Prop := {
  ho_nonzero : block_hash hd ≠ all_zeros;
  ho_same hd' : headers db !! block_hash hd = Some hd' → hd' = hd;
  ho_parent : prev_blockhash hd ≠ block_hash hd;
  ho_height h : heights db !! prev_blockhash hd = Some h → h + 1 < 2 ^ 32
}.

Lemma connect_stored_outcome self clock block chain parent_db db evs removed0 :
  (∀ hd, 0 < header_work hd) → db_inv parent_db chain →
  headers (block_hashes parent_db) !! block_hash (header block) = Some (header block) →
  current_chain_tip parent_db = current_chain_tip db → p2mr_utxos parent_db = p2mr_utxos db →
  block_ok (utxos_of chain) block →
  map_Forall (λ _ o, is_p2mr_script (script_pubkey o) = false) (extra_prevouts self) →
  removed0 = ∅ →
  connect_outcome chain block db evs
    match match connect_block self clock block parent_db with
          | (Ok event, child) => Ok (RwAccept event removed0 parent_db child)
          | (Err e, _) => if is_fatal e then Err (EnforcerConnectBlock e)
                          else Ok (RwReject parent_db (RejectConnectBlock e))
          | (Panic, _) => Panic
          end with
    | Ok (RwAccept event removed _ child) => (Ok (ConnectAccept removed), (child, evs ++ [event]))
    | Ok (RwReject header_rwtxn _) => (Ok ConnectReject, (header_rwtxn, evs))
    | Err e => (Err e, (db, evs))
    | Panic => (Panic, (db, evs))
    end.
Proof.
  intros Hw Hinv Hhd Ht Hu Hok Hx ->.
  destruct (connect_block self clock block parent_db) as [[ev|e|] db'] eqn:Hc; [| |done].
  - split_and!; [done|by eapply connect_block_inv|by eexists].
  - destruct (connect_block_nonfatal _ _ _ _ _ _ _ Hinv Hhd Hok Hx Hc) as [-> ->]. done.
Qed.

(** ** The two block validators give the same verdict *)

(** The maps the verdict depends on. *)
Definition same_view (u u' : utxo_state) : Prop :=
  u_available u = u_available u' ∧ u_spent_p2mr u = u_spent_p2mr u'.

Lemma same_view_spend u u' i : same_view u u' → same_view (validation_spend u i) (validation_spend u' i).
Proof.
  destruct u as [av d sp], u' as [av' d' sp']. intros [Hav Hsp]. cbn in Hav, Hsp. subst.
  unfold validation_spend. cbn. destruct (av' !! previous_output i) as [o|]; [|done].
  by destruct (is_p2mr_script (script_pubkey o)).
Qed.

Lemma same_view_create u u' p : same_view u u' → same_view (validation_create u p) (validation_create u' p).
Proof.
  destruct u as [av d sp], u' as [av' d' sp'], p as [op o]. intros [Hav Hsp]. cbn in Hav, Hsp. by subst.
Qed.

Lemma same_view_apply u u' tx :
  same_view u u' →
  same_view (apply_tx_to_validation_available tx u) (apply_tx_to_validation_available tx u').
Proof.
  intros Hs. unfold apply_tx_to_validation_available.
  assert (∀ l u u', same_view u u' → same_view (foldl validation_spend u l) (foldl validation_spend u' l)) as Hin.
  { induction l as [|i l IH]; intros v v' Hv; [done|]. by apply IH, same_view_spend. }
  assert (∀ l u u', same_view u u' → same_view (foldl validation_create u l) (foldl validation_create u' l)) as Hout.
  { induction l as [|p l IH]; intros v v' Hv; [done|]. by apply IH, same_view_create. }
  by apply Hout, Hin.
Qed.

Definition verdict {E A S} (r : outcome E A * S) : outcome E unit := _ ← r.1; Ok tt.

Lemma validate_txs_same height activation chain txs u u' s :
  same_view u u' →
  verdict (validate_txs height activation chain txs u s)
  = verdict (validate_txs height activation chain txs u' s).
Proof.
  revert u u' s. induction txs as [|tx txs IH]; intros u u' s Hs; [done|]. cbn [validate_txs].
  pose proof Hs as [Hav Hsp]. unfold mbind, st_bind. rewrite Hav, Hsp.
  destruct (validate_transaction _ _ _ _ _ _ s) as [[[]|e|] s1]; [|done|done].
  by apply IH, same_view_apply.
Qed.

Lemma validators_agree block height activation chain ms clock :
  validate_block_transactions block height activation chain ms clock
  = (_ ← validate_and_diff_block_transactions block height activation chain ∅ ms clock; Ok tt).
Proof.
  unfold validate_block_transactions, validate_and_diff_block_transactions.
  destruct (negb (is_active activation height)); [done|].
  assert (∃ cr, seed_coinbase_p2mr_diff block chain ∅ = (seed_coinbase_outputs block chain, cr)) as [cr ->].
  { unfold seed_coinbase_p2mr_diff, seed_coinbase_outputs. destruct (txdata block); by eexists. }
  rewrite map_union_empty.
  pose proof (validate_txs_same height activation chain (tail (txdata block))
    (mkUtxo (seed_coinbase_outputs block chain) None ∅)
    (mkUtxo (seed_coinbase_outputs block chain) (Some (mkDiff ∅ cr)) ∅)
    (mkVerify (Some (with_budget_ms ms)) clock) ltac:(done)) as Hsame.
  destruct (validate_txs _ _ _ _ _ _) as [[?|?|] ?], (validate_txs _ _ _ _ _ _) as [[?|?|] ?];
    cbn in Hsame |- *; congruence.
Qed.

(** ** Prefetching *)

Lemma resolve_vins_keys `{GetBlockV3} wanted vins m op o :
  (∀ op o, m !! op = Some o → op ∈ wanted) →
  foldl (resolve_vin wanted) m vins !! op = Some o → op ∈ wanted.
Proof.
  revert m. induction vins as [|vin vins IH]; intros m Hm; [by apply Hm|]. cbn [foldl]. apply IH.
  intros op' o'. unfold resolve_vin.
  destruct (gb_txid vin) as [t|], (gb_vout vin) as [v|], (gb_prevout vin) as [p|]; try apply Hm.
  case_bool_decide as Hin; [apply Hm|].
  destruct (from_btc (gb_value p)) as [a|], (hex_decode (gb_hex p)) as [b|]; try apply Hm.
  intros [[<- _]|[_ Hl]]%lookup_insert_Some; [by destruct (decide (mkOutPoint t v ∈ wanted))|by eapply Hm].
Qed.

Lemma fetch_prevouts_keys `{GetBlockV3} parsed wanted op o :
  fetch_prevouts_getblock_v3 parsed wanted !! op = Some o → op ∈ wanted.
Proof.
  unfold fetch_prevouts_getblock_v3. destruct parsed as [txs|]; [|by rewrite lookup_empty].
  assert (∀ op o, (∅ : PrevoutMap) !! op = Some o → op ∈ wanted) as Hm by (intros ??; by rewrite lookup_empty).
  revert Hm. generalize (∅ : PrevoutMap) as m. induction txs as [|vins txs IH]; intros m Hm; [apply Hm|].
  cbn [foldl]. apply IH. intros op' o'. by apply resolve_vins_keys.
Qed.

(** The invariant of the loop that collects [wanted]. *)
Definition external (chain_p2mr : PrevoutMap) (block : Block) (op : OutPoint) : Prop :=
  chain_p2mr !! op = None ∧ op ∉ same_block block.

Lemma wanted_inputs_external chain block inputs (w : gset OutPoint) :
  (∀ op, op ∈ w → external chain block op) →
  ∀ op, op ∈ foldl (λ wanted i,
        if bool_decide (is_Some (chain !! previous_output i))
           || bool_decide (previous_output i ∈ same_block block)
        then wanted else {[previous_output i]} ∪ wanted) w inputs → external chain block op.
Proof.
  revert w. induction inputs as [|i inputs IH]; intros w Hw; [done|]. cbn [foldl]. apply IH.
  intros op. destruct (_ || _) eqn:Hb; [apply Hw|]. intros [->%elem_of_singleton|?]%elem_of_union; [|by apply Hw].
  apply orb_false_iff in Hb as [?%bool_decide_eq_false_1 ?%bool_decide_eq_false_1].
  split; [by apply eq_None_not_Some|done].
Qed.

Lemma wanted_external chain block w :
  wanted_prevouts chain block = Ok w → ∀ op, op ∈ w → external chain block op.
Proof.
  unfold wanted_prevouts. intros Hw.
  refine (for_each_inv _ (λ _ w, ∀ op, op ∈ w → external chain block op) _ ∅ w _ _ Hw); [set_solver|].
  intros pre tx rest s s' _ Hs Hstep. apply bind_Ok in Hstep as (v & _ & Hstep).
  destruct (negb v && _); injection Hstep as <-; [done|]. by apply wanted_inputs_external.
Qed.

Lemma wanted_skips chain block :
  (∀ tx, tx ∈ tail (txdata block) → has_vault_input (input tx) = Ok false
                                  ∧ multi_input_p2mr chain tx = false) →
  wanted_prevouts chain block = Ok ∅.
Proof.
  unfold wanted_prevouts. generalize (∅ : gset OutPoint) as w. induction (tail (txdata block)) as [|tx txs IH];
    intros w Htx; [done|]. cbn [for_each]. destruct (Htx tx ltac:(by left)) as [-> ->]. cbn.
  apply IH. intros t Ht. apply Htx. by right.
Qed.
End lemmas.

Lemma strictly_sorted_lt a l : strictly_sorted (a :: l) = true → ∀ b, b ∈ l → a.1 < b.1.
Proof.
  revert a. induction l as [|c l IH]; intros a Hs b Hb; [by apply not_elem_of_nil in Hb|].
  cbn [strictly_sorted] in Hs. apply andb_true_iff in Hs as [Hac%Z.ltb_lt Hs].
  apply elem_of_cons in Hb as [->|Hb]; [done|]. pose proof (IH c Hs b Hb). lia.
Qed.

Lemma strictly_sorted_inj l a b :
  strictly_sorted l = true → a ∈ l → b ∈ l → a.1 = b.1 → a = b.
Proof.
  induction l as [|c l IH]; intros Hs Ha Hb He; [by apply not_elem_of_nil in Ha|].
  pose proof (strictly_sorted_lt c l Hs) as Hlt.
  assert (strictly_sorted l = true) as Hs'.
  { destruct l; [done|]. cbn in Hs. by apply andb_true_iff in Hs as [_ ?]. }
  apply elem_of_cons in Ha as [->|Ha], Hb as [->|Hb]; [done| | |by apply IH].
  - pose proof (Hlt b Hb). lia.
  - pose proof (Hlt a Ha). lia.
Qed.

Section connect.
Context `{HashLib} `{ScriptLib} `{TxLib} `{TaprootLib} `{P2mrLib} `{PqcLib}.

Lemma height_nonneg (db : BlockHashDbs) bh h : headers_wf db → heights db !! bh = Some h → 0 ≤ h.
Proof.
  intros Hwf Hh. pose proof (wf_heights _ Hwf _ _ Hh) as Hk.
  destruct (at_height_known db bh Hwf (or_intror Hk)) as (h' & [[-> _]|(_ & Hh' & ?)]).
  - rewrite (wf_zeros _ Hwf) in Hk. by destruct Hk.
  - congruence.
Qed.

Lemma connect_block_commit_outcome self clock block chain db evs :
  (∀ hd, 0 < header_work hd) → db_inv db chain → header_ok (block_hashes db) (header block) →
  block_ok (utxos_of chain) block →
  map_Forall (λ _ o, is_p2mr_script (script_pubkey o) = false) (extra_prevouts self) →
  connect_outcome chain block db evs (connect_block_commit self clock block (db, evs)).
Proof.
  intros Hw Hinv [Hnz Hsame Hpar Hu] Hok Hx. pose proof Hinv as [Hwf _ _ _].
  unfold connect_block_commit, connect_block_no_commit, contains_header. cbn [fst snd].
  destruct (headers (block_hashes db) !! block_hash (header block)) as [hd|] eqn:Hhd.
  { pose proof (Hsame _ eq_refl) as ->. rewrite bool_decide_true by by eexists.
    by apply connect_stored_outcome. }
  rewrite bool_decide_false by (by intros [? ?]).
  assert (∀ h, fits (block_hashes db) (header block) h →
    connect_outcome chain block db evs
      match match on_block_hashes (put_headers [(header block, h)]) db with
            | (Ok _, parent_db) =>
                match connect_block self clock block parent_db with
                | (Ok event, child) => Ok (RwAccept event ∅ parent_db child)
                | (Err e, _) => if is_fatal e then Err (EnforcerConnectBlock e)
                                else Ok (RwReject parent_db (RejectConnectBlock e))
                | (Panic, _) => Panic
                end
            | (Err e, _) => Err (EnforcerDb e)
            | (Panic, _) => Panic
            end with
      | Ok (RwAccept event removed _ child) => (Ok (ConnectAccept removed), (child, evs ++ [event]))
      | Ok (RwReject header_rwtxn _) => (Ok ConnectReject, (header_rwtxn, evs))
      | Err e => (Err e, (db, evs))
      | Panic => (Panic, (db, evs))
      end) as Hstore.
  { intros h Hf. destruct (put_header_inv db chain _ h Hinv Hf) as (db' & -> & Hinv' & Hhd' & Ht & Hut).
    by apply connect_stored_outcome. }
  case_bool_decide as Hz.
  - apply Hstore. by split_and!; [|rewrite Hhd| |].
  - destruct (heights (block_hashes db) !! prev_blockhash (header block)) as [h|] eqn:Hh; [|done].
    pose proof (height_nonneg _ _ _ Hwf Hh). unfold checked_add. rewrite (proj2 (Z.ltb_lt _ _)) by by apply Hu.
    apply Hstore. split_and!; [done|by rewrite Hhd|done|intros _].
    split_and!; [lia|done|rewrite Hh; f_equal; lia].
Qed.
End connect.

(** The driver's [connect_block], whatever `getblock` answers. *)
Lemma enforcer_connect_outcome
    `{HashLib} `{ScriptLib} `{TxLib} `{TaprootLib} `{P2mrLib} `{PqcLib} `{GetBlockV3}
    v parsed clock block chain db evs :
  (∀ hd, 0 < header_work hd) → db_inv db chain → header_ok (block_hashes db) (header block) →
  block_ok (utxos_of chain) block →
  (∀ extra, prefetch_external_prevouts parsed block db = Ok extra →
     map_Forall (λ _ o, is_p2mr_script (script_pubkey o) = false) extra) →
  connect_outcome chain block db evs (enforcer_connect_block v parsed clock block (db, evs)).
Proof.
  intros Hw Hinv Hho Hok Hx. unfold enforcer_connect_block. cbn [fst].
  destruct (prefetch_external_prevouts parsed block db) as [extra|e|]; [|done|done].
  apply connect_block_commit_outcome; [done..|]. by apply Hx.
Qed.

(** * Properties *)

(** C3: the driver's [connect_block] keeps the databases those of a chain: an
    accepted block extends the chain, its event is broadcast after the commit; a
    rejected one leaves the chain, the tip, the P2MR set and the channel as they
    were (its header may have been stored); no other error happens, whatever
    `getblock` answered, as long as it resolves no prevout to a P2MR output. *)
Theorem enforcer_connect_correct
    `{HashLib} `{ScriptLib} `{TxLib} `{TaprootLib} `{P2mrLib} `{PqcLib} `{GetBlockV3}
    v parsed clock block chain db evs :
  (∀ hd, 0 < header_work hd) → db_inv db chain → header_ok (block_hashes db) (header block) →
  block_ok (utxos_of chain) block →
  (∀ extra, prefetch_external_prevouts parsed block db = Ok extra →
     map_Forall (λ _ o, is_p2mr_script (script_pubkey o) = false) extra) →
  connect_outcome chain block db evs (enforcer_connect_block v parsed clock block (db, evs)).
Proof.
  apply enforcer_connect_outcome.
Qed.

(** Prefetched prevouts never shadow a local one: whatever `getblock` answers,
    the map only resolves outpoints that are neither tracked P2MR outputs nor
    created in the block. *)
Lemma prefetch_only_external
    `{ScriptLib} `{TxLib} `{TaprootLib} `{GetBlockV3} parsed block db extra op o :
  prefetch_external_prevouts parsed block db = Ok extra → extra !! op = Some o →
  p2mr_utxos db !! op = None ∧ op ∉ same_block block.
Proof.
  unfold prefetch_external_prevouts. intros Hp Ho. apply bind_Ok in Hp as (w & Hw & Hp).
  destruct (bool_decide (w = ∅)); injection Hp as <-; [by rewrite lookup_empty in Ho|].
  apply fetch_prevouts_keys in Ho. by apply (wanted_external _ _ _ Hw).
Qed.

(** A P2MR output created in the block does not count for the prefetch: when no
    input of the block reveals a vault leaf and none spends an already tracked
    P2MR output, nothing is fetched, even for a multi-input transaction that spends
    a P2MR output of the same block next to an output of a prior block. *)
Lemma prefetch_ignores_same_block
    `{ScriptLib} `{TxLib} `{TaprootLib} `{GetBlockV3} parsed block db :
  (∀ tx, tx ∈ tail (txdata block) → has_vault_input (input tx) = Ok false
     ∧ ∀ i, i ∈ input tx → p2mr_utxos db !! previous_output i = None) →
  prefetch_external_prevouts parsed block db = Ok ∅.
Proof.
  intros Htx. unfold prefetch_external_prevouts, load_map. rewrite wanted_skips; [done|].
  intros tx Hin. destruct (Htx tx Hin) as [Hv Hp]. split; [done|]. unfold multi_input_p2mr.
  destruct (existsb _ (input tx)) eqn:He; [|by rewrite andb_false_r].
  apply existsb_exists in He as (i & Hi & Hb). apply list_elem_of_In in Hi.
  rewrite (Hp i Hi) in Hb. by apply bool_decide_eq_true_1 in Hb as [? ?].
Qed.

(** The dry run agrees with the connection: on the databases of a non-empty
    chain, [validate_block] reports exactly what validation in [connect_block]
    gives for the block on the tip without prefetched prevouts, and changes
    nothing. *)
Lemma validate_block_agrees
    `{HashLib} `{ScriptLib} `{TxLib} `{TaprootLib} `{P2mrLib} `{PqcLib} v clock block db b rest :
  db_inv db (b :: rest) → len (b :: rest) < 2 ^ 32 →
  validate_block v clock block db
  = match validate_and_diff_block_transactions block (len (b :: rest))
            (mkBip360Activation (activation_height v)) (utxos_of (b :: rest)) ∅
            (pqc_verify_budget_ms v) clock with
    | Ok _ => Ok None
    | Err e => Ok (Some e)
    | Panic => Panic
    end.
Proof.
  intros [Hwf Ht Hu Hch] Hlen. unfold validate_block, try_get_block_height, load_map.
  rewrite Ht. cbn [tip_of head fmap option_fmap option_map]. rewrite (chain_heights _ _ _ Hwf Hch), Hu.
  rewrite len_cons in *. cbn [ok_or mbind outcome_bind]. unfold checked_add.
  rewrite (proj2 (Z.ltb_lt _ _)) by lia. cbn [expect mbind outcome_bind]. rewrite (Z.add_comm (len rest)).
  rewrite validators_agree. by destruct (validate_and_diff_block_transactions _ _ _ _ _ _ _).
Qed.

(** [list_headers] fails its own debug assertion once a fork is stored: with
    two headers at the same height at or above the start, it panics (in builds
    with debug assertions). *)
Lemma list_headers_fork_panics db start h bh1 bh2 :
  bh1 ≠ bh2 → heights db !! bh1 = Some h → heights db !! bh2 = Some h → start ≤ h →
  list_headers db start = Panic.
Proof.
  intros Hne H1 H2 Hs. unfold list_headers. set (l := merge_sort _ _).
  destruct (strictly_sorted l) eqn:Hsorted; [exfalso|done].
  assert (∀ bh, heights db !! bh = Some h → (h, bh) ∈ l) as Hin.
  { intros bh Hbh. unfold l. rewrite merge_sort_Permutation, list_elem_of_filter. split; [done|].
    apply list_elem_of_fmap. exists (bh, h). split; [done|]. by apply elem_of_map_to_list. }
  pose proof (strictly_sorted_inj l _ _ Hsorted (Hin _ H1) (Hin _ H2) eq_refl). congruence.
Qed.

(** * Witnesses *)

Definition toy_v3 : GetBlockV3 := {| F64 := Z; from_btc v := Some v; hex_decode h := Some h |}.

Definition ex_enforcer_run : outcome EnforcerConnectError ConnectBlockAction * task_state :=
  @enforcer_connect_block toy_hash toy_script toy_tx toy_taproot toy_p2mr toy_pqc toy_v3 ex_handler None []
    ex_block1 (ex_db1, []).

Lemma ex_header_ok1 : @header_ok toy_tx (block_hashes ex_db1) (header ex_block1).
Proof.
  split.
  - vm_compute. discriminate.
  - intros hd' Hhd. pose proof ex_header_stored1 as Hst. congruence.
  - vm_compute. discriminate.
  - intros h Hh. assert (heights (block_hashes ex_db1) !! prev_blockhash (header ex_block1) = Some 0)
      as H0 by (vm_compute; reflexivity). rewrite H0 in Hh. injection Hh as <-. reflexivity.
Qed.
Lemma ex_no_prefetch extra :
  @prefetch_external_prevouts toy_script toy_tx toy_taproot toy_v3 None ex_block1 ex_db1 = Ok extra →
  map_Forall (λ _ o, is_p2mr_script (script_pubkey o) = false) extra.
Proof.
  assert (@prefetch_external_prevouts toy_script toy_tx toy_taproot toy_v3 None ex_block1 ex_db1
          = Ok ∅) as -> by (vm_compute; reflexivity).
  intros [= <-]. apply map_Forall_empty.
Qed.

Lemma enforcer_connect_correct_witness :
  ex_enforcer_run.1 = Ok (ConnectAccept ∅) ∧ @db_inv toy_tx ex_enforcer_run.2.1 [ex_block1; ex_block0].
Proof.
  assert (ex_enforcer_run.1 = Ok (ConnectAccept ∅)) as Hrun by (vm_compute; reflexivity).
  split; [exact Hrun|].
  pose proof (@enforcer_connect_correct toy_hash toy_script toy_tx toy_taproot toy_p2mr toy_pqc toy_v3
    ex_handler None [] ex_block1 [ex_block0] ex_db1 [] toy_work_pos ex_inv1) as Hc.
  fold ex_enforcer_run in Hc. unfold connect_outcome in Hc.
  destruct ex_enforcer_run as [o [db' evs']]. cbn in Hrun. subst o. apply Hc.
  - exact ex_header_ok1.
  - exact ex_block_ok1.
  - exact ex_no_prefetch.
Defined.

(** A spend of the tracked output next to an output [ex_far] of a prior block. *)
Definition ex_far : OutPoint := mkOutPoint (replicate 32 x07) 4.
Definition ex_two_input_tx (op : OutPoint) : Transaction :=
  mkTransaction 2 7 [mkTxIn op [] 0 []; mkTxIn ex_far [] 0 []] [].
Definition ex_prefetch_block (op : OutPoint) : Block :=
  mkBlock ex_a1 [ex_cb 2 [ex_p2mr_out ex_root]; ex_two_input_tx op].
Definition ex_tracked : OutPoint := mkOutPoint (@compute_txid toy_tx (ex_cb 1 [ex_p2mr_out ex_root])) 0.
Definition ex_new : OutPoint := mkOutPoint (@compute_txid toy_tx (ex_cb 2 [ex_p2mr_out ex_root])) 0.
Definition ex_parsed : list (list (@GbVin toy_v3)) :=
  [[@mkGbVin toy_v3 (Some (txid ex_far)) (Some 4) (Some (@mkGbPrevout toy_v3 77 [x51]))]].
Definition ex_prefetch (op : OutPoint) : outcome TapscriptError PrevoutMap :=
  @prefetch_external_prevouts toy_script toy_tx toy_taproot toy_v3 (Some ex_parsed)
    (ex_prefetch_block op) ex_db1.

Lemma prefetch_only_external_witness :
  ∃ extra, ex_prefetch ex_tracked = Ok extra ∧ extra !! ex_far = Some (mkTxOut 77 [x51])
    ∧ p2mr_utxos ex_db1 !! ex_far = None.
Proof.
  assert (match ex_prefetch ex_tracked with Ok m => m !! ex_far | _ => None end
          = Some (mkTxOut 77 [x51])) as Hl by (vm_compute; reflexivity).
  destruct (ex_prefetch ex_tracked) as [extra|e|] eqn:Hp; [|discriminate Hl..].
  exists extra. split; [reflexivity|]. split; [exact Hl|].
  exact (proj1 (@prefetch_only_external toy_script toy_tx toy_taproot toy_v3 (Some ex_parsed)
           (ex_prefetch_block ex_tracked) ex_db1 extra ex_far (mkTxOut 77 [x51]) Hp Hl)).
Defined.

Lemma prefetch_ignores_same_block_witness : ex_prefetch ex_new = Ok ∅.
Proof.
  apply (@prefetch_ignores_same_block toy_script toy_tx toy_taproot toy_v3 (Some ex_parsed)
           (ex_prefetch_block ex_new) ex_db1).
  intros tx [->|[]%not_elem_of_nil]%elem_of_cons. split; [reflexivity|].
  intros i [->|[->|[]%not_elem_of_nil]%elem_of_cons]%elem_of_cons; vm_compute; reflexivity.
Defined.

Lemma validate_block_agrees_witness :
  @validate_block toy_hash toy_script toy_tx toy_taproot toy_p2mr toy_pqc ex_handler [] ex_block1 ex_db1
  = Ok None.
Proof.
  pose proof (@validate_block_agrees toy_hash toy_script toy_tx toy_taproot toy_p2mr toy_pqc ex_handler []
    ex_block1 ex_db1 ex_block0 [] ex_inv1 ltac:(vm_compute; reflexivity)) as Hv.
  vm_compute in Hv |- *. exact Hv.
Defined.

Lemma list_headers_fork_panics_witness : list_headers ex_header_db 0 = Panic.
Proof.
  apply (list_headers_fork_panics ex_header_db 0 1 (ex_hash ex_a1) (ex_hash ex_b1));
    [vm_compute; discriminate|vm_compute; reflexivity|vm_compute; reflexivity|lia].
Defined.
