(* ===== verification/SyncState.v ===== *)
(** The snapshot of the consensus state at a tip (`validator/sync_state_summary.rs`),
    meant for comparing the state of two validators. *)
From Stdlib Require Import ZArith Lia Strings.Byte Strings.String.
From stdpp Require Import base list gmap sorting strings.
From S2P Require Import Prelude Bitcoin Concrete Limits Spend P2mrUtxo Pqc Dbs BlockHandler Sync SyncBlocks Enforcer.
#[local] Open Scope Z_scope.

Record P2mrUtxoSummary := mkUtxoSummary { us_outpoint : OutPoint; value_sats : Z; script_pubkey_hex : string }.
Record SyncStateSummary := mkSummary {
  ss_tip_hash : BlockHash;
  ss_tip_height : Z;
  ss_p2mr_utxos : list P2mrUtxoSummary
}.

Inductive SummaryError := SummaryTip (e : DbError) | SummaryHeight (e : DbError) | SummaryNotSynced.

(** The [hex] crate, [serde_json] and the digest of the [bitcoin] crate. *)
Class SummaryLib := {
  hex_encode : bytes → string;
  summary_to_json : SyncStateSummary → string;
  sha256_hex : string → string
}.

(** [sort_by_key(|utxo| (txid, vout))] *)
Definition summary_le (a b : P2mrUtxoSummary) : Prop := outpoint_leb (us_outpoint a) (us_outpoint b) = true.
#[global] Instance summary_le_dec a b : Decision (summary_le a b).
Proof. unfold summary_le. apply _. Defined.

Section summary.
Context `{SummaryLib}.

(** [hash_order]: the order a [HashMap] is iterated in, different in every process. *)
Definition sync_state_summary (hash_order : PrevoutMap → list (OutPoint * TxOut)) (db : Dbs) :
    outcome SummaryError SyncStateSummary :=
  tip_hash ← map_err SummaryTip (get_mainchain_tip db);
  height ← map_err SummaryHeight (try_get_block_height db);
  tip_height ← ok_or height SummaryNotSynced;
  let utxos := hash_order (load_map db) in
  let p2mr_utxos := map (λ '(outpoint, txout),
                           mkUtxoSummary outpoint (value txout) (hex_encode (script_pubkey txout))) utxos in
  Ok (mkSummary tip_hash tip_height (merge_sort summary_le p2mr_utxos)).

Definition digest (self : SyncStateSummary) : string := sha256_hex (summary_to_json self).
End summary.

(** * Lemmas *)

#[global] Instance summary_le_total : Total summary_le.
Proof. intros a b. apply outpoint_leb_total. Qed.
#[global] Instance summary_le_trans : Transitive summary_le.
Proof. intros a b c. apply outpoint_leb_trans. Qed.

(** Sorting forgets the order a map is iterated in. *)
Lemma summaries_unique (f : OutPoint * TxOut → P2mrUtxoSummary) (m : PrevoutMap) l1 l2 :
  (∀ p, us_outpoint (f p) = p.1) → l1 ≡ₚ map_to_list m → l2 ≡ₚ map_to_list m →
  merge_sort summary_le (map f l1) = merge_sort summary_le (map f l2).
Proof.
  intros Hf H1 H2. apply (Sorted_unique_strong summary_le).
  - intros x y. rewrite !merge_sort_Permutation, H1, H2. intros Hx Hy Hxy Hyx.
    apply list_elem_of_fmap in Hx as ([op o] & -> & Hp). apply list_elem_of_fmap in Hy as ([op' o'] & -> & Hq).
    unfold summary_le in *. rewrite !Hf in *. f_equal. pose proof (outpoint_leb_antisym _ _ Hxy Hyx) as Hpq.
    cbn in Hpq. subst op'. apply elem_of_map_to_list in Hp, Hq. congruence.
  - apply (Sorted_merge_sort summary_le).
  - apply (Sorted_merge_sort summary_le).
  - rewrite !merge_sort_Permutation. by rewrite H1, H2.
Qed.

(** The summary of a validator that has connected a chain. *)
Lemma summary_of_chain `{HashLib} `{ScriptLib} `{TxLib} `{TaprootLib} `{P2mrLib} `{PqcLib} `{SummaryLib}
    hash_order db chain :
  db_inv db chain → chain ≠ [] →
  sync_state_summary hash_order db
  = Ok (mkSummary (SyncBlocks.tip_hash chain) (len chain - 1)
          (merge_sort summary_le (map (λ '(outpoint, txout),
             mkUtxoSummary outpoint (value txout) (hex_encode (script_pubkey txout))) (hash_order (utxos_of chain))))).
Proof.
  intros Hinv Hne. destruct chain as [|b chain]; [done|]. unfold sync_state_summary, get_mainchain_tip, try_get_block_height.
  rewrite (inv_tip _ _ Hinv). cbn [tip_of head fmap option_fmap option_map ok_or map_err mbind outcome_bind].
  rewrite (tip_height _ _ _ Hinv). cbn [ok_or map_err mbind outcome_bind]. unfold load_map. rewrite (inv_utxos _ _ Hinv).
  unfold SyncBlocks.tip_hash. cbn [tip_of head fmap option_fmap option_map default]. rewrite len_cons.
  by replace (1 + len chain - 1) with (len chain) by lia.
Qed.

(** The summaries of two validators. *)
Lemma summaries_equal `{HashLib} `{ScriptLib} `{TxLib} `{TaprootLib} `{P2mrLib} `{PqcLib} `{SummaryLib}
    order1 order2 db1 db2 chain1 chain2 :
  (∀ m, order1 m ≡ₚ map_to_list m) → (∀ m, order2 m ≡ₚ map_to_list m) → (∀ a b, hex_encode a = hex_encode b → a = b) →
  db_inv db1 chain1 → db_inv db2 chain2 → chain1 ≠ [] → chain2 ≠ [] →
  ∃ s1 s2, sync_state_summary order1 db1 = Ok s1 ∧ sync_state_summary order2 db2 = Ok s2
    ∧ (s1 = s2 ↔ tip_of chain1 = tip_of chain2 ∧ len chain1 = len chain2 ∧ utxos_of chain1 = utxos_of chain2).
Proof.
  intros Ho1 Ho2 Hhex Hinv1 Hinv2 Hne1 Hne2. eexists _, _.
  split; [by apply summary_of_chain|]. split; [by apply summary_of_chain|].
  set (f := λ '(outpoint, txout), mkUtxoSummary outpoint (value txout) (hex_encode (script_pubkey txout))).
  split.
  - intros [= Htip Hlen Hl]. split; [|split; [lia|]].
    + destruct chain1, chain2; try done. unfold SyncBlocks.tip_hash in Htip. cbn in Htip |- *. by rewrite Htip.
    + assert (Inj (=) (=) f) as Hinj.
      { intros [op [v spk]] [op' [v' spk']] [= -> -> ->%Hhex]. done. }
      assert (map f (map_to_list (utxos_of chain1)) ≡ₚ map f (map_to_list (utxos_of chain2))) as Hperm.
      { rewrite <-(Ho1 (utxos_of chain1)), <-(Ho2 (utxos_of chain2)).
        rewrite <-(merge_sort_Permutation summary_le (map f (order1 _))), Hl. apply merge_sort_Permutation. }
      apply map_eq. intros op. apply option_eq. intros o. rewrite <-!elem_of_map_to_list.
      rewrite <-!(list_elem_of_fmap_inj f). unfold fmap. by rewrite Hperm.
  - intros (Htip & Hlen & Hu). unfold SyncBlocks.tip_hash. rewrite Htip, Hlen, Hu. f_equal.
    apply (summaries_unique f (utxos_of chain2)); [by intros [op o]|done|done].
Qed.

(** * Properties *)

(** Two validators have the same summary, and so the same digest, exactly when
    their chains have the same tip, height and P2MR set: whatever other branches
    each has stored, and in whatever order its hash maps are iterated. *)
Lemma summaries_agree `{HashLib} `{ScriptLib} `{TxLib} `{TaprootLib} `{P2mrLib} `{PqcLib} `{SummaryLib}
    order1 order2 db1 db2 chain1 chain2 :
  (∀ m, order1 m ≡ₚ map_to_list m) → (∀ m, order2 m ≡ₚ map_to_list m) → (∀ a b, hex_encode a = hex_encode b → a = b) →
  db_inv db1 chain1 → db_inv db2 chain2 → chain1 ≠ [] → chain2 ≠ [] →
  ∃ s1 s2, sync_state_summary order1 db1 = Ok s1 ∧ sync_state_summary order2 db2 = Ok s2
    ∧ (s1 = s2 ↔ tip_of chain1 = tip_of chain2 ∧ len chain1 = len chain2 ∧ utxos_of chain1 = utxos_of chain2).
Proof. apply summaries_equal. Qed.

(** * Witnesses *)
Definition toy_summary : SummaryLib := {|
  hex_encode := string_of_list_byte;
  summary_to_json s := string_of_list_byte (ss_tip_hash s);
  sha256_hex s := s
|}.

Lemma toy_hex_inj a b : @hex_encode toy_summary a = @hex_encode toy_summary b → a = b.
Proof.
  cbn. intros H. rewrite <-(list_byte_of_string_of_list_byte a), <-(list_byte_of_string_of_list_byte b). by f_equal.
Qed.

(** The same databases read in two orders, and those of the chain a block shorter. *)
Lemma summaries_agree_witness :
  (∃ s, @sync_state_summary toy_summary map_to_list ex_db2 = Ok s
     ∧ @sync_state_summary toy_summary (λ m, rev (map_to_list m)) ex_db2 = Ok s)
  ∧ @sync_state_summary toy_summary map_to_list ex_db1 ≠ @sync_state_summary toy_summary map_to_list ex_db2.
Proof.
  split.
  - destruct (@summaries_agree toy_hash toy_script toy_tx toy_taproot toy_p2mr toy_pqc toy_summary
      map_to_list (λ m, rev (map_to_list m)) ex_db2 ex_db2 [ex_block1; ex_block0] [ex_block1; ex_block0])
      as (s1 & s2 & H1 & H2 & Hiff).
    + intros m. reflexivity.
    + intros m. symmetry. apply Permutation_rev.
    + exact toy_hex_inj.
    + exact ex_inv2.
    + exact ex_inv2.
    + discriminate.
    + discriminate.
    + exists s1. split; [exact H1|]. rewrite H2. f_equal. symmetry. apply Hiff. repeat split; reflexivity.
  - destruct (@summaries_agree toy_hash toy_script toy_tx toy_taproot toy_p2mr toy_pqc toy_summary
      map_to_list map_to_list ex_db1 ex_db2 [ex_block0] [ex_block1; ex_block0])
      as (s1 & s2 & H1 & H2 & Hiff).
    + intros m. reflexivity.
    + intros m. reflexivity.
    + exact toy_hex_inj.
    + exact ex_inv1.
    + exact ex_inv2.
    + discriminate.
    + discriminate.
    + rewrite H1, H2. intros [= Heq]. apply Hiff in Heq as (_ & Hlen & _). vm_compute in Hlen. discriminate Hlen.
Defined.
