(* ===== verification/Server.v ===== *)
(** The validator's, the crypto and the mining gRPC services (`server/validator/grpc.rs`,
    `server/crypto.rs`, `server/mining.rs`), with the messages they exchange
    (`proto.rs`). *)
From Stdlib Require Import ZArith Lia Strings.Byte Strings.String.
From stdpp Require Import base list gmap strings.
From S2P Require Import Prelude Bitcoin Rpc Concrete Limits Spend P2mrUtxo Pqc Dbs BlockHandler Sync SyncBlocks Enforcer.
#[local] Open Scope Z_scope.

(** The consensus encodings of the types that appear in messages: hashes, byte
    arrays of a length, byte vectors. *)
Class CodecLib := {
  hash_codec : ConsensusType BlockHash;
  array_codec : Z → ConsensusType bytes;
  vec_codec : ConsensusType bytes
}.
Class CodecLaws `{CodecLib} : Prop := {
  hash_codec_laws : @ConsensusTypeLaws _ hash_codec;
  array_codec_laws n b : len b = n → @deserialize_hex _ (array_codec n) (@serialize_hex _ (array_codec n) b) = Some b
}.

(** ** Messages *)

Inductive ProtoNetwork :=
| NETWORK_UNSPECIFIED | NETWORK_UNKNOWN | NETWORK_MAINNET | NETWORK_REGTEST | NETWORK_SIGNET | NETWORK_TESTNET.

Definition network_to_proto (network : Network) : ProtoNetwork :=
  match network with
  | NetworkBitcoin => NETWORK_MAINNET
  | Regtest => NETWORK_REGTEST
  | Signet => NETWORK_SIGNET
  | Testnet | Testnet4 => NETWORK_TESTNET
  end.

Record BlockHeaderInfo := mkBlockHeaderInfo {
  bh_block_hash : option ReverseHex;
  bh_prev_block_hash : option ReverseHex;
  bh_height : Z;
  bh_work : option ConsensusHex;
  bh_timestamp : Z
}.

(** [subscribe_events_response::event::Event]; the [BlockInfo] message is empty. *)
Inductive ProtoEvent :=
| ProtoConnectBlock (header_info : BlockHeaderInfo)
| ProtoDisconnectBlock (block_hash : option ReverseHex).

Definition GET_BLOCK_HEADER_INFO : string := "cusf.mainchain.v1.GetBlockHeaderInfoRequest".
Definition GET_BLOCK_INFO : string := "cusf.mainchain.v1.GetBlockInfoRequest".

Section validator_service.
Context `{HexLib} `{CodecLib} `{TxLib}.

Definition encode_hash (bh : BlockHash) : ReverseHex := @encode_reverse_hex _ _ hash_codec bh.
Definition decode_hash : ReverseHex → string → string → outcome ProtoError BlockHash :=
  @decode_reverse_hex _ _ hash_codec.

Definition header_info_to_proto (info : HeaderInfo) : BlockHeaderInfo :=
  mkBlockHeaderInfo (Some (encode_hash (block_hash_ info))) (Some (encode_hash (prev_block_hash info)))
    (height info) (Some (@encode_consensus_hex _ (array_codec 32) (le_bytes 32 (work info)))) (timestamp info).

Definition event_into_proto (e : Event) : ProtoEvent :=
  match e with
  | ConnectBlockEvent header_info _ => ProtoConnectBlock (header_info_to_proto header_info)
  | DisconnectBlockEvent block_hash => ProtoDisconnectBlock (Some (encode_hash block_hash))
  end.

(** [map_err(internal_err)] *)
Definition or_internal {E A} (o : outcome E A) : outcome ConnectError A := map_err (λ _, internal_err) o.

Definition get_block_header_info (db : BlockHashDbs) (block_hash : option ReverseHex) (max_ancestors : option Z) :
    outcome ConnectError (list BlockHeaderInfo) :=
  block_hash ← required GET_BLOCK_HEADER_INFO "block_hash" block_hash
                 (λ h, decode_hash h GET_BLOCK_HEADER_INFO "block_hash");
  infos ← or_internal (try_get_header_infos db block_hash (Z.to_nat (default 0 max_ancestors)));
  Ok (match infos with Some infos => map header_info_to_proto infos | None => [] end).

Definition get_block_info (db : BlockHashDbs) (block_hash : option ReverseHex) (max_ancestors : option Z) :
    outcome ConnectError (list BlockHeaderInfo) :=
  block_hash ← required GET_BLOCK_INFO "block_hash" block_hash
                 (λ h, decode_hash h GET_BLOCK_INFO "block_hash");
  infos ← or_internal (try_get_block_infos db block_hash (Z.to_nat (default 0 max_ancestors)));
  Ok (match infos with Some infos => map (λ p, header_info_to_proto p.1) infos | None => [] end).

Definition get_chain_info (network : Network) (activation_height : Z) : ProtoNetwork * Z :=
  (network_to_proto network, activation_height).

Definition get_chain_tip (db : Dbs) : outcome ConnectError BlockHeaderInfo :=
  tip_hash ← ok_or (try_get_mainchain_tip db) (mkConnectError Unavailable None);
  header_info ← or_internal (get_header_info (block_hashes db) tip_hash);
  Ok (header_info_to_proto header_info).

(** [stop]; the state is whether the token is cancelled. *)
Definition stop : st bool ConnectError unit :=
  cancelled ← st_get;
  _ ← st_lift (reject_if cancelled (mkConnectError Unavailable None));
  st_put true.
End validator_service.

(** ** CryptoService

    The hash functions and [secp256k1]; [PublicKey] and [SecretKey] are the types of
    parsed keys, a signature is its 64 bytes. *)
Class CryptoLib := {
  SecretKey : Type;
  PublicKey : Type;
  Signature : Type;
  hmac_sha512_hash : bytes → bytes → bytes;
  secret_key_from_slice : bytes → option SecretKey;
  public_key_of : SecretKey → PublicKey;
  public_key_serialize : PublicKey → bytes;
  public_key_from_slice : bytes → option PublicKey;
  sign_ecdsa : bytes → SecretKey → Signature;
  serialize_compact : Signature → bytes;
  signature_from_compact : bytes → option Signature;
  verify_ecdsa : bytes → Signature → PublicKey → bool
}.
(** A signature verifies under the key it was made with; keys and signatures are read
    back, and have their lengths. *)
Class CryptoLaws `{CryptoLib} : Prop := {
  verify_sign d sk : verify_ecdsa d (sign_ecdsa d sk) (public_key_of sk) = true;
  public_key_roundtrip pk : public_key_from_slice (public_key_serialize pk) = Some pk;
  public_key_length pk : len (public_key_serialize pk) = 33;
  signature_roundtrip s : signature_from_compact (serialize_compact s) = Some s;
  signature_length s : len (serialize_compact s) = 64
}.

Definition SECP256K1_SECRET_KEY_LENGTH : Z := 32.
Definition SECP256K1_PUBLIC_KEY_LENGTH : Z := 33.
Definition SECP256K1_SIGNATURE_COMPACT_SERIALIZATION_LENGTH : Z := 64.

(** What [usize::to_string] gives is only shown in the message. *)
Section crypto_service.
Context `{HexLib} `{CodecLib} `{HashLib} `{CryptoLib}.

(** [decode_status] of a [Hex] and of a [ConsensusHex] array that must be set. *)
Definition hex_field (message field_name : string) (field : option Hex) : outcome ConnectError bytes :=
  required message field_name field (λ h, decode_hex Some h message field_name).
Definition array_field (message field_name : string) (n : Z) (field : option ConsensusHex) : outcome ConnectError bytes :=
  required message field_name field (λ h, @decode_consensus_hex _ (array_codec n) h message field_name).

Definition ripemd160_service (msg : option Hex) : outcome ConnectError Hex :=
  msg ← hex_field "cusf.crypto.v1.Ripemd160Request" "msg" msg;
  Ok (encode_hex (ripemd160 msg)).

Definition hmac_sha512 (key msg : option Hex) : outcome ConnectError Hex :=
  key ← hex_field "cusf.crypto.v1.HmacSha512Request" "key" key;
  msg ← hex_field "cusf.crypto.v1.HmacSha512Request" "msg" msg;
  Ok (encode_hex (hmac_sha512_hash key msg)).

Definition secp256k1_secret_key_to_public_key (secret_key : option ConsensusHex) : outcome ConnectError ConsensusHex :=
  let message := "cusf.crypto.v1.Secp256k1SecretKeyToPublicKeyRequest"%string in
  secret_key ← array_field message "secret_key" SECP256K1_SECRET_KEY_LENGTH secret_key;
  secret_key ← ok_or (secret_key_from_slice secret_key) (invalid_field_value message "secret_key" "");
  Ok (@encode_consensus_hex _ (array_codec SECP256K1_PUBLIC_KEY_LENGTH)
        (public_key_serialize (public_key_of secret_key))).

Definition secp256k1_sign (message : option Hex) (secret_key : option ConsensusHex) : outcome ConnectError Hex :=
  let request := "cusf.crypto.v1.Secp256k1SignRequest"%string in
  message ← hex_field request "message" message;
  let digest := sha256 message in
  secret_key ← array_field request "secret_key" SECP256K1_SECRET_KEY_LENGTH secret_key;
  secret_key ← ok_or (secret_key_from_slice secret_key) (invalid_field_value request "secret_key" "");
  Ok (encode_hex (serialize_compact (sign_ecdsa digest secret_key))).

(** [show]: [usize::to_string]. *)
Definition secp256k1_verify (show : Z → string) (message signature : option Hex) (public_key : option ConsensusHex) :
    outcome ConnectError bool :=
  let request := "cusf.crypto.v1.Secp256k1VerifyRequest"%string in
  message ← hex_field request "message" message;
  let digest := sha256 message in
  signature ← hex_field request "signature" signature;
  _ ← reject_if (negb (len signature =? SECP256K1_SIGNATURE_COMPACT_SERIALIZATION_LENGTH))
        (invalid_field_value request "signature" (show (len signature)));
  signature ← ok_or (signature_from_compact signature) (invalid_field_value request "signature" "");
  public_key ← array_field request "public_key" SECP256K1_PUBLIC_KEY_LENGTH public_key;
  public_key ← ok_or (public_key_from_slice public_key) (invalid_field_value request "public_key" "");
  Ok (verify_ecdsa digest signature public_key).
End crypto_service.

(** ** MiningService

    The address is parsed and checked against the network in two steps; [can_mine]
    and [generate i] are the results of [verify_can_mine] and of the [i]-th
    [generate_block] ([Mine]); [busy] is whether another call holds the permit. *)

Section mining_service.
Context `{HexLib} `{CodecLib}.
Context {Unchecked Address E1 E2 : Type}.
Variable parse_address : string → option Unchecked.
Variable require_network : Unchecked → option Address.

(** The loop over the blocks; the hashes mined before an error are dropped. *)
Fixpoint generate_blocks (generate : nat → outcome E2 BlockHash) (i n : nat) : outcome E2 (list ReverseHex) :=
  match n with
  | O => Ok []
  | S n =>
      block_hash ← generate i;
      rest ← generate_blocks generate (S i) n;
      Ok (encode_hash block_hash :: rest)
  end.

Definition generate_to_address (blocks : option Z) (address : string) (busy : bool)
    (can_mine : Z → outcome E1 unit) (generate : Address → nat → outcome E2 BlockHash) :
    outcome (ConnectError + E1 + E2) (list ReverseHex) :=
  let request := "cusf.mainchain.v1.GenerateToAddressRequest"%string in
  let count := default 1 blocks in
  _ ← reject_if (count =? 0) (inl (inl invalid_argument));
  _ ← reject_if (address =? "")%string (inl (inl (missing_field request "address")));
  unchecked ← ok_or (parse_address address) (inl (inl (invalid_field_value request "address" address)));
  coinbase_addr ← ok_or (require_network unchecked) (inl (inl (invalid_field_value request "address" address)));
  _ ← reject_if busy (inl (inl (mkConnectError ResourceExhausted None)));
  _ ← map_err (λ e, inl (inr e)) (can_mine count);
  map_err inr (generate_blocks (generate coinbase_addr) 0 (Z.to_nat count)).
End mining_service.

(** * Lemmas *)
Section lemmas.
Context `{TxLib}.

(** The info of a block on the chain [rest]. *)
Definition chain_info (b : Block) (rest : list Block) : HeaderInfo :=
  mkHeaderInfo (block_hash (header b)) (SyncBlocks.tip_hash rest) (len rest) (header_work (header b)) (time (header b)).
(** The infos of the first [n] blocks of a chain. *)
Fixpoint chain_infos (n : nat) (chain : list Block) : list HeaderInfo :=
  match n, chain with
  | S n, b :: rest => chain_info b rest :: chain_infos n rest
  | _, _ => []
  end.

Lemma try_header_info_chain (db : BlockHashDbs) b rest :
  headers_wf db → chain_linked db (b :: rest) →
  try_get_header_info db (block_hash (header b)) = Ok (Some (chain_info b rest)).
Proof.
  intros Hwf Hl. pose proof (tip_at_height db (b :: rest) Hwf Hl) as Hat. destruct Hl as (Hhd & Hprev & _).
  rewrite len_cons in Hat. replace (1 + len rest - 1) with (len rest) in Hat by lia.
  change (SyncBlocks.tip_hash (b :: rest)) with (block_hash (header b)) in Hat.
  unfold try_get_header_info. rewrite Hhd, bool_decide_false by (intros Hn; by apply Hn).
  destruct Hat as [[Hz _]|(_ & -> & _)].
  - pose proof (wf_zeros _ Hwf) as Hwz. rewrite <-Hz in Hwz. congruence.
  - cbn. unfold chain_info. by rewrite Hprev.
Qed.

Lemma tip_nonzero (db : BlockHashDbs) b rest :
  headers_wf db → chain_linked db (b :: rest) → SyncBlocks.tip_hash (b :: rest) ≠ all_zeros.
Proof.
  intros Hwf (Hhd & _) Hz. pose proof (wf_zeros _ Hwf) as Hwz.
  change (SyncBlocks.tip_hash (b :: rest)) with (block_hash (header b)) in Hz. rewrite Hz in Hhd. congruence.
Qed.

Lemma header_infos_chain (db : BlockHashDbs) n chain :
  headers_wf db → chain_linked db chain →
  header_infos_loop db n (SyncBlocks.tip_hash chain) = Ok (chain_infos n chain).
Proof.
  intros Hwf. revert chain. induction n as [|n IH]; intros [|b rest] Hl; [done..|]. cbn [header_infos_loop chain_infos].
  rewrite (bool_decide_false _ (tip_nonzero db b rest Hwf Hl)).
  change (SyncBlocks.tip_hash (b :: rest)) with (block_hash (header b)).
  rewrite (try_header_info_chain db b rest) by done. cbn [mbind outcome_bind chain_info prev_block_hash].
  rewrite IH by apply Hl. done.
Qed.
End lemmas.

(** A hash in a message decodes to itself. *)
Lemma decode_encode_hash `{HexLib} `{!HexLaws} `{CodecLib} `{!CodecLaws} bh m f :
  decode_hash (encode_hash bh) m f = Ok bh.
Proof. apply (@reverse_hex_roundtrip _ _ _ hash_codec hash_codec_laws). Qed.

(** A field's value does not depend on the message it is a field of, and what the
    service encodes it reads back. *)
Section crypto_fields.
Context `{HexLib} `{CodecLib}.

Lemma array_field_Ok m f m' f' n field v v' :
  array_field m f n field = Ok v → array_field m' f' n field = Ok v' → v = v'.
Proof.
  unfold array_field, required, decode_status, decode_consensus_hex. destruct field as [[[s|]]|]; [|done..].
  cbn. destruct (deserialize_hex s); [|done]. cbn. congruence.
Qed.

Lemma hex_field_Ok m f m' f' field v : hex_field m f field = Ok v → hex_field m' f' field = Ok v.
Proof.
  unfold hex_field, required, decode_status, decode_hex. destruct field as [[[s|]]|]; [|done..].
  cbn. by destruct (Rpc.hex_decode s).
Qed.

Lemma hex_field_encode `{!HexLaws} m f b : hex_field m f (Some (encode_hex b)) = Ok b.
Proof. unfold hex_field, required, decode_status. cbn [ok_or mbind outcome_bind]. by rewrite hex_field_roundtrip. Qed.

Lemma array_field_encode `{!CodecLaws} m f n b :
  len b = n → array_field m f n (Some (@encode_consensus_hex _ (array_codec n) b)) = Ok b.
Proof.
  intros Hn. unfold array_field, required, decode_status, decode_consensus_hex, encode_consensus_hex.
  cbn [ok_or mbind outcome_bind consensus_hex]. by rewrite array_codec_laws.
Qed.
End crypto_fields.

(** * Properties *)

(** The tip a client is told is where it can start: with the databases of a chain
    [get_chain_tip] answers with the chain's tip, and [get_block_header_info] for the
    hash in that answer gives the same header info, followed by those of up to
    [max_ancestors] blocks below it, newest first, with their heights, ending at
    the genesis block. *)
Lemma chain_tip_query `{HexLib} `{!HexLaws} `{CodecLib} `{!CodecLaws} `{TxLib} db chain b max_ancestors :
  db_inv db (b :: chain) → 0 ≤ max_ancestors →
  get_chain_tip db = Ok (header_info_to_proto (chain_info b chain))
  ∧ get_block_header_info (block_hashes db) (bh_block_hash (header_info_to_proto (chain_info b chain))) (Some max_ancestors)
    = Ok (map header_info_to_proto (chain_info b chain :: chain_infos (Z.to_nat max_ancestors) chain)).
Proof.
  intros Hinv Hm. pose proof (inv_headers _ _ Hinv) as Hwf. pose proof (chain_stored_linked _ _ (inv_chain _ _ Hinv)) as Hl.
  pose proof (try_header_info_chain _ _ _ Hwf Hl) as Hi. split.
  - unfold get_chain_tip, try_get_mainchain_tip. rewrite (inv_tip _ _ Hinv). cbn [tip_of head fmap option_fmap option_map].
    cbn [ok_or mbind outcome_bind]. unfold get_header_info. by rewrite Hi.
  - unfold get_block_header_info, required. cbn [header_info_to_proto bh_block_hash chain_info block_hash_ ok_or].
    unfold mbind at 1, outcome_bind at 1. unfold mbind at 1, outcome_bind at 1. unfold decode_status.
    rewrite decode_encode_hash. cbn [map_err]. unfold try_get_header_infos. rewrite Hi.
    cbn [mbind outcome_bind chain_info prev_block_hash default]. rewrite header_infos_chain by (done || apply Hl). done.
Qed.

(** The crypto service checks what it signs: for a secret key it accepts, the
    signature [secp256k1_sign] returns passes [secp256k1_verify] with the public key
    [secp256k1_secret_key_to_public_key] returns, for every message. *)
Lemma crypto_sign_verify `{HexLib} `{!HexLaws} `{CodecLib} `{!CodecLaws} `{HashLib} `{CryptoLib} `{!CryptoLaws}
    show message secret_key pk sig :
  secp256k1_secret_key_to_public_key secret_key = Ok pk → secp256k1_sign message secret_key = Ok sig →
  secp256k1_verify show message (Some sig) (Some pk) = Ok true.
Proof.
  unfold secp256k1_secret_key_to_public_key, secp256k1_sign, secp256k1_verify. intros Hpk Hsig.
  apply bind_Ok in Hpk as (skb & Hskb & Hpk). apply bind_Ok in Hpk as (sk & Hsk%ok_or_Ok & [= <-]).
  apply bind_Ok in Hsig as (m & Hm & Hsig). apply bind_Ok in Hsig as (skb' & Hskb' & Hsig).
  apply bind_Ok in Hsig as (sk' & Hsk'%ok_or_Ok & [= <-]).
  assert (sk' = sk) as -> by (pose proof (array_field_Ok _ _ _ _ _ _ _ _ Hskb Hskb'); congruence).
  rewrite (hex_field_Ok _ _ _ _ _ _ Hm), hex_field_encode. cbn [mbind outcome_bind].
  rewrite signature_length. cbn [Z.eqb Pos.eqb negb reject_if SECP256K1_SIGNATURE_COMPACT_SERIALIZATION_LENGTH mbind outcome_bind].
  rewrite signature_roundtrip. cbn [ok_or mbind outcome_bind].
  rewrite array_field_encode by apply public_key_length. cbn [mbind outcome_bind].
  rewrite public_key_roundtrip. cbn [ok_or mbind outcome_bind]. by rewrite verify_sign.
Qed.

(** [generate_to_address] answers with one hash per block asked for, in order. *)
Lemma generate_blocks_Ok `{HexLib} `{CodecLib} {E} (generate : nat → outcome E BlockHash) i n l :
  generate_blocks generate i n = Ok l →
  length l = n ∧ ∀ j, (j < n)%nat → ∃ bh, generate (i + j)%nat = Ok bh ∧ l !! j = Some (encode_hash bh).
Proof.
  revert i l. induction n as [|n IH]; intros i l; cbn [generate_blocks].
  - intros [= <-]. split; [done|lia].
  - intros Hg. apply bind_Ok in Hg as (bh & Hbh & Hg). apply bind_Ok in Hg as (rest & Hrest & [= <-]).
    apply IH in Hrest as [Hlen Hr]. split; [cbn; by rewrite Hlen|]. intros [|j] Hj.
    + exists bh. rewrite Nat.add_0_r. done.
    + destruct (Hr j) as (bh' & Hg' & Hl'); [lia|]. exists bh'. split; [|done].
      by replace (i + S j)%nat with (S i + j)%nat by lia.
Qed.

(** * Instances *)

(** The bytes themselves for their hex digits. *)
#[local] Instance toy_hex : HexLib :=
  {| hex_encode b := string_of_list_byte b; Rpc.hex_decode s := Some (list_byte_of_string s) |}.
#[local] Instance toy_hex_laws : HexLaws.
Proof. split. intros b. exact (f_equal Some (list_byte_of_string_of_list_byte b)). Qed.

Definition toy_bytes_codec : ConsensusType bytes := {|
  serialize b := b; deserialize b := Some b;
  serialize_hex b := string_of_list_byte b; deserialize_hex s := Some (list_byte_of_string s)
|}.
#[local] Instance toy_codec : CodecLib :=
  {| hash_codec := toy_bytes_codec; array_codec _ := toy_bytes_codec; vec_codec := toy_bytes_codec |}.
#[local] Instance toy_codec_laws : CodecLaws.
Proof.
  split.
  - split; intros v; [done|]. exact (f_equal Some (list_byte_of_string_of_list_byte v)).
  - intros n b _. exact (f_equal Some (list_byte_of_string_of_list_byte b)).
Qed.

(** Two keys, the even and the odd, and signatures that are the parity of the digest
    and the key. *)
Definition parity (b : bytes) : bool := match b with x :: _ => Z.odd (b2z x) | [] => false end.
Definition of_parity (n : nat) (p : bool) : bytes := toy_digest n [if p then x03 else x02].
#[local] Instance toy_crypto : CryptoLib := {|
  SecretKey := bool; PublicKey := bool; Signature := bool;
  hmac_sha512_hash k m := toy_digest 64 (k ++ m);
  secret_key_from_slice b := Some (parity b);
  public_key_of k := k;
  public_key_serialize := of_parity 33;
  public_key_from_slice b := Some (parity b);
  sign_ecdsa d k := xorb (parity d) k;
  serialize_compact := of_parity 64;
  signature_from_compact b := Some (parity b);
  verify_ecdsa d s k := Bool.eqb s (xorb (parity d) k)
|}.
#[local] Instance toy_crypto_laws : CryptoLaws.
Proof. split; [intros d k; apply Bool.eqb_reflx| | | |]; intros []; reflexivity. Qed.

(** * Witnesses *)
Lemma chain_tip_query_witness :
  ∃ tip, @get_chain_tip toy_hex toy_codec toy_tx ex_db2 = Ok tip ∧ bh_height tip = 1
  ∧ ∃ below, @get_block_header_info toy_hex toy_codec toy_tx (block_hashes ex_db2) (bh_block_hash tip) (Some 5) = Ok [tip; below]
             ∧ bh_height below = 0.
Proof.
  destruct (@chain_tip_query toy_hex toy_hex_laws toy_codec toy_codec_laws toy_tx
              ex_db2 [ex_block0] ex_block1 5 ex_inv2) as [Htip Hinfo]; [lia|].
  eexists. split; [exact Htip|]. split; [vm_compute; reflexivity|].
  eexists. split; [exact Hinfo|]. vm_compute. reflexivity.
Defined.

(** A signature with the odd key verifies under its public key, and under no other. *)
Definition ex_message : option Hex := Some (mkHex (Some "message"%string)).
Definition ex_secret (p : bool) : option ConsensusHex :=
  Some (mkConsensusHex (Some (string_of_list_byte (of_parity 32 p)))).
Lemma crypto_sign_verify_witness :
  ∃ pk sig,
    secp256k1_secret_key_to_public_key (ex_secret true) = Ok pk
    ∧ @secp256k1_sign toy_hex toy_codec toy_hash toy_crypto ex_message (ex_secret true) = Ok sig
    ∧ @secp256k1_verify toy_hex toy_codec toy_hash toy_crypto (λ _, ""%string) ex_message (Some sig) (Some pk) = Ok true
    ∧ ∃ other, secp256k1_secret_key_to_public_key (ex_secret false) = Ok other
               ∧ @secp256k1_verify toy_hex toy_codec toy_hash toy_crypto (λ _, ""%string) ex_message (Some sig) (Some other) = Ok false.
Proof.
  eexists _, _. split; [reflexivity|]. split; [reflexivity|]. split.
  - apply (@crypto_sign_verify toy_hex toy_hex_laws toy_codec toy_codec_laws toy_hash toy_crypto toy_crypto_laws
             _ ex_message (ex_secret true)); reflexivity.
  - eexists. split; [reflexivity|]. vm_compute. reflexivity.
Defined.
