(* ===== verification/Signer.v ===== *)
(** Building and signing P2MR spends (`pqc/signer.rs`, and the leaf builder
    [build_hybrid_ec_slh_leaf] of `pqc/leaf_script.rs`), and the theorem that the
    validator accepts what the signer signs. *)
From Stdlib Require Import ZArith Lia Strings.Byte Strings.String.
From stdpp Require Import base list gmap.
From S2P Require Import Prelude Bitcoin Concrete Limits P2mrOutput Merkle Encoding LeafScript.
From S2P Require Import Schemes Spend InterpBase Deferred Interp Tapscript Pqc.
#[local] Open Scope Z_scope.

(** ** Third-party key generation, signing and script building

    `bitcoinpqc` ([generate_keypair] returns the public and the secret key),
    `secp256k1` (a [Keypair] is opaque) and [bitcoin::script::Builder]. *)
Class SignLib := {
  generate_keypair : PqcAlgorithm → bytes → option (bytes * bytes);
  pqc_sign : bytes → bytes → option bytes;
  ec_keypair_from_slice : bytes → option bytes;
  xonly_from_keypair : bytes → bytes;
  sign_schnorr_no_aux_rand : bytes → bytes → bytes;
  push_slice : Script → bytes → Script;
  push_opcode : Script → Opcode → Script
}.

(** ** Algorithms *)

Inductive SignAlgorithm := SignSchnorr | SignMldsa | SignSlh.

Definition label (self : SignAlgorithm) : string :=
  match self with SignSchnorr => "schnorr" | SignMldsa => "mldsa" | SignSlh => "slh" end%string.

Definition to_bitcoinpqc (self : SignAlgorithm) : PqcAlgorithm :=
  match self with
  | SignSchnorr => SECP256K1_SCHNORR | SignMldsa => ML_DSA_44 | SignSlh => SLH_DSA_SHA2_128S
  end.

Definition sighash_label (t : TapSighashType) : string :=
  match t with
  | SighashDefault | SighashAll => "all"
  | SighashNone => "none"
  | SighashSingle => "single"
  | AllPlusAnyoneCanPay => "all,anyonecanpay"
  | NonePlusAnyoneCanPay => "none,anyonecanpay"
  | SinglePlusAnyoneCanPay => "single,anyonecanpay"
  end%string.

(** The error messages. *)
Inductive SignError :=
| EntropyNot32Bytes
| EntropyTooShort
| OutputValueExceedsPrevout (output_value prevout_value : Z)
| PubkeyNot32Bytes (size : Z)
| KeyGenerationFailed
| SighashComputationFailed
| SigningFailed
| EcEntropyNot32Bytes
| SlhEntropyTooShort
| InvalidEcEntropy
| SlhKeyGenerationFailed
| SlhPubkeyNot32Bytes (size : Z)
| SlhSigningFailed
| HybridEntropyTooShort (size : Z).

Record SignedP2mrSpend := mkSigned {
  algorithm : SignAlgorithm;
  sighash_type : TapSighashType;
  public_key : bytes;
  leaf_script : Script;
  merkle_root : Hash32;
  spend_script_pubkey : Script;
  control_block : bytes;
  sighash : Hash32;
  signature : bytes;
  spend_witness : Witness;
  funding_tx : Transaction;
  unsigned_spend_tx : Transaction;
  signed_spend_tx : Transaction
}.

Record P2mrSpendSigningResult := mkSigningResult {
  r_public_key : bytes;
  r_leaf_script : Script;
  r_merkle_root : Hash32;
  r_script_pubkey : Script;
  r_control_block : bytes;
  r_sighash : Hash32;
  r_witness_sig : bytes;
  r_witness : Witness;
  r_unsigned_spend_tx : Transaction;
  r_signed_spend_tx : Transaction
}.

Definition validate_entropy (entropy : bytes) (algorithm : SignAlgorithm) : outcome SignError unit :=
  match algorithm with
  | SignSchnorr => if negb (len entropy =? 32) then Err EntropyNot32Bytes else Ok tt
  | SignMldsa | SignSlh => if len entropy <? 128 then Err EntropyTooShort else Ok tt
  end.

Definition validate_output_value (output_value prevout_value : Z) : outcome SignError unit :=
  reject_if (prevout_value <? output_value) (OutputValueExceedsPrevout output_value prevout_value).

Definition single_leaf_control_block : bytes := [xc1].

Definition p2mr_script_pubkey (merkle_root : Hash32) : Script := x52 :: x20 :: merkle_root.

Definition append_sighash (sig : bytes) (t : TapSighashType) : bytes :=
  if bool_decide (t ≠ SighashDefault) then sig ++ [sighash_to_u8 t] else sig.

(** [outputs.iter().map(|o| o.value.to_sat()).sum()], a u64. *)
Definition sum_outputs (outputs : list TxOut) : outcome SignError Z :=
  for_each (λ o acc, expect (checked_add 64 acc (value o))) outputs 0.

(** The unsigned spend: version 2, lock time 0, sequence [MAX]. *)
Definition unsigned_tx (spend_previous_output : OutPoint) (outputs : list TxOut) : Transaction :=
  mkTransaction 2 0 [mkTxIn spend_previous_output [] 0xffffffff []] outputs.

(** [tx.input[0].witness = witness] *)
Definition set_input0_witness (tx : Transaction) (w : Witness) : outcome SignError Transaction :=
  match input tx with
  | i :: rest =>
      Ok (mkTransaction (version tx) (lock_time tx)
            (mkTxIn (previous_output i) (script_sig i) (sequence i) w :: rest) (output tx))
  | [] => Panic
  end.

Definition validate_hybrid_entropy (ec_entropy slh_entropy : bytes) : outcome SignError unit :=
  _ ← reject_if (negb (len ec_entropy =? 32)) EcEntropyNot32Bytes;
  reject_if (len slh_entropy <? 128) SlhEntropyTooShort.

Section signer.
Context `{HashLib} `{ScriptLib} `{TxLib} `{TaprootLib} `{P2mrLib} `{PqcLib} `{SignLib}.

Definition build_checksig_leaf (pubkey : bytes) : outcome SignError Script :=
  if len pubkey =? ML_DSA_44_PUBLIC_KEY_SIZE
  then Ok (OP_PUSHDATA2 :: le_bytes 2 (wrap_u 16 (len pubkey)) ++ pubkey ++ [OP_CHECKSIG])
  else
    pk32 ← ok_or (if bool_decide (len pubkey = 32) then Some pubkey else None)
             (PubkeyNot32Bytes (len pubkey));
    Ok (push_opcode (push_slice [] pk32) OP_CHECKSIG).

(** leaf_script.rs *)
Definition build_hybrid_ec_slh_leaf (ec_pk slh_pk : bytes) : Script :=
  let b := push_opcode (push_slice [] ec_pk) OP_CHECKSIG in
  let b := push_opcode (push_slice b slh_pk) OP_CHECKSIG in
  push_opcode (push_opcode b OP_BOOLAND) OP_VERIFY.

Definition single_leaf_merkle_root (leaf : Script) : outcome SignError Hash32 :=
  leaf_version ← expect (p2mr_leaf_version_from_consensus P2MR_LEAF_VERSION);
  Ok (p2mr_node_from_script leaf leaf_version).

(** [TapLeafHash::from_script(leaf, LeafVersion::from_consensus(..).expect(..))] *)
Definition spend_leaf_hash (leaf : Script) : outcome SignError Hash32 :=
  lv ← expect (leaf_version_from_consensus P2MR_LEAF_VERSION);
  Ok (tap_leaf_hash leaf lv).

Definition generate_p2mr_keypair (algorithm : SignAlgorithm) (entropy : bytes) :
    outcome SignError (bytes * bytes) :=
  _ ← validate_entropy entropy algorithm;
  ok_or (generate_keypair (to_bitcoinpqc algorithm) entropy) KeyGenerationFailed.

Definition sign_p2mr_spend_core (keypair : bytes * bytes) (t : TapSighashType) (prevout : TxOut)
    (spend_previous_output : OutPoint) (outputs : list TxOut) :
    outcome SignError P2mrSpendSigningResult :=
  total_out ← sum_outputs outputs;
  _ ← validate_output_value total_out (value prevout);
  leaf ← build_checksig_leaf keypair.1;
  root ← single_leaf_merkle_root leaf;
  let unsigned := unsigned_tx spend_previous_output outputs in
  leaf_hash ← spend_leaf_hash leaf;
  sighash ← ok_or (taproot_script_spend_signature_hash unsigned 0 (PrevoutsAll [prevout]) leaf_hash t)
              SighashComputationFailed;
  sig ← ok_or (pqc_sign keypair.2 sighash) SigningFailed;
  let witness_sig := append_sighash sig t in
  let w := [witness_sig; leaf; single_leaf_control_block] in
  signed ← set_input0_witness unsigned w;
  Ok (mkSigningResult keypair.1 leaf root (p2mr_script_pubkey root) single_leaf_control_block sighash
        witness_sig w unsigned signed).

Definition sign_p2mr_script_path_spend (algorithm : SignAlgorithm) (entropy : bytes) (t : TapSighashType)
    (prevout_value output_value : Z) : outcome SignError SignedP2mrSpend :=
  _ ← validate_output_value output_value prevout_value;
  keypair ← generate_p2mr_keypair algorithm entropy;
  leaf ← build_checksig_leaf keypair.1;
  root ← single_leaf_merkle_root leaf;
  let funding_tx := mkTransaction 2 0 [] [mkTxOut prevout_value (p2mr_script_pubkey root)] in
  prevout ← index (output funding_tx) 0;
  signed ← sign_p2mr_spend_core keypair t prevout (mkOutPoint (compute_txid funding_tx) 0)
             [mkTxOut output_value []];
  Ok (mkSigned algorithm t (r_public_key signed) (r_leaf_script signed) (r_merkle_root signed)
        (r_script_pubkey signed) (r_control_block signed) (r_sighash signed) (r_witness_sig signed)
        (r_witness signed) funding_tx (r_unsigned_spend_tx signed) (r_signed_spend_tx signed)).

Definition ec_keypair_from_entropy (ec_entropy : bytes) : outcome SignError bytes :=
  ok_or (ec_keypair_from_slice ec_entropy) InvalidEcEntropy.

Definition slh_pk32 (keypair : bytes * bytes) : outcome SignError bytes :=
  ok_or (if bool_decide (len keypair.1 = 32) then Some keypair.1 else None) (SlhPubkeyNot32Bytes (len keypair.1)).

Definition p2mr_output_for_algorithm (algorithm : SignAlgorithm) (entropy : bytes) :
    outcome SignError (Script * Script) :=
  keypair ← generate_p2mr_keypair algorithm entropy;
  leaf ← build_checksig_leaf keypair.1;
  root ← single_leaf_merkle_root leaf;
  Ok (p2mr_script_pubkey root, leaf).

Definition p2mr_output_for_hybrid_ec_slh (ec_entropy slh_entropy : bytes) :
    outcome SignError (Script * Script) :=
  _ ← validate_hybrid_entropy ec_entropy slh_entropy;
  ec_keypair ← ec_keypair_from_entropy ec_entropy;
  slh_keypair ← ok_or (generate_keypair SLH_DSA_SHA2_128S slh_entropy) SlhKeyGenerationFailed;
  slh_pk ← slh_pk32 slh_keypair;
  let leaf := build_hybrid_ec_slh_leaf (xonly_from_keypair ec_keypair) slh_pk in
  root ← single_leaf_merkle_root leaf;
  Ok (p2mr_script_pubkey root, leaf).

Definition build_p2mr_spend_from_prevout (algorithm : SignAlgorithm) (entropy : bytes) (t : TapSighashType)
    (spend_previous_output : OutPoint) (prevout : TxOut) (outputs : list TxOut) :
    outcome SignError Transaction :=
  keypair ← generate_p2mr_keypair algorithm entropy;
  signed ← sign_p2mr_spend_core keypair t prevout spend_previous_output outputs;
  Ok (r_signed_spend_tx signed).

Definition build_hybrid_ec_slh_spend_from_prevout (ec_entropy slh_entropy : bytes) (t : TapSighashType)
    (spend_previous_output : OutPoint) (prevout : TxOut) (outputs : list TxOut) :
    outcome SignError Transaction :=
  _ ← validate_hybrid_entropy ec_entropy slh_entropy;
  total_out ← sum_outputs outputs;
  _ ← validate_output_value total_out (value prevout);
  ec_keypair ← ec_keypair_from_entropy ec_entropy;
  slh_keypair ← ok_or (generate_keypair SLH_DSA_SHA2_128S slh_entropy) SlhKeyGenerationFailed;
  slh_pk ← slh_pk32 slh_keypair;
  let leaf := build_hybrid_ec_slh_leaf (xonly_from_keypair ec_keypair) slh_pk in
  leaf_hash ← spend_leaf_hash leaf;
  let unsigned := unsigned_tx spend_previous_output outputs in
  sighash ← ok_or (taproot_script_spend_signature_hash unsigned 0 (PrevoutsAll [prevout]) leaf_hash t)
              SighashComputationFailed;
  let ec_sig := sign_schnorr_no_aux_rand ec_keypair sighash in
  slh_sig ← ok_or (pqc_sign slh_keypair.2 sighash) SlhSigningFailed;
  set_input0_witness unsigned
    [append_sighash ec_sig t; append_sighash slh_sig t; leaf; single_leaf_control_block].
End signer.

(** * What signing and verification are documented to do *)

(** A key pair's sizes, and signatures that the verifiers of the validator accept;
    [Builder] writes a direct push; the sighash ignores witnesses, and for the
    ANYONECANPAY types it commits to this input's prevout only, given alone or among those
    of all inputs; the taproot crate
    refuses control blocks below 33 bytes. *)
Class SignLaws `{TaprootLib} `{P2mrLib} `{PqcLib} `{SignLib} : Prop := {
  push_slice_law s d : 0 < len d < 0x4c → push_slice s d = s ++ z2b (len d) :: d;
  push_opcode_law s o : push_opcode s o = s ++ [o];
  keypair_size a e pk sk :
    generate_keypair a e = Some (pk, sk) →
    len pk = match a with ML_DSA_44 => 1312 | _ => 32 end;
  schnorr_verifies e pk sk msg sig :
    generate_keypair SECP256K1_SCHNORR e = Some (pk, sk) → len msg = 32 → pqc_sign sk msg = Some sig →
    len sig = 64 ∧ ∃ s k, schnorr_sig_from_slice sig = Some s ∧ xonly_from_slice pk = Some k
      ∧ secp_verify_schnorr s msg k = true;
  pqc_verifies a e pk sk msg sig :
    a ≠ SECP256K1_SCHNORR →
    generate_keypair a e = Some (pk, sk) → len msg = 32 → pqc_sign sk msg = Some sig →
    len sig = match a with ML_DSA_44 => 2420 | _ => 7856 end
    ∧ ∃ s k, pqc_sig_from_slice a sig = Some s ∧ pqc_pk_from_slice a pk = Some k
      ∧ pqc_verify k msg s = true;
  ec_verifies e kp msg :
    ec_keypair_from_slice e = Some kp → len msg = 32 →
    len (xonly_from_keypair kp) = 32 ∧ len (sign_schnorr_no_aux_rand kp msg) = 64
    ∧ ∃ s k, schnorr_sig_from_slice (sign_schnorr_no_aux_rand kp msg) = Some s
      ∧ xonly_from_slice (xonly_from_keypair kp) = Some k ∧ secp_verify_schnorr s msg k = true;
  sighash_len tx i ps lh t msg :
    taproot_script_spend_signature_hash tx i ps lh t = Some msg → len msg = 32;
  sighash_ignores_witness op outputs w i ps lh t :
    taproot_script_spend_signature_hash (mkTransaction 2 0 [mkTxIn op [] 0xffffffff w] outputs) i ps lh t
    = taproot_script_spend_signature_hash (unsigned_tx op outputs) i ps lh t;
  sighash_this_prevout tx i o l lh t :
    sighash_anyonecanpay t = true → length l = length (input tx) → l !! i = Some o →
    taproot_script_spend_signature_hash tx i (PrevoutsOne i o) lh t
    = taproot_script_spend_signature_hash tx i (PrevoutsAll l) lh t;
  p2mr_control_byte : P2MR_CONTROL_BYTE = xc1;
  control_block_min cb c : control_block_decode cb = Some c → 33 ≤ len cb
}.

(** * Lemmas *)
Section lemmas.
Context `{HashLib} `{ScriptLib} `{!ScriptLaws} `{TxLib} `{TaprootLib} `{!SighashLaws} `{P2mrLib} `{!MerkleLaws}.
Context `{PqcLib} `{SignLib} `{!SignLaws}.

Lemma append_sighash_suffix sig t : append_sighash sig t = with_suffix sig t.
Proof. unfold append_sighash, with_suffix. by repeat case_bool_decide. Qed.

Lemma push_minimal_32 pk : len pk = 32 → push_minimal [] pk = push_slice [] pk.
Proof.
  intros Hl. rewrite push_slice_law, Hl by lia. unfold push_minimal, push_data. rewrite Hl.
  by destruct pk as [|b [|c pk]].
Qed.

(** The leaves are the grammar's. *)
Lemma build_checksig_leaf_Ok pk leaf :
  build_checksig_leaf pk = Ok leaf → pubkey_ok pk ∧ leaf = leaf_of [Single pk OP_CHECKSIG].
Proof.
  unfold build_checksig_leaf, leaf_of, pubkey_ok. cbn [flat_map segment_script]. rewrite app_nil_r.
  destruct (Z.eqb_spec (len pk) ML_DSA_44_PUBLIC_KEY_SIZE) as [Hl|Hl].
  - intros [= <-]. split; [by right|]. unfold push_minimal, push_data. rewrite Hl.
    destruct pk as [|b [|c pk]]; [done..|]. by rewrite <- !app_assoc.
  - case_bool_decide as Hs; [|done]. intros [= <-]. split; [by left|].
    by rewrite push_minimal_32, push_opcode_law.
Qed.

Lemma build_checksig_leaf_complete pk :
  pubkey_ok pk → build_checksig_leaf pk = Ok (leaf_of [Single pk OP_CHECKSIG]).
Proof.
  intros Hok. destruct (build_checksig_leaf pk) as [leaf|e|] eqn:Hb.
  - by apply build_checksig_leaf_Ok in Hb as [_ ->].
  - unfold build_checksig_leaf in Hb. destruct (Z.eqb_spec (len pk) ML_DSA_44_PUBLIC_KEY_SIZE); [done|].
    destruct Hok as [Hs|]; [|done]. by rewrite bool_decide_true in Hb.
  - unfold build_checksig_leaf in Hb. destruct (_ =? _); [done|]. by case_bool_decide.
Qed.

Definition hybrid_segments (ec slh : bytes) : list segment :=
  [Single ec OP_CHECKSIG; Single slh OP_CHECKSIG; Combinator OP_BOOLAND; Combinator OP_VERIFY].

Lemma build_hybrid_leaf ec slh :
  len ec = 32 → len slh = 32 → build_hybrid_ec_slh_leaf ec slh = leaf_of (hybrid_segments ec slh).
Proof.
  intros He Hs. unfold build_hybrid_ec_slh_leaf, leaf_of, hybrid_segments. cbn [flat_map segment_script].
  rewrite !push_minimal_32, !push_opcode_law, !push_slice_law by lia. by rewrite <- !app_assoc.
Qed.

(** The scheme a key of each algorithm is used under. *)
Definition scheme_of (a : PqcAlgorithm) : SignatureScheme :=
  match a with SECP256K1_SCHNORR => Schnorr | ML_DSA_44 => MlDsa44 | SLH_DSA_SHA2_128S => SlhDsaSha2128s end.

(** What the verifier of the scheme says about a raw signature. *)
Definition verifies (a : PqcAlgorithm) (raw msg pk : bytes) : Prop :=
  len raw = match a with SECP256K1_SCHNORR => 64 | ML_DSA_44 => 2420 | _ => 7856 end
  ∧ len pk = match a with ML_DSA_44 => 1312 | _ => 32 end
  ∧ ∃ s k, match a with
           | SECP256K1_SCHNORR => schnorr_sig_from_slice raw = Some s ∧ xonly_from_slice pk = Some k
                                  ∧ secp_verify_schnorr s msg k = true
           | _ => pqc_sig_from_slice a raw = Some s ∧ pqc_pk_from_slice a pk = Some k
                  ∧ pqc_verify k msg s = true
           end.

Lemma sign_verifies a e pk sk msg raw :
  generate_keypair a e = Some (pk, sk) → len msg = 32 → pqc_sign sk msg = Some raw → verifies a raw msg pk.
Proof.
  intros Hk Hm Hs. pose proof (keypair_size _ _ _ _ Hk) as Hpk. unfold verifies. destruct a.
  - destruct (schnorr_verifies _ _ _ _ _ Hk Hm Hs) as (? & s & k & ?). split_and!; [done|done|by exists s, k].
  - destruct (pqc_verifies ML_DSA_44 _ _ _ _ _ ltac:(done) Hk Hm Hs) as (? & s & k & ?). split_and!; [done|done|by exists s, k].
  - destruct (pqc_verifies SLH_DSA_SHA2_128S _ _ _ _ _ ltac:(done) Hk Hm Hs) as (? & s & k & ?). split_and!; [done|done|by exists s, k].
Qed.

(** A raw signature with its suffix is valid for its key. *)
Lemma signed_ok a pk msg raw t ctx :
  verifies a raw msg pk →
  taproot_script_spend_signature_hash (vc_tx ctx) (vc_input_index ctx) (vc_prevouts ctx)
    (vc_leaf_hash ctx) t = Some msg →
  signature_ok pk (append_sighash raw t) ctx.
Proof.
  intros (Hl & Hpk & s & k & Hv) Hm. rewrite append_sighash_suffix.
  assert (canonical_size raw = true) as Hc by (apply canonical_size_spec; rewrite Hl; destruct a; set_solver).
  destruct (suffix_roundtrip raw t Hc) as (Ht & Hstrip & Hcl).
  exists (scheme_of a), msg. rewrite Ht, Hcl. unfold Schemes.verify_schnorr, pqc_result. rewrite Hstrip, Hl.
  destruct a; (split_and!; [done|done|done|]); cbn [scheme_of]; destruct Hv as (-> & -> & Hv);
    cbn [ok_or mbind outcome_bind]; by rewrite Hv.
Qed.

Lemma len_append_sighash raw t : len (append_sighash raw t) ≤ len raw + 1.
Proof. unfold append_sighash. case_bool_decide; rewrite ?len_snoc; lia. Qed.

(** ** A signed single-leaf spend is accepted *)

Definition signed_tx (op : OutPoint) (outputs : list TxOut) (w : Witness) : Transaction :=
  mkTransaction 2 0 [mkTxIn op [] 0xffffffff w] outputs.

(** The prevouts the validator commits to. *)
Definition committed (prevout : TxOut) (t : TapSighashType) : Prevouts :=
  if sighash_anyonecanpay t then PrevoutsOne 0 prevout else PrevoutsAll [prevout].

Lemma committed_sighash op outputs w prevout lh t :
  taproot_script_spend_signature_hash (signed_tx op outputs w) 0 (committed prevout t) lh t
  = taproot_script_spend_signature_hash (unsigned_tx op outputs) 0 (PrevoutsAll [prevout]) lh t.
Proof.
  unfold committed, signed_tx. destruct (sighash_anyonecanpay t) eqn:Ht.
  - rewrite (sighash_this_prevout _ _ _ [prevout]) by done. apply sighash_ignores_witness.
  - apply sighash_ignores_witness.
Qed.

Lemma validate_p2mr_outputs_Ok tx : validate_p2mr_outputs tx = Ok tt.
Proof.
  unfold validate_p2mr_outputs. induction (output tx) as [|o l IH]; [done|]. cbn [for_each].
  destruct (is_p2mr_script (script_pubkey o)) eqn:Hs; [|exact IH].
  rewrite validate_p2mr_output_spec, Hs. exact IH.
Qed.

Lemma single_leaf_path lv leaf :
  p2mr_leaf_version_from_consensus P2MR_LEAF_VERSION = Some lv →
  verify_merkle_path leaf (p2mr_node_from_script leaf lv) single_leaf_control_block = Ok tt.
Proof.
  intros Hlv. unfold single_leaf_control_block. rewrite <- p2mr_control_byte.
  apply (verify_fold _ [] _ _ lv); [apply Forall_nil_2|apply (branch_core []); [apply Forall_nil_2|done]|done|done].
Qed.

(** A transaction with one input whose witness is an authorised spend passes. *)
Lemma single_spend_accepted op outputs sigs leaf prevout t available chain spent c :
  available !! op = Some prevout → is_p2mr_script (script_pubkey prevout) = true →
  sigs ≠ [] → parse_sighash_type (default [] (sigs !! 0%nat)) = t →
  p2mr_spend_ok (signed_tx op outputs (sigs ++ [leaf; single_leaf_control_block])) 0 prevout (committed prevout t) →
  validate_transaction_spends (signed_tx op outputs (sigs ++ [leaf; single_leaf_control_block]))
    available chain spent (mkVerify None c) = (Ok tt, mkVerify None c).
Proof.
  set (w := sigs ++ _). set (tx := signed_tx op outputs w). intros Hav Hp2mr Hne Ht Hok.
  assert (w !! 0%nat = sigs !! 0%nat ∧ w ≠ []) as [Hw Hw'] by (subst w; by destruct sigs).
  assert (prevouts_for_p2mr_input tx 0 available t = Ok (Some (committed prevout t))) as Hps.
  { unfold prevouts_for_p2mr_input, index, committed. cbn. rewrite Hav. by destruct (sighash_anyonecanpay t). }
  unfold validate_transaction_spends. rewrite validate_p2mr_outputs_Ok, (st_lift_bind _ tt) by done.
  change (enumerate (input tx)) with [(0%nat, mkTxIn op [] 0xffffffff w)]. cbn [st_for_each].
  apply st_bind_Ok. exists tt, (mkVerify None c). split; [|done].
  unfold validate_spend_input. cbn [previous_output witness]. rewrite Hav, Hp2mr, Hw, Ht. cbn [negb].
  rewrite (st_lift_bind _ tt) by (apply reject_if_Ok; by apply bool_decide_eq_false).
  rewrite (st_lift_bind _ (Some (committed prevout t))) by done.
  by apply validate_p2mr_input_spend_complete.
Qed.

(** Its leaf has no opcode for the interpreter to enforce. *)
Lemma single_spend_not_enforced op outputs sigs leaf prevouts :
  enforce_transaction (signed_tx op outputs (sigs ++ [leaf; single_leaf_control_block])) prevouts = Ok tt.
Proof.
  unfold enforce_transaction. cbn [input signed_tx enumerate imap for_each].
  assert (detect_enforced_leaf (sigs ++ [leaf; single_leaf_control_block]) = Ok None) as Hd.
  { unfold detect_enforced_leaf. change [leaf; single_leaf_control_block] with ([leaf] ++ [single_leaf_control_block]).
    rewrite (app_assoc sigs), !len_snoc, vec_pop_snoc. pose proof (len_nonneg sigs).
    rewrite (proj2 (Z.ltb_ge _ _)) by lia. rewrite bool_decide_false by done.
    rewrite !len_snoc, (proj2 (Z.ltb_ge _ _)) by lia. rewrite vec_pop_snoc. cbn [expect mbind outcome_bind].
    rewrite vec_pop_snoc. cbn [expect mbind outcome_bind].
    destruct (control_block_decode single_leaf_control_block) as [cb|] eqn:Hc; [|done].
    apply control_block_min in Hc. done. }
  unfold enforce_input at 1. cbn [witness]. rewrite Hd. reflexivity.
Qed.

(** What makes a spend of a single leaf authorised: its sites are signed. *)
Lemma single_leaf_spend_ok op outputs sigs segs lv plv prevout t :
  Forall segment_ok segs → flat_map segment_sites segs ≠ [] →
  len (leaf_of segs) ≤ MAX_P2MR_LEAF_SCRIPT_SIZE →
  p2mr_leaf_version_from_consensus P2MR_LEAF_VERSION = Some plv →
  leaf_version_from_consensus P2MR_LEAF_VERSION = Some lv →
  script_pubkey prevout = p2mr_script_pubkey (p2mr_node_from_script (leaf_of segs) plv) →
  len sigs ≤ 98 → sig_weight sigs ≤ MAX_PQC_SIG_WU_PER_INPUT →
  let tx := signed_tx op outputs (sigs ++ [leaf_of segs; single_leaf_control_block]) in
  Forall2 (λ site sig, signature_ok (pubkey site) sig
             (mkVerifyContext tx 0 (committed prevout t) (tap_leaf_hash (leaf_of segs) lv)))
    (flat_map segment_sites segs) sigs →
  p2mr_spend_ok tx 0 prevout (committed prevout t).
Proof.
  intros Hsegs Hne Hlen Hplv Hlv Hspk Hn Hwu tx Hsigs. constructor.
  exists (mkTxIn op [] 0xffffffff (sigs ++ [leaf_of segs; single_leaf_control_block])), sigs, (leaf_of segs),
    single_leaf_control_block, (p2mr_node_from_script (leaf_of segs) plv), (mkParsed (flat_map segment_sites segs)), lv.
  split_and!; [done|done| | |done|done| |by apply single_leaf_path|by apply parse_leaf_of|done|done].
  - intros ->. apply Forall2_nil_inv_r in Hsigs. done.
  - cbn [witness]. rewrite len_app. change (len [_; _]) with 2. unfold MAX_P2MR_WITNESS_STACK. lia.
  - unfold len. by rewrite node_script_len.
Qed.

(** Signed sites make the transaction pass every check of the validator. *)
Lemma signed_leaf_accepted op outputs sigs segs lv plv prevout t available :
  Forall segment_ok segs → flat_map segment_sites segs ≠ [] →
  len (leaf_of segs) ≤ MAX_P2MR_LEAF_SCRIPT_SIZE →
  p2mr_leaf_version_from_consensus P2MR_LEAF_VERSION = Some plv →
  leaf_version_from_consensus P2MR_LEAF_VERSION = Some lv →
  script_pubkey prevout = p2mr_script_pubkey (p2mr_node_from_script (leaf_of segs) plv) →
  len sigs ≤ 98 → sig_weight sigs ≤ MAX_PQC_SIG_WU_PER_INPUT → sigs ≠ [] →
  parse_sighash_type (default [] (sigs !! 0%nat)) = t → available !! op = Some prevout →
  let tx := signed_tx op outputs (sigs ++ [leaf_of segs; single_leaf_control_block]) in
  Forall2 (λ site sig, signature_ok (pubkey site) sig
             (mkVerifyContext tx 0 (committed prevout t) (tap_leaf_hash (leaf_of segs) lv)))
    (flat_map segment_sites segs) sigs →
  ∀ height activation chain spent c,
    validate_transaction tx height activation available chain spent (mkVerify None c)
    = (Ok tt, mkVerify None c).
Proof.
  intros Hsegs Hne Hlen Hplv Hlv Hspk Hn Hwu Hsne Ht Hav tx Hsigs height activation chain spent c.
  unfold validate_transaction. destruct (negb _); [done|].
  unfold mbind, st_bind, st_map_err. subst tx. rewrite (single_spend_accepted _ _ _ _ prevout t).
  - cbn [map_err]. unfold st_lift. by rewrite single_spend_not_enforced.
  - done.
  - rewrite Hspk. apply is_p2mr_script_spec. eexists. split; [done|]. unfold len. by rewrite node_script_len.
  - done.
  - done.
  - by eapply single_leaf_spend_ok.
Qed.

Lemma len_checksig_segment pk : pubkey_ok pk → len (segment_script (Single pk OP_CHECKSIG)) ≤ 1316.
Proof.
  unfold pubkey_ok, SLH_DSA_PUBLIC_KEY_SIZE, ML_DSA_44_PUBLIC_KEY_SIZE. intros Hl. cbn [segment_script].
  rewrite len_snoc. assert (push_minimal [] pk = push_data [] pk) as ->.
  { destruct pk as [|b [|c pk]]; [done| |done]. change (len [b]) with 1 in Hl. lia. }
  unfold push_data. rewrite len_app.
  assert (∀ n z, len (le_bytes n z) = Z.of_nat n) as Hle by (intros n z; unfold len; by rewrite length_le_bytes).
  repeat case_match; rewrite ?len_app, ?Hle, ?len_cons, ?len_nil; lia.
Qed.

Lemma verifies_canonical a raw msg pk : verifies a raw msg pk → canonical_size raw = true.
Proof. intros (Hl & _). apply canonical_size_spec. rewrite Hl. destruct a; set_solver. Qed.

Lemma verifies_len a raw msg pk : verifies a raw msg pk → len raw ≤ 7856.
Proof. intros (Hl & _). rewrite Hl. by destruct a. Qed.

Lemma append_sighash_type raw t : canonical_size raw = true → parse_sighash_type (append_sighash raw t) = t.
Proof. intros Hc. rewrite append_sighash_suffix. by destruct (suffix_roundtrip raw t Hc) as (? & _). Qed.

Lemma checksig_segment_ok pk : pubkey_ok pk → segment_ok (Single pk OP_CHECKSIG).
Proof. intros Hpk. split; [done|]. by left. Qed.

Lemma ec_sign_verifies e kp msg :
  ec_keypair_from_slice e = Some kp → len msg = 32 →
  verifies SECP256K1_SCHNORR (sign_schnorr_no_aux_rand kp msg) msg (xonly_from_keypair kp).
Proof. intros He Hm. destruct (ec_verifies e kp msg He Hm) as (? & ? & s & k & ?). split_and!; [done|done|by exists s, k]. Qed.

Lemma hybrid_segments_ok ec slh : pubkey_ok ec → pubkey_ok slh → Forall segment_ok (hybrid_segments ec slh).
Proof.
  intros He Hs. unfold hybrid_segments. rewrite !Forall_cons, Forall_nil.
  split_and!; [by apply checksig_segment_ok|by apply checksig_segment_ok|by left|by right; left|done].
Qed.

Lemma len_hybrid_leaf ec slh : pubkey_ok ec → pubkey_ok slh → len (leaf_of (hybrid_segments ec slh)) ≤ 2634.
Proof.
  intros He%len_checksig_segment Hs%len_checksig_segment. unfold leaf_of, hybrid_segments.
  cbn [flat_map]. rewrite !len_app. cbn [segment_script] in *. rewrite !len_cons, !len_nil. lia.
Qed.

Lemma sum_outputs_Ok outputs acc total :
  for_each (λ o acc, expect (E := SignError) (checked_add 64 acc (value o))) outputs acc = Ok total →
  total = acc + foldr Z.add 0 (map value outputs).
Proof.
  revert acc. induction outputs as [|o outputs IH]; intros acc; cbn; [intros [= ->]; lia|].
  destruct (checked_add 64 acc (value o)) as [a|] eqn:Ha; cbn; [|done]. intros ->%IH.
  unfold checked_add in Ha. destruct (_ <? _); [|done]. injection Ha as <-. lia.
Qed.

Lemma validate_output_value_Ok a b : validate_output_value a b = Ok tt → a ≤ b.
Proof. unfold validate_output_value. intros Hr%reject_if_Ok. lia. Qed.
End lemmas.

(** The total value of some outputs. *)
Definition total_value (outputs : list TxOut) : Z := foldr Z.add 0 (map value outputs).

Section core.
Context `{HashLib} `{ScriptLib} `{!ScriptLaws} `{TxLib} `{TaprootLib} `{!SighashLaws} `{P2mrLib} `{!MerkleLaws}.
Context `{PqcLib} `{SignLib} `{!SignLaws}.

(** The common core: a spend of the script the same key gives. *)
Lemma sign_core_accepted a e keypair t prevout op outputs r available :
  generate_keypair a e = Some keypair →
  sign_p2mr_spend_core keypair t prevout op outputs = Ok r →
  script_pubkey prevout = r_script_pubkey r → available !! op = Some prevout →
  let tx := r_signed_spend_tx r in
  map previous_output (input tx) = [op] ∧ output tx = outputs ∧ total_value outputs ≤ value prevout
  ∧ ∀ height activation chain spent c,
      validate_transaction tx height activation available chain spent (mkVerify None c)
      = (Ok tt, mkVerify None c).
Proof.
  destruct keypair as [pk sk]. unfold sign_p2mr_spend_core, single_leaf_merkle_root, spend_leaf_hash.
  intros Hkey Hb Hspk Hav. okinv. cbn [fst snd r_script_pubkey r_signed_spend_tx] in *.
  repeat match goal with Hl : build_checksig_leaf pk = Ok _ |- _ => apply build_checksig_leaf_Ok in Hl as [? ->] end.
  rename select (sum_outputs outputs = _) into Hsum. apply sum_outputs_Ok in Hsum.
  rename select (validate_output_value _ _ = _) into Hval. apply validate_output_value_Ok in Hval.
  match goal with Hs : pqc_sign sk ?m = Some ?s, Hm : taproot_script_spend_signature_hash _ _ _ _ _ = Some ?m |- _ =>
    rename m into msg; rename s into raw;
    pose proof (sign_verifies _ _ _ _ _ _ Hkey (sighash_len _ _ _ _ _ _ Hm) Hs) as Hver end.
  split_and!; [done|done|unfold total_value; lia|]. intros height activation chain spent c.
  eapply (signed_leaf_accepted op outputs [append_sighash raw t] [Single pk OP_CHECKSIG] _ _ prevout t available);
    try done.
  - by apply Forall_singleton, checksig_segment_ok.
  - cbn [leaf_of flat_map]. rewrite app_nil_r. unfold MAX_P2MR_LEAF_SCRIPT_SIZE.
    pose proof (len_checksig_segment pk ltac:(done)). lia.
  - cbn. unfold MAX_PQC_SIG_WU_PER_INPUT. pose proof (len_append_sighash raw t).
    pose proof (verifies_len _ _ _ _ Hver). lia.
  - by eapply append_sighash_type, verifies_canonical.
  - constructor; [|constructor]. eapply signed_ok; [exact Hver|]. cbn [vc_tx vc_input_index vc_prevouts vc_leaf_hash].
    by rewrite committed_sighash.
Qed.

(** The script of a key is the one the core signs for. *)
Lemma sign_core_script keypair t prevout op outputs r leaf root :
  sign_p2mr_spend_core keypair t prevout op outputs = Ok r →
  build_checksig_leaf keypair.1 = Ok leaf → single_leaf_merkle_root leaf = Ok root →
  r_script_pubkey r = p2mr_script_pubkey root.
Proof.
  unfold sign_p2mr_spend_core. intros Hb Hl Hr. rewrite Hl in Hb. okinv. cbn [r_script_pubkey] in *. congruence.
Qed.

(** The harness entry point: its spend of its own funding transaction passes. *)
Lemma sign_p2mr_script_path_spend_accepted algorithm entropy t pv ov r :
  sign_p2mr_script_path_spend algorithm entropy t pv ov = Ok r →
  let op := mkOutPoint (compute_txid (funding_tx r)) 0 in
  ∃ prevout, output (funding_tx r) = [prevout] ∧ value prevout = pv ∧ ov ≤ pv
    ∧ ∀ height activation chain spent c,
        validate_transaction (signed_spend_tx r) height activation {[ op := prevout ]} chain spent (mkVerify None c)
        = (Ok tt, mkVerify None c).
Proof.
  unfold sign_p2mr_script_path_spend, generate_p2mr_keypair. intros Hs.
  apply bind_Ok in Hs as ([] & Hval & Hs). apply bind_Ok in Hs as (keypair & Hkey & Hs).
  apply bind_Ok in Hkey as ([] & _ & Hkey%ok_or_Ok). apply bind_Ok in Hs as (leaf & Hleaf & Hs).
  apply bind_Ok in Hs as (root & Hroot & Hs). apply bind_Ok in Hs as (prevout & [= <-] & Hs).
  apply bind_Ok in Hs as (signed & Hcore & [= <-]).
  cbn [funding_tx output signed_spend_tx]. eexists. split_and!; [done|done|by apply validate_output_value_Ok|].
  eapply sign_core_accepted; [done|exact Hcore| |by rewrite lookup_singleton_eq].
  symmetry. by eapply sign_core_script.
Qed.
(** A spend of the script a key gives, signed by that key. *)
Lemma algorithm_spend_accepted algorithm entropy t op prevout outputs leaf tx available :
  p2mr_output_for_algorithm algorithm entropy = Ok (script_pubkey prevout, leaf) →
  build_p2mr_spend_from_prevout algorithm entropy t op prevout outputs = Ok tx →
  available !! op = Some prevout →
  map previous_output (input tx) = [op] ∧ output tx = outputs ∧ total_value outputs ≤ value prevout
  ∧ ∀ height activation chain spent c,
      validate_transaction tx height activation available chain spent (mkVerify None c)
      = (Ok tt, mkVerify None c).
Proof.
  unfold p2mr_output_for_algorithm, build_p2mr_spend_from_prevout. intros Hout Hb Hav.
  apply bind_Ok in Hb as (keypair & Hkey & Hb). rewrite Hkey in Hout.
  apply bind_Ok in Hkey as ([] & _ & Hkey%ok_or_Ok). apply bind_Ok in Hb as (signed & Hcore & [= <-]).
  apply bind_Ok in Hout as (? & [= <-] & Hout). apply bind_Ok in Hout as (l & Hleaf & Hout).
  apply bind_Ok in Hout as (root & Hroot & Hout). injection Hout as Hspk _.
  eapply sign_core_accepted; [done|exact Hcore| |done].
  rewrite <- Hspk. symmetry. by eapply sign_core_script.
Qed.

(** So for the hybrid scheme: both the Schnorr and the SLH-DSA signature verify at
    their sites of the hybrid leaf. *)
Lemma hybrid_spend_accepted ec_entropy slh_entropy t op prevout outputs leaf tx available :
  p2mr_output_for_hybrid_ec_slh ec_entropy slh_entropy = Ok (script_pubkey prevout, leaf) →
  build_hybrid_ec_slh_spend_from_prevout ec_entropy slh_entropy t op prevout outputs = Ok tx →
  available !! op = Some prevout →
  map previous_output (input tx) = [op] ∧ output tx = outputs ∧ total_value outputs ≤ value prevout
  ∧ ∀ height activation chain spent c,
      validate_transaction tx height activation available chain spent (mkVerify None c)
      = (Ok tt, mkVerify None c).
Proof.
  unfold p2mr_output_for_hybrid_ec_slh, build_hybrid_ec_slh_spend_from_prevout, ec_keypair_from_entropy, slh_pk32,
    single_leaf_merkle_root, spend_leaf_hash.
  intros Hout Hb Hav. okinv.
  match goal with Hk : generate_keypair _ _ = Some ?kp |- _ => destruct kp as [pk sk]; rename Hk into Hkey end.
  cbn [fst snd] in *.
  rename select (sum_outputs outputs = _) into Hsum. apply sum_outputs_Ok in Hsum.
  rename select (validate_output_value _ _ = _) into Hval. apply validate_output_value_Ok in Hval.
  match goal with Hp : (if bool_decide (len pk = 32) then _ else _) = Some ?p |- _ =>
    case_bool_decide as Hpk; [injection Hp as <-|done] end.
  match goal with Hs : pqc_sign sk ?m = Some ?s, Hm : taproot_script_spend_signature_hash _ _ _ _ _ = Some ?m |- _ =>
    rename m into msg; rename s into raw; pose proof (sighash_len _ _ _ _ _ _ Hm) as Hlen;
    pose proof (sign_verifies _ _ _ _ _ _ Hkey Hlen Hs) as Hver end.
  match goal with He : ec_keypair_from_slice _ = Some ?k |- _ =>
    rename k into kp; pose proof (ec_sign_verifies _ _ msg He Hlen) as Hec end.
  pose proof (proj1 (proj2 Hec)) as Hecpk. cbn in Hecpk.
  rewrite build_hybrid_leaf in * by done.
  match goal with Hs : set_input0_witness _ _ = Ok tx |- _ => injection Hs as <- end.
  split_and!; [done|done|unfold total_value; lia|].
  intros height activation chain spent c.
  eapply (signed_leaf_accepted op outputs [append_sighash (sign_schnorr_no_aux_rand kp msg) t; append_sighash raw t]
            (hybrid_segments (xonly_from_keypair kp) pk) _ _ prevout t available); try done.
  - apply hybrid_segments_ok; by left.
  - etransitivity; [apply len_hybrid_leaf; by left|done].
  - cbn. unfold MAX_PQC_SIG_WU_PER_INPUT. pose proof (len_append_sighash raw t).
    pose proof (len_append_sighash (sign_schnorr_no_aux_rand kp msg) t).
    pose proof (verifies_len _ _ _ _ Hver). destruct Hec as [Hl _]. cbn in Hl. lia.
  - by eapply append_sighash_type, verifies_canonical.
  - repeat constructor; (eapply signed_ok; [eassumption|]);
      cbn [vc_tx vc_input_index vc_prevouts vc_leaf_hash]; by rewrite committed_sighash.
Qed.
End core.

(** * Properties *)

(** C12: the validator accepts what the wallet signs: a spend built by
    [build_p2mr_spend_from_prevout] of an output with the script that
    [p2mr_output_for_algorithm] builds from the same entropy, for any algorithm
    and sighash type, passes transaction validation (P2MR and tapscript rules) at
    every height and on every chain where the spent output is the one signed for;
    it pays the requested outputs, which are worth no more than that output. *)
Theorem signed_spend_accepted
    `{HashLib} `{ScriptLib} `{!ScriptLaws} `{TxLib} `{TaprootLib} `{!SighashLaws} `{P2mrLib} `{!MerkleLaws}
    `{PqcLib} `{SignLib} `{!SignLaws} algorithm entropy t op prevout outputs leaf tx available :
  p2mr_output_for_algorithm algorithm entropy = Ok (script_pubkey prevout, leaf) →
  build_p2mr_spend_from_prevout algorithm entropy t op prevout outputs = Ok tx →
  available !! op = Some prevout →
  map previous_output (input tx) = [op] ∧ output tx = outputs ∧ total_value outputs ≤ value prevout
  ∧ ∀ height activation chain spent c,
      validate_transaction tx height activation available chain spent (mkVerify None c)
      = (Ok tt, mkVerify None c).
Proof. apply algorithm_spend_accepted. Qed.

(** * Witnesses

    Toy keys: the public key pads the entropy, the secret key is the algorithm's
    number and the public key. *)
Definition toy_pk (a : PqcAlgorithm) (e : bytes) : bytes :=
  toy_digest (match a with ML_DSA_44 => 1312 | _ => 32 end) e.
Definition toy_sign : SignLib := {|
  generate_keypair a e :=
    Some (toy_pk a e,
          match a with SECP256K1_SCHNORR => x00 | ML_DSA_44 => x01 | SLH_DSA_SHA2_128S => x02 end :: toy_pk a e);
  pqc_sign sk msg :=
    match sk with
    | x00 :: pk => Some (pk ++ msg)
    | x01 :: _ => Some (toy_digest 2420 msg)
    | x02 :: _ => Some (toy_digest 7856 msg)
    | _ => None
    end;
  ec_keypair_from_slice e := Some (toy_digest 32 e);
  xonly_from_keypair kp := toy_digest 32 kp;
  sign_schnorr_no_aux_rand kp msg := toy_digest 32 kp ++ msg;
  push_slice s d := s ++ z2b (len d) :: d;
  push_opcode s o := s ++ [o]
|}.

Lemma take_toy_digest n m : len m = 32 → (32 ≤ n)%nat → take 32 (toy_digest n m) = m.
Proof.
  intros Hm Hn. unfold toy_digest. rewrite take_take, Nat.min_l by done.
  apply take_app_length'. unfold len in Hm. lia.
Qed.

Lemma toy_pqc_verifies (a : PqcAlgorithm) e pk sk msg sig :
  a ≠ SECP256K1_SCHNORR → @generate_keypair toy_sign a e = Some (pk, sk) → len msg = 32 →
  @pqc_sign toy_sign sk msg = Some sig →
  len sig = match a with ML_DSA_44 => 2420 | _ => 7856 end
  ∧ ∃ s k, @pqc_sig_from_slice toy_pqc a sig = Some s ∧ @pqc_pk_from_slice toy_pqc a pk = Some k
      ∧ @pqc_verify toy_pqc k msg s = true.
Proof.
  intros Ha. cbn [generate_keypair toy_sign]. intros [= <- <-] Hm Hs.
  assert (∀ n, (32 ≤ n)%nat → sig = toy_digest n msg →
    len (toy_pk a e) = toy_pk_len a → Z.of_nat n = toy_sig_len a →
    len sig = toy_sig_len a ∧ ∃ s k, @pqc_sig_from_slice toy_pqc a sig = Some s
      ∧ @pqc_pk_from_slice toy_pqc a (toy_pk a e) = Some k ∧ @pqc_verify toy_pqc k msg s = true) as Hcase.
  { intros n Hn -> Hpk Hl. split; [by rewrite len_toy_digest|]. exists (toy_digest n msg), (toy_pk a e).
    cbn [pqc_sig_from_slice pqc_pk_from_slice pqc_verify toy_pqc].
    rewrite len_toy_digest, Hpk, !bool_decide_true by (done || by rewrite take_toy_digest). done. }
  destruct a; [done| |]; cbn [pqc_sign toy_sign] in Hs; injection Hs as <-.
  - apply (Hcase 2420%nat); [apply Nat.leb_le; vm_compute; reflexivity|done|apply len_toy_digest|vm_compute; reflexivity].
  - apply (Hcase 7856%nat); [apply Nat.leb_le; vm_compute; reflexivity|done|apply len_toy_digest|vm_compute; reflexivity].
Qed.

Lemma toy_schnorr_verifies pk msg :
  len pk = 32 → len msg = 32 →
  len (pk ++ msg) = 64 ∧ ∃ s k, @schnorr_sig_from_slice toy_taproot (pk ++ msg) = Some s
    ∧ @xonly_from_slice toy_taproot pk = Some k ∧ @secp_verify_schnorr toy_taproot s msg k = true.
Proof.
  intros Hp Hm. assert (len (pk ++ msg) = 64) as Hl by (rewrite len_app; lia). split; [done|].
  exists (pk ++ msg), pk. cbn [schnorr_sig_from_slice xonly_from_slice secp_verify_schnorr toy_taproot].
  by rewrite !bool_decide_true.
Qed.

Lemma toy_sign_laws : @SignLaws toy_taproot toy_p2mr toy_pqc toy_sign.
Proof.
  split.
  - done.
  - done.
  - intros a e pk sk [= <- <-]. destruct a; apply len_toy_digest.
  - intros e pk sk msg sig [= <- <-] Hm [= <-]. apply toy_schnorr_verifies; [apply len_toy_digest|done].
  - exact toy_pqc_verifies.
  - intros e kp msg [= <-] Hm. split; [apply len_toy_digest|].
    apply toy_schnorr_verifies; [apply len_toy_digest|done].
  - intros tx i ps lh t msg. cbn -[toy_digest]. destruct (_ && _); [|done]. intros [= <-].
    apply (len_toy_digest 32).
  - done.
  - intros tx i o l lh t Ht _. cbn. by destruct t; rewrite ?orb_true_r.
  - done.
  - intros cb c. destruct cb as [|v r]; [done|]. cbn. destruct (_ && _) eqn:Hc; [|done]. intros _.
    apply andb_true_iff in Hc as [_ Hc]. apply bool_decide_eq_true in Hc. rewrite len_cons. lia.
Qed.

Definition ex_entropy : bytes := replicate 128 x07.
Definition ex_mldsa_output : Script :=
  match @p2mr_output_for_algorithm toy_p2mr toy_sign SignMldsa ex_entropy with Ok (spk, _) => spk | _ => [] end.
Definition ex_pay : list TxOut := [mkTxOut 400 (x51 :: x20 :: replicate 32 x05)].
Definition ex_sign_op : OutPoint := mkOutPoint all_zeros 1.

Lemma signed_spend_accepted_witness :
  ∃ tx, @build_p2mr_spend_from_prevout toy_taproot toy_p2mr toy_sign SignMldsa ex_entropy SighashSingle
          ex_sign_op (mkTxOut 500 ex_mldsa_output) ex_pay = Ok tx
    ∧ ∀ c, @validate_transaction toy_hash toy_script toy_tx toy_taproot toy_p2mr toy_pqc tx 10
             (mkBip360Activation 5) {[ ex_sign_op := mkTxOut 500 ex_mldsa_output ]} None None (mkVerify None c)
           = (Ok tt, mkVerify None c).
Proof.
  destruct (@build_p2mr_spend_from_prevout toy_taproot toy_p2mr toy_sign SignMldsa ex_entropy SighashSingle
              ex_sign_op (mkTxOut 500 ex_mldsa_output) ex_pay) as [tx|e|] eqn:Hb;
    [|vm_compute in Hb; discriminate|vm_compute in Hb; discriminate].
  exists tx. split; [done|]. intros c.
  assert (∃ leaf, @p2mr_output_for_algorithm toy_p2mr toy_sign SignMldsa ex_entropy
                  = Ok (ex_mldsa_output, leaf)) as [leaf Hl] by (eexists; vm_compute; reflexivity).
  apply (@signed_spend_accepted toy_hash toy_script toy_script_laws toy_tx toy_taproot toy_sighash_laws
           toy_p2mr toy_merkle_laws toy_pqc toy_sign toy_sign_laws SignMldsa ex_entropy SighashSingle ex_sign_op
           (mkTxOut 500 ex_mldsa_output) ex_pay leaf tx _ Hl Hb).
  by rewrite lookup_singleton_eq.
Defined.

Definition ex_hybrid_output : Script :=
  match @p2mr_output_for_hybrid_ec_slh toy_p2mr toy_sign (replicate 32 x09) ex_entropy with
  | Ok (spk, _) => spk | _ => [] end.

Lemma hybrid_spend_accepted_witness :
  ∃ tx, @build_hybrid_ec_slh_spend_from_prevout toy_taproot toy_p2mr toy_sign (replicate 32 x09) ex_entropy
          AllPlusAnyoneCanPay ex_sign_op (mkTxOut 500 ex_hybrid_output) ex_pay = Ok tx
    ∧ ∀ c, @validate_transaction toy_hash toy_script toy_tx toy_taproot toy_p2mr toy_pqc tx 10
             (mkBip360Activation 5) {[ ex_sign_op := mkTxOut 500 ex_hybrid_output ]} None None (mkVerify None c)
           = (Ok tt, mkVerify None c).
Proof.
  destruct (@build_hybrid_ec_slh_spend_from_prevout toy_taproot toy_p2mr toy_sign (replicate 32 x09) ex_entropy
              AllPlusAnyoneCanPay ex_sign_op (mkTxOut 500 ex_hybrid_output) ex_pay) as [tx|e|] eqn:Hb;
    [|vm_compute in Hb; discriminate|vm_compute in Hb; discriminate].
  exists tx. split; [done|]. intros c.
  assert (∃ leaf, @p2mr_output_for_hybrid_ec_slh toy_p2mr toy_sign (replicate 32 x09) ex_entropy
                  = Ok (ex_hybrid_output, leaf)) as [leaf Hl] by (eexists; vm_compute; reflexivity).
  apply (@hybrid_spend_accepted toy_hash toy_script toy_script_laws toy_tx toy_taproot toy_sighash_laws
           toy_p2mr toy_merkle_laws toy_pqc toy_sign toy_sign_laws (replicate 32 x09) ex_entropy AllPlusAnyoneCanPay
           ex_sign_op (mkTxOut 500 ex_hybrid_output) ex_pay leaf tx _ Hl Hb).
  by rewrite lookup_singleton_eq.
Defined.
