(* ===== verification/P2mrStore.v ===== *)
(** The wallet's store of P2MR keys (`wallet/p2mr_store.rs`): one JSON file, read
    and rewritten as a whole, and the theorem that an address it created can be
    spent.

    The file system is the content of `p2mr.json` and of its temporary file; the
    mutex of the store serialises its operations.  JSON (de)serialization and
    address rendering are third-party: the class [StoreLib]. *)
From Stdlib Require Import ZArith Lia Strings.Byte Strings.String.
From stdpp Require Import base list gmap.
From S2P Require Import Prelude Bitcoin Concrete Limits P2mrOutput Merkle Encoding LeafScript.
From S2P Require Import Schemes Spend Pqc Signer.
#[local] Open Scope Z_scope.

Definition CURRENT_VERSION : Z := 1.
Definition EC_ENTROPY_LEN : nat := 32.
Definition PQC_ENTROPY_LEN : nat := 128.

Inductive P2mrScheme := SchemeSchnorr | SchemeMldsa | SchemeSlh | HybridEcSlh.

Definition scheme_label (self : P2mrScheme) : string :=
  match self with
  | SchemeSchnorr => "schnorr" | SchemeMldsa => "mldsa" | SchemeSlh => "slh" | HybridEcSlh => "hybrid_ec_slh"
  end%string.

Definition from_label (s : string) : option P2mrScheme :=
  if String.eqb s "schnorr" then Some SchemeSchnorr else
  if String.eqb s "mldsa" || String.eqb s "ml-dsa" || String.eqb s "ml_dsa" then Some SchemeMldsa else
  if String.eqb s "slh" || String.eqb s "slh-dsa" || String.eqb s "slh_dsa" then Some SchemeSlh else
  if String.eqb s "hybrid_ec_slh" || String.eqb s "hybrid" then Some HybridEcSlh else
  None.

Record P2mrAddressRecord := mkAddressRecord {
  rec_scheme : P2mrScheme;
  rec_entropy : bytes;
  rec_leaf_script : bytes;
  rec_merkle_root : bytes;
  rec_script_pubkey : bytes
}.
Record P2mrFile := mkP2mrFile { file_version : Z; addresses : list P2mrAddressRecord }.

Inductive P2mrStoreError :=
| StoreAddress | StoreBuildOutput (e : SignError) | StoreDeserialize | StoreEntropy
| StoreRead | StoreSerialize | StoreWrite.

(** [serde_json] and [Address::from_script]. *)
Class StoreLib := {
  to_json : P2mrFile → option bytes;
  from_json : bytes → option P2mrFile;
  address_from_script : Script → Network → option bytes
}.

(** What is on disk: the store's file and `p2mr.json.tmp`. *)
Record store_fs := mkFs { p2mr_json : option bytes; p2mr_tmp : option bytes }.

(** Where the system calls of [write_file] fail, if one does; [WriteFault n] after
    [n] bytes. *)
Inductive write_fault :=
| CreateFault | PermissionsFault | WriteFault (n : nat) | SyncFault | RenameFault | NoFault.

Definition split_ec_pqc (entropy : bytes) : outcome SignError (bytes * bytes) :=
  _ ← reject_if (bool_decide (length entropy < EC_ENTROPY_LEN + PQC_ENTROPY_LEN)%nat)
        (HybridEntropyTooShort (len entropy));
  Ok (take EC_ENTROPY_LEN entropy, drop EC_ENTROPY_LEN entropy).

(** [rng n] is what the system's generator fills a buffer of [n] bytes with. *)
Definition random_entropy (rng : nat → option bytes) (scheme : P2mrScheme) : outcome P2mrStoreError bytes :=
  let n := match scheme with
           | SchemeSchnorr => EC_ENTROPY_LEN
           | SchemeMldsa | SchemeSlh => PQC_ENTROPY_LEN
           | HybridEcSlh => (EC_ENTROPY_LEN + PQC_ENTROPY_LEN)%nat
           end in
  ok_or (rng n) StoreEntropy.

Section store.
Context `{HashLib} `{ScriptLib} `{TxLib} `{TaprootLib} `{P2mrLib} `{PqcLib} `{SignLib} `{StoreLib}.

Definition address (self : P2mrAddressRecord) (network : Network) : outcome P2mrStoreError bytes :=
  ok_or (address_from_script (rec_script_pubkey self) network) StoreAddress.

Definition build_spend (self : P2mrAddressRecord) (outpoint : OutPoint) (prevout : TxOut) (outputs : list TxOut)
    (t : TapSighashType) : outcome P2mrStoreError Transaction :=
  let e := rec_entropy self in
  match rec_scheme self with
  | SchemeSchnorr =>
      map_err StoreBuildOutput (build_p2mr_spend_from_prevout SignSchnorr e t outpoint prevout outputs)
  | SchemeMldsa =>
      map_err StoreBuildOutput (build_p2mr_spend_from_prevout SignMldsa e t outpoint prevout outputs)
  | SchemeSlh =>
      map_err StoreBuildOutput (build_p2mr_spend_from_prevout SignSlh e t outpoint prevout outputs)
  | HybridEcSlh =>
      '(ec, slh) ← map_err StoreBuildOutput (split_ec_pqc e);
      map_err StoreBuildOutput
        (build_hybrid_ec_slh_spend_from_prevout ec slh t outpoint prevout outputs)
  end.

(** The output and leaf of a key: the match in the closure [mk_output]. *)
Definition scheme_output (scheme : P2mrScheme) (entropy : bytes) : outcome SignError (Script * Script) :=
  match scheme with
  | SchemeSchnorr => p2mr_output_for_algorithm SignSchnorr entropy
  | SchemeMldsa => p2mr_output_for_algorithm SignMldsa entropy
  | SchemeSlh => p2mr_output_for_algorithm SignSlh entropy
  | HybridEcSlh =>
      '(ec, slh) ← split_ec_pqc entropy;
      p2mr_output_for_hybrid_ec_slh ec slh
  end.

Definition mk_output (scheme : P2mrScheme) (entropy : bytes) : outcome SignError (Script * Script * bytes) :=
  '(spk, leaf) ← scheme_output scheme entropy;
  root ← (if bool_decide (2 ≤ length spk)%nat then Ok (drop 2 spk) else Panic);
  Ok (spk, leaf, root).

Definition build_record (rng : nat → option bytes) (scheme : P2mrScheme) :
    outcome P2mrStoreError P2mrAddressRecord :=
  entropy ← random_entropy rng scheme;
  '(spk, leaf, root) ← map_err StoreBuildOutput (mk_output scheme entropy);
  Ok (mkAddressRecord scheme entropy leaf root spk).

(** [readable]: the read fails for no other reason than a missing file. *)
Definition read_file (readable : bool) (fs : store_fs) : outcome P2mrStoreError P2mrFile :=
  match p2mr_json fs with
  | None => Ok (mkP2mrFile CURRENT_VERSION [])
  | Some contents =>
      _ ← reject_if (negb readable) StoreRead;
      ok_or (from_json contents) StoreDeserialize
  end.

Definition write_file (fault : write_fault) (f : P2mrFile) : st store_fs P2mrStoreError unit := λ fs,
  match to_json f with
  | None => (Err StoreSerialize, fs)
  | Some json =>
      let created := mkFs (p2mr_json fs) (Some []) in
      let written := mkFs (p2mr_json fs) (Some json) in
      match fault with
      | CreateFault => (Err StoreWrite, fs)
      | PermissionsFault => (Err StoreWrite, created)
      | WriteFault n => (Err StoreWrite, mkFs (p2mr_json fs) (Some (take n json)))
      | SyncFault | RenameFault => (Err StoreWrite, written)
      | NoFault => (Ok tt, mkFs (Some json) None)
      end
  end.

Definition create (rng : nat → option bytes) (readable : bool) (fault : write_fault) (scheme : P2mrScheme) :
    st store_fs P2mrStoreError P2mrAddressRecord :=
  record ← st_lift (build_record rng scheme);
  fs ← st_get;
  file ← st_lift (read_file readable fs);
  let file := mkP2mrFile CURRENT_VERSION (addresses file ++ [record]) in
  _ ← write_file fault file;
  mret record.

Definition list_addresses (readable : bool) (fs : store_fs) : outcome P2mrStoreError (list P2mrAddressRecord) :=
  file ← read_file readable fs; Ok (addresses file).

Definition get_by_spk (readable : bool) (fs : store_fs) (spk : Script) :
    outcome P2mrStoreError (option P2mrAddressRecord) :=
  file ← read_file readable fs;
  Ok (List.find (λ r, bool_decide (rec_script_pubkey r = spk)) (addresses file)).

(** * Specification *)

(** The records of a store; a missing file is an empty store. *)
Definition stored (fs : store_fs) : option (list P2mrAddressRecord) :=
  match p2mr_json fs with None => Some [] | Some j => addresses <$> from_json j end.

(** A record whose script is the one its own key spends. *)
Definition record_ok (r : P2mrAddressRecord) : Prop :=
  scheme_output (rec_scheme r) (rec_entropy r) = Ok (rec_script_pubkey r, rec_leaf_script r)
  ∧ rec_merkle_root r = drop 2 (rec_script_pubkey r).

Definition store_ok (fs : store_fs) : Prop := ∃ l, stored fs = Some l ∧ Forall record_ok l.

(** Serialization round-trips. *)
Class StoreLaws : Prop := {
  from_to_json f j : to_json f = Some j → from_json j = Some f
}.

(** * Lemmas *)

Lemma build_record_ok rng scheme r : build_record rng scheme = Ok r → record_ok r.
Proof.
  unfold build_record, mk_output. intros Hb. apply bind_Ok in Hb as (e & _ & Hb).
  apply bind_Ok in Hb as ([[spk leaf] root] & Hm%map_err_Ok & [= <-]).
  apply bind_Ok in Hm as ([spk' leaf'] & Ho & Hm). case_bool_decide; [|done]. injection Hm as -> -> <-.
  by split.
Qed.

Lemma build_record_scheme rng scheme r : build_record rng scheme = Ok r → rec_scheme r = scheme.
Proof.
  unfold build_record. intros Hb. apply bind_Ok in Hb as (e & _ & Hb).
  by apply bind_Ok in Hb as ([[spk leaf] root] & _ & [= <-]).
Qed.

Lemma read_file_stored readable fs f : read_file readable fs = Ok f → stored fs = Some (addresses f).
Proof.
  unfold read_file, stored. destruct (p2mr_json fs) as [j|]; [|by intros [= <-]].
  intros Hr. apply bind_Ok in Hr as ([] & _ & Hr%ok_or_Ok). by rewrite Hr.
Qed.
End store.

(** Labels round-trip. *)
Lemma from_scheme_label s : from_label (scheme_label s) = Some s.
Proof. by destruct s. Qed.

#[export] Instance P2mrScheme_eq_dec : EqDecision P2mrScheme.
Proof. solve_decision. Defined.
#[export] Instance P2mrAddressRecord_eq_dec : EqDecision P2mrAddressRecord.
Proof. solve_decision. Defined.
#[export] Instance P2mrFile_eq_dec : EqDecision P2mrFile.
Proof. solve_decision. Defined.

(** A spend signed with a stored key is accepted. *)
Lemma stored_spend_accepted
    `{HashLib} `{ScriptLib} `{!ScriptLaws} `{TxLib} `{TaprootLib} `{!SighashLaws} `{P2mrLib} `{!MerkleLaws}
    `{PqcLib} `{SignLib} `{!SignLaws} `{StoreLib} readable fs r t op prevout outputs tx available :
  store_ok fs → get_by_spk readable fs (script_pubkey prevout) = Ok (Some r) →
  build_spend r op prevout outputs t = Ok tx → available !! op = Some prevout →
  map previous_output (input tx) = [op] ∧ output tx = outputs ∧ total_value outputs ≤ value prevout
  ∧ ∀ height activation chain spent c,
      validate_transaction tx height activation available chain spent (mkVerify None c)
      = (Ok tt, mkVerify None c).
Proof.
  intros (l & Hl & Hok) Hget Hb Hav. unfold get_by_spk in Hget.
  apply bind_Ok in Hget as (f & Hf%read_file_stored & [= Hfind]). rewrite Hl in Hf. injection Hf as ->.
  apply find_some in Hfind as [Hin Hspk]. apply bool_decide_eq_true in Hspk.
  apply list_elem_of_In in Hin. rewrite Forall_forall in Hok. destruct (Hok r Hin) as [Hout _].
  rewrite Hspk in Hout. unfold build_spend in Hb. unfold scheme_output in Hout.
  destruct (rec_scheme r); try (apply map_err_Ok in Hb; by eapply algorithm_spend_accepted).
  apply bind_Ok in Hb as ([ec slh] & Hs%map_err_Ok & Hb%map_err_Ok). rewrite Hs in Hout.
  by eapply hybrid_spend_accepted.
Qed.

(** Every outcome of [create]. *)
Lemma create_outcome
    `{HashLib} `{ScriptLib} `{TxLib} `{TaprootLib} `{P2mrLib} `{PqcLib} `{SignLib} `{StoreLib} `{!StoreLaws}
    rng readable fault scheme fs l :
  stored fs = Some l → Forall record_ok l →
  match create rng readable fault scheme fs with
  | (Ok r, fs') =>
      stored fs' = Some (l ++ [r]) ∧ Forall record_ok (l ++ [r]) ∧ rec_scheme r = scheme
      ∧ ∃ r', get_by_spk true fs' (rec_script_pubkey r) = Ok (Some r')
              ∧ rec_script_pubkey r' = rec_script_pubkey r
  | (_, fs') => stored fs' = Some l
  end.
Proof.
  intros Hl Hok. unfold create. unfold mbind at 1, st_bind at 1, st_lift.
  destruct (build_record rng scheme) as [r|e|] eqn:Hb; [|done|done].
  unfold mbind at 1, st_bind at 1, st_get. unfold mbind at 1, st_bind at 1.
  destruct (read_file readable fs) as [f|e|] eqn:Hr; [|done|done].
  apply read_file_stored in Hr. rewrite Hl in Hr. injection Hr as ->.
  unfold mbind at 1, st_bind at 1, write_file.
  destruct (to_json (mkP2mrFile CURRENT_VERSION (addresses f ++ [r]))) as [j|] eqn:Hj; [|done].
  apply from_to_json in Hj. destruct fault; try done.
  unfold mret, st_ret, stored. cbn [p2mr_json]. rewrite Hj. cbn [addresses fmap option_fmap option_map].
  split_and!; [done| | |].
  - apply Forall_app. split; [done|]. apply Forall_singleton. by eapply build_record_ok.
  - by eapply build_record_scheme.
  - unfold get_by_spk, read_file. cbn [p2mr_json negb reject_if mbind outcome_bind]. rewrite Hj.
    cbn [ok_or mbind outcome_bind addresses].
    destruct (List.find _ _) as [r'|] eqn:Hf.
    + exists r'. split; [done|]. apply find_some in Hf as [_ Hf]. by apply bool_decide_eq_true in Hf.
    + pose proof (find_none _ _ Hf r ltac:(apply in_or_app; right; by left)) as Hn. cbn in Hn.
      by rewrite bool_decide_true in Hn.
Qed.

(** * Properties *)

(** Every address the wallet finds can be spent: in a store whose records are
    the wallet's own ([store_ok]), if the record found for the script of an output
    signs a spend of that output, for any of the four schemes and any sighash
    type, then the validator accepts the spend, at every height and on every chain
    where the output is the one signed for; it pays the requested outputs, which
    are worth no more than the spent one. *)
Lemma stored_key_spends
    `{HashLib} `{ScriptLib} `{!ScriptLaws} `{TxLib} `{TaprootLib} `{!SighashLaws} `{P2mrLib} `{!MerkleLaws}
    `{PqcLib} `{SignLib} `{!SignLaws} `{StoreLib} readable fs r t op prevout outputs tx available :
  store_ok fs → get_by_spk readable fs (script_pubkey prevout) = Ok (Some r) →
  build_spend r op prevout outputs t = Ok tx → available !! op = Some prevout →
  map previous_output (input tx) = [op] ∧ output tx = outputs ∧ total_value outputs ≤ value prevout
  ∧ ∀ height activation chain spent c,
      validate_transaction tx height activation available chain spent (mkVerify None c)
      = (Ok tt, mkVerify None c).
Proof. apply stored_spend_accepted. Qed.

(** C18: creating an address is atomic: whatever system call fails, and wherever
    the write stops, the store read afterwards is either the old one, when [create]
    fails, or the old one with the new record last, when it succeeds; the new
    script is then found.  All records stay the wallet's own. *)
Theorem create_atomic
    `{HashLib} `{ScriptLib} `{TxLib} `{TaprootLib} `{P2mrLib} `{PqcLib} `{SignLib} `{StoreLib} `{!StoreLaws}
    rng readable fault scheme fs l :
  stored fs = Some l → Forall record_ok l →
  match create rng readable fault scheme fs with
  | (Ok r, fs') =>
      stored fs' = Some (l ++ [r]) ∧ Forall record_ok (l ++ [r]) ∧ rec_scheme r = scheme
      ∧ ∃ r', get_by_spk true fs' (rec_script_pubkey r) = Ok (Some r')
              ∧ rec_script_pubkey r' = rec_script_pubkey r
  | (_, fs') => stored fs' = Some l
  end.
Proof. apply create_outcome. Qed.

(** * Witnesses

    A store whose JSON knows the files with copies of one hybrid key: it encodes
    such a file as their number. *)
Definition ex_rng (n : nat) : option bytes := Some (replicate n x07).
Definition ex_record : P2mrAddressRecord :=
  match @build_record toy_p2mr toy_sign ex_rng HybridEcSlh with
  | Ok r => r | _ => mkAddressRecord HybridEcSlh [] [] [] [] end.
Definition ex_store_file (n : nat) : P2mrFile := mkP2mrFile CURRENT_VERSION (replicate n ex_record).
Definition toy_store : StoreLib := {|
  to_json f := let n := length (addresses f) in
    if bool_decide (f = ex_store_file n) && bool_decide (Z.of_nat n < 256) then Some [z2b (Z.of_nat n)] else None;
  from_json j := match j with [b] => Some (ex_store_file (Z.to_nat (b2z b))) | _ => None end;
  address_from_script s n := Some s
|}.

Lemma toy_store_laws : @StoreLaws toy_store.
Proof.
  split. intros f j. cbn. case_bool_decide as Hf; [|done]. case_bool_decide; [|done]. intros [= <-].
  by rewrite b2z_z2b, Z.mod_small, Nat2Z.id, <-Hf by lia.
Qed.

Lemma ex_build_record : @build_record toy_p2mr toy_sign ex_rng HybridEcSlh = Ok ex_record.
Proof. vm_compute. reflexivity. Qed.

Lemma ex_record_ok : @record_ok toy_p2mr toy_sign ex_record.
Proof. apply (build_record_ok _ _ _ ex_build_record). Qed.

Definition ex_created := @create toy_p2mr toy_sign toy_store ex_rng true NoFault HybridEcSlh (mkFs None None).

Lemma create_atomic_witness :
  match ex_created with
  | (Ok r, fs') => r = ex_record ∧ @stored toy_store fs' = Some [r]
  | _ => False
  end.
Proof.
  pose proof (@create_atomic toy_hash toy_script toy_tx toy_taproot toy_p2mr toy_pqc toy_sign toy_store toy_store_laws
    ex_rng true NoFault HybridEcSlh (mkFs None None) [] eq_refl (Forall_nil_2 _)) as Hc.
  fold ex_created in Hc. assert (ex_created.1 = Ok ex_record) as Hr by (vm_compute; reflexivity).
  destruct ex_created as [o fs']. cbn in Hr. subst o. destruct Hc as (Hs & _). split; [reflexivity|exact Hs].
Defined.

Lemma stored_key_spends_witness :
  ∃ tx, @build_spend toy_taproot toy_p2mr toy_sign ex_record ex_sign_op
          (mkTxOut 500 (rec_script_pubkey ex_record)) ex_pay SighashAll = Ok tx
    ∧ ∀ c, @validate_transaction toy_hash toy_script toy_tx toy_taproot toy_p2mr toy_pqc tx 10
             (mkBip360Activation 5) {[ ex_sign_op := mkTxOut 500 (rec_script_pubkey ex_record) ]} None None
             (mkVerify None c)
           = (Ok tt, mkVerify None c).
Proof.
  destruct (@build_spend toy_taproot toy_p2mr toy_sign ex_record ex_sign_op
              (mkTxOut 500 (rec_script_pubkey ex_record)) ex_pay SighashAll) as [tx|e|] eqn:Hb;
    [|vm_compute in Hb; discriminate|vm_compute in Hb; discriminate].
  exists tx. split; [done|]. intros c.
  apply (@stored_key_spends toy_hash toy_script toy_script_laws toy_tx toy_taproot toy_sighash_laws
           toy_p2mr toy_merkle_laws toy_pqc toy_sign toy_sign_laws toy_store true (mkFs (Some [x01]) None)
           ex_record SighashAll ex_sign_op (mkTxOut 500 (rec_script_pubkey ex_record)) ex_pay tx).
  - exists [ex_record]. split; [vm_compute; reflexivity|]. apply Forall_singleton, ex_record_ok.
  - vm_compute. reflexivity.
  - exact Hb.
  - by rewrite lookup_singleton_eq.
Defined.
