(* ===== verification/BlockProducer.v ===== *)
(** The block producer (`block_producer/mod.rs`): the queue of signed P2MR spends
    that the node's mempool does not relay, its injection into the block templates,
    and its upkeep as blocks are connected.  Mining is in [Mine]. *)
From Stdlib Require Import ZArith Lia Strings.Byte Strings.String.
From stdpp Require Import base list gmap strings.
From S2P Require Import Prelude Bitcoin Concrete Limits P2mrOutput Schemes Spend P2mrUtxo.
From S2P Require Import Tapscript Pqc Dbs BlockHandler Sync Enforcer.
#[local] Open Scope Z_scope.

(** [PendingP2mrSpends]: the entries of an [ordermap::OrderMap], in order. *)
Abbreviation PendingP2mrSpends := (list (Txid * (Transaction * Amount))).

(** ** Third-party code *)

(** [OrderMap::insert] and [OrderMap::swap_remove]. *)
Class OrderMapLib := {
  om_insert : Txid → Transaction * Amount → PendingP2mrSpends → PendingP2mrSpends;
  om_swap_remove : Txid → PendingP2mrSpends → PendingP2mrSpends
}.

(** Their documentation: a new key goes last, an old one keeps its place; the last
    entry takes the place of a removed one. *)
Class OrderMapLaws `{OrderMapLib} : Prop := {
  om_insert_vacant k v l : k ∉ l.*1 → om_insert k v l = l ++ [(k, v)];
  om_insert_occupied k v v0 l1 l2 :
    k ∉ l1.*1 → om_insert k v (l1 ++ (k, v0) :: l2) = l1 ++ (k, v) :: l2;
  om_swap_remove_vacant k l : k ∉ l.*1 → om_swap_remove k l = l;
  om_swap_remove_last k v l : k ∉ l.*1 → om_swap_remove k (l ++ [(k, v)]) = l;
  om_swap_remove_mid k v e l1 l2 :
    k ∉ l1.*1 → om_swap_remove k (l1 ++ (k, v) :: l2 ++ [e]) = l1 ++ e :: l2
}.

(** `cusf_enforcer_mempool`'s suffix items, and [Transaction::weight]. *)
Class TemplateLib := {
  SuffixTxsItem : Type;
  Reserved : Z → SuffixTxsItem;
  tx_weight : Transaction → Z
}.

(** ** The producer *)

(** The state behind a [BlockProducer]: the validator's databases and events, the
    queue, and the error of the last failed template. *)
Record producer := mkProducer {
  p_task : task_state;
  pending_p2mr_spends : PendingP2mrSpends;
  last_gbt_error : option string
}.

(** The error types of the template calls have no constructor. *)
Inductive InitialBlockTemplateError := .
Inductive FinalizeBlockTemplateError := .

Definition on_task {E A} (m : st task_state E A) : st producer E A :=
  λ p, let '(o, s) := m (p_task p) in (o, mkProducer s (pending_p2mr_spends p) (last_gbt_error p)).

Definition set_pending_spends (p : producer) (l : PendingP2mrSpends) : producer :=
  mkProducer (p_task p) l (last_gbt_error p).

(** [fmt] is the rendering of an error and its causes. *)
Definition record_gbt_result {E A} (fmt : E → string) (res : outcome E A) : st producer E unit :=
  λ p, (Ok tt, mkProducer (p_task p) (pending_p2mr_spends p)
                 (match res with Err e => Some (fmt e) | _ => None end)).

Definition update {E} (f : producer → producer) : st producer E unit := λ p, (Ok tt, f p).

Definition producer_new (task : task_state) : producer := mkProducer task [] None.

Section producer.
Context `{HashLib} `{ScriptLib} `{TxLib} `{TaprootLib} `{P2mrLib} `{PqcLib}.
Context `{OrderMapLib} `{TemplateLib} `{GetBlockV3}.

Definition enqueue_p2mr_spend (tx : Transaction) (fee : Amount) (p : producer) : Txid * producer :=
  let txid := compute_txid tx in
  (txid, set_pending_spends p (om_insert txid (tx, fee) (pending_p2mr_spends p))).

Definition reap_confirmed_p2mr_spends (block : Block) (p : producer) : producer :=
  match pending_p2mr_spends p with
  | [] => p
  | pending => set_pending_spends p (foldl (λ l tx, om_swap_remove (compute_txid tx) l) pending (txdata block))
  end.

Definition connect_block_validator (v : BlockHandler) (parsed : option GbBlock) (clock : list Z)
    (block : Block) : st producer EnforcerConnectError ConnectBlockAction :=
  on_task (enforcer_connect_block v parsed clock block).

Definition producer_connect_block (v : BlockHandler) (parsed : option GbBlock) (clock : list Z)
    (block : Block) : st producer EnforcerConnectError ConnectBlockAction :=
  res ← connect_block_validator v parsed clock block;
  match res with
  | ConnectAccept _ => _ ← update (reap_confirmed_p2mr_spends block); mret res
  | ConnectReject => mret res
  end.

Definition producer_disconnect_block (bh : BlockHash) : st producer DisconnectBlockError unit :=
  on_task (enforcer_disconnect_block bh).

Definition producer_accept_tx (v : BlockHandler) (tx : Transaction) :
    st producer ValidateTransactionError TxAcceptAction :=
  λ p, (accept_tx v tx (p_task p).1, p).

Definition producer_validate_block (v : BlockHandler) (clock : list Z) (block : Block) :
    st producer DbError (option PqcValidationError) :=
  λ p, (validate_block v clock block (p_task p).1, p).

(** The suffix of the initial template, with the weight of each pending spend
    reserved. *)
Definition initial_block_template (suffix_txs : list SuffixTxsItem) :
    st producer InitialBlockTemplateError (list SuffixTxsItem) :=
  λ p, let weights := map (λ e, tx_weight e.2.1) (pending_p2mr_spends p) in
       let suffix_txs := foldl (λ l weight, l ++ [Reserved weight]) suffix_txs weights in
       let res : outcome InitialBlockTemplateError unit := Ok tt in
       (_ ← record_gbt_result (λ e : InitialBlockTemplateError, match e with end) res; _ ← st_lift res; mret suffix_txs) p.

(** The suffix of the filled template, with the pending spends and their fees. *)
Definition finalize_block_template (suffix_txs : list (Transaction * Amount)) :
    st producer FinalizeBlockTemplateError (list (Transaction * Amount)) :=
  λ p, let spends := map snd (pending_p2mr_spends p) in
       let suffix_txs := foldl (λ l '(tx, fee), l ++ [(tx, fee)]) suffix_txs spends in
       let res : outcome FinalizeBlockTemplateError unit := Ok tt in
       (_ ← record_gbt_result (λ e : FinalizeBlockTemplateError, match e with end) res; _ ← st_lift res; mret suffix_txs) p.

(** ** Runs of the producer

    What the wallet and the node driver do to it, one call at a time (the mutex
    and the driver serialise them), and what a run observes.  A panic ends it. *)
Inductive observation :=
| Enqueued (tx : Transaction) (fee : Amount)
| Accepted (block : Block)
| Other.

Inductive producer_step (v : BlockHandler) : producer → observation → producer → Prop :=
| step_enqueue p tx fee :
    producer_step v p (Enqueued tx fee) (enqueue_p2mr_spend tx fee p).2
| step_accept p parsed clock block removed p' :
    producer_connect_block v parsed clock block p = (Ok (ConnectAccept removed), p') →
    producer_step v p (Accepted block) p'
| step_reject p parsed clock block p' :
    producer_connect_block v parsed clock block p = (Ok ConnectReject, p') →
    producer_step v p Other p'
| step_connect_error p parsed clock block e p' :
    producer_connect_block v parsed clock block p = (Err e, p') → producer_step v p Other p'
| step_disconnect p bh o p' :
    producer_disconnect_block bh p = (o, p') → producer_step v p Other p'
| step_initial p suffix o p' :
    initial_block_template suffix p = (o, p') → producer_step v p Other p'
| step_finalize p suffix o p' :
    finalize_block_template suffix p = (o, p') → producer_step v p Other p'.

(** The observations of a run, the latest first. *)
Inductive producer_run (v : BlockHandler) (p0 : producer) : list observation → producer → Prop :=
| run_nil : producer_run v p0 [] p0
| run_step obs p o p' :
    producer_run v p0 obs p → producer_step v p o p' → producer_run v p0 (o :: obs) p'.

(** * Specification *)

(** What should be pending under [k]: the latest spend enqueued with that txid,
    unless a block with it was accepted since. *)
Fixpoint pending_since (obs : list observation) (k : Txid) : option (Transaction * Amount) :=
  match obs with
  | [] => None
  | Enqueued tx fee :: obs => if bool_decide (compute_txid tx = k) then Some (tx, fee) else pending_since obs k
  | Accepted block :: obs =>
      if bool_decide (k ∈ map compute_txid (txdata block)) then None else pending_since obs k
  | Other :: obs => pending_since obs k
  end.

(** The queue as a map, and its well-formedness: distinct keys, each the id of the
    transaction it holds. *)
Definition pending_map (p : producer) : gmap Txid (Transaction * Amount) :=
  list_to_map (pending_p2mr_spends p).

Record queue_ok (l : PendingP2mrSpends) : Prop := {
  queue_nodup : NoDup l.*1;
  queue_keyed : Forall (λ e, e.1 = compute_txid e.2.1) l
}.
End producer.

(** * The queue as a map *)
Section queue.
Context `{TxLib} `{OrderMapLib} `{!OrderMapLaws}.
Implicit Types l : PendingP2mrSpends.

Lemma split_at_key k l :
  k ∈ l.*1 → ∃ l1 v l2, l = l1 ++ (k, v) :: l2 ∧ k ∉ l1.*1.
Proof.
  induction l as [|[k' v] l IH]; [by intros ?%not_elem_of_nil|].
  cbn. destruct (decide (k' = k)) as [->|Hne].
  - intros _. exists [], v, l. split; [done|apply not_elem_of_nil].
  - intros [->|Hk]%elem_of_cons; [done|]. destruct (IH Hk) as (l1 & v1 & l2 & -> & Hk1).
    exists ((k', v) :: l1), v1, l2. split; [done|]. cbn. by apply not_elem_of_cons.
Qed.

(** What a permutation of the queue preserves. *)
Lemma queue_ok_perm l l' : l ≡ₚ l' → queue_ok l → queue_ok l'.
Proof.
  intros Hp [Hn Hk]. split; [by rewrite <-Hp|]. revert Hk. by rewrite Hp.
Qed.

Lemma queue_ok_cons k v l : queue_ok ((k, v) :: l) ↔ (k ∉ l.*1) ∧ k = compute_txid v.1 ∧ queue_ok l.
Proof.
  split.
  - intros [[Hn Hl]%NoDup_cons [Hk Hf]%Forall_cons]. by split_and!.
  - intros (Hn & Hk & [Hl Hf]). split; [by apply NoDup_cons|by apply Forall_cons].
Qed.

Lemma om_insert_perm k v l :
  NoDup l.*1 → ∃ l', (om_insert k v l ≡ₚ ((k, v) :: l')) ∧ (k ∉ l'.*1)
    ∧ (((k ∉ l.*1) ∧ l' = l) ∨ ∃ v0, l ≡ₚ (k, v0) :: l').
Proof.
  intros Hn. destruct (decide (k ∈ l.*1)) as [Hk|Hk].
  - apply split_at_key in Hk as (l1 & v0 & l2 & -> & Hk1). exists (l1 ++ l2).
    rewrite om_insert_occupied by done. rewrite <-!Permutation_middle. split; [done|].
    rewrite fmap_app, fmap_cons in Hn. apply NoDup_app in Hn as (_ & _ & [Hk2 _]%NoDup_cons).
    split; [by rewrite fmap_app, not_elem_of_app|]. right. exists v0. by rewrite <-Permutation_middle.
  - exists l. rewrite om_insert_vacant by done. split; [|by eauto]. by rewrite (comm (++)).
Qed.

Lemma om_swap_remove_perm k l :
  NoDup l.*1 → ((k ∉ l.*1) ∧ om_swap_remove k l = l) ∨ (∃ v, (l ≡ₚ ((k, v) :: om_swap_remove k l))).
Proof.
  intros Hn. destruct (decide (k ∈ l.*1)) as [Hk|Hk]; [right|left; by rewrite om_swap_remove_vacant].
  apply split_at_key in Hk as (l1 & v & l2 & -> & Hk1). exists v.
  destruct l2 as [|e l2 _] using rev_ind.
  - rewrite om_swap_remove_last by done. by rewrite (comm (++)).
  - rewrite om_swap_remove_mid by done. rewrite <-Permutation_middle.
    apply Permutation_skip, Permutation_app_head. by rewrite (comm (++) l2).
Qed.

Lemma list_to_map_perm_cons (l l' : PendingP2mrSpends) k v :
  NoDup l.*1 → (l ≡ₚ ((k, v) :: l')) →
  (list_to_map l : gmap Txid (Transaction * Amount)) = <[k := v]> (list_to_map l') ∧ k ∉ l'.*1.
Proof.
  intros Hn Hp. split; [by rewrite (list_to_map_proper _ _ Hn Hp)|].
  rewrite Hp in Hn. by apply NoDup_cons in Hn as [??].
Qed.

(** Inserting a transaction under its id. *)
Lemma om_insert_ok tx fee l :
  queue_ok l →
  queue_ok (om_insert (compute_txid tx) (tx, fee) l)
  ∧ (list_to_map (om_insert (compute_txid tx) (tx, fee) l) : gmap _ _)
    = <[compute_txid tx := (tx, fee)]> (list_to_map l).
Proof.
  intros Hok. pose proof (queue_nodup _ Hok) as Hn.
  destruct (om_insert_perm (compute_txid tx) (tx, fee) l Hn) as (l' & Hp & Hk & Hl).
  assert (queue_ok l') as Hok'.
  { destruct Hl as [[_ ->]|[v0 Hl]]; [done|]. eapply queue_ok_perm in Hok; [|done]. by apply queue_ok_cons in Hok as (_ & _ & ?). }
  assert (queue_ok (om_insert (compute_txid tx) (tx, fee) l)) as Hi.
  { eapply queue_ok_perm; [by symmetry|]. by apply queue_ok_cons. }
  split; [done|]. destruct (list_to_map_perm_cons _ _ _ _ (queue_nodup _ Hi) Hp) as [-> _].
  destruct Hl as [[_ ->]|[v0 Hl]]; [done|].
  destruct (list_to_map_perm_cons _ _ _ _ Hn Hl) as [-> _]. by rewrite insert_insert_eq.
Qed.

Lemma om_swap_remove_ok k l :
  queue_ok l →
  queue_ok (om_swap_remove k l)
  ∧ (list_to_map (om_swap_remove k l) : gmap Txid (Transaction * Amount)) = delete k (list_to_map l).
Proof.
  intros Hok. pose proof (queue_nodup _ Hok) as Hn.
  destruct (om_swap_remove_perm k l Hn) as [[Hk ->]|[v Hp]].
  - split; [done|]. by rewrite delete_id by by apply not_elem_of_list_to_map.
  - destruct (list_to_map_perm_cons _ _ _ _ Hn Hp) as [-> Hk]. apply queue_ok_perm in Hp; [|done].
    apply queue_ok_cons in Hp as (_ & _ & Hp). split; [done|].
    by rewrite delete_insert_id by by apply not_elem_of_list_to_map.
Qed.

(** Reaping a list of transactions. *)
Lemma reap_ok (txs : list Transaction) l :
  queue_ok l →
  let l' := foldl (λ l tx, om_swap_remove (compute_txid tx) l) l txs in
  queue_ok l'
  ∧ ∀ k, (list_to_map l' : gmap Txid (Transaction * Amount)) !! k
         = if bool_decide (k ∈ map compute_txid txs) then None else (list_to_map l : gmap Txid (Transaction * Amount)) !! k.
Proof.
  revert l. induction txs as [|tx txs IH]; cbn; intros l Hok; [done|].
  destruct (om_swap_remove_ok (compute_txid tx) l Hok) as [Hok' Hm].
  destruct (IH _ Hok') as [Hr Hl]. split; [done|]. intros k. rewrite Hl, Hm.
  destruct (decide (k = compute_txid tx)) as [->|Hne].
  - rewrite lookup_delete_eq. rewrite (bool_decide_true (_ ∈ _ :: _)) by by left. by case_bool_decide.
  - rewrite lookup_delete_ne by done.
    rewrite (bool_decide_ext (k ∈ compute_txid tx :: _) (k ∈ map compute_txid txs)); [done|].
    rewrite elem_of_cons. naive_solver.
Qed.
End queue.

(** * Runs *)
Section runs.
Context `{HashLib} `{ScriptLib} `{TxLib} `{TaprootLib} `{P2mrLib} `{PqcLib}.
Context `{OrderMapLib} `{!OrderMapLaws} `{TemplateLib} `{GetBlockV3}.

Lemma reap_pending block p :
  queue_ok (pending_p2mr_spends p) →
  let p' := reap_confirmed_p2mr_spends block p in
  queue_ok (pending_p2mr_spends p')
  ∧ ∀ k, pending_map p' !! k
         = if bool_decide (k ∈ map compute_txid (txdata block)) then None else pending_map p !! k.
Proof.
  intros Hok. unfold reap_confirmed_p2mr_spends, pending_map.
  destruct (pending_p2mr_spends p) as [|e l] eqn:Hp.
  - rewrite Hp. split; [done|]. intros k. by case_bool_decide.
  - by apply (reap_ok (txdata block)).
Qed.

Lemma on_task_pending {E A} (m : st task_state E A) p o p' :
  on_task m p = (o, p') → pending_p2mr_spends p' = pending_p2mr_spends p.
Proof. unfold on_task. destruct (m (p_task p)). by intros [= _ <-]. Qed.

(** Connecting reaps exactly when the validator accepts. *)
Lemma producer_connect_pending v parsed clock block p o p' :
  producer_connect_block v parsed clock block p = (o, p') →
  ∃ q, pending_p2mr_spends q = pending_p2mr_spends p
    ∧ p' = (if o is Ok (ConnectAccept _) then reap_confirmed_p2mr_spends block q else q).
Proof.
  unfold producer_connect_block. unfold mbind at 1, st_bind at 1.
  destruct (connect_block_validator v parsed clock block p) as [r q] eqn:Hc.
  apply on_task_pending in Hc. intros Hp. exists q. split; [done|].
  by destruct r as [[removed|]|e|]; injection Hp as <- <-.
Qed.

Lemma initial_template_pending suffix p o p' :
  initial_block_template suffix p = (o, p') → pending_p2mr_spends p' = pending_p2mr_spends p.
Proof. by intros [= _ <-]. Qed.

Lemma finalize_template_pending suffix p o p' :
  finalize_block_template suffix p = (o, p') → pending_p2mr_spends p' = pending_p2mr_spends p.
Proof. by intros [= _ <-]. Qed.

(** What one observation does to what is pending under [k]. *)
Definition pending_after (o : observation) (k : Txid) (cur : option (Transaction * Amount)) : option (Transaction * Amount) :=
  match o with
  | Enqueued tx fee => if bool_decide (compute_txid tx = k) then Some (tx, fee) else cur
  | Accepted block => if bool_decide (k ∈ map compute_txid (txdata block)) then None else cur
  | Other => cur
  end.
Lemma producer_step_lookup v p o p' :
  producer_step v p o p' → queue_ok (pending_p2mr_spends p) →
  queue_ok (pending_p2mr_spends p') ∧ ∀ k, pending_map p' !! k = pending_after o k (pending_map p !! k).
Proof.
  intros Hs Hok. unfold pending_map.
  destruct Hs as [p tx fee|p parsed clock block removed p' Hc|p parsed clock block p' Hc
    |p parsed clock block e p' Hc|p bh o p' Hc|p suffix o p' Hc|p suffix o p' Hc].
  1: { cbn. destruct (om_insert_ok tx fee _ Hok) as [Hok' ->]. split; [done|]. intros k.
       case_bool_decide as Hk; [by rewrite <-Hk, lookup_insert_eq|by rewrite lookup_insert_ne]. }
  1: { apply producer_connect_pending in Hc as (q & Hq & ->). rewrite <-Hq in Hok.
       destruct (reap_pending block q Hok) as [Hok' Hm]. split; [done|]. intros k.
       unfold pending_map in Hm. rewrite Hm, Hq. done. }
  1,2: apply producer_connect_pending in Hc as (q & Hq & ->).
  3: apply on_task_pending in Hc as Hq.
  4: apply initial_template_pending in Hc as Hq.
  5: apply finalize_template_pending in Hc as Hq.
  all: rewrite Hq; by split.
Qed.

(** One step of a run keeps the queue well formed and tracks the specification. *)
Lemma producer_step_pending v p o p' :
  producer_step v p o p' → queue_ok (pending_p2mr_spends p) →
  queue_ok (pending_p2mr_spends p')
  ∧ ∀ obs, (∀ k, pending_map p !! k = pending_since obs k) →
           ∀ k, pending_map p' !! k = pending_since (o :: obs) k.
Proof.
  intros Hs Hok. destruct (producer_step_lookup _ _ _ _ Hs Hok) as [Hok' Hl]. split; [done|].
  intros obs Hobs k. rewrite Hl, Hobs. by destruct o.
Qed.

(** A pending transaction stays until a block with it is accepted or another one is
    enqueued under its id. *)
Lemma producer_run_keeps v p0 obs p k e :
  producer_run v p0 obs p → queue_ok (pending_p2mr_spends p0) → pending_map p0 !! k = Some e →
  (∀ block, Accepted block ∈ obs → k ∉ map compute_txid (txdata block)) →
  (∀ tx fee, Enqueued tx fee ∈ obs → compute_txid tx ≠ k) →
  queue_ok (pending_p2mr_spends p) ∧ pending_map p !! k = Some e.
Proof.
  intros Hr Hok He. induction Hr as [|obs p o p' _ IH Hs]; [done|]. intros Ha Hq.
  destruct IH as [Hok' Hk]; [intros b Hb; apply Ha; by right|intros tx fee Ht; apply (Hq tx fee); by right|].
  destruct (producer_step_lookup _ _ _ _ Hs Hok') as [Hok'' Hl]. split; [done|]. rewrite Hl, Hk.
  destruct o as [tx fee|block|]; cbn; [|specialize (Ha block)|done].
  - by rewrite bool_decide_false by (apply (Hq tx fee); by left).
  - by rewrite bool_decide_false by (apply Ha; by left).
Qed.

(** No template call of the producer can fail, so no error is ever recorded: what the
    mining calls append to the node's error is always empty. *)
Lemma no_gbt_error v task obs p :
  producer_run v (producer_new task) obs p → last_gbt_error p = None.
Proof.
  intros Hr. assert (∀ parsed clock block q o q', producer_connect_block v parsed clock block q = (o, q') →
    last_gbt_error q = None → last_gbt_error q' = None) as Hc.
  { intros parsed clock block q o q'. unfold producer_connect_block, connect_block_validator, on_task.
    unfold mbind at 1, st_bind at 1. destruct (enforcer_connect_block v parsed clock block (p_task q)) as [[[removed|]|e|] t]; intros [= _ <-]; cbn; try done.
    unfold reap_confirmed_p2mr_spends. by case_match. }
  induction Hr as [|obs p o p' _ IH Hs]; [done|].
  destruct Hs as [p tx fee|p parsed clock block removed p' Hp|p parsed clock block p' Hp|p parsed clock block e p' Hp|p bh o p' Hp|p suffix o p' Hp|p suffix o p' Hp];
    try (by eapply Hc); [done| |by injection Hp as _ <-..].
  unfold producer_disconnect_block, on_task in Hp. destruct (enforcer_disconnect_block bh (p_task p)). by injection Hp as _ <-.
Qed.

Lemma foldl_snoc {A B} (f : A → B) (acc : list B) (l : list A) :
  foldl (λ acc x, acc ++ [f x]) acc l = acc ++ map f l.
Proof.
  revert acc. induction l as [|x l IH]; intros acc; cbn; [by rewrite app_nil_r|].
  by rewrite IH, <-(assoc (++)).
Qed.

(** What the two template calls produce. *)
Lemma initial_template_Ok suffix p :
  initial_block_template suffix p
  = (Ok (suffix ++ map (λ e, Reserved (tx_weight e.2.1)) (pending_p2mr_spends p)),
     mkProducer (p_task p) (pending_p2mr_spends p) None).
Proof.
  unfold initial_block_template. rewrite (foldl_snoc Reserved), map_map. done.
Qed.

Lemma finalize_template_Ok suffix p :
  finalize_block_template suffix p
  = (Ok (suffix ++ map snd (pending_p2mr_spends p)), mkProducer (p_task p) (pending_p2mr_spends p) None).
Proof.
  unfold finalize_block_template.
  assert (∀ l (acc : list (Transaction * Amount)), foldl (λ l '(tx, fee), l ++ [(tx, fee)]) acc l = acc ++ l) as ->; [|done].
  induction l as [|[tx fee] l IH]; intros acc; cbn; [by rewrite app_nil_r|]. by rewrite IH, <-(assoc (++)).
Qed.
End runs.

(** * Properties *)

(** C15: the queue of a producer holds what it should: after any run of enqueues,
    blocks connected, refused or disconnected, and templates, its keys are
    distinct ids of their transactions, and what is pending under a txid is the
    spend last enqueued with it, unless a block with that transaction was accepted
    since. *)
Theorem pending_spends_tracked
    `{HashLib} `{ScriptLib} `{TxLib} `{TaprootLib} `{P2mrLib} `{PqcLib}
    `{OrderMapLib} `{!OrderMapLaws} `{TemplateLib} `{GetBlockV3} v task obs p :
  producer_run v (producer_new task) obs p →
  queue_ok (pending_p2mr_spends p) ∧ ∀ k, pending_map p !! k = pending_since obs k.
Proof.
  induction 1 as [|obs p o p' _ [IH1 IH2] Hs].
  - split; [|done]. split; [apply NoDup_nil_2|by apply Forall_nil].
  - destruct (producer_step_pending v p o p' Hs IH1) as [Hok Hm]. split; [done|]. by apply Hm.
Qed.

(** A template carries every pending spend once: what [finalize_block_template]
    appends is the queue, with pairwise distinct transactions, and it fills exactly
    the weights [initial_block_template] reserved, if the queue did not change in
    between; neither call changes the queue, and a block with the appended
    transactions, once accepted, empties it. *)
Lemma template_injects_pending
    `{HashLib} `{ScriptLib} `{TxLib} `{TaprootLib} `{P2mrLib} `{PqcLib}
    `{OrderMapLib} `{!OrderMapLaws} `{TemplateLib} `{GetBlockV3} v p initial filled :
  queue_ok (pending_p2mr_spends p) →
  ∃ spends p',
    initial_block_template initial p = (Ok (initial ++ map (λ s, Reserved (tx_weight s.1)) spends), p')
    ∧ finalize_block_template filled p' = (Ok (filled ++ spends), p')
    ∧ NoDup (map (λ s, compute_txid s.1) spends)
    ∧ pending_p2mr_spends p' = pending_p2mr_spends p
    ∧ ∀ parsed clock block removed p'',
        producer_connect_block v parsed clock block p' = (Ok (ConnectAccept removed), p'') →
        (∀ s, s ∈ spends → s.1 ∈ txdata block) → pending_p2mr_spends p'' = [].
Proof.
  intros [Hn Hk]. eexists (map snd (pending_p2mr_spends p)), _. rewrite initial_template_Ok, map_map.
  split; [done|]. rewrite finalize_template_Ok. cbn [pending_p2mr_spends p_task]. split; [done|].
  split; [|split; [done|]].
  - rewrite map_map. replace (map _ _) with (pending_p2mr_spends p).*1; [done|].
    apply map_ext_in. intros e He. rewrite Forall_forall in Hk. apply Hk. by apply list_elem_of_In.
  - intros parsed clock block removed p'' Hc Hin.
    apply producer_connect_pending in Hc as (q & Hq & ->). cbn [pending_p2mr_spends] in Hq.
    rewrite <-Hq in Hn, Hk, Hin.
    destruct (reap_pending block q) as [_ Hm]; [by split|].
    destruct (pending_p2mr_spends (reap_confirmed_p2mr_spends block q)) as [|[k w] l] eqn:Hl; [done|exfalso].
    specialize (Hm k). unfold pending_map in Hm. rewrite Hl in Hm. cbn in Hm. rewrite lookup_insert_eq in Hm.
    case_bool_decide as Hb; [done|]. symmetry in Hm. apply elem_of_list_to_map_2 in Hm.
    rewrite Forall_forall in Hk. specialize (Hk _ Hm). cbn in Hk. subst k. apply Hb, list_elem_of_fmap.
    exists w.1. split; [done|]. apply Hin. apply list_elem_of_fmap. by exists (compute_txid w.1, w).
Qed.

(** A spend enqueued between the two template calls is appended without a
    reservation. *)
Lemma late_enqueue_unreserved
    `{TxLib} `{OrderMapLib} `{!OrderMapLaws} `{TemplateLib} p tx fee initial filled p1 r f p2 :
  compute_txid tx ∉ (pending_p2mr_spends p).*1 →
  initial_block_template initial p = (Ok r, p1) →
  finalize_block_template filled (enqueue_p2mr_spend tx fee p1).2 = (Ok f, p2) →
  r = initial ++ map (λ e, Reserved (tx_weight e.2.1)) (pending_p2mr_spends p)
  ∧ f = filled ++ map snd (pending_p2mr_spends p) ++ [(tx, fee)].
Proof.
  intros Hk. rewrite initial_template_Ok, finalize_template_Ok. intros [= <- <-]. cbn.
  rewrite om_insert_vacant by done. intros [= <- <-]. by rewrite map_app.
Qed.

(** * Witnesses *)

Fixpoint toy_om_insert (k : Txid) (v : Transaction * Amount) (l : PendingP2mrSpends) : PendingP2mrSpends :=
  match l with
  | [] => [(k, v)]
  | (k', v') :: l => if bool_decide (k' = k) then (k, v) :: l else (k', v') :: toy_om_insert k v l
  end.
Fixpoint toy_om_swap_remove (k : Txid) (l : PendingP2mrSpends) : PendingP2mrSpends :=
  match l with
  | [] => []
  | (k', v') :: l =>
      if bool_decide (k' = k) then match vec_pop l with Some (l', e) => e :: l' | None => [] end
      else (k', v') :: toy_om_swap_remove k l
  end.
Definition toy_order_map : OrderMapLib := {| om_insert := toy_om_insert; om_swap_remove := toy_om_swap_remove |}.

Lemma toy_order_map_laws : @OrderMapLaws toy_order_map.
Proof.
  assert (∀ k v (l : PendingP2mrSpends), toy_om_swap_remove k ((k, v) :: l)
          = match vec_pop l with Some (l', e) => e :: l' | None => [] end) as Hhere.
  { intros k v l. cbn. by rewrite bool_decide_true. }
  split; cbn.
  - intros k v l. induction l as [|[k' v'] l IH]; cbn; [done|]. intros [Hne Hk]%not_elem_of_cons.
    rewrite bool_decide_false by done. by rewrite IH.
  - intros k v v0 l1 l2. induction l1 as [|[k' v'] l1 IH]; cbn; [by rewrite bool_decide_true|].
    intros [Hne Hk]%not_elem_of_cons. rewrite bool_decide_false by done. by rewrite IH.
  - intros k l. induction l as [|[k' v'] l IH]; cbn; [done|]. intros [Hne Hk]%not_elem_of_cons.
    rewrite bool_decide_false by done. by rewrite IH.
  - intros k v l. induction l as [|[k' v'] l IH]; [intros _; cbn [app]; by rewrite Hhere|].
    intros [Hne Hk]%not_elem_of_cons. cbn. rewrite bool_decide_false by done. by rewrite IH.
  - intros k v e l1 l2. induction l1 as [|[k' v'] l1 IH]; intros Hk.
    + cbn [app]. by rewrite Hhere, vec_pop_snoc.
    + apply not_elem_of_cons in Hk as [Hne Hk]. cbn. rewrite bool_decide_false by done. by rewrite IH.
Qed.

Definition toy_template : TemplateLib := {| SuffixTxsItem := Z; Reserved w := w; tx_weight tx := 4 * len (output tx) |}.

(** The spend in [ex_block1], and one that stays pending. *)
Definition ex_mined : Transaction := nth 1 (txdata ex_block1) (ex_cb 1 []).
Definition ex_waiting : Transaction := mkTransaction 2 9 [mkTxIn ex_far [] 0 []] [].

Section witnesses.
#[local] Existing Instances toy_hash toy_script toy_tx toy_taproot toy_p2mr toy_pqc toy_order_map toy_template toy_v3.

Definition ex_queue : producer :=
  (enqueue_p2mr_spend ex_waiting 20 (enqueue_p2mr_spend ex_mined 10 (producer_new (ex_db1, []))).2).2.
Definition ex_connected := producer_connect_block ex_handler None [] ex_block1 ex_queue.

Lemma ex_connected_Ok : ex_connected.1 = Ok (ConnectAccept ∅).
Proof. vm_compute. reflexivity. Qed.

Lemma ex_run :
  producer_run ex_handler (producer_new (ex_db1, []))
    [Accepted ex_block1; Enqueued ex_waiting 20; Enqueued ex_mined 10] ex_connected.2.
Proof.
  eapply run_step; [eapply run_step; [eapply run_step; [apply run_nil|apply step_enqueue]|apply step_enqueue]|].
  fold ex_queue. apply (step_accept _ _ None [] _ ∅). fold ex_connected.
  rewrite <-ex_connected_Ok. by destruct ex_connected.
Qed.

Lemma pending_spends_tracked_witness :
  pending_map ex_connected.2 !! compute_txid ex_mined = None
  ∧ pending_map ex_connected.2 !! compute_txid ex_waiting = Some (ex_waiting, 20).
Proof.
  pose proof (@pending_spends_tracked toy_hash toy_script toy_tx toy_taproot toy_p2mr toy_pqc toy_order_map
    toy_order_map_laws toy_template toy_v3 ex_handler (ex_db1, []) _ _ ex_run) as [_ Hm].
  split; rewrite Hm; vm_compute; reflexivity.
Defined.

Lemma template_injects_pending_witness :
  ∃ spends p', initial_block_template [] ex_queue = (Ok (map (λ s, tx_weight s.1) spends), p')
    ∧ finalize_block_template [] p' = (Ok spends, p')
    ∧ ∀ p'' removed, producer_connect_block ex_handler None [] (mkBlock ex_a1 [ex_mined; ex_waiting]) p'
                     = (Ok (ConnectAccept removed), p'') → (∀ s, s ∈ spends → s.1 = ex_mined ∨ s.1 = ex_waiting) →
                     pending_p2mr_spends p'' = [].
Proof.
  destruct (@template_injects_pending toy_hash toy_script toy_tx toy_taproot toy_p2mr toy_pqc toy_order_map
    toy_order_map_laws toy_template toy_v3 ex_handler ex_queue [] []) as (spends & p' & Hi & Hf & _ & _ & Hc).
  - split; [|repeat constructor]. apply (bool_decide_unpack _). vm_compute. exact I.
  - exists spends, p'. split; [exact Hi|]. split; [exact Hf|].
    intros p'' removed Hr Hs. apply (Hc _ _ _ _ _ Hr). intros s Hin. destruct (Hs s Hin) as [->| ->].
    + apply list_elem_of_here.
    + apply list_elem_of_further, list_elem_of_here.
Defined.
End witnesses.
