(* ===== verification/Mine.v ===== *)
(** Mining without a wallet (`block_producer/mine.rs`): regtest blocks built from
    the node's template on the validator's tip, the proof-of-work loop, the wait
    for the validator, and the preconditions; the errors of `block_producer/error.rs`.
    Signet blocks are in [SignetMine]. *)
From Stdlib Require Import ZArith Lia Strings.Byte Strings.String.
From stdpp Require Import base list gmap strings.
From S2P Require Import Prelude Bitcoin Concrete Spend Dbs BlockHandler Enforcer Signer BlockProducer Rpc.
#[local] Open Scope Z_scope.

(** ** Third-party code

    Script building, merkle roots, the witness commitment, proof of work and
    consensus encoding of the `bitcoin` crate; [Address::from_script] on signet. *)
Record MinedHeader := mkMinedHeader {
  h_version : Z;
  h_prev_blockhash : BlockHash;
  h_merkle_root : Hash32;
  h_time : Z; (* u32 *)
  h_bits : Z;
  h_nonce : Z (* u32 *)
}.
Record MinedBlock := mkMinedBlock { mb_header : MinedHeader; mb_txdata : list Transaction }.

Class MineLib := {
  push_int : Script → Z → Script;
  new_op_return : bytes → Script;
  push_bytes_extend : bytes → bytes → option bytes;
  witness_root : list Transaction → option Hash32;
  compute_witness_commitment : Hash32 → bytes → Hash32;
  calculate_root_inline : list Hash32 → option Hash32;
  regtest_genesis_bits : Z;
  validate_pow : MinedHeader → bool;
  mined_block_hash : MinedHeader → BlockHash;
  block_encode : MinedBlock → option bytes;
  tx_deserialize : bytes → option Transaction;
  signet_address : Script → option bytes
}.

Definition OP_0 : Opcode := x00.
Definition OP_RETURN : Opcode := x6a.
(** [Amount::ONE_BTC], [constants::SUBSIDY_HALVING_INTERVAL] and
    [Version::NO_SOFT_FORK_SIGNALLING]. *)
Definition ONE_BTC : Amount := 100000000.
Definition SUBSIDY_HALVING_INTERVAL : Z := 210000.
Definition NO_SOFT_FORK_SIGNALLING : Z := 0x20000000.

(** ** Errors *)

(** `bins.rs`: the output of a command is no UTF-8, the command fails, or it cannot be
    run. *)
Inductive CommandError := FromUtf8 | Stderr (stderr : bytes) | UnknownIo.

Record GetBlockTemplateError := mkGetBlockTemplate { gbt_source : ClientError; template_error : option string }.
Inductive SelectBlockTxsError :=
| GetBlockTemplateFailed (e : GetBlockTemplateError)
| DecodeTemplateTransaction (txid : Txid)
| TemplateTipMismatch (template_tip validator_tip : BlockHash).
Inductive FinalizeBlockError :=
| FinalizeGetHeaderInfo (e : GetHeaderInfoError)
| FinalizeGetMainchainTip (e : DbError)
| FinalizeScript
| FinalizeSystemTime.
Inductive AwaitBlockConnectionError := AwaitTimeout (block_hash : BlockHash) | AwaitTryGetBlockInfos (e : DbError).
Inductive MineError :=
| MineAwait (e : AwaitBlockConnectionError)
| MineBitcoinCoreRPC (e : ClientError)
| MineEncodeBlock
| MineFinalizeBlock (e : FinalizeBlockError)
| BlockRejected (reason : string).
Inductive VerifyCanMineError :=
| CanMineRpc (e : ClientError)
| CanMineTemplate (e : GetBlockTemplateError)
| MissingBinary (name : string) (source : bool)
| MultipleBlocksOnSignet
| CanMineNetwork (network : Network)
| NoBlockTemplateServerOnSignet
| NoSignetChallengeFound
| ParseSignetChallenge
| SignetChallengeAddressMissing (address : bytes).
Inductive GetSignetMinerPathError :=
| CreateSignetMinerDir (e : CommandError) | DownloadSignetMiner (e : CommandError).
Inductive GenerateSignetBlockError :=
| SignetAwait (e : AwaitBlockConnectionError)
| FetchMostRecentBlockHash (e : ClientError)
| SignetGetHeaderInfo (e : GetHeaderInfoError)
| SignetGetMainchainTip (e : DbError)
| SignetMinerPath (e : GetSignetMinerPathError)
| SignetMine (e : CommandError)
| SignetTimeout.
Inductive GenerateBlockError :=
| GenerateSignetBlock (e : GenerateSignetBlockError)
| GenerateMine (e : MineError)
| GenerateSelectBlockTxs (e : SelectBlockTxsError)
| ValidatorNotSynced.

(** The fields of the node's answer to `getblocktemplate` that are used. *)
Record BlockTemplate := mkBlockTemplate {
  template_prev_blockhash : BlockHash;
  template_transactions : list (Txid * bytes);
  template_signet_challenge : option Script
}.

(** ** Constants of the chain *)

Definition target_block_interval (signet_challenge : Script) : Z :=
  (* the bytes of the ASCII text of the challenge *)
  if bool_decide (signet_challenge = list_byte_of_string "00141551188e5153533b4fdd555449e640d9cc129456")
  then 60 else 600.

(** [fees + Amount::from_sat(..)] panics when it overflows. *)
Definition get_block_value {E} (height : Z) (fees : Amount) (network : Network) : outcome E Amount :=
  let subsidy_sats := 50 * ONE_BTC in
  let subsidy_halving_interval :=
    match network with Regtest => 150 | _ => SUBSIDY_HALVING_INTERVAL end in
  let halvings := height / subsidy_halving_interval in
  if 64 <=? halvings then Ok fees
  else expect (checked_add 64 fees (Z.shiftr subsidy_sats halvings)).

Definition WITNESS_RESERVED_VALUE : bytes := replicate 32 x00.
Definition WITNESS_COMMITMENT_HEADER : bytes := [xaa; x21; xa9; xed].

Section mine.
Context `{TxLib} `{SignLib} `{MineLib}.

(** ** Templates *)

(** [reply] is the template server's answer; [template_error] is what the producer's
    own hooks recorded ([last_gbt_error]). *)
Definition fetch_block_template (reply : ClientError + BlockTemplate) (template_error : option string) :
    outcome GetBlockTemplateError BlockTemplate :=
  map_err (λ source, mkGetBlockTemplate source template_error) (of_sum reply).

Definition select_block_txs (reply : ClientError + BlockTemplate) (template_error : option string)
    (mainchain_tip : BlockHash) : outcome SelectBlockTxsError (list Transaction) :=
  template ← map_err GetBlockTemplateFailed (fetch_block_template reply template_error);
  _ ← reject_if (negb (bool_decide (template_prev_blockhash template = mainchain_tip)))
        (TemplateTipMismatch (template_prev_blockhash template) mainchain_tip);
  for_each (λ '(txid, data) res,
    transaction ← ok_or (tx_deserialize data) (DecodeTemplateTransaction txid);
    Ok (res ++ [transaction])) (template_transactions template) [].

(** ** Blocks *)

Definition finalize_coinbase {E} (best_block_height : Z) (coinbase_spk : Script) (coinbase_outputs : list TxOut) :
    outcome E Transaction :=
  next ← expect (checked_add 32 best_block_height 1);
  let script_sig := push_opcode (push_int [] next) OP_0 in
  value ← get_block_value next 0 Regtest;
  let output := if 0 <? value then [mkTxOut value coinbase_spk]
                else [mkTxOut 0 (push_opcode [] OP_RETURN)] in
  Ok (mkTransaction 2 0
        [mkTxIn (mkOutPoint all_zeros 0xffffffff) script_sig 0xffffffff [WITNESS_RESERVED_VALUE]]
        (output ++ coinbase_outputs)).

(** [block.txdata[0].output.push(..)] *)
Definition push_coinbase_output {E} (o : TxOut) (txs : list Transaction) : outcome E (list Transaction) :=
  match txs with
  | cb :: txs => Ok (mkTransaction (version cb) (lock_time cb) (input cb) (output cb ++ [o]) :: txs)
  | [] => Panic
  end.

(** [now] is the clock in seconds since the epoch, [None] before it. *)
Definition finalize_block (db : Dbs) (now : option Z) (coinbase_spk : Script) (coinbase_outputs : list TxOut)
    (transactions : list Transaction) : outcome FinalizeBlockError MinedBlock :=
  best_block_hash ← map_err FinalizeGetMainchainTip (get_mainchain_tip db);
  tip_header ← map_err FinalizeGetHeaderInfo (get_header_info (block_hashes db) best_block_hash);
  coinbase_tx ← finalize_coinbase (height tip_header) coinbase_spk coinbase_outputs;
  let txdata := coinbase_tx :: transactions in
  now ← ok_or now FinalizeSystemTime;
  let timestamp := Z.max (wrap_u 32 now) (saturating_add 32 (timestamp tip_header) 1) in
  witness_root ← expect (witness_root txdata);
  let witness_commitment := compute_witness_commitment witness_root WITNESS_RESERVED_VALUE in
  push_bytes ← ok_or (push_bytes_extend WITNESS_COMMITMENT_HEADER witness_commitment) FinalizeScript;
  txdata ← push_coinbase_output (mkTxOut 0 (new_op_return push_bytes)) txdata;
  merkle_root ← expect (calculate_root_inline (map compute_txid txdata));
  Ok (mkMinedBlock
        (mkMinedHeader NO_SOFT_FORK_SIGNALLING best_block_hash merkle_root timestamp regtest_genesis_bits 0)
        txdata).

Definition set_nonce (h : MinedHeader) (nonce : Z) : MinedHeader :=
  mkMinedHeader (h_version h) (h_prev_blockhash h) (h_merkle_root h) (h_time h) (h_bits h) nonce.

(** The proof-of-work [loop]; [None] is out of fuel. *)
Fixpoint grind {E} (fuel : nat) (h : MinedHeader) : option (outcome E MinedHeader) :=
  match fuel with
  | O => None
  | S fuel =>
      match checked_add 32 (h_nonce h) 1 with
      | None => Some Panic
      | Some nonce =>
          let h := set_nonce h nonce in
          if validate_pow h then Some (Ok h) else grind fuel h
      end
  end.

(** [polls]: the databases at each poll before the timeout. *)
Fixpoint await_block_connection (polls : list Dbs) (bh : BlockHash) : outcome AwaitBlockConnectionError unit :=
  match polls with
  | [] => Err (AwaitTimeout bh)
  | db :: polls =>
      infos ← map_err AwaitTryGetBlockInfos (try_get_block_infos (block_hashes db) bh 0);
      match infos with Some _ => Ok tt | None => await_block_connection polls bh end
  end.

(** [submit_block]: the node's answer, a reason when it refuses the block. *)
Definition mine (fuel : nat) (db : Dbs) (now : option Z) (submit_block : bytes → ClientError + option string)
    (polls : list Dbs) (coinbase_spk : Script) (coinbase_outputs : list TxOut) (transactions : list Transaction) :
    option (outcome MineError BlockHash) :=
  match map_err MineFinalizeBlock (finalize_block db now coinbase_spk coinbase_outputs transactions) with
  | Err e => Some (Err e)
  | Panic => Some Panic
  | Ok block =>
      ground ← grind fuel (mb_header block);
      Some (
        header ← ground;
        block_bytes ← ok_or (block_encode (mkMinedBlock header (mb_txdata block))) MineEncodeBlock;
        answer ← map_err MineBitcoinCoreRPC (of_sum (submit_block block_bytes));
        _ ← (match answer with Some reason => Err (BlockRejected reason) | None => Ok tt end);
        _ ← map_err MineAwait (await_block_connection polls (mined_block_hash header));
        Ok (mined_block_hash header))
  end.

(** ** Preconditions *)

Record mining_config := mkMiningConfig {
  enable_block_template_server : bool;
  bitcoin_cli_path : string;
  bitcoin_util_path : string
}.

(** [which]: whether the command finds the binary, if it can be run. *)
Definition check_has_binary (which : string → option bool) (binary : string) : outcome VerifyCanMineError unit :=
  found ← ok_or (which binary) (MissingBinary binary true);
  reject_if (negb found) (MissingBinary binary false).

(** [get_address_info]: the node's answer for an address, its [is_mine]. *)
Definition verify_can_mine (network : Network) (config : mining_config) (blocks : Z)
    (reply : ClientError + BlockTemplate) (template_error : option string)
    (get_address_info : bytes → ClientError + bool) (which : string → option bool) : outcome VerifyCanMineError unit :=
  match network with
  | Regtest => Ok tt
  | Signet =>
      _ ← reject_if (negb (enable_block_template_server config)) NoBlockTemplateServerOnSignet;
      _ ← reject_if (1 <? blocks) MultipleBlocksOnSignet;
      template ← map_err CanMineTemplate (fetch_block_template reply template_error);
      signet_challenge ← ok_or (template_signet_challenge template) NoSignetChallengeFound;
      address ← ok_or (signet_address signet_challenge) ParseSignetChallenge;
      is_mine ← map_err CanMineRpc (of_sum (get_address_info address));
      _ ← reject_if (negb is_mine) (SignetChallengeAddressMissing address);
      _ ← check_has_binary which "python3"%string;
      _ ← check_has_binary which (bitcoin_cli_path config);
      check_has_binary which (bitcoin_util_path config)
  | network => Err (CanMineNetwork network)
  end.

(** ** generate_block

    The validator runs concurrently: [db_tip] is what the handler reads before it
    asks for a template, [db] what [finalize_block] reads after the answer. *)
Definition generate_block (fuel : nat) (network : Network)
    (signet : outcome GenerateSignetBlockError BlockHash) (db_tip db : Dbs) (now : option Z)
    (reply : ClientError + BlockTemplate) (template_error : option string)
    (submit_block : bytes → ClientError + option string) (polls : list Dbs) (coinbase_spk : Script) :
    option (outcome GenerateBlockError BlockHash) :=
  if bool_decide (network = Signet) then Some (map_err GenerateSignetBlock signet) else
  match try_get_mainchain_tip db_tip with
  | None => Some (Err ValidatorNotSynced)
  | Some mainchain_tip =>
      match map_err GenerateSelectBlockTxs (select_block_txs reply template_error mainchain_tip) with
      | Err e => Some (Err e)
      | Panic => Some Panic
      | Ok transactions =>
          map_err GenerateMine <$> mine fuel db now submit_block polls coinbase_spk [] transactions
      end
  end.
End mine.

(** * Lemmas *)

(** The subsidy. *)
Lemma shiftr_bounds a n : 0 ≤ a → 0 ≤ n → 0 ≤ Z.shiftr a n ≤ a.
Proof.
  intros Ha Hn. rewrite Z.shiftr_div_pow2 by done. split; [by apply Z.div_pos; [|lia]|].
  apply Z.div_le_upper_bound; nia.
Qed.

Lemma get_block_value_subsidy {E} h network :
  0 ≤ h → ∃ s, @get_block_value E h 0 network = Ok s ∧ 0 ≤ s ≤ 50 * ONE_BTC.
Proof.
  intros Hh. unfold get_block_value. set (n := h / _).
  assert (0 ≤ n) by (apply Z.div_pos; [done|by destruct network]).
  case_match eqn:Hn; [by exists 0|]. eexists. split.
  - unfold checked_add. pose proof (shiftr_bounds (50 * ONE_BTC) n).
    rewrite (proj2 (Z.ltb_lt _ _)); [done|]. unfold ONE_BTC in *. lia.
  - cbn. apply shiftr_bounds; done.
Qed.

Section mine_lemmas.
Context `{TxLib} `{SignLib} `{MineLib}.

(** The loop tries the nonces in order, up to the valid one, or to the overflow. *)
Lemma grind_total {E} fuel h :
  0 ≤ h_nonce h < 2 ^ 32 → (Z.to_nat (2 ^ 32 - h_nonce h) ≤ fuel)%nat →
  (∃ n, h_nonce h < n < 2 ^ 32 ∧ validate_pow (set_nonce h n) = true
        ∧ (∀ m, h_nonce h < m < n → validate_pow (set_nonce h m) = false)
        ∧ @grind _ E fuel h = Some (Ok (set_nonce h n)))
  ∨ ((∀ m, h_nonce h < m < 2 ^ 32 → validate_pow (set_nonce h m) = false)
     ∧ @grind _ E fuel h = Some Panic).
Proof.
  revert h. induction fuel as [|fuel IH]; intros h Hh Hf; [lia|].
  cbn [grind]. unfold checked_add. destruct (Z.ltb_spec (h_nonce h + 1) (2 ^ 32)); [|right; split; [lia|done]].
  destruct (validate_pow (set_nonce h (h_nonce h + 1))) eqn:Hv.
  { left. exists (h_nonce h + 1). split_and!; [lia..|done|lia|done]. }
  assert (∀ m, h_nonce h < m → m ≤ h_nonce h + 1 → validate_pow (set_nonce h m) = false) as Hnext.
  { intros m H3 H4. by replace m with (h_nonce h + 1) by lia. }
  destruct (IH (set_nonce h (h_nonce h + 1))) as [(n & Hn & Hp & Hlow & Hg)|[Hlow Hg]]; cbn in *; [lia..| |].
  - left. exists n. split_and!; [lia..|done| |done]. intros m Hm.
    destruct (Z.le_gt_cases m (h_nonce h + 1)); [apply Hnext; lia|apply Hlow; lia].
  - right. split; [|done]. intros m Hm.
    destruct (Z.le_gt_cases m (h_nonce h + 1)); [apply Hnext; lia|apply Hlow; lia].
Qed.

Lemma grind_Ok {E} fuel h h' :
  @grind _ E fuel h = Some (Ok h') → validate_pow h' = true ∧ ∃ n, h' = set_nonce h n.
Proof.
  revert h. induction fuel as [|fuel IH]; intros h; [done|]. cbn.
  destruct (checked_add _ _ _) as [n|]; [|done].
  destruct (validate_pow (set_nonce h n)) eqn:Hv; [intros [= <-]; by eauto|].
  intros Hg. destruct (IH _ Hg) as [Hv' [n' ->]]. split; [done|]. by exists n'.
Qed.

(** The selected transactions are the template's, decoded, on the expected tip. *)
Lemma select_block_txs_Ok reply e tip txs :
  select_block_txs reply e tip = Ok txs →
  ∃ t, reply = inr t ∧ template_prev_blockhash t = tip
    ∧ map (λ p, tx_deserialize p.2) (template_transactions t) = map Some txs.
Proof.
  unfold select_block_txs, fetch_block_template. intros Hs.
  apply bind_Ok in Hs as (t & Ht%map_err_Ok%map_err_Ok%of_sum_Ok & Hs). apply bind_Ok in Hs as ([] & Hr & Hs).
  apply reject_if_Ok in Hr. apply negb_false_iff, bool_decide_eq_true in Hr. exists t. split_and!; [done..|].
  assert (∀ l acc txs, for_each (λ '(txid, data) res,
    transaction ← ok_or (tx_deserialize data) (DecodeTemplateTransaction txid); Ok (res ++ [transaction])) l acc = Ok txs →
    ∃ new, txs = acc ++ new ∧ map (λ p : Txid * bytes, tx_deserialize p.2) l = map Some new) as Hl.
  { clear. induction l as [|[txid data] l IH]; intros acc txs; cbn.
    - intros [= <-]. exists []. by rewrite app_nil_r.
    - intros Hf. apply bind_Ok in Hf as (acc' & Hd & Hf). apply bind_Ok in Hd as (tx & Hd%ok_or_Ok & [= <-]).
      destruct (IH _ _ Hf) as (new & -> & Hm). exists (tx :: new). rewrite <-(assoc (++)). split; [done|].
      cbn. by rewrite Hd, Hm. }
  by destruct (Hl _ _ _ Hs) as (new & -> & Hm).
Qed.

(** A finalized block. *)
Record finalized (db : Dbs) (now : Z) (coinbase_spk : Script) (coinbase_outputs : list TxOut)
    (transactions : list Transaction) (tip : HeaderInfo) (b : MinedBlock) : Prop := {
  fin_tip : current_chain_tip db = Some (h_prev_blockhash (mb_header b));
  fin_info : get_header_info (block_hashes db) (h_prev_blockhash (mb_header b)) = Ok tip;
  fin_time : h_time (mb_header b) = Z.max (wrap_u 32 now) (Z.min (timestamp tip + 1) (2 ^ 32 - 1));
  fin_merkle : calculate_root_inline (map compute_txid (mb_txdata b)) = Some (h_merkle_root (mb_header b));
  fin_nonce : h_nonce (mb_header b) = 0;
  fin_txdata : ∃ cb reward root push,
    finalize_coinbase (E:=FinalizeBlockError) (height tip) coinbase_spk coinbase_outputs = Ok cb
    ∧ output cb = reward :: coinbase_outputs ∧ 0 ≤ value reward ≤ 50 * ONE_BTC
    ∧ (0 < value reward → script_pubkey reward = coinbase_spk)
    ∧ witness_root (cb :: transactions) = Some root
    ∧ push_bytes_extend WITNESS_COMMITMENT_HEADER (compute_witness_commitment root WITNESS_RESERVED_VALUE) = Some push
    ∧ mb_txdata b = mkTransaction (version cb) (lock_time cb) (input cb)
                      (output cb ++ [mkTxOut 0 (new_op_return push)]) :: transactions
}.

Lemma finalize_coinbase_Ok {E} h spk outs cb :
  0 ≤ h → @finalize_coinbase _ _ E h spk outs = Ok cb →
  ∃ reward, output cb = reward :: outs ∧ 0 ≤ value reward ≤ 50 * ONE_BTC
    ∧ (0 < value reward → script_pubkey reward = spk).
Proof.
  unfold finalize_coinbase. intros Hh Hc. apply bind_Ok in Hc as (next & Hn%expect_Ok & Hc).
  unfold checked_add in Hn. case_match; [|done]. injection Hn as <-.
  apply bind_Ok in Hc as (v & Hv & Hc). injection Hc as <-. cbn.
  destruct (@get_block_value_subsidy E (h + 1) Regtest) as (s & Hs & Hb); [lia|]. rewrite Hs in Hv. injection Hv as <-.
  destruct (Z.ltb_spec 0 s); cbn; eexists; (split; [done|]); cbn; split; [lia|done|unfold ONE_BTC; lia|lia].
Qed.

Lemma get_header_info_height db bh i :
  get_header_info db bh = Ok i → map_Forall (λ _ h, in_u 32 h) (heights db) → 0 ≤ height i.
Proof.
  unfold get_header_info, try_get_header_info. intros Hg Hf.
  apply bind_Ok in Hg as (o & Ho%map_err_Ok & ->%ok_or_Ok).
  destruct (headers db !! bh) as [hd|]; [|done]. case_bool_decide; [done|].
  apply bind_Ok in Ho as (h & Hh%ok_or_Ok & [= <-]). cbn. destruct (Hf _ _ Hh). done.
Qed.

Lemma finalize_block_Ok db now spk outs txs b :
  finalize_block db now spk outs txs = Ok b →
  ∃ tip secs, now = Some secs
    ∧ (map_Forall (λ _ h, in_u 32 h) (heights (block_hashes db)) → finalized db secs spk outs txs tip b).
Proof.
  unfold finalize_block. intros Hb. apply bind_Ok in Hb as (bh & Hbh%map_err_Ok & Hb).
  apply bind_Ok in Hb as (tip & Htip%map_err_Ok & Hb). apply bind_Ok in Hb as (cb & Hcb & Hb).
  apply bind_Ok in Hb as (secs & ->%ok_or_Ok & Hb). apply bind_Ok in Hb as (root & Hroot%expect_Ok & Hb).
  apply bind_Ok in Hb as (push & Hpush%ok_or_Ok & Hb). apply bind_Ok in Hb as (txdata & Htx & Hb).
  apply bind_Ok in Hb as (mr & Hmr%expect_Ok & [= <-]). injection Htx as <-.
  exists tip, secs. split; [done|]. intros Hh%(get_header_info_height _ _ _ Htip).
  split; cbn; try done.
  - by apply ok_or_Ok in Hbh.
  - destruct (finalize_coinbase_Ok _ _ _ _ Hh Hcb) as (reward & Ho & Hr & Hs).
    by exists cb, reward, root, push.
Qed.
End mine_lemmas.

(** A successful wait saw the block in the validator's databases. *)
Lemma await_block_connection_Ok `{TxLib} polls bh :
  await_block_connection polls bh = Ok tt →
  ∃ db infos, db ∈ polls ∧ try_get_block_infos (block_hashes db) bh 0 = Ok (Some infos).
Proof.
  induction polls as [|db polls IH]; [done|]. cbn. intros Ha.
  apply bind_Ok in Ha as ([infos|] & Hi%map_err_Ok & Ha).
  - exists db, infos. split; [apply list_elem_of_here|done].
  - destruct (IH Ha) as (db' & infos & Hin & ?). exists db', infos. split; [by apply list_elem_of_further|done].
Qed.

(** * Properties *)

(** The proof-of-work loop ends: from nonce 0, [2 ^ 32] rounds are enough, and it
    stops at the least nonce from 1 on that meets the target; if there is none, the
    increment overflows. *)
Lemma mining_loop_ends `{MineLib} E h :
  h_nonce h = 0 →
  (∃ n, 0 < n < 2 ^ 32 ∧ validate_pow (set_nonce h n) = true
        ∧ (∀ m, 0 < m < n → validate_pow (set_nonce h m) = false)
        ∧ @grind _ E (Z.to_nat (2 ^ 32)) h = Some (Ok (set_nonce h n)))
  ∨ ((∀ m, 0 < m < 2 ^ 32 → validate_pow (set_nonce h m) = false)
     ∧ @grind _ E (Z.to_nat (2 ^ 32)) h = Some Panic).
Proof. intros Hh. rewrite <-Hh. apply grind_total; lia. Qed.

(** What a mined block is: its template was built on the tip read before it was
    fetched, it is finalized on the tip read after, it has proof of work, the node
    took it, and the validator's databases were then seen to have it. *)
Definition mined `{TxLib} `{SignLib} `{MineLib} (db_tip db : Dbs) (now : option Z) (reply : ClientError + BlockTemplate)
    (submit_block : bytes → ClientError + option string) (polls : list Dbs) (coinbase_spk : Script) (bh : BlockHash) : Prop :=
  ∃ t txs b tip secs header encoded,
    reply = inr t ∧ current_chain_tip db_tip = Some (template_prev_blockhash t)
    ∧ map (λ p, tx_deserialize p.2) (template_transactions t) = map Some txs
    ∧ now = Some secs ∧ finalized db secs coinbase_spk [] txs tip b
    ∧ (∃ n, header = set_nonce (mb_header b) n) ∧ validate_pow header = true
    ∧ block_encode (mkMinedBlock header (mb_txdata b)) = Some encoded ∧ submit_block encoded = inr None
    ∧ bh = mined_block_hash header
    ∧ ∃ db' infos, db' ∈ polls ∧ try_get_block_infos (block_hashes db') bh 0 = Ok (Some infos).

Lemma generate_block_Ok `{TxLib} `{SignLib} `{MineLib}
    fuel network signet db_tip db now reply template_error submit_block polls coinbase_spk bh :
  generate_block fuel network signet db_tip db now reply template_error submit_block polls coinbase_spk
    = Some (Ok bh) →
  network ≠ Signet → map_Forall (λ _ h, in_u 32 h) (heights (block_hashes db)) →
  mined db_tip db now reply submit_block polls coinbase_spk bh.
Proof.
  unfold generate_block, mine, try_get_mainchain_tip, mined. intros Hg Hnet Hh.
  rewrite bool_decide_false in Hg by done. destruct (current_chain_tip db_tip) as [mt|] eqn:Ht; [|done].
  destruct (map_err GenerateSelectBlockTxs _) as [txs|e|] eqn:Hs; [|done|done].
  apply map_err_Ok, select_block_txs_Ok in Hs as (t & Hr & Hmt & Hm).
  destruct (map_err MineFinalizeBlock _) as [b|e|] eqn:Hb; [|done|done].
  apply map_err_Ok, finalize_block_Ok in Hb as (tip & secs & Hnow & Hb).
  destruct (grind fuel (mb_header b)) as [g|] eqn:Hgr; [|done]. cbn [fmap option_fmap option_map mbind option_bind] in Hg.
  injection Hg as Hg. apply map_err_Ok in Hg. apply bind_Ok in Hg as (header & -> & Hg).
  apply grind_Ok in Hgr as [Hv [n ->]]. apply bind_Ok in Hg as (encoded & He%ok_or_Ok & Hg).
  apply bind_Ok in Hg as (answer & Ha%map_err_Ok%of_sum_Ok & Hg). apply bind_Ok in Hg as ([] & Hans & Hg).
  destruct answer; [done|]. apply bind_Ok in Hg as ([] & Hw%map_err_Ok & [= <-]).
  apply await_block_connection_Ok in Hw.
  eexists t, txs, b, tip, secs, _, encoded. rewrite Hmt. split_and!; try done.
  - by apply Hb.
  - by exists n.
Qed.


(** The signet of the constant is never recognised: its challenge is the 22 bytes
    the constant spells in hexadecimal, not its 44 characters. *)
Lemma target_block_interval_22 challenge : len challenge = 22 → target_block_interval challenge = 600.
Proof.
  intros Hl. unfold target_block_interval. case_bool_decide as Hb; [|done].
  subst challenge. vm_compute in Hl. discriminate.
Qed.

(** * Witnesses *)

#[local] Instance in_u_dec w z : Decision (in_u w z).
Proof. unfold in_u. apply _. Defined.

(** Blocks encode as their nonce; nonces that are multiples of three meet the
    target; the only template transaction decodes from one byte. *)
Definition toy_mine : MineLib := {|
  push_int s n := s ++ le_bytes 4 n;
  new_op_return b := OP_RETURN :: b;
  push_bytes_extend a b := Some (a ++ b);
  witness_root txs := Some (toy_digest 32 (le_bytes 2 (len txs)));
  compute_witness_commitment r v := r;
  calculate_root_inline l := head l;
  regtest_genesis_bits := 0x207fffff;
  validate_pow h := h_nonce h mod 3 =? 0;
  mined_block_hash h := h_prev_blockhash h;
  block_encode b := Some (le_bytes 4 (h_nonce (mb_header b)));
  tx_deserialize d := if bool_decide (d = [x01]) then Some ex_waiting else None;
  signet_address s := Some s
|}.

Lemma mining_loop_ends_witness :
  h_nonce (mkMinedHeader 0 [] [] 0 0 0) = 0
  ∧ ∃ n, 0 < n ∧ n mod 3 = 0
      ∧ @grind toy_mine unit (Z.to_nat (2 ^ 32)) (mkMinedHeader 0 [] [] 0 0 0)
        = Some (Ok (mkMinedHeader 0 [] [] 0 0 n)).
Proof.
  split; [reflexivity|].
  destruct (@mining_loop_ends toy_mine unit (mkMinedHeader 0 [] [] 0 0 0) eq_refl)
    as [(n & Hn & Hv & _ & Hg)|[Hnone _]].
  - exists n. split; [exact (proj1 Hn)|]. split; [apply Z.eqb_eq; exact Hv|exact Hg].
  - discriminate (Hnone 3 ltac:(lia)).
Defined.

Definition ex_tip : BlockHash := default [] (current_chain_tip ex_db1).
Definition ex_template : BlockTemplate := mkBlockTemplate ex_tip [([x05], [x01])] None.
Definition ex_generate := @generate_block toy_tx toy_sign toy_mine 5 Regtest (Err SignetTimeout) ex_db1 ex_db1
  (Some 1700000000) (inr ex_template) None (λ _, inr None) [ex_db1] [x51].

