(* ===== verification/WalletP2mr.v ===== *)
(** The wallet's P2MR operations (`wallet/mod.rs`) and its place in the block
    driver (`wallet/block_producer.rs`): it spends an output of the validator's
    UTXO set with a key of [P2mrStore] and queues the spend in [BlockProducer]. *)
From Stdlib Require Import ZArith Lia Strings.Byte Strings.String.
From stdpp Require Import base list gmap sorting.
From S2P Require Import Prelude Bitcoin Concrete Limits P2mrOutput Merkle Encoding LeafScript.
From S2P Require Import Schemes Spend P2mrUtxo Pqc Dbs BlockHandler Sync Enforcer Signer P2mrStore BlockProducer.
#[local] Open Scope Z_scope.

(** [bdk_wallet::IsDust]. *)
Class DustLib := { is_dust : Amount → Script → bool }.

Definition DEFAULT_P2MR_FEE_SATS : Amount := 1000.

(** A P2MR output of the UTXO set, and whether the wallet has its key. *)
Record P2mrOutput := mkP2mrOutput { po_outpoint : OutPoint; po_txout : TxOut; is_mine : bool }.

Record P2mrSpendOutcome := mkOutcome {
  spend_txid : Txid;
  change_address : option bytes;
  change_sats : Amount
}.

Inductive SpendP2mrError :=
| SpendStore (e : P2mrStoreError)
| UnknownUtxo (outpoint : OutPoint)
| NotOurs (outpoint : OutPoint) (spk : Script)
| AmountBelowDust (amount : Amount) (spk : Script)
| FeeExceedsRemainder (amount fee prevout_value : Amount).

(** The wallet: its producer, with the validator inside, and its key store. *)
Record wallet := mkWallet { w_producer : producer; w_store : store_fs }.

Definition w_db (w : wallet) : Dbs := (p_task (w_producer w)).1.

Definition on_producer {E A} (m : st producer E A) : st wallet E A :=
  λ w, let '(o, p) := m (w_producer w) in (o, mkWallet p (w_store w)).
Definition on_store {E A} (m : st store_fs E A) : st wallet E A :=
  λ w, let '(o, fs) := m (w_store w) in (o, mkWallet (w_producer w) fs).

(** [sort_by_key(|o| (txid, vout))] *)
Definition outpoint_le (a b : P2mrOutput) : Prop := outpoint_leb (po_outpoint a) (po_outpoint b) = true.
#[global] Instance outpoint_le_dec a b : Decision (outpoint_le a b).
Proof. unfold outpoint_le. apply _. Defined.

Section wallet.
Context `{HashLib} `{ScriptLib} `{TxLib} `{TaprootLib} `{P2mrLib} `{PqcLib}.
Context `{SignLib} `{StoreLib} `{OrderMapLib} `{TemplateLib} `{GetBlockV3} `{DustLib}.

Definition create_p2mr_address (rng : nat → option bytes) (readable : bool) (fault : write_fault)
    (scheme : P2mrScheme) : st wallet P2mrStoreError P2mrAddressRecord :=
  on_store (create rng readable fault scheme).

(** The loop over the UTXO set, in the order the table is iterated in. *)
Definition list_p2mr_outputs (readable : bool) (w : wallet) : outcome P2mrStoreError (list P2mrOutput) :=
  out ← for_each (λ '(outpoint, txout) out,
          found ← get_by_spk readable (w_store w) (script_pubkey txout);
          Ok (out ++ [mkP2mrOutput outpoint txout (bool_decide (is_Some found))]))
          (map_to_list (validator_p2mr_utxos (w_db w))) [];
  Ok (merge_sort outpoint_le out).

(** [amount.checked_add(fee).filter(|total| *total <= prevout_value)] *)
Definition spend_total (amount fee prevout_value : Amount) : option Amount :=
  match checked_add 64 amount fee with
  | Some total => if total <=? prevout_value then Some total else None
  | None => None
  end.

(** The change output, minted at a new address of the scheme: the outputs, the
    change address and amount, and the fee actually paid. *)
Definition add_change (rng : nat → option bytes) (readable : bool) (fault : write_fault) (network : Network)
    (record : P2mrAddressRecord) (prevout : TxOut) (amount fee change : Amount) (outputs : list TxOut) :
    st wallet SpendP2mrError (list TxOut * option bytes * Amount * Amount) :=
  if 0 <? change then
    if is_dust change (script_pubkey prevout) then mret (outputs, None, 0, value prevout - amount)
    else
      change_record ← st_map_err SpendStore (on_store (create rng readable fault (rec_scheme record)));
      addr ← st_lift (map_err SpendStore (address change_record network));
      mret (outputs ++ [mkTxOut change (rec_script_pubkey change_record)], Some addr, change, fee)
  else mret (outputs, None, 0, fee).

(** [destination.script_pubkey()] is the argument [dest_spk]. *)
Definition spend_p2mr (rng : nat → option bytes) (readable : bool) (fault : write_fault) (network : Network)
    (outpoint : OutPoint) (dest_spk : Script) (amount : Amount) (fee_sats : option Amount) :
    st wallet SpendP2mrError P2mrSpendOutcome :=
  w ← st_get;
  prevout ← st_lift (ok_or (get_p2mr_utxo (w_db w) outpoint) (UnknownUtxo outpoint));
  found ← st_lift (map_err SpendStore (get_by_spk readable (w_store w) (script_pubkey prevout)));
  record ← st_lift (ok_or found (NotOurs outpoint (script_pubkey prevout)));
  _ ← st_lift (reject_if (is_dust amount dest_spk) (AmountBelowDust amount dest_spk));
  let fee := default DEFAULT_P2MR_FEE_SATS fee_sats in
  total ← st_lift (ok_or (spend_total amount fee (value prevout))
                     (FeeExceedsRemainder amount fee (value prevout)));
  let change := value prevout - total in
  '(outputs, change_address, change_sats, actual_fee) ←
    add_change rng readable fault network record prevout amount fee change [mkTxOut amount dest_spk];
  tx ← st_lift (map_err SpendStore (build_spend record outpoint prevout outputs SighashDefault));
  txid ← on_producer (λ p, let '(txid, p) := enqueue_p2mr_spend tx actual_fee p in (Ok txid, p));
  mret (mkOutcome txid change_address change_sats).

(** ** The driver's calls

    [sync_wallet]: the result of bringing the bdk wallet to the block. *)
Inductive WalletConnectError := WalletValidator (e : EnforcerConnectError) | WalletSync.

Definition wallet_connect_block (v : BlockHandler) (parsed : option GbBlock) (clock : list Z)
    (sync_wallet : bool) (block : Block) : st wallet WalletConnectError ConnectBlockAction :=
  res ← st_map_err WalletValidator (on_producer (connect_block_validator v parsed clock block));
  _ ← (match res with
       | ConnectAccept _ =>
           _ ← on_producer (update (reap_confirmed_p2mr_spends block));
           st_lift (reject_if (negb sync_wallet) WalletSync)
       | ConnectReject => mret tt
       end);
  mret res.

Definition wallet_disconnect_block (bh : BlockHash) : st wallet DisconnectBlockError unit :=
  on_producer (producer_disconnect_block bh).
Definition wallet_accept_tx (v : BlockHandler) (tx : Transaction) : st wallet ValidateTransactionError TxAcceptAction :=
  on_producer (producer_accept_tx v tx).
Definition wallet_validate_block (v : BlockHandler) (clock : list Z) (block : Block) :
    st wallet DbError (option PqcValidationError) :=
  on_producer (producer_validate_block v clock block).
Definition wallet_initial_block_template (suffix_txs : list SuffixTxsItem) :
    st wallet InitialBlockTemplateError (list SuffixTxsItem) :=
  on_producer (initial_block_template suffix_txs).
Definition wallet_finalize_block_template (suffix_txs : list (Transaction * Amount)) :
    st wallet FinalizeBlockTemplateError (list (Transaction * Amount)) :=
  on_producer (finalize_block_template suffix_txs).

(** The tip [get_wallet_info] reports: [bdk_tip] is the bdk wallet's. *)
Definition wallet_info_tip (bdk_tip : BlockHash * Z) (db : Dbs) : BlockHash * Z :=
  match try_get_block_height db with
  | Ok (Some validator_height) =>
      if validator_height <? bdk_tip.2 then (default bdk_tip.1 (try_get_mainchain_tip db), validator_height)
      else bdk_tip
  | _ => bdk_tip
  end.
End wallet.

(** * Lemmas *)
Section lemmas.
Context `{HashLib} `{ScriptLib} `{!ScriptLaws} `{TxLib} `{TaprootLib} `{!SighashLaws} `{P2mrLib} `{!MerkleLaws}.
Context `{PqcLib} `{SignLib} `{!SignLaws} `{StoreLib} `{!StoreLaws}.
Context `{OrderMapLib} `{TemplateLib} `{GetBlockV3} `{DustLib}.

(** The store after a step: the old records, and at most one new one. *)
Definition store_grows (fs fs' : store_fs) : Prop :=
  ∀ l, stored fs = Some l → Forall record_ok l →
  ∃ new, stored fs' = Some (l ++ new) ∧ Forall record_ok (l ++ new) ∧ (length new ≤ 1)%nat.

Lemma store_grows_refl fs : store_grows fs fs.
Proof. intros l Hl Hok. exists []. rewrite app_nil_r. split_and!; [done..|cbn; lia]. Qed.

Lemma create_grows rng readable fault scheme fs o fs' :
  create rng readable fault scheme fs = (o, fs') → store_grows fs fs'.
Proof.
  intros Hc l Hl Hok. pose proof (create_outcome rng readable fault scheme fs l Hl Hok) as Ho.
  rewrite Hc in Ho. destruct o as [r|e|].
  - destruct Ho as (Hs & Hr & _). by exists [r].
  - exists []. rewrite app_nil_r. split_and!; [done..|cbn; lia].
  - exists []. rewrite app_nil_r. split_and!; [done..|cbn; lia].
Qed.

(** Whatever [add_change] returns, it touches only the store. *)
Lemma add_change_frame rng readable fault network record prevout amount fee change outputs w o w' :
  add_change rng readable fault network record prevout amount fee change outputs w = (o, w') →
  w_producer w' = w_producer w ∧ store_grows (w_store w) (w_store w').
Proof.
  unfold add_change. destruct (0 <? change); [|intros [= _ <-]; split; [done|apply store_grows_refl]].
  destruct (is_dust change _); [intros [= _ <-]; split; [done|apply store_grows_refl]|].
  unfold mbind at 1, st_bind at 1, st_map_err, on_store.
  destruct (create rng readable fault (rec_scheme record) (w_store w)) as [r fs'] eqn:Hc.
  apply create_grows in Hc. destruct r as [r|e|]; cbn [fst snd map_err]; [|by intros [= _ <-]..].
  unfold mbind at 1, st_bind at 1, st_lift. destruct (map_err SpendStore _); by intros [= _ <-].
Qed.

(** A change output pays a key the store now holds. *)
Definition change_spec (w' : wallet) (record : P2mrAddressRecord) (prevout : TxOut) (fee actual_fee : Amount)
    (changes : list TxOut) (addr : option bytes) (sats : Amount) : Prop :=
  match addr with
  | Some _ => ∃ r r', changes = [mkTxOut sats (rec_script_pubkey r)] ∧ 0 < sats
      ∧ is_dust sats (script_pubkey prevout) = false ∧ actual_fee = fee ∧ rec_scheme r = rec_scheme record
      ∧ get_by_spk true (w_store w') (rec_script_pubkey r) = Ok (Some r')
      ∧ rec_script_pubkey r' = rec_script_pubkey r
  | None => changes = [] ∧ sats = 0
      ∧ (actual_fee = fee ∨ 0 < actual_fee - fee ∧ is_dust (actual_fee - fee) (script_pubkey prevout) = true)
  end.

Lemma add_change_Ok rng readable fault network record prevout amount fee outputs w outs addr sats afee w' :
  store_ok (w_store w) → amount + fee ≤ value prevout →
  add_change rng readable fault network record prevout amount fee (value prevout - (amount + fee)) outputs w
    = (Ok (outs, addr, sats, afee), w') →
  ∃ changes, outs = outputs ++ changes ∧ value prevout = amount + total_value changes + afee
    ∧ change_spec w' record prevout fee afee changes addr sats.
Proof.
  intros (l & Hl & Hok) Hle. unfold add_change. set (change := value prevout - (amount + fee)).
  destruct (Z.ltb_spec 0 change) as [Hpos|Hpos].
  2: { intros [= <- <- <- <- _]. exists []. rewrite app_nil_r. cbn. split_and!; [done|lia|done|done|by left]. }
  destruct (is_dust change (script_pubkey prevout)) eqn:Hd.
  { intros [= <- <- <- <- _]. exists []. rewrite app_nil_r. cbn. split_and!; [done|lia|done|done|].
    right. replace (value prevout - amount - fee) with change by lia. done. }
  unfold mbind at 1, st_bind at 1, st_map_err, on_store.
  pose proof (create_outcome rng readable fault (rec_scheme record) (w_store w) l Hl Hok) as Hc.
  destruct (create rng readable fault (rec_scheme record) (w_store w)) as [[r|e|] fs']; cbn [fst snd map_err]; [|done|done].
  destruct Hc as (_ & _ & Hsch & r' & Hget & Hr').
  unfold mbind at 1, st_bind at 1, st_lift. destruct (map_err SpendStore _) as [a|e|]; [|done|done].
  intros [= <- <- <- <- <-]. exists [mkTxOut change (rec_script_pubkey r)]. split; [done|].
  split; [cbn; lia|]. by exists r, r'.
Qed.

(** What precedes the change output: the spent output, its key and the amounts. *)
Lemma spend_p2mr_Ok rng readable fault network outpoint dest_spk amount fee_sats w outcome w' :
  spend_p2mr rng readable fault network outpoint dest_spk amount fee_sats w = (Ok outcome, w') →
  ∃ prevout record w1 outs afee tx,
    load_map (w_db w) !! outpoint = Some prevout
    ∧ get_by_spk readable (w_store w) (script_pubkey prevout) = Ok (Some record)
    ∧ is_dust amount dest_spk = false
    ∧ amount + default DEFAULT_P2MR_FEE_SATS fee_sats ≤ value prevout
    ∧ add_change rng readable fault network record prevout amount (default DEFAULT_P2MR_FEE_SATS fee_sats)
        (value prevout - (amount + default DEFAULT_P2MR_FEE_SATS fee_sats)) [mkTxOut amount dest_spk] w
      = (Ok (outs, change_address outcome, change_sats outcome, afee), w1)
    ∧ build_spend record outpoint prevout outs SighashDefault = Ok tx
    ∧ spend_txid outcome = compute_txid tx
    ∧ w' = mkWallet (enqueue_p2mr_spend tx afee (w_producer w1)).2 (w_store w1).
Proof.
  unfold spend_p2mr. set (fee := default DEFAULT_P2MR_FEE_SATS fee_sats). intros Hs.
  apply st_bind_Ok in Hs as (? & ? & [= <- <-] & Hs).
  apply st_bind_Ok in Hs as (prevout & ? & [Hp%ok_or_Ok ->]%st_lift_Ok & Hs).
  apply st_bind_Ok in Hs as (found & ? & [Hf%map_err_Ok ->]%st_lift_Ok & Hs).
  apply st_bind_Ok in Hs as (record & ? & [Hr%ok_or_Ok ->]%st_lift_Ok & Hs). subst found.
  apply st_bind_Ok in Hs as ([] & ? & [Hd%reject_if_Ok ->]%st_lift_Ok & Hs).
  apply st_bind_Ok in Hs as (total & ? & [Ht%ok_or_Ok ->]%st_lift_Ok & Hs).
  assert (amount + fee ≤ value prevout ∧ total = amount + fee) as [Hle ->].
  { revert Ht. unfold spend_total, checked_add. destruct (_ <? _); [|done].
    destruct (Z.leb_spec (amount + fee) (value prevout)); [|done]. by intros [= <-]. }
  apply st_bind_Ok in Hs as ([[[outs addr] sats] afee] & w1 & Hc & Hs).
  apply st_bind_Ok in Hs as (tx & ? & [Hb%map_err_Ok ->]%st_lift_Ok & Hs).
  apply st_bind_Ok in Hs as (tid & ? & Hq & Hs). injection Hq as <- <-. injection Hs as <- <-.
  exists prevout, record, w1, outs, afee, tx. by split_and!.
Qed.
End lemmas.

Section conflict.
Context `{HashLib} `{ScriptLib} `{TxLib} `{TaprootLib} `{P2mrLib} `{PqcLib}.

(** ** A second spend of a P2MR output in a block *)

Lemma spend_deletes op inputs u :
  u_available u !! op = None ∨ op ∈ map previous_output inputs →
  u_available (foldl validation_spend u inputs) !! op = None.
Proof.
  assert (∀ i u op, u_available (validation_spend u i) !! op
                    = if bool_decide (op = previous_output i) then None else u_available u !! op) as Hone.
  { clear. intros i u op. unfold validation_spend.
    destruct (u_available u !! previous_output i) as [o|]; [destruct (is_p2mr_script (script_pubkey o))|];
      cbn [u_available]; case_bool_decide as Hop; subst; by rewrite ?lookup_delete_eq, ?lookup_delete_ne. }
  revert u. induction inputs as [|i inputs IH]; intros u Hu; cbn [foldl].
  - destruct Hu as [Hu|Hu]; [done|by apply not_elem_of_nil in Hu].
  - apply IH. rewrite Hone. destruct Hu as [->|[->|Hu]%elem_of_cons]; [left; by case_bool_decide| |by right].
    left. by rewrite bool_decide_true.
Qed.

Lemma create_keeps_missing op tid l u :
  tid ≠ txid op → u_available u !! op = None →
  Forall (λ p : OutPoint * TxOut, txid p.1 = tid) l →
  u_available (foldl validation_create u l) !! op = None.
Proof.
  intros Hne. revert u. induction l as [|[op' o] l IH]; intros u Hu Hl; [done|]. cbn [foldl].
  apply Forall_cons in Hl as [Hop Hl]. apply IH; [|done]. cbn in *. rewrite lookup_insert_ne; [done|].
  intros ->. done.
Qed.

(** A transaction that spends [op], or finds it missing, leaves it missing. *)
Lemma apply_tx_missing op tx u :
  compute_txid tx ≠ txid op →
  u_available u !! op = None ∨ op ∈ map previous_output (input tx) →
  u_available (apply_tx_to_validation_available tx u) !! op = None.
Proof.
  intros Hne Hu. unfold apply_tx_to_validation_available.
  eapply create_keeps_missing; [exact Hne|by apply spend_deletes|].
  unfold tx_outpoints. apply Forall_forall. intros p Hp.
  apply elem_of_lookup_imap in Hp as (i & o & -> & _). done.
Qed.

Lemma apply_txs_missing op txs u :
  Forall (λ tx, compute_txid tx ≠ txid op) txs →
  u_available u !! op = None ∨ (∃ tx, tx ∈ txs ∧ op ∈ map previous_output (input tx)) →
  u_available (foldl (λ u tx, apply_tx_to_validation_available tx u) u txs) !! op = None.
Proof.
  revert u. induction txs as [|tx txs IH]; intros u Hf Hu; cbn [foldl].
  - destruct Hu as [Hu|(tx & Hin & _)]; [done|by apply not_elem_of_nil in Hin].
  - apply Forall_cons in Hf as [Hne Hf]. apply IH; [done|].
    destruct Hu as [Hu|(tx' & [->|Hin]%elem_of_cons & Hop)].
    + left. apply apply_tx_missing; auto.
    + left. apply apply_tx_missing; auto.
    + right. by exists tx'.
Qed.

(** An input that spends an output of the chain's P2MR set must find it. *)
Lemma missing_input_refused tx height activation available chain spent s s' i :
  is_active activation height = true → i ∈ input tx → witness i ≠ [] →
  available !! previous_output i = None → is_Some (chain !! previous_output i) →
  validate_transaction tx height activation available (Some chain) spent s ≠ (Ok tt, s').
Proof.
  intros Hact Hi Hw Hav Hch Hv. apply validate_transaction_Ok in Hv as [[s1 Hs] _]; [|done].
  unfold validate_transaction_spends in Hs. apply st_bind_Ok in Hs as ([] & s2 & _ & Hs).
  apply list_elem_of_lookup in Hi as [k Hk].
  destruct (st_for_each_Ok _ _ _ _ Hs (k, i)) as (s3 & s4 & Hf); [by apply elem_of_enumerate|].
  unfold validate_spend_input in Hf. rewrite Hav in Hf. apply st_lift_Ok in Hf as [Hf _].
  apply reject_if_Ok in Hf. rewrite bool_decide_false in Hf by done.
  by rewrite bool_decide_true in Hf.
Qed.

(** A block that spends an output of the P2MR set twice is refused. *)
Lemma double_spend_refused block height activation chain extra budget clock d op j k t1 t2 i :
  is_active activation height = true → is_Some (chain !! op) →
  Forall (λ tx, compute_txid tx ≠ txid op) (tail (txdata block)) →
  tail (txdata block) !! j = Some t1 → tail (txdata block) !! k = Some t2 → (j < k)%nat →
  op ∈ map previous_output (input t1) → i ∈ input t2 → previous_output i = op → witness i ≠ [] →
  validate_and_diff_block_transactions block height activation chain extra budget clock ≠ Ok d.
Proof.
  intros Hact Hch Hf Hj Hk Hjk Ht1 Hi Hop Hw Hv. unfold validate_and_diff_block_transactions in Hv.
  rewrite Hact in Hv. cbn [negb] in Hv. destruct (seed_coinbase_p2mr_diff _ _ _) as [av cr].
  destruct (validate_txs _ _ _ _ _ _) as [o s'] eqn:Hvt. apply bind_Ok in Hv as (u & -> & _).
  apply validate_txs_Ok in Hvt as [_ Hvt]. destruct (Hvt k t2 Hk) as (s1 & s2 & Hv2).
  eapply missing_input_refused; [exact Hact|exact Hi|exact Hw| |by rewrite Hop|exact Hv2].
  rewrite Hop. unfold utxo_before. apply apply_txs_missing.
  - apply Forall_forall. intros tx Htx. rewrite Forall_forall in Hf. apply Hf.
    eapply elem_of_subseteq; [apply subseteq_take|exact Htx].
  - right. exists t1. split; [|done]. apply list_elem_of_lookup. exists j. by rewrite lookup_take_lt.
Qed.
End conflict.

Section shape.
Context `{HashLib} `{ScriptLib} `{TxLib} `{TaprootLib} `{P2mrLib} `{PqcLib} `{SignLib} `{StoreLib}.

(** A signed spend has the one input, with a witness. *)
Definition spend_shape (tx : Transaction) (op : OutPoint) (outs : list TxOut) : Prop :=
  ∃ i, input tx = [i] ∧ previous_output i = op ∧ witness i ≠ [] ∧ output tx = outs.

Lemma sign_core_shape keypair t prevout op outs r :
  sign_p2mr_spend_core keypair t prevout op outs = Ok r → spend_shape (r_signed_spend_tx r) op outs.
Proof.
  unfold sign_p2mr_spend_core. intros Hs. okinv. eexists. split_and!; cbn; done.
Qed.

Lemma build_spend_shape r op prevout outs t tx :
  build_spend r op prevout outs t = Ok tx → spend_shape tx op outs.
Proof.
  assert (∀ a e, build_p2mr_spend_from_prevout a e t op prevout outs = Ok tx → spend_shape tx op outs) as Hone.
  { intros a e Hb. unfold build_p2mr_spend_from_prevout in Hb.
    apply bind_Ok in Hb as (kp & _ & Hb). apply bind_Ok in Hb as (s & Hs & [= <-]). by eapply sign_core_shape. }
  unfold build_spend. destruct (rec_scheme r); try (intros Hb%map_err_Ok; by eapply Hone).
  intros Hb. apply bind_Ok in Hb as ([ec slh] & _ & Hb%map_err_Ok).
  unfold build_hybrid_ec_slh_spend_from_prevout in Hb. okinv.
  match goal with Hw : set_input0_witness _ _ = _ |- _ => injection Hw as <- end. by eexists.
Qed.
End shape.

(** ** What a computation leaves behind when it fails *)
Definition on_failure {S E A} (P : S → Prop) (r : outcome E A * S) : Prop :=
  match r with (Ok _, _) => True | (_, s) => P s end.

Lemma on_failure_bind {S E A B} (m : st S E A) (k : A → st S E B) (P : S → Prop) s :
  on_failure P (m s) → (∀ a s', m s = (Ok a, s') → on_failure P (k a s')) → on_failure P ((m ≫= k) s).
Proof. unfold mbind, st_bind, on_failure at 1. destruct (m s) as [[a|e|] s0]; intros Hf Hk; [by apply Hk|done..]. Qed.

Lemma on_failure_lift {S E A B} (m : outcome E A) (k : A → st S E B) (P : S → Prop) s :
  P s → (∀ a, m = Ok a → on_failure P (k a s)) → on_failure P ((st_lift m ≫= k) s).
Proof.
  intros Hs Hk. apply on_failure_bind; [by destruct m|]. intros a s' [-> ->]%st_lift_Ok. by apply Hk.
Qed.

(** * Properties *)

(** C13: what a successful [spend_p2mr] did.  It spends an output of the validator's
    P2MR set that the wallet has the key of, with a transaction the validator
    accepts wherever that output is available; the destination gets the amount,
    the spent value is the outputs plus the fee recorded in the queue, and the fee
    is the requested one (or the default), unless the remainder was dust; the
    change, if any, goes to a new key of the same scheme that the store now holds.
    The transaction is queued under its id, the validator is untouched, and the
    store keeps its records and gains at most one, all spendable. *)
Theorem spend_p2mr_correct
    `{HashLib} `{ScriptLib} `{!ScriptLaws} `{TxLib} `{TaprootLib} `{!SighashLaws} `{P2mrLib} `{!MerkleLaws}
    `{PqcLib} `{SignLib} `{!SignLaws} `{StoreLib} `{!StoreLaws} `{OrderMapLib} `{DustLib}
    rng readable fault network outpoint dest_spk amount fee_sats w outcome w' :
  store_ok (w_store w) →
  spend_p2mr rng readable fault network outpoint dest_spk amount fee_sats w = (Ok outcome, w') →
  ∃ prevout record tx changes actual_fee,
    load_map (w_db w) !! outpoint = Some prevout
    ∧ get_by_spk readable (w_store w) (script_pubkey prevout) = Ok (Some record)
    ∧ spend_txid outcome = compute_txid tx
    ∧ w_producer w' = (enqueue_p2mr_spend tx actual_fee (w_producer w)).2
    ∧ map previous_output (input tx) = [outpoint]
    ∧ output tx = mkTxOut amount dest_spk :: changes
    ∧ value prevout = total_value (output tx) + actual_fee
    ∧ change_spec w' record prevout (default DEFAULT_P2MR_FEE_SATS fee_sats) actual_fee changes
        (change_address outcome) (change_sats outcome)
    ∧ store_grows (w_store w) (w_store w')
    ∧ ∀ available height activation chain spent c, available !! outpoint = Some prevout →
        validate_transaction tx height activation available chain spent (mkVerify None c) = (Ok tt, mkVerify None c).
Proof.
  intros Hok Hs. apply spend_p2mr_Ok in Hs
    as (prevout & record & w1 & outs & afee & tx & Hp & Hr & Hd & Hle & Hc & Hb & Htid & ->).
  pose proof (add_change_frame _ _ _ _ _ _ _ _ _ _ _ _ _ Hc) as [Hprod Hgrow].
  pose proof (add_change_Ok _ _ _ _ _ _ _ _ _ _ _ _ _ _ _ Hok Hle Hc) as (changes & -> & Hv & Hch).
  pose proof (build_spend_shape _ _ _ _ _ _ Hb) as (i & Hin & Hop & _ & Hout).
  exists prevout, record, tx, changes, afee. cbn [w_producer w_store]. rewrite Hprod.
  split; [done|]. split; [done|]. split; [done|]. split; [done|].
  split; [by rewrite Hin, <-Hop|]. split; [by rewrite Hout|].
  split; [rewrite Hout; cbn; unfold total_value in Hv; lia|]. split; [exact Hch|]. split; [exact Hgrow|].
  intros available height activation chain spent c Hav.
  by eapply (stored_spend_accepted readable (w_store w) record SighashDefault).
Qed.

(** A spend that fails queues nothing: the producer, with the validator, is the
    one before the call, and the store has at most a new, unused change key. *)
Lemma spend_p2mr_error
    `{HashLib} `{ScriptLib} `{TxLib} `{TaprootLib} `{P2mrLib} `{PqcLib} `{SignLib} `{StoreLib} `{!StoreLaws}
    `{OrderMapLib} `{DustLib} rng readable fault network outpoint dest_spk amount fee_sats w :
  on_failure (λ w', w_producer w' = w_producer w ∧ store_grows (w_store w) (w_store w'))
    (spend_p2mr rng readable fault network outpoint dest_spk amount fee_sats w).
Proof.
  assert (w_producer w = w_producer w ∧ store_grows (w_store w) (w_store w)) as Hw by (split; [done|apply store_grows_refl]).
  unfold spend_p2mr. apply (on_failure_bind st_get); [done|]. intros ? ? [= <- <-].
  do 5 (apply on_failure_lift; [exact Hw|]; intros ? _).
  apply on_failure_bind.
  - destruct (add_change _ _ _ _ _ _ _ _ _ _ _) as [[res|err|] w1] eqn:Hc; [done|..];
      by apply add_change_frame in Hc.
  - intros [[[outs addr] sats] afee] w1 Hc%add_change_frame. by apply on_failure_lift.
Qed.

(** Two distinct transactions of a block's list that spend [op]. *)
Lemma two_spends_refused `{HashLib} `{ScriptLib} `{TxLib} `{TaprootLib} `{P2mrLib} `{PqcLib}
    block cb txs height activation chain extra budget clock d op t1 t2 outs1 outs2 :
  is_active activation height = true → is_Some (chain !! op) → txdata block = cb :: txs →
  Forall (λ tx, compute_txid tx ≠ txid op) txs → t1 ≠ t2 → t1 ∈ txs → t2 ∈ txs →
  spend_shape t1 op outs1 → spend_shape t2 op outs2 →
  validate_and_diff_block_transactions block height activation chain extra budget clock ≠ Ok d.
Proof.
  intros Hact Hch Hb Hf Hne [j Hj]%list_elem_of_lookup [k Hk]%list_elem_of_lookup
    (i1 & Hi1 & Hp1 & Hw1 & _) (i2 & Hi2 & Hp2 & Hw2 & _).
  destruct (lt_eq_lt_dec j k) as [[Hlt| ->]|Hlt]; [| congruence|].
  - eapply (double_spend_refused block height activation chain extra budget clock d op j k t1 t2 i2);
      rewrite ?Hb, ?Hi1, ?Hi2; try done; [rewrite <-Hp1|]; apply list_elem_of_here.
  - eapply (double_spend_refused block height activation chain extra budget clock d op k j t2 t1 i1);
      rewrite ?Hb, ?Hi1, ?Hi2; try done; [rewrite <-Hp2|]; apply list_elem_of_here.
Qed.

(** The part of a successful spend that concerns the queue. *)
Lemma spend_p2mr_queue
    `{HashLib} `{ScriptLib} `{TxLib} `{TaprootLib} `{P2mrLib} `{PqcLib} `{SignLib} `{StoreLib} `{!StoreLaws}
    `{OrderMapLib} `{DustLib} rng readable fault network outpoint dest_spk amount fee_sats w outcome w' :
  spend_p2mr rng readable fault network outpoint dest_spk amount fee_sats w = (Ok outcome, w') →
  ∃ tx outs fee, spend_shape tx outpoint outs ∧ spend_txid outcome = compute_txid tx
    ∧ w_producer w' = (enqueue_p2mr_spend tx fee (w_producer w)).2 ∧ is_Some (load_map (w_db w) !! outpoint).
Proof.
  intros Hs. apply spend_p2mr_Ok in Hs
    as (prevout & record & w1 & outs & afee & tx & Hp & _ & _ & _ & Hc & Hb & Htid & ->).
  apply add_change_frame in Hc as [Hprod _]. apply build_spend_shape in Hb.
  exists tx, outs, afee. cbn [w_producer]. rewrite Hprod. by split_and!.
Qed.

(** C14: the wallet lets an output be spent twice, and then nothing can be mined.
    [spend_p2mr] does not look at the queue: after two successful spends of one
    output with different transactions (another amount, or change to another fresh
    key), whatever the producer does then, as long as no block with one of them is
    accepted, and nothing else is enqueued under their ids, every template carries both; and
    while the output is in the P2MR set, as it is at first, the validator refuses every
    block that has the template's transactions. *)
Theorem spend_p2mr_twice_unminable
    `{HashLib} `{ScriptLib} `{TxLib} `{TaprootLib} `{P2mrLib} `{PqcLib} `{SignLib} `{StoreLib} `{!StoreLaws}
    `{OrderMapLib} `{!OrderMapLaws} `{TemplateLib} `{GetBlockV3} `{DustLib}
    rng1 rng2 readable1 readable2 fault1 fault2 network outpoint dest1 dest2 amount1 amount2 fee1 fee2
    w o1 w1 o2 w2 :
  queue_ok (pending_p2mr_spends (w_producer w)) →
  spend_p2mr rng1 readable1 fault1 network outpoint dest1 amount1 fee1 w = (Ok o1, w1) →
  spend_p2mr rng2 readable2 fault2 network outpoint dest2 amount2 fee2 w1 = (Ok o2, w2) →
  spend_txid o1 ≠ spend_txid o2 →
  is_Some (load_map (w_db w2) !! outpoint) ∧
  ∀ v obs p filled,
    producer_run v (w_producer w2) obs p →
    (∀ block k, Accepted block ∈ obs → k ∈ [spend_txid o1; spend_txid o2] → k ∉ map compute_txid (txdata block)) →
    (∀ tx fee, Enqueued tx fee ∈ obs → compute_txid tx ∉ [spend_txid o1; spend_txid o2]) →
    ∃ suffix p', finalize_block_template filled p = (Ok suffix, p')
      ∧ (∀ k, k ∈ [spend_txid o1; spend_txid o2] → ∃ tx fee i, (tx, fee) ∈ suffix ∧ compute_txid tx = k
            ∧ input tx = [i] ∧ previous_output i = outpoint)
      ∧ (is_Some (load_map (p_task p).1 !! outpoint) →
         ∀ block cb txs height activation extra budget clock d,
           is_active activation height = true → txdata block = cb :: txs →
           (∀ s, s ∈ suffix → s.1 ∈ txs) → Forall (λ tx, compute_txid tx ≠ txid outpoint) txs →
           validate_and_diff_block_transactions block height activation (load_map (p_task p).1) extra budget clock ≠ Ok d).
Proof.
  intros Hq Hs1 Hs2 Hne. apply spend_p2mr_queue in Hs1 as (t1 & outs1 & f1 & Hsh1 & Hid1 & Hp1 & Hch).
  apply spend_p2mr_queue in Hs2 as (t2 & outs2 & f2 & Hsh2 & Hid2 & Hp2 & _).
  rewrite Hid1, Hid2 in *. destruct (om_insert_ok t1 f1 _ Hq) as [Hq1 Hm1].
  assert (pending_p2mr_spends (w_producer w1)
          = om_insert (compute_txid t1) (t1, f1) (pending_p2mr_spends (w_producer w))) as Hl1 by by rewrite Hp1.
  rewrite <-Hl1 in Hq1, Hm1. destruct (om_insert_ok t2 f2 _ Hq1) as [Hq2 Hm2].
  assert (pending_p2mr_spends (w_producer w2)
          = om_insert (compute_txid t2) (t2, f2) (pending_p2mr_spends (w_producer w1))) as Hl2 by by rewrite Hp2.
  rewrite <-Hl2 in Hq2, Hm2.
  assert (w_db w2 = w_db w) as Hdb by (unfold w_db; by rewrite Hp2, Hp1). split; [by rewrite Hdb|].
  intros v obs p filled Hr Ha He.
  destruct (producer_run_keeps v _ obs p (compute_txid t1) (t1, f1) Hr Hq2) as [Hok Hk1].
  { unfold pending_map. by rewrite Hm2, lookup_insert_ne, Hm1, lookup_insert_eq. }
  { intros block Hb. apply (Ha block); [done|by left]. }
  { intros tx fee Ht Heq. apply (He tx fee Ht). rewrite Heq. by left. }
  destruct (producer_run_keeps v _ obs p (compute_txid t2) (t2, f2) Hr Hq2) as [_ Hk2].
  { unfold pending_map. by rewrite Hm2, lookup_insert_eq. }
  { intros block Hb. apply (Ha block); [done|right; by left]. }
  { intros tx fee Ht Heq. apply (He tx fee Ht). rewrite Heq. right. by left. }
  eexists _, _. split; [apply finalize_template_Ok|].
  assert (∀ k e, pending_map p !! k = Some e → e ∈ filled ++ map snd (pending_p2mr_spends p)) as Hmem.
  { intros k e Hk%elem_of_list_to_map_2. apply elem_of_app. right. apply list_elem_of_fmap. by exists (k, e). }
  split.
  - intros k [->|[->|[]%elem_of_nil]%elem_of_cons]%elem_of_cons.
    + destruct Hsh1 as (i & Hi & Hpo & _). exists t1, f1, i. split_and!; [by eapply Hmem|done|done|done].
    + destruct Hsh2 as (i & Hi & Hpo & _). exists t2, f2, i. split_and!; [by eapply Hmem|done|done|done].
  - intros Hset block cb txs height activation extra budget clock d Hact Hb Hin Hf.
    eapply (two_spends_refused _ cb txs); [done|done|done|done| | | |exact Hsh1|exact Hsh2].
    + congruence.
    + apply (Hin (t1, f1)). by eapply Hmem.
    + apply (Hin (t2, f2)). by eapply Hmem.
Qed.

(** The wallet's driver leaves the producer as the producer's own [connect_block]
    does, also when the bdk wallet then fails to follow: the validator connects the
    block, and the spends it mined leave the queue, exactly when it is accepted. *)
Lemma wallet_connect_is_producer_connect
    `{HashLib} `{ScriptLib} `{TxLib} `{TaprootLib} `{P2mrLib} `{PqcLib} `{OrderMapLib} `{GetBlockV3}
    v parsed clock sync_wallet block w :
  let '(o, w') := wallet_connect_block v parsed clock sync_wallet block w in
  let '(o', p') := producer_connect_block v parsed clock block (w_producer w) in
  w_producer w' = p' ∧ w_store w' = w_store w
  ∧ o = match o' with
        | Ok (ConnectAccept removed) => if sync_wallet then Ok (ConnectAccept removed) else Err WalletSync
        | Ok ConnectReject => Ok ConnectReject
        | Err e => Err (WalletValidator e)
        | Panic => Panic
        end.
Proof.
  unfold wallet_connect_block, producer_connect_block, st_map_err, on_producer.
  unfold mbind at 1, st_bind at 1. unfold mbind at 3, st_bind at 3.
  destruct (connect_block_validator v parsed clock block (w_producer w)) as [[[removed|]|e|] p]; cbn; [|done..].
  by destruct sync_wallet.
Qed.

(** ** Listing *)

#[global] Instance outpoint_le_total : Total outpoint_le.
Proof. intros a b. apply outpoint_leb_total. Qed.

Lemma get_by_spk_find `{StoreLib} readable fs spk found l :
  get_by_spk readable fs spk = Ok found → stored fs = Some l →
  found = List.find (λ r, bool_decide (rec_script_pubkey r = spk)) l.
Proof.
  unfold get_by_spk. intros Hg Hl. apply bind_Ok in Hg as (f & Hf%read_file_stored & [= <-]).
  rewrite Hl in Hf. by injection Hf as ->.
Qed.

Lemma found_iff l spk :
  is_Some (List.find (λ r, bool_decide (rec_script_pubkey r = spk)) l)
  ↔ ∃ r, r ∈ l ∧ rec_script_pubkey r = spk.
Proof.
  split.
  - intros [r [Hin Hr]%find_some]. exists r. split; [by apply list_elem_of_In|]. by apply bool_decide_eq_true in Hr.
  - intros (r & Hin & Hr). destruct (List.find _ l) as [r'|] eqn:Hf; [done|].
    eapply find_none in Hf; [|by apply list_elem_of_In]. by rewrite bool_decide_true in Hf.
Qed.

Definition listed (l : list P2mrAddressRecord) (p : OutPoint * TxOut) : P2mrOutput :=
  mkP2mrOutput p.1 p.2
    (bool_decide (is_Some (List.find (λ r, bool_decide (rec_script_pubkey r = script_pubkey p.2)) l))).

Lemma list_loop `{StoreLib} readable fs l utxos acc out :
  stored fs = Some l →
  for_each (λ '(outpoint, txout) out,
    found ← get_by_spk readable fs (script_pubkey txout);
    Ok (out ++ [mkP2mrOutput outpoint txout (bool_decide (is_Some found))])) utxos acc = Ok out →
  out = acc ++ map (listed l) utxos.
Proof.
  intros Hl. revert acc. induction utxos as [|[op o] utxos IH]; intros acc; cbn.
  - intros [= <-]. by rewrite app_nil_r.
  - intros Hf. apply bind_Ok in Hf as (acc' & Hg & Hf). apply bind_Ok in Hg as (found & Hg & [= <-]).
    apply (get_by_spk_find _ _ _ _ l) in Hg as ->; [|done]. apply IH in Hf as ->. by rewrite <-(assoc (++)).
Qed.

(** The listed outputs are the validator's P2MR set, each once, in the order of
    their outpoints, and flagged as the wallet's own exactly when the store has a
    record of their script. *)
Lemma list_p2mr_outputs_spec `{StoreLib} readable w l out :
  stored (w_store w) = Some l → list_p2mr_outputs readable w = Ok out →
  Sorted outpoint_le out ∧ NoDup (map po_outpoint out)
  ∧ ∀ op o m, mkP2mrOutput op o m ∈ out
      ↔ load_map (w_db w) !! op = Some o ∧ (m = true ↔ ∃ r, r ∈ l ∧ rec_script_pubkey r = script_pubkey o).
Proof.
  unfold list_p2mr_outputs. intros Hl Hs. apply bind_Ok in Hs as (out' & Hf & [= <-]).
  apply (list_loop _ _ l) in Hf; [|done]. rewrite app_nil_l in Hf. subst out'.
  set (utxos := validator_p2mr_utxos (w_db w)).
  assert (merge_sort outpoint_le (map (listed l) (map_to_list utxos)) ≡ₚ map (listed l) (map_to_list utxos))
    as Hp by apply merge_sort_Permutation.
  split; [apply (Sorted_merge_sort outpoint_le)|]. split.
  - change (NoDup (po_outpoint <$> merge_sort outpoint_le (map (listed l) (map_to_list utxos)))). rewrite Hp.
    rewrite <-list_fmap_compose. apply NoDup_fst_map_to_list.
  - intros op o m. rewrite Hp, list_elem_of_fmap. split.
    + intros ([op' o'] & Heq & Hin). injection Heq as -> -> ->. apply elem_of_map_to_list in Hin.
      split; [exact Hin|]. rewrite bool_decide_eq_true. apply found_iff.
    + intros [Ho Hm]. exists (op, o). split; [|by apply elem_of_map_to_list]. unfold listed. cbn. f_equal.
      apply eq_bool_prop_intro. rewrite Is_true_true. rewrite Hm, Is_true_true, bool_decide_eq_true. symmetry. apply found_iff.
Qed.

(** * Witnesses

    A wallet with one hybrid key and one output of it, where amounts below 330 are
    dust; transaction ids are taken from the first output. *)
Definition toy_dust : DustLib := {| is_dust a _ := a <? 330 |}.
Definition toy_ids : TxLib := {|
  serialize_txout := @serialize_txout toy_tx; serialize_script := @serialize_script toy_tx;
  compute_txid tx := toy_digest 32 (le_bytes 8 (value (nth 0 (output tx) (mkTxOut 0 []))));
  block_hash := @block_hash toy_tx; header_work := @header_work toy_tx
|}.

Definition ex_spk : Script := rec_script_pubkey ex_record.
Definition ex_wallet : wallet :=
  mkWallet (producer_new (mkDbs (mkBlockHashDbs ∅ ∅ ∅ ∅ ∅) None {[ ex_sign_op := mkTxOut 5000 ex_spk ]}, []))
    (mkFs (Some [x01]) None).

Section witnesses.
#[local] Existing Instances toy_hash toy_script toy_ids toy_taproot toy_p2mr toy_pqc toy_sign toy_store.
#[local] Existing Instances toy_order_map toy_template toy_v3 toy_dust.

Definition ex_spend (op : OutPoint) (amount : Amount) (w : wallet) :=
  spend_p2mr ex_rng true NoFault Regtest op [x51] amount None w.

Lemma ex_store_ok : store_ok (w_store ex_wallet).
Proof. exists [ex_record]. split; [vm_compute; reflexivity|]. apply Forall_singleton, ex_record_ok. Qed.

Lemma ex_spend_Ok : (ex_spend ex_sign_op 1000 ex_wallet).1
  = Ok (mkOutcome (toy_digest 32 (le_bytes 8 1000)) (Some ex_spk) 3000).
Proof. vm_compute. reflexivity. Qed.

Lemma run_split {S E A} (r : outcome E A * S) a : r.1 = Ok a → r = (Ok a, r.2).
Proof. destruct r as [o s]. cbn. by intros ->. Qed.

Lemma spend_p2mr_correct_witness :
  ∃ tx fee, w_producer (ex_spend ex_sign_op 1000 ex_wallet).2 = (enqueue_p2mr_spend tx fee (w_producer ex_wallet)).2
    ∧ map previous_output (input tx) = [ex_sign_op]
    ∧ value (mkTxOut 5000 ex_spk) = total_value (output tx) + fee ∧ fee = 1000.
Proof.
  pose proof (@spend_p2mr_correct toy_hash toy_script toy_script_laws toy_ids toy_taproot toy_sighash_laws
    toy_p2mr toy_merkle_laws toy_pqc toy_sign toy_sign_laws toy_store toy_store_laws toy_order_map toy_dust
    ex_rng true NoFault Regtest ex_sign_op [x51] 1000 None ex_wallet _ _ ex_store_ok (run_split _ _ ex_spend_Ok))
    as (prevout & record & tx & changes & fee & Hp & _ & _ & Hq & Hin & _ & Hv & Hc & _).
  unfold load_map, w_db in Hp. cbn [w_producer ex_wallet p_task producer_new fst p2mr_utxos] in Hp.
  rewrite lookup_singleton_eq in Hp. injection Hp as <-.
  exists tx, fee. split; [exact Hq|]. split; [exact Hin|]. split; [exact Hv|].
  destruct Hc as (r & r' & _ & _ & _ & Hf & _). exact Hf.
Defined.

Lemma spend_p2mr_error_witness :
  (ex_spend ex_far 1000 ex_wallet).1 = Err (UnknownUtxo ex_far)
  ∧ w_producer (ex_spend ex_far 1000 ex_wallet).2 = w_producer ex_wallet.
Proof.
  assert ((ex_spend ex_far 1000 ex_wallet).1 = Err (UnknownUtxo ex_far)) as He by (vm_compute; reflexivity).
  split; [exact He|].
  pose proof (@spend_p2mr_error toy_hash toy_script toy_ids toy_taproot toy_p2mr toy_pqc toy_sign toy_store
    toy_store_laws toy_order_map toy_dust ex_rng true NoFault Regtest ex_far [x51] 1000 None ex_wallet) as Hf.
  fold (ex_spend ex_far 1000 ex_wallet) in Hf. revert He Hf.
  destruct (ex_spend ex_far 1000 ex_wallet) as [o w']. intros He Hf. cbn in He. subst o. exact (proj1 Hf).
Defined.

Definition ex_wallet1 : wallet := (ex_spend ex_sign_op 1000 ex_wallet).2.
Lemma ex_spend2_Ok : (ex_spend ex_sign_op 2000 ex_wallet1).1
  = Ok (mkOutcome (toy_digest 32 (le_bytes 8 2000)) (Some ex_spk) 2000).
Proof. vm_compute. reflexivity. Qed.

Lemma spend_p2mr_twice_unminable_witness :
  let p := w_producer (ex_spend ex_sign_op 2000 ex_wallet1).2 in
  ∃ suffix p', finalize_block_template [] p = (Ok suffix, p')
    ∧ ∀ d, Forall (λ s, compute_txid s.1 ≠ txid ex_sign_op) suffix →
           validate_and_diff_block_transactions (mkBlock (header ex_block1) (ex_cb 1 [] :: map fst suffix)) 10
             (mkBip360Activation 0) (load_map (p_task p).1) ∅ 100 [] ≠ Ok d.
Proof.
  intros p.
  destruct (@spend_p2mr_twice_unminable toy_hash toy_script toy_ids toy_taproot toy_p2mr toy_pqc toy_sign toy_store
    toy_store_laws toy_order_map toy_order_map_laws toy_template toy_v3 toy_dust ex_rng ex_rng true true NoFault NoFault Regtest
    ex_sign_op [x51] [x51] 1000 2000 None None ex_wallet _ _ _ _
    ltac:(split; [apply NoDup_nil_2|apply Forall_nil_2])
    (run_split _ _ ex_spend_Ok) (run_split _ _ ex_spend2_Ok)) as [Hset Hrun].
  - vm_compute. discriminate.
  - destruct (Hrun ex_handler [] p [] (run_nil _ _)) as (suffix & p' & Hf & _ & Hr);
      [by intros block k []%elem_of_nil|by intros tx fee []%elem_of_nil|].
    exists suffix, p'. split; [exact Hf|]. intros d Hid.
    apply (Hr Hset _ (ex_cb 1 []) (map fst suffix)); [reflexivity|reflexivity| |].
    + intros s Hs. apply list_elem_of_fmap. exists s. split; [reflexivity|exact Hs].
    + apply Forall_map. exact Hid.
Defined.

Lemma list_p2mr_outputs_spec_witness :
  ∃ out, list_p2mr_outputs true ex_wallet = Ok out ∧ mkP2mrOutput ex_sign_op (mkTxOut 5000 ex_spk) true ∈ out.
Proof.
  destruct (list_p2mr_outputs true ex_wallet) as [out|e|] eqn:Hl;
    [|vm_compute in Hl; discriminate|vm_compute in Hl; discriminate].
  exists out. split; [reflexivity|].
  apply (@list_p2mr_outputs_spec toy_store true ex_wallet [ex_record] out); [vm_compute; reflexivity|exact Hl|].
  split; [vm_compute; reflexivity|]. split; [|done]. intros _. exists ex_record.
  split; [apply list_elem_of_here|reflexivity].
Defined.
End witnesses.
