(* ===== verification/SeedStore.v ===== *)
(** The wallet's seed: its file (`wallet/seed_store.rs`), its encryption under a
    password (`wallet/mnemonic.rs`), and the creation, start-up and unlocking of
    the wallet (`wallet/mod.rs`). *)
From Stdlib Require Import ZArith Lia Strings.Byte Strings.String.
From stdpp Require Import base list strings.
From S2P Require Import Prelude Bitcoin Rpc.
#[local] Open Scope Z_scope.

(** [EncryptedMnemonic]: AES-256-GCM under a key stretched from the password. *)
Record EncryptedMnemonic := mkEncrypted {
  initialization_vector : bytes;
  ciphertext_mnemonic : bytes;
  key_salt : bytes
}.

Inductive StoredSeed :=
| StoredPlaintext (mnemonic : string)
| StoredEncrypted (e : EncryptedMnemonic).

(** The file; [created_at] in seconds. *)
Record SeedFile := mkSeedFile {
  seed_version : Z;
  created_at : Z;
  birthday_height : option Z;
  seed : StoredSeed
}.

(** ** Third-party code

    [bip39], [argon2], [aes_gcm], [serde_json] and [bdk_wallet], whose database is
    opaque; [String::from_utf8]. *)
Class SeedLib := {
  Mnemonic : Type;
  BdkWallet : Type;
  BdkDb : Type;
  mnemonic_to_string : Mnemonic → string;
  parse_in_normalized : string → option Mnemonic;
  mnemonic_from_str : string → option Mnemonic;
  argon2_hash : bytes → bytes → option bytes;
  aes_encrypt : bytes → bytes → bytes → option bytes;
  aes_decrypt : bytes → bytes → bytes → option bytes;
  from_utf8 : bytes → option string;
  seed_to_json : SeedFile → option bytes;
  seed_from_json : bytes → option SeedFile;
  into_xprv : Mnemonic → Network → option (option string);
  bdk_load : string → string → Network → BdkDb → string + option BdkWallet;
  bdk_create : string → string → Network → BdkDb → option (BdkWallet * BdkDb)
}.

(** Their documentation: mnemonics, JSON and UTF-8 round-trip, decryption inverts
    encryption under the same key and nonce, and a created bdk wallet loads again
    with its descriptors and network. *)
Class SeedLaws `{SeedLib} : Prop := {
  parse_normalized_to_string m : parse_in_normalized (mnemonic_to_string m) = Some m;
  from_str_to_string m : mnemonic_from_str (mnemonic_to_string m) = Some m;
  from_utf8_bytes s : from_utf8 (list_byte_of_string s) = Some s;
  aes_roundtrip k n p c : aes_encrypt k n p = Some c → aes_decrypt k n c = Some p;
  seed_json_roundtrip f j : seed_to_json f = Some j → seed_from_json j = Some f;
  bdk_create_load ext int net db w db' :
    bdk_create ext int net db = Some (w, db') → bdk_load ext int net db' = inr (Some w)
}.

(** ** Errors *)
Inductive InsertSeedError := AlreadyExists | InsertIo.
Inductive ReadSeedError := ReadSeedIo | ReadSeedJson | ReadSeedParse.
Inductive EncryptError := EncryptFailed | EncryptSysRng | EncryptStretch.
Inductive DecryptError := DecryptFailed | DecryptParse | DecryptStretch | DecryptUtf8.
Inductive InitMnemonicError := IntoExtendedKey | DeriveXpriv | DataMismatch | BdkLoad | BdkCreate.
Inductive CreateWalletError :=
| CreateEncrypt (e : EncryptError) | FetchBirthdayHeight (e : ClientError) | GenerateMnemonic
| CreateInit (e : InitMnemonicError) | CreateInsertSeed (e : InsertSeedError) | WalletAlreadyExists.
Inductive UnlockError :=
| UnlockInit (e : InitMnemonicError) | NotEncrypted | UnlockReadSeed (e : ReadSeedError)
| AlreadyUnlocked | WalletNotFound | InvalidPassword.
Inductive InitWalletError := InitReadSeed (e : ReadSeedError) | InitMnemonic (e : InitMnemonicError).

(** What is on disk: the seed file and its temporary file. *)
Record seed_fs := mkSeedFs { seed_json : option bytes; seed_tmp : option bytes }.

(** Where the system calls of [write_seed_file] fail, if one does. *)
Inductive seed_fault := SeedOpen | SeedWrite (n : nat) | SeedSync | SeedRename | SeedDirectory | SeedNoFault.

Definition SEED_VERSION : Z := 1.
Definition NONCE_SIZE : Z := 12.

Section seed.
Context `{SeedLib}.

(** ** mnemonic.rs *)

Definition stretch_password (password : string) (key_salt : bytes) : option bytes :=
  argon2_hash (list_byte_of_string password) key_salt.

(** [salt]: what the system's generator gives; [nonce] is generated. *)
Definition encrypt (salt : option bytes) (nonce : bytes) (mnemonic : Mnemonic) (password : string) :
    outcome EncryptError EncryptedMnemonic :=
  key_salt ← ok_or salt EncryptSysRng;
  key ← ok_or (stretch_password password key_salt) EncryptStretch;
  ciphered_data ← ok_or (aes_encrypt key nonce (list_byte_of_string (mnemonic_to_string mnemonic))) EncryptFailed;
  Ok (mkEncrypted nonce ciphered_data key_salt).

(** [Nonce::from_slice] panics on a slice of another size. *)
Definition decrypt (self : EncryptedMnemonic) (password : string) : outcome DecryptError Mnemonic :=
  nonce ← expect (if bool_decide (len (initialization_vector self) = NONCE_SIZE)
                  then Some (initialization_vector self) else None);
  key ← ok_or (stretch_password password (key_salt self)) DecryptStretch;
  plaintext ← ok_or (aes_decrypt key nonce (ciphertext_mnemonic self)) DecryptFailed;
  raw_mnemonic ← ok_or (from_utf8 plaintext) DecryptUtf8;
  ok_or (mnemonic_from_str raw_mnemonic) DecryptParse.

(** ** seed_store.rs *)

Inductive Seed := SeedPlaintext (m : Mnemonic) | SeedEncrypted (e : EncryptedMnemonic).

(** [readable]: the read fails for no other reason than a missing file. *)
Definition read_seed_file (readable : bool) (fs : seed_fs) : outcome ReadSeedError (option SeedFile) :=
  match seed_json fs with
  | None => Ok None
  | Some contents =>
      _ ← reject_if (negb readable) ReadSeedIo;
      f ← ok_or (seed_from_json contents) ReadSeedJson;
      Ok (Some f)
  end.

Definition write_seed_file (fault : seed_fault) (f : SeedFile) : st seed_fs unit unit := λ fs,
  match seed_to_json f with
  | None => (Panic, fs)
  | Some contents =>
      match fault with
      | SeedOpen => (Err tt, fs)
      | SeedWrite n => (Err tt, mkSeedFs (seed_json fs) (Some (take n contents)))
      | SeedSync | SeedRename => (Err tt, mkSeedFs (seed_json fs) (Some contents))
      | SeedDirectory => (Err tt, mkSeedFs (Some contents) None)
      | SeedNoFault => (Ok tt, mkSeedFs (Some contents) None)
      end
  end.

Definition read_mnemonic (readable : bool) (fs : seed_fs) :
    outcome ReadSeedError (option (Mnemonic + EncryptedMnemonic)) :=
  o ← read_seed_file readable fs;
  match o with
  | None => Ok None
  | Some f =>
      match seed f with
      | StoredPlaintext mnemonic => m ← ok_or (parse_in_normalized mnemonic) ReadSeedParse; Ok (Some (inl m))
      | StoredEncrypted e => Ok (Some (inr e))
      end
  end.

Definition read_birthday_height (readable : bool) (fs : seed_fs) : outcome ReadSeedError (option Z) :=
  o ← read_seed_file readable fs;
  Ok (f ← o; birthday_height f).

Definition insert_seed (fault : seed_fault) (now : Z) (s : Seed) (birthday : option Z) :
    st seed_fs InsertSeedError unit :=
  fs ← st_get;
  _ ← st_lift (reject_if (bool_decide (is_Some (seed_json fs))) AlreadyExists);
  st_map_err (λ _, InsertIo)
    (write_seed_file fault
       (mkSeedFile SEED_VERSION now birthday
          (match s with
           | SeedPlaintext m => StoredPlaintext (mnemonic_to_string m)
           | SeedEncrypted e => StoredEncrypted e
           end))).

(** [From<InsertSeed> for CreateNewWallet] *)
Definition create_error_from (e : InsertSeedError) : CreateWalletError :=
  match e with AlreadyExists => WalletAlreadyExists | e => CreateInsertSeed e end.

(** ** mod.rs *)

(** [From<LoadWithPersistError>]: decided by the text of the error. *)
Definition load_error_from (err : string) : InitMnemonicError :=
  if str_contains "data mismatch" err then DataMismatch else BdkLoad.

Definition initialize_wallet_from_mnemonic (mnemonic : Mnemonic) (network : Network) :
    st BdkDb InitMnemonicError BdkWallet := λ db,
  match into_xprv mnemonic network with
  | None => (Err IntoExtendedKey, db)
  | Some None => (Err DeriveXpriv, db)
  | Some (Some xpriv) =>
      let external_desc := ("wpkh(" ++ xpriv ++ "/84'/1'/0'/0/*)")%string in
      let internal_desc := ("wpkh(" ++ xpriv ++ "/84'/1'/0'/1/*)")%string in
      match bdk_load external_desc internal_desc network db with
      | inl err => (Err (load_error_from err), db)
      | inr (Some wallet) => (Ok wallet, db)
      | inr None =>
          match bdk_create external_desc internal_desc network db with
          | Some (wallet, db') => (Ok wallet, db')
          | None => (Err BdkCreate, db)
          end
      end
  end.

(** The parts of a [WalletInner] that hold the seed. *)
Record keys := mkKeys { k_fs : seed_fs; k_db : BdkDb; bitcoin_wallet : option BdkWallet }.

Definition on_fs {E A} (m : st seed_fs E A) : st keys E A :=
  λ k, let '(o, fs) := m (k_fs k) in (o, mkKeys fs (k_db k) (bitcoin_wallet k)).
(** [*write_guard = Some(wallet)] after the initialization. *)
Definition install_wallet {E} (f : InitMnemonicError → E) (mnemonic : Mnemonic) (network : Network) : st keys E unit :=
  λ k, match initialize_wallet_from_mnemonic mnemonic network (k_db k) with
       | (Ok wallet, db) => (Ok tt, mkKeys (k_fs k) db (Some wallet))
       | (Err e, db) => (Err (f e), mkKeys (k_fs k) db (bitcoin_wallet k))
       | (Panic, db) => (Panic, mkKeys (k_fs k) db (bitcoin_wallet k))
       end.

(** Start-up: a plaintext seed is loaded at once. *)
Definition wallet_inner_new (readable : bool) (network : Network) (fs : seed_fs) : st BdkDb InitWalletError keys :=
  λ db, match read_mnemonic readable fs with
        | Err e => (Err (InitReadSeed e), db)
        | Panic => (Panic, db)
        | Ok (Some (inl mnemonic)) =>
            match initialize_wallet_from_mnemonic mnemonic network db with
            | (Ok wallet, db) => (Ok (mkKeys fs db (Some wallet)), db)
            | (Err e, db) => (Err (InitMnemonic e), db)
            | (Panic, db) => (Panic, db)
            end
        | Ok _ => (Ok (mkKeys fs db None), db)
        end.

(** The [match password] of [create_new_wallet]. *)
Definition persist_seed (salt : option bytes) (nonce : bytes) (fault : seed_fault) (now : Z) (mnemonic : Mnemonic)
    (birthday : option Z) (password : option string) : st keys CreateWalletError unit :=
  match password with
  | Some password =>
      encrypted ← st_lift (map_err CreateEncrypt (encrypt salt nonce mnemonic password));
      st_map_err create_error_from (on_fs (insert_seed fault now (SeedEncrypted encrypted) birthday))
  | None => st_map_err create_error_from (on_fs (insert_seed fault now (SeedPlaintext mnemonic) birthday))
  end.

(** [fresh]: what the generator of mnemonics gives; [blocks]: the node's height,
    or its error. *)
Definition create_new_wallet (fresh : option Mnemonic) (blocks : ClientError + Z) (salt : option bytes) (nonce : bytes)
    (fault : seed_fault) (now : Z) (network : Network) (mnemonic : option Mnemonic) (password : option string) :
    st keys CreateWalletError unit :=
  '(mnemonic, generated) ← st_lift
     (match mnemonic with
      | Some mnemonic => Ok (mnemonic, false)
      | None => m ← ok_or fresh GenerateMnemonic; Ok (m, true)
      end);
  birthday ← st_lift
     (if (generated : bool)
      then match blocks with inr b => Ok (Some b) | inl e => Err (FetchBirthdayHeight e) end
      else Ok None);
  _ ← persist_seed salt nonce fault now mnemonic birthday password;
  install_wallet CreateInit mnemonic network.

Definition unlock_existing_wallet (readable : bool) (network : Network) (password : string) : st keys UnlockError unit :=
  k ← st_get;
  _ ← st_lift (reject_if (bool_decide (is_Some (bitcoin_wallet k))) AlreadyUnlocked);
  read ← st_lift (map_err UnlockReadSeed (read_mnemonic readable (k_fs k)));
  encrypted ← st_lift
    (match read with
     | None => Err WalletNotFound
     | Some (inl _) => Err NotEncrypted
     | Some (inr encrypted) => Ok encrypted
     end);
  mnemonic ← st_lift (map_err (λ _, InvalidPassword) (decrypt encrypted password));
  install_wallet UnlockInit mnemonic network.
End seed.

(** * Lemmas *)
Section lemmas.
Context `{SeedLib} `{!SeedLaws}.

(** Initializing again from the same mnemonic loads the same wallet. *)
Lemma initialize_again m net db w db' :
  initialize_wallet_from_mnemonic m net db = (Ok w, db') → initialize_wallet_from_mnemonic m net db' = (Ok w, db').
Proof.
  unfold initialize_wallet_from_mnemonic. destruct (into_xprv m net) as [[xpriv|]|]; [|done..].
  destruct (bdk_load _ _ _ db) as [err|[wallet|]] eqn:Hl; [done|..].
  - intros [= -> ->]. by rewrite Hl.
  - destruct (bdk_create _ _ _ db) as [[wallet db0]|] eqn:Hc; [|done]. intros [= -> ->].
    by rewrite (bdk_create_load _ _ _ _ _ _ Hc).
Qed.

Lemma install_wallet_Ok {E} (f : InitMnemonicError → E) m net k k' :
  install_wallet f m net k = (Ok tt, k') →
  ∃ w, initialize_wallet_from_mnemonic m net (k_db k) = (Ok w, k_db k') ∧ k' = mkKeys (k_fs k) (k_db k') (Some w).
Proof.
  unfold install_wallet. destruct (initialize_wallet_from_mnemonic m net (k_db k)) as [[w|e|] db] eqn:Hi; [|done..].
  intros [= <-]. by exists w.
Qed.

Lemma install_wallet_frame {E} (f : InitMnemonicError → E) m net k o k' :
  install_wallet f m net k = (o, k') → k_fs k' = k_fs k.
Proof.
  unfold install_wallet. destruct (initialize_wallet_from_mnemonic m net (k_db k)) as [[w|e|] db]; by intros [= _ <-].
Qed.

(** Decryption under the password of the encryption. *)
Lemma decrypt_encrypt salt nonce m pw e :
  len nonce = NONCE_SIZE → encrypt salt nonce m pw = Ok e → decrypt e pw = Ok m.
Proof.
  unfold encrypt, decrypt. intros Hn He. apply bind_Ok in He as (ks & _ & He).
  apply bind_Ok in He as (key & Hk%ok_or_Ok & He). apply bind_Ok in He as (c & Hc%ok_or_Ok & [= <-]).
  cbn [initialization_vector ciphertext_mnemonic key_salt]. rewrite bool_decide_true by done.
  cbn [expect mbind outcome_bind]. rewrite Hk. cbn [ok_or mbind outcome_bind].
  rewrite (aes_roundtrip _ _ _ _ Hc). cbn [ok_or mbind outcome_bind]. rewrite from_utf8_bytes.
  cbn [ok_or mbind outcome_bind]. by rewrite from_str_to_string.
Qed.

(** What a seed file says of a mnemonic. *)
Definition stores (nonce : bytes) (m : Mnemonic) (password : option string) (s : StoredSeed) : Prop :=
  match password, s with
  | None, StoredPlaintext t => t = mnemonic_to_string m
  | Some pw, StoredEncrypted e => ∃ salt, encrypt salt nonce m pw = Ok e
  | _, _ => False
  end.

(** Every outcome of writing a seed. *)
Lemma insert_seed_outcome fault now s birthday fs o fs' :
  insert_seed fault now s birthday fs = (o, fs') →
  (is_Some (seed_json fs) → seed_json fs' = seed_json fs ∧ o = Err AlreadyExists)
  ∧ (seed_json fs = None →
     (seed_json fs' = None ∧ o ≠ Ok tt)
     ∨ ∃ f j, seed_to_json f = Some j ∧ seed_json fs' = Some j ∧ birthday_height f = birthday
         ∧ seed f = match s with SeedPlaintext m => StoredPlaintext (mnemonic_to_string m)
                            | SeedEncrypted e => StoredEncrypted e end).
Proof.
  unfold insert_seed. unfold mbind at 1, st_bind at 1, st_get. unfold mbind at 1, st_bind at 1, st_lift.
  destruct (seed_json fs) as [j|] eqn:Hj.
  { rewrite bool_decide_true by done. cbn. intros [= <- <-]. split; [by rewrite Hj|done]. }
  rewrite bool_decide_false by (by intros [? ?]). cbn [reject_if]. unfold st_map_err, write_seed_file.
  intros Hw. split; [by intros [? ?]|]. intros _. revert Hw.
  set (f := mkSeedFile _ _ _ _). destruct (seed_to_json f) as [j|] eqn:Hf.
  2: { intros [= <- <-]. left. by rewrite Hj. }
  destruct fault; cbn [fst snd map_err]; intros [= <- <-]; cbn [seed_json].
  1-4: left; by rewrite ?Hj.
  all: right; by exists f, j.
Qed.

(** The seed file after an attempt to store [m]: an existing one is untouched and
    the attempt fails; otherwise there is none, and the attempt failed, or there is
    a complete one with the mnemonic. *)
Definition persist_spec (nonce : bytes) (m : Mnemonic) (password : option string) (birthday : option Z) (k k' : keys) (ok : bool) : Prop :=
  match seed_json (k_fs k) with
  | Some j => seed_json (k_fs k') = Some j ∧ ok = false
  | None => (seed_json (k_fs k') = None ∧ ok = false)
            ∨ ∃ f j, seed_to_json f = Some j ∧ seed_json (k_fs k') = Some j
                     ∧ stores nonce m password (seed f) ∧ birthday_height f = birthday
  end.

Lemma persist_same nonce m password birthday k : persist_spec nonce m password birthday k k false.
Proof. unfold persist_spec. destruct (seed_json (k_fs k)); auto. Qed.

Lemma persist_insert nonce fault now s m password birthday k o k' :
  st_map_err create_error_from (on_fs (insert_seed fault now s birthday)) k = (o, k') →
  stores nonce m password (match s with SeedPlaintext m => StoredPlaintext (mnemonic_to_string m)
                                | SeedEncrypted e => StoredEncrypted e end) →
  k_db k' = k_db k ∧ bitcoin_wallet k' = bitcoin_wallet k ∧ persist_spec nonce m password birthday k k' (is_ok o).
Proof.
  unfold st_map_err, on_fs, persist_spec. destruct (insert_seed fault now s birthday (k_fs k)) as [r fs'] eqn:Hi.
  apply insert_seed_outcome in Hi as [Hold Hnew]. cbn [fst snd]. intros [= <- <-] Hs. cbn. split; [done|]. split; [done|].
  destruct (seed_json (k_fs k)) as [j|] eqn:Hj.
  - destruct (Hold ltac:(done)) as [-> ->]. done.
  - destruct (Hnew eq_refl) as [[Hn Ho]|(f & j & Hf & Hj' & Hb & Hse)].
    + left. split; [done|]. by destruct r as [[]| |].
    + right. exists f, j. rewrite Hse. done.
Qed.

Lemma persist_seed_outcome salt nonce fault now m birthday password k o k' :
  persist_seed salt nonce fault now m birthday password k = (o, k') →
  k_db k' = k_db k ∧ bitcoin_wallet k' = bitcoin_wallet k ∧ persist_spec nonce m password birthday k k' (is_ok o).
Proof.
  unfold persist_seed. destruct password as [pw|]; [|intros Hp; by eapply persist_insert].
  unfold mbind at 1, st_bind at 1, st_lift.
  destruct (encrypt salt nonce m pw) as [e|e|] eqn:He; cbn [map_err].
  - intros Hp. eapply persist_insert; [done|]. by exists salt.
  - intros [= <- <-]. split_and!; [done..|apply persist_same].
  - intros [= <- <-]. split_and!; [done..|apply persist_same].
Qed.

(** The mnemonic and birthday [create_new_wallet] settles on. *)
Definition chosen (fresh mnemonic : option Mnemonic) (blocks : ClientError + Z) (m : Mnemonic) (birthday : option Z) : Prop :=
  match mnemonic with
  | Some m' => m = m' ∧ birthday = None
  | None => fresh = Some m ∧ ∃ b, blocks = inr b ∧ birthday = Some b
  end.

Lemma create_new_wallet_inv fresh blocks salt nonce fault now net mnemonic password k o k' :
  create_new_wallet fresh blocks salt nonce fault now net mnemonic password k = (o, k') →
  (k' = k ∧ is_ok o = false)
  ∨ ∃ m birthday r k1, chosen fresh mnemonic blocks m birthday
      ∧ persist_seed salt nonce fault now m birthday password k = (r, k1)
      ∧ (if is_ok r then install_wallet CreateInit m net k1 = (o, k') else k' = k1 ∧ is_ok o = false).
Proof.
  unfold create_new_wallet. unfold mbind at 1, st_bind at 1, st_lift at 1.
  destruct mnemonic as [m|]; [|destruct fresh as [m|]; cbn [ok_or mbind outcome_bind]; [|intros [= <- <-]; by left]].
  - unfold mbind at 1, st_bind at 1, st_lift at 1. unfold mbind at 1, st_bind at 1.
    destruct (persist_seed salt nonce fault now m None password k) as [r k1] eqn:Hp. intros Hc. right.
    exists m, None, r, k1. split; [done|]. split; [done|]. destruct r as [[]| |]; [exact Hc|by injection Hc as <- <-..].
  - unfold mbind at 1, st_bind at 1, st_lift at 1.
    destruct blocks as [err|b]; cbn [ok_or mbind outcome_bind]; [intros [= <- <-]; by left|].
    unfold mbind at 1, st_bind at 1.
    destruct (persist_seed salt nonce fault now m (Some b) password k) as [r k1] eqn:Hp. intros Hc. right.
    exists m, (Some b), r, k1. split; [split; [done|by exists b]|]. split; [done|].
    destruct r as [[]| |]; [exact Hc|by injection Hc as <- <-..].
Qed.

(** What a creation does to the seed. *)
Lemma seed_stored fresh blocks salt nonce fault now net mnemonic password k o k' :
  create_new_wallet fresh blocks salt nonce fault now net mnemonic password k = (o, k') →
  match seed_json (k_fs k) with
  | Some j => seed_json (k_fs k') = Some j ∧ o ≠ Ok tt
  | None => (seed_json (k_fs k') = None ∧ o ≠ Ok tt)
            ∨ ∃ m birthday f, chosen fresh mnemonic blocks m birthday
                ∧ read_seed_file true (k_fs k') = Ok (Some f)
                ∧ stores nonce m password (seed f) ∧ birthday_height f = birthday
  end.
Proof.
  intros Hc%create_new_wallet_inv.
  assert (∀ o : outcome CreateWalletError unit, is_ok o = false → o ≠ Ok tt) as Hno by by intros [].
  destruct Hc as [[-> Ho]|(m & birthday & r & k1 & Hch & Hp & Hi)].
  { destruct (seed_json (k_fs k)); auto. }
  apply persist_seed_outcome in Hp as (_ & _ & Hp). unfold persist_spec in Hp.
  assert (k_fs k' = k_fs k1) as ->.
  { destruct (is_ok r); [by eapply install_wallet_frame|by destruct Hi as [-> _]]. }
  assert (is_ok r = false → o ≠ Ok tt) as Hfail by (intros Hr; rewrite Hr in Hi; destruct Hi as [_ Hi]; by apply Hno).
  destruct (seed_json (k_fs k)) as [j|]; [destruct Hp as [-> Hr]; auto|].
  destruct Hp as [[-> Hr]|(f & j & Hf & Hj & Hs & Hb)]; [left; auto|]. right. exists m, birthday, f.
  split; [done|]. split; [|done]. unfold read_seed_file. rewrite Hj. cbn. by rewrite (seed_json_roundtrip _ _ Hf).
Qed.
End lemmas.

(** * Properties *)

(** A seed is stored at most once and never damaged: whatever fails, at any
    system call, a seed file that exists is left as it is and the creation fails;
    where there was none, there is afterwards none, and the creation failed, or a
    complete one that reads back as the mnemonic given or generated, plain or
    encrypted under the password, with the birthday of a generated one. *)
Lemma seed_stored_once `{SeedLib} `{!SeedLaws}
    fresh blocks salt nonce fault now net mnemonic password k o k' :
  create_new_wallet fresh blocks salt nonce fault now net mnemonic password k = (o, k') →
  match seed_json (k_fs k) with
  | Some j => seed_json (k_fs k') = Some j ∧ o ≠ Ok tt
  | None => (seed_json (k_fs k') = None ∧ o ≠ Ok tt)
            ∨ ∃ m birthday f, chosen fresh mnemonic blocks m birthday
                ∧ read_seed_file true (k_fs k') = Ok (Some f)
                ∧ stores nonce m password (seed f) ∧ birthday_height f = birthday
  end.
Proof. apply seed_stored. Qed.

(** C22: A created wallet comes back: after a successful creation and a restart, the
    wallet without a password is loaded at start-up, and the one with a password
    is locked until [unlock_existing_wallet] with the same password; both are the
    wallet that was created. *)
Theorem created_wallet_comes_back `{SeedLib} `{!SeedLaws}
    fresh blocks salt nonce fault now net mnemonic password k k' :
  create_new_wallet fresh blocks salt nonce fault now net mnemonic password k = (Ok tt, k') → len nonce = NONCE_SIZE →
  ∃ w, bitcoin_wallet k' = Some w
    ∧ match password with
      | None => wallet_inner_new true net (k_fs k') (k_db k') = (Ok k', k_db k')
      | Some pw => wallet_inner_new true net (k_fs k') (k_db k') = (Ok (mkKeys (k_fs k') (k_db k') None), k_db k')
          ∧ unlock_existing_wallet true net pw (mkKeys (k_fs k') (k_db k') None) = (Ok tt, k')
      end.
Proof.
  intros Hc%create_new_wallet_inv Hn. destruct Hc as [[_ Ho]|(m & birthday & r & k1 & _ & Hp & Hi)]; [done|].
  destruct (is_ok r) eqn:Hr; [|by destruct Hi]. apply persist_seed_outcome in Hp as (_ & _ & Hp).
  rewrite Hr in Hp. unfold persist_spec in Hp. apply install_wallet_Ok in Hi as (w & Hi & Hk').
  apply initialize_again in Hi. exists w. rewrite Hk' in Hi |- *. cbn [k_fs k_db bitcoin_wallet] in *. split; [done|].
  destruct (seed_json (k_fs k)); [by destruct Hp|]. destruct Hp as [[_ ?]|(f & j & Hf & Hj & Hs & _)]; [done|].
  assert (read_seed_file true (k_fs k1) = Ok (Some f)) as Hread.
  { unfold read_seed_file. rewrite Hj. cbn. by rewrite (seed_json_roundtrip _ _ Hf). }
  unfold wallet_inner_new, read_mnemonic. rewrite Hread. cbn [mbind outcome_bind].
  destruct password as [pw|], (seed f) as [t|e] eqn:Hse; try done; cbn [stores] in Hs.
  - destruct Hs as (salt' & He). split; [done|]. unfold unlock_existing_wallet, read_mnemonic.
    unfold mbind at 1, st_bind at 1, st_get. cbn [bitcoin_wallet k_fs]. rewrite bool_decide_false by (by intros [? ?]).
    rewrite (st_lift_bind _ tt) by done. rewrite Hread. cbn [mbind outcome_bind]. rewrite Hse.
    rewrite (st_lift_bind _ (Some (inr e))) by done. rewrite (st_lift_bind _ e) by done.
    rewrite (decrypt_encrypt _ _ _ _ _ Hn He). rewrite (st_lift_bind _ m) by done.
    unfold install_wallet. cbn [k_db k_fs]. by rewrite Hi.
  - subst t. rewrite parse_normalized_to_string. cbn [ok_or mbind outcome_bind]. by rewrite Hi.
Qed.

(** A creation whose last step fails leaves its seed behind: a second attempt is
    refused because the wallet exists, and a plaintext one cannot be unlocked. *)
Lemma failed_creation_keeps_seed `{SeedLib} `{!SeedLaws}
    salt nonce now net m db e db' j fresh' blocks' salt' nonce' fault' now' m' password' pw :
  seed_to_json (mkSeedFile SEED_VERSION now None (StoredPlaintext (mnemonic_to_string m))) = Some j →
  initialize_wallet_from_mnemonic m net db = (Err e, db') →
  let r := create_new_wallet None (inl Transport) salt nonce SeedNoFault now net (Some m) None (mkKeys (mkSeedFs None None) db None) in
  r.1 = Err (CreateInit e)
  ∧ (create_new_wallet fresh' blocks' salt' nonce' fault' now' net m' password' r.2).1 ≠ Ok tt
  ∧ (unlock_existing_wallet true net pw r.2).1 = Err NotEncrypted.
Proof.
  intros Hj Hi. assert (create_new_wallet None (inl Transport) salt nonce SeedNoFault now net (Some m) None
      (mkKeys (mkSeedFs None None) db None) = (Err (CreateInit e), mkKeys (mkSeedFs (Some j) None) db' None)) as ->.
  { assert (persist_seed salt nonce SeedNoFault now m None None (mkKeys (mkSeedFs None None) db None)
            = (Ok tt, mkKeys (mkSeedFs (Some j) None) db None)) as Hp.
    { unfold persist_seed, st_map_err, on_fs, insert_seed. cbn [k_fs].
      unfold mbind at 1, st_bind at 1, st_get. cbn [seed_json]. rewrite (st_lift_bind _ tt) by done.
      unfold st_map_err, write_seed_file. by rewrite Hj. }
    unfold create_new_wallet. rewrite (st_lift_bind _ (m, false)) by done. rewrite (st_lift_bind _ None) by done.
    unfold mbind at 1, st_bind at 1. rewrite Hp. unfold install_wallet. cbn [k_db]. by rewrite Hi. }
  cbn [fst snd]. split; [done|]. split.
  - destruct (create_new_wallet _ _ _ _ _ _ _ _ _ _) as [o k'] eqn:Hc. cbn [fst].
    apply create_new_wallet_inv in Hc as [[_ Ho]|(m0 & b & r & k1 & _ & Hp & Hr)]; [by destruct o|].
    apply persist_seed_outcome in Hp as (_ & _ & Hp). unfold persist_spec in Hp. cbn in Hp. destruct Hp as [_ Hp].
    rewrite Hp in Hr. destruct Hr as [_ Ho]. by destruct o.
  - unfold unlock_existing_wallet, read_mnemonic, read_seed_file. unfold mbind at 1, st_bind at 1, st_get.
    cbn [bitcoin_wallet k_fs seed_json negb reject_if]. rewrite bool_decide_false by (by intros [? ?]).
    rewrite (st_lift_bind _ tt) by done. cbn [mbind outcome_bind]. rewrite (seed_json_roundtrip _ _ Hj).
    cbn. rewrite parse_normalized_to_string. done.
Qed.

(** * Witnesses

    A library whose mnemonics are strings, whose cipher prepends the key, and whose
    JSON knows one plaintext and one encrypted file. *)
#[local] Instance EncryptedMnemonic_eq_dec : EqDecision EncryptedMnemonic.
Proof. solve_decision. Defined.
#[local] Instance StoredSeed_eq_dec : EqDecision StoredSeed.
Proof. solve_decision. Defined.
#[local] Instance SeedFile_eq_dec : EqDecision SeedFile.
Proof. solve_decision. Defined.

Definition ex_mnemonic : string := "abandon about".
Definition ex_password : string := "hunter2".
Definition ex_nonce : bytes := replicate 12 x03.
Definition ex_key : bytes := list_byte_of_string ex_password ++ [x09].
Definition ex_plain_file : SeedFile := mkSeedFile SEED_VERSION 5 None (StoredPlaintext ex_mnemonic).
Definition ex_encrypted_file : SeedFile :=
  mkSeedFile SEED_VERSION 5 (Some 7)
    (StoredEncrypted (mkEncrypted ex_nonce (ex_key ++ list_byte_of_string ex_mnemonic) [x09])).

Definition toy_seed : SeedLib := {|
  Mnemonic := string; BdkWallet := string * string; BdkDb := option (string * string);
  mnemonic_to_string m := m; parse_in_normalized s := Some s; mnemonic_from_str s := Some s;
  argon2_hash p s := Some (p ++ s);
  aes_encrypt k n p := Some (k ++ p);
  aes_decrypt k n c := if bool_decide (take (length k) c = k) then Some (drop (length k) c) else None;
  from_utf8 b := Some (string_of_list_byte b);
  seed_to_json f := if bool_decide (f = ex_plain_file) then Some [x01]
                    else if bool_decide (f = ex_encrypted_file) then Some [x02] else None;
  seed_from_json j := if bool_decide (j = [x01]) then Some ex_plain_file
                      else if bool_decide (j = [x02]) then Some ex_encrypted_file else None;
  into_xprv m net := Some (Some m);
  bdk_load ext int net db := match db with
                             | None => inr None
                             | Some w => if bool_decide (w = (ext, int)) then inr (Some w)
                                         else inl "data mismatch: descriptor"%string
                             end;
  bdk_create ext int net db := Some ((ext, int), Some (ext, int))
|}.

Lemma toy_seed_laws : @SeedLaws toy_seed.
Proof.
  split; cbn; try done.
  - intros s. by rewrite string_of_list_byte_of_string.
  - intros k n p c [= <-]. rewrite take_app_length, bool_decide_true by done. by rewrite drop_app_length.
  - intros f j. case_bool_decide as H1; [by intros [= <-]; rewrite H1|].
    case_bool_decide as H2; [by intros [= <-]; rewrite H2|done].
  - intros ext int net db w db' [= <- <-]. by rewrite bool_decide_true.
Qed.

Definition ex_creation (mnemonic : option string) (password : option string) :=
  @create_new_wallet toy_seed (Some ex_mnemonic) (inr 7) (Some [x09]) ex_nonce SeedNoFault 5 Regtest mnemonic password
    (@mkKeys toy_seed (mkSeedFs None None) None None).

Lemma seed_stored_once_witness :
  seed_json (@k_fs toy_seed (ex_creation None (Some ex_password)).2) = Some [x02]
  ∧ ∃ f, @read_seed_file toy_seed true (@k_fs toy_seed (ex_creation None (Some ex_password)).2) = Ok (Some f)
      ∧ birthday_height f = Some 7.
Proof.
  assert (seed_json (@k_fs toy_seed (ex_creation None (Some ex_password)).2) = Some [x02]) as Hj
    by (vm_compute; reflexivity).
  split; [exact Hj|].
  destruct (@seed_stored_once toy_seed toy_seed_laws (Some ex_mnemonic) (inr 7) (Some [x09]) ex_nonce SeedNoFault 5
    Regtest None (Some ex_password) (@mkKeys toy_seed (mkSeedFs None None) None None)
    (ex_creation None (Some ex_password)).1 (ex_creation None (Some ex_password)).2 (surjective_pairing _))
    as [[Hn _]|(m & birthday & f & [_ (b & [= <-] & ->)] & Hr & _ & Hb)].
  - rewrite Hj in Hn. discriminate.
  - exists f. split; [exact Hr|exact Hb].
Defined.

Lemma created_wallet_comes_back_witness :
  ∃ w, @bitcoin_wallet toy_seed (ex_creation None (Some ex_password)).2 = Some w
    ∧ @unlock_existing_wallet toy_seed true Regtest ex_password
        (@mkKeys toy_seed (k_fs (ex_creation None (Some ex_password)).2) (k_db (ex_creation None (Some ex_password)).2) None)
      = (Ok tt, (ex_creation None (Some ex_password)).2).
Proof.
  destruct (@created_wallet_comes_back toy_seed toy_seed_laws (Some ex_mnemonic) (inr 7) (Some [x09]) ex_nonce
    SeedNoFault 5 Regtest None (Some ex_password) (@mkKeys toy_seed (mkSeedFs None None) None None)
    (ex_creation None (Some ex_password)).2) as (w & Hw & _ & Hu).
  - vm_compute. reflexivity.
  - reflexivity.
  - exists w. split; [exact Hw|exact Hu].
Defined.
