(* ===== verification/WalletSync.v ===== *)
(** How the bdk wallet follows the chain (`wallet/block_producer.rs`,
    `wallet/mod.rs`, `wallet/sync.rs`): connecting blocks, the blocks it misses, the
    fast-forward over validator headers, and the search of a full scan for the
    addresses in use. *)
From Stdlib Require Import ZArith Lia Strings.Byte.
From stdpp Require Import base list gmap.
From S2P Require Import Prelude Bitcoin Concrete Spend Dbs BlockHandler Enforcer.
#[local] Open Scope Z_scope.

(** ** Third-party code

    [bdk_wallet]: a wallet with its local chain and its keychains.  [apply_block]
    returns the wallet that has connected the block, or the [try_include_height] of a
    [CannotConnectError] (a u32); [CheckPoint::extend] takes (height, hash) pairs in
    ascending order; [apply_checkpoint] is [apply_update] of an update that holds
    nothing but a checkpoint; [peek_address] panics above the greatest BIP 32
    index. *)
Inductive KeychainKind := External | Internal.
#[global] Instance KeychainKind_eq_dec : EqDecision KeychainKind.
Proof. solve_decision. Defined.

Class BdkLib := {
  Bdk : Type;
  chain_tip : Bdk → BlockHash * Z;
  chain_get : Bdk → Z → option BlockHash;
  apply_block : Block → Z → Bdk → Bdk + Z;
  CheckPoint : Type;
  checkpoint_of : Bdk → CheckPoint;
  checkpoint_extend : CheckPoint → list (Z * BlockHash) → option CheckPoint;
  apply_checkpoint : CheckPoint → Bdk → option Bdk;
  keychains : Bdk → list KeychainKind;
  peek_address : Bdk → KeychainKind → Z → option Script;
  reveal_addresses_to : KeychainKind → Z → Bdk → Bdk;
  SyncRequest : Type;
  start_sync_with_revealed_spks : Bdk → option CheckPoint → SyncRequest;
  Update : Type;
  chain_update : Update → option CheckPoint;
  apply_update : Update → Bdk → option Bdk;
  apply_evicted_txs : list (Txid * Z) → Bdk → Bdk;
  apply_unconfirmed_txs : list (Transaction * Z) → Bdk → Bdk
}.

(** [apply_block] connects a block whose parent the chain has at the height below,
    a connected block is in the chain at its height, and is the tip when its parent
    was; evicting transactions does not touch the chain. *)
Class BdkLaws `{BdkLib} `{TxLib} : Prop := {
  apply_block_connects b h c :
    chain_get c (h - 1) = Some (prev_blockhash (header b)) → ∃ c', apply_block b h c = inl c';
  apply_block_get b h c c' : apply_block b h c = inl c' → chain_get c' h = Some (block_hash (header b));
  apply_block_tip b h c c' :
    chain_tip c = (prev_blockhash (header b), h - 1) → apply_block b h c = inl c' →
    chain_tip c' = (block_hash (header b), h);
  apply_block_height b h c t : apply_block b h c = inr t → 0 ≤ t;
  evicted_tip l c : chain_tip (apply_evicted_txs l c) = chain_tip c;
  evicted_get l c h : chain_get (apply_evicted_txs l c) h = chain_get c h
}.

(** The Electrum and Esplora clients: the transactions of a script, and the answer
    to a sync request; [None] is a failed request.  The numbers are the batch size
    with [fetch_prev_txouts], and the parallel requests. *)
Inductive ChainSourceClient `{BdkLib} :=
| ElectrumClient (script_get_history : Script → option (list Txid)) (sync : SyncRequest → Z → bool → option Update)
| EsploraClient (get_address_txs : Script → option (list Txid)) (sync : SyncRequest → Z → option Update).

(** ** Errors *)
Inductive HandleConnectError := HandleNotUnlocked | HandlePersist.
Inductive ConnectMissingError :=
| MissingGetBlockHash | MissingGetBlock | MissingGetBlockInfos (e : GetBlockInfosError)
| MissingHandle (e : HandleConnectError) | BdkConnect (block_height : Z).
Inductive FullScanError := ListHeaders (e : DbError) | CreateCheckPoint | CannotConnect | PersistWallet
| FullScanNotUnlocked | CheckAddressTransactions | ScanChainSource | InvalidSyncSource.
Inductive WalletSyncError := BdkWalletConnect | BdkWalletPersist | ElectrumSync | EsploraSync.
Inductive SyncWalletError :=
| SyncGetHeaderInfo (e : GetHeaderInfoError) | SyncNotUnlocked | SyncFullScan (e : FullScanError)
| SyncGetBlockInfos (e : GetBlockInfosError) | SyncGetBlock | SyncHandle (e : HandleConnectError)
| SyncConnectMissing (e : ConnectMissingError).

(** What the wallet sees around it: the validator's databases, the node's answers,
    whether the wallet is unlocked and can be persisted, its birthday, and its chain
    source, if one is configured. *)
Record sync_env `{BdkLib} := mkSyncEnv {
  e_db : BlockHashDbs;
  getblockhash : Z → option BlockHash;
  get_block : BlockHash → option Block;
  unlocked : bool;
  persists : bool;
  e_birthday : option Z;
  chain_source_client : option ChainSourceClient
}.

Definition BIRTHDAY_REORG_MARGIN : Z := 100.
Definition MAX_BLOCK_BY_BLOCK_REPLAY : Z := 2000.

(** [u32::saturating_sub] *)
Definition saturating_sub (a b : Z) : Z := Z.max 0 (a - b).

Section connecting.
Context `{TxLib} `{BdkLib}.
Variable env : sync_env.

(** The [Ok(Err(..))] of the code is [Some try_include_height].  The chain in memory
    is changed before it is persisted. *)
Definition handle_connect_block (block : Block) (block_height : Z) : st Bdk HandleConnectError (option Z) :=
  λ c, if negb (unlocked env) then (Err HandleNotUnlocked, c) else
       match apply_block block block_height c with
       | inl c' => if persists env then (Ok None, c') else (Err HandlePersist, c')
       | inr try_include_height => (Ok (Some try_include_height), c)
       end.

(** [get_tip] *)
Definition get_tip : st Bdk SyncWalletError (BlockHash * Z) :=
  λ c, if negb (unlocked env) then (Err SyncNotUnlocked, c) else (Ok (chain_tip c), c).

(** The block of the top of the stack: the one already fetched, or the node's. *)
Definition missing_block (block_height : Z) (block : option Block) : outcome ConnectMissingError Block :=
  match block with
  | Some block => Ok block
  | None =>
      bh ← ok_or (getblockhash env block_height) MissingGetBlockHash;
      ok_or (get_block env bh) MissingGetBlock
  end.

(** The [while let] over the stack [try_includes], top first; [None] is out of
    fuel. *)
Fixpoint missing_blocks_loop (fuel : nat) (try_includes : list (Z * option Block)) (c : Bdk) :
    option (outcome ConnectMissingError unit * Bdk) :=
  match try_includes with
  | [] => Some (Ok tt, c)
  | (block_height, ob) :: rest =>
      match fuel with
      | O => None
      | S fuel =>
          match
            (block ← missing_block block_height ob;
             infos ← map_err MissingGetBlockInfos
                       (get_block_infos (e_db env) (block_hash (header block)) 0);
             if bool_decide (length infos = 1%nat) then Ok block else Panic) with
          | Err e => Some (Err e, c)
          | Panic => Some (Panic, c)
          | Ok block =>
              match handle_connect_block block block_height c with
              | (Ok None, c) => missing_blocks_loop fuel rest c
              | (Ok (Some try_include_height), c) =>
                  if try_include_height <? block_height then
                    match checked_sub block_height 1 with
                    | Some next_height =>
                        missing_blocks_loop fuel ((next_height, None) :: (block_height, Some block) :: rest) c
                    | None => Some (Panic, c)
                    end
                  else Some (Err (BdkConnect block_height), c)
              | (Err e, c) => Some (Err (MissingHandle e), c)
              | (Panic, c) => Some (Panic, c)
              end
          end
      end
  end.

Definition connect_missing_block (fuel : nat) (try_include_height : Z) (c : Bdk) :
    option (outcome ConnectMissingError unit * Bdk) :=
  missing_blocks_loop fuel [(try_include_height, None)] c.

(** ** sync.rs *)

Definition get_chain_checkpoint (c : Bdk) (up_to_height : option Z) : outcome FullScanError CheckPoint :=
  let tip_height := (chain_tip c).2 in
  headers ← map_err ListHeaders (list_headers (e_db env) tip_height);
  let headers := match up_to_height with
                 | Some up_to_height => filter (λ p, p.1 ≤ up_to_height) headers
                 | None => headers
                 end in
  let block_ids := filter (λ p, tip_height < p.1) headers in
  ok_or (checkpoint_extend (checkpoint_of c) block_ids) CreateCheckPoint.

Definition fast_forward_chain (up_to_height : option Z) : st Bdk FullScanError unit :=
  λ c, if negb (unlocked env) then (Err FullScanNotUnlocked, c) else
       match get_chain_checkpoint c up_to_height with
       | Ok checkpoint =>
           match apply_checkpoint checkpoint c with
           | None => (Err CannotConnect, c)
           | Some c' => if persists env then (Ok tt, c') else (Err PersistWallet, c')
           end
       | Err e => (Err e, c)
       | Panic => (Panic, c)
       end.

End connecting.

(** ** The full scan *)
Definition SCAN_STEP : Z := 1000.
Definition ESPLORA_PARALLEL_REQUESTS : Z := 25.

Section scan.
(** [probe i]: whether the chain source knows transactions of address [i] of a
    keychain. *)
Variable probe : Z → outcome FullScanError bool.

(** The first [loop]; [None] is out of fuel. *)
Fixpoint upper_bound (fuel : nat) (last_used_index : Z) : option (outcome FullScanError Z) :=
  match fuel with
  | O => None
  | S fuel =>
      match probe last_used_index with
      | Err e => Some (Err e)
      | Panic => Some Panic
      | Ok false => Some (Ok last_used_index)
      | Ok true =>
          match checked_add 32 last_used_index SCAN_STEP with
          | Some i => upper_bound fuel i
          | None => Some Panic
          end
      end
  end.

(** The [while low < high]. *)
Fixpoint scan_search (fuel : nat) (low high : Z) : option (outcome FullScanError Z) :=
  if high <=? low then Some (Ok low) else
  match fuel with
  | O => None
  | S fuel =>
      let mid := low + (high - low) / 2 in
      match probe mid with
      | Err e => Some (Err e)
      | Panic => Some Panic
      | Ok false => scan_search fuel low mid
      | Ok true => scan_search fuel (mid + 1) high
      end
  end.

(** The index up to which addresses are revealed. *)
Definition reveal_index (fuel : nat) : option (outcome FullScanError Z) :=
  match upper_bound fuel 0 with
  | Some (Ok last_used_index) => scan_search fuel (saturating_sub last_used_index SCAN_STEP) last_used_index
  | o => o
  end.
End scan.

Section scanning.
Context `{TxLib} `{BdkLib}.
Variable env : sync_env.

Definition address_has_txs (chain_source_client : ChainSourceClient) (address : Script) : outcome FullScanError bool :=
  res ← ok_or (match chain_source_client with
               | ElectrumClient script_get_history _ => script_get_history address
               | EsploraClient get_address_txs _ => get_address_txs address
               end) CheckAddressTransactions;
  Ok (match res with [] => false | _ => true end).

Definition probe_address (client : ChainSourceClient) (c : Bdk) (keychain : KeychainKind) (i : Z) :
    outcome FullScanError bool :=
  address ← expect (peek_address c keychain i);
  address_has_txs client address.

(** [reveal_map], in the order of the keychains. *)
Fixpoint scan_keychains (fuel : nat) (client : ChainSourceClient) (c : Bdk) (ks : list KeychainKind)
    (reveal_map : list (KeychainKind * Z)) : option (outcome FullScanError (list (KeychainKind * Z))) :=
  match ks with
  | [] => Some (Ok reveal_map)
  | keychain :: ks =>
      match reveal_index (probe_address client c keychain) fuel with
      | None => None
      | Some (Ok low) => scan_keychains fuel client c ks (reveal_map ++ [(keychain, low)])
      | Some (Err e) => Some (Err e)
      | Some Panic => Some Panic
      end
  end.

Definition reveal_all (reveal_map : list (KeychainKind * Z)) (c : Bdk) : Bdk :=
  fold_left (λ c '(keychain, index), reveal_addresses_to keychain index c) reveal_map c.

(** The request of a scan to the chain source. *)
Definition client_sync (client : ChainSourceClient) (request : SyncRequest) : option Update :=
  match client with
  | ElectrumClient _ sync => sync request 100 true
  | EsploraClient _ sync => sync request ESPLORA_PARALLEL_REQUESTS
  end.

(** The part under the write lock. *)
Definition apply_scan (client : ChainSourceClient) (reveal_map : list (KeychainKind * Z)) :
    st Bdk FullScanError BlockHash :=
  λ c0,
  let c := reveal_all reveal_map c0 in
  match
    (checkpoint ← get_chain_checkpoint env c None;
     let request := start_sync_with_revealed_spks c (Some checkpoint) in
     ok_or (client_sync client request) ScanChainSource) with
  | Err e => (Err e, c)
  | Panic => (Panic, c)
  | Ok update =>
      match apply_update update c with
      | None => (Err CannotConnect, c)
      | Some c => if persists env then (Ok (chain_tip c).1, c) else (Err PersistWallet, c)
      end
  end.

Definition full_scan (fuel : nat) (c : Bdk) : option (outcome FullScanError BlockHash * Bdk) :=
  match chain_source_client env with
  | None => Some (Err InvalidSyncSource, c)
  | Some client =>
      if negb (unlocked env) then Some (Err FullScanNotUnlocked, c) else
      match scan_keychains fuel client c (keychains c) [] with
      | None => None
      | Some (Ok reveal_map) => Some (apply_scan client reveal_map c)
      | Some (Err e) => Some (Err e, c)
      | Some Panic => Some (Panic, c)
      end
  end.

(** ** The periodic sync

    [last_sync] is [Some now] once the wallet has been synced. *)
Definition sync_lock (c : Bdk) : outcome WalletSyncError (option Bdk) :=
  if negb (unlocked env) then Ok None else
  let request := start_sync_with_revealed_spks c None in
  match chain_source_client env with
  | None => Ok None
  | Some client =>
      update ← (match client with
                | ElectrumClient _ sync => ok_or (sync request 5 false) ElectrumSync
                | EsploraClient _ sync => ok_or (sync request ESPLORA_PARALLEL_REQUESTS) EsploraSync
                end);
      match chain_update update with
      | Some _ => Ok None
      | None => c ← ok_or (apply_update update c) BdkWalletConnect; Ok (Some c)
      end
  end.

(** [commit] of the guard that holds the wallet [c]. *)
Definition commit (now : Z) (c : Bdk) : st (Bdk * option Z) WalletSyncError unit := λ s,
  if persists env then (Ok tt, (c, Some now)) else (Err BdkWalletPersist, (c, s.2)).

Definition sync (now : Z) : st (Bdk * option Z) WalletSyncError unit := λ s,
  match sync_lock s.1 with
  | Ok (Some c) => commit now c s
  | Ok None => (Ok tt, s)
  | Err e => (Err e, s)
  | Panic => (Panic, s)
  end.

(** A tick of [sync_task]; errors are logged. *)
Definition sync_tick (now : Z) (s : Bdk * option Z) : Bdk * option Z :=
  match s.2 with
  | None => s
  | Some _ => (sync now s).2
  end.
End scanning.

Section tip.
Context `{TxLib} `{BdkLib}.
Variable env : sync_env.

(** ** sync_wallet_to_tip *)

(** The ['connect_block] loop for one block. *)
Fixpoint connect_block_loop (fuel : nat) (block : Block) (block_height : Z) (c : Bdk) :
    option (outcome SyncWalletError unit * Bdk) :=
  match fuel with
  | O => None
  | S fuel' =>
      match handle_connect_block env block block_height c with
      | (Ok None, c) => Some (Ok tt, c)
      | (Ok (Some try_include_height), c) =>
          match checked_add 32 try_include_height 1 with
          | None => Some (Panic, c)
          | Some try_include_height =>
              match connect_missing_block env fuel try_include_height c with
              | None => None
              | Some (Ok _, c) => connect_block_loop fuel' block block_height c
              | Some (Err e, c) => Some (Err (SyncConnectMissing e), c)
              | Some (Panic, c) => Some (Panic, c)
              end
          end
      | (Err e, c) => Some (Err (SyncHandle e), c)
      | (Panic, c) => Some (Panic, c)
      end
  end.

(** The [while processed_blocks < block_infos.len()] loop. *)
Fixpoint process_blocks (fuel : nat) (new_tip_hash : BlockHash) (given : option Block) (expected processed : nat)
    (infos : list (HeaderInfo * BlockInfo)) (c : Bdk) : option (outcome SyncWalletError unit * Bdk) :=
  match infos with
  | [] => Some (Ok tt, c)
  | (header_info, _) :: infos =>
      let block := match given with
                   | Some block => if bool_decide (block_hash_ header_info = new_tip_hash) then Some block
                                   else get_block env (block_hash_ header_info)
                   | None => get_block env (block_hash_ header_info)
                   end in
      match block with
      | None => Some (Err SyncGetBlock, c)
      | Some block =>
          match connect_block_loop fuel block (height header_info) c with
          | None => None
          | Some (Ok _, c) =>
              if bool_decide (S processed = expected) then Some (Ok tt, c)
              else process_blocks fuel new_tip_hash given expected (S processed) infos c
          | Some (o, c) => Some (o, c)
          end
      end
  end.

(** The fast-forward to just below the birthday. *)
Definition skip_to_birthday (new_tip_height : Z) (wallet_tip : BlockHash * Z) :
    st Bdk SyncWalletError (BlockHash * Z) :=
  match e_birthday env with
  | Some birthday_height =>
      let skip_below := Z.min (saturating_sub birthday_height BIRTHDAY_REORG_MARGIN) new_tip_height in
      if wallet_tip.2 <? skip_below then
        _ ← st_map_err SyncFullScan (fast_forward_chain env (Some skip_below));
        get_tip env
      else mret wallet_tip
  | None => mret wallet_tip
  end.

(** The full scan when the gap is too long to replay. *)
Definition close_gap (fuel : nat) (new_tip_height : Z) (wallet_tip : BlockHash * Z) (c : Bdk) :
    option (outcome SyncWalletError (BlockHash * Z) * Bdk) :=
  let blocks_behind := saturating_sub new_tip_height wallet_tip.2 in
  if blocks_behind <=? MAX_BLOCK_BY_BLOCK_REPLAY then Some (Ok wallet_tip, c) else
  match chain_source_client env with
  | Some _ =>
      match full_scan env fuel c with
      | None => None
      | Some (Ok _, c) => Some (get_tip env c)
      | Some (Err e, c) => Some (Err (SyncFullScan e), c)
      | Some (Panic, c) => Some (Panic, c)
      end
  | None => Some (Ok wallet_tip, c)
  end.

(** From the lookup of the block infos on. *)
Definition replay_blocks (fuel : nat) (new_tip_hash : BlockHash) (new_tip_height : Z) (block : option Block)
    (wallet_tip : BlockHash * Z) (c : Bdk) : option (outcome SyncWalletError unit * Bdk) :=
  let expected_blocks := Z.to_nat (Z.max 1 (saturating_sub new_tip_height wallet_tip.2)) in
  match map_err SyncGetBlockInfos (get_block_infos (e_db env) new_tip_hash (expected_blocks - 1)) with
  | Ok infos => process_blocks fuel new_tip_hash block expected_blocks 0 infos c
  | Err e => Some (Err e, c)
  | Panic => Some (Panic, c)
  end.

(** [Ok] also marks the wallet as synced ([set_last_synced_now]). *)
Definition sync_wallet_to_tip (fuel : nat) (new_tip_hash : BlockHash) (block : option Block) (c : Bdk) :
    option (outcome SyncWalletError unit * Bdk) :=
  match
    (new_tip ← st_lift (map_err SyncGetHeaderInfo (get_header_info (e_db env) new_tip_hash));
     wallet_tip ← get_tip env;
     if bool_decide (wallet_tip.1 = new_tip_hash) then mret None else
     wallet_tip ← skip_to_birthday (height new_tip) wallet_tip;
     mret (Some (height new_tip, wallet_tip))) c with
  | (Ok None, c) => Some (Ok tt, c)
  | (Ok (Some (new_tip_height, wallet_tip)), c) =>
      match close_gap fuel new_tip_height wallet_tip c with
      | None => None
      | Some (Ok wallet_tip, c) => replay_blocks fuel new_tip_hash new_tip_height block wallet_tip c
      | Some (Err e, c) => Some (Err e, c)
      | Some (Panic, c) => Some (Panic, c)
      end
  | (Err e, c) => Some (Err e, c)
  | (Panic, c) => Some (Panic, c)
  end.
End tip.

(** * Lemmas *)
Section missing.
Context `{TxLib} `{BdkLib} `{!BdkLaws}.
Variable env : sync_env.

(** The block the node has at a height. *)
Definition node_block (h : Z) : option Block := bh ← getblockhash env h; get_block env bh.

(** The node's blocks form one chain. *)
Hypothesis node_chain : ∀ h b b',
  node_block h = Some b → node_block (h + 1) = Some b' → prev_blockhash (header b') = block_hash (header b).

Lemma missing_block_None h b : missing_block env h None = Ok b ↔ node_block h = Some b.
Proof.
  unfold missing_block, node_block. cbn. destruct (getblockhash env h) as [bh|]; [|done]. cbn.
  rewrite ok_or_Ok. done.
Qed.

(** The fetched blocks of heights [k .. h0] on the stack. *)
Fixpoint fetched (k h0 : Z) (stack : list (Z * option Block)) : Prop :=
  match stack with
  | [] => k = h0 + 1
  | (h, ob) :: stack => h = k ∧ (∃ b, ob = Some b ∧ node_block h = Some b) ∧ fetched (k + 1) h0 stack
  end.

Definition at_height (c : Bdk) (h : Z) : Prop :=
  ∃ b, node_block h = Some b ∧ chain_get c h = Some (block_hash (header b)).

(** A result of the loop: it ended, and if well, with the block of height [h0]. *)
Definition ends_at (h0 : Z) (r : option (outcome ConnectMissingError unit * Bdk)) : Prop :=
  ∃ o c, r = Some (o, c) ∧ (o = Ok tt → at_height c h0).

Lemma ends_at_fail h0 o c : o ≠ Ok tt → ends_at h0 (Some (o, c)).
Proof. intros Ho. by exists o, c. Qed.

(** Once a block is connected, the blocks above it follow. *)
Lemma ascend fuel k h0 stack c :
  fetched k h0 stack → at_height c (k - 1) → (length stack ≤ fuel)%nat →
  ends_at h0 (missing_blocks_loop env fuel stack c).
Proof.
  revert k stack c. induction fuel as [|fuel IH]; intros k [|[h ob] stack] c Hf Hc Hlen;
    cbn [length] in Hlen; try lia.
  1,2: cbn in Hf; subst k; exists (Ok tt), c; split; [done|]; intros _; by replace h0 with (h0 + 1 - 1) by lia.
  destruct Hf as (-> & (b & -> & Hb) & Hf). cbn [missing_blocks_loop missing_block].
  cbn [mbind outcome_bind]. destruct (map_err MissingGetBlockInfos _) as [infos|e|]; [|by apply ends_at_fail..].
  cbn [mbind outcome_bind]. case_bool_decide; [|by apply ends_at_fail].
  unfold handle_connect_block. destruct (unlocked env); [|by apply ends_at_fail]. cbn [negb].
  destruct Hc as (b0 & Hb0 & Hget).
  assert (prev_blockhash (header b) = block_hash (header b0)) as Hprev.
  { apply (node_chain (k - 1)); [done|]. by replace (k - 1 + 1) with k by lia. }
  destruct (apply_block_connects b k c) as [c' Hc']; [by rewrite Hget, Hprev|].
  rewrite Hc'. destruct (persists env); [|by apply ends_at_fail].
  apply (IH (k + 1)); [done| |lia]. replace (k + 1 - 1) with k by lia. exists b. split; [done|].
  by eapply apply_block_get.
Qed.

(** The descent to a block that connects. *)
Lemma descend (n : nat) fuel h0 stack c :
  fetched (Z.of_nat n + 1) h0 stack → (2 * n + 2 + length stack ≤ fuel)%nat →
  ends_at h0 (missing_blocks_loop env fuel ((Z.of_nat n, None) :: stack) c).
Proof.
  revert fuel stack c. induction n as [|n IH]; intros [|fuel] stack c Hf Hlen; try lia;
    cbn [missing_blocks_loop].
  all: destruct (missing_block env _ None) as [b|e|] eqn:Hb; cbn [mbind outcome_bind]; [|by apply ends_at_fail..].
  all: apply missing_block_None in Hb.
  all: destruct (map_err MissingGetBlockInfos _) as [infos|e|]; cbn [mbind outcome_bind]; [|by apply ends_at_fail..].
  all: case_bool_decide; [|by apply ends_at_fail].
  all: unfold handle_connect_block; destruct (unlocked env); cbn [negb]; [|by apply ends_at_fail].
  all: destruct (apply_block b _ c) as [c'|t] eqn:Ha;
    [destruct (persists env); [|by apply ends_at_fail];
     eapply (ascend _ _ h0); [exact Hf| |lia];
     rewrite Z.add_simpl_r; exists b; split; [exact Hb|by eapply apply_block_get]|].
  all: apply apply_block_height in Ha;
    match goal with |- context [?x <? ?h] => destruct (Z.ltb_spec x h) end; [|by apply ends_at_fail].
  - lia.
  - unfold checked_sub. rewrite (proj2 (Z.leb_le _ _)) by lia.
    replace (Z.of_nat (S n) - 1) with (Z.of_nat n) by lia. apply IH; [|cbn [length]; lia].
    replace (Z.of_nat n + 1) with (Z.of_nat (S n)) by lia.
    split; [done|]. split; [by exists b|done].
Qed.
End missing.

Section scan_lemmas.
Variable probe : Z → outcome FullScanError bool.

(** The bound: the first multiple of the step that is not in use. *)
Lemma upper_bound_prefix n fuel i :
  (∀ j, 0 ≤ j < n + SCAN_STEP → probe j = Ok (j <? n)) → 0 ≤ i → i mod SCAN_STEP = 0 → i < n + SCAN_STEP →
  n + SCAN_STEP < 2 ^ 32 → (Z.to_nat ((n + SCAN_STEP - i) / SCAN_STEP) < fuel)%nat →
  ∃ b, upper_bound probe fuel i = Some (Ok b) ∧ n ≤ b ∧ i ≤ b ∧ b < n + SCAN_STEP ∧ b mod SCAN_STEP = 0.
Proof.
  unfold SCAN_STEP. intros Hu. revert i. induction fuel as [|fuel IH]; intros i Hi Hm Hlt Hn Hf; [lia|].
  cbn [upper_bound]. rewrite Hu by done. destruct (Z.ltb_spec i n) as [Hin|Hin].
  - unfold checked_add, SCAN_STEP. rewrite (proj2 (Z.ltb_lt _ _)) by lia.
    destruct (IH (i + 1000)) as (b & Hb & ? & ? & ? & ?).
    + lia.
    + rewrite Z.add_mod, Hm by lia. done.
    + lia.
    + done.
    + assert ((n + 1000 - i) / 1000 = (n + 1000 - (i + 1000)) / 1000 + 1) as Hd.
      { rewrite <-Z.div_add by lia. f_equal. lia. }
      assert (0 ≤ (n + 1000 - (i + 1000)) / 1000) by (apply Z.div_pos; lia). lia.
    + exists b. split; [done|]. lia.
  - exists i. split; [done|]. lia.
Qed.

(** The binary search finds the end of a prefix. *)
Lemma scan_search_prefix n fuel low high :
  (∀ j, 0 ≤ j < n + SCAN_STEP → probe j = Ok (j <? n)) → 0 ≤ low ≤ n → n ≤ high ≤ n + SCAN_STEP →
  high - low < 2 ^ Z.of_nat fuel → scan_search probe fuel low high = Some (Ok n).
Proof.
  intros Hu. revert low high. induction fuel as [|fuel IH]; intros low high Hlow Hhigh Hw.
  - cbn in Hw. cbn. rewrite (proj2 (Z.leb_le _ _)) by lia. do 2 f_equal. lia.
  - cbn [scan_search]. destruct (Z.leb_spec high low); [do 2 f_equal; lia|].
    rewrite Nat2Z.inj_succ, Z.pow_succ_r in Hw by lia.
    assert (0 ≤ (high - low) / 2 < high - low) by (split; [apply Z.div_pos|apply Z.div_lt]; lia).
    assert ((high - low) - (high - low) / 2 ≤ (high - low) / 2 + 1).
    { pose proof (Z.div_mod (high - low) 2). pose proof (Z.mod_pos_bound (high - low) 2). lia. }
    assert ((high - low) / 2 < 2 ^ Z.of_nat fuel) by (apply Z.div_lt_upper_bound; lia).
    rewrite Hu by lia. destruct (Z.ltb_spec (low + (high - low) / 2) n); apply IH; lia.
Qed.

(** The search for a prefix, the bound and the binary search together. *)
Lemma reveal_index_prefix n fuel :
  (∀ i, 0 ≤ i < n + SCAN_STEP → probe i = Ok (i <? n)) → 0 ≤ n → n + SCAN_STEP < 2 ^ 32 →
  (Z.to_nat (n / SCAN_STEP) + 11 ≤ fuel)%nat →
  reveal_index probe fuel = Some (Ok n).
Proof.
  intros Hu Hn Hb Hf. unfold reveal_index.
  destruct (upper_bound_prefix n fuel 0 Hu) as (b & -> & Hle & Hpos & Hlt & Hm);
    [lia|done|unfold SCAN_STEP; lia|done| |].
  { rewrite Z.sub_0_r. unfold SCAN_STEP in *.
    replace ((n + 1000) / 1000) with (n / 1000 + 1) by (rewrite <-Z.div_add by lia; f_equal; lia).
    assert (0 ≤ n / 1000) by (apply Z.div_pos; lia). lia. }
  apply scan_search_prefix; [done| |lia|].
  - unfold saturating_sub. lia.
  - assert (2 ^ Z.of_nat 11 ≤ 2 ^ Z.of_nat fuel) by (apply Z.pow_le_mono_r; lia).
    change (2 ^ Z.of_nat 11) with 2048 in *. unfold saturating_sub, SCAN_STEP in *. lia.
Qed.
End scan_lemmas.

Lemma scan_keychains_prefix `{TxLib} `{BdkLib} client c n fuel ks reveal_map :
  (∀ k i, k ∈ ks → 0 ≤ i < n k + SCAN_STEP → probe_address client c k i = Ok (i <? n k)) →
  (∀ k, k ∈ ks → 0 ≤ n k ∧ n k + SCAN_STEP < 2 ^ 32 ∧ (Z.to_nat (n k / SCAN_STEP) + 11 ≤ fuel)%nat) →
  scan_keychains fuel client c ks reveal_map = Some (Ok (reveal_map ++ map (λ k, (k, n k)) ks)).
Proof.
  revert reveal_map. induction ks as [|k ks IH]; intros reveal_map Hprobe Hn; [by rewrite app_nil_r|].
  cbn [scan_keychains map]. destruct (Hn k) as (? & ? & ?); [by left|].
  rewrite (reveal_index_prefix _ (n k)); [|intros i; apply Hprobe; by left|done..].
  rewrite IH, <-app_assoc; [done|..].
  - intros k' i Hk'. apply Hprobe. by right.
  - intros k' Hk'. apply Hn. by right.
Qed.

(** * Properties *)

(** Connecting a missing block ends: if the node's blocks form a chain, then
    from any wallet chain the stack of missing heights, which grows downwards, needs
    at most two rounds for each height up to the requested one, and a success
    leaves the node's block connected at that height. *)
Lemma connect_missing_block_ends `{TxLib} `{BdkLib} `{!BdkLaws} env fuel h c :
  (∀ i b b', node_block env i = Some b → node_block env (i + 1) = Some b' →
             prev_blockhash (header b') = block_hash (header b)) →
  0 ≤ h → (2 * Z.to_nat h + 2 ≤ fuel)%nat →
  ∃ o c', connect_missing_block env fuel h c = Some (o, c')
    ∧ (o = Ok tt → ∃ b, node_block env h = Some b ∧ chain_get c' h = Some (block_hash (header b))).
Proof.
  intros Hchain Hh Hf. unfold connect_missing_block.
  destruct (Z_of_nat_complete h Hh) as [n ->]. rewrite Nat2Z.id in Hf.
  apply (descend env Hchain).
  - cbn. lia.
  - cbn. lia.
Qed.

(** A full scan finds every address in use when those of each keychain are a prefix
    of it: if the chain source knows transactions of exactly the first [n k]
    addresses of each keychain [k], the scan reveals each keychain up to index
    [n k], asks the source for the transactions of what is revealed against a
    checkpoint at the validator's tip, applies the answer, persists it and returns
    the new tip, after at most one round per thousand addresses and eleven of the
    binary search. *)
Lemma full_scan_finds `{TxLib} `{BdkLib} env client c fuel n cp update c' :
  chain_source_client env = Some client → unlocked env = true → persists env = true →
  (∀ k i, k ∈ keychains c → 0 ≤ i < n k + SCAN_STEP → probe_address client c k i = Ok (i <? n k)) →
  (∀ k, k ∈ keychains c → 0 ≤ n k ∧ n k + SCAN_STEP < 2 ^ 32 ∧ (Z.to_nat (n k / SCAN_STEP) + 11 ≤ fuel)%nat) →
  let revealed := reveal_all (map (λ k, (k, n k)) (keychains c)) c in
  get_chain_checkpoint env revealed None = Ok cp →
  client_sync client (start_sync_with_revealed_spks revealed (Some cp)) = Some update →
  apply_update update revealed = Some c' →
  full_scan env fuel c = Some (Ok (chain_tip c').1, c').
Proof.
  intros Hclient Hu Hp Hprobe Hn revealed Hcp Hup Hc'. unfold full_scan. rewrite Hclient, Hu. cbn [negb].
  rewrite (scan_keychains_prefix client c n fuel (keychains c) []) by done. cbn [app]. unfold apply_scan.
  fold revealed. rewrite Hcp. cbn [mbind outcome_bind]. rewrite Hup. cbn [ok_or].
  by rewrite Hc', Hp.
Qed.

(** An unused first address hides every later one. *)
Lemma reveal_index_gap probe fuel : probe 0 = Ok false → reveal_index probe (S fuel) = Some (Ok 0).
Proof. intros H0. unfold reveal_index. cbn. rewrite H0. by destruct fuel. Qed.

(** The validator's info on one block it has connected. *)
Lemma get_block_infos_self `{TxLib} db bh info bi :
  get_header_info db bh = Ok info → try_get_block_info db bh = Some bi →
  get_block_infos db bh 0 = Ok [(info, bi)] ∧ block_hash_ info = bh.
Proof.
  unfold get_header_info, get_block_infos, try_get_block_infos, try_get_header_infos. intros Hi Hbi.
  apply bind_Ok in Hi as (o & Ho%map_err_Ok & ->%ok_or_Ok). rewrite Ho. cbn. rewrite Hbi. cbn. split; [done|].
  revert Ho. unfold try_get_header_info. destruct (headers db !! bh) as [hd|]; [|done].
  case_bool_decide as Hbh; [done|].
  intros Ho. apply bind_Ok in Ho as (h & _ & [= <-]). done.
Qed.

(** In step with the validator the wallet follows with one block: when its chain
    ends at the parent of the block just connected, and is past its birthday, one
    [apply_block] of that block is all [sync_wallet_to_tip] does, and it succeeds. *)
Lemma sync_wallet_follows `{TxLib} `{BdkLib} `{!BdkLaws} env block c info bi fuel :
  get_header_info (e_db env) (block_hash (header block)) = Ok info →
  try_get_block_info (e_db env) (block_hash (header block)) = Some bi →
  unlocked env = true → persists env = true → 1 ≤ height info →
  (∀ b, e_birthday env = Some b → b - BIRTHDAY_REORG_MARGIN < height info) →
  prev_blockhash (header block) ≠ block_hash (header block) →
  chain_tip c = (prev_blockhash (header block), height info - 1) →
  chain_get c (height info - 1) = Some (prev_blockhash (header block)) →
  ∃ c', apply_block block (height info) c = inl c'
    ∧ sync_wallet_to_tip env (S fuel) (block_hash (header block)) (Some block) c = Some (Ok tt, c')
    ∧ chain_get c' (height info) = Some (block_hash (header block)).
Proof.
  intros Hinfo Hbi Hu Hp Hh Hbirth Hne Htip Hget.
  destruct (apply_block_connects block (height info) c Hget) as [c' Hc']. exists c'. split; [done|].
  split; [|by eapply apply_block_get].
  destruct (get_block_infos_self _ _ _ _ Hinfo Hbi) as [Hinfos Hbh].
  unfold sync_wallet_to_tip. rewrite (st_lift_bind _ info) by by rewrite Hinfo.
  unfold mbind at 1, st_bind at 1, get_tip at 1. rewrite Hu, Htip. cbn [negb fst].
  rewrite bool_decide_false by done.
  assert (skip_to_birthday env (height info) (prev_blockhash (header block), height info - 1) c
          = (Ok (prev_blockhash (header block), height info - 1), c)) as Hskip.
  { unfold skip_to_birthday. destruct (e_birthday env) as [b|] eqn:Hb; [|done]. specialize (Hbirth b eq_refl).
    unfold saturating_sub. cbn [snd]. rewrite (proj2 (Z.ltb_ge _ _)) by lia. done. }
  assert (close_gap env (S fuel) (height info) (prev_blockhash (header block), height info - 1) c
          = Some (Ok (prev_blockhash (header block), height info - 1), c)) as Hgap.
  { unfold close_gap, saturating_sub, MAX_BLOCK_BY_BLOCK_REPLAY. cbn [snd]. by rewrite (proj2 (Z.leb_le _ _)) by lia. }
  unfold mbind at 1, st_bind at 1. rewrite Hskip. unfold mret, st_ret. rewrite Hgap. unfold replay_blocks. cbn [snd].
  replace (Z.to_nat (Z.max 1 (saturating_sub (height info) (height info - 1)))) with 1%nat
    by (unfold saturating_sub; lia).
  change (1 - 1)%nat with 0%nat. rewrite Hinfos. cbn [map_err process_blocks]. rewrite Hbh, bool_decide_true by done.
  cbn [connect_block_loop]. unfold handle_connect_block. rewrite Hu, Hc', Hp. done.
Qed.

(** A stored fork above the wallet's tip makes the checkpoint of a fast-forward or
    full scan fail, on the debug assertion of [list_headers]. *)
Lemma checkpoint_fork_panics `{TxLib} `{BdkLib} env c up h bh1 bh2 :
  bh1 ≠ bh2 → heights (e_db env) !! bh1 = Some h → heights (e_db env) !! bh2 = Some h → (chain_tip c).2 ≤ h →
  get_chain_checkpoint env c up = Panic.
Proof.
  intros Hne H1 H2 Hh. unfold get_chain_checkpoint.
  by rewrite (list_headers_fork_panics _ _ _ _ _ Hne H1 H2 Hh).
Qed.

(** * Witnesses

    A wallet that is the list of its blocks, with the indexes revealed; a node with
    two blocks.  A block that extends the tip becomes the tip; one whose parent is
    in the list replaces what is above it. *)
Definition toy_get (l : list (Z * BlockHash)) (h : Z) : option BlockHash :=
  snd <$> List.find (λ p, p.1 =? h) l.
Definition toy_bdk : BdkLib := {|
  Bdk := list (Z * BlockHash) * list (KeychainKind * Z);
  chain_tip c := match c.1 with [] => ([], -1) | p :: _ => (p.2, p.1) end;
  chain_get c h := toy_get c.1 h;
  apply_block b h c :=
    if bool_decide (toy_get c.1 (h - 1) = Some (prev_blockhash (header b))) || bool_decide (h = 0)
    then inl ((h, @block_hash toy_tx (header b)) :: List.filter (λ p, p.1 <? h) c.1, c.2)
    else inr (Z.max 0 (h - 1));
  CheckPoint := list (Z * BlockHash);
  checkpoint_of c := c.1;
  checkpoint_extend cp l := Some (rev l ++ cp);
  apply_checkpoint cp c := Some (cp, c.2);
  keychains c := [External; Internal];
  peek_address c k i := Some [if bool_decide (k = External) then x01 else x02; z2b (i / 256); z2b i];
  reveal_addresses_to k i c := (c.1, c.2 ++ [(k, i)]);
  SyncRequest := option (list (Z * BlockHash));
  start_sync_with_revealed_spks c cp := cp;
  Update := option (list (Z * BlockHash));
  chain_update u := u;
  apply_update u c := Some (match u with Some cp => (cp, c.2) | None => c end);
  apply_evicted_txs l c := c;
  apply_unconfirmed_txs l c := c
|}.

Lemma toy_bdk_laws : @BdkLaws toy_bdk toy_tx.
Proof.
  split; cbn.
  - intros b h c ->. rewrite bool_decide_true by done. by eexists.
  - intros b h c c'. destruct (_ || _); [|done]. intros [= <-]. unfold toy_get. cbn. by rewrite Z.eqb_refl.
  - intros b h c c' _. destruct (_ || _); [|done]. by intros [= <-].
  - intros b h c t. destruct (_ || _); [done|]. intros [= <-]. lia.
  - done.
  - done.
Qed.

Definition ex_empty : @Bdk toy_bdk := ([], []).
Definition ex_node_blocks : list Block := [ex_block0; ex_block1].
Definition ex_env : @sync_env toy_bdk :=
  @mkSyncEnv toy_bdk (block_hashes ex_db2)
    (λ h, if 0 <=? h then (λ b, @block_hash toy_tx (header b)) <$> ex_node_blocks !! Z.to_nat h else None)
    (λ bh, List.find (λ b, bool_decide (@block_hash toy_tx (header b) = bh)) ex_node_blocks) true true None None.

Lemma ex_node_block h b : @node_block toy_bdk ex_env h = Some b →
  0 ≤ h ∧ ((Z.to_nat h = 0%nat ∧ b = ex_block0) ∨ (Z.to_nat h = 1%nat ∧ b = ex_block1)).
Proof.
  unfold node_block. cbn [getblockhash get_block ex_env].
  destruct (Z.leb_spec 0 h) as [Hpos|]; [|done]. intros Hf. split; [done|]. revert Hf.
  destruct (Z.to_nat h) as [|[|n]] eqn:Hh; cbn [ex_node_blocks lookup list_lookup fmap option_fmap option_map mbind option_bind].
  - intros Hf. left. split; [done|]. vm_compute in Hf. by injection Hf as <-.
  - intros Hf. right. split; [done|]. vm_compute in Hf. by injection Hf as <-.
  - done.
Qed.

Lemma connect_missing_block_ends_witness :
  ∃ c', @connect_missing_block toy_tx toy_bdk ex_env 4 1 ex_empty = Some (Ok tt, c')
    ∧ ∃ b, @node_block toy_bdk ex_env 1 = Some b.
Proof.
  destruct (@connect_missing_block_ends toy_tx toy_bdk toy_bdk_laws ex_env 4 1 ex_empty)
    as (o & c' & Hc & Ho).
  - intros i b b' Hb Hb'. apply ex_node_block in Hb, Hb'.
    destruct Hb as (? & [[Hi ->]|[Hi ->]]), Hb' as (? & [[Hi' ->]|[Hi' ->]]); try lia.
    vm_compute. reflexivity.
  - lia.
  - apply Nat.leb_le. reflexivity.
  - assert (match @connect_missing_block toy_tx toy_bdk ex_env 4 1 ex_empty with
            | Some (Ok _, _) => true | _ => false end = true) as Hok by (vm_compute; reflexivity).
    rewrite Hc in Hok. destruct o as [[]|e|]; [|discriminate Hok|discriminate Hok].
    exists c'. split; [exact Hc|]. destruct (Ho eq_refl) as (b & Hb & _). exists b. exact Hb.
Defined.

Definition ex_local_chain : @Bdk toy_bdk := ([(0, @block_hash toy_tx (header ex_block0))], []).

Lemma sync_wallet_follows_witness :
  ∃ c', @sync_wallet_to_tip toy_tx toy_bdk ex_env 1 (@block_hash toy_tx (header ex_block1)) (Some ex_block1)
          ex_local_chain = Some (Ok tt, c')
    ∧ @chain_get toy_bdk c' 1 = Some (@block_hash toy_tx (header ex_block1)).
Proof.
  destruct (@get_header_info toy_tx (block_hashes ex_db2) (@block_hash toy_tx (header ex_block1))) as [info|e|] eqn:Hi;
    [|vm_compute in Hi; discriminate|vm_compute in Hi; discriminate].
  assert (info = mkHeaderInfo (@block_hash toy_tx (header ex_block1)) (prev_blockhash (header ex_block1)) 1 1
                   (time (header ex_block1))) as -> by (vm_compute in Hi; injection Hi as <-; reflexivity).
  destruct (try_get_block_info (block_hashes ex_db2) (@block_hash toy_tx (header ex_block1))) as [bi|] eqn:Hbi;
    [|vm_compute in Hbi; discriminate].
  destruct (@sync_wallet_follows toy_tx toy_bdk toy_bdk_laws ex_env ex_block1 ex_local_chain _ bi 0 Hi Hbi)
    as (c' & _ & Hs & Hg).
  - reflexivity.
  - reflexivity.
  - cbn. lia.
  - intros b [=].
  - vm_compute. discriminate.
  - vm_compute. reflexivity.
  - vm_compute. reflexivity.
  - exists c'. split; [exact Hs|exact Hg].
Defined.

(** An Esplora source that knows transactions of the first 300 external and the
    first 2 internal addresses. *)
Definition ex_used (k : KeychainKind) : Z := match k with External => 300 | Internal => 2 end.
Definition ex_history (spk : Script) : option (list Txid) :=
  match spk with
  | [kind; hi; lo] =>
      Some (if b2z hi * 256 + b2z lo <? ex_used (if bool_decide (kind = x01) then External else Internal)
            then [replicate 32 x00] else [])
  | _ => None
  end.
Definition ex_client : @ChainSourceClient toy_bdk := @EsploraClient toy_bdk ex_history (λ request _, Some request).
(** Two headers, without a fork. *)
Definition ex_scan_db : BlockHashDbs :=
  let heights := {[ @block_hash toy_tx (header ex_block0) := 0; @block_hash toy_tx (header ex_block1) := 1 ]} in
  mkBlockHashDbs ∅ ∅ ∅ ∅ heights.
Definition ex_scan_env : @sync_env toy_bdk :=
  @mkSyncEnv toy_bdk ex_scan_db (λ _, None) (λ _, None) true true None (Some ex_client).

Lemma ex_probe k i : 0 ≤ i < ex_used k + SCAN_STEP → ex_used k + SCAN_STEP ≤ 65536 →
  @probe_address toy_bdk ex_client ex_local_chain k i = Ok (i <? ex_used k).
Proof.
  intros Hi Hk. unfold probe_address. cbn [peek_address toy_bdk expect mbind outcome_bind]. unfold address_has_txs.
  cbn [ex_client ex_history].
  assert (b2z (z2b (i / 256)) * 256 + b2z (z2b i) = i) as ->.
  { rewrite !b2z_z2b. rewrite (Z.mod_small (i / 256)) by (split; [apply Z.div_pos|apply Z.div_lt_upper_bound]; lia).
    pose proof (Z.div_mod i 256). lia. }
  destruct k; cbn; destruct (_ <? _); reflexivity.
Qed.

Lemma full_scan_finds_witness :
  ∃ c', @full_scan toy_bdk ex_scan_env 11 ex_local_chain
        = Some (Ok (@block_hash toy_tx (header ex_block1)), c')
    ∧ c'.2 = [(External, 300); (Internal, 2)].
Proof.
  destruct (@get_chain_checkpoint toy_bdk ex_scan_env
              (@reveal_all toy_bdk (map (λ k, (k, ex_used k)) [External; Internal]) ex_local_chain) None)
    as [cp|e|] eqn:Hcp; [|vm_compute in Hcp; discriminate Hcp..].
  eexists. split.
  - etrans; [eapply (@full_scan_finds toy_tx toy_bdk ex_scan_env ex_client ex_local_chain 11 ex_used cp (Some cp))|].
    + reflexivity.
    + reflexivity.
    + reflexivity.
    + intros k i _ Hi. apply ex_probe; [exact Hi|destruct k; vm_compute; discriminate].
    + intros k _. split; [destruct k; vm_compute; discriminate|]. split; [destruct k; reflexivity|].
      destruct k; apply Nat.leb_le; reflexivity.
    + exact Hcp.
    + reflexivity.
    + reflexivity.
    + vm_compute in Hcp. injection Hcp as <-. vm_compute. reflexivity.
  - reflexivity.
Defined.
