(* ===== verification/WalletTx.v ===== *)
(** The wallet's ordinary transactions (`wallet/mod.rs`): their listing, the
    building, signing and broadcast of a payment (`rpc_client.rs`), balances and
    addresses. *)
From Stdlib Require Import ZArith Lia Strings.Byte Strings.String Strings.Ascii.
From stdpp Require Import base list gmap sorting strings.
From S2P Require Import Prelude Bitcoin Rpc Concrete Spend Dbs BlockHandler Enforcer WalletSync.
#[local] Open Scope Z_scope.

(** [FeePolicy], [CreateTransactionParams]; a fee rate in sat/kwu. *)
Inductive FeePolicy := Absolute (fee : Amount) | Rate (rate : Z).
Record CreateTransactionParams := mkParams {
  fee_policy : option FeePolicy;
  op_return_message : option bytes;
  required_utxos : list OutPoint;
  drain_wallet_to : option Script
}.

(** [ChainPosition<ConfirmationBlockTime>]: the time, height and hash of the
    confirming block, or when the transaction was last seen. *)
Inductive ChainPosition :=
| Confirmed (confirmation_time block_height : Z) (block : BlockHash)
| Unconfirmed (last_seen : option Z).

Record BDKWalletTransaction := mkWalletTx {
  wt_txid : Txid;
  wt_tx : Transaction;
  wt_chain_position : ChainPosition;
  wt_fee : Amount;
  wt_received : Amount;
  wt_sent : Amount
}.

(** ** Third-party code

    [bdk_wallet]'s transactions, keys and builder, whose state is opaque; PSBT
    signing and extraction; [tx_deserialize_hex]. *)
Class BdkTxLib `{BdkLib} := {
  transactions : Bdk → list (Txid * Transaction * ChainPosition);
  is_mine : Bdk → Script → bool;
  Balance : Type;
  balance : Bdk → Balance;
  next_unused_address : KeychainKind → Bdk → Script * Bdk;
  Builder : Type;
  build_tx : Bdk → Builder;
  add_recipient : Script → Amount → Builder → Builder;
  drain_to : Script → Builder → Builder;
  drain_wallet : Builder → Builder;
  add_utxos : list OutPoint → Builder → Builder + OutPoint;
  manually_selected_only : Builder → Builder;
  fee_absolute : Amount → Builder → Builder;
  fee_rate : Z → Builder → Builder;
  Psbt : Type;
  finish : Builder → option Psbt * Bdk;
  sign : Bdk → Psbt → option (bool * Psbt);
  extract_tx : Psbt → option Transaction;
  new_op_return : bytes → option Script;
  tx_deserialize_hex : string → option Transaction
}.

(** ** Errors *)
Inductive ListTransactionsError := FetchTransaction (txid : Txid) | DeserializeHex | ListNotUnlocked.
Inductive CreatePsbtError := CreateTx | PsbtNotUnlocked | PsbtScript | UnknownUTXO (outpoint : OutPoint).
Inductive SignTransactionError := SignNotUnlocked | SignerError | ExtractTx | UnableToSign.
Inductive SendTransactionError :=
| BroadcastTx (e : ClientError) | SendCreatePsbt (e : CreatePsbtError) | SendSign (e : SignTransactionError)
| NonstandardTxNotSupported | SendNotUnlocked | SendPersistence.
Inductive NewAddressError := AddressNotUnlocked | AddressPersistence.

(** ** rpc_client.rs *)

(** [answer]: the node's to `sendrawtransaction`. *)
Definition broadcast_transaction_with_tolerance (answer : Txid + ClientError)
    (tolerate_rejection : Z → string → bool) : outcome ClientError (option Txid) :=
  match answer with
  | inl txid => Ok (Some txid)
  | inr (Call code message) => if tolerate_rejection code message then Ok None else Err (Call code message)
  | inr e => Err e
  end.

Definition NONSTANDARD_NOPX_ERR_MSG : string :=
  "non-mandatory-script-verify-flag (NOPx reserved for soft-fork upgrades)".
Definition NONSTANDARD_NOPX_ERR_MSG_V30_0 : string :=
  "mempool-script-verify-flag-failed (NOPx reserved for soft-fork upgrades)".

Definition broadcast_transaction (answer : Txid + ClientError) : outcome ClientError (option Txid) :=
  broadcast_transaction_with_tolerance answer
    (λ _ msg, str_contains NONSTANDARD_NOPX_ERR_MSG msg || str_contains NONSTANDARD_NOPX_ERR_MSG_V30_0 msg).

Definition BITCOIN_CORE_RPC_TRANSACTION_REJECTED : Z := -26.
Definition broadcast_transaction_tolerate_mempool_rejection (answer : Txid + ClientError) :
    outcome ClientError (option Txid) :=
  broadcast_transaction_with_tolerance answer (λ code _, code =? BITCOIN_CORE_RPC_TRANSACTION_REJECTED).

(** [Amount]'s [+=] and [-] panic. *)
Definition amount_add {E} (a b : Amount) : outcome E Amount := expect (checked_add 64 a b).
Definition amount_sub {E} (a b : Amount) : outcome E Amount := expect (checked_sub a b).

(** ** The amounts of a wallet transaction *)

(** The net change, in [final_received] and [final_sent]. *)
Definition net_amounts (received sent fee : Amount) : outcome ListTransactionsError (Amount * Amount) :=
  if sent <=? received then r ← amount_sub received sent; Ok (r, 0)
  else d ← amount_sub sent received; s ← amount_sub d fee; Ok (0, s).

(** The comparison of the sort. *)
Definition tx_cmp (a b : BDKWalletTransaction) : comparison :=
  match wt_chain_position a, wt_chain_position b with
  | Confirmed ta _ _, Confirmed tb _ _ => Z.compare ta tb
  | Confirmed ta _ _, Unconfirmed (Some tb) => Z.compare ta tb
  | Unconfirmed (Some ta), Confirmed tb _ _ => Z.compare ta tb
  | Unconfirmed (Some ta), Unconfirmed (Some tb) => Z.compare ta tb
  | _, _ => if bool_decide (wt_txid a = wt_txid b) then Eq
            else if bytes_leb (wt_txid a) (wt_txid b) then Lt else Gt
  end.
Definition tx_le (a b : BDKWalletTransaction) : Prop := tx_cmp a b ≠ Gt.
#[global] Instance tx_le_dec a b : Decision (tx_le a b).
Proof. unfold tx_le. destruct (tx_cmp a b); [left|left|right]; congruence. Defined.

Section wallet_tx.
Context `{TxLib} `{BdkLib} `{!BdkTxLib}.
Variable env : sync_env.

(** [get_raw_transaction]: the node's answer for a txid. *)
Variable get_raw_transaction : Txid → option string.

(** The output an input spends, from the node; [vout] indexes a [Vec]. *)
Definition fetch_prev_output (i : TxIn) : outcome ListTransactionsError TxOut :=
  transaction_hex ← ok_or (get_raw_transaction (txid (previous_output i))) (FetchTransaction (txid (previous_output i)));
  prev ← ok_or (tx_deserialize_hex transaction_hex) DeserializeHex;
  expect (output prev !! Z.to_nat (vout (previous_output i))).

(** The loop over the inputs: [input_value] and [sent]. *)
Definition add_input (c : Bdk) (i : TxIn) (acc : Amount * Amount) : outcome ListTransactionsError (Amount * Amount) :=
  let '(input_value, sent) := acc in
  if bool_decide (txid (previous_output i) = all_zeros) then Ok (input_value, sent) else
  o ← fetch_prev_output i;
  sent ← (if is_mine c (script_pubkey o) then amount_add sent (value o) else Ok sent);
  input_value ← amount_add input_value (value o);
  Ok (input_value, sent).

(** The loop over the outputs: [output_value] and [received]. *)
Definition add_output (c : Bdk) (o : TxOut) (acc : Amount * Amount) : outcome ListTransactionsError (Amount * Amount) :=
  let '(output_value, received) := acc in
  output_value ← amount_add output_value (value o);
  received ← (if is_mine c (script_pubkey o) then amount_add received (value o) else Ok received);
  Ok (output_value, received).

Definition wallet_transaction (c : Bdk) (t : Txid * Transaction * ChainPosition) :
    outcome ListTransactionsError BDKWalletTransaction :=
  let '(txid, tx, chain_position) := t in
  '(output_value, received) ← for_each (add_output c) (output tx) (0, 0);
  '(input_value, sent) ← for_each (add_input c) (input tx) (0, 0);
  let fee := default 0 (checked_sub input_value output_value) in
  '(final_received, final_sent) ← net_amounts received sent fee;
  Ok (mkWalletTx txid tx chain_position fee final_received final_sent).

(** [sort_by] is stable; its result is specified for total orders only. *)
Definition list_wallet_transactions (c : Bdk) : outcome ListTransactionsError (list BDKWalletTransaction) :=
  _ ← reject_if (negb (unlocked env)) ListNotUnlocked;
  txs ← for_each (λ t txs, tx ← wallet_transaction c t; Ok (txs ++ [tx])) (transactions c) [];
  Ok (merge_sort tx_le txs).

(** ** Sending *)

Definition create_op_return_output (msg : bytes) : option TxOut :=
  script_pubkey ← new_op_return msg;
  Some (mkTxOut 0 script_pubkey).

Definition set_fee (policy : option FeePolicy) (builder : Builder) : Builder :=
  match policy with
  | Some (Absolute fee) => fee_absolute fee builder
  | Some (Rate rate) => fee_rate rate builder
  | None => builder
  end.

(** [destinations] in the order the map is iterated in. *)
Definition prepare_builder (destinations : list (Script * Amount)) (params : CreateTransactionParams)
    (builder : Builder) : outcome CreatePsbtError Builder :=
  builder ← (match op_return_message params with
             | Some msg =>
                 o ← ok_or (create_op_return_output msg) PsbtScript;
                 Ok (add_recipient (script_pubkey o) (value o) builder)
             | None => Ok builder
             end);
  let builder := fold_left (λ b '(spk, value), add_recipient spk value b) destinations builder in
  let builder := match drain_wallet_to params with
                 | Some spk => drain_wallet (drain_to spk builder)
                 | None => builder
                 end in
  builder ← (match required_utxos params with
             | [] => Ok builder
             | utxos => match add_utxos utxos builder with
                        | inl builder => Ok (manually_selected_only builder)
                        | inr outpoint => Err (UnknownUTXO outpoint)
                        end
             end);
  Ok (set_fee (fee_policy params) builder).

Definition create_send_psbt (destinations : list (Script * Amount)) (params : CreateTransactionParams) :
    st Bdk CreatePsbtError Psbt := λ c,
  if negb (unlocked env) then (Err PsbtNotUnlocked, c) else
  match prepare_builder destinations params (build_tx c) with
  | Ok builder => let '(psbt, c) := finish builder in (ok_or psbt CreateTx, c)
  | Err e => (Err e, c)
  | Panic => (Panic, c)
  end.

Definition sign_transaction (psbt : Psbt) (c : Bdk) : outcome SignTransactionError Transaction :=
  _ ← reject_if (negb (unlocked env)) SignNotUnlocked;
  '(signed, psbt) ← ok_or (sign c psbt) SignerError;
  _ ← reject_if (negb signed) UnableToSign;
  ok_or (extract_tx psbt) ExtractTx.

(** [send_raw]: the node's answer to a transaction.  [persists] is asked once more,
    when the unconfirmed transaction is applied; the chain in memory holds it
    already then. *)
Definition send_wallet_transaction (send_raw : Transaction → Txid + ClientError) (now : Z)
    (destinations : list (Script * Amount)) (params : CreateTransactionParams) : st Bdk SendTransactionError Txid :=
  psbt ← st_map_err SendCreatePsbt (create_send_psbt destinations params);
  c ← st_get;
  tx ← st_lift (map_err SendSign (sign_transaction psbt c));
  sent ← st_lift (map_err BroadcastTx (broadcast_transaction (send_raw tx)));
  _ ← st_lift (reject_if (bool_decide (sent = None)) NonstandardTxNotSupported);
  _ ← st_lift (reject_if (negb (unlocked env)) SendNotUnlocked);
  _ ← st_put (apply_unconfirmed_txs [(tx, now)] c);
  _ ← st_lift (reject_if (negb (persists env)) SendPersistence);
  mret (compute_txid tx).

(** ** Balance and addresses *)

Definition get_wallet_balance (last_sync : option Z) (c : Bdk) : outcome unit (Balance * bool) :=
  if unlocked env then Ok (balance c, bool_decide (is_Some last_sync)) else Err tt.

Definition get_new_address : st Bdk NewAddressError Script := λ c,
  if negb (unlocked env) then (Err AddressNotUnlocked, c) else
  let '(address, c) := next_unused_address External c in
  if persists env then (Ok address, c) else (Err AddressPersistence, c).
End wallet_tx.

(** * Lemmas *)

(** [Σ value]. *)
Fixpoint sum_values (os : list TxOut) : Amount :=
  match os with [] => 0 | o :: os => value o + sum_values os end.
Definition own_outputs `{BdkTxLib} (c : Bdk) (os : list TxOut) : list TxOut :=
  List.filter (λ o, is_mine c (script_pubkey o)) os.
(** The inputs that are not a coinbase's. *)
Definition real_inputs (inputs : list TxIn) : list TxIn :=
  List.filter (λ i, negb (bool_decide (txid (previous_output i) = all_zeros))) inputs.

Lemma sum_values_nonneg os : Forall (λ o, 0 ≤ value o) os → 0 ≤ sum_values os.
Proof. induction 1; cbn; lia. Qed.

Section amounts.
Context `{TxLib} `{BdkLib} `{!BdkTxLib}.
Variable get_raw_transaction : Txid → option string.

Lemma mine_bounds c os : Forall (λ o, 0 ≤ value o) os → 0 ≤ sum_values (own_outputs c os) ≤ sum_values os.
Proof. unfold own_outputs. induction 1 as [|o os Ho Hos IH]; cbn; [lia|]. destruct (is_mine c _); cbn; lia. Qed.

Lemma amount_add_small {E} a b : a + b < 2 ^ 64 → @amount_add E a b = Ok (a + b).
Proof. intros Hs. unfold amount_add, checked_add. by rewrite (proj2 (Z.ltb_lt _ _)). Qed.

Lemma total_mine c o os :
  sum_values (own_outputs c (o :: os)) = (if is_mine c (script_pubkey o) then value o else 0) + sum_values (own_outputs c os).
Proof. unfold own_outputs. cbn. by destruct (is_mine c _). Qed.

Lemma add_output_step c o a b :
  0 ≤ value o → 0 ≤ b ≤ a → a + value o < 2 ^ 64 →
  add_output c o (a, b) = Ok (a + value o, b + if is_mine c (script_pubkey o) then value o else 0).
Proof.
  intros Ho Hb Ha. cbn [add_output]. rewrite (amount_add_small a) by lia. cbn [mbind outcome_bind].
  destruct (is_mine c (script_pubkey o)); [rewrite amount_add_small by lia; by cbn|]. cbn. by rewrite Z.add_0_r.
Qed.

Lemma add_output_total c os a b :
  Forall (λ o, 0 ≤ value o) os → 0 ≤ b ≤ a → a + sum_values os < 2 ^ 64 →
  for_each (add_output c) os (a, b) = Ok (a + sum_values os, b + sum_values (own_outputs c os)).
Proof.
  intros Hos. revert a b. induction Hos as [|o os Ho Hos IH]; intros a b Hb Ha.
  - cbn. by rewrite !Z.add_0_r.
  - cbn [sum_values] in *. pose proof (sum_values_nonneg _ Hos). rewrite total_mine. unfold for_each at 1; fold (@for_each).
    rewrite add_output_step by lia. unfold mbind at 1, outcome_bind at 1.
    rewrite IH by (destruct (is_mine c (script_pubkey o)); lia). do 2 f_equal; lia.
Qed.

Lemma add_input_step c i o a b :
  txid (previous_output i) ≠ all_zeros → fetch_prev_output get_raw_transaction i = Ok o →
  0 ≤ value o → 0 ≤ b ≤ a → a + value o < 2 ^ 64 →
  add_input get_raw_transaction c i (a, b) = Ok (a + value o, b + if is_mine c (script_pubkey o) then value o else 0).
Proof.
  intros Hz Hf Ho Hb Ha. cbn [add_input]. rewrite bool_decide_false by done. rewrite Hf. cbn [mbind outcome_bind].
  destruct (is_mine c (script_pubkey o)).
  - rewrite (amount_add_small b) by lia. cbn [mbind outcome_bind]. by rewrite amount_add_small by lia.
  - cbn [mbind outcome_bind]. rewrite amount_add_small by lia. cbn. by rewrite Z.add_0_r.
Qed.

Lemma add_input_total c ins prevs a b :
  Forall2 (λ i o, fetch_prev_output get_raw_transaction i = Ok o) (real_inputs ins) prevs →
  Forall (λ o, 0 ≤ value o) prevs → 0 ≤ b ≤ a → a + sum_values prevs < 2 ^ 64 →
  for_each (add_input get_raw_transaction c) ins (a, b) = Ok (a + sum_values prevs, b + sum_values (own_outputs c prevs)).
Proof.
  revert prevs a b. induction ins as [|i ins IH]; intros prevs a b Hf Hp Hb Ha.
  - apply Forall2_nil_inv_l in Hf as ->. cbn. by rewrite !Z.add_0_r.
  - unfold real_inputs in Hf. cbn [List.filter] in Hf. unfold for_each at 1; fold (@for_each).
    case_bool_decide as Hz; cbn [negb] in Hf.
    + assert (add_input get_raw_transaction c i (a, b) = Ok (a, b)) as -> by (cbn [add_input]; by rewrite bool_decide_true).
      unfold mbind at 1, outcome_bind at 1. by apply IH.
    + apply Forall2_cons_inv_l in Hf as (o & prevs' & Ho & Hf & ->). cbn [sum_values] in *. rewrite total_mine.
      apply Forall_cons in Hp as [Hpo Hp]. pose proof (sum_values_nonneg _ Hp).
      rewrite (add_input_step _ _ o) by (done || lia). unfold mbind at 1, outcome_bind at 1.
      rewrite (IH prevs') by (done || destruct (is_mine c (script_pubkey o)); lia). do 2 f_equal; lia.
Qed.
End amounts.

Lemma mine_all `{BdkTxLib} c os : Forall (λ o, is_mine c (script_pubkey o) = true) os → own_outputs c os = os.
Proof. unfold own_outputs. induction 1 as [|o os Ho Hos IH]; [done|]. cbn. by rewrite Ho, IH. Qed.

(** ** The order of the list *)

#[export] Instance tx_le_total : Total tx_le.
Proof.
  intros a b. unfold tx_le, tx_cmp.
  assert (∀ x y : Z, (x ?= y)%Z ≠ Gt ∨ (y ?= x)%Z ≠ Gt) as Hz by (intros x y; rewrite !Z.compare_ngt_iff; lia).
  assert ((if bool_decide (wt_txid a = wt_txid b) then Eq else if bytes_leb (wt_txid a) (wt_txid b) then Lt else Gt) ≠ Gt
          ∨ (if bool_decide (wt_txid b = wt_txid a) then Eq else if bytes_leb (wt_txid b) (wt_txid a) then Lt else Gt) ≠ Gt)
    as Hb.
  { case_bool_decide; [by left|]. destruct (bytes_leb_total (wt_txid a) (wt_txid b)) as [->| ->]; [by left|].
    right. by case_bool_decide. }
  destruct (wt_chain_position a) as [ta ha ba|[ta|]], (wt_chain_position b) as [tb hb bb|[tb|]]; done.
Qed.

Definition tx_time (w : BDKWalletTransaction) : option Z :=
  match wt_chain_position w with Confirmed t _ _ => Some t | Unconfirmed t => t end.
Definition earlier (a b : BDKWalletTransaction) : Prop :=
  ∃ ta tb, tx_time a = Some ta ∧ tx_time b = Some tb ∧ ta ≤ tb.

Lemma tx_le_earlier a b : is_Some (tx_time a) → is_Some (tx_time b) → tx_le a b → earlier a b.
Proof.
  unfold tx_le, tx_cmp, earlier, tx_time. intros [ta Ha] [tb Hb].
  destruct (wt_chain_position a) as [ta' ha ba|[ta'|]], (wt_chain_position b) as [tb' hb bb|[tb'|]]; try done;
    injection Ha as ->; injection Hb as ->; intros Hle; exists ta, tb; (split; [done|]); (split; [done|]);
    by apply Z.compare_ngt_iff in Hle; lia.
Qed.

Lemma timed_strongly_sorted l :
  Forall (λ w, is_Some (tx_time w)) l → Sorted tx_le l → StronglySorted earlier l.
Proof.
  intros Ht Hs. apply Sorted_StronglySorted.
  { intros a b c (ta & tb & Ha & Hb & ?) (tb' & tc & Hb' & Hc & ?). exists ta, tc. split; [done|]. split; [done|].
    assert (tb = tb') by congruence. lia. }
  induction Hs as [|w l Hs IH Hw]; [constructor|]. apply Forall_cons in Ht as [Hwt Ht].
  constructor; [by apply IH|]. destruct Hw as [|w' l' Hw]; constructor.
  apply tx_le_earlier; [done| |done]. by apply Forall_cons in Ht as [].
Qed.

Lemma for_each_collect {E A B} (f : A → outcome E B) l acc r :
  for_each (λ t txs, tx ← f t; Ok (txs ++ [tx])) l acc = Ok r →
  ∃ ws, r = acc ++ ws ∧ Forall2 (λ t w, f t = Ok w) l ws.
Proof.
  revert acc. induction l as [|t l IH]; intros acc; cbn [for_each].
  - intros [= <-]. exists []. by rewrite app_nil_r.
  - intros Hr. apply bind_Ok in Hr as (acc' & Ht & Hr). apply bind_Ok in Ht as (w & Hw & [= <-]).
    apply IH in Hr as (ws & -> & Hws). exists (w :: ws). by rewrite <-app_assoc; auto.
Qed.

(** * Properties *)

(** C23: what a listed transaction reports: when the node knows the outputs spent, its
    fee is what the inputs exceed the outputs by, and what the wallet received or
    sent is its net change, without the fee when that is a loss.  A net loss below
    the fee, as in a transaction the wallet funds together with others, panics; a
    transaction whose inputs are all the wallet's is always listed. *)
Theorem wallet_transaction_amounts `{TxLib} `{BdkLib} `{!BdkTxLib} get_raw_transaction c id tx pos prevs :
  Forall2 (λ i o, fetch_prev_output get_raw_transaction i = Ok o) (real_inputs (input tx)) prevs →
  Forall (λ o, 0 ≤ value o) (prevs ++ output tx) → sum_values prevs < 2 ^ 64 → sum_values (output tx) < 2 ^ 64 →
  let received := sum_values (own_outputs c (output tx)) in
  let sent := sum_values (own_outputs c prevs) in
  let fee := Z.max 0 (sum_values prevs - sum_values (output tx)) in
  wallet_transaction get_raw_transaction c (id, tx, pos)
    = (if sent <=? received then Ok (mkWalletTx id tx pos fee (received - sent) 0)
       else if fee <=? sent - received then Ok (mkWalletTx id tx pos fee 0 (sent - received - fee))
       else Panic)
  ∧ (Forall (λ o, is_mine c (script_pubkey o) = true) prevs →
     ∃ w, wallet_transaction get_raw_transaction c (id, tx, pos) = Ok w
       ∧ wt_received w - wt_sent w = received - sent + (if sent <=? received then 0 else fee)).
Proof.
  intros Hf [Hp Ho]%Forall_app Hlp Hlo received sent fee.
  pose proof (mine_bounds c _ Hp) as Hs. pose proof (mine_bounds c _ Ho) as Hr. fold sent in Hs. fold received in Hr.
  assert (wallet_transaction get_raw_transaction c (id, tx, pos)
    = (if sent <=? received then Ok (mkWalletTx id tx pos fee (received - sent) 0)
       else if fee <=? sent - received then Ok (mkWalletTx id tx pos fee 0 (sent - received - fee))
       else Panic)) as Heq.
  { unfold wallet_transaction. rewrite add_output_total by (done || lia).
    cbn [mbind outcome_bind]. rewrite (add_input_total _ _ _ prevs) by (done || lia).
    cbn [mbind outcome_bind]. rewrite !Z.add_0_l. fold received sent.
    replace (default 0 (checked_sub (sum_values prevs) (sum_values (output tx)))) with fee.
    2: { unfold checked_sub, fee. destruct (Z.leb_spec (sum_values (output tx)) (sum_values prevs)); cbn; lia. }
    unfold net_amounts, amount_sub, checked_sub. destruct (Z.leb_spec sent received); [done|].
    rewrite (proj2 (Z.leb_le received sent)) by lia. cbn. by destruct (fee <=? sent - received). }
  split; [done|]. intros Hall. rewrite Heq.
  assert (sent = sum_values prevs) as Hst by (unfold sent; by rewrite mine_all).
  destruct (Z.leb_spec sent received).
  - eexists. split; [done|]. cbn. lia.
  - rewrite (proj2 (Z.leb_le fee (sent - received))) by lia. eexists. split; [done|]. cbn. lia.
Qed.

(** The listed transactions are those of the wallet, each once, and when all
    were confirmed or seen at some time they are in the order of these times. *)
Lemma list_transactions_chronological `{TxLib} `{BdkLib} `{!BdkTxLib} env get_raw_transaction c l :
  list_wallet_transactions env get_raw_transaction c = Ok l →
  (∃ ws, Forall2 (λ t w, wallet_transaction get_raw_transaction c t = Ok w) (transactions c) ws ∧ l ≡ₚ ws)
  ∧ (Forall (λ t, ∃ time, (t.2 : ChainPosition) = Unconfirmed (Some time) ∨ ∃ h b, t.2 = Confirmed time h b)
       (transactions c) → StronglySorted earlier l).
Proof.
  unfold list_wallet_transactions. intros Hl. apply bind_Ok in Hl as ([] & _ & Hl).
  apply bind_Ok in Hl as (txs & Htxs & [= <-]). apply for_each_collect in Htxs as (ws & -> & Hws). cbn [app].
  split; [exists ws; split; [done|apply merge_sort_Permutation]|]. intros Ht.
  apply timed_strongly_sorted; [|apply Sorted_merge_sort; apply _].
  rewrite merge_sort_Permutation. clear -Hws Ht. induction Hws as [|[[id tx] pos] w ts ws Hw Hws IH]; [constructor|].
  apply Forall_cons in Ht as [(time & Hpos) Ht]. constructor; [|by apply IH].
  unfold wallet_transaction in Hw. apply bind_Ok in Hw as ([ov rv] & _ & Hw). apply bind_Ok in Hw as ([iv sv] & _ & Hw).
  apply bind_Ok in Hw as ([fr fs] & _ & [= <-]). unfold tx_time. cbn in Hpos |- *.
  destruct Hpos as [->|(h & b & ->)]; by eexists.
Qed.

(** The comparison is not an order: a transaction that was never seen is compared by
    its txid, the others by their times, which can go around in a circle. *)
Lemma tx_cmp_cycle : ∃ a b c, tx_cmp a b = Lt ∧ tx_cmp b c = Lt ∧ tx_cmp c a = Lt.
Proof.
  set (w id pos := mkWalletTx id (mkTransaction 2 0 [] []) pos 0 0 0).
  exists (w [x01] (Confirmed 10 1 [])), (w [x02] (Unconfirmed None)), (w [x03] (Confirmed 5 1 [])).
  vm_compute. done.
Qed.

(** A payment: a success means that the builder finished on the recipients asked
    for, the wallet signed the result completely, the node took it, and it is now in
    the wallet's transactions, in memory and on disk; a node that rejects an unknown
    kind of transaction or any other failure before that leaves the wallet as the
    builder left it, and a failure to persist comes after the broadcast. *)
Lemma send_transaction_outcome `{TxLib} `{BdkLib} `{!BdkTxLib} env send_raw now destinations params c o c' :
  send_wallet_transaction env send_raw now destinations params c = (o, c') →
  let built := ∃ b psbt c1 tx, prepare_builder destinations params (build_tx c) = Ok b ∧ finish b = (Some psbt, c1)
                 ∧ sign_transaction env psbt c1 = Ok tx ∧ c' = apply_unconfirmed_txs [(tx, now)] c1
                 ∧ (∃ id, send_raw tx = inl id)
                 ∧ (o = Ok (compute_txid tx) ∧ persists env = true
                    ∨ o = Err SendPersistence ∧ persists env = false) in
  match o with
  | Ok _ | Err SendPersistence => built
  | Err (SendCreatePsbt CreateTx) | Err (SendSign _) | Err (BroadcastTx _) | Err NonstandardTxNotSupported =>
      ∃ b psbt, prepare_builder destinations params (build_tx c) = Ok b ∧ finish b = (psbt, c')
  | _ => c' = c
  end.
Proof.
  unfold send_wallet_transaction, mbind at 1, st_bind at 1, st_map_err, create_send_psbt.
  destruct (unlocked env) eqn:Hu; cbn [negb]; [|by intros [= <- <-]].
  destruct (prepare_builder destinations params (build_tx c)) as [b|e|] eqn:Hb; cbn [map_err].
  2: { assert (e ≠ CreateTx) as He.
       { intros ->. revert Hb. unfold prepare_builder. intros Hb. apply bind_Err in Hb as [Hb|(b0 & _ & Hb)].
         - destruct (op_return_message params); [|done]. apply bind_Err in Hb as [[_ ?]%ok_or_Err|(? & _ & ?)]; done.
         - apply bind_Err in Hb as [Hb|(b1 & _ & ?)]; [|done]. destruct (required_utxos params); [done|].
           by destruct (add_utxos _ _). }
       intros [= <- <-]. by destruct e. }
  2: { by intros [= <- <-]. }
  destruct (finish b) as [[psbt|] c1] eqn:Hf; cbn [ok_or map_err]; [|intros [= <- <-]; by exists b, None].
  unfold mbind at 1, st_bind at 1, st_get. unfold mbind at 1, st_bind at 1, st_lift.
  destruct (sign_transaction env psbt c1) as [tx|e|] eqn:Hs; cbn [map_err]; [|intros [= <- <-]; by exists b, (Some psbt)|].
  2: { exfalso. revert Hs. unfold sign_transaction. rewrite Hu. cbn [negb reject_if mbind outcome_bind].
       destruct (sign c1 psbt) as [[s p]|]; [|done]. cbn. destruct s; [|done]. cbn. by destruct (extract_tx p). }
  unfold mbind at 1, st_bind at 1, broadcast_transaction, broadcast_transaction_with_tolerance.
  destruct (send_raw tx) as [id|e] eqn:Hr; cbn [map_err].
  - unfold mbind at 1, st_bind at 1. rewrite bool_decide_false by done. cbn [reject_if negb].
    unfold mbind at 1, st_bind at 1, st_put. unfold mbind at 1, st_bind at 1.
    destruct (persists env) eqn:Hp; cbn [negb reject_if]; intros [= <- <-];
      exists b, psbt, c1, tx; split_and!; eauto.
  - destruct e as [code msg| |].
    + destruct (_ || _); cbn [map_err]; intros [= <- <-]; by exists b, (Some psbt).
    + intros [= <- <-]. by exists b, (Some psbt).
    + intros [= <- <-]. by exists b, (Some psbt).
Qed.

(** * Witnesses *)

(** A wallet whose transactions are given, with the scripts that start with 0xaa its
    own; a builder that is the list of recipients. *)
Definition ex_own : Script := [xaa].
Definition ex_other : Script := [xbb].
Definition ex_paid : Transaction :=
  mkTransaction 2 0 [] [mkTxOut 100 ex_own; mkTxOut 70 ex_other].
Definition ex_tx_at (lock : Z) (vouts : list Z) (outs : list TxOut) : Transaction :=
  mkTransaction 2 lock (map (λ v, mkTxIn (mkOutPoint (replicate 32 x01) v) [] 0 []) vouts) outs.
(** All inputs the wallet's, and one input next to another's. *)
Definition ex_alone : Transaction := ex_tx_at 0 [0] [mkTxOut 60 ex_other; mkTxOut 35 ex_own].
Definition ex_shared : Transaction := ex_tx_at 0 [0; 1] [mkTxOut 95 ex_own; mkTxOut 60 ex_other].

Definition toy_bdk_tx (txs : list (Txid * Transaction * ChainPosition)) : @BdkTxLib toy_bdk := {|
  transactions c := txs : list (Txid * Transaction * ChainPosition);
  is_mine (c : @Bdk toy_bdk) spk := bool_decide (head spk = Some xaa);
  Balance := Z;
  balance (c : @Bdk toy_bdk) := 0;
  next_unused_address (k : KeychainKind) (c : @Bdk toy_bdk) := (ex_own, c);
  Builder := list TxOut * @Bdk toy_bdk;
  build_tx (c : @Bdk toy_bdk) := ([], c);
  add_recipient spk v b := (b.1 ++ [mkTxOut v spk], b.2);
  drain_to spk b := b;
  drain_wallet b := b;
  add_utxos l b := inl b;
  manually_selected_only b := b;
  fee_absolute fee b := b;
  fee_rate rate b := b;
  Psbt := Transaction;
  finish b := (Some (mkTransaction 2 0 [] b.1), b.2);
  sign c psbt := Some (true, psbt);
  extract_tx psbt := Some psbt;
  new_op_return msg := Some msg;
  tx_deserialize_hex s := if (s =? "paid")%string then Some ex_paid else None
|}.
Definition ex_raw (id : Txid) : option string := Some "paid"%string.

Lemma wallet_transaction_amounts_witness :
  @wallet_transaction toy_bdk (toy_bdk_tx []) ex_raw ([], []) ([], ex_alone, Unconfirmed None)
    = Ok (mkWalletTx [] ex_alone (Unconfirmed None) 5 0 60)
  ∧ @wallet_transaction toy_bdk (toy_bdk_tx []) ex_raw ([], []) ([], ex_shared, Unconfirmed None) = Panic.
Proof.
  split.
  - destruct (@wallet_transaction_amounts toy_tx toy_bdk (toy_bdk_tx []) ex_raw ([], []) [] ex_alone (Unconfirmed None)
      [mkTxOut 100 ex_own]) as [-> _]; [|repeat constructor; vm_compute; discriminate|reflexivity|reflexivity|reflexivity].
    repeat constructor.
  - destruct (@wallet_transaction_amounts toy_tx toy_bdk (toy_bdk_tx []) ex_raw ([], []) [] ex_shared (Unconfirmed None)
      [mkTxOut 100 ex_own; mkTxOut 70 ex_other]) as [-> _];
      [|repeat constructor; vm_compute; discriminate|reflexivity|reflexivity|reflexivity].
    repeat constructor.
Defined.

Definition ex_txs : list (Txid * Transaction * ChainPosition) :=
  [([x01], ex_alone, Confirmed 9 1 []); ([x02], ex_alone, Unconfirmed (Some 4))].

Lemma list_transactions_chronological_witness :
  ∃ l, @list_wallet_transactions toy_bdk (toy_bdk_tx ex_txs) ex_env ex_raw ([], []) = Ok l
    ∧ map wt_txid l = [[x02]; [x01]] ∧ StronglySorted earlier l.
Proof.
  destruct (@list_wallet_transactions toy_bdk (toy_bdk_tx ex_txs) ex_env ex_raw ([], [])) as [l|e|] eqn:Hl;
    [|vm_compute in Hl; discriminate Hl..].
  exists l. split; [reflexivity|]. split; [vm_compute in Hl; injection Hl as <-; reflexivity|].
  apply (@list_transactions_chronological toy_tx toy_bdk (toy_bdk_tx ex_txs) ex_env ex_raw ([], []) l Hl).
  repeat constructor; [exists 9; right; by exists 1, []|exists 4; by left].
Defined.

Lemma send_transaction_outcome_witness :
  ∃ c', @send_wallet_transaction toy_tx toy_bdk (toy_bdk_tx []) ex_env (λ _, inl [x07]) 3 [(ex_other, 10)]
          (mkParams None None [] None) ([], []) = (Ok (@compute_txid toy_tx (mkTransaction 2 0 [] [mkTxOut 10 ex_other])), c')
    ∧ ∃ b, @finish toy_bdk (toy_bdk_tx []) b = (Some (mkTransaction 2 0 [] [mkTxOut 10 ex_other]), ([], [])).
Proof.
  destruct (@send_wallet_transaction toy_tx toy_bdk (toy_bdk_tx []) ex_env (λ _, inl [x07]) 3 [(ex_other, 10)]
          (mkParams None None [] None) ([], [])) as [o c'] eqn:Hs.
  pose proof (@send_transaction_outcome toy_tx toy_bdk (toy_bdk_tx []) ex_env (λ _, inl [x07]) 3 [(ex_other, 10)]
          (mkParams None None [] None) ([], []) o c' Hs) as Ho.
  vm_compute in Hs. injection Hs as <- <-. exists ([], []). split; [reflexivity|].
  destruct Ho as (b & psbt & c1 & tx & Hb & Hf & Hsign & _). exists b.
  cbn in Hb. injection Hb as <-. reflexivity.
Defined.
