(* ===== verification/WalletDriver.v ===== *)
(** The wallet in the block driver (`wallet/block_producer.rs`): the validator and
    the producer of [WalletP2mr] together with the bdk wallet of [WalletSync]. *)
From Stdlib Require Import ZArith Lia Strings.Byte.
From stdpp Require Import base list gmap.
From S2P Require Import Prelude Bitcoin Concrete Limits P2mrOutput Spend P2mrUtxo Pqc Dbs BlockHandler Sync SyncBlocks.
From S2P Require Import Enforcer Signer P2mrStore BlockProducer WalletP2mr WalletSync.
#[local] Open Scope Z_scope.

(** The wallet of the driver: the validator and its producer, and the bdk wallet. *)
Abbreviation driver := (wallet * Bdk)%type.

Inductive DriverConnectError :=
| DriverNotUnlocked | DriverValidator (e : EnforcerConnectError) | SyncWalletToTip (e : SyncWalletError).

Inductive InitialSyncError :=
| InitialGetMainchainTip | InitialShutdown | InitialValidator (e : SyncError) | InitialWallet (e : SyncWalletError).
(** [SyncToTipError] with the wallet's error. *)
Inductive DriverSyncError :=
| DriverInvalidBlock (block_hash : BlockHash) (reason : ConnectBlockError) | DriverOther (e : InitialSyncError).

Definition map_val_err (err : SyncToTipError) : DriverSyncError :=
  match err with
  | SyncInvalidBlock block_hash reason => DriverInvalidBlock block_hash reason
  | SyncOther err => DriverOther (InitialValidator err)
  end.

(** When the shutdown signal of an initial sync fires: not before its end, during
    the validator's sync, or during the wallet's, which is then dropped in a state
    it had reached. *)
Inductive shutdown `{BdkLib} := NoShutdown | ShutdownValidator | ShutdownWallet (reached : Bdk).

Section driver.
Context `{HashLib} `{ScriptLib} `{TxLib} `{TaprootLib} `{P2mrLib} `{PqcLib}.
Context `{OrderMapLib} `{GetBlockV3} `{BdkLib}.

(** The surroundings of the bdk wallet with the databases as they are now. *)
Definition env_on (env : sync_env) (db : Dbs) : sync_env :=
  mkSyncEnv _ (block_hashes db) (getblockhash env) (get_block env) (unlocked env) (persists env) (e_birthday env)
    (chain_source_client env).

Definition driver_connect_block (v : BlockHandler) (parsed : option GbBlock) (clock : list Z) (env : sync_env)
    (fuel : nat) (now : Z) (block : Block) (s : driver) :
    option (outcome DriverConnectError ConnectBlockAction * driver) :=
  let '(w, c) := s in
  match on_producer (connect_block_validator v parsed clock block) w with
  | (Ok (ConnectAccept remove_mempool_txs), w) =>
      let w := mkWallet (reap_confirmed_p2mr_spends block (w_producer w)) (w_store w) in
      match sync_wallet_to_tip (env_on env (w_db w)) fuel (block_hash (header block)) (Some block) c with
      | None => None
      | Some (Ok _, c) =>
          if negb (unlocked env) then Some (Err DriverNotUnlocked, (w, c)) else
          Some (Ok (ConnectAccept remove_mempool_txs),
                (w, apply_evicted_txs (map (λ txid, (txid, now)) (elements remove_mempool_txs)) c))
      | Some (Err e, c) => Some (Err (SyncWalletToTip e), (w, c))
      | Some (Panic, c) => Some (Panic, (w, c))
      end
  | (Ok ConnectReject, w) => Some (Ok ConnectReject, (w, c))
  | (Err e, w) => Some (Err (DriverValidator e), (w, c))
  | (Panic, w) => Some (Panic, (w, c))
  end.

(** The task an accepted transaction starts, once it has run; its errors are
    logged. *)
Definition driver_accept_tx (v : BlockHandler) (env : sync_env) (now : Z) (tx : Transaction) (s : driver) :
    outcome ValidateTransactionError TxAcceptAction * driver :=
  let '(w, c) := s in
  match wallet_accept_tx v tx w with
  | (Ok (TxAccept cs wt), w) =>
      (Ok (TxAccept cs wt), (w, if unlocked env then apply_unconfirmed_txs [(tx, now)] c else c))
  | (o, w) => (o, (w, c))
  end.

(** [sync_to_tip]; [fuel] bounds the validator's loops, [wallet_fuel] the wallet's.
    When shut down during the validator's sync, that sync still runs to its
    cancelled end. *)
Definition driver_sync_to_tip `{NodeRpc} (v : BlockHandler) (trace : bool) (clock : Block → list Z)
    (cancelled : cancel_poll → bool) (fuel wallet_fuel : nat) (from_dir : option block_file_sync) (env : sync_env)
    (shut : shutdown) (tip_hash : BlockHash) (s : driver) : option (outcome DriverSyncError unit * driver) :=
  let '(w, c) := s in
  match on_producer (on_task (enforcer_sync_to_tip v trace clock cancelled fuel from_dir tip_hash)) w with
  | (Ok None, w) => None
  | (Ok (Some _), w) =>
      match shut with
      | ShutdownValidator => Some (Err (DriverOther InitialShutdown), (w, c))
      | _ =>
          match get_mainchain_tip (w_db w) with
          | Ok synced_tip_hash =>
              match shut with
              | ShutdownWallet reached => Some (Err (DriverOther InitialShutdown), (w, reached))
              | _ =>
                  match sync_wallet_to_tip (env_on env (w_db w)) wallet_fuel synced_tip_hash None c with
                  | None => None
                  | Some (Ok _, c) => Some (Ok tt, (w, c))
                  | Some (Err e, c) => Some (Err (DriverOther (InitialWallet e)), (w, c))
                  | Some (Panic, c) => Some (Panic, (w, c))
                  end
              end
          | _ => Some (Err (DriverOther InitialGetMainchainTip), (w, c))
          end
      end
  | (Err e, w) => Some (Err (map_val_err e), (w, c))
  | (Panic, w) => Some (Panic, (w, c))
  end.
End driver.

(** * Properties *)

(** The bdk wallet is in step with a chain: its tip is the chain's. *)
Definition in_step `{TxLib} `{BdkLib} (chain : list Block) (c : Bdk) : Prop :=
  chain_tip c = (SyncBlocks.tip_hash chain, len chain - 1)
  ∧ chain_get c (len chain - 1) = Some (SyncBlocks.tip_hash chain).

Section lemmas.
Context `{HashLib} `{ScriptLib} `{TxLib} `{TaprootLib} `{P2mrLib} `{PqcLib}.
Context `{OrderMapLib} `{GetBlockV3} `{BdkLib}.

(** What the databases say of the tip of their chain. *)
Lemma tip_infos db block chain :
  db_inv db (block :: chain) →
  ∃ info bi, get_header_info (block_hashes db) (block_hash (header block)) = Ok info
    ∧ try_get_block_info (block_hashes db) (block_hash (header block)) = Some bi ∧ height info = len chain.
Proof.
  intros Hinv. pose proof (tip_height _ _ _ Hinv) as Hh.
  destruct (inv_chain _ _ Hinv) as (Hhd & _ & _ & _ & [cb Hcb] & _).
  destruct (db_inv_header_info db (block :: chain) _ _ Hinv Hhd) as [h Hi]. rewrite Hi.
  eexists _, (mkBlockInfo cb). split; [done|]. split; [by unfold try_get_block_info; rewrite Hcb|]. cbn [height].
  revert Hi. unfold get_header_info, try_get_header_info. rewrite Hhd, Hh. case_bool_decide; [done|].
  cbn. by intros [=].
Qed.

(** The validator's part of a connect. *)
Lemma connect_validator_task v parsed clock block w :
  on_producer (connect_block_validator v parsed clock block) w
  = let r := enforcer_connect_block v parsed clock block (p_task (w_producer w)) in
    (r.1, mkWallet (mkProducer r.2 (pending_p2mr_spends (w_producer w)) (last_gbt_error (w_producer w))) (w_store w)).
Proof. unfold on_producer, connect_block_validator, on_task. by destruct (enforcer_connect_block _ _ _ _ _). Qed.

Lemma reap_task block p : p_task (reap_confirmed_p2mr_spends block p) = p_task p.
Proof. unfold reap_confirmed_p2mr_spends. by destruct (pending_p2mr_spends p). Qed.

(** [wallet_connect_block] of [WalletP2mr], where bringing the bdk wallet to the block
    is a bit, is this connect with that part left out. *)
Definition forget_sync (e : DriverConnectError) : WalletConnectError :=
  match e with DriverValidator e => WalletValidator e | _ => WalletP2mr.WalletSync end.

Lemma driver_connect_refines v parsed clock env fuel now block w c o w' c' :
  driver_connect_block v parsed clock env fuel now block (w, c) = Some (o, (w', c')) → o ≠ Panic →
  ∃ sync_wallet, wallet_connect_block v parsed clock sync_wallet block w = (map_err forget_sync o, w').
Proof.
  unfold driver_connect_block, wallet_connect_block. unfold mbind at 1, st_bind at 1, st_map_err at 1.
  destruct (on_producer _ w) as [[[removed|]|e|] w1]; cbn [map_err].
  - destruct (sync_wallet_to_tip _ _ _ _ c) as [[[[]|e|] c1]|]; [|..|done].
    + destruct (negb (unlocked env)); intros [= <- <- <-] _; [by exists false|by exists true].
    + intros [= <- <- <-] _. by exists false.
    + intros [= <- _ _]. done.
  - intros [= <- <- <-] _. by exists true.
  - intros [= <- <- <-] _. by exists true.
  - intros [= <- _ _]. done.
Qed.

(** The initial sync does not touch the bdk wallet before the validator's sync has
    succeeded, and then brings it to the tip the validator reached, which it asks
    it for: the validator may have stopped short of the tip asked for. *)
Lemma driver_sync_after_validator `{NodeRpc} v trace clock cancelled fuel wallet_fuel from_dir env shut tip w c o w' c' :
  driver_sync_to_tip v trace clock cancelled fuel wallet_fuel from_dir env shut tip (w, c) = Some (o, (w', c')) →
  match on_producer (on_task (enforcer_sync_to_tip v trace clock cancelled fuel from_dir tip)) w with
  | (Ok (Some _), w1) =>
      w' = w1 ∧ (o = Ok tt → ∃ synced, current_chain_tip (w_db w') = Some synced
                   ∧ sync_wallet_to_tip (env_on env (w_db w')) wallet_fuel synced None c = Some (Ok tt, c'))
  | (Err e, w1) => w' = w1 ∧ o = Err (map_val_err e) ∧ c' = c
  | _ => o = Panic
  end.
Proof.
  unfold driver_sync_to_tip. destruct (on_producer _ w) as [[[u|]|e|] w1]; [|done|by intros [= <- <- <-]..].
  unfold get_mainchain_tip.
  destruct (match shut with ShutdownValidator => true | _ => false end) eqn:Hs.
  { destruct shut; try done. by intros [= <- <- <-]. }
  destruct (current_chain_tip (w_db w1)) as [synced|] eqn:Ht; cbn [ok_or]; [|by destruct shut; intros [= <- <- <-]].
  destruct shut as [| |reached]; [|done|by intros [= <- <- <-]].
  destruct (sync_wallet_to_tip _ _ _ _ c) as [[[[]|e|] c1]|] eqn:Hw; intros [= <- <- <-]; try done.
  split; [done|]. intros _. by exists synced.
Qed.
End lemmas.

(** C19: An unlocked wallet follows the validator. Take databases of a non-empty chain; a bdk
    wallet, unlocked, whose tip is that chain's, whose changes can be persisted and whose
    birthday, less the margin for reorganisations, is below the height of the next block;
    and a block with the background facts of one the node has checked ([header_ok],
    [block_ok]) and prefetched outputs of which none is P2MR. Then a connect that does not
    panic gives no error, whatever the node would answer the wallet: it rejects the block,
    and leaves the databases of the chain and the bdk wallet as they were, or accepts it,
    and both have it as their new tip. *)
Theorem wallet_stays_in_step
    `{HashLib} `{ScriptLib} `{TxLib} `{TaprootLib} `{P2mrLib} `{PqcLib} `{OrderMapLib} `{GetBlockV3} `{BdkLib}
    `{!BdkLaws} v parsed clock env fuel now block w c chain :
  (∀ hd, 0 < header_work hd) → db_inv (w_db w) chain → chain ≠ [] → in_step chain c →
  header_ok (block_hashes (w_db w)) (header block) → block_ok (utxos_of chain) block →
  (∀ extra, prefetch_external_prevouts parsed block (w_db w) = Ok extra →
     map_Forall (λ _ o, is_p2mr_script (script_pubkey o) = false) extra) →
  unlocked env = true → persists env = true →
  (∀ b, e_birthday env = Some b → b - BIRTHDAY_REORG_MARGIN < len chain) →
  match driver_connect_block v parsed clock env (S fuel) now block (w, c) with
  | Some (Ok (ConnectAccept _), (w', c')) => db_inv (w_db w') (block :: chain) ∧ in_step (block :: chain) c'
  | Some (Ok ConnectReject, (w', c')) => db_inv (w_db w') chain ∧ c' = c
  | Some (Panic, _) => True
  | _ => False
  end.
Proof.
  intros Hw Hinv Hne [Htip Hget] Hho Hok Hx Hu Hp Hb. unfold driver_connect_block.
  rewrite connect_validator_task. cbn zeta.
  pose proof (enforcer_connect_outcome v parsed clock block chain (w_db w) (p_task (w_producer w)).2
                Hw Hinv Hho Hok Hx) as Hout.
  unfold w_db in Hout. rewrite <-surjective_pairing in Hout.
  destruct (enforcer_connect_block _ _ _ _ _) as [[[removed|]|e|] [db' evs']]; cbn [fst snd connect_outcome] in *.
  - destruct Hout as (-> & Hinv' & _).
    destruct (tip_infos db' block chain Hinv') as (info & bi & Hi & Hbi & Hheight).
    assert (prev_blockhash (header block) = SyncBlocks.tip_hash chain) as Hprev by by apply (inv_chain _ _ Hinv').
    unfold w_db. cbn [w_producer]. rewrite reap_task. cbn [p_task fst].
    destruct (sync_wallet_follows (env_on env db') block c info bi fuel) as (c' & Happ & Hs & Hg); try done.
    + rewrite Hheight. destruct chain; [done|]. rewrite len_cons. pose proof (len_nonneg chain). lia.
    + intros b Hbd. rewrite Hheight. by apply Hb.
    + by apply (ho_parent _ _ Hho).
    + by rewrite Hheight, Hprev.
    + by rewrite Hheight, Hprev.
    + rewrite Hs, Hu. cbn [negb]. unfold w_db. cbn [w_producer]. rewrite reap_task. split; [done|].
      unfold in_step. rewrite evicted_tip, evicted_get, len_cons.
      replace (1 + len chain - 1) with (height info) by lia. split; [|done].
      apply (apply_block_tip _ _ c); [by rewrite Hheight, Hprev|done].
  - destruct Hout as (Hinv' & _). done.
  - done.
  - done.
Qed.

(** * Witnesses *)

Definition ex_driver_run :=
  @driver_connect_block toy_hash toy_script toy_tx toy_taproot toy_p2mr toy_pqc toy_order_map toy_v3 toy_bdk
    ex_handler None [] ex_env 1 0 ex_block1
    (mkWallet (producer_new (ex_db1, [])) (mkFs None None), ex_local_chain).

Lemma wallet_stays_in_step_witness :
  ∃ w' c', ex_driver_run = Some (Ok (ConnectAccept ∅), (w', c'))
    ∧ @db_inv toy_tx (w_db w') [ex_block1; ex_block0] ∧ @in_step toy_tx toy_bdk [ex_block1; ex_block0] c'.
Proof.
  assert (match ex_driver_run with Some (Ok (ConnectAccept r), _) => bool_decide (r = ∅) | _ => false end = true)
    as Hrun by (vm_compute; reflexivity).
  pose proof (@wallet_stays_in_step toy_hash toy_script toy_tx toy_taproot toy_p2mr toy_pqc toy_order_map toy_v3
    toy_bdk toy_bdk_laws ex_handler None [] ex_env 0 0 ex_block1
    (mkWallet (producer_new (ex_db1, [])) (mkFs None None)) ex_local_chain [ex_block0]
    toy_work_pos ex_inv1 ltac:(discriminate) (conj eq_refl eq_refl) ex_header_ok1 ex_block_ok1 ex_no_prefetch
    eq_refl eq_refl ltac:(intros b Hb; discriminate Hb)) as Hs.
  fold ex_driver_run in Hs. destruct ex_driver_run as [[[[r|]|e|] [w' c']]|];
    [|discriminate Hrun..]. apply bool_decide_eq_true in Hrun as ->. exists w', c'. split; [reflexivity|exact Hs].
Defined.
