(* ===== verification/WalletLocks.v ===== *)
(** The locks of the wallet (`wallet/mod.rs`: [WalletInner], [read_wallet],
    [read_wallet_upgradable], [write_wallet]; `wallet/util.rs`: the guards; the
    operations of `wallet/mod.rs`, `wallet/sync.rs` and `wallet/block_producer.rs`).

    Any number of operations run at once.  Each is the sequence of what it does with
    the locks [bitcoin_wallet], [last_sync] and [bdk_db]; what it computes is in
    [WalletSync], [WalletTx] and [SeedStore], where it runs alone.  The locks are those
    of async_lock and tokio: a step takes a guard only if the guards held allow it, and
    which of the waiting tasks is served is an arbitrary policy. *)
From Stdlib Require Import Lia.
From stdpp Require Import base list list_numbers relations.
From S2P Require Import Prelude.

(** ** Operations *)

Inductive lock_id := BitcoinWallet | LastSync | BdkDb.
(** The guards of a lock; a mutex has the last kind only. *)
Inductive mode := ReadGuard | UpgradableGuard | WriteGuard.
#[global] Instance lock_id_eq : EqDecision lock_id.
Proof. solve_decision. Defined.
#[global] Instance mode_eq : EqDecision mode.
Proof. solve_decision. Defined.

(** [CheckSome] is [RwLock..GuardSome::new] with its [NotUnlocked] error, [CheckNone]
    the test of [unlock_existing_wallet]; [Load] and [Store] make the wallet from the
    database and put it in place; [DropGuard] ends the guard of a lock. *)
Inductive action :=
| Acquire (l : lock_id) (m : mode) | CheckSome | CheckNone | Upgrade | WithMut | Persist | Load | Store
| DropGuard (l : lock_id).

Definition read_wallet : list action := [Acquire BitcoinWallet ReadGuard; CheckSome].
Definition read_wallet_upgradable : list action := [Acquire BitcoinWallet UpgradableGuard; CheckSome].
Definition write_wallet : list action := [Acquire BitcoinWallet WriteGuard; CheckSome].
(** A short look at the wallet, and a change that is persisted under the same guards. *)
Definition read_only : list action := read_wallet ++ [DropGuard BitcoinWallet].
Definition update_and_persist : list action :=
  write_wallet ++ [Acquire BdkDb WriteGuard; WithMut; Persist; DropGuard BdkDb; DropGuard BitcoinWallet].

Definition handle_connect_block_locks : list action :=
  write_wallet ++ [Acquire BdkDb WriteGuard; WithMut; Persist; DropGuard BitcoinWallet; DropGuard BdkDb].
Definition fast_forward_chain_locks : list action := handle_connect_block_locks.
Definition set_last_synced_now_locks : list action := [Acquire LastSync WriteGuard; DropGuard LastSync].
Definition sync_locks : list action :=
  read_wallet_upgradable ++
  [Acquire LastSync WriteGuard; Upgrade; WithMut; Acquire BdkDb WriteGuard; WithMut; Persist;
   DropGuard BdkDb; DropGuard LastSync; DropGuard BitcoinWallet].
Definition sync_tick_locks : list action := [Acquire LastSync ReadGuard; DropGuard LastSync] ++ sync_locks.
Definition full_scan_locks : list action :=
  read_wallet_upgradable ++
  [Upgrade; WithMut; Acquire BdkDb WriteGuard; WithMut; Persist; DropGuard BitcoinWallet; DropGuard BdkDb].

(** The wallet is made from the database and then put in place. *)
Definition install_locks : list action :=
  [Acquire BdkDb WriteGuard; Load; DropGuard BdkDb;
   Acquire BitcoinWallet WriteGuard; Store; DropGuard BitcoinWallet].
Definition create_new_wallet_locks : list action := install_locks.
Definition unlock_existing_wallet_locks : list action :=
  [Acquire BitcoinWallet ReadGuard; CheckNone; DropGuard BitcoinWallet] ++ install_locks.

Definition get_wallet_balance_locks : list action := [Acquire LastSync ReadGuard; DropGuard LastSync] ++ read_only.
(** One more look for each input fetched from the node. *)
Definition list_wallet_transactions_locks (inputs : nat) : list action :=
  read_only ++ mjoin (replicate inputs read_only).
Definition create_send_psbt_locks : list action := write_wallet ++ [WithMut; DropGuard BitcoinWallet].
Definition send_wallet_transaction_locks : list action := create_send_psbt_locks ++ read_only ++ update_and_persist.
Definition is_initialized_locks : list action := [Acquire BitcoinWallet ReadGuard; DropGuard BitcoinWallet].

(** [sync_wallet_to_tip], which fast-forwards and scans or not and connects [blocks]
    blocks, and [connect_block] around it. *)
Definition sync_wallet_to_tip_locks (fast_forward scan : bool) (blocks : nat) : list action :=
  read_only
  ++ (if fast_forward then fast_forward_chain_locks ++ read_only else [])
  ++ (if scan then full_scan_locks ++ read_only else [])
  ++ mjoin (replicate blocks handle_connect_block_locks)
  ++ set_last_synced_now_locks.
Definition connect_block_locks (fast_forward scan : bool) (blocks : nat) : list action :=
  sync_wallet_to_tip_locks fast_forward scan blocks ++ write_wallet ++ [WithMut; DropGuard BitcoinWallet].

Inductive operation :=
| OpSync | OpSyncTick | OpFullScan | OpCreate | OpUnlock | OpIsInitialized
| OpBalance | OpListTransactions (inputs : nat) | OpSend | OpGetUtxos | OpGetInfo | OpNewAddress
| OpSyncToTip (fast_forward scan : bool) (blocks : nat) | OpConnectBlock (fast_forward scan : bool) (blocks : nat)
| OpAcceptTx.

Definition program (op : operation) : list action :=
  match op with
  | OpSync => sync_locks
  | OpSyncTick => sync_tick_locks
  | OpFullScan => full_scan_locks
  | OpCreate => create_new_wallet_locks
  | OpUnlock => unlock_existing_wallet_locks
  | OpIsInitialized => is_initialized_locks
  | OpBalance => get_wallet_balance_locks
  | OpListTransactions inputs => list_wallet_transactions_locks inputs
  | OpSend => send_wallet_transaction_locks
  | OpGetUtxos | OpGetInfo => read_only
  | OpNewAddress | OpAcceptTx => update_and_persist
  | OpSyncToTip fast_forward scan blocks => sync_wallet_to_tip_locks fast_forward scan blocks
  | OpConnectBlock fast_forward scan blocks => connect_block_locks fast_forward scan blocks
  end.

Section locks.
Context {W : Type}.

(** ** State

    The wallet, [None] while it is locked; what the database has of it; and whether
    the [expect] of [new_unchecked] has failed. *)
Record content := mkContent { bitcoin_wallet : option W; persisted : W; panicked : bool }.
Record op_task := mkTask { guards : list (lock_id * mode); todo : list action; loaded : option W }.
Definition ended : op_task := mkTask [] [] None.
Record sys := mkSys { state : content; tasks : list op_task }.

Definition compatible (m m' : mode) : bool :=
  match m, m' with
  | ReadGuard, ReadGuard | ReadGuard, UpgradableGuard | UpgradableGuard, ReadGuard => true
  | _, _ => false
  end.

(** The guards that are held allow the next action of task [i]. *)
Definition allowed (s : sys) (i : nat) (a : action) : bool :=
  match a with
  | Acquire l m =>
      forallb (λ t, forallb (λ g, bool_decide (g.1 ≠ l) || compatible m g.2) (guards t)) (tasks s)
  | Upgrade =>
      forallb (λ '(j, t), bool_decide (j = i) || forallb (λ g, bool_decide (g.1 ≠ BitcoinWallet)) (guards t))
        (imap pair (tasks s))
  | _ => true
  end.

Definition drop_guard (l : lock_id) (held : list (lock_id * mode)) : list (lock_id * mode) :=
  filter (λ g, g.1 ≠ l) held.

(** [new] is what a change makes of the wallet. *)
Definition perform (new : W) (a : action) (rest : list action) (c : content) (t : op_task) : content * op_task :=
  match a with
  | Acquire l m => (c, mkTask ((l, m) :: guards t) rest (loaded t))
  | DropGuard l => (c, mkTask (drop_guard l (guards t)) rest (loaded t))
  | CheckSome => (c, match bitcoin_wallet c with Some _ => mkTask (guards t) rest (loaded t) | None => ended end)
  | CheckNone => (c, match bitcoin_wallet c with None => mkTask (guards t) rest (loaded t) | Some _ => ended end)
  | Upgrade =>
      match bitcoin_wallet c with
      | Some _ => (c, mkTask ((BitcoinWallet, WriteGuard) :: drop_guard BitcoinWallet (guards t)) rest (loaded t))
      | None => (mkContent None (persisted c) true, ended)
      end
  | WithMut => (mkContent ((λ _, new) <$> bitcoin_wallet c) (persisted c) (panicked c), mkTask (guards t) rest (loaded t))
  | Persist =>
      (mkContent (bitcoin_wallet c) (default (persisted c) (bitcoin_wallet c)) (panicked c), mkTask (guards t) rest (loaded t))
  | Load => (c, mkTask (guards t) rest (Some (persisted c)))
  | Store =>
      (mkContent (match loaded t with Some w => Some w | None => bitcoin_wallet c end) (persisted c) (panicked c),
       mkTask (guards t) rest None)
  end.

Definition perform_in (s : sys) (i : nat) (new : W) (a : action) (rest : list action) (t : op_task) : sys :=
  let '(c, t) := perform new a rest (state s) t in mkSys c (<[i := t]> (tasks s)).

(** A task goes on; it ends early, by an error, a branch that has nothing to do or
    because its future is dropped, which drops its guards; an operation is called. *)
Inductive step (s : sys) : option nat → sys → Prop :=
| step_task i t a rest new : tasks s !! i = Some t → todo t = a :: rest → allowed s i a = true →
    step s (Some i) (perform_in s i new a rest t)
| step_ends i t : tasks s !! i = Some t → step s (Some i) (mkSys (state s) (<[i := ended]> (tasks s)))
| step_called op : step s None (mkSys (state s) (tasks s ++ [mkTask [] (program op) None])).

Definition initial (locked : option W) (on_disk : W) : sys := mkSys (mkContent locked on_disk false) [].
Definition reachable (locked : option W) (on_disk : W) (s : sys) : Prop :=
  rtc (λ s s', ∃ who, step s who s') (initial locked on_disk) s.

(** ** The policy of the locks

    Which of the waiting requests are served in a state.  The documented promises: a
    lock that nobody holds goes to one that waits for it, and an upgrade is served when
    no other guard is left. *)
Class LockPolicy := granted : sys → nat → bool.
Class FairLocks `{LockPolicy} := {
  free_lock s l i t m rest :
    tasks s !! i = Some t → todo t = Acquire l m :: rest →
    (∀ j t' m', tasks s !! j = Some t' → (l, m') ∉ guards t') →
    ∃ j t' m' rest', tasks s !! j = Some t' ∧ todo t' = Acquire l m' :: rest' ∧ granted s j = true;
  last_guard s i t rest :
    tasks s !! i = Some t → todo t = Upgrade :: rest →
    (∀ j t' m', j ≠ i → tasks s !! j = Some t' → (BitcoinWallet, m') ∉ guards t') → granted s i = true
}.

Definition is_request (a : action) : bool := match a with Acquire _ _ | Upgrade => true | _ => false end.

(** The steps of the tasks that are there, when none of them ends early. *)
Inductive runs `{LockPolicy} (s : sys) : sys → Prop :=
| run_task i t a rest new : tasks s !! i = Some t → todo t = a :: rest → allowed s i a = true →
    (is_request a = true → granted s i = true) → runs s (perform_in s i new a rest t).
End locks.
Arguments content : clear implicits.
Arguments op_task : clear implicits.
Arguments sys : clear implicits.
Arguments LockPolicy : clear implicits.

(** * Lemmas *)

(** ** The order of the locks

    What a program may do next, given the guards it holds and whether it has seen that
    the wallet is there: a task that holds [bdk_db] or a read guard asks for nothing,
    the wallet is asked for first, and the contents are used under their guards. *)
Definition holds (l : lock_id) (held : list (lock_id * mode)) : bool := existsb (λ g, bool_decide (g.1 = l)) held.
Definition may_request (held : list (lock_id * mode)) : bool :=
  forallb (λ g, bool_decide (g.1 ≠ BdkDb) && bool_decide (g.2 ≠ ReadGuard)) held.
Definition has (l : lock_id) (m : mode) (held : list (lock_id * mode)) : bool := bool_decide ((l, m) ∈ held).

Fixpoint disciplined (held : list (lock_id * mode)) (seen : bool) (p : list action) : bool :=
  match p with
  | [] => bool_decide (held = [])
  | Acquire BitcoinWallet m :: p => bool_decide (held = []) && disciplined [(BitcoinWallet, m)] false p
  | Acquire l m :: p => may_request held && negb (holds l held) && disciplined ((l, m) :: held) seen p
  | Upgrade :: p =>
      seen && may_request held && has BitcoinWallet UpgradableGuard held
      && disciplined ((BitcoinWallet, WriteGuard) :: drop_guard BitcoinWallet held) seen p
  | CheckSome :: p => holds BitcoinWallet held && disciplined held true p
  | CheckNone :: p => holds BitcoinWallet held && disciplined held false p
  | WithMut :: p | Store :: p => has BitcoinWallet WriteGuard held && disciplined held seen p
  | Persist :: p => holds BitcoinWallet held && has BdkDb WriteGuard held && disciplined held seen p
  | Load :: p => has BdkDb WriteGuard held && disciplined held seen p
  | DropGuard l :: p => holds l held && disciplined (drop_guard l held) (if bool_decide (l = BitcoinWallet) then false else seen) p
  end.

Lemma disciplined_app p q : ∀ held seen,
  disciplined held seen p = true → (∀ seen, disciplined [] seen q = true) → disciplined held seen (p ++ q) = true.
Proof.
  induction p as [|a p IH]; intros held seen Hp Hq; cbn in *.
  - apply bool_decide_eq_true in Hp as ->. apply Hq.
  - destruct a as [[] m| | | | | | | |l]; rewrite ?andb_true_iff in *; repeat split; try tauto; apply IH; tauto.
Qed.

(** A program for a task without guards. *)
Definition well_ordered (p : list action) : Prop := ∀ seen, disciplined [] seen p = true.

Lemma well_ordered_app p q : well_ordered p → well_ordered q → well_ordered (p ++ q).
Proof. intros Hp Hq seen. by apply disciplined_app. Qed.

Lemma well_ordered_repeat n p : well_ordered p → well_ordered (mjoin (replicate n p)).
Proof. intros Hp. induction n as [|n IH]; [by intros seen|]. by apply well_ordered_app. Qed.

(** Every operation keeps the order. *)
Lemma program_well_ordered op : well_ordered (program op).
Proof.
  assert (well_ordered read_only) as Hr by (by intros []).
  assert (well_ordered handle_connect_block_locks) as Hh by (by intros []).
  assert (∀ ff scan n, well_ordered (sync_wallet_to_tip_locks ff scan n)) as Hs.
  { intros ff scan n. unfold sync_wallet_to_tip_locks.
    apply well_ordered_app; [done|]. apply well_ordered_app; [destruct ff; by intros []|].
    apply well_ordered_app; [destruct scan; by intros []|].
    apply well_ordered_app; [by apply well_ordered_repeat|by intros []]. }
  destruct op as [| | | | | | |n| | | | |ff scan n|ff scan n|]; try (by intros []).
  - apply well_ordered_app; [done|by apply well_ordered_repeat].
  - apply Hs.
  - apply well_ordered_app; [apply Hs|by intros []].
Qed.

(** What [allowed] says. *)
Definition guards_allow {W} (s : sys W) (i : nat) (a : action) : Prop :=
  match a with
  | Acquire l m => ∀ j t m', tasks s !! j = Some t → (l, m') ∈ guards t → compatible m m' = true
  | Upgrade => ∀ j t m', j ≠ i → tasks s !! j = Some t → (BitcoinWallet, m') ∉ guards t
  | _ => True
  end.

Lemma allowed_spec {W} (s : sys W) i a : allowed s i a = true ↔ guards_allow s i a.
Proof.
  destruct a as [l m| | | | | | | |]; cbn; try done; rewrite forallb_forall.
  - split.
    + intros Hall j t m' Hj Hin. specialize (Hall t ltac:(by eapply list_elem_of_In, list_elem_of_lookup_2)).
      rewrite forallb_forall in Hall. specialize (Hall (l, m') ltac:(by apply list_elem_of_In)). cbn in Hall.
      by rewrite bool_decide_false in Hall by naive_solver.
    + intros Hall t [j Hj]%list_elem_of_In%list_elem_of_lookup. apply forallb_forall. intros [l' m'] Hin%list_elem_of_In. cbn.
      case_bool_decide as Hl; [done|]. assert (l' = l) as -> by (destruct (decide (l' = l)); naive_solver). by eapply Hall.
  - split.
    + intros Hall j t m' Hji Hj Hin.
      specialize (Hall (j, t) ltac:(apply list_elem_of_In, list_elem_of_lookup; exists j; by rewrite list_lookup_imap, Hj)).
      cbn in Hall. rewrite bool_decide_false in Hall by done. cbn in Hall. rewrite forallb_forall in Hall.
      specialize (Hall (BitcoinWallet, m') ltac:(by apply list_elem_of_In)). by apply bool_decide_eq_true in Hall.
    + intros Hall [j t] [k Hk]%list_elem_of_In%list_elem_of_lookup. rewrite list_lookup_imap in Hk.
      destruct (tasks s !! k) as [t'|] eqn:Ht; [|done]. cbn in Hk. injection Hk as -> ->.
      case_bool_decide as Hji; [done|]. cbn. apply forallb_forall. intros [l m'] Hin%list_elem_of_In. apply bool_decide_eq_true. cbn.
      intros ->. by eapply Hall.
Qed.

(** ** Invariant *)

Section invariant.
Context {W : Type}.
Implicit Types (s : sys W) (t : op_task W).

Definition task_ok (c : content W) (t : op_task W) : Prop :=
  ∃ seen, disciplined (guards t) seen (todo t) = true ∧ (seen = true → is_Some (bitcoin_wallet c)).

Record sys_inv (s : sys W) : Prop := {
  inv_tasks i t : tasks s !! i = Some t → task_ok (state s) t;
  inv_exclusive i j t t' l m m' : i ≠ j → tasks s !! i = Some t → tasks s !! j = Some t' →
    (l, m) ∈ guards t → (l, m') ∈ guards t' → compatible m m' = true;
  inv_panicked : panicked (state s) = false
}.

Lemma task_ok_ended c : task_ok c ended.
Proof. by exists false. Qed.

Lemma drop_guard_elem l g (held : list (lock_id * mode)) : g ∈ drop_guard l held ↔ g.1 ≠ l ∧ g ∈ held.
Proof. unfold drop_guard. by rewrite list_elem_of_filter. Qed.

Lemma compatible_sym m m' : compatible m m' = compatible m' m.
Proof. by destruct m, m'. Qed.

(** The wallet is never taken away. *)
Lemma perform_keeps new a rest c t :
  is_Some (bitcoin_wallet c) → is_Some (bitcoin_wallet (perform new a rest c t).1).
Proof. intros [w Hw]. destruct a; cbn; rewrite ?Hw; try done. by destruct (loaded t). Qed.

Lemma task_ok_keeps new a rest c t t0 : task_ok c t0 → task_ok (perform new a rest c t).1 t0.
Proof. intros (seen & Hd & Hs). exists seen. split; [done|]. intros ->. by apply perform_keeps, Hs. Qed.

Lemma task_ok_perform new a rest c t :
  task_ok c t → todo t = a :: rest → panicked c = false →
  task_ok (perform new a rest c t).1 (perform new a rest c t).2 ∧ panicked (perform new a rest c t).1 = false.
Proof.
  intros (seen & Hd & Hs) Ht Hp. rewrite Ht in Hd.
  destruct a as [l m| | | | | | | |l]; cbn in Hd |- *; rewrite ?andb_true_iff in Hd.
  - split; [|done]. destruct l; rewrite !andb_true_iff in Hd; destruct Hd as [Hh Hd].
    + apply bool_decide_eq_true in Hh. exists false. by rewrite Hh.
    + by exists seen.
    + by exists seen.
  - split; [|done]. destruct Hd as [_ Hd]. destruct (bitcoin_wallet c) eqn:Hw; [|apply task_ok_ended].
    exists true. cbn. by rewrite Hw.
  - split; [|done]. destruct Hd as [_ Hd]. destruct (bitcoin_wallet c) eqn:Hw; [apply task_ok_ended|]. by exists false.
  - destruct Hd as [[[-> _] _] Hd]. destruct (Hs eq_refl) as [w Hw]. rewrite Hw. split; [|done]. exists true. cbn. by rewrite Hw.
  - split; [|done]. destruct Hd as [_ Hd]. exists seen. split; [done|]. intros ->. destruct (Hs eq_refl) as [w Hw]. cbn. by rewrite Hw.
  - split; [|done]. destruct Hd as [_ Hd]. by exists seen.
  - split; [|done]. destruct Hd as [_ Hd]. by exists seen.
  - split; [|done]. destruct Hd as [_ Hd]. exists seen. split; [done|]. intros ->. cbn. destruct (loaded t); [done|]. by apply Hs.
  - split; [|done]. destruct Hd as [_ Hd]. eexists. split; [exact Hd|]. case_bool_decide; [done|exact Hs].
Qed.

(** A task gets no guard but the one it was allowed. *)
Lemma perform_guards new a rest c t l m :
  (l, m) ∈ guards (perform new a rest c t).2 →
  (l, m) ∈ guards t ∨ a = Acquire l m ∨ a = Upgrade ∧ l = BitcoinWallet.
Proof.
  destruct a as [l' m'| | | | | | | |l']; cbn; try (by left).
  - intros [[= -> ->]|?]%elem_of_cons; [by right; left|by left].
  - destruct (bitcoin_wallet c); [by left|by intros ?%elem_of_nil].
  - destruct (bitcoin_wallet c); [by intros ?%elem_of_nil|by left].
  - destruct (bitcoin_wallet c); [|by intros ?%elem_of_nil].
    intros [[= -> ->]|[_ ?]%drop_guard_elem]%elem_of_cons; [by right; right|by left].
  - intros [_ ?]%drop_guard_elem. by left.
Qed.

(** The contents change under the guard that is made for it. *)
Lemma perform_alone new a rest c t :
  task_ok c t → todo t = a :: rest →
  (bitcoin_wallet (perform new a rest c t).1 ≠ bitcoin_wallet c → has BitcoinWallet WriteGuard (guards t) = true)
  ∧ (persisted (perform new a rest c t).1 ≠ persisted c → has BdkDb WriteGuard (guards t) = true).
Proof.
  intros (seen & Hd & _) Ht. rewrite Ht in Hd.
  destruct a as [l m| | | | | | | |l]; cbn in Hd |- *; rewrite ?andb_true_iff in Hd; try (by split).
  - destruct (bitcoin_wallet c) eqn:Hw; cbn; rewrite ?Hw; by split.
  - split; [tauto|done].
  - split; [done|tauto].
  - split; [tauto|done].
Qed.

Lemma insert_lookup {A} (l : list A) i x j y :
  <[i := x]> l !! j = Some y → (j = i ∧ y = x) ∨ j ≠ i ∧ l !! j = Some y.
Proof. intros [(<- & -> & _)|[? ?]]%list_lookup_insert_Some; [by left|right; by split]. Qed.

Lemma sys_inv_perform s i t a rest new :
  sys_inv s → tasks s !! i = Some t → todo t = a :: rest → allowed s i a = true → sys_inv (perform_in s i new a rest t).
Proof.
  intros [Ht Hx Hp] Hi Ha Hal%allowed_spec. pose proof (task_ok_perform new a rest _ _ (Ht _ _ Hi) Ha Hp) as [Hok Hp'].
  pose proof (λ t0, task_ok_keeps new a rest (state s) t t0) as Hkeep. pose proof (perform_guards new a rest (state s) t) as Hg.
  unfold perform_in. destruct (perform new a rest (state s) t) as [c t1]. cbn in *.
  assert (∀ j t' l m m', j ≠ i → tasks s !! j = Some t' → (l, m) ∈ guards t1 → (l, m') ∈ guards t' → compatible m m' = true) as Hnew.
  { intros j t' l m m' Hji Hj [Hm|[->|[-> ->]]]%Hg Hm'; [by eapply (Hx i j)|by eapply Hal|]. by destruct (Hal j t' m' Hji Hj). }
  split; cbn; [| |done].
  - intros j t' [[-> ->]|[_ Hj]]%insert_lookup; [done|]. by eapply Hkeep, Ht.
  - intros j k tj tk l m m' Hne [[-> ->]|[Hji Hj]]%insert_lookup [[-> ->]|[Hki Hk]]%insert_lookup Hm Hm'.
    + done.
    + by eapply Hnew.
    + rewrite compatible_sym. by eapply Hnew.
    + by eapply (Hx j k).
Qed.

Lemma sys_inv_step s who s' : step s who s' → sys_inv s → sys_inv s'.
Proof.
  intros [i t a rest new Hi Ha Hal|i t Hi|op] Hinv; [by eapply sys_inv_perform|..]; pose proof Hinv as [Ht Hx Hp].
  - split; cbn; [| |done].
    + intros j t' [[_ ->]|[_ Hj]]%insert_lookup; [apply task_ok_ended|by eapply Ht].
    + intros j k tj tk l m m' Hne [[-> ->]|[_ Hj]]%insert_lookup [[-> ->]|[_ Hk]]%insert_lookup Hm Hm';
        try (by apply elem_of_nil in Hm); try (by apply elem_of_nil in Hm'). by eapply (Hx j k).
  - split; cbn; [| |done].
    + intros j t' [Hj|[_ Hj]]%lookup_app_Some; [by eapply Ht|]. apply list_lookup_singleton_Some in Hj as [_ <-].
      exists false. split; [apply program_well_ordered|done].
    + intros j k tj tk l m m' Hne [Hj|[_ [_ <-]%list_lookup_singleton_Some]]%lookup_app_Some
        [Hk|[_ [_ <-]%list_lookup_singleton_Some]]%lookup_app_Some Hm Hm';
        try (by apply elem_of_nil in Hm); try (by apply elem_of_nil in Hm'). by eapply (Hx j k).
Qed.

Lemma reachable_inv locked on_disk s : reachable locked on_disk s → sys_inv s.
Proof.
  intros Hr. unfold reachable in Hr. revert s Hr. apply rtc_ind_r.
  - split; cbn; [intros i t Hi; discriminate Hi|intros i j t t' l m m' _ Hi; discriminate Hi|done].
  - intros s s' _ [who Hs] Hi. by eapply sys_inv_step.
Qed.
End invariant.

(** ** Progress *)

Section progress.
Context {W : Type} `{FairLocks W}.
Implicit Types (s : sys W) (t : op_task W).

Definition working (t : op_task W) : bool := match todo t with a :: _ => negb (is_request a) | [] => false end.
Definition wants (l : lock_id) (t : op_task W) : bool :=
  match todo t with Acquire l' _ :: _ => bool_decide (l' = l) | _ => false end.

Lemma find_task (f : op_task W → bool) s :
  (∃ i t, tasks s !! i = Some t ∧ f t = true) ∨ ∀ i t, tasks s !! i = Some t → f t = false.
Proof.
  destruct (existsb f (tasks s)) eqn:He.
  - apply existsb_exists in He as (t & [i Hi]%list_elem_of_In%list_elem_of_lookup & Hf). left. by exists i, t.
  - right. intros i t Hi. destruct (f t) eqn:Hf; [|done]. rewrite <- He. symmetry. apply existsb_exists. exists t.
    split; [|done]. by eapply list_elem_of_In, list_elem_of_lookup_2.
Qed.

Lemma holds_elem l held : holds l held = true ↔ ∃ m, (l, m) ∈ held.
Proof.
  unfold holds. rewrite existsb_exists. split.
  - intros ([l' m] & Hin%list_elem_of_In & He%bool_decide_eq_true). cbn in He. subst l'. by exists m.
  - intros [m Hin]. exists (l, m). split; [by apply list_elem_of_In|by apply bool_decide_eq_true].
Qed.

Lemma may_request_elem held l m : may_request held = true → (l, m) ∈ held → l ≠ BdkDb ∧ m ≠ ReadGuard.
Proof.
  unfold may_request. rewrite forallb_forall. intros Hall Hin%list_elem_of_In%Hall.
  apply andb_true_iff in Hin as [Hl%bool_decide_eq_true Hm%bool_decide_eq_true]. by split.
Qed.

(** What a waiting task holds. *)
Lemma waiting_guards c t : task_ok c t → working t = false →
  may_request (guards t) = true ∧ (guards t ≠ [] → todo t ≠ [])
  ∧ (wants BitcoinWallet t = true → guards t = []) ∧ (wants LastSync t = true → holds LastSync (guards t) = false)
  ∧ (∀ rest, todo t = Upgrade :: rest → (BitcoinWallet, UpgradableGuard) ∈ guards t).
Proof.
  intros (seen & Hd & _). unfold working, wants. destruct (todo t) as [|a rest]; cbn in Hd.
  - apply bool_decide_eq_true in Hd as ->. intros _. by split_and!.
  - destruct a as [[] m| | | | | | | |l]; try done; intros _; cbn; rewrite !andb_true_iff in Hd.
    + destruct Hd as [->%bool_decide_eq_true _]. by split_and!.
    + destruct Hd as [[? ?%negb_true_iff] _]. by split_and!.
    + destruct Hd as [[? _] _]. by split_and!.
    + destruct Hd as [[[_ ?] ?%bool_decide_eq_true] _]. by split_and!.
Qed.

Lemma run_granted s i t a rest :
  tasks s !! i = Some t → todo t = a :: rest → guards_allow s i a → (is_request a = true → granted s i = true) → red runs s.
Proof. intros Hi Ha Hal%allowed_spec Hg. eexists. by apply (run_task s i t a rest (persisted (state s))). Qed.

(** A lock that is free and wanted is given to a task. *)
Lemma run_free s l i t :
  tasks s !! i = Some t → wants l t = true → (∀ j t, tasks s !! j = Some t → holds l (guards t) = false) → red runs s.
Proof.
  intros Hi Hw Hno. assert (∀ j t' m', tasks s !! j = Some t' → (l, m') ∉ guards t') as Hfree.
  { intros j t' m' Hj Hin. specialize (Hno _ _ Hj). apply not_true_iff_false in Hno. apply Hno, holds_elem. by exists m'. }
  unfold wants in Hw. destruct (todo t) as [|[l' m| | | | | | | |] rest] eqn:Ht; try done.
  apply bool_decide_eq_true in Hw as ->.
  destruct (free_lock s l i t m rest Hi Ht Hfree) as (j & t' & m' & rest' & Hj & Ht' & Hg).
  eapply run_granted; [exact Hj|exact Ht'| |done]. intros k tk mk Hk Hin. by destruct (Hfree _ _ _ Hk Hin).
Qed.

(** If no task works, a task that waits for its upgrade gets it. *)
Lemma run_upgrade s i t rest :
  sys_inv s → (∀ j t, tasks s !! j = Some t → working t = false) →
  tasks s !! i = Some t → todo t = Upgrade :: rest → red runs s.
Proof.
  intros [Ht Hx _] Hwait Hi Hu. destruct (waiting_guards _ _ (Ht _ _ Hi) (Hwait _ _ Hi)) as (_ & _ & _ & _ & Hup).
  specialize (Hup _ Hu). assert (∀ j t' m', j ≠ i → tasks s !! j = Some t' → (BitcoinWallet, m') ∉ guards t') as Hothers.
  { intros j t' m' Hji Hj Hin. pose proof (Hx _ _ _ _ _ _ _ Hji Hj Hi Hin Hup) as Hc.
    destruct (waiting_guards _ _ (Ht _ _ Hj) (Hwait _ _ Hj)) as (Hreq & _).
    destruct (may_request_elem _ _ _ Hreq Hin) as [_ Hm]. by destruct m'. }
  eapply run_granted; [exact Hi|exact Hu|exact Hothers|]. intros _. by eapply last_guard.
Qed.

Lemma progress s i t : sys_inv s → tasks s !! i = Some t → todo t ≠ [] → red runs s.
Proof.
  intros Hinv Hi Hne. pose proof Hinv as [Ht _ _].
  destruct (find_task working s) as [(j & t' & Hj & Hw)|Hwait].
  { unfold working in Hw. destruct (todo t') as [|a rest] eqn:Ha; [done|]. apply negb_true_iff in Hw.
    eapply run_granted; [exact Hj|exact Ha| |by rewrite Hw]. by destruct a. }
  pose proof (λ j t Hj, waiting_guards _ _ (Ht j t Hj) (Hwait j t Hj)) as Hg.
  assert (∀ j t, tasks s !! j = Some t → todo t ≠ [] →
            (∃ l, wants l t = true) ∨ ∃ rest, todo t = Upgrade :: rest) as Hreq.
  { intros j t' Hj Hn. specialize (Hwait _ _ Hj). unfold working, wants in *. destruct (todo t') as [|a rest]; [done|].
    destruct a as [l m| | | | | | | |]; try done; [left; exists l; by apply bool_decide_eq_true|right; by exists rest]. }
  destruct (find_task (wants BdkDb) s) as [(j & t' & Hj & Hw)|HnoD].
  { eapply run_free; [exact Hj|exact Hw|]. intros k tk Hk. apply not_true_iff_false. intros [m Hm]%holds_elem.
    destruct (Hg _ _ Hk) as (Hr & _). by destruct (may_request_elem _ _ _ Hr Hm). }
  assert (∀ j t, tasks s !! j = Some t → todo t ≠ [] → wants BitcoinWallet t = false → wants LastSync t = false → red runs s) as Hup.
  { intros j t' Hj Hn Hb Hl. destruct (Hreq _ _ Hj Hn) as [[[] Hw]|[rest Hu]]; [congruence|congruence| |by eapply run_upgrade].
    rewrite (HnoD _ _ Hj) in Hw. done. }
  destruct (find_task (λ t, holds LastSync (guards t)) s) as [(j & t' & Hj & Hh)|HnoL].
  { destruct (Hg _ _ Hj) as (_ & Hn & Hb & Hl & _). apply holds_elem in Hh as Hm. destruct Hm as [m Hm].
    assert (guards t' ≠ []) as Hgn by (intros He; rewrite He in Hm; by apply elem_of_nil in Hm).
    apply (Hup j t' Hj (Hn Hgn)); apply not_true_iff_false; intros Hw; [by apply Hb in Hw|]. apply Hl in Hw. congruence. }
  destruct (find_task (wants LastSync) s) as [(j & t' & Hj & Hw)|HnoW]; [by eapply run_free|].
  destruct (find_task (λ t, holds BitcoinWallet (guards t)) s) as [(j & t' & Hj & Hh)|HnoB].
  { destruct (Hg _ _ Hj) as (_ & Hn & Hb & _ & _). apply holds_elem in Hh as [m Hm].
    assert (guards t' ≠ []) as Hgn by (intros He; rewrite He in Hm; by apply elem_of_nil in Hm).
    apply (Hup j t' Hj (Hn Hgn)); [|by eapply HnoW]. apply not_true_iff_false. intros Hw. by apply Hb in Hw. }
  destruct (wants BitcoinWallet t) eqn:Hw; [by eapply run_free|]. apply (Hup i t Hi Hne Hw). by eapply HnoW.
Qed.

(** ** Termination *)

Definition steps_left (s : sys W) : nat := sum_list_with (λ t, length (todo t)) (tasks s).

Lemma sum_list_with_insert {A} (f : A → nat) (l : list A) i x y :
  l !! i = Some x → (sum_list_with f (<[i := y]> l) + f x = sum_list_with f l + f y)%nat.
Proof.
  revert i. induction l as [|z l IH]; intros [|i] Hi; [done..| |].
  - injection Hi as ->. simpl. lia.
  - specialize (IH i Hi). simpl. lia.
Qed.

Lemma perform_shorter new a rest c t : (length (todo (perform (W := W) new a rest c t).2) ≤ length rest)%nat.
Proof. destruct a; cbn; try lia; case_match; cbn; lia. Qed.

Lemma runs_shorter s s' : runs s s' → (steps_left s' < steps_left s)%nat.
Proof.
  intros [i t a rest new Hi Ha _ _]. unfold perform_in, steps_left. pose proof (perform_shorter new a rest (state s) t) as Hs.
  destruct (perform new a rest (state s) t) as [c t']. cbn in *.
  pose proof (sum_list_with_insert (λ t, length (todo t)) _ _ _ t' Hi) as He. cbn in He. rewrite Ha in He. cbn in He. lia.
Qed.

Lemma runs_keep_inv s s' : runs s s' → sys_inv s → sys_inv s'.
Proof. intros [i t a rest new Hi Ha Hal _] Hinv. by eapply sys_inv_perform. Qed.

Lemma runs_end s : sn runs s.
Proof.
  induction s as [s IH] using (well_founded_ind (well_founded_ltof _ steps_left)). constructor. intros s' Hr.
  apply IH. by apply runs_shorter.
Qed.
End progress.

(** * Properties *)

(** C21: The guards of the wallet mean what they say, whatever operations run together
    and wherever they end early.  No upgrade finds the wallet gone, so the [expect]
    of [new_unchecked] never fails; two guards of a lock are held together only if both
    only read, or one may be upgraded; the wallet changes only by a task without
    which nobody holds a guard of it, in particular not while a sync or a scan that will
    update it asks the chain source; the database changes only under its lock; and a
    wallet that is unlocked stays so. *)
Theorem wallet_guards_sound {W : Type} (locked : option W) on_disk s :
  reachable locked on_disk s →
  panicked (state s) = false
  ∧ (∀ i j t t' l m m', i ≠ j → tasks s !! i = Some t → tasks s !! j = Some t' →
       (l, m) ∈ guards t → (l, m') ∈ guards t' → compatible m m' = true)
  ∧ ∀ who s', step s who s' →
      let alone l := ∃ i, who = Some i ∧ ∀ j t m, j ≠ i → tasks s !! j = Some t → (l, m) ∉ guards t in
      (bitcoin_wallet (state s') ≠ bitcoin_wallet (state s) → alone BitcoinWallet)
      ∧ (persisted (state s') ≠ persisted (state s) → alone BdkDb)
      ∧ (is_Some (bitcoin_wallet (state s)) → is_Some (bitcoin_wallet (state s'))).
Proof.
  intros Hr%reachable_inv. pose proof Hr as [Ht Hx Hp]. split; [done|]. split; [done|].
  intros who s' Hs. cbn. destruct Hs as [i t a rest new Hi Ha Hal|i t Hi|op]; cbn; [|done..].
  unfold perform_in. pose proof (perform_keeps new a rest (state s) t) as Hk.
  pose proof (perform_alone new a rest (state s) t) as Hal'. destruct (perform new a rest (state s) t) as [c t'] eqn:He. cbn in *.
  assert (∀ l, has l WriteGuard (guards t) = true → ∃ k, Some i = Some k ∧
            ∀ j t0 m, j ≠ k → tasks s !! j = Some t0 → (l, m) ∉ guards t0) as Hone.
  { intros l Hl%bool_decide_eq_true. exists i. split; [done|]. intros j t0 m Hji Hj Hm.
    pose proof (Hx _ _ _ _ _ _ _ Hji Hj Hi Hm Hl). by destruct m. }
  destruct (Hal' (Ht _ _ Hi) Ha) as [Hw Hd]. split_and!; [intros Hne; by apply Hone, Hw|intros Hne; by apply Hone, Hd|done].
Qed.

(** C20: The operations of the wallet never block each other for good.  Whatever
    operations have been called, and in whatever order the locks serve those that
    wait, as long as a lock nobody holds is given to one of them and an upgrade is
    served once the other readers are gone: the tasks that are there need finitely many
    steps, and when none of them can go on, all of them have finished and no lock is
    held. *)
Theorem wallet_operations_finish `{FairLocks W} (locked : option W) on_disk s :
  reachable locked on_disk s →
  sn runs s ∧ ∀ s', rtc runs s s' → nf runs s' → ∀ i t, tasks s' !! i = Some t → todo t = [] ∧ guards t = [].
Proof.
  intros Hr%reachable_inv. split; [apply runs_end|]. intros s' Hs Hnf i t Hi.
  assert (sys_inv s') as Hinv by (induction Hs; [done|]; by eauto using runs_keep_inv).
  destruct (todo t) as [|a rest] eqn:Ha.
  - destruct (inv_tasks _ Hinv _ _ Hi) as (seen & Hd & _). rewrite Ha in Hd. by apply bool_decide_eq_true in Hd.
  - destruct Hnf. eapply (progress s' i t); [done|done|by rewrite Ha].
Qed.

(** * Runs *)

(** A schedule: which task goes on, and what a change makes of the wallet. *)
Fixpoint schedule {W} (moves : list (nat * W)) (s : sys W) : option (sys W) :=
  match moves with
  | [] => Some s
  | (i, new) :: moves =>
      t ← tasks s !! i;
      match todo t with
      | a :: rest => if allowed s i a then schedule moves (perform_in s i new a rest t) else None
      | [] => None
      end
  end.

Definition called {W} (locked : option W) (on_disk : W) (ops : list operation) : sys W :=
  mkSys (mkContent locked on_disk false) (map (λ op, mkTask [] (program op) None) ops).

Lemma called_reachable {W} (locked : option W) on_disk ops : reachable locked on_disk (called locked on_disk ops).
Proof.
  induction ops as [|op ops IH] using rev_ind; [apply rtc_refl|]. eapply rtc_r; [exact IH|]. exists None.
  unfold called. rewrite map_app. by apply (step_called (called locked on_disk ops)).
Qed.

Lemma schedule_reachable {W} (locked : option W) on_disk moves s s' :
  reachable locked on_disk s → schedule moves s = Some s' → reachable locked on_disk s'.
Proof.
  revert s. induction moves as [|[i new] moves IH]; intros s Hr; cbn; [by intros [= <-]|].
  destruct (tasks s !! i) as [t|] eqn:Hi; [|done]. cbn. destruct (todo t) as [|a rest] eqn:Ha; [done|].
  destruct (allowed s i a) eqn:Hal; [|done]. apply IH. eapply rtc_r; [exact Hr|]. exists (Some i). by apply step_task.
Qed.

(** Two calls of [unlock_existing_wallet] that overlap both find the wallet locked, and
    the slower one puts a wallet in place that it read before: here the block that was
    connected in between is in the database and no longer in the wallet. *)
Lemma unlock_race :
  ∃ s, reachable None 0%nat s ∧ bitcoin_wallet (state s) = Some 0%nat ∧ persisted (state s) = 1%nat
    ∧ ∀ i t, tasks s !! i = Some t → todo t = [].
Proof.
  assert (∃ s, schedule (replicate 6 (1, 0) ++ replicate 9 (0, 0) ++ replicate 12 (2, 1) ++ replicate 3 (1, 0))%nat
                 (called None 0%nat [OpUnlock; OpUnlock; OpSyncToTip false false 1]) = Some s
               ∧ bitcoin_wallet (state s) = Some 0%nat ∧ persisted (state s) = 1%nat
               ∧ forallb (λ t, match todo t with [] => true | _ => false end) (tasks s) = true) as (s & Hs & Hw & Hd & Ht).
  { eexists. vm_compute. repeat split. }
  exists s. split; [|split; [done|split; [done|]]].
  - eapply schedule_reachable; [apply called_reachable|exact Hs].
  - intros i t Hi. rewrite forallb_forall in Ht. specialize (Ht t ltac:(by eapply list_elem_of_In, list_elem_of_lookup_2)).
    by destruct (todo t).
Qed.

(** ** A policy: writers first *)
Definition wants_write {W} (l : lock_id) (t : op_task W) : bool :=
  match todo t with Acquire l' WriteGuard :: _ => bool_decide (l' = l) | _ => false end.
#[global] Instance writers_first {W} : LockPolicy W := λ s i,
  match tasks s !! i with
  | Some t =>
      match todo t with
      | a :: _ => allowed s i a && match a with Acquire l ReadGuard => negb (existsb (wants_write l) (tasks s)) | _ => true end
      | [] => false
      end
  | None => false
  end.

#[global] Instance writers_first_fair {W} : FairLocks (W := W).
Proof.
  split.
  - intros s l i t m rest Hi Ht Hfree.
    assert (∀ j m', allowed s j (Acquire l m') = true) as Hal.
    { intros j m'. apply allowed_spec. intros k tk mk Hk Hin. by destruct (Hfree _ _ _ Hk Hin). }
    destruct (find_task (wants_write l) s) as [(j & t' & Hj & Hw)|Hno].
    + unfold wants_write in Hw. destruct (todo t') as [|[l' []| | | | | | | |] rest'] eqn:Ht'; try done.
      apply bool_decide_eq_true in Hw as ->. exists j, t', WriteGuard, rest'. split; [done|]. split; [done|].
      unfold granted, writers_first. by rewrite Hj, Ht', Hal.
    + exists i, t, m, rest. split; [done|]. split; [done|]. unfold granted, writers_first. rewrite Hi, Ht, Hal.
      destruct m; [|done..]. cbn. apply negb_true_iff, not_true_iff_false. intros (t' & [j Hj]%list_elem_of_In%list_elem_of_lookup & Hw)%existsb_exists.
      rewrite (Hno _ _ Hj) in Hw. done.
  - intros s i t rest Hi Ht Hothers. unfold granted, writers_first. rewrite Hi, Ht. apply andb_true_iff. split; [|done].
    by apply allowed_spec.
Qed.

(** * Witnesses *)

(** A sync and a scan wait for the wallet while a payment is sent. *)
Definition ex_called : sys nat := called (Some 7%nat) 7%nat [OpSync; OpSend; OpFullScan; OpBalance].

Lemma wallet_guards_sound_witness :
  reachable (Some 7%nat) 7%nat ex_called ∧ panicked (state ex_called) = false.
Proof.
  split; [apply called_reachable|]. destruct (wallet_guards_sound (Some 7%nat) 7%nat ex_called (called_reachable _ _ _)) as [Hp _]. exact Hp.
Defined.

Lemma wallet_operations_finish_witness : reachable (Some 7%nat) 7%nat ex_called ∧ sn runs ex_called.
Proof.
  split; [apply called_reachable|].
  destruct (wallet_operations_finish (Some 7%nat) 7%nat ex_called (called_reachable _ _ _)) as [Hs _]. exact Hs.
Defined.
