(* ===== verification/WalletDb.v ===== *)
(** The database of the bdk wallet (`wallet/thread_safe_connection.rs`).

    SQLite and bdk's change sets are the class [SqliteLib]: a database, the change set
    it holds, and what the calls of bdk make of it, which may fail half-way. *)
From stdpp Require Import base list.
From S2P Require Import Prelude.

Class SqliteLib := {
  Sqlite : Type;
  ChangeSet : Type;
  init_sqlite_tables : st Sqlite unit unit;
  from_sqlite : Sqlite → outcome unit ChangeSet;
  persist_to_sqlite : ChangeSet → st Sqlite unit unit;
  cs_merge : ChangeSet → ChangeSet → ChangeSet
}.

Section connection.
Context `{SqliteLib}.

(** [conn.transaction()?], whose changes stay if it is committed and are undone if it is
    dropped; [begins] and [commits] are what SQLite answers. *)
Definition transaction {A} (begins commits : bool) (f : st Sqlite unit A) : st Sqlite unit A := λ conn,
  if negb begins then (Err tt, conn) else
  match f conn with
  | (Ok a, tx) => if commits then (Ok a, tx) else (Err tt, conn)
  | (Err e, _) => (Err e, conn)
  | (Panic, _) => (Panic, conn)
  end.

(** [initialize] and [persist] of [AsyncWalletPersister] *)
Definition initialize (begins commits : bool) : st Sqlite unit ChangeSet :=
  transaction begins commits
    (_ ← init_sqlite_tables;
     tx ← st_get;
     st_lift (from_sqlite tx)).
Definition persist (begins commits : bool) (changeset : ChangeSet) : st Sqlite unit unit :=
  transaction begins commits (persist_to_sqlite changeset).

(** What bdk documents: the tables are made if they are missing and hold what they held;
    a change set that is written is merged with what is there. *)
Class SqliteLaws := {
  stored : Sqlite → ChangeSet;
  init_keeps db db' : init_sqlite_tables db = (Ok tt, db') → stored db' = stored db;
  from_stored db cs : from_sqlite db = Ok cs → cs = stored db;
  persist_merges cs db db' : persist_to_sqlite cs db = (Ok tt, db') → stored db' = cs_merge (stored db) cs
}.

(** A run: the change sets given to [persist], each with whether its transaction begins
    and commits, and those that were reported as stored. *)
Fixpoint persist_all (l : list (bool * bool * ChangeSet)) (db : Sqlite) : list ChangeSet * Sqlite :=
  match l with
  | [] => ([], db)
  | (begins, commits, cs) :: l =>
      let '(res, db) := persist begins commits cs db in
      let '(done, db) := persist_all l db in
      ((if is_ok res then [cs] else []) ++ done, db)
  end.

Lemma transaction_Ok {A} begins commits (f : st Sqlite unit A) db a db' :
  transaction begins commits f db = (Ok a, db') ↔ begins = true ∧ commits = true ∧ f db = (Ok a, db').
Proof.
  unfold transaction. destruct begins; cbn; [|naive_solver]. destruct (f db) as [[a'|e|] tx]; [|naive_solver..].
  destruct commits; naive_solver.
Qed.

(** A call that fails leaves the database as it was. *)
Lemma transaction_atomic {A} begins commits (f : st Sqlite unit A) db o db' :
  transaction begins commits f db = (o, db') → is_ok o = false → db' = db.
Proof.
  unfold transaction. destruct begins; cbn; [|by intros [= _ <-]]. destruct (f db) as [[a|e|] tx]; [|by intros [= _ <-]..].
  destruct commits; [by intros [= <- _]|by intros [= _ <-]].
Qed.

(** The database is the log of what was reported as stored: after any calls of
    [persist], of which any may fail at any point, a wallet that is loaded gets what was
    there before, merged with the change sets that were stored, in their order, and
    nothing of the others. *)
Lemma wallet_db_is_log `{!SqliteLaws} l db begins commits cs db' :
  let '(done, db1) := persist_all l db in
  initialize begins commits db1 = (Ok cs, db') → cs = foldl cs_merge (stored db) done.
Proof.
  revert db. induction l as [|[[b c] x] l IH]; intros db; cbn [persist_all].
  - unfold initialize. intros (_ & _ & Hi)%transaction_Ok. unfold mbind, st_bind in Hi.
    destruct (init_sqlite_tables db) as [[[]|e|] tx] eqn:Ht; [|done..]. cbn in Hi. injection Hi as Hf _.
    apply from_stored in Hf as ->. by apply init_keeps in Ht as ->.
  - destruct (persist b c x db) as [res db0] eqn:Hp. specialize (IH db0).
    destruct (persist_all l db0) as [done db1]. intros Hi. rewrite (IH Hi). destruct (is_ok res) eqn:Hr; cbn.
    + destruct res as [[]|e|]; try done. apply transaction_Ok in Hp as (_ & _ & Hp). by rewrite (persist_merges _ _ _ Hp).
    + by rewrite (transaction_atomic _ _ _ _ _ _ Hp Hr).
Qed.
End connection.

(** A database whose writes of a change set over 9 fail half-way, after some rows. *)
#[local] Instance toy_sqlite : SqliteLib := {|
  Sqlite := list nat;
  ChangeSet := list nat;
  init_sqlite_tables := mret tt;
  from_sqlite := Ok;
  persist_to_sqlite cs := λ db, if forallb (λ x, Nat.leb x 9) cs then (Ok tt, db ++ cs) else (Err tt, db ++ take 1 cs);
  cs_merge := app
|}.

Lemma toy_sqlite_laws : @SqliteLaws toy_sqlite.
Proof.
  refine (@Build_SqliteLaws toy_sqlite (λ db : list nat, db) _ _ _); cbn.
  - by intros db db' [= <-].
  - by intros db cs [= <-].
  - intros cs db db'. destruct (forallb _ cs); [by intros [= <-]|done].
Defined.

Lemma wallet_db_is_log_witness :
  let calls := [(true, true, [1; 2]); (true, true, [3; 10]); (true, false, [4]); (true, true, [5])] in
  @initialize toy_sqlite true true (persist_all calls [0]).2 = (Ok [0; 1; 2; 5], [0; 1; 2; 5])
  ∧ [0; 1; 2; 5] = foldl app [0] [[1; 2]; [5]].
Proof.
  split; [reflexivity|].
  exact (@wallet_db_is_log toy_sqlite toy_sqlite_laws [(true, true, [1; 2]); (true, true, [3; 10]); (true, false, [4]); (true, true, [5])] [0]
    true true [0; 1; 2; 5] [0; 1; 2; 5] eq_refl).
Defined.
