(* ===== verification/Startup.v ===== *)
(** Checks at start-up: the schema version of the validator's databases
    (`validator/dbs/mod.rs`) and the version of the node (`version.rs`). *)
From Stdlib Require Import ZArith Lia Strings.Byte Strings.String Strings.Ascii.
From stdpp Require Import base list strings.
From S2P Require Import Prelude Text.
#[local] Open Scope Z_scope.

Definition DB_VERSION : Z := 2.

(** [contents.trim().parse::<u32>()] *)
Definition parse_version (contents : string) : option Z := parse_uint 32 (trim contents).

(** ** The schema version *)

Inductive CreateDbsError :=
| IncompatibleSchema (found : Z) | ReadVersion | WriteVersion.

(** A database directory: the marker file, and whether LMDB's data file exists. *)
Record db_dir := mkDbDir { version_file : option string; has_data : bool }.

(** [readable]: the marker can be read if it exists; [written]: what a failing write
    leaves in it, [None] if it succeeds. *)
Definition check_or_stamp_db_version (readable : bool) (written : option (option string)) :
    st db_dir CreateDbsError unit :=
  λ d,
  match (match version_file d with
         | Some contents => if readable then Ok (parse_version contents) else Err ReadVersion
         | None => Ok None
         end) with
  | Err e => (Err e, d)
  | Panic => (Panic, d)
  | Ok (Some version) =>
      if version =? DB_VERSION then (Ok tt, d) else (Err (IncompatibleSchema version), d)
  | Ok None =>
      if has_data d then (Err (IncompatibleSchema 1), d) else
      match written with
      | None => (Ok tt, mkDbDir (Some ("2" ++ String "010" "")%string) (has_data d))
      | Some partial => (Err WriteVersion, mkDbDir partial (has_data d))
      end
  end.

(** ** The node's version *)

Definition SUPPORTED_BITCOIN_CORE_MAJORS : list Z := [31; 30; 29].

(** [(version / 10_000) as u32] *)
Definition major_from_version_int (version : Z) : Z := wrap_u 32 (version / 10000).

Record DetectedVersion := mkDetected { version : Z; subversion : string; major : Z }.
Inductive VersionCheckError := VersionRpc | UnsupportedVersion (version : Z) (subversion : string) (allowed : list Z).

(** [info]: the node's answer to `getnetworkinfo`. *)
Definition check_bitcoin_core_version (info : option (Z * string)) (expected_major : option Z) (skip_check : bool) :
    outcome VersionCheckError DetectedVersion :=
  info ← ok_or info VersionRpc;
  let detected := mkDetected info.1 info.2 (major_from_version_int info.1) in
  if skip_check then Ok detected else
  let allowed_majors := match expected_major with
                        | Some m => [m]
                        | None => SUPPORTED_BITCOIN_CORE_MAJORS
                        end in
  if existsb (Z.eqb (major detected)) allowed_majors then Ok detected
  else Err (UnsupportedVersion (version detected) (subversion detected) allowed_majors).

(** * Properties *)

(** The marker of a database directory: the check passes on a directory marked
    with this version and on a fresh one that it could mark, and then passes again,
    also once the data file exists; an existing database is never marked; a failed
    marking leaves a directory that a later run marks or accepts, whatever prefix
    of the marker was written. *)
Lemma db_version_marked readable written d :
  let r := check_or_stamp_db_version readable written d in
  match r.1 with
  | Ok _ =>
      (version_file r.2 ≫= parse_version = Some DB_VERSION)
      ∧ (∀ data written', check_or_stamp_db_version true written' (mkDbDir (version_file r.2) data)
                          = (Ok tt, mkDbDir (version_file r.2) data))
      ∧ ((version_file d ≫= parse_version = Some DB_VERSION) ∨ has_data d = false)
  | Err (IncompatibleSchema v) => r.2 = d ∧ v ≠ DB_VERSION
  | Err ReadVersion => r.2 = d ∧ readable = false
  | Err WriteVersion => has_data d = false ∧ ∃ partial, written = Some partial ∧ r.2 = mkDbDir partial false
  | Panic => False
  end
  ∧ (has_data d = true → r.2 = d).
Proof.
  unfold check_or_stamp_db_version. destruct d as [[contents|] data]; cbn [version_file has_data].
  - destruct readable; [|by cbn]. destruct (parse_version contents) as [v|] eqn:Hv.
    + destruct (Z.eqb_spec v DB_VERSION) as [->|Hne]; [|by cbn]. cbn. rewrite Hv. split; [|done].
      split; [done|]. split; [done|by left].
    + destruct data; [by cbn|]. destruct written as [partial|]; cbn; [split; [split; [done|by exists partial]|done]|].
      split; [|done]. split; [done|]. split; [done|by right].
  - destruct data; [by cbn|]. destruct written as [partial|]; cbn; [split; [split; [done|by exists partial]|done]|].
    split; [|done]. split; [done|]. split; [done|by right].
Qed.

(** A torn marker in a fresh directory does not get in the way. *)
Lemma torn_marker_recovers n :
  (check_or_stamp_db_version true None
     (mkDbDir (Some (substring 0 n ("2" ++ String "010" "")%string)) false)).1 = Ok tt.
Proof. destruct n as [|[|[|n]]]; vm_compute; reflexivity. Qed.

(** The node is accepted exactly when the check is skipped or its major version
    is the expected one, or, with none expected, a supported one; a version with
    majors below [2 ^ 32] is decoded as `10000 * major + 100 * minor + revision`. *)
Lemma version_check_iff ma mi re sub expected skip :
  0 ≤ ma < 2 ^ 32 → 0 ≤ mi < 100 → 0 ≤ re < 100 →
  (∃ v, check_bitcoin_core_version (Some (10000 * ma + 100 * mi + re, sub)) expected skip = Ok v ∧ major v = ma)
  ↔ skip = true ∨ (match expected with Some m => ma = m | None => ma ∈ [31; 30; 29] end).
Proof.
  intros Hma Hmi Hre. unfold check_bitcoin_core_version. cbn [ok_or mbind outcome_bind fst snd].
  assert (major_from_version_int (10000 * ma + 100 * mi + re) = ma) as ->.
  { unfold major_from_version_int, wrap_u. replace (10000 * ma + 100 * mi + re) with (100 * mi + re + ma * 10000) by lia.
    rewrite Z.div_add, Z.div_small, Z.mod_small by lia. lia. }
  destruct skip; [split; [by left|intros _; by eexists]|]. cbn [major].
  set (allowed := match expected with Some m => [m] | None => SUPPORTED_BITCOIN_CORE_MAJORS end).
  assert (existsb (Z.eqb ma) allowed = true
          ↔ match expected with Some m => ma = m | None => ma ∈ [31; 30; 29] end) as Hall.
  { rewrite existsb_exists. destruct expected as [m|]; cbn.
    - split; [by intros (x & [<-|[]] & ->%Z.eqb_eq)|]. intros ->. exists m. split; [by left|apply Z.eqb_refl].
    - split.
      + intros (x & Hx & ->%Z.eqb_eq). by apply list_elem_of_In.
      + intros Hx. exists ma. split; [by apply list_elem_of_In in Hx|apply Z.eqb_refl]. }
  destruct (existsb _ _); split.
  - intros _. right. by apply Hall.
  - intros _. by eexists.
  - by intros (v & ? & _).
  - intros [?|Hx]; [done|]. by apply Hall in Hx.
Qed.

(** * Witnesses *)
Lemma version_check_iff_witness :
  ∃ v, check_bitcoin_core_version (Some (300200, "Satoshi"%string)) None false = Ok v ∧ major v = 30.
Proof.
  apply (version_check_iff 30 2 0 "Satoshi"%string None false); [lia|lia|lia|].
  right. apply list_elem_of_further, list_elem_of_here.
Defined.
