(* ===== verification/P2p.v ===== *)
(** Peer-to-peer broadcast (`p2p.rs`): the peers' addresses, the broadcast to the
    addresses a name resolves to, and the message-start magic of a signet.

    The socket addresses of the standard library, the name service and the
    `bitcoin-send-tx-p2p` crate are the class [P2pLib]. *)
From Stdlib Require Import ZArith Lia Strings.Byte Strings.String Strings.Ascii.
From stdpp Require Import base list strings.
From S2P Require Import Prelude Text Bitcoin Concrete Encoding.
#[local] Open Scope Z_scope.

(** ** Addresses *)

(** [SocketAddr]: an opaque type with its [FromStr] and [Display]; [lookup_host];
    [send_tx_p2p_over_clearnet], [true] for a timeout. *)
Inductive SendError := SendTimeout | SendFailed (n : Z).
Class P2pLib := {
  SocketAddr : Type;
  parse_socket_addr : string → option SocketAddr;
  show_socket_addr : SocketAddr → string;
  lookup_host : string → Z → option (list SocketAddr);
  send_tx_p2p_over_clearnet : SocketAddr → Transaction → Z → bytes → outcome SendError unit
}.
(** What is printed is parsed back. *)
Class P2pLaws `{P2pLib} : Prop := {
  socket_addr_roundtrip a : parse_socket_addr (show_socket_addr a) = Some a
}.

Record SocketAddrV4 := mkV4 { ip : list Z; v4_port : Z }.
Definition SIGNET_MAGIC_BYTES : bytes := [xe4; x09; xe9; x68].
Definition SIGNET_MINER_P2P_ADDR : SocketAddrV4 := mkV4 [172; 105; 148; 135] 38333.
Definition default_p2p_broadcast_addr (network : Network) (magic_bytes : bytes) : option SocketAddrV4 :=
  match network with
  | Signet => if bool_decide (magic_bytes = SIGNET_MAGIC_BYTES) then Some SIGNET_MINER_P2P_ADDR else None
  | _ => None
  end.

Inductive ParseBroadcastAddrError := MissingPort (s : string) | InvalidHost (s : string) | InvalidPort (s : string).

Section p2p.
Context `{P2pLib}.

Inductive BroadcastAddr := Sock (a : SocketAddr) | Host (host : string) (port : Z).

Definition from_str (s : string) : outcome ParseBroadcastAddrError BroadcastAddr :=
  match parse_socket_addr s with
  | Some sock => Ok (Sock sock)
  | None =>
      '(host, port) ← ok_or (rsplit_once ":" s) (MissingPort s);
      _ ← reject_if (is_empty host || contains_any [":"; "["; "]"]%char host) (InvalidHost s);
      port ← ok_or (parse_uint 16 port) (InvalidPort s);
      Ok (Host host port)
  end.

Definition fmt (self : BroadcastAddr) : string :=
  match self with
  | Sock sock => show_socket_addr sock
  | Host host port => host ++ ":" ++ show port
  end.

(** ** Broadcast *)

Inductive BroadcastNonstandardTxError :=
| Resolve (addr : BroadcastAddr) | ResolvedEmpty (addr : BroadcastAddr) | Send (e : SendError).

Definition resolve (self : BroadcastAddr) : option (list SocketAddr) :=
  match self with
  | Sock sock => Some [sock]
  | Host host port => lookup_host host port
  end.

(** The loop over the addresses, with the last error. *)
Fixpoint send_loop (tx : Transaction) (block_height : Z) (magic : bytes) (addrs : list SocketAddr)
    (last_err : option SendError) : outcome BroadcastNonstandardTxError bool :=
  match addrs with
  | [] => e ← expect last_err; Err (Send e)
  | a :: addrs =>
      match send_tx_p2p_over_clearnet a tx block_height magic with
      | Ok _ => Ok true
      | Err SendTimeout => Ok false
      | Err err => send_loop tx block_height magic addrs (Some err)
      | Panic => Panic
      end
  end.

Definition broadcast_nonstandard_tx (p2p_address : BroadcastAddr) (block_height : Z) (magic : bytes)
    (tx : Transaction) : outcome BroadcastNonstandardTxError bool :=
  socket_addrs ← ok_or (resolve p2p_address) (Resolve p2p_address);
  _ ← reject_if (bool_decide (length socket_addrs = 0%nat)) (ResolvedEmpty p2p_address);
  send_loop tx block_height magic socket_addrs None.
End p2p.

(** ** Signet magic *)
Definition compute_signet_magic `{HashLib} (signet_challenge : bytes) : bytes :=
  take 4 (sha256d (compact_size (len signet_challenge) [] ++ signet_challenge)).

(** * Properties *)

Definition valid_host (host : string) : Prop :=
  host ≠ ""%string ∧ contains_any [":"; "["; "]"]%char host = false.

Lemma contains_any_cons c cs s : contains_any (c :: cs) s = contains_any [c] s || contains_any cs s.
Proof.
  induction s as [|a s IH]; [done|]. cbn [contains_any existsb]. rewrite IH, orb_false_r.
  destruct (Ascii.eqb a c), (existsb (Ascii.eqb a) cs), (contains_any [c] s); done.
Qed.

(** Parsing a peer's address: what is printed is read back, for a socket address
    and for a name that is not one; a text is a name and port exactly when it is no
    socket address and is a name without colons or brackets, a colon and a 16-bit
    port; and each refusal has its one reason. *)
Lemma broadcast_addr_parsed `{P2pLib} `{!P2pLaws} s :
  (∀ a, from_str (fmt (Sock a)) = Ok (Sock a))
  ∧ (∀ host port, valid_host host → in_u 16 port → parse_socket_addr (fmt (Host host port)) = None →
       from_str (fmt (Host host port)) = Ok (Host host port))
  ∧ match from_str s with
    | Ok (Sock a) => parse_socket_addr s = Some a
    | Ok (Host host port) =>
        parse_socket_addr s = None ∧ valid_host host ∧ in_u 16 port
        ∧ ∃ p, s = (host ++ ":" ++ p)%string ∧ parse_uint 16 p = Some port
    | Err (MissingPort s') => s' = s ∧ contains_any [":"%char] s = false
    | Err (InvalidHost s') =>
        s' = s ∧ ∃ host p, s = (host ++ ":" ++ p)%string ∧ contains_any [":"%char] p = false ∧ ¬ valid_host host
    | Err (InvalidPort s') =>
        s' = s ∧ ∃ host p, s = (host ++ ":" ++ p)%string ∧ valid_host host ∧ parse_uint 16 p = None
    | Panic => False
    end.
Proof.
  split_and!.
  - intros a. unfold from_str, fmt. by rewrite socket_addr_roundtrip.
  - intros host port [Hne Hcs] Hp Hsock. unfold from_str. rewrite Hsock. unfold fmt.
    assert (rsplit_once ":" (host ++ ":" ++ show port) = Some (host, show port)) as ->.
    { apply rsplit_once_Some. split; [done|]. apply show_no_sep; [unfold in_u in Hp; lia|by repeat constructor]. }
    cbn [ok_or mbind outcome_bind]. rewrite Hcs. destruct (is_empty_spec host); [done|].
    cbn [orb reject_if mbind outcome_bind]. by rewrite parse_uint_show.
  - unfold from_str. destruct (parse_socket_addr s) as [a|] eqn:Hsock; [done|].
    destruct (rsplit_once ":" s) as [[host p]|] eqn:Hr; cbn [ok_or mbind outcome_bind].
    2: { split; [done|]. by apply rsplit_once_None. }
    apply rsplit_once_Some in Hr as [-> Hp].
    destruct (is_empty host || _) eqn:Hv; cbn [reject_if mbind outcome_bind].
    + split; [done|]. exists host, p. split_and!; [done|done|]. intros [Hne Hcs]. rewrite Hcs in Hv.
      by destruct (is_empty_spec host).
    + apply orb_false_iff in Hv as [Hne Hcs].
      assert (valid_host host) as Hh by (split; [by destruct (is_empty_spec host)|done]).
      destruct (parse_uint 16 p) as [port|] eqn:Hport; cbn [ok_or mbind outcome_bind].
      * split_and!; [done|done| |by exists p]. apply parse_uint_range in Hport; [done|lia].
      * split; [done|]. by exists host, p.
Qed.

Section broadcast.
Context `{P2pLib}.
Context (tx : Transaction) (height : Z) (magic : bytes).
Let send a := send_tx_p2p_over_clearnet a tx height magic.

Definition fails (a : SocketAddr) : Prop := ∃ n, send a = Err (SendFailed n).

(** The first address that does not fail decides; if all fail, the last error. *)
Definition sent_to (addrs : list SocketAddr) (o : outcome BroadcastNonstandardTxError bool) : Prop :=
  (∃ pre a post b, addrs = pre ++ a :: post ∧ Forall fails pre ∧ o = Ok b
     ∧ send a = (if b : bool then Ok tt else Err SendTimeout))
  ∨ (∃ pre a n, addrs = pre ++ [a] ∧ Forall fails addrs ∧ send a = Err (SendFailed n) ∧ o = Err (Send (SendFailed n))).

Lemma send_loop_spec addrs last_err :
  (∀ a, send a ≠ Panic) → addrs ≠ [] → sent_to addrs (send_loop tx height magic addrs last_err).
Proof.
  intros Hp. revert last_err. induction addrs as [|a addrs IH]; intros last_err; [done|intros _].
  cbn [send_loop]. fold (send a). destruct (send a) as [[]|[|n]|] eqn:Hs.
  - left. by exists [], a, addrs, true.
  - left. by exists [], a, addrs, false.
  - assert (fails a) as Hf by by exists n.
    destruct addrs as [|a' addrs].
    + right. exists [], a, n. split_and!; [done|by constructor|done|done].
    + destruct (IH (Some (SendFailed n)) ltac:(done)) as [(pre & b & post & r & -> & Hpre & -> & Hb)|(pre & b & m & He & Hall & Hb & ->)].
      * left. exists (a :: pre), b, post, r. split_and!; [done|by constructor|done|done].
      * right. exists (a :: pre), b, m. rewrite He in *. split_and!; [done|by constructor|done|done].
  - by apply Hp in Hs.
Qed.
End broadcast.

(** A broadcast that resolves to some address reports what the first address that
    answers does: [true] if it took the transaction, [false] if it timed out; only
    if every address fails is there an error, the last one's.  It does not panic. *)
Lemma broadcast_outcome `{P2pLib} addr height magic tx :
  (∀ a, send_tx_p2p_over_clearnet a tx height magic ≠ Panic) →
  let r := broadcast_nonstandard_tx addr height magic tx in
  match resolve addr with
  | None => r = Err (Resolve addr)
  | Some [] => r = Err (ResolvedEmpty addr)
  | Some addrs => sent_to tx height magic addrs r
  end.
Proof.
  intros Hp r. subst r. unfold broadcast_nonstandard_tx. destruct (resolve addr) as [[|a l]|]; [done| |done].
  cbn [ok_or mbind outcome_bind length reject_if]. rewrite bool_decide_false by done.
  by apply send_loop_spec.
Qed.

(** Different challenges are hashed as different messages, with the length prefix
    of the node's serialisation: two signets share a magic only if the hash says so. *)
Lemma signet_magic_message `{HashLib} c1 c2 :
  in_u 64 (len c1) → in_u 64 (len c2) →
  ∃ m1 m2, compute_signet_magic c1 = take 4 (sha256d m1) ∧ compute_signet_magic c2 = take 4 (sha256d m2)
    ∧ (m1 = m2 ↔ c1 = c2) ∧ compact_size_decode m1 = Some (len c1, c1).
Proof.
  intros H1 H2. eexists _, _. split; [done|]. split; [done|]. split; [|by apply compact_size_decode_encode].
  split; [|by intros ->]. intros He. pose proof (compact_size_decode_encode (len c1) c1 H1) as Hd.
  rewrite He, compact_size_decode_encode in Hd by done. by simplify_eq.
Qed.

(** * Witnesses *)

(** Socket addresses are texts that start with a bracket. *)
Definition toy_p2p : P2pLib := {|
  SocketAddr := string;
  parse_socket_addr s := strip_prefix "[" s;
  show_socket_addr a := String "[" a;
  lookup_host host port := if (port =? 1)%Z then Some ["a"; "b"; host]%string else Some [];
  send_tx_p2p_over_clearnet a _ _ _ :=
    if String.eqb a "a" then Err (SendFailed 1) else if String.eqb a "b" then Err SendTimeout else Ok tt
|}.
Lemma toy_p2p_laws : @P2pLaws toy_p2p.
Proof. split. intros a. by apply strip_prefix_Some. Qed.

Lemma broadcast_addr_parsed_witness :
  @from_str toy_p2p "example.com:38333" = Ok (@Host toy_p2p "example.com" 38333)
  ∧ @from_str toy_p2p "example.com" = Err (MissingPort "example.com")
  ∧ @from_str toy_p2p ":8333" = Err (InvalidHost ":8333")
  ∧ @from_str toy_p2p "::1:8333" = Err (InvalidHost "::1:8333")
  ∧ @from_str toy_p2p "example.com:99999" = Err (InvalidPort "example.com:99999").
Proof.
  destruct (@broadcast_addr_parsed toy_p2p toy_p2p_laws "") as (_ & Hhost & _).
  split; [|vm_compute; repeat split; reflexivity].
  apply (Hhost "example.com"%string 38333); [|split; [lia|vm_compute; reflexivity]|reflexivity].
  split; [discriminate|reflexivity].
Defined.

Definition ex_broadcast (host : string) (port : Z) : outcome (@BroadcastNonstandardTxError toy_p2p) bool :=
  @broadcast_nonstandard_tx toy_p2p (@Host toy_p2p host port) 1 SIGNET_MAGIC_BYTES (mkTransaction 2 0 [] []).

(** The first address refuses the connection, the second times out. *)
Lemma broadcast_outcome_witness :
  ex_broadcast "c" 1 = Ok false ∧ ex_broadcast "c" 2 = Err (ResolvedEmpty (@Host toy_p2p "c" 2)).
Proof.
  split.
  - vm_compute. reflexivity.
  - apply (@broadcast_outcome toy_p2p (@Host toy_p2p "c" 2) 1 SIGNET_MAGIC_BYTES (mkTransaction 2 0 [] [])).
    intros a. cbn. by repeat case_match.
Defined.
