(* ===== verification/RestClient.v ===== *)
(** The client of the node's REST interface (`validator/main_rest_client.rs`): how
    a response is classified, and the headers it is read as.

    The [reqwest] and [url] crates, [serde_json] and [CompactTarget] are the class
    [RestLib]. *)
From Stdlib Require Import ZArith Lia Strings.Byte Strings.String.
From stdpp Require Import base list gmap strings.
From S2P Require Import Prelude Text Bitcoin Concrete Limits P2mrOutput Spend P2mrUtxo Pqc Dbs.
From S2P Require Import ParseBlockFiles BlockHandler Sync SyncHeaders.
#[local] Open Scope Z_scope.

Record ChainInfo := mkChainInfo { chain : string; blocks : Z; ci_headers : Z; bestblockhash : BlockHash }.
Record RestHeader := mkRestHeader {
  rh_hash : BlockHash;
  rh_height : Z;
  rh_version : Z;
  previousblockhash : option BlockHash;
  merkleroot : bytes;
  rh_time : Z;
  bits : string;
  rh_nonce : Z
}.

(** What sending a request gives: an error, with [is_connect], or a response. *)
Inductive sent := SendErr (is_connect : bool) | Response (status : Z) (body : bytes).

(** The error's status, as [reqwest::Error::status] answers it. *)
Inductive MainRestClientError :=
| RestURL
| RestHttp (status : option Z)
| InvalidBlockHash
| InvalidBlockHeader
| RestServerNotEnabled
| RestServerNotReachable.

Class RestLib := {
  Url : Type;
  url_join : Url → string → option Url;
  http_get : Url → sent;
  json_chain_info : bytes → option ChainInfo;
  json_headers : bytes → option (list RestHeader);
  show_hash : BlockHash → string;
  from_unprefixed_hex : string → option Z
}.

(** [StatusCode::is_success] and the statuses [error_for_status] turns into an
    error. *)
Definition is_success (status : Z) : bool := (200 <=? status) && (status <? 300).
Definition is_error (status : Z) : bool := (400 <=? status) && (status <? 600).

Section client.
Context `{RestLib}.

(** [response.error_for_status().unwrap_err()] *)
Definition unwrap_status_err {T} (status : Z) : outcome MainRestClientError T :=
  if is_error status then Err (RestHttp (Some status)) else Panic.

Definition do_request {T} (json : bytes → option T) (url : Url) : outcome MainRestClientError T :=
  match http_get url with
  | SendErr true => Err RestServerNotReachable
  | SendErr false => Err (RestHttp None)
  | Response status body =>
      if status =? 404 then Err RestServerNotEnabled else
      if negb (is_success status) then unwrap_status_err status else
      ok_or (json body) (RestHttp None)
  end.

Definition get_chain_info (base_url : Url) : outcome MainRestClientError ChainInfo :=
  url ← ok_or (url_join base_url "rest/chaininfo.json") RestURL;
  do_request json_chain_info url.

(** The bytes of a header besides its previous hash and time: version, merkle root,
    target and nonce. *)
Definition to_header (header : RestHeader) : outcome MainRestClientError (Header * BlockHash * Z) :=
  target ← expect (from_unprefixed_hex (bits header));
  Ok (mkHeader (default all_zeros (previousblockhash header)) (rh_time header)
        (le_bytes 4 (rh_version header) ++ merkleroot header ++ le_bytes 4 target ++ le_bytes 4 (rh_nonce header)),
      rh_hash header, rh_height header).

Fixpoint to_headers (l : list RestHeader) : outcome MainRestClientError (list (Header * BlockHash * Z)) :=
  match l with
  | [] => Ok []
  | h :: l => h ← to_header h; l ← to_headers l; Ok (h :: l)
  end.

Definition headers_path (block_hash : BlockHash) (descendants : nat) : string :=
  "rest/headers/" ++ show_hash block_hash ++ ".json?count=" ++ show (Z.of_nat descendants).

Definition get_block_headers (base_url : Url) (block_hash : BlockHash) (descendants : nat) :
    outcome MainRestClientError (list (Header * BlockHash * Z)) :=
  url ← ok_or (url_join base_url (headers_path block_hash descendants)) RestURL;
  headers ← do_request json_headers url;
  to_headers headers.

(** ** The node as the sync sees it

    [Sync.NodeRpc] with its REST part through this client. *)
Definition node_with_rest (base_url : Url) (rpc : NodeRpc) : NodeRpc := {|
  Sync.getblockhash := @Sync.getblockhash rpc;
  Sync.getblockheader_height := @Sync.getblockheader_height rpc;
  Sync.fetch_blocks_batch := @Sync.fetch_blocks_batch rpc;
  Sync.get_block_headers h n := match get_block_headers base_url h n with Ok l => Some l | _ => None end
|}.
End client.

(** * Properties *)

(** A request is answered with the decoded body exactly on a 2xx status with a
    body that decodes; 404 counts as REST being off; a failed connection as an
    unreachable server; a status of the 4xx and 5xx classes is the error's status,
    and any other one makes the client panic. *)
Lemma do_request_outcome `{RestLib} {T} (json : bytes → option T) url :
  match do_request json url with
  | Ok v => ∃ status body, http_get url = Response status body ∧ 200 ≤ status < 300 ∧ json body = Some v
  | Err RestServerNotReachable => http_get url = SendErr true
  | Err RestServerNotEnabled => ∃ body, http_get url = Response 404 body
  | Err (RestHttp (Some status)) =>
      ∃ body, http_get url = Response status body ∧ 400 ≤ status < 600 ∧ status ≠ 404
  | Err (RestHttp None) =>
      http_get url = SendErr false
      ∨ ∃ status body, http_get url = Response status body ∧ 200 ≤ status < 300 ∧ json body = None
  | Err _ => False
  | Panic => ∃ status body, http_get url = Response status body ∧ ¬ 200 ≤ status < 300 ∧ ¬ 400 ≤ status < 600
  end.
Proof.
  unfold do_request, unwrap_status_err, is_success, is_error. destruct (http_get url) as [[]|status body]; [done|by left|].
  destruct (Z.eqb_spec status 404) as [->|H404]; [by exists body|].
  destruct (Z.leb_spec 200 status), (Z.ltb_spec status 300); cbn [andb negb].
  2-4: destruct (Z.leb_spec 400 status), (Z.ltb_spec status 600); cbn [andb]; try lia;
    solve [exists status, body; split_and!; [done|lia|lia] | exists body; split_and!; [done|lia|done]
          | exists body; split; [done|lia]].
  destruct (json body) as [v|] eqn:Hj; cbn [ok_or]; [|right]; by exists status, body.
Qed.

(** ** A node that serves its headers *)

Section served.
Context `{TxLib} `{RestLib}.

(** The JSON form of a header: [bits_of] is the node's text for a target, and the
    first header has no previous one. *)
Definition served_header (bits_of : Z → string) (hd : Header) (k : Z) : RestHeader :=
  let rest := header_rest hd in
  mkRestHeader (block_hash hd) k (le_decode (take 4 rest))
    (if bool_decide (prev_blockhash hd = all_zeros) then None else Some (prev_blockhash hd))
    (take 32 (drop 4 rest)) (time hd) (bits_of (le_decode (take 4 (drop 36 rest)))) (le_decode (drop 40 rest)).

(** The texts for targets are read back, and a request for headers of the chain
    [hs], which the node's chain starts with, is answered with them. *)
Record serves_headers (base_url : Url) (bits_of : Z → string) (hs : list Header) : Prop := {
  sh_bits t : in_u 32 t → from_unprefixed_hex (bits_of t) = Some t;
  sh_rest hd : hd ∈ hs → length (header_rest hd) = 44%nat;
  sh_get k hd n : hs !! k = Some hd → (k + n ≤ length hs)%nat → ∃ url body,
    url_join base_url (headers_path (block_hash hd) n) = Some url ∧ http_get url = Response 200 body
    ∧ json_headers body = Some (map (λ '(hd, _, h), served_header bits_of hd h) (segment k (take n (drop k hs))))
}.

Lemma le_decode_u32 l : length l = 4%nat → in_u 32 (le_decode l).
Proof. intros Hl. pose proof (le_decode_range l) as Hr. unfold len in Hr. rewrite Hl in Hr. exact Hr. Qed.

Lemma to_header_served bits_of hd k :
  (∀ t, in_u 32 t → from_unprefixed_hex (bits_of t) = Some t) → length (header_rest hd) = 44%nat →
  to_header (served_header bits_of hd k) = Ok (hd, block_hash hd, k).
Proof.
  intros Hbits Hlen. destruct hd as [prev t rest]. cbn [header_rest] in Hlen.
  unfold to_header, served_header. cbn [bits header_rest previousblockhash rh_time rh_version merkleroot rh_nonce rh_hash rh_height].
  assert (∀ i, (i + 4 ≤ 44)%nat → length (take 4 (drop i rest)) = 4%nat) as H4.
  { intros i Hi. rewrite length_take, length_drop. lia. }
  rewrite Hbits by (apply le_decode_u32, H4; lia). cbn [expect mbind outcome_bind].
  assert (∀ l : bytes, length l = 4%nat → le_bytes 4 (le_decode l) = l) as Hle.
  { intros l Hl. rewrite <- Hl. apply le_bytes_le_decode. }
  rewrite (Hle (take 4 (drop 36 rest))) by (apply H4; lia).
  rewrite (Hle (take 4 rest)) by (rewrite length_take; lia).
  rewrite (Hle (drop 40 rest)) by (rewrite length_drop; lia).
  assert (take 4 rest ++ take 32 (drop 4 rest) ++ take 4 (drop 36 rest) ++ drop 40 rest = rest) as ->.
  { pose proof (take_drop 4 (drop 36 rest)) as H36. pose proof (take_drop 32 (drop 4 rest)) as H4'.
    rewrite drop_drop in H36, H4'.
    change (36 + 4)%nat with 40%nat in H36. change (4 + 32)%nat with 36%nat in H4'.
    rewrite H36, H4'. apply take_drop. }
  cbn [time prev_blockhash]. destruct (bool_decide_reflect (prev = all_zeros)) as [->|_]; reflexivity.
Qed.

Lemma to_headers_served bits_of k l :
  (∀ t, in_u 32 t → from_unprefixed_hex (bits_of t) = Some t) → (∀ hd, hd ∈ l → length (header_rest hd) = 44%nat) →
  to_headers (map (λ '(hd, _, h), served_header bits_of hd h) (segment k l)) = Ok (segment k l).
Proof.
  intros Hbits. revert k. induction l as [|hd l IH]; intros k Hlen; [done|].
  cbn [segment map to_headers]. rewrite to_header_served by (done || apply Hlen; by left).
  cbn [mbind outcome_bind]. rewrite IH; [done|]. intros hd' Hin. apply Hlen. by right.
Qed.
End served.

(** The client reads back the headers a node serves, each with its hash and height:
    through it the node is the honest one the header sync is proved against. *)
Lemma rest_headers_honest `{TxLib} `{RestLib} base_url bits_of (rpc : NodeRpc) hs :
  serves_headers base_url bits_of hs →
  (∀ k hd, hs !! k = Some hd → @Sync.getblockhash rpc (Z.of_nat k) = Some (block_hash hd)) →
  (∀ hd, last hs = Some hd → @Sync.getblockheader_height rpc (block_hash hd) = Some (len hs - 1)) →
  @honest_headers _ (node_with_rest base_url rpc) hs.
Proof.
  intros [Hbits Hrest Hget] Hhash Hheight. split; [done| |done]. intros k hd n Hk Hn.
  cbn [Sync.get_block_headers node_with_rest]. unfold get_block_headers.
  destruct (Hget k hd n Hk Hn) as (url & body & -> & Hresp & Hjson). cbn [ok_or mbind outcome_bind].
  unfold do_request at 1. rewrite Hresp, Hjson. cbn [is_success Z.eqb negb ok_or mbind outcome_bind].
  change (200 =? 404) with false. cbn. rewrite to_headers_served; [done|done|].
  intros hd' Hin. apply Hrest. eapply subseteq_drop, subseteq_take, Hin.
Qed.

(** The client panics on a header whose target is no hexadecimal number, wherever
    it is in the response. *)
Lemma malformed_bits_panic `{RestLib} l h :
  h ∈ l → from_unprefixed_hex (bits h) = None → to_headers l = Panic.
Proof.
  intros Hin Hb. induction Hin as [h l|h h' l Hin IH]; cbn [to_headers]; unfold to_header at 1.
  - by rewrite Hb.
  - destruct (from_unprefixed_hex (bits h')); [|done]. cbn [expect mbind outcome_bind]. by rewrite IH.
Qed.

(** * Witnesses *)

Definition ex_rest_header (t : Z) (prev : BlockHash) : Header := mkHeader prev t (replicate 44 x05).
Definition ex_h0 : Header := ex_rest_header 1 all_zeros.
Definition ex_h1 : Header := ex_rest_header 2 (@block_hash toy_tx ex_h0).

(** A server of two headers, asked for none, one or more of them; [base] is the
    status it answers with. *)
Definition toy_count (c : string) : nat := if String.eqb c "0" then 0 else if String.eqb c "1" then 1 else 2.
Definition toy_rest : RestLib := {|
  Url := Z * string;
  url_join base p := Some (base.1, p);
  http_get url := if url.1 =? 0 then SendErr true else Response url.1 (list_byte_of_string url.2);
  json_chain_info _ := None;
  json_headers body :=
    let s := string_of_list_byte body in
    match strip_prefix "rest/headers/1.json?count=" s, strip_prefix "rest/headers/2.json?count=" s with
    | Some c, _ => Some (map (λ '(hd, _, h), @served_header toy_tx show hd h)
                           (@segment toy_tx 0 (take (toy_count c) [ex_h0; ex_h1])))
    | _, Some c => Some (map (λ '(hd, _, h), @served_header toy_tx show hd h)
                           (@segment toy_tx 1 (take (toy_count c) [ex_h1])))
    | _, _ => None
    end;
  show_hash h := show (le_decode (take 4 h));
  from_unprefixed_hex s := parse_uint 32 s
|}.

Lemma toy_count_show n {A} (a b : A) :
  take (toy_count (show (Z.of_nat n))) [a; b] = take n [a; b]
  ∧ take (toy_count (show (Z.of_nat n))) [b] = take n [b].
Proof.
  destruct n as [|[|n]]; [by vm_compute..|]. unfold toy_count.
  destruct (String.eqb_spec (show (Z.of_nat (S (S n)))) "0") as [He|_].
  { change "0"%string with (show 0) in He. apply show_inj in He; lia. }
  destruct (String.eqb_spec (show (Z.of_nat (S (S n)))) "1") as [He|_]; [|by destruct n].
  change "1"%string with (show 1) in He. apply show_inj in He; lia.
Qed.

Lemma do_request_examples :
  @get_chain_info toy_rest (304, ""%string) = Panic
  ∧ @get_chain_info toy_rest (404, ""%string) = Err RestServerNotEnabled
  ∧ @get_chain_info toy_rest (503, ""%string) = Err (RestHttp (Some 503)).
Proof.
  vm_compute. repeat split; reflexivity.
Defined.

Lemma ex_serves_headers : @serves_headers toy_tx toy_rest (200, ""%string) show [ex_h0; ex_h1].
Proof.
  split.
  - intros t Ht. apply parse_uint_show. exact Ht.
  - intros hd Hin. apply elem_of_cons in Hin as [->|Hin%list_elem_of_singleton]; [|subst]; reflexivity.
  - intros k hd n Hk _. eexists _, _. split; [reflexivity|]. split; [reflexivity|].
    cbn [json_headers toy_rest]. rewrite string_of_list_byte_of_string.
    destruct k as [|[|k]]; [injection Hk as <-|injection Hk as <-|destruct k; discriminate].
    + cbn [drop]. rewrite <- (proj1 (toy_count_show n ex_h0 ex_h1)). reflexivity.
    + cbn [drop]. rewrite <- (proj2 (toy_count_show n ex_h0 ex_h1)). reflexivity.
Qed.

Lemma rest_headers_honest_witness :
  @honest_headers toy_tx (@node_with_rest toy_rest (200, ""%string)
    {| Sync.getblockhash k := @block_hash toy_tx <$> nth_error [ex_h0; ex_h1] (Z.to_nat k);
       Sync.getblockheader_height _ := Some 1;
       Sync.fetch_blocks_batch _ := Err SyncDecode;
       Sync.get_block_headers _ _ := None |}) [ex_h0; ex_h1].
Proof.
  apply (@rest_headers_honest toy_tx toy_rest (200, ""%string) show).
  - exact ex_serves_headers.
  - intros [|[|k]] hd Hk; [injection Hk as <-; reflexivity..|destruct k; discriminate].
  - intros hd Hl. reflexivity.
Defined.
