(* ===== verification/NodeSync.v ===== *)
(** One whole sync to the node's tip: the header sync and the block sync together
    (`task/mod.rs`: [sync_to_tip]), through the driver's call (`enforcer.rs`). *)
From Stdlib Require Import ZArith Lia Strings.Byte.
From stdpp Require Import base list gmap.
From S2P Require Import Prelude Bitcoin Concrete Limits P2mrOutput Spend P2mrUtxo Pqc Dbs.
From S2P Require Import ParseBlockFiles BlockHandler Sync SyncHeaders SyncBlocks Enforcer.
#[local] Open Scope Z_scope.

Section node_sync.
Context `{HashLib} `{ScriptLib} `{TxLib} `{TaprootLib} `{P2mrLib} `{PqcLib} `{NodeRpc}.
Implicit Types (db : Dbs) (chain : list Block).

(** The headers of a chain (tip first), oldest first. *)
Definition headers_of chain : list Header := map header (rev chain).

(** Each block of [bs], put on the chain in turn, satisfies what the chain
    guarantees of its blocks. *)
Fixpoint blocks_ok (chain : list Block) (bs : list Block) : Prop :=
  match bs with
  | [] => True
  | b :: bs => block_ok (utxos_of chain) b ∧ blocks_ok (b :: chain) bs
  end.

(** The node's chain, or the part of it up to some height, is [chain]: it serves the headers
    of it and the blocks [bs]. *)
Record node_follows (chain bs : list Block) : Prop := {
  nf_linked : linked_headers (headers_of chain);
  nf_headers : honest_headers (headers_of chain);
  nf_blocks : honest_blocks bs;
  nf_height : in_u 32 (len chain)
}.

Lemma headers_of_cons b chain : headers_of (b :: chain) = headers_of chain ++ [header b].
Proof. unfold headers_of. cbn [rev]. by rewrite map_app. Qed.
Lemma length_headers_of chain : length (headers_of chain) = length chain.
Proof. unfold headers_of. by rewrite length_map, length_rev. Qed.
Lemma last_headers_of chain : last (headers_of chain) = header <$> head chain.
Proof. destruct chain as [|b chain]; [done|]. by rewrite headers_of_cons, last_snoc. Qed.

Lemma linked_headers_prefix hs hd : linked_headers (hs ++ [hd]) → linked_headers hs.
Proof.
  intros [Hg Hl Hn Hz]. split.
  - intros g Hk. apply Hg. by rewrite lookup_app_l by (by eapply lookup_lt_Some).
  - intros k a b Ha Hb. apply (Hl k); by rewrite lookup_app_l by (by eapply lookup_lt_Some).
  - rewrite map_app in Hn. by apply NoDup_app in Hn as [? _].
  - intros k a Ha. apply (Hz k). by rewrite lookup_app_l by (by eapply lookup_lt_Some).
Qed.

(** Linked headers: each block is on the one below it. *)
Lemma linked_prev b chain : linked_headers (headers_of (b :: chain)) → prev_blockhash (header b) = tip_hash chain.
Proof.
  rewrite headers_of_cons. intros [Hg Hl _ _]. pose proof (length_headers_of chain) as Hlen.
  destruct chain as [|c chain]; [by apply (Hg (header b))|].
  unfold tip_hash. cbn [tip_of head fmap option_fmap option_map default].
  apply (Hl (length chain)).
  - rewrite headers_of_cons. rewrite lookup_app_l by (rewrite length_app, length_headers_of; cbn; lia).
    rewrite lookup_app_r, length_headers_of, Nat.sub_diag by (rewrite length_headers_of; lia). done.
  - rewrite lookup_app_r by (rewrite Hlen; cbn; lia). rewrite Hlen. cbn [length]. by rewrite Nat.sub_diag.
Qed.

(** The stored headers of a linked chain. *)
Lemma stored_linked (db : BlockHashDbs) chain :
  linked_headers (headers_of chain) → (∀ hd, hd ∈ headers_of chain → headers db !! block_hash hd = Some hd) →
  chain_linked db chain.
Proof.
  induction chain as [|b chain IH]; intros Hl Hst; [done|]. split_and!.
  - apply Hst. rewrite headers_of_cons. apply elem_of_app. right. by left.
  - by apply linked_prev.
  - apply IH; [rewrite headers_of_cons in Hl; by eapply linked_headers_prefix|].
    intros hd Hin. apply Hst. rewrite headers_of_cons. apply elem_of_app. by left.
Qed.

Lemma chain_linked_connectable (db : BlockHashDbs) bs chain :
  chain_linked db (rev bs ++ chain) → blocks_ok chain bs → connectable (headers db) chain bs.
Proof.
  revert chain. induction bs as [|b bs IH]; intros chain; [done|]. cbn [rev]. rewrite <- app_assoc. cbn [app].
  intros Hl [Hb Hbs]. pose proof (chain_linked_app _ _ _ Hl) as (? & ? & _). split_and!; [done..|]. by apply IH.
Qed.

Lemma stored_upto_elem (db : BlockHashDbs) hs hd :
  stored_upto db hs (length hs) → hd ∈ hs → headers db !! block_hash hd = Some hd.
Proof.
  intros Hst [k Hk]%list_elem_of_lookup. apply (Hst k hd); [by eapply lookup_lt_Some|done].
Qed.

(** [sync_outcome], or cancelled during the header sync. *)
Definition tip_sync_outcome (may_lose stopped : Prop) (l1 bs common : list Block)
    (r : outcome SyncError (option (option (BlockHash * ConnectBlockError))) * task_state) : Prop :=
  match r with
  | (Err e, (db', _)) =>
      e = Shutdown ∧ stopped ∧ (db_inv db' (l1 ++ common) ∨ ∃ pre post, bs = pre ++ post ∧ db_inv db' (rev pre ++ common))
  | r => sync_outcome may_lose stopped bs common r
  end.
Lemma sync_outcome_tip may_lose (stopped stopped' : Prop) l1 bs common r : (stopped → stopped') →
  sync_outcome may_lose stopped bs common r → tip_sync_outcome may_lose stopped' l1 bs common r.
Proof.
  intros Hs. destruct r as [[o|e|] [db' evs]]; [done| |done]. intros (-> & Hstop & Hp).
  split_and!; [done|by apply Hs|by right].
Qed.

(** Header and block sync together, from the databases of [l1 ++ common], against a
    node on [l2 ++ common]. *)
Lemma sync_to_tip_outcome self trace clock cancelled fuel from_dir db evs l1 l2 common :
  (∀ hd, 0 < header_work hd) → db_inv db (l1 ++ common) → diverge l1 l2 →
  node_follows (l2 ++ common) (rev l2) → no_clash (block_hashes db) (headers_of (l2 ++ common)) →
  l2 ++ common ≠ [] → blocks_ok common (rev l2) →
  map_Forall (λ _ o, is_p2mr_script (script_pubkey o) = false) (extra_prevouts self) →
  (∀ f hdrs, from_dir = Some f → connectable hdrs common (rev l2) → file_sync_spec f (rev l2) common hdrs) →
  (33 ≤ fuel)%nat → (length l1 + length l2 + length common < fuel)%nat →
  tip_sync_outcome (from_dir ≠ None) (∃ p, cancelled p = true) l1 (rev l2) common
    (sync_to_tip self trace clock cancelled fuel from_dir (tip_hash (l2 ++ common)) (db, evs)).
Proof.
  intros Hw Hinv Hdiv [Hlink Hhh Hhb Hu] Hnc Hne Hok Hx Hfile Hfuel Hlen.
  destruct (l2 ++ common) as [|tip rest] eqn:Hchain; [done|]. rewrite <- Hchain in *.
  assert (last (headers_of (l2 ++ common)) = Some (header tip)) as Hlast by (by rewrite last_headers_of, Hchain).
  destruct (sync_headers_Ok (λ i, cancelled (HeaderPoll i)) fuel (headers_of (l2 ++ common)) (header tip) db)
    as (b & Hwf & Hgrow & Hends);
    try done.
  { unfold len. rewrite length_headers_of. exact Hu. }
  { apply (inv_headers _ _ Hinv). }
  { rewrite length_headers_of, length_app. lia. }
  assert (tip_hash (l2 ++ common) = block_hash (header tip)) as Htip by by rewrite Hchain.
  set (db1 := mkDbs b (current_chain_tip db) (p2mr_utxos db)) in *.
  assert (db_inv db1 (l1 ++ common)) as Hinv1.
  { destruct Hinv as [Hwf0 Ht Hutxo Hch]. split; [done..|]. cbn [block_hashes db1].
    destruct Hgrow as (ps & Hps & ->). by apply chain_stored_put. }
  unfold sync_to_tip. unfold mbind at 1, st_bind at 1, on_db. cbn [fst snd]. rewrite Htip.
  destruct Hends as [[Hrun Hst]|[Hrun [i Hi]]]; rewrite Hrun; [|split_and!; [done|by exists (HeaderPoll i)|by left]].
  rewrite <- Htip. apply (sync_outcome_tip _ (∃ k, cancelled (BlockPoll k) = true)).
  { intros [k Hk]. by exists (BlockPoll k). }
  assert (chain_linked b (l2 ++ common)) as Hl.
  { apply stored_linked; [done|]. intros hd Hin. by eapply stored_upto_elem. }
  assert (connectable (headers b) common (rev l2)) as Hcon.
  { apply chain_linked_connectable; [|done]. by rewrite rev_involutive. }
  destruct (find_missing_blocks_Ok fuel l1 l2 common db1 evs Hinv1 Hl Hdiv ltac:(lia))
    as (db2 & evs2 & Hfind & Hinv2 & Hbh & _).
  unfold sync_blocks. unfold mbind at 1, st_bind at 1. rewrite Hfind.
  apply (sync_missing_outcome self trace clock (λ i, cancelled (BlockPoll i)) from_dir db2 evs2 l2 common (headers b));
    rewrite ?Hbh; try done.
  intros f Hf. by apply Hfile.
Qed.
End node_sync.

(** * Properties *)

(** One call of the driver's [sync_to_tip] takes a validator from any chain
    [l1 ++ common] to the node's chain [l2 ++ common], headers first: against a node
    that serves the headers and blocks of its chain, and with any block-file sync
    that keeps its contract on the headers then stored, it ends with the databases
    of the node's chain; or at a rejected block, reported as such, with the blocks
    below it connected (save those a failed block-file sync lost); or cancelled
    between batches, with the databases of its old chain or of a part of the node's.  It always ends, with no other error; a panic of the validation
    of a block is not excluded. *)
Lemma sync_to_tip_follows_node
    `{HashLib} `{ScriptLib} `{TxLib} `{TaprootLib} `{P2mrLib} `{PqcLib} `{NodeRpc}
    v trace clock cancelled fuel from_dir db evs l1 l2 common :
  (∀ hd, 0 < header_work hd) → db_inv db (l1 ++ common) → diverge l1 l2 →
  node_follows (l2 ++ common) (rev l2) → no_clash (block_hashes db) (headers_of (l2 ++ common)) →
  l2 ++ common ≠ [] → blocks_ok common (rev l2) →
  (∀ f hdrs, from_dir = Some f → connectable hdrs common (rev l2) → file_sync_spec f (rev l2) common hdrs) →
  (33 ≤ fuel)%nat → (length l1 + length l2 + length common < fuel)%nat →
  match enforcer_sync_to_tip v trace clock cancelled fuel from_dir (tip_hash (l2 ++ common)) (db, evs) with
  | (Ok (Some _), (db', _)) => db_inv db' (l2 ++ common)
  | (Err (SyncInvalidBlock bh e), (db', _)) =>
      ∃ pre lost b post, rev l2 = pre ++ lost ++ b :: post ∧ bh = block_hash (header b)
        ∧ is_fatal e = false ∧ db_inv db' (rev pre ++ common) ∧ (lost ≠ [] → from_dir ≠ None)
  | (Err (SyncOther e), (db', _)) =>
      e = Shutdown ∧ (db_inv db' (l1 ++ common) ∨ ∃ pre post, rev l2 = pre ++ post ∧ db_inv db' (rev pre ++ common))
  | (Ok None, _) => False
  | (Panic, _) => True
  end.
Proof.
  intros Hw Hinv Hdiv Hnode Hnc Hne Hok Hfile Hfuel Hlen.
  pose proof (sync_to_tip_outcome (with_extra v ∅) trace clock cancelled fuel from_dir db evs l1 l2 common
    Hw Hinv Hdiv Hnode Hnc Hne Hok (map_Forall_empty _) Hfile Hfuel Hlen) as Hout.
  unfold enforcer_sync_to_tip. unfold mbind at 1, st_bind at 1, st_map_err.
  destruct (sync_to_tip _ _ _ _ _ _ _ _) as [[[[[bh e]|]|]|e|] [db' evs']]; cbn [tip_sync_outcome sync_outcome map_err] in *; try done.
  - destruct Hout as (pre & lost & b & post & ? & ? & ? & ? & Hlost).
    exists pre, lost, b, post. split_and!; try done. intros Hl. by apply Hlost.
  - by rewrite rev_involutive in Hout.
  - destruct Hout as (-> & _ & Hp). by split.
Qed.

(** * Witnesses *)

(** A node with a chain of two blocks: the first one of the examples, and [b]. *)
Definition ex_two_chain (b : Block) : list Block := [b; ex_block0].
Definition ex_two_node (b : Block) : NodeRpc := {|
  getblockhash k := nth_error [ex_hash ex_g; ex_hash (header b)] (Z.to_nat k);
  getblockheader_height _ := Some 1;
  fetch_blocks_batch hs :=
    Ok (map (λ h, if bool_decide (h = ex_hash (header b)) then b else ex_block0) hs);
  get_block_headers h n :=
    Some (if bool_decide (h = ex_hash ex_g) then @segment toy_tx 0 (take n [ex_g; header b])
          else @segment toy_tx 1 (take n [header b]))
|}.

Lemma ex_two_follows tip bs :
  tip = ex_fork_block ∨ tip = ex_block1 → (∀ b, b ∈ bs → b ∈ ex_two_chain tip) →
  @node_follows toy_tx (ex_two_node tip) (ex_two_chain tip) bs.
Proof.
  intros Htip Hbs. split.
  - split.
    + intros hd [= <-]. reflexivity.
    + intros [|[|k]] hd hd' Hk Hk'; cbn in Hk, Hk'; simplify_eq. by destruct Htip as [->| ->]; vm_compute.
    + apply (bool_decide_eq_true_1 _). by destruct Htip as [->| ->]; vm_compute.
    + intros [|[|k]] hd Hk; cbn in Hk; simplify_eq; destruct Htip as [->| ->]; vm_compute; discriminate.
  - split.
    + intros [|[|k]] hd Hk; cbn in Hk; simplify_eq; reflexivity.
    + intros [|[|k]] hd n Hk _; cbn in Hk; simplify_eq; destruct Htip as [->| ->]; reflexivity.
    + intros hd [= <-]. reflexivity.
  - intros l _ Hl. cbn. f_equal. induction l as [|b l IH]; [reflexivity|]. cbn [map]. f_equal.
    + specialize (Hbs b (Hl b ltac:(by left))). apply elem_of_cons in Hbs as [->|Hb%list_elem_of_singleton].
      * by rewrite bool_decide_true.
      * subst b. destruct Htip as [->| ->]; vm_compute; reflexivity.
    + apply IH. intros b' Hb'. apply Hl. by right.
  - split; vm_compute; [discriminate|reflexivity].
Qed.

Lemma ex_two_no_clash db tip :
  headers (block_hashes db) !! ex_hash ex_g = Some ex_g →
  headers (block_hashes db) !! ex_hash (header tip) = Some (header tip) →
  @no_clash toy_tx (block_hashes db) (headers_of (ex_two_chain tip)).
Proof.
  intros Hg Hb [|[|k]] hd hd' Hk Hhd; [| |destruct k; discriminate Hk]; injection Hk as <-.
  - change (headers (block_hashes db) !! ex_hash ex_g = Some hd') in Hhd. congruence.
  - change (headers (block_hashes db) !! ex_hash (header tip) = Some hd') in Hhd. congruence.
Qed.

Definition ex_tip_sync : outcome SyncToTipError (option unit) * task_state :=
  @enforcer_sync_to_tip toy_hash toy_script toy_tx toy_taproot toy_p2mr toy_pqc (ex_two_node ex_fork_block) ex_handler true
    (λ _, []) (λ _, false) 40 None (ex_hash ex_b1) (ex_db2, []).

(** A reorganisation of one block. *)
Lemma sync_to_tip_follows_node_witness :
  ex_tip_sync.1 = Ok (Some tt) ∧ @db_inv toy_tx ex_tip_sync.2.1 (ex_two_chain ex_fork_block).
Proof.
  assert (ex_tip_sync.1 = Ok (Some tt)) as Hrun by (vm_compute; reflexivity). split; [exact Hrun|].
  pose proof (@sync_to_tip_follows_node toy_hash toy_script toy_tx toy_taproot toy_p2mr toy_pqc (ex_two_node ex_fork_block)
    ex_handler true (λ _, []) (λ _, false) 40 None ex_db2 [] [ex_block1] [ex_fork_block] [ex_block0]
    toy_work_pos ex_inv2) as Hs.
  assert (@diverge toy_tx [ex_block1] [ex_fork_block]) as Hdiv.
  { intros b1 b2 [= <-] [= <-]. vm_compute. discriminate. }
  assert (@no_clash toy_tx (block_hashes ex_db2) (headers_of ([ex_fork_block] ++ [ex_block0]))) as Hnc.
  { apply ex_two_no_clash; vm_compute; reflexivity. }
  assert (@blocks_ok toy_tx [ex_block0] (rev [ex_fork_block])) as Hok.
  { split; [|exact I]. apply block_ok_dec; vm_compute; reflexivity. }
  specialize (Hs Hdiv (ex_two_follows ex_fork_block [ex_fork_block] (or_introl eq_refl) ltac:(intros b ->%list_elem_of_singleton; by left)) Hnc
    ltac:(discriminate) Hok (λ f hdrs Hf, False_ind _ (None_ne_Some f Hf)) ltac:(lia) ltac:(cbn; lia)).
  change (@tip_hash toy_tx ([ex_fork_block] ++ [ex_block0])) with (ex_hash ex_b1) in Hs.
  fold ex_tip_sync in Hs. destruct ex_tip_sync as [o [db' evs]]. cbn in Hrun. subst o. exact Hs.
Defined.
