(* ===== verification/FetchBlocks.v ===== *)
(** Blocks from the node's RPC interface, in batches (`task/mod.rs`:
    [fetch_blocks_batch]), and the node the sync sees through this client and the one
    of the REST interface.

    The batch request of the [jsonrpsee] crate, the text of a hash and the decoding
    of a block are the class [RpcLib]. *)
From Stdlib Require Import ZArith Lia Strings.Byte Strings.String.
From stdpp Require Import base list gmap strings.
From S2P Require Import Prelude Text Bitcoin Concrete Limits P2mrOutput Spend P2mrUtxo Pqc Dbs.
From S2P Require Import ParseBlockFiles BlockHandler Sync SyncHeaders SyncBlocks Enforcer RestClient Rpc NodeSync.
#[local] Open Scope Z_scope.

(** A call of a batch: its method and its parameters. *)
Record rpc_call := mkCall { method : string; block_hash_param : string; verbosity : Z }.

(** [batch_request]: the answers in the order of the calls, each a result or the
    message of an error; [None] if the request as a whole fails. *)
Class RpcLib := {
  hash_to_string : BlockHash → string;
  batch_request : list rpc_call → option (list (string + bytes));
  block_deserialize : bytes → option Block
}.

(** [BatchResponse::ok]: the results, or the errors if there is one. *)
Definition batch_ok (response : list (string + bytes)) : outcome (list bytes) (list string) :=
  match omap (λ r, match r with inl _ => None | inr e => Some e end) response with
  | [] => Ok (omap (λ r, match r with inl v => Some v | inr _ => None end) response)
  | errors => Err errors
  end.

Section fetch.
Context `{HexLib} `{RpcLib}.

Definition decode_block (block : string) : outcome SyncError Block :=
  bytes ← ok_or (hex_decode block) SyncHex;
  ok_or (block_deserialize bytes) SyncDecode.

Definition get_block_batch (block_hashes : list BlockHash) : list rpc_call :=
  map (λ block_hash, mkCall "getblock" (hash_to_string block_hash) 0) block_hashes.

Definition fetch_blocks_batch (block_hashes : list BlockHash) : outcome SyncError (list Block) :=
  batch_response ← ok_or (batch_request (get_block_batch block_hashes)) JsonRpc;
  match batch_ok batch_response with
  | Ok blocks => collect_results decode_block blocks
  | Err errors => Err (BatchJsonRpc errors)
  | Panic => Panic
  end.

(** ** The node as the sync sees it *)
Definition node_of_clients `{RestLib} (base_url : Url) (getblockhash : Z → option BlockHash)
    (getblockheader_height : BlockHash → option Z) : NodeRpc :=
  node_with_rest base_url {|
    Sync.getblockhash := getblockhash;
    Sync.getblockheader_height := getblockheader_height;
    Sync.fetch_blocks_batch := fetch_blocks_batch;
    Sync.get_block_headers _ _ := None
  |}.
End fetch.

(** * Lemmas *)

Lemma batch_ok_results values : batch_ok (map inl values) = Ok values.
Proof.
  unfold batch_ok. induction values as [|v values IH]; [done|]. cbn.
  destruct (omap _ (map inl values)); [|done]. injection IH as IH. by rewrite IH.
Qed.

Lemma batch_ok_Ok response values : batch_ok response = Ok values ↔ response = map inl values.
Proof.
  split; [|intros ->; apply batch_ok_results]. unfold batch_ok. revert values.
  induction response as [|[v|e] response IH]; intros values; cbn; [by intros [= <-]| |done].
  destruct (omap _ response) as [|e errors] eqn:He; [|done]. intros [= <-]. cbn. f_equal. by apply IH.
Qed.

Lemma batch_ok_Err response errors :
  batch_ok response = Err errors → errors ≠ [] ∧ ∀ e, e ∈ errors ↔ inr e ∈ response.
Proof.
  unfold batch_ok. destruct (omap _ response) as [|e l] eqn:He; [done|]. intros [= <-]. split; [done|].
  intros x. rewrite <- He, list_elem_of_omap. split.
  - intros ([v|y] & Hin & Hy); [done|]. by injection Hy as ->.
  - intros Hin. by exists (inr x).
Qed.

Lemma batch_ok_no_panic response : batch_ok response ≠ Panic.
Proof. unfold batch_ok. by destruct (omap _ response). Qed.

Lemma decode_block_Ok `{HexLib} `{RpcLib} text b :
  decode_block text = Ok b ↔ ∃ d, hex_decode text = Some d ∧ block_deserialize d = Some b.
Proof.
  unfold decode_block. split.
  - intros (d & Hd%ok_or_Ok & Hb%ok_or_Ok)%bind_Ok. by exists d.
  - intros (d & -> & Hb). cbn. by rewrite Hb.
Qed.

(** * Properties *)

(** A batch is all or nothing: it gives the blocks of all answers, in order, when
    each of them is the hex form of an encoded block; the node's error messages when a
    call failed; an error when the request did; and otherwise says whether the first
    answer that cannot be read is no hex or no block. *)
Lemma fetch_blocks_outcome `{HexLib} `{RpcLib} block_hashes :
  match fetch_blocks_batch block_hashes with
  | Ok bs => ∃ texts, batch_request (get_block_batch block_hashes) = Some (map inl texts)
               ∧ Forall2 (λ text b, decode_block text = Ok b) texts bs
  | Err JsonRpc => batch_request (get_block_batch block_hashes) = None
  | Err (BatchJsonRpc errors) =>
      ∃ response, batch_request (get_block_batch block_hashes) = Some response
        ∧ errors ≠ [] ∧ ∀ e, e ∈ errors ↔ inr e ∈ response
  | Err e =>
      ∃ pre text post bs, batch_request (get_block_batch block_hashes) = Some (map inl (pre ++ text :: post))
        ∧ Forall2 (λ text b, decode_block text = Ok b) pre bs
        ∧ match hex_decode text with
          | None => e = SyncHex
          | Some d => block_deserialize d = None ∧ e = SyncDecode
          end
  | Panic => False
  end.
Proof.
  unfold fetch_blocks_batch. destruct (batch_request _) as [response|] eqn:Hr; cbn; [|done].
  destruct (batch_ok response) as [texts|errors|] eqn:Hok.
  - apply batch_ok_Ok in Hok as ->. destruct (collect_results decode_block texts) as [bs|e|] eqn:Hc.
    + exists texts. split; [done|]. by apply collect_results_Ok.
    + apply collect_results_Err in Hc as (pre & text & post & bs & -> & Hpre & He).
      unfold decode_block in He. destruct (hex_decode text) as [d|] eqn:Hh; cbn in He.
      * destruct (block_deserialize d) eqn:Hd; [done|]. injection He as <-. exists pre, text, post, bs. by rewrite Hh.
      * injection He as <-. exists pre, text, post, bs. by rewrite Hh.
    + pose proof (collect_results_not decode_block (λ _, True) texts) as Hn. rewrite Hc in Hn. apply Hn.
      intros text. unfold decode_block. destruct (hex_decode text) as [d|]; cbn; [|done]. by destruct (block_deserialize d).
  - exists response. split; [done|]. by apply batch_ok_Err.
  - by apply batch_ok_no_panic in Hok.
Qed.

(** The node answers a request for some of the blocks [bs] with encodings of them. *)
Definition serves_blocks `{TxLib} `{HexLib} `{RpcLib} (bs : list Block) : Prop :=
  ∀ l, l ≠ [] → (∀ b, b ∈ l → b ∈ bs) →
  ∃ texts, batch_request (get_block_batch (map hash_of l)) = Some (map inl texts)
    ∧ Forall2 (λ text b, decode_block text = Ok b) texts l.

(** The two clients make a node that serves its chain the one that [sync_to_tip]
    follows. *)
Lemma clients_follow `{TxLib} `{HexLib} `{RpcLib} `{RestLib} base_url bits_of getblockhash getblockheader_height chain bs :
  linked_headers (headers_of chain) → in_u 32 (len chain) →
  serves_headers base_url bits_of (headers_of chain) → serves_blocks bs →
  (∀ k hd, headers_of chain !! k = Some hd → getblockhash (Z.of_nat k) = Some (block_hash hd)) →
  (∀ hd, last (headers_of chain) = Some hd → getblockheader_height (block_hash hd) = Some (len (headers_of chain) - 1)) →
  @node_follows _ (node_of_clients base_url getblockhash getblockheader_height) chain bs.
Proof.
  intros Hl Hu Hh Hb Hhash Hheight. split; [done| | |done].
  - unfold node_of_clients. by eapply rest_headers_honest.
  - intros l Hne Hin. cbn. unfold fetch_blocks_batch. destruct (Hb l Hne Hin) as (texts & -> & Ht).
    cbn. rewrite batch_ok_results. by apply collect_results_Ok.
Qed.

(** C4: One call of the driver's [sync_to_tip], through the clients of the node's two
    interfaces, takes a validator from any chain [l1 ++ common] to the node's chain
    [l2 ++ common], headers first: against a server that answers the REST requests for
    headers and the batched RPC requests for blocks from that chain, and with any
    block-file sync that keeps its contract on the headers then stored, it ends with
    the databases of the node's chain; or at a rejected block, reported as such, with
    the blocks below it connected (save those a failed block-file sync lost); or
    cancelled between batches, with the databases of its old chain or of a part of the
    node's.  It always ends, with no other error; a panic of the
    validation of a block is not excluded. *)
Theorem sync_through_clients
    `{HashLib} `{ScriptLib} `{TxLib} `{TaprootLib} `{P2mrLib} `{PqcLib} `{HexLib} `{RpcLib} `{RestLib}
    v trace clock cancelled fuel from_dir db evs l1 l2 common base_url bits_of getblockhash getblockheader_height :
  (∀ hd, 0 < header_work hd) → db_inv db (l1 ++ common) → diverge l1 l2 →
  linked_headers (headers_of (l2 ++ common)) → in_u 32 (len (l2 ++ common)) →
  serves_headers base_url bits_of (headers_of (l2 ++ common)) → serves_blocks (rev l2) →
  (∀ k hd, headers_of (l2 ++ common) !! k = Some hd → getblockhash (Z.of_nat k) = Some (block_hash hd)) →
  (∀ hd, last (headers_of (l2 ++ common)) = Some hd →
     getblockheader_height (block_hash hd) = Some (len (headers_of (l2 ++ common)) - 1)) →
  no_clash (block_hashes db) (headers_of (l2 ++ common)) → l2 ++ common ≠ [] → blocks_ok common (rev l2) →
  (∀ f hdrs, from_dir = Some f → connectable hdrs common (rev l2) → file_sync_spec f (rev l2) common hdrs) →
  (33 ≤ fuel)%nat → (length l1 + length l2 + length common < fuel)%nat →
  match @enforcer_sync_to_tip _ _ _ _ _ _ (node_of_clients base_url getblockhash getblockheader_height)
          v trace clock cancelled fuel from_dir (tip_hash (l2 ++ common)) (db, evs) with
  | (Ok (Some _), (db', _)) => db_inv db' (l2 ++ common)
  | (Err (SyncInvalidBlock bh e), (db', _)) =>
      ∃ pre lost b post, rev l2 = pre ++ lost ++ b :: post ∧ bh = block_hash (header b)
        ∧ is_fatal e = false ∧ db_inv db' (rev pre ++ common) ∧ (lost ≠ [] → from_dir ≠ None)
  | (Err (SyncOther e), (db', _)) =>
      e = Shutdown ∧ (db_inv db' (l1 ++ common) ∨ ∃ pre post, rev l2 = pre ++ post ∧ db_inv db' (rev pre ++ common))
  | (Ok None, _) => False
  | (Panic, _) => True
  end.
Proof.
  intros Hw Hinv Hdiv Hl Hu Hh Hb Hhash Hheight Hnc Hne Hok Hfile Hfuel Hlen.
  eapply sync_to_tip_follows_node; [done..| |done|done|done|done|done|done]. by eapply clients_follow.
Qed.

(** * Witnesses *)

(** The chain of the headers [ex_h0] and [ex_h1]; a block's text is the number of its
    header's time. *)
Definition ex_low : Block := mkBlock ex_h0 [ex_cb 1 []].
Definition ex_top : Block := mkBlock ex_h1 [ex_cb 2 []].
Definition toy_text_hex : HexLib :=
  {| hex_encode b := string_of_list_byte b; hex_decode s := if String.eqb s "zz" then None else Some (list_byte_of_string s) |}.
Definition toy_rpc : RpcLib := {|
  hash_to_string h := show (le_decode (take 4 h));
  batch_request calls :=
    Some (map (λ c, if String.eqb (block_hash_param c) "9" then inr (list_byte_of_string "Block not found")
                    else inl (if String.eqb (block_hash_param c) "8" then "zz" else block_hash_param c))%string calls);
  block_deserialize d :=
    if bool_decide (d = list_byte_of_string "1") then Some ex_low
    else if bool_decide (d = list_byte_of_string "2") then Some ex_top else None
|}.

Lemma ex_serves_blocks : @serves_blocks toy_tx toy_text_hex toy_rpc [ex_low; ex_top].
Proof.
  intros l _ Hl. exists (map (λ b, show (time (header b))) l). split.
  - cbn [batch_request toy_rpc]. f_equal. unfold get_block_batch. rewrite !map_map. apply map_ext_in.
    intros b Hb%list_elem_of_In. apply Hl, elem_of_cons in Hb as [->|Hb%list_elem_of_singleton]; [|subst b]; reflexivity.
  - induction l as [|b l IH]; [constructor|]. constructor; [|apply IH; intros b' Hb'; apply Hl; by right].
    specialize (Hl b ltac:(by left)). apply elem_of_cons in Hl as [->|Hl%list_elem_of_singleton]; [|subst b]; vm_compute; reflexivity.
Qed.

Lemma ex_linked : @linked_headers toy_tx (headers_of [ex_top; ex_low]).
Proof.
  split.
  - intros hd [= <-]. reflexivity.
  - intros [|[|k]] hd hd' Hk Hk'; cbn in Hk, Hk'; simplify_eq. reflexivity.
  - apply (bool_decide_eq_true_1 _). vm_compute. reflexivity.
  - intros [|[|k]] hd Hk; cbn in Hk; simplify_eq; vm_compute; discriminate.
Qed.

(** A batch of a block, an unknown block and a broken answer, and one without the
    unknown block. *)
Lemma fetch_blocks_examples :
  let ask l := @fetch_blocks_batch toy_text_hex toy_rpc (map (λ n, le_bytes 4 n) l) in
  ask [2; 1] = Ok [ex_top; ex_low] ∧ ask [1; 9; 8] = Err (BatchJsonRpc [list_byte_of_string "Block not found"])
  ∧ ask [1; 8; 3] = Err SyncHex ∧ ask [1; 3; 8] = Err SyncDecode.
Proof. vm_compute. repeat split; reflexivity. Qed.

Definition ex_client_sync : outcome SyncToTipError (option unit) * task_state :=
  @enforcer_sync_to_tip toy_hash toy_script toy_tx toy_taproot toy_p2mr toy_pqc
    (@node_of_clients toy_text_hex toy_rpc toy_rest (200, ""%string)
       (λ k, @block_hash toy_tx <$> nth_error [ex_h0; ex_h1] (Z.to_nat k)) (λ _, Some 1))
    ex_handler true (λ _, []) (λ _, false) 40 None (@block_hash toy_tx ex_h1) (dbs_empty, []).

(** A fresh validator. *)
Lemma sync_through_clients_witness :
  ex_client_sync.1 = Ok (Some tt) ∧ @db_inv toy_tx ex_client_sync.2.1 [ex_top; ex_low].
Proof.
  assert (ex_client_sync.1 = Ok (Some tt)) as Hrun by (vm_compute; reflexivity). split; [exact Hrun|].
  assert (@no_clash toy_tx (block_hashes dbs_empty) (headers_of ([ex_top; ex_low] ++ []))) as Hnc.
  { intros k hd hd' _ Hhd. discriminate Hhd. }
  assert (@blocks_ok toy_tx [] (rev [ex_top; ex_low])) as Hok.
  { split; [|split; [|exact I]]; apply block_ok_dec; vm_compute; reflexivity. }
  assert (@diverge toy_tx [] [ex_top; ex_low]) as Hdiv by (intros b1 b2 Hb; discriminate Hb).
  pose proof (@sync_through_clients toy_hash toy_script toy_tx toy_taproot toy_p2mr toy_pqc toy_text_hex toy_rpc toy_rest
    ex_handler true (λ _, []) (λ _, false) 40 None dbs_empty [] [] [ex_top; ex_low] [] (200, ""%string) show
    (λ k, @block_hash toy_tx <$> nth_error [ex_h0; ex_h1] (Z.to_nat k)) (λ _, Some 1)
    toy_work_pos db_inv_empty Hdiv ex_linked ltac:(vm_compute; split; [discriminate|reflexivity]) ex_serves_headers ex_serves_blocks
    ltac:(intros [|[|k]] hd Hk; [injection Hk as <-; reflexivity..|destruct k; discriminate])
    ltac:(intros hd Hl; reflexivity) Hnc ltac:(discriminate) Hok (λ f hdrs Hf, False_ind _ (None_ne_Some f Hf))
    ltac:(lia) ltac:(cbn; lia)) as Hs.
  change (@tip_hash toy_tx ([ex_top; ex_low] ++ [])) with (@block_hash toy_tx ex_h1) in Hs.
  fold ex_client_sync in Hs. destruct ex_client_sync as [o [db' evs]]. cbn in Hrun. subst o. exact Hs.
Defined.
