(* ===== verification/AppSync.v ===== *)
(** The bounded syncs of the enforcer binary (`app/main.rs`): `--exit-after-sync`,
    `--verify-consensus-state` and `--freeze-at-height` drive one sync to a height,
    write the summary of the state they reach, and compare it with a reference. *)
From Stdlib Require Import ZArith Lia Strings.Byte Strings.String Strings.Ascii.
From stdpp Require Import base list gmap sorting strings.
From S2P Require Import Prelude Text Bitcoin Concrete Limits P2mrOutput Spend P2mrUtxo Pqc Dbs.
From S2P Require Import ParseBlockFiles BlockHandler Sync SyncHeaders SyncBlocks Enforcer NodeSync SyncState.
#[local] Open Scope Z_scope.

(** [show_block_hash]: [Display] of a block hash; [from_json]: [serde_json] on a
    summary. *)
Class AppLib := {
  show_block_hash : BlockHash → string;
  from_json : string → option SyncStateSummary
}.

Inductive AppSyncError :=
| AlreadyPast (current goal : Z)
| ResolveBlock (goal : Z)
| SyncFailed (e : SyncToTipError)
| SummaryFailed (e : SummaryError)
| WriteSummary
| LoadReference
| InvalidReference
| VerificationFailed (report : string).


(** Which height to sync to, and what to compare the state with. *)
Definition exit_goal (verify_reference : option SyncStateSummary) (exit_after_sync : option Z) (info_blocks : Z) :
    Z * option SyncStateSummary :=
  match verify_reference with
  | Some reference => (ss_tip_height reference, Some reference)
  | None =>
      let exit_after_sync := default 0 exit_after_sync in
      (if negb (exit_after_sync =? 0) then exit_after_sync else info_blocks, None)
  end.

(** The number of blocks the log reports, a [u64]. *)
Definition blocks_synced (start_height final_height : option Z) : Z :=
  match start_height, final_height with
  | Some start, Some finish => Z.max 0 (finish - start)
  | None, Some finish => finish + 1
  | _, None => 0
  end.

Section app_sync.
Context `{HashLib} `{ScriptLib} `{TxLib} `{TaprootLib} `{P2mrLib} `{PqcLib} `{NodeRpc} `{SummaryLib} `{AppLib}.

(** [try_get_block_height().ok().flatten()] *)
Definition height_or_none (db : Dbs) : option Z :=
  match try_get_block_height db with Ok o => o | _ => None end.

(** [None] in the result: out of fuel. *)
Definition sync_to_height (v : BlockHandler) (trace : bool) (clock : Block → list Z) (cancelled : cancel_poll → bool)
    (fuel : nat) (from_dir : option block_file_sync) (goal_height : Z) :
    st task_state AppSyncError (option (option Z)) :=
  s ← st_get;
  let start_height := height_or_none s.1 in
  _ ← st_lift (match start_height with
               | Some current => reject_if (goal_height <? current) (AlreadyPast current goal_height)
               | None => Ok tt
               end);
  target_hash ← st_lift (ok_or (getblockhash goal_height) (ResolveBlock goal_height));
  r ← st_map_err SyncFailed (enforcer_sync_to_tip v trace clock cancelled fuel from_dir target_hash);
  s ← st_get;
  let final_height := height_or_none s.1 in
  mret (_ ← r; Some final_height).

(** ** The summary file and the reference *)

(** [writable]: whether the file can be written. *)
Definition report_sync_state (hash_order : PrevoutMap → list (OutPoint * TxOut)) (writable : bool) (db : Dbs) :
    st (option string) AppSyncError SyncStateSummary :=
  summary ← st_lift (map_err SummaryFailed (sync_state_summary hash_order db));
  let json := summary_to_json summary in
  _ ← st_lift (reject_if (negb writable) WriteSummary);
  _ ← st_put (Some (json ++ newline)%string);
  mret summary.

(** [contents] is [None] when the file cannot be read. *)
Definition load_consensus_reference (contents : option string) : outcome AppSyncError SyncStateSummary :=
  contents ← ok_or contents LoadReference;
  ok_or (from_json contents) InvalidReference.

(** The first 12 characters. *)
Definition short (v : string) : string := substring 0 12 v.

Definition verification_report (produced reference : SyncStateSummary) : string :=
  ("consensus-state verification FAILED" ++ newline
   ++ "  current   tip:    height " ++ show (ss_tip_height produced) ++ " (" ++ short (show_block_hash (ss_tip_hash produced)) ++ "..)" ++ newline
   ++ "  reference tip:    height " ++ show (ss_tip_height reference) ++ " (" ++ short (show_block_hash (ss_tip_hash reference)) ++ "..)" ++ newline
   ++ "  current   digest: " ++ short (digest produced) ++ ".." ++ newline
   ++ "  reference digest: " ++ short (digest reference) ++ "..")%string.

#[global] Instance utxo_summary_eq_dec : EqDecision P2mrUtxoSummary.
Proof. solve_decision. Defined.
#[global] Instance summary_eq_dec : EqDecision SyncStateSummary.
Proof. solve_decision. Defined.

Definition verify_against_reference (produced : SyncStateSummary) (reference : option SyncStateSummary) :
    outcome AppSyncError unit :=
  match reference with
  | None => Ok tt
  | Some reference =>
      if bool_decide (produced = reference) then Ok tt
      else Err (VerificationFailed (verification_report produced reference))
  end.

(** ** The tasks *)

Abbreviation app_state := (task_state * option string)%type.

(** [None] in the result: out of fuel. *)
Definition run_exit_after_sync (v : BlockHandler) (trace : bool) (clock : Block → list Z) (cancelled : cancel_poll → bool)
    (fuel : nat) (from_dir : option block_file_sync) (hash_order : PrevoutMap → list (OutPoint * TxOut))
    (writable : bool) (goal_height : Z) (reference : option SyncStateSummary) :
    st app_state AppSyncError (option unit) := λ s,
  match sync_to_height v trace clock cancelled fuel from_dir goal_height s.1 with
  | (Ok None, t) => (Ok None, (t, s.2))
  | (Ok (Some _), t) =>
      match report_sync_state hash_order writable t.1 s.2 with
      | (Ok produced, f) =>
          (_ ← verify_against_reference produced reference; Ok (Some tt), (t, f))
      | (Err e, f) => (Err e, (t, f))
      | (Panic, f) => (Panic, (t, f))
      end
  | (Err e, t) => (Err e, (t, s.2))
  | (Panic, t) => (Panic, (t, s.2))
  end.

(** It then waits for the shutdown. *)
Definition run_freeze_at_height (v : BlockHandler) (trace : bool) (clock : Block → list Z) (cancelled : cancel_poll → bool)
    (fuel : nat) (from_dir : option block_file_sync) (goal_height : Z) :
    st task_state AppSyncError (option unit) :=
  r ← sync_to_height v trace clock cancelled fuel from_dir goal_height;
  mret (_ ← r; Some tt).
End app_sync.

(** * Lemmas *)
Section lemmas.
Context `{HashLib} `{ScriptLib} `{TxLib} `{TaprootLib} `{P2mrLib} `{PqcLib} `{NodeRpc} `{SummaryLib} `{AppLib}.

Lemma height_or_none_inv db chain : db_inv db chain →
  height_or_none db = if decide (chain = []) then None else Some (len chain - 1).
Proof.
  intros Hinv. unfold height_or_none, try_get_block_height. rewrite (inv_tip _ _ Hinv).
  destruct chain as [|b chain]; [done|]. cbn [tip_of head fmap option_fmap option_map].
  rewrite (tip_height _ _ _ Hinv). cbn [ok_or mbind outcome_bind]. rewrite decide_False by done.
  rewrite len_cons. f_equal. lia.
Qed.

(** The node's hash at the goal height is its tip's. *)
Lemma goal_hash chain bs : node_follows chain bs → chain ≠ [] → getblockhash (len chain - 1) = Some (tip_hash chain).
Proof.
  intros [_ Hh _ _] Hne. destruct chain as [|b chain]; [done|].
  pose proof (hh_hash _ Hh (length chain) (header b)) as Hk. rewrite len_cons.
  replace (1 + len chain - 1) with (Z.of_nat (length chain)) by (unfold len; lia). apply Hk.
  rewrite headers_of_cons, lookup_app_r, length_headers_of, Nat.sub_diag by (rewrite length_headers_of; lia). done.
Qed.

(** Past the goal, or one sync to the node's block at it. *)
Lemma sync_to_height_eq v trace clock cancelled fuel from_dir db evs held chain bs :
  db_inv db held → node_follows chain bs → chain ≠ [] →
  sync_to_height v trace clock cancelled fuel from_dir (len chain - 1) (db, evs)
  = if decide (len chain < len held) then (Err (AlreadyPast (len held - 1) (len chain - 1)), (db, evs))
    else (r ← st_map_err SyncFailed (enforcer_sync_to_tip v trace clock cancelled fuel from_dir (tip_hash chain));
          s ← st_get; mret (_ ← r; Some (height_or_none s.1))) (db, evs).
Proof.
  intros Hinv Hnode Hne. unfold sync_to_height.
  unfold mbind at 1, st_bind at 1, st_get at 1. cbn [fst]. rewrite (height_or_none_inv db held Hinv).
  unfold mbind at 1, st_bind at 1, st_lift at 1.
  destruct (decide (held = [])) as [->|Hh].
  - rewrite decide_False by (rewrite len_nil; pose proof (len_nonneg chain); lia).
    unfold mbind at 1, st_bind at 1, st_lift at 1. by rewrite (goal_hash chain bs).
  - unfold reject_if. destruct (Z.ltb_spec (len chain - 1) (len held - 1)).
    + by rewrite decide_True by lia.
    + rewrite decide_False by lia. unfold mbind at 1, st_bind at 1, st_lift at 1. by rewrite (goal_hash chain bs).
Qed.

Lemma report_Ok hash_order writable db chain f :
  db_inv db chain → chain ≠ [] →
  ∃ s, sync_state_summary hash_order db = Ok s
    ∧ report_sync_state hash_order writable db f
      = if writable then (Ok s, Some (summary_to_json s ++ newline)%string) else (Err WriteSummary, f).
Proof.
  intros Hinv Hne. rewrite (summary_of_chain hash_order db chain) by done. eexists. split; [done|].
  unfold report_sync_state. rewrite (summary_of_chain hash_order db chain) by done. by destruct writable.
Qed.
End lemmas.

(** * Properties *)

(** C5: `--verify-consensus-state`, end to end.  The state file of a validator on [chainR]
    is the reference; a validator on [l1 ++ common] is run, with the goal that [exit_goal]
    takes from the reference, against a node whose chain up to the reference's height is
    [l2 ++ common].  It ends in one of five ways: it is past that height already, and does
    nothing; it is stopped, with its old chain or a part of the node's, and only if the
    token was cancelled; it meets a block that it rejects, reported with the reason, having
    connected the blocks below it (save those a failed block-file sync lost); or it
    reaches the node's chain, writes the summary of it, and then succeeds exactly when
    the two validators agree on the tip and the P2MR set, the file being then the
    reference file, and fails the verification otherwise.  As in the sync itself, a panic
    is not excluded. *)
Theorem exit_after_sync_verifies
    `{HashLib} `{ScriptLib} `{TxLib} `{TaprootLib} `{P2mrLib} `{PqcLib} `{NodeRpc} `{SummaryLib} `{AppLib}
    v trace clock cancelled fuel from_dir order orderR db evs f dbR chainR fileR reference exit_after_sync info_blocks
    l1 l2 common :
  (∀ hd, 0 < header_work hd) → db_inv db (l1 ++ common) → diverge l1 l2 →
  node_follows (l2 ++ common) (rev l2) → no_clash (block_hashes db) (headers_of (l2 ++ common)) →
  l2 ++ common ≠ [] → blocks_ok common (rev l2) →
  (∀ g hdrs, from_dir = Some g → connectable hdrs common (rev l2) → file_sync_spec g (rev l2) common hdrs) →
  (33 ≤ fuel)%nat → (length l1 + length l2 + length common < fuel)%nat →
  (∀ m, order m ≡ₚ map_to_list m) → (∀ m, orderR m ≡ₚ map_to_list m) → (∀ a b, hex_encode a = hex_encode b → a = b) →
  db_inv dbR chainR → len (l2 ++ common) = len chainR →
  (∀ s, sync_state_summary orderR dbR = Ok s → from_json (summary_to_json s ++ newline) = Some s) →
  (report_sync_state orderR true dbR None).2 = fileR → load_consensus_reference fileR = Ok reference →
  let '(goal_height, verify) := exit_goal (Some reference) exit_after_sync info_blocks in
  let agree := tip_of (l2 ++ common) = tip_of chainR ∧ utxos_of (l2 ++ common) = utxos_of chainR in
  match run_exit_after_sync v trace clock cancelled fuel from_dir order true goal_height verify ((db, evs), f) with
  | (Ok (Some _), ((db', _), f')) =>
      db_inv db' (l2 ++ common) ∧ agree ∧ f' = fileR
  | (Err (VerificationFailed _), ((db', _), f')) =>
      db_inv db' (l2 ++ common) ∧ ¬ agree
      ∧ ∃ s, sync_state_summary order db' = Ok s ∧ s ≠ reference ∧ f' = Some (summary_to_json s ++ newline)%string
  | (Err (AlreadyPast _ _), (t, f')) => len (l2 ++ common) < len (l1 ++ common) ∧ t = (db, evs) ∧ f' = f
  | (Err (SyncFailed (SyncOther e)), ((db', _), f')) =>
      e = Shutdown ∧ (∃ poll, cancelled poll = true) ∧ f' = f
      ∧ (db_inv db' (l1 ++ common) ∨ ∃ pre post, rev l2 = pre ++ post ∧ db_inv db' (rev pre ++ common))
  | (Err (SyncFailed (SyncInvalidBlock bh e)), ((db', _), f')) =>
      f' = f ∧ ∃ pre lost b post, rev l2 = pre ++ lost ++ b :: post ∧ bh = block_hash (header b)
        ∧ is_fatal e = false ∧ db_inv db' (rev pre ++ common) ∧ (lost ≠ [] → from_dir ≠ None)
  | (Panic, _) => True
  | _ => False
  end.
Proof.
  intros Hw Hinv Hdiv Hnode Hnc Hne Hok Hfile Hfuel Hlen Ho HoR Hhex HinvR HlenR Hjson HfileR Hload.
  assert (chainR ≠ []) as HneR.
  { intros ->. rewrite len_nil in HlenR. by apply len_zero_nil in HlenR. }
  destruct (report_Ok orderR true dbR _ None HinvR HneR) as (sR & HsR & Hrep).
  rewrite Hrep in HfileR. cbn [snd] in HfileR.
  assert (sR = reference) as ->.
  { rewrite <- HfileR in Hload. cbn in Hload. rewrite (Hjson sR HsR) in Hload. cbn in Hload. congruence. }
  assert (ss_tip_height reference = len (l2 ++ common) - 1) as Hgoal.
  { rewrite (summary_of_chain orderR dbR chainR HinvR HneR) in HsR. injection HsR as <-. cbn. lia. }
  cbn [exit_goal]. rewrite Hgoal. unfold run_exit_after_sync. cbn [fst snd].
  rewrite (sync_to_height_eq v trace clock cancelled fuel from_dir db evs _ _ _ Hinv Hnode Hne).
  destruct (decide (len (l2 ++ common) < len (l1 ++ common))) as [|_]; [done|].
  pose proof (sync_to_tip_outcome (with_extra v ∅) trace clock cancelled fuel from_dir db evs l1 l2 common
    Hw Hinv Hdiv Hnode Hnc Hne Hok (map_Forall_empty _) Hfile Hfuel Hlen) as Hout.
  unfold enforcer_sync_to_tip. unfold mbind at 1, st_bind at 1, st_map_err at 1. unfold mbind at 1, st_bind at 1, st_map_err.
  destruct (sync_to_tip _ _ _ _ _ _ _ _) as [[[[[bh e]|]|]|e|] [db' evs']]; cbn [tip_sync_outcome sync_outcome map_err] in *; try done.
  - destruct Hout as (pre & lost & b & post & Hl & -> & He & Hp & Hlost). cbn. split; [done|].
    exists pre, lost, b, post. split_and!; try done. intros Hl'. by apply Hlost.
  - rewrite rev_involutive in Hout. cbn [st_lift mret st_ret]. unfold mbind at 1, st_bind at 1, st_get.
    cbn [map_err]. unfold mret, st_ret. cbn [fst snd mbind option_bind].
    destruct (summaries_equal order orderR db' dbR _ _ Ho HoR Hhex Hout HinvR Hne HneR) as (s & sR' & Hs & HsR' & Hiff).
    assert (sR' = reference) as -> by congruence.
    destruct (report_Ok order true db' _ f Hout Hne) as (s' & Hs' & ->). assert (s' = s) as -> by congruence.
    unfold verify_against_reference. destruct (bool_decide_reflect (s = reference)) as [He|Hn].
    + cbn. subst s. split; [done|]. split; [|done]. by destruct (proj1 Hiff eq_refl) as (? & ? & ?).
    + cbn. split; [done|]. split; [|by exists s]. intros [? ?]. apply Hn. by apply Hiff.
  - destruct Hout as (-> & Hstop & Hp). cbn. by split.
Qed.

(** * Witnesses *)
Definition ex_summary (db : Dbs) : SyncStateSummary :=
  match @sync_state_summary toy_summary map_to_list db with Ok s => s | _ => mkSummary [] 0 [] end.
Definition ex_json (db : Dbs) : string := (@summary_to_json toy_summary (ex_summary db) ++ newline)%string.
Definition toy_app : AppLib := {|
  show_block_hash h := show (len h);
  from_json j := if String.eqb j (ex_json ex_db2) then Some (ex_summary ex_db2)
                 else if String.eqb j (ex_json ex_db1) then Some (ex_summary ex_db1) else None
|}.

(** A validator at the first of two blocks, verified against the state files of one
    at the second, and of one at the block that forks from it. *)
Definition ex_verify (reference : SyncStateSummary) :=
  let '(goal_height, verify) := exit_goal (Some reference) None 7 in
  @run_exit_after_sync toy_hash toy_script toy_tx toy_taproot toy_p2mr toy_pqc (ex_two_node ex_block1) toy_summary
    toy_app ex_handler true (λ _, []) (λ _, false) 40 None map_to_list true goal_height verify ((ex_db1, []), None).

Lemma Ok_inj {E A} (a b : A) : @Ok E A a = Ok b → a = b.
Proof. by intros [= ->]. Qed.

Lemma exit_after_sync_verifies_witness :
  (ex_verify (ex_summary ex_db2)).1 = Ok (Some tt) ∧ @db_inv toy_tx (ex_verify (ex_summary ex_db2)).2.1.1 [ex_block1; ex_block0]
  ∧ ∃ report, (ex_verify (ex_summary ex_sync.2.1)).1 = Err (VerificationFailed report).
Proof.
  pose proof (@exit_after_sync_verifies toy_hash toy_script toy_tx toy_taproot toy_p2mr toy_pqc
    (ex_two_node ex_block1) toy_summary toy_app ex_handler true (λ _, []) (λ _, false) 40 None map_to_list map_to_list
    ex_db1 [] None) as Hv.
  assert ((ex_verify (ex_summary ex_db2)).1 = Ok (Some tt)) as Hrun by (vm_compute; reflexivity).
  split; [exact Hrun|]. split; [|eexists; vm_compute; reflexivity].
  specialize (Hv ex_db2 [ex_block1; ex_block0] (Some (ex_json ex_db2)) (ex_summary ex_db2) None 7 [] [ex_block1] [ex_block0]
    toy_work_pos ex_inv1).
  assert (@diverge toy_tx [] [ex_block1]) as Hdiv by (intros b1 b2 Hb; discriminate Hb).
  assert (@no_clash toy_tx (block_hashes ex_db1) (headers_of ([ex_block1] ++ [ex_block0]))) as Hnc.
  { apply ex_two_no_clash; vm_compute; reflexivity. }
  assert (@blocks_ok toy_tx [ex_block0] (rev [ex_block1])) as Hok.
  { split; [|exact I]. apply block_ok_dec; vm_compute; reflexivity. }
  assert (@sync_state_summary toy_summary map_to_list ex_db2 = Ok (ex_summary ex_db2)) as Hs by (vm_compute; reflexivity).
  assert (∀ s, @sync_state_summary toy_summary map_to_list ex_db2 = Ok s →
            @from_json toy_app (@summary_to_json toy_summary s ++ newline) = Some s) as Hjson.
  { intros s Hs'. rewrite <-(Ok_inj _ _ (eq_trans (eq_sym Hs) Hs')). vm_compute. reflexivity. }
  specialize (Hv Hdiv (ex_two_follows ex_block1 [ex_block1] (or_intror eq_refl) ltac:(intros b ->%list_elem_of_singleton; by left)) Hnc
    ltac:(discriminate) Hok (λ f hdrs Hf, False_ind _ (None_ne_Some f Hf)) ltac:(lia) ltac:(cbn; lia)
    (λ m, reflexivity _) (λ m, reflexivity _) toy_hex_inj ex_inv2 eq_refl Hjson
    ltac:(vm_compute; reflexivity) ltac:(vm_compute; reflexivity)).
  unfold ex_verify in Hrun |- *. destruct (exit_goal _ _ _) as [goal verify]. cbv zeta in Hv.
  destruct (run_exit_after_sync _ _ _ _ _ _ _ _ _ _ _) as [o [[db' evs'] f']]. cbn in Hrun. subst o. apply Hv.
Defined.
