(* ===== verification/ServerWallet.v ===== *)
(** The wallet gRPC service (`server/wallet/grpc.rs`): the status codes of the
    wallet's errors (`wallet/error.rs`), the requests that are checked before the
    wallet is called, and the messages that are read back by other requests
    (`proto.rs`). *)
From Stdlib Require Import ZArith Lia Strings.Byte Strings.String.
From stdpp Require Import base list gmap sorting strings.
From S2P Require Import Prelude Bitcoin Rpc Concrete Limits Schemes Spend P2mrUtxo Pqc Dbs BlockHandler Sync Enforcer.
From S2P Require Import Signer P2mrStore BlockProducer WalletP2mr SeedStore WalletSync WalletTx Server.
#[local] Open Scope Z_scope.

(** ** Status codes

    [StatusBuilder::new] of an error is [Unknown]; a transparent variant has the code
    of its source. *)

Definition read_seed_builder (e : ReadSeedError) : ErrorCode := Unknown.
#[global] Instance read_seed_status : ToStatus ReadSeedError := read_seed_builder.
Definition encrypt_builder (e : EncryptError) : ErrorCode := Unknown.
#[global] Instance encrypt_status : ToStatus EncryptError := encrypt_builder.
Definition init_mnemonic_builder (e : InitMnemonicError) : ErrorCode := Unknown.
#[global] Instance init_mnemonic_status : ToStatus InitMnemonicError := init_mnemonic_builder.

Definition create_wallet_builder (e : CreateWalletError) : ErrorCode :=
  match e with
  | CreateEncrypt e => builder e
  | FetchBirthdayHeight e => builder e
  | GenerateMnemonic | CreateInsertSeed _ => Unknown
  | CreateInit e => builder e
  | WalletAlreadyExists => StatusAlreadyExists
  end.
#[global] Instance create_wallet_status : ToStatus CreateWalletError := create_wallet_builder.

Definition unlock_builder (e : UnlockError) : ErrorCode :=
  match e with
  | UnlockInit e => builder e
  | NotEncrypted => Unknown
  | UnlockReadSeed e => builder e
  | AlreadyUnlocked => StatusAlreadyExists
  | WalletNotFound => NotFound
  | InvalidPassword => InvalidArgument
  end.
#[global] Instance unlock_status : ToStatus UnlockError := unlock_builder.

Definition list_transactions_builder (e : ListTransactionsError) : ErrorCode := Unknown.
#[global] Instance list_transactions_status : ToStatus ListTransactionsError := list_transactions_builder.

Definition create_psbt_builder (e : CreatePsbtError) : ErrorCode :=
  match e with
  | UnknownUTXO _ => InvalidArgument
  | PsbtNotUnlocked | CreateTx | PsbtScript => Unknown
  end.
#[global] Instance create_psbt_status : ToStatus CreatePsbtError := create_psbt_builder.
Definition sign_transaction_builder (e : SignTransactionError) : ErrorCode := Unknown.
#[global] Instance sign_transaction_status : ToStatus SignTransactionError := sign_transaction_builder.

Definition send_transaction_builder (e : SendTransactionError) : ErrorCode :=
  match e with
  | SendCreatePsbt e => builder e
  | SendSign e => builder e
  | BroadcastTx _ | NonstandardTxNotSupported | SendNotUnlocked | SendPersistence => Unknown
  end.
#[global] Instance send_transaction_status : ToStatus SendTransactionError := send_transaction_builder.

Definition new_address_builder (e : NewAddressError) : ErrorCode := Unknown.
#[global] Instance new_address_status : ToStatus NewAddressError := new_address_builder.
Definition p2mr_store_builder (e : P2mrStoreError) : ErrorCode := Unknown.
#[global] Instance p2mr_store_status : ToStatus P2mrStoreError := p2mr_store_builder.
Definition spend_p2mr_builder (e : SpendP2mrError) : ErrorCode := Unknown.
#[global] Instance spend_p2mr_status : ToStatus SpendP2mrError := spend_p2mr_builder.

(** [map_err(|err| err.builder().to_connect_error())] *)
Definition or_status {S E A} `{ToStatus E} (m : st S E A) : st S ConnectError A := st_map_err to_connect_error m.

(** ** Creating and unlocking *)

(** [str::split_whitespace], on UTF-8: the encodings of the characters of Unicode's
    [White_Space]. *)
Definition WHITE_SPACE : list bytes :=
  [[x09]; [x0a]; [x0b]; [x0c]; [x0d]; [x20]; [xc2; x85]; [xc2; xa0]; [xe1; x9a; x80]]
  ++ map (λ b, [xe2; x80; b])
       [x80; x81; x82; x83; x84; x85; x86; x87; x88; x89; x8a; xa8; xa9; xaf]
  ++ [[xe2; x81; x9f]; [xe3; x80; x80]].

(** The length of the white space a text starts with. *)
Definition white_space_len (l : bytes) : nat :=
  match List.find (λ w, bool_decide (take (length w) l = w)) WHITE_SPACE with
  | Some w => length w
  | None => 0
  end.

(** [cur]: the word read so far, reversed; [skip]: bytes of white space left. *)
Fixpoint split_loop (skip : nat) (cur : bytes) (l : bytes) : list bytes :=
  let flush := match cur with [] => [] | _ => [rev cur] end in
  match l with
  | [] => flush
  | b :: r =>
      match skip with
      | S k => split_loop k cur r
      | O => match white_space_len l with
             | O => split_loop 0 (b :: cur) r
             | S k => flush ++ split_loop k [] r
             end
      end
  end.
Definition split_whitespace (s : bytes) : list bytes := split_loop 0 [] s.

(** [slice::join] *)
Fixpoint join (sep : bytes) (l : list bytes) : bytes :=
  match l with
  | [] => []
  | [w] => w
  | w :: l => w ++ sep ++ join sep l
  end.

Record CreateWalletRequest := mkCreateWallet {
  mnemonic_words : list bytes;
  mnemonic_path : string;
  cw_password : string
}.

Section keys_service.
Context `{SeedLib}.

(** What the request asks for: the mnemonic and the password.  [read_to_string]: the
    file of a path. *)
Definition create_wallet_args (read_to_string : string → option bytes) (request : CreateWalletRequest) :
    outcome ConnectError (option Mnemonic * option string) :=
  _ ← reject_if (negb (bool_decide (mnemonic_words request = [])) && negb (mnemonic_path request =? "")%string)
        invalid_argument;
  words ← (if negb (mnemonic_path request =? "")%string then
             read ← ok_or (read_to_string (mnemonic_path request)) invalid_argument;
             Ok (split_whitespace read)
           else Ok (mnemonic_words request));
  _ ← reject_if (negb (bool_decide (words = [])) && negb (len words =? 12)) invalid_argument;
  parsed ← (match words with
            | [] => Ok None
            | _ => m ← ok_or (mnemonic_from_str (string_of_list_byte (join [x20] words))) invalid_argument;
                   Ok (Some m)
            end);
  Ok (parsed, if (cw_password request =? "")%string then None else Some (cw_password request)).

(** The arguments are those of [create_new_wallet]. *)
Definition create_wallet (read_to_string : string → option bytes) (fresh : option Mnemonic) (blocks : ClientError + Z)
    (salt : option bytes) (nonce : bytes) (fault : seed_fault) (now : Z) (network : Network)
    (request : CreateWalletRequest) : st keys ConnectError unit :=
  k ← st_get;
  _ ← st_lift (reject_if (bool_decide (is_Some (bitcoin_wallet k))) (mkConnectError StatusAlreadyExists None));
  '(parsed, password) ← st_lift (create_wallet_args read_to_string request);
  or_status (create_new_wallet fresh blocks salt nonce fault now network parsed password).

Definition unlock_wallet (readable : bool) (network : Network) (password : string) : st keys ConnectError unit :=
  or_status (unlock_existing_wallet readable network password).
End keys_service.

(** ** Addresses

    [bitcoin::Address]: parsed for any network, then required to be on one; two
    texts may be the same address.  [fee_rate_from_sat_per_vb] is [None] on overflow.
    A [Txid] is encoded as its 32 bytes. *)
Class AddressLib := {
  UncheckedAddress : Type;
  Address : Type;
  Address_eq_dec :: EqDecision Address;
  address_from_str : string → option UncheckedAddress;
  require_network : UncheckedAddress → Network → option Address;
  address_script : Address → Script;
  script_to_string : Script → string;
  fee_rate_from_sat_per_vb : Z → option Z;
  txid_codec : ConsensusType Txid;
  tx_codec : ConsensusType Transaction
}.
Class AddressLaws `{AddressLib} `{CodecLib} : Prop := {
  txid_as_array t :
    len t = 32 → @deserialize _ (array_codec 32) (@serialize _ txid_codec t) = Some t
}.

(** ** Sending *)

Record RequiredUtxo := mkRequiredUtxo { ru_txid : option ReverseHex; ru_vout : Z }.
Inductive Fee := SatPerVbyte (sat_per_vbyte : Z) | Sats (sats : Z).
Record FeeRate := mkFeeRate { fee : option Fee }.

(** [sr_destinations]: a map, in the order it is iterated in. *)
Record SendTransactionRequest := mkSendRequest {
  sr_destinations : list (string * Z);
  sr_fee_rate : option FeeRate;
  sr_op_return_message : option Hex;
  sr_required_utxos : list RequiredUtxo;
  sr_drain_wallet_to : option string
}.

(** [HashMap::insert]; [from_iter] of pairs. *)
Fixpoint hash_insert {K V} `{EqDecision K} (k : K) (v : V) (l : list (K * V)) : list (K * V) :=
  match l with
  | [] => [(k, v)]
  | (k', v') :: l => if decide (k = k') then (k', v) :: l else (k', v') :: hash_insert k v l
  end.
Definition hash_collect {K V} `{EqDecision K} (l : list (K * V)) : list (K * V) :=
  fold_left (λ m '(k, v), hash_insert k v m) l [].

Section wallet_service.
Context `{HexLib} `{CodecLib} `{AddressLib} `{DustLib}.
Variable network : Network.
(** [u64::to_string] *)
Variable show : Z → string.
(** The order a [HashMap] of addresses is iterated in. *)
Variable hash_order : list (Address * Amount) → list (Address * Amount).

Definition parse_checked_address (address : string) : outcome ConnectError Address :=
  unchecked ← ok_or (address_from_str address) invalid_argument;
  ok_or (require_network unchecked network) invalid_argument.

Definition required_utxo (utxo : RequiredUtxo) : outcome ConnectError OutPoint :=
  txid ← required "cusf.mainchain.v1.SendTransactionRequest.RequiredUtxo" "txid" (ru_txid utxo)
           (λ h, @decode_reverse_hex _ _ txid_codec h "cusf.mainchain.v1.SendTransactionRequest.RequiredUtxo" "txid");
  Ok (mkOutPoint txid (ru_vout utxo)).

Definition validate_destination (d : string * Z) : outcome ConnectError (Address * Amount) :=
  let '(address, amount) := d in
  address ← parse_checked_address address;
  _ ← reject_if (is_dust amount (address_script address)) invalid_argument;
  Ok (address, amount).

(** [TryFrom<Fee>] with its error, and [TryFrom<FeeRate>], for [FeePolicy]. *)
Definition fee_try_from (f : Fee) : outcome Z FeePolicy :=
  match f with
  | SatPerVbyte sats_per_vbyte =>
      rate ← ok_or (fee_rate_from_sat_per_vb sats_per_vbyte) sats_per_vbyte;
      Ok (Rate rate)
  | Sats sats => Ok (Absolute sats)
  end.
Definition fee_rate_try_from (fee_rate : FeeRate) : outcome ProtoError FeePolicy :=
  let message := "cusf.mainchain.v1.SendTransactionRequest.FeeRate"%string in
  fee ← ok_or (fee fee_rate) (MissingField "fee" message);
  map_err (λ sats_per_vbyte, InvalidFieldValue "fee" message (show sats_per_vbyte)) (fee_try_from fee).

(** What the request asks [send_wallet_transaction] for. *)
Definition send_transaction_args (request : SendTransactionRequest) :
    outcome ConnectError (list (Address * Amount) * CreateTransactionParams) :=
  required_utxos ← collect_results required_utxo (sr_required_utxos request);
  validated ← collect_results validate_destination (sr_destinations request);
  let destinations := hash_collect validated in
  _ ← reject_if (bool_decide (destinations = []) && negb (bool_decide (is_Some (sr_op_return_message request)))
                 && bool_decide (sr_drain_wallet_to request = None)) invalid_argument;
  drain ← (match sr_drain_wallet_to request with
           | Some s => a ← parse_checked_address s; Ok (Some a)
           | None => Ok None
           end);
  _ ← reject_if (bool_decide (is_Some drain) && negb (bool_decide (required_utxos = []))) invalid_argument;
  fee_policy ← (match sr_fee_rate request with
                | Some fee_rate => p ← map_err from_proto_error (fee_rate_try_from fee_rate); Ok (Some p)
                | None => Ok None
                end);
  op_return_message ← (match sr_op_return_message request with
                       | Some m =>
                           b ← decode_status (decode_hex Some m "cusf.mainchain.v1.SendTransactionRequest" "op_return_message");
                           Ok (Some b)
                       | None => Ok None
                       end);
  Ok (destinations, mkParams fee_policy op_return_message required_utxos (address_script <$> drain)).

Definition send_transaction `{TxLib} `{BdkLib} `{!BdkTxLib} (env : sync_env) (send_raw : Transaction → Txid + ClientError)
    (now : Z) (request : SendTransactionRequest) : st Bdk ConnectError (option ReverseHex) :=
  '(destinations, params) ← st_lift (send_transaction_args request);
  txid ← or_status (send_wallet_transaction env send_raw now
                      (map (λ p, (address_script p.1, p.2)) (hash_order destinations)) params);
  mret (Some (@encode_reverse_hex _ _ txid_codec txid)).
End wallet_service.

(** ** P2MR *)

Inductive ProtoP2mrScheme :=
| P2MR_SCHEME_UNSPECIFIED | P2MR_SCHEME_SCHNORR | P2MR_SCHEME_MLDSA | P2MR_SCHEME_SLH | P2MR_SCHEME_HYBRID_EC_SLH.

(** [None]: a value the enum does not have. *)
Definition map_scheme (message : string) (scheme : option ProtoP2mrScheme) : outcome ConnectError P2mrScheme :=
  match scheme with
  | Some P2MR_SCHEME_SCHNORR => Ok SchemeSchnorr
  | Some P2MR_SCHEME_MLDSA => Ok SchemeMldsa
  | Some P2MR_SCHEME_SLH => Ok SchemeSlh
  | Some P2MR_SCHEME_HYBRID_EC_SLH => Ok HybridEcSlh
  | _ => Err (invalid_field_value message "scheme" "unspecified")
  end.

Definition store_scheme_to_proto (scheme : P2mrScheme) : ProtoP2mrScheme :=
  match scheme with
  | SchemeSchnorr => P2MR_SCHEME_SCHNORR
  | SchemeMldsa => P2MR_SCHEME_MLDSA
  | SchemeSlh => P2MR_SCHEME_SLH
  | HybridEcSlh => P2MR_SCHEME_HYBRID_EC_SLH
  end.

Record CreateP2mrAddressResponse := mkCreateP2mr {
  cp_address : bytes;
  cp_script_pubkey : option ConsensusHex;
  cp_scheme : ProtoP2mrScheme
}.
Record ListedOutput := mkListedOutput {
  lo_txid : option ReverseHex;
  lo_vout : Z;
  lo_value_sats : Z;
  lo_script_pubkey : option ConsensusHex;
  lo_is_mine : bool
}.
Record SpendP2mrRequest := mkSpendRequest {
  sp_txid : option ReverseHex;
  sp_vout : Z;
  sp_destination : string;
  sp_amount_sats : Z;
  sp_fee_sats : option Z
}.
Record SpendP2mrResponse := mkSpendResponse {
  sr_txid : option ReverseHex;
  sr_change_address : bytes;
  sr_change_sats : Z
}.

Section p2mr_service.
Context `{HexLib} `{CodecLib} `{AddressLib}.
Context `{HashLib} `{ScriptLib} `{TxLib} `{TaprootLib} `{P2mrLib} `{PqcLib}.
Context `{SignLib} `{StoreLib} `{OrderMapLib} `{TemplateLib} `{GetBlockV3} `{DustLib}.
Variable network : Network.

Definition encode_txid (txid : Txid) : ReverseHex := @encode_reverse_hex _ _ txid_codec txid.

Definition create_p2mr_address (rng : nat → option bytes) (readable : bool) (fault : write_fault)
    (scheme : option ProtoP2mrScheme) : st wallet ConnectError CreateP2mrAddressResponse :=
  store_scheme ← st_lift (map_scheme "cusf.mainchain.v1.CreateP2mrAddressRequest" scheme);
  record ← or_status (WalletP2mr.create_p2mr_address rng readable fault store_scheme);
  address ← st_lift (map_err to_connect_error (address record network));
  mret (mkCreateP2mr address (Some (@encode_consensus_hex _ vec_codec (rec_script_pubkey record)))
          (store_scheme_to_proto store_scheme)).

Definition listed_output (o : P2mrOutput) : ListedOutput :=
  mkListedOutput (Some (encode_txid (txid (po_outpoint o)))) (vout (po_outpoint o)) (value (po_txout o))
    (Some (@encode_consensus_hex _ vec_codec (script_pubkey (po_txout o)))) (WalletP2mr.is_mine o).

Definition list_p2mr_outputs (readable : bool) (w : wallet) : outcome ConnectError (list ListedOutput) :=
  outputs ← map_err to_connect_error (WalletP2mr.list_p2mr_outputs readable w);
  Ok (map listed_output outputs).

(** The transaction id is decoded as an array of 32 bytes. *)
Definition spend_p2mr_args (request : SpendP2mrRequest) : outcome ConnectError (OutPoint * Script) :=
  let message := "cusf.mainchain.v1.SpendP2mrRequest"%string in
  txid ← required message "txid" (sp_txid request) (λ h, @decode_reverse_hex _ _ (array_codec 32) h message "txid");
  let outpoint := mkOutPoint txid (sp_vout request) in
  unchecked ← ok_or (address_from_str (sp_destination request)) invalid_argument;
  destination ← ok_or (require_network unchecked network) invalid_argument;
  Ok (outpoint, address_script destination).

Definition spend_p2mr (rng : nat → option bytes) (readable : bool) (fault : write_fault) (request : SpendP2mrRequest) :
    st wallet ConnectError SpendP2mrResponse :=
  '(outpoint, dest_spk) ← st_lift (spend_p2mr_args request);
  out ← or_status (WalletP2mr.spend_p2mr rng readable fault network outpoint dest_spk (sp_amount_sats request)
                     (sp_fee_sats request));
  mret (mkSpendResponse (Some (encode_txid (spend_txid out))) (default [] (change_address out)) (change_sats out)).
End p2mr_service.

(** ** What the bdk wallet holds

    [bdk_wallet]'s balances, unspent outputs and public descriptors. *)
Record LocalOutput := mkLocalOutput {
  local_outpoint : OutPoint;
  local_txout : TxOut;
  local_keychain : KeychainKind;
  local_position : ChainPosition;
  local_transitively : option Txid
}.
Class BdkReadLib `{BdkTxLib} := {
  confirmed : Balance → Amount;
  balance_total : Balance → Amount;
  list_unspent : Bdk → list LocalOutput;
  public_descriptor : Bdk → KeychainKind → string;
  bdk_network : Bdk → Network
}.

(** [wallet_transaction::Confirmation]; timestamps are in seconds. *)
Record Confirmation := mkConfirmation {
  cf_height : Z;
  cf_block_hash : option ReverseHex;
  cf_timestamp : option Z
}.
Record WalletTransaction := mkWalletTransaction {
  wm_txid : option ReverseHex;
  wm_raw_transaction : option ConsensusHex;
  wm_fee_sats : Z;
  wm_received_sats : Z;
  wm_sent_sats : Z;
  wm_confirmation_info : Confirmation
}.
Record UnspentOutput := mkUnspentOutput {
  uo_txid : option ReverseHex;
  uo_vout : Z;
  uo_value_sats : Z;
  uo_is_internal : bool;
  uo_is_confirmed : bool;
  uo_confirmed_at_block : Z;
  uo_confirmed_at_time : option Z;
  uo_confirmed_transitively : option ReverseHex;
  uo_unconfirmed_last_seen : option Z;
  uo_address : option string
}.
Record WalletInfo := mkWalletInfo {
  keychain_descriptors : list (KeychainKind * string);
  info_network : Network;
  transaction_count : Z;
  unspent_output_count : Z;
  info_tip : BlockHash * Z
}.
Record GetInfoResponse := mkInfoResponse {
  gi_network : Network;
  gi_transaction_count : Z;
  gi_unspent_output_count : Z;
  gi_descriptors : list (string * string);
  gi_tip : Z * ReverseHex
}.

(** [as i64] *)
Definition to_timestamp (seconds : Z) : option Z := Some (wrap_i 64 seconds).

Section read_service.
Context `{HexLib} `{CodecLib} `{AddressLib} `{BdkReadLib}.
Variable env : sync_env.
(** [Address::from_script] on the network, as text. *)
Variable address_from_script : Script → option string.

Definition confirmation_from (chain_position : ChainPosition) : Confirmation :=
  match chain_position with
  | Confirmed confirmation_time height block =>
      mkConfirmation height (Some (@encode_reverse_hex _ _ hash_codec block)) (to_timestamp confirmation_time)
  | Unconfirmed last_seen => mkConfirmation 0 None (last_seen ≫= to_timestamp)
  end.

Definition wallet_transaction_from (tx : BDKWalletTransaction) : WalletTransaction :=
  mkWalletTransaction (Some (@encode_reverse_hex _ _ txid_codec (wt_txid tx)))
    (Some (@encode_consensus_hex _ tx_codec (wt_tx tx))) (wt_fee tx) (wt_received tx) (wt_sent tx)
    (confirmation_from (wt_chain_position tx)).

Definition list_transactions (get_raw_transaction : Txid → option string) (c : Bdk) :
    outcome ConnectError (list WalletTransaction) :=
  transactions ← map_err to_connect_error (list_wallet_transactions env get_raw_transaction c);
  Ok (map wallet_transaction_from transactions).

Definition create_new_address : st Bdk ConnectError string :=
  address ← or_status (get_new_address env);
  mret (script_to_string address).

(** [(confirmed_sats, pending_sats, has_synced)] *)
Definition get_balance (last_sync : option Z) (c : Bdk) : outcome ConnectError (Z * Z * bool) :=
  '(balance, has_synced) ← map_err (λ _, mkConnectError Unknown None) (get_wallet_balance env last_sync c);
  pending ← amount_sub (balance_total balance) (confirmed balance);
  Ok (confirmed balance, pending, has_synced).

Definition get_utxos (c : Bdk) : outcome unit (list LocalOutput) :=
  if unlocked env then Ok (list_unspent c) else Err tt.

Definition unspent_output_from (utxo : LocalOutput) : UnspentOutput :=
  let anchor := match local_position utxo with Confirmed t h _ => Some (t, h) | Unconfirmed _ => None end in
  mkUnspentOutput (Some (@encode_reverse_hex _ _ txid_codec (txid (local_outpoint utxo))))
    (vout (local_outpoint utxo)) (value (local_txout utxo))
    (bool_decide (local_keychain utxo = Internal))
    (bool_decide (is_Some anchor))
    (default 0 (snd <$> anchor))
    (anchor ≫= λ a, to_timestamp a.1)
    (match anchor with Some _ => @encode_reverse_hex _ _ txid_codec <$> local_transitively utxo | None => None end)
    (match local_position utxo with Unconfirmed last_seen => last_seen ≫= to_timestamp | Confirmed _ _ _ => None end)
    (address_from_script (script_pubkey (local_txout utxo))).

Definition list_unspent_outputs (c : Bdk) : outcome ConnectError (list UnspentOutput) :=
  bdk_utxos ← map_err (λ _, mkConnectError Unknown None) (get_utxos c);
  Ok (map unspent_output_from bdk_utxos).

Definition get_wallet_info (db : Dbs) (c : Bdk) : outcome unit WalletInfo :=
  if negb (unlocked env) then Err tt else
  Ok (mkWalletInfo (hash_collect (map (λ kind, (kind, public_descriptor c kind)) (keychains c)))
        (bdk_network c) (len (transactions c)) (len (list_unspent c)) (wallet_info_tip (chain_tip c) db)).

Definition get_info (db : Dbs) (c : Bdk) : outcome ConnectError GetInfoResponse :=
  info ← map_err (λ _, mkConnectError Unknown None) (get_wallet_info db c);
  Ok (mkInfoResponse (info_network info) (wrap_u 32 (transaction_count info)) (wrap_u 32 (unspent_output_count info))
        (map (λ '(kind, descriptor),
                (match (kind : KeychainKind) with External => "external" | Internal => "internal" end%string, descriptor))
             (keychain_descriptors info))
        ((info_tip info).2, @encode_reverse_hex _ _ hash_codec (info_tip info).1)).
End read_service.

(** * Lemmas *)

(** ** White space *)

(** No encoding of white space starts inside another one, and none is the start of
    another one. *)
Lemma white_space_heads :
  forallb (λ w, forallb (λ sp, bool_decide (w ≠ []) && match sp with b :: _ => negb (bool_decide (b ∈ tail w)) | [] => false end)
                  WHITE_SPACE) WHITE_SPACE = true.
Proof. vm_compute. reflexivity. Qed.
Lemma white_space_prefix_free :
  forallb (λ w, forallb (λ sp, bool_decide (take (length w) sp = w → w = sp)) WHITE_SPACE) WHITE_SPACE = true.
Proof. vm_compute. reflexivity. Qed.

Lemma white_space_nonempty w : w ∈ WHITE_SPACE → w ≠ [].
Proof.
  intros Hw%list_elem_of_In. pose proof (proj1 (forallb_forall _ _) white_space_heads w Hw) as Hh.
  pose proof (proj1 (forallb_forall _ _) Hh w Hw) as Hh'. cbn beta in Hh'.
  apply andb_prop in Hh' as [Hh' _]. by apply bool_decide_eq_true in Hh'.
Qed.

Lemma white_space_head w b sp : w ∈ WHITE_SPACE → b :: sp ∈ WHITE_SPACE → b ∉ tail w.
Proof.
  intros Hw%list_elem_of_In Hsp%list_elem_of_In.
  pose proof (proj1 (forallb_forall _ _) (proj1 (forallb_forall _ _) white_space_heads w Hw) _ Hsp) as Hh. cbn beta in Hh.
  apply andb_prop in Hh as [_ Hh]. by apply negb_true_iff, bool_decide_eq_false in Hh.
Qed.

Lemma white_space_take w sp : w ∈ WHITE_SPACE → sp ∈ WHITE_SPACE → take (length w) sp = w → w = sp.
Proof.
  intros Hw%list_elem_of_In Hsp%list_elem_of_In.
  pose proof (proj1 (forallb_forall _ _) (proj1 (forallb_forall _ _) white_space_prefix_free w Hw) _ Hsp) as Hh.
  by apply bool_decide_eq_true in Hh.
Qed.

#[local] Opaque WHITE_SPACE.

(** The length is that of the one encoding the text starts with. *)
Lemma white_space_len_case l :
  (white_space_len l = 0%nat ∧ ∀ w, w ∈ WHITE_SPACE → take (length w) l ≠ w)
  ∨ ∃ w, w ∈ WHITE_SPACE ∧ take (length w) l = w ∧ white_space_len l = length w.
Proof.
  unfold white_space_len. destruct (List.find _ _) as [w|] eqn:Hf.
  - right. apply find_some in Hf as [Hin Ht]. exists w. split; [by apply list_elem_of_In|].
    by apply bool_decide_eq_true in Ht.
  - left. split; [done|]. intros w Hw Ht. eapply find_none in Hf; [|by apply list_elem_of_In].
    by apply bool_decide_eq_false in Hf.
Qed.

Lemma white_space_len_app sp t : sp ∈ WHITE_SPACE → white_space_len (sp ++ t) = length sp.
Proof.
  intros Hsp. destruct (white_space_len_case (sp ++ t)) as [[_ Hn]|(w & Hw & Ht & ->)].
  - exfalso. apply (Hn sp Hsp). by rewrite take_app_length.
  - f_equal. destruct (decide (length w ≤ length sp)%nat) as [Hle|Hgt].
    + apply white_space_take; [done..|]. rewrite <-Ht at 2. by rewrite take_app_le.
    + symmetry. apply white_space_take; [done..|]. rewrite <-Ht, take_take, Nat.min_l by lia. by rewrite take_app_length.
Qed.

(** White space after a text does not make its last characters white space. *)
Lemma white_space_len_before x u sp t :
  white_space_len (x :: u) = 0%nat → sp ∈ WHITE_SPACE → white_space_len ((x :: u) ++ sp ++ t) = 0%nat.
Proof.
  intros Hz Hsp. destruct (white_space_len_case ((x :: u) ++ sp ++ t)) as [[-> _]|(w & Hw & Ht & _)]; [done|].
  destruct (white_space_len_case (x :: u)) as [[_ Hn]|(w' & Hw' & _ & Hl)].
  2: { apply white_space_nonempty in Hw'. rewrite Hz in Hl. destruct w'; [by destruct (Hw' eq_refl)|discriminate Hl]. }
  destruct (decide (length w ≤ length (x :: u))%nat) as [Hle|Hgt].
  - exfalso. apply (Hn w Hw). by rewrite take_app_le in Ht.
  - exfalso. destruct sp as [|b sp]; [exact (white_space_nonempty [] Hsp eq_refl)|].
    apply (white_space_head w b sp); [done..|]. apply list_elem_of_lookup_2 with (i := length u).
    rewrite <-Ht, lookup_tail, lookup_take_lt by (cbn in *; lia).
    change (S (length u)) with (length (x :: u)). rewrite lookup_app_r by lia. by rewrite Nat.sub_diag.
Qed.

(** ** [split_whitespace] *)

Lemma split_loop_skip k cur l r : length l = k → split_loop k cur (l ++ r) = split_loop 0 cur r.
Proof.
  revert l. induction k as [|k IH]; intros [|b l] Hl; try done.
  change ((b :: l) ++ r) with (b :: (l ++ r)). cbn [split_loop]. apply IH. cbn in Hl. lia.
Qed.

Lemma split_loop_white sp t cur :
  sp ∈ WHITE_SPACE → split_loop 0 cur (sp ++ t) = match cur with [] => [] | _ => [rev cur] end ++ split_loop 0 [] t.
Proof.
  intros Hsp. pose proof (white_space_len_app sp t Hsp) as Hl. destruct sp as [|b sp]; [exact (False_ind _ (white_space_nonempty [] Hsp eq_refl))|].
  change ((b :: sp) ++ t) with (b :: (sp ++ t)) in *. cbn [split_loop]. rewrite Hl. cbn [length].
  by rewrite (split_loop_skip (length sp) [] sp t).
Qed.

(** White space, and a word: text with none in it. *)
Definition white (s : bytes) : Prop := ∃ l, Forall (λ w, w ∈ WHITE_SPACE) l ∧ s = concat l.
Fixpoint no_white (u : bytes) : bool :=
  match u with [] => true | x :: u' => (white_space_len u =? 0)%nat && no_white u' end.

(** A text holds the words [ws], with white space before, between and after. *)
Inductive laid_out : list bytes → bytes → Prop :=
| laid_end s : white s → laid_out [] s
| laid_word s w ws t :
    white s → w ≠ [] → no_white w = true → laid_out ws t →
    (t = [] ∨ ∃ sp t', sp ∈ WHITE_SPACE ∧ t = sp ++ t') → laid_out (w :: ws) (s ++ w ++ t).

Lemma split_loop_whites s t : white s → split_loop 0 [] (s ++ t) = split_loop 0 [] t.
Proof.
  intros (l & Hl & ->). induction Hl as [|sp l Hsp _ IH]; [done|]. cbn [concat]. rewrite <-(assoc (++)).
  by rewrite split_loop_white.
Qed.

Lemma split_loop_word u cur t :
  no_white u = true → (t = [] ∨ ∃ sp t', sp ∈ WHITE_SPACE ∧ t = sp ++ t') →
  split_loop 0 cur (u ++ t) = split_loop 0 (rev u ++ cur) t.
Proof.
  intros Hu Ht. revert cur Hu. induction u as [|x u IH]; intros cur; [done|]. cbn [no_white].
  intros [Hz%Nat.eqb_eq Hu]%andb_prop.
  assert (white_space_len ((x :: u) ++ t) = 0%nat) as Hz'.
  { destruct Ht as [->|(sp & t' & Hsp & ->)]; [by rewrite app_nil_r|by apply white_space_len_before]. }
  change ((x :: u) ++ t) with (x :: (u ++ t)) in *. cbn [split_loop]. rewrite Hz', IH by done.
  cbn [rev]. by rewrite <-(assoc (++)).
Qed.

Lemma split_laid_out ws text : laid_out ws text → split_whitespace text = ws.
Proof.
  unfold split_whitespace. induction 1 as [s Hs|s w ws t Hs Hw Hn _ IH Ht].
  - rewrite <-(app_nil_r s), split_loop_whites by done. done.
  - rewrite split_loop_whites, split_loop_word by done. rewrite app_nil_r.
    assert (rev (rev w) = w) as Hr by apply rev_involutive.
    assert (∃ y l, rev w = y :: l) as (y & l & Hl).
    { destruct (rev w) as [|y l]; [|by exists y, l]. cbn in Hr. congruence. }
    destruct Ht as [->|(sp & t' & Hsp & ->)].
    + cbn [split_loop] in IH |- *. rewrite Hl, <-Hl, Hr. by rewrite <-IH.
    + rewrite split_loop_white by done. rewrite split_loop_white in IH by done. cbn [app] in IH.
      rewrite Hl, <-Hl, Hr, IH. done.
Qed.

(** ** Maps and results *)

Section hash_map.
Context {K V : Type} `{EqDecision K}.

Lemma hash_insert_fst (k : K) (v : V) l k' : k' ∈ (hash_insert k v l).*1 ↔ k' = k ∨ k' ∈ l.*1.
Proof.
  induction l as [|[k0 v0] l IH]; cbn; [set_solver|].
  destruct (decide (k = k0)) as [->|Hn]; cbn; rewrite ?elem_of_cons; [set_solver|]. rewrite IH. set_solver.
Qed.

Lemma hash_insert_NoDup (k : K) (v : V) l : NoDup l.*1 → NoDup (hash_insert k v l).*1.
Proof.
  induction l as [|[k0 v0] l IH]; cbn; [by constructor; [set_solver|]|]. intros [Hn Hl]%NoDup_cons.
  destruct (decide (k = k0)) as [->|Hk]; cbn; [by constructor|]. constructor; [|by apply IH].
  rewrite hash_insert_fst. intros [->|Hin]; done.
Qed.

Lemma hash_insert_new (k : K) (v : V) l : (k ∉ l.*1) → hash_insert k v l = l ++ [(k, v)].
Proof.
  induction l as [|[k0 v0] l IH]; cbn; [done|]. rewrite not_elem_of_cons. intros [Hk Hl].
  rewrite decide_False by done. by rewrite IH.
Qed.

Lemma hash_collect_spec (l m : list (K * V)) :
  NoDup m.*1 →
  NoDup (fold_left (λ m '(k, v), hash_insert k v m) l m).*1
  ∧ (∀ k, k ∈ (fold_left (λ m '(k, v), hash_insert k v m) l m).*1 ↔ k ∈ m.*1 ∨ k ∈ l.*1)
  ∧ (NoDup (m ++ l).*1 → fold_left (λ m '(k, v), hash_insert k v m) l m = m ++ l).
Proof.
  revert m. induction l as [|[k0 v0] l IH]; intros m Hm; cbn.
  - rewrite app_nil_r. split; [done|]. split; [set_solver|done].
  - destruct (IH (hash_insert k0 v0 m) (hash_insert_NoDup k0 v0 m Hm)) as (Hd & Hi & He). split; [done|]. split.
    + intros k. rewrite Hi, hash_insert_fst. set_solver.
    + intros Hn. assert (k0 ∉ m.*1) as Hk.
      { rewrite fmap_app in Hn. apply NoDup_app in Hn as (_ & Hdis & _). intros Hin. apply (Hdis k0 Hin). cbn. set_solver. }
      rewrite hash_insert_new in He by done. rewrite hash_insert_new by done.
      rewrite <-(assoc (++)) in He. cbn in He. by apply He.
Qed.
End hash_map.

(** ** Requests *)

(** A check of a request does not panic and its error is the client's. *)
Definition client_error {A} (o : outcome ConnectError A) : Prop :=
  match o with Ok _ => True | Err e => ce_code e = InvalidArgument | Panic => False end.

Lemma client_error_bind {A B} (m : outcome ConnectError A) (k : A → outcome ConnectError B) :
  client_error m → (∀ a, client_error (k a)) → client_error (m ≫= k).
Proof. intros Hm Hk. destruct m; [apply Hk|exact Hm..]. Qed.
Lemma client_error_ok_or {A} (o : option A) e : ce_code e = InvalidArgument → client_error (ok_or o e).
Proof. by destruct o. Qed.
Lemma client_error_reject_if b e : ce_code e = InvalidArgument → client_error (reject_if b e).
Proof. by destruct b. Qed.

Create HintDb client.
#[local] Hint Resolve client_error_ok_or client_error_reject_if : client.
#[local] Hint Extern 1 (ce_code _ = InvalidArgument) => reflexivity : client.
#[local] Hint Extern 1 (client_error (Ok _)) => exact I : client.
Ltac client :=
  repeat match goal with |- client_error (mbind _ _) => apply client_error_bind; [|intros ?] end; eauto with client.

Section send_args.
Context `{HexLib} `{CodecLib} `{AddressLib} `{DustLib} (network : Network) (show : Z → string).

Lemma required_client {A B} m f (field : option A) (decode : A → outcome ProtoError B) :
  (∀ a, decode a ≠ Panic) → client_error (required m f field decode).
Proof.
  intros Hd. unfold required. client. unfold decode_status. specialize (Hd a). by destruct (decode a).
Qed.

Lemma decode_reverse_hex_total `{ConsensusType T} h m f : @decode_reverse_hex _ T _ h m f ≠ Panic.
Proof.
  unfold decode_reverse_hex. destruct (reverse_hex h) as [s|]; [|done]. cbn. destruct (Rpc.hex_decode s); [|done]. cbn.
  by destruct (deserialize _).
Qed.

Lemma required_utxo_client u : client_error (required_utxo u).
Proof. unfold required_utxo. client. apply required_client. intros h. apply decode_reverse_hex_total. Qed.

Lemma parse_address_client s : client_error (parse_checked_address network s).
Proof. unfold parse_checked_address. client. Qed.

Lemma validate_destination_client d : client_error (validate_destination network d).
Proof. unfold validate_destination. destruct d as [s amount]. client. apply parse_address_client. Qed.

Lemma send_args_client request : client_error (send_transaction_args network show request).
Proof.
  unfold send_transaction_args. client.
  - apply (collect_results_not _ _ (sr_required_utxos request) required_utxo_client).
  - apply (collect_results_not _ _ (sr_destinations request) validate_destination_client).
  - destruct (sr_drain_wallet_to request); client. apply parse_address_client.
  - destruct (sr_fee_rate request) as [[[[r|sats]|]]|]; cbn; client. by destruct (fee_rate_from_sat_per_vb r).
  - destruct (sr_op_return_message request) as [[[text|]]|]; cbn; client. by destruct (Rpc.hex_decode text).
Qed.
End send_args.

Lemma validate_destination_Ok `{AddressLib} `{DustLib} network d p :
  validate_destination network d = Ok p →
  parse_checked_address network d.1 = Ok p.1 ∧ p.2 = d.2 ∧ is_dust p.2 (address_script p.1) = false.
Proof.
  destruct d as [s amount]. unfold validate_destination. intros Hd.
  apply bind_Ok in Hd as (a & Ha & Hd). apply bind_Ok in Hd as ([] & Hr & [= <-]). split_and!; [done..|].
  cbn. by destruct (is_dust amount (address_script a)).
Qed.

(** A transaction id in an answer, read as the array of a request. *)
Lemma encoded_txid `{HexLib} `{!HexLaws} `{CodecLib} `{AddressLib} `{!AddressLaws} t m f :
  len t = 32 → @decode_reverse_hex _ _ (array_codec 32) (encode_txid t) m f = Ok t.
Proof.
  intros Ht. unfold decode_reverse_hex, encode_txid, encode_reverse_hex. cbn [reverse_hex ok_or mbind outcome_bind].
  rewrite hex_roundtrip. cbn [ok_or mbind outcome_bind]. by rewrite rev_involutive, txid_as_array.
Qed.

Section listing.
Context `{HashLib} `{ScriptLib} `{TxLib} `{TaprootLib} `{P2mrLib} `{PqcLib}.
Context `{SignLib} `{StoreLib} `{OrderMapLib} `{TemplateLib} `{GetBlockV3} `{DustLib}.

Lemma list_loop_elem readable fs utxos acc out o :
  for_each (λ '(outpoint, txout) out,
    found ← get_by_spk readable fs (script_pubkey txout);
    Ok (out ++ [mkP2mrOutput outpoint txout (bool_decide (is_Some found))])) utxos acc = Ok out →
  o ∈ out →
  o ∈ acc ∨ (po_outpoint o, po_txout o) ∈ utxos ∧ ∃ found,
    get_by_spk readable fs (script_pubkey (po_txout o)) = Ok found ∧ WalletP2mr.is_mine o = bool_decide (is_Some found).
Proof.
  revert acc. induction utxos as [|[op txo] utxos IH]; intros acc; cbn.
  - intros [= <-]. by left.
  - intros Hf Ho. apply bind_Ok in Hf as (acc' & Hg & Hf). apply bind_Ok in Hg as (found & Hg & [= <-]).
    destruct (IH _ Hf Ho) as [Hin|(Hin & Hrest)]; [|right; split; [by apply list_elem_of_further|done]].
    apply elem_of_app in Hin as [Hin|Hin]; [by left|]. apply list_elem_of_singleton in Hin as ->. right. cbn.
    split; [apply list_elem_of_here|]. by exists found.
Qed.

Lemma listed_elem readable w out o :
  WalletP2mr.list_p2mr_outputs readable w = Ok out → o ∈ out →
  load_map (w_db w) !! po_outpoint o = Some (po_txout o) ∧ ∃ found,
    get_by_spk readable (w_store w) (script_pubkey (po_txout o)) = Ok found
    ∧ WalletP2mr.is_mine o = bool_decide (is_Some found).
Proof.
  unfold WalletP2mr.list_p2mr_outputs. intros Hl Ho. apply bind_Ok in Hl as (out' & Hf & [= <-]).
  rewrite merge_sort_Permutation in Ho. destruct (list_loop_elem _ _ _ _ _ _ Hf Ho) as [Hin|(Hin & Hg)]; [set_solver|].
  split; [|done]. by apply elem_of_map_to_list in Hin.
Qed.

(** A computation whose error, if any, is one of [P]. *)
Definition errors_in {S E A} (P : E → Prop) (r : outcome E A * S) : Prop :=
  match r.1 with Err e => P e | _ => True end.

Lemma errors_in_bind {S E A B} (P : E → Prop) (m : st S E A) (k : A → st S E B) s :
  errors_in P (m s) → (∀ a s', errors_in P (k a s')) → errors_in P ((m ≫= k) s).
Proof. unfold mbind, st_bind, errors_in at 1. destruct (m s) as [[a|e|] s']; intros Hm Hk; [apply Hk|exact Hm|done]. Qed.
Lemma errors_in_lift {S E A} (P : E → Prop) (m : outcome E A) (s : S) :
  (∀ e, m = Err e → P e) → errors_in P (st_lift m s).
Proof. unfold errors_in, st_lift. cbn. destruct m; auto. Qed.
Lemma errors_in_map_err {S E F A} (P : F → Prop) (f : E → F) (m : st S E A) s :
  (∀ e, P (f e)) → errors_in P (st_map_err f m s).
Proof. intros Hf. unfold st_map_err, errors_in. destruct (m s) as [[a|e|] s']; cbn; auto. Qed.

(** The errors that say the output is not there, or not the wallet's. *)
Definition about_output (e : SpendP2mrError) : Prop :=
  match e with UnknownUtxo _ | NotOurs _ _ => True | _ => False end.

Lemma add_change_errors rng readable fault net r o amount fee change outs w :
  errors_in (λ e, ¬ about_output e) (add_change rng readable fault net r o amount fee change outs w).
Proof.
  unfold add_change. destruct (0 <? change); [|exact I]. destruct (is_dust change _); [exact I|].
  apply errors_in_bind; [by apply errors_in_map_err; intros e []|]. intros cr w1.
  apply errors_in_bind; [|intros ? ?; exact I]. apply errors_in_lift.
  intros e He. apply map_err_Err in He as (e' & _ & ->). by intros [].
Qed.

(** What [spend_p2mr] answers about the output itself. *)
Lemma spend_p2mr_not_ours rng readable fault net op o dest amount fee w :
  load_map (w_db w) !! op = Some o → get_by_spk readable (w_store w) (script_pubkey o) = Ok None →
  WalletP2mr.spend_p2mr rng readable fault net op dest amount fee w = (Err (NotOurs op (script_pubkey o)), w).
Proof.
  intros Ho Hg. unfold WalletP2mr.spend_p2mr, get_p2mr_utxo, mbind, st_bind, st_get, st_lift. rewrite Ho. cbn. by rewrite Hg.
Qed.

Lemma spend_p2mr_ours rng readable fault net op o r dest amount fee w :
  load_map (w_db w) !! op = Some o → get_by_spk readable (w_store w) (script_pubkey o) = Ok (Some r) →
  errors_in (λ e, ¬ about_output e) (WalletP2mr.spend_p2mr rng readable fault net op dest amount fee w).
Proof.
  intros Ho Hg. unfold WalletP2mr.spend_p2mr, get_p2mr_utxo. unfold mbind at 1, st_bind at 1, st_get. cbn beta iota.
  rewrite (st_lift_bind _ o) by (by rewrite Ho). rewrite (st_lift_bind _ (Some r)) by (by rewrite Hg).
  rewrite (st_lift_bind _ r) by done.
  apply errors_in_bind; [apply errors_in_lift; intros e; destruct (is_dust amount dest); [by intros [= <-] []|done]|].
  intros ? w1. apply errors_in_bind; [apply errors_in_lift; intros e; destruct (spend_total _ _ _); [done|by intros [= <-] []]|].
  intros t w2. apply errors_in_bind; [apply add_change_errors|]. intros [[[outs ca] cs] af] w3.
  apply errors_in_bind.
  - apply errors_in_lift. intros e He. apply map_err_Err in He as (e' & _ & ->). by intros [].
  - intros tx w4. apply errors_in_bind; [|intros ? ?; exact I]. unfold on_producer. by destruct (enqueue_p2mr_spend tx af (w_producer w4)).
Qed.
End listing.

(** * Properties *)

(** A mnemonic file counts as the words in it: [CreateWallet] with the path of a
    file answers, and leaves the wallet, as it does with the words of the file in
    the request, however white space, of Unicode's, is laid out around them.  A file
    with no word in it counts as no mnemonic, so a fresh one is generated. *)
Lemma mnemonic_file_equiv `{SeedLib} read_to_string fresh blocks salt nonce fault now network password
    path text ws k :
  path ≠ ""%string → read_to_string path = Some text → laid_out ws text →
  create_wallet read_to_string fresh blocks salt nonce fault now network (mkCreateWallet [] path password) k
  = create_wallet read_to_string fresh blocks salt nonce fault now network (mkCreateWallet ws "" password) k.
Proof.
  intros Hp Hr Hl. unfold create_wallet, create_wallet_args.
  cbn [mnemonic_words mnemonic_path cw_password]. rewrite (proj2 (String.eqb_neq path "") Hp), Hr.
  cbn [negb String.eqb andb ok_or bool_decide]. rewrite andb_false_r. cbn [reject_if mbind outcome_bind].
  by rewrite (split_laid_out ws text).
Qed.

(** What [SendTransaction] checks before the wallet is called.  The checks never
    panic; a refused request is the client's error and changes nothing.  In an
    accepted one every destination is an address of the network with an amount
    above dust, the required outputs are not combined with a drain, something is
    asked for, and the wallet is asked to pay each address once: all the requested
    payments when their addresses are different, whatever their texts. *)
Lemma send_request_checked `{HexLib} `{CodecLib} `{AddressLib} `{DustLib} `{TxLib} `{BdkTxLib} network show request :
  match send_transaction_args network show request with
  | Ok (destinations, params) =>
      (∃ validated,
         Forall2 (λ d p, parse_checked_address network d.1 = Ok p.1 ∧ p.2 = d.2 ∧ is_dust p.2 (address_script p.1) = false)
           (sr_destinations request) validated
         ∧ (∀ a, a ∈ destinations.*1 ↔ a ∈ validated.*1) ∧ NoDup destinations.*1
         ∧ (NoDup validated.*1 → destinations = validated))
      ∧ Forall2 (λ u op, required_utxo u = Ok op) (sr_required_utxos request) (required_utxos params)
      ∧ (drain_wallet_to params = None ∨ required_utxos params = [])
      ∧ (destinations ≠ [] ∨ is_Some (sr_op_return_message request) ∨ is_Some (sr_drain_wallet_to request))
  | Err e =>
      ce_code e = InvalidArgument
      ∧ ∀ hash_order env send_raw now c,
          send_transaction network show hash_order env send_raw now request c = (Err e, c)
  | Panic => False
  end.
Proof.
  destruct (send_transaction_args network show request) as [[destinations params]|e|] eqn:Ha.
  - unfold send_transaction_args in Ha.
    apply bind_Ok in Ha as (utxos & Hu%collect_results_Ok & Ha). apply bind_Ok in Ha as (validated & Hv%collect_results_Ok & Ha).
    apply bind_Ok in Ha as ([] & Hany & Ha). apply bind_Ok in Ha as (drain & Hdrain & Ha).
    apply bind_Ok in Ha as ([] & Hboth & Ha). apply bind_Ok in Ha as (fee_policy & _ & Ha).
    apply bind_Ok in Ha as (msg & _ & [= <- <-]). cbn [required_utxos drain_wallet_to].
    destruct (hash_collect_spec validated [] (NoDup_nil_2)) as (Hd & Hi & He).
    split_and!.
    + exists validated. split_and!.
      * eapply Forall2_impl; [exact Hv|]. intros [s a] p Hp. apply validate_destination_Ok in Hp. exact Hp.
      * intros a. unfold hash_collect. rewrite Hi. set_solver.
      * exact Hd.
      * intros Hn. by apply He.
    + exact Hu.
    + destruct drain as [a|]; [|by left]. right. cbn in Hboth. by destruct utxos.
    + destruct (hash_collect validated) as [|p l]; [|by left]. right. cbn in Hany.
      destruct (sr_op_return_message request); [by left; eexists|]. right. destruct (sr_drain_wallet_to request); [by eexists|done].
  - pose proof (send_args_client network show request) as Hc. rewrite Ha in Hc. split; [exact Hc|].
    intros. unfold send_transaction. rewrite Ha. done.
  - pose proof (send_args_client network show request) as Hc. by rewrite Ha in Hc.
Qed.

(** The outputs [ListP2mrOutputs] names are those [SpendP2mr] spends.  An output
    of the list is one of the validator's P2MR set with the listed amount, and a
    request that names it by the listed id spends it; it is refused as not the
    wallet's exactly when it is listed as such, and never as unknown. *)
Lemma listed_output_spendable `{HexLib} `{!HexLaws} `{CodecLib} `{AddressLib} `{!AddressLaws}
    `{HashLib} `{ScriptLib} `{TxLib} `{TaprootLib} `{P2mrLib} `{PqcLib}
    `{SignLib} `{StoreLib} `{OrderMapLib} `{DustLib}
    network rng readable fault destination a amount fee w outs lo :
  (∀ op o, load_map (w_db w) !! op = Some o → len (txid op) = 32) →
  list_p2mr_outputs readable w = Ok outs → lo ∈ outs → parse_checked_address network destination = Ok a →
  let request := mkSpendRequest (lo_txid lo) (lo_vout lo) destination amount fee in
  ∃ op o, load_map (w_db w) !! op = Some o ∧ value o = lo_value_sats lo
    ∧ spend_p2mr_args network request = Ok (op, address_script a)
    ∧ (lo_is_mine lo = false → spend_p2mr network rng readable fault request w = (Err (mkConnectError Unknown None), w))
    ∧ (lo_is_mine lo = true →
       errors_in (λ e, ¬ about_output e) (WalletP2mr.spend_p2mr rng readable fault network op (address_script a) amount fee w)).
Proof.
  intros Hlen Hl Hin Ha. apply bind_Ok in Hl as (outputs & Hl%map_err_Ok & [= <-]).
  apply list_elem_of_fmap in Hin as (o & -> & Hin). destruct (listed_elem _ _ _ _ Hl Hin) as (Ho & found & Hg & Hm).
  exists (po_outpoint o), (po_txout o). cbn [listed_output lo_value_sats lo_is_mine lo_txid lo_vout].
  assert (spend_p2mr_args network
    (mkSpendRequest (Some (encode_txid (txid (po_outpoint o)))) (vout (po_outpoint o)) destination amount fee)
    = Ok (po_outpoint o, address_script a)) as Hargs.
  { apply bind_Ok in Ha as (u & Hu%ok_or_Ok & Hn%ok_or_Ok). unfold spend_p2mr_args, required.
    cbn [sp_txid sp_vout sp_destination ok_or mbind outcome_bind]. unfold decode_status.
    rewrite encoded_txid by by eapply Hlen. cbn [map_err mbind outcome_bind]. rewrite Hu. cbn. rewrite Hn. cbn.
    by destruct (po_outpoint o). }
  split_and!; [done|done|exact Hargs| |].
  - intros Hf. unfold spend_p2mr. rewrite (st_lift_bind _ _ _ _ Hargs). cbn [sp_amount_sats sp_fee_sats].
    rewrite Hm in Hf. apply bool_decide_eq_false in Hf. destruct found; [by destruct Hf|].
    unfold or_status, mbind at 1, st_bind at 1, st_map_err.
    by rewrite (spend_p2mr_not_ours _ _ _ _ _ _ _ _ _ _ Ho Hg).
  - intros Ht. rewrite Hm in Ht. apply bool_decide_eq_true in Ht as [r ->]. by eapply spend_p2mr_ours.
Qed.

(** * Witnesses *)
#[local] Transparent WHITE_SPACE.

Lemma ex_white w : In w WHITE_SPACE → white w.
Proof. intros Hw%list_elem_of_In. exists [w]. split; [by apply Forall_singleton|]. cbn. by rewrite app_nil_r. Qed.

Definition ex_file (text : bytes) (path : string) : option bytes :=
  if (path =? "words.txt")%string then Some text else None.
Definition ex_create (text : bytes) (request : CreateWalletRequest) :=
  @create_wallet toy_seed (ex_file text) (Some ex_mnemonic) (inr 7) (Some [x09]) ex_nonce SeedNoFault 5 Regtest request
    (@mkKeys toy_seed (mkSeedFs None None) None None).

(** A file of white space makes a fresh wallet; two words, between an ideographic
    space and a line feed, are refused. *)
Lemma mnemonic_file_equiv_witness :
  (ex_create [x0a] (mkCreateWallet [] "words.txt" ex_password)).1 = Ok tt
  ∧ ex_create [xe3; x80; x80; x61; x20; x0a; x62] (mkCreateWallet [] "words.txt" ex_password)
    = ex_create [] (mkCreateWallet [[x61]; [x62]] "" ex_password)
  ∧ (ex_create [] (mkCreateWallet [[x61]; [x62]] "" ex_password)).1 = Err invalid_argument.
Proof.
  assert (white [x0a]) as Hnl by (apply ex_white; vm_compute; tauto).
  split; [|split].
  - unfold ex_create. rewrite (@mnemonic_file_equiv toy_seed _ _ _ _ _ _ _ _ _ "words.txt" [x0a] []).
    + vm_compute. reflexivity.
    + discriminate.
    + reflexivity.
    + apply laid_end. exact Hnl.
  - unfold ex_create.
    refine (@mnemonic_file_equiv toy_seed _ _ _ _ _ _ _ _ _ "words.txt" _ [[x61]; [x62]] _ _ eq_refl _).
    + discriminate.
    + apply (laid_word [xe3; x80; x80] [x61] [[x62]] [x20; x0a; x62]).
      * apply ex_white. vm_compute. tauto.
      * discriminate.
      * reflexivity.
      * apply (laid_word [x20; x0a] [x62] [] []).
        -- exists [[x20]; [x0a]]. split; [|reflexivity].
           apply Forall_cons; split; [apply list_elem_of_In; vm_compute; tauto|]. apply Forall_singleton, list_elem_of_In. vm_compute. tauto.
        -- discriminate.
        -- reflexivity.
        -- apply laid_end. exists []. split; [apply Forall_nil_2|reflexivity].
        -- left. reflexivity.
      * right. exists [x20], [x0a; x62]. split; [apply list_elem_of_In; vm_compute; tauto|reflexivity].
  - vm_compute. reflexivity.
Defined.

(** Addresses are texts up to the case of the letter they are. *)
Definition toy_txid_codec : ConsensusType Txid := toy_bytes_codec.
Definition toy_address : AddressLib := {|
  UncheckedAddress := string; Address := bool;
  address_from_str s := Some s;
  require_network s net :=
    if (s =? "a")%string || (s =? "A")%string then Some true
    else if (s =? "b")%string then Some false else None;
  address_script b := [if b then x51 else x52];
  script_to_string s := ""%string;
  fee_rate_from_sat_per_vb r := if r <? 2 ^ 32 then Some (250 * r) else None;
  txid_codec := toy_txid_codec;
  tx_codec := {| serialize _ := []; deserialize _ := None; serialize_hex _ := ""%string; deserialize_hex _ := None |}
|}.

Section witnesses.
#[local] Existing Instances toy_hex toy_hex_laws toy_codec toy_address toy_dust.

Lemma toy_address_laws : AddressLaws.
Proof. split. reflexivity. Qed.

Definition ex_show (n : Z) : string := ""%string.
Definition ex_send (destinations : list (string * Z)) : SendTransactionRequest :=
  mkSendRequest destinations None None [] None.

(** Two addresses are paid what was asked for. *)
Lemma send_request_checked_witness :
  ∃ params, send_transaction_args Regtest ex_show (ex_send [("a", 1000); ("b", 2000)]%string)
            = Ok ([(true, 1000); (false, 2000)], params).
Proof.
  pose proof (@send_request_checked toy_hex toy_codec toy_address toy_dust toy_tx toy_bdk (toy_bdk_tx [])
    Regtest ex_show (ex_send [("a", 1000); ("b", 2000)]%string)) as Hc.
  destruct (send_transaction_args Regtest ex_show (ex_send [("a", 1000); ("b", 2000)]%string)) as [[dests params]|e|] eqn:Ha.
  - exists params. f_equal. f_equal. destruct Hc as ((v & Hv & _ & _ & Hd) & _).
    inversion Hv as [|? [a1 v1] ? v' (Ha1 & Hv1 & _) Hv']; subst. inversion Hv' as [|? [a2 v2] ? v'' (Ha2 & Hv2 & _) Hv'']; subst.
    inversion Hv''; subst. injection Ha1 as <-. injection Ha2 as <-. cbn in Hv1, Hv2. subst. apply Hd.
    apply NoDup_cons. split; [|apply NoDup_singleton]. cbn. intros Hin%list_elem_of_singleton. discriminate.
  - vm_compute in Ha. discriminate.
  - destruct Hc.
Defined.

(** Two texts of one address: the amount of the first is lost. *)
Lemma same_address_twice_loses :
  ∃ params, send_transaction_args Regtest ex_show (ex_send [("a", 1000); ("A", 2000)]%string) = Ok ([(true, 2000)], params).
Proof. eexists. vm_compute. reflexivity. Qed.
End witnesses.

Section spend_witness.
#[local] Existing Instances toy_hex toy_hex_laws toy_codec toy_address.
#[local] Existing Instances toy_hash toy_script toy_ids toy_taproot toy_p2mr toy_pqc toy_sign toy_store.
#[local] Existing Instances toy_order_map toy_template toy_v3 toy_dust.

Definition ex_listed : list ListedOutput :=
  match list_p2mr_outputs true ex_wallet with Ok l => l | _ => [] end.

Lemma listed_output_spendable_witness :
  ∃ lo, ex_listed = [lo] ∧ lo_is_mine lo = true
  ∧ spend_p2mr_args Regtest (mkSpendRequest (lo_txid lo) (lo_vout lo) "a" 1000 None) = Ok (ex_sign_op, [x51]).
Proof.
  destruct ex_listed as [|lo [|lo' l]] eqn:He; [vm_compute in He; discriminate| |vm_compute in He; discriminate].
  exists lo. split; [reflexivity|]. split; [vm_compute in He; injection He as <-; reflexivity|].
  destruct (@listed_output_spendable toy_hex toy_hex_laws toy_codec toy_address toy_address_laws
    toy_hash toy_script toy_ids toy_taproot toy_p2mr toy_pqc toy_sign toy_store toy_order_map toy_dust
    Regtest ex_rng true NoFault "a" true 1000 None ex_wallet [lo] lo) as (op & o & Ho & _ & Hargs & _).
  - intros op o. change (load_map (w_db ex_wallet)) with ({[ ex_sign_op := mkTxOut 5000 ex_spk ]} : PrevoutMap).
    rewrite lookup_singleton_Some. intros [<- _]. vm_compute. reflexivity.
  - unfold ex_listed in He. destruct (list_p2mr_outputs true ex_wallet); [by rewrite He|discriminate|discriminate].
  - apply list_elem_of_here.
  - reflexivity.
  - rewrite Hargs. change (load_map (w_db ex_wallet)) with ({[ ex_sign_op := mkTxOut 5000 ex_spk ]} : PrevoutMap) in Ho.
    apply lookup_singleton_Some in Ho as [<- _]. reflexivity.
Defined.
End spend_witness.
