(* ===== verification/ChainSource.v ===== *)
(** The wallet's chain source at start-up (`wallet/mod.rs`, `wallet/error.rs`): which
    Electrum or Esplora server is asked, which failures are retried, and how long
    the retries wait.

    The servers are the class [ChainServers]; a server that is not up yet answers
    differently at each attempt. *)
From Stdlib Require Import ZArith Lia Strings.Byte Strings.String Strings.Ascii.
From stdpp Require Import base list strings.
From S2P Require Import Prelude Text Bitcoin.
#[local] Open Scope Z_scope.

(** ** cli.rs *)
Inductive WalletSyncSource := Electrum | Esplora | Disabled.
#[global] Instance WalletSyncSource_eq_dec : EqDecision WalletSyncSource.
Proof. solve_decision. Defined.

(** [url::Url], as its text. *)
Record WalletConfig := mkWalletConfig {
  sync_source : WalletSyncSource;
  esplora_url : option string;
  electrum_host : option string;
  electrum_port : option Z
}.

Definition default_esplora_url (network : Network) : option string :=
  match network with Regtest => Some "http://localhost:3003"%string | _ => None end.
Definition default_electrum_host_port (network : Network) : option (string * Z) :=
  match network with Regtest => Some ("127.0.0.1"%string, 60401) | _ => None end.

(** ** error.rs *)
Inductive InitEsploraClient := BuildEsploraClient | EsploraClientHeight | MissingUrl (network : Network) | ParseUrl.
Inductive InitElectrumClient :=
| ChainMismatch (electrum_block_hash wallet_chain_hash : BlockHash)
| CreateElectrumClient | GetInitialBlockHeader | MissingHostPort (network : Network).
Inductive InitChainSourceClient := InitElectrum (e : InitElectrumClient) | InitEsplora (e : InitEsploraClient).

Definition electrum_is_transient (self : InitElectrumClient) : bool :=
  match self with CreateElectrumClient | GetInitialBlockHeader => true | _ => false end.
Definition esplora_is_transient (self : InitEsploraClient) : bool :=
  match self with EsploraClientHeight => true | _ => false end.
Definition is_transient (self : InitChainSourceClient) : bool :=
  match self with
  | InitElectrum err => electrum_is_transient err
  | InitEsplora err => esplora_is_transient err
  end.

(** [build_esplora], [esplora_height], [connect_electrum] and [electrum_genesis]: the
    crates' calls, at the [n]-th attempt; [parse_url]: the text of a URL as [url]
    normalises it. *)
Class ChainServers := {
  parse_url : string → option string;
  build_esplora : string → bool;
  esplora_height : nat → string → option Z;
  connect_electrum : nat → string → bool;
  electrum_genesis : nat → string → option BlockHash;
  chain_hash : Network → BlockHash
}.

(** A client, by the address it talks to. *)
Inductive ChainSourceClient := ElectrumAt (url : string) | EsploraAt (url : string).

(** [str::trim_end_matches("/")] *)
Fixpoint trim_end_slashes (s : string) : string :=
  match s with
  | EmptyString => EmptyString
  | String a s => match trim_end_slashes s with
                  | EmptyString => if Ascii.eqb a "/" then EmptyString else String a EmptyString
                  | t => String a t
                  end
  end.

Section init.
Context `{ChainServers}.

Definition init_esplora_client (n : nat) (config : WalletConfig) (network : Network) :
    outcome InitEsploraClient string :=
  url ← match esplora_url config with
        | Some url => Ok url
        | None => default_url ← ok_or (default_esplora_url network) (MissingUrl network);
                  ok_or (parse_url default_url) ParseUrl
        end;
  let client := trim_end_slashes url in
  _ ← reject_if (negb (build_esplora client)) BuildEsploraClient;
  _ ← ok_or (esplora_height n client) EsploraClientHeight;
  Ok client.

Definition init_electrum_client (n : nat) (config : WalletConfig) (network : Network) :
    outcome InitElectrumClient string :=
  '(host, port) ← match electrum_host config, electrum_port config with
                  | Some host, Some port => Ok (host, port)
                  | host, port =>
                      '(default_host, default_port) ← ok_or (default_electrum_host_port network) (MissingHostPort network);
                      Ok (default default_host host, default default_port port)
                  end;
  let electrum_url := (host ++ ":" ++ show port)%string in
  _ ← reject_if (negb (connect_electrum n electrum_url)) CreateElectrumClient;
  block_hash ← ok_or (electrum_genesis n electrum_url) GetInitialBlockHeader;
  _ ← reject_if (negb (bool_decide (block_hash = chain_hash network))) (ChainMismatch block_hash (chain_hash network));
  Ok electrum_url.

Definition INITIAL_RETRY_DELAY : Z := 500.
Definition MAX_RETRY_DELAY : Z := 10000.

(** One attempt; [None] for [unreachable!]. *)
Definition attempt (n : nat) (config : WalletConfig) (network : Network) :
    outcome InitChainSourceClient ChainSourceClient :=
  match sync_source config with
  | Electrum => map_err InitElectrum (c ← init_electrum_client n config network; Ok (ElectrumAt c))
  | Esplora => map_err InitEsplora (c ← init_esplora_client n config network; Ok (EsploraAt c))
  | Disabled => Panic
  end.

(** The loop, with the delays slept so far, newest last; [None] is out of fuel. *)
Fixpoint retry_loop (fuel n : nat) (retry_delay : Z) (slept : list Z) (config : WalletConfig) (network : Network) :
    option (outcome InitChainSourceClient (option ChainSourceClient)) * list Z :=
  match fuel with
  | O => (None, slept)
  | S fuel =>
      match attempt n config network with
      | Ok client => (Some (Ok (Some client)), slept)
      | Err err =>
          if is_transient err
          then retry_loop fuel (S n) (Z.min (retry_delay * 2) MAX_RETRY_DELAY) (slept ++ [retry_delay]) config network
          else (Some (Err err), slept)
      | Panic => (Some Panic, slept)
      end
  end.

Definition init_chain_source_client (fuel : nat) (config : WalletConfig) (network : Network) :
    option (outcome InitChainSourceClient (option ChainSourceClient)) * list Z :=
  if bool_decide (sync_source config = Disabled) then (Some (Ok None), [])
  else retry_loop fuel 0 INITIAL_RETRY_DELAY [] config network.
End init.

(** * Properties *)

(** The [i]-th delay: doubling from half a second, up to ten. *)
Definition delay (i : nat) : Z := Z.min (INITIAL_RETRY_DELAY * 2 ^ Z.of_nat i) MAX_RETRY_DELAY.

Definition transient_at `{ChainServers} (config : WalletConfig) (network : Network) (i : nat) : Prop :=
  ∃ e, attempt i config network = Err e ∧ is_transient e = true.

Lemma delay_S i : delay (S i) = Z.min (delay i * 2) MAX_RETRY_DELAY.
Proof.
  unfold delay. rewrite Nat2Z.inj_succ, Z.pow_succ_r by lia. unfold INITIAL_RETRY_DELAY, MAX_RETRY_DELAY.
  pose proof (Z.pow_pos_nonneg 2 (Z.of_nat i) ltac:(lia) ltac:(lia)). lia.
Qed.

Lemma retry_loop_spec `{ChainServers} config network k n fuel slept :
  (∀ i, (n ≤ i < n + k)%nat → transient_at config network i) → (k ≤ fuel)%nat →
  retry_loop fuel n (delay n) slept config network
  = retry_loop (fuel - k) (n + k) (delay (n + k)) (slept ++ map delay (seq n k)) config network.
Proof.
  revert n fuel slept. induction k as [|k IH]; intros n fuel slept Ht Hf.
  - by rewrite Nat.sub_0_r, Nat.add_0_r, app_nil_r.
  - destruct fuel as [|fuel]; [lia|]. destruct (Ht n ltac:(lia)) as (e & He & Htr). cbn [retry_loop].
    rewrite He, Htr, <- delay_S, IH by (try (intros i Hi; apply Ht); lia).
    replace (S n + k)%nat with (n + S k)%nat by lia. cbn [seq map Nat.sub]. by rewrite <- app_assoc.
Qed.

(** What a client that is set up is. *)
Lemma init_electrum_Ok `{ChainServers} n config network url :
  init_electrum_client n config network = Ok url →
  electrum_genesis n url = Some (chain_hash network)
  ∧ ∃ host port, url = (host ++ ":" ++ show port)%string
      ∧ (electrum_host config = Some host ∨ electrum_host config = None ∧ network = Regtest ∧ host = "127.0.0.1"%string)
      ∧ (electrum_port config = Some port ∨ electrum_port config = None ∧ network = Regtest ∧ port = 60401).
Proof.
  unfold init_electrum_client. intros ([host port] & Haddr & Hu)%bind_Ok.
  apply bind_Ok in Hu as ([] & _ & (h & Hg%ok_or_Ok & ([] & Hc & [= <-])%bind_Ok)%bind_Ok).
  apply reject_if_Ok, negb_false_iff, bool_decide_eq_true_1 in Hc as ->. split; [done|].
  exists host, port. split; [done|].
  destruct (electrum_host config) as [h|], (electrum_port config) as [q|];
    [injection Haddr as <- <-; by split; left| | |];
    apply bind_Ok in Haddr as ([dh dp] & Hd%ok_or_Ok & [= <- <-]); destruct network; try discriminate Hd;
    injection Hd as <- <-; split; first [by left|by right].
Qed.

Lemma init_esplora_Ok `{ChainServers} n config network url :
  init_esplora_client n config network = Ok url →
  is_Some (esplora_height n url)
  ∧ ∃ u, url = trim_end_slashes u
      ∧ (esplora_url config = Some u ∨ esplora_url config = None ∧ network = Regtest ∧ parse_url "http://localhost:3003" = Some u).
Proof.
  unfold init_esplora_client. intros (u & Haddr & ([] & _ & (h & Hh%ok_or_Ok & [= <-])%bind_Ok)%bind_Ok)%bind_Ok.
  split; [by eexists|]. exists u. split; [done|].
  destruct (esplora_url config) as [v|]; [injection Haddr as <-; by left|right].
  apply bind_Ok in Haddr as (d & Hd%ok_or_Ok & Hp%ok_or_Ok). destruct network; try discriminate Hd.
  by injection Hd as <-.
Qed.

Lemma attempt_no_panic `{ChainServers} n config network :
  sync_source config ≠ Disabled → attempt n config network ≠ Panic.
Proof.
  intros Hs. unfold attempt. destruct (sync_source config); [| |done]; intros Hp%map_err_Panic; revert Hp;
    unfold init_electrum_client, init_esplora_client;
    match goal with |- ?m = Panic → False => change (m ≠ Panic) end; no_panic.
Qed.

(** The wallet waits for its chain source exactly as long as it must.  If the
    first [k] attempts fail because the server is not up, and the next one does not
    fail that way, start-up sleeps [k] times, for half a second and then twice as
    long each time up to ten seconds, and ends as that attempt does: with a client
    of the configured kind at the configured or default address, on the wallet's own
    chain if it is an Electrum server, or with an error that is not worth retrying.
    A disabled source makes no attempt; a missing or wrong setting fails at once. *)
Lemma chain_source_awaited `{ChainServers} fuel config network k :
  sync_source config ≠ Disabled → (∀ i, (i < k)%nat → transient_at config network i) →
  ¬ transient_at config network k → (k < fuel)%nat →
  init_chain_source_client fuel config network
  = (Some (c ← attempt k config network; Ok (Some c)), map delay (seq 0 k))
  ∧ match attempt k config network with
    | Ok (ElectrumAt url) =>
        sync_source config = Electrum ∧ electrum_genesis k url = Some (chain_hash network)
        ∧ ∃ host port, url = (host ++ ":" ++ show port)%string
            ∧ (electrum_host config = Some host ∨ electrum_host config = None ∧ network = Regtest ∧ host = "127.0.0.1"%string)
            ∧ (electrum_port config = Some port ∨ electrum_port config = None ∧ network = Regtest ∧ port = 60401)
    | Ok (EsploraAt url) =>
        sync_source config = Esplora ∧ is_Some (esplora_height k url)
        ∧ ∃ u, url = trim_end_slashes u
            ∧ (esplora_url config = Some u ∨ esplora_url config = None ∧ network = Regtest ∧ parse_url "http://localhost:3003" = Some u)
    | Err e => is_transient e = false
    | Panic => False
    end.
Proof.
  intros Hs Ht Hk Hf. split.
  - unfold init_chain_source_client. rewrite bool_decide_false by done.
    change INITIAL_RETRY_DELAY with (delay 0).
    rewrite (retry_loop_spec config network k 0 fuel []) by (try (intros i Hi; apply Ht); lia). cbn [app Nat.add].
    destruct (fuel - k)%nat as [|m] eqn:Hm; [lia|]. cbn [retry_loop].
    destruct (attempt k config network) as [c|e|] eqn:Ha; [done| |done].
    destruct (is_transient e) eqn:He; [|done]. exfalso. apply Hk. by exists e.
  - destruct (attempt k config network) as [c|e|] eqn:Ha; [| |by apply attempt_no_panic in Ha].
    + unfold attempt in Ha. destruct (sync_source config); [| |done];
        apply map_err_Ok, bind_Ok in Ha as (url & Hu & [= <-]);
        [apply init_electrum_Ok in Hu|apply init_esplora_Ok in Hu]; by destruct Hu.
    + destruct (is_transient e) eqn:He; [|done]. exfalso. apply Hk. by exists e.
Qed.

(** * Witnesses *)

(** An Electrum server that is up from the seventh attempt on. *)
Definition toy_servers : ChainServers := {|
  parse_url s := Some (s ++ "/")%string;
  build_esplora _ := true;
  esplora_height _ _ := Some 7;
  connect_electrum n _ := (6 <=? n)%nat;
  electrum_genesis _ url := if String.eqb url "127.0.0.1:60401" then Some [] else None;
  chain_hash _ := []
|}.
Definition ex_source (source : WalletSyncSource) : WalletConfig := mkWalletConfig source None None None.

Lemma chain_source_awaited_witness :
  @init_chain_source_client toy_servers 9 (ex_source Electrum) Regtest
  = (Some (Ok (Some (ElectrumAt "127.0.0.1:60401"))), [500; 1000; 2000; 4000; 8000; 10000])
  ∧ @init_chain_source_client toy_servers 1 (ex_source Esplora) Regtest
    = (Some (Ok (Some (EsploraAt "http://localhost:3003"))), [])
  ∧ @init_chain_source_client toy_servers 1 (ex_source Esplora) Signet = (Some (Err (InitEsplora (MissingUrl Signet))), []).
Proof.
  split_and!.
  - destruct (@chain_source_awaited toy_servers 9 (ex_source Electrum) Regtest 6) as [Hrun _].
    + discriminate.
    + intros i Hi. exists (InitElectrum CreateElectrumClient). split; [|reflexivity].
      assert (i ∈ seq 0 6) as Hin by (apply elem_of_seq; lia). revert Hin.
      change (seq 0 6) with [0; 1; 2; 3; 4; 5]%nat. rewrite !elem_of_cons, elem_of_nil.
      intros [->|[->|[->|[->|[->|[->|[]]]]]]]; reflexivity.
    + intros (e & He & _). vm_compute in He. discriminate He.
    + lia.
    + rewrite Hrun. vm_compute. reflexivity.
  - destruct (@chain_source_awaited toy_servers 1 (ex_source Esplora) Regtest 0) as [Hrun _];
      [discriminate|lia|intros (e & He & _); vm_compute in He; discriminate He|lia|].
    rewrite Hrun. vm_compute. reflexivity.
  - destruct (@chain_source_awaited toy_servers 1 (ex_source Esplora) Signet 0) as [Hrun _];
      [discriminate|lia| |lia|].
    + intros (e & He & Ht). vm_compute in He. injection He as <-. discriminate Ht.
    + rewrite Hrun. vm_compute. reflexivity.
Defined.
