(* ===== verification/Http.v ===== *)
(** The HTTP layers in front of the Connect services (`app/main.rs`): the access log
    with the request's identifier, the default body of a unary JSON `POST`, the
    default parameters of a unary `GET`, and the list of services.

    A header map is a list of names and values, [get] answering the first; URIs,
    the query serialiser and the error type of [connectrpc] are the class
    [HttpLib]. *)
From Stdlib Require Import ZArith Lia Strings.Byte Strings.String Strings.Ascii.
From stdpp Require Import base list strings.
From S2P Require Import Prelude Text.
#[local] Open Scope Z_scope.

(** ** Requests and responses *)

Abbreviation HeaderMap := (list (string * string)).
Definition header_get (hs : HeaderMap) (name : string) : option string :=
  snd <$> List.find (λ h, String.eqb h.1 name) hs.
Definition header_insert (hs : HeaderMap) (name v : string) : HeaderMap :=
  List.filter (λ h, negb (String.eqb h.1 name)) hs ++ [(name, v)].

(** [HeaderValue::to_str]: visible ASCII only. *)
Fixpoint visible (s : string) : bool :=
  match s with
  | EmptyString => true
  | String a s => let n := nat_of_ascii a in
                  ((32 <=? n)%nat && (n <? 127)%nat || (n =? 9)%nat) && visible s
  end.
Definition to_str (v : string) : option string := if visible v then Some v else None.

(** A URI: what stands before the path, then the path and query. *)
Record Uri := mkUri { authority : string; path_and_query : option (string * option string) }.
Record Request := mkRequest { method : string; uri : Uri; req_headers : HeaderMap; req_body : string }.
Record Response := mkResponse { status : Z; resp_headers : HeaderMap; resp_body : string }.

Class HttpLib := {
  byte_serialize : string → string;
  parse_path_and_query : string → option (string * option string);
  uri_char : ascii → bool;
  parse_connect_error : string → option (string * option string);
  from_utf8_lossy : string → string
}.
Fixpoint uri_chars `{HttpLib} (s : string) : bool :=
  match s with EmptyString => true | String a s => uri_char a && uri_chars s end.

(** A path and a query of legal characters are parsed as they are; letters, [=], [&]
    and what the serialiser prints are legal, and it escapes [&]. *)
Class HttpLaws `{HttpLib} : Prop := {
  parse_pq p q : uri_chars p = true → uri_chars q = true → contains_any ["?"%char] p = false →
    parse_path_and_query (p ++ "?" ++ q) = Some (p, Some q);
  uri_chars_defaults : uri_chars "encoding=json&message=" = true;
  serialize_chars s : uri_chars (byte_serialize s) = true ∧ contains_any ["&"%char] (byte_serialize s) = false
}.

Definition REQUEST_ID_HEADER : string := "x-request-id".
Definition CONTENT_TYPE : string := "content-type".
Definition CONTENT_LENGTH : string := "content-length".

Section http.
Context `{HttpLib}.

(** ** fill_empty_json_body *)

Definition is_unary_json (req : Request) : bool :=
  String.eqb (method req) "POST"
  && match header_get (req_headers req) CONTENT_TYPE ≫= to_str with
     | Some v => eq_ignore_ascii_case (trim (split_next ";" v)) "application/json"
     | None => false
     end.
Definition is_empty_body (req : Request) : bool :=
  match header_get (req_headers req) CONTENT_LENGTH with
  | None => true
  | Some v => bool_decide (to_str v ≫= parse_uint 64 = Some 0)
  end.

Definition fill_empty_json_body (req : Request) : Request :=
  if negb (is_unary_json req) || negb (is_empty_body req) then req
  else mkRequest (method req) (uri req) (header_insert (req_headers req) CONTENT_LENGTH "2") "{}".

(** ** fill_connect_get_defaults *)

Definition uri_query (u : Uri) : option string := path_and_query u ≫= snd.

(** The non-empty pairs of a query, and their keys. *)
Definition pairs (query : string) : list string := List.filter (λ s, negb (is_empty s)) (split "&" query).
Definition key (pair : string) : string := split_next "=" pair.
Definition has_key (k query : string) : bool := existsb (λ pair, String.eqb (key pair) k) (pairs query).

Definition push_param (query param : string) : string :=
  ((if is_empty query then query else query ++ "&") ++ param)%string.

Definition fill_connect_get_defaults (req : Request) : outcome string Request :=
  if negb (String.eqb (method req) "GET") then Ok req else
  let existing := default ""%string (uri_query (uri req)) in
  let has_encoding := has_key "encoding" existing in
  let has_message := has_key "message" existing in
  if has_encoding && has_message then Ok req else
  let new_query := existing in
  let new_query := if has_encoding then new_query else push_param new_query "encoding=json" in
  let new_query := if has_message then new_query
                   else push_param new_query ("message=" ++ byte_serialize "{}") in
  let path := default "/"%string (fst <$> path_and_query (uri req)) in
  pq ← expect (parse_path_and_query (path ++ "?" ++ new_query));
  Ok (mkRequest (method req) (mkUri (authority (uri req)) (Some pq)) (req_headers req) (req_body req)).

(** ** connect_rpc_access_log *)

Definition ERROR_BODY_LOG_LIMIT : Z := 4 * 1024.
Definition is_client_error (status : Z) : bool := (400 <=? status) && (status <? 500).
Definition is_server_error (status : Z) : bool := (500 <=? status) && (status <? 600).

(** [axum::body::to_bytes(body, limit)] *)
Definition to_bytes (body : string) (limit : Z) : option string :=
  if Z.of_nat (String.length body) <=? limit then Some body else None.

Inductive log_level := LogError | LogWarn | LogInfo.
Record log_line := mkLog { level : log_level; procedure : string; code : string; request_id : string; message : string }.

(** The response that is passed on, and the line that is logged. *)
Definition connect_rpc_access_log (req : Request) (response : Response) : Response * log_line :=
  let http_status := status response in
  let id := header_get (req_headers req) REQUEST_ID_HEADER in
  let headers := match id with
                 | Some id => header_insert (resp_headers response) REQUEST_ID_HEADER id
                 | None => resp_headers response
                 end in
  let request_id := default ""%string (id ≫= to_str) in
  let procedure := default "/"%string (fst <$> path_and_query (uri req)) in
  if is_client_error http_status || is_server_error http_status then
    let body_bytes := default "{}"%string (to_bytes (resp_body response) ERROR_BODY_LOG_LIMIT) in
    let '(connect_code, message) :=
      match parse_connect_error body_bytes with
      | Some (code, message) => (code, default ""%string message)
      | None => ("unknown"%string, from_utf8_lossy body_bytes)
      end in
    (mkResponse http_status headers body_bytes,
     mkLog (if is_server_error http_status then LogError else LogWarn) procedure connect_code request_id message)
  else (mkResponse http_status headers (resp_body response), mkLog LogInfo procedure "ok" request_id "").

(** The layers around the router, outermost first, below the one that stamps the
    request with an identifier. *)
Definition serve (router : Request → Response) (req : Request) : outcome string (Response * log_line) :=
  inner ← fill_connect_get_defaults (fill_empty_json_body req);
  Ok (connect_rpc_access_log req (router inner)).
End http.

(** ** run_connect_server: the services *)
Definition CRYPTO_SERVICE_SERVICE_NAME : string := "cusf.crypto.v1.CryptoService".
Definition VALIDATOR_SERVICE_SERVICE_NAME : string := "cusf.mainchain.v1.ValidatorService".
Definition MINING_SERVICE_SERVICE_NAME : string := "cusf.mainchain.v1.MiningService".
Definition WALLET_SERVICE_SERVICE_NAME : string := "cusf.mainchain.v1.WalletService".

Definition service_names (mining wallet : bool) : list string :=
  let service_names := [CRYPTO_SERVICE_SERVICE_NAME; VALIDATOR_SERVICE_SERVICE_NAME] in
  let service_names := if mining then service_names ++ [MINING_SERVICE_SERVICE_NAME] else service_names in
  if wallet then service_names ++ [WALLET_SERVICE_SERVICE_NAME] else service_names.

(** * Lemmas *)

Lemma uri_chars_app `{HttpLib} s t : uri_chars (s ++ t) = uri_chars s && uri_chars t.
Proof. induction s as [|a s IH]; [done|]. cbn [append uri_chars]. by rewrite IH, andb_assoc. Qed.

Lemma pairs_push q param :
  contains_any ["&"%char] param = false → param ≠ ""%string → pairs (push_param q param) = pairs q ++ [param].
Proof.
  intros Hc Hne. assert (List.filter (λ s, negb (is_empty s)) [param] = [param]) as Hp.
  { cbn. by destruct (is_empty_spec param). }
  unfold pairs, push_param. destruct (is_empty_spec q) as [->|Hq].
  - cbn [append]. rewrite (split_none _ _ Hc), Hp. done.
  - rewrite append_assoc. cbn [append]. rewrite split_app_sep, (split_none _ _ Hc), List.filter_app, Hp. done.
Qed.

Lemma has_key_app k l1 l2 :
  existsb (λ pair, String.eqb (key pair) k) (l1 ++ l2)
  = existsb (λ pair, String.eqb (key pair) k) l1 || existsb (λ pair, String.eqb (key pair) k) l2.
Proof. apply existsb_app. Qed.

Lemma key_eq k v : contains_any ["="%char] k = false → key (k ++ "=" ++ v) = k.
Proof.
  intros Hk. unfold key. cbn [append]. rewrite split_next_app. unfold split_next. by rewrite (split_none _ _ Hk).
Qed.

Lemma uri_chars_push `{HttpLib} q param :
  uri_chars "&" = true → uri_chars q = true → uri_chars param = true → uri_chars (push_param q param) = true.
Proof.
  intros Ha Hq Hp. unfold push_param. destruct (is_empty q); rewrite !uri_chars_app, Hq, Hp, ?Ha; done.
Qed.

Lemma header_get_insert hs name v : header_get (header_insert hs name v) name = Some v.
Proof.
  unfold header_get, header_insert. induction hs as [|[n w] hs IH]; cbn.
  - by rewrite String.eqb_refl.
  - destruct (String.eqb n name) eqn:He; cbn; [done|]. by rewrite He.
Qed.

Lemma header_get_insert_ne hs name name' v : name ≠ name' → header_get (header_insert hs name v) name' = header_get hs name'.
Proof.
  intros Hne. unfold header_get, header_insert. induction hs as [|[n w] hs IH]; cbn.
  - by destruct (String.eqb_spec name name').
  - destruct (String.eqb_spec n name) as [->|Hn]; cbn.
    + destruct (String.eqb_spec name name'); [done|]. apply IH.
    + destruct (String.eqb n name'); [done|]. apply IH.
Qed.

(** * Properties *)

(** A unary [GET] reaches the service with both its parameters: the ones the
    client gave are kept, as they are and in their order, and only a missing
    [encoding] or [message] is appended, as JSON and the empty object; the path,
    the headers and the body are untouched, and a second pass changes nothing.
    Other methods are passed on as they are. *)
Lemma get_defaults_filled `{HttpLib} `{!HttpLaws} req :
  let path u := default "/"%string (fst <$> path_and_query u) in
  let query u := default ""%string (uri_query u) in
  uri_chars (path (uri req)) = true → contains_any ["?"%char] (path (uri req)) = false →
  uri_chars (query (uri req)) = true →
  ∃ req', fill_connect_get_defaults req = Ok req' ∧ fill_connect_get_defaults req' = Ok req'
    ∧ method req' = method req ∧ req_headers req' = req_headers req ∧ req_body req' = req_body req
    ∧ authority (uri req') = authority (uri req) ∧ path (uri req') = path (uri req)
    ∧ if String.eqb (method req) "GET" then
        has_key "encoding" (query (uri req')) = true ∧ has_key "message" (query (uri req')) = true
        ∧ pairs (query (uri req')) = pairs (query (uri req))
            ++ (if has_key "encoding" (query (uri req)) then [] else ["encoding=json"%string])
            ++ (if has_key "message" (query (uri req)) then [] else [("message=" ++ byte_serialize "{}")%string])
      else req' = req.
Proof.
  intros path query Hpath Hquest Hquery. unfold fill_connect_get_defaults at 1.
  destruct (String.eqb (method req) "GET") eqn:Hm; cbn [negb].
  2: { exists req. split_and!; try done. unfold fill_connect_get_defaults. by rewrite Hm. }
  fold (query (uri req)). set (q := query (uri req)) in *. fold (path (uri req)).
  destruct (serialize_chars "{}") as [Hser Hamp].
  assert (uri_chars "encoding=json" = true ∧ uri_chars "&" = true ∧ uri_chars "message=" = true) as (Hu1 & Hu2 & Hu3).
  { pose proof uri_chars_defaults as Hu. change "encoding=json&message="%string with ("encoding=json" ++ "&" ++ "message=")%string in Hu.
    rewrite !uri_chars_app in Hu. by apply andb_true_iff in Hu as [? [? ?]%andb_true_iff]. }
  set (msg := ("message=" ++ byte_serialize "{}")%string) in *.
  set (q1 := if has_key "encoding" q then q else push_param q "encoding=json").
  set (q2 := if has_key "message" q then q1 else push_param q1 msg).
  assert (pairs q2 = pairs q ++ (if has_key "encoding" q then [] else ["encoding=json"%string])
                       ++ (if has_key "message" q then [] else [msg])) as Hpairs.
  { subst q2 q1. destruct (has_key "encoding" q), (has_key "message" q);
      rewrite ?pairs_push by done; rewrite ?app_nil_r, <- ?app_assoc; done. }
  assert (has_key "encoding" q2 = true) as He2.
  { unfold has_key at 1. rewrite Hpairs, !has_key_app. fold (has_key "encoding" q). by destruct (has_key "encoding" q). }
  assert (has_key "message" q2 = true) as Hm2.
  { unfold has_key at 1. rewrite Hpairs, !has_key_app. fold (has_key "message" q).
    destruct (has_key "message" q); [done|]. rewrite !orb_true_iff. right. right. cbn [existsb].
    change msg with ("message" ++ "=" ++ byte_serialize "{}")%string. by rewrite key_eq, String.eqb_refl. }
  destruct (has_key "encoding" q && has_key "message" q) eqn:Hboth.
  - apply andb_true_iff in Hboth as [Hb1 Hb2]. exists req. split; [done|].
    unfold fill_connect_get_defaults. rewrite Hm. fold (query (uri req)). fold q. rewrite Hb1, Hb2. cbn.
    split_and!; try done. by rewrite app_nil_r.
  - assert (uri_chars q2 = true) as Hq2.
    { assert (uri_chars msg = true) by (subst msg; by rewrite uri_chars_app, Hu3, Hser).
      subst q2 q1. destruct (has_key "encoding" q), (has_key "message" q); rewrite ?uri_chars_push; auto using uri_chars_push. }
    fold q1. fold q2. rewrite parse_pq by done. cbn [expect mbind outcome_bind].
    eexists. split; [done|]. unfold fill_connect_get_defaults. cbn [method]. rewrite Hm. cbn [negb uri].
    unfold uri_query. cbn [path_and_query mbind option_bind snd from_option id].
    rewrite He2, Hm2. cbn. by split_and!.
Qed.

(** A unary JSON [POST] without a body is given the empty object and its length; any
    other request is passed on as it is, and so is a filled one. *)
Lemma empty_body_filled req :
  let req' := fill_empty_json_body req in
  fill_empty_json_body req' = req' ∧ method req' = method req ∧ uri req' = uri req
  ∧ (∀ name, name ≠ CONTENT_LENGTH → header_get (req_headers req') name = header_get (req_headers req) name)
  ∧ if is_unary_json req && is_empty_body req
    then req_body req' = "{}"%string ∧ header_get (req_headers req') CONTENT_LENGTH = Some "2"%string
    else req' = req.
Proof.
  intros req'. subst req'. unfold fill_empty_json_body at 2 3 4 5 6 7 8.
  destruct (is_unary_json req) eqn:Hu; cbn [negb orb andb].
  2: { unfold fill_empty_json_body. by rewrite Hu. }
  destruct (is_empty_body req) eqn:He; cbn [negb].
  2: { unfold fill_empty_json_body. by rewrite Hu, He. }
  cbn [method uri req_headers req_body]. split_and!; try done.
  - unfold fill_empty_json_body at 1.
    assert (is_empty_body (mkRequest (method req) (uri req) (header_insert (req_headers req) CONTENT_LENGTH "2") "{}") = false) as ->.
    { unfold is_empty_body. cbn [req_headers]. by rewrite header_get_insert. }
    by rewrite orb_true_r.
  - intros name Hne. by apply header_get_insert_ne.
  - by rewrite header_get_insert.
Qed.

(** A body sent without a length, as in chunked transfer, is dropped. *)
Lemma chunked_body_dropped req :
  is_unary_json req = true → header_get (req_headers req) CONTENT_LENGTH = None →
  req_body (fill_empty_json_body req) = "{}"%string.
Proof. intros Hu Hl. unfold fill_empty_json_body, is_empty_body. by rewrite Hu, Hl. Qed.

(** The access log passes the status on and answers with the request's identifier;
    the body passes unless it is an error's of more than 4096 bytes, which the
    client then receives as an empty object.  Errors of the server and of the
    client are logged as such, everything else as a success. *)
Lemma access_log_response `{HttpLib} req response :
  let '(r, line) := connect_rpc_access_log req response in
  let is_err := 400 ≤ status response < 600 in
  status r = status response
  ∧ (∀ id, header_get (req_headers req) REQUEST_ID_HEADER = Some id → header_get (resp_headers r) REQUEST_ID_HEADER = Some id)
  ∧ (∀ name, name ≠ REQUEST_ID_HEADER → header_get (resp_headers r) name = header_get (resp_headers response) name)
  ∧ (is_err ∧ ERROR_BODY_LOG_LIMIT < Z.of_nat (String.length (resp_body response)) → resp_body r = "{}"%string)
  ∧ (¬ (is_err ∧ ERROR_BODY_LOG_LIMIT < Z.of_nat (String.length (resp_body response))) → resp_body r = resp_body response)
  ∧ level line = (if bool_decide (500 ≤ status response < 600) then LogError
                  else if bool_decide (400 ≤ status response < 500) then LogWarn else LogInfo).
Proof.
  set (hdrs := match header_get (req_headers req) REQUEST_ID_HEADER with
               | Some id => header_insert (resp_headers response) REQUEST_ID_HEADER id
               | None => resp_headers response end).
  assert (∀ id, header_get (req_headers req) REQUEST_ID_HEADER = Some id → header_get hdrs REQUEST_ID_HEADER = Some id) as H1.
  { intros id Hid. subst hdrs. by rewrite Hid, header_get_insert. }
  assert (∀ name, name ≠ REQUEST_ID_HEADER → header_get hdrs name = header_get (resp_headers response) name) as H2.
  { intros name Hne. subst hdrs. destruct (header_get _ _); [|done]. by apply header_get_insert_ne. }
  assert (∀ a b, (a <=? status response) && (status response <? b) = bool_decide (a ≤ status response < b)) as Hb.
  { intros a b. destruct (Z.leb_spec a (status response)), (Z.ltb_spec (status response) b); cbn;
      symmetry; first [apply bool_decide_eq_true_2; lia|apply bool_decide_eq_false_2; lia]. }
  unfold connect_rpc_access_log, is_client_error, is_server_error, to_bytes. fold hdrs. clearbody hdrs.
  rewrite !Hb. destruct (bool_decide_reflect (500 ≤ status response < 600)) as [Hs|Hs].
  1: rewrite orb_true_r. 2: rewrite orb_false_r; destruct (bool_decide_reflect (400 ≤ status response < 500)) as [Hc|Hc].
  3: { cbn. split_and!; try done. intros []. lia. }
  all: destruct (Z.leb_spec (Z.of_nat (String.length (resp_body response))) ERROR_BODY_LOG_LIMIT); cbn [from_option id].
  all: match goal with |- context [parse_connect_error ?x] => destruct (parse_connect_error x) as [[code message]|] end.
  all: cbn [status resp_headers resp_body level]; split_and!; try done; intros; lia.
Qed.

(** * Witnesses *)

(** Splits at the first question mark. *)
Fixpoint toy_split (s : string) : option (string * string) :=
  match s with
  | EmptyString => None
  | String a s => if Ascii.eqb a "?" then Some (""%string, s)
                  else '(p, q) ← toy_split s; Some (String a p, q)
  end.
Definition toy_http : HttpLib := {|
  byte_serialize _ := "%7B%7D"%string;
  parse_path_and_query s := match toy_split s with Some (p, q) => Some (p, Some q) | None => Some (s, None) end;
  uri_char _ := true;
  parse_connect_error _ := None;
  from_utf8_lossy s := s
|}.

Lemma toy_http_laws : @HttpLaws toy_http.
Proof.
  split; [|done|done]. intros p q _ _ Hp. cbn [parse_path_and_query toy_http].
  assert (toy_split (p ++ String "?"%char q) = Some (p, q)) as Hsplit.
  2: { cbn [append]. by rewrite Hsplit. }
  induction p as [|a p IH]; [done|]. cbn [append toy_split]. cbn [contains_any existsb] in Hp.
  apply orb_false_iff in Hp as [Ha Hp]. rewrite orb_false_r in Ha. rewrite Ha, IH by done. done.
Qed.

Definition ex_get (query : option string) : Request :=
  mkRequest "GET" (mkUri "localhost" (Some ("/cusf.mainchain.v1.WalletService/GetBalance"%string, query))) [] "".

(** The simple call of the comment, and one with a parameter of its own. *)
Lemma get_defaults_filled_witness :
  @fill_connect_get_defaults toy_http (ex_get None) = Ok (ex_get (Some "encoding=json&message=%7B%7D"%string))
  ∧ @fill_connect_get_defaults toy_http (ex_get (Some "connect=v1&message=x"%string))
    = Ok (ex_get (Some "connect=v1&message=x&encoding=json"%string)).
Proof.
  split.
  - destruct (@get_defaults_filled toy_http toy_http_laws (ex_get None)) as (req' & Hr & _); [reflexivity..|].
    vm_compute in Hr. vm_compute. reflexivity.
  - destruct (@get_defaults_filled toy_http toy_http_laws (ex_get (Some "connect=v1&message=x"%string))) as (req' & Hr & _);
      [reflexivity..|]. vm_compute in Hr. vm_compute. reflexivity.
Defined.

Definition ex_post (headers : HeaderMap) (body : string) : Request :=
  mkRequest "POST" (mkUri "localhost" None) ((CONTENT_TYPE, "Application/JSON; charset=utf-8"%string) :: headers) body.

Lemma chunked_body_dropped_witness : req_body (fill_empty_json_body (ex_post [] "[1]")) = "{}"%string.
Proof. apply chunked_body_dropped; reflexivity. Defined.
