(* ===== verification/Cli.v ===== *)
(** The command line (`cli.rs`): secret values, the dump of the configuration, log
    files; the node's credentials (`rpc_client.rs`: [create_client]); and the
    commands run with them (`bins.rs`).

    [clap], [url] and [Debug] of a string are the class [CliLib]. *)
From Stdlib Require Import ZArith Lia Strings.Byte Strings.String Strings.Ascii.
From stdpp Require Import base list strings sorting.
From S2P Require Import Prelude Text Bitcoin ChainSource.
#[local] Open Scope Z_scope.

Class CliLib := {
  CliUrl : Type;
  cli_url_parse : string → option CliUrl;
  url_password : CliUrl → option string;
  set_password : CliUrl → string → option CliUrl;
  url_to_string : CliUrl → string;
  debug_str : string → string
}.

(** ** Secrets *)

Definition REDACTED : string := "[redacted]".
Definition UNSET : string := "<unset>".

Record SecretString := new_secret { expose : string }.
Definition secret_fmt (self : SecretString) : string := REDACTED.

(** ** The dump of the configuration *)

(** An argument of the command line; [is_secret_arg] is whether it parses into a
    [SecretString]. *)
Record Arg := mkArg { arg_id : string; arg_long : option string; is_secret_arg : bool }.
Inductive ValueSource := CommandLine | EnvVariable | DefaultValue.
(** What was given for an argument, by identifier. *)
Record ArgMatches := mkMatches {
  value_source : string → option ValueSource;
  try_get_raw : string → option (list string)
}.

Section dump.
Context `{CliLib}.

Definition redact_embedded_credentials (value : string) : option string :=
  url ← cli_url_parse value;
  _ ← url_password url;
  url ← set_password url "redacted";
  Some (url_to_string url).

(** [sort_unstable] on the names, identifiers and flags. *)
Definition arg_key : Type := string * string * bool.
Definition key_leb (a b : arg_key) : bool :=
  let '(n, i, s) := a in
  let '(m, j, t) := b in
  if String.eqb n m then if String.eqb i j then implb s t else String.leb i j else String.leb n m.
Definition key_le (a b : arg_key) : Prop := key_leb a b = true.
#[global] Instance key_le_dec a b : Decision (key_le a b).
Proof. unfold key_le. apply _. Defined.

Definition dump_arguments (arguments : list Arg) : list arg_key :=
  merge_sort key_le
    (map (λ arg, (match arg_long arg with Some long => ("--" ++ long)%string | None => arg_id arg end,
                  arg_id arg, is_secret_arg arg))
       (List.filter (λ arg, negb (String.eqb (arg_id arg) "help" || String.eqb (arg_id arg) "version")) arguments)).

Definition render_value (value : string) : string := debug_str (default value (redact_embedded_credentials value)).

Definition dump_line (ms : ArgMatches) (k : arg_key) : string :=
  let '(name, id, secret) := k in
  let source := match value_source ms id with
                | Some CommandLine => "command line"
                | Some EnvVariable => "env"
                | Some DefaultValue => "default"
                | None => "unset"
                end%string in
  let values := default [] (try_get_raw ms id) in
  let rendered := match values with
                  | [] => UNSET
                  | _ => if secret then REDACTED
                         else match map render_value values with
                              | [single] => single
                              | many => "[" ++ join ", " many ++ "]"
                              end
                  end%string in
  (name ++ "=" ++ rendered ++ " (" ++ source ++ ")")%string.

Definition effective_config_lines (arguments : list Arg) (ms : ArgMatches) : list string :=
  map (dump_line ms) (dump_arguments arguments).
End dump.

(** ** Configuration *)

Inductive LogFormat := Compact | Full | Json | Pretty.
Inductive LogRotation := Daily | Hourly | Minutely | Never.
Definition default_log_suffix (self : LogFormat) : string :=
  match self with Json => "json" | _ => "log" end.
Definition log_filename_suffix (rotation : LogRotation) (format : LogFormat) : option string :=
  match rotation with Never => None | _ => Some (default_log_suffix format) end.
(** The rotation's size limit: a [u64] product, which overflows in a debug build
    with a panic and wraps in a release build. *)
Definition max_log_bytes (max_log_file_size_mb : Z) : Z := wrap_u 64 (max_log_file_size_mb * 1024 * 1024).

Record NodeRpcConfig := mkRpcConfig {
  rpc_ip : string;
  rpc_port : Z;
  cookie_path : option string;
  user : option string;
  pass : option SecretString
}.

(** ** rpc_client.rs: create_client *)
Inductive RpcClientError :=
| UserAndPasswordMustBeSetTogether | UserOrCookieMustBeSet | ReadCookie (cookie_path : string)
| GetRpcUser | GetRpcPassword | CreateClient.

Definition is_none {A} (o : option A) : bool := match o with None => true | Some _ => false end.

(** The user and password handed to the client; [read_to_string] reads a file,
    [build] is whether the client can be built. *)
Definition create_client (read_to_string : string → option string) (build : bool) (conf : NodeRpcConfig) :
    outcome RpcClientError (string * string) :=
  _ ← reject_if (negb (Bool.eqb (is_none (user conf)) (is_none (pass conf)))) UserAndPasswordMustBeSetTogether;
  _ ← reject_if (Bool.eqb (is_none (user conf)) (is_none (cookie_path conf))) UserOrCookieMustBeSet;
  let conf_user := default ""%string (user conf) in
  let conf_pass := default ""%string (expose <$> pass conf) in
  creds ← match cookie_path conf with
          | Some cookie_path =>
              auth ← ok_or (read_to_string cookie_path) (ReadCookie cookie_path);
              let auth := split ":" auth in
              conf_user ← ok_or (auth !! 0%nat) GetRpcUser;
              conf_pass ← ok_or (auth !! 1%nat) GetRpcPassword;
              Ok (conf_user, conf_pass)
          | None => Ok (conf_user, conf_pass)
          end;
  _ ← reject_if (negb build) CreateClient;
  Ok creds.

(** ** bins.rs *)

(** [Network::to_core_arg] *)
Definition to_core_arg (network : Network) : string :=
  match network with
  | NetworkBitcoin => "main" | Testnet => "test" | Testnet4 => "testnet4" | Signet => "signet" | Regtest => "regtest"
  end.

Record BitcoinCli := mkCli {
  cli_path : string;
  cli_network : Network;
  cli_user : option string;
  cli_pass : option SecretString;
  cli_cookie_path : option string;
  cli_port : Z;
  cli_host : string;
  cli_wallet : option string
}.

(** cli.rs: [Config::bitcoin_cli] *)
Definition bitcoin_cli (bitcoin_cli_path : string) (node_rpc_opts : NodeRpcConfig) (network : Network) : BitcoinCli :=
  mkCli bitcoin_cli_path network (user node_rpc_opts) (pass node_rpc_opts) (cookie_path node_rpc_opts)
    (rpc_port node_rpc_opts) (rpc_ip node_rpc_opts) None.

Definition push_some {A} (f : A → string) (o : option A) (l : list string) : list string :=
  match o with Some a => l ++ [f a] | None => l end.

Definition default_args (self : BitcoinCli) : list string :=
  let res := ["-chain=" ++ to_core_arg (cli_network self);
              "-rpcport=" ++ show (cli_port self);
              "-rpcconnect=" ++ cli_host self]%string in
  let res := push_some (λ p, "-rpccookiefile=" ++ p)%string (cli_cookie_path self) res in
  let res := push_some (λ u, "-rpcuser=" ++ u)%string (cli_user self) res in
  let res := push_some (λ p, "-rpcpassword=" ++ expose p)%string (cli_pass self) res in
  push_some (λ w, "-rpcwallet=" ++ w)%string (cli_wallet self) res.

(** A command: the program and its arguments. *)
Definition cli_command (self : BitcoinCli) (command_args : list string) (subcommand : string)
    (subcommand_args : list string) : string * list string :=
  (cli_path self, default_args self ++ command_args ++ [subcommand] ++ subcommand_args).

Definition starts_with (p s : string) : bool := bool_decide (is_Some (strip_prefix p s)).

Definition display_without_chain (self : BitcoinCli) : string :=
  join " " (cli_path self :: List.filter (λ arg, negb (starts_with "-chain=" arg)) (default_args self)).

Definition util_command (path : string) (network : Network) (command_args : list string) (subcommand : string)
    (subcommand_args : list string) : string * list string :=
  (path, ("-chain=" ++ to_core_arg network)%string :: command_args ++ [subcommand] ++ subcommand_args).

(** [block_interval] and [nbits] as they are printed. *)
Record SignetMiner := mkMiner {
  miner_path : string;
  miner_cli : BitcoinCli;
  bitcoin_util : string;
  block_interval : option string;
  nbits : option string;
  coinbase_recipient : option string;
  getblocktemplate_command : option string;
  coinbasetxn : bool;
  debug : bool
}.

Definition miner_command (self : SignetMiner) (subcommand : string) (subcommand_args : list string) :
    string * list string :=
  let args := ["--cli=" ++ display_without_chain (miner_cli self)]%string in
  let args := args ++ [if debug self then "--debug" else "--quiet"]%string in
  let generate := String.eqb subcommand "generate" in
  let args := args ++ [subcommand] ++ ["--grind-cmd=" ++ bitcoin_util self ++ " grind"]%string in
  let args :=
    if generate then
      let args := push_some (λ i, "--block-interval=" ++ i)%string (block_interval self) args in
      let args := args ++ [match nbits self with Some nbits => "--nbits=" ++ nbits | None => "--min-nbits" end]%string in
      let args := push_some (λ a, "--address=" ++ a)%string (coinbase_recipient self) args in
      match getblocktemplate_command self with
      | Some c => let args := args ++ ["--getblocktemplate-command=" ++ c]%string in
                  if coinbasetxn self then args ++ ["--coinbasetxn"%string] else args
      | None => args
      end
    else args in
  (miner_path self, args ++ subcommand_args).

(** * Properties *)

(** Two values that are printed alike: equal, or URLs that differ in the password. *)
Definition printed_alike `{CliLib} (v w : string) : Prop :=
  v = w ∨ ∃ u u', cli_url_parse v = Some u ∧ cli_url_parse w = Some u'
            ∧ is_Some (url_password u) ∧ is_Some (url_password u')
            ∧ is_Some (set_password u "redacted") ∧ set_password u "redacted" = set_password u' "redacted".

(** What two command lines may differ in: the values of secret arguments, and the
    passwords in URLs. *)
Definition same_but_secrets `{CliLib} (arguments : list Arg) (m1 m2 : ArgMatches) : Prop :=
  (∀ id, value_source m1 id = value_source m2 id)
  ∧ ∀ arg, arg ∈ arguments →
      let v1 := default [] (try_get_raw m1 (arg_id arg)) in
      let v2 := default [] (try_get_raw m2 (arg_id arg)) in
      if is_secret_arg arg then v1 = [] ↔ v2 = [] else Forall2 printed_alike v1 v2.

Lemma render_alike `{CliLib} v w : printed_alike v w → render_value v = render_value w.
Proof.
  intros [->|(u & u' & Hv & Hw & [p Hp] & [p' Hp'] & [r Hr] & He)]; [done|].
  unfold render_value, redact_embedded_credentials. rewrite Hv, Hw. cbn [mbind option_bind].
  by rewrite Hp, Hp', <- He, Hr.
Qed.

(** The configuration dump leaks no secret: the dumps of two command lines that
    differ only in the values of secret arguments and in passwords inside URLs are
    the same text, line by line. *)
Lemma config_dump_hides_secrets `{CliLib} arguments m1 m2 :
  same_but_secrets arguments m1 m2 → effective_config_lines arguments m1 = effective_config_lines arguments m2.
Proof.
  intros [Hsrc Hval]. unfold effective_config_lines. apply map_ext_in. intros [[name id] secret] Hin.
  apply list_elem_of_In in Hin. unfold dump_arguments in Hin. rewrite merge_sort_Permutation in Hin.
  apply list_elem_of_fmap in Hin as (arg & [= -> -> ->] & Harg).
  apply list_elem_of_In, filter_In in Harg as [Harg%list_elem_of_In _].
  specialize (Hval arg Harg). cbv zeta in Hval. unfold dump_line. rewrite Hsrc. do 2 f_equal. f_equal.
  destruct (is_secret_arg arg).
  - destruct (default [] (try_get_raw m1 (arg_id arg))), (default [] (try_get_raw m2 (arg_id arg))); try done; naive_solver.
  - assert (map render_value (default [] (try_get_raw m1 (arg_id arg)))
            = map render_value (default [] (try_get_raw m2 (arg_id arg)))) as Hm.
    { induction Hval as [|v w l k Hvw _ IH]; [done|]. cbn [map]. by rewrite (render_alike _ _ Hvw), IH. }
    rewrite Hm. by destruct Hval.
Qed.

(** The text that the signet miner splits at spaces is the command the enforcer runs
    itself, without the chain, provided no part has a space in it. *)
Lemma display_without_chain_split self :
  Forall (λ s, contains_any [" "%char] s = false) (cli_path self :: default_args self) →
  split " " (display_without_chain self) = cli_path self :: tail (default_args self)
  ∧ head (default_args self) = Some ("-chain=" ++ to_core_arg (cli_network self))%string.
Proof.
  intros Hall. assert (List.filter (λ arg, negb (starts_with "-chain=" arg)) (default_args self) = tail (default_args self)) as Hf.
  { unfold default_args. destruct self as [path net u p ck port host w]. cbn [cli_cookie_path cli_user cli_pass cli_wallet].
    destruct ck, u, p, w; reflexivity. }
  unfold display_without_chain. rewrite Hf. split.
  - apply split_join; [done|]. inversion Hall as [|? ? Hp Hargs]; subst. constructor; [done|].
    destruct (default_args self); [done|]. by inversion Hargs.
  - unfold default_args. by destruct (cli_cookie_path self), (cli_user self), (cli_pass self), (cli_wallet self).
Qed.

(** The password of the node is an argument of every command, in the clear. *)
Lemma password_in_arguments self secret args sub sub_args :
  cli_pass self = Some secret →
  ("-rpcpassword=" ++ expose secret)%string ∈ (cli_command self args sub sub_args).2.
Proof.
  intros Hp. unfold cli_command, default_args. rewrite Hp. cbn [snd]. apply elem_of_app. left.
  unfold push_some at 1. destruct (cli_wallet self); [apply elem_of_app; left|]; unfold push_some at 1;
    apply elem_of_app; right; by left.
Qed.

(** The client's credentials: the user and password, set together, or else those of
    the cookie file, split at its colon; any other combination is refused. *)
Lemma create_client_outcome read_to_string conf creds :
  create_client read_to_string true conf = Ok creds ↔
  (∃ p, user conf = Some creds.1 ∧ pass conf = Some p ∧ creds.2 = expose p ∧ cookie_path conf = None)
  ∨ (∃ path auth, user conf = None ∧ pass conf = None ∧ cookie_path conf = Some path
       ∧ read_to_string path = Some auth ∧ split ":" auth !! 0%nat = Some creds.1 ∧ split ":" auth !! 1%nat = Some creds.2).
Proof.
  destruct creds as [cu cp]. unfold create_client. destruct conf as [i q ck u p]. cbn [user pass cookie_path fst snd].
  destruct u as [u|], p as [p|], ck as [ck|]; cbn; try naive_solver.
  destruct (read_to_string ck) as [auth|] eqn:Ha; cbn; [|naive_solver].
  assert (∀ o : option string, (∃ path auth', (None : option string) = None ∧ (None : option SecretString) = None ∧ Some ck = Some path
            ∧ read_to_string path = Some auth' ∧ split ":" auth' !! 0%nat = Some cu ∧ split ":" auth' !! 1%nat = Some cp)
          ↔ split ":" auth !! 0%nat = Some cu ∧ split ":" auth !! 1%nat = Some cp) as Hiff.
  { intros _. split; [|intros [? ?]; by exists ck, auth].
    intros (path & auth' & _ & _ & [= <-] & Hr & H0 & H1). rewrite Ha in Hr. by injection Hr as <-. }
  rewrite (Hiff None). split.
  - intros Hc. right. destruct (split ":" auth) as [|a [|b l]]; cbn in *; [done..|]. by injection Hc as <- <-.
  - intros [(? & ? & _)|[H0 H1]]; [done|]. destruct (split ":" auth) as [|a [|b l]]; cbn in *; [done..|]. by simplify_eq.
Qed.

(** * Witnesses *)

(** URLs of the shape [u:password@rest]. *)
Definition toy_cli : CliLib := {|
  CliUrl := string * string;
  cli_url_parse s := match rsplit_once "@" s with
                     | Some (c, rest) => if starts_with "u:" c then Some (substring 2 100 c, rest) else None
                     | None => None
                     end;
  url_password u := Some u.1;
  set_password u p := Some (p, u.2);
  url_to_string u := ("u:" ++ u.1 ++ "@" ++ u.2)%string;
  debug_str s := ("'" ++ s ++ "'")%string
|}.

Definition ex_arguments : list Arg :=
  [mkArg "user" (Some "node-rpc-user"%string) false; mkArg "pass" (Some "node-rpc-pass"%string) true;
   mkArg "esplora_url" (Some "wallet-esplora-url"%string) false; mkArg "help" None false].
Definition ex_matches (secret url : string) : ArgMatches :=
  mkMatches (λ id, if String.eqb id "user" then Some DefaultValue else Some CommandLine)
    (λ id, if String.eqb id "user" then Some ["alice"%string] else if String.eqb id "pass" then Some [secret] else Some [url]).

Lemma config_dump_hides_secrets_witness :
  @effective_config_lines toy_cli ex_arguments (ex_matches "hunter2" "u:s3kr1t@esplora.example")
  = ["--node-rpc-pass=[redacted] (command line)"; "--node-rpc-user='alice' (default)";
     "--wallet-esplora-url='u:redacted@esplora.example' (command line)"]%string
  ∧ @effective_config_lines toy_cli ex_arguments (ex_matches "other" "u:else@esplora.example")
    = @effective_config_lines toy_cli ex_arguments (ex_matches "hunter2" "u:s3kr1t@esplora.example").
Proof.
  split; [vm_compute; reflexivity|].
  apply (@config_dump_hides_secrets toy_cli). split; [reflexivity|]. intros arg Harg.
  unfold ex_arguments in Harg. rewrite !elem_of_cons, elem_of_nil in Harg.
  destruct Harg as [->|[->|[->|[->|[]]]]]; cbn -[cli_url_parse].
  - constructor; [by left|constructor].
  - split; discriminate.
  - constructor; [|constructor]. right. eexists _, _. split; [vm_compute; reflexivity|]. split; [vm_compute; reflexivity|].
    split_and!; first [by eexists|reflexivity].
  - constructor; [|constructor]. right. eexists _, _. split; [vm_compute; reflexivity|]. split; [vm_compute; reflexivity|].
    split_and!; first [by eexists|reflexivity].
Defined.

Definition ex_cli : BitcoinCli :=
  mkCli "bitcoin-cli" Signet (Some "alice"%string) (Some (new_secret "hunter2")) None 18443 "127.0.0.1" None.

Lemma display_without_chain_split_witness :
  split " " (display_without_chain ex_cli)
  = ["bitcoin-cli"; "-rpcport=18443"; "-rpcconnect=127.0.0.1"; "-rpcuser=alice"; "-rpcpassword=hunter2"]%string.
Proof.
  rewrite (proj1 (display_without_chain_split ex_cli ltac:(repeat constructor))). vm_compute. reflexivity.
Defined.

Lemma password_in_arguments_witness :
  "-rpcpassword=hunter2"%string ∈ (cli_command ex_cli [] "getblockcount" []).2.
Proof. apply (password_in_arguments ex_cli (new_secret "hunter2")). reflexivity. Defined.
