(* ===== verification/SignetMine.v ===== *)
(** Signet blocks, mined by the script of Bitcoin Core (`block_producer/mine.rs`:
    [get_signet_miner_path], [generate_signet_block]; `bins.rs`: running a command).

    What the commands, the script, the clock and the node answer are arguments;
    [String::from_utf8] is the class [Utf8Lib]. *)
From Stdlib Require Import ZArith Lia Strings.Byte Strings.String Strings.Ascii.
From stdpp Require Import base list gmap strings.
From S2P Require Import Prelude Text Bitcoin Concrete Limits P2mrOutput Spend P2mrUtxo Dbs BlockHandler Enforcer.
From S2P Require Import Rpc Mine ChainSource Cli.
#[local] Open Scope Z_scope.

(** ** Commands *)

Class Utf8Lib := { from_utf8 : bytes → option string }.

(** [std::process::Output]; a command that cannot be run has none. *)
Record command_output := mkOutput { success : bool; stdout : bytes; stderr : bytes }.

Section command.
Context `{Utf8Lib}.

(** [CommandExt::run] and [run_utf8] *)
Definition run (output : option command_output) : outcome CommandError bytes :=
  output ← ok_or output UnknownIo;
  if success output then Ok (stdout output) else Err (Stderr (stderr output)).
Definition run_utf8 (output : option command_output) : outcome CommandError string :=
  bytes ← run output;
  res ← ok_or (from_utf8 bytes) FromUtf8;
  Ok (trim res).

(** ** The script's path *)

(** The directory for the script, which lives as long as the process: whether it
    exists, and whether the script was downloaded into it. *)
Record signet_dir := mkSignetDir { dir_exists : bool; downloaded : bool }.

Definition succeeded (output : option command_output) : bool :=
  match output with Some output => success output | None => false end.

Definition mkdir_command (dir : string) : string * list string := ("mkdir", ["-p"; dir])%string.

(** [mkdir] and [download] are what the two commands answer; they have their effects when they
    succeed. *)
Definition get_signet_miner_path (signet_mining_script_path : option string) (dir : string)
    (mkdir download : option command_output) : st signet_dir GetSignetMinerPathError string :=
  match signet_mining_script_path with
  | Some path => mret path
  | None =>
      s ← st_get;
      _ ← (if dir_exists s then mret tt
           else
             _ ← st_put (mkSignetDir (succeeded mkdir) (downloaded s));
             _ ← st_lift (map_err CreateSignetMinerDir (run_utf8 mkdir));
             _ ← st_put (mkSignetDir true (succeeded download));
             _ ← st_lift (map_err DownloadSignetMiner (run_utf8 download));
             mret tt);
      mret (dir ++ "/signet-miner/contrib/signet/miner")%string
  end.

(** ** generate_signet_block *)

Definition NANOS : Z := 1000000000.

(** The time of the next block, when the tip is older than the target interval:
    [--set-block-time].  [now] is in nanoseconds; the interval in seconds. *)
Definition set_block_time {E} (tip_timestamp : Z) (interval : option Z) (now : Z) : outcome E (option Z) :=
  match interval with
  | None => Ok None
  | Some interval =>
      let tip_age := now - tip_timestamp * NANOS in
      if bool_decide (0 ≤ tip_age) && bool_decide (interval * NANOS < tip_age) then
        next ← expect (checked_add 32 tip_timestamp (wrap_u 32 ((tip_age / NANOS + interval) / 2)));
        Ok (Some next)
      else Ok None
  end.

(** The options used here, and [signet_challenge] of the producer. *)
Record signet_config := mkSignetConfig {
  mining_opts : mining_config;
  signet_mining_script_path : option string;
  signet_mining_script_debug : bool;
  signet_node_rpc_opts : NodeRpcConfig;
  serve_rpc_ip : string;
  serve_rpc_port : Z
}.

Definition getblocktemplate (config : signet_config) : string :=
  "bitcoin-cli -rpcconnect=" ++ serve_rpc_ip config ++ " -rpcport=" ++ show (serve_rpc_port config) ++ " getblocktemplate".

Definition signet_miner (config : signet_config) (mining_script_path : string) (target_block_interval : option Z)
    (coinbase_recipient : option string) : SignetMiner :=
  mkMiner mining_script_path
    (bitcoin_cli (bitcoin_cli_path (mining_opts config)) (signet_node_rpc_opts config) Signet)
    (bitcoin_util_path (mining_opts config)) (show <$> target_block_interval) None coinbase_recipient
    (Some (getblocktemplate config)) true (signet_mining_script_debug config).

(** How a run of the script ends: it cannot be started or waited for, it is still
    running after ten seconds, or it exits, with the lines it wrote. *)
Inductive miner_exit := MinerIo | MinerTimeout | MinerExit (success : bool) (stderr : string).

(** [run_miner] runs a command; [getbestblockhash] is the node's answer;
    [last_gbt_error] is read when the script has failed; [now] is in nanoseconds. *)
Definition generate_signet_block `{TxLib} (config : signet_config) (db : Dbs) (now : Z) (signet_challenge : option Script)
    (dir : string) (mkdir download : option command_output) (run_miner : string * list string → miner_exit)
    (last_gbt_error : option string) (getbestblockhash : ClientError + BlockHash) (polls : list Dbs)
    (coinbase_recipient : option string) : st signet_dir GenerateSignetBlockError BlockHash :=
  tip ← st_lift (map_err SignetGetMainchainTip (get_mainchain_tip db));
  tip_header ← st_lift (map_err SignetGetHeaderInfo (get_header_info (block_hashes db) tip));
  let interval := target_block_interval <$> signet_challenge in
  mining_script_path ← st_map_err SignetMinerPath
                         (get_signet_miner_path (signet_mining_script_path config) dir mkdir download);
  let miner := signet_miner config mining_script_path interval coinbase_recipient in
  block_time ← st_lift (set_block_time (timestamp tip_header) interval now);
  let command_args := push_some (λ t, "--set-block-time=" ++ show t)%string block_time [] in
  st_lift (
    stderr ← match run_miner (miner_command miner "generate" command_args) with
             | MinerIo => Err (SignetMine UnknownIo)
             | MinerTimeout => Err SignetTimeout
             | MinerExit success stderr =>
                 _ ← reject_if (str_contains "WARNING submitblock returned bad-diffbits" stderr)
                       (SignetMine (Stderr (list_byte_of_string "block rejected: bad-diffbits")));
                 let template_err := match last_gbt_error with
                                     | Some e => newline ++ "block template error: " ++ e
                                     | None => ""
                                     end%string in
                 reject_if (negb success) (SignetMine (Stderr (list_byte_of_string (stderr ++ template_err))))
             end;
    block_hash ← map_err FetchMostRecentBlockHash (of_sum getbestblockhash);
    _ ← map_err SignetAwait (await_block_connection polls block_hash);
    Ok block_hash).
End command.

(** * Properties *)

(** A script path that is answered is the configured one, or the script is there, or
    an earlier download into the directory failed. *)
Lemma miner_path_found `{Utf8Lib} custom dir mkdir download s path s' :
  get_signet_miner_path custom dir mkdir download s = (Ok path, s') →
  custom = Some path
  ∨ (path = dir ++ "/signet-miner/contrib/signet/miner")%string ∧ dir_exists s' = true
    ∧ (downloaded s' = true ∨ dir_exists s = true ∧ s' = s).
Proof.
  unfold get_signet_miner_path. destruct custom as [p|]; [intros [= <- <-]; by left|].
  unfold mbind at 1, st_bind at 1, st_get. unfold mbind at 1, st_bind at 1. destruct (dir_exists s) eqn:Hd.
  - intros [= <- <-]. right. split; [done|]. split; [done|]. by right.
  - unfold mbind at 1, st_bind at 1, st_put at 1. unfold mbind at 1, st_bind at 1, st_lift at 1.
    destruct (map_err CreateSignetMinerDir _); [|done..].
    unfold mbind at 1, st_bind at 1, st_put at 1. unfold mbind at 1, st_bind at 1, st_lift at 1.
    destruct (map_err DownloadSignetMiner _) eqn:Hr; [|done..]. intros [= <- <-]. right. split; [done|]. split; [done|].
    left. cbn. apply map_err_Ok in Hr. unfold run_utf8, run in Hr. apply bind_Ok in Hr as (b & Hb & _).
    apply bind_Ok in Hb as (o & ->%ok_or_Ok & Ho). cbn. by destruct (success o).
Qed.

(** A failed download is never tried again: the directory is there, so every later
    call of the process answers the path of a script that is not. *)
Lemma failed_download_sticks `{Utf8Lib} dir mkdir download s mkdir' download' :
  dir_exists s = false → is_ok (run_utf8 mkdir) = true → succeeded download = false →
  ∃ e s', get_signet_miner_path None dir mkdir download s = (Err (DownloadSignetMiner e), s') ∧ downloaded s' = false
    ∧ get_signet_miner_path None dir mkdir' download' s' = (Ok (dir ++ "/signet-miner/contrib/signet/miner")%string, s').
Proof.
  intros Hd Hm Hdl. destruct (run_utf8 mkdir) as [text| |] eqn:Hmk; [|done..].
  assert (∃ e, run_utf8 download = Err e) as [e He].
  { unfold run_utf8, run. destruct download as [o|]; cbn; [|by eexists]. cbn in Hdl. rewrite Hdl. by eexists. }
  exists e, (mkSignetDir true false).
  unfold get_signet_miner_path, mbind, st_bind, st_get, st_put, st_lift. rewrite Hd, Hmk, He. cbn [map_err]. by rewrite Hdl.
Qed.

(** The block time asked of the signet miner is between the target interval after
    the tip and the present, in seconds. *)
Lemma set_block_time_between {E} tip interval now t :
  0 ≤ tip → 0 ≤ interval → now < 2 ^ 32 * NANOS → @set_block_time E tip (Some interval) now = Ok (Some t) →
  tip + interval ≤ t ≤ now / NANOS.
Proof.
  unfold set_block_time, NANOS. intros Ht Hi Hnow Hs. set (age := now - tip * 1000000000) in *.
  destruct (bool_decide _ && bool_decide _) eqn:Hb; [|done].
  apply andb_true_iff in Hb as [Ha Hb]. apply bool_decide_eq_true in Ha, Hb.
  apply bind_Ok in Hs as (next & Hn%expect_Ok & [= <-]).
  assert (interval ≤ age / 1000000000) by (apply Z.div_le_lower_bound; lia).
  assert (now / 1000000000 = age / 1000000000 + tip) as Hnw.
  { unfold age. rewrite <-Z.div_add by lia. f_equal. lia. }
  assert (now / 1000000000 < 2 ^ 32) by (apply Z.div_lt_upper_bound; lia).
  unfold checked_add, wrap_u in Hn. rewrite Z.mod_small in Hn.
  - case_match; [|done]. injection Hn as <-. rewrite Hnw.
    assert (interval ≤ (age / 1000000000 + interval) / 2) by (apply Z.div_le_lower_bound; lia).
    assert ((age / 1000000000 + interval) / 2 ≤ age / 1000000000) by (apply Z.div_le_upper_bound; lia). lia.
  - split; [apply Z.div_pos; lia|]. apply Z.div_lt_upper_bound; lia.
Qed.


(** What a successful signet block is: the script, run on the validator's tip with a
    block time between the target interval after the tip and the present, if it was
    given one, exited successfully and reported no bad difficulty; and the node's best
    block was then seen in the validator's databases. *)
Definition signet_mined `{TxLib} (config : signet_config) (db : Dbs) (now : Z) (signet_challenge : option Script)
    (run_miner : string * list string → miner_exit) (polls : list Dbs) (coinbase_recipient : option string) (bh : BlockHash) : Prop :=
  ∃ tip tip_header path block_time stderr,
    current_chain_tip db = Some tip ∧ get_header_info (block_hashes db) tip = Ok tip_header
    ∧ (∀ t interval, block_time = Some t → target_block_interval <$> signet_challenge = Some interval →
         0 ≤ timestamp tip_header → now < 2 ^ 32 * NANOS → timestamp tip_header + interval ≤ t ≤ now / NANOS)
    ∧ run_miner (miner_command (signet_miner config path (target_block_interval <$> signet_challenge) coinbase_recipient)
                   "generate" (push_some (λ t, "--set-block-time=" ++ show t)%string block_time [])) = MinerExit true stderr
    ∧ str_contains "WARNING submitblock returned bad-diffbits" stderr = false
    ∧ ∃ db' infos, db' ∈ polls ∧ try_get_block_infos (block_hashes db') bh 0 = Ok (Some infos).

Lemma target_block_interval_nonneg c : 0 ≤ target_block_interval c.
Proof. unfold target_block_interval. by case_bool_decide. Qed.

Lemma generate_signet_block_Ok `{Utf8Lib} `{TxLib} config db now challenge dir mkdir download run_miner gbt_error best polls
    recipient s bh s' :
  generate_signet_block config db now challenge dir mkdir download run_miner gbt_error best polls recipient s = (Ok bh, s') →
  best = inr bh ∧ signet_mined config db now challenge run_miner polls recipient bh.
Proof.
  unfold generate_signet_block. unfold mbind at 1, st_bind at 1, st_lift at 1.
  destruct (map_err SignetGetMainchainTip _) as [tip| |] eqn:Htip; [|done..]. apply map_err_Ok in Htip.
  unfold mbind at 1, st_bind at 1, st_lift at 1.
  destruct (map_err SignetGetHeaderInfo _) as [tip_header| |] eqn:Hinfo; [|done..]. apply map_err_Ok in Hinfo.
  unfold mbind at 1, st_bind at 1, st_map_err at 1. destruct (get_signet_miner_path _ _ _ _ s) as [[path| |] s1]; [|done..].
  cbn [map_err]. unfold mbind at 1, st_bind at 1, st_lift at 1.
  destruct (set_block_time _ _ now) as [block_time| |] eqn:Hbt; [|done..]. unfold st_lift. intros [= Hrun <-].
  apply bind_Ok in Hrun as (u & Hrun & Hbest). apply bind_Ok in Hbest as (bh' & Hbest%map_err_Ok%of_sum_Ok & Hw).
  apply bind_Ok in Hw as ([] & Hw%map_err_Ok & [= <-]). split; [done|].
  destruct (run_miner _) as [| |ok stderr] eqn:Hexit; [done..|]. apply bind_Ok in Hrun as ([] & Hbad%reject_if_Ok & Hok%reject_if_Ok).
  apply negb_false_iff in Hok as ->. exists tip, tip_header, path, block_time, stderr. split_and!; try done.
  - unfold get_mainchain_tip in Htip. by apply ok_or_Ok in Htip.
  - intros t interval -> Hi Ht Hnow. rewrite Hi in Hbt. eapply set_block_time_between; try done.
    destruct challenge as [c|]; [|done]. injection Hi as <-. apply target_block_interval_nonneg.
  - by apply await_block_connection_Ok.
Qed.

(** * Examples *)
Definition toy_utf8 : Utf8Lib := {| from_utf8 b := if bool_decide (b = [xff]) then None else Some (string_of_list_byte b) |}.
Definition ex_output (ok : bool) : option command_output := Some (mkOutput ok [] (list_byte_of_string "no network")).
Definition ex_signet_config : signet_config :=
  mkSignetConfig (mkMiningConfig true "bitcoin-cli" "bitcoin-util") None false
    (mkRpcConfig "127.0.0.1" 38332 None (Some "u"%string) (Some (new_secret "p"))) "127.0.0.1" 8122.

Definition ex_signet_block (download : bool) (run_miner : string * list string → miner_exit) :=
  @generate_signet_block toy_utf8 toy_tx ex_signet_config ex_db1 (2000000000 * NANOS) (Some [x51]) "/tmp/signet-miner-7"
    (ex_output true) (ex_output download) run_miner (Some "no peers"%string) (inr ex_tip) [ex_db1] None.

(** The block is mined on a path without the script when the download has failed
    before; the command names it, and the middle of the tip's age as the time. *)
Lemma signet_block_examples :
  (ex_signet_block true (λ _, MinerExit true "") (mkSignetDir false false)).1 = Ok ex_tip
  ∧ (ex_signet_block true (λ _, MinerTimeout) (mkSignetDir false false)).1 = Err SignetTimeout
  ∧ (ex_signet_block true (λ _, MinerExit false "gbt") (mkSignetDir false false)).1
    = Err (SignetMine (Stderr (list_byte_of_string ("gbt" ++ newline ++ "block template error: no peers"))))
  ∧ (ex_signet_block false (λ _, MinerExit true "") (mkSignetDir false false))
    = (Err (SignetMinerPath (DownloadSignetMiner (Stderr (list_byte_of_string "no network")))), mkSignetDir true false)
  ∧ (ex_signet_block false (λ c, if String.eqb c.1 "/tmp/signet-miner-7/signet-miner/contrib/signet/miner" then MinerIo
                                 else MinerTimeout) (mkSignetDir true false)).1 = Err (SignetMine UnknownIo).
Proof. vm_compute. repeat split; reflexivity. Qed.
