(* ===== verification/MiningService.v ===== *)
(** The mining service (`server/mining.rs`) on top of the block producer: the status
    codes of its errors (`block_producer/error.rs`, `bins.rs`, `validator/mod.rs`), one
    whole request, and the permit that keeps two requests from mining at once. *)
From Stdlib Require Import ZArith Lia Strings.Byte Strings.String.
From stdpp Require Import base list gmap strings relations.
From S2P Require Import Prelude Text Bitcoin Concrete Limits P2mrOutput Spend P2mrUtxo Dbs BlockHandler Enforcer Signer.
From S2P Require Import Rpc Server Mine ChainSource Cli SignetMine.
#[local] Open Scope Z_scope.

(** ** Status codes *)

Definition get_header_info_builder (e : GetHeaderInfoError) : ErrorCode := Unknown.
#[global] Instance get_header_info_status : ToStatus GetHeaderInfoError := get_header_info_builder.
(** Of [GetMainchainTipError] and [TryGetMainchainTipError]. *)
Definition mainchain_tip_builder (e : DbError) : ErrorCode := Unknown.
#[global] Instance mainchain_tip_status : ToStatus DbError := mainchain_tip_builder.

Definition command_builder (e : CommandError) : ErrorCode := Unknown.
#[global] Instance command_status : ToStatus CommandError := command_builder.

Definition get_block_template_builder (e : GetBlockTemplateError) : ErrorCode :=
  match gbt_source e with Transport => Unavailable | _ => Internal end.
#[global] Instance get_block_template_status : ToStatus GetBlockTemplateError := get_block_template_builder.

Definition select_block_txs_builder (e : SelectBlockTxsError) : ErrorCode :=
  match e with
  | GetBlockTemplateFailed err => builder err
  | DecodeTemplateTransaction _ => Internal
  | TemplateTipMismatch _ _ => FailedPrecondition
  end.
#[global] Instance select_block_txs_status : ToStatus SelectBlockTxsError := select_block_txs_builder.

Definition finalize_block_builder (e : FinalizeBlockError) : ErrorCode :=
  match e with
  | FinalizeGetHeaderInfo err => builder err
  | FinalizeGetMainchainTip err => builder err
  | FinalizeScript | FinalizeSystemTime => Unknown
  end.
#[global] Instance finalize_block_status : ToStatus FinalizeBlockError := finalize_block_builder.

Definition await_block_connection_builder (e : AwaitBlockConnectionError) : ErrorCode :=
  match e with AwaitTimeout _ => DeadlineExceeded | AwaitTryGetBlockInfos _ => Unknown end.
#[global] Instance await_block_connection_status : ToStatus AwaitBlockConnectionError := await_block_connection_builder.

Definition mine_builder (e : MineError) : ErrorCode :=
  match e with
  | MineAwait err => builder err
  | MineBitcoinCoreRPC err => builder err
  | MineEncodeBlock => Unknown
  | MineFinalizeBlock err => builder err
  | BlockRejected _ => Unknown
  end.
#[global] Instance mine_status : ToStatus MineError := mine_builder.

Definition verify_can_mine_builder (e : VerifyCanMineError) : ErrorCode :=
  match e with
  | CanMineRpc err => builder err
  | CanMineTemplate err => builder err
  | MissingBinary _ source => if source then Internal else FailedPrecondition
  | MultipleBlocksOnSignet => InvalidArgument
  | CanMineNetwork _ | NoBlockTemplateServerOnSignet | SignetChallengeAddressMissing _ => FailedPrecondition
  | NoSignetChallengeFound | ParseSignetChallenge => Unknown
  end.
#[global] Instance verify_can_mine_status : ToStatus VerifyCanMineError := verify_can_mine_builder.

Definition get_signet_miner_path_builder (e : GetSignetMinerPathError) : ErrorCode :=
  match e with CreateSignetMinerDir err | DownloadSignetMiner err => builder err end.
#[global] Instance get_signet_miner_path_status : ToStatus GetSignetMinerPathError := get_signet_miner_path_builder.

Definition generate_signet_block_builder (e : GenerateSignetBlockError) : ErrorCode :=
  match e with
  | SignetAwait err => builder err
  | FetchMostRecentBlockHash err => builder err
  | SignetGetHeaderInfo err => builder err
  | SignetGetMainchainTip err => builder err
  | SignetMinerPath err => builder err
  | SignetMine err => builder err
  | SignetTimeout => Unknown
  end.
#[global] Instance generate_signet_block_status : ToStatus GenerateSignetBlockError := generate_signet_block_builder.

Definition generate_block_builder (e : GenerateBlockError) : ErrorCode :=
  match e with
  | GenerateSignetBlock err => builder err
  | GenerateMine err => builder err
  | GenerateSelectBlockTxs err => builder err
  | ValidatorNotSynced => Unknown
  end.
#[global] Instance generate_block_status : ToStatus GenerateBlockError := generate_block_builder.

(** ** A request

    What the [i]-th block is generated from; the databases are those at the points
    where the handler reads them. *)
Record block_inputs := mkInputs {
  bi_db_tip : Dbs;
  bi_db : Dbs;
  bi_now : option Z;
  bi_reply : ClientError + BlockTemplate;
  bi_template_error : option string;
  bi_submit_block : bytes → ClientError + option string;
  bi_polls : list Dbs
}.

Section service.
Context `{TxLib} `{SignLib} `{MineLib} `{HexLib} `{CodecLib} {Unchecked Address : Type}.
Variable parse_address : string → option Unchecked.
Variable require_network : Unchecked → option Address.
Variable script_pubkey_of : Address → Script.
(** The node's answers to [verify_can_mine], a signet run for an address, and the
    inputs of the blocks. *)
Variable verify_can_mine : Z → outcome VerifyCanMineError unit.
Variable signet : Address → outcome GenerateSignetBlockError BlockHash.
Variable inputs : nat → block_inputs.

(** One block; running out of fuel, which [2 ^ 32] rounds exclude, counts as a
    panic. *)
Definition generate (fuel : nat) (network : Network) (coinbase_addr : Address) (i : nat) :
    outcome GenerateBlockError BlockHash :=
  let bi := inputs i in
  default Panic (generate_block fuel network (signet coinbase_addr) (bi_db_tip bi) (bi_db bi) (bi_now bi) (bi_reply bi)
                   (bi_template_error bi) (bi_submit_block bi) (bi_polls bi) (script_pubkey_of coinbase_addr)).

Definition generate_to_address_request (fuel : nat) (network : Network) (blocks : option Z) (address : string)
    (busy : bool) : outcome ConnectError (list ReverseHex) :=
  map_err (λ e, match e with
                | inl (inl err) => err
                | inl (inr err) => to_connect_error err
                | inr err => to_connect_error err
                end)
    (generate_to_address parse_address require_network blocks address busy verify_can_mine (generate fuel network)).
End service.

(** * Lemmas *)

Lemma generate_blocks_Err `{HexLib} `{CodecLib} {E} (generate : nat → outcome E BlockHash) i n e :
  generate_blocks generate i n = Err e → ∃ j, (i ≤ j < i + n)%nat ∧ generate j = Err e.
Proof.
  revert i. induction n as [|n IH]; intros i; cbn [generate_blocks]; [done|].
  intros [Hg|(bh & _ & [Hg|(l & _ & Hg)]%bind_Err)]%bind_Err; [exists i; split; [lia|done]| |discriminate Hg].
  destruct (IH _ Hg) as (j & Hj & ?). exists j. split; [lia|done].
Qed.

(** The node has no wallet loaded. *)
Definition no_core_wallet (e : ClientError) : Prop :=
  ∃ message, e = Call BITCOIN_CORE_RPC_ERROR_H_NOT_FOUND message ∧ str_contains "No wallet is loaded" message = true.

Lemma client_code (e : ClientError) :
  no_core_wallet e ∧ builder e = FailedPrecondition ∨ ¬ no_core_wallet e ∧ builder e = Unknown.
Proof.
  unfold no_core_wallet, builder, bitcoin_core_rpc_status, bitcoin_core_rpc_builder.
  destruct e as [code message| |]; [|by right; split; [intros (? & [=] & _)|]..].
  destruct (Z.eqb_spec code BITCOIN_CORE_RPC_ERROR_H_NOT_FOUND) as [->|Hc]; cbn [andb].
  - destruct (str_contains _ message) eqn:Hm; [left; split; [by exists message|done]|right].
    split; [|done]. intros (m & [= <-] & Hm'). congruence.
  - right. split; [|done]. by intros (m & [=] & _).
Qed.

(** ** Why a block failed, by the code of its error *)

Section failures.
Context `{TxLib} `{SignLib} `{MineLib}.

(** The template's transactions, decoded, on the tip of [bi_db_tip]. *)
Definition selected (bi : block_inputs) (txs : list Transaction) : Prop :=
  ∃ tip, current_chain_tip (bi_db_tip bi) = Some tip ∧ select_block_txs (bi_reply bi) (bi_template_error bi) tip = Ok txs.

(** The block made of them, under one of the headers that were tried. *)
Definition candidate (bi : block_inputs) (spk : Script) (b : MinedBlock) : Prop :=
  ∃ txs b0 n, selected bi txs ∧ finalize_block (bi_db bi) (bi_now bi) spk [] txs = Ok b0
    ∧ b = mkMinedBlock (set_nonce (mb_header b0) n) (mb_txdata b0) ∧ validate_pow (mb_header b) = true.

(** What the node answers to it. *)
Definition submitted (bi : block_inputs) (spk : Script) (bh : BlockHash) (answer : ClientError + option string) : Prop :=
  ∃ b encoded, candidate bi spk b ∧ mined_block_hash (mb_header b) = bh ∧ block_encode b = Some encoded
    ∧ bi_submit_block bi encoded = answer.

Inductive block_failure (bi : block_inputs) (spk : Script) : ErrorCode → Prop :=
| tips_disagree t tip :
    current_chain_tip (bi_db_tip bi) = Some tip → bi_reply bi = inr t → template_prev_blockhash t ≠ tip →
    block_failure bi spk FailedPrecondition
| submit_without_wallet bh e :
    submitted bi spk bh (inl e) → no_core_wallet e → block_failure bi spk FailedPrecondition
| template_server_down : bi_reply bi = inl Transport → block_failure bi spk Unavailable
| template_refused e : bi_reply bi = inl e → e ≠ Transport → block_failure bi spk Internal
| template_undecodable t txid data :
    bi_reply bi = inr t → (txid, data) ∈ template_transactions t → tx_deserialize data = None →
    block_failure bi spk Internal
| not_connected_in_time bh :
    submitted bi spk bh (inr None) → (∀ db, db ∈ bi_polls bi → try_get_block_infos (block_hashes db) bh 0 = Ok None) →
    block_failure bi spk DeadlineExceeded
| validator_not_synced : current_chain_tip (bi_db_tip bi) = None → block_failure bi spk Unknown
| not_finalized txs e :
    selected bi txs → finalize_block (bi_db bi) (bi_now bi) spk [] txs = Err e → block_failure bi spk Unknown
| not_encoded b : candidate bi spk b → block_encode b = None → block_failure bi spk Unknown
| submit_failed bh e : submitted bi spk bh (inl e) → ¬ no_core_wallet e → block_failure bi spk Unknown
| block_refused bh reason : submitted bi spk bh (inr (Some reason)) → block_failure bi spk Unknown
| poll_failed bh db e :
    submitted bi spk bh (inr None) → db ∈ bi_polls bi → try_get_block_infos (block_hashes db) bh 0 = Err e →
    block_failure bi spk Unknown.

(** On signet, from the error of the script's run. *)
Inductive signet_failure : GenerateSignetBlockError → ErrorCode → Prop :=
| best_block_without_wallet e : no_core_wallet e → signet_failure (FetchMostRecentBlockHash e) FailedPrecondition
| best_block_failed e : ¬ no_core_wallet e → signet_failure (FetchMostRecentBlockHash e) Unknown
| signet_not_connected bh : signet_failure (SignetAwait (AwaitTimeout bh)) DeadlineExceeded
| signet_poll_failed e : signet_failure (SignetAwait (AwaitTryGetBlockInfos e)) Unknown
| signet_tip_failed e : signet_failure (SignetGetMainchainTip e) Unknown
| signet_header_failed e : signet_failure (SignetGetHeaderInfo e) Unknown
| signet_path_failed e : signet_failure (SignetMinerPath e) Unknown
| signet_script_failed e : signet_failure (SignetMine e) Unknown
| signet_script_timeout : signet_failure SignetTimeout Unknown.

Definition block_error (network : Network) (bi : block_inputs) (signet : outcome GenerateSignetBlockError BlockHash)
    (spk : Script) (c : ErrorCode) : Prop :=
  if bool_decide (network = Signet) then ∃ e, signet = Err e ∧ signet_failure e c else block_failure bi spk c.

Lemma signet_error e : signet_failure e (builder e).
Proof.
  destruct e as [[bh|e]|e|e|e|[e|e]|e|]; try by constructor.
  change (builder (FetchMostRecentBlockHash e)) with (builder e).
  destruct (client_code e) as [[Hw ->]|[Hw ->]]; by constructor.
Qed.

Lemma grind_not_Err {E} fuel h (e : E) : grind fuel h ≠ Some (Err e).
Proof.
  revert h. induction fuel as [|fuel IH]; intros h; cbn [grind]; [done|].
  destruct (checked_add _ _ _); [|done]. case_match; [done|apply IH].
Qed.

Lemma await_error polls bh e :
  await_block_connection polls bh = Err e →
  e = AwaitTimeout bh ∧ (∀ db, db ∈ polls → try_get_block_infos (block_hashes db) bh 0 = Ok None)
  ∨ ∃ db err, e = AwaitTryGetBlockInfos err ∧ db ∈ polls ∧ try_get_block_infos (block_hashes db) bh 0 = Err err.
Proof.
  induction polls as [|db polls IH]; cbn [await_block_connection].
  - intros [= <-]. left. split; [done|]. intros db Hdb. by apply elem_of_nil in Hdb.
  - intros [Hm|([infos|] & Hi%map_err_Ok & Ha)]%bind_Err; [|done|].
    + apply map_err_Err in Hm as (e' & ? & ->). right. exists db, e'. split_and!; [done|apply list_elem_of_here|done].
    + destruct (IH Ha) as [[-> Hall]|(db' & err & -> & Hdb & ?)].
      * left. split; [done|]. intros db' [->|Hdb]%elem_of_cons; [done|by apply Hall].
      * right. exists db', err. split_and!; [done|by apply list_elem_of_further|done].
Qed.

Lemma mine_error fuel bi spk txs e :
  selected bi txs →
  mine fuel (bi_db bi) (bi_now bi) (bi_submit_block bi) (bi_polls bi) spk [] txs = Some (Err e) →
  block_failure bi spk (builder e).
Proof.
  intros Hsel. unfold mine. destruct (map_err MineFinalizeBlock _) as [b|e'|] eqn:Hf; [|intros [= <-]|done].
  2: { apply map_err_Err in Hf as (e & Hf & ->). destruct e; by apply (not_finalized _ _ _ _ Hsel Hf). }
  apply map_err_Ok in Hf. destruct (grind fuel _) as [g|] eqn:Hg; [|done]. cbn [mbind option_bind]. intros [= Hr].
  apply bind_Err in Hr as [->|(header & -> & Hr)]; [by apply grind_not_Err in Hg|].
  apply grind_Ok in Hg as (Hpow & n & ->). set (b' := mkMinedBlock (set_nonce (mb_header b) n) (mb_txdata b)) in *.
  assert (candidate bi spk b') as Hc by by exists txs, b, n.
  apply bind_Err in Hr as [[He ->]%ok_or_Err|(encoded & He%ok_or_Ok & Hr)]; [by apply (not_encoded _ _ _ Hc)|].
  assert (submitted bi spk (mined_block_hash (mb_header b')) (bi_submit_block bi encoded)) as Hsub by by exists b', encoded.
  apply bind_Err in Hr as [(e' & Hs%of_sum_Err & ->)%map_err_Err|(answer & Hs%map_err_Ok%of_sum_Ok & Hr)]; rewrite Hs in Hsub.
  { change (builder (MineBitcoinCoreRPC e')) with (builder e').
    destruct (client_code e') as [[Hw ->]|[Hw ->]]; by econstructor. }
  destruct answer as [reason|]; cbn in Hr; [injection Hr as <-; by apply (block_refused _ _ _ reason Hsub)|].
  apply bind_Err in Hr as [(e' & Ha & ->)%map_err_Err|([] & _ & Hr)]; [|done].
  destruct (await_error _ _ _ Ha) as [[-> Hall]|(db & err & -> & Hdb & Herr)]; [|by apply (poll_failed _ _ _ _ _ Hsub Hdb Herr)].
  by apply (not_connected_in_time _ _ _ Hsub).
Qed.

Lemma decode_error l acc e :
  for_each (λ '(txid, data) res,
    transaction ← ok_or (tx_deserialize data) (DecodeTemplateTransaction txid);
    Ok (res ++ [transaction])) l acc = Err e →
  ∃ txid data, e = DecodeTemplateTransaction txid ∧ (txid, data) ∈ l ∧ tx_deserialize data = None.
Proof.
  revert acc. induction l as [|[txid data] l IH]; intros acc; cbn [for_each]; [done|].
  intros [[[Hd ->]%ok_or_Err|(? & _ & Hd)]%bind_Err|(acc' & _ & Hd)]%bind_Err; [|done|].
  - exists txid, data. split_and!; [done|apply list_elem_of_here|done].
  - destruct (IH _ Hd) as (t' & d' & ? & ? & ?). exists t', d'. split_and!; [done|by apply list_elem_of_further|done].
Qed.

Lemma select_error bi spk tip e :
  current_chain_tip (bi_db_tip bi) = Some tip →
  select_block_txs (bi_reply bi) (bi_template_error bi) tip = Err e → block_failure bi spk (builder e).
Proof.
  intros Htip. unfold select_block_txs, fetch_block_template. intros [Hf|(t & Ht & Hs)]%bind_Err.
  - apply map_err_Err in Hf as (g & (src & Hsrc%of_sum_Err & ->)%map_err_Err & ->).
    destruct src; [by eapply template_refused|by apply template_server_down|by eapply template_refused].
  - apply map_err_Ok, map_err_Ok, of_sum_Ok in Ht. apply bind_Err in Hs as [Hr|([] & _ & Hs)].
    + unfold reject_if in Hr. destruct (bool_decide_reflect (template_prev_blockhash t = tip)) as [|Hn]; [done|].
      injection Hr as <-. by eapply tips_disagree.
    + destruct (decode_error _ _ _ Hs) as (txid & data & -> & ? & ?). by eapply template_undecodable.
Qed.

Lemma generate_error fuel network bi signet spk e :
  generate_block fuel network signet (bi_db_tip bi) (bi_db bi) (bi_now bi) (bi_reply bi) (bi_template_error bi)
    (bi_submit_block bi) (bi_polls bi) spk = Some (Err e) →
  block_error network bi signet spk (builder e).
Proof.
  unfold generate_block, block_error. case_bool_decide.
  - intros [= (e' & Hs & ->)%map_err_Err]. exists e'. split; [done|].
    change (builder (GenerateSignetBlock e')) with (builder e'). apply signet_error.
  - unfold try_get_mainchain_tip. destruct (current_chain_tip (bi_db_tip bi)) as [tip|] eqn:Htip.
    2: { intros [= <-]. by apply validator_not_synced. }
    destruct (map_err GenerateSelectBlockTxs _) as [txs|e'|] eqn:Hs; [|intros [= <-]|done].
    + destruct (mine _ _ _ _ _ _ _ _) as [m|] eqn:Hm; [|done]. intros [= (e' & -> & ->)%map_err_Err].
      change (builder (GenerateMine e')) with (builder e'). apply (mine_error _ _ _ _ _ ltac:(exists tip; split; [done|by apply map_err_Ok in Hs]) Hm).
    + apply map_err_Err in Hs as (e & Hs & ->). change (builder (GenerateSelectBlockTxs e)) with (builder e).
      by eapply select_error.
Qed.
End failures.

(** ** Why mining is impossible *)

Section refusals.
Context `{MineLib}.
Variable config : mining_config.
Variable count : Z.
Variable reply : ClientError + BlockTemplate.
Variable get_address_info : bytes → ClientError + bool.
Variable which : string → option bool.

(** The address of the challenge that the template carries. *)
Definition challenge_address (a : bytes) : Prop :=
  ∃ t c, reply = inr t ∧ template_signet_challenge t = Some c ∧ signet_address c = Some a.
Definition needed (binary : string) : Prop := binary ∈ ["python3"%string; bitcoin_cli_path config; bitcoin_util_path config].

Inductive cannot_mine : Network → ErrorCode → Prop :=
| network_not_minable network : network ≠ Regtest → network ≠ Signet → cannot_mine network FailedPrecondition
| no_template_server : enable_block_template_server config = false → cannot_mine Signet FailedPrecondition
| multiple_signet_blocks : 1 < count → cannot_mine Signet InvalidArgument
| signet_template_server_down : reply = inl Transport → cannot_mine Signet Unavailable
| signet_template_refused e : reply = inl e → e ≠ Transport → cannot_mine Signet Internal
| no_challenge t : reply = inr t → template_signet_challenge t = None → cannot_mine Signet Unknown
| bad_challenge t c :
    reply = inr t → template_signet_challenge t = Some c → signet_address c = None → cannot_mine Signet Unknown
| address_info_without_wallet a e :
    challenge_address a → get_address_info a = inl e → no_core_wallet e → cannot_mine Signet FailedPrecondition
| address_info_failed a e :
    challenge_address a → get_address_info a = inl e → ¬ no_core_wallet e → cannot_mine Signet Unknown
| challenge_not_ours a : challenge_address a → get_address_info a = inr false → cannot_mine Signet FailedPrecondition
| binary_missing b : needed b → which b = Some false → cannot_mine Signet FailedPrecondition
| which_failed b : needed b → which b = None → cannot_mine Signet Internal.

Lemma which_error b e : needed b → check_has_binary which b = Err e → cannot_mine Signet (builder e).
Proof.
  intros Hb. unfold check_has_binary. intros [[Hw ->]%ok_or_Err|(found & Hf%ok_or_Ok & Hr)]%bind_Err; [by apply (which_failed b)|].
  destruct found; [done|]. injection Hr as <-. by apply (binary_missing b).
Qed.

Lemma can_mine_error network template_error e :
  verify_can_mine network config count reply template_error get_address_info which = Err e → cannot_mine network (builder e).
Proof.
  unfold verify_can_mine. destruct network; try (by intros [= <-]; apply network_not_minable).
  intros [Hr|([] & _ & Hr)]%bind_Err.
  { unfold reject_if in Hr. destruct (enable_block_template_server config) eqn:He; [done|]. injection Hr as <-. by apply no_template_server. }
  apply bind_Err in Hr as [Hr|([] & _ & Hr)].
  { unfold reject_if in Hr. destruct (Z.ltb_spec 1 count); [|done]. injection Hr as <-. by apply multiple_signet_blocks. }
  apply bind_Err in Hr as [Hr|(t & Ht%map_err_Ok%map_err_Ok%of_sum_Ok & Hr)].
  { apply map_err_Err in Hr as (g & (src & Hsrc%of_sum_Err & ->)%map_err_Err & ->).
    destruct src; [by eapply signet_template_refused|by apply signet_template_server_down|by eapply signet_template_refused]. }
  apply bind_Err in Hr as [[Hc ->]%ok_or_Err|(c & Hc%ok_or_Ok & Hr)]; [by apply (no_challenge t)|].
  apply bind_Err in Hr as [[Ha ->]%ok_or_Err|(a & Ha%ok_or_Ok & Hr)]; [by apply (bad_challenge t c)|].
  assert (challenge_address a) as Hca by by exists t, c.
  apply bind_Err in Hr as [(e' & Hs%of_sum_Err & ->)%map_err_Err|(mine & Hm%map_err_Ok%of_sum_Ok & Hr)].
  { change (builder (CanMineRpc e')) with (builder e'). destruct (client_code e') as [[Hw ->]|[Hw ->]]; by econstructor. }
  apply bind_Err in Hr as [Hr|([] & _ & Hr)].
  { destruct mine; [done|]. injection Hr as <-. by apply (challenge_not_ours a). }
  assert (∀ b, needed b → check_has_binary which b = Err e → cannot_mine Signet (builder e)) as Hw by by intros; eapply which_error.
  apply bind_Err in Hr as [Hr|([] & _ & Hr)]; [|apply bind_Err in Hr as [Hr|([] & _ & Hr)]];
    eapply Hw, Hr; unfold needed; rewrite !elem_of_cons; auto.
Qed.
End refusals.

(** * Properties *)

(** C17: A mining request.  If it succeeds, no other request was mining, and it answers
    one hash per block asked for, in order, each of a block that was mined and
    connected as [mined] says, or on signet of the script's run.  If it fails, its code
    says why: the request is malformed, or asks for several blocks on signet; another
    request is mining; or, for each other code, one of the reasons that [cannot_mine]
    (the network, the node, the binaries) and [block_failure], [signet_failure] (of a
    block asked for) list under that code: [Unavailable] only when the template server
    is not up, [DeadlineExceeded] only when the validator had the block at none of the
    polls, [Internal] for a template the server refuses or that does not decode, or a
    [which] that cannot be run, and [Unknown] for an unsynced validator, a block that
    cannot be finalised, encoded or submitted or that the node refuses, a failed read of
    the databases, an unusable challenge, or a failed script.  A panic is not excluded. *)
Theorem generate_to_address_outcome `{TxLib} `{SignLib} `{MineLib} `{HexLib} `{CodecLib} {Unchecked Address : Type}
    (parse_address : string → option Unchecked) (require_network : Unchecked → option Address) script_pubkey_of
    config reply template_error info which signet inputs fuel network blocks address busy :
  let count := default 1 blocks in
  (∀ i, map_Forall (λ _ h, in_u 32 h) (heights (block_hashes (bi_db (inputs i))))) →
  match generate_to_address_request parse_address require_network script_pubkey_of
          (λ count, verify_can_mine network config count reply template_error info which) signet inputs
          fuel network blocks address busy with
  | Ok l =>
      busy = false ∧ length l = Z.to_nat count ∧ ∃ u addr, parse_address address = Some u ∧ require_network u = Some addr
        ∧ ∀ i, (i < Z.to_nat count)%nat → ∃ bh, l !! i = Some (encode_hash bh)
            ∧ if bool_decide (network = Signet) then signet addr = Ok bh
              else let bi := inputs i in
                   mined (bi_db_tip bi) (bi_db bi) (bi_now bi) (bi_reply bi) (bi_submit_block bi) (bi_polls bi)
                     (script_pubkey_of addr) bh
  | Err e =>
      let because c :=
        cannot_mine config count reply info which network c
        ∨ ∃ i addr, (i < Z.to_nat count)%nat ∧ parse_address address ≫= require_network = Some addr
                    ∧ block_error network (inputs i) (signet addr) (script_pubkey_of addr) c in
      match ce_code e with
      | InvalidArgument =>
          count = 0 ∨ address = ""%string ∨ parse_address address ≫= require_network = None
          ∨ network = Signet ∧ 1 < count
      | ResourceExhausted => busy = true
      | c => busy = false ∧ because c
      end
  | Panic => True
  end.
Proof.
  intros count Hu. unfold generate_to_address_request. set (r := generate_to_address _ _ _ _ _ _ _).
  destruct r as [l|e|] eqn:Hr; [| |done]; subst r; unfold generate_to_address in Hr; fold count in Hr; cbn [map_err].
  - apply bind_Ok in Hr as ([] & _ & Hr). apply bind_Ok in Hr as ([] & _ & Hr).
    apply bind_Ok in Hr as (u & Hp%ok_or_Ok & Hr). apply bind_Ok in Hr as (addr & Ha%ok_or_Ok & Hr).
    apply bind_Ok in Hr as ([] & Hb%reject_if_Ok & Hr). apply bind_Ok in Hr as ([] & _ & Hr%map_err_Ok).
    apply generate_blocks_Ok in Hr as [Hlen Hl]. split; [done|]. split; [done|]. exists u, addr. split; [done|]. split; [done|].
    intros i Hi. destruct (Hl i Hi) as (bh & Hg & Hli). exists bh. split; [done|]. rewrite Nat.add_0_l in Hg.
    unfold generate in Hg. destruct (generate_block _ _ _ _ _ _ _ _ _ _ _) as [g|] eqn:Hgb; cbn in Hg; [subst g|done].
    case_bool_decide as Hn.
    + unfold generate_block in Hgb. rewrite bool_decide_true in Hgb by done. injection Hgb as Hgb. by apply map_err_Ok in Hgb.
    + by eapply generate_block_Ok.
  - apply bind_Err in Hr as [Hr|([] & _ & Hr)].
    { unfold reject_if in Hr. destruct (Z.eqb_spec count 0); [|done]. injection Hr as <-. by left. }
    apply bind_Err in Hr as [Hr|([] & _ & Hr)].
    { unfold reject_if in Hr. destruct (String.eqb_spec address ""); [|done]. injection Hr as <-. right. by left. }
    apply bind_Err in Hr as [[Hp ->]%ok_or_Err|(u & Hp%ok_or_Ok & Hr)]; [right; right; left; by rewrite Hp|].
    apply bind_Err in Hr as [[Ha ->]%ok_or_Err|(addr & Ha%ok_or_Ok & Hr)]; [right; right; left; by rewrite Hp|].
    apply bind_Err in Hr as [Hr|([] & Hb%reject_if_Ok & Hr)].
    { unfold reject_if in Hr. destruct busy; [|done]. by injection Hr as <-. }
    apply bind_Err in Hr as [Hr|([] & _ & Hr)]; apply map_err_Err in Hr as (e' & He & ->); cbn [ce_code to_connect_error].
    + apply can_mine_error in He. destruct (builder e'); try by (split; [done|by left]).
      * inversion He; subst. right. right. by right.
      * inversion He.
    + apply generate_blocks_Err in He as (j & Hj & He). unfold generate in He.
      destruct (generate_block _ _ _ _ _ _ _ _ _ _ _) as [g|] eqn:Hgb; cbn in He; [subst g|done].
      apply generate_error in Hgb.
      assert (busy = false ∧ ∃ i addr', (i < Z.to_nat count)%nat ∧ parse_address address ≫= require_network = Some addr'
                ∧ block_error network (inputs i) (signet addr') (script_pubkey_of addr') (builder e')) as [Hb' Hbe].
      { split; [done|]. exists j, addr. split; [lia|]. split; [by rewrite Hp|done]. }
      destruct (builder e'); try by (split; [done|by right]).
      * destruct Hbe as (i & a & _ & _ & Hbe). unfold block_error in Hbe. case_bool_decide; [destruct Hbe as (? & _ & Hbe)|]; inversion Hbe.
      * destruct Hbe as (i & a & _ & _ & Hbe). unfold block_error in Hbe. case_bool_decide; [destruct Hbe as (? & _ & Hbe)|]; inversion Hbe.
Qed.

(** ** The permit

    [generate_blocks_semaphore] has one permit; a request takes it without waiting,
    and drops it when it returns, whatever it returns. *)
Record permits := mkPermits { available : nat; mining : list nat }.
Definition try_acquire (id : nat) (p : permits) : option permits :=
  match available p with O => None | S n => Some (mkPermits n (id :: mining p)) end.
Definition drop_permit (id : nat) (p : permits) : permits :=
  mkPermits (S (available p)) (filter (λ i, i ≠ id) (mining p)).

(** A request starts, is refused, or returns; identifiers are not used twice. *)
Inductive request_step : permits → permits → Prop :=
| request_starts id p p' : id ∉ mining p → try_acquire id p = Some p' → request_step p p'
| request_refused id p : try_acquire id p = None → request_step p p
| request_returns id p : id ∈ mining p → request_step p (drop_permit id p).

(** At most one request mines at any time, and one is refused exactly while another
    mines. *)
Lemma one_request_mines p :
  rtc request_step (mkPermits 1 []) p →
  (length (mining p) ≤ 1)%nat ∧ ∀ id, try_acquire id p = None ↔ mining p ≠ [].
Proof.
  intros Hr. assert (available p = 1%nat ∧ mining p = [] ∨ available p = 0%nat ∧ ∃ id, mining p = [id]) as Hinv.
  { revert p Hr. apply rtc_ind_r; [by left|]. intros p q _ Hstep IH.
    inversion Hstep as [id p0 p' Hnew Hacq| |id p0 Hin]; subst; [|done|].
    - right. unfold try_acquire in Hacq. destruct IH as [[Ha Hm]|[Ha _]]; rewrite Ha in Hacq; [|done].
      injection Hacq as <-. split; [done|]. exists id. cbn. by rewrite Hm.
    - left. unfold drop_permit. cbn. destruct IH as [[_ Hm]|[Ha [id' Hm]]]; rewrite Hm in Hin |- *; [by apply elem_of_nil in Hin|].
      apply list_elem_of_singleton in Hin as ->. rewrite Ha. split; [done|]. rewrite filter_cons_False by naive_solver. done. }
  unfold try_acquire. destruct Hinv as [[-> ->]|[-> [id ->]]]; (split; [cbn; lia|]); intros; split; done.
Qed.

(** * Witnesses *)

Definition ex_inputs (template_prev : BlockHash) (i : nat) : block_inputs :=
  mkInputs ex_db1 ex_db1 (Some 1700000000) (inr (mkBlockTemplate template_prev [([x05], [x01])] None)) None (λ _, inr None)
    (if (i =? 2)%nat then [] else [ex_db1]).
Definition ex_request (template_prev : BlockHash) (blocks : option Z) (address : string) (busy : bool) :=
  @generate_to_address_request toy_tx toy_sign toy_mine toy_hex toy_codec string string
    (λ s, if String.eqb s "bad" then None else Some s) Some (λ _, [x51])
    (λ count, @verify_can_mine toy_mine Regtest (mkMiningConfig false "" "") count (inl Transport) None (λ _, inl Transport) (λ _, None))
    (λ _, Err SignetTimeout) (ex_inputs template_prev) 5 Regtest blocks address busy.

(** Two blocks; a third one that is not connected in time; a template on another tip;
    and a second request. *)
Lemma generate_to_address_outcome_witness :
  (∃ l, ex_request ex_tip (Some 2) "a" false = Ok l ∧ length l = 2%nat
     ∧ ∃ bh, @mined toy_tx toy_sign toy_mine ex_db1 ex_db1 (Some 1700000000) (inr ex_template) (λ _, inr None) [ex_db1] [x51] bh)
  ∧ ex_request ex_tip (Some 3) "a" false = Err (mkConnectError DeadlineExceeded None)
  ∧ ex_request [x00] None "a" false = Err (mkConnectError FailedPrecondition None)
  ∧ ex_request ex_tip None "a" true = Err (mkConnectError ResourceExhausted None)
  ∧ (∃ e, ex_request ex_tip None "bad" true = Err e ∧ ce_code e = InvalidArgument).
Proof.
  split; [|vm_compute; repeat split; eexists; split; reflexivity].
  destruct (ex_request ex_tip (Some 2) "a" false) as [l|e|] eqn:Hr; [|vm_compute in Hr; discriminate..].
  exists l. split; [reflexivity|].
  pose proof (@generate_to_address_outcome toy_tx toy_sign toy_mine toy_hex toy_codec string string
    (λ s, if String.eqb s "bad" then None else Some s) Some (λ _, [x51]) (mkMiningConfig false "" "") (inl Transport) None
    (λ _, inl Transport) (λ _, None) (λ _, Err SignetTimeout) (ex_inputs ex_tip) 5 Regtest (Some 2) "a" false) as Ho.
  cbv zeta in Ho. unfold ex_request in Hr. rewrite Hr in Ho.
  destruct Ho as (_ & Hlen & u & addr & _ & _ & Hall).
  { intros i. apply (bool_decide_unpack _). vm_compute. exact I. }
  split; [exact Hlen|]. destruct (Hall 0%nat) as (bh & _ & Hm); [vm_compute; lia|]. exists bh. exact Hm.
Defined.
