(* ===== verification/Events.v ===== *)
(** The event streams of the validator (`validator/mod.rs`: [Validator::new],
    [subscribe_events]) and of its service (`server/validator/grpc.rs`).

    The broadcast channel is that of the [async_broadcast] crate, and the stream is made by
    [try_unfold] of the [futures] crate: both are parameters, with what they are documented
    to do as laws.  Sends, the closing of the channel and the subscriber's polls interleave
    as the steps of a relation. *)
From Stdlib Require Import ZArith Lia Strings.Byte Strings.String.
From stdpp Require Import base list gmap relations.
From S2P Require Import Prelude Bitcoin Concrete Limits Spend P2mrUtxo Dbs Rpc Server.
#[local] Open Scope Z_scope.

Definition EVENTS_CHANNEL_CAPACITY : nat := 2000.

(** ** Third-party code *)

(** [async_broadcast]: the state that a channel's senders and receivers share, and a
    receiver.  [recv_direct] gives [None] while it waits. *)
Inductive RecvError := Overflowed (n : nat) | Closed.
Class BroadcastLib := {
  channel : Type;
  Receiver : Type;
  broadcast : nat → channel;
  set_await_active : bool → channel → channel;
  set_overflow : bool → channel → channel;
  try_broadcast : Event → channel → channel;
  drop_senders : channel → channel;
  activate_cloned : channel → Receiver;
  recv_direct : channel → Receiver → option (outcome RecvError Event) * Receiver;
}.

(** Its documentation, by what can be observed of a channel: its capacity and mode, the
    messages handed to it so far, and whether its senders are gone; and of a receiver: the
    position of its next message.  In overflow mode a full channel drops its oldest
    message, and a receiver that needs a dropped one is told that it missed some. *)
Class BroadcastLaws `{BroadcastLib} := {
  capacity : channel → nat;
  overflow : channel → bool;
  sent : channel → list Event;
  closed : channel → bool;
  position : Receiver → nat;
  broadcast_new n : let c := broadcast n in
    capacity c = n ∧ overflow c = false ∧ sent c = [] ∧ closed c = false;
  set_await_active_spec b c : let c' := set_await_active b c in
    capacity c' = capacity c ∧ overflow c' = overflow c ∧ sent c' = sent c ∧ closed c' = closed c;
  set_overflow_spec b c : let c' := set_overflow b c in
    capacity c' = capacity c ∧ overflow c' = b ∧ sent c' = sent c ∧ closed c' = closed c;
  try_broadcast_spec ev c : overflow c = true → closed c = false → let c' := try_broadcast ev c in
    capacity c' = capacity c ∧ overflow c' = true ∧ sent c' = sent c ++ [ev] ∧ closed c' = false;
  drop_senders_spec c : let c' := drop_senders c in
    capacity c' = capacity c ∧ overflow c' = overflow c ∧ sent c' = sent c ∧ closed c' = true;
  activate_cloned_spec c : position (activate_cloned c) = length (sent c);
  recv_missed c r : overflow c = true → (position r < length (sent c) - capacity c)%nat →
    ∃ n, (recv_direct c r).1 = Some (Err (Overflowed n));
  recv_next c r ev : (length (sent c) - capacity c ≤ position r)%nat → sent c !! position r = Some ev →
    (recv_direct c r).1 = Some (Ok ev) ∧ position (recv_direct c r).2 = S (position r);
  recv_wait c r : position r = length (sent c) → closed c = false →
    (recv_direct c r).1 = None ∧ position (recv_direct c r).2 = position r;
  recv_closed c r : position r = length (sent c) → closed c = true →
    (recv_direct c r).1 = Some (Err Closed);
}.

(** [futures::stream::try_unfold], fused: [f] is what a poll of the closure's future does to
    the state, in the surroundings [c]: it waits ([None]), gives an item and the next state,
    ends the stream, or fails. *)
Class UnfoldLib := {
  TryUnfold : Type → Type;
  try_unfold {R} : R → TryUnfold R;
  poll_next {C R A E} (f : C → R → option (outcome E (option A)) * R) (c : C) :
    TryUnfold R → option (option (outcome E A)) * TryUnfold R;
}.
(** An unfolded stream is its state, until it has ended; the end and an error are final. *)
Class UnfoldLaws `{UnfoldLib} := {
  unfold_state {R} : TryUnfold R → option R;
  try_unfold_spec {R} (r : R) : unfold_state (try_unfold r) = Some r;
  poll_next_ended {C R A E} (f : C → R → option (outcome E (option A)) * R) c s : unfold_state s = None →
    (poll_next f c s).1 = Some None ∧ unfold_state (poll_next f c s).2 = None;
  poll_next_spec {C R A E} (f : C → R → option (outcome E (option A)) * R) c s r : unfold_state s = Some r →
    let next := unfold_state (poll_next f c s).2 in
    match f c r with
    | (None, r') => (poll_next f c s).1 = None ∧ next = Some r'
    | (Some (Ok (Some item)), r') => (poll_next f c s).1 = Some (Some (Ok item)) ∧ next = Some r'
    | (Some (Ok None), _) => (poll_next f c s).1 = Some None ∧ next = None
    | (Some (Err e), _) => (poll_next f c s).1 = Some (Some (Err e)) ∧ next = None
    | (Some Panic, _) => (poll_next f c s).1 = Some (Some Panic) ∧ next = None
    end;
}.

(** ** subscribe_events *)

Inductive EventsStreamError := StreamOverflow.
#[global] Instance events_stream_status : ToStatus EventsStreamError := λ _, Unknown.

Section subscribe_events.
Context `{BroadcastLib} `{UnfoldLib}.

(** The channel of [Validator::new]. *)
Definition new_events_channel : channel :=
  set_overflow true (set_await_active false (broadcast EVENTS_CHANNEL_CAPACITY)).

(** The closure given to [try_unfold]. *)
Definition next_event (c : channel) (receiver : Receiver) :
    option (outcome EventsStreamError (option Event)) * Receiver :=
  let '(r, receiver) := recv_direct c receiver in
  (match r with
   | Some (Ok event) => Some (Ok (Some event))
   | Some (Err Closed) => Some (Ok None)
   | Some (Err (Overflowed _)) => Some (Err StreamOverflow)
   | Some Panic => Some Panic
   | None => None
   end, receiver).

Definition subscribe_events (c : channel) : TryUnfold Receiver := try_unfold (activate_cloned c).

(** One poll of the stream: what it answers ([Some None] ends it, [None] is to wait), and
    what is left of it. *)
Definition poll (c : channel) (s : TryUnfold Receiver) :
    option (option (outcome EventsStreamError Event)) * TryUnfold Receiver :=
  poll_next next_event c s.
End subscribe_events.

(** The service's stream maps each item. *)
Definition grpc_item `{HexLib} `{CodecLib} `{TxLib} (item : outcome EventsStreamError Event) : outcome ConnectError ProtoEvent :=
  match item with
  | Ok event => Ok (event_into_proto event)
  | Err err => Err (to_connect_error err)
  | Panic => Panic
  end.

(** ** Steps

    The channel, a subscription, the items it has answered, and whether it has
    answered its end; and, to state what it should answer, the events broadcast so far. *)
Record world `{BroadcastLib} `{UnfoldLib} := mkWorld {
  w_channel : channel;
  w_sub : TryUnfold Receiver;
  w_sent : list Event;
  w_closed : bool;
  items : list (outcome EventsStreamError Event);
  ended : bool
}.
Arguments mkWorld {_ _} _ _ _ _ _ _.

Section steps.
Context `{BroadcastLib} `{UnfoldLib}.
Inductive step : world → world → Prop :=
| step_send c s l is_ e ev :
    step (mkWorld c s l false is_ e) (mkWorld (try_broadcast ev c) s (l ++ [ev]) false is_ e)
| step_close c s l b is_ e :
    step (mkWorld c s l b is_ e) (mkWorld (drop_senders c) s l true is_ e)
| step_item c s l b is_ e item : (poll c s).1 = Some (Some item) →
    step (mkWorld c s l b is_ e) (mkWorld c (poll c s).2 l b (is_ ++ [item]) e)
| step_wait c s l b is_ e : (poll c s).1 = None →
    step (mkWorld c s l b is_ e) (mkWorld c (poll c s).2 l b is_ e)
| step_end c s l b is_ e : (poll c s).1 = Some None →
    step (mkWorld c s l b is_ e) (mkWorld c (poll c s).2 l b is_ true).

(** The validator's channel after the events [before], and a subscription to it. *)
Definition broadcast_all (before : list Event) : channel :=
  foldl (λ c ev, try_broadcast ev c) new_events_channel before.
Definition subscribed (before : list Event) : world :=
  mkWorld (broadcast_all before) (subscribe_events (broadcast_all before)) before false [] false.
End steps.

(** * Lemmas *)
Section stream.
Context `{BroadcastLaws} `{UnfoldLaws}.

(** The channel is the validator's, with the events broadcast; its subscription has seen
    the events from its start on, each once and in order; after a missed one, an error and
    nothing more. *)
Record stream_inv (before : list Event) (w : world) : Prop := {
  si_channel : capacity (w_channel w) = EVENTS_CHANNEL_CAPACITY ∧ overflow (w_channel w) = true
    ∧ sent (w_channel w) = w_sent w ∧ closed (w_channel w) = w_closed w;
  si_before : before `prefix_of` w_sent w;
  si_items : ∃ n, (length before + n ≤ length (w_sent w))%nat
    ∧ let events := map Ok (take n (drop (length before) (w_sent w))) in
      match unfold_state (w_sub w) with
      | Some r => position r = (length before + n)%nat ∧ items w = events ∧ ended w = false
      | None => (items w = events ∧ w_closed w = true ∧ (length before + n = length (w_sent w))%nat)
                ∨ (items w = events ++ [Err StreamOverflow]
                   ∧ (length before + n < length (w_sent w) - EVENTS_CHANNEL_CAPACITY)%nat)
      end
}.

Lemma take_drop_app {A} before n (l k : list A) :
  (before + n ≤ length l)%nat → take n (drop before (l ++ k)) = take n (drop before l).
Proof.
  intros Hle. rewrite drop_app_le by lia. rewrite take_app_le; [done|]. rewrite length_drop. lia.
Qed.

(** One poll of a subscription that runs. *)
Lemma poll_spec c s r : overflow c = true → (position r ≤ length (sent c))%nat → unfold_state s = Some r →
  let next := unfold_state (poll c s).2 in
  if decide (position r < length (sent c) - capacity c)%nat
  then (poll c s).1 = Some (Some (Err StreamOverflow)) ∧ next = None
  else match sent c !! position r with
       | Some ev => (poll c s).1 = Some (Some (Ok ev)) ∧ ∃ r', next = Some r' ∧ position r' = S (position r)
       | None => if closed c then (poll c s).1 = Some None ∧ next = None
                 else (poll c s).1 = None ∧ ∃ r', next = Some r' ∧ position r' = position r
       end.
Proof.
  intros Ho Hle Hs. cbv zeta. pose proof (poll_next_spec next_event c s r Hs) as Hp. cbv zeta in Hp. fold (poll c s) in Hp.
  unfold next_event in Hp. destruct (recv_direct c r) as [o r'] eqn:Hr.
  destruct (decide _) as [Hm|Hm].
  - destruct (recv_missed c r Ho Hm) as [n Hn]. rewrite Hr in Hn. cbn in Hn. by rewrite Hn in Hp.
  - destruct (sent c !! position r) as [ev|] eqn:Hev.
    + destruct (recv_next c r ev ltac:(lia) Hev) as [Hn Hpos]. rewrite Hr in Hn, Hpos. cbn in Hn, Hpos. rewrite Hn in Hp.
      destruct Hp as [Hp Hs']. split; [done|]. by exists r'.
    + apply lookup_ge_None in Hev. destruct (closed c) eqn:Hc.
      * pose proof (recv_closed c r ltac:(lia) Hc) as Hn. rewrite Hr in Hn. cbn in Hn. by rewrite Hn in Hp.
      * destruct (recv_wait c r ltac:(lia) Hc) as [Hn Hpos]. rewrite Hr in Hn, Hpos. cbn in Hn, Hpos. rewrite Hn in Hp.
        destruct Hp as [Hp Hs']. split; [done|]. by exists r'.
Qed.

Lemma stream_inv_poll before c s l b is_ e : stream_inv before (mkWorld c s l b is_ e) →
  match (poll c s).1 with
  | Some (Some item) => stream_inv before (mkWorld c (poll c s).2 l b (is_ ++ [item]) e)
  | None => stream_inv before (mkWorld c (poll c s).2 l b is_ e)
  | Some None => stream_inv before (mkWorld c (poll c s).2 l b is_ true)
  end.
Proof.
  intros [(Hcap & Ho & Hl & Hb) Hpre (n & Hn & Hi)]. cbn [w_channel w_sub w_sent w_closed items ended] in *.
  subst l b.
  destruct (unfold_state s) as [r|] eqn:Hs.
  - destruct Hi as (Hpos & -> & ->). pose proof (poll_spec c s r Ho ltac:(lia) Hs) as Hp. rewrite Hpos, Hcap in Hp.
    destruct (decide _) as [Hm|Hm].
    + destruct Hp as [-> Hs']. split; [by split_and!|done|]. exists n. cbn [w_sub w_sent items]. rewrite Hs'. split; [done|]. by right.
    + destruct (sent c !! (length before + n)%nat) as [ev|] eqn:Hev.
      * destruct Hp as (-> & r' & Hs' & Hpos'). split; [by split_and!|done|]. exists (S n). cbn [w_sub w_sent items ended].
        rewrite Hs'. pose proof (lookup_lt_Some _ _ _ Hev). split; [lia|]. split_and!; [lia| |done].
        rewrite (take_S_r _ _ ev), map_app; [done|]. by rewrite lookup_drop.
      * apply lookup_ge_None in Hev. destruct (closed c) eqn:Hc.
        -- destruct Hp as [-> Hs']. split; [by split_and!|done|]. exists n. cbn [w_sub w_sent items w_closed]. rewrite Hs'.
           split; [done|]. left. split_and!; [done|done|lia].
        -- destruct Hp as (-> & r' & Hs' & Hpos'). split; [by split_and!|done|]. exists n. cbn [w_sub w_sent items ended].
           rewrite Hs'. split; [done|]. split_and!; [lia|done|done].
  - destruct (poll_next_ended next_event c s Hs) as [Hp Hs']. unfold poll. rewrite Hp.
    split; [by split_and!|done|]. exists n. cbn [w_sub w_sent items w_closed]. by rewrite Hs'.
Qed.

Lemma stream_inv_step before w w' : step w w' → stream_inv before w → stream_inv before w'.
Proof.
  intros Hstep Hinv.
  destruct Hstep as [c s l is_ e ev|c s l b is_ e|c s l b is_ e item Hp|c s l b is_ e Hp|c s l b is_ e Hp];
    [| |pose proof (stream_inv_poll _ _ _ _ _ _ _ Hinv) as Hp'; by rewrite Hp in Hp'..].
  - destruct Hinv as [(Hcap & Ho & Hsent & Hcl) Hpre (n & Hn & Hi)]. cbn [w_channel w_sub w_sent w_closed items ended] in *.
    destruct (try_broadcast_spec ev c Ho Hcl) as (Hcap' & Ho' & Hsent' & Hcl').
    split; cbn [w_channel w_sub w_sent w_closed items ended].
    + by rewrite Hcap', Ho', Hsent', Hcl', Hsent.
    + by apply prefix_app_r.
    + exists n. rewrite length_app. cbn [length]. split; [lia|]. rewrite take_drop_app by done.
      destruct (unfold_state s); [done|]. destruct Hi as [(_ & ? & _)|[? ?]]; [done|right; split; [done|lia]].
  - destruct Hinv as [(Hcap & Ho & Hsent & Hcl) Hpre (n & Hn & Hi)]. cbn [w_channel w_sub w_sent w_closed items ended] in *.
    destruct (drop_senders_spec c) as (Hcap' & Ho' & Hsent' & Hcl').
    split; cbn [w_channel w_sub w_sent w_closed items ended]; [by rewrite Hcap', Ho', Hsent', Hcl'|done|].
    exists n. split; [done|]. destruct (unfold_state s); [done|]. destruct Hi as [(? & _ & ?)|?]; [left|right]; done.
Qed.

Lemma broadcast_all_spec before : let c := broadcast_all before in
  capacity c = EVENTS_CHANNEL_CAPACITY ∧ overflow c = true ∧ sent c = before ∧ closed c = false.
Proof.
  cbv zeta. unfold broadcast_all. induction before as [|ev before (Hcap & Ho & Hsent & Hcl)] using rev_ind.
  - cbn. unfold new_events_channel. destruct (broadcast_new EVENTS_CHANNEL_CAPACITY) as (H1' & _ & H3' & H4').
    destruct (set_await_active_spec false (broadcast EVENTS_CHANNEL_CAPACITY)) as (A1 & _ & A3 & A4).
    destruct (set_overflow_spec true (set_await_active false (broadcast EVENTS_CHANNEL_CAPACITY))) as (O1 & O2 & O3 & O4).
    split_and!; congruence.
  - rewrite foldl_app. cbn. destruct (try_broadcast_spec ev _ Ho Hcl) as (T1 & T2 & T3 & T4). split_and!; congruence.
Qed.

Lemma subscribed_inv before : stream_inv before (subscribed before).
Proof.
  destruct (broadcast_all_spec before) as (Hcap & Ho & Hsent & Hcl). split; [by split_and!|done|].
  exists 0%nat. cbn [w_sub w_sent items ended subscribed]. unfold subscribe_events. rewrite try_unfold_spec.
  split; [lia|]. split_and!; [|done|done]. rewrite activate_cloned_spec, Hsent. lia.
Qed.

(** * Properties *)

(** C9: A subscriber sees the validator's events from its subscription on, each
    once, in order and without a gap, however sends and polls interleave; if it
    falls behind by more than the channel holds, it gets one error and the end
    instead of a gap; and a stream that ends without the error has delivered every
    event that was sent.  The channel and [try_unfold] are third-party code, taken to do
    what they are documented to do. *)
Theorem events_in_order before w :
  rtc step (subscribed before) w →
  ∃ n, let events := take n (drop (length before) (w_sent w)) in
    before `prefix_of` w_sent w
    ∧ ((items w = map Ok events ∧ (ended w = true → events = drop (length before) (w_sent w)))
       ∨ (items w = map Ok events ++ [Err StreamOverflow]
          ∧ (EVENTS_CHANNEL_CAPACITY < length (w_sent w) - (length before + n))%nat)).
Proof.
  intros Hr. assert (stream_inv before w) as [_ Hpre (n & Hn & Hi)].
  { revert w Hr. apply (rtc_ind_r (stream_inv before)); [apply subscribed_inv|].
    intros w w' _ Hs Hi. by eapply stream_inv_step. }
  exists n. split; [done|]. cbv zeta in Hi |- *. destruct (unfold_state (w_sub w)) as [r|].
  - destruct Hi as (_ & -> & He). left. split; [done|]. by rewrite He.
  - destruct Hi as [(-> & _ & Hall)|[-> Hlt]]; [left|right]; (split; [done|]); [intros _|lia].
    rewrite take_ge; [done|]. rewrite length_drop. lia.
Qed.

(** A subscriber that has not fallen behind gets the next event at its next poll. *)
Lemma poll_next_event c s r ev : overflow c = true → unfold_state s = Some r →
  sent c !! position r = Some ev → (length (sent c) ≤ position r + capacity c)%nat →
  (poll c s).1 = Some (Some (Ok ev)).
Proof.
  intros Ho Hs Hev Hle. pose proof (lookup_lt_Some _ _ _ Hev).
  pose proof (poll_spec c s r Ho ltac:(lia) Hs) as Hp. rewrite decide_False, Hev in Hp by lia. apply Hp.
Qed.
End stream.

(** * Witnesses *)

(** A channel as its messages, and a receiver as its position. *)
Record ref_channel := mkRefChannel { rc_capacity : nat; rc_overflow : bool; rc_sent : list Event; rc_closed : bool }.
Definition ref_recv (c : ref_channel) (pos : nat) : option (outcome RecvError Event) * nat :=
  let oldest := (length (rc_sent c) - rc_capacity c)%nat in
  if (pos <? oldest)%nat then (Some (Err (Overflowed (oldest - pos))), oldest)
  else match rc_sent c !! pos with
       | Some event => (Some (Ok event), S pos)
       | None => (if rc_closed c then Some (Err Closed) else None, pos)
       end.
#[local] Instance ref_broadcast : BroadcastLib := {
  broadcast n := mkRefChannel n false [] false;
  set_await_active _ c := c;
  set_overflow b c := mkRefChannel (rc_capacity c) b (rc_sent c) (rc_closed c);
  try_broadcast ev c := mkRefChannel (rc_capacity c) (rc_overflow c) (rc_sent c ++ [ev]) (rc_closed c);
  drop_senders c := mkRefChannel (rc_capacity c) (rc_overflow c) (rc_sent c) true;
  activate_cloned c := length (rc_sent c);
  recv_direct := ref_recv;
}.
#[local] Instance ref_broadcast_laws : BroadcastLaws.
Proof.
  refine {| capacity := rc_capacity : channel → nat; overflow := rc_overflow : channel → bool;
    sent := rc_sent : channel → list Event; closed := rc_closed : channel → bool; position := (λ p, p) : Receiver → nat |};
    try done; cbn; unfold ref_recv.
  - intros c r _ Hlt. destruct (Nat.ltb_spec r (length (rc_sent c) - rc_capacity c)); [by eexists|lia].
  - intros c r ev Hle Hev. destruct (Nat.ltb_spec r (length (rc_sent c) - rc_capacity c)); [lia|]. by rewrite Hev.
  - intros c r -> Hc. destruct (Nat.ltb_spec (length (rc_sent c)) (length (rc_sent c) - rc_capacity c)); [lia|].
    by rewrite lookup_ge_None_2, Hc by lia.
  - intros c r -> Hc. destruct (Nat.ltb_spec (length (rc_sent c)) (length (rc_sent c) - rc_capacity c)); [lia|].
    by rewrite lookup_ge_None_2, Hc by lia.
Defined.

(** A stream as its state. *)
Definition ref_poll {C R A E} (f : C → R → option (outcome E (option A)) * R) (c : C) (s : option R) :
    option (option (outcome E A)) * option R :=
  match s with
  | None => (Some None, None)
  | Some r =>
      match f c r with
      | (None, r) => (None, Some r)
      | (Some (Ok (Some item)), r) => (Some (Some (Ok item)), Some r)
      | (Some (Ok None), _) => (Some None, None)
      | (Some (Err e), _) => (Some (Some (Err e)), None)
      | (Some Panic, _) => (Some (Some Panic), None)
      end
  end.
#[local] Instance ref_unfold : UnfoldLib := { TryUnfold := option; try_unfold R r := Some r; poll_next C R A E := ref_poll }.
#[local] Instance ref_unfold_laws : UnfoldLaws.
Proof.
  refine {| unfold_state R := (λ s, s) : TryUnfold R → option R |}; [done|by intros C R A E f c s ->|].
  intros C R A E f c s r ->. cbn. by destruct (f c r) as [[[[?|]|?|]|] ?].
Defined.

Definition ex_ev (n : nat) : Event := DisconnectBlockEvent (replicate n x00).

(** One event before the subscription, one after it, and the end. *)
Lemma events_in_order_witness :
  let w := mkWorld (drop_senders (broadcast_all [ex_ev 1; ex_ev 2])) None [ex_ev 1; ex_ev 2] true [Ok (ex_ev 2)] true in
  rtc step (subscribed [ex_ev 1]) w ∧ items w = map Ok (drop 1 (w_sent w)).
Proof.
  intros w. assert (rtc step (subscribed [ex_ev 1]) w) as Hr.
  { eapply rtc_l; [apply (step_send _ _ _ _ _ (ex_ev 2))|].
    eapply rtc_l; [apply step_close|]. eapply rtc_l; [eapply step_item; vm_compute; reflexivity|].
    eapply rtc_l; [apply step_end; vm_compute; reflexivity|]. apply rtc_refl. }
  split; [exact Hr|].
  destruct (events_in_order [ex_ev 1] w Hr) as (n & _ & [[Hi He]|[Hi _]]).
  - rewrite Hi. f_equal. apply (He eq_refl).
  - exfalso. destruct n as [|[|n]]; discriminate Hi.
Defined.
