(* ===== verification/Progress.v ===== *)
(** The lock of [sync_to_tip] and the streams of the header sync's progress
    (`enforcer.rs`: [sync_to_tip]; `task/mod.rs`: the sends of [sync_headers];
    `validator/mod.rs`, `server/validator/grpc.rs`: [subscribe_header_sync_progress]).

    A sync holds the lock, which is the receiver of a [tokio::sync::watch] channel, and
    its sender; a subscriber clones the receiver and makes it a [WatchStream].  Both are
    third-party code and so parameters, with what they are documented to do as laws.
    Syncs, subscribers and their polls interleave as the steps of a relation. *)
From Stdlib Require Import ZArith Lia Strings.Byte Strings.String.
From stdpp Require Import base list gmap relations.
From S2P Require Import Prelude Bitcoin Rpc Sync.
#[local] Open Scope Z_scope.

(** ** Third-party code *)

(** [tokio::sync::watch]: the state that a sender and its receivers share; and
    [tokio_stream::wrappers::WatchStream]: a poll waits ([None]), ends ([Some None]) or
    answers a value. *)
Class WatchLib := {
  watch : Type;
  WatchStream : Type;
  watch_channel : option Z → watch;
  send : option Z → watch → watch;
  drop_sender : watch → watch;
  WatchStream_new : watch → WatchStream;
  poll_next : watch → WatchStream → option (option (option Z)) * WatchStream;
}.
(** Their documentation, by what can be observed: the values a channel has had, of which
    it keeps the last, and whether its sender is there; and how many of the values were
    there when a stream last answered one.  A new stream answers the current value; then
    one answers the last value when there is one it has not seen, and ends when there is
    none and the sender is gone.  A value is sent while there are receivers: the lock is one. *)
Class WatchLaws `{WatchLib} := {
  values : watch → list (option Z);
  sender_alive : watch → bool;
  seen : WatchStream → nat;
  watch_channel_spec v : values (watch_channel v) = [v] ∧ sender_alive (watch_channel v) = true;
  send_spec v c : sender_alive c = true → values (send v c) = values c ++ [v] ∧ sender_alive (send v c) = true;
  drop_sender_spec c : values (drop_sender c) = values c ∧ sender_alive (drop_sender c) = false;
  WatchStream_new_spec c : seen (WatchStream_new c) = O;
  poll_unseen c t v : (seen t < length (values c))%nat → last (values c) = Some v →
    (poll_next c t).1 = Some (Some v) ∧ seen (poll_next c t).2 = length (values c);
  poll_wait c t : seen t = length (values c) → sender_alive c = true →
    (poll_next c t).1 = None ∧ seen (poll_next c t).2 = seen t;
  poll_end c t : seen t = length (values c) → sender_alive c = false →
    (poll_next c t).1 = Some None ∧ seen (poll_next c t).2 = seen t;
}.

Section progress.
Context `{WatchLib}.

(** ** The validator: its lock and the channels of all syncs *)
Record syncs := mkSyncs { lock : option nat; channels : list watch }.

(** The start of [sync_to_tip]: the channel of the sync. *)
Definition begin_sync : st syncs SyncError nat :=
  s ← st_get;
  _ ← st_lift (reject_if (bool_decide (is_Some (lock s))) HeaderSyncInProgress);
  let id := length (channels s) in
  _ ← st_put (mkSyncs (Some id) (channels s ++ [watch_channel None]));
  mret id.

(** A batch of headers is stored. *)
Definition send_progress (id : nat) (height : Z) (s : syncs) : syncs :=
  mkSyncs (lock s) (alter (send (Some height)) id (channels s)).

(** The future of the sync ends, or is dropped at the shutdown signal; then the branch
    of the [select!] gives the lock back. *)
Definition end_sync_future (id : nat) (s : syncs) : syncs := mkSyncs (lock s) (alter drop_sender id (channels s)).
Definition release (s : syncs) : syncs := mkSyncs None (channels s).

(** [subscribe_header_sync_progress] of the validator and of the service: the channel, and
    the stream made of its receiver. *)
Definition progress_receiver (s : syncs) : option nat := lock s.
Definition subscribe_header_sync_progress (s : syncs) : outcome ConnectError (nat * WatchStream) :=
  id ← ok_or (progress_receiver s) (mkConnectError Unavailable None);
  c ← expect (channels s !! id);
  Ok (id, WatchStream_new c).

(** ** Steps

    A subscriber: its channel, its stream, what it has been answered, and whether it has
    been answered the end; and, to state what it should be answered, how many values its
    channel had had at each of its polls, the last poll first. *)
Record subscriber := mkSubscriber {
  s_channel : nat; s_stream : WatchStream; items : list (option Z); ended : bool; looks : list nat }.

(** [n]: the number of values at this poll. *)
Definition answered (r : option (option (option Z))) (stream : WatchStream) (n : nat) (t : subscriber) : subscriber :=
  mkSubscriber (s_channel t) stream (items t ++ match r with Some (Some v) => [v] | _ => [] end)
    (match r with Some None => true | _ => ended t end) (n :: looks t).

(** The syncs that run, whose futures are alive or have ended, and the subscribers; and
    the values sent so far to each sync's channel. *)
Record world := mkWorld {
  w_syncs : syncs; running : list nat; closing : list nat; streams : list subscriber; w_values : list (list (option Z)) }.

Inductive step : world → world → Prop :=
| step_begin w id s' : begin_sync (w_syncs w) = (Ok id, s') →
    step w (mkWorld s' (id :: running w) (closing w) (streams w) (w_values w ++ [[None]]))
| step_refused w e s' : begin_sync (w_syncs w) = (Err e, s') →
    step w (mkWorld s' (running w) (closing w) (streams w) (w_values w))
| step_progress w id height : id ∈ running w →
    step w (mkWorld (send_progress id height (w_syncs w)) (running w) (closing w) (streams w)
      (alter (λ l, l ++ [Some height]) id (w_values w)))
| step_future_ends w id pre post : running w = pre ++ id :: post →
    step w (mkWorld (end_sync_future id (w_syncs w)) (pre ++ post) (id :: closing w) (streams w) (w_values w))
| step_release w id pre post : closing w = pre ++ id :: post →
    step w (mkWorld (release (w_syncs w)) (running w) (pre ++ post) (streams w) (w_values w))
| step_subscribe w id stream : subscribe_header_sync_progress (w_syncs w) = Ok (id, stream) →
    step w (mkWorld (w_syncs w) (running w) (closing w) (streams w ++ [mkSubscriber id stream [] false []]) (w_values w))
| step_poll w pre t post c l : streams w = pre ++ t :: post → ended t = false →
    channels (w_syncs w) !! s_channel t = Some c → w_values w !! s_channel t = Some l →
    step w (mkWorld (w_syncs w) (running w) (closing w)
      (pre ++ answered (poll_next c (s_stream t)).1 (poll_next c (s_stream t)).2 (length l) t :: post) (w_values w)).

Definition idle : world := mkWorld (mkSyncs None []) [] [] [] [].
End progress.
Arguments mkWorld {_} _ _ _ _ _.
Arguments mkSubscriber {_} _ _ _ _ _.
Arguments mkSyncs {_} _ _.

(** What a subscriber should have been answered: at each poll the last value there, unless
    it had been answered already. *)
Fixpoint last_values (l : list (option Z)) (looks : list nat) : list (option Z) :=
  match looks with
  | [] => []
  | n :: rest =>
      if bool_decide (head rest = Some n) then last_values l rest
      else last_values l rest ++ option_list (l !! Nat.pred n)
  end.

(** * Lemmas *)
Lemma last_values_app l k looks : Forall (λ n, n ≤ length l)%nat looks → Forall (λ n, 0 < n)%nat looks →
  last_values (l ++ k) looks = last_values l looks.
Proof.
  induction looks as [|n looks IH]; [done|]. intros [Hn Hl]%Forall_cons [Hp Hl']%Forall_cons. cbn [last_values].
  rewrite IH by done. rewrite lookup_app_l by lia. done.
Qed.

Lemma last_values_last l n looks : Forall (λ n, 0 < n ≤ length l)%nat (n :: looks) →
  last (last_values l (n :: looks)) = l !! Nat.pred n.
Proof.
  revert n. induction looks as [|m looks IH]; intros n [Hn Hl]%Forall_cons; cbn [last_values head];
    (destruct (lookup_lt_is_Some_2 l (Nat.pred n)) as [v Hv]; [lia|]).
  - rewrite bool_decide_false by done. by rewrite Hv.
  - case_bool_decide as Heq; [injection Heq as ->; by apply IH|]. rewrite Hv. apply last_snoc.
Qed.

Section stream.
Context `{WatchLaws}.

(** A subscriber has been answered what it should. *)
Record stream_ok (c : watch) (l : list (option Z)) (t : subscriber) : Prop := {
  so_items : items t = last_values l (looks t);
  so_bounded : Forall (λ n, n ≤ length l)%nat (looks t);
  so_positive : Forall (λ n, 0 < n)%nat (looks t);
  so_seen : seen (s_stream t) = default O (head (looks t));
  so_ended : ended t = true → sender_alive c = false ∧ head (looks t) = Some (length l)
}.

Record world_inv (w : world) : Prop := {
  inv_lock : match lock (w_syncs w) with
             | None => running w = [] ∧ closing w = []
             | Some id => running w ++ closing w = [id] ∧ (id < length (channels (w_syncs w)))%nat
             end;
  inv_values : w_values w = map values (channels (w_syncs w));
  inv_nonempty id c : channels (w_syncs w) !! id = Some c → values c ≠ [];
  inv_alive id c : channels (w_syncs w) !! id = Some c → sender_alive c = true ↔ id ∈ running w;
  inv_streams t : t ∈ streams w → ∃ c, channels (w_syncs w) !! s_channel t = Some c ∧ stream_ok c (values c) t
}.

Lemma stream_ok_send v c t : sender_alive c = true → stream_ok c (values c) t →
  stream_ok (send v c) (values (send v c)) t.
Proof.
  intros Ha [Hi Hb Hp Hs He]. destruct (send_spec v c Ha) as [Hv _]. split; rewrite ?Hv.
  - by rewrite last_values_app.
  - eapply Forall_impl; [exact Hb|]. intros n Hn. cbn in Hn. rewrite length_app. lia.
  - done.
  - done.
  - intros Hend. destruct (He Hend). congruence.
Qed.
Lemma stream_ok_drop c t : stream_ok c (values c) t → stream_ok (drop_sender c) (values (drop_sender c)) t.
Proof.
  intros [Hi Hb Hp Hs He]. destruct (drop_sender_spec c) as [Hv Ha]. split; rewrite ?Hv; try done.
  intros Hend. by destruct (He Hend).
Qed.

Lemma stream_ok_poll c t : values c ≠ [] → ended t = false → stream_ok c (values c) t →
  stream_ok c (values c) (answered (poll_next c (s_stream t)).1 (poll_next c (s_stream t)).2 (length (values c)) t).
Proof.
  intros Hne Hend [Hi Hb Hp Hs He]. destruct (poll_next c (s_stream t)) as [r stream] eqn:Hpoll. cbn [fst snd].
  assert (0 < length (values c))%nat as Hpos by (destruct (values c); [done|cbn; lia]).
  destruct (last (values c)) as [v|] eqn:Hlast; [|by apply last_None in Hlast].
  assert (seen (s_stream t) ≤ length (values c))%nat as Hle.
  { rewrite Hs. destruct (looks t) as [|n l]; cbn; [lia|]. by apply Forall_cons in Hb as [? _]. }
  assert (Forall (λ n, n ≤ length (values c))%nat (length (values c) :: looks t)) as Hb' by by constructor.
  assert (Forall (λ n, 0 < n)%nat (length (values c) :: looks t)) as Hp' by by constructor.
  destruct (decide (seen (s_stream t) = length (values c))) as [Heq|Hneq].
  - assert (head (looks t) = Some (length (values c))) as Hhead.
    { rewrite Hs in Heq. destruct (looks t) as [|n ns]; [change (O = length (values c)) in Heq; lia|].
      change (n = length (values c)) in Heq. by rewrite Heq. }
    assert (∃ o, (o = None ∨ o = Some None ∧ sender_alive c = false) ∧ r = o ∧ seen stream = length (values c)) as (o & Ho & -> & Hseen).
    { destruct (sender_alive c) eqn:Ha.
      - destruct (poll_wait c (s_stream t) Heq Ha) as [H1' H2']. rewrite Hpoll in H1', H2'. cbn in *.
        exists None. split_and!; [by left|done|congruence].
      - destruct (poll_end c (s_stream t) Heq Ha) as [H1' H2']. rewrite Hpoll in H1', H2'. cbn in *.
        exists (Some None). split_and!; [by right|done|congruence]. }
    split; cbn [answered items looks s_stream ended]; [|done|done|done|].
    + cbn [last_values]. rewrite bool_decide_true by done. destruct Ho as [->|[-> _]]; by rewrite app_nil_r.
    + rewrite Hend. by destruct Ho as [->|[-> ?]].
  - destruct (poll_unseen c (s_stream t) v ltac:(lia) Hlast) as [H1' H2']. rewrite Hpoll in H1', H2'. cbn in H1', H2'.
    subst r. split; cbn [answered items looks s_stream ended]; [|done|done|done|by rewrite Hend].
    cbn [last_values]. rewrite bool_decide_false.
    + rewrite <- last_lookup, Hlast, Hi. done.
    + intros Hhead. apply Hneq. by rewrite Hs, Hhead.
Qed.

Lemma alter_lookup_Some {A} (f : A → A) i j (l : list A) c :
  alter f i l !! j = Some c ↔ ∃ c', l !! j = Some c' ∧ c = if decide (i = j) then f c' else c'.
Proof.
  rewrite list_lookup_alter. destruct (decide (i = j)) as [<-|Hne]; [rewrite fmap_Some|]; naive_solver.
Qed.
Lemma map_alter {A B} (f : A → A) (g : A → B) (h : B → B) i (l : list A) :
  (∀ c, l !! i = Some c → g (f c) = h (g c)) → map g (alter f i l) = alter h i (map g l).
Proof.
  revert i. induction l as [|x l IH]; intros [|i] Hfg; cbn; [done|done| |].
  - f_equal. by apply Hfg.
  - f_equal. by apply IH.
Qed.

(** Steps that change one channel keep the others' subscribers. *)
Lemma streams_alter f id (s : syncs) (ts : list subscriber) :
  (∀ c t, channels s !! id = Some c → stream_ok c (values c) t → stream_ok (f c) (values (f c)) t) →
  (∀ t, t ∈ ts → ∃ c, channels s !! s_channel t = Some c ∧ stream_ok c (values c) t) →
  ∀ t, t ∈ ts → ∃ c, alter f id (channels s) !! s_channel t = Some c ∧ stream_ok c (values c) t.
Proof.
  intros Hf Hs t Ht. destruct (Hs t Ht) as (c & Hc & Hok).
  exists (if decide (id = s_channel t) then f c else c). split; [apply alter_lookup_Some; by exists c|].
  destruct (decide (id = s_channel t)) as [->|]; [by eapply Hf|done].
Qed.

Lemma world_inv_step w w' : step w w' → world_inv w → world_inv w'.
Proof.
  intros Hstep Hinv. pose proof Hinv as [Hl Hv Hne Ha Hs].
  destruct Hstep as [w id s' Hb|w e s' Hb|w id height Hid|w id pre post Hr|w id pre post Hc|w id stream Ht|w pre t post c l Hst He Hc Hlv].
  - unfold begin_sync, mbind, st_bind, st_get, st_lift, st_put, reject_if in Hb.
    destruct (lock (w_syncs w)) as [k|] eqn:Hk; cbn in Hb; [discriminate Hb|]. injection Hb as <- <-.
    destruct Hl as [Hr Hcl]. destruct (watch_channel_spec None) as [Hnv Hna]. split; cbn.
    + rewrite Hr, Hcl, length_app. cbn. split; [done|lia].
    + by rewrite Hv, map_app, <- Hnv.
    + intros i c [Hi|[Hi Hci]]%lookup_app_Some; [by eapply Hne|].
      apply list_lookup_singleton_Some in Hci as [_ <-]. by rewrite Hnv.
    + rewrite Hr. intros i c [Hi|[Hi Hci]]%lookup_app_Some.
      * rewrite (Ha _ _ Hi), Hr. apply lookup_lt_Some in Hi. rewrite elem_of_cons. split; [by intros ?%elem_of_nil|].
        intros [->|?]; [lia|done].
      * apply list_lookup_singleton_Some in Hci as [Hz <-]. rewrite Hna. split; [intros _|done]. apply elem_of_cons. left. lia.
    + intros t Ht. destruct (Hs t Ht) as (c & Hc & ?). exists c. split; [by apply lookup_app_l_Some|done].
  - unfold begin_sync, mbind, st_bind, st_get, st_lift, st_put, reject_if in Hb.
    destruct (lock (w_syncs w)) as [k|] eqn:Hk; cbn in Hb; [|discriminate Hb]. injection Hb as _ <-. by destruct w.
  - assert (∀ c, channels (w_syncs w) !! id = Some c → sender_alive c = true) as Halive.
    { intros c Hc. by apply (Ha _ _ Hc). }
    split; cbn.
    + destruct (lock (w_syncs w)); [|done]. by rewrite length_alter.
    + rewrite Hv. symmetry. apply map_alter. intros c Hc. by destruct (send_spec (Some height) c (Halive c Hc)) as [-> _].
    + intros i c (c' & Hc' & ->)%alter_lookup_Some. case_decide as Hi; [|by eapply Hne]. subst i.
      destruct (send_spec (Some height) c' (Halive c' Hc')) as [-> _]. by destruct (values c').
    + intros i c (c' & Hc' & ->)%alter_lookup_Some. rewrite <- (Ha _ _ Hc'). case_decide as Hi; [|done]. subst i.
      destruct (send_spec (Some height) c' (Halive c' Hc')) as [_ ->]. by rewrite (Halive c' Hc').
    + apply streams_alter; [|done]. intros c t Hc. apply stream_ok_send. by apply Halive.
  - destruct (lock (w_syncs w)) as [k|] eqn:Hk; [|by rewrite Hr in Hl; destruct Hl, pre]. destruct Hl as [Hl Hlt].
    rewrite Hr in Hl. destruct pre as [|x pre]; [|by destruct pre]. cbn in Hl. injection Hl as -> [-> Hcl]%app_eq_nil.
    split; cbn.
    + by rewrite Hk, Hcl, length_alter.
    + rewrite Hv, (map_alter _ _ id); [by rewrite list_alter_id|]. intros c _. apply (drop_sender_spec c).
    + intros i c (c' & Hc' & ->)%alter_lookup_Some. case_decide; [|by eapply Hne].
      destruct (drop_sender_spec c') as [-> _]. by eapply Hne.
    + intros i c (c' & Hc' & ->)%alter_lookup_Some. specialize (Ha _ _ Hc'). rewrite Hr in Ha.
      destruct (decide (k = i)) as [->|Hni].
      * destruct (drop_sender_spec c') as [_ ->]. split; [done|by intros ?%elem_of_nil].
      * rewrite Ha. cbn. split; [|by intros ?%elem_of_nil]. intros ->%list_elem_of_singleton. done.
    + apply streams_alter; [|done]. intros c t _. apply stream_ok_drop.
  - destruct (lock (w_syncs w)) as [k|] eqn:Hk; [|by rewrite Hc in Hl; destruct Hl as [_ Hl]; destruct pre].
    destruct Hl as [Hl Hlt]. rewrite Hc in Hl. destruct (running w) as [|x l] eqn:Hr; [|by destruct l, pre].
    destruct pre as [|x pre]; [|by destruct pre]. cbn in Hl. injection Hl as _ ->. split; cbn; [done|done|done| |done].
    intros i c Hi. by apply Ha.
  - unfold subscribe_header_sync_progress, progress_receiver in Ht.
    apply bind_Ok in Ht as (k & Hk%ok_or_Ok & Ht). apply bind_Ok in Ht as (c & Hc & [= <- <-]). rewrite Hk in Hl.
    assert (channels (w_syncs w) !! k = Some c) as Hck.
    { unfold expect in Hc. destruct (channels (w_syncs w) !! k); [congruence|done]. }
    split; cbn; [by rewrite Hk|done|done|done|]. intros t [Ht| ->%list_elem_of_singleton]%elem_of_app; [by apply Hs|].
    exists c. split; [done|]. split; cbn; [done|by constructor|by constructor|apply WatchStream_new_spec|done].
  - assert (l = values c) as ->.
    { rewrite Hv, (list_lookup_fmap values), Hc in Hlv. cbn in Hlv. congruence. }
    split; cbn; [done|done|done|done|]. intros t0 Ht0. rewrite Hst in Hs.
    assert (t ∈ pre ++ t :: post) as Hin by (apply elem_of_app; right; by left).
    destruct (Hs t Hin) as (c' & Hc' & Hok). replace c' with c in * by congruence.
    apply elem_of_app in Ht0 as [Ht0|[->|Ht0]%elem_of_cons].
    + apply Hs, elem_of_app. by left.
    + exists c. split; [done|]. apply stream_ok_poll; [by eapply Hne|done|done].
    + apply Hs, elem_of_app. right. by right.
Qed.

Lemma world_inv_idle : world_inv idle.
Proof. split; cbn; [done|done| | |]; [intros id c Hc|intros id c Hc|intros t Ht]; [discriminate Hc..|by apply elem_of_nil in Ht]. Qed.

(** * Properties *)

(** C10: Syncs exclude each other, and their progress is reported.  Whatever the
    interleaving of syncs, shutdowns, subscribers and polls: at most one sync is
    running, and another one is refused, with nothing changed, exactly while it is; a
    subscriber is turned away exactly when no sync is running, in its header or its block
    phase; a stream has answered, of the values of its sync, the last one at each of its
    polls, unless it had answered that one before; and it ends only when the sync has, with
    the last value answered.  The watch channel and its streams are third-party code, taken
    to do what they are documented to do. *)
Theorem progress_reported w :
  rtc step idle w →
  let s := w_syncs w in
  (length (running w ++ closing w) ≤ 1)%nat
  ∧ (begin_sync s = (Err HeaderSyncInProgress, s) ↔ running w ++ closing w ≠ [])
  ∧ (subscribe_header_sync_progress s = Err (mkConnectError Unavailable None) ↔ running w ++ closing w = [])
  ∧ (subscribe_header_sync_progress s ≠ Panic)
  ∧ ∀ t, t ∈ streams w → ∃ l, w_values w !! s_channel t = Some l ∧ items t = last_values l (looks t)
      ∧ Forall (λ n, 0 < n ≤ length l)%nat (looks t)
      ∧ (ended t = true → (s_channel t ∉ running w) ∧ last (items t) = last l).
Proof.
  intros Hr s. assert (world_inv w) as Hinv.
  { revert w Hr s. apply (rtc_ind_r world_inv); [apply world_inv_idle|]. intros w w' _ Hs Hi. by eapply world_inv_step. }
  destruct Hinv as [Hl Hv Hne Ha Hs]. split_and!.
  - destruct (lock (w_syncs w)); [by destruct Hl as [-> _]; cbn; lia|by destruct Hl as [-> ->]; cbn; lia].
  - unfold begin_sync, mbind, st_bind, st_get, st_lift, reject_if, s. destruct (lock (w_syncs w)) as [k|]; cbn.
    + destruct Hl as [-> _]. by split.
    + destruct Hl as [-> ->]. by split.
  - unfold subscribe_header_sync_progress, progress_receiver, s. destruct (lock (w_syncs w)) as [k|]; cbn.
    + destruct Hl as [-> Hlt]. destruct (lookup_lt_is_Some_2 _ _ Hlt) as [c ->]. by split.
    + destruct Hl as [-> ->]. by split.
  - unfold subscribe_header_sync_progress, progress_receiver, s. destruct (lock (w_syncs w)) as [k|]; cbn; [|done].
    destruct Hl as [_ Hlt]. by destruct (lookup_lt_is_Some_2 _ _ Hlt) as [c ->].
  - intros t Ht. destruct (Hs t Ht) as (c & Hc & [Hi Hb Hp Hseen He]). exists (values c).
    assert (Forall (λ n, 0 < n ≤ length (values c))%nat (looks t)) as Hlooks.
    { apply Forall_forall. intros n Hn. rewrite Forall_forall in Hb, Hp. split; [by apply Hp|by apply Hb]. }
    split_and!; [by rewrite Hv, (list_lookup_fmap values), Hc|done|done|].
    intros Hend. destruct (He Hend) as [Halive Hhead]. split.
    + intros Hin. apply (Ha _ _ Hc) in Hin. congruence.
    + rewrite Hi. destruct (looks t) as [|n ns]; [done|]. injection Hhead as ->.
      by rewrite last_values_last, last_lookup by done.
Qed.
End stream.

(** * Witnesses *)

(** A channel as its values, and a stream as the number of them it has seen. *)
Record ref_watch := mkRefWatch { rw_values : list (option Z); rw_alive : bool }.
Definition ref_poll_watch (c : ref_watch) (seen : nat) : option (option (option Z)) * nat :=
  if (seen <? length (rw_values c))%nat then (Some (last (rw_values c)), length (rw_values c))
  else if rw_alive c then (None, seen) else (Some None, seen).
#[local] Instance ref_watch_lib : WatchLib := {
  watch := ref_watch;
  watch_channel v := mkRefWatch [v] true;
  send v c := mkRefWatch (rw_values c ++ [v]) (rw_alive c);
  drop_sender c := mkRefWatch (rw_values c) false;
  WatchStream_new _ := O;
  poll_next := ref_poll_watch;
}.
#[local] Instance ref_watch_laws : WatchLaws.
Proof.
  refine {| values := rw_values : watch → list (option Z); sender_alive := rw_alive : watch → bool;
    seen := (λ n, n) : WatchStream → nat |}; try done; cbn; unfold ref_poll_watch.
  - intros c t v Hlt Hv. destruct (Nat.ltb_spec t (length (rw_values c))); [|lia]. by rewrite Hv.
  - intros c t -> Ha. destruct (Nat.ltb_spec (length (rw_values c)) (length (rw_values c))); [lia|]. by rewrite Ha.
  - intros c t -> Ha. destruct (Nat.ltb_spec (length (rw_values c)) (length (rw_values c))); [lia|]. by rewrite Ha.
Defined.

(** A run: a sync starts, is followed, stores headers up to height 5 and then up to
    height 9, of which the follower sees the latter only, and ends. *)
Definition followed : world :=
  mkWorld (mkSyncs None [mkRefWatch [None; Some 5; Some 9] false]) [] []
    [mkSubscriber 0 3%nat [None; Some 9] true [3; 3; 1]%nat] [[None; Some 5; Some 9]].

Lemma followed_reachable : rtc step idle followed.
Proof.
  unfold idle. eapply rtc_l; [apply (step_begin _ 0%nat (mkSyncs (Some 0%nat) [watch_channel None])); reflexivity|]. cbn.
  eapply rtc_l; [eapply step_subscribe; reflexivity|]. cbn.
  eapply rtc_l; [eapply (step_poll _ [] _ []); reflexivity|]. cbn.
  eapply rtc_l; [apply (step_progress _ 0%nat 5); by left|]. cbn.
  eapply rtc_l; [apply (step_progress _ 0%nat 9); by left|]. cbn.
  eapply rtc_l; [eapply (step_poll _ [] _ []); reflexivity|]. cbn.
  eapply rtc_l; [eapply (step_future_ends _ 0%nat [] []); reflexivity|]. cbn.
  eapply rtc_l; [eapply (step_release _ 0%nat [] []); reflexivity|]. cbn.
  eapply rtc_l; [eapply (step_poll _ [] _ []); reflexivity|]. apply rtc_refl.
Qed.

Lemma progress_reported_witness :
  rtc step idle followed ∧ (length (running followed ++ closing followed) ≤ 1)%nat
  ∧ [None; Some 9] = last_values [None; Some 5; Some 9] [3; 3; 1]%nat.
Proof.
  split; [exact followed_reachable|].
  destruct (progress_reported followed followed_reachable) as (H1 & _ & _ & _ & Hs). split; [exact H1|].
  destruct (Hs (@mkSubscriber ref_watch_lib 0 3%nat [None; Some 9] true [3; 3; 1]%nat)) as (l & Hl & Hi & _);
    [by apply list_elem_of_singleton|].
  cbn in Hl. injection Hl as <-. exact Hi.
Defined.
