(* ===== verification/App.v ===== *)
(** The start-up of the enforcer binary (`app/main.rs`): waiting for the node, the
    checks of its chain, the choice of the mode, the wallet it starts with, and the
    tasks it runs.

    What the node, the clock and the operating system answer is the class [AppEnv]. *)
From Stdlib Require Import ZArith Lia Strings.Byte Strings.String.
From stdpp Require Import base list gmap strings.
From S2P Require Import Prelude Text Bitcoin Concrete Limits Spend P2mrUtxo Pqc Dbs BlockHandler Sync Rpc SeedStore.
From S2P Require Import Startup SyncState ChainSource RestClient Cli Http AppSync.
#[local] Open Scope Z_scope.

(** ** Configuration: the fields of [cli::Config] used here *)

(** A file's contents, if it can be read. *)
Abbreviation file := (option string).
Record Config := mkConfig {
  enable_wallet : bool;
  enable_mempool : bool;
  enable_block_template_server : bool;
  cli_coinbase_recipient : option string;
  node_rpc_opts : NodeRpcConfig;
  node_zmq_addr_sequence : option string;
  bitcoin_core_expected_version : option Z;
  bitcoin_core_skip_version_check : bool;
  wallet_opts : WalletConfig;
  full_scan : bool;
  auto_create : bool;
  mnemonic_path : option file;
  skip_periodic_sync : bool;
  exit_after_sync : option Z;
  verify_consensus_state : option file;
  freeze_at_height : option Z
}.

(** What [clap] accepts: [requires] and [conflicts_with]. *)
Definition accepted (cli : Config) : Prop :=
  (enable_block_template_server cli = true → enable_mempool cli = true)
  ∧ (auto_create cli = true → mnemonic_path cli = None)
  ∧ (is_Some (verify_consensus_state cli) → exit_after_sync cli = None)
  ∧ (is_Some (freeze_at_height cli) → exit_after_sync cli = None ∧ verify_consensus_state cli = None)
  ∧ (bitcoin_core_skip_version_check cli = true → bitcoin_core_expected_version cli = None).

(** ** The world at start-up *)

(** [jsonrpsee]'s error, with the status of a rejected HTTP request. *)
Inductive NodeError := CallError (code : Z) (message : string) | Rejected (status_code : Z) | OtherNodeError.
Record NodeInfo := mkNodeInfo { info_chain : Network; info_blocks : Z }.

(** [n] counts the requests of a loop.  [full_scan_ok]: what the scan answers. *)
Class AppEnv := {
  rest_chain_info : nat → outcome MainRestClientError ChainInfo;
  blockchain_info : nat → NodeError + NodeInfo;
  network_info : option (Z * string);
  block_template : NodeError + option bytes;
  sample_template : nat → NodeError + unit;
  index_info : NodeError + list string;
  zmq_notifications : NodeError + list (string * string);
  require_network : string → Network → bool;
  url_parses : string → bool;
  create_dir_all : string → bool;
  gbt_client_built : bool;
  db_readable : bool;
  db_written : option (option string);
  full_scan_ok : bool
}.

(** ** Errors *)
Inductive StartupError :=
| BadReference (e : AppSyncError)
| RestUnavailable (e : MainRestClientError) | RestStillUnavailable | RestNotEnabled
| BadRestUrl (raw_url : string)
| BadRpcClient (e : RpcClientError)
| Unauthorized | NodeNotReady (e : NodeError)
| BadVersion (e : VersionCheckError)
| DataDirNotCreated
| BadValidatorDb (e : CreateDbsError)
| NodeRpcFailed (method : string) (e : NodeError)
| SignetChallengeNotFound | StandardSignet
| WrongCoinbaseNetwork
| GbtClientFailed
| TxindexNotEnabled
| InitWallet_NoSignetChallengeFound | InitWallet_OpenConnection
| InitWallet_ChainSource (e : InitChainSourceClient) | InitWallet_Seed (e : InitWalletError)
| ReadMnemonicFile | InvalidMnemonic
| CreateWalletFailed (e : CreateWalletError)
| ZmqNotificationMissing
| FullScanFailed
| CoinbaseRecipientRequired.

Section app.
Context `{AppEnv}.

(** ** Waiting for the node *)

Definition MAX_RETRIES : Z := 5.

(** The loop on the REST interface: the number of requests made; [None] is out of
    fuel. *)
Fixpoint rest_ready (fuel n : nat) (retries : Z) : option (outcome StartupError nat) :=
  match fuel with
  | O => None
  | S fuel =>
      match rest_chain_info n with
      | Ok _ => Some (Ok (S n))
      | Err RestServerNotEnabled => Some (Err RestNotEnabled)
      | Err (RestHttp (Some status)) =>
          if status =? 503 then
            if MAX_RETRIES <=? retries then Some (Err RestStillUnavailable)
            else rest_ready fuel (S n) (retries + 1)
          else Some (Err (RestUnavailable (RestHttp (Some status))))
      | Err err => Some (Err (RestUnavailable err))
      | Panic => Some Panic
      end
  end.

Definition RPC_IN_WARMUP : Z := -28.

Fixpoint rpc_ready (fuel n : nat) : option (outcome StartupError NodeInfo) :=
  match fuel with
  | O => None
  | S fuel =>
      match blockchain_info n with
      | inr info => Some (Ok info)
      | inl (CallError code message) =>
          if code =? RPC_IN_WARMUP then rpc_ready fuel (S n)
          else Some (Err (NodeNotReady (CallError code message)))
      | inl (Rejected status_code) =>
          if status_code =? 401 then Some (Err Unauthorized) else Some (Err (NodeNotReady (Rejected status_code)))
      | inl err => Some (Err (NodeNotReady err))
      end
  end.

(** ** Checks of the node's chain *)

(** [Display] of a network; [NetworkParams::for_network] has no suffix. *)
Definition show_network (network : Network) : string :=
  match network with
  | NetworkBitcoin => "bitcoin" | Testnet => "testnet" | Testnet4 => "testnet4" | Signet => "signet" | Regtest => "regtest"
  end.
Definition datadir_suffix (network : Network) : option string := None.
Definition chain_dir_name (network : Network) (suffix : option string) : string :=
  match suffix with
  | Some suffix => show_network network ++ "-" ++ suffix
  | None => show_network network
  end.

(** 1-of-2 of the two keys of the public signet. *)
Definition STANDARD_SIGNET_CHALLENGE : bytes :=
  [x51; x21; x03; xad; x5e; x0e; xda; xd1; x8c; xb1; xf0; xfc; x0d; x28; xa3; xd4; xf1; xf3; xe4; x45; x64; x03; x37;
   x48; x9a; xbb; x10; x40; x4f; x2d; x1e; x08; x6b; xe4; x30; x21; x03; x59; xef; x50; x21; x96; x4f; xe2; x2d; x6f;
   x8e; x05; xb2; x46; x3c; x95; x40; xce; x96; x88; x3f; xe3; xb2; x78; x76; x0f; x04; x8f; x51; x89; xf2; xe6; xc4;
   x52; xae].

Definition check_signet (chain : Network) : outcome StartupError (option bytes) :=
  match chain with
  | Signet =>
      match block_template with
      | inl e => Err (NodeRpcFailed "getblocktemplate" e)
      | inr None => Err SignetChallengeNotFound
      | inr (Some signet_challenge) =>
          if bool_decide (signet_challenge = STANDARD_SIGNET_CHALLENGE) then Err StandardSignet
          else Ok (Some signet_challenge)
      end
  | _ => Ok None
  end.

Definition check_coinbase_recipient (cli : Config) (chain : Network) : outcome StartupError (option string) :=
  match cli_coinbase_recipient cli with
  | None => Ok None
  | Some addr => if require_network addr chain then Ok (Some addr) else Err WrongCoinbaseNetwork
  end.

Definition get_zmq_addr_sequence : outcome StartupError string :=
  match zmq_notifications with
  | inl e => Err (NodeRpcFailed "getzmqnotifications" e)
  | inr notifications =>
      ok_or (snd <$> List.find (λ n, String.eqb n.1 "pubsequence") notifications) ZmqNotificationMissing
  end.
End app.

(** ** The block-template server *)

Inductive TemplateError := NotConnected | SampleTemplateFailed (e : NodeError).

(** The loop for the sample template; [None] is out of fuel. *)
Fixpoint sample_template_loop `{AppEnv} (fuel n : nat) : option (outcome TemplateError unit) :=
  match fuel with
  | O => None
  | S fuel =>
      match sample_template n with
      | inr _ => Some (Ok tt)
      | inl (CallError code message) =>
          if code =? -10 then sample_template_loop fuel (S n)
          else if code =? -9 then Some (Err NotConnected)
          else Some (Err (SampleTemplateFailed (CallError code message)))
      | inl err => Some (Err (SampleTemplateFailed err))
      end
  end.

(** What a connection attempt answers within its time. *)
Inductive connect_result := Connected | ConnectionRefused | ConnectError | TimedOut.
Definition is_address_port_open (connect : string → connect_result) (addr : string) : outcome unit bool :=
  let addr := default ""%string (strip_prefix "tcp://" addr) in
  match connect addr with
  | Connected => Ok true
  | ConnectionRefused => Ok false
  | ConnectError => Err tt
  | TimedOut => Ok false
  end.

Inductive MempoolTaskError := InitialSync | SyncTask | ZmqCheck (addr : string) | ZmqNotReachable (addr : string).
(** The first step of [sync_mempool]. *)
Definition check_zmq (connect : string → connect_result) (zmq_addr_sequence : string) : outcome MempoolTaskError unit :=
  match is_address_port_open connect zmq_addr_sequence with
  | Ok true => Ok tt
  | Ok false => Err (ZmqNotReachable zmq_addr_sequence)
  | Err _ => Err (ZmqCheck zmq_addr_sequence)
  | Panic => Panic
  end.

(** ** The wallet at start-up *)

(** What [create_new_wallet] takes from outside, and [Mnemonic::parse_in]. *)
Record seed_inputs `{SeedLib} := mkSeedInputs {
  si_fresh : option Mnemonic;
  si_blocks : ClientError + Z;
  si_salt : option bytes;
  si_nonce : bytes;
  si_fault : seed_fault;
  si_now : Z;
  si_readable : bool;
  si_opens : bool;
  si_parse_in : string → option Mnemonic
}.
Arguments mkSeedInputs {_} _ _ _ _ _ _ _ _ _.

(** The wallet's directory: its seed and bdk's database. *)
Abbreviation wallet_dir := (seed_fs * BdkDb)%type.

Section wallet.
Context `{AppEnv} `{SeedLib}.

(** The seed is read, and a plaintext one's wallet loaded. *)
Definition load_wallet (inputs : seed_inputs) (network : Network) : st wallet_dir StartupError keys := λ d,
  let '(o, db) := wallet_inner_new (si_readable inputs) network d.1 d.2 in (map_err InitWallet_Seed o, (d.1, db)).

(** [WalletInner::new]; [chain_source] is what [init_chain_source_client] answers. *)
Definition wallet_new (chain_source : outcome InitChainSourceClient (option ChainSourceClient)) (inputs : seed_inputs)
    (network : Network) (signet_challenge : option bytes) : st wallet_dir StartupError keys :=
  _ ← st_lift (reject_if (match network with Signet => is_none signet_challenge | _ => false end)
                 InitWallet_NoSignetChallengeFound);
  _ ← st_lift (reject_if (negb (si_opens inputs)) InitWallet_OpenConnection);
  _ ← st_lift (map_err InitWallet_ChainSource chain_source);
  load_wallet inputs network.

(** The mnemonic file, and whether a missing wallet is created. *)
Definition wallet_mnemonic (cli : Config) (inputs : seed_inputs) : outcome StartupError (option Mnemonic * bool) :=
  match mnemonic_path cli with
  | Some contents =>
      mnemonic_str ← ok_or contents ReadMnemonicFile;
      mnemonic ← ok_or (si_parse_in inputs mnemonic_str) InvalidMnemonic;
      Ok (Some mnemonic, true)
  | None => Ok (None, auto_create cli)
  end.

Definition is_initialized (k : keys) : bool := negb (is_none (bitcoin_wallet k)).

(** A computation on a wallet's keys, which are in its directory. *)
Definition create_wallet (inputs : seed_inputs) (network : Network) (mnemonic : option Mnemonic) (k : keys) :
    st wallet_dir StartupError keys := λ _,
  let '(o, k') := create_new_wallet (si_fresh inputs) (si_blocks inputs) (si_salt inputs) (si_nonce inputs)
                    (si_fault inputs) (si_now inputs) network mnemonic None k in
  (match o with
   | Ok _ => Ok k'
   | Err e => Err (CreateWalletFailed e)
   | Panic => Panic
   end, (k_fs k', k_db k')).

(** The wallet mode's branch of [main]. *)
Definition start_wallet (cli : Config) (chain_source : outcome InitChainSourceClient (option ChainSourceClient))
    (inputs : seed_inputs) (network : Network) (signet_challenge : option bytes) : st wallet_dir StartupError keys :=
  index_info ← st_lift (match index_info with
                        | inl e => Err (NodeRpcFailed "getindexinfo" e)
                        | inr info => Ok info
                        end);
  _ ← st_lift (reject_if (negb (existsb (String.eqb "txindex") index_info)) TxindexNotEnabled);
  k ← wallet_new chain_source inputs network signet_challenge;
  '(mnemonic, auto_create) ← st_lift (wallet_mnemonic cli inputs);
  if negb (is_initialized k) && auto_create then create_wallet inputs network mnemonic k else mret k.
End wallet.

(** ** The mode and the tasks *)

(** The enforcer, in one of its three modes; a wallet by its keys, a producer and a
    validator by themselves. *)
Definition Enforcer (W : Type) : Type := unit + (unit + W).
Definition enforcer_wallet {W} (enforcer : Enforcer W) : option W :=
  match enforcer with
  | inr (inr wallet) => Some wallet
  | inl _ | inr (inl _) => None
  end.

Definition mining_enabled (chain : Network) : bool := match chain with Regtest | Signet => true | _ => false end.

(** A template server's configuration: who gets the reward, [None] for a new
    address of the wallet. *)
Record GbtConfig := mkGbt { mining_reward_address : option string }.

Inductive task :=
| EnforcerTask | ValidatorMempoolTask
| BlockProducerMempoolTask (gbt : option GbtConfig) | WalletMempoolTask (gbt : option GbtConfig)
| ConnectServerTask (services : list string)
| WalletSyncTask
| ExitAfterSyncTask (goal_height : Z) (reference : option SyncStateSummary)
| FreezeTask (goal_height : Z).

Definition exit_after_sync_mode (cli : Config) : bool :=
  negb (is_none (exit_after_sync cli)) || negb (is_none (verify_consensus_state cli)).
Definition bounded_sync_mode (cli : Config) : bool :=
  exit_after_sync_mode cli || negb (is_none (freeze_at_height cli)).

(** The task that follows the node's tip. *)
Definition chain_task {W} (cli : Config) (enforcer : Enforcer W) (coinbase_recipient : option string) :
    outcome StartupError task :=
  match enable_mempool cli, enforcer with
  | false, _ => Ok EnforcerTask
  | true, inl _ => Ok ValidatorMempoolTask
  | true, inr (inl _) =>
      gbt ← (if enable_block_template_server cli
             then addr ← ok_or coinbase_recipient CoinbaseRecipientRequired; Ok (Some (mkGbt (Some addr)))
             else Ok None);
      Ok (BlockProducerMempoolTask gbt)
  | true, inr (inr _) =>
      Ok (WalletMempoolTask (if enable_block_template_server cli then Some (mkGbt coinbase_recipient) else None))
  end.

Definition spawn_tasks {W} (cli : Config) (enforcer : Enforcer W) (info : NodeInfo) (coinbase_recipient : option string)
    (verify_reference : option SyncStateSummary) : outcome StartupError (list task) :=
  chain ← (if bounded_sync_mode cli then Ok []
           else t ← chain_task cli enforcer coinbase_recipient; Ok [t]);
  let has_wallet := negb (is_none (enforcer_wallet enforcer)) in
  let server := [ConnectServerTask (service_names (mining_enabled (info_chain info)) has_wallet)] in
  let sync_source_disabled := bool_decide (sync_source (wallet_opts cli) = Disabled) in
  let wallet_sync := if has_wallet && (negb (skip_periodic_sync cli) && negb sync_source_disabled)
                     then [WalletSyncTask] else [] in
  let exit_task := if exit_after_sync_mode cli
                   then let '(goal_height, reference) := exit_goal verify_reference (exit_after_sync cli) (info_blocks info) in
                        [ExitAfterSyncTask goal_height reference]
                   else [] in
  let freeze := match freeze_at_height cli with Some goal_height => [FreezeTask goal_height] | None => [] end in
  Ok (chain ++ server ++ wallet_sync ++ exit_task ++ freeze).

(** ** main *)

(** What is on disk: the validator's database directory and the wallet's. *)
Record disk `{SeedLib} := mkDisk { d_db : db_dir; d_wallet : wallet_dir }.
Record running `{SeedLib} := mkRunning { r_enforcer : Enforcer keys; r_zmq : string; r_tasks : list task }.
Arguments mkDisk {_} _ _.
Arguments mkRunning {_} _ _ _.

Section main.
Context `{AppEnv} `{SeedLib} `{AppLib}.

Definition on_validator_dir {E A} (m : st db_dir E A) : st disk E A :=
  λ d, let '(o, v) := m (d_db d) in (o, mkDisk v (d_wallet d)).
Definition on_wallet_dir {E A} (m : st wallet_dir E A) : st disk E A :=
  λ d, let '(o, w) := m (d_wallet d) in (o, mkDisk (d_db d) w).

(** [--verify-consensus-state]'s reference, read before anything else. *)
Definition verify_reference (cli : Config) : outcome StartupError (option SyncStateSummary) :=
  match verify_consensus_state cli with
  | Some contents => r ← map_err BadReference (load_consensus_reference contents); Ok (Some r)
  | None => Ok None
  end.

(** The mode, with the wallet started in the third one. *)
Definition start_enforcer (cli : Config) (chain_source : outcome InitChainSourceClient (option ChainSourceClient))
    (inputs : seed_inputs) (chain : Network) (signet_challenge : option bytes) : st disk StartupError (Enforcer keys) :=
  if enable_wallet cli then
    k ← on_wallet_dir (start_wallet cli chain_source inputs chain signet_challenge); mret (inr (inr k))
  else if enable_block_template_server cli || mining_enabled chain then mret (inr (inl tt))
  else mret (inl tt).

(** From the node's information to the spawned tasks. *)
Definition start (cli : Config) (chain_source : outcome InitChainSourceClient (option ChainSourceClient))
    (inputs : seed_inputs) (reference : option SyncStateSummary) (info : NodeInfo) : st disk StartupError running :=
  _ ← st_lift (map_err BadVersion
                 (check_bitcoin_core_version network_info (bitcoin_core_expected_version cli) (bitcoin_core_skip_version_check cli)));
  let name := chain_dir_name (info_chain info) (datadir_suffix (info_chain info)) in
  _ ← st_lift (reject_if (negb (create_dir_all ("validator/" ++ name) && create_dir_all ("wallet/" ++ name))) DataDirNotCreated);
  _ ← st_map_err BadValidatorDb (on_validator_dir (check_or_stamp_db_version db_readable db_written));
  signet_challenge ← st_lift (check_signet (info_chain info));
  coinbase_recipient ← st_lift (check_coinbase_recipient cli (info_chain info));
  _ ← st_lift (reject_if (enable_block_template_server cli && negb gbt_client_built) GbtClientFailed);
  enforcer ← start_enforcer cli chain_source inputs (info_chain info) signet_challenge;
  zmq ← st_lift (match node_zmq_addr_sequence cli with Some addr => Ok addr | None => get_zmq_addr_sequence end);
  _ ← st_lift (reject_if (negb (is_none (enforcer_wallet enforcer)) && full_scan cli && negb full_scan_ok) FullScanFailed);
  tasks ← st_lift (spawn_tasks cli enforcer info coinbase_recipient reference);
  mret (mkRunning enforcer zmq tasks).

(** [None] in the result: out of fuel.  [read_to_string] reads the cookie. *)
Definition main (fuel : nat) (read_to_string : string → option string) (cli : Config)
    (chain_source : outcome InitChainSourceClient (option ChainSourceClient)) (inputs : seed_inputs) :
    st disk StartupError (option running) :=
  reference ← st_lift (verify_reference cli);
  let raw_url := ("http://" ++ rpc_ip (node_rpc_opts cli) ++ ":" ++ show (rpc_port (node_rpc_opts cli)))%string in
  _ ← st_lift (reject_if (negb (url_parses raw_url)) (BadRestUrl raw_url));
  match rest_ready fuel 0 0 with
  | None => mret None
  | Some ready =>
      _ ← st_lift ready;
      _ ← st_lift (map_err BadRpcClient (create_client read_to_string true (node_rpc_opts cli)));
      match rpc_ready fuel 0 with
      | None => mret None
      | Some info =>
          info ← st_lift info;
          r ← start cli chain_source inputs reference info;
          mret (Some r)
      end
  end.
End main.

(** ** run_wallet_mempool_task *)

Inductive WalletMempoolError := WalletNotInitialized | RewardAddressFailed.

(** Its first steps: the wallet has to be loaded, and the reward's address chosen;
    [get_new_address] is what the wallet answers. *)
Definition wallet_mempool_start `{SeedLib} (wallet : keys) (gbt : option GbtConfig) (get_new_address : option string) :
    outcome WalletMempoolError (option string) :=
  _ ← reject_if (negb (is_initialized wallet)) WalletNotInitialized;
  match gbt with
  | Some gbt =>
      addr ← match mining_reward_address gbt with
             | Some addr => Ok addr
             | None => ok_or get_new_address RewardAddressFailed
             end;
      Ok (Some addr)
  | None => Ok None
  end.

(** ** The end of [main] *)

(** The first task to end, or the signal. *)
Inductive first_event := TaskEnded (ok : bool) | TaskPanicked | NoTasks | CtrlC (ok : bool).
Definition exit_ok (e : first_event) : bool :=
  match e with
  | TaskEnded ok => ok
  | TaskPanicked | NoTasks => false
  | CtrlC ok => ok
  end.

(** * Lemmas *)

(** The tasks that write to the validator's databases. *)
Definition syncs_validator (t : task) : bool :=
  match t with
  | EnforcerTask | ValidatorMempoolTask | BlockProducerMempoolTask _ | WalletMempoolTask _
  | ExitAfterSyncTask _ _ | FreezeTask _ => true
  | ConnectServerTask _ | WalletSyncTask => false
  end.

(** The recipient of the reward in a task's templates. *)
Definition rewards (t : task) (addr : string) : Prop :=
  match t with
  | BlockProducerMempoolTask (Some gbt) | WalletMempoolTask (Some gbt) => mining_reward_address gbt = Some addr
  | _ => False
  end.

Section start_lemmas.
Context `{AppEnv}.

Lemma chain_task_Ok {W} cli (enforcer : Enforcer W) coinbase t :
  chain_task cli enforcer coinbase = Ok t →
  syncs_validator t = true ∧ ∀ addr, rewards t addr → coinbase = Some addr.
Proof.
  unfold chain_task. destruct (enable_mempool cli); [|intros [= <-]; split; [done|by intros addr []]].
  destruct enforcer as [u|[u|w]].
  - intros [= <-]. split; [done|by intros addr []].
  - intros (gbt & Hg & [= <-])%bind_Ok. split; [done|]. intros addr Hr. destruct (enable_block_template_server cli).
    + apply bind_Ok in Hg as (a & Ha%ok_or_Ok & [= <-]). cbn in Hr. congruence.
    + injection Hg as <-. destruct Hr.
  - intros [= <-]. split; [done|]. intros addr Hr. by destruct (enable_block_template_server cli).
Qed.

Lemma spawn_tasks_Ok {W} cli (enforcer : Enforcer W) info coinbase reference tasks :
  accepted cli → spawn_tasks cli enforcer info coinbase reference = Ok tasks →
  length (List.filter syncs_validator tasks) = 1%nat ∧ (∀ t addr, t ∈ tasks → rewards t addr → coinbase = Some addr)
  ∧ ConnectServerTask (service_names (mining_enabled (info_chain info)) (negb (is_none (enforcer_wallet enforcer)))) ∈ tasks
  ∧ (WalletSyncTask ∈ tasks → is_Some (enforcer_wallet enforcer)).
Proof.
  intros (_ & _ & Hv & Hf & _). unfold spawn_tasks. intros (chain & Hchain & [= <-])%bind_Ok.
  assert (bounded_sync_mode cli = false → ∃ t, chain = [t] ∧ chain_task cli enforcer coinbase = Ok t) as Hlive.
  { intros Hb. rewrite Hb in Hchain. apply bind_Ok in Hchain as (t & Ht & [= <-]). by exists t. }
  assert (bounded_sync_mode cli = true → chain = []) as Hbound by (intros Hb; rewrite Hb in Hchain; by injection Hchain as <-).
  set (server := ConnectServerTask _). set (ws := if _ && _ then [WalletSyncTask] else []).
  assert (List.filter syncs_validator ws = [] ∧ (∀ t addr, t ∈ ws → ¬ rewards t addr) 
          ∧ (WalletSyncTask ∈ ws → is_Some (enforcer_wallet enforcer))) as (Hws & Hwr & Hww).
  { subst ws. destruct (enforcer_wallet enforcer) as [w|]; cbn; [|split_and!; try done; intros; set_solver].
    destruct (_ && _); split_and!; try done; try set_solver. }
  destruct (exit_goal reference (exit_after_sync cli) (info_blocks info)) as [goal ref].
  assert (∀ ex fr, (∀ t, t ∈ ex ++ fr → (∃ g r, t = ExitAfterSyncTask g r) ∨ (∃ g, t = FreezeTask g)) →
            length (List.filter syncs_validator (chain ++ ex ++ fr)) = 1%nat →
            (∀ t addr, t ∈ chain → rewards t addr → coinbase = Some addr) ∧ WalletSyncTask ∉ chain →
            length (List.filter syncs_validator (chain ++ [server] ++ ws ++ ex ++ fr)) = 1%nat
            ∧ (∀ t addr, t ∈ chain ++ [server] ++ ws ++ ex ++ fr → rewards t addr → coinbase = Some addr)
            ∧ server ∈ chain ++ [server] ++ ws ++ ex ++ fr
            ∧ (WalletSyncTask ∈ chain ++ [server] ++ ws ++ ex ++ fr → is_Some (enforcer_wallet enforcer))) as Hshape.
  { intros ex fr Hsync Hlen [Hrw Hnw]. split_and!.
    - rewrite !List.filter_app in *. rewrite Hws. exact Hlen.
    - intros t addr [Ht|[Ht%list_elem_of_singleton|[Ht|Ht]%elem_of_app]%elem_of_app]%elem_of_app Hr.
      + by eapply Hrw.
      + by subst t.
      + by apply Hwr in Hr.
      + destruct (Hsync t Ht) as [(g & r & ->)|(g & ->)]; destruct Hr.
    - rewrite !elem_of_app. right. left. by left.
    - intros [?|[Ht%list_elem_of_singleton|[Ht|Ht]%elem_of_app]%elem_of_app]%elem_of_app; [done|done|by apply Hww|].
      by destruct (Hsync _ Ht) as [(g & r & ?)|(g & ?)]. }
  unfold bounded_sync_mode in Hlive, Hbound. destruct (exit_after_sync_mode cli) eqn:Hex.
  - rewrite Hbound in * by done. assert (freeze_at_height cli = None) as ->.
    { destruct (freeze_at_height cli); [|done]. destruct (Hf ltac:(done)) as [He1 He2].
      unfold exit_after_sync_mode in Hex. by rewrite He1, He2 in Hex. }
    apply Hshape; [|done|split; set_solver]. intros t [Ht%list_elem_of_singleton|Ht]%elem_of_app; [|by apply elem_of_nil in Ht].
    left. by exists goal, ref.
  - destruct (freeze_at_height cli) as [g|] eqn:Hfr.
    + rewrite Hbound in * by done. apply Hshape; [|done|split; set_solver].
      intros t Ht%list_elem_of_singleton. right. by exists g.
    + destruct (Hlive eq_refl) as (t & -> & Ht). apply chain_task_Ok in Ht as [Hs Hr].
      apply Hshape; [intros t' Ht'; by apply elem_of_nil in Ht'| |].
      * cbn. by rewrite Hs.
      * split; [intros t' addr ->%list_elem_of_singleton; by apply Hr|].
        intros Hin%list_elem_of_singleton. by subst t.
Qed.

(** The REST interface is asked at most six times. *)
Lemma rest_ready_ends fuel n :
  (n ≤ 5)%nat → (6 - n ≤ fuel)%nat → ∃ r, rest_ready fuel n (Z.of_nat n) = Some r
    ∧ ∀ k, r = Ok k → (n < k ≤ 6)%nat ∧ is_ok (rest_chain_info (k - 1)) = true
                       ∧ ∀ i, (n ≤ i < k - 1)%nat → rest_chain_info i = Err (RestHttp (Some 503)).
Proof.
  revert n. induction fuel as [|fuel IH]; intros n Hn Hf; [lia|]. cbn [rest_ready].
  destruct (rest_chain_info n) as [info|[|[status|]| | | |]|] eqn:Hi; try by eexists.
  - eexists. split; [done|]. intros k [= <-]. replace (S n - 1)%nat with n by lia. rewrite Hi.
    split_and!; [lia|lia|done|lia].
  - destruct (Z.eqb_spec status 503) as [->|_]; [|by eexists].
    unfold MAX_RETRIES. destruct (Z.leb_spec 5 (Z.of_nat n)); [by eexists|].
    destruct (IH (S n)) as (r & Hr & Hk); [lia|lia|]. exists r.
    replace (Z.of_nat n + 1) with (Z.of_nat (S n)) by lia. split; [done|].
    intros k Hk'. destruct (Hk k Hk') as (? & ? & Ha). split_and!; [lia|lia|done|].
    intros i Hin. destruct (decide (i = n)) as [->|]; [done|apply Ha; lia].
Qed.
End start_lemmas.

Section wallet_lemmas.
Context `{AppEnv} `{SeedLib} `{!SeedLaws}.

Lemma load_wallet_inv inputs network d o d' :
  load_wallet inputs network d = (o, d') →
  d'.1 = d.1 ∧ ∀ k, o = Ok k → k_fs k = d'.1 ∧ k_db k = d'.2.
Proof.
  unfold load_wallet, wallet_inner_new. destruct d as [fs db]. cbn [fst snd].
  destruct (read_mnemonic _ _) as [[[m|e]|]|e|]; [|intros [= <- <-]; split; [done|by intros k [= <-]]..| |];
    [|intros [= <- <-]; split; [done|intros k Hk; discriminate Hk]..].
  destruct (initialize_wallet_from_mnemonic _ _ _) as [[w|e|] db1]; intros [= <- <-]; split; try done;
    intros k Hk; [by injection Hk as <-|discriminate Hk..].
Qed.

(** A wallet that is started is the one in its directory, and a seed there is never
    replaced, whether or not the start succeeds. *)
Lemma start_wallet_inv cli chain_source inputs network challenge d o d' :
  start_wallet cli chain_source inputs network challenge d = (o, d') →
  (∀ j, seed_json d.1 = Some j → seed_json d'.1 = Some j)
  ∧ ∀ k, o = Ok k → k_fs k = d'.1 ∧ k_db k = d'.2 ∧ (∃ info, index_info = inr info ∧ "txindex"%string ∈ info)
      ∧ (network = Signet → is_Some challenge).
Proof.
  unfold start_wallet. unfold mbind at 1, st_bind at 1, st_lift at 1.
  destruct index_info as [e|info] eqn:Hinfo; [by intros [= <- <-]|].
  unfold mbind at 1, st_bind at 1, st_lift at 1. destruct (existsb _ info) eqn:Htx; cbn [negb reject_if]; [|by intros [= <- <-]].
  assert ("txindex"%string ∈ info) as Hin.
  { apply existsb_exists in Htx as (x & Hx & <-%String.eqb_eq). by apply list_elem_of_In. }
  unfold mbind at 1, st_bind at 1, wallet_new. unfold mbind at 1, st_bind at 1, st_lift at 1.
  destruct (match network with Signet => is_none challenge | _ => false end) eqn:Hch; cbn [reject_if]; [by intros [= <- <-]|].
  assert (network = Signet → is_Some challenge) as Hsig by (intros ->; by destruct challenge).
  unfold mbind at 1, st_bind at 1, st_lift at 1. destruct (negb (si_opens inputs)); cbn [reject_if]; [by intros [= <- <-]|].
  unfold mbind at 1, st_bind at 1, st_lift at 1. destruct (map_err _ chain_source); [|by intros [= <- <-]..].
  destruct (load_wallet inputs network d) as [o1 d1] eqn:Hl. apply load_wallet_inv in Hl as [Hfs Hk].
  destruct o1 as [k| |]; [|intros [= <- <-]; split; [by rewrite Hfs|done]..]. destruct (Hk k eq_refl) as [Hk1 Hk2].
  unfold mbind at 1, st_bind at 1, st_lift at 1. destruct (wallet_mnemonic cli inputs) as [[m ac]| |];
    [|intros [= <- <-]; split; [by rewrite Hfs|done]..].
  destruct (negb (is_initialized k) && ac).
  - unfold create_wallet. destruct (create_new_wallet _ _ _ _ _ _ _ _ _ k) as [o2 k2] eqn:Hc.
    apply seed_stored in Hc. intros [= <- <-]. cbn [fst snd]. split.
    + intros j Hj. rewrite <- Hfs, <- Hk1 in Hj. rewrite Hj in Hc. by destruct Hc.
    + intros k' Hk'. destruct o2; [|discriminate Hk'..]. injection Hk' as <-. split_and!; try done. by exists info.
  - intros [= <- <-]. split; [by rewrite Hfs|]. intros k' [= <-]. split_and!; try done. by exists info.
Qed.
End wallet_lemmas.

Section main_lemmas.
Context `{AppEnv} `{SeedLib} `{!SeedLaws} `{AppLib}.

Lemma st_lift_inv {S E A} (m : outcome E A) (s s' : S) o : st_lift m s = (o, s') → o = m ∧ s' = s.
Proof. unfold st_lift. by intros [= -> ->]. Qed.

(** What a step of the start-up leaves of the wallet's seed. *)
Definition keeps_seed (d d' : disk) : Prop :=
  ∀ j, seed_json (d_wallet d).1 = Some j → seed_json (d_wallet d').1 = Some j.

Lemma start_enforcer_inv cli chain_source inputs chain challenge d o d' :
  start_enforcer cli chain_source inputs chain challenge d = (o, d') →
  d_db d' = d_db d ∧ keeps_seed d d'
  ∧ ∀ e, o = Ok e →
      if enable_wallet cli then
        ∃ k, e = inr (inr k) ∧ k_fs k = (d_wallet d').1 ∧ k_db k = (d_wallet d').2
          ∧ (∃ info, index_info = inr info ∧ "txindex"%string ∈ info)
      else e = (if enable_block_template_server cli || mining_enabled chain then inr (inl tt) else inl tt) ∧ d' = d.
Proof.
  unfold start_enforcer. destruct (enable_wallet cli).
  - unfold mbind, st_bind, on_wallet_dir. destruct (start_wallet _ _ _ _ _ _) as [o1 w] eqn:Hs.
    apply start_wallet_inv in Hs as [Hseed Hk]. destruct o1 as [k|e|]; intros [= <- <-]; (split; [done|]); (split; [done|]);
      intros e' He; [|discriminate He..]. injection He as <-. destruct (Hk k eq_refl) as (? & ? & ? & _). by exists k.
  - destruct (_ || _); intros [= <- <-]; (split; [done|]); (split; [by intros j|]); intros e [= <-]; done.
Qed.

Lemma check_signet_Ok chain c :
  check_signet chain = Ok c → chain = Signet → ∃ ch, c = Some ch ∧ block_template = inr (Some ch) ∧ ch ≠ STANDARD_SIGNET_CHALLENGE.
Proof.
  intros Hc ->. cbn in Hc. destruct block_template as [e|[ch|]]; try discriminate Hc.
  destruct (bool_decide_reflect (ch = STANDARD_SIGNET_CHALLENGE)); [discriminate Hc|]. injection Hc as <-. by exists ch.
Qed.

(** What a start-up, from the node's information on, has checked and set up. *)
Definition started (cli : Config) (reference : option SyncStateSummary) (info : NodeInfo) (d' : disk) (r : running) : Prop :=
  (version_file (d_db d') ≫= parse_version = Some DB_VERSION)
  ∧ (info_chain info = Signet → ∃ ch, block_template = inr (Some ch) ∧ ch ≠ STANDARD_SIGNET_CHALLENGE)
  ∧ (if enable_wallet cli then
       ∃ k, r_enforcer r = inr (inr k) ∧ k_fs k = (d_wallet d').1 ∧ k_db k = (d_wallet d').2
         ∧ (∃ idx, index_info = inr idx ∧ "txindex"%string ∈ idx)
     else r_enforcer r = if enable_block_template_server cli || mining_enabled (info_chain info) then inr (inl tt) else inl tt)
  ∧ length (List.filter syncs_validator (r_tasks r)) = 1%nat
  ∧ (∀ t addr, t ∈ r_tasks r → rewards t addr → require_network addr (info_chain info) = true)
  ∧ ConnectServerTask (service_names (mining_enabled (info_chain info)) (enable_wallet cli)) ∈ r_tasks r
  ∧ (exit_after_sync_mode cli = true →
     ∃ goal ref, exit_goal reference (exit_after_sync cli) (info_blocks info) = (goal, ref)
       ∧ ExitAfterSyncTask goal ref ∈ r_tasks r).

Lemma spawn_exit_task {W} cli (enforcer : Enforcer W) info coinbase reference tasks :
  spawn_tasks cli enforcer info coinbase reference = Ok tasks → exit_after_sync_mode cli = true →
  ∃ goal ref, exit_goal reference (exit_after_sync cli) (info_blocks info) = (goal, ref) ∧ ExitAfterSyncTask goal ref ∈ tasks.
Proof.
  unfold spawn_tasks. intros (chain & _ & [= <-])%bind_Ok ->.
  destruct (exit_goal _ _ _) as [goal ref]. exists goal, ref. split; [done|]. apply elem_of_app. right.
  cbn [app]. right. apply elem_of_app. right. by left.
Qed.

Local Ltac stop := intros [= <- <-]; split; [first [assumption|by intros ?]|by intros ? ?].

Lemma start_inv cli chain_source inputs reference info d o d' :
  accepted cli → start cli chain_source inputs reference info d = (o, d') →
  keeps_seed d d' ∧ ∀ r, o = Ok r → started cli reference info d' r.
Proof.
  intros Hacc. unfold start. unfold mbind at 1, st_bind at 1, st_lift at 1.
  destruct (map_err BadVersion _); [|stop..]. cbn zeta.
  unfold mbind at 1, st_bind at 1, st_lift at 1. destruct (reject_if _ DataDirNotCreated) as [[]| |]; [|stop..].
  unfold mbind at 1, st_bind at 1, st_map_err at 1, on_validator_dir.
  pose proof (db_version_marked db_readable db_written (d_db d)) as [Hdb _].
  destruct (check_or_stamp_db_version _ _ _) as [odb v]. cbn [fst snd] in Hdb.
  destruct odb as [[]|edb|]; cbn [map_err]; [|stop..]. destruct Hdb as [Hver _].
  set (d1 := mkDisk v (d_wallet d)). assert (keeps_seed d d1) as Hk1 by by intros j.
  unfold mbind at 1, st_bind at 1, st_lift at 1. destruct (check_signet (info_chain info)) as [ch| |] eqn:Hsig; [|stop..].
  unfold mbind at 1, st_bind at 1, st_lift at 1.
  destruct (check_coinbase_recipient cli (info_chain info)) as [coinbase| |] eqn:Hcb; [|stop..].
  unfold mbind at 1, st_bind at 1, st_lift at 1. destruct (reject_if _ GbtClientFailed) as [[]| |]; [|stop..].
  unfold mbind at 1, st_bind at 1. destruct (start_enforcer _ _ _ _ _ d1) as [oe d2] eqn:He.
  apply start_enforcer_inv in He as (Hdb2 & Hk2 & He). assert (keeps_seed d d2) as Hk by (intros j Hj; by apply Hk2, Hk1).
  destruct oe as [e| |]; [|stop..]. specialize (He e eq_refl).
  unfold mbind at 1, st_bind at 1, st_lift at 1. match goal with |- context [match ?x with Ok _ => _ | _ => _ end] => destruct x as [zmq| |] end;
    [|stop..].
  unfold mbind at 1, st_bind at 1, st_lift at 1. destruct (reject_if _ FullScanFailed) as [[]| |]; [|stop..].
  unfold mbind at 1, st_bind at 1, st_lift at 1. destruct (spawn_tasks _ _ _ _ _) as [tasks| |] eqn:Ht; [|stop..].
  intros [= <- <-]. split; [done|]. intros r [= <-].
  pose proof (spawn_exit_task _ _ _ _ _ _ Ht) as Hexit.
  destruct (spawn_tasks_Ok _ _ _ _ _ _ Hacc Ht) as (Hone & Hrew & Hserver & _).
  unfold started. cbn [r_enforcer r_tasks]. split_and!; try done.
  - rewrite Hdb2. exact Hver.
  - intros Hs. destruct (check_signet_Ok _ _ Hsig Hs) as (c & _ & ?). by exists c.
  - destruct (enable_wallet cli); [done|]. by destruct He.
  - intros t addr Hin Hr. specialize (Hrew t addr Hin Hr). subst coinbase. unfold check_coinbase_recipient in Hcb.
    destruct (cli_coinbase_recipient cli) as [rcp|]; [|done]. destruct (require_network rcp _) eqn:Hn; [|done]. by injection Hcb as <-.
  - assert (negb (is_none (enforcer_wallet e)) = enable_wallet cli) as <-; [|done].
    destruct (enable_wallet cli); [by destruct He as (k & -> & _)|]. destruct He as [-> _]. by destruct (_ || _).
Qed.
End main_lemmas.

(** The node is warming up at a request. *)
Definition warming_up `{AppEnv} (i : nat) : Prop := ∃ message, blockchain_info i = inl (CallError RPC_IN_WARMUP message).

Lemma rpc_ready_ends `{AppEnv} fuel n k :
  (∀ i, (n ≤ i < k)%nat → warming_up i) → ¬ warming_up k → (n ≤ k)%nat → (k - n < fuel)%nat →
  rpc_ready fuel n = Some (match blockchain_info k with
                           | inr info => Ok info
                           | inl (Rejected 401) => Err Unauthorized
                           | inl e => Err (NodeNotReady e)
                           end).
Proof.
  intros Hw Hk. revert n Hw. induction fuel as [|fuel IH]; intros n Hw Hn Hf; [lia|]. cbn [rpc_ready].
  destruct (decide (n = k)) as [->|Hne].
  - destruct (blockchain_info k) as [[code message|status|]|info] eqn:Hi; [| |done|done].
    + destruct (Z.eqb_spec code RPC_IN_WARMUP) as [->|_]; [|done]. exfalso. apply Hk. by eexists.
    + destruct (Z.eqb_spec status 401) as [->|Hs]; [done|]. by repeat case_match.
  - destruct (Hw n ltac:(lia)) as [message ->]. rewrite Z.eqb_refl. apply IH; [|lia|lia].
    intros i Hi. apply Hw. lia.
Qed.

(** * Properties *)

(** C8: The enforcer starts up only when everything it relies on has been checked,
    and with exactly one task that writes to the validator: the node is ready and
    its version accepted; the database directory is marked with this version; on a
    signet the node has a challenge, not the public signet's; in wallet mode the
    node has a transaction index, and the keys are those of the wallet's directory;
    a template's reward goes to an address of the node's network; the services
    served are those of the mode; and a verification syncs to its reference's
    height.  Whether or not start-up succeeds, a seed that exists is kept. *)
Theorem startup_sound `{AppEnv} `{SeedLib} `{!SeedLaws} `{AppLib}
    fuel read_to_string cli chain_source inputs d o d' :
  accepted cli → main fuel read_to_string cli chain_source inputs d = (o, d') →
  keeps_seed d d'
  ∧ ∀ r, o = Ok (Some r) →
      ∃ info reference creds n, rest_ready fuel 0 0 = Some (Ok n) ∧ rpc_ready fuel 0 = Some (Ok info)
        ∧ create_client read_to_string true (node_rpc_opts cli) = Ok creds
        ∧ is_ok (check_bitcoin_core_version network_info (bitcoin_core_expected_version cli)
                   (bitcoin_core_skip_version_check cli)) = true
        ∧ verify_reference cli = Ok reference ∧ started cli reference info d' r.
Proof.
  intros Hacc. unfold main. unfold mbind at 1, st_bind at 1, st_lift at 1.
  destruct (verify_reference cli) as [reference| |]; [|intros [= <- <-]; split; [by intros ?|by intros ? ?]..].
  cbn zeta. unfold mbind at 1, st_bind at 1, st_lift at 1.
  destruct (reject_if _ (BadRestUrl _)) as [[]| |]; [|intros [= <- <-]; split; [by intros ?|by intros ? ?]..].
  destruct (rest_ready fuel 0 0) as [[n| |]|]; [|intros [= <- <-]; split; [by intros ?|by intros ? ?]..].
  unfold mbind at 1, st_bind at 1, st_lift at 1.
  unfold mbind at 1, st_bind at 1, st_lift at 1. destruct (create_client _ _ _) as [creds| |]; cbn [map_err]; [|intros [= <- <-]; split; [by intros ?|by intros ? ?]..].
  destruct (rpc_ready fuel 0) as [[info| |]|]; [|intros [= <- <-]; split; [by intros ?|by intros ? ?]..].
  unfold mbind at 1, st_bind at 1, st_lift at 1. unfold mbind at 1, st_bind at 1.
  destruct (start cli chain_source inputs reference info d) as [os d1] eqn:Hs.
  pose proof Hs as Hver. apply start_inv in Hs as [Hk Hr]; [|done].
  destruct os as [r| |]; intros [= <- <-]; (split; [done|]); intros r' Hr'; [|discriminate Hr'..].
  injection Hr' as <-. exists info, reference, creds, n. split_and!; try done; [|by apply Hr].
  unfold start in Hver. unfold mbind at 1, st_bind at 1, st_lift at 1 in Hver.
  destruct (check_bitcoin_core_version _ _ _); [done|discriminate Hver..].
Qed.

Section auto_create.
Context `{AppEnv} `{SeedLib} `{!SeedLaws}.

(** Creating a wallet over an existing seed fails, and changes nothing. *)
Lemma create_over_seed inputs network mnemonic k j d :
  seed_json (k_fs k) = Some j →
  (mnemonic = None → is_Some (si_fresh inputs) ∧ ∃ b, si_blocks inputs = inr b) →
  create_wallet inputs network mnemonic k d = (Err (CreateWalletFailed WalletAlreadyExists), (k_fs k, k_db k)).
Proof.
  intros Hj Hin. unfold create_wallet, create_new_wallet.
  assert (∀ m b, persist_seed (si_salt inputs) (si_nonce inputs) (si_fault inputs) (si_now inputs) m b None k
                 = (Err WalletAlreadyExists, k)) as Hp.
  { intros m b. unfold persist_seed, st_map_err, on_fs, insert_seed. unfold mbind at 1, st_bind at 1, st_get.
    unfold mbind at 1, st_bind at 1, st_lift at 1. rewrite Hj, bool_decide_true by done. cbn. by destruct k. }
  destruct mnemonic as [m|].
  - unfold mbind at 1, st_bind at 1, st_lift at 1. unfold mbind at 1, st_bind at 1, st_lift at 1.
    unfold mbind at 1, st_bind at 1. by rewrite Hp.
  - destruct (Hin eq_refl) as [[m Hm] [b Hb]]. unfold mbind at 1, st_bind at 1, st_lift at 1. rewrite Hm.
    cbn [ok_or mbind outcome_bind]. unfold mbind at 1, st_bind at 1, st_lift at 1. rewrite Hb.
    unfold mbind at 1, st_bind at 1. by rewrite Hp.
Qed.

(** Past its checks, the start of a wallet is the loading of the seed, and then the
    creation of a wallet, if one is wanted. *)
Lemma start_wallet_eq cli client inputs network challenge d info wanted :
  index_info = inr info → "txindex"%string ∈ info → (network = Signet → is_Some challenge) → si_opens inputs = true →
  wallet_mnemonic cli inputs = Ok wanted →
  start_wallet cli (Ok client) inputs network challenge d
  = match load_wallet inputs network d with
    | (Ok k, d1) => if negb (is_initialized k) && wanted.2 then create_wallet inputs network wanted.1 k d1 else (Ok k, d1)
    | (Err e, d1) => (Err e, d1)
    | (Panic, d1) => (Panic, d1)
    end.
Proof.
  intros Hi Htx Hsig Hop Hw. unfold start_wallet. rewrite Hi. unfold mbind at 1, st_bind at 1, st_lift at 1.
  assert (existsb (String.eqb "txindex") info = true) as ->.
  { apply existsb_exists. exists "txindex"%string. split; [by apply list_elem_of_In|done]. }
  unfold mbind at 1, st_bind at 1, st_lift at 1. cbn [negb reject_if].
  unfold mbind at 1, st_bind at 1, wallet_new. unfold mbind at 1, st_bind at 1, st_lift at 1.
  assert (match network with Signet => is_none challenge | _ => false end = false) as ->.
  { destruct network; try done. by destruct (Hsig eq_refl) as [c ->]. }
  cbn [reject_if]. unfold mbind at 1, st_bind at 1, st_lift at 1. rewrite Hop. cbn [negb reject_if].
  unfold mbind at 1, st_bind at 1, st_lift at 1. cbn [map_err].
  destruct (load_wallet inputs network d) as [[k| |] d1]; [|done..].
  unfold mbind at 1, st_bind at 1, st_lift at 1. rewrite Hw. destruct wanted as [m ac]. cbn [fst snd].
  by destruct (negb (is_initialized k) && ac).
Qed.
End auto_create.

(** Start-up ends: the REST interface is asked at most six times, however long it
    stays unavailable, and once the node has left its warm-up the RPC loop ends with
    its answer; so [main] has a result with any fuel above both. *)
Lemma startup_ends `{AppEnv} `{SeedLib} `{AppLib} fuel read_to_string cli chain_source inputs d k :
  (∀ i, (i < k)%nat → warming_up i) → ¬ warming_up k → (6 ≤ fuel)%nat → (k < fuel)%nat →
  (main fuel read_to_string cli chain_source inputs d).1 ≠ Ok None
  ∧ ∃ r, rest_ready fuel 0 0 = Some r ∧ ∀ n, r = Ok n → (n ≤ 6)%nat.
Proof.
  intros Hw Hk Hf Hkf. destruct (rest_ready_ends fuel 0 ltac:(lia) ltac:(lia)) as (r & Hr & Hn).
  change (Z.of_nat 0) with 0 in Hr. split; [|exists r; split; [done|]; intros n Hn'; destruct (Hn n Hn') as [? _]; lia].
  unfold main. unfold mbind at 1, st_bind at 1, st_lift at 1. destruct (verify_reference cli); [|done..].
  cbn zeta. unfold mbind at 1, st_bind at 1, st_lift at 1. destruct (reject_if _ (BadRestUrl _)) as [[]| |]; [|done..]. rewrite Hr.
  unfold mbind at 1, st_bind at 1, st_lift at 1. destruct r; [|done..].
  unfold mbind at 1, st_bind at 1, st_lift at 1. destruct (map_err BadRpcClient _); [|done..].
  rewrite (rpc_ready_ends fuel 0 k ltac:(intros i Hi; apply Hw; lia) Hk ltac:(lia) ltac:(lia)).
  unfold mbind at 1, st_bind at 1, st_lift at 1. match goal with |- context [match ?x with Ok _ => _ | _ => _ end] => destruct x end; [|done..].
  unfold mbind at 1, st_bind at 1. by destruct (start _ _ _ _ _ d) as [[] ?].
Qed.

(** The wallet a start-up ends with, once the node and the settings are in
    order.  A plaintext seed is loaded, and nothing is created.  Without a seed, one
    is created if the operator asked for it, from the seed file or at random, and
    stored in plain text; otherwise the wallet stays empty.  An encrypted seed starts
    locked; but if a wallet was to be created automatically the start-up fails,
    because there is a wallet already, and nothing changes. *)
Lemma wallet_started `{AppEnv} `{SeedLib} `{!SeedLaws} cli client inputs network challenge fs db info mnemonic wanted :
  index_info = inr info → "txindex"%string ∈ info → (network = Signet → is_Some challenge) → si_opens inputs = true →
  wallet_mnemonic cli inputs = Ok (mnemonic, wanted) →
  (mnemonic = None → is_Some (si_fresh inputs) ∧ ∃ b, si_blocks inputs = inr b) →
  let '(o, (fs', db')) := start_wallet cli (Ok client) inputs network challenge (fs, db) in
  match read_mnemonic (si_readable inputs) fs with
  | Ok (Some (inl m)) =>
      fs' = fs ∧ match initialize_wallet_from_mnemonic m network db with
                 | (Ok w, db1) => o = Ok (mkKeys fs db1 (Some w)) ∧ db' = db1
                 | (Err e, _) => o = Err (InitWallet_Seed (InitMnemonic e))
                 | (Panic, _) => o = Panic
                 end
  | Ok (Some (inr e)) =>
      fs' = fs ∧ db' = db
      ∧ o = if (wanted : bool) then Err (CreateWalletFailed WalletAlreadyExists) else Ok (mkKeys fs db None)
  | Ok None =>
      if wanted then
        ∀ k, o = Ok k → is_Some (bitcoin_wallet k) ∧ ∃ m birthday f, chosen (si_fresh inputs) mnemonic (si_blocks inputs) m birthday
               ∧ read_seed_file true fs' = Ok (Some f) ∧ seed f = StoredPlaintext (mnemonic_to_string m)
      else o = Ok (mkKeys fs db None) ∧ fs' = fs ∧ db' = db
  | Err e => o = Err (InitWallet_Seed (InitReadSeed e)) ∧ fs' = fs
  | Panic => o = Panic
  end.
Proof.
  intros Hi Htx Hsig Hop Hw Hin. rewrite (start_wallet_eq _ _ _ _ _ _ _ _ Hi Htx Hsig Hop Hw).
  unfold load_wallet, wallet_inner_new. cbn [fst snd].
  destruct (read_mnemonic (si_readable inputs) fs) as [[[m|e]|]|e|] eqn:Hread; cbn [map_err]; [| | |done|done].
  - destruct (initialize_wallet_from_mnemonic m network db) as [[w|e|] db1]; [|done..]. by destruct wanted.
  - unfold is_initialized. cbn [bitcoin_wallet is_none negb andb]. destruct wanted; [|done].
    assert (∃ j, seed_json fs = Some j) as [j Hj].
    { unfold read_mnemonic, read_seed_file in Hread. destruct (seed_json fs) as [j|]; [by exists j|discriminate Hread]. }
    by rewrite (create_over_seed _ _ _ (mkKeys fs db None) j) by done.
  - unfold is_initialized. cbn [bitcoin_wallet is_none negb andb]. destruct wanted; [|done].
    assert (seed_json fs = None) as Hj.
    { unfold read_mnemonic, read_seed_file in Hread. destruct (seed_json fs) as [j|]; [|done].
      destruct (reject_if _ ReadSeedIo) as [[]| |]; try discriminate Hread. cbn in Hread.
      destruct (seed_from_json j) as [f|]; try discriminate Hread. cbn in Hread. destruct (seed f); [|discriminate Hread].
      cbn in Hread. by destruct (parse_in_normalized mnemonic0). }
    unfold create_wallet. destruct (create_new_wallet _ _ _ _ _ _ _ _ _ _) as [oc k1] eqn:Hc. cbn [fst snd].
    intros k Hk. destruct oc; [|discriminate Hk..]. injection Hk as <-.
    pose proof (create_new_wallet_inv _ _ _ _ _ _ _ _ _ _ _ _ Hc) as [[_ Ho]|(m0 & b0 & r & k0 & _ & _ & Hinst)]; [done|].
    apply seed_stored in Hc. cbn [k_fs] in Hc. rewrite Hj in Hc. destruct Hc as [[_ Ho]|(m & birthday & f & Hch & Hf & Hst & _)].
    { by destruct a. }
    split.
    + destruct (is_ok r); [|by destruct Hinst]. destruct a. apply install_wallet_Ok in Hinst as (w & _ & ->). by eexists.
    + exists m, birthday, f. split_and!; [done|done|]. unfold stores in Hst. destruct (seed f); [by subst|done].
Qed.

(** A wallet with a password cannot be used together with the mempool: it starts
    locked, its mempool task fails at once, and the first task to end ends the
    enforcer with an error, before anybody can unlock it. *)
Lemma locked_wallet_stops `{AppEnv} `{SeedLib} `{!SeedLaws} cli client inputs network challenge fs db info e gbt addr :
  index_info = inr info → "txindex"%string ∈ info → (network = Signet → is_Some challenge) → si_opens inputs = true →
  mnemonic_path cli = None → auto_create cli = false → read_mnemonic (si_readable inputs) fs = Ok (Some (inr e)) →
  ∃ k, start_wallet cli (Ok client) inputs network challenge (fs, db) = (Ok k, (fs, db))
    ∧ wallet_mempool_start k gbt addr = Err WalletNotInitialized
    ∧ exit_ok (TaskEnded (is_ok (wallet_mempool_start k gbt addr))) = false.
Proof.
  intros Hi Htx Hsig Hop Hm Ha Hread. exists (mkKeys fs db None).
  assert (wallet_mnemonic cli inputs = Ok (None, false)) as Hw by (unfold wallet_mnemonic; by rewrite Hm, Ha).
  rewrite (start_wallet_eq _ _ _ _ _ _ _ _ Hi Htx Hsig Hop Hw). unfold load_wallet, wallet_inner_new. cbn [fst snd].
  by rewrite Hread.
Qed.

(** * Witnesses *)

(** A regtest node that warms up during the first two requests, with an index. *)
Definition toy_env : AppEnv := {|
  rest_chain_info n := if (n <? 2)%nat then Err (RestHttp (Some 503)) else Ok (mkChainInfo "regtest" 3 3 []);
  blockchain_info n := if (n <? 1)%nat then inl (CallError (-28) "Loading block index") else inr (mkNodeInfo Regtest 3);
  network_info := Some (300000, "/Satoshi:30.0.0/"%string);
  block_template := inl OtherNodeError;
  sample_template _ := inr tt;
  index_info := inr ["txindex"%string];
  zmq_notifications := inr [("pubhashblock", "tcp://a"); ("pubsequence", "tcp://b")]%string;
  require_network addr chain := String.eqb addr "bcrt1q";
  url_parses _ := true;
  create_dir_all _ := true;
  gbt_client_built := true;
  db_readable := true;
  db_written := None;
  full_scan_ok := true
|}.

Definition ex_rpc_config : NodeRpcConfig := mkRpcConfig "127.0.0.1" 18443 None (Some "u"%string) (Some (new_secret "p")).
(** A wallet and a mempool, with a template server. *)
Definition ex_config (auto : bool) : Config :=
  mkConfig true true true (Some "bcrt1q"%string) ex_rpc_config None None false
    (mkWalletConfig Disabled None None None) false auto None false None None None.
Definition ex_inputs : @seed_inputs toy_seed :=
  mkSeedInputs (H := toy_seed) (Some ex_mnemonic) (inr 7) (Some [x09]) ex_nonce SeedNoFault 5 true true (λ s, Some s).
Definition ex_disk (seed : option bytes) : @disk toy_seed :=
  mkDisk (H := toy_seed) (mkDbDir None false) (mkSeedFs seed None, None).

Lemma ex_accepted auto : accepted (ex_config auto).
Proof. split_and!; cbn; try done; by intros []. Qed.

Definition ex_main : outcome StartupError (option (@running toy_seed)) * @disk toy_seed :=
  @main toy_env toy_seed toy_app 6 (λ _, None) (ex_config false) (Ok None) ex_inputs (ex_disk (Some [x01])).

Definition runs (o : outcome StartupError (option (@running toy_seed))) (tasks : list task) : bool :=
  match o with Ok (Some r) => bool_decide (length (r_tasks r) = length tasks) | _ => false end.
Lemma runs_inv o tasks : runs o tasks = true → ∃ r, o = Ok (Some r) ∧ length (r_tasks r) = length tasks.
Proof. destruct o as [[r|]| |]; [|done..]. intros Hl%bool_decide_eq_true_1. by exists r. Qed.

(** The start-up succeeds, with the mempool's task and the server. *)
Lemma startup_sound_witness :
  ∃ r, ex_main.1 = Ok (Some r) ∧ length (r_tasks r) = 2%nat
    ∧ length (List.filter syncs_validator (r_tasks r)) = 1%nat
    ∧ ConnectServerTask [CRYPTO_SERVICE_SERVICE_NAME; VALIDATOR_SERVICE_SERVICE_NAME;
                         MINING_SERVICE_SERVICE_NAME; WALLET_SERVICE_SERVICE_NAME] ∈ r_tasks r.
Proof.
  destruct (runs_inv ex_main.1 [EnforcerTask; EnforcerTask] ltac:(vm_compute; reflexivity)) as (r & Hr1 & Hlen).
  exists r. split; [exact Hr1|]. split; [exact Hlen|].
  destruct (@startup_sound toy_env toy_seed toy_seed_laws toy_app 6 (λ _, None) (ex_config false) (Ok None) ex_inputs
    (ex_disk (Some [x01])) ex_main.1 ex_main.2 (ex_accepted false) (surjective_pairing ex_main)) as [_ Hr].
  destruct (Hr r Hr1) as (info & reference & creds & n & _ & Hinfo & _ & _ & _ & Hs).
  assert (info = mkNodeInfo Regtest 3) as -> by (vm_compute in Hinfo; congruence).
  destruct Hs as (_ & _ & _ & Hone & _ & Hserver & _). split; [exact Hone|exact Hserver].
Defined.

Definition ex_wallet : string * string := ("wpkh(abandon about/84'/1'/0'/0/*)", "wpkh(abandon about/84'/1'/0'/1/*)")%string.
Definition ex_encrypted : EncryptedMnemonic := mkEncrypted ex_nonce (ex_key ++ list_byte_of_string ex_mnemonic) [x09].
Definition ex_start (auto : bool) (seed : option bytes) :=
  @start_wallet toy_env toy_seed (ex_config auto) (Ok None) ex_inputs Regtest None (mkSeedFs seed None, None).

(** No seed, a plaintext one, and an encrypted one that is to be created again. *)
Lemma wallet_started_witness :
  (∃ k, (ex_start false (Some [x01])).1 = Ok k ∧ is_Some (@bitcoin_wallet toy_seed k))
  ∧ (ex_start true (Some [x02])).1 = Err (CreateWalletFailed WalletAlreadyExists)
  ∧ (ex_start false (Some [x02])).1 = Ok (@mkKeys toy_seed (mkSeedFs (Some [x02]) None) None None).
Proof.
  pose proof (λ auto seed, @wallet_started toy_env toy_seed toy_seed_laws (ex_config auto) None ex_inputs Regtest None
    (mkSeedFs seed None) None ["txindex"%string] None auto eq_refl ltac:(by left) ltac:(discriminate) eq_refl eq_refl
    (λ _, conj (ex_intro _ _ eq_refl) (ex_intro _ 7 eq_refl))) as Hw.
  assert (@read_mnemonic toy_seed true (mkSeedFs (Some [x01]) None) = Ok (Some (inl ex_mnemonic))) as H1 by reflexivity.
  assert (@read_mnemonic toy_seed true (mkSeedFs (Some [x02]) None) = Ok (Some (inr ex_encrypted))) as H2 by reflexivity.
  unfold ex_start. split_and!.
  - specialize (Hw false (Some [x01])). change (si_readable ex_inputs) with true in Hw. rewrite H1 in Hw.
    destruct (start_wallet _ _ _ _ _ _) as [o [fs' db']]. destruct Hw as [_ Hw].
    change (@initialize_wallet_from_mnemonic toy_seed ex_mnemonic Regtest None)
      with (@Ok InitMnemonicError _ ex_wallet, Some ex_wallet) in Hw.
    destruct Hw as [-> _]. eexists. split; [reflexivity|]. by eexists.
  - specialize (Hw true (Some [x02])). change (si_readable ex_inputs) with true in Hw. rewrite H2 in Hw.
    destruct (start_wallet _ _ _ _ _ _) as [o [fs' db']]. destruct Hw as (_ & _ & ->). reflexivity.
  - specialize (Hw false (Some [x02])). change (si_readable ex_inputs) with true in Hw. rewrite H2 in Hw.
    destruct (start_wallet _ _ _ _ _ _) as [o [fs' db']]. destruct Hw as (_ & _ & ->). reflexivity.
Defined.

Lemma startup_ends_witness :
  (@main toy_env toy_seed toy_app 6 (λ _, None) (ex_config true) (Ok None) ex_inputs (ex_disk None)).1 ≠ Ok None.
Proof.
  apply (@startup_ends toy_env toy_seed toy_app 6 (λ _, None) (ex_config true) (Ok None) ex_inputs (ex_disk None) 1).
  - intros i Hi. assert (i = 0%nat) as -> by lia. by eexists.
  - intros [message Hm]. discriminate Hm.
  - lia.
  - lia.
Defined.

Lemma locked_wallet_stops_witness :
  ∃ k, ex_start false (Some [x02]) = (Ok k, (mkSeedFs (Some [x02]) None, None))
    ∧ @wallet_mempool_start toy_seed k None None = Err WalletNotInitialized.
Proof.
  destruct (@locked_wallet_stops toy_env toy_seed toy_seed_laws (ex_config false) None ex_inputs Regtest None
    (mkSeedFs (Some [x02]) None) None ["txindex"%string]
    ex_encrypted None None) as (k & Hk & Hm & _);
    [reflexivity|by left|discriminate|reflexivity|reflexivity|reflexivity|vm_compute; reflexivity|].
  exists k. split; [exact Hk|exact Hm].
Defined.
