(* ===== verification/Tasks.v ===== *)
(** What the tasks of the binary do around the mempool library, and the end of the
    process (`app/main.rs`: [sync_mempool], [wait_for_error_or_shutdown],
    [run_*_mempool_task], [spawn_block_template_server], the end of [main]).

    The initial sync of the mempool library, the template server's start and what
    wakes a waiting task are arguments. *)
From Stdlib Require Import ZArith Lia Strings.String.
From stdpp Require Import base list relations.
From S2P Require Import Prelude Text Bitcoin SeedStore AppSync App.
#[local] Open Scope Z_scope.

(** ** The mempool tasks *)

Definition sync_mempool (connect : string → connect_result) (synced : bool) (zmq_addr_sequence : string) :
    outcome MempoolTaskError unit :=
  _ ← check_zmq connect zmq_addr_sequence;
  reject_if (negb synced) InitialSync.

(** What ends the wait: the shutdown, the error of the background sync, or that its
    sender is gone. *)
Inductive wake := Cancelled | SyncFailed | SenderDropped.
Definition wait_for_error_or_shutdown (w : wake) : outcome MempoolTaskError unit :=
  match w with Cancelled => Ok tt | SyncFailed => Err SyncTask | SenderDropped => Ok tt end.

Inductive Report :=
| MempoolReport (e : MempoolTaskError) | NetworkInfoFailed (e : NodeError) | TemplateReport (e : TemplateError)
| GbtServerFailed | InitializeRpcServer | WalletReport (e : WalletMempoolError).

(** What the node and the libraries answer a task. *)
Record task_answers := mkAnswers {
  ta_connect : string → connect_result;
  ta_synced : bool;
  ta_network_info : NodeError + unit;
  ta_server_new : bool;
  ta_server_bound : bool;
  ta_wake : wake
}.

Inductive server_event := Listening | Stopped.

Section tasks.
Context `{AppEnv}.

Definition run_validator_mempool_task (a : task_answers) (zmq : string) : outcome Report unit :=
  _ ← map_err MempoolReport (sync_mempool (ta_connect a) (ta_synced a) zmq);
  map_err MempoolReport (wait_for_error_or_shutdown (ta_wake a)).

(** [None] is out of fuel. *)
Definition spawn_block_template_server (fuel : nat) (a : task_answers) : option (outcome Report unit) :=
  match ta_network_info a with
  | inl e => Some (Err (NetworkInfoFailed e))
  | inr _ =>
      template ← sample_template_loop fuel 0;
      Some (_ ← map_err TemplateReport template;
            _ ← reject_if (negb (ta_server_new a)) GbtServerFailed;
            reject_if (negb (ta_server_bound a)) InitializeRpcServer)
  end.

(** The result, and what happened to the template server. *)
Definition run_block_producer_mempool_task (fuel : nat) (a : task_answers) (gbt : option GbtConfig) (zmq : string) :
    option (outcome Report unit * list server_event) :=
  match map_err MempoolReport (sync_mempool (ta_connect a) (ta_synced a) zmq) with
  | Ok _ =>
      match gbt with
      | Some _ =>
          spawned ← spawn_block_template_server fuel a;
          match spawned with
          | Ok _ => Some (map_err MempoolReport (wait_for_error_or_shutdown (ta_wake a)), [Listening; Stopped])
          | Err e => Some (Err e, [])
          | Panic => Some (Panic, [])
          end
      | None => Some (map_err MempoolReport (wait_for_error_or_shutdown (ta_wake a)), [])
      end
  | Err e => Some (Err e, [])
  | Panic => Some (Panic, [])
  end.

Definition run_wallet_mempool_task `{SeedLib} (fuel : nat) (a : task_answers) (wallet : keys) (gbt : option GbtConfig)
    (get_new_address : option string) (zmq : string) : option (outcome Report unit * list server_event) :=
  match map_err WalletReport (wallet_mempool_start wallet gbt get_new_address) with
  | Ok addr => run_block_producer_mempool_task fuel a (mkGbt ∘ Some <$> addr) zmq
  | Err e => Some (Err e, [])
  | Panic => Some (Panic, [])
  end.
End tasks.

(** ** The end of [main] *)

Inductive task_status := Running | Ended (ok : bool) | Panicked | Aborted.
(** How a task that was joined counts in the [select!]. *)
Definition joined_event (status : task_status) : option first_event :=
  match status with
  | Running => None
  | Ended ok => Some (TaskEnded ok)
  | Panicked | Aborted => Some TaskPanicked
  end.

(** Waiting for the first event; the drain, with that event; and the exit. *)
Inductive phase := Selecting | Draining (first : first_event) | Exited (first : first_event).
(** [tasks]: the [JoinSet]; [joined]: what was taken out of it. *)
Record process := mkProcess {
  join_set : list (task * task_status);
  joined : list (task * task_status);
  cancel : bool;
  main_phase : phase
}.
Definition spawned (tasks : list task) : process := mkProcess (map (λ t, (t, Running)) tasks) [] false Selecting.

(** [abort_all] *)
Definition abort (status : task_status) : task_status := match status with Running => Aborted | s => s end.

(** The tasks end by themselves, also while they are drained; [main] joins them, and
    gives up after a second. *)
Inductive process_step : process → process → Prop :=
| task_ends p pre t post status : join_set p = pre ++ (t, Running) :: post → (∀ first, main_phase p ≠ Exited first) →
    is_Some (joined_event status) → status ≠ Aborted →
    process_step p (mkProcess (pre ++ (t, status) :: post) (joined p) (cancel p) (main_phase p))
| first_joined p pre t post status e : join_set p = pre ++ (t, status) :: post → main_phase p = Selecting →
    joined_event status = Some e →
    process_step p (mkProcess (pre ++ post) (joined p ++ [(t, status)]) true (Draining e))
| first_empty p : join_set p = [] → main_phase p = Selecting →
    process_step p (mkProcess [] (joined p) true (Draining NoTasks))
| first_ctrl_c p ok : main_phase p = Selecting →
    process_step p (mkProcess (join_set p) (joined p) true (Draining (CtrlC ok)))
| drain_joined p pre t post status first : join_set p = pre ++ (t, status) :: post → main_phase p = Draining first →
    status ≠ Running →
    process_step p (mkProcess (pre ++ post) (joined p ++ [(t, status)]) (cancel p) (Draining first))
| drained p first : join_set p = [] → main_phase p = Draining first →
    process_step p (mkProcess [] (joined p) (cancel p) (Exited first))
| drain_timeout p first : main_phase p = Draining first →
    process_step p (mkProcess (map (λ '(t, s), (t, abort s)) (join_set p)) (joined p) (cancel p) (Exited first)).

(** The status the process exits with. *)
Definition exit_status (p : process) : option bool :=
  match main_phase p with Exited first => Some (exit_ok first) | _ => None end.

(** * Lemmas *)

Lemma sample_template_None `{AppEnv} fuel n :
  sample_template_loop fuel n = None ↔ ∀ i, (n ≤ i < n + fuel)%nat → ∃ message, sample_template i = inl (CallError (-10) message).
Proof.
  revert n. induction fuel as [|fuel IH]; intros n; cbn [sample_template_loop].
  - split; [intros _ i Hi; lia|done].
  - split.
    + intros Hs i Hi. destruct (decide (i = n)) as [->|Hne].
      * destruct (sample_template n) as [[code message| |]|]; try done. destruct (Z.eqb_spec code (-10)) as [->|]; [by exists message|].
        by destruct (code =? -9).
      * assert (sample_template_loop fuel (S n) = None) as Hl.
        { destruct (sample_template n) as [[code message| |]|]; try done. destruct (code =? -10); [done|]. by destruct (code =? -9). }
        apply (proj1 (IH (S n)) Hl). lia.
    + intros Hall. destruct (Hall n ltac:(lia)) as [message ->]. cbn. apply IH. intros i Hi. apply Hall. lia.
Qed.

Lemma check_zmq_Ok connect zmq :
  check_zmq connect zmq = Ok () ↔ connect (default "" (strip_prefix "tcp://" zmq))%string = Connected.
Proof. unfold check_zmq, is_address_port_open. by destruct (connect _). Qed.

Lemma sync_mempool_Ok connect synced zmq :
  sync_mempool connect synced zmq = Ok tt ↔ connect (default "" (strip_prefix "tcp://" zmq))%string = Connected ∧ synced = true.
Proof.
  unfold sync_mempool. split.
  - intros ([] & Hc%check_zmq_Ok & Hr)%bind_Ok. split; [done|]. by destruct synced.
  - intros [->%check_zmq_Ok ->]. done.
Qed.

Lemma sample_template_no_panic `{AppEnv} fuel n : sample_template_loop fuel n ≠ Some Panic.
Proof.
  revert n. induction fuel as [|fuel IH]; intros n; cbn [sample_template_loop]; [done|].
  destruct (sample_template n) as [[code message| |]|]; try done. destruct (code =? -10); [apply IH|]. by destruct (code =? -9).
Qed.

Lemma sync_mempool_no_panic connect synced zmq : sync_mempool connect synced zmq ≠ Panic.
Proof. unfold sync_mempool, check_zmq, is_address_port_open. destruct (connect _); try done. by destruct synced. Qed.

Lemma sync_mempool_SyncTask connect synced zmq : sync_mempool connect synced zmq ≠ Err SyncTask.
Proof. unfold sync_mempool, check_zmq, is_address_port_open. destruct (connect _); try done. by destruct synced. Qed.

Record process_inv (tasks : list task) (p : process) : Prop := {
  inv_all : (join_set p ++ joined p).*1 ≡ₚ tasks;
  inv_cancel : cancel p = true ↔ main_phase p ≠ Selecting;
  inv_selecting : main_phase p = Selecting → joined p = [];
  inv_first first : main_phase p = Draining first ∨ main_phase p = Exited first →
    match first with
    | TaskEnded ok => ∃ t, head (joined p) = Some (t, Ended ok)
    | TaskPanicked => ∃ t, head (joined p) = Some (t, Panicked)
    | NoTasks => tasks = []
    | CtrlC _ => True
    end;
  inv_exited first : main_phase p = Exited first → ∀ t status, (t, status) ∈ join_set p → status ≠ Running;
  inv_aborted t : (∀ first, main_phase p ≠ Exited first) → (t, Aborted) ∉ join_set p
}.

Lemma process_inv_spawned tasks : process_inv tasks (spawned tasks).
Proof.
  split; cbn; try done.
  - rewrite app_nil_r, <- list_fmap_compose. by rewrite list_fmap_id.
  - by intros first [?|?].
  - intros t _ (t' & [= _ Hs] & _)%list_elem_of_fmap.
Qed.

Lemma head_app {A} (l k : list A) x : head l = Some x → head (l ++ k) = Some x.
Proof. by destruct l. Qed.

(** What stays true of the first event when more tasks are joined. *)
Lemma inv_first_join tasks p x first :
  process_inv tasks p → main_phase p = Draining first →
  match first with
  | TaskEnded ok => ∃ t, head (joined p ++ [x]) = Some (t, Ended ok)
  | TaskPanicked => ∃ t, head (joined p ++ [x]) = Some (t, Panicked)
  | NoTasks => tasks = []
  | CtrlC _ => True
  end.
Proof.
  intros Hinv Hm. pose proof (inv_first _ _ Hinv first (or_introl Hm)) as Hf.
  destruct first; try done; destruct Hf as [t Ht]; exists t; by apply head_app.
Qed.

Lemma join_all tasks p pre (x : task * task_status) post :
  process_inv tasks p → join_set p = pre ++ x :: post → ((pre ++ post) ++ joined p ++ [x]).*1 ≡ₚ tasks.
Proof.
  intros [Hall _ _ _ _ _] Hj. rewrite <- Hall, Hj. f_equiv.
  rewrite <- !app_assoc. apply Permutation_app_head. cbn. rewrite app_assoc, (Permutation_app_comm (post ++ joined p)). done.
Qed.

Lemma process_inv_step tasks p p' : process_step p p' → process_inv tasks p → process_inv tasks p'.
Proof.
  intros Hstep Hinv. pose proof Hinv as [Hall Hc Hsel Hf Hex Hab].
  destruct Hstep as [p pre t post status Hj Hnot Hs Hna|p pre t post status e Hj Hm He|p Hj Hm|p ok Hm|p pre t post status first Hj Hm Hs
                    |p first Hj Hm|p first Hm].
  - split; cbn; try done.
    + rewrite <- Hall, Hj, !fmap_app. done.
    + intros first Hm. by destruct (Hnot first).
    + intros t' Hn [Hin|[[= -> Ha]|Hin]%elem_of_cons]%elem_of_app; [| |];
        [apply (Hab t' Hn); rewrite Hj; apply elem_of_app; by left|congruence|].
      apply (Hab t' Hn). rewrite Hj. apply elem_of_app. right. by right.
  - assert (∀ t', (t', Aborted) ∉ join_set p) as Hno by (intros t'; apply Hab; by rewrite Hm).
    split; cbn; [by eapply join_all|done|done| |done|].
    + intros first [[= <-]|[=]]. rewrite (Hsel Hm). cbn. destruct status; try done; injection He as <-; [by exists t|by exists t|].
      destruct (Hno t). rewrite Hj. apply elem_of_app. right. by left.
    + intros t' _ Hin. apply (Hno t'). rewrite Hj. rewrite elem_of_app in Hin. rewrite elem_of_app, elem_of_cons. tauto.
  - split; cbn; [by rewrite <- Hall, Hj|done|done| |done|].
    + intros first [[= <-]|[=]]. rewrite Hj, (Hsel Hm) in Hall. by apply Permutation_nil_l in Hall.
    + intros t' _ Hin. by apply elem_of_nil in Hin.
  - split; cbn; [done|done|done| |done|].
    + by intros first [[= <-]|[=]].
    + intros t' _. apply Hab. by rewrite Hm.
  - split; cbn; [by eapply join_all| |done| |done|].
    + rewrite Hc, Hm. done.
    + intros first' [[= <-]|[=]]. by eapply inv_first_join.
    + intros t' _ Hin. apply (Hab t'); [by rewrite Hm|]. rewrite Hj. rewrite elem_of_app in Hin. rewrite elem_of_app, elem_of_cons. tauto.
  - split; cbn; [by rewrite <- Hall, Hj| |done| | |].
    + rewrite Hc, Hm. done.
    + intros first' [[=]|[= <-]]. apply Hf. by left.
    + intros first' _ t' status Hin. by apply elem_of_nil in Hin.
    + intros t' Hn. by destruct (Hn first).
  - split; cbn; [| |done| | |].
    + rewrite <- Hall, !fmap_app, <- list_fmap_compose. f_equiv.
      apply reflexive_eq, list_fmap_ext. by intros ? [].
    + rewrite Hc, Hm. done.
    + intros first' [[=]|[= <-]]. apply Hf. by left.
    + intros first' _ t' status ([t0 s0] & [= -> ->] & _)%list_elem_of_fmap. by destruct s0.
    + intros t' Hn. by destruct (Hn first).
Qed.

(** * Properties *)

(** The mempool task of a block producer.  It succeeds only when it is told to shut down
    or the sync's sender is gone, after the initial sync and, if templates are asked
    for, a sample template; it fails with the error of the step that failed.  A template
    server that was started is stopped, and none is started before the sync is done and
    the node hands out templates.  It never ends while the node answers that it is
    warming up. *)
Lemma mempool_task_outcome `{AppEnv} fuel a gbt zmq :
  let ready := ta_connect a (default "" (strip_prefix "tcp://" zmq))%string = Connected ∧ ta_synced a = true in
  match run_block_producer_mempool_task fuel a gbt zmq with
  | None => ready ∧ gbt ≠ None ∧ ∀ i, (i < fuel)%nat → ∃ message, sample_template i = inl (CallError (-10) message)
  | Some (res, served) =>
      (served = [] ∨ served = [Listening; Stopped] ∧ ready ∧ gbt ≠ None ∧ sample_template_loop fuel 0 = Some (Ok tt))
      ∧ match res with
        | Ok _ => ready ∧ ta_wake a ≠ SyncFailed ∧ (served = [] → gbt = None)
        | Err (MempoolReport SyncTask) => ready ∧ ta_wake a = SyncFailed
        | Err (MempoolReport _) => ¬ ready
        | Err (WalletReport _) => False
        | Err _ => ready ∧ gbt ≠ None
        | Panic => False
        end
  end.
Proof.
  intros ready. unfold run_block_producer_mempool_task.
  destruct (sync_mempool (ta_connect a) (ta_synced a) zmq) as [[]|e|] eqn:Hs; cbn [map_err].
  - apply sync_mempool_Ok in Hs. destruct gbt as [gbt|].
    + unfold spawn_block_template_server. destruct (ta_network_info a) as [e|[]]; cbn [mbind option_bind]; [split; [by left|done]|].
      destruct (sample_template_loop fuel 0) as [[[]|e|]|] eqn:Ht; cbn.
      * destruct (ta_server_new a); cbn; [|split; [by left|done]]. destruct (ta_server_bound a); cbn; [|split; [by left|done]].
        split; [by right|]. by destruct (ta_wake a); cbn.
      * split; [by left|done].
      * by apply sample_template_no_panic in Ht.
      * split; [done|]. split; [done|]. intros i Hi. apply (proj1 (sample_template_None fuel 0)); [done|lia].
    + split; [by left|]. by destruct (ta_wake a); cbn.
  - split; [by left|]. assert (¬ ready) as Hn by (intros Hr%sync_mempool_Ok; congruence). destruct e; try done.
    by apply sync_mempool_SyncTask in Hs.
  - by apply sync_mempool_no_panic in Hs.
Qed.

(** The end of the process, for the tasks it starts with, however they end and are
    joined.  The tasks are told to stop exactly from the first event on; the exit status
    is that of this event: success only if the first task to be joined ended well or the
    process was interrupted, failure only if that task failed or panicked or the
    interruption could not be received; at the exit no task runs, and every task is
    accounted for. *)
Lemma process_exits {W} cli (enforcer : Enforcer W) info coinbase reference tasks p :
  spawn_tasks cli enforcer info coinbase reference = Ok tasks → rtc process_step (spawned tasks) p →
  (cancel p = true ↔ main_phase p ≠ Selecting)
  ∧ (join_set p ++ joined p).*1 ≡ₚ tasks
  ∧ ∀ ok, exit_status p = Some ok →
      (∀ t status, (t, status) ∈ join_set p → status ≠ Running)
      ∧ if ok then (∃ t, head (joined p) = Some (t, Ended true)) ∨ main_phase p = Exited (CtrlC true)
        else (∃ t, head (joined p) = Some (t, Ended false) ∨ head (joined p) = Some (t, Panicked))
             ∨ main_phase p = Exited (CtrlC false).
Proof.
  intros Hsp Hr. assert (process_inv tasks p) as [Hall Hc _ Hf Hex _].
  { revert p Hr. apply rtc_ind_r; [apply process_inv_spawned|]. intros p p' _ Hs Hi. by eapply process_inv_step. }
  split; [done|]. split; [done|]. intros ok He. unfold exit_status in He. destruct (main_phase p) as [| |first] eqn:Hm; try done.
  injection He as <-. split; [by eapply Hex|]. specialize (Hf first (or_intror eq_refl)). destruct first as [ok| | |ok]; cbn.
  - destruct Hf as [t Ht]. destruct ok; left; exists t; [done|by left].
  - destruct Hf as [t Ht]. left. exists t. by right.
  - subst tasks. unfold spawn_tasks in Hsp. apply bind_Ok in Hsp as (chain & _ & [= Hsp]). by destruct chain.
  - destruct ok; by right.
Qed.

(** An exit with success does not mean that the consensus state was verified: the
    server's task, which ends well on a [stop] request, may be the first to end. *)
Lemma unverified_exit goal reference services :
  let tasks := [ConnectServerTask services; ExitAfterSyncTask goal reference] in
  ∃ p, rtc process_step (spawned tasks) p ∧ exit_status p = Some true
    ∧ join_set p = [(ExitAfterSyncTask goal reference, Aborted)].
Proof.
  intros tasks. eexists. split; [|split].
  - eapply rtc_l; [by apply (task_ends (spawned tasks) [] (ConnectServerTask services) [(ExitAfterSyncTask goal reference, Running)] (Ended true))|].
    eapply rtc_l; [by eapply (first_joined _ [])|]. eapply rtc_l; [by eapply drain_timeout|]. apply rtc_refl.
  - done.
  - done.
Qed.
