(* ===== verification/Logging.v ===== *)
(** The log filter (`app/logging.rs`: [saturating_pred_level], [targets_directive_str],
    the filter of [set_tracing_subscriber]) and the list of open files logged when the
    process runs out of them (`app/file_descriptors.rs`).

    The environment and the output of `lsof` are arguments; the layers the filter is
    put on belong to the tracing crates. *)
From Stdlib Require Import Lia Strings.String Strings.Ascii.
From stdpp Require Import base list strings.
From S2P Require Import Prelude Text.
#[local] Open Scope string_scope.

(** ** Levels, the most verbose first *)
Inductive Level := TRACE | DEBUG | INFO | WARN | ERROR.
Definition verbosity (l : Level) : nat :=
  match l with TRACE => 4 | DEBUG => 3 | INFO => 2 | WARN => 1 | ERROR => 0 end.
Definition saturating_pred_level (log_level : Level) : Level :=
  match log_level with TRACE => DEBUG | DEBUG => INFO | INFO => WARN | WARN => ERROR | ERROR => ERROR end.

(** [level.as_str().to_ascii_lowercase()] *)
Definition level_str (l : Level) : string :=
  match l with TRACE => "trace" | DEBUG => "debug" | INFO => "info" | WARN => "warn" | ERROR => "error" end.

Definition directive (d : string * Level) : string :=
  let '(target, level) := d in if is_empty target then level_str level else target ++ "=" ++ level_str level.
Definition targets_directive_str (targets : list (string * Level)) : string := join "," (map directive targets).

Definition default_targets (log_level : Level) : list (string * Level) :=
  [("", saturating_pred_level log_level);
   ("bip360p_enforcer", log_level);
   ("bip360p_enforcer_lib", log_level);
   ("cusf_enforcer_mempool", log_level);
   ("h2", saturating_pred_level (saturating_pred_level log_level));
   ("hyper_util", saturating_pred_level (saturating_pred_level log_level));
   ("jsonrpsee_core::tracing", log_level);
   ("rustls", saturating_pred_level (saturating_pred_level log_level))].

(** The filter's variable in the environment. *)
Inductive VarError := NotPresent | NotUnicode.
Definition directives_str (log_level : Level) (env : VarError + string) : outcome VarError string :=
  let default_directives_str := targets_directive_str (default_targets log_level) in
  match env with
  | inr env_directives => Ok (default_directives_str ++ "," ++ env_directives)
  | inl NotPresent => Ok default_directives_str
  | inl err => Err err
  end.

(** ** Open files *)

(** [str::lines]: a line ends with a line feed, before which a carriage return belongs to
    the end; what follows the last one is a line unless it is empty. *)
Definition carriage_return : ascii := "013"%char.
Fixpoint strip_cr (s : string) : string :=
  match s with
  | "" => ""
  | String c "" => if Ascii.eqb c carriage_return then "" else s
  | String c s => String c (strip_cr s)
  end.
Definition lines (s : string) : list string :=
  let l := split "010"%char s in
  (map strip_cr (removelast l) ++ match last l with Some "" | None => [] | Some rest => [rest] end)%list.

(** [output]: what `lsof` answers, if it can be run. *)
Definition list_open_descriptors (output : option (bool * string)) : outcome unit (list string) :=
  '(success, stdout) ← ok_or output tt;
  _ ← reject_if (negb success) tt;
  Ok (omap (strip_prefix "n") (lines stdout)).

(** * Properties *)

Lemma level_str_inj l l' : level_str l = level_str l' → l = l'.
Proof. by destruct l, l'. Qed.

(** The directives of the filter are read back one by one: none of them is split, joined
    or lost, and what the environment asks for comes after them. *)
Lemma directives_read_back log_level env s :
  directives_str log_level env = Ok s →
  split ","%char s = (map directive (default_targets log_level)
                      ++ match env with inr e => split ","%char e | inl _ => [] end)%list.
Proof.
  unfold directives_str. assert (split ","%char (targets_directive_str (default_targets log_level))
    = map directive (default_targets log_level)) as Hd by (by destruct log_level; vm_compute).
  destruct env as [[]|e]; intros [= <-]; [by rewrite Hd, app_nil_r|].
  by rewrite split_app_sep, Hd.
Qed.

(** No target is more verbose than the level asked for, and the program's own have it. *)
Lemma targets_not_louder log_level target level :
  (target, level) ∈ default_targets log_level →
  (verbosity level ≤ verbosity log_level)%nat
  ∧ (target = "bip360p_enforcer" ∨ target = "bip360p_enforcer_lib" → level = log_level).
Proof.
  unfold default_targets. rewrite !elem_of_cons, elem_of_nil. intros Hin.
  destruct_or?; simplify_eq; (split; [destruct log_level; cbn; lia|naive_solver]).
Qed.

(** Every line that names a file, and no other. *)
Lemma open_files_listed stdout l :
  list_open_descriptors (Some (true, stdout)) = Ok l → ∀ f, f ∈ l ↔ ("n" ++ f) ∈ lines stdout.
Proof.
  intros Hl f. assert (omap (strip_prefix "n") (lines stdout) = l) as <- by (by injection Hl).
  rewrite list_elem_of_omap. split.
  - intros (line & Hin & ->%strip_prefix_Some). exact Hin.
  - intros Hin. exists ("n" ++ f). split; [done|]. exact (proj2 (strip_prefix_Some "n" ("n" ++ f) f) eq_refl).
Qed.

Lemma logging_examples :
  targets_directive_str [("", INFO); ("h2", WARN)] = "info,h2=warn"
  ∧ lines ("p1" ++ newline ++ "n/dev/null" ++ newline) = ["p1"; "n/dev/null"].
Proof. split; reflexivity. Qed.
