(* ===== verification/Wire.v ===== *)
(** The protobuf wire format, the buffa runtime the generated messages call, and the
    statements a generated message repeats.

    [payload] and [encode] are the wire format of a message given as its records, pairs of
    a field number and a value; they are the specification.  [Buffa] holds the runtime as
    the generated code calls it, third-party code and so a parameter, [BuffaLaws] what it
    is documented to do.  A generated [compute_size], [write_to] or [merge_field] is a
    sequence of statements of a few shapes; each shape is a definition here, with a lemma
    that relates it to the records it stands for, and [Message], [MessageSpec] and
    [MessageLaws] are the interface of a message that has all of it. *)
From Stdlib Require Import ZArith Lia Strings.Byte Strings.String.
From stdpp Require Import base list gmap strings.
From S2P Require Import Prelude.
#[local] Open Scope Z_scope.

Declare Scope wire_scope.
Delimit Scope wire_scope with wire.
#[global] Open Scope wire_scope.

(** ** The wire format *)

(** A base-128 varint, least significant group first. *)
Fixpoint varint_fuel (n : nat) (v : Z) : bytes :=
  match n with
  | O => []
  | S n => if v <? 128 then [z2b v] else z2b (128 + v mod 128) :: varint_fuel n (v / 128)
  end.
Definition varint (v : Z) : bytes := varint_fuel 10 v.

(** [buffa::encoding::WireType] *)
Inductive WireType := Varint | Fixed64 | LengthDelimited | StartGroup | EndGroup | Fixed32.
#[export] Instance WireType_eq_dec : EqDecision WireType.
Proof. solve_decision. Defined.
Definition wire_code (t : WireType) : Z :=
  match t with
  | Varint => 0 | Fixed64 => 1 | LengthDelimited => 2 | StartGroup => 3 | EndGroup => 4 | Fixed32 => 5
  end.

(** [buffa::encoding::Tag] *)
Record Tag := mkTag { field_number : Z; wire_type : WireType }.
Definition key (t : Tag) : bytes := varint (8 * field_number t + wire_code (wire_type t)).

(** The value of a record: an integer, a string, a message as its records, or the entry
    of a map, on the wire a message too. *)
#[warnings="-register-all"]
Inductive value :=
| VInt (v : Z)
| VString (s : string)
| VMessage (l : list (Z * value))
| VEntry (l : list (Z * value)).
Abbreviation record := (Z * value)%type.

Definition type_of (v : value) : WireType :=
  match v with VInt _ => Varint | _ => LengthDelimited end.
Definition tag_of (r : record) : Tag := mkTag r.1 (type_of r.2).

Definition delimited (b : bytes) : bytes := varint (len b) ++ b.

Fixpoint payload (v : value) : bytes :=
  match v with
  | VInt v => varint v
  | VString s => delimited (list_byte_of_string s)
  | VMessage l | VEntry l => delimited (flat_map (λ r, key (mkTag r.1 (type_of r.2)) ++ payload r.2) l)
  end.
Definition encode_record (r : record) : bytes := key (tag_of r) ++ payload r.2.
Definition encode (l : list record) : bytes := flat_map encode_record l.

(** How deep messages nest in a list of records. *)
Fixpoint value_nesting (v : value) : nat :=
  match v with
  | VMessage l | VEntry l => S (max_list_with (λ r, value_nesting r.2) l)
  | _ => O
  end.
Definition nesting (l : list record) : nat := max_list_with (λ r, value_nesting r.2) l.

(** The lengths of the nested messages, each before those inside it; those of map entries
    are not kept. *)
Fixpoint value_slots (v : value) : list Z :=
  match v with
  | VMessage l => len (encode l) :: flat_map (λ r, value_slots r.2) l
  | _ => []
  end.
Definition slots (l : list record) : list Z := flat_map (λ r, value_slots r.2) l.

(** What a decoder accepts: a field number in range, 64-bit integers, lengths below 2 GiB. *)
Definition valid_record (r : record) : Prop :=
  1 ≤ r.1 < 2 ^ 29 ∧ match r.2 with VInt v => in_u 64 v | _ => True end.
Definition max_len : Z := 2 ^ 31.

(** [fits d l]: the encoding of [l] is below 2 GiB and nests at most [d] deep. *)
Definition fits (d : nat) (l : list record) : Prop := (nesting l ≤ d)%nat ∧ len (encode l) < max_len.

(** ** Names and enumerations *)

(** [buffa::MessageName] *)
Class MessageName (M : Type) := {
  PACKAGE : string;
  NAME : string;
  FULL_NAME : string;
  TYPE_URL : string;
}.
Arguments PACKAGE M {_}.
Arguments NAME M {_}.
Arguments FULL_NAME M {_}.
Arguments TYPE_URL M {_}.

(** [buffa::Enumeration] *)
Class Enumeration (E : Type) := {
  from_i32 : Z → option E;
  to_i32 : E → Z;
  proto_name : E → string;
  from_proto_name : string → option E;
  values : list E;
}.

(** [buffa::EnumValue], an open enumeration. *)
Inductive EnumValue (E : Type) := Known (e : E) | Unknown (v : Z).
Arguments Known {E} e.
Arguments Unknown {E} v.
Definition enum_from `{Enumeration E} (v : Z) : EnumValue E :=
  match from_i32 v with Some e => Known e | None => Unknown v end.
Definition enum_to_i32 `{Enumeration E} (e : EnumValue E) : Z :=
  match e with Known e => to_i32 e | Unknown v => v end.

(** The values [enum_from] makes. *)
Definition enum_ok `{Enumeration E} (e : EnumValue E) : Prop :=
  match e with
  | Known e => from_i32 (to_i32 e) = Some e ∧ in_i 32 (to_i32 e)
  | Unknown v => from_i32 v = None (A := E) ∧ in_i 32 v
  end.

(** What JSON can have wrong about an enumeration. *)
Inductive enum_error := UnknownVariant (v : string) | OutOfRange (v : Z) | UnknownValue (v : Z).
(** [i32::try_from(v)] *)
Definition try_i32 (v : Z) : option Z := if bool_decide (in_i 32 v) then Some v else None.

(** ** The runtime *)

(** [buffa::map_codec]: the value types of the maps; their keys are strings. *)
Inductive map_codec : Type → Type :=
| Str : map_codec string
| Uint64 : map_codec Z.
Definition codec_value {V} (c : map_codec V) : V → value :=
  match c in map_codec V return V → value with Str => VString | Uint64 => VInt end.

Class Buffa := {
  DecodeError : Type;
  (** [SizeCache] *)
  SizeCache : Type;
  cache_new : SizeCache;
  reserve : SizeCache → nat * SizeCache;
  cache_set : nat → Z → SizeCache → SizeCache;
  consume_next : SizeCache → Z * SizeCache;
  (** sizes *)
  varint_len : Z → Z;
  uint32_encoded_len : Z → Z;
  uint64_encoded_len : Z → Z;
  int32_encoded_len : Z → Z;
  string_encoded_len : string → Z;
  BOOL_ENCODED_LEN : Z;
  map_field_len {V} : map_codec V → gmap string V → Z → Z;
  (** writing, which appends to the buffer *)
  put_len_delimited_header : Z → Z → bytes → bytes;
  put_uint32_field : Z → Z → bytes → bytes;
  put_uint64_field : Z → Z → bytes → bytes;
  put_int32_field : Z → Z → bytes → bytes;
  put_bool_field : Z → bool → bytes → bytes;
  put_string_field : Z → string → bytes → bytes;
  map_write_field {V} : map_codec V → gmap string V → Z → bytes → bytes;
  (** reading, which advances the buffer *)
  DecodeContext : Type;
  depth : DecodeContext → nat;
  RECURSION_LIMIT : nat;
  check_wire_type : Tag → WireType → outcome DecodeError unit;
  decode_uint32 : bytes → outcome DecodeError (Z * bytes);
  decode_uint64 : bytes → outcome DecodeError (Z * bytes);
  decode_int32 : bytes → outcome DecodeError (Z * bytes);
  decode_bool : bytes → outcome DecodeError (bool * bytes);
  decode_string : bytes → outcome DecodeError (string * bytes);
  merge_string : string → bytes → outcome DecodeError (string * bytes);
  map_merge_entry {V} : map_codec V → gmap string V → bytes → DecodeContext →
    outcome DecodeError (gmap string V * bytes);
  skip_field_depth : Tag → bytes → nat → outcome DecodeError bytes;
  (** the provided methods of [Message], for a message with the given [merge_field] *)
  merge_length_delimited {M} : (M → Tag → bytes → DecodeContext → outcome DecodeError (M * bytes)) →
    M → bytes → DecodeContext → outcome DecodeError (M * bytes);
  merge_from {M} : (M → Tag → bytes → DecodeContext → outcome DecodeError (M * bytes)) →
    M → bytes → outcome DecodeError M;
  (** the standard library: the strings, and the order in which a map is iterated *)
  is_utf8 : string → bool;
  map_iter {V} : gmap string V → list (string * V);
}.

(** A message's [merge_field]: it reads one field's value into the message.  What a failing
    one leaves in the message is not modelled, because [merge_from] drops the message. *)
Definition merge_fn `{Buffa} (M : Type) : Type :=
  M → Tag → bytes → DecodeContext → outcome DecodeError (M * bytes).

(** [runs f ctx m l m']: [f] reads the records [l] into [m], one after the other, and makes
    it [m']; each reading takes the record's bytes and leaves what follows. *)
Inductive runs `{Buffa} {M} (f : merge_fn M) (ctx : DecodeContext) : M → list record → M → Prop :=
| runs_nil m : runs f ctx m [] m
| runs_cons m r m' l m'' :
    valid_record r →
    (∀ rest, f m (tag_of r) (payload r.2 ++ rest) ctx = Ok (m', rest)) →
    runs f ctx m' l m'' →
    runs f ctx m (r :: l) m''.

(** ** What the runtime is documented to do *)
Definition map_records `{Buffa} {V} (c : map_codec V) (n : Z) (m : gmap string V) : list record :=
  (λ kv, (n, VEntry [(1, VString kv.1); (2, codec_value c kv.2)])) <$> map_iter m.

(** The strings and the integers a record holds are ones the decoder accepts. *)
Definition string_ok `{Buffa} (s : string) : Prop := is_utf8 s = true.
Definition codec_ok `{Buffa} {V} (c : map_codec V) : V → Prop :=
  match c in map_codec V return V → Prop with Str => string_ok | Uint64 => in_u 64 end.

Class BuffaLaws `{B : Buffa} := {
  (** A cache is the sizes set in its slots and how many of them were read. *)
  cache_slots : SizeCache → list Z;
  cache_next : SizeCache → nat;
  cache_new_spec : cache_slots cache_new = [] ∧ cache_next cache_new = O;
  reserve_spec c slot c' : reserve c = (slot, c') →
    slot = length (cache_slots c) ∧ cache_slots c' = cache_slots c ++ [0] ∧ cache_next c' = cache_next c;
  cache_set_spec c slot v : (slot < length (cache_slots c))%nat →
    cache_slots (cache_set slot v c) = <[slot := v]> (cache_slots c) ∧
    cache_next (cache_set slot v c) = cache_next c;
  consume_next_spec c v : cache_slots c !! cache_next c = Some v →
    ∃ c', consume_next c = (v, c') ∧ cache_slots c' = cache_slots c ∧ cache_next c' = S (cache_next c);
  (** Sizes are those of the wire format. *)
  varint_len_spec v : in_u 64 v → varint_len v = len (varint v);
  uint32_encoded_len_spec v : in_u 32 v → uint32_encoded_len v = len (varint v);
  uint64_encoded_len_spec v : in_u 64 v → uint64_encoded_len v = len (varint v);
  int32_encoded_len_spec v : in_i 32 v → int32_encoded_len v = len (varint (wrap_u 64 v));
  string_encoded_len_spec s : string_encoded_len s = len (delimited (list_byte_of_string s));
  BOOL_ENCODED_LEN_spec : BOOL_ENCODED_LEN = 1;
  map_field_len_spec {V} (c : map_codec V) m n : 1 ≤ n < 16 → map_Forall (λ _, codec_ok c) m →
    len (encode (map_records c n m)) < 2 ^ 32 → map_field_len c m 1 = len (encode (map_records c n m));
  (** Writing appends records in the wire format. *)
  put_len_delimited_header_spec n k buf : 1 ≤ n < 2 ^ 29 → in_u 32 k →
    put_len_delimited_header n k buf = buf ++ key (mkTag n LengthDelimited) ++ varint k;
  put_uint32_field_spec n v buf : 1 ≤ n < 2 ^ 29 → in_u 32 v →
    put_uint32_field n v buf = buf ++ encode_record (n, VInt v);
  put_uint64_field_spec n v buf : 1 ≤ n < 2 ^ 29 → in_u 64 v →
    put_uint64_field n v buf = buf ++ encode_record (n, VInt v);
  put_int32_field_spec n v buf : 1 ≤ n < 2 ^ 29 → in_i 32 v →
    put_int32_field n v buf = buf ++ encode_record (n, VInt (wrap_u 64 v));
  put_bool_field_spec n b buf : 1 ≤ n < 2 ^ 29 →
    put_bool_field n b buf = buf ++ encode_record (n, VInt (Z.b2z b));
  put_string_field_spec n s buf : 1 ≤ n < 2 ^ 29 →
    put_string_field n s buf = buf ++ encode_record (n, VString s);
  map_write_field_spec {V} (c : map_codec V) m n buf : 1 ≤ n < 2 ^ 29 → map_Forall (λ _, codec_ok c) m →
    map_write_field c m n buf = buf ++ encode (map_records c n m);
  (** Reading takes a value off the front of the buffer. *)
  RECURSION_LIMIT_spec : RECURSION_LIMIT = 100%nat;
  check_wire_type_spec t w :
    if decide (wire_type t = w) then check_wire_type t w = Ok tt else ∃ e, check_wire_type t w = Err e;
  decode_uint32_spec v rest : in_u 32 v → decode_uint32 (varint v ++ rest) = Ok (v, rest);
  decode_uint64_spec v rest : in_u 64 v → decode_uint64 (varint v ++ rest) = Ok (v, rest);
  decode_int32_spec v rest : in_i 32 v → decode_int32 (varint (wrap_u 64 v) ++ rest) = Ok (v, rest);
  decode_bool_spec b rest : decode_bool (varint (Z.b2z b) ++ rest) = Ok (b, rest);
  decode_string_spec s rest : string_ok s → len (list_byte_of_string s) < max_len →
    decode_string (delimited (list_byte_of_string s) ++ rest) = Ok (s, rest);
  merge_string_spec old s rest : string_ok s → len (list_byte_of_string s) < max_len →
    merge_string old (delimited (list_byte_of_string s) ++ rest) = Ok (s, rest);
  map_merge_entry_spec {V} (c : map_codec V) m k v rest ctx :
    (0 < depth ctx)%nat → string_ok k → codec_ok c v →
    len (encode [(1, VString k); (2, codec_value c v)]) < max_len →
    map_merge_entry c m (payload (VEntry [(1, VString k); (2, codec_value c v)]) ++ rest) ctx =
    Ok (<[k := v]> m, rest);
  skip_field_depth_spec r rest d : valid_record r → len (payload r.2) < max_len →
    skip_field_depth (tag_of r) (payload r.2 ++ rest) d = Ok rest;
  (** A nested message is read one level further down, up to its length. *)
  merge_length_delimited_spec {M} (f : merge_fn M) m l m' ctx d rest :
    depth ctx = S d → (∀ ctx', depth ctx' = d → runs f ctx' m l m') → len (encode l) < max_len →
    merge_length_delimited f m (delimited (encode l) ++ rest) ctx = Ok (m', rest);
  merge_from_spec {M} (f : merge_fn M) m l m' :
    (∀ ctx, depth ctx = RECURSION_LIMIT → runs f ctx m l m') → len (encode l) < max_len →
    merge_from f m (encode l) = Ok m';
  (** A map is iterated over its entries, in some order. *)
  map_iter_spec {V} (m : gmap string V) : map_iter m ≡ₚ map_to_list m;
}.

(** ** Messages *)

(** [buffa::Message] with [Default]; for a view, [ViewEncode] and [MessageView]. *)
Class Message `{Buffa} (M : Type) := {
  default_message : M;
  compute_size : M → SizeCache → Z * SizeCache;
  write_to : M → SizeCache * bytes → SizeCache * bytes;
  merge_field : merge_fn M;
}.

(** What a message is on the wire by its [.proto] file: its records, the field numbers it
    has with their wire types, and which values of the type are well formed. *)
Class MessageSpec `{Buffa} (M : Type) := {
  records : M → list record;
  schema : list (Z * WireType);
  well_formed : M → Prop;
  (** how deep messages nest in its records *)
  levels : nat;
}.
#[global] Arguments schema {_} M {_}.
#[global] Arguments levels {_} M {_}.

(** ** The statements of the generated methods *)
Section statements.
Context `{Buffa}.

(** A statement of [compute_size] works on [size] and [__cache]. *)
Definition size_stmt : Type := Z * SizeCache → Z * SizeCache.
Definition write_stmt : Type := SizeCache * bytes → SizeCache * bytes.
Definition seq {S} (f g : S → S) (s : S) : S := g (f s).

(** [size += x] on a u32 *)
Definition add_size (x : Z) : size_stmt := λ '(size, c), (wrap_u 32 (size + wrap_u 32 x), c).

(** [let __slot = __cache.reserve(); let inner_size = m.compute_size(__cache);
     __cache.set(__slot, inner_size); size += k + varint_len(inner_size) + inner_size] *)
Definition size_nested {M} `{!Message M} (k : Z) (m : M) : size_stmt := λ '(size, c),
  let '(slot, c) := reserve c in
  let '(inner_size, c) := compute_size m c in
  let c := cache_set slot inner_size c in
  add_size (k + wrap_u 32 (varint_len inner_size) + inner_size) (size, c).
(** [put_len_delimited_header(n, __cache.consume_next(), buf); m.write_to(__cache, buf)] *)
Definition write_nested {M} `{!Message M} (n : Z) (m : M) : write_stmt := λ '(c, buf),
  let '(size, c) := consume_next c in
  write_to m (c, put_len_delimited_header n size buf).

(** [if self.f.is_set() { .. }] *)
Definition size_message {M} `{!Message M} (k : Z) (f : option M) : size_stmt :=
  match f with Some m => size_nested k m | None => id end.
Definition write_message {M} `{!Message M} (n : Z) (f : option M) : write_stmt :=
  match f with Some m => write_nested n m | None => id end.

(** [for v in &self.f { .. }] *)
Definition size_repeated {M} `{!Message M} (k : Z) (f : list M) : size_stmt :=
  λ s, foldl (λ s v, size_nested k v s) s f.
Definition write_repeated {M} `{!Message M} (n : Z) (f : list M) : write_stmt :=
  λ s, foldl (λ s v, write_nested n v s) s f.

(** [if self.f != 0 { .. }] *)
Definition size_uint32 (k v : Z) : size_stmt :=
  if v =? 0 then id else add_size (k + wrap_u 32 (uint32_encoded_len v)).
Definition size_uint64 (k v : Z) : size_stmt :=
  if v =? 0 then id else add_size (k + wrap_u 32 (uint64_encoded_len v)).
Definition append (f : bytes → bytes) : write_stmt := λ '(c, buf), (c, f buf).
Definition write_uint32 (n v : Z) : write_stmt :=
  if v =? 0 then id else append (put_uint32_field n v).
Definition write_uint64 (n v : Z) : write_stmt :=
  if v =? 0 then id else append (put_uint64_field n v).

(** [if let Some(v) = self.f { .. }] *)
Definition size_some_uint32 (k : Z) (f : option Z) : size_stmt :=
  match f with Some v => add_size (k + wrap_u 32 (uint32_encoded_len v)) | None => id end.
Definition write_some_uint32 (n : Z) (f : option Z) : write_stmt :=
  match f with Some v => append (put_uint32_field n v) | None => id end.
Definition size_some_string (k : Z) (f : option string) : size_stmt :=
  match f with Some v => add_size (k + wrap_u 32 (string_encoded_len v)) | None => id end.
Definition write_some_string (n : Z) (f : option string) : write_stmt :=
  match f with Some v => append (put_string_field n v) | None => id end.

(** [if self.f { .. }] *)
Definition size_bool (k : Z) (b : bool) : size_stmt :=
  if b then add_size (k + wrap_u 32 BOOL_ENCODED_LEN) else id.
Definition write_bool (n : Z) (b : bool) : write_stmt :=
  if b then append (put_bool_field n b) else id.

(** [if !self.f.is_empty() { .. }] *)
Definition size_string (k : Z) (s : string) : size_stmt :=
  if String.eqb s "" then id else add_size (k + wrap_u 32 (string_encoded_len s)).
Definition write_string (n : Z) (s : string) : write_stmt :=
  if String.eqb s "" then id else append (put_string_field n s).

(** [for v in &self.f { .. }] at a list of strings *)
Definition size_strings (k : Z) (f : list string) : size_stmt :=
  λ s, foldl (λ s v, add_size (k + wrap_u 32 (string_encoded_len v)) s) s f.
Definition write_strings (n : Z) (f : list string) : write_stmt :=
  λ s, foldl (λ s v, append (put_string_field n v) s) s f.

(** [let val = self.f.to_i32(); if val != 0 { .. }] *)
Definition size_enum `{Enumeration E} (k : Z) (f : EnumValue E) : size_stmt :=
  let val := enum_to_i32 f in
  if val =? 0 then id else add_size (k + wrap_u 32 (int32_encoded_len val)).
Definition write_enum `{Enumeration E} (n : Z) (f : EnumValue E) : write_stmt :=
  let val := enum_to_i32 f in
  if val =? 0 then id else append (put_int32_field n val).

(** [size += map_codec::field_len::<..>(&self.f, k)] *)
Definition size_map {V} (c : map_codec V) (k : Z) (f : gmap string V) : size_stmt :=
  add_size (map_field_len c f k).
Definition write_map {V} (c : map_codec V) (n : Z) (f : gmap string V) : write_stmt :=
  append (map_write_field c f n).

(** An arm of [merge_field]: [put] stores the field in the message.
    [merge_length_delimited(self.f.get_or_insert_default(), buf, ctx)] *)
Definition merge_message {M N} `{!Message N} (f : option N) (put : option N → M)
    (tag : Tag) (buf : bytes) (ctx : DecodeContext) : outcome DecodeError (M * bytes) :=
  _ ← check_wire_type tag LengthDelimited;
  '(v, buf) ← merge_length_delimited merge_field (default default_message f) buf ctx;
  Ok (put (Some v), buf).
(** [let mut elem = Default::default(); merge_length_delimited(&mut elem, buf, ctx)?; self.f.push(elem)] *)
Definition merge_repeated {M N} `{!Message N} (f : list N) (put : list N → M)
    (tag : Tag) (buf : bytes) (ctx : DecodeContext) : outcome DecodeError (M * bytes) :=
  _ ← check_wire_type tag LengthDelimited;
  '(elem, buf) ← merge_length_delimited merge_field default_message buf ctx;
  Ok (put (f ++ [elem]), buf).
(** [self.f = decode(buf)?], for the decoder [decode] of a type of wire type [t] *)
Definition merge_scalar {M A} (t : WireType) (decode : bytes → outcome DecodeError (A * bytes))
    (put : A → M) (tag : Tag) (buf : bytes) : outcome DecodeError (M * bytes) :=
  _ ← check_wire_type tag t;
  '(v, buf) ← decode buf;
  Ok (put v, buf).
(** [self.f.push(decode_string(buf)?)] *)
Definition merge_strings {M} (f : list string) (put : list string → M)
    (tag : Tag) (buf : bytes) : outcome DecodeError (M * bytes) :=
  merge_scalar LengthDelimited decode_string (λ v, put (f ++ [v])) tag buf.
(** [map_codec::merge_entry::<..>(&mut self.f, buf, ctx)] *)
Definition merge_map {M V} (c : map_codec V) (f : gmap string V) (put : gmap string V → M)
    (tag : Tag) (buf : bytes) (ctx : DecodeContext) : outcome DecodeError (M * bytes) :=
  _ ← check_wire_type tag LengthDelimited;
  '(f, buf) ← map_merge_entry c f buf ctx;
  Ok (put f, buf).
(** The last arm: [skip_field_depth(tag, buf, ctx.depth())?] *)
Definition merge_unknown {M} (self : M) (tag : Tag) (buf : bytes) (ctx : DecodeContext) :
    outcome DecodeError (M * bytes) :=
  buf ← skip_field_depth tag buf (depth ctx);
  Ok (self, buf).

(** The records of a field by its kind in the [.proto] file. *)
Definition r_message {M} `{!MessageSpec M} (n : Z) (f : option M) : list record :=
  match f with Some m => [(n, VMessage (records m))] | None => [] end.
Definition r_repeated {M} `{!MessageSpec M} (n : Z) (f : list M) : list record :=
  (λ m, (n, VMessage (records m))) <$> f.
Definition r_int (n v : Z) : list record := if v =? 0 then [] else [(n, VInt v)].
Definition r_some_int (n : Z) (f : option Z) : list record :=
  match f with Some v => [(n, VInt v)] | None => [] end.
Definition r_bool (n : Z) (b : bool) : list record := if b then [(n, VInt 1)] else [].
Definition r_string (n : Z) (s : string) : list record :=
  if String.eqb s "" then [] else [(n, VString s)].
Definition r_some_string (n : Z) (f : option string) : list record :=
  match f with Some s => [(n, VString s)] | None => [] end.
Definition r_strings (n : Z) (f : list string) : list record := (λ s, (n, VString s)) <$> f.
Definition r_enum `{Enumeration E} (n : Z) (f : EnumValue E) : list record :=
  r_int n (wrap_u 64 (enum_to_i32 f)).

End statements.
Infix "▷" := seq (at level 60, right associativity) : wire_scope.

(** ** Lengths of the wire format *)
Lemma encode_app a b : encode (a ++ b) = encode a ++ encode b.
Proof. apply flat_map_app. Qed.
Lemma slots_app a b : slots (a ++ b) = slots a ++ slots b.
Proof. apply flat_map_app. Qed.
Lemma nesting_app a b : nesting (a ++ b) = (nesting a `max` nesting b)%nat.
Proof. unfold nesting. induction a as [|r a IH]; cbn; [done|]. rewrite IH. lia. Qed.
Lemma len_encode_app a b : len (encode (a ++ b)) = len (encode a) + len (encode b).
Proof. by rewrite encode_app, len_app. Qed.
Lemma len_encode_cons r l : len (encode (r :: l)) = len (encode_record r) + len (encode l).
Proof. apply len_app. Qed.
Lemma encode_pair r r' : encode [r; r'] = encode_record r ++ encode_record r'.
Proof. unfold encode. cbn [flat_map]. by rewrite app_nil_r. Qed.
Lemma encode_single r : encode [r] = encode_record r.
Proof. apply app_nil_r. Qed.
Lemma payload_message l : payload (VMessage l) = delimited (encode l).
Proof. done. Qed.
Lemma len_delimited b : len (delimited b) = len (varint (len b)) + len b.
Proof. apply len_app. Qed.

Lemma len_varint_fuel n v : (0 < n)%nat → 1 ≤ len (varint_fuel n v) ≤ Z.of_nat n.
Proof.
  revert v. induction n as [|n IH]; intros v Hn; [lia|]. cbn [varint_fuel].
  destruct (v <? 128); [rewrite len_cons, len_nil; lia|]. rewrite len_cons.
  destruct n as [|n]; [cbn [varint_fuel]; rewrite len_nil; lia|]. specialize (IH (v / 128) ltac:(lia)). lia.
Qed.
Lemma len_varint v : 1 ≤ len (varint v) ≤ 10.
Proof. apply (len_varint_fuel 10). lia. Qed.
Lemma varint_small v : v < 128 → varint v = [z2b v].
Proof. intros Hv. unfold varint. cbn [varint_fuel]. by rewrite (proj2 (Z.ltb_lt _ _) Hv). Qed.

(** The key of a field below 16 is one byte. *)
Lemma wire_code_range t : 0 ≤ wire_code t < 8.
Proof. destruct t; cbn; lia. Qed.
Lemma len_key n t : 1 ≤ n < 16 → len (key (mkTag n t)) = 1.
Proof.
  intros Hn. unfold key. cbn [field_number wire_type]. pose proof (wire_code_range t).
  by rewrite varint_small by lia.
Qed.
Lemma len_record n v : 1 ≤ n < 16 → len (encode_record (n, v)) = 1 + len (payload v).
Proof. intros Hn. unfold encode_record, tag_of. cbn [fst snd]. by rewrite len_app, len_key. Qed.

Lemma fits_app d a b : fits d (a ++ b) → fits d a ∧ fits d b.
Proof.
  unfold fits. rewrite nesting_app, len_encode_app.
  pose proof (len_nonneg (encode a)). pose proof (len_nonneg (encode b)). lia.
Qed.
Lemma fits_nil d : fits d [].
Proof. split; [cbn; lia|reflexivity]. Qed.
Lemma len_encode_record r : len (payload r.2) < len (encode_record r).
Proof.
  unfold encode_record. rewrite len_app. pose proof (len_varint (8 * field_number (tag_of r) + wire_code (wire_type (tag_of r)))).
  unfold key. lia.
Qed.
(** A nested message is one level down and shorter. *)
Lemma fits_message d n l : fits d [(n, VMessage l)] → ∃ d', d = S d' ∧ fits d' l.
Proof.
  intros [Hd Hl]. unfold nesting in Hd. cbn [max_list_with value_nesting snd] in Hd.
  rewrite encode_single in Hl. pose proof (len_encode_record (n, VMessage l)) as Hr.
  cbn [snd] in Hr. rewrite payload_message, len_delimited in Hr. pose proof (len_varint (len (encode l))).
  destruct d as [|d]; [lia|]. exists d. split; [done|]. unfold fits, nesting. lia.
Qed.

(** ** What a generated message promises *)

(** The sizes still to be read. *)
Definition pending `{BuffaLaws} (c : SizeCache) : list Z := drop (cache_next c) (cache_slots c).

(** [f] adds the length of [l] to the size, without overflow, and records the lengths of
    the messages nested in it. *)
Definition sizes_as `{BuffaLaws} (f : size_stmt) (l : list record) : Prop := ∀ s c,
  0 ≤ s → s + len (encode l) < 2 ^ 32 →
  ∃ c', f (s, c) = (s + len (encode l), c') ∧
    cache_slots c' = cache_slots c ++ slots l ∧ cache_next c' = cache_next c.

(** [f] writes [l], reading the recorded lengths of the messages nested in it. *)
Definition writes_as `{BuffaLaws} (f : write_stmt) (l : list record) : Prop := ∀ c buf rest,
  len (encode l) < 2 ^ 32 → pending c = slots l ++ rest →
  ∃ c', f (c, buf) = (c', buf ++ encode l) ∧ pending c' = rest.

Class FieldLaws `{BuffaLaws} (M : Type) `{!Message M, !MessageSpec M} := {
  (** The size is the length of the encoding; the cache gains the nested lengths. *)
  compute_size_spec (m : M) c : well_formed m → len (encode (records m)) < 2 ^ 32 →
    ∃ c', compute_size m c = (len (encode (records m)), c') ∧
      cache_slots c' = cache_slots c ++ slots (records m) ∧ cache_next c' = cache_next c;
  (** Writing uses up the nested lengths and appends the encoding. *)
  write_to_spec (m : M) : well_formed m → writes_as (write_to m) (records m);
  (** Reading the records of [m] into a default message makes it [m]. *)
  merge_field_spec (m : M) ctx : well_formed m → fits (depth ctx) (records m) →
    runs merge_field ctx default_message (records m) m;
  (** A field of the schema at another wire type is an error. *)
  merge_field_wire_type (m : M) n t t' buf ctx : (n, t) ∈ schema M → t ≠ t' →
    ∃ e, merge_field m (mkTag n t') buf ctx = Err e;
  records_levels (m : M) : (nesting (records m) ≤ levels M)%nat;
  records_default : records (default_message (M := M)) = [];
}.
(** A field that is not in the schema is skipped; a message that keeps its unknown fields,
    as the well-known types may, has [FieldLaws] only. *)
Class MessageLaws `{BuffaLaws} (M : Type) `{!Message M, !MessageSpec M} := {
  message_fields :: FieldLaws M;
  merge_field_unknown (m : M) r rest ctx : (∀ t, (r.1, t) ∉ schema M) → valid_record r →
    len (payload r.2) < max_len →
    merge_field m (tag_of r) (payload r.2 ++ rest) ctx = Ok (m, rest);
}.

(** [Message::clear] *)
Class Clear `{Buffa} (M : Type) `{!Message M} := { clear : M → M }.
Class ClearLaws `{Buffa} (M : Type) `{!Message M, !Clear M} := {
  clear_spec (m : M) : clear m = default_message;
}.

(** A field of a record and the assignment to it. *)
Class Lens {M A} (get : M → A) (put : A → M → M) : Prop := {
  put_get m : put (get m) m = m;
  get_put a m : get (put a m) = a;
  put_put a b m : put a (put b m) = put a m;
}.

Section laws.
Context `{BL : BuffaLaws}.

(** *** Sizes *)
Lemma sizes_nil : sizes_as id [].
Proof.
  intros s c Hs Hl. exists c. cbn. unfold id. rewrite len_nil, Z.add_0_r, app_nil_r. done.
Qed.
Lemma sizes_seq f g a b : sizes_as f a → sizes_as g b → sizes_as (f ▷ g) (a ++ b).
Proof.
  intros Hf Hg s c Hs. rewrite len_encode_app. intros Hl.
  pose proof (len_nonneg (encode a)). pose proof (len_nonneg (encode b)).
  destruct (Hf s c) as (c1 & He1 & Hs1 & Hn1); [lia..|].
  destruct (Hg (s + len (encode a)) c1) as (c2 & He2 & Hs2 & Hn2); [lia..|].
  exists c2. unfold seq. rewrite He1, He2, Z.add_assoc, Hs2, Hs1, Hn2, slots_app, app_assoc. done.
Qed.
Lemma sizes_add x l : x = len (encode l) → slots l = [] → sizes_as (add_size x) l.
Proof.
  intros -> Hn s c Hs Hl. exists c. pose proof (len_nonneg (encode l)). unfold add_size.
  rewrite (wrap_u_id 32 (len _)), wrap_u_id by lia. by rewrite Hn, app_nil_r.
Qed.
(** A field of one scalar record. *)
Lemma sizes_scalar n x v : 1 ≤ n < 16 → value_slots v = [] → x = len (payload v) →
  sizes_as (add_size (1 + wrap_u 32 x)) [(n, v)].
Proof.
  intros Hn Hs -> s c Hc Hl. pose proof Hl as Hl'. rewrite encode_single, len_record in Hl' by done.
  pose proof (len_nonneg (payload v)). rewrite (wrap_u_id 32 (len (payload v))) by lia.
  apply sizes_add; [by rewrite encode_single, len_record|by cbn; rewrite Hs|done..].
Qed.
Lemma sizes_uint32 n v : 1 ≤ n < 16 → in_u 32 v → sizes_as (size_uint32 1 v) (r_int n v).
Proof.
  intros Hn Hv. unfold size_uint32, r_int. destruct (v =? 0); [apply sizes_nil|].
  by apply sizes_scalar; [..|apply uint32_encoded_len_spec].
Qed.
Lemma sizes_uint64 n v : 1 ≤ n < 16 → in_u 64 v → sizes_as (size_uint64 1 v) (r_int n v).
Proof.
  intros Hn Hv. unfold size_uint64, r_int. destruct (v =? 0); [apply sizes_nil|].
  by apply sizes_scalar; [..|apply uint64_encoded_len_spec].
Qed.
Lemma sizes_some_uint32 n f : 1 ≤ n < 16 → from_option (in_u 32) True f →
  sizes_as (size_some_uint32 1 f) (r_some_int n f).
Proof.
  intros Hn Hv. destruct f as [v|]; [|apply sizes_nil].
  by apply sizes_scalar; [..|apply uint32_encoded_len_spec].
Qed.
Lemma sizes_bool n b : 1 ≤ n < 16 → sizes_as (size_bool 1 b) (r_bool n b).
Proof.
  intros Hn. destruct b; [|apply sizes_nil]. by apply sizes_scalar; [..|rewrite BOOL_ENCODED_LEN_spec].
Qed.
Lemma sizes_string n s : 1 ≤ n < 16 → sizes_as (size_string 1 s) (r_string n s).
Proof.
  intros Hn. unfold size_string, r_string. destruct (String.eqb s ""); [apply sizes_nil|].
  by apply sizes_scalar; [..|apply string_encoded_len_spec].
Qed.
Lemma sizes_some_string n f : 1 ≤ n < 16 → sizes_as (size_some_string 1 f) (r_some_string n f).
Proof.
  intros Hn. destruct f as [s|]; [|apply sizes_nil]. by apply sizes_scalar; [..|apply string_encoded_len_spec].
Qed.
Lemma wrap_u64_zero v : in_i 32 v → (wrap_u 64 v =? 0) = (v =? 0).
Proof.
  unfold in_i, wrap_u. intros Hv. destruct (Z.eqb_spec v 0) as [->|Hn]; [done|].
  apply Z.eqb_neq. intros Hm%Z.mod_divide; [|done]. destruct Hm as [k Hk]. lia.
Qed.
Lemma sizes_enum `{Enumeration E} n (f : EnumValue E) : 1 ≤ n < 16 → enum_ok f →
  sizes_as (size_enum 1 f) (r_enum n f).
Proof.
  intros Hn Hf. assert (in_i 32 (enum_to_i32 f)) as Hv by (destruct f; apply Hf).
  unfold size_enum, r_enum, r_int. rewrite wrap_u64_zero by done.
  destruct (_ =? 0); [apply sizes_nil|]. by apply sizes_scalar; [..|apply int32_encoded_len_spec].
Qed.
Lemma sizes_map {V} (c : map_codec V) n f : 1 ≤ n < 16 → map_Forall (λ _, codec_ok c) f →
  sizes_as (size_map c 1 f) (map_records c n f).
Proof.
  intros Hn Hf s ca Hs Hl. pose proof (len_nonneg (encode (map_records c n f))).
  apply sizes_add; [apply map_field_len_spec; [done..|lia]| |done..].
  unfold map_records, slots. by induction (map_iter f) as [|kv l IH].
Qed.

(** A nested message: its slot is reserved before those inside it and set after them. *)
Lemma sizes_nested `{!Message M, !MessageSpec M, !FieldLaws M} n (m : M) :
  1 ≤ n < 16 → well_formed m → sizes_as (size_nested 1 m) [(n, VMessage (records m))].
Proof.
  intros Hn Hm s c Hs Hl. rewrite encode_single, len_record, payload_message, len_delimited in * by done.
  set (b := len (encode (records m))) in *. pose proof (len_nonneg (encode (records m))) as Hb.
  pose proof (len_varint b) as Hvb. unfold size_nested. destruct (reserve c) as [slot c1] eqn:Hr.
  destruct (reserve_spec _ _ _ Hr) as (-> & Hs1 & Hn1).
  destruct (compute_size_spec m c1) as (c2 & -> & Hs2 & Hn2); [done|lia|].
  destruct (cache_set_spec c2 (length (cache_slots c)) b) as [Hs3 Hn3].
  { rewrite Hs2, Hs1, !length_app. cbn. lia. }
  eexists. unfold add_size. fold b. rewrite varint_len_spec by (unfold in_u; lia).
  rewrite (wrap_u_id 32 (len (varint b))), (wrap_u_id 32 (1 + _ + _)), wrap_u_id by lia.
  split_and!; [f_equal; lia| |by rewrite Hn3, Hn2].
  rewrite Hs3, Hs2, Hs1, <- app_assoc, insert_app_r_alt, Nat.sub_diag by lia. unfold slots. cbn.
  by rewrite app_nil_r.
Qed.
Lemma sizes_message `{!Message M, !MessageSpec M, !FieldLaws M} n (f : option M) :
  1 ≤ n < 16 → from_option well_formed True f → sizes_as (size_message 1 f) (r_message n f).
Proof. intros Hn Hf. destruct f as [m|]; [by apply sizes_nested|apply sizes_nil]. Qed.
(** A loop over a repeated field. *)
Lemma sizes_loop {A} (f : A → size_stmt) (r : A → record) l :
  Forall (λ x, sizes_as (f x) [r x]) l → sizes_as (λ s, foldl (λ s x, f x s) s l) (r <$> l).
Proof.
  induction 1 as [|x l Hx _ IH]; [apply sizes_nil|]. exact (sizes_seq _ _ [r x] _ Hx IH).
Qed.
Lemma sizes_repeated `{!Message M, !MessageSpec M, !FieldLaws M} n (f : list M) :
  1 ≤ n < 16 → Forall well_formed f → sizes_as (size_repeated 1 f) (r_repeated n f).
Proof.
  intros Hn Hf. apply (sizes_loop (size_nested 1)). eapply Forall_impl; [exact Hf|].
  intros m Hm. by apply sizes_nested.
Qed.
Lemma sizes_strings n f : 1 ≤ n < 16 → sizes_as (size_strings 1 f) (r_strings n f).
Proof.
  intros Hn. apply (sizes_loop (λ v, add_size (1 + wrap_u 32 (string_encoded_len v)))).
  apply Forall_forall. intros v _. by apply sizes_scalar; [..|apply string_encoded_len_spec].
Qed.

(** *** Writing *)
Lemma writes_nil : writes_as id [].
Proof. intros c buf rest _ Hp. exists c. by rewrite app_nil_r. Qed.
Lemma writes_seq f g a b : writes_as f a → writes_as g b → writes_as (f ▷ g) (a ++ b).
Proof.
  intros Hf Hg c buf rest. rewrite len_encode_app, slots_app, <- app_assoc. intros Hl Hp.
  pose proof (len_nonneg (encode a)). pose proof (len_nonneg (encode b)).
  destruct (Hf c buf _ ltac:(lia) Hp) as (c1 & He1 & Hp1).
  destruct (Hg c1 (buf ++ encode a) _ ltac:(lia) Hp1) as (c2 & He2 & Hp2).
  exists c2. unfold seq. by rewrite He1, He2, encode_app, app_assoc.
Qed.
Lemma writes_append f l : (∀ buf, f buf = buf ++ encode l) → slots l = [] → writes_as (append f) l.
Proof. intros Hf Hn c buf rest _ Hp. exists c. unfold append. rewrite Hf. by rewrite Hn in Hp. Qed.
(** One scalar record. *)
Lemma writes_scalar f n v : (∀ buf, f buf = buf ++ encode_record (n, v)) → value_slots v = [] →
  writes_as (append f) [(n, v)].
Proof. intros Hf Hs. apply writes_append; [by rewrite encode_single|cbn; by rewrite Hs]. Qed.

Lemma tag_number n : 1 ≤ n < 16 → 1 ≤ n < 2 ^ 29.
Proof. lia. Qed.
#[local] Hint Resolve tag_number : core.

Lemma writes_uint32 n v : 1 ≤ n < 16 → in_u 32 v → writes_as (write_uint32 n v) (r_int n v).
Proof.
  intros Hn Hv. unfold write_uint32, r_int. destruct (v =? 0); [apply writes_nil|].
  apply writes_scalar; [|done]. intros buf. by apply put_uint32_field_spec; [auto|].
Qed.
Lemma writes_uint64 n v : 1 ≤ n < 16 → in_u 64 v → writes_as (write_uint64 n v) (r_int n v).
Proof.
  intros Hn Hv. unfold write_uint64, r_int. destruct (v =? 0); [apply writes_nil|].
  apply writes_scalar; [|done]. intros buf. by apply put_uint64_field_spec; [auto|].
Qed.
Lemma writes_some_uint32 n f : 1 ≤ n < 16 → from_option (in_u 32) True f →
  writes_as (write_some_uint32 n f) (r_some_int n f).
Proof.
  intros Hn Hv. destruct f as [v|]; [|apply writes_nil].
  apply writes_scalar; [|done]. intros buf. by apply put_uint32_field_spec; [auto|].
Qed.
Lemma writes_bool n b : 1 ≤ n < 16 → writes_as (write_bool n b) (r_bool n b).
Proof.
  intros Hn. destruct b; [|apply writes_nil]. apply writes_scalar; [|done].
  intros buf. apply (put_bool_field_spec n true); auto.
Qed.
Lemma writes_string n s : 1 ≤ n < 16 → writes_as (write_string n s) (r_string n s).
Proof.
  intros Hn. unfold write_string, r_string. destruct (String.eqb s ""); [apply writes_nil|].
  apply writes_scalar; [|done]. intros buf. apply put_string_field_spec; auto.
Qed.
Lemma writes_some_string n f : 1 ≤ n < 16 → writes_as (write_some_string n f) (r_some_string n f).
Proof.
  intros Hn. destruct f as [s|]; [|apply writes_nil].
  apply writes_scalar; [|done]. intros buf. apply put_string_field_spec; auto.
Qed.
Lemma writes_enum `{Enumeration E} n (f : EnumValue E) : 1 ≤ n < 16 → enum_ok f →
  writes_as (write_enum n f) (r_enum n f).
Proof.
  intros Hn Hf. assert (in_i 32 (enum_to_i32 f)) as Hv by (destruct f; apply Hf).
  unfold write_enum, r_enum, r_int. rewrite wrap_u64_zero by done.
  destruct (_ =? 0); [apply writes_nil|]. apply writes_scalar; [|done].
  intros buf. apply put_int32_field_spec; auto.
Qed.
Lemma writes_map {V} (c : map_codec V) n f : 1 ≤ n < 16 → map_Forall (λ _, codec_ok c) f →
  writes_as (write_map c n f) (map_records c n f).
Proof.
  intros Hn Hf. apply writes_append; [intros buf; apply map_write_field_spec; auto|].
  unfold map_records, slots. by induction (map_iter f) as [|kv l IH].
Qed.

(** The header of a nested message has the length its slot holds. *)
Lemma writes_nested `{!Message M, !MessageSpec M, !FieldLaws M} n (m : M) :
  1 ≤ n < 16 → well_formed m → writes_as (write_nested n m) [(n, VMessage (records m))].
Proof.
  intros Hn Hm c buf rest. rewrite encode_single, len_record, payload_message, len_delimited by done.
  set (b := len (encode (records m))). pose proof (len_nonneg (encode (records m))) as Hb.
  pose proof (len_varint b) as Hvb. intros Hl Hp. unfold slots in Hp. cbn in Hp. rewrite app_nil_r in Hp.
  fold b in Hp. assert (cache_slots c !! cache_next c = Some b) as Hlk.
  { rewrite <- (Nat.add_0_r (cache_next c)), <- lookup_drop. fold (pending c). by rewrite Hp. }
  destruct (consume_next_spec _ _ Hlk) as (c1 & Hc1 & Hs1 & Hn1). unfold write_nested. rewrite Hc1.
  rewrite put_len_delimited_header_spec by (auto; unfold in_u; lia).
  destruct (write_to_spec m Hm c1 (buf ++ key (mkTag n LengthDelimited) ++ varint b) rest)
    as (c2 & He & Hp2); [lia| |].
  - unfold pending. rewrite Hs1, Hn1, <- Nat.add_1_r, <- drop_drop. fold (pending c). by rewrite Hp.
  - exists c2. split; [|done]. rewrite He. f_equal. unfold encode_record, tag_of. cbn [fst snd type_of].
    rewrite payload_message. unfold delimited. fold b. by rewrite <- !app_assoc.
Qed.
Lemma writes_message `{!Message M, !MessageSpec M, !FieldLaws M} n (f : option M) :
  1 ≤ n < 16 → from_option well_formed True f → writes_as (write_message n f) (r_message n f).
Proof. intros Hn Hf. destruct f as [m|]; [by apply writes_nested|apply writes_nil]. Qed.
Lemma writes_loop {A} (f : A → write_stmt) (r : A → record) l :
  Forall (λ x, writes_as (f x) [r x]) l → writes_as (λ s, foldl (λ s x, f x s) s l) (r <$> l).
Proof.
  induction 1 as [|x l Hx _ IH]; [apply writes_nil|]. exact (writes_seq _ _ [r x] _ Hx IH).
Qed.
Lemma writes_repeated `{!Message M, !MessageSpec M, !FieldLaws M} n (f : list M) :
  1 ≤ n < 16 → Forall well_formed f → writes_as (write_repeated n f) (r_repeated n f).
Proof.
  intros Hn Hf. apply (writes_loop (write_nested n)). eapply Forall_impl; [exact Hf|].
  intros m Hm. by apply writes_nested.
Qed.
Lemma writes_strings n f : 1 ≤ n < 16 → writes_as (write_strings n f) (r_strings n f).
Proof.
  intros Hn. apply (writes_loop (λ v, append (put_string_field n v))).
  apply Forall_forall. intros v _. apply writes_scalar; [|done]. intros buf. apply put_string_field_spec; auto.
Qed.

(** *** Nesting *)
Lemma nesting_seq a b d : (nesting a ≤ d)%nat → (nesting b ≤ d)%nat → (nesting (a ++ b) ≤ d)%nat.
Proof. rewrite nesting_app. lia. Qed.
Lemma nesting_nested `{!Message M, !MessageSpec M, !FieldLaws M} n (m : M) d :
  (levels M < d)%nat → (nesting [(n, VMessage (records m))] ≤ d)%nat.
Proof. unfold nesting. cbn. pose proof (records_levels m). unfold nesting in *. lia. Qed.
Lemma nesting_message `{!Message M, !MessageSpec M, !FieldLaws M} n (f : option M) d :
  (levels M < d)%nat → (nesting (r_message n f) ≤ d)%nat.
Proof. intros Hd. destruct f; [by apply nesting_nested|cbn; lia]. Qed.
Lemma nesting_loop {A} (r : A → record) l d : (∀ x, (nesting [r x] ≤ d)%nat) → (nesting (r <$> l) ≤ d)%nat.
Proof. intros Hr. induction l as [|x l IH]; [cbn; lia|]. by apply (nesting_seq [r x]). Qed.
Lemma nesting_repeated `{!Message M, !MessageSpec M, !FieldLaws M} n (f : list M) d :
  (levels M < d)%nat → (nesting (r_repeated n f) ≤ d)%nat.
Proof. intros Hd. apply nesting_loop. intros m. by apply nesting_nested. Qed.
Lemma nesting_scalar (l : list record) d :
  match l with [(_, VInt _)] | [(_, VString _)] | [] => True | _ => False end → (nesting l ≤ d)%nat.
Proof. destruct l as [|[n []] [|]]; (done || cbn; lia). Qed.
Lemma nesting_int n v d : (nesting (r_int n v) ≤ d)%nat.
Proof. apply nesting_scalar. unfold r_int. by destruct (v =? 0). Qed.
Lemma nesting_some_int n f d : (nesting (r_some_int n f) ≤ d)%nat.
Proof. apply nesting_scalar. by destruct f. Qed.
Lemma nesting_bool n b d : (nesting (r_bool n b) ≤ d)%nat.
Proof. apply nesting_scalar. by destruct b. Qed.
Lemma nesting_string n s d : (nesting (r_string n s) ≤ d)%nat.
Proof. apply nesting_scalar. unfold r_string. by destruct (String.eqb s EmptyString). Qed.
Lemma nesting_some_string n f d : (nesting (r_some_string n f) ≤ d)%nat.
Proof. apply nesting_scalar. by destruct f. Qed.
Lemma nesting_strings n f d : (nesting (r_strings n f) ≤ d)%nat.
Proof. apply nesting_loop. intros s. by apply nesting_scalar. Qed.
Lemma nesting_enum `{Enumeration E} n (f : EnumValue E) d : (nesting (r_enum n f) ≤ d)%nat.
Proof. apply nesting_int. Qed.
Lemma nesting_entry {V} (c : map_codec V) (n : Z) k v d :
  (0 < d)%nat → (nesting [(n, VEntry [(1%Z, VString k); (2%Z, codec_value c v)])] ≤ d)%nat.
Proof. intros Hd. unfold nesting. destruct c; cbn; lia. Qed.
Lemma nesting_map {V} (c : map_codec V) n f d : (0 < d)%nat → (nesting (map_records c n f) ≤ d)%nat.
Proof. intros Hd. apply nesting_loop. intros [k v]. by apply nesting_entry. Qed.

(** *** Reading *)
Lemma runs_app {M} (f : merge_fn M) ctx m a m' b m'' :
  runs f ctx m a m' → runs f ctx m' b m'' → runs f ctx m (a ++ b) m''.
Proof. induction 1; [done|]. intros Hb. cbn. eapply runs_cons; eauto. Qed.
Lemma runs_one {M} (f : merge_fn M) ctx m r m' : valid_record r →
  (∀ rest, f m (tag_of r) (payload r.2 ++ rest) ctx = Ok (m', rest)) → runs f ctx m [r] m'.
Proof. intros Hr Hf. eapply runs_cons; [done..|]. apply runs_nil. Qed.
Lemma runs_to {M} (f : merge_fn M) ctx m l m1 m2 : runs f ctx m l m1 → m1 = m2 → runs f ctx m l m2.
Proof. by intros ? <-. Qed.

Lemma check_wire_type_ok n t : check_wire_type (mkTag n t) t = Ok tt.
Proof. pose proof (check_wire_type_spec (mkTag n t) t) as Hc. cbn in Hc. by destruct (decide (t = t)). Qed.
Lemma check_wire_type_err n t t' : t' ≠ t → ∃ e, check_wire_type (mkTag n t) t' = Err e.
Proof. intros Hn. pose proof (check_wire_type_spec (mkTag n t) t') as Hc. cbn in Hc.
  destruct (decide (t = t')) as [->|]; [by destruct Hn|done].
Qed.

(** The arms at the records they are for. *)
Lemma merge_scalar_ok {M A} t (decode : bytes → outcome DecodeError (A * bytes)) (put : A → M) n b rest a :
  decode (b ++ rest) = Ok (a, rest) →
  merge_scalar t decode put (mkTag n t) (b ++ rest) = Ok (put a, rest).
Proof. intros Hd. unfold merge_scalar. rewrite check_wire_type_ok. cbn. by rewrite Hd. Qed.
Lemma merge_nested_ok {N} `{!Message N, !MessageSpec N, !FieldLaws N} n (v : N) ctx rest :
  well_formed v → fits (depth ctx) [(n, VMessage (records v))] →
  merge_length_delimited merge_field default_message (payload (VMessage (records v)) ++ rest) ctx = Ok (v, rest).
Proof.
  intros Hv Hf. apply fits_message in Hf as (d & Hd & Hf). rewrite payload_message.
  apply (merge_length_delimited_spec merge_field _ _ _ _ d); [done| |apply Hf].
  intros ctx' <-. by apply merge_field_spec.
Qed.
Lemma merge_unknown_ok {M} (m : M) r rest ctx : valid_record r → len (payload r.2) < max_len →
  merge_unknown m (tag_of r) (payload r.2 ++ rest) ctx = Ok (m, rest).
Proof. intros Hr Hl. unfold merge_unknown. by rewrite skip_field_depth_spec. Qed.

(** The arms at a record of another wire type. *)
Lemma merge_scalar_err {M A} t t' (decode : bytes → outcome DecodeError (A * bytes)) (put : A → M) n buf :
  t ≠ t' → ∃ e, merge_scalar t decode put (mkTag n t') buf = Err e.
Proof. intros Ht. destruct (check_wire_type_err n t' t Ht) as [e He]. exists e. unfold merge_scalar. by rewrite He. Qed.
Lemma merge_strings_err {M} t' (f : list string) (put : list string → M) n buf :
  LengthDelimited ≠ t' → ∃ e, merge_strings f put (mkTag n t') buf = Err e.
Proof. apply merge_scalar_err. Qed.
Lemma merge_message_err {M N} `{!Message N} t' (f : option N) (put : option N → M) n buf ctx :
  LengthDelimited ≠ t' → ∃ e, merge_message f put (mkTag n t') buf ctx = Err e.
Proof. intros Ht. destruct (check_wire_type_err n t' _ Ht) as [e He]. exists e. unfold merge_message. by rewrite He. Qed.
Lemma merge_repeated_err {M N} `{!Message N} t' (f : list N) (put : list N → M) n buf ctx :
  LengthDelimited ≠ t' → ∃ e, merge_repeated f put (mkTag n t') buf ctx = Err e.
Proof. intros Ht. destruct (check_wire_type_err n t' _ Ht) as [e He]. exists e. unfold merge_repeated. by rewrite He. Qed.
Lemma merge_map_err {M V} t' (c : map_codec V) f (put : gmap string V → M) n buf ctx :
  LengthDelimited ≠ t' → ∃ e, merge_map c f put (mkTag n t') buf ctx = Err e.
Proof. intros Ht. destruct (check_wire_type_err n t' _ Ht) as [e He]. exists e. unfold merge_map. by rewrite He. Qed.
End laws.

Lemma put_same {M A} {get : M → A} {put : A → M → M} `{!Lens get put} m a : get m = a → put a m = m.
Proof. intros <-. apply put_get. Qed.

(** Reading one field of a message [M], whose [merge_field] is [f]. *)
Section fields.
Context `{BL : BuffaLaws} {M : Type} (f : merge_fn M) (ctx : DecodeContext).

Lemma runs_scalar {A} (decode : bytes → outcome DecodeError (A * bytes)) (put : A → M) n v a m :
  (∀ buf, f m (mkTag n (type_of v)) buf ctx = merge_scalar (type_of v) decode put (mkTag n (type_of v)) buf) →
  valid_record (n, v) → (∀ rest, decode (payload v ++ rest) = Ok (a, rest)) →
  runs f ctx m [(n, v)] (put a).
Proof.
  intros Hf Hv Hd. apply runs_one; [done|]. intros rest. unfold tag_of. cbn [fst snd]. rewrite Hf.
  by apply merge_scalar_ok.
Qed.

Lemma valid_int n v w : 1 ≤ n < 16 → in_u w v → w = 32 ∨ w = 64 → valid_record (n, VInt v).
Proof. unfold valid_record, in_u. cbn. intros ? ? [-> | ->]; lia. Qed.
Lemma valid_string n s : 1 ≤ n < 16 → valid_record (n, VString s).
Proof. unfold valid_record. cbn. lia. Qed.
Lemma string_fits d n s : fits d [(n, VString s)] → len (list_byte_of_string s) < max_len.
Proof.
  intros [_ Hl]. rewrite encode_single in Hl. pose proof (len_encode_record (n, VString s)) as Hr.
  cbn [snd payload] in Hr. rewrite len_delimited in Hr. pose proof (len_varint (len (list_byte_of_string s))). lia.
Qed.

Lemma runs_uint32 {get : M → Z} {put : Z → M → M} `{!Lens get put} n self m :
  (∀ m buf, f m (mkTag n Varint) buf ctx = merge_scalar Varint decode_uint32 (λ a, put a m) (mkTag n Varint) buf) →
  1 ≤ n < 16 → get m = 0 → in_u 32 (get self) → runs f ctx m (r_int n (get self)) (put (get self) m).
Proof.
  intros Hf Hn Hm Hv. unfold r_int. destruct (Z.eqb_spec (get self) 0) as [->|].
  - rewrite (put_same m _ Hm). apply runs_nil.
  - apply (runs_scalar decode_uint32 (λ a, put a m)); [auto|by eapply valid_int; eauto|].
    intros. by apply decode_uint32_spec.
Qed.
Lemma runs_uint64 {get : M → Z} {put : Z → M → M} `{!Lens get put} n self m :
  (∀ m buf, f m (mkTag n Varint) buf ctx = merge_scalar Varint decode_uint64 (λ a, put a m) (mkTag n Varint) buf) →
  1 ≤ n < 16 → get m = 0 → in_u 64 (get self) → runs f ctx m (r_int n (get self)) (put (get self) m).
Proof.
  intros Hf Hn Hm Hv. unfold r_int. destruct (Z.eqb_spec (get self) 0) as [->|].
  - rewrite (put_same m _ Hm). apply runs_nil.
  - apply (runs_scalar decode_uint64 (λ a, put a m)); [auto|by eapply valid_int; eauto|].
    intros. by apply decode_uint64_spec.
Qed.
Lemma runs_some_uint32 {get : M → option Z} {put : option Z → M → M} `{!Lens get put} n self m :
  (∀ m buf, f m (mkTag n Varint) buf ctx =
    merge_scalar Varint decode_uint32 (λ a, put (Some a) m) (mkTag n Varint) buf) →
  1 ≤ n < 16 → get m = None → from_option (in_u 32) True (get self) →
  runs f ctx m (r_some_int n (get self)) (put (get self) m).
Proof.
  intros Hf Hn Hm Hv. destruct (get self) as [v|] eqn:Hg; [|rewrite (put_same m _ Hm); apply runs_nil].
  apply (runs_scalar decode_uint32 (λ a, put (Some a) m)); [auto|by eapply valid_int; eauto|].
  intros. by apply decode_uint32_spec.
Qed.
Lemma runs_bool {get : M → bool} {put : bool → M → M} `{!Lens get put} n self m :
  (∀ m buf, f m (mkTag n Varint) buf ctx = merge_scalar Varint decode_bool (λ a, put a m) (mkTag n Varint) buf) →
  1 ≤ n < 16 → get m = false → runs f ctx m (r_bool n (get self)) (put (get self) m).
Proof.
  intros Hf Hn Hm. destruct (get self) eqn:Hg; [|rewrite (put_same m _ Hm); apply runs_nil].
  apply (runs_scalar decode_bool (λ a, put a m)); [auto|eapply (valid_int _ _ 64); [done|done|auto]|].
  intros. apply (decode_bool_spec true).
Qed.
Lemma runs_enum `{Enumeration E} {get : M → EnumValue E} {put : EnumValue E → M → M} `{!Lens get put} n self m :
  (∀ m buf, f m (mkTag n Varint) buf ctx =
    merge_scalar Varint decode_int32 (λ a, put (enum_from a) m) (mkTag n Varint) buf) →
  1 ≤ n < 16 → get m = enum_from 0 → enum_ok (get self) →
  runs f ctx m (r_enum n (get self)) (put (get self) m).
Proof.
  intros Hf Hn Hm Hv. assert (in_i 32 (enum_to_i32 (get self))) as Hr by (destruct (get self); apply Hv).
  assert (enum_from (enum_to_i32 (get self)) = get self) as He.
  { unfold enum_from. destruct (get self); cbn; [by rewrite (proj1 Hv)|by rewrite (proj1 Hv)]. }
  unfold r_enum, r_int. rewrite wrap_u64_zero by done. destruct (Z.eqb_spec (enum_to_i32 (get self)) 0) as [Hz|].
  - rewrite <- He, Hz, (put_same m _ Hm). apply runs_nil.
  - rewrite <- He at 2. apply (runs_scalar decode_int32 (λ a, put (enum_from a) m)); [auto| |].
    + eapply (valid_int _ _ 64); [done| |auto]. apply Z.mod_pos_bound. lia.
    + intros. by apply decode_int32_spec.
Qed.
Lemma runs_string {get : M → string} {put : string → M → M} `{!Lens get put} n self m :
  (∀ m buf, f m (mkTag n LengthDelimited) buf ctx =
    merge_scalar LengthDelimited (merge_string (get m)) (λ a, put a m) (mkTag n LengthDelimited) buf) →
  1 ≤ n < 16 → get m = EmptyString → string_ok (get self) → fits (depth ctx) (r_string n (get self)) →
  runs f ctx m (r_string n (get self)) (put (get self) m).
Proof.
  intros Hf Hn Hm Hv. unfold r_string. destruct (String.eqb_spec (get self) "") as [->|].
  - intros _. rewrite (put_same m _ Hm). apply runs_nil.
  - intros Hl. apply (runs_scalar (merge_string (get m)) (λ a, put a m)); [auto|by apply valid_string|].
    intros. apply merge_string_spec; [done|by eapply string_fits].
Qed.
Lemma runs_some_string {get : M → option string} {put : option string → M → M} `{!Lens get put} n self m :
  (∀ m buf, f m (mkTag n LengthDelimited) buf ctx =
    merge_scalar LengthDelimited (merge_string (default EmptyString (get m))) (λ a, put (Some a) m)
      (mkTag n LengthDelimited) buf) →
  1 ≤ n < 16 → get m = None → from_option string_ok True (get self) →
  fits (depth ctx) (r_some_string n (get self)) →
  runs f ctx m (r_some_string n (get self)) (put (get self) m).
Proof.
  intros Hf Hn Hm Hv. destruct (get self) as [s|] eqn:Hg; [|rewrite (put_same m _ Hm); intros; apply runs_nil].
  intros Hl. apply (runs_scalar (merge_string (default EmptyString (get m))) (λ a, put (Some a) m));
    [auto|by apply valid_string|].
  intros. apply merge_string_spec; [done|by eapply string_fits].
Qed.
(** A record of a nested message, read into a field that is unset. *)
Lemma runs_nested {N} `{!Message N, !MessageSpec N, !FieldLaws N} n (put : option N → M) v m :
  (∀ buf, f m (mkTag n LengthDelimited) buf ctx = merge_message None put (mkTag n LengthDelimited) buf ctx) →
  1 ≤ n < 16 → well_formed v → fits (depth ctx) [(n, VMessage (records v))] →
  runs f ctx m [(n, VMessage (records v))] (put (Some v)).
Proof.
  intros Hf Hn Hv Hl. apply runs_one; [unfold valid_record; cbn; lia|]. intros rest. unfold tag_of.
  cbn [fst snd type_of]. rewrite Hf. unfold merge_message. rewrite check_wire_type_ok.
  cbn [mbind outcome_bind default from_option]. by rewrite (merge_nested_ok n).
Qed.
Lemma runs_message {N} `{!Message N, !MessageSpec N, !FieldLaws N} {get : M → option N} {put : option N → M → M}
    `{!Lens get put} n self m :
  (∀ m buf, f m (mkTag n LengthDelimited) buf ctx =
    merge_message (get m) (λ a, put a m) (mkTag n LengthDelimited) buf ctx) →
  1 ≤ n < 16 → get m = None → from_option well_formed True (get self) →
  fits (depth ctx) (r_message n (get self)) →
  runs f ctx m (r_message n (get self)) (put (get self) m).
Proof.
  intros Hf Hn Hm Hv. destruct (get self) as [v|] eqn:Hg; [|rewrite (put_same m _ Hm); intros; apply runs_nil].
  intros Hl. apply (runs_nested n (λ a, put a m)); [intros buf; by rewrite Hf, Hm|done..].
Qed.

(** A repeated field grows by the element of each record. *)
Lemma runs_pushes {A} {get : M → list A} {put : list A → M → M} `{!Lens get put} (r : A → record) l pre m :
  get m = pre → Forall (λ x, ∀ m, runs f ctx m [r x] (put (get m ++ [x]) m)) l →
  runs f ctx m (r <$> l) (put (pre ++ l) m).
Proof.
  intros Hm Hl. revert pre m Hm. induction Hl as [|x l Hx _ IH]; intros pre m Hm.
  - rewrite app_nil_r, (put_same m _ Hm). apply runs_nil.
  - apply (runs_app _ _ _ [r x] (put (get m ++ [x]) m)); [apply Hx|].
    eapply runs_to; [apply (IH (pre ++ [x])); by rewrite get_put, Hm|]. by rewrite put_put, <- app_assoc.
Qed.
Lemma fits_fmap {A} d (r : A → record) l : fits d (r <$> l) → Forall (λ x, fits d [r x]) l.
Proof.
  induction l as [|x l IH]; intros Hf; [constructor|]. apply (fits_app _ [r x]) in Hf as [Hx Hl].
  constructor; [done|by apply IH].
Qed.
Lemma runs_repeated {N} `{!Message N, !MessageSpec N, !FieldLaws N} {get : M → list N} {put : list N → M → M}
    `{!Lens get put} n self m :
  (∀ m buf, f m (mkTag n LengthDelimited) buf ctx =
    merge_repeated (get m) (λ a, put a m) (mkTag n LengthDelimited) buf ctx) →
  1 ≤ n < 16 → get m = [] → Forall well_formed (get self) → fits (depth ctx) (r_repeated n (get self)) →
  runs f ctx m (r_repeated n (get self)) (put (get self) m).
Proof.
  intros Hf Hn Hm Hv Hl. apply (runs_pushes _ _ [] _ Hm). apply fits_fmap in Hl.
  apply Forall_forall. intros v Hin m'. rewrite Forall_forall in Hv, Hl.
  apply runs_one; [unfold valid_record; cbn; lia|]. intros rest. unfold tag_of. cbn [fst snd type_of].
  rewrite Hf. unfold merge_repeated. rewrite check_wire_type_ok. cbn [mbind outcome_bind].
  by rewrite (merge_nested_ok n) by auto.
Qed.
Lemma runs_strings {get : M → list string} {put : list string → M → M} `{!Lens get put} n self m :
  (∀ m buf, f m (mkTag n LengthDelimited) buf ctx =
    merge_strings (get m) (λ a, put a m) (mkTag n LengthDelimited) buf) →
  1 ≤ n < 16 → get m = [] → Forall string_ok (get self) → fits (depth ctx) (r_strings n (get self)) →
  runs f ctx m (r_strings n (get self)) (put (get self) m).
Proof.
  intros Hf Hn Hm Hv Hl. apply (runs_pushes _ _ [] _ Hm). apply fits_fmap in Hl.
  apply Forall_forall. intros v Hin m'. rewrite Forall_forall in Hv, Hl.
  apply (runs_scalar decode_string (λ v, put (get m' ++ [v]) m')); [auto|by apply valid_string|].
  intros. apply decode_string_spec; [auto|eapply string_fits; eauto].
Qed.

(** The entries of a map are inserted one by one. *)
Lemma runs_inserts {V} {get : M → gmap string V} {put : gmap string V → M → M} `{!Lens get put}
    (r : string * V → record) l g m :
  get m = g → Forall (λ kv, ∀ m, runs f ctx m [r kv] (put (<[kv.1 := kv.2]> (get m)) m)) l →
  runs f ctx m (r <$> l) (put (foldl (λ g kv, <[kv.1 := kv.2]> g) g l) m).
Proof.
  intros Hm Hl. revert g m Hm. induction Hl as [|kv l Hx _ IH]; intros g m Hm.
  - rewrite (put_same m _ Hm). apply runs_nil.
  - apply (runs_app _ _ _ [r kv] (put (<[kv.1 := kv.2]> (get m)) m)); [apply Hx|].
    eapply runs_to; [apply (IH (<[kv.1 := kv.2]> g)); by rewrite get_put, Hm|]. by rewrite put_put.
Qed.
Lemma foldl_insert {V} (l : list (string * V)) (g : gmap string V) :
  foldl (λ g kv, <[kv.1 := kv.2]> g) g l = list_to_map (reverse l) ∪ g.
Proof.
  revert g. induction l as [|[k v] l IH]; intros g; cbn [foldl]; [exact (eq_sym (left_id_L ∅ (∪) g))|].
  rewrite IH, reverse_cons, list_to_map_app. cbn. by rewrite insert_empty, <- (assoc_L (∪)), insert_union_singleton_l.
Qed.
Lemma foldl_insert_iter {V} (g : gmap string V) : foldl (λ g kv, <[kv.1 := kv.2]> g) ∅ (map_iter g) = g.
Proof.
  pose proof (map_iter_spec g) as Hp. rewrite foldl_insert, (right_id_L ∅ (∪)).
  rewrite <- (list_to_map_to_list g) at 2. apply list_to_map_proper; [|by rewrite reverse_Permutation].
  rewrite reverse_Permutation, Hp. apply NoDup_fst_map_to_list.
Qed.
Lemma map_records_empty {V} (c : map_codec V) n g : g = ∅ → map_records c n g = [].
Proof.
  intros ->. unfold map_records. pose proof (map_iter_spec (∅ : gmap string V)) as Hp.
  rewrite map_to_list_empty, (Permutation_nil_r (map_iter _)) in Hp. by rewrite Hp.
Qed.
Definition map_ok {V} (c : map_codec V) (g : gmap string V) : Prop :=
  map_Forall (λ k v, string_ok k ∧ codec_ok c v) g.
Lemma map_ok_codec {V} (c : map_codec V) g : map_ok c g → map_Forall (λ _, codec_ok c) g.
Proof. intros Hg k v Hk. by apply (Hg k v). Qed.
Lemma fits_entry d n l : fits d [(n, VEntry l)] → (0 < d)%nat ∧ len (encode l) < max_len.
Proof. intros Hf. change (fits d [(n, VMessage l)]) in Hf. apply fits_message in Hf as (d' & -> & _ & Hl). split; [lia|done]. Qed.

Lemma runs_map {V} (c : map_codec V) {get : M → gmap string V} {put : gmap string V → M → M} `{!Lens get put} n self m :
  (∀ m buf, f m (mkTag n LengthDelimited) buf ctx = merge_map c (get m) (λ a, put a m) (mkTag n LengthDelimited) buf ctx) →
  1 ≤ n < 16 → get m = ∅ → map_ok c (get self) → fits (depth ctx) (map_records c n (get self)) →
  runs f ctx m (map_records c n (get self)) (put (get self) m).
Proof.
  intros Hf Hn Hm Hv Hl. unfold map_records in *. apply fits_fmap in Hl.
  rewrite <- (foldl_insert_iter (get self)) at 2. apply (runs_inserts _ _ _ _ Hm).
  apply Forall_forall. intros [k v] Hin m'. rewrite Forall_forall in Hl. specialize (Hl _ Hin). cbn in Hl.
  rewrite (map_iter_spec (get self)) in Hin. apply elem_of_map_to_list in Hin.
  destruct (Hv k v Hin) as [Hk Hc]. apply fits_entry in Hl as [Hd Hl].
  apply runs_one; [unfold valid_record; cbn; lia|]. intros rest. unfold tag_of. cbn [fst snd type_of].
  rewrite Hf. unfold merge_map. rewrite check_wire_type_ok. cbn [mbind outcome_bind].
  by rewrite map_merge_entry_spec.
Qed.
End fields.

(** ** Encoding and decoding a message *)
Section messages.
Context `{BL : BuffaLaws}.

(** Sizing with a fresh cache, then writing with it. *)
Definition encode_message `{!Message M} (m : M) : bytes :=
  let '(_, c) := compute_size m cache_new in (write_to m (c, [])).2.
Definition decode_message `{!Message M} (b : bytes) : outcome DecodeError M :=
  merge_from merge_field default_message b.

Lemma sizes_start f l c : sizes_as f l → len (encode l) < 2 ^ 32 →
  ∃ c', f (0, c) = (len (encode l), c') ∧
    cache_slots c' = cache_slots c ++ slots l ∧ cache_next c' = cache_next c.
Proof. intros Hf Hl. destruct (Hf 0 c) as (c' & Hc); [lia..|]. by exists c'. Qed.

Context `{!Message M, !MessageSpec M, !MessageLaws M}.

Lemma encode_message_spec (m : M) : well_formed m → len (encode (records m)) < max_len →
  encode_message m = encode (records m).
Proof.
  intros Hm Hl. unfold encode_message. assert (max_len ≤ 2 ^ 32) by done.
  destruct cache_new_spec as [Hs Hn]. destruct (compute_size_spec m cache_new) as (c & -> & Hs' & Hn'); [done|lia|].
  destruct (write_to_spec m Hm c [] []) as (c' & -> & _); [lia| |done].
  unfold pending. by rewrite Hs', Hn', Hs, Hn, app_nil_r.
Qed.

(** Records the schema does not have may be anywhere among a message's own. *)
Inductive interleaved : list record → list record → Prop :=
| inter_nil : interleaved [] []
| inter_own r l l' : interleaved l l' → interleaved (r :: l) (r :: l')
| inter_unknown r l l' : (∀ t, (r.1, t) ∉ schema M) → valid_record r → len (payload r.2) < max_len →
    interleaved l l' → interleaved l (r :: l').
Lemma interleaved_refl l : interleaved l l.
Proof. induction l; by constructor. Qed.

Lemma runs_interleaved ctx (m m' : M) l l' :
  interleaved l l' → runs merge_field ctx m l m' → runs merge_field ctx m l' m'.
Proof.
  intros Hi. revert m. induction Hi as [|r l l' _ IH|r l l' Hn Hv Hl _ IH]; intros m Hr; [done| |].
  - inversion Hr as [|? ? m1 ? ? Hv Hf Hr']; subst. eapply runs_cons; [done..|]. by apply IH.
  - eapply runs_cons; [done| |by apply IH]. intros rest. by apply merge_field_unknown.
Qed.

Lemma interleaved_len l l' : interleaved l l' → len (encode l) ≤ len (encode l').
Proof.
  induction 1 as [|r l l' _ IH|r l l' _ _ _ _ IH]; [done|..];
    rewrite !len_encode_cons; pose proof (len_nonneg (encode_record r)); lia.
Qed.
(** The recursion limit is beyond the message's levels. *)
Lemma decode_interleaved (m : M) l : (levels M ≤ 100)%nat → well_formed m →
  interleaved (records m) l → len (encode l) < max_len → decode_message (encode l) = Ok m.
Proof.
  intros Hlv Hm Hi Hl. unfold decode_message. apply merge_from_spec; [|done]. intros ctx Hd.
  eapply runs_interleaved; [exact Hi|]. apply merge_field_spec; [done|]. rewrite Hd, RECURSION_LIMIT_spec.
  pose proof (records_levels m). pose proof (interleaved_len _ _ Hi). split; lia.
Qed.
Lemma decode_encode_message (m : M) : (levels M ≤ 100)%nat → well_formed m →
  len (encode (records m)) < max_len → decode_message (encode_message m) = Ok m.
Proof.
  intros Hlv Hm Hl. rewrite encode_message_spec by done.
  by apply decode_interleaved; [..|apply interleaved_refl|].
Qed.
End messages.

(** ** Automation

    [message_laws] proves [MessageLaws] of a message from its definitions: each method
    statement by statement, with the lemma of the statement's shape. *)
(** Statements of views, added where they are defined. *)
Ltac extra_sizes := fail.
Ltac extra_writes := fail.
Ltac extra_runs := fail.
Ltac extra_wrong_type := fail.
Ltac extra_levels := fail.

Ltac wire_side := first [assumption | lia | done | by destruct_and?].
Ltac sizes_step := first
  [ apply sizes_seq | apply sizes_nil | apply sizes_message | apply sizes_repeated | apply sizes_uint32
  | apply sizes_uint64 | apply sizes_some_uint32 | apply sizes_bool | apply sizes_string
  | apply sizes_some_string | apply sizes_strings | apply sizes_enum
  | apply sizes_map; [|apply map_ok_codec] | extra_sizes ].
Ltac writes_step := first
  [ apply writes_seq | apply writes_nil | apply writes_message | apply writes_repeated | apply writes_uint32
  | apply writes_uint64 | apply writes_some_uint32 | apply writes_bool | apply writes_string
  | apply writes_some_string | apply writes_strings | apply writes_enum
  | apply writes_map; [|apply map_ok_codec] | extra_writes ].
Ltac field_side := first [typeclasses eauto | reflexivity | wire_side | intros; reflexivity].
Ltac runs_field := first
  [ solve [eapply runs_message; field_side] | solve [eapply runs_repeated; field_side]
  | solve [eapply runs_uint32; field_side] | solve [eapply runs_uint64; field_side]
  | solve [eapply runs_some_uint32; field_side] | solve [eapply runs_bool; field_side]
  | solve [eapply runs_enum; field_side] | solve [eapply runs_string; field_side]
  | solve [eapply runs_some_string; field_side] | solve [eapply runs_strings; field_side]
  | solve [eapply runs_map; field_side] | extra_runs ].
Ltac runs_fields :=
  lazymatch goal with
  | H : fits _ (_ ++ _) |- runs _ _ _ (_ ++ _) _ =>
      apply fits_app in H as [? H]; eapply runs_app; [runs_field|runs_fields]
  | |- runs _ _ _ [] _ => apply runs_nil
  | _ => runs_field
  end.

Ltac head_of t := lazymatch t with ?f _ => head_of f | _ => t end.
(** Unfolds the specification or the operations of the message a goal or hypothesis is about. *)
Ltac spec_in H :=
  lazymatch type of H with
  | context [@well_formed _ _ ?i _] => let h := head_of i in unfold h in H; cbn [well_formed] in H
  | context [@schema _ _ ?i] => let h := head_of i in unfold h in H; cbn [schema] in H
  end.
Ltac records_in H :=
  lazymatch type of H with
  | context [@records _ _ ?i _] => let h := head_of i in unfold h in H |- *; cbn [records] in H |- *
  end.
Ltac unfold_records :=
  lazymatch goal with |- context [@records _ _ ?i _] => let h := head_of i in unfold h; cbn [records] end.
Ltac levels_step := first
  [ (apply nesting_message || apply nesting_repeated || apply nesting_nested); cbn; lia
  | apply nesting_int | apply nesting_some_int | apply nesting_bool | apply nesting_string
  | apply nesting_some_string | apply nesting_strings | apply nesting_enum | apply nesting_map; lia
  | by apply nesting_scalar | extra_levels | apply nesting_seq ].
(** What is left of [merge_field_unknown] once its arms are told apart. *)
Ltac unknown_arm Hn v :=
  first [ by apply (merge_unknown_ok _ (_, v))
        | exfalso; eapply Hn; repeat first [apply list_elem_of_here | apply list_elem_of_further] ].
Ltac wrong_type := first
  [ by apply merge_message_err | by apply merge_repeated_err | by apply merge_strings_err
  | by apply merge_map_err | by apply merge_scalar_err | extra_wrong_type ].
(** [put_get] and its like, field by field. *)
Ltac lens := by split; [intros []|..].

Ltac unknown_law merge :=
  intros m [n v] rest ctx Hn Hv Hl; spec_in Hn; change merge_field with merge; unfold merge;
  cbn [field_number tag_of fst] in Hn |- *; repeat case_match; unknown_arm Hn v.
Ltac wire_type_law merge :=
  intros m n t t' buf ctx Hn Ht; spec_in Hn; change merge_field with merge; unfold merge;
  repeat (apply elem_of_cons in Hn as [Hn|Hn]; [injection Hn as -> ->; cbn [field_number]; wrong_type|]);
  by apply elem_of_nil in Hn.
Ltac field_laws size write merge :=
  split;
  [ intros m c Hm Hl; spec_in Hm; records_in Hl; change (compute_size m c) with (size m c); unfold size;
    first [ exact (sizes_start id [] c sizes_nil Hl)
          | apply sizes_start; [clear Hl; repeat sizes_step; wire_side|exact Hl] ]
  | intros m Hm; spec_in Hm; change (write_to m) with (write m); unfold write;
    unfold_records; repeat writes_step; wire_side
  | intros m ctx Hm Hf; spec_in Hm; records_in Hf;
    eapply runs_to; [runs_fields|by destruct m]
  | wire_type_law merge
  | intros m; unfold_records; cbn [levels]; repeat levels_step
  | first [done|unfold_records; erewrite map_records_empty by reflexivity; done] ].
Ltac message_laws size write merge := split; [field_laws size write merge|unknown_law merge].

(** The same for a message that is a choice of fields, one case per choice. *)
Ltac sizes_choice := first [ by apply sizes_nested | by apply sizes_nil | by apply sizes_scalar; [..|apply uint64_encoded_len_spec] ].
Ltac writes_choice := first
  [ by apply writes_nested | by apply writes_nil
  | by apply writes_scalar; [intros; apply put_uint64_field_spec; [lia|]|] ].
Ltac runs_choice :=
  first [ apply runs_nil
        | eapply runs_to; [solve [eapply runs_nested; field_side | extra_runs]|reflexivity]
        | eapply runs_to; [eapply (runs_scalar _ _ decode_uint64);
            [intros; reflexivity|by eapply valid_int; eauto|intros; by apply decode_uint64_spec]|reflexivity] ].
Ltac oneof_laws size write merge :=
  split; [split|unknown_law merge];
  [ intros [[[v|v]|]] c Hm Hl; spec_in Hm; records_in Hl; (apply sizes_start; [clear Hl|exact Hl]); sizes_choice
  | intros [[[v|v]|]] Hm; spec_in Hm; writes_choice
  | intros [[[v|v]|]] ctx Hm Hf; spec_in Hm; records_in Hf; runs_choice
  | wire_type_law merge
  | intros [[[v|v]|]]; unfold_records; cbn -[nesting records]; repeat levels_step
  | done ].
