(* ===== verification/WireTypes.v ===== *)
(** The well-known types the messages contain (`buffa_types`), third-party code.

    A value of one may keep the unknown fields it was read with; it is plain if it has
    none, as those are that the code builds.  Well-formed messages have plain ones, and
    nothing is assumed of what reading an unknown field into one does. *)
From Stdlib Require Import ZArith Lia Strings.Byte Strings.String.
From stdpp Require Import base list gmap strings.
From S2P Require Import Prelude Wire.
#[local] Open Scope Z_scope.

Class BuffaTypes `{Buffa} := {
  StringValue : Type;
  string_value : StringValue → string;
  string_plain : StringValue → Prop;
  StringValue_message :: Message StringValue;
  UInt32Value : Type;
  uint32_value : UInt32Value → Z;
  uint32_plain : UInt32Value → Prop;
  UInt32Value_message :: Message UInt32Value;
  UInt64Value : Type;
  uint64_value : UInt64Value → Z;
  uint64_plain : UInt64Value → Prop;
  UInt64Value_message :: Message UInt64Value;
  Timestamp : Type;
  seconds : Timestamp → Z;
  nanos : Timestamp → Z;
  timestamp_plain : Timestamp → Prop;
  Timestamp_message :: Message Timestamp;
}.

(** The wrappers have their value in field 1; a timestamp has seconds and nanoseconds. *)
Section specs.
Context `{BuffaTypes}.
#[export] Instance StringValue_spec : MessageSpec StringValue := {
  records v := r_string 1 (string_value v);
  schema := [(1, LengthDelimited)];
  well_formed v := string_ok (string_value v) ∧ string_plain v;
  levels := 0;
}.
#[export] Instance UInt32Value_spec : MessageSpec UInt32Value := {
  records v := r_int 1 (uint32_value v);
  schema := [(1, Varint)];
  well_formed v := in_u 32 (uint32_value v) ∧ uint32_plain v;
  levels := 0;
}.
#[export] Instance UInt64Value_spec : MessageSpec UInt64Value := {
  records v := r_int 1 (uint64_value v);
  schema := [(1, Varint)];
  well_formed v := in_u 64 (uint64_value v) ∧ uint64_plain v;
  levels := 0;
}.
#[export] Instance Timestamp_spec : MessageSpec Timestamp := {
  records v := r_int 1 (wrap_u 64 (seconds v)) ++ r_int 2 (wrap_u 64 (nanos v));
  schema := [(1, Varint); (2, Varint)];
  well_formed v := in_i 64 (seconds v) ∧ in_i 32 (nanos v) ∧ timestamp_plain v;
  levels := 0;
}.
End specs.

Class BuffaTypesLaws `{BuffaLaws, !BuffaTypes} := {
  StringValue_laws :: FieldLaws StringValue;
  UInt32Value_laws :: FieldLaws UInt32Value;
  UInt64Value_laws :: FieldLaws UInt64Value;
  Timestamp_laws :: FieldLaws Timestamp;
}.
