(* ===== verification/WireView.v ===== *)
(** Views: the generated types that borrow from the buffer they were read from.

    A view is a message too ([Message], [MessageSpec], [MessageLaws]): [ViewEncode] sizes
    and writes it, [merge_view_field] reads a field into it.  This file has the part of the
    runtime only views use, the statements of their methods, the conversion to the owned
    message and the interface [View] between the two. *)
From Stdlib Require Import ZArith Lia Strings.Byte Strings.String.
From stdpp Require Import base list gmap strings.
From S2P Require Import Prelude Wire WireTypes.
#[local] Open Scope Z_scope.

(** ** The runtime *)
Class BuffaViews `{Buffa} := {
  context_new : nat → DecodeContext;
  descend : DecodeContext → outcome DecodeError DecodeContext;
  borrow_bytes : bytes → outcome DecodeError (bytes * bytes);
  borrow_str : bytes → outcome DecodeError (string * bytes);
  decode_tag : bytes → outcome DecodeError (Tag * bytes);
  encode_tag : Tag → bytes → bytes;
  encode_varint : Z → bytes → bytes;
  encode_string : string → bytes → bytes;
  encode_uint64 : Z → bytes → bytes;
  (** the provided methods of [MessageView], for a view with the given [merge_view_field] *)
  merge_into_view {V} : merge_fn V → V → bytes → DecodeContext → outcome DecodeError V;
  decode_view_ctx {V} : merge_fn V → V → bytes → DecodeContext → outcome DecodeError V;
}.
Class BuffaViewsLaws `{BuffaLaws, !BuffaViews} := {
  context_new_spec n : depth (context_new n) = n;
  descend_spec ctx d : depth ctx = S d → ∃ ctx', descend ctx = Ok ctx' ∧ depth ctx' = d;
  borrow_bytes_spec b rest : len b < max_len → borrow_bytes (delimited b ++ rest) = Ok (b, rest);
  borrow_str_spec s rest : string_ok s → len (list_byte_of_string s) < max_len →
    borrow_str (delimited (list_byte_of_string s) ++ rest) = Ok (s, rest);
  decode_tag_spec n t rest : 1 ≤ n < 2 ^ 29 → decode_tag (key (mkTag n t) ++ rest) = Ok (mkTag n t, rest);
  encode_tag_spec t buf : 1 ≤ field_number t < 2 ^ 29 → encode_tag t buf = buf ++ key t;
  encode_varint_spec v buf : in_u 64 v → encode_varint v buf = buf ++ varint v;
  encode_string_spec s buf : encode_string s buf = buf ++ delimited (list_byte_of_string s);
  encode_uint64_spec v buf : in_u 64 v → encode_uint64 v buf = buf ++ varint v;
  merge_into_view_spec {V} (f : merge_fn V) v l v' ctx :
    runs f ctx v l v' → len (encode l) < max_len → merge_into_view f v (encode l) ctx = Ok v';
  decode_view_ctx_spec {V} (f : merge_fn V) v l v' ctx :
    runs f ctx v l v' → len (encode l) < max_len → decode_view_ctx f v (encode l) ctx = Ok v';
}.

(** ** The statements of the generated methods *)
Section statements.
Context `{BuffaViews}.

(** [match view.f.as_mut() { Some(existing) => merge_into_view(existing, ..)?,
     None => view.f = MessageFieldView::set(decode_view_ctx(..)?) }] *)
Definition view_message {V W} `{!Message W} (f : option W) (put : option W → V)
    (tag : Tag) (cur : bytes) (ctx : DecodeContext) : outcome DecodeError (V * bytes) :=
  _ ← check_wire_type tag LengthDelimited;
  sub_ctx ← descend ctx;
  '(sub, cur) ← borrow_bytes cur;
  w ← match f with
      | Some existing => merge_into_view merge_field existing sub sub_ctx
      | None => decode_view_ctx merge_field default_message sub sub_ctx
      end;
  Ok (put (Some w), cur).
Definition view_repeated {V W} `{!Message W} (f : list W) (put : list W → V)
    (tag : Tag) (cur : bytes) (ctx : DecodeContext) : outcome DecodeError (V * bytes) :=
  _ ← check_wire_type tag LengthDelimited;
  sub_ctx ← descend ctx;
  '(sub, cur) ← borrow_bytes cur;
  w ← decode_view_ctx merge_field default_message sub sub_ctx;
  Ok (put (f ++ [w]), cur).

Definition codec_type {V} (c : map_codec V) : WireType :=
  match c with Str => LengthDelimited | Uint64 => Varint end.
Definition codec_read {V} (c : map_codec V) : bytes → outcome DecodeError (V * bytes) :=
  match c in map_codec V return bytes → outcome DecodeError (V * bytes) with
  | Str => borrow_str | Uint64 => decode_uint64
  end.
Definition codec_zero {V} (c : map_codec V) : V :=
  match c in map_codec V return V with Str => EmptyString | Uint64 => 0 end.
(** [while !entry_cur.is_empty() { .. }]: the entry's fields, the last of each wins. *)
Fixpoint entry_loop {V} (c : map_codec V) (ctx : DecodeContext) (fuel : nat) (cur : bytes)
    (key : string) (val : V) : outcome DecodeError (string * V) :=
  match cur, fuel with
  | [], _ => Ok (key, val)
  | _, O => Panic
  | _, S fuel =>
      '(tag, cur) ← decode_tag cur;
      match field_number tag with
      | 1 =>
          _ ← check_wire_type tag LengthDelimited;
          '(key, cur) ← borrow_str cur;
          entry_loop c ctx fuel cur key val
      | 2 =>
          _ ← check_wire_type tag (codec_type c);
          '(val, cur) ← codec_read c cur;
          entry_loop c ctx fuel cur key val
      | _ =>
          cur ← skip_field_depth tag cur (depth ctx);
          entry_loop c ctx fuel cur key val
      end
  end.
Definition view_map {W V} (c : map_codec V) (f : list (string * V)) (put : list (string * V) → W)
    (tag : Tag) (cur : bytes) (ctx : DecodeContext) : outcome DecodeError (W * bytes) :=
  _ ← check_wire_type tag LengthDelimited;
  '(entry, cur) ← borrow_bytes cur;
  '(k, v) ← entry_loop c ctx (length entry) entry EmptyString (codec_zero c);
  Ok (put (f ++ [(k, v)]), cur).

(** [for (k, v) in &self.f { .. }] over the entries of a map *)
Definition codec_len {V} (c : map_codec V) : V → Z :=
  match c in map_codec V return V → Z with Str => string_encoded_len | Uint64 => uint64_encoded_len end.
Definition codec_encode {V} (c : map_codec V) : V → bytes → bytes :=
  match c in map_codec V return V → bytes → bytes with Str => encode_string | Uint64 => encode_uint64 end.
Definition entry_size {V} (c : map_codec V) (kv : string * V) : Z :=
  wrap_u 32 (1 + wrap_u 32 (string_encoded_len kv.1) + 1 + wrap_u 32 (codec_len c kv.2)).
Definition size_entry {V} (c : map_codec V) (k : Z) (kv : string * V) : size_stmt :=
  add_size (k + wrap_u 32 (varint_len (entry_size c kv)) + entry_size c kv).
Definition write_entry {V} (c : map_codec V) (n : Z) (kv : string * V) : write_stmt := append (λ buf,
  let buf := encode_tag (mkTag n LengthDelimited) buf in
  let buf := encode_varint (entry_size c kv) buf in
  let buf := encode_tag (mkTag 1 LengthDelimited) buf in
  let buf := encode_string kv.1 buf in
  let buf := encode_tag (mkTag 2 (codec_type c)) buf in
  codec_encode c kv.2 buf).
Definition size_entries {V} (c : map_codec V) (k : Z) (f : list (string * V)) : size_stmt :=
  λ s, foldl (λ s kv, size_entry c k kv s) s f.
Definition write_entries {V} (c : map_codec V) (n : Z) (f : list (string * V)) : write_stmt :=
  λ s, foldl (λ s kv, write_entry c n kv s) s f.
Definition r_entries {V} (c : map_codec V) (n : Z) (f : list (string * V)) : list record :=
  (λ kv, (n, VEntry [(1, VString kv.1); (2, codec_value c kv.2)])) <$> f.
Definition entries_ok {V} (c : map_codec V) (f : list (string * V)) : Prop :=
  Forall (λ kv, string_ok kv.1 ∧ codec_ok c kv.2) f.

(** [MessageView::decode_view] *)
Definition decode_view {V} `{!Message V} (buf : bytes) : outcome DecodeError V :=
  decode_view_ctx merge_field default_message buf (context_new RECURSION_LIMIT).
End statements.

(** ** Views and owned messages *)

(** [to_owned_from_source] *)
Class ToOwned `{Buffa} (V M : Type) := { to_owned_from_source : V → outcome DecodeError M }.

Definition own_message `{Buffa} {V M} `{!ToOwned V M} (f : option V) : outcome DecodeError (option M) :=
  match f with Some v => m ← to_owned_from_source v; Ok (Some m) | None => Ok None end.
Definition own_repeated `{Buffa} {V M} `{!ToOwned V M} (f : list V) : outcome DecodeError (list M) :=
  collect_results to_owned_from_source f.
(** [.iter().map(..).collect()] into a map: the last entry of a key wins. *)
Definition own_map {V} (f : list (string * V)) : gmap string V :=
  foldl (λ g kv, <[kv.1 := kv.2]> g) ∅ f.

(** The view that borrows all of a message, and what makes it one: the same records, and the
    message back when it is made owned. *)
Class View `{BuffaLaws} (V M : Type) `{!MessageSpec V, !MessageSpec M, !ToOwned V M} := {
  view_of : M → V;
  view_records m : records (view_of m) = records m;
  view_well_formed m : well_formed m → well_formed (view_of m);
  view_owned m : to_owned_from_source (view_of m) = Ok m;
}.

Section laws.
Context `{BVL : BuffaViewsLaws}.

(** *** Map entries *)
Lemma codec_len_spec {V} (c : map_codec V) v : codec_ok c v → codec_len c v = len (payload (codec_value c v)).
Proof. destruct c; intros Hv; [apply string_encoded_len_spec|by apply uint64_encoded_len_spec]. Qed.
Lemma codec_encode_spec {V} (c : map_codec V) v buf : codec_ok c v →
  codec_encode c v buf = buf ++ payload (codec_value c v).
Proof. destruct c; intros Hv; [apply encode_string_spec|by apply encode_uint64_spec]. Qed.
Lemma type_of_codec {V} (c : map_codec V) v : type_of (codec_value c v) = codec_type c.
Proof. by destruct c. Qed.
Lemma entry_len {V} (c : map_codec V) k v :
  len (encode [(1, VString k); (2, codec_value c v)]) =
  1 + len (payload (VString k)) + 1 + len (payload (codec_value c v)).
Proof. rewrite len_encode_cons, encode_single, !len_record by lia. lia. Qed.
Lemma entry_size_spec {V} (c : map_codec V) k v : codec_ok c v →
  len (encode [(1, VString k); (2, codec_value c v)]) < 2 ^ 32 →
  entry_size c (k, v) = len (encode [(1, VString k); (2, codec_value c v)]).
Proof.
  intros Hv. rewrite entry_len. intros Hl. unfold entry_size. cbn [fst snd].
  rewrite string_encoded_len_spec, codec_len_spec by done. change (delimited _) with (payload (VString k)).
  pose proof (len_nonneg (payload (VString k))). pose proof (len_nonneg (payload (codec_value c v))).
  rewrite (wrap_u_id 32 (len (payload (VString k)))), (wrap_u_id 32 (len (payload (codec_value c v)))), wrap_u_id by lia.
  done.
Qed.
Lemma sizes_entry {V} (c : map_codec V) n k v : 1 ≤ n < 16 → codec_ok c v →
  sizes_as (size_entry c 1 (k, v)) [(n, VEntry [(1, VString k); (2, codec_value c v)])].
Proof.
  intros Hn Hv s ca Hs Hl. pose proof Hl as Hl'. rewrite encode_single, len_record in Hl' by done.
  change (payload (VEntry ?l)) with (payload (VMessage l)) in Hl'. rewrite payload_message, len_delimited in Hl'.
  pose proof (len_nonneg (encode [(1, VString k); (2, codec_value c v)])).
  pose proof (len_varint (len (encode [(1, VString k); (2, codec_value c v)]))).
  unfold size_entry. rewrite entry_size_spec by (done || lia). rewrite varint_len_spec by (unfold in_u; lia).
  rewrite wrap_u_id by lia. apply sizes_add; [|done|done|done].
  rewrite encode_single, len_record by done. change (payload (VEntry ?l)) with (payload (VMessage l)).
  rewrite payload_message, len_delimited. lia.
Qed.
Lemma sizes_entries {V} (c : map_codec V) n f : 1 ≤ n < 16 → entries_ok c f →
  sizes_as (size_entries c 1 f) (r_entries c n f).
Proof.
  intros Hn Hf. apply (sizes_loop (size_entry c 1)). eapply Forall_impl; [exact Hf|].
  intros [k v] [_ Hv]. by apply sizes_entry.
Qed.
Lemma writes_entry {V} (c : map_codec V) n k v : 1 ≤ n < 16 → codec_ok c v →
  writes_as (write_entry c n (k, v)) [(n, VEntry [(1, VString k); (2, codec_value c v)])].
Proof.
  intros Hn Hv ca buf rest Hl Hp. pose proof Hl as Hl'. rewrite encode_single, len_record in Hl' by done.
  change (payload (VEntry ?l)) with (payload (VMessage l)) in Hl'. rewrite payload_message, len_delimited in Hl'.
  pose proof (len_nonneg (encode [(1, VString k); (2, codec_value c v)])).
  pose proof (len_varint (len (encode [(1, VString k); (2, codec_value c v)]))).
  exists ca. split; [|done]. unfold write_entry, append. cbn [fst snd]. rewrite codec_encode_spec by done.
  rewrite encode_tag_spec by (cbn; lia). rewrite encode_string_spec, encode_tag_spec by (cbn; lia).
  rewrite entry_size_spec by (done || lia). rewrite encode_varint_spec by (unfold in_u; lia).
  rewrite encode_tag_spec by (cbn; lia). f_equal. rewrite encode_single. unfold encode_record at 1.
  change (payload (n, VEntry ?l).2) with (delimited (encode l)). unfold delimited at 2. rewrite encode_pair.
  unfold encode_record, tag_of. cbn [fst snd type_of payload]. rewrite type_of_codec. by rewrite <- !app_assoc.
Qed.
Lemma writes_entries {V} (c : map_codec V) n f : 1 ≤ n < 16 → entries_ok c f →
  writes_as (write_entries c n f) (r_entries c n f).
Proof.
  intros Hn Hf. apply (writes_loop (write_entry c n)). eapply Forall_impl; [exact Hf|].
  intros [k v] [_ Hv]. by apply writes_entry.
Qed.
Lemma nesting_entries {V} (c : map_codec V) n f d : (0 < d)%nat → (nesting (r_entries c n f) ≤ d)%nat.
Proof. intros Hd. apply nesting_loop. intros [k v]. by apply nesting_entry. Qed.

(** The loop over an entry reads its key and its value; its length is fuel enough. *)
Lemma codec_read_ok {V} (c : map_codec V) v rest : codec_ok c v → len (payload (codec_value c v)) < max_len →
  codec_read c (payload (codec_value c v) ++ rest) = Ok (v, rest).
Proof.
  destruct c; cbn [codec_value codec_ok codec_read payload]; intros Hv Hl.
  - rewrite len_delimited in Hl. apply borrow_str_spec; [done|].
    pose proof (len_varint (len (list_byte_of_string v))). lia.
  - by apply decode_uint64_spec.
Qed.
Lemma entry_loop_step {V} (c : map_codec V) ctx fuel (key : string) (val : V) t rest :
  entry_loop c ctx (S fuel) (Wire.key t ++ rest) key val =
  '(tag, cur) ← decode_tag (Wire.key t ++ rest);
  match field_number tag with
  | 1 => _ ← check_wire_type tag LengthDelimited; '(key, cur) ← borrow_str cur; entry_loop c ctx fuel cur key val
  | 2 => _ ← check_wire_type tag (codec_type c); '(val, cur) ← codec_read c cur; entry_loop c ctx fuel cur key val
  | _ => cur ← skip_field_depth tag cur (depth ctx); entry_loop c ctx fuel cur key val
  end.
Proof.
  destruct (Wire.key t) as [|b l] eqn:Hk; [|done]. exfalso. unfold Wire.key in Hk.
  pose proof (len_varint (8 * field_number t + wire_code (wire_type t))) as Hl. rewrite Hk, len_nil in Hl. lia.
Qed.
Lemma entry_loop_ok {V} (c : map_codec V) ctx k v : string_ok k → codec_ok c v →
  let e := encode [(1, VString k); (2, codec_value c v)] in
  len e < max_len → entry_loop c ctx (length e) e EmptyString (codec_zero c) = Ok (k, v).
Proof.
  intros Hk Hv e Hl. subst e. rewrite entry_len in Hl. pose proof (entry_len c k v) as He.
  pose proof (len_nonneg (payload (VString k))). pose proof (len_nonneg (payload (codec_value c v))).
  assert (2 ≤ length (encode [(1%Z, VString k); (2%Z, codec_value c v)]))%nat as Hf by (unfold len in *; lia).
  destruct (length (encode _)) as [|[|fuel]]; [lia|lia|].
  rewrite encode_pair. unfold encode_record, tag_of. cbn [fst snd type_of]. rewrite type_of_codec, <- !app_assoc.
  rewrite entry_loop_step, decode_tag_spec by lia. cbn [mbind outcome_bind field_number].
  rewrite check_wire_type_ok. cbn [mbind outcome_bind payload]. cbn [payload] in Hl. rewrite len_delimited in Hl.
  pose proof (len_varint (len (list_byte_of_string k))). pose proof (len_nonneg (list_byte_of_string k)).
  rewrite borrow_str_spec by (done || lia).
  cbn [mbind outcome_bind]. rewrite entry_loop_step, decode_tag_spec by lia. cbn [mbind outcome_bind field_number].
  rewrite check_wire_type_ok. cbn [mbind outcome_bind].
  rewrite <- (app_nil_r (payload (codec_value c v))), codec_read_ok by (done || lia).
  cbn [mbind outcome_bind]. by destruct fuel.
Qed.

(** *** Wrong wire types *)
Lemma view_message_err {V W} `{!Message W} t' (f : option W) (put : option W → V) n cur ctx :
  LengthDelimited ≠ t' → ∃ e, view_message f put (mkTag n t') cur ctx = Err e.
Proof. intros Ht. destruct (check_wire_type_err n t' _ Ht) as [e He]. exists e. unfold view_message. by rewrite He. Qed.
Lemma view_repeated_err {V W} `{!Message W} t' (f : list W) (put : list W → V) n cur ctx :
  LengthDelimited ≠ t' → ∃ e, view_repeated f put (mkTag n t') cur ctx = Err e.
Proof. intros Ht. destruct (check_wire_type_err n t' _ Ht) as [e He]. exists e. unfold view_repeated. by rewrite He. Qed.
Lemma view_map_err {V W} t' (c : map_codec V) f (put : list (string * V) → W) n cur ctx :
  LengthDelimited ≠ t' → ∃ e, view_map c f put (mkTag n t') cur ctx = Err e.
Proof. intros Ht. destruct (check_wire_type_err n t' _ Ht) as [e He]. exists e. unfold view_map. by rewrite He. Qed.
End laws.

(** *** Reading one field of a view [V], whose [merge_view_field] is [f] *)
Section fields.
Context `{BVL : BuffaViewsLaws} {V : Type} (f : merge_fn V) (ctx : DecodeContext).

Lemma sub_message {W} `{!Message W, !MessageSpec W, !FieldLaws W} n (w : W) rest : well_formed w →
  fits (depth ctx) [(n, VMessage (records w))] →
  ∃ sub_ctx, descend ctx = Ok sub_ctx ∧
    borrow_bytes (payload (VMessage (records w)) ++ rest) = Ok (encode (records w), rest) ∧
    decode_view_ctx merge_field default_message (encode (records w)) sub_ctx = Ok w.
Proof.
  intros Hw Hf. apply fits_message in Hf as (d & Hd & Hf). destruct (descend_spec ctx d Hd) as (sub & Hs & <-).
  exists sub. split_and!; [done| |].
  - rewrite payload_message. apply borrow_bytes_spec, Hf.
  - apply decode_view_ctx_spec; [by apply merge_field_spec|apply Hf].
Qed.
Lemma runs_view_nested {W} `{!Message W, !MessageSpec W, !FieldLaws W} n (put : option W → V) w m :
  (∀ cur, f m (mkTag n LengthDelimited) cur ctx = view_message None put (mkTag n LengthDelimited) cur ctx) →
  1 ≤ n < 16 → well_formed w → fits (depth ctx) [(n, VMessage (records w))] →
  runs f ctx m [(n, VMessage (records w))] (put (Some w)).
Proof.
  intros Hf Hn Hw Hl. apply runs_one; [unfold valid_record; cbn; lia|]. intros rest. unfold tag_of.
  cbn [fst snd type_of]. rewrite Hf. destruct (sub_message n w rest Hw Hl) as (sub & Hd & Hb & Hv).
  unfold view_message. rewrite check_wire_type_ok. cbn [mbind outcome_bind].
  rewrite Hd. cbn [mbind outcome_bind]. rewrite Hb. cbn [mbind outcome_bind]. by rewrite Hv.
Qed.
Lemma runs_view_message {W} `{!Message W, !MessageSpec W, !FieldLaws W} {get : V → option W} {put : option W → V → V}
    `{!Lens get put} n self m :
  (∀ m cur, f m (mkTag n LengthDelimited) cur ctx =
    view_message (get m) (λ a, put a m) (mkTag n LengthDelimited) cur ctx) →
  1 ≤ n < 16 → get m = None → from_option well_formed True (get self) →
  fits (depth ctx) (r_message n (get self)) →
  runs f ctx m (r_message n (get self)) (put (get self) m).
Proof.
  intros Hf Hn Hm Hv. destruct (get self) as [v|] eqn:Hg; [|rewrite (put_same m _ Hm); intros; apply runs_nil].
  intros Hl. apply (runs_view_nested n (λ a, put a m)); [intros cur; by rewrite Hf, Hm|done..].
Qed.
Lemma runs_view_repeated {W} `{!Message W, !MessageSpec W, !FieldLaws W} {get : V → list W} {put : list W → V → V}
    `{!Lens get put} n self m :
  (∀ m cur, f m (mkTag n LengthDelimited) cur ctx =
    view_repeated (get m) (λ a, put a m) (mkTag n LengthDelimited) cur ctx) →
  1 ≤ n < 16 → get m = [] → Forall well_formed (get self) → fits (depth ctx) (r_repeated n (get self)) →
  runs f ctx m (r_repeated n (get self)) (put (get self) m).
Proof.
  intros Hf Hn Hm Hv Hl. apply (runs_pushes _ _ _ _ [] _ Hm). apply fits_fmap in Hl.
  apply Forall_forall. intros v Hin m'. rewrite Forall_forall in Hv, Hl.
  apply runs_one; [unfold valid_record; cbn; lia|]. intros rest. unfold tag_of. cbn [fst snd type_of].
  destruct (sub_message n v rest (Hv _ Hin) (Hl _ Hin)) as (sub & Hd & Hb & Hw).
  rewrite Hf. unfold view_repeated. rewrite check_wire_type_ok. cbn [mbind outcome_bind].
  rewrite Hd. cbn [mbind outcome_bind]. rewrite Hb. cbn [mbind outcome_bind]. by rewrite Hw.
Qed.
Lemma runs_view_string {get : V → string} {put : string → V → V} `{!Lens get put} n self m :
  (∀ m cur, f m (mkTag n LengthDelimited) cur ctx =
    merge_scalar LengthDelimited borrow_str (λ a, put a m) (mkTag n LengthDelimited) cur) →
  1 ≤ n < 16 → get m = EmptyString → string_ok (get self) → fits (depth ctx) (r_string n (get self)) →
  runs f ctx m (r_string n (get self)) (put (get self) m).
Proof.
  intros Hf Hn Hm Hv. unfold r_string. destruct (String.eqb_spec (get self) "") as [->|].
  - intros _. rewrite (put_same m _ Hm). apply runs_nil.
  - intros Hl. apply (runs_scalar f ctx borrow_str (λ a, put a m)); [auto|by apply valid_string|].
    intros. apply borrow_str_spec; [done|by eapply string_fits].
Qed.
Lemma runs_view_some_string {get : V → option string} {put : option string → V → V} `{!Lens get put} n self m :
  (∀ m cur, f m (mkTag n LengthDelimited) cur ctx =
    merge_scalar LengthDelimited borrow_str (λ a, put (Some a) m) (mkTag n LengthDelimited) cur) →
  1 ≤ n < 16 → get m = None → from_option string_ok True (get self) →
  fits (depth ctx) (r_some_string n (get self)) →
  runs f ctx m (r_some_string n (get self)) (put (get self) m).
Proof.
  intros Hf Hn Hm Hv. destruct (get self) as [s|] eqn:Hg; [|rewrite (put_same m _ Hm); intros; apply runs_nil].
  intros Hl. apply (runs_scalar f ctx borrow_str (λ a, put (Some a) m)); [auto|by apply valid_string|].
  intros. apply borrow_str_spec; [done|by eapply string_fits].
Qed.
Lemma runs_view_strings {get : V → list string} {put : list string → V → V} `{!Lens get put} n self m :
  (∀ m cur, f m (mkTag n LengthDelimited) cur ctx =
    merge_scalar LengthDelimited borrow_str (λ a, put (get m ++ [a]) m) (mkTag n LengthDelimited) cur) →
  1 ≤ n < 16 → get m = [] → Forall string_ok (get self) → fits (depth ctx) (r_strings n (get self)) →
  runs f ctx m (r_strings n (get self)) (put (get self) m).
Proof.
  intros Hf Hn Hm Hv Hl. apply (runs_pushes _ _ _ _ [] _ Hm). apply fits_fmap in Hl.
  apply Forall_forall. intros v Hin m'. rewrite Forall_forall in Hv, Hl.
  apply (runs_scalar f ctx borrow_str (λ v, put (get m' ++ [v]) m')); [auto|by apply valid_string|].
  intros. apply borrow_str_spec; [auto|eapply string_fits; eauto].
Qed.
Lemma runs_view_map {W} (c : map_codec W) {get : V → list (string * W)} {put : list (string * W) → V → V}
    `{!Lens get put} n self m :
  (∀ m cur, f m (mkTag n LengthDelimited) cur ctx = view_map c (get m) (λ a, put a m) (mkTag n LengthDelimited) cur ctx) →
  1 ≤ n < 16 → get m = [] → entries_ok c (get self) → fits (depth ctx) (r_entries c n (get self)) →
  runs f ctx m (r_entries c n (get self)) (put (get self) m).
Proof.
  intros Hf Hn Hm Hv Hl. apply (runs_pushes _ _ _ _ [] _ Hm). apply fits_fmap in Hl.
  apply Forall_forall. intros [k v] Hin m'. unfold entries_ok in Hv. rewrite Forall_forall in Hv, Hl.
  destruct (Hv _ Hin) as [Hk Hc]. destruct (fits_entry _ _ _ (Hl _ Hin)) as [_ Hlen].
  apply runs_one; [unfold valid_record; cbn; lia|]. intros rest. unfold tag_of. cbn [fst snd type_of].
  rewrite Hf. unfold view_map. rewrite check_wire_type_ok. cbn [mbind outcome_bind].
  change (payload (VEntry ?l)) with (delimited (encode l)). rewrite borrow_bytes_spec by done.
  cbn [mbind outcome_bind]. by rewrite entry_loop_ok.
Qed.
End fields.

(** ** Owned messages *)
Section owned.
Context `{BVL : BuffaViewsLaws}.
Context `{!Message V, !MessageSpec V, !MessageLaws V, !Message M, !MessageSpec M, !MessageLaws M, !ToOwned V M, !View V M}.

Lemma r_message_view n (f : option M) : r_message n (view_of <$> f) = r_message n f.
Proof. destruct f; cbn; [by rewrite view_records|done]. Qed.
Lemma r_repeated_view n (f : list M) : r_repeated n (view_of <$> f) = r_repeated n f.
Proof. unfold r_repeated. induction f; cbn; [done|]. by rewrite view_records, <- IHf. Qed.
Lemma well_formed_message_view (f : option M) :
  from_option well_formed True f → from_option well_formed True (view_of <$> f).
Proof. destruct f; cbn; [apply view_well_formed|done]. Qed.
Lemma well_formed_repeated_view (f : list M) : Forall well_formed f → Forall well_formed (view_of <$> f).
Proof. intros Hf. apply Forall_fmap. eapply Forall_impl; [exact Hf|]. intros m. apply view_well_formed. Qed.
Lemma own_message_view (f : option M) : own_message (view_of <$> f) = Ok f.
Proof. destruct f; cbn; [by rewrite view_owned|done]. Qed.
Lemma own_repeated_view (f : list M) : own_repeated (view_of <$> f) = Ok f.
Proof.
  apply collect_results_Ok. induction f as [|m f IH]; [constructor|].
  constructor; [apply view_owned|done].
Qed.

(** Reading a message's bytes as a view, whatever unknown records they have, and making the
    view owned gives the message. *)
Lemma decode_view_spec (m : M) l : (levels V ≤ 100)%nat → well_formed m →
  interleaved (M := V) (records m) l → len (encode l) < max_len →
  decode_view (V := V) (encode l) = Ok (view_of m).
Proof.
  intros Hlv Hm Hi Hl. unfold decode_view. apply decode_view_ctx_spec; [|done].
  eapply runs_interleaved; [exact Hi|]. rewrite <- view_records. apply merge_field_spec; [by apply view_well_formed|].
  rewrite context_new_spec, RECURSION_LIMIT_spec. pose proof (records_levels (view_of m)).
  pose proof (interleaved_len _ _ Hi). rewrite view_records in *. split; lia.
Qed.
End owned.

Lemma own_map_iter `{BuffaLaws} {V} (g : gmap string V) : own_map (map_iter g) = g.
Proof. apply foldl_insert_iter. Qed.
Lemma entries_ok_iter `{BuffaLaws} {V} (c : map_codec V) g : map_ok c g → entries_ok c (map_iter g).
Proof.
  intros Hg. apply Forall_forall. intros [k v] Hin. rewrite (map_iter_spec g) in Hin.
  apply elem_of_map_to_list in Hin. exact (Hg k v Hin).
Qed.

Ltac extra_sizes ::= apply sizes_entries.
Ltac extra_writes ::= apply writes_entries.
Ltac extra_levels ::= apply nesting_entries; lia.
Ltac extra_wrong_type ::= first
  [ by apply view_message_err | by apply view_repeated_err | by apply view_map_err ].
Ltac extra_runs ::= first
  [ solve [eapply runs_view_message; field_side] | solve [eapply runs_view_repeated; field_side]
  | solve [eapply runs_view_string; field_side] | solve [eapply runs_view_some_string; field_side]
  | solve [eapply runs_view_strings; field_side] | solve [eapply runs_view_map; field_side]
  | solve [eapply runs_view_nested; field_side] ].

(** [view_laws borrow own] proves [View] of a view from its borrowing and owning functions. *)
Ltac view_records_step := first
  [ apply r_message_view | apply r_repeated_view | reflexivity | apply (f_equal2 app) ].
Ltac view_well_formed_step := first
  [ assumption | apply well_formed_message_view | apply well_formed_repeated_view | apply entries_ok_iter | split ].
Ltac view_owned_step := first
  [ rewrite own_message_view | rewrite own_repeated_view | rewrite own_map_iter ]; cbn [mbind outcome_bind].

Ltac view_laws borrow own :=
  refine {| view_of := borrow |};
  [ intros m; repeat view_records_step
  | intros m Hm; spec_in Hm; destruct_and?; repeat view_well_formed_step; wire_side
  | intros m; change (own (borrow m) = Ok m); unfold own, borrow;
    cbn -[own_message own_repeated own_map view_of fmap]; repeat view_owned_step; by destruct m ].

(** ** The views of the well-known types *)
Class BuffaTypeViews `{BuffaTypes, !BuffaViews} := {
  StringValueView : Type;
  string_view : StringValueView → string;
  string_view_plain : StringValueView → Prop;
  StringValueView_message :: Message StringValueView;
  StringValueView_own :: ToOwned StringValueView StringValue;
  UInt32ValueView : Type;
  uint32_view : UInt32ValueView → Z;
  uint32_view_plain : UInt32ValueView → Prop;
  UInt32ValueView_message :: Message UInt32ValueView;
  UInt32ValueView_own :: ToOwned UInt32ValueView UInt32Value;
  UInt64ValueView : Type;
  uint64_view : UInt64ValueView → Z;
  uint64_view_plain : UInt64ValueView → Prop;
  UInt64ValueView_message :: Message UInt64ValueView;
  UInt64ValueView_own :: ToOwned UInt64ValueView UInt64Value;
  TimestampView : Type;
  seconds_view : TimestampView → Z;
  nanos_view : TimestampView → Z;
  timestamp_view_plain : TimestampView → Prop;
  TimestampView_message :: Message TimestampView;
  TimestampView_own :: ToOwned TimestampView Timestamp;
}.
Section specs.
Context `{BuffaTypeViews}.
#[export] Instance StringValueView_spec : MessageSpec StringValueView := {
  records v := r_string 1 (string_view v);
  schema := [(1, LengthDelimited)];
  well_formed v := string_ok (string_view v) ∧ string_view_plain v;
  levels := 0;
}.
#[export] Instance UInt32ValueView_spec : MessageSpec UInt32ValueView := {
  records v := r_int 1 (uint32_view v);
  schema := [(1, Varint)];
  well_formed v := in_u 32 (uint32_view v) ∧ uint32_view_plain v;
  levels := 0;
}.
#[export] Instance UInt64ValueView_spec : MessageSpec UInt64ValueView := {
  records v := r_int 1 (uint64_view v);
  schema := [(1, Varint)];
  well_formed v := in_u 64 (uint64_view v) ∧ uint64_view_plain v;
  levels := 0;
}.
#[export] Instance TimestampView_spec : MessageSpec TimestampView := {
  records v := r_int 1 (wrap_u 64 (seconds_view v)) ++ r_int 2 (wrap_u 64 (nanos_view v));
  schema := [(1, Varint); (2, Varint)];
  well_formed v := in_i 64 (seconds_view v) ∧ in_i 32 (nanos_view v) ∧ timestamp_view_plain v;
  levels := 0;
}.
End specs.
Class BuffaTypeViewsLaws `{BuffaTypesLaws, !BuffaViews, !BuffaViewsLaws, !BuffaTypeViews} := {
  StringValueView_laws :: FieldLaws StringValueView;
  StringValueView_view :: View StringValueView StringValue;
  UInt32ValueView_laws :: FieldLaws UInt32ValueView;
  UInt32ValueView_view :: View UInt32ValueView UInt32Value;
  UInt64ValueView_laws :: FieldLaws UInt64ValueView;
  UInt64ValueView_view :: View UInt64ValueView UInt64Value;
  TimestampView_laws :: FieldLaws TimestampView;
  TimestampView_view :: View TimestampView Timestamp;
}.
