(* ===== verification/WireRef.v ===== *)
(** A runtime that does what [BuffaLaws], [BuffaTypesLaws] and the laws of views say: the wire format read
    and written directly.  It shows the hypotheses of the message theorems can hold, and
    evaluates the generated methods on concrete messages. *)
From Stdlib Require Import ZArith Lia Strings.Byte Strings.String.
From stdpp Require Import base list gmap strings.
From S2P Require Import Prelude Wire WireTypes WireView.
#[local] Open Scope Z_scope.

(** ** UTF-8 *)
Definition continuation (b : byte) : bool := (0x80 <=? b2z b) && (b2z b <? 0xc0).
Fixpoint utf8_bytes (l : bytes) : bool :=
  match l with
  | [] => true
  | b :: l1 =>
      let z := b2z b in
      if z <? 0x80 then utf8_bytes l1
      else match l1 with
      | [] => false
      | c :: l2 =>
          if (0xc2 <=? z) && (z <? 0xe0) then continuation c && utf8_bytes l2
          else match l2 with
          | [] => false
          | d :: l3 =>
              if (0xe0 <=? z) && (z <? 0xf0) then
                continuation c && continuation d &&
                (if z =? 0xe0 then 0xa0 <=? b2z c else if z =? 0xed then b2z c <? 0xa0 else true) &&
                utf8_bytes l3
              else match l3 with
              | [] => false
              | e :: l4 =>
                  (0xf0 <=? z) && (z <? 0xf5) && continuation c && continuation d && continuation e &&
                  (if z =? 0xf0 then 0x90 <=? b2z c else if z =? 0xf4 then b2z c <? 0x90 else true) &&
                  utf8_bytes l4
              end
          end
      end
  end.

(** ** Reading *)
Inductive ref_error := UnexpectedEof | BadVarint | BadTag | WrongWireType | InvalidUtf8 | RecursionLimitExceeded.

Fixpoint read_varint (n : nat) (l : bytes) : outcome ref_error (Z * bytes) :=
  match n, l with
  | O, _ => Err BadVarint
  | _, [] => Err UnexpectedEof
  | S n, b :: l =>
      if b2z b <? 128 then Ok (b2z b, l)
      else '(v, l) ← read_varint n l; Ok (b2z b mod 128 + 128 * v, l)
  end.
Definition read_delimited (l : bytes) : outcome ref_error (bytes * bytes) :=
  '(n, l) ← read_varint 10 l;
  if len l <? n then Err UnexpectedEof else Ok (take (Z.to_nat n) l, drop (Z.to_nat n) l).
Definition read_string (l : bytes) : outcome ref_error (string * bytes) :=
  '(b, l) ← read_delimited l;
  if utf8_bytes b then Ok (string_of_list_byte b, l) else Err InvalidUtf8.
Definition type_of_code (c : Z) : option WireType :=
  match c with
  | 0 => Some Varint | 1 => Some Fixed64 | 2 => Some LengthDelimited
  | 3 => Some StartGroup | 4 => Some EndGroup | 5 => Some Fixed32 | _ => None
  end.
Definition read_tag (l : bytes) : outcome ref_error (Tag * bytes) :=
  '(v, l) ← read_varint 10 l;
  t ← ok_or (type_of_code (v mod 8)) BadTag;
  if 0 <? v / 8 then Ok (mkTag (v / 8) t, l) else Err BadTag.
Definition skip_field (t : Tag) (l : bytes) : outcome ref_error bytes :=
  match wire_type t with
  | Varint => '(_, l) ← read_varint 10 l; Ok l
  | LengthDelimited => '(_, l) ← read_delimited l; Ok l
  | Fixed64 => if len l <? 8 then Err UnexpectedEof else Ok (drop 8 l)
  | Fixed32 => if len l <? 4 then Err UnexpectedEof else Ok (drop 4 l)
  | StartGroup | EndGroup => Err BadTag
  end.

(** Reads fields until the buffer is empty; each has a tag, so its length is enough fuel. *)
Fixpoint read_fields {M} (f : M → Tag → bytes → nat → outcome ref_error (M * bytes)) (fuel : nat)
    (m : M) (l : bytes) (ctx : nat) : outcome ref_error M :=
  match l, fuel with
  | [], _ => Ok m
  | _, O => Err UnexpectedEof
  | _, S fuel =>
      '(t, l) ← read_tag l;
      '(m, l) ← f m t l ctx;
      read_fields f fuel m l ctx
  end.
Definition read_nested {M} (f : M → Tag → bytes → nat → outcome ref_error (M * bytes))
    (m : M) (l : bytes) (ctx : nat) : outcome ref_error (M * bytes) :=
  match ctx with
  | O => Err RecursionLimitExceeded
  | S ctx =>
      '(b, l) ← read_delimited l;
      m ← read_fields f (length b) m b ctx;
      Ok (m, l)
  end.
Definition check_type (t : Tag) (w : WireType) : outcome ref_error unit :=
  if decide (wire_type t = w) then Ok tt else Err WrongWireType.
Definition read_value {V} (c : map_codec V) (l : bytes) : outcome ref_error (V * bytes) :=
  match c in map_codec V return outcome ref_error (V * bytes) with
  | Str => read_string l
  | Uint64 => read_varint 10 l
  end.
(** The fields of a map entry: the key and the value. *)
Definition entry_field {V} (c : map_codec V) (kv : string * V) (t : Tag) (l : bytes) (ctx : nat) :
    outcome ref_error ((string * V) * bytes) :=
  match field_number t with
  | 1 => _ ← check_type t LengthDelimited; '(k, l) ← read_string l; Ok ((k, kv.2), l)
  | 2 => _ ← check_type t (codec_type c); '(v, l) ← read_value c l; Ok ((kv.1, v), l)
  | _ => l ← skip_field t l; Ok (kv, l)
  end.

(** ** The runtime *)
Definition ref_map_records {V} (c : map_codec V) (n : Z) (m : gmap string V) : list record :=
  (λ kv, (n, VEntry [(1, VString kv.1); (2, codec_value c kv.2)])) <$> map_to_list m.

#[export] Instance ref_buffa : Buffa := {
  DecodeError := ref_error;
  SizeCache := list Z * nat;
  cache_new := ([], O);
  reserve '(l, n) := (length l, (l ++ [0], n));
  cache_set i v '(l, n) := (<[i := v]> l, n);
  consume_next '(l, n) := (default 0 (l !! n), (l, S n));
  varint_len v := len (varint v);
  uint32_encoded_len v := len (varint v);
  uint64_encoded_len v := len (varint v);
  int32_encoded_len v := len (varint (wrap_u 64 v));
  string_encoded_len s := len (delimited (list_byte_of_string s));
  BOOL_ENCODED_LEN := 1;
  map_field_len V c m k := len (encode (ref_map_records c 1 m)) + (k - 1) * Z.of_nat (size m);
  put_len_delimited_header n k buf := buf ++ key (mkTag n LengthDelimited) ++ varint k;
  put_uint32_field n v buf := buf ++ encode_record (n, VInt v);
  put_uint64_field n v buf := buf ++ encode_record (n, VInt v);
  put_int32_field n v buf := buf ++ encode_record (n, VInt (wrap_u 64 v));
  put_bool_field n b buf := buf ++ encode_record (n, VInt (Z.b2z b));
  put_string_field n s buf := buf ++ encode_record (n, VString s);
  map_write_field V c m n buf := buf ++ encode (ref_map_records c n m);
  DecodeContext := nat;
  depth d := d;
  RECURSION_LIMIT := 100%nat;
  check_wire_type := check_type;
  decode_uint32 l := '(v, l) ← read_varint 10 l; Ok (wrap_u 32 v, l);
  decode_uint64 l := read_varint 10 l;
  decode_int32 l := '(v, l) ← read_varint 10 l; Ok (wrap_i 32 v, l);
  decode_bool l := '(v, l) ← read_varint 10 l; Ok (negb (v =? 0), l);
  decode_string := read_string;
  merge_string _ := read_string;
  map_merge_entry V c m l ctx :=
    '(kv, l) ← read_nested (entry_field c) (EmptyString, codec_zero c) l ctx;
    Ok (<[kv.1 := kv.2]> m, l);
  skip_field_depth t l _ := skip_field t l;
  merge_length_delimited M f := read_nested f;
  merge_from M f m l := read_fields f (length l) m l 100%nat;
  is_utf8 s := utf8_bytes (list_byte_of_string s);
  map_iter V m := map_to_list m;
}.

(** ** It reads what the wire format says *)
Lemma read_varint_ok n v rest : (0 < n)%nat → 0 ≤ v < 128 ^ Z.of_nat n →
  read_varint n (varint_fuel n v ++ rest) = Ok (v, rest).
Proof.
  revert v. induction n as [|n IH]; intros v Hn Hv; [lia|].
  rewrite Nat2Z.inj_succ, Z.pow_succ_r in Hv by lia. cbn [varint_fuel].
  destruct (Z.ltb_spec v 128) as [Hs|Hs]; cbn [app read_varint].
  - rewrite b2z_z2b, Z.mod_small by lia. by rewrite (proj2 (Z.ltb_lt v 128)) by lia.
  - pose proof (Z.mod_pos_bound v 128). rewrite b2z_z2b, (Z.mod_small (128 + _)) by lia.
    rewrite (proj2 (Z.ltb_ge (128 + v mod 128) 128)) by lia. rewrite IH.
    + cbn [mbind outcome_bind]. replace ((128 + v mod 128) mod 128) with (v mod 128).
      * do 2 f_equal. pose proof (Z.div_mod v 128). lia.
      * rewrite <- Z.add_mod_idemp_l, Z.mod_same, Z.add_0_l, Z.mod_mod by lia. done.
    + destruct n; [cbn in Hv; lia|lia].
    + split; [apply Z.div_pos; lia|]. apply Z.div_lt_upper_bound; lia.
Qed.
Lemma read_varint_u64 v rest : in_u 64 v → read_varint 10 (varint v ++ rest) = Ok (v, rest).
Proof. unfold in_u. intros Hv. apply read_varint_ok; [lia|]. split; [lia|]. apply (Z.lt_trans _ (2 ^ 64)); [lia|reflexivity]. Qed.
Lemma read_delimited_ok b rest : len b < max_len → read_delimited (delimited b ++ rest) = Ok (b, rest).
Proof.
  unfold max_len. intros Hb. pose proof (len_nonneg b). unfold read_delimited, delimited.
  rewrite <- app_assoc, read_varint_u64 by (unfold in_u; lia). cbn [mbind outcome_bind].
  pose proof (len_nonneg rest). rewrite (proj2 (Z.ltb_ge (len (b ++ rest)) (len b))) by (rewrite len_app; lia).
  unfold len. rewrite Nat2Z.id.
  by rewrite take_app_length, drop_app_length.
Qed.
Lemma read_string_ok s rest : string_ok s → len (list_byte_of_string s) < max_len →
  read_string (delimited (list_byte_of_string s) ++ rest) = Ok (s, rest).
Proof.
  intros Hs Hl. unfold read_string. rewrite read_delimited_ok by done. cbn [mbind outcome_bind].
  unfold string_ok in Hs. cbn in Hs. by rewrite Hs, string_of_list_byte_of_string.
Qed.
Lemma read_tag_ok n t rest : 1 ≤ n < 2 ^ 29 → read_tag (key (mkTag n t) ++ rest) = Ok (mkTag n t, rest).
Proof.
  intros Hn. pose proof (wire_code_range t). unfold read_tag, key. cbn [field_number wire_type].
  rewrite read_varint_u64 by (unfold in_u; lia). cbn [mbind outcome_bind].
  rewrite Z.mul_comm, Z.div_add_l, (Z.div_small (wire_code t)), Z.add_0_r by lia.
  rewrite Z.add_comm, Z.mod_add, Z.mod_small by lia.
  destruct t; cbn [wire_code type_of_code ok_or mbind outcome_bind]; by rewrite (proj2 (Z.ltb_lt _ _)) by lia.
Qed.
Lemma skip_field_ok r rest : valid_record r → len (payload r.2) < max_len →
  skip_field (tag_of r) (payload r.2 ++ rest) = Ok rest.
Proof.
  destruct r as [n v]. intros [Hn Hv] Hl. unfold skip_field, tag_of. cbn [fst snd wire_type] in *.
  destruct v as [v|s|l|l]; cbn [type_of] in *.
  1: { cbn [payload]. by rewrite read_varint_u64. }
  all: cbn [payload] in *; rewrite len_delimited in Hl;
    pose proof (len_varint (len (list_byte_of_string EmptyString)));
    (rewrite read_delimited_ok; [done|]);
    match goal with |- len ?b < _ => pose proof (len_varint (len b)); lia end.
Qed.

Lemma read_fields_ok {M} (f : merge_fn M) ctx m l m' fuel :
  runs f ctx m l m' → (length (encode l) ≤ fuel)%nat → read_fields f fuel m (encode l) ctx = Ok m'.
Proof.
  intros Hr. revert fuel. induction Hr as [m|m r m' l m'' [Hn Hv] Hf _ IH]; intros fuel Hl; [by destruct fuel|].
  change (encode (r :: l)) with (encode_record r ++ encode l) in *. unfold encode_record in *.
  pose proof (len_varint (8 * field_number (tag_of r) + wire_code (wire_type (tag_of r)))) as Hk.
  change (varint _) with (key (tag_of r)) in Hk. unfold len in Hk.
  rewrite !length_app in Hl. destruct fuel as [|fuel]; [lia|].
  destruct (key (tag_of r)) as [|b k] eqn:Hkey; [cbn in Hk; lia|]. cbn [app read_fields].
  rewrite app_comm_cons, app_comm_cons, <- Hkey. unfold tag_of in *. rewrite <- app_assoc, read_tag_ok by done.
  cbn [mbind outcome_bind]. rewrite Hf. cbn [mbind outcome_bind]. apply IH. cbn in Hl. lia.
Qed.
Lemma read_nested_ok {M} (f : merge_fn M) m l m' (ctx : DecodeContext) d rest :
  depth ctx = S d → (∀ ctx', depth ctx' = d → runs f ctx' m l m') → len (encode l) < max_len →
  read_nested f m (delimited (encode l) ++ rest) ctx = Ok (m', rest).
Proof.
  intros Hd Hr Hl. change (ctx = S d) in Hd. subst ctx. cbn [read_nested].
  rewrite read_delimited_ok by done. cbn [mbind outcome_bind].
  rewrite (read_fields_ok f d m l m'); [done|by apply Hr|done].
Qed.

Ltac entry_case :=
  unfold entry_field, check_type, tag_of; cbn [fst snd field_number wire_type type_of codec_type];
  rewrite decide_True by done; cbn [mbind outcome_bind payload read_value].
Lemma entry_runs {V} (c : map_codec V) k v ctx : string_ok k → codec_ok c v →
  len (encode [(1, VString k); (2, codec_value c v)]) < max_len →
  runs (M := string * V) (entry_field c) ctx (EmptyString, codec_zero c)
    [(1, VString k); (2, codec_value c v)] (k, v).
Proof.
  intros Hk Hv Hl. change ([(1, VString k); (2, codec_value c v)]) with ([(1, VString k)] ++ [(2, codec_value c v)]) in *.
  assert (fits 0 ([(1, VString k)] ++ [(2, codec_value c v)])) as [Hf1 Hf2]%fits_app.
  { split; [|done]. by destruct c. }
  apply (runs_app _ _ _ _ (k, codec_zero c)).
  - apply runs_one; [by apply valid_string|]. intros rest. entry_case. rewrite read_string_ok; [done|done|by eapply string_fits].
  - destruct c; apply runs_one; unfold entry_field; cbn [codec_value codec_ok] in *.
    + by apply valid_string.
    + intros rest. entry_case. rewrite read_string_ok; [done|done|by eapply string_fits].
    + by eapply (valid_int _ _ 64); [done| |auto].
    + intros rest. entry_case. by rewrite read_varint_u64.
Qed.

Lemma ref_map_len {V} (c : map_codec V) n m : 1 ≤ n < 16 →
  len (encode (ref_map_records c n m)) = len (encode (ref_map_records c 1 m)).
Proof.
  intros Hn. unfold ref_map_records. induction (map_to_list m) as [|kv l IH]; [done|].
  rewrite !fmap_cons. unfold encode in *. cbn [flat_map]. rewrite !len_app, IH, !len_record by lia. done.
Qed.

Lemma wrap_i_u w v : 1 ≤ w ≤ 64 → in_i w v → wrap_i w (wrap_u 64 v) = v.
Proof.
  unfold in_i, wrap_i, wrap_u. intros Hw Hv.
  assert (2 ^ 64 = 2 ^ (64 - w) * 2 ^ w) as H64 by (rewrite <- Z.pow_add_r by lia; f_equal; lia).
  assert (2 ^ w = 2 * 2 ^ (w - 1)) as Hw2 by (rewrite <- Z.pow_succ_r by lia; f_equal; lia).
  assert (0 < 2 ^ (w - 1)) by (apply Z.pow_pos_nonneg; lia).
  rewrite (Z.mod_eq v (2 ^ 64)), H64 by lia.
  replace (v - 2 ^ (64 - w) * 2 ^ w * (v / (2 ^ (64 - w) * 2 ^ w)) + 2 ^ (w - 1))
    with (v + 2 ^ (w - 1) + - (2 ^ (64 - w) * (v / (2 ^ (64 - w) * 2 ^ w))) * 2 ^ w) by ring.
  rewrite Z.mod_add, Z.mod_small by lia. lia.
Qed.

#[export] Instance ref_buffa_laws : BuffaLaws.
Proof.
  refine {| cache_slots := (fst : SizeCache → list Z); cache_next := (snd : SizeCache → nat) |}; try done.
  - intros [l n] slot c' [= <- <-]. done.
  - by intros [l n] slot v _.
  - intros [l n] v Hv. cbn in *. rewrite Hv. by eexists.
  - intros V c m n Hn _ _. cbn. rewrite Z.add_0_r. symmetry. by apply ref_map_len.
  - intros [n t] w. cbn. unfold check_type. cbn. destruct (decide (t = w)); [done|by eexists].
  - intros v rest Hv. cbn [decode_uint32 ref_buffa]. unfold in_u in Hv.
    rewrite read_varint_u64 by (unfold in_u; lia). cbn [mbind outcome_bind]. by rewrite wrap_u_id.
  - intros v rest Hv. by apply read_varint_u64.
  - intros v rest Hv. cbn [decode_int32 ref_buffa]. rewrite read_varint_u64 by (apply Z.mod_pos_bound; lia).
    cbn [mbind outcome_bind]. by rewrite (wrap_i_u 32).
  - intros [] rest; done.
  - intros s rest Hs Hl. by apply read_string_ok.
  - intros old s rest Hs Hl. by apply read_string_ok.
  - intros V c m k v rest ctx Hd Hk Hv Hl. destruct ctx as [|d]; [cbn in Hd; lia|].
    change (payload (VEntry [(1, VString k); (2, codec_value c v)]))
      with (delimited (encode [(1, VString k); (2, codec_value c v)])). cbn [map_merge_entry ref_buffa].
    rewrite (read_nested_ok (M := string * V) (entry_field c) _ _ (k, v) (S d) d); [done|done| |done].
    intros ctx' _. by apply entry_runs.
  - intros r rest d Hr Hl. by apply skip_field_ok.
  - intros M f m l m' ctx d rest. apply read_nested_ok.
  - intros M f m l m' Hr Hl. cbn. apply (read_fields_ok f 100%nat); [by apply Hr|done].
Qed.

(** ** The well-known types

    One field each, and two for a timestamp, whose signed integers have no statement of
    their own in the generated messages. *)
Record StringRef := mkStringRef { str : string }.
#[export] Instance str_lens : Lens str (λ v _, mkStringRef v).
Proof. lens. Qed.
Definition string_size (self : StringRef) (c : SizeCache) : Z * SizeCache := size_string 1 (str self) (0, c).
Definition string_write (self : StringRef) : write_stmt := write_string 1 (str self).
Definition string_merge : merge_fn StringRef := λ self tag buf ctx,
  match field_number tag with
  | 1 => merge_scalar LengthDelimited (merge_string (str self)) mkStringRef tag buf
  | _ => merge_unknown self tag buf ctx
  end.
#[export] Instance string_message : Message StringRef := {
  default_message := mkStringRef EmptyString; compute_size := string_size; write_to := string_write;
  merge_field := string_merge;
}.

Record Uint32Ref := mkUint32Ref { u32 : Z }.
#[export] Instance u32_lens : Lens u32 (λ v _, mkUint32Ref v).
Proof. lens. Qed.
Definition uint32_size (self : Uint32Ref) (c : SizeCache) : Z * SizeCache := size_uint32 1 (u32 self) (0, c).
Definition uint32_write (self : Uint32Ref) : write_stmt := write_uint32 1 (u32 self).
Definition uint32_merge : merge_fn Uint32Ref := λ self tag buf ctx,
  match field_number tag with
  | 1 => merge_scalar Varint decode_uint32 mkUint32Ref tag buf
  | _ => merge_unknown self tag buf ctx
  end.
#[export] Instance uint32_message : Message Uint32Ref := {
  default_message := mkUint32Ref 0; compute_size := uint32_size; write_to := uint32_write;
  merge_field := uint32_merge;
}.

Record Uint64Ref := mkUint64Ref { u64 : Z }.
#[export] Instance u64_lens : Lens u64 (λ v _, mkUint64Ref v).
Proof. lens. Qed.
Definition uint64_size (self : Uint64Ref) (c : SizeCache) : Z * SizeCache := size_uint64 1 (u64 self) (0, c).
Definition uint64_write (self : Uint64Ref) : write_stmt := write_uint64 1 (u64 self).
Definition uint64_merge : merge_fn Uint64Ref := λ self tag buf ctx,
  match field_number tag with
  | 1 => merge_scalar Varint decode_uint64 mkUint64Ref tag buf
  | _ => merge_unknown self tag buf ctx
  end.
#[export] Instance uint64_message : Message Uint64Ref := {
  default_message := mkUint64Ref 0; compute_size := uint64_size; write_to := uint64_write;
  merge_field := uint64_merge;
}.

Record Seconds := mkSeconds { ts_seconds : Z; ts_nanos : Z }.
Definition with_seconds v (self : Seconds) : Seconds := mkSeconds v (ts_nanos self).
Definition with_nanos v (self : Seconds) : Seconds := mkSeconds (ts_seconds self) v.
Definition ts_records (self : Seconds) : list record :=
  r_int 1 (wrap_u 64 (ts_seconds self)) ++ r_int 2 (wrap_u 64 (ts_nanos self)).
Definition ts_merge : merge_fn Seconds := λ self tag buf ctx,
  match field_number tag with
  | 1 => merge_scalar Varint decode_uint64 (λ v, with_seconds (wrap_i 64 v) self) tag buf
  | 2 => merge_scalar Varint decode_uint64 (λ v, with_nanos (wrap_i 32 v) self) tag buf
  | _ => merge_unknown self tag buf ctx
  end.
#[export] Instance ts_message : Message Seconds := {
  default_message := mkSeconds 0 0;
  compute_size self c := add_size (len (encode (ts_records self))) (0, c);
  write_to self := append (λ buf, buf ++ encode (ts_records self));
  merge_field := ts_merge;
}.

#[export] Instance ref_types : BuffaTypes := {
  StringValue := StringRef;
  string_value := str;
  string_plain _ := True;
  StringValue_message := string_message;
  UInt32Value := Uint32Ref;
  uint32_value := u32;
  uint32_plain _ := True;
  UInt32Value_message := uint32_message;
  UInt64Value := Uint64Ref;
  uint64_value := u64;
  uint64_plain _ := True;
  UInt64Value_message := uint64_message;
  Timestamp := Seconds;
  seconds := ts_seconds;
  nanos := ts_nanos;
  timestamp_plain _ := True;
  Timestamp_message := ts_message;
}.

Lemma runs_signed (f : merge_fn Seconds) ctx n v m (put : Z → Seconds) w :
  (∀ buf, f m (mkTag n Varint) buf ctx =
    merge_scalar Varint decode_uint64 (λ v, put (wrap_i w v)) (mkTag n Varint) buf) →
  1 ≤ n < 16 → 1 ≤ w ≤ 64 → in_i w v → put 0 = m → runs f ctx m (r_int n (wrap_u 64 v)) (put v).
Proof.
  intros Hf Hn Hw Hv Hm. unfold r_int. destruct (Z.eqb_spec (wrap_u 64 v) 0) as [Hz|].
  - apply (f_equal (wrap_i w)) in Hz. rewrite wrap_i_u in Hz by done. subst v m.
    replace (wrap_i w 0) with 0; [apply runs_nil|]. pose proof (Z.pow_pos_nonneg 2 (w - 1)).
    symmetry. apply (wrap_i_u w 0); [done|unfold in_i; lia].
  - rewrite <- (wrap_i_u w v) at 2 by done.
    apply (runs_scalar f ctx decode_uint64 (λ v, put (wrap_i w v))); [done| |].
    + eapply (valid_int _ _ 64); [done|by apply Z.mod_pos_bound|auto].
    + intros. apply decode_uint64_spec. by apply Z.mod_pos_bound.
Qed.
Lemma string_laws : @FieldLaws _ _ StringRef string_message StringValue_spec.
Proof. field_laws string_size string_write string_merge. Qed.
Lemma uint32_laws : @FieldLaws _ _ Uint32Ref uint32_message UInt32Value_spec.
Proof. field_laws uint32_size uint32_write uint32_merge. Qed.
Lemma uint64_laws : @FieldLaws _ _ Uint64Ref uint64_message UInt64Value_spec.
Proof. field_laws uint64_size uint64_write uint64_merge. Qed.
Lemma ts_laws : @FieldLaws _ _ Seconds ts_message Timestamp_spec.
Proof.
  split.
  - intros m c Hm Hl. change (records m) with (ts_records m) in *.
    apply (sizes_start (add_size (len (encode (ts_records m)))) (ts_records m)); [|done].
    apply sizes_add; [done|]. unfold ts_records, r_int. by repeat case_match.
  - intros m Hm. change (records m) with (ts_records m). apply writes_append; [done|].
    unfold ts_records, r_int. by repeat case_match.
  - intros m ctx (Hs & Hn & _) _. change (records m) with (ts_records m). unfold ts_records.
    eapply runs_to.
    + eapply runs_app.
      * apply (runs_signed _ _ 1 (ts_seconds m) _ (λ v, with_seconds v (mkSeconds 0 0)) 64); [done|lia|lia|done|done].
      * apply (runs_signed _ _ 2 (ts_nanos m) _ (λ v, with_nanos v (with_seconds (ts_seconds m) (mkSeconds 0 0))) 32);
          [done|lia|lia|done|done].
    + by destruct m.
  - wire_type_law ts_merge.
  - intros m. change (records m) with (ts_records m). unfold ts_records. repeat levels_step.
  - done.
Qed.
#[export] Instance ref_types_laws : BuffaTypesLaws.
Proof. split; [exact string_laws|exact uint32_laws|exact uint64_laws|exact ts_laws]. Qed.

(** ** The runtime of views

    A view of a well-known type is the type itself. *)
#[export] Instance ref_views : BuffaViews := {
  context_new n := n;
  descend ctx := match ctx with O => Err RecursionLimitExceeded | S d => Ok d end;
  borrow_bytes := read_delimited;
  borrow_str := read_string;
  decode_tag := read_tag;
  encode_tag t buf := buf ++ key t;
  encode_varint v buf := buf ++ varint v;
  encode_string s buf := buf ++ delimited (list_byte_of_string s);
  encode_uint64 v buf := buf ++ varint v;
  merge_into_view V f v l ctx := read_fields f (length l) v l ctx;
  decode_view_ctx V f v l ctx := read_fields f (length l) v l ctx;
}.
#[export] Instance ref_views_laws : BuffaViewsLaws.
Proof.
  split; try done.
  - intros ctx d Hd. change (ctx = S d) in Hd. subst ctx. by eexists.
  - apply read_delimited_ok.
  - apply read_string_ok.
  - intros n t rest Hn. by apply read_tag_ok.
  - intros V f v l v' ctx Hr _. by apply (read_fields_ok f ctx).
  - intros V f v l v' ctx Hr _. by apply (read_fields_ok f ctx).
Qed.

#[export] Instance ref_type_views : BuffaTypeViews := {
  StringValueView := StringRef;
  string_view := str;
  string_view_plain _ := True;
  StringValueView_message := string_message;
  StringValueView_own := {| to_owned_from_source := Ok |};
  UInt32ValueView := Uint32Ref;
  uint32_view := u32;
  uint32_view_plain _ := True;
  UInt32ValueView_message := uint32_message;
  UInt32ValueView_own := {| to_owned_from_source := Ok |};
  UInt64ValueView := Uint64Ref;
  uint64_view := u64;
  uint64_view_plain _ := True;
  UInt64ValueView_message := uint64_message;
  UInt64ValueView_own := {| to_owned_from_source := Ok |};
  TimestampView := Seconds;
  seconds_view := ts_seconds;
  nanos_view := ts_nanos;
  timestamp_view_plain _ := True;
  TimestampView_message := ts_message;
  TimestampView_own := {| to_owned_from_source := Ok |};
}.
Lemma self_view {M} `{!MessageSpec M} : @View _ _ M M _ _ {| to_owned_from_source := Ok |}.
Proof. by refine {| view_of := id |}. Defined.
#[export] Instance ref_type_views_laws : BuffaTypeViewsLaws.
Proof.
  refine {|
    StringValueView_laws := string_laws; StringValueView_view := self_view;
    UInt32ValueView_laws := uint32_laws; UInt32ValueView_view := self_view;
    UInt64ValueView_laws := uint64_laws; UInt64ValueView_view := self_view;
    TimestampView_laws := ts_laws; TimestampView_view := self_view |}.
Defined.
