(* ===== verification/ProtoCommon.v ===== *)
(** The messages of `common.proto` as the generated code has them
    (`proto/generated/buffa/cusf.common.v1.rs`): the structs and how they are sized, written,
    read and cleared. *)
From Stdlib Require Import ZArith Lia Strings.Byte Strings.String.
From stdpp Require Import base list gmap strings.
From S2P Require Import Prelude Wire WireTypes.
#[local] Open Scope Z_scope.

(** [cusf.common.v1.ConsensusHex] *)
Module ConsensusHex.
Section methods.
Context `{BuffaTypes}.

Record ConsensusHex := mkConsensusHex {
  hex : option StringValue;
}.
Definition with_hex v (self : ConsensusHex) : ConsensusHex := mkConsensusHex v.

Definition compute_size (self : ConsensusHex) (__cache : SizeCache) : Z * SizeCache :=
  (size_message 1 (hex self)) (0, __cache).
Definition write_to (self : ConsensusHex) : write_stmt :=
  write_message 1 (hex self).
Definition merge_field : merge_fn ConsensusHex := λ self tag buf ctx,
  match field_number tag with
  | 1 => merge_message (hex self) (λ v, with_hex v self) tag buf ctx
  | _ => merge_unknown self tag buf ctx
  end.
Definition clear (self : ConsensusHex) : ConsensusHex := mkConsensusHex None.

Definition ConsensusHex_name : MessageName ConsensusHex := {|
  PACKAGE := "cusf.common.v1";
  NAME := "ConsensusHex";
  FULL_NAME := "cusf.common.v1.ConsensusHex";
  TYPE_URL := "type.googleapis.com/cusf.common.v1.ConsensusHex";
|}.
#[global] Existing Instance ConsensusHex_name.
#[global] Instance ConsensusHex_message : Message ConsensusHex := {
  default_message := mkConsensusHex None; compute_size := compute_size; write_to := write_to;
  merge_field := merge_field;
}.
#[global] Instance ConsensusHex_clear : Clear ConsensusHex := { clear := clear }.
#[global] Instance ConsensusHex_spec : MessageSpec ConsensusHex := {
  records self := r_message 1 (hex self);
  schema := [(1, LengthDelimited)];
  well_formed self := from_option well_formed True (hex self);
  levels := 1;
}.
#[global] Instance hex_lens : Lens hex with_hex.
Proof. lens. Qed.
#[global] Instance ConsensusHex_laws `{!BuffaLaws, !BuffaTypesLaws} : MessageLaws ConsensusHex.
Proof. message_laws compute_size write_to merge_field. Qed.
#[global] Instance ConsensusHex_clear_laws : ClearLaws ConsensusHex.
Proof. by split. Qed.
End methods.
End ConsensusHex.

(** [cusf.common.v1.Hex] *)
Module Hex.
Section methods.
Context `{BuffaTypes}.

Record Hex := mkHex {
  hex : option StringValue;
}.
Definition with_hex v (self : Hex) : Hex := mkHex v.

Definition compute_size (self : Hex) (__cache : SizeCache) : Z * SizeCache :=
  (size_message 1 (hex self)) (0, __cache).
Definition write_to (self : Hex) : write_stmt :=
  write_message 1 (hex self).
Definition merge_field : merge_fn Hex := λ self tag buf ctx,
  match field_number tag with
  | 1 => merge_message (hex self) (λ v, with_hex v self) tag buf ctx
  | _ => merge_unknown self tag buf ctx
  end.
Definition clear (self : Hex) : Hex := mkHex None.

Definition Hex_name : MessageName Hex := {|
  PACKAGE := "cusf.common.v1";
  NAME := "Hex";
  FULL_NAME := "cusf.common.v1.Hex";
  TYPE_URL := "type.googleapis.com/cusf.common.v1.Hex";
|}.
#[global] Existing Instance Hex_name.
#[global] Instance Hex_message : Message Hex := {
  default_message := mkHex None; compute_size := compute_size; write_to := write_to;
  merge_field := merge_field;
}.
#[global] Instance Hex_clear : Clear Hex := { clear := clear }.
#[global] Instance Hex_spec : MessageSpec Hex := {
  records self := r_message 1 (hex self);
  schema := [(1, LengthDelimited)];
  well_formed self := from_option well_formed True (hex self);
  levels := 1;
}.
#[global] Instance hex_lens : Lens hex with_hex.
Proof. lens. Qed.
#[global] Instance Hex_laws `{!BuffaLaws, !BuffaTypesLaws} : MessageLaws Hex.
Proof. message_laws compute_size write_to merge_field. Qed.
#[global] Instance Hex_clear_laws : ClearLaws Hex.
Proof. by split. Qed.
End methods.
End Hex.

(** [cusf.common.v1.ReverseHex] *)
Module ReverseHex.
Section methods.
Context `{BuffaTypes}.

Record ReverseHex := mkReverseHex {
  hex : option StringValue;
}.
Definition with_hex v (self : ReverseHex) : ReverseHex := mkReverseHex v.

Definition compute_size (self : ReverseHex) (__cache : SizeCache) : Z * SizeCache :=
  (size_message 1 (hex self)) (0, __cache).
Definition write_to (self : ReverseHex) : write_stmt :=
  write_message 1 (hex self).
Definition merge_field : merge_fn ReverseHex := λ self tag buf ctx,
  match field_number tag with
  | 1 => merge_message (hex self) (λ v, with_hex v self) tag buf ctx
  | _ => merge_unknown self tag buf ctx
  end.
Definition clear (self : ReverseHex) : ReverseHex := mkReverseHex None.

Definition ReverseHex_name : MessageName ReverseHex := {|
  PACKAGE := "cusf.common.v1";
  NAME := "ReverseHex";
  FULL_NAME := "cusf.common.v1.ReverseHex";
  TYPE_URL := "type.googleapis.com/cusf.common.v1.ReverseHex";
|}.
#[global] Existing Instance ReverseHex_name.
#[global] Instance ReverseHex_message : Message ReverseHex := {
  default_message := mkReverseHex None; compute_size := compute_size; write_to := write_to;
  merge_field := merge_field;
}.
#[global] Instance ReverseHex_clear : Clear ReverseHex := { clear := clear }.
#[global] Instance ReverseHex_spec : MessageSpec ReverseHex := {
  records self := r_message 1 (hex self);
  schema := [(1, LengthDelimited)];
  well_formed self := from_option well_formed True (hex self);
  levels := 1;
}.
#[global] Instance hex_lens : Lens hex with_hex.
Proof. lens. Qed.
#[global] Instance ReverseHex_laws `{!BuffaLaws, !BuffaTypesLaws} : MessageLaws ReverseHex.
Proof. message_laws compute_size write_to merge_field. Qed.
#[global] Instance ReverseHex_clear_laws : ClearLaws ReverseHex.
Proof. by split. Qed.
End methods.
End ReverseHex.
