(* ===== verification/ProtoCrypto.v ===== *)
(** The messages of `crypto.proto` (`proto/generated/buffa/cusf.crypto.v1.rs`). *)
From Stdlib Require Import ZArith Lia Strings.Byte Strings.String.
From stdpp Require Import base list gmap strings.
From S2P Require Import Prelude Wire WireTypes ProtoCommon.
#[local] Open Scope Z_scope.

(** [cusf.crypto.v1.HmacSha512Request] *)
Module HmacSha512Request.
Section methods.
Context `{BuffaTypes}.

Record HmacSha512Request := mkHmacSha512Request {
  key : option Hex.Hex;
  msg : option Hex.Hex;
}.
Definition with_key v (self : HmacSha512Request) : HmacSha512Request := mkHmacSha512Request v (msg self).
Definition with_msg v (self : HmacSha512Request) : HmacSha512Request := mkHmacSha512Request (key self) v.

Definition compute_size (self : HmacSha512Request) (__cache : SizeCache) : Z * SizeCache :=
  (size_message 1 (key self) ▷
   size_message 1 (msg self)) (0, __cache).
Definition write_to (self : HmacSha512Request) : write_stmt :=
  write_message 1 (key self) ▷
  write_message 2 (msg self).
Definition merge_field : merge_fn HmacSha512Request := λ self tag buf ctx,
  match field_number tag with
  | 1 => merge_message (key self) (λ v, with_key v self) tag buf ctx
  | 2 => merge_message (msg self) (λ v, with_msg v self) tag buf ctx
  | _ => merge_unknown self tag buf ctx
  end.
Definition clear (self : HmacSha512Request) : HmacSha512Request := mkHmacSha512Request None None.

Definition HmacSha512Request_name : MessageName HmacSha512Request := {|
  PACKAGE := "cusf.crypto.v1";
  NAME := "HmacSha512Request";
  FULL_NAME := "cusf.crypto.v1.HmacSha512Request";
  TYPE_URL := "type.googleapis.com/cusf.crypto.v1.HmacSha512Request";
|}.
#[global] Existing Instance HmacSha512Request_name.
#[global] Instance HmacSha512Request_message : Message HmacSha512Request := {
  default_message := mkHmacSha512Request None None; compute_size := compute_size; write_to := write_to;
  merge_field := merge_field;
}.
#[global] Instance HmacSha512Request_clear : Clear HmacSha512Request := { clear := clear }.
#[global] Instance HmacSha512Request_spec : MessageSpec HmacSha512Request := {
  records self := r_message 1 (key self) ++ r_message 2 (msg self);
  schema := [(1, LengthDelimited); (2, LengthDelimited)];
  well_formed self := from_option well_formed True (key self) ∧ from_option well_formed True (msg self);
  levels := 2;
}.
#[global] Instance key_lens : Lens key with_key.
Proof. lens. Qed.
#[global] Instance msg_lens : Lens msg with_msg.
Proof. lens. Qed.
#[global] Instance HmacSha512Request_laws `{!BuffaLaws, !BuffaTypesLaws} : MessageLaws HmacSha512Request.
Proof. message_laws compute_size write_to merge_field. Qed.
#[global] Instance HmacSha512Request_clear_laws : ClearLaws HmacSha512Request.
Proof. by split. Qed.
End methods.
End HmacSha512Request.

(** [cusf.crypto.v1.HmacSha512Response] *)
Module HmacSha512Response.
Section methods.
Context `{BuffaTypes}.

Record HmacSha512Response := mkHmacSha512Response {
  hmac : option Hex.Hex;
}.
Definition with_hmac v (self : HmacSha512Response) : HmacSha512Response := mkHmacSha512Response v.

Definition compute_size (self : HmacSha512Response) (__cache : SizeCache) : Z * SizeCache :=
  (size_message 1 (hmac self)) (0, __cache).
Definition write_to (self : HmacSha512Response) : write_stmt :=
  write_message 1 (hmac self).
Definition merge_field : merge_fn HmacSha512Response := λ self tag buf ctx,
  match field_number tag with
  | 1 => merge_message (hmac self) (λ v, with_hmac v self) tag buf ctx
  | _ => merge_unknown self tag buf ctx
  end.
Definition clear (self : HmacSha512Response) : HmacSha512Response := mkHmacSha512Response None.

Definition HmacSha512Response_name : MessageName HmacSha512Response := {|
  PACKAGE := "cusf.crypto.v1";
  NAME := "HmacSha512Response";
  FULL_NAME := "cusf.crypto.v1.HmacSha512Response";
  TYPE_URL := "type.googleapis.com/cusf.crypto.v1.HmacSha512Response";
|}.
#[global] Existing Instance HmacSha512Response_name.
#[global] Instance HmacSha512Response_message : Message HmacSha512Response := {
  default_message := mkHmacSha512Response None; compute_size := compute_size; write_to := write_to;
  merge_field := merge_field;
}.
#[global] Instance HmacSha512Response_clear : Clear HmacSha512Response := { clear := clear }.
#[global] Instance HmacSha512Response_spec : MessageSpec HmacSha512Response := {
  records self := r_message 1 (hmac self);
  schema := [(1, LengthDelimited)];
  well_formed self := from_option well_formed True (hmac self);
  levels := 2;
}.
#[global] Instance hmac_lens : Lens hmac with_hmac.
Proof. lens. Qed.
#[global] Instance HmacSha512Response_laws `{!BuffaLaws, !BuffaTypesLaws} : MessageLaws HmacSha512Response.
Proof. message_laws compute_size write_to merge_field. Qed.
#[global] Instance HmacSha512Response_clear_laws : ClearLaws HmacSha512Response.
Proof. by split. Qed.
End methods.
End HmacSha512Response.

(** [cusf.crypto.v1.Ripemd160Request] *)
Module Ripemd160Request.
Section methods.
Context `{BuffaTypes}.

Record Ripemd160Request := mkRipemd160Request {
  msg : option Hex.Hex;
}.
Definition with_msg v (self : Ripemd160Request) : Ripemd160Request := mkRipemd160Request v.

Definition compute_size (self : Ripemd160Request) (__cache : SizeCache) : Z * SizeCache :=
  (size_message 1 (msg self)) (0, __cache).
Definition write_to (self : Ripemd160Request) : write_stmt :=
  write_message 1 (msg self).
Definition merge_field : merge_fn Ripemd160Request := λ self tag buf ctx,
  match field_number tag with
  | 1 => merge_message (msg self) (λ v, with_msg v self) tag buf ctx
  | _ => merge_unknown self tag buf ctx
  end.
Definition clear (self : Ripemd160Request) : Ripemd160Request := mkRipemd160Request None.

Definition Ripemd160Request_name : MessageName Ripemd160Request := {|
  PACKAGE := "cusf.crypto.v1";
  NAME := "Ripemd160Request";
  FULL_NAME := "cusf.crypto.v1.Ripemd160Request";
  TYPE_URL := "type.googleapis.com/cusf.crypto.v1.Ripemd160Request";
|}.
#[global] Existing Instance Ripemd160Request_name.
#[global] Instance Ripemd160Request_message : Message Ripemd160Request := {
  default_message := mkRipemd160Request None; compute_size := compute_size; write_to := write_to;
  merge_field := merge_field;
}.
#[global] Instance Ripemd160Request_clear : Clear Ripemd160Request := { clear := clear }.
#[global] Instance Ripemd160Request_spec : MessageSpec Ripemd160Request := {
  records self := r_message 1 (msg self);
  schema := [(1, LengthDelimited)];
  well_formed self := from_option well_formed True (msg self);
  levels := 2;
}.
#[global] Instance msg_lens : Lens msg with_msg.
Proof. lens. Qed.
#[global] Instance Ripemd160Request_laws `{!BuffaLaws, !BuffaTypesLaws} : MessageLaws Ripemd160Request.
Proof. message_laws compute_size write_to merge_field. Qed.
#[global] Instance Ripemd160Request_clear_laws : ClearLaws Ripemd160Request.
Proof. by split. Qed.
End methods.
End Ripemd160Request.

(** [cusf.crypto.v1.Ripemd160Response] *)
Module Ripemd160Response.
Section methods.
Context `{BuffaTypes}.

Record Ripemd160Response := mkRipemd160Response {
  digest : option Hex.Hex;
}.
Definition with_digest v (self : Ripemd160Response) : Ripemd160Response := mkRipemd160Response v.

Definition compute_size (self : Ripemd160Response) (__cache : SizeCache) : Z * SizeCache :=
  (size_message 1 (digest self)) (0, __cache).
Definition write_to (self : Ripemd160Response) : write_stmt :=
  write_message 1 (digest self).
Definition merge_field : merge_fn Ripemd160Response := λ self tag buf ctx,
  match field_number tag with
  | 1 => merge_message (digest self) (λ v, with_digest v self) tag buf ctx
  | _ => merge_unknown self tag buf ctx
  end.
Definition clear (self : Ripemd160Response) : Ripemd160Response := mkRipemd160Response None.

Definition Ripemd160Response_name : MessageName Ripemd160Response := {|
  PACKAGE := "cusf.crypto.v1";
  NAME := "Ripemd160Response";
  FULL_NAME := "cusf.crypto.v1.Ripemd160Response";
  TYPE_URL := "type.googleapis.com/cusf.crypto.v1.Ripemd160Response";
|}.
#[global] Existing Instance Ripemd160Response_name.
#[global] Instance Ripemd160Response_message : Message Ripemd160Response := {
  default_message := mkRipemd160Response None; compute_size := compute_size; write_to := write_to;
  merge_field := merge_field;
}.
#[global] Instance Ripemd160Response_clear : Clear Ripemd160Response := { clear := clear }.
#[global] Instance Ripemd160Response_spec : MessageSpec Ripemd160Response := {
  records self := r_message 1 (digest self);
  schema := [(1, LengthDelimited)];
  well_formed self := from_option well_formed True (digest self);
  levels := 2;
}.
#[global] Instance digest_lens : Lens digest with_digest.
Proof. lens. Qed.
#[global] Instance Ripemd160Response_laws `{!BuffaLaws, !BuffaTypesLaws} : MessageLaws Ripemd160Response.
Proof. message_laws compute_size write_to merge_field. Qed.
#[global] Instance Ripemd160Response_clear_laws : ClearLaws Ripemd160Response.
Proof. by split. Qed.
End methods.
End Ripemd160Response.

(** [cusf.crypto.v1.Secp256k1SecretKeyToPublicKeyRequest] *)
Module Secp256k1SecretKeyToPublicKeyRequest.
Section methods.
Context `{BuffaTypes}.

Record Secp256k1SecretKeyToPublicKeyRequest := mkSecp256k1SecretKeyToPublicKeyRequest {
  secret_key : option ConsensusHex.ConsensusHex;
}.
Definition with_secret_key v (self : Secp256k1SecretKeyToPublicKeyRequest) : Secp256k1SecretKeyToPublicKeyRequest :=
  mkSecp256k1SecretKeyToPublicKeyRequest v.

Definition compute_size (self : Secp256k1SecretKeyToPublicKeyRequest) (__cache : SizeCache) : Z * SizeCache :=
  (size_message 1 (secret_key self)) (0, __cache).
Definition write_to (self : Secp256k1SecretKeyToPublicKeyRequest) : write_stmt :=
  write_message 1 (secret_key self).
Definition merge_field : merge_fn Secp256k1SecretKeyToPublicKeyRequest := λ self tag buf ctx,
  match field_number tag with
  | 1 => merge_message (secret_key self) (λ v, with_secret_key v self) tag buf ctx
  | _ => merge_unknown self tag buf ctx
  end.
Definition clear (self : Secp256k1SecretKeyToPublicKeyRequest) : Secp256k1SecretKeyToPublicKeyRequest := mkSecp256k1SecretKeyToPublicKeyRequest None.

Definition Secp256k1SecretKeyToPublicKeyRequest_name : MessageName Secp256k1SecretKeyToPublicKeyRequest := {|
  PACKAGE := "cusf.crypto.v1";
  NAME := "Secp256k1SecretKeyToPublicKeyRequest";
  FULL_NAME := "cusf.crypto.v1.Secp256k1SecretKeyToPublicKeyRequest";
  TYPE_URL := "type.googleapis.com/cusf.crypto.v1.Secp256k1SecretKeyToPublicKeyRequest";
|}.
#[global] Existing Instance Secp256k1SecretKeyToPublicKeyRequest_name.
#[global] Instance Secp256k1SecretKeyToPublicKeyRequest_message : Message Secp256k1SecretKeyToPublicKeyRequest := {
  default_message := mkSecp256k1SecretKeyToPublicKeyRequest None; compute_size := compute_size; write_to := write_to;
  merge_field := merge_field;
}.
#[global] Instance Secp256k1SecretKeyToPublicKeyRequest_clear : Clear Secp256k1SecretKeyToPublicKeyRequest := { clear := clear }.
#[global] Instance Secp256k1SecretKeyToPublicKeyRequest_spec : MessageSpec Secp256k1SecretKeyToPublicKeyRequest := {
  records self := r_message 1 (secret_key self);
  schema := [(1, LengthDelimited)];
  well_formed self := from_option well_formed True (secret_key self);
  levels := 2;
}.
#[global] Instance secret_key_lens : Lens secret_key with_secret_key.
Proof. lens. Qed.
#[global] Instance Secp256k1SecretKeyToPublicKeyRequest_laws `{!BuffaLaws, !BuffaTypesLaws} : MessageLaws Secp256k1SecretKeyToPublicKeyRequest.
Proof. message_laws compute_size write_to merge_field. Qed.
#[global] Instance Secp256k1SecretKeyToPublicKeyRequest_clear_laws : ClearLaws Secp256k1SecretKeyToPublicKeyRequest.
Proof. by split. Qed.
End methods.
End Secp256k1SecretKeyToPublicKeyRequest.

(** [cusf.crypto.v1.Secp256k1SecretKeyToPublicKeyResponse] *)
Module Secp256k1SecretKeyToPublicKeyResponse.
Section methods.
Context `{BuffaTypes}.

Record Secp256k1SecretKeyToPublicKeyResponse := mkSecp256k1SecretKeyToPublicKeyResponse {
  public_key : option ConsensusHex.ConsensusHex;
}.
Definition with_public_key v (self : Secp256k1SecretKeyToPublicKeyResponse) : Secp256k1SecretKeyToPublicKeyResponse :=
  mkSecp256k1SecretKeyToPublicKeyResponse v.

Definition compute_size (self : Secp256k1SecretKeyToPublicKeyResponse) (__cache : SizeCache) : Z * SizeCache :=
  (size_message 1 (public_key self)) (0, __cache).
Definition write_to (self : Secp256k1SecretKeyToPublicKeyResponse) : write_stmt :=
  write_message 1 (public_key self).
Definition merge_field : merge_fn Secp256k1SecretKeyToPublicKeyResponse := λ self tag buf ctx,
  match field_number tag with
  | 1 => merge_message (public_key self) (λ v, with_public_key v self) tag buf ctx
  | _ => merge_unknown self tag buf ctx
  end.
Definition clear (self : Secp256k1SecretKeyToPublicKeyResponse) : Secp256k1SecretKeyToPublicKeyResponse := mkSecp256k1SecretKeyToPublicKeyResponse None.

Definition Secp256k1SecretKeyToPublicKeyResponse_name : MessageName Secp256k1SecretKeyToPublicKeyResponse := {|
  PACKAGE := "cusf.crypto.v1";
  NAME := "Secp256k1SecretKeyToPublicKeyResponse";
  FULL_NAME := "cusf.crypto.v1.Secp256k1SecretKeyToPublicKeyResponse";
  TYPE_URL := "type.googleapis.com/cusf.crypto.v1.Secp256k1SecretKeyToPublicKeyResponse";
|}.
#[global] Existing Instance Secp256k1SecretKeyToPublicKeyResponse_name.
#[global] Instance Secp256k1SecretKeyToPublicKeyResponse_message : Message Secp256k1SecretKeyToPublicKeyResponse := {
  default_message := mkSecp256k1SecretKeyToPublicKeyResponse None; compute_size := compute_size; write_to := write_to;
  merge_field := merge_field;
}.
#[global] Instance Secp256k1SecretKeyToPublicKeyResponse_clear : Clear Secp256k1SecretKeyToPublicKeyResponse := { clear := clear }.
#[global] Instance Secp256k1SecretKeyToPublicKeyResponse_spec : MessageSpec Secp256k1SecretKeyToPublicKeyResponse := {
  records self := r_message 1 (public_key self);
  schema := [(1, LengthDelimited)];
  well_formed self := from_option well_formed True (public_key self);
  levels := 2;
}.
#[global] Instance public_key_lens : Lens public_key with_public_key.
Proof. lens. Qed.
#[global] Instance Secp256k1SecretKeyToPublicKeyResponse_laws `{!BuffaLaws, !BuffaTypesLaws} : MessageLaws Secp256k1SecretKeyToPublicKeyResponse.
Proof. message_laws compute_size write_to merge_field. Qed.
#[global] Instance Secp256k1SecretKeyToPublicKeyResponse_clear_laws : ClearLaws Secp256k1SecretKeyToPublicKeyResponse.
Proof. by split. Qed.
End methods.
End Secp256k1SecretKeyToPublicKeyResponse.

(** [cusf.crypto.v1.Secp256k1SignRequest] *)
Module Secp256k1SignRequest.
Section methods.
Context `{BuffaTypes}.

Record Secp256k1SignRequest := mkSecp256k1SignRequest {
  message : option Hex.Hex;
  secret_key : option ConsensusHex.ConsensusHex;
}.
Definition with_message v (self : Secp256k1SignRequest) : Secp256k1SignRequest :=
  mkSecp256k1SignRequest v (secret_key self).
Definition with_secret_key v (self : Secp256k1SignRequest) : Secp256k1SignRequest :=
  mkSecp256k1SignRequest (message self) v.

Definition compute_size (self : Secp256k1SignRequest) (__cache : SizeCache) : Z * SizeCache :=
  (size_message 1 (message self) ▷
   size_message 1 (secret_key self)) (0, __cache).
Definition write_to (self : Secp256k1SignRequest) : write_stmt :=
  write_message 1 (message self) ▷
  write_message 2 (secret_key self).
Definition merge_field : merge_fn Secp256k1SignRequest := λ self tag buf ctx,
  match field_number tag with
  | 1 => merge_message (message self) (λ v, with_message v self) tag buf ctx
  | 2 => merge_message (secret_key self) (λ v, with_secret_key v self) tag buf ctx
  | _ => merge_unknown self tag buf ctx
  end.
Definition clear (self : Secp256k1SignRequest) : Secp256k1SignRequest := mkSecp256k1SignRequest None None.

Definition Secp256k1SignRequest_name : MessageName Secp256k1SignRequest := {|
  PACKAGE := "cusf.crypto.v1";
  NAME := "Secp256k1SignRequest";
  FULL_NAME := "cusf.crypto.v1.Secp256k1SignRequest";
  TYPE_URL := "type.googleapis.com/cusf.crypto.v1.Secp256k1SignRequest";
|}.
#[global] Existing Instance Secp256k1SignRequest_name.
#[global] Instance Secp256k1SignRequest_message : Message Secp256k1SignRequest := {
  default_message := mkSecp256k1SignRequest None None; compute_size := compute_size; write_to := write_to;
  merge_field := merge_field;
}.
#[global] Instance Secp256k1SignRequest_clear : Clear Secp256k1SignRequest := { clear := clear }.
#[global] Instance Secp256k1SignRequest_spec : MessageSpec Secp256k1SignRequest := {
  records self := r_message 1 (message self) ++ r_message 2 (secret_key self);
  schema := [(1, LengthDelimited); (2, LengthDelimited)];
  well_formed self := from_option well_formed True (message self) ∧ from_option well_formed True (secret_key self);
  levels := 2;
}.
#[global] Instance message_lens : Lens message with_message.
Proof. lens. Qed.
#[global] Instance secret_key_lens : Lens secret_key with_secret_key.
Proof. lens. Qed.
#[global] Instance Secp256k1SignRequest_laws `{!BuffaLaws, !BuffaTypesLaws} : MessageLaws Secp256k1SignRequest.
Proof. message_laws compute_size write_to merge_field. Qed.
#[global] Instance Secp256k1SignRequest_clear_laws : ClearLaws Secp256k1SignRequest.
Proof. by split. Qed.
End methods.
End Secp256k1SignRequest.

(** [cusf.crypto.v1.Secp256k1SignResponse] *)
Module Secp256k1SignResponse.
Section methods.
Context `{BuffaTypes}.

Record Secp256k1SignResponse := mkSecp256k1SignResponse {
  signature : option Hex.Hex;
}.
Definition with_signature v (self : Secp256k1SignResponse) : Secp256k1SignResponse := mkSecp256k1SignResponse v.

Definition compute_size (self : Secp256k1SignResponse) (__cache : SizeCache) : Z * SizeCache :=
  (size_message 1 (signature self)) (0, __cache).
Definition write_to (self : Secp256k1SignResponse) : write_stmt :=
  write_message 1 (signature self).
Definition merge_field : merge_fn Secp256k1SignResponse := λ self tag buf ctx,
  match field_number tag with
  | 1 => merge_message (signature self) (λ v, with_signature v self) tag buf ctx
  | _ => merge_unknown self tag buf ctx
  end.
Definition clear (self : Secp256k1SignResponse) : Secp256k1SignResponse := mkSecp256k1SignResponse None.

Definition Secp256k1SignResponse_name : MessageName Secp256k1SignResponse := {|
  PACKAGE := "cusf.crypto.v1";
  NAME := "Secp256k1SignResponse";
  FULL_NAME := "cusf.crypto.v1.Secp256k1SignResponse";
  TYPE_URL := "type.googleapis.com/cusf.crypto.v1.Secp256k1SignResponse";
|}.
#[global] Existing Instance Secp256k1SignResponse_name.
#[global] Instance Secp256k1SignResponse_message : Message Secp256k1SignResponse := {
  default_message := mkSecp256k1SignResponse None; compute_size := compute_size; write_to := write_to;
  merge_field := merge_field;
}.
#[global] Instance Secp256k1SignResponse_clear : Clear Secp256k1SignResponse := { clear := clear }.
#[global] Instance Secp256k1SignResponse_spec : MessageSpec Secp256k1SignResponse := {
  records self := r_message 1 (signature self);
  schema := [(1, LengthDelimited)];
  well_formed self := from_option well_formed True (signature self);
  levels := 2;
}.
#[global] Instance signature_lens : Lens signature with_signature.
Proof. lens. Qed.
#[global] Instance Secp256k1SignResponse_laws `{!BuffaLaws, !BuffaTypesLaws} : MessageLaws Secp256k1SignResponse.
Proof. message_laws compute_size write_to merge_field. Qed.
#[global] Instance Secp256k1SignResponse_clear_laws : ClearLaws Secp256k1SignResponse.
Proof. by split. Qed.
End methods.
End Secp256k1SignResponse.

(** [cusf.crypto.v1.Secp256k1VerifyRequest] *)
Module Secp256k1VerifyRequest.
Section methods.
Context `{BuffaTypes}.

Record Secp256k1VerifyRequest := mkSecp256k1VerifyRequest {
  message : option Hex.Hex;
  signature : option Hex.Hex;
  public_key : option ConsensusHex.ConsensusHex;
}.
Definition with_message v (self : Secp256k1VerifyRequest) : Secp256k1VerifyRequest :=
  mkSecp256k1VerifyRequest v (signature self) (public_key self).
Definition with_signature v (self : Secp256k1VerifyRequest) : Secp256k1VerifyRequest :=
  mkSecp256k1VerifyRequest (message self) v (public_key self).
Definition with_public_key v (self : Secp256k1VerifyRequest) : Secp256k1VerifyRequest :=
  mkSecp256k1VerifyRequest (message self) (signature self) v.

Definition compute_size (self : Secp256k1VerifyRequest) (__cache : SizeCache) : Z * SizeCache :=
  (size_message 1 (message self) ▷
   size_message 1 (signature self) ▷
   size_message 1 (public_key self)) (0, __cache).
Definition write_to (self : Secp256k1VerifyRequest) : write_stmt :=
  write_message 1 (message self) ▷
  write_message 2 (signature self) ▷
  write_message 3 (public_key self).
Definition merge_field : merge_fn Secp256k1VerifyRequest := λ self tag buf ctx,
  match field_number tag with
  | 1 => merge_message (message self) (λ v, with_message v self) tag buf ctx
  | 2 => merge_message (signature self) (λ v, with_signature v self) tag buf ctx
  | 3 => merge_message (public_key self) (λ v, with_public_key v self) tag buf ctx
  | _ => merge_unknown self tag buf ctx
  end.
Definition clear (self : Secp256k1VerifyRequest) : Secp256k1VerifyRequest := mkSecp256k1VerifyRequest None None None.

Definition Secp256k1VerifyRequest_name : MessageName Secp256k1VerifyRequest := {|
  PACKAGE := "cusf.crypto.v1";
  NAME := "Secp256k1VerifyRequest";
  FULL_NAME := "cusf.crypto.v1.Secp256k1VerifyRequest";
  TYPE_URL := "type.googleapis.com/cusf.crypto.v1.Secp256k1VerifyRequest";
|}.
#[global] Existing Instance Secp256k1VerifyRequest_name.
#[global] Instance Secp256k1VerifyRequest_message : Message Secp256k1VerifyRequest := {
  default_message := mkSecp256k1VerifyRequest None None None; compute_size := compute_size; write_to := write_to;
  merge_field := merge_field;
}.
#[global] Instance Secp256k1VerifyRequest_clear : Clear Secp256k1VerifyRequest := { clear := clear }.
#[global] Instance Secp256k1VerifyRequest_spec : MessageSpec Secp256k1VerifyRequest := {
  records self := r_message 1 (message self) ++ r_message 2 (signature self) ++ r_message 3 (public_key self);
  schema := [(1, LengthDelimited); (2, LengthDelimited); (3, LengthDelimited)];
  well_formed self := from_option well_formed True (message self) ∧
    from_option well_formed True (signature self) ∧ from_option well_formed True (public_key self);
  levels := 2;
}.
#[global] Instance message_lens : Lens message with_message.
Proof. lens. Qed.
#[global] Instance signature_lens : Lens signature with_signature.
Proof. lens. Qed.
#[global] Instance public_key_lens : Lens public_key with_public_key.
Proof. lens. Qed.
#[global] Instance Secp256k1VerifyRequest_laws `{!BuffaLaws, !BuffaTypesLaws} : MessageLaws Secp256k1VerifyRequest.
Proof. message_laws compute_size write_to merge_field. Qed.
#[global] Instance Secp256k1VerifyRequest_clear_laws : ClearLaws Secp256k1VerifyRequest.
Proof. by split. Qed.
End methods.
End Secp256k1VerifyRequest.

(** [cusf.crypto.v1.Secp256k1VerifyResponse] *)
Module Secp256k1VerifyResponse.
Section methods.
Context `{BuffaTypes}.

Record Secp256k1VerifyResponse := mkSecp256k1VerifyResponse {
  valid : bool;
}.
Definition with_valid v (self : Secp256k1VerifyResponse) : Secp256k1VerifyResponse := mkSecp256k1VerifyResponse v.

Definition compute_size (self : Secp256k1VerifyResponse) (__cache : SizeCache) : Z * SizeCache :=
  (size_bool 1 (valid self)) (0, __cache).
Definition write_to (self : Secp256k1VerifyResponse) : write_stmt :=
  write_bool 1 (valid self).
Definition merge_field : merge_fn Secp256k1VerifyResponse := λ self tag buf ctx,
  match field_number tag with
  | 1 => merge_scalar Varint decode_bool (λ v, with_valid v self) tag buf
  | _ => merge_unknown self tag buf ctx
  end.
Definition clear (self : Secp256k1VerifyResponse) : Secp256k1VerifyResponse := mkSecp256k1VerifyResponse false.

Definition Secp256k1VerifyResponse_name : MessageName Secp256k1VerifyResponse := {|
  PACKAGE := "cusf.crypto.v1";
  NAME := "Secp256k1VerifyResponse";
  FULL_NAME := "cusf.crypto.v1.Secp256k1VerifyResponse";
  TYPE_URL := "type.googleapis.com/cusf.crypto.v1.Secp256k1VerifyResponse";
|}.
#[global] Existing Instance Secp256k1VerifyResponse_name.
#[global] Instance Secp256k1VerifyResponse_message : Message Secp256k1VerifyResponse := {
  default_message := mkSecp256k1VerifyResponse false; compute_size := compute_size; write_to := write_to;
  merge_field := merge_field;
}.
#[global] Instance Secp256k1VerifyResponse_clear : Clear Secp256k1VerifyResponse := { clear := clear }.
#[global] Instance Secp256k1VerifyResponse_spec : MessageSpec Secp256k1VerifyResponse := {
  records self := r_bool 1 (valid self);
  schema := [(1, Varint)];
  well_formed self := True;
  levels := 0;
}.
#[global] Instance valid_lens : Lens valid with_valid.
Proof. lens. Qed.
#[global] Instance Secp256k1VerifyResponse_laws `{!BuffaLaws, !BuffaTypesLaws} : MessageLaws Secp256k1VerifyResponse.
Proof. message_laws compute_size write_to merge_field. Qed.
#[global] Instance Secp256k1VerifyResponse_clear_laws : ClearLaws Secp256k1VerifyResponse.
Proof. by split. Qed.
End methods.
End Secp256k1VerifyResponse.
