(* ===== verification/ProtoValidator.v ===== *)
(** The messages of `validator.proto`, `mining.proto` and the package's `common.proto`
    (`proto/generated/buffa/cusf.mainchain.v1.rs`). *)
From Stdlib Require Import ZArith Lia Strings.Byte Strings.String.
From stdpp Require Import base list gmap strings.
From S2P Require Import Prelude Wire WireTypes ProtoCommon.
#[local] Open Scope Z_scope.

(** [cusf.mainchain.v1.Network] *)
Module Network.
Inductive Network :=
| NETWORK_UNSPECIFIED
| NETWORK_UNKNOWN
| NETWORK_MAINNET
| NETWORK_REGTEST
| NETWORK_SIGNET
| NETWORK_TESTNET.
Definition from_i32 (value : Z) : option Network :=
  match value with
  | 0 => Some NETWORK_UNSPECIFIED
  | 1 => Some NETWORK_UNKNOWN
  | 2 => Some NETWORK_MAINNET
  | 3 => Some NETWORK_REGTEST
  | 4 => Some NETWORK_SIGNET
  | 5 => Some NETWORK_TESTNET
  | _ => None
  end.
Definition to_i32 (self : Network) : Z :=
  match self with
  | NETWORK_UNSPECIFIED => 0
  | NETWORK_UNKNOWN => 1
  | NETWORK_MAINNET => 2
  | NETWORK_REGTEST => 3
  | NETWORK_SIGNET => 4
  | NETWORK_TESTNET => 5
  end.
Definition proto_name (self : Network) : string :=
  match self with
  | NETWORK_UNSPECIFIED => "NETWORK_UNSPECIFIED"
  | NETWORK_UNKNOWN => "NETWORK_UNKNOWN"
  | NETWORK_MAINNET => "NETWORK_MAINNET"
  | NETWORK_REGTEST => "NETWORK_REGTEST"
  | NETWORK_SIGNET => "NETWORK_SIGNET"
  | NETWORK_TESTNET => "NETWORK_TESTNET"
  end.
Definition from_proto_name (name : string) : option Network :=
  if String.eqb name "NETWORK_UNSPECIFIED" then Some NETWORK_UNSPECIFIED
  else if String.eqb name "NETWORK_UNKNOWN" then Some NETWORK_UNKNOWN
  else if String.eqb name "NETWORK_MAINNET" then Some NETWORK_MAINNET
  else if String.eqb name "NETWORK_REGTEST" then Some NETWORK_REGTEST
  else if String.eqb name "NETWORK_SIGNET" then Some NETWORK_SIGNET
  else if String.eqb name "NETWORK_TESTNET" then Some NETWORK_TESTNET
  else None.
Definition values : list Network :=
  [NETWORK_UNSPECIFIED; NETWORK_UNKNOWN; NETWORK_MAINNET; NETWORK_REGTEST; NETWORK_SIGNET; NETWORK_TESTNET].
#[global] Instance Network_enumeration : Enumeration Network := {
  from_i32 := from_i32; to_i32 := to_i32; proto_name := proto_name;
  from_proto_name := from_proto_name; values := values;
}.
(** In JSON: written as its name, read from its name, its number or null. *)
Definition serialize (self : Network) : string := proto_name self.
Definition visit_str (v : string) : outcome enum_error Network :=
  ok_or (from_proto_name v) (UnknownVariant v).
Definition visit_i64 (v : Z) : outcome enum_error Network :=
  v32 ← ok_or (try_i32 v) (OutOfRange v);
  ok_or (from_i32 v32) (UnknownValue v32).
Definition visit_u64 (v : Z) : outcome enum_error Network :=
  v32 ← ok_or (try_i32 v) (OutOfRange v);
  ok_or (from_i32 v32) (UnknownValue v32).
Definition visit_unit : outcome enum_error Network := Ok NETWORK_UNSPECIFIED.
End Network.

(** [cusf.mainchain.v1.OutPoint] *)
Module OutPoint.
Section methods.
Context `{BuffaTypes}.

Record OutPoint := mkOutPoint {
  txid : option ReverseHex.ReverseHex;
  vout : option UInt32Value;
}.
Definition with_txid v (self : OutPoint) : OutPoint := mkOutPoint v (vout self).
Definition with_vout v (self : OutPoint) : OutPoint := mkOutPoint (txid self) v.

Definition compute_size (self : OutPoint) (__cache : SizeCache) : Z * SizeCache :=
  (size_message 1 (txid self) ▷
   size_message 1 (vout self)) (0, __cache).
Definition write_to (self : OutPoint) : write_stmt :=
  write_message 1 (txid self) ▷
  write_message 2 (vout self).
Definition merge_field : merge_fn OutPoint := λ self tag buf ctx,
  match field_number tag with
  | 1 => merge_message (txid self) (λ v, with_txid v self) tag buf ctx
  | 2 => merge_message (vout self) (λ v, with_vout v self) tag buf ctx
  | _ => merge_unknown self tag buf ctx
  end.
Definition clear (self : OutPoint) : OutPoint := mkOutPoint None None.

Definition OutPoint_name : MessageName OutPoint := {|
  PACKAGE := "cusf.mainchain.v1";
  NAME := "OutPoint";
  FULL_NAME := "cusf.mainchain.v1.OutPoint";
  TYPE_URL := "type.googleapis.com/cusf.mainchain.v1.OutPoint";
|}.
#[global] Existing Instance OutPoint_name.
#[global] Instance OutPoint_message : Message OutPoint := {
  default_message := mkOutPoint None None; compute_size := compute_size; write_to := write_to;
  merge_field := merge_field;
}.
#[global] Instance OutPoint_clear : Clear OutPoint := { clear := clear }.
#[global] Instance OutPoint_spec : MessageSpec OutPoint := {
  records self := r_message 1 (txid self) ++ r_message 2 (vout self);
  schema := [(1, LengthDelimited); (2, LengthDelimited)];
  well_formed self := from_option well_formed True (txid self) ∧ from_option well_formed True (vout self);
  levels := 2;
}.
#[global] Instance txid_lens : Lens txid with_txid.
Proof. lens. Qed.
#[global] Instance vout_lens : Lens vout with_vout.
Proof. lens. Qed.
#[global] Instance OutPoint_laws `{!BuffaLaws, !BuffaTypesLaws} : MessageLaws OutPoint.
Proof. message_laws compute_size write_to merge_field. Qed.
#[global] Instance OutPoint_clear_laws : ClearLaws OutPoint.
Proof. by split. Qed.
End methods.
End OutPoint.

(** [cusf.mainchain.v1.GenerateToAddressRequest] *)
Module GenerateToAddressRequest.
Section methods.
Context `{BuffaTypes}.

Record GenerateToAddressRequest := mkGenerateToAddressRequest {
  blocks : option UInt32Value;
  address : string;
}.
Definition with_blocks v (self : GenerateToAddressRequest) : GenerateToAddressRequest :=
  mkGenerateToAddressRequest v (address self).
Definition with_address v (self : GenerateToAddressRequest) : GenerateToAddressRequest :=
  mkGenerateToAddressRequest (blocks self) v.

Definition compute_size (self : GenerateToAddressRequest) (__cache : SizeCache) : Z * SizeCache :=
  (size_message 1 (blocks self) ▷
   size_string 1 (address self)) (0, __cache).
Definition write_to (self : GenerateToAddressRequest) : write_stmt :=
  write_message 1 (blocks self) ▷
  write_string 2 (address self).
Definition merge_field : merge_fn GenerateToAddressRequest := λ self tag buf ctx,
  match field_number tag with
  | 1 => merge_message (blocks self) (λ v, with_blocks v self) tag buf ctx
  | 2 => merge_scalar LengthDelimited (merge_string (address self)) (λ v, with_address v self) tag buf
  | _ => merge_unknown self tag buf ctx
  end.
Definition clear (self : GenerateToAddressRequest) : GenerateToAddressRequest := mkGenerateToAddressRequest None EmptyString.

Definition GenerateToAddressRequest_name : MessageName GenerateToAddressRequest := {|
  PACKAGE := "cusf.mainchain.v1";
  NAME := "GenerateToAddressRequest";
  FULL_NAME := "cusf.mainchain.v1.GenerateToAddressRequest";
  TYPE_URL := "type.googleapis.com/cusf.mainchain.v1.GenerateToAddressRequest";
|}.
#[global] Existing Instance GenerateToAddressRequest_name.
#[global] Instance GenerateToAddressRequest_message : Message GenerateToAddressRequest := {
  default_message := mkGenerateToAddressRequest None EmptyString; compute_size := compute_size; write_to := write_to;
  merge_field := merge_field;
}.
#[global] Instance GenerateToAddressRequest_clear : Clear GenerateToAddressRequest := { clear := clear }.
#[global] Instance GenerateToAddressRequest_spec : MessageSpec GenerateToAddressRequest := {
  records self := r_message 1 (blocks self) ++ r_string 2 (address self);
  schema := [(1, LengthDelimited); (2, LengthDelimited)];
  well_formed self := from_option well_formed True (blocks self) ∧ string_ok (address self);
  levels := 1;
}.
#[global] Instance blocks_lens : Lens blocks with_blocks.
Proof. lens. Qed.
#[global] Instance address_lens : Lens address with_address.
Proof. lens. Qed.
#[global] Instance GenerateToAddressRequest_laws `{!BuffaLaws, !BuffaTypesLaws} : MessageLaws GenerateToAddressRequest.
Proof. message_laws compute_size write_to merge_field. Qed.
#[global] Instance GenerateToAddressRequest_clear_laws : ClearLaws GenerateToAddressRequest.
Proof. by split. Qed.
End methods.
End GenerateToAddressRequest.

(** [cusf.mainchain.v1.GenerateToAddressResponse] *)
Module GenerateToAddressResponse.
Section methods.
Context `{BuffaTypes}.

Record GenerateToAddressResponse := mkGenerateToAddressResponse {
  block_hashes : list ReverseHex.ReverseHex;
}.
Definition with_block_hashes v (self : GenerateToAddressResponse) : GenerateToAddressResponse :=
  mkGenerateToAddressResponse v.

Definition compute_size (self : GenerateToAddressResponse) (__cache : SizeCache) : Z * SizeCache :=
  (size_repeated 1 (block_hashes self)) (0, __cache).
Definition write_to (self : GenerateToAddressResponse) : write_stmt :=
  write_repeated 1 (block_hashes self).
Definition merge_field : merge_fn GenerateToAddressResponse := λ self tag buf ctx,
  match field_number tag with
  | 1 => merge_repeated (block_hashes self) (λ v, with_block_hashes v self) tag buf ctx
  | _ => merge_unknown self tag buf ctx
  end.
Definition clear (self : GenerateToAddressResponse) : GenerateToAddressResponse := mkGenerateToAddressResponse [].

Definition GenerateToAddressResponse_name : MessageName GenerateToAddressResponse := {|
  PACKAGE := "cusf.mainchain.v1";
  NAME := "GenerateToAddressResponse";
  FULL_NAME := "cusf.mainchain.v1.GenerateToAddressResponse";
  TYPE_URL := "type.googleapis.com/cusf.mainchain.v1.GenerateToAddressResponse";
|}.
#[global] Existing Instance GenerateToAddressResponse_name.
#[global] Instance GenerateToAddressResponse_message : Message GenerateToAddressResponse := {
  default_message := mkGenerateToAddressResponse []; compute_size := compute_size; write_to := write_to;
  merge_field := merge_field;
}.
#[global] Instance GenerateToAddressResponse_clear : Clear GenerateToAddressResponse := { clear := clear }.
#[global] Instance GenerateToAddressResponse_spec : MessageSpec GenerateToAddressResponse := {
  records self := r_repeated 1 (block_hashes self);
  schema := [(1, LengthDelimited)];
  well_formed self := Forall well_formed (block_hashes self);
  levels := 2;
}.
#[global] Instance block_hashes_lens : Lens block_hashes with_block_hashes.
Proof. lens. Qed.
#[global] Instance GenerateToAddressResponse_laws `{!BuffaLaws, !BuffaTypesLaws} : MessageLaws GenerateToAddressResponse.
Proof. message_laws compute_size write_to merge_field. Qed.
#[global] Instance GenerateToAddressResponse_clear_laws : ClearLaws GenerateToAddressResponse.
Proof. by split. Qed.
End methods.
End GenerateToAddressResponse.

(** [cusf.mainchain.v1.BlockHeaderInfo] *)
Module BlockHeaderInfo.
Section methods.
Context `{BuffaTypes}.

Record BlockHeaderInfo := mkBlockHeaderInfo {
  block_hash : option ReverseHex.ReverseHex;
  prev_block_hash : option ReverseHex.ReverseHex;
  height : Z; (* u32 *)
  work : option ConsensusHex.ConsensusHex;
  timestamp : Z; (* u64 *)
}.
Definition with_block_hash v (self : BlockHeaderInfo) : BlockHeaderInfo :=
  mkBlockHeaderInfo v (prev_block_hash self) (height self) (work self) (timestamp self).
Definition with_prev_block_hash v (self : BlockHeaderInfo) : BlockHeaderInfo :=
  mkBlockHeaderInfo (block_hash self) v (height self) (work self) (timestamp self).
Definition with_height v (self : BlockHeaderInfo) : BlockHeaderInfo :=
  mkBlockHeaderInfo (block_hash self) (prev_block_hash self) v (work self) (timestamp self).
Definition with_work v (self : BlockHeaderInfo) : BlockHeaderInfo :=
  mkBlockHeaderInfo (block_hash self) (prev_block_hash self) (height self) v (timestamp self).
Definition with_timestamp v (self : BlockHeaderInfo) : BlockHeaderInfo :=
  mkBlockHeaderInfo (block_hash self) (prev_block_hash self) (height self) (work self) v.

Definition compute_size (self : BlockHeaderInfo) (__cache : SizeCache) : Z * SizeCache :=
  (size_message 1 (block_hash self) ▷
   size_message 1 (prev_block_hash self) ▷
   size_uint32 1 (height self) ▷
   size_message 1 (work self) ▷
   size_uint64 1 (timestamp self)) (0, __cache).
Definition write_to (self : BlockHeaderInfo) : write_stmt :=
  write_message 1 (block_hash self) ▷
  write_message 2 (prev_block_hash self) ▷
  write_uint32 3 (height self) ▷
  write_message 4 (work self) ▷
  write_uint64 5 (timestamp self).
Definition merge_field : merge_fn BlockHeaderInfo := λ self tag buf ctx,
  match field_number tag with
  | 1 => merge_message (block_hash self) (λ v, with_block_hash v self) tag buf ctx
  | 2 => merge_message (prev_block_hash self) (λ v, with_prev_block_hash v self) tag buf ctx
  | 3 => merge_scalar Varint decode_uint32 (λ v, with_height v self) tag buf
  | 4 => merge_message (work self) (λ v, with_work v self) tag buf ctx
  | 5 => merge_scalar Varint decode_uint64 (λ v, with_timestamp v self) tag buf
  | _ => merge_unknown self tag buf ctx
  end.
Definition clear (self : BlockHeaderInfo) : BlockHeaderInfo := mkBlockHeaderInfo None None 0 None 0.

Definition BlockHeaderInfo_name : MessageName BlockHeaderInfo := {|
  PACKAGE := "cusf.mainchain.v1";
  NAME := "BlockHeaderInfo";
  FULL_NAME := "cusf.mainchain.v1.BlockHeaderInfo";
  TYPE_URL := "type.googleapis.com/cusf.mainchain.v1.BlockHeaderInfo";
|}.
#[global] Existing Instance BlockHeaderInfo_name.
#[global] Instance BlockHeaderInfo_message : Message BlockHeaderInfo := {
  default_message := mkBlockHeaderInfo None None 0 None 0; compute_size := compute_size; write_to := write_to;
  merge_field := merge_field;
}.
#[global] Instance BlockHeaderInfo_clear : Clear BlockHeaderInfo := { clear := clear }.
#[global] Instance BlockHeaderInfo_spec : MessageSpec BlockHeaderInfo := {
  records self := r_message 1 (block_hash self) ++ r_message 2 (prev_block_hash self) ++
    r_int 3 (height self) ++ r_message 4 (work self) ++ r_int 5 (timestamp self);
  schema := [(1, LengthDelimited); (2, LengthDelimited); (3, Varint); (4, LengthDelimited); (5, Varint)];
  well_formed self := from_option well_formed True (block_hash self) ∧
    from_option well_formed True (prev_block_hash self) ∧ in_u 32 (height self) ∧
    from_option well_formed True (work self) ∧ in_u 64 (timestamp self);
  levels := 2;
}.
#[global] Instance block_hash_lens : Lens block_hash with_block_hash.
Proof. lens. Qed.
#[global] Instance prev_block_hash_lens : Lens prev_block_hash with_prev_block_hash.
Proof. lens. Qed.
#[global] Instance height_lens : Lens height with_height.
Proof. lens. Qed.
#[global] Instance work_lens : Lens work with_work.
Proof. lens. Qed.
#[global] Instance timestamp_lens : Lens timestamp with_timestamp.
Proof. lens. Qed.
#[global] Instance BlockHeaderInfo_laws `{!BuffaLaws, !BuffaTypesLaws} : MessageLaws BlockHeaderInfo.
Proof. message_laws compute_size write_to merge_field. Qed.
#[global] Instance BlockHeaderInfo_clear_laws : ClearLaws BlockHeaderInfo.
Proof. by split. Qed.
End methods.
End BlockHeaderInfo.

(** [cusf.mainchain.v1.BlockInfo] *)
Module BlockInfo.
Section methods.
Context `{BuffaTypes}.

Record BlockInfo := mkBlockInfo {}.

Definition compute_size (self : BlockInfo) (__cache : SizeCache) : Z * SizeCache :=
  (0, __cache).
Definition write_to (self : BlockInfo) : write_stmt :=
  id.
Definition merge_field : merge_fn BlockInfo := λ self tag buf ctx,
  match field_number tag with
  | _ => merge_unknown self tag buf ctx
  end.
Definition clear (self : BlockInfo) : BlockInfo := mkBlockInfo.

Definition BlockInfo_name : MessageName BlockInfo := {|
  PACKAGE := "cusf.mainchain.v1";
  NAME := "BlockInfo";
  FULL_NAME := "cusf.mainchain.v1.BlockInfo";
  TYPE_URL := "type.googleapis.com/cusf.mainchain.v1.BlockInfo";
|}.
#[global] Existing Instance BlockInfo_name.
#[global] Instance BlockInfo_message : Message BlockInfo := {
  default_message := mkBlockInfo; compute_size := compute_size; write_to := write_to;
  merge_field := merge_field;
}.
#[global] Instance BlockInfo_clear : Clear BlockInfo := { clear := clear }.
#[global] Instance BlockInfo_spec : MessageSpec BlockInfo := {
  records self := [];
  schema := [];
  well_formed self := True;
  levels := 0;
}.
#[global] Instance BlockInfo_laws `{!BuffaLaws, !BuffaTypesLaws} : MessageLaws BlockInfo.
Proof. message_laws compute_size write_to merge_field. Qed.
#[global] Instance BlockInfo_clear_laws : ClearLaws BlockInfo.
Proof. by split. Qed.
End methods.
End BlockInfo.

(** [cusf.mainchain.v1.GetBlockHeaderInfoRequest] *)
Module GetBlockHeaderInfoRequest.
Section methods.
Context `{BuffaTypes}.

Record GetBlockHeaderInfoRequest := mkGetBlockHeaderInfoRequest {
  block_hash : option ReverseHex.ReverseHex;
  max_ancestors : option Z; (* u32 *)
}.
Definition with_block_hash v (self : GetBlockHeaderInfoRequest) : GetBlockHeaderInfoRequest :=
  mkGetBlockHeaderInfoRequest v (max_ancestors self).
Definition with_max_ancestors v (self : GetBlockHeaderInfoRequest) : GetBlockHeaderInfoRequest :=
  mkGetBlockHeaderInfoRequest (block_hash self) v.

Definition compute_size (self : GetBlockHeaderInfoRequest) (__cache : SizeCache) : Z * SizeCache :=
  (size_message 1 (block_hash self) ▷
   size_some_uint32 1 (max_ancestors self)) (0, __cache).
Definition write_to (self : GetBlockHeaderInfoRequest) : write_stmt :=
  write_message 1 (block_hash self) ▷
  write_some_uint32 2 (max_ancestors self).
Definition merge_field : merge_fn GetBlockHeaderInfoRequest := λ self tag buf ctx,
  match field_number tag with
  | 1 => merge_message (block_hash self) (λ v, with_block_hash v self) tag buf ctx
  | 2 => merge_scalar Varint decode_uint32 (λ v, with_max_ancestors (Some v) self) tag buf
  | _ => merge_unknown self tag buf ctx
  end.
Definition clear (self : GetBlockHeaderInfoRequest) : GetBlockHeaderInfoRequest := mkGetBlockHeaderInfoRequest None None.

Definition GetBlockHeaderInfoRequest_name : MessageName GetBlockHeaderInfoRequest := {|
  PACKAGE := "cusf.mainchain.v1";
  NAME := "GetBlockHeaderInfoRequest";
  FULL_NAME := "cusf.mainchain.v1.GetBlockHeaderInfoRequest";
  TYPE_URL := "type.googleapis.com/cusf.mainchain.v1.GetBlockHeaderInfoRequest";
|}.
#[global] Existing Instance GetBlockHeaderInfoRequest_name.
#[global] Instance GetBlockHeaderInfoRequest_message : Message GetBlockHeaderInfoRequest := {
  default_message := mkGetBlockHeaderInfoRequest None None; compute_size := compute_size; write_to := write_to;
  merge_field := merge_field;
}.
#[global] Instance GetBlockHeaderInfoRequest_clear : Clear GetBlockHeaderInfoRequest := { clear := clear }.
#[global] Instance GetBlockHeaderInfoRequest_spec : MessageSpec GetBlockHeaderInfoRequest := {
  records self := r_message 1 (block_hash self) ++ r_some_int 2 (max_ancestors self);
  schema := [(1, LengthDelimited); (2, Varint)];
  well_formed self := from_option well_formed True (block_hash self) ∧
    from_option (in_u 32) True (max_ancestors self);
  levels := 2;
}.
#[global] Instance block_hash_lens : Lens block_hash with_block_hash.
Proof. lens. Qed.
#[global] Instance max_ancestors_lens : Lens max_ancestors with_max_ancestors.
Proof. lens. Qed.
#[global] Instance GetBlockHeaderInfoRequest_laws `{!BuffaLaws, !BuffaTypesLaws} : MessageLaws GetBlockHeaderInfoRequest.
Proof. message_laws compute_size write_to merge_field. Qed.
#[global] Instance GetBlockHeaderInfoRequest_clear_laws : ClearLaws GetBlockHeaderInfoRequest.
Proof. by split. Qed.
End methods.
End GetBlockHeaderInfoRequest.

(** [cusf.mainchain.v1.GetBlockHeaderInfoResponse] *)
Module GetBlockHeaderInfoResponse.
Section methods.
Context `{BuffaTypes}.

Record GetBlockHeaderInfoResponse := mkGetBlockHeaderInfoResponse {
  header_infos : list BlockHeaderInfo.BlockHeaderInfo;
}.
Definition with_header_infos v (self : GetBlockHeaderInfoResponse) : GetBlockHeaderInfoResponse :=
  mkGetBlockHeaderInfoResponse v.

Definition compute_size (self : GetBlockHeaderInfoResponse) (__cache : SizeCache) : Z * SizeCache :=
  (size_repeated 1 (header_infos self)) (0, __cache).
Definition write_to (self : GetBlockHeaderInfoResponse) : write_stmt :=
  write_repeated 1 (header_infos self).
Definition merge_field : merge_fn GetBlockHeaderInfoResponse := λ self tag buf ctx,
  match field_number tag with
  | 1 => merge_repeated (header_infos self) (λ v, with_header_infos v self) tag buf ctx
  | _ => merge_unknown self tag buf ctx
  end.
Definition clear (self : GetBlockHeaderInfoResponse) : GetBlockHeaderInfoResponse := mkGetBlockHeaderInfoResponse [].

Definition GetBlockHeaderInfoResponse_name : MessageName GetBlockHeaderInfoResponse := {|
  PACKAGE := "cusf.mainchain.v1";
  NAME := "GetBlockHeaderInfoResponse";
  FULL_NAME := "cusf.mainchain.v1.GetBlockHeaderInfoResponse";
  TYPE_URL := "type.googleapis.com/cusf.mainchain.v1.GetBlockHeaderInfoResponse";
|}.
#[global] Existing Instance GetBlockHeaderInfoResponse_name.
#[global] Instance GetBlockHeaderInfoResponse_message : Message GetBlockHeaderInfoResponse := {
  default_message := mkGetBlockHeaderInfoResponse []; compute_size := compute_size; write_to := write_to;
  merge_field := merge_field;
}.
#[global] Instance GetBlockHeaderInfoResponse_clear : Clear GetBlockHeaderInfoResponse := { clear := clear }.
#[global] Instance GetBlockHeaderInfoResponse_spec : MessageSpec GetBlockHeaderInfoResponse := {
  records self := r_repeated 1 (header_infos self);
  schema := [(1, LengthDelimited)];
  well_formed self := Forall well_formed (header_infos self);
  levels := 3;
}.
#[global] Instance header_infos_lens : Lens header_infos with_header_infos.
Proof. lens. Qed.
#[global] Instance GetBlockHeaderInfoResponse_laws `{!BuffaLaws, !BuffaTypesLaws} : MessageLaws GetBlockHeaderInfoResponse.
Proof. message_laws compute_size write_to merge_field. Qed.
#[global] Instance GetBlockHeaderInfoResponse_clear_laws : ClearLaws GetBlockHeaderInfoResponse.
Proof. by split. Qed.
End methods.
End GetBlockHeaderInfoResponse.

(** [cusf.mainchain.v1.GetBlockInfoRequest] *)
Module GetBlockInfoRequest.
Section methods.
Context `{BuffaTypes}.

Record GetBlockInfoRequest := mkGetBlockInfoRequest {
  block_hash : option ReverseHex.ReverseHex;
  max_ancestors : option Z; (* u32 *)
}.
Definition with_block_hash v (self : GetBlockInfoRequest) : GetBlockInfoRequest :=
  mkGetBlockInfoRequest v (max_ancestors self).
Definition with_max_ancestors v (self : GetBlockInfoRequest) : GetBlockInfoRequest :=
  mkGetBlockInfoRequest (block_hash self) v.

Definition compute_size (self : GetBlockInfoRequest) (__cache : SizeCache) : Z * SizeCache :=
  (size_message 1 (block_hash self) ▷
   size_some_uint32 1 (max_ancestors self)) (0, __cache).
Definition write_to (self : GetBlockInfoRequest) : write_stmt :=
  write_message 1 (block_hash self) ▷
  write_some_uint32 3 (max_ancestors self).
Definition merge_field : merge_fn GetBlockInfoRequest := λ self tag buf ctx,
  match field_number tag with
  | 1 => merge_message (block_hash self) (λ v, with_block_hash v self) tag buf ctx
  | 3 => merge_scalar Varint decode_uint32 (λ v, with_max_ancestors (Some v) self) tag buf
  | _ => merge_unknown self tag buf ctx
  end.
Definition clear (self : GetBlockInfoRequest) : GetBlockInfoRequest := mkGetBlockInfoRequest None None.

Definition GetBlockInfoRequest_name : MessageName GetBlockInfoRequest := {|
  PACKAGE := "cusf.mainchain.v1";
  NAME := "GetBlockInfoRequest";
  FULL_NAME := "cusf.mainchain.v1.GetBlockInfoRequest";
  TYPE_URL := "type.googleapis.com/cusf.mainchain.v1.GetBlockInfoRequest";
|}.
#[global] Existing Instance GetBlockInfoRequest_name.
#[global] Instance GetBlockInfoRequest_message : Message GetBlockInfoRequest := {
  default_message := mkGetBlockInfoRequest None None; compute_size := compute_size; write_to := write_to;
  merge_field := merge_field;
}.
#[global] Instance GetBlockInfoRequest_clear : Clear GetBlockInfoRequest := { clear := clear }.
#[global] Instance GetBlockInfoRequest_spec : MessageSpec GetBlockInfoRequest := {
  records self := r_message 1 (block_hash self) ++ r_some_int 3 (max_ancestors self);
  schema := [(1, LengthDelimited); (3, Varint)];
  well_formed self := from_option well_formed True (block_hash self) ∧
    from_option (in_u 32) True (max_ancestors self);
  levels := 2;
}.
#[global] Instance block_hash_lens : Lens block_hash with_block_hash.
Proof. lens. Qed.
#[global] Instance max_ancestors_lens : Lens max_ancestors with_max_ancestors.
Proof. lens. Qed.
#[global] Instance GetBlockInfoRequest_laws `{!BuffaLaws, !BuffaTypesLaws} : MessageLaws GetBlockInfoRequest.
Proof. message_laws compute_size write_to merge_field. Qed.
#[global] Instance GetBlockInfoRequest_clear_laws : ClearLaws GetBlockInfoRequest.
Proof. by split. Qed.
End methods.
End GetBlockInfoRequest.

(** [cusf.mainchain.v1.GetBlockInfoResponse.Info] *)
Module GetBlockInfoResponse_Info.
Section methods.
Context `{BuffaTypes}.

Record Info := mkInfo {
  header_info : option BlockHeaderInfo.BlockHeaderInfo;
  block_info : option BlockInfo.BlockInfo;
}.
Definition with_header_info v (self : Info) : Info := mkInfo v (block_info self).
Definition with_block_info v (self : Info) : Info := mkInfo (header_info self) v.

Definition compute_size (self : Info) (__cache : SizeCache) : Z * SizeCache :=
  (size_message 1 (header_info self) ▷
   size_message 1 (block_info self)) (0, __cache).
Definition write_to (self : Info) : write_stmt :=
  write_message 1 (header_info self) ▷
  write_message 2 (block_info self).
Definition merge_field : merge_fn Info := λ self tag buf ctx,
  match field_number tag with
  | 1 => merge_message (header_info self) (λ v, with_header_info v self) tag buf ctx
  | 2 => merge_message (block_info self) (λ v, with_block_info v self) tag buf ctx
  | _ => merge_unknown self tag buf ctx
  end.
Definition clear (self : Info) : Info := mkInfo None None.

Definition Info_name : MessageName Info := {|
  PACKAGE := "cusf.mainchain.v1";
  NAME := "GetBlockInfoResponse.Info";
  FULL_NAME := "cusf.mainchain.v1.GetBlockInfoResponse.Info";
  TYPE_URL := "type.googleapis.com/cusf.mainchain.v1.GetBlockInfoResponse.Info";
|}.
#[global] Existing Instance Info_name.
#[global] Instance Info_message : Message Info := {
  default_message := mkInfo None None; compute_size := compute_size; write_to := write_to;
  merge_field := merge_field;
}.
#[global] Instance Info_clear : Clear Info := { clear := clear }.
#[global] Instance Info_spec : MessageSpec Info := {
  records self := r_message 1 (header_info self) ++ r_message 2 (block_info self);
  schema := [(1, LengthDelimited); (2, LengthDelimited)];
  well_formed self := from_option well_formed True (header_info self) ∧
    from_option well_formed True (block_info self);
  levels := 3;
}.
#[global] Instance header_info_lens : Lens header_info with_header_info.
Proof. lens. Qed.
#[global] Instance block_info_lens : Lens block_info with_block_info.
Proof. lens. Qed.
#[global] Instance Info_laws `{!BuffaLaws, !BuffaTypesLaws} : MessageLaws Info.
Proof. message_laws compute_size write_to merge_field. Qed.
#[global] Instance Info_clear_laws : ClearLaws Info.
Proof. by split. Qed.
End methods.
End GetBlockInfoResponse_Info.

(** [cusf.mainchain.v1.GetBlockInfoResponse] *)
Module GetBlockInfoResponse.
Section methods.
Context `{BuffaTypes}.

Record GetBlockInfoResponse := mkGetBlockInfoResponse {
  infos : list GetBlockInfoResponse_Info.Info;
}.
Definition with_infos v (self : GetBlockInfoResponse) : GetBlockInfoResponse := mkGetBlockInfoResponse v.

Definition compute_size (self : GetBlockInfoResponse) (__cache : SizeCache) : Z * SizeCache :=
  (size_repeated 1 (infos self)) (0, __cache).
Definition write_to (self : GetBlockInfoResponse) : write_stmt :=
  write_repeated 1 (infos self).
Definition merge_field : merge_fn GetBlockInfoResponse := λ self tag buf ctx,
  match field_number tag with
  | 1 => merge_repeated (infos self) (λ v, with_infos v self) tag buf ctx
  | _ => merge_unknown self tag buf ctx
  end.
Definition clear (self : GetBlockInfoResponse) : GetBlockInfoResponse := mkGetBlockInfoResponse [].

Definition GetBlockInfoResponse_name : MessageName GetBlockInfoResponse := {|
  PACKAGE := "cusf.mainchain.v1";
  NAME := "GetBlockInfoResponse";
  FULL_NAME := "cusf.mainchain.v1.GetBlockInfoResponse";
  TYPE_URL := "type.googleapis.com/cusf.mainchain.v1.GetBlockInfoResponse";
|}.
#[global] Existing Instance GetBlockInfoResponse_name.
#[global] Instance GetBlockInfoResponse_message : Message GetBlockInfoResponse := {
  default_message := mkGetBlockInfoResponse []; compute_size := compute_size; write_to := write_to;
  merge_field := merge_field;
}.
#[global] Instance GetBlockInfoResponse_clear : Clear GetBlockInfoResponse := { clear := clear }.
#[global] Instance GetBlockInfoResponse_spec : MessageSpec GetBlockInfoResponse := {
  records self := r_repeated 1 (infos self);
  schema := [(1, LengthDelimited)];
  well_formed self := Forall well_formed (infos self);
  levels := 4;
}.
#[global] Instance infos_lens : Lens infos with_infos.
Proof. lens. Qed.
#[global] Instance GetBlockInfoResponse_laws `{!BuffaLaws, !BuffaTypesLaws} : MessageLaws GetBlockInfoResponse.
Proof. message_laws compute_size write_to merge_field. Qed.
#[global] Instance GetBlockInfoResponse_clear_laws : ClearLaws GetBlockInfoResponse.
Proof. by split. Qed.
End methods.
End GetBlockInfoResponse.

(** [cusf.mainchain.v1.GetChainInfoRequest] *)
Module GetChainInfoRequest.
Section methods.
Context `{BuffaTypes}.

Record GetChainInfoRequest := mkGetChainInfoRequest {}.

Definition compute_size (self : GetChainInfoRequest) (__cache : SizeCache) : Z * SizeCache :=
  (0, __cache).
Definition write_to (self : GetChainInfoRequest) : write_stmt :=
  id.
Definition merge_field : merge_fn GetChainInfoRequest := λ self tag buf ctx,
  match field_number tag with
  | _ => merge_unknown self tag buf ctx
  end.
Definition clear (self : GetChainInfoRequest) : GetChainInfoRequest := mkGetChainInfoRequest.

Definition GetChainInfoRequest_name : MessageName GetChainInfoRequest := {|
  PACKAGE := "cusf.mainchain.v1";
  NAME := "GetChainInfoRequest";
  FULL_NAME := "cusf.mainchain.v1.GetChainInfoRequest";
  TYPE_URL := "type.googleapis.com/cusf.mainchain.v1.GetChainInfoRequest";
|}.
#[global] Existing Instance GetChainInfoRequest_name.
#[global] Instance GetChainInfoRequest_message : Message GetChainInfoRequest := {
  default_message := mkGetChainInfoRequest; compute_size := compute_size; write_to := write_to;
  merge_field := merge_field;
}.
#[global] Instance GetChainInfoRequest_clear : Clear GetChainInfoRequest := { clear := clear }.
#[global] Instance GetChainInfoRequest_spec : MessageSpec GetChainInfoRequest := {
  records self := [];
  schema := [];
  well_formed self := True;
  levels := 0;
}.
#[global] Instance GetChainInfoRequest_laws `{!BuffaLaws, !BuffaTypesLaws} : MessageLaws GetChainInfoRequest.
Proof. message_laws compute_size write_to merge_field. Qed.
#[global] Instance GetChainInfoRequest_clear_laws : ClearLaws GetChainInfoRequest.
Proof. by split. Qed.
End methods.
End GetChainInfoRequest.

(** [cusf.mainchain.v1.GetChainInfoResponse] *)
Module GetChainInfoResponse.
Section methods.
Context `{BuffaTypes}.

Record GetChainInfoResponse := mkGetChainInfoResponse {
  network : EnumValue Network.Network;
  activation_height : Z; (* u32 *)
}.
Definition with_network v (self : GetChainInfoResponse) : GetChainInfoResponse :=
  mkGetChainInfoResponse v (activation_height self).
Definition with_activation_height v (self : GetChainInfoResponse) : GetChainInfoResponse :=
  mkGetChainInfoResponse (network self) v.

Definition compute_size (self : GetChainInfoResponse) (__cache : SizeCache) : Z * SizeCache :=
  (size_enum 1 (network self) ▷
   size_uint32 1 (activation_height self)) (0, __cache).
Definition write_to (self : GetChainInfoResponse) : write_stmt :=
  write_enum 1 (network self) ▷
  write_uint32 3 (activation_height self).
Definition merge_field : merge_fn GetChainInfoResponse := λ self tag buf ctx,
  match field_number tag with
  | 1 => merge_scalar Varint decode_int32 (λ v, with_network (enum_from v) self) tag buf
  | 3 => merge_scalar Varint decode_uint32 (λ v, with_activation_height v self) tag buf
  | _ => merge_unknown self tag buf ctx
  end.
Definition clear (self : GetChainInfoResponse) : GetChainInfoResponse := mkGetChainInfoResponse (enum_from 0) 0.

Definition GetChainInfoResponse_name : MessageName GetChainInfoResponse := {|
  PACKAGE := "cusf.mainchain.v1";
  NAME := "GetChainInfoResponse";
  FULL_NAME := "cusf.mainchain.v1.GetChainInfoResponse";
  TYPE_URL := "type.googleapis.com/cusf.mainchain.v1.GetChainInfoResponse";
|}.
#[global] Existing Instance GetChainInfoResponse_name.
#[global] Instance GetChainInfoResponse_message : Message GetChainInfoResponse := {
  default_message := mkGetChainInfoResponse (enum_from 0) 0; compute_size := compute_size; write_to := write_to;
  merge_field := merge_field;
}.
#[global] Instance GetChainInfoResponse_clear : Clear GetChainInfoResponse := { clear := clear }.
#[global] Instance GetChainInfoResponse_spec : MessageSpec GetChainInfoResponse := {
  records self := r_enum 1 (network self) ++ r_int 3 (activation_height self);
  schema := [(1, Varint); (3, Varint)];
  well_formed self := enum_ok (network self) ∧ in_u 32 (activation_height self);
  levels := 0;
}.
#[global] Instance network_lens : Lens network with_network.
Proof. lens. Qed.
#[global] Instance activation_height_lens : Lens activation_height with_activation_height.
Proof. lens. Qed.
#[global] Instance GetChainInfoResponse_laws `{!BuffaLaws, !BuffaTypesLaws} : MessageLaws GetChainInfoResponse.
Proof. message_laws compute_size write_to merge_field. Qed.
#[global] Instance GetChainInfoResponse_clear_laws : ClearLaws GetChainInfoResponse.
Proof. by split. Qed.
End methods.
End GetChainInfoResponse.

(** [cusf.mainchain.v1.GetChainTipRequest] *)
Module GetChainTipRequest.
Section methods.
Context `{BuffaTypes}.

Record GetChainTipRequest := mkGetChainTipRequest {}.

Definition compute_size (self : GetChainTipRequest) (__cache : SizeCache) : Z * SizeCache :=
  (0, __cache).
Definition write_to (self : GetChainTipRequest) : write_stmt :=
  id.
Definition merge_field : merge_fn GetChainTipRequest := λ self tag buf ctx,
  match field_number tag with
  | _ => merge_unknown self tag buf ctx
  end.
Definition clear (self : GetChainTipRequest) : GetChainTipRequest := mkGetChainTipRequest.

Definition GetChainTipRequest_name : MessageName GetChainTipRequest := {|
  PACKAGE := "cusf.mainchain.v1";
  NAME := "GetChainTipRequest";
  FULL_NAME := "cusf.mainchain.v1.GetChainTipRequest";
  TYPE_URL := "type.googleapis.com/cusf.mainchain.v1.GetChainTipRequest";
|}.
#[global] Existing Instance GetChainTipRequest_name.
#[global] Instance GetChainTipRequest_message : Message GetChainTipRequest := {
  default_message := mkGetChainTipRequest; compute_size := compute_size; write_to := write_to;
  merge_field := merge_field;
}.
#[global] Instance GetChainTipRequest_clear : Clear GetChainTipRequest := { clear := clear }.
#[global] Instance GetChainTipRequest_spec : MessageSpec GetChainTipRequest := {
  records self := [];
  schema := [];
  well_formed self := True;
  levels := 0;
}.
#[global] Instance GetChainTipRequest_laws `{!BuffaLaws, !BuffaTypesLaws} : MessageLaws GetChainTipRequest.
Proof. message_laws compute_size write_to merge_field. Qed.
#[global] Instance GetChainTipRequest_clear_laws : ClearLaws GetChainTipRequest.
Proof. by split. Qed.
End methods.
End GetChainTipRequest.

(** [cusf.mainchain.v1.GetChainTipResponse] *)
Module GetChainTipResponse.
Section methods.
Context `{BuffaTypes}.

Record GetChainTipResponse := mkGetChainTipResponse {
  block_header_info : option BlockHeaderInfo.BlockHeaderInfo;
}.
Definition with_block_header_info v (self : GetChainTipResponse) : GetChainTipResponse := mkGetChainTipResponse v.

Definition compute_size (self : GetChainTipResponse) (__cache : SizeCache) : Z * SizeCache :=
  (size_message 1 (block_header_info self)) (0, __cache).
Definition write_to (self : GetChainTipResponse) : write_stmt :=
  write_message 1 (block_header_info self).
Definition merge_field : merge_fn GetChainTipResponse := λ self tag buf ctx,
  match field_number tag with
  | 1 => merge_message (block_header_info self) (λ v, with_block_header_info v self) tag buf ctx
  | _ => merge_unknown self tag buf ctx
  end.
Definition clear (self : GetChainTipResponse) : GetChainTipResponse := mkGetChainTipResponse None.

Definition GetChainTipResponse_name : MessageName GetChainTipResponse := {|
  PACKAGE := "cusf.mainchain.v1";
  NAME := "GetChainTipResponse";
  FULL_NAME := "cusf.mainchain.v1.GetChainTipResponse";
  TYPE_URL := "type.googleapis.com/cusf.mainchain.v1.GetChainTipResponse";
|}.
#[global] Existing Instance GetChainTipResponse_name.
#[global] Instance GetChainTipResponse_message : Message GetChainTipResponse := {
  default_message := mkGetChainTipResponse None; compute_size := compute_size; write_to := write_to;
  merge_field := merge_field;
}.
#[global] Instance GetChainTipResponse_clear : Clear GetChainTipResponse := { clear := clear }.
#[global] Instance GetChainTipResponse_spec : MessageSpec GetChainTipResponse := {
  records self := r_message 1 (block_header_info self);
  schema := [(1, LengthDelimited)];
  well_formed self := from_option well_formed True (block_header_info self);
  levels := 3;
}.
#[global] Instance block_header_info_lens : Lens block_header_info with_block_header_info.
Proof. lens. Qed.
#[global] Instance GetChainTipResponse_laws `{!BuffaLaws, !BuffaTypesLaws} : MessageLaws GetChainTipResponse.
Proof. message_laws compute_size write_to merge_field. Qed.
#[global] Instance GetChainTipResponse_clear_laws : ClearLaws GetChainTipResponse.
Proof. by split. Qed.
End methods.
End GetChainTipResponse.

(** [cusf.mainchain.v1.SubscribeEventsRequest] *)
Module SubscribeEventsRequest.
Section methods.
Context `{BuffaTypes}.

Record SubscribeEventsRequest := mkSubscribeEventsRequest {}.

Definition compute_size (self : SubscribeEventsRequest) (__cache : SizeCache) : Z * SizeCache :=
  (0, __cache).
Definition write_to (self : SubscribeEventsRequest) : write_stmt :=
  id.
Definition merge_field : merge_fn SubscribeEventsRequest := λ self tag buf ctx,
  match field_number tag with
  | _ => merge_unknown self tag buf ctx
  end.
Definition clear (self : SubscribeEventsRequest) : SubscribeEventsRequest := mkSubscribeEventsRequest.

Definition SubscribeEventsRequest_name : MessageName SubscribeEventsRequest := {|
  PACKAGE := "cusf.mainchain.v1";
  NAME := "SubscribeEventsRequest";
  FULL_NAME := "cusf.mainchain.v1.SubscribeEventsRequest";
  TYPE_URL := "type.googleapis.com/cusf.mainchain.v1.SubscribeEventsRequest";
|}.
#[global] Existing Instance SubscribeEventsRequest_name.
#[global] Instance SubscribeEventsRequest_message : Message SubscribeEventsRequest := {
  default_message := mkSubscribeEventsRequest; compute_size := compute_size; write_to := write_to;
  merge_field := merge_field;
}.
#[global] Instance SubscribeEventsRequest_clear : Clear SubscribeEventsRequest := { clear := clear }.
#[global] Instance SubscribeEventsRequest_spec : MessageSpec SubscribeEventsRequest := {
  records self := [];
  schema := [];
  well_formed self := True;
  levels := 0;
}.
#[global] Instance SubscribeEventsRequest_laws `{!BuffaLaws, !BuffaTypesLaws} : MessageLaws SubscribeEventsRequest.
Proof. message_laws compute_size write_to merge_field. Qed.
#[global] Instance SubscribeEventsRequest_clear_laws : ClearLaws SubscribeEventsRequest.
Proof. by split. Qed.
End methods.
End SubscribeEventsRequest.

(** [cusf.mainchain.v1.SubscribeEventsResponse.Event.ConnectBlock] *)
Module SubscribeEventsResponse_Event_ConnectBlock.
Section methods.
Context `{BuffaTypes}.

Record ConnectBlock := mkConnectBlock {
  header_info : option BlockHeaderInfo.BlockHeaderInfo;
  block_info : option BlockInfo.BlockInfo;
}.
Definition with_header_info v (self : ConnectBlock) : ConnectBlock := mkConnectBlock v (block_info self).
Definition with_block_info v (self : ConnectBlock) : ConnectBlock := mkConnectBlock (header_info self) v.

Definition compute_size (self : ConnectBlock) (__cache : SizeCache) : Z * SizeCache :=
  (size_message 1 (header_info self) ▷
   size_message 1 (block_info self)) (0, __cache).
Definition write_to (self : ConnectBlock) : write_stmt :=
  write_message 1 (header_info self) ▷
  write_message 2 (block_info self).
Definition merge_field : merge_fn ConnectBlock := λ self tag buf ctx,
  match field_number tag with
  | 1 => merge_message (header_info self) (λ v, with_header_info v self) tag buf ctx
  | 2 => merge_message (block_info self) (λ v, with_block_info v self) tag buf ctx
  | _ => merge_unknown self tag buf ctx
  end.
Definition clear (self : ConnectBlock) : ConnectBlock := mkConnectBlock None None.

Definition ConnectBlock_name : MessageName ConnectBlock := {|
  PACKAGE := "cusf.mainchain.v1";
  NAME := "SubscribeEventsResponse.Event.ConnectBlock";
  FULL_NAME := "cusf.mainchain.v1.SubscribeEventsResponse.Event.ConnectBlock";
  TYPE_URL := "type.googleapis.com/cusf.mainchain.v1.SubscribeEventsResponse.Event.ConnectBlock";
|}.
#[global] Existing Instance ConnectBlock_name.
#[global] Instance ConnectBlock_message : Message ConnectBlock := {
  default_message := mkConnectBlock None None; compute_size := compute_size; write_to := write_to;
  merge_field := merge_field;
}.
#[global] Instance ConnectBlock_clear : Clear ConnectBlock := { clear := clear }.
#[global] Instance ConnectBlock_spec : MessageSpec ConnectBlock := {
  records self := r_message 1 (header_info self) ++ r_message 2 (block_info self);
  schema := [(1, LengthDelimited); (2, LengthDelimited)];
  well_formed self := from_option well_formed True (header_info self) ∧
    from_option well_formed True (block_info self);
  levels := 3;
}.
#[global] Instance header_info_lens : Lens header_info with_header_info.
Proof. lens. Qed.
#[global] Instance block_info_lens : Lens block_info with_block_info.
Proof. lens. Qed.
#[global] Instance ConnectBlock_laws `{!BuffaLaws, !BuffaTypesLaws} : MessageLaws ConnectBlock.
Proof. message_laws compute_size write_to merge_field. Qed.
#[global] Instance ConnectBlock_clear_laws : ClearLaws ConnectBlock.
Proof. by split. Qed.
End methods.
End SubscribeEventsResponse_Event_ConnectBlock.

(** [cusf.mainchain.v1.SubscribeEventsResponse.Event.DisconnectBlock] *)
Module SubscribeEventsResponse_Event_DisconnectBlock.
Section methods.
Context `{BuffaTypes}.

Record DisconnectBlock := mkDisconnectBlock {
  block_hash : option ReverseHex.ReverseHex;
}.
Definition with_block_hash v (self : DisconnectBlock) : DisconnectBlock := mkDisconnectBlock v.

Definition compute_size (self : DisconnectBlock) (__cache : SizeCache) : Z * SizeCache :=
  (size_message 1 (block_hash self)) (0, __cache).
Definition write_to (self : DisconnectBlock) : write_stmt :=
  write_message 1 (block_hash self).
Definition merge_field : merge_fn DisconnectBlock := λ self tag buf ctx,
  match field_number tag with
  | 1 => merge_message (block_hash self) (λ v, with_block_hash v self) tag buf ctx
  | _ => merge_unknown self tag buf ctx
  end.
Definition clear (self : DisconnectBlock) : DisconnectBlock := mkDisconnectBlock None.

Definition DisconnectBlock_name : MessageName DisconnectBlock := {|
  PACKAGE := "cusf.mainchain.v1";
  NAME := "SubscribeEventsResponse.Event.DisconnectBlock";
  FULL_NAME := "cusf.mainchain.v1.SubscribeEventsResponse.Event.DisconnectBlock";
  TYPE_URL := "type.googleapis.com/cusf.mainchain.v1.SubscribeEventsResponse.Event.DisconnectBlock";
|}.
#[global] Existing Instance DisconnectBlock_name.
#[global] Instance DisconnectBlock_message : Message DisconnectBlock := {
  default_message := mkDisconnectBlock None; compute_size := compute_size; write_to := write_to;
  merge_field := merge_field;
}.
#[global] Instance DisconnectBlock_clear : Clear DisconnectBlock := { clear := clear }.
#[global] Instance DisconnectBlock_spec : MessageSpec DisconnectBlock := {
  records self := r_message 1 (block_hash self);
  schema := [(1, LengthDelimited)];
  well_formed self := from_option well_formed True (block_hash self);
  levels := 2;
}.
#[global] Instance block_hash_lens : Lens block_hash with_block_hash.
Proof. lens. Qed.
#[global] Instance DisconnectBlock_laws `{!BuffaLaws, !BuffaTypesLaws} : MessageLaws DisconnectBlock.
Proof. message_laws compute_size write_to merge_field. Qed.
#[global] Instance DisconnectBlock_clear_laws : ClearLaws DisconnectBlock.
Proof. by split. Qed.
End methods.
End SubscribeEventsResponse_Event_DisconnectBlock.

(** [cusf.mainchain.v1.SubscribeEventsResponse.Event]: one of two messages. *)
Module SubscribeEventsResponse_Event.
Section methods.
Context `{BuffaTypes}.

Inductive EventOneof :=
| ConnectBlock (v : SubscribeEventsResponse_Event_ConnectBlock.ConnectBlock)
| DisconnectBlock (v : SubscribeEventsResponse_Event_DisconnectBlock.DisconnectBlock).
Record Event := mkEvent { event : option EventOneof }.

Definition compute_size (self : Event) (__cache : SizeCache) : Z * SizeCache :=
  (match event self with
   | Some (ConnectBlock x) => size_nested 1 x
   | Some (DisconnectBlock x) => size_nested 1 x
   | None => id
   end) (0, __cache).
Definition write_to (self : Event) : write_stmt :=
  match event self with
  | Some (ConnectBlock x) => write_nested 1 x
  | Some (DisconnectBlock x) => write_nested 2 x
  | None => id
  end.
(** The variant the event already has is merged into; any other is replaced. *)
Definition merge_field : merge_fn Event := λ self tag buf ctx,
  match field_number tag with
  | 1 => merge_message (match event self with Some (ConnectBlock existing) => Some existing | _ => None end)
           (λ v, mkEvent (ConnectBlock <$> v)) tag buf ctx
  | 2 => merge_message (match event self with Some (DisconnectBlock existing) => Some existing | _ => None end)
           (λ v, mkEvent (DisconnectBlock <$> v)) tag buf ctx
  | _ => merge_unknown self tag buf ctx
  end.
Definition clear (self : Event) : Event := mkEvent None.

Definition Event_name : MessageName Event := {|
  PACKAGE := "cusf.mainchain.v1";
  NAME := "SubscribeEventsResponse.Event";
  FULL_NAME := "cusf.mainchain.v1.SubscribeEventsResponse.Event";
  TYPE_URL := "type.googleapis.com/cusf.mainchain.v1.SubscribeEventsResponse.Event";
|}.
#[global] Existing Instance Event_name.
#[global] Instance Event_message : Message Event := {
  default_message := mkEvent None; compute_size := compute_size; write_to := write_to;
  merge_field := merge_field;
}.
#[global] Instance Event_clear : Clear Event := { clear := clear }.
#[global] Instance Event_spec : MessageSpec Event := {
  records self :=
    match event self with
    | Some (ConnectBlock v) => [(1, VMessage (records v))]
    | Some (DisconnectBlock v) => [(2, VMessage (records v))]
    | None => []
    end;
  schema := [(1, LengthDelimited); (2, LengthDelimited)];
  well_formed self :=
    match event self with
    | Some (ConnectBlock v) => well_formed v
    | Some (DisconnectBlock v) => well_formed v
    | None => True
    end;
  levels := 4;
}.
#[global] Instance Event_laws `{!BuffaLaws, !BuffaTypesLaws} : MessageLaws Event.
Proof. oneof_laws compute_size write_to merge_field. Qed.
#[global] Instance Event_clear_laws : ClearLaws Event.
Proof. by split. Qed.
End methods.
End SubscribeEventsResponse_Event.

(** [cusf.mainchain.v1.SubscribeEventsResponse] *)
Module SubscribeEventsResponse.
Section methods.
Context `{BuffaTypes}.

Record SubscribeEventsResponse := mkSubscribeEventsResponse {
  event : option SubscribeEventsResponse_Event.Event;
}.
Definition with_event v (self : SubscribeEventsResponse) : SubscribeEventsResponse := mkSubscribeEventsResponse v.

Definition compute_size (self : SubscribeEventsResponse) (__cache : SizeCache) : Z * SizeCache :=
  (size_message 1 (event self)) (0, __cache).
Definition write_to (self : SubscribeEventsResponse) : write_stmt :=
  write_message 1 (event self).
Definition merge_field : merge_fn SubscribeEventsResponse := λ self tag buf ctx,
  match field_number tag with
  | 1 => merge_message (event self) (λ v, with_event v self) tag buf ctx
  | _ => merge_unknown self tag buf ctx
  end.
Definition clear (self : SubscribeEventsResponse) : SubscribeEventsResponse := mkSubscribeEventsResponse None.

Definition SubscribeEventsResponse_name : MessageName SubscribeEventsResponse := {|
  PACKAGE := "cusf.mainchain.v1";
  NAME := "SubscribeEventsResponse";
  FULL_NAME := "cusf.mainchain.v1.SubscribeEventsResponse";
  TYPE_URL := "type.googleapis.com/cusf.mainchain.v1.SubscribeEventsResponse";
|}.
#[global] Existing Instance SubscribeEventsResponse_name.
#[global] Instance SubscribeEventsResponse_message : Message SubscribeEventsResponse := {
  default_message := mkSubscribeEventsResponse None; compute_size := compute_size; write_to := write_to;
  merge_field := merge_field;
}.
#[global] Instance SubscribeEventsResponse_clear : Clear SubscribeEventsResponse := { clear := clear }.
#[global] Instance SubscribeEventsResponse_spec : MessageSpec SubscribeEventsResponse := {
  records self := r_message 1 (event self);
  schema := [(1, LengthDelimited)];
  well_formed self := from_option well_formed True (event self);
  levels := 5;
}.
#[global] Instance event_lens : Lens event with_event.
Proof. lens. Qed.
#[global] Instance SubscribeEventsResponse_laws `{!BuffaLaws, !BuffaTypesLaws} : MessageLaws SubscribeEventsResponse.
Proof. message_laws compute_size write_to merge_field. Qed.
#[global] Instance SubscribeEventsResponse_clear_laws : ClearLaws SubscribeEventsResponse.
Proof. by split. Qed.
End methods.
End SubscribeEventsResponse.

(** [cusf.mainchain.v1.SubscribeHeaderSyncProgressRequest] *)
Module SubscribeHeaderSyncProgressRequest.
Section methods.
Context `{BuffaTypes}.

Record SubscribeHeaderSyncProgressRequest := mkSubscribeHeaderSyncProgressRequest {}.

Definition compute_size (self : SubscribeHeaderSyncProgressRequest) (__cache : SizeCache) : Z * SizeCache :=
  (0, __cache).
Definition write_to (self : SubscribeHeaderSyncProgressRequest) : write_stmt :=
  id.
Definition merge_field : merge_fn SubscribeHeaderSyncProgressRequest := λ self tag buf ctx,
  match field_number tag with
  | _ => merge_unknown self tag buf ctx
  end.
Definition clear (self : SubscribeHeaderSyncProgressRequest) : SubscribeHeaderSyncProgressRequest := mkSubscribeHeaderSyncProgressRequest.

Definition SubscribeHeaderSyncProgressRequest_name : MessageName SubscribeHeaderSyncProgressRequest := {|
  PACKAGE := "cusf.mainchain.v1";
  NAME := "SubscribeHeaderSyncProgressRequest";
  FULL_NAME := "cusf.mainchain.v1.SubscribeHeaderSyncProgressRequest";
  TYPE_URL := "type.googleapis.com/cusf.mainchain.v1.SubscribeHeaderSyncProgressRequest";
|}.
#[global] Existing Instance SubscribeHeaderSyncProgressRequest_name.
#[global] Instance SubscribeHeaderSyncProgressRequest_message : Message SubscribeHeaderSyncProgressRequest := {
  default_message := mkSubscribeHeaderSyncProgressRequest; compute_size := compute_size; write_to := write_to;
  merge_field := merge_field;
}.
#[global] Instance SubscribeHeaderSyncProgressRequest_clear : Clear SubscribeHeaderSyncProgressRequest := { clear := clear }.
#[global] Instance SubscribeHeaderSyncProgressRequest_spec : MessageSpec SubscribeHeaderSyncProgressRequest := {
  records self := [];
  schema := [];
  well_formed self := True;
  levels := 0;
}.
#[global] Instance SubscribeHeaderSyncProgressRequest_laws `{!BuffaLaws, !BuffaTypesLaws} : MessageLaws SubscribeHeaderSyncProgressRequest.
Proof. message_laws compute_size write_to merge_field. Qed.
#[global] Instance SubscribeHeaderSyncProgressRequest_clear_laws : ClearLaws SubscribeHeaderSyncProgressRequest.
Proof. by split. Qed.
End methods.
End SubscribeHeaderSyncProgressRequest.

(** [cusf.mainchain.v1.SubscribeHeaderSyncProgressResponse] *)
Module SubscribeHeaderSyncProgressResponse.
Section methods.
Context `{BuffaTypes}.

Record SubscribeHeaderSyncProgressResponse := mkSubscribeHeaderSyncProgressResponse {
  current_height : option UInt32Value;
}.
Definition with_current_height v (self : SubscribeHeaderSyncProgressResponse) : SubscribeHeaderSyncProgressResponse :=
  mkSubscribeHeaderSyncProgressResponse v.

Definition compute_size (self : SubscribeHeaderSyncProgressResponse) (__cache : SizeCache) : Z * SizeCache :=
  (size_message 1 (current_height self)) (0, __cache).
Definition write_to (self : SubscribeHeaderSyncProgressResponse) : write_stmt :=
  write_message 1 (current_height self).
Definition merge_field : merge_fn SubscribeHeaderSyncProgressResponse := λ self tag buf ctx,
  match field_number tag with
  | 1 => merge_message (current_height self) (λ v, with_current_height v self) tag buf ctx
  | _ => merge_unknown self tag buf ctx
  end.
Definition clear (self : SubscribeHeaderSyncProgressResponse) : SubscribeHeaderSyncProgressResponse := mkSubscribeHeaderSyncProgressResponse None.

Definition SubscribeHeaderSyncProgressResponse_name : MessageName SubscribeHeaderSyncProgressResponse := {|
  PACKAGE := "cusf.mainchain.v1";
  NAME := "SubscribeHeaderSyncProgressResponse";
  FULL_NAME := "cusf.mainchain.v1.SubscribeHeaderSyncProgressResponse";
  TYPE_URL := "type.googleapis.com/cusf.mainchain.v1.SubscribeHeaderSyncProgressResponse";
|}.
#[global] Existing Instance SubscribeHeaderSyncProgressResponse_name.
#[global] Instance SubscribeHeaderSyncProgressResponse_message : Message SubscribeHeaderSyncProgressResponse := {
  default_message := mkSubscribeHeaderSyncProgressResponse None; compute_size := compute_size; write_to := write_to;
  merge_field := merge_field;
}.
#[global] Instance SubscribeHeaderSyncProgressResponse_clear : Clear SubscribeHeaderSyncProgressResponse := { clear := clear }.
#[global] Instance SubscribeHeaderSyncProgressResponse_spec : MessageSpec SubscribeHeaderSyncProgressResponse := {
  records self := r_message 1 (current_height self);
  schema := [(1, LengthDelimited)];
  well_formed self := from_option well_formed True (current_height self);
  levels := 1;
}.
#[global] Instance current_height_lens : Lens current_height with_current_height.
Proof. lens. Qed.
#[global] Instance SubscribeHeaderSyncProgressResponse_laws `{!BuffaLaws, !BuffaTypesLaws} : MessageLaws SubscribeHeaderSyncProgressResponse.
Proof. message_laws compute_size write_to merge_field. Qed.
#[global] Instance SubscribeHeaderSyncProgressResponse_clear_laws : ClearLaws SubscribeHeaderSyncProgressResponse.
Proof. by split. Qed.
End methods.
End SubscribeHeaderSyncProgressResponse.

(** [cusf.mainchain.v1.StopRequest] *)
Module StopRequest.
Section methods.
Context `{BuffaTypes}.

Record StopRequest := mkStopRequest {}.

Definition compute_size (self : StopRequest) (__cache : SizeCache) : Z * SizeCache :=
  (0, __cache).
Definition write_to (self : StopRequest) : write_stmt :=
  id.
Definition merge_field : merge_fn StopRequest := λ self tag buf ctx,
  match field_number tag with
  | _ => merge_unknown self tag buf ctx
  end.
Definition clear (self : StopRequest) : StopRequest := mkStopRequest.

Definition StopRequest_name : MessageName StopRequest := {|
  PACKAGE := "cusf.mainchain.v1";
  NAME := "StopRequest";
  FULL_NAME := "cusf.mainchain.v1.StopRequest";
  TYPE_URL := "type.googleapis.com/cusf.mainchain.v1.StopRequest";
|}.
#[global] Existing Instance StopRequest_name.
#[global] Instance StopRequest_message : Message StopRequest := {
  default_message := mkStopRequest; compute_size := compute_size; write_to := write_to;
  merge_field := merge_field;
}.
#[global] Instance StopRequest_clear : Clear StopRequest := { clear := clear }.
#[global] Instance StopRequest_spec : MessageSpec StopRequest := {
  records self := [];
  schema := [];
  well_formed self := True;
  levels := 0;
}.
#[global] Instance StopRequest_laws `{!BuffaLaws, !BuffaTypesLaws} : MessageLaws StopRequest.
Proof. message_laws compute_size write_to merge_field. Qed.
#[global] Instance StopRequest_clear_laws : ClearLaws StopRequest.
Proof. by split. Qed.
End methods.
End StopRequest.

(** [cusf.mainchain.v1.StopResponse] *)
Module StopResponse.
Section methods.
Context `{BuffaTypes}.

Record StopResponse := mkStopResponse {}.

Definition compute_size (self : StopResponse) (__cache : SizeCache) : Z * SizeCache :=
  (0, __cache).
Definition write_to (self : StopResponse) : write_stmt :=
  id.
Definition merge_field : merge_fn StopResponse := λ self tag buf ctx,
  match field_number tag with
  | _ => merge_unknown self tag buf ctx
  end.
Definition clear (self : StopResponse) : StopResponse := mkStopResponse.

Definition StopResponse_name : MessageName StopResponse := {|
  PACKAGE := "cusf.mainchain.v1";
  NAME := "StopResponse";
  FULL_NAME := "cusf.mainchain.v1.StopResponse";
  TYPE_URL := "type.googleapis.com/cusf.mainchain.v1.StopResponse";
|}.
#[global] Existing Instance StopResponse_name.
#[global] Instance StopResponse_message : Message StopResponse := {
  default_message := mkStopResponse; compute_size := compute_size; write_to := write_to;
  merge_field := merge_field;
}.
#[global] Instance StopResponse_clear : Clear StopResponse := { clear := clear }.
#[global] Instance StopResponse_spec : MessageSpec StopResponse := {
  records self := [];
  schema := [];
  well_formed self := True;
  levels := 0;
}.
#[global] Instance StopResponse_laws `{!BuffaLaws, !BuffaTypesLaws} : MessageLaws StopResponse.
Proof. message_laws compute_size write_to merge_field. Qed.
#[global] Instance StopResponse_clear_laws : ClearLaws StopResponse.
Proof. by split. Qed.
End methods.
End StopResponse.
