(* ===== verification/ProtoWallet.v ===== *)
(** The messages of `wallet.proto` (`proto/generated/buffa/cusf.mainchain.v1.rs`). *)
From Stdlib Require Import ZArith Lia Strings.Byte Strings.String.
From stdpp Require Import base list gmap strings.
From S2P Require Import Prelude Wire WireTypes ProtoCommon.
#[local] Open Scope Z_scope.

(** [cusf.mainchain.v1.P2mrScheme] *)
Module P2mrScheme.
Inductive P2mrScheme :=
| P2MR_SCHEME_UNSPECIFIED
| P2MR_SCHEME_SCHNORR
| P2MR_SCHEME_MLDSA
| P2MR_SCHEME_SLH
| P2MR_SCHEME_HYBRID_EC_SLH.
Definition from_i32 (value : Z) : option P2mrScheme :=
  match value with
  | 0 => Some P2MR_SCHEME_UNSPECIFIED
  | 1 => Some P2MR_SCHEME_SCHNORR
  | 2 => Some P2MR_SCHEME_MLDSA
  | 3 => Some P2MR_SCHEME_SLH
  | 4 => Some P2MR_SCHEME_HYBRID_EC_SLH
  | _ => None
  end.
Definition to_i32 (self : P2mrScheme) : Z :=
  match self with
  | P2MR_SCHEME_UNSPECIFIED => 0
  | P2MR_SCHEME_SCHNORR => 1
  | P2MR_SCHEME_MLDSA => 2
  | P2MR_SCHEME_SLH => 3
  | P2MR_SCHEME_HYBRID_EC_SLH => 4
  end.
Definition proto_name (self : P2mrScheme) : string :=
  match self with
  | P2MR_SCHEME_UNSPECIFIED => "P2MR_SCHEME_UNSPECIFIED"
  | P2MR_SCHEME_SCHNORR => "P2MR_SCHEME_SCHNORR"
  | P2MR_SCHEME_MLDSA => "P2MR_SCHEME_MLDSA"
  | P2MR_SCHEME_SLH => "P2MR_SCHEME_SLH"
  | P2MR_SCHEME_HYBRID_EC_SLH => "P2MR_SCHEME_HYBRID_EC_SLH"
  end.
Definition from_proto_name (name : string) : option P2mrScheme :=
  if String.eqb name "P2MR_SCHEME_UNSPECIFIED" then Some P2MR_SCHEME_UNSPECIFIED
  else if String.eqb name "P2MR_SCHEME_SCHNORR" then Some P2MR_SCHEME_SCHNORR
  else if String.eqb name "P2MR_SCHEME_MLDSA" then Some P2MR_SCHEME_MLDSA
  else if String.eqb name "P2MR_SCHEME_SLH" then Some P2MR_SCHEME_SLH
  else if String.eqb name "P2MR_SCHEME_HYBRID_EC_SLH" then Some P2MR_SCHEME_HYBRID_EC_SLH
  else None.
Definition values : list P2mrScheme :=
  [P2MR_SCHEME_UNSPECIFIED; P2MR_SCHEME_SCHNORR; P2MR_SCHEME_MLDSA; P2MR_SCHEME_SLH; P2MR_SCHEME_HYBRID_EC_SLH].
#[global] Instance P2mrScheme_enumeration : Enumeration P2mrScheme := {
  from_i32 := from_i32; to_i32 := to_i32; proto_name := proto_name;
  from_proto_name := from_proto_name; values := values;
}.
(** In JSON: written as its name, read from its name, its number or null. *)
Definition serialize (self : P2mrScheme) : string := proto_name self.
Definition visit_str (v : string) : outcome enum_error P2mrScheme :=
  ok_or (from_proto_name v) (UnknownVariant v).
Definition visit_i64 (v : Z) : outcome enum_error P2mrScheme :=
  v32 ← ok_or (try_i32 v) (OutOfRange v);
  ok_or (from_i32 v32) (UnknownValue v32).
Definition visit_u64 (v : Z) : outcome enum_error P2mrScheme :=
  v32 ← ok_or (try_i32 v) (OutOfRange v);
  ok_or (from_i32 v32) (UnknownValue v32).
Definition visit_unit : outcome enum_error P2mrScheme := Ok P2MR_SCHEME_UNSPECIFIED.
End P2mrScheme.

(** [cusf.mainchain.v1.WalletTransaction.Confirmation] *)
Module WalletTransaction_Confirmation.
Section methods.
Context `{BuffaTypes}.

Record Confirmation := mkConfirmation {
  height : Z; (* u32 *)
  block_hash : option ReverseHex.ReverseHex;
  timestamp : option Timestamp;
}.
Definition with_height v (self : Confirmation) : Confirmation := mkConfirmation v (block_hash self) (timestamp self).
Definition with_block_hash v (self : Confirmation) : Confirmation := mkConfirmation (height self) v (timestamp self).
Definition with_timestamp v (self : Confirmation) : Confirmation := mkConfirmation (height self) (block_hash self) v.

Definition compute_size (self : Confirmation) (__cache : SizeCache) : Z * SizeCache :=
  (size_uint32 1 (height self) ▷
   size_message 1 (block_hash self) ▷
   size_message 1 (timestamp self)) (0, __cache).
Definition write_to (self : Confirmation) : write_stmt :=
  write_uint32 1 (height self) ▷
  write_message 2 (block_hash self) ▷
  write_message 3 (timestamp self).
Definition merge_field : merge_fn Confirmation := λ self tag buf ctx,
  match field_number tag with
  | 1 => merge_scalar Varint decode_uint32 (λ v, with_height v self) tag buf
  | 2 => merge_message (block_hash self) (λ v, with_block_hash v self) tag buf ctx
  | 3 => merge_message (timestamp self) (λ v, with_timestamp v self) tag buf ctx
  | _ => merge_unknown self tag buf ctx
  end.
Definition clear (self : Confirmation) : Confirmation := mkConfirmation 0 None None.

Definition Confirmation_name : MessageName Confirmation := {|
  PACKAGE := "cusf.mainchain.v1";
  NAME := "WalletTransaction.Confirmation";
  FULL_NAME := "cusf.mainchain.v1.WalletTransaction.Confirmation";
  TYPE_URL := "type.googleapis.com/cusf.mainchain.v1.WalletTransaction.Confirmation";
|}.
#[global] Existing Instance Confirmation_name.
#[global] Instance Confirmation_message : Message Confirmation := {
  default_message := mkConfirmation 0 None None; compute_size := compute_size; write_to := write_to;
  merge_field := merge_field;
}.
#[global] Instance Confirmation_clear : Clear Confirmation := { clear := clear }.
#[global] Instance Confirmation_spec : MessageSpec Confirmation := {
  records self := r_int 1 (height self) ++ r_message 2 (block_hash self) ++ r_message 3 (timestamp self);
  schema := [(1, Varint); (2, LengthDelimited); (3, LengthDelimited)];
  well_formed self := in_u 32 (height self) ∧ from_option well_formed True (block_hash self) ∧
    from_option well_formed True (timestamp self);
  levels := 2;
}.
#[global] Instance height_lens : Lens height with_height.
Proof. lens. Qed.
#[global] Instance block_hash_lens : Lens block_hash with_block_hash.
Proof. lens. Qed.
#[global] Instance timestamp_lens : Lens timestamp with_timestamp.
Proof. lens. Qed.
#[global] Instance Confirmation_laws `{!BuffaLaws, !BuffaTypesLaws} : MessageLaws Confirmation.
Proof. message_laws compute_size write_to merge_field. Qed.
#[global] Instance Confirmation_clear_laws : ClearLaws Confirmation.
Proof. by split. Qed.
End methods.
End WalletTransaction_Confirmation.

(** [cusf.mainchain.v1.WalletTransaction] *)
Module WalletTransaction.
Section methods.
Context `{BuffaTypes}.

Record WalletTransaction := mkWalletTransaction {
  txid : option ReverseHex.ReverseHex;
  raw_transaction : option ConsensusHex.ConsensusHex;
  fee_sats : Z; (* u64 *)
  received_sats : Z; (* u64 *)
  sent_sats : Z; (* u64 *)
  confirmation_info : option WalletTransaction_Confirmation.Confirmation;
}.
Definition with_txid v (self : WalletTransaction) : WalletTransaction :=
  mkWalletTransaction v (raw_transaction self) (fee_sats self) (received_sats self) (sent_sats self) (confirmation_info self).
Definition with_raw_transaction v (self : WalletTransaction) : WalletTransaction :=
  mkWalletTransaction (txid self) v (fee_sats self) (received_sats self) (sent_sats self) (confirmation_info self).
Definition with_fee_sats v (self : WalletTransaction) : WalletTransaction :=
  mkWalletTransaction (txid self) (raw_transaction self) v (received_sats self) (sent_sats self) (confirmation_info self).
Definition with_received_sats v (self : WalletTransaction) : WalletTransaction :=
  mkWalletTransaction (txid self) (raw_transaction self) (fee_sats self) v (sent_sats self) (confirmation_info self).
Definition with_sent_sats v (self : WalletTransaction) : WalletTransaction :=
  mkWalletTransaction (txid self) (raw_transaction self) (fee_sats self) (received_sats self) v (confirmation_info self).
Definition with_confirmation_info v (self : WalletTransaction) : WalletTransaction :=
  mkWalletTransaction (txid self) (raw_transaction self) (fee_sats self) (received_sats self) (sent_sats self) v.

Definition compute_size (self : WalletTransaction) (__cache : SizeCache) : Z * SizeCache :=
  (size_message 1 (txid self) ▷
   size_uint64 1 (fee_sats self) ▷
   size_uint64 1 (received_sats self) ▷
   size_uint64 1 (sent_sats self) ▷
   size_message 1 (confirmation_info self) ▷
   size_message 1 (raw_transaction self)) (0, __cache).
Definition write_to (self : WalletTransaction) : write_stmt :=
  write_message 1 (txid self) ▷
  write_uint64 2 (fee_sats self) ▷
  write_uint64 3 (received_sats self) ▷
  write_uint64 4 (sent_sats self) ▷
  write_message 5 (confirmation_info self) ▷
  write_message 6 (raw_transaction self).
Definition merge_field : merge_fn WalletTransaction := λ self tag buf ctx,
  match field_number tag with
  | 1 => merge_message (txid self) (λ v, with_txid v self) tag buf ctx
  | 2 => merge_scalar Varint decode_uint64 (λ v, with_fee_sats v self) tag buf
  | 3 => merge_scalar Varint decode_uint64 (λ v, with_received_sats v self) tag buf
  | 4 => merge_scalar Varint decode_uint64 (λ v, with_sent_sats v self) tag buf
  | 5 => merge_message (confirmation_info self) (λ v, with_confirmation_info v self) tag buf ctx
  | 6 => merge_message (raw_transaction self) (λ v, with_raw_transaction v self) tag buf ctx
  | _ => merge_unknown self tag buf ctx
  end.
Definition clear (self : WalletTransaction) : WalletTransaction := mkWalletTransaction None None 0 0 0 None.

Definition WalletTransaction_name : MessageName WalletTransaction := {|
  PACKAGE := "cusf.mainchain.v1";
  NAME := "WalletTransaction";
  FULL_NAME := "cusf.mainchain.v1.WalletTransaction";
  TYPE_URL := "type.googleapis.com/cusf.mainchain.v1.WalletTransaction";
|}.
#[global] Existing Instance WalletTransaction_name.
#[global] Instance WalletTransaction_message : Message WalletTransaction := {
  default_message := mkWalletTransaction None None 0 0 0 None; compute_size := compute_size; write_to := write_to;
  merge_field := merge_field;
}.
#[global] Instance WalletTransaction_clear : Clear WalletTransaction := { clear := clear }.
#[global] Instance WalletTransaction_spec : MessageSpec WalletTransaction := {
  records self := r_message 1 (txid self) ++ r_int 2 (fee_sats self) ++ r_int 3 (received_sats self) ++
    r_int 4 (sent_sats self) ++ r_message 5 (confirmation_info self) ++ r_message 6 (raw_transaction self);
  schema := [(1, LengthDelimited); (2, Varint); (3, Varint); (4, Varint); (5, LengthDelimited); (6, LengthDelimited)];
  well_formed self := from_option well_formed True (txid self) ∧
    from_option well_formed True (raw_transaction self) ∧ in_u 64 (fee_sats self) ∧
    in_u 64 (received_sats self) ∧ in_u 64 (sent_sats self) ∧ from_option well_formed True (confirmation_info self);
  levels := 3;
}.
#[global] Instance txid_lens : Lens txid with_txid.
Proof. lens. Qed.
#[global] Instance raw_transaction_lens : Lens raw_transaction with_raw_transaction.
Proof. lens. Qed.
#[global] Instance fee_sats_lens : Lens fee_sats with_fee_sats.
Proof. lens. Qed.
#[global] Instance received_sats_lens : Lens received_sats with_received_sats.
Proof. lens. Qed.
#[global] Instance sent_sats_lens : Lens sent_sats with_sent_sats.
Proof. lens. Qed.
#[global] Instance confirmation_info_lens : Lens confirmation_info with_confirmation_info.
Proof. lens. Qed.
#[global] Instance WalletTransaction_laws `{!BuffaLaws, !BuffaTypesLaws} : MessageLaws WalletTransaction.
Proof. message_laws compute_size write_to merge_field. Qed.
#[global] Instance WalletTransaction_clear_laws : ClearLaws WalletTransaction.
Proof. by split. Qed.
End methods.
End WalletTransaction.

(** [cusf.mainchain.v1.CreateP2mrAddressRequest] *)
Module CreateP2mrAddressRequest.
Section methods.
Context `{BuffaTypes}.

Record CreateP2mrAddressRequest := mkCreateP2mrAddressRequest {
  scheme : EnumValue P2mrScheme.P2mrScheme;
}.
Definition with_scheme v (self : CreateP2mrAddressRequest) : CreateP2mrAddressRequest := mkCreateP2mrAddressRequest v.

Definition compute_size (self : CreateP2mrAddressRequest) (__cache : SizeCache) : Z * SizeCache :=
  (size_enum 1 (scheme self)) (0, __cache).
Definition write_to (self : CreateP2mrAddressRequest) : write_stmt :=
  write_enum 1 (scheme self).
Definition merge_field : merge_fn CreateP2mrAddressRequest := λ self tag buf ctx,
  match field_number tag with
  | 1 => merge_scalar Varint decode_int32 (λ v, with_scheme (enum_from v) self) tag buf
  | _ => merge_unknown self tag buf ctx
  end.
Definition clear (self : CreateP2mrAddressRequest) : CreateP2mrAddressRequest := mkCreateP2mrAddressRequest (enum_from 0).

Definition CreateP2mrAddressRequest_name : MessageName CreateP2mrAddressRequest := {|
  PACKAGE := "cusf.mainchain.v1";
  NAME := "CreateP2mrAddressRequest";
  FULL_NAME := "cusf.mainchain.v1.CreateP2mrAddressRequest";
  TYPE_URL := "type.googleapis.com/cusf.mainchain.v1.CreateP2mrAddressRequest";
|}.
#[global] Existing Instance CreateP2mrAddressRequest_name.
#[global] Instance CreateP2mrAddressRequest_message : Message CreateP2mrAddressRequest := {
  default_message := mkCreateP2mrAddressRequest (enum_from 0); compute_size := compute_size; write_to := write_to;
  merge_field := merge_field;
}.
#[global] Instance CreateP2mrAddressRequest_clear : Clear CreateP2mrAddressRequest := { clear := clear }.
#[global] Instance CreateP2mrAddressRequest_spec : MessageSpec CreateP2mrAddressRequest := {
  records self := r_enum 1 (scheme self);
  schema := [(1, Varint)];
  well_formed self := enum_ok (scheme self);
  levels := 0;
}.
#[global] Instance scheme_lens : Lens scheme with_scheme.
Proof. lens. Qed.
#[global] Instance CreateP2mrAddressRequest_laws `{!BuffaLaws, !BuffaTypesLaws} : MessageLaws CreateP2mrAddressRequest.
Proof. message_laws compute_size write_to merge_field. Qed.
#[global] Instance CreateP2mrAddressRequest_clear_laws : ClearLaws CreateP2mrAddressRequest.
Proof. by split. Qed.
End methods.
End CreateP2mrAddressRequest.

(** [cusf.mainchain.v1.CreateP2mrAddressResponse] *)
Module CreateP2mrAddressResponse.
Section methods.
Context `{BuffaTypes}.

Record CreateP2mrAddressResponse := mkCreateP2mrAddressResponse {
  address : string;
  script_pubkey : option ConsensusHex.ConsensusHex;
  scheme : EnumValue P2mrScheme.P2mrScheme;
}.
Definition with_address v (self : CreateP2mrAddressResponse) : CreateP2mrAddressResponse :=
  mkCreateP2mrAddressResponse v (script_pubkey self) (scheme self).
Definition with_script_pubkey v (self : CreateP2mrAddressResponse) : CreateP2mrAddressResponse :=
  mkCreateP2mrAddressResponse (address self) v (scheme self).
Definition with_scheme v (self : CreateP2mrAddressResponse) : CreateP2mrAddressResponse :=
  mkCreateP2mrAddressResponse (address self) (script_pubkey self) v.

Definition compute_size (self : CreateP2mrAddressResponse) (__cache : SizeCache) : Z * SizeCache :=
  (size_string 1 (address self) ▷
   size_message 1 (script_pubkey self) ▷
   size_enum 1 (scheme self)) (0, __cache).
Definition write_to (self : CreateP2mrAddressResponse) : write_stmt :=
  write_string 1 (address self) ▷
  write_message 2 (script_pubkey self) ▷
  write_enum 3 (scheme self).
Definition merge_field : merge_fn CreateP2mrAddressResponse := λ self tag buf ctx,
  match field_number tag with
  | 1 => merge_scalar LengthDelimited (merge_string (address self)) (λ v, with_address v self) tag buf
  | 2 => merge_message (script_pubkey self) (λ v, with_script_pubkey v self) tag buf ctx
  | 3 => merge_scalar Varint decode_int32 (λ v, with_scheme (enum_from v) self) tag buf
  | _ => merge_unknown self tag buf ctx
  end.
Definition clear (self : CreateP2mrAddressResponse) : CreateP2mrAddressResponse := mkCreateP2mrAddressResponse EmptyString None (enum_from 0).

Definition CreateP2mrAddressResponse_name : MessageName CreateP2mrAddressResponse := {|
  PACKAGE := "cusf.mainchain.v1";
  NAME := "CreateP2mrAddressResponse";
  FULL_NAME := "cusf.mainchain.v1.CreateP2mrAddressResponse";
  TYPE_URL := "type.googleapis.com/cusf.mainchain.v1.CreateP2mrAddressResponse";
|}.
#[global] Existing Instance CreateP2mrAddressResponse_name.
#[global] Instance CreateP2mrAddressResponse_message : Message CreateP2mrAddressResponse := {
  default_message := mkCreateP2mrAddressResponse EmptyString None (enum_from 0); compute_size := compute_size; write_to := write_to;
  merge_field := merge_field;
}.
#[global] Instance CreateP2mrAddressResponse_clear : Clear CreateP2mrAddressResponse := { clear := clear }.
#[global] Instance CreateP2mrAddressResponse_spec : MessageSpec CreateP2mrAddressResponse := {
  records self := r_string 1 (address self) ++ r_message 2 (script_pubkey self) ++ r_enum 3 (scheme self);
  schema := [(1, LengthDelimited); (2, LengthDelimited); (3, Varint)];
  well_formed self := string_ok (address self) ∧ from_option well_formed True (script_pubkey self) ∧
    enum_ok (scheme self);
  levels := 2;
}.
#[global] Instance address_lens : Lens address with_address.
Proof. lens. Qed.
#[global] Instance script_pubkey_lens : Lens script_pubkey with_script_pubkey.
Proof. lens. Qed.
#[global] Instance scheme_lens : Lens scheme with_scheme.
Proof. lens. Qed.
#[global] Instance CreateP2mrAddressResponse_laws `{!BuffaLaws, !BuffaTypesLaws} : MessageLaws CreateP2mrAddressResponse.
Proof. message_laws compute_size write_to merge_field. Qed.
#[global] Instance CreateP2mrAddressResponse_clear_laws : ClearLaws CreateP2mrAddressResponse.
Proof. by split. Qed.
End methods.
End CreateP2mrAddressResponse.

(** [cusf.mainchain.v1.ListP2mrOutputsRequest] *)
Module ListP2mrOutputsRequest.
Section methods.
Context `{BuffaTypes}.

Record ListP2mrOutputsRequest := mkListP2mrOutputsRequest {}.

Definition compute_size (self : ListP2mrOutputsRequest) (__cache : SizeCache) : Z * SizeCache :=
  (0, __cache).
Definition write_to (self : ListP2mrOutputsRequest) : write_stmt :=
  id.
Definition merge_field : merge_fn ListP2mrOutputsRequest := λ self tag buf ctx,
  match field_number tag with
  | _ => merge_unknown self tag buf ctx
  end.
Definition clear (self : ListP2mrOutputsRequest) : ListP2mrOutputsRequest := mkListP2mrOutputsRequest.

Definition ListP2mrOutputsRequest_name : MessageName ListP2mrOutputsRequest := {|
  PACKAGE := "cusf.mainchain.v1";
  NAME := "ListP2mrOutputsRequest";
  FULL_NAME := "cusf.mainchain.v1.ListP2mrOutputsRequest";
  TYPE_URL := "type.googleapis.com/cusf.mainchain.v1.ListP2mrOutputsRequest";
|}.
#[global] Existing Instance ListP2mrOutputsRequest_name.
#[global] Instance ListP2mrOutputsRequest_message : Message ListP2mrOutputsRequest := {
  default_message := mkListP2mrOutputsRequest; compute_size := compute_size; write_to := write_to;
  merge_field := merge_field;
}.
#[global] Instance ListP2mrOutputsRequest_clear : Clear ListP2mrOutputsRequest := { clear := clear }.
#[global] Instance ListP2mrOutputsRequest_spec : MessageSpec ListP2mrOutputsRequest := {
  records self := [];
  schema := [];
  well_formed self := True;
  levels := 0;
}.
#[global] Instance ListP2mrOutputsRequest_laws `{!BuffaLaws, !BuffaTypesLaws} : MessageLaws ListP2mrOutputsRequest.
Proof. message_laws compute_size write_to merge_field. Qed.
#[global] Instance ListP2mrOutputsRequest_clear_laws : ClearLaws ListP2mrOutputsRequest.
Proof. by split. Qed.
End methods.
End ListP2mrOutputsRequest.

(** [cusf.mainchain.v1.ListP2mrOutputsResponse.Output] *)
Module ListP2mrOutputsResponse_Output.
Section methods.
Context `{BuffaTypes}.

Record Output := mkOutput {
  txid : option ReverseHex.ReverseHex;
  vout : Z; (* u32 *)
  value_sats : Z; (* u64 *)
  script_pubkey : option ConsensusHex.ConsensusHex;
  is_mine : bool;
}.
Definition with_txid v (self : Output) : Output :=
  mkOutput v (vout self) (value_sats self) (script_pubkey self) (is_mine self).
Definition with_vout v (self : Output) : Output :=
  mkOutput (txid self) v (value_sats self) (script_pubkey self) (is_mine self).
Definition with_value_sats v (self : Output) : Output :=
  mkOutput (txid self) (vout self) v (script_pubkey self) (is_mine self).
Definition with_script_pubkey v (self : Output) : Output :=
  mkOutput (txid self) (vout self) (value_sats self) v (is_mine self).
Definition with_is_mine v (self : Output) : Output :=
  mkOutput (txid self) (vout self) (value_sats self) (script_pubkey self) v.

Definition compute_size (self : Output) (__cache : SizeCache) : Z * SizeCache :=
  (size_message 1 (txid self) ▷
   size_uint32 1 (vout self) ▷
   size_uint64 1 (value_sats self) ▷
   size_message 1 (script_pubkey self) ▷
   size_bool 1 (is_mine self)) (0, __cache).
Definition write_to (self : Output) : write_stmt :=
  write_message 1 (txid self) ▷
  write_uint32 2 (vout self) ▷
  write_uint64 3 (value_sats self) ▷
  write_message 4 (script_pubkey self) ▷
  write_bool 5 (is_mine self).
Definition merge_field : merge_fn Output := λ self tag buf ctx,
  match field_number tag with
  | 1 => merge_message (txid self) (λ v, with_txid v self) tag buf ctx
  | 2 => merge_scalar Varint decode_uint32 (λ v, with_vout v self) tag buf
  | 3 => merge_scalar Varint decode_uint64 (λ v, with_value_sats v self) tag buf
  | 4 => merge_message (script_pubkey self) (λ v, with_script_pubkey v self) tag buf ctx
  | 5 => merge_scalar Varint decode_bool (λ v, with_is_mine v self) tag buf
  | _ => merge_unknown self tag buf ctx
  end.
Definition clear (self : Output) : Output := mkOutput None 0 0 None false.

Definition Output_name : MessageName Output := {|
  PACKAGE := "cusf.mainchain.v1";
  NAME := "ListP2mrOutputsResponse.Output";
  FULL_NAME := "cusf.mainchain.v1.ListP2mrOutputsResponse.Output";
  TYPE_URL := "type.googleapis.com/cusf.mainchain.v1.ListP2mrOutputsResponse.Output";
|}.
#[global] Existing Instance Output_name.
#[global] Instance Output_message : Message Output := {
  default_message := mkOutput None 0 0 None false; compute_size := compute_size; write_to := write_to;
  merge_field := merge_field;
}.
#[global] Instance Output_clear : Clear Output := { clear := clear }.
#[global] Instance Output_spec : MessageSpec Output := {
  records self := r_message 1 (txid self) ++ r_int 2 (vout self) ++ r_int 3 (value_sats self) ++
    r_message 4 (script_pubkey self) ++ r_bool 5 (is_mine self);
  schema := [(1, LengthDelimited); (2, Varint); (3, Varint); (4, LengthDelimited); (5, Varint)];
  well_formed self := from_option well_formed True (txid self) ∧ in_u 32 (vout self) ∧
    in_u 64 (value_sats self) ∧ from_option well_formed True (script_pubkey self);
  levels := 2;
}.
#[global] Instance txid_lens : Lens txid with_txid.
Proof. lens. Qed.
#[global] Instance vout_lens : Lens vout with_vout.
Proof. lens. Qed.
#[global] Instance value_sats_lens : Lens value_sats with_value_sats.
Proof. lens. Qed.
#[global] Instance script_pubkey_lens : Lens script_pubkey with_script_pubkey.
Proof. lens. Qed.
#[global] Instance is_mine_lens : Lens is_mine with_is_mine.
Proof. lens. Qed.
#[global] Instance Output_laws `{!BuffaLaws, !BuffaTypesLaws} : MessageLaws Output.
Proof. message_laws compute_size write_to merge_field. Qed.
#[global] Instance Output_clear_laws : ClearLaws Output.
Proof. by split. Qed.
End methods.
End ListP2mrOutputsResponse_Output.

(** [cusf.mainchain.v1.ListP2mrOutputsResponse] *)
Module ListP2mrOutputsResponse.
Section methods.
Context `{BuffaTypes}.

Record ListP2mrOutputsResponse := mkListP2mrOutputsResponse {
  outputs : list ListP2mrOutputsResponse_Output.Output;
}.
Definition with_outputs v (self : ListP2mrOutputsResponse) : ListP2mrOutputsResponse := mkListP2mrOutputsResponse v.

Definition compute_size (self : ListP2mrOutputsResponse) (__cache : SizeCache) : Z * SizeCache :=
  (size_repeated 1 (outputs self)) (0, __cache).
Definition write_to (self : ListP2mrOutputsResponse) : write_stmt :=
  write_repeated 1 (outputs self).
Definition merge_field : merge_fn ListP2mrOutputsResponse := λ self tag buf ctx,
  match field_number tag with
  | 1 => merge_repeated (outputs self) (λ v, with_outputs v self) tag buf ctx
  | _ => merge_unknown self tag buf ctx
  end.
Definition clear (self : ListP2mrOutputsResponse) : ListP2mrOutputsResponse := mkListP2mrOutputsResponse [].

Definition ListP2mrOutputsResponse_name : MessageName ListP2mrOutputsResponse := {|
  PACKAGE := "cusf.mainchain.v1";
  NAME := "ListP2mrOutputsResponse";
  FULL_NAME := "cusf.mainchain.v1.ListP2mrOutputsResponse";
  TYPE_URL := "type.googleapis.com/cusf.mainchain.v1.ListP2mrOutputsResponse";
|}.
#[global] Existing Instance ListP2mrOutputsResponse_name.
#[global] Instance ListP2mrOutputsResponse_message : Message ListP2mrOutputsResponse := {
  default_message := mkListP2mrOutputsResponse []; compute_size := compute_size; write_to := write_to;
  merge_field := merge_field;
}.
#[global] Instance ListP2mrOutputsResponse_clear : Clear ListP2mrOutputsResponse := { clear := clear }.
#[global] Instance ListP2mrOutputsResponse_spec : MessageSpec ListP2mrOutputsResponse := {
  records self := r_repeated 1 (outputs self);
  schema := [(1, LengthDelimited)];
  well_formed self := Forall well_formed (outputs self);
  levels := 3;
}.
#[global] Instance outputs_lens : Lens outputs with_outputs.
Proof. lens. Qed.
#[global] Instance ListP2mrOutputsResponse_laws `{!BuffaLaws, !BuffaTypesLaws} : MessageLaws ListP2mrOutputsResponse.
Proof. message_laws compute_size write_to merge_field. Qed.
#[global] Instance ListP2mrOutputsResponse_clear_laws : ClearLaws ListP2mrOutputsResponse.
Proof. by split. Qed.
End methods.
End ListP2mrOutputsResponse.

(** [cusf.mainchain.v1.SpendP2mrRequest] *)
Module SpendP2mrRequest.
Section methods.
Context `{BuffaTypes}.

Record SpendP2mrRequest := mkSpendP2mrRequest {
  txid : option ReverseHex.ReverseHex;
  vout : Z; (* u32 *)
  destination : string;
  amount_sats : Z; (* u64 *)
  fee_sats : option UInt64Value;
}.
Definition with_txid v (self : SpendP2mrRequest) : SpendP2mrRequest :=
  mkSpendP2mrRequest v (vout self) (destination self) (amount_sats self) (fee_sats self).
Definition with_vout v (self : SpendP2mrRequest) : SpendP2mrRequest :=
  mkSpendP2mrRequest (txid self) v (destination self) (amount_sats self) (fee_sats self).
Definition with_destination v (self : SpendP2mrRequest) : SpendP2mrRequest :=
  mkSpendP2mrRequest (txid self) (vout self) v (amount_sats self) (fee_sats self).
Definition with_amount_sats v (self : SpendP2mrRequest) : SpendP2mrRequest :=
  mkSpendP2mrRequest (txid self) (vout self) (destination self) v (fee_sats self).
Definition with_fee_sats v (self : SpendP2mrRequest) : SpendP2mrRequest :=
  mkSpendP2mrRequest (txid self) (vout self) (destination self) (amount_sats self) v.

Definition compute_size (self : SpendP2mrRequest) (__cache : SizeCache) : Z * SizeCache :=
  (size_message 1 (txid self) ▷
   size_uint32 1 (vout self) ▷
   size_string 1 (destination self) ▷
   size_uint64 1 (amount_sats self) ▷
   size_message 1 (fee_sats self)) (0, __cache).
Definition write_to (self : SpendP2mrRequest) : write_stmt :=
  write_message 1 (txid self) ▷
  write_uint32 2 (vout self) ▷
  write_string 3 (destination self) ▷
  write_uint64 4 (amount_sats self) ▷
  write_message 5 (fee_sats self).
Definition merge_field : merge_fn SpendP2mrRequest := λ self tag buf ctx,
  match field_number tag with
  | 1 => merge_message (txid self) (λ v, with_txid v self) tag buf ctx
  | 2 => merge_scalar Varint decode_uint32 (λ v, with_vout v self) tag buf
  | 3 => merge_scalar LengthDelimited (merge_string (destination self)) (λ v, with_destination v self) tag buf
  | 4 => merge_scalar Varint decode_uint64 (λ v, with_amount_sats v self) tag buf
  | 5 => merge_message (fee_sats self) (λ v, with_fee_sats v self) tag buf ctx
  | _ => merge_unknown self tag buf ctx
  end.
Definition clear (self : SpendP2mrRequest) : SpendP2mrRequest := mkSpendP2mrRequest None 0 EmptyString 0 None.

Definition SpendP2mrRequest_name : MessageName SpendP2mrRequest := {|
  PACKAGE := "cusf.mainchain.v1";
  NAME := "SpendP2mrRequest";
  FULL_NAME := "cusf.mainchain.v1.SpendP2mrRequest";
  TYPE_URL := "type.googleapis.com/cusf.mainchain.v1.SpendP2mrRequest";
|}.
#[global] Existing Instance SpendP2mrRequest_name.
#[global] Instance SpendP2mrRequest_message : Message SpendP2mrRequest := {
  default_message := mkSpendP2mrRequest None 0 EmptyString 0 None; compute_size := compute_size; write_to := write_to;
  merge_field := merge_field;
}.
#[global] Instance SpendP2mrRequest_clear : Clear SpendP2mrRequest := { clear := clear }.
#[global] Instance SpendP2mrRequest_spec : MessageSpec SpendP2mrRequest := {
  records self := r_message 1 (txid self) ++ r_int 2 (vout self) ++ r_string 3 (destination self) ++
    r_int 4 (amount_sats self) ++ r_message 5 (fee_sats self);
  schema := [(1, LengthDelimited); (2, Varint); (3, LengthDelimited); (4, Varint); (5, LengthDelimited)];
  well_formed self := from_option well_formed True (txid self) ∧ in_u 32 (vout self) ∧
    string_ok (destination self) ∧ in_u 64 (amount_sats self) ∧ from_option well_formed True (fee_sats self);
  levels := 2;
}.
#[global] Instance txid_lens : Lens txid with_txid.
Proof. lens. Qed.
#[global] Instance vout_lens : Lens vout with_vout.
Proof. lens. Qed.
#[global] Instance destination_lens : Lens destination with_destination.
Proof. lens. Qed.
#[global] Instance amount_sats_lens : Lens amount_sats with_amount_sats.
Proof. lens. Qed.
#[global] Instance fee_sats_lens : Lens fee_sats with_fee_sats.
Proof. lens. Qed.
#[global] Instance SpendP2mrRequest_laws `{!BuffaLaws, !BuffaTypesLaws} : MessageLaws SpendP2mrRequest.
Proof. message_laws compute_size write_to merge_field. Qed.
#[global] Instance SpendP2mrRequest_clear_laws : ClearLaws SpendP2mrRequest.
Proof. by split. Qed.
End methods.
End SpendP2mrRequest.

(** [cusf.mainchain.v1.SpendP2mrResponse] *)
Module SpendP2mrResponse.
Section methods.
Context `{BuffaTypes}.

Record SpendP2mrResponse := mkSpendP2mrResponse {
  txid : option ReverseHex.ReverseHex;
  change_address : string;
  change_sats : Z; (* u64 *)
}.
Definition with_txid v (self : SpendP2mrResponse) : SpendP2mrResponse :=
  mkSpendP2mrResponse v (change_address self) (change_sats self).
Definition with_change_address v (self : SpendP2mrResponse) : SpendP2mrResponse :=
  mkSpendP2mrResponse (txid self) v (change_sats self).
Definition with_change_sats v (self : SpendP2mrResponse) : SpendP2mrResponse :=
  mkSpendP2mrResponse (txid self) (change_address self) v.

Definition compute_size (self : SpendP2mrResponse) (__cache : SizeCache) : Z * SizeCache :=
  (size_message 1 (txid self) ▷
   size_string 1 (change_address self) ▷
   size_uint64 1 (change_sats self)) (0, __cache).
Definition write_to (self : SpendP2mrResponse) : write_stmt :=
  write_message 1 (txid self) ▷
  write_string 2 (change_address self) ▷
  write_uint64 3 (change_sats self).
Definition merge_field : merge_fn SpendP2mrResponse := λ self tag buf ctx,
  match field_number tag with
  | 1 => merge_message (txid self) (λ v, with_txid v self) tag buf ctx
  | 2 => merge_scalar LengthDelimited (merge_string (change_address self)) (λ v, with_change_address v self) tag buf
  | 3 => merge_scalar Varint decode_uint64 (λ v, with_change_sats v self) tag buf
  | _ => merge_unknown self tag buf ctx
  end.
Definition clear (self : SpendP2mrResponse) : SpendP2mrResponse := mkSpendP2mrResponse None EmptyString 0.

Definition SpendP2mrResponse_name : MessageName SpendP2mrResponse := {|
  PACKAGE := "cusf.mainchain.v1";
  NAME := "SpendP2mrResponse";
  FULL_NAME := "cusf.mainchain.v1.SpendP2mrResponse";
  TYPE_URL := "type.googleapis.com/cusf.mainchain.v1.SpendP2mrResponse";
|}.
#[global] Existing Instance SpendP2mrResponse_name.
#[global] Instance SpendP2mrResponse_message : Message SpendP2mrResponse := {
  default_message := mkSpendP2mrResponse None EmptyString 0; compute_size := compute_size; write_to := write_to;
  merge_field := merge_field;
}.
#[global] Instance SpendP2mrResponse_clear : Clear SpendP2mrResponse := { clear := clear }.
#[global] Instance SpendP2mrResponse_spec : MessageSpec SpendP2mrResponse := {
  records self := r_message 1 (txid self) ++ r_string 2 (change_address self) ++ r_int 3 (change_sats self);
  schema := [(1, LengthDelimited); (2, LengthDelimited); (3, Varint)];
  well_formed self := from_option well_formed True (txid self) ∧ string_ok (change_address self) ∧
    in_u 64 (change_sats self);
  levels := 2;
}.
#[global] Instance txid_lens : Lens txid with_txid.
Proof. lens. Qed.
#[global] Instance change_address_lens : Lens change_address with_change_address.
Proof. lens. Qed.
#[global] Instance change_sats_lens : Lens change_sats with_change_sats.
Proof. lens. Qed.
#[global] Instance SpendP2mrResponse_laws `{!BuffaLaws, !BuffaTypesLaws} : MessageLaws SpendP2mrResponse.
Proof. message_laws compute_size write_to merge_field. Qed.
#[global] Instance SpendP2mrResponse_clear_laws : ClearLaws SpendP2mrResponse.
Proof. by split. Qed.
End methods.
End SpendP2mrResponse.

(** [cusf.mainchain.v1.CreateNewAddressRequest] *)
Module CreateNewAddressRequest.
Section methods.
Context `{BuffaTypes}.

Record CreateNewAddressRequest := mkCreateNewAddressRequest {}.

Definition compute_size (self : CreateNewAddressRequest) (__cache : SizeCache) : Z * SizeCache :=
  (0, __cache).
Definition write_to (self : CreateNewAddressRequest) : write_stmt :=
  id.
Definition merge_field : merge_fn CreateNewAddressRequest := λ self tag buf ctx,
  match field_number tag with
  | _ => merge_unknown self tag buf ctx
  end.
Definition clear (self : CreateNewAddressRequest) : CreateNewAddressRequest := mkCreateNewAddressRequest.

Definition CreateNewAddressRequest_name : MessageName CreateNewAddressRequest := {|
  PACKAGE := "cusf.mainchain.v1";
  NAME := "CreateNewAddressRequest";
  FULL_NAME := "cusf.mainchain.v1.CreateNewAddressRequest";
  TYPE_URL := "type.googleapis.com/cusf.mainchain.v1.CreateNewAddressRequest";
|}.
#[global] Existing Instance CreateNewAddressRequest_name.
#[global] Instance CreateNewAddressRequest_message : Message CreateNewAddressRequest := {
  default_message := mkCreateNewAddressRequest; compute_size := compute_size; write_to := write_to;
  merge_field := merge_field;
}.
#[global] Instance CreateNewAddressRequest_clear : Clear CreateNewAddressRequest := { clear := clear }.
#[global] Instance CreateNewAddressRequest_spec : MessageSpec CreateNewAddressRequest := {
  records self := [];
  schema := [];
  well_formed self := True;
  levels := 0;
}.
#[global] Instance CreateNewAddressRequest_laws `{!BuffaLaws, !BuffaTypesLaws} : MessageLaws CreateNewAddressRequest.
Proof. message_laws compute_size write_to merge_field. Qed.
#[global] Instance CreateNewAddressRequest_clear_laws : ClearLaws CreateNewAddressRequest.
Proof. by split. Qed.
End methods.
End CreateNewAddressRequest.

(** [cusf.mainchain.v1.CreateNewAddressResponse] *)
Module CreateNewAddressResponse.
Section methods.
Context `{BuffaTypes}.

Record CreateNewAddressResponse := mkCreateNewAddressResponse {
  address : string;
}.
Definition with_address v (self : CreateNewAddressResponse) : CreateNewAddressResponse :=
  mkCreateNewAddressResponse v.

Definition compute_size (self : CreateNewAddressResponse) (__cache : SizeCache) : Z * SizeCache :=
  (size_string 1 (address self)) (0, __cache).
Definition write_to (self : CreateNewAddressResponse) : write_stmt :=
  write_string 1 (address self).
Definition merge_field : merge_fn CreateNewAddressResponse := λ self tag buf ctx,
  match field_number tag with
  | 1 => merge_scalar LengthDelimited (merge_string (address self)) (λ v, with_address v self) tag buf
  | _ => merge_unknown self tag buf ctx
  end.
Definition clear (self : CreateNewAddressResponse) : CreateNewAddressResponse := mkCreateNewAddressResponse EmptyString.

Definition CreateNewAddressResponse_name : MessageName CreateNewAddressResponse := {|
  PACKAGE := "cusf.mainchain.v1";
  NAME := "CreateNewAddressResponse";
  FULL_NAME := "cusf.mainchain.v1.CreateNewAddressResponse";
  TYPE_URL := "type.googleapis.com/cusf.mainchain.v1.CreateNewAddressResponse";
|}.
#[global] Existing Instance CreateNewAddressResponse_name.
#[global] Instance CreateNewAddressResponse_message : Message CreateNewAddressResponse := {
  default_message := mkCreateNewAddressResponse EmptyString; compute_size := compute_size; write_to := write_to;
  merge_field := merge_field;
}.
#[global] Instance CreateNewAddressResponse_clear : Clear CreateNewAddressResponse := { clear := clear }.
#[global] Instance CreateNewAddressResponse_spec : MessageSpec CreateNewAddressResponse := {
  records self := r_string 1 (address self);
  schema := [(1, LengthDelimited)];
  well_formed self := string_ok (address self);
  levels := 0;
}.
#[global] Instance address_lens : Lens address with_address.
Proof. lens. Qed.
#[global] Instance CreateNewAddressResponse_laws `{!BuffaLaws, !BuffaTypesLaws} : MessageLaws CreateNewAddressResponse.
Proof. message_laws compute_size write_to merge_field. Qed.
#[global] Instance CreateNewAddressResponse_clear_laws : ClearLaws CreateNewAddressResponse.
Proof. by split. Qed.
End methods.
End CreateNewAddressResponse.

(** [cusf.mainchain.v1.CreateWalletRequest] *)
Module CreateWalletRequest.
Section methods.
Context `{BuffaTypes}.

Record CreateWalletRequest := mkCreateWalletRequest {
  mnemonic_words : list string;
  mnemonic_path : string;
  password : string;
}.
Definition with_mnemonic_words v (self : CreateWalletRequest) : CreateWalletRequest :=
  mkCreateWalletRequest v (mnemonic_path self) (password self).
Definition with_mnemonic_path v (self : CreateWalletRequest) : CreateWalletRequest :=
  mkCreateWalletRequest (mnemonic_words self) v (password self).
Definition with_password v (self : CreateWalletRequest) : CreateWalletRequest :=
  mkCreateWalletRequest (mnemonic_words self) (mnemonic_path self) v.

Definition compute_size (self : CreateWalletRequest) (__cache : SizeCache) : Z * SizeCache :=
  (size_strings 1 (mnemonic_words self) ▷
   size_string 1 (mnemonic_path self) ▷
   size_string 1 (password self)) (0, __cache).
Definition write_to (self : CreateWalletRequest) : write_stmt :=
  write_strings 1 (mnemonic_words self) ▷
  write_string 2 (mnemonic_path self) ▷
  write_string 3 (password self).
Definition merge_field : merge_fn CreateWalletRequest := λ self tag buf ctx,
  match field_number tag with
  | 1 => merge_strings (mnemonic_words self) (λ v, with_mnemonic_words v self) tag buf
  | 2 => merge_scalar LengthDelimited (merge_string (mnemonic_path self)) (λ v, with_mnemonic_path v self) tag buf
  | 3 => merge_scalar LengthDelimited (merge_string (password self)) (λ v, with_password v self) tag buf
  | _ => merge_unknown self tag buf ctx
  end.
Definition clear (self : CreateWalletRequest) : CreateWalletRequest := mkCreateWalletRequest [] EmptyString EmptyString.

Definition CreateWalletRequest_name : MessageName CreateWalletRequest := {|
  PACKAGE := "cusf.mainchain.v1";
  NAME := "CreateWalletRequest";
  FULL_NAME := "cusf.mainchain.v1.CreateWalletRequest";
  TYPE_URL := "type.googleapis.com/cusf.mainchain.v1.CreateWalletRequest";
|}.
#[global] Existing Instance CreateWalletRequest_name.
#[global] Instance CreateWalletRequest_message : Message CreateWalletRequest := {
  default_message := mkCreateWalletRequest [] EmptyString EmptyString; compute_size := compute_size; write_to := write_to;
  merge_field := merge_field;
}.
#[global] Instance CreateWalletRequest_clear : Clear CreateWalletRequest := { clear := clear }.
#[global] Instance CreateWalletRequest_spec : MessageSpec CreateWalletRequest := {
  records self := r_strings 1 (mnemonic_words self) ++ r_string 2 (mnemonic_path self) ++ r_string 3 (password self);
  schema := [(1, LengthDelimited); (2, LengthDelimited); (3, LengthDelimited)];
  well_formed self := Forall string_ok (mnemonic_words self) ∧ string_ok (mnemonic_path self) ∧
    string_ok (password self);
  levels := 0;
}.
#[global] Instance mnemonic_words_lens : Lens mnemonic_words with_mnemonic_words.
Proof. lens. Qed.
#[global] Instance mnemonic_path_lens : Lens mnemonic_path with_mnemonic_path.
Proof. lens. Qed.
#[global] Instance password_lens : Lens password with_password.
Proof. lens. Qed.
#[global] Instance CreateWalletRequest_laws `{!BuffaLaws, !BuffaTypesLaws} : MessageLaws CreateWalletRequest.
Proof. message_laws compute_size write_to merge_field. Qed.
#[global] Instance CreateWalletRequest_clear_laws : ClearLaws CreateWalletRequest.
Proof. by split. Qed.
End methods.
End CreateWalletRequest.

(** [cusf.mainchain.v1.CreateWalletResponse] *)
Module CreateWalletResponse.
Section methods.
Context `{BuffaTypes}.

Record CreateWalletResponse := mkCreateWalletResponse {}.

Definition compute_size (self : CreateWalletResponse) (__cache : SizeCache) : Z * SizeCache :=
  (0, __cache).
Definition write_to (self : CreateWalletResponse) : write_stmt :=
  id.
Definition merge_field : merge_fn CreateWalletResponse := λ self tag buf ctx,
  match field_number tag with
  | _ => merge_unknown self tag buf ctx
  end.
Definition clear (self : CreateWalletResponse) : CreateWalletResponse := mkCreateWalletResponse.

Definition CreateWalletResponse_name : MessageName CreateWalletResponse := {|
  PACKAGE := "cusf.mainchain.v1";
  NAME := "CreateWalletResponse";
  FULL_NAME := "cusf.mainchain.v1.CreateWalletResponse";
  TYPE_URL := "type.googleapis.com/cusf.mainchain.v1.CreateWalletResponse";
|}.
#[global] Existing Instance CreateWalletResponse_name.
#[global] Instance CreateWalletResponse_message : Message CreateWalletResponse := {
  default_message := mkCreateWalletResponse; compute_size := compute_size; write_to := write_to;
  merge_field := merge_field;
}.
#[global] Instance CreateWalletResponse_clear : Clear CreateWalletResponse := { clear := clear }.
#[global] Instance CreateWalletResponse_spec : MessageSpec CreateWalletResponse := {
  records self := [];
  schema := [];
  well_formed self := True;
  levels := 0;
}.
#[global] Instance CreateWalletResponse_laws `{!BuffaLaws, !BuffaTypesLaws} : MessageLaws CreateWalletResponse.
Proof. message_laws compute_size write_to merge_field. Qed.
#[global] Instance CreateWalletResponse_clear_laws : ClearLaws CreateWalletResponse.
Proof. by split. Qed.
End methods.
End CreateWalletResponse.

(** [cusf.mainchain.v1.GetBalanceRequest] *)
Module GetBalanceRequest.
Section methods.
Context `{BuffaTypes}.

Record GetBalanceRequest := mkGetBalanceRequest {}.

Definition compute_size (self : GetBalanceRequest) (__cache : SizeCache) : Z * SizeCache :=
  (0, __cache).
Definition write_to (self : GetBalanceRequest) : write_stmt :=
  id.
Definition merge_field : merge_fn GetBalanceRequest := λ self tag buf ctx,
  match field_number tag with
  | _ => merge_unknown self tag buf ctx
  end.
Definition clear (self : GetBalanceRequest) : GetBalanceRequest := mkGetBalanceRequest.

Definition GetBalanceRequest_name : MessageName GetBalanceRequest := {|
  PACKAGE := "cusf.mainchain.v1";
  NAME := "GetBalanceRequest";
  FULL_NAME := "cusf.mainchain.v1.GetBalanceRequest";
  TYPE_URL := "type.googleapis.com/cusf.mainchain.v1.GetBalanceRequest";
|}.
#[global] Existing Instance GetBalanceRequest_name.
#[global] Instance GetBalanceRequest_message : Message GetBalanceRequest := {
  default_message := mkGetBalanceRequest; compute_size := compute_size; write_to := write_to;
  merge_field := merge_field;
}.
#[global] Instance GetBalanceRequest_clear : Clear GetBalanceRequest := { clear := clear }.
#[global] Instance GetBalanceRequest_spec : MessageSpec GetBalanceRequest := {
  records self := [];
  schema := [];
  well_formed self := True;
  levels := 0;
}.
#[global] Instance GetBalanceRequest_laws `{!BuffaLaws, !BuffaTypesLaws} : MessageLaws GetBalanceRequest.
Proof. message_laws compute_size write_to merge_field. Qed.
#[global] Instance GetBalanceRequest_clear_laws : ClearLaws GetBalanceRequest.
Proof. by split. Qed.
End methods.
End GetBalanceRequest.

(** [cusf.mainchain.v1.GetBalanceResponse] *)
Module GetBalanceResponse.
Section methods.
Context `{BuffaTypes}.

Record GetBalanceResponse := mkGetBalanceResponse {
  confirmed_sats : Z; (* u64 *)
  pending_sats : Z; (* u64 *)
  has_synced : bool;
}.
Definition with_confirmed_sats v (self : GetBalanceResponse) : GetBalanceResponse :=
  mkGetBalanceResponse v (pending_sats self) (has_synced self).
Definition with_pending_sats v (self : GetBalanceResponse) : GetBalanceResponse :=
  mkGetBalanceResponse (confirmed_sats self) v (has_synced self).
Definition with_has_synced v (self : GetBalanceResponse) : GetBalanceResponse :=
  mkGetBalanceResponse (confirmed_sats self) (pending_sats self) v.

Definition compute_size (self : GetBalanceResponse) (__cache : SizeCache) : Z * SizeCache :=
  (size_uint64 1 (confirmed_sats self) ▷
   size_uint64 1 (pending_sats self) ▷
   size_bool 1 (has_synced self)) (0, __cache).
Definition write_to (self : GetBalanceResponse) : write_stmt :=
  write_uint64 1 (confirmed_sats self) ▷
  write_uint64 2 (pending_sats self) ▷
  write_bool 3 (has_synced self).
Definition merge_field : merge_fn GetBalanceResponse := λ self tag buf ctx,
  match field_number tag with
  | 1 => merge_scalar Varint decode_uint64 (λ v, with_confirmed_sats v self) tag buf
  | 2 => merge_scalar Varint decode_uint64 (λ v, with_pending_sats v self) tag buf
  | 3 => merge_scalar Varint decode_bool (λ v, with_has_synced v self) tag buf
  | _ => merge_unknown self tag buf ctx
  end.
Definition clear (self : GetBalanceResponse) : GetBalanceResponse := mkGetBalanceResponse 0 0 false.

Definition GetBalanceResponse_name : MessageName GetBalanceResponse := {|
  PACKAGE := "cusf.mainchain.v1";
  NAME := "GetBalanceResponse";
  FULL_NAME := "cusf.mainchain.v1.GetBalanceResponse";
  TYPE_URL := "type.googleapis.com/cusf.mainchain.v1.GetBalanceResponse";
|}.
#[global] Existing Instance GetBalanceResponse_name.
#[global] Instance GetBalanceResponse_message : Message GetBalanceResponse := {
  default_message := mkGetBalanceResponse 0 0 false; compute_size := compute_size; write_to := write_to;
  merge_field := merge_field;
}.
#[global] Instance GetBalanceResponse_clear : Clear GetBalanceResponse := { clear := clear }.
#[global] Instance GetBalanceResponse_spec : MessageSpec GetBalanceResponse := {
  records self := r_int 1 (confirmed_sats self) ++ r_int 2 (pending_sats self) ++ r_bool 3 (has_synced self);
  schema := [(1, Varint); (2, Varint); (3, Varint)];
  well_formed self := in_u 64 (confirmed_sats self) ∧ in_u 64 (pending_sats self);
  levels := 0;
}.
#[global] Instance confirmed_sats_lens : Lens confirmed_sats with_confirmed_sats.
Proof. lens. Qed.
#[global] Instance pending_sats_lens : Lens pending_sats with_pending_sats.
Proof. lens. Qed.
#[global] Instance has_synced_lens : Lens has_synced with_has_synced.
Proof. lens. Qed.
#[global] Instance GetBalanceResponse_laws `{!BuffaLaws, !BuffaTypesLaws} : MessageLaws GetBalanceResponse.
Proof. message_laws compute_size write_to merge_field. Qed.
#[global] Instance GetBalanceResponse_clear_laws : ClearLaws GetBalanceResponse.
Proof. by split. Qed.
End methods.
End GetBalanceResponse.

(** [cusf.mainchain.v1.ListTransactionsRequest] *)
Module ListTransactionsRequest.
Section methods.
Context `{BuffaTypes}.

Record ListTransactionsRequest := mkListTransactionsRequest {}.

Definition compute_size (self : ListTransactionsRequest) (__cache : SizeCache) : Z * SizeCache :=
  (0, __cache).
Definition write_to (self : ListTransactionsRequest) : write_stmt :=
  id.
Definition merge_field : merge_fn ListTransactionsRequest := λ self tag buf ctx,
  match field_number tag with
  | _ => merge_unknown self tag buf ctx
  end.
Definition clear (self : ListTransactionsRequest) : ListTransactionsRequest := mkListTransactionsRequest.

Definition ListTransactionsRequest_name : MessageName ListTransactionsRequest := {|
  PACKAGE := "cusf.mainchain.v1";
  NAME := "ListTransactionsRequest";
  FULL_NAME := "cusf.mainchain.v1.ListTransactionsRequest";
  TYPE_URL := "type.googleapis.com/cusf.mainchain.v1.ListTransactionsRequest";
|}.
#[global] Existing Instance ListTransactionsRequest_name.
#[global] Instance ListTransactionsRequest_message : Message ListTransactionsRequest := {
  default_message := mkListTransactionsRequest; compute_size := compute_size; write_to := write_to;
  merge_field := merge_field;
}.
#[global] Instance ListTransactionsRequest_clear : Clear ListTransactionsRequest := { clear := clear }.
#[global] Instance ListTransactionsRequest_spec : MessageSpec ListTransactionsRequest := {
  records self := [];
  schema := [];
  well_formed self := True;
  levels := 0;
}.
#[global] Instance ListTransactionsRequest_laws `{!BuffaLaws, !BuffaTypesLaws} : MessageLaws ListTransactionsRequest.
Proof. message_laws compute_size write_to merge_field. Qed.
#[global] Instance ListTransactionsRequest_clear_laws : ClearLaws ListTransactionsRequest.
Proof. by split. Qed.
End methods.
End ListTransactionsRequest.

(** [cusf.mainchain.v1.ListTransactionsResponse] *)
Module ListTransactionsResponse.
Section methods.
Context `{BuffaTypes}.

Record ListTransactionsResponse := mkListTransactionsResponse {
  transactions : list WalletTransaction.WalletTransaction;
}.
Definition with_transactions v (self : ListTransactionsResponse) : ListTransactionsResponse :=
  mkListTransactionsResponse v.

Definition compute_size (self : ListTransactionsResponse) (__cache : SizeCache) : Z * SizeCache :=
  (size_repeated 1 (transactions self)) (0, __cache).
Definition write_to (self : ListTransactionsResponse) : write_stmt :=
  write_repeated 1 (transactions self).
Definition merge_field : merge_fn ListTransactionsResponse := λ self tag buf ctx,
  match field_number tag with
  | 1 => merge_repeated (transactions self) (λ v, with_transactions v self) tag buf ctx
  | _ => merge_unknown self tag buf ctx
  end.
Definition clear (self : ListTransactionsResponse) : ListTransactionsResponse := mkListTransactionsResponse [].

Definition ListTransactionsResponse_name : MessageName ListTransactionsResponse := {|
  PACKAGE := "cusf.mainchain.v1";
  NAME := "ListTransactionsResponse";
  FULL_NAME := "cusf.mainchain.v1.ListTransactionsResponse";
  TYPE_URL := "type.googleapis.com/cusf.mainchain.v1.ListTransactionsResponse";
|}.
#[global] Existing Instance ListTransactionsResponse_name.
#[global] Instance ListTransactionsResponse_message : Message ListTransactionsResponse := {
  default_message := mkListTransactionsResponse []; compute_size := compute_size; write_to := write_to;
  merge_field := merge_field;
}.
#[global] Instance ListTransactionsResponse_clear : Clear ListTransactionsResponse := { clear := clear }.
#[global] Instance ListTransactionsResponse_spec : MessageSpec ListTransactionsResponse := {
  records self := r_repeated 1 (transactions self);
  schema := [(1, LengthDelimited)];
  well_formed self := Forall well_formed (transactions self);
  levels := 4;
}.
#[global] Instance transactions_lens : Lens transactions with_transactions.
Proof. lens. Qed.
#[global] Instance ListTransactionsResponse_laws `{!BuffaLaws, !BuffaTypesLaws} : MessageLaws ListTransactionsResponse.
Proof. message_laws compute_size write_to merge_field. Qed.
#[global] Instance ListTransactionsResponse_clear_laws : ClearLaws ListTransactionsResponse.
Proof. by split. Qed.
End methods.
End ListTransactionsResponse.

(** [cusf.mainchain.v1.SendTransactionRequest.FeeRate]: one of two amounts, zero included. *)
Module SendTransactionRequest_FeeRate.
Section methods.
Context `{BuffaTypes}.

Inductive Fee := SatPerVbyte (v : Z) (* u64 *) | Sats (v : Z). (* u64 *)
Record FeeRate := mkFeeRate { fee : option Fee }.

Definition compute_size (self : FeeRate) (__cache : SizeCache) : Z * SizeCache :=
  (match fee self with
   | Some (SatPerVbyte v) => add_size (1 + wrap_u 32 (uint64_encoded_len v))
   | Some (Sats v) => add_size (1 + wrap_u 32 (uint64_encoded_len v))
   | None => id
   end) (0, __cache).
Definition write_to (self : FeeRate) : write_stmt :=
  match fee self with
  | Some (SatPerVbyte x) => append (put_uint64_field 1 x)
  | Some (Sats x) => append (put_uint64_field 2 x)
  | None => id
  end.
Definition merge_field : merge_fn FeeRate := λ self tag buf ctx,
  match field_number tag with
  | 1 => merge_scalar Varint decode_uint64 (λ v, mkFeeRate (Some (SatPerVbyte v))) tag buf
  | 2 => merge_scalar Varint decode_uint64 (λ v, mkFeeRate (Some (Sats v))) tag buf
  | _ => merge_unknown self tag buf ctx
  end.
Definition clear (self : FeeRate) : FeeRate := mkFeeRate None.

Definition FeeRate_name : MessageName FeeRate := {|
  PACKAGE := "cusf.mainchain.v1";
  NAME := "SendTransactionRequest.FeeRate";
  FULL_NAME := "cusf.mainchain.v1.SendTransactionRequest.FeeRate";
  TYPE_URL := "type.googleapis.com/cusf.mainchain.v1.SendTransactionRequest.FeeRate";
|}.
#[global] Existing Instance FeeRate_name.
#[global] Instance FeeRate_message : Message FeeRate := {
  default_message := mkFeeRate None; compute_size := compute_size; write_to := write_to;
  merge_field := merge_field;
}.
#[global] Instance FeeRate_clear : Clear FeeRate := { clear := clear }.
#[global] Instance FeeRate_spec : MessageSpec FeeRate := {
  records self :=
    match fee self with
    | Some (SatPerVbyte v) => [(1, VInt v)]
    | Some (Sats v) => [(2, VInt v)]
    | None => []
    end;
  schema := [(1, Varint); (2, Varint)];
  well_formed self := match fee self with Some (SatPerVbyte v) => in_u 64 v | Some (Sats v) => in_u 64 v | None => True end;
  levels := 0;
}.
#[global] Instance FeeRate_laws `{!BuffaLaws, !BuffaTypesLaws} : MessageLaws FeeRate.
Proof. oneof_laws compute_size write_to merge_field. Qed.
#[global] Instance FeeRate_clear_laws : ClearLaws FeeRate.
Proof. by split. Qed.
End methods.
End SendTransactionRequest_FeeRate.

(** [cusf.mainchain.v1.SendTransactionRequest.RequiredUtxo] *)
Module SendTransactionRequest_RequiredUtxo.
Section methods.
Context `{BuffaTypes}.

Record RequiredUtxo := mkRequiredUtxo {
  txid : option ReverseHex.ReverseHex;
  vout : Z; (* u32 *)
}.
Definition with_txid v (self : RequiredUtxo) : RequiredUtxo := mkRequiredUtxo v (vout self).
Definition with_vout v (self : RequiredUtxo) : RequiredUtxo := mkRequiredUtxo (txid self) v.

Definition compute_size (self : RequiredUtxo) (__cache : SizeCache) : Z * SizeCache :=
  (size_message 1 (txid self) ▷
   size_uint32 1 (vout self)) (0, __cache).
Definition write_to (self : RequiredUtxo) : write_stmt :=
  write_message 1 (txid self) ▷
  write_uint32 2 (vout self).
Definition merge_field : merge_fn RequiredUtxo := λ self tag buf ctx,
  match field_number tag with
  | 1 => merge_message (txid self) (λ v, with_txid v self) tag buf ctx
  | 2 => merge_scalar Varint decode_uint32 (λ v, with_vout v self) tag buf
  | _ => merge_unknown self tag buf ctx
  end.
Definition clear (self : RequiredUtxo) : RequiredUtxo := mkRequiredUtxo None 0.

Definition RequiredUtxo_name : MessageName RequiredUtxo := {|
  PACKAGE := "cusf.mainchain.v1";
  NAME := "SendTransactionRequest.RequiredUtxo";
  FULL_NAME := "cusf.mainchain.v1.SendTransactionRequest.RequiredUtxo";
  TYPE_URL := "type.googleapis.com/cusf.mainchain.v1.SendTransactionRequest.RequiredUtxo";
|}.
#[global] Existing Instance RequiredUtxo_name.
#[global] Instance RequiredUtxo_message : Message RequiredUtxo := {
  default_message := mkRequiredUtxo None 0; compute_size := compute_size; write_to := write_to;
  merge_field := merge_field;
}.
#[global] Instance RequiredUtxo_clear : Clear RequiredUtxo := { clear := clear }.
#[global] Instance RequiredUtxo_spec : MessageSpec RequiredUtxo := {
  records self := r_message 1 (txid self) ++ r_int 2 (vout self);
  schema := [(1, LengthDelimited); (2, Varint)];
  well_formed self := from_option well_formed True (txid self) ∧ in_u 32 (vout self);
  levels := 2;
}.
#[global] Instance txid_lens : Lens txid with_txid.
Proof. lens. Qed.
#[global] Instance vout_lens : Lens vout with_vout.
Proof. lens. Qed.
#[global] Instance RequiredUtxo_laws `{!BuffaLaws, !BuffaTypesLaws} : MessageLaws RequiredUtxo.
Proof. message_laws compute_size write_to merge_field. Qed.
#[global] Instance RequiredUtxo_clear_laws : ClearLaws RequiredUtxo.
Proof. by split. Qed.
End methods.
End SendTransactionRequest_RequiredUtxo.

(** [cusf.mainchain.v1.SendTransactionRequest] *)
Module SendTransactionRequest.
Section methods.
Context `{BuffaTypes}.

Record SendTransactionRequest := mkSendTransactionRequest {
  destinations : gmap string Z;
  fee_rate : option SendTransactionRequest_FeeRate.FeeRate;
  op_return_message : option Hex.Hex;
  required_utxos : list SendTransactionRequest_RequiredUtxo.RequiredUtxo;
  drain_wallet_to : option string;
}.
Definition with_destinations v (self : SendTransactionRequest) : SendTransactionRequest :=
  mkSendTransactionRequest v (fee_rate self) (op_return_message self) (required_utxos self) (drain_wallet_to self).
Definition with_fee_rate v (self : SendTransactionRequest) : SendTransactionRequest :=
  mkSendTransactionRequest (destinations self) v (op_return_message self) (required_utxos self) (drain_wallet_to self).
Definition with_op_return_message v (self : SendTransactionRequest) : SendTransactionRequest :=
  mkSendTransactionRequest (destinations self) (fee_rate self) v (required_utxos self) (drain_wallet_to self).
Definition with_required_utxos v (self : SendTransactionRequest) : SendTransactionRequest :=
  mkSendTransactionRequest (destinations self) (fee_rate self) (op_return_message self) v (drain_wallet_to self).
Definition with_drain_wallet_to v (self : SendTransactionRequest) : SendTransactionRequest :=
  mkSendTransactionRequest (destinations self) (fee_rate self) (op_return_message self) (required_utxos self) v.

Definition compute_size (self : SendTransactionRequest) (__cache : SizeCache) : Z * SizeCache :=
  (size_map Uint64 1 (destinations self) ▷
   size_message 1 (fee_rate self) ▷
   size_message 1 (op_return_message self) ▷
   size_repeated 1 (required_utxos self) ▷
   size_some_string 1 (drain_wallet_to self)) (0, __cache).
Definition write_to (self : SendTransactionRequest) : write_stmt :=
  write_map Uint64 1 (destinations self) ▷
  write_message 2 (fee_rate self) ▷
  write_message 3 (op_return_message self) ▷
  write_repeated 4 (required_utxos self) ▷
  write_some_string 5 (drain_wallet_to self).
Definition merge_field : merge_fn SendTransactionRequest := λ self tag buf ctx,
  match field_number tag with
  | 1 => merge_map Uint64 (destinations self) (λ v, with_destinations v self) tag buf ctx
  | 2 => merge_message (fee_rate self) (λ v, with_fee_rate v self) tag buf ctx
  | 3 => merge_message (op_return_message self) (λ v, with_op_return_message v self) tag buf ctx
  | 4 => merge_repeated (required_utxos self) (λ v, with_required_utxos v self) tag buf ctx
  | 5 => merge_scalar LengthDelimited (merge_string (default EmptyString (drain_wallet_to self))) (λ v, with_drain_wallet_to (Some v) self) tag buf
  | _ => merge_unknown self tag buf ctx
  end.
Definition clear (self : SendTransactionRequest) : SendTransactionRequest := mkSendTransactionRequest ∅ None None [] None.

Definition SendTransactionRequest_name : MessageName SendTransactionRequest := {|
  PACKAGE := "cusf.mainchain.v1";
  NAME := "SendTransactionRequest";
  FULL_NAME := "cusf.mainchain.v1.SendTransactionRequest";
  TYPE_URL := "type.googleapis.com/cusf.mainchain.v1.SendTransactionRequest";
|}.
#[global] Existing Instance SendTransactionRequest_name.
#[global] Instance SendTransactionRequest_message : Message SendTransactionRequest := {
  default_message := mkSendTransactionRequest ∅ None None [] None; compute_size := compute_size; write_to := write_to;
  merge_field := merge_field;
}.
#[global] Instance SendTransactionRequest_clear : Clear SendTransactionRequest := { clear := clear }.
#[global] Instance SendTransactionRequest_spec : MessageSpec SendTransactionRequest := {
  records self := map_records Uint64 1 (destinations self) ++ r_message 2 (fee_rate self) ++
    r_message 3 (op_return_message self) ++ r_repeated 4 (required_utxos self) ++
    r_some_string 5 (drain_wallet_to self);
  schema := [(1, LengthDelimited); (2, LengthDelimited); (3, LengthDelimited); (4, LengthDelimited);
    (5, LengthDelimited)];
  well_formed self := map_ok Uint64 (destinations self) ∧ from_option well_formed True (fee_rate self) ∧
    from_option well_formed True (op_return_message self) ∧ Forall well_formed (required_utxos self) ∧
    from_option string_ok True (drain_wallet_to self);
  levels := 3;
}.
#[global] Instance destinations_lens : Lens destinations with_destinations.
Proof. lens. Qed.
#[global] Instance fee_rate_lens : Lens fee_rate with_fee_rate.
Proof. lens. Qed.
#[global] Instance op_return_message_lens : Lens op_return_message with_op_return_message.
Proof. lens. Qed.
#[global] Instance required_utxos_lens : Lens required_utxos with_required_utxos.
Proof. lens. Qed.
#[global] Instance drain_wallet_to_lens : Lens drain_wallet_to with_drain_wallet_to.
Proof. lens. Qed.
#[global] Instance SendTransactionRequest_laws `{!BuffaLaws, !BuffaTypesLaws} : MessageLaws SendTransactionRequest.
Proof. message_laws compute_size write_to merge_field. Qed.
#[global] Instance SendTransactionRequest_clear_laws : ClearLaws SendTransactionRequest.
Proof. by split. Qed.
End methods.
End SendTransactionRequest.

(** [cusf.mainchain.v1.SendTransactionResponse] *)
Module SendTransactionResponse.
Section methods.
Context `{BuffaTypes}.

Record SendTransactionResponse := mkSendTransactionResponse {
  txid : option ReverseHex.ReverseHex;
}.
Definition with_txid v (self : SendTransactionResponse) : SendTransactionResponse := mkSendTransactionResponse v.

Definition compute_size (self : SendTransactionResponse) (__cache : SizeCache) : Z * SizeCache :=
  (size_message 1 (txid self)) (0, __cache).
Definition write_to (self : SendTransactionResponse) : write_stmt :=
  write_message 1 (txid self).
Definition merge_field : merge_fn SendTransactionResponse := λ self tag buf ctx,
  match field_number tag with
  | 1 => merge_message (txid self) (λ v, with_txid v self) tag buf ctx
  | _ => merge_unknown self tag buf ctx
  end.
Definition clear (self : SendTransactionResponse) : SendTransactionResponse := mkSendTransactionResponse None.

Definition SendTransactionResponse_name : MessageName SendTransactionResponse := {|
  PACKAGE := "cusf.mainchain.v1";
  NAME := "SendTransactionResponse";
  FULL_NAME := "cusf.mainchain.v1.SendTransactionResponse";
  TYPE_URL := "type.googleapis.com/cusf.mainchain.v1.SendTransactionResponse";
|}.
#[global] Existing Instance SendTransactionResponse_name.
#[global] Instance SendTransactionResponse_message : Message SendTransactionResponse := {
  default_message := mkSendTransactionResponse None; compute_size := compute_size; write_to := write_to;
  merge_field := merge_field;
}.
#[global] Instance SendTransactionResponse_clear : Clear SendTransactionResponse := { clear := clear }.
#[global] Instance SendTransactionResponse_spec : MessageSpec SendTransactionResponse := {
  records self := r_message 1 (txid self);
  schema := [(1, LengthDelimited)];
  well_formed self := from_option well_formed True (txid self);
  levels := 2;
}.
#[global] Instance txid_lens : Lens txid with_txid.
Proof. lens. Qed.
#[global] Instance SendTransactionResponse_laws `{!BuffaLaws, !BuffaTypesLaws} : MessageLaws SendTransactionResponse.
Proof. message_laws compute_size write_to merge_field. Qed.
#[global] Instance SendTransactionResponse_clear_laws : ClearLaws SendTransactionResponse.
Proof. by split. Qed.
End methods.
End SendTransactionResponse.

(** [cusf.mainchain.v1.UnlockWalletRequest] *)
Module UnlockWalletRequest.
Section methods.
Context `{BuffaTypes}.

Record UnlockWalletRequest := mkUnlockWalletRequest {
  password : string;
}.
Definition with_password v (self : UnlockWalletRequest) : UnlockWalletRequest := mkUnlockWalletRequest v.

Definition compute_size (self : UnlockWalletRequest) (__cache : SizeCache) : Z * SizeCache :=
  (size_string 1 (password self)) (0, __cache).
Definition write_to (self : UnlockWalletRequest) : write_stmt :=
  write_string 1 (password self).
Definition merge_field : merge_fn UnlockWalletRequest := λ self tag buf ctx,
  match field_number tag with
  | 1 => merge_scalar LengthDelimited (merge_string (password self)) (λ v, with_password v self) tag buf
  | _ => merge_unknown self tag buf ctx
  end.
Definition clear (self : UnlockWalletRequest) : UnlockWalletRequest := mkUnlockWalletRequest EmptyString.

Definition UnlockWalletRequest_name : MessageName UnlockWalletRequest := {|
  PACKAGE := "cusf.mainchain.v1";
  NAME := "UnlockWalletRequest";
  FULL_NAME := "cusf.mainchain.v1.UnlockWalletRequest";
  TYPE_URL := "type.googleapis.com/cusf.mainchain.v1.UnlockWalletRequest";
|}.
#[global] Existing Instance UnlockWalletRequest_name.
#[global] Instance UnlockWalletRequest_message : Message UnlockWalletRequest := {
  default_message := mkUnlockWalletRequest EmptyString; compute_size := compute_size; write_to := write_to;
  merge_field := merge_field;
}.
#[global] Instance UnlockWalletRequest_clear : Clear UnlockWalletRequest := { clear := clear }.
#[global] Instance UnlockWalletRequest_spec : MessageSpec UnlockWalletRequest := {
  records self := r_string 1 (password self);
  schema := [(1, LengthDelimited)];
  well_formed self := string_ok (password self);
  levels := 0;
}.
#[global] Instance password_lens : Lens password with_password.
Proof. lens. Qed.
#[global] Instance UnlockWalletRequest_laws `{!BuffaLaws, !BuffaTypesLaws} : MessageLaws UnlockWalletRequest.
Proof. message_laws compute_size write_to merge_field. Qed.
#[global] Instance UnlockWalletRequest_clear_laws : ClearLaws UnlockWalletRequest.
Proof. by split. Qed.
End methods.
End UnlockWalletRequest.

(** [cusf.mainchain.v1.UnlockWalletResponse] *)
Module UnlockWalletResponse.
Section methods.
Context `{BuffaTypes}.

Record UnlockWalletResponse := mkUnlockWalletResponse {}.

Definition compute_size (self : UnlockWalletResponse) (__cache : SizeCache) : Z * SizeCache :=
  (0, __cache).
Definition write_to (self : UnlockWalletResponse) : write_stmt :=
  id.
Definition merge_field : merge_fn UnlockWalletResponse := λ self tag buf ctx,
  match field_number tag with
  | _ => merge_unknown self tag buf ctx
  end.
Definition clear (self : UnlockWalletResponse) : UnlockWalletResponse := mkUnlockWalletResponse.

Definition UnlockWalletResponse_name : MessageName UnlockWalletResponse := {|
  PACKAGE := "cusf.mainchain.v1";
  NAME := "UnlockWalletResponse";
  FULL_NAME := "cusf.mainchain.v1.UnlockWalletResponse";
  TYPE_URL := "type.googleapis.com/cusf.mainchain.v1.UnlockWalletResponse";
|}.
#[global] Existing Instance UnlockWalletResponse_name.
#[global] Instance UnlockWalletResponse_message : Message UnlockWalletResponse := {
  default_message := mkUnlockWalletResponse; compute_size := compute_size; write_to := write_to;
  merge_field := merge_field;
}.
#[global] Instance UnlockWalletResponse_clear : Clear UnlockWalletResponse := { clear := clear }.
#[global] Instance UnlockWalletResponse_spec : MessageSpec UnlockWalletResponse := {
  records self := [];
  schema := [];
  well_formed self := True;
  levels := 0;
}.
#[global] Instance UnlockWalletResponse_laws `{!BuffaLaws, !BuffaTypesLaws} : MessageLaws UnlockWalletResponse.
Proof. message_laws compute_size write_to merge_field. Qed.
#[global] Instance UnlockWalletResponse_clear_laws : ClearLaws UnlockWalletResponse.
Proof. by split. Qed.
End methods.
End UnlockWalletResponse.

(** [cusf.mainchain.v1.GetInfoRequest] *)
Module GetInfoRequest.
Section methods.
Context `{BuffaTypes}.

Record GetInfoRequest := mkGetInfoRequest {}.

Definition compute_size (self : GetInfoRequest) (__cache : SizeCache) : Z * SizeCache :=
  (0, __cache).
Definition write_to (self : GetInfoRequest) : write_stmt :=
  id.
Definition merge_field : merge_fn GetInfoRequest := λ self tag buf ctx,
  match field_number tag with
  | _ => merge_unknown self tag buf ctx
  end.
Definition clear (self : GetInfoRequest) : GetInfoRequest := mkGetInfoRequest.

Definition GetInfoRequest_name : MessageName GetInfoRequest := {|
  PACKAGE := "cusf.mainchain.v1";
  NAME := "GetInfoRequest";
  FULL_NAME := "cusf.mainchain.v1.GetInfoRequest";
  TYPE_URL := "type.googleapis.com/cusf.mainchain.v1.GetInfoRequest";
|}.
#[global] Existing Instance GetInfoRequest_name.
#[global] Instance GetInfoRequest_message : Message GetInfoRequest := {
  default_message := mkGetInfoRequest; compute_size := compute_size; write_to := write_to;
  merge_field := merge_field;
}.
#[global] Instance GetInfoRequest_clear : Clear GetInfoRequest := { clear := clear }.
#[global] Instance GetInfoRequest_spec : MessageSpec GetInfoRequest := {
  records self := [];
  schema := [];
  well_formed self := True;
  levels := 0;
}.
#[global] Instance GetInfoRequest_laws `{!BuffaLaws, !BuffaTypesLaws} : MessageLaws GetInfoRequest.
Proof. message_laws compute_size write_to merge_field. Qed.
#[global] Instance GetInfoRequest_clear_laws : ClearLaws GetInfoRequest.
Proof. by split. Qed.
End methods.
End GetInfoRequest.

(** [cusf.mainchain.v1.GetInfoResponse.Tip] *)
Module GetInfoResponse_Tip.
Section methods.
Context `{BuffaTypes}.

Record Tip := mkTip {
  height : Z; (* u32 *)
  hash : option ReverseHex.ReverseHex;
}.
Definition with_height v (self : Tip) : Tip := mkTip v (hash self).
Definition with_hash v (self : Tip) : Tip := mkTip (height self) v.

Definition compute_size (self : Tip) (__cache : SizeCache) : Z * SizeCache :=
  (size_uint32 1 (height self) ▷
   size_message 1 (hash self)) (0, __cache).
Definition write_to (self : Tip) : write_stmt :=
  write_uint32 1 (height self) ▷
  write_message 2 (hash self).
Definition merge_field : merge_fn Tip := λ self tag buf ctx,
  match field_number tag with
  | 1 => merge_scalar Varint decode_uint32 (λ v, with_height v self) tag buf
  | 2 => merge_message (hash self) (λ v, with_hash v self) tag buf ctx
  | _ => merge_unknown self tag buf ctx
  end.
Definition clear (self : Tip) : Tip := mkTip 0 None.

Definition Tip_name : MessageName Tip := {|
  PACKAGE := "cusf.mainchain.v1";
  NAME := "GetInfoResponse.Tip";
  FULL_NAME := "cusf.mainchain.v1.GetInfoResponse.Tip";
  TYPE_URL := "type.googleapis.com/cusf.mainchain.v1.GetInfoResponse.Tip";
|}.
#[global] Existing Instance Tip_name.
#[global] Instance Tip_message : Message Tip := {
  default_message := mkTip 0 None; compute_size := compute_size; write_to := write_to;
  merge_field := merge_field;
}.
#[global] Instance Tip_clear : Clear Tip := { clear := clear }.
#[global] Instance Tip_spec : MessageSpec Tip := {
  records self := r_int 1 (height self) ++ r_message 2 (hash self);
  schema := [(1, Varint); (2, LengthDelimited)];
  well_formed self := in_u 32 (height self) ∧ from_option well_formed True (hash self);
  levels := 2;
}.
#[global] Instance height_lens : Lens height with_height.
Proof. lens. Qed.
#[global] Instance hash_lens : Lens hash with_hash.
Proof. lens. Qed.
#[global] Instance Tip_laws `{!BuffaLaws, !BuffaTypesLaws} : MessageLaws Tip.
Proof. message_laws compute_size write_to merge_field. Qed.
#[global] Instance Tip_clear_laws : ClearLaws Tip.
Proof. by split. Qed.
End methods.
End GetInfoResponse_Tip.

(** [cusf.mainchain.v1.GetInfoResponse] *)
Module GetInfoResponse.
Section methods.
Context `{BuffaTypes}.

Record GetInfoResponse := mkGetInfoResponse {
  network : string;
  transaction_count : Z; (* u32 *)
  unspent_output_count : Z; (* u32 *)
  descriptors : gmap string string;
  tip : option GetInfoResponse_Tip.Tip;
}.
Definition with_network v (self : GetInfoResponse) : GetInfoResponse :=
  mkGetInfoResponse v (transaction_count self) (unspent_output_count self) (descriptors self) (tip self).
Definition with_transaction_count v (self : GetInfoResponse) : GetInfoResponse :=
  mkGetInfoResponse (network self) v (unspent_output_count self) (descriptors self) (tip self).
Definition with_unspent_output_count v (self : GetInfoResponse) : GetInfoResponse :=
  mkGetInfoResponse (network self) (transaction_count self) v (descriptors self) (tip self).
Definition with_descriptors v (self : GetInfoResponse) : GetInfoResponse :=
  mkGetInfoResponse (network self) (transaction_count self) (unspent_output_count self) v (tip self).
Definition with_tip v (self : GetInfoResponse) : GetInfoResponse :=
  mkGetInfoResponse (network self) (transaction_count self) (unspent_output_count self) (descriptors self) v.

Definition compute_size (self : GetInfoResponse) (__cache : SizeCache) : Z * SizeCache :=
  (size_string 1 (network self) ▷
   size_uint32 1 (transaction_count self) ▷
   size_uint32 1 (unspent_output_count self) ▷
   size_map Str 1 (descriptors self) ▷
   size_message 1 (tip self)) (0, __cache).
Definition write_to (self : GetInfoResponse) : write_stmt :=
  write_string 1 (network self) ▷
  write_uint32 2 (transaction_count self) ▷
  write_uint32 3 (unspent_output_count self) ▷
  write_map Str 4 (descriptors self) ▷
  write_message 5 (tip self).
Definition merge_field : merge_fn GetInfoResponse := λ self tag buf ctx,
  match field_number tag with
  | 1 => merge_scalar LengthDelimited (merge_string (network self)) (λ v, with_network v self) tag buf
  | 2 => merge_scalar Varint decode_uint32 (λ v, with_transaction_count v self) tag buf
  | 3 => merge_scalar Varint decode_uint32 (λ v, with_unspent_output_count v self) tag buf
  | 4 => merge_map Str (descriptors self) (λ v, with_descriptors v self) tag buf ctx
  | 5 => merge_message (tip self) (λ v, with_tip v self) tag buf ctx
  | _ => merge_unknown self tag buf ctx
  end.
Definition clear (self : GetInfoResponse) : GetInfoResponse := mkGetInfoResponse EmptyString 0 0 ∅ None.

Definition GetInfoResponse_name : MessageName GetInfoResponse := {|
  PACKAGE := "cusf.mainchain.v1";
  NAME := "GetInfoResponse";
  FULL_NAME := "cusf.mainchain.v1.GetInfoResponse";
  TYPE_URL := "type.googleapis.com/cusf.mainchain.v1.GetInfoResponse";
|}.
#[global] Existing Instance GetInfoResponse_name.
#[global] Instance GetInfoResponse_message : Message GetInfoResponse := {
  default_message := mkGetInfoResponse EmptyString 0 0 ∅ None; compute_size := compute_size; write_to := write_to;
  merge_field := merge_field;
}.
#[global] Instance GetInfoResponse_clear : Clear GetInfoResponse := { clear := clear }.
#[global] Instance GetInfoResponse_spec : MessageSpec GetInfoResponse := {
  records self := r_string 1 (network self) ++ r_int 2 (transaction_count self) ++
    r_int 3 (unspent_output_count self) ++ map_records Str 4 (descriptors self) ++ r_message 5 (tip self);
  schema := [(1, LengthDelimited); (2, Varint); (3, Varint); (4, LengthDelimited); (5, LengthDelimited)];
  well_formed self := string_ok (network self) ∧ in_u 32 (transaction_count self) ∧
    in_u 32 (unspent_output_count self) ∧ map_ok Str (descriptors self) ∧ from_option well_formed True (tip self);
  levels := 3;
}.
#[global] Instance network_lens : Lens network with_network.
Proof. lens. Qed.
#[global] Instance transaction_count_lens : Lens transaction_count with_transaction_count.
Proof. lens. Qed.
#[global] Instance unspent_output_count_lens : Lens unspent_output_count with_unspent_output_count.
Proof. lens. Qed.
#[global] Instance descriptors_lens : Lens descriptors with_descriptors.
Proof. lens. Qed.
#[global] Instance tip_lens : Lens tip with_tip.
Proof. lens. Qed.
#[global] Instance GetInfoResponse_laws `{!BuffaLaws, !BuffaTypesLaws} : MessageLaws GetInfoResponse.
Proof. message_laws compute_size write_to merge_field. Qed.
#[global] Instance GetInfoResponse_clear_laws : ClearLaws GetInfoResponse.
Proof. by split. Qed.
End methods.
End GetInfoResponse.

(** [cusf.mainchain.v1.ListUnspentOutputsRequest] *)
Module ListUnspentOutputsRequest.
Section methods.
Context `{BuffaTypes}.

Record ListUnspentOutputsRequest := mkListUnspentOutputsRequest {}.

Definition compute_size (self : ListUnspentOutputsRequest) (__cache : SizeCache) : Z * SizeCache :=
  (0, __cache).
Definition write_to (self : ListUnspentOutputsRequest) : write_stmt :=
  id.
Definition merge_field : merge_fn ListUnspentOutputsRequest := λ self tag buf ctx,
  match field_number tag with
  | _ => merge_unknown self tag buf ctx
  end.
Definition clear (self : ListUnspentOutputsRequest) : ListUnspentOutputsRequest := mkListUnspentOutputsRequest.

Definition ListUnspentOutputsRequest_name : MessageName ListUnspentOutputsRequest := {|
  PACKAGE := "cusf.mainchain.v1";
  NAME := "ListUnspentOutputsRequest";
  FULL_NAME := "cusf.mainchain.v1.ListUnspentOutputsRequest";
  TYPE_URL := "type.googleapis.com/cusf.mainchain.v1.ListUnspentOutputsRequest";
|}.
#[global] Existing Instance ListUnspentOutputsRequest_name.
#[global] Instance ListUnspentOutputsRequest_message : Message ListUnspentOutputsRequest := {
  default_message := mkListUnspentOutputsRequest; compute_size := compute_size; write_to := write_to;
  merge_field := merge_field;
}.
#[global] Instance ListUnspentOutputsRequest_clear : Clear ListUnspentOutputsRequest := { clear := clear }.
#[global] Instance ListUnspentOutputsRequest_spec : MessageSpec ListUnspentOutputsRequest := {
  records self := [];
  schema := [];
  well_formed self := True;
  levels := 0;
}.
#[global] Instance ListUnspentOutputsRequest_laws `{!BuffaLaws, !BuffaTypesLaws} : MessageLaws ListUnspentOutputsRequest.
Proof. message_laws compute_size write_to merge_field. Qed.
#[global] Instance ListUnspentOutputsRequest_clear_laws : ClearLaws ListUnspentOutputsRequest.
Proof. by split. Qed.
End methods.
End ListUnspentOutputsRequest.

(** [cusf.mainchain.v1.ListUnspentOutputsResponse.Output] *)
Module ListUnspentOutputsResponse_Output.
Section methods.
Context `{BuffaTypes}.

Record Output := mkOutput {
  txid : option ReverseHex.ReverseHex;
  vout : Z; (* u32 *)
  value_sats : Z; (* u64 *)
  is_internal : bool;
  is_confirmed : bool;
  confirmed_at_block : Z; (* u32 *)
  confirmed_at_time : option Timestamp;
  confirmed_transitively : option ReverseHex.ReverseHex;
  unconfirmed_last_seen : option Timestamp;
  address : option StringValue;
}.
Definition with_txid v (self : Output) : Output :=
  mkOutput v (vout self) (value_sats self) (is_internal self) (is_confirmed self) (confirmed_at_block self) (confirmed_at_time self) (confirmed_transitively self) (unconfirmed_last_seen self) (address self).
Definition with_vout v (self : Output) : Output :=
  mkOutput (txid self) v (value_sats self) (is_internal self) (is_confirmed self) (confirmed_at_block self) (confirmed_at_time self) (confirmed_transitively self) (unconfirmed_last_seen self) (address self).
Definition with_value_sats v (self : Output) : Output :=
  mkOutput (txid self) (vout self) v (is_internal self) (is_confirmed self) (confirmed_at_block self) (confirmed_at_time self) (confirmed_transitively self) (unconfirmed_last_seen self) (address self).
Definition with_is_internal v (self : Output) : Output :=
  mkOutput (txid self) (vout self) (value_sats self) v (is_confirmed self) (confirmed_at_block self) (confirmed_at_time self) (confirmed_transitively self) (unconfirmed_last_seen self) (address self).
Definition with_is_confirmed v (self : Output) : Output :=
  mkOutput (txid self) (vout self) (value_sats self) (is_internal self) v (confirmed_at_block self) (confirmed_at_time self) (confirmed_transitively self) (unconfirmed_last_seen self) (address self).
Definition with_confirmed_at_block v (self : Output) : Output :=
  mkOutput (txid self) (vout self) (value_sats self) (is_internal self) (is_confirmed self) v (confirmed_at_time self) (confirmed_transitively self) (unconfirmed_last_seen self) (address self).
Definition with_confirmed_at_time v (self : Output) : Output :=
  mkOutput (txid self) (vout self) (value_sats self) (is_internal self) (is_confirmed self) (confirmed_at_block self) v (confirmed_transitively self) (unconfirmed_last_seen self) (address self).
Definition with_confirmed_transitively v (self : Output) : Output :=
  mkOutput (txid self) (vout self) (value_sats self) (is_internal self) (is_confirmed self) (confirmed_at_block self) (confirmed_at_time self) v (unconfirmed_last_seen self) (address self).
Definition with_unconfirmed_last_seen v (self : Output) : Output :=
  mkOutput (txid self) (vout self) (value_sats self) (is_internal self) (is_confirmed self) (confirmed_at_block self) (confirmed_at_time self) (confirmed_transitively self) v (address self).
Definition with_address v (self : Output) : Output :=
  mkOutput (txid self) (vout self) (value_sats self) (is_internal self) (is_confirmed self) (confirmed_at_block self) (confirmed_at_time self) (confirmed_transitively self) (unconfirmed_last_seen self) v.

Definition compute_size (self : Output) (__cache : SizeCache) : Z * SizeCache :=
  (size_message 1 (txid self) ▷
   size_uint32 1 (vout self) ▷
   size_uint64 1 (value_sats self) ▷
   size_bool 1 (is_internal self) ▷
   size_bool 1 (is_confirmed self) ▷
   size_uint32 1 (confirmed_at_block self) ▷
   size_message 1 (confirmed_at_time self) ▷
   size_message 1 (confirmed_transitively self) ▷
   size_message 1 (unconfirmed_last_seen self) ▷
   size_message 1 (address self)) (0, __cache).
Definition write_to (self : Output) : write_stmt :=
  write_message 1 (txid self) ▷
  write_uint32 2 (vout self) ▷
  write_uint64 3 (value_sats self) ▷
  write_bool 4 (is_internal self) ▷
  write_bool 5 (is_confirmed self) ▷
  write_uint32 6 (confirmed_at_block self) ▷
  write_message 7 (confirmed_at_time self) ▷
  write_message 8 (confirmed_transitively self) ▷
  write_message 9 (unconfirmed_last_seen self) ▷
  write_message 10 (address self).
Definition merge_field : merge_fn Output := λ self tag buf ctx,
  match field_number tag with
  | 1 => merge_message (txid self) (λ v, with_txid v self) tag buf ctx
  | 2 => merge_scalar Varint decode_uint32 (λ v, with_vout v self) tag buf
  | 3 => merge_scalar Varint decode_uint64 (λ v, with_value_sats v self) tag buf
  | 4 => merge_scalar Varint decode_bool (λ v, with_is_internal v self) tag buf
  | 5 => merge_scalar Varint decode_bool (λ v, with_is_confirmed v self) tag buf
  | 6 => merge_scalar Varint decode_uint32 (λ v, with_confirmed_at_block v self) tag buf
  | 7 => merge_message (confirmed_at_time self) (λ v, with_confirmed_at_time v self) tag buf ctx
  | 8 => merge_message (confirmed_transitively self) (λ v, with_confirmed_transitively v self) tag buf ctx
  | 9 => merge_message (unconfirmed_last_seen self) (λ v, with_unconfirmed_last_seen v self) tag buf ctx
  | 10 => merge_message (address self) (λ v, with_address v self) tag buf ctx
  | _ => merge_unknown self tag buf ctx
  end.
Definition clear (self : Output) : Output := mkOutput None 0 0 false false 0 None None None None.

Definition Output_name : MessageName Output := {|
  PACKAGE := "cusf.mainchain.v1";
  NAME := "ListUnspentOutputsResponse.Output";
  FULL_NAME := "cusf.mainchain.v1.ListUnspentOutputsResponse.Output";
  TYPE_URL := "type.googleapis.com/cusf.mainchain.v1.ListUnspentOutputsResponse.Output";
|}.
#[global] Existing Instance Output_name.
#[global] Instance Output_message : Message Output := {
  default_message := mkOutput None 0 0 false false 0 None None None None; compute_size := compute_size; write_to := write_to;
  merge_field := merge_field;
}.
#[global] Instance Output_clear : Clear Output := { clear := clear }.
#[global] Instance Output_spec : MessageSpec Output := {
  records self := r_message 1 (txid self) ++ r_int 2 (vout self) ++ r_int 3 (value_sats self) ++
    r_bool 4 (is_internal self) ++ r_bool 5 (is_confirmed self) ++ r_int 6 (confirmed_at_block self) ++
    r_message 7 (confirmed_at_time self) ++ r_message 8 (confirmed_transitively self) ++
    r_message 9 (unconfirmed_last_seen self) ++ r_message 10 (address self);
  schema := [(1, LengthDelimited); (2, Varint); (3, Varint); (4, Varint); (5, Varint); (6, Varint);
    (7, LengthDelimited); (8, LengthDelimited); (9, LengthDelimited); (10, LengthDelimited)];
  well_formed self := from_option well_formed True (txid self) ∧ in_u 32 (vout self) ∧
    in_u 64 (value_sats self) ∧ in_u 32 (confirmed_at_block self) ∧
    from_option well_formed True (confirmed_at_time self) ∧
    from_option well_formed True (confirmed_transitively self) ∧
    from_option well_formed True (unconfirmed_last_seen self) ∧ from_option well_formed True (address self);
  levels := 2;
}.
#[global] Instance txid_lens : Lens txid with_txid.
Proof. lens. Qed.
#[global] Instance vout_lens : Lens vout with_vout.
Proof. lens. Qed.
#[global] Instance value_sats_lens : Lens value_sats with_value_sats.
Proof. lens. Qed.
#[global] Instance is_internal_lens : Lens is_internal with_is_internal.
Proof. lens. Qed.
#[global] Instance is_confirmed_lens : Lens is_confirmed with_is_confirmed.
Proof. lens. Qed.
#[global] Instance confirmed_at_block_lens : Lens confirmed_at_block with_confirmed_at_block.
Proof. lens. Qed.
#[global] Instance confirmed_at_time_lens : Lens confirmed_at_time with_confirmed_at_time.
Proof. lens. Qed.
#[global] Instance confirmed_transitively_lens : Lens confirmed_transitively with_confirmed_transitively.
Proof. lens. Qed.
#[global] Instance unconfirmed_last_seen_lens : Lens unconfirmed_last_seen with_unconfirmed_last_seen.
Proof. lens. Qed.
#[global] Instance address_lens : Lens address with_address.
Proof. lens. Qed.
#[global] Instance Output_laws `{!BuffaLaws, !BuffaTypesLaws} : MessageLaws Output.
Proof. message_laws compute_size write_to merge_field. Qed.
#[global] Instance Output_clear_laws : ClearLaws Output.
Proof. by split. Qed.
End methods.
End ListUnspentOutputsResponse_Output.

(** [cusf.mainchain.v1.ListUnspentOutputsResponse] *)
Module ListUnspentOutputsResponse.
Section methods.
Context `{BuffaTypes}.

Record ListUnspentOutputsResponse := mkListUnspentOutputsResponse {
  outputs : list ListUnspentOutputsResponse_Output.Output;
}.
Definition with_outputs v (self : ListUnspentOutputsResponse) : ListUnspentOutputsResponse :=
  mkListUnspentOutputsResponse v.

Definition compute_size (self : ListUnspentOutputsResponse) (__cache : SizeCache) : Z * SizeCache :=
  (size_repeated 1 (outputs self)) (0, __cache).
Definition write_to (self : ListUnspentOutputsResponse) : write_stmt :=
  write_repeated 1 (outputs self).
Definition merge_field : merge_fn ListUnspentOutputsResponse := λ self tag buf ctx,
  match field_number tag with
  | 1 => merge_repeated (outputs self) (λ v, with_outputs v self) tag buf ctx
  | _ => merge_unknown self tag buf ctx
  end.
Definition clear (self : ListUnspentOutputsResponse) : ListUnspentOutputsResponse := mkListUnspentOutputsResponse [].

Definition ListUnspentOutputsResponse_name : MessageName ListUnspentOutputsResponse := {|
  PACKAGE := "cusf.mainchain.v1";
  NAME := "ListUnspentOutputsResponse";
  FULL_NAME := "cusf.mainchain.v1.ListUnspentOutputsResponse";
  TYPE_URL := "type.googleapis.com/cusf.mainchain.v1.ListUnspentOutputsResponse";
|}.
#[global] Existing Instance ListUnspentOutputsResponse_name.
#[global] Instance ListUnspentOutputsResponse_message : Message ListUnspentOutputsResponse := {
  default_message := mkListUnspentOutputsResponse []; compute_size := compute_size; write_to := write_to;
  merge_field := merge_field;
}.
#[global] Instance ListUnspentOutputsResponse_clear : Clear ListUnspentOutputsResponse := { clear := clear }.
#[global] Instance ListUnspentOutputsResponse_spec : MessageSpec ListUnspentOutputsResponse := {
  records self := r_repeated 1 (outputs self);
  schema := [(1, LengthDelimited)];
  well_formed self := Forall well_formed (outputs self);
  levels := 3;
}.
#[global] Instance outputs_lens : Lens outputs with_outputs.
Proof. lens. Qed.
#[global] Instance ListUnspentOutputsResponse_laws `{!BuffaLaws, !BuffaTypesLaws} : MessageLaws ListUnspentOutputsResponse.
Proof. message_laws compute_size write_to merge_field. Qed.
#[global] Instance ListUnspentOutputsResponse_clear_laws : ClearLaws ListUnspentOutputsResponse.
Proof. by split. Qed.
End methods.
End ListUnspentOutputsResponse.
