(* ===== verification/ProtoCommonView.v ===== *)
(** The views of the messages of `common.proto` (`proto/generated/buffa/cusf.common.v1.rs`). *)
From Stdlib Require Import ZArith Lia Strings.Byte Strings.String.
From stdpp Require Import base list gmap strings.
From S2P Require Import Prelude Wire WireTypes WireView ProtoCommon.
#[local] Open Scope Z_scope.

(** The view of [cusf.common.v1.ConsensusHex]. *)
Module ConsensusHexView.
Section methods.
Context `{BuffaTypeViews}.

Record ConsensusHexView := mkConsensusHexView {
  hex : option StringValueView;
}.
Definition with_hex v (self : ConsensusHexView) : ConsensusHexView := mkConsensusHexView v.

Definition compute_size (self : ConsensusHexView) (__cache : SizeCache) : Z * SizeCache :=
  (size_message 1 (hex self)) (0, __cache).
Definition write_to (self : ConsensusHexView) : write_stmt :=
  write_message 1 (hex self).
Definition merge_view_field : merge_fn ConsensusHexView := λ view tag cur ctx,
  match field_number tag with
  | 1 => view_message (hex view) (λ v, with_hex v view) tag cur ctx
  | _ => merge_unknown view tag cur ctx
  end.
Definition to_owned_from_source (self : ConsensusHexView) : outcome DecodeError ConsensusHex.ConsensusHex :=
  hex ← own_message (hex self);
  Ok (ConsensusHex.mkConsensusHex hex).

Definition ConsensusHexView_name : MessageName ConsensusHexView := {|
  PACKAGE := "cusf.common.v1";
  NAME := "ConsensusHex";
  FULL_NAME := "cusf.common.v1.ConsensusHex";
  TYPE_URL := "type.googleapis.com/cusf.common.v1.ConsensusHex";
|}.
#[global] Existing Instance ConsensusHexView_name.
#[global] Instance ConsensusHexView_message : Message ConsensusHexView := {
  default_message := mkConsensusHexView None; compute_size := compute_size; write_to := write_to;
  merge_field := merge_view_field;
}.
#[global] Instance ConsensusHexView_spec : MessageSpec ConsensusHexView := {
  records self := r_message 1 (hex self);
  schema := [(1, LengthDelimited)];
  well_formed self := from_option well_formed True (hex self);
  levels := 1;
}.
#[global] Instance ConsensusHexView_own : ToOwned ConsensusHexView ConsensusHex.ConsensusHex := {
  to_owned_from_source := to_owned_from_source;
}.
#[global] Instance hex_lens : Lens hex with_hex.
Proof. lens. Qed.

Context `{!BuffaLaws, !BuffaTypesLaws, !BuffaViewsLaws, !BuffaTypeViewsLaws}.
#[global] Instance ConsensusHexView_laws : MessageLaws ConsensusHexView.
Proof. message_laws compute_size write_to merge_view_field. Qed.
Definition borrow (self : ConsensusHex.ConsensusHex) : ConsensusHexView :=
  mkConsensusHexView (view_of <$> ConsensusHex.hex self).
#[global] Instance ConsensusHexView_view : View ConsensusHexView ConsensusHex.ConsensusHex.
Proof. view_laws borrow to_owned_from_source. Defined.
End methods.
End ConsensusHexView.

(** The view of [cusf.common.v1.Hex]. *)
Module HexView.
Section methods.
Context `{BuffaTypeViews}.

Record HexView := mkHexView {
  hex : option StringValueView;
}.
Definition with_hex v (self : HexView) : HexView := mkHexView v.

Definition compute_size (self : HexView) (__cache : SizeCache) : Z * SizeCache :=
  (size_message 1 (hex self)) (0, __cache).
Definition write_to (self : HexView) : write_stmt :=
  write_message 1 (hex self).
Definition merge_view_field : merge_fn HexView := λ view tag cur ctx,
  match field_number tag with
  | 1 => view_message (hex view) (λ v, with_hex v view) tag cur ctx
  | _ => merge_unknown view tag cur ctx
  end.
Definition to_owned_from_source (self : HexView) : outcome DecodeError Hex.Hex :=
  hex ← own_message (hex self);
  Ok (Hex.mkHex hex).

Definition HexView_name : MessageName HexView := {|
  PACKAGE := "cusf.common.v1";
  NAME := "Hex";
  FULL_NAME := "cusf.common.v1.Hex";
  TYPE_URL := "type.googleapis.com/cusf.common.v1.Hex";
|}.
#[global] Existing Instance HexView_name.
#[global] Instance HexView_message : Message HexView := {
  default_message := mkHexView None; compute_size := compute_size; write_to := write_to;
  merge_field := merge_view_field;
}.
#[global] Instance HexView_spec : MessageSpec HexView := {
  records self := r_message 1 (hex self);
  schema := [(1, LengthDelimited)];
  well_formed self := from_option well_formed True (hex self);
  levels := 1;
}.
#[global] Instance HexView_own : ToOwned HexView Hex.Hex := {
  to_owned_from_source := to_owned_from_source;
}.
#[global] Instance hex_lens : Lens hex with_hex.
Proof. lens. Qed.

Context `{!BuffaLaws, !BuffaTypesLaws, !BuffaViewsLaws, !BuffaTypeViewsLaws}.
#[global] Instance HexView_laws : MessageLaws HexView.
Proof. message_laws compute_size write_to merge_view_field. Qed.
Definition borrow (self : Hex.Hex) : HexView :=
  mkHexView (view_of <$> Hex.hex self).
#[global] Instance HexView_view : View HexView Hex.Hex.
Proof. view_laws borrow to_owned_from_source. Defined.
End methods.
End HexView.

(** The view of [cusf.common.v1.ReverseHex]. *)
Module ReverseHexView.
Section methods.
Context `{BuffaTypeViews}.

Record ReverseHexView := mkReverseHexView {
  hex : option StringValueView;
}.
Definition with_hex v (self : ReverseHexView) : ReverseHexView := mkReverseHexView v.

Definition compute_size (self : ReverseHexView) (__cache : SizeCache) : Z * SizeCache :=
  (size_message 1 (hex self)) (0, __cache).
Definition write_to (self : ReverseHexView) : write_stmt :=
  write_message 1 (hex self).
Definition merge_view_field : merge_fn ReverseHexView := λ view tag cur ctx,
  match field_number tag with
  | 1 => view_message (hex view) (λ v, with_hex v view) tag cur ctx
  | _ => merge_unknown view tag cur ctx
  end.
Definition to_owned_from_source (self : ReverseHexView) : outcome DecodeError ReverseHex.ReverseHex :=
  hex ← own_message (hex self);
  Ok (ReverseHex.mkReverseHex hex).

Definition ReverseHexView_name : MessageName ReverseHexView := {|
  PACKAGE := "cusf.common.v1";
  NAME := "ReverseHex";
  FULL_NAME := "cusf.common.v1.ReverseHex";
  TYPE_URL := "type.googleapis.com/cusf.common.v1.ReverseHex";
|}.
#[global] Existing Instance ReverseHexView_name.
#[global] Instance ReverseHexView_message : Message ReverseHexView := {
  default_message := mkReverseHexView None; compute_size := compute_size; write_to := write_to;
  merge_field := merge_view_field;
}.
#[global] Instance ReverseHexView_spec : MessageSpec ReverseHexView := {
  records self := r_message 1 (hex self);
  schema := [(1, LengthDelimited)];
  well_formed self := from_option well_formed True (hex self);
  levels := 1;
}.
#[global] Instance ReverseHexView_own : ToOwned ReverseHexView ReverseHex.ReverseHex := {
  to_owned_from_source := to_owned_from_source;
}.
#[global] Instance hex_lens : Lens hex with_hex.
Proof. lens. Qed.

Context `{!BuffaLaws, !BuffaTypesLaws, !BuffaViewsLaws, !BuffaTypeViewsLaws}.
#[global] Instance ReverseHexView_laws : MessageLaws ReverseHexView.
Proof. message_laws compute_size write_to merge_view_field. Qed.
Definition borrow (self : ReverseHex.ReverseHex) : ReverseHexView :=
  mkReverseHexView (view_of <$> ReverseHex.hex self).
#[global] Instance ReverseHexView_view : View ReverseHexView ReverseHex.ReverseHex.
Proof. view_laws borrow to_owned_from_source. Defined.
End methods.
End ReverseHexView.
