(* ===== verification/ProtoCryptoView.v ===== *)
(** The views of the messages of `crypto.proto` (`proto/generated/buffa/cusf.crypto.v1.rs`). *)
From Stdlib Require Import ZArith Lia Strings.Byte Strings.String.
From stdpp Require Import base list gmap strings.
From S2P Require Import Prelude Wire WireTypes WireView ProtoCommon ProtoCrypto ProtoCommonView.
#[local] Open Scope Z_scope.

(** The view of [cusf.crypto.v1.HmacSha512Request]. *)
Module HmacSha512RequestView.
Section methods.
Context `{BuffaTypeViews}.

Record HmacSha512RequestView := mkHmacSha512RequestView {
  key : option HexView.HexView;
  msg : option HexView.HexView;
}.
Definition with_key v (self : HmacSha512RequestView) : HmacSha512RequestView := mkHmacSha512RequestView v (msg self).
Definition with_msg v (self : HmacSha512RequestView) : HmacSha512RequestView := mkHmacSha512RequestView (key self) v.

Definition compute_size (self : HmacSha512RequestView) (__cache : SizeCache) : Z * SizeCache :=
  (size_message 1 (key self) ▷
   size_message 1 (msg self)) (0, __cache).
Definition write_to (self : HmacSha512RequestView) : write_stmt :=
  write_message 1 (key self) ▷
  write_message 2 (msg self).
Definition merge_view_field : merge_fn HmacSha512RequestView := λ view tag cur ctx,
  match field_number tag with
  | 1 => view_message (key view) (λ v, with_key v view) tag cur ctx
  | 2 => view_message (msg view) (λ v, with_msg v view) tag cur ctx
  | _ => merge_unknown view tag cur ctx
  end.
Definition to_owned_from_source (self : HmacSha512RequestView) : outcome DecodeError HmacSha512Request.HmacSha512Request :=
  key ← own_message (key self);
  msg ← own_message (msg self);
  Ok (HmacSha512Request.mkHmacSha512Request key msg).

Definition HmacSha512RequestView_name : MessageName HmacSha512RequestView := {|
  PACKAGE := "cusf.crypto.v1";
  NAME := "HmacSha512Request";
  FULL_NAME := "cusf.crypto.v1.HmacSha512Request";
  TYPE_URL := "type.googleapis.com/cusf.crypto.v1.HmacSha512Request";
|}.
#[global] Existing Instance HmacSha512RequestView_name.
#[global] Instance HmacSha512RequestView_message : Message HmacSha512RequestView := {
  default_message := mkHmacSha512RequestView None None; compute_size := compute_size; write_to := write_to;
  merge_field := merge_view_field;
}.
#[global] Instance HmacSha512RequestView_spec : MessageSpec HmacSha512RequestView := {
  records self := r_message 1 (key self) ++ r_message 2 (msg self);
  schema := [(1, LengthDelimited); (2, LengthDelimited)];
  well_formed self := from_option well_formed True (key self) ∧ from_option well_formed True (msg self);
  levels := 2;
}.
#[global] Instance HmacSha512RequestView_own : ToOwned HmacSha512RequestView HmacSha512Request.HmacSha512Request := {
  to_owned_from_source := to_owned_from_source;
}.
#[global] Instance key_lens : Lens key with_key.
Proof. lens. Qed.
#[global] Instance msg_lens : Lens msg with_msg.
Proof. lens. Qed.

Context `{!BuffaLaws, !BuffaTypesLaws, !BuffaViewsLaws, !BuffaTypeViewsLaws}.
#[global] Instance HmacSha512RequestView_laws : MessageLaws HmacSha512RequestView.
Proof. message_laws compute_size write_to merge_view_field. Qed.
Definition borrow (self : HmacSha512Request.HmacSha512Request) : HmacSha512RequestView :=
  mkHmacSha512RequestView (view_of <$> HmacSha512Request.key self) (view_of <$> HmacSha512Request.msg self).
#[global] Instance HmacSha512RequestView_view : View HmacSha512RequestView HmacSha512Request.HmacSha512Request.
Proof. view_laws borrow to_owned_from_source. Defined.
End methods.
End HmacSha512RequestView.

(** The view of [cusf.crypto.v1.HmacSha512Response]. *)
Module HmacSha512ResponseView.
Section methods.
Context `{BuffaTypeViews}.

Record HmacSha512ResponseView := mkHmacSha512ResponseView {
  hmac : option HexView.HexView;
}.
Definition with_hmac v (self : HmacSha512ResponseView) : HmacSha512ResponseView := mkHmacSha512ResponseView v.

Definition compute_size (self : HmacSha512ResponseView) (__cache : SizeCache) : Z * SizeCache :=
  (size_message 1 (hmac self)) (0, __cache).
Definition write_to (self : HmacSha512ResponseView) : write_stmt :=
  write_message 1 (hmac self).
Definition merge_view_field : merge_fn HmacSha512ResponseView := λ view tag cur ctx,
  match field_number tag with
  | 1 => view_message (hmac view) (λ v, with_hmac v view) tag cur ctx
  | _ => merge_unknown view tag cur ctx
  end.
Definition to_owned_from_source (self : HmacSha512ResponseView) : outcome DecodeError HmacSha512Response.HmacSha512Response :=
  hmac ← own_message (hmac self);
  Ok (HmacSha512Response.mkHmacSha512Response hmac).

Definition HmacSha512ResponseView_name : MessageName HmacSha512ResponseView := {|
  PACKAGE := "cusf.crypto.v1";
  NAME := "HmacSha512Response";
  FULL_NAME := "cusf.crypto.v1.HmacSha512Response";
  TYPE_URL := "type.googleapis.com/cusf.crypto.v1.HmacSha512Response";
|}.
#[global] Existing Instance HmacSha512ResponseView_name.
#[global] Instance HmacSha512ResponseView_message : Message HmacSha512ResponseView := {
  default_message := mkHmacSha512ResponseView None; compute_size := compute_size; write_to := write_to;
  merge_field := merge_view_field;
}.
#[global] Instance HmacSha512ResponseView_spec : MessageSpec HmacSha512ResponseView := {
  records self := r_message 1 (hmac self);
  schema := [(1, LengthDelimited)];
  well_formed self := from_option well_formed True (hmac self);
  levels := 2;
}.
#[global] Instance HmacSha512ResponseView_own : ToOwned HmacSha512ResponseView HmacSha512Response.HmacSha512Response := {
  to_owned_from_source := to_owned_from_source;
}.
#[global] Instance hmac_lens : Lens hmac with_hmac.
Proof. lens. Qed.

Context `{!BuffaLaws, !BuffaTypesLaws, !BuffaViewsLaws, !BuffaTypeViewsLaws}.
#[global] Instance HmacSha512ResponseView_laws : MessageLaws HmacSha512ResponseView.
Proof. message_laws compute_size write_to merge_view_field. Qed.
Definition borrow (self : HmacSha512Response.HmacSha512Response) : HmacSha512ResponseView :=
  mkHmacSha512ResponseView (view_of <$> HmacSha512Response.hmac self).
#[global] Instance HmacSha512ResponseView_view : View HmacSha512ResponseView HmacSha512Response.HmacSha512Response.
Proof. view_laws borrow to_owned_from_source. Defined.
End methods.
End HmacSha512ResponseView.

(** The view of [cusf.crypto.v1.Ripemd160Request]. *)
Module Ripemd160RequestView.
Section methods.
Context `{BuffaTypeViews}.

Record Ripemd160RequestView := mkRipemd160RequestView {
  msg : option HexView.HexView;
}.
Definition with_msg v (self : Ripemd160RequestView) : Ripemd160RequestView := mkRipemd160RequestView v.

Definition compute_size (self : Ripemd160RequestView) (__cache : SizeCache) : Z * SizeCache :=
  (size_message 1 (msg self)) (0, __cache).
Definition write_to (self : Ripemd160RequestView) : write_stmt :=
  write_message 1 (msg self).
Definition merge_view_field : merge_fn Ripemd160RequestView := λ view tag cur ctx,
  match field_number tag with
  | 1 => view_message (msg view) (λ v, with_msg v view) tag cur ctx
  | _ => merge_unknown view tag cur ctx
  end.
Definition to_owned_from_source (self : Ripemd160RequestView) : outcome DecodeError Ripemd160Request.Ripemd160Request :=
  msg ← own_message (msg self);
  Ok (Ripemd160Request.mkRipemd160Request msg).

Definition Ripemd160RequestView_name : MessageName Ripemd160RequestView := {|
  PACKAGE := "cusf.crypto.v1";
  NAME := "Ripemd160Request";
  FULL_NAME := "cusf.crypto.v1.Ripemd160Request";
  TYPE_URL := "type.googleapis.com/cusf.crypto.v1.Ripemd160Request";
|}.
#[global] Existing Instance Ripemd160RequestView_name.
#[global] Instance Ripemd160RequestView_message : Message Ripemd160RequestView := {
  default_message := mkRipemd160RequestView None; compute_size := compute_size; write_to := write_to;
  merge_field := merge_view_field;
}.
#[global] Instance Ripemd160RequestView_spec : MessageSpec Ripemd160RequestView := {
  records self := r_message 1 (msg self);
  schema := [(1, LengthDelimited)];
  well_formed self := from_option well_formed True (msg self);
  levels := 2;
}.
#[global] Instance Ripemd160RequestView_own : ToOwned Ripemd160RequestView Ripemd160Request.Ripemd160Request := {
  to_owned_from_source := to_owned_from_source;
}.
#[global] Instance msg_lens : Lens msg with_msg.
Proof. lens. Qed.

Context `{!BuffaLaws, !BuffaTypesLaws, !BuffaViewsLaws, !BuffaTypeViewsLaws}.
#[global] Instance Ripemd160RequestView_laws : MessageLaws Ripemd160RequestView.
Proof. message_laws compute_size write_to merge_view_field. Qed.
Definition borrow (self : Ripemd160Request.Ripemd160Request) : Ripemd160RequestView :=
  mkRipemd160RequestView (view_of <$> Ripemd160Request.msg self).
#[global] Instance Ripemd160RequestView_view : View Ripemd160RequestView Ripemd160Request.Ripemd160Request.
Proof. view_laws borrow to_owned_from_source. Defined.
End methods.
End Ripemd160RequestView.

(** The view of [cusf.crypto.v1.Ripemd160Response]. *)
Module Ripemd160ResponseView.
Section methods.
Context `{BuffaTypeViews}.

Record Ripemd160ResponseView := mkRipemd160ResponseView {
  digest : option HexView.HexView;
}.
Definition with_digest v (self : Ripemd160ResponseView) : Ripemd160ResponseView := mkRipemd160ResponseView v.

Definition compute_size (self : Ripemd160ResponseView) (__cache : SizeCache) : Z * SizeCache :=
  (size_message 1 (digest self)) (0, __cache).
Definition write_to (self : Ripemd160ResponseView) : write_stmt :=
  write_message 1 (digest self).
Definition merge_view_field : merge_fn Ripemd160ResponseView := λ view tag cur ctx,
  match field_number tag with
  | 1 => view_message (digest view) (λ v, with_digest v view) tag cur ctx
  | _ => merge_unknown view tag cur ctx
  end.
Definition to_owned_from_source (self : Ripemd160ResponseView) : outcome DecodeError Ripemd160Response.Ripemd160Response :=
  digest ← own_message (digest self);
  Ok (Ripemd160Response.mkRipemd160Response digest).

Definition Ripemd160ResponseView_name : MessageName Ripemd160ResponseView := {|
  PACKAGE := "cusf.crypto.v1";
  NAME := "Ripemd160Response";
  FULL_NAME := "cusf.crypto.v1.Ripemd160Response";
  TYPE_URL := "type.googleapis.com/cusf.crypto.v1.Ripemd160Response";
|}.
#[global] Existing Instance Ripemd160ResponseView_name.
#[global] Instance Ripemd160ResponseView_message : Message Ripemd160ResponseView := {
  default_message := mkRipemd160ResponseView None; compute_size := compute_size; write_to := write_to;
  merge_field := merge_view_field;
}.
#[global] Instance Ripemd160ResponseView_spec : MessageSpec Ripemd160ResponseView := {
  records self := r_message 1 (digest self);
  schema := [(1, LengthDelimited)];
  well_formed self := from_option well_formed True (digest self);
  levels := 2;
}.
#[global] Instance Ripemd160ResponseView_own : ToOwned Ripemd160ResponseView Ripemd160Response.Ripemd160Response := {
  to_owned_from_source := to_owned_from_source;
}.
#[global] Instance digest_lens : Lens digest with_digest.
Proof. lens. Qed.

Context `{!BuffaLaws, !BuffaTypesLaws, !BuffaViewsLaws, !BuffaTypeViewsLaws}.
#[global] Instance Ripemd160ResponseView_laws : MessageLaws Ripemd160ResponseView.
Proof. message_laws compute_size write_to merge_view_field. Qed.
Definition borrow (self : Ripemd160Response.Ripemd160Response) : Ripemd160ResponseView :=
  mkRipemd160ResponseView (view_of <$> Ripemd160Response.digest self).
#[global] Instance Ripemd160ResponseView_view : View Ripemd160ResponseView Ripemd160Response.Ripemd160Response.
Proof. view_laws borrow to_owned_from_source. Defined.
End methods.
End Ripemd160ResponseView.

(** The view of [cusf.crypto.v1.Secp256k1SecretKeyToPublicKeyRequest]. *)
Module Secp256k1SecretKeyToPublicKeyRequestView.
Section methods.
Context `{BuffaTypeViews}.

Record Secp256k1SecretKeyToPublicKeyRequestView := mkSecp256k1SecretKeyToPublicKeyRequestView {
  secret_key : option ConsensusHexView.ConsensusHexView;
}.
Definition with_secret_key v (self : Secp256k1SecretKeyToPublicKeyRequestView) : Secp256k1SecretKeyToPublicKeyRequestView :=
  mkSecp256k1SecretKeyToPublicKeyRequestView v.

Definition compute_size (self : Secp256k1SecretKeyToPublicKeyRequestView) (__cache : SizeCache) : Z * SizeCache :=
  (size_message 1 (secret_key self)) (0, __cache).
Definition write_to (self : Secp256k1SecretKeyToPublicKeyRequestView) : write_stmt :=
  write_message 1 (secret_key self).
Definition merge_view_field : merge_fn Secp256k1SecretKeyToPublicKeyRequestView := λ view tag cur ctx,
  match field_number tag with
  | 1 => view_message (secret_key view) (λ v, with_secret_key v view) tag cur ctx
  | _ => merge_unknown view tag cur ctx
  end.
Definition to_owned_from_source (self : Secp256k1SecretKeyToPublicKeyRequestView) : outcome DecodeError Secp256k1SecretKeyToPublicKeyRequest.Secp256k1SecretKeyToPublicKeyRequest :=
  secret_key ← own_message (secret_key self);
  Ok (Secp256k1SecretKeyToPublicKeyRequest.mkSecp256k1SecretKeyToPublicKeyRequest secret_key).

Definition Secp256k1SecretKeyToPublicKeyRequestView_name : MessageName Secp256k1SecretKeyToPublicKeyRequestView := {|
  PACKAGE := "cusf.crypto.v1";
  NAME := "Secp256k1SecretKeyToPublicKeyRequest";
  FULL_NAME := "cusf.crypto.v1.Secp256k1SecretKeyToPublicKeyRequest";
  TYPE_URL := "type.googleapis.com/cusf.crypto.v1.Secp256k1SecretKeyToPublicKeyRequest";
|}.
#[global] Existing Instance Secp256k1SecretKeyToPublicKeyRequestView_name.
#[global] Instance Secp256k1SecretKeyToPublicKeyRequestView_message : Message Secp256k1SecretKeyToPublicKeyRequestView := {
  default_message := mkSecp256k1SecretKeyToPublicKeyRequestView None; compute_size := compute_size; write_to := write_to;
  merge_field := merge_view_field;
}.
#[global] Instance Secp256k1SecretKeyToPublicKeyRequestView_spec : MessageSpec Secp256k1SecretKeyToPublicKeyRequestView := {
  records self := r_message 1 (secret_key self);
  schema := [(1, LengthDelimited)];
  well_formed self := from_option well_formed True (secret_key self);
  levels := 2;
}.
#[global] Instance Secp256k1SecretKeyToPublicKeyRequestView_own : ToOwned Secp256k1SecretKeyToPublicKeyRequestView Secp256k1SecretKeyToPublicKeyRequest.Secp256k1SecretKeyToPublicKeyRequest := {
  to_owned_from_source := to_owned_from_source;
}.
#[global] Instance secret_key_lens : Lens secret_key with_secret_key.
Proof. lens. Qed.

Context `{!BuffaLaws, !BuffaTypesLaws, !BuffaViewsLaws, !BuffaTypeViewsLaws}.
#[global] Instance Secp256k1SecretKeyToPublicKeyRequestView_laws : MessageLaws Secp256k1SecretKeyToPublicKeyRequestView.
Proof. message_laws compute_size write_to merge_view_field. Qed.
Definition borrow (self : Secp256k1SecretKeyToPublicKeyRequest.Secp256k1SecretKeyToPublicKeyRequest) : Secp256k1SecretKeyToPublicKeyRequestView :=
  mkSecp256k1SecretKeyToPublicKeyRequestView (view_of <$> Secp256k1SecretKeyToPublicKeyRequest.secret_key self).
#[global] Instance Secp256k1SecretKeyToPublicKeyRequestView_view : View Secp256k1SecretKeyToPublicKeyRequestView Secp256k1SecretKeyToPublicKeyRequest.Secp256k1SecretKeyToPublicKeyRequest.
Proof. view_laws borrow to_owned_from_source. Defined.
End methods.
End Secp256k1SecretKeyToPublicKeyRequestView.

(** The view of [cusf.crypto.v1.Secp256k1SecretKeyToPublicKeyResponse]. *)
Module Secp256k1SecretKeyToPublicKeyResponseView.
Section methods.
Context `{BuffaTypeViews}.

Record Secp256k1SecretKeyToPublicKeyResponseView := mkSecp256k1SecretKeyToPublicKeyResponseView {
  public_key : option ConsensusHexView.ConsensusHexView;
}.
Definition with_public_key v (self : Secp256k1SecretKeyToPublicKeyResponseView) : Secp256k1SecretKeyToPublicKeyResponseView :=
  mkSecp256k1SecretKeyToPublicKeyResponseView v.

Definition compute_size (self : Secp256k1SecretKeyToPublicKeyResponseView) (__cache : SizeCache) : Z * SizeCache :=
  (size_message 1 (public_key self)) (0, __cache).
Definition write_to (self : Secp256k1SecretKeyToPublicKeyResponseView) : write_stmt :=
  write_message 1 (public_key self).
Definition merge_view_field : merge_fn Secp256k1SecretKeyToPublicKeyResponseView := λ view tag cur ctx,
  match field_number tag with
  | 1 => view_message (public_key view) (λ v, with_public_key v view) tag cur ctx
  | _ => merge_unknown view tag cur ctx
  end.
Definition to_owned_from_source (self : Secp256k1SecretKeyToPublicKeyResponseView) : outcome DecodeError Secp256k1SecretKeyToPublicKeyResponse.Secp256k1SecretKeyToPublicKeyResponse :=
  public_key ← own_message (public_key self);
  Ok (Secp256k1SecretKeyToPublicKeyResponse.mkSecp256k1SecretKeyToPublicKeyResponse public_key).

Definition Secp256k1SecretKeyToPublicKeyResponseView_name : MessageName Secp256k1SecretKeyToPublicKeyResponseView := {|
  PACKAGE := "cusf.crypto.v1";
  NAME := "Secp256k1SecretKeyToPublicKeyResponse";
  FULL_NAME := "cusf.crypto.v1.Secp256k1SecretKeyToPublicKeyResponse";
  TYPE_URL := "type.googleapis.com/cusf.crypto.v1.Secp256k1SecretKeyToPublicKeyResponse";
|}.
#[global] Existing Instance Secp256k1SecretKeyToPublicKeyResponseView_name.
#[global] Instance Secp256k1SecretKeyToPublicKeyResponseView_message : Message Secp256k1SecretKeyToPublicKeyResponseView := {
  default_message := mkSecp256k1SecretKeyToPublicKeyResponseView None; compute_size := compute_size; write_to := write_to;
  merge_field := merge_view_field;
}.
#[global] Instance Secp256k1SecretKeyToPublicKeyResponseView_spec : MessageSpec Secp256k1SecretKeyToPublicKeyResponseView := {
  records self := r_message 1 (public_key self);
  schema := [(1, LengthDelimited)];
  well_formed self := from_option well_formed True (public_key self);
  levels := 2;
}.
#[global] Instance Secp256k1SecretKeyToPublicKeyResponseView_own : ToOwned Secp256k1SecretKeyToPublicKeyResponseView Secp256k1SecretKeyToPublicKeyResponse.Secp256k1SecretKeyToPublicKeyResponse := {
  to_owned_from_source := to_owned_from_source;
}.
#[global] Instance public_key_lens : Lens public_key with_public_key.
Proof. lens. Qed.

Context `{!BuffaLaws, !BuffaTypesLaws, !BuffaViewsLaws, !BuffaTypeViewsLaws}.
#[global] Instance Secp256k1SecretKeyToPublicKeyResponseView_laws : MessageLaws Secp256k1SecretKeyToPublicKeyResponseView.
Proof. message_laws compute_size write_to merge_view_field. Qed.
Definition borrow (self : Secp256k1SecretKeyToPublicKeyResponse.Secp256k1SecretKeyToPublicKeyResponse) : Secp256k1SecretKeyToPublicKeyResponseView :=
  mkSecp256k1SecretKeyToPublicKeyResponseView (view_of <$> Secp256k1SecretKeyToPublicKeyResponse.public_key self).
#[global] Instance Secp256k1SecretKeyToPublicKeyResponseView_view : View Secp256k1SecretKeyToPublicKeyResponseView Secp256k1SecretKeyToPublicKeyResponse.Secp256k1SecretKeyToPublicKeyResponse.
Proof. view_laws borrow to_owned_from_source. Defined.
End methods.
End Secp256k1SecretKeyToPublicKeyResponseView.

(** The view of [cusf.crypto.v1.Secp256k1SignRequest]. *)
Module Secp256k1SignRequestView.
Section methods.
Context `{BuffaTypeViews}.

Record Secp256k1SignRequestView := mkSecp256k1SignRequestView {
  message : option HexView.HexView;
  secret_key : option ConsensusHexView.ConsensusHexView;
}.
Definition with_message v (self : Secp256k1SignRequestView) : Secp256k1SignRequestView :=
  mkSecp256k1SignRequestView v (secret_key self).
Definition with_secret_key v (self : Secp256k1SignRequestView) : Secp256k1SignRequestView :=
  mkSecp256k1SignRequestView (message self) v.

Definition compute_size (self : Secp256k1SignRequestView) (__cache : SizeCache) : Z * SizeCache :=
  (size_message 1 (message self) ▷
   size_message 1 (secret_key self)) (0, __cache).
Definition write_to (self : Secp256k1SignRequestView) : write_stmt :=
  write_message 1 (message self) ▷
  write_message 2 (secret_key self).
Definition merge_view_field : merge_fn Secp256k1SignRequestView := λ view tag cur ctx,
  match field_number tag with
  | 1 => view_message (message view) (λ v, with_message v view) tag cur ctx
  | 2 => view_message (secret_key view) (λ v, with_secret_key v view) tag cur ctx
  | _ => merge_unknown view tag cur ctx
  end.
Definition to_owned_from_source (self : Secp256k1SignRequestView) : outcome DecodeError Secp256k1SignRequest.Secp256k1SignRequest :=
  message ← own_message (message self);
  secret_key ← own_message (secret_key self);
  Ok (Secp256k1SignRequest.mkSecp256k1SignRequest message secret_key).

Definition Secp256k1SignRequestView_name : MessageName Secp256k1SignRequestView := {|
  PACKAGE := "cusf.crypto.v1";
  NAME := "Secp256k1SignRequest";
  FULL_NAME := "cusf.crypto.v1.Secp256k1SignRequest";
  TYPE_URL := "type.googleapis.com/cusf.crypto.v1.Secp256k1SignRequest";
|}.
#[global] Existing Instance Secp256k1SignRequestView_name.
#[global] Instance Secp256k1SignRequestView_message : Message Secp256k1SignRequestView := {
  default_message := mkSecp256k1SignRequestView None None; compute_size := compute_size; write_to := write_to;
  merge_field := merge_view_field;
}.
#[global] Instance Secp256k1SignRequestView_spec : MessageSpec Secp256k1SignRequestView := {
  records self := r_message 1 (message self) ++ r_message 2 (secret_key self);
  schema := [(1, LengthDelimited); (2, LengthDelimited)];
  well_formed self := from_option well_formed True (message self) ∧ from_option well_formed True (secret_key self);
  levels := 2;
}.
#[global] Instance Secp256k1SignRequestView_own : ToOwned Secp256k1SignRequestView Secp256k1SignRequest.Secp256k1SignRequest := {
  to_owned_from_source := to_owned_from_source;
}.
#[global] Instance message_lens : Lens message with_message.
Proof. lens. Qed.
#[global] Instance secret_key_lens : Lens secret_key with_secret_key.
Proof. lens. Qed.

Context `{!BuffaLaws, !BuffaTypesLaws, !BuffaViewsLaws, !BuffaTypeViewsLaws}.
#[global] Instance Secp256k1SignRequestView_laws : MessageLaws Secp256k1SignRequestView.
Proof. message_laws compute_size write_to merge_view_field. Qed.
Definition borrow (self : Secp256k1SignRequest.Secp256k1SignRequest) : Secp256k1SignRequestView :=
  mkSecp256k1SignRequestView (view_of <$> Secp256k1SignRequest.message self)
    (view_of <$> Secp256k1SignRequest.secret_key self).
#[global] Instance Secp256k1SignRequestView_view : View Secp256k1SignRequestView Secp256k1SignRequest.Secp256k1SignRequest.
Proof. view_laws borrow to_owned_from_source. Defined.
End methods.
End Secp256k1SignRequestView.

(** The view of [cusf.crypto.v1.Secp256k1SignResponse]. *)
Module Secp256k1SignResponseView.
Section methods.
Context `{BuffaTypeViews}.

Record Secp256k1SignResponseView := mkSecp256k1SignResponseView {
  signature : option HexView.HexView;
}.
Definition with_signature v (self : Secp256k1SignResponseView) : Secp256k1SignResponseView :=
  mkSecp256k1SignResponseView v.

Definition compute_size (self : Secp256k1SignResponseView) (__cache : SizeCache) : Z * SizeCache :=
  (size_message 1 (signature self)) (0, __cache).
Definition write_to (self : Secp256k1SignResponseView) : write_stmt :=
  write_message 1 (signature self).
Definition merge_view_field : merge_fn Secp256k1SignResponseView := λ view tag cur ctx,
  match field_number tag with
  | 1 => view_message (signature view) (λ v, with_signature v view) tag cur ctx
  | _ => merge_unknown view tag cur ctx
  end.
Definition to_owned_from_source (self : Secp256k1SignResponseView) : outcome DecodeError Secp256k1SignResponse.Secp256k1SignResponse :=
  signature ← own_message (signature self);
  Ok (Secp256k1SignResponse.mkSecp256k1SignResponse signature).

Definition Secp256k1SignResponseView_name : MessageName Secp256k1SignResponseView := {|
  PACKAGE := "cusf.crypto.v1";
  NAME := "Secp256k1SignResponse";
  FULL_NAME := "cusf.crypto.v1.Secp256k1SignResponse";
  TYPE_URL := "type.googleapis.com/cusf.crypto.v1.Secp256k1SignResponse";
|}.
#[global] Existing Instance Secp256k1SignResponseView_name.
#[global] Instance Secp256k1SignResponseView_message : Message Secp256k1SignResponseView := {
  default_message := mkSecp256k1SignResponseView None; compute_size := compute_size; write_to := write_to;
  merge_field := merge_view_field;
}.
#[global] Instance Secp256k1SignResponseView_spec : MessageSpec Secp256k1SignResponseView := {
  records self := r_message 1 (signature self);
  schema := [(1, LengthDelimited)];
  well_formed self := from_option well_formed True (signature self);
  levels := 2;
}.
#[global] Instance Secp256k1SignResponseView_own : ToOwned Secp256k1SignResponseView Secp256k1SignResponse.Secp256k1SignResponse := {
  to_owned_from_source := to_owned_from_source;
}.
#[global] Instance signature_lens : Lens signature with_signature.
Proof. lens. Qed.

Context `{!BuffaLaws, !BuffaTypesLaws, !BuffaViewsLaws, !BuffaTypeViewsLaws}.
#[global] Instance Secp256k1SignResponseView_laws : MessageLaws Secp256k1SignResponseView.
Proof. message_laws compute_size write_to merge_view_field. Qed.
Definition borrow (self : Secp256k1SignResponse.Secp256k1SignResponse) : Secp256k1SignResponseView :=
  mkSecp256k1SignResponseView (view_of <$> Secp256k1SignResponse.signature self).
#[global] Instance Secp256k1SignResponseView_view : View Secp256k1SignResponseView Secp256k1SignResponse.Secp256k1SignResponse.
Proof. view_laws borrow to_owned_from_source. Defined.
End methods.
End Secp256k1SignResponseView.

(** The view of [cusf.crypto.v1.Secp256k1VerifyRequest]. *)
Module Secp256k1VerifyRequestView.
Section methods.
Context `{BuffaTypeViews}.

Record Secp256k1VerifyRequestView := mkSecp256k1VerifyRequestView {
  message : option HexView.HexView;
  signature : option HexView.HexView;
  public_key : option ConsensusHexView.ConsensusHexView;
}.
Definition with_message v (self : Secp256k1VerifyRequestView) : Secp256k1VerifyRequestView :=
  mkSecp256k1VerifyRequestView v (signature self) (public_key self).
Definition with_signature v (self : Secp256k1VerifyRequestView) : Secp256k1VerifyRequestView :=
  mkSecp256k1VerifyRequestView (message self) v (public_key self).
Definition with_public_key v (self : Secp256k1VerifyRequestView) : Secp256k1VerifyRequestView :=
  mkSecp256k1VerifyRequestView (message self) (signature self) v.

Definition compute_size (self : Secp256k1VerifyRequestView) (__cache : SizeCache) : Z * SizeCache :=
  (size_message 1 (message self) ▷
   size_message 1 (signature self) ▷
   size_message 1 (public_key self)) (0, __cache).
Definition write_to (self : Secp256k1VerifyRequestView) : write_stmt :=
  write_message 1 (message self) ▷
  write_message 2 (signature self) ▷
  write_message 3 (public_key self).
Definition merge_view_field : merge_fn Secp256k1VerifyRequestView := λ view tag cur ctx,
  match field_number tag with
  | 1 => view_message (message view) (λ v, with_message v view) tag cur ctx
  | 2 => view_message (signature view) (λ v, with_signature v view) tag cur ctx
  | 3 => view_message (public_key view) (λ v, with_public_key v view) tag cur ctx
  | _ => merge_unknown view tag cur ctx
  end.
Definition to_owned_from_source (self : Secp256k1VerifyRequestView) : outcome DecodeError Secp256k1VerifyRequest.Secp256k1VerifyRequest :=
  message ← own_message (message self);
  signature ← own_message (signature self);
  public_key ← own_message (public_key self);
  Ok (Secp256k1VerifyRequest.mkSecp256k1VerifyRequest message signature public_key).

Definition Secp256k1VerifyRequestView_name : MessageName Secp256k1VerifyRequestView := {|
  PACKAGE := "cusf.crypto.v1";
  NAME := "Secp256k1VerifyRequest";
  FULL_NAME := "cusf.crypto.v1.Secp256k1VerifyRequest";
  TYPE_URL := "type.googleapis.com/cusf.crypto.v1.Secp256k1VerifyRequest";
|}.
#[global] Existing Instance Secp256k1VerifyRequestView_name.
#[global] Instance Secp256k1VerifyRequestView_message : Message Secp256k1VerifyRequestView := {
  default_message := mkSecp256k1VerifyRequestView None None None; compute_size := compute_size; write_to := write_to;
  merge_field := merge_view_field;
}.
#[global] Instance Secp256k1VerifyRequestView_spec : MessageSpec Secp256k1VerifyRequestView := {
  records self := r_message 1 (message self) ++ r_message 2 (signature self) ++ r_message 3 (public_key self);
  schema := [(1, LengthDelimited); (2, LengthDelimited); (3, LengthDelimited)];
  well_formed self := from_option well_formed True (message self) ∧
    from_option well_formed True (signature self) ∧ from_option well_formed True (public_key self);
  levels := 2;
}.
#[global] Instance Secp256k1VerifyRequestView_own : ToOwned Secp256k1VerifyRequestView Secp256k1VerifyRequest.Secp256k1VerifyRequest := {
  to_owned_from_source := to_owned_from_source;
}.
#[global] Instance message_lens : Lens message with_message.
Proof. lens. Qed.
#[global] Instance signature_lens : Lens signature with_signature.
Proof. lens. Qed.
#[global] Instance public_key_lens : Lens public_key with_public_key.
Proof. lens. Qed.

Context `{!BuffaLaws, !BuffaTypesLaws, !BuffaViewsLaws, !BuffaTypeViewsLaws}.
#[global] Instance Secp256k1VerifyRequestView_laws : MessageLaws Secp256k1VerifyRequestView.
Proof. message_laws compute_size write_to merge_view_field. Qed.
Definition borrow (self : Secp256k1VerifyRequest.Secp256k1VerifyRequest) : Secp256k1VerifyRequestView :=
  mkSecp256k1VerifyRequestView (view_of <$> Secp256k1VerifyRequest.message self)
    (view_of <$> Secp256k1VerifyRequest.signature self) (view_of <$> Secp256k1VerifyRequest.public_key self).
#[global] Instance Secp256k1VerifyRequestView_view : View Secp256k1VerifyRequestView Secp256k1VerifyRequest.Secp256k1VerifyRequest.
Proof. view_laws borrow to_owned_from_source. Defined.
End methods.
End Secp256k1VerifyRequestView.

(** The view of [cusf.crypto.v1.Secp256k1VerifyResponse]. *)
Module Secp256k1VerifyResponseView.
Section methods.
Context `{BuffaTypeViews}.

Record Secp256k1VerifyResponseView := mkSecp256k1VerifyResponseView {
  valid : bool;
}.
Definition with_valid v (self : Secp256k1VerifyResponseView) : Secp256k1VerifyResponseView :=
  mkSecp256k1VerifyResponseView v.

Definition compute_size (self : Secp256k1VerifyResponseView) (__cache : SizeCache) : Z * SizeCache :=
  (size_bool 1 (valid self)) (0, __cache).
Definition write_to (self : Secp256k1VerifyResponseView) : write_stmt :=
  write_bool 1 (valid self).
Definition merge_view_field : merge_fn Secp256k1VerifyResponseView := λ view tag cur ctx,
  match field_number tag with
  | 1 => merge_scalar Varint decode_bool (λ v, with_valid v view) tag cur
  | _ => merge_unknown view tag cur ctx
  end.
Definition to_owned_from_source (self : Secp256k1VerifyResponseView) : outcome DecodeError Secp256k1VerifyResponse.Secp256k1VerifyResponse :=
  Ok (Secp256k1VerifyResponse.mkSecp256k1VerifyResponse (valid self)).

Definition Secp256k1VerifyResponseView_name : MessageName Secp256k1VerifyResponseView := {|
  PACKAGE := "cusf.crypto.v1";
  NAME := "Secp256k1VerifyResponse";
  FULL_NAME := "cusf.crypto.v1.Secp256k1VerifyResponse";
  TYPE_URL := "type.googleapis.com/cusf.crypto.v1.Secp256k1VerifyResponse";
|}.
#[global] Existing Instance Secp256k1VerifyResponseView_name.
#[global] Instance Secp256k1VerifyResponseView_message : Message Secp256k1VerifyResponseView := {
  default_message := mkSecp256k1VerifyResponseView false; compute_size := compute_size; write_to := write_to;
  merge_field := merge_view_field;
}.
#[global] Instance Secp256k1VerifyResponseView_spec : MessageSpec Secp256k1VerifyResponseView := {
  records self := r_bool 1 (valid self);
  schema := [(1, Varint)];
  well_formed self := True;
  levels := 0;
}.
#[global] Instance Secp256k1VerifyResponseView_own : ToOwned Secp256k1VerifyResponseView Secp256k1VerifyResponse.Secp256k1VerifyResponse := {
  to_owned_from_source := to_owned_from_source;
}.
#[global] Instance valid_lens : Lens valid with_valid.
Proof. lens. Qed.

Context `{!BuffaLaws, !BuffaTypesLaws, !BuffaViewsLaws, !BuffaTypeViewsLaws}.
#[global] Instance Secp256k1VerifyResponseView_laws : MessageLaws Secp256k1VerifyResponseView.
Proof. message_laws compute_size write_to merge_view_field. Qed.
Definition borrow (self : Secp256k1VerifyResponse.Secp256k1VerifyResponse) : Secp256k1VerifyResponseView :=
  mkSecp256k1VerifyResponseView (Secp256k1VerifyResponse.valid self).
#[global] Instance Secp256k1VerifyResponseView_view : View Secp256k1VerifyResponseView Secp256k1VerifyResponse.Secp256k1VerifyResponse.
Proof. view_laws borrow to_owned_from_source. Defined.
End methods.
End Secp256k1VerifyResponseView.
