(* ===== verification/ProtoValidatorView.v ===== *)
(** The views of the messages of `validator.proto`, `mining.proto` and the package's
    `common.proto` (`proto/generated/buffa/cusf.mainchain.v1.rs`). *)
From Stdlib Require Import ZArith Lia Strings.Byte Strings.String.
From stdpp Require Import base list gmap strings.
From S2P Require Import Prelude Wire WireTypes WireView ProtoCommon ProtoValidator ProtoCommonView.
#[local] Open Scope Z_scope.

(** The view of [cusf.mainchain.v1.OutPoint]. *)
Module OutPointView.
Section methods.
Context `{BuffaTypeViews}.

Record OutPointView := mkOutPointView {
  txid : option ReverseHexView.ReverseHexView;
  vout : option UInt32ValueView;
}.
Definition with_txid v (self : OutPointView) : OutPointView := mkOutPointView v (vout self).
Definition with_vout v (self : OutPointView) : OutPointView := mkOutPointView (txid self) v.

Definition compute_size (self : OutPointView) (__cache : SizeCache) : Z * SizeCache :=
  (size_message 1 (txid self) ▷
   size_message 1 (vout self)) (0, __cache).
Definition write_to (self : OutPointView) : write_stmt :=
  write_message 1 (txid self) ▷
  write_message 2 (vout self).
Definition merge_view_field : merge_fn OutPointView := λ view tag cur ctx,
  match field_number tag with
  | 1 => view_message (txid view) (λ v, with_txid v view) tag cur ctx
  | 2 => view_message (vout view) (λ v, with_vout v view) tag cur ctx
  | _ => merge_unknown view tag cur ctx
  end.
Definition to_owned_from_source (self : OutPointView) : outcome DecodeError OutPoint.OutPoint :=
  txid ← own_message (txid self);
  vout ← own_message (vout self);
  Ok (OutPoint.mkOutPoint txid vout).

Definition OutPointView_name : MessageName OutPointView := {|
  PACKAGE := "cusf.mainchain.v1";
  NAME := "OutPoint";
  FULL_NAME := "cusf.mainchain.v1.OutPoint";
  TYPE_URL := "type.googleapis.com/cusf.mainchain.v1.OutPoint";
|}.
#[global] Existing Instance OutPointView_name.
#[global] Instance OutPointView_message : Message OutPointView := {
  default_message := mkOutPointView None None; compute_size := compute_size; write_to := write_to;
  merge_field := merge_view_field;
}.
#[global] Instance OutPointView_spec : MessageSpec OutPointView := {
  records self := r_message 1 (txid self) ++ r_message 2 (vout self);
  schema := [(1, LengthDelimited); (2, LengthDelimited)];
  well_formed self := from_option well_formed True (txid self) ∧ from_option well_formed True (vout self);
  levels := 2;
}.
#[global] Instance OutPointView_own : ToOwned OutPointView OutPoint.OutPoint := {
  to_owned_from_source := to_owned_from_source;
}.
#[global] Instance txid_lens : Lens txid with_txid.
Proof. lens. Qed.
#[global] Instance vout_lens : Lens vout with_vout.
Proof. lens. Qed.

Context `{!BuffaLaws, !BuffaTypesLaws, !BuffaViewsLaws, !BuffaTypeViewsLaws}.
#[global] Instance OutPointView_laws : MessageLaws OutPointView.
Proof. message_laws compute_size write_to merge_view_field. Qed.
Definition borrow (self : OutPoint.OutPoint) : OutPointView :=
  mkOutPointView (view_of <$> OutPoint.txid self) (view_of <$> OutPoint.vout self).
#[global] Instance OutPointView_view : View OutPointView OutPoint.OutPoint.
Proof. view_laws borrow to_owned_from_source. Defined.
End methods.
End OutPointView.

(** The view of [cusf.mainchain.v1.GenerateToAddressRequest]. *)
Module GenerateToAddressRequestView.
Section methods.
Context `{BuffaTypeViews}.

Record GenerateToAddressRequestView := mkGenerateToAddressRequestView {
  blocks : option UInt32ValueView;
  address : string;
}.
Definition with_blocks v (self : GenerateToAddressRequestView) : GenerateToAddressRequestView :=
  mkGenerateToAddressRequestView v (address self).
Definition with_address v (self : GenerateToAddressRequestView) : GenerateToAddressRequestView :=
  mkGenerateToAddressRequestView (blocks self) v.

Definition compute_size (self : GenerateToAddressRequestView) (__cache : SizeCache) : Z * SizeCache :=
  (size_message 1 (blocks self) ▷
   size_string 1 (address self)) (0, __cache).
Definition write_to (self : GenerateToAddressRequestView) : write_stmt :=
  write_message 1 (blocks self) ▷
  write_string 2 (address self).
Definition merge_view_field : merge_fn GenerateToAddressRequestView := λ view tag cur ctx,
  match field_number tag with
  | 1 => view_message (blocks view) (λ v, with_blocks v view) tag cur ctx
  | 2 => merge_scalar LengthDelimited borrow_str (λ v, with_address v view) tag cur
  | _ => merge_unknown view tag cur ctx
  end.
Definition to_owned_from_source (self : GenerateToAddressRequestView) : outcome DecodeError GenerateToAddressRequest.GenerateToAddressRequest :=
  blocks ← own_message (blocks self);
  Ok (GenerateToAddressRequest.mkGenerateToAddressRequest blocks (address self)).

Definition GenerateToAddressRequestView_name : MessageName GenerateToAddressRequestView := {|
  PACKAGE := "cusf.mainchain.v1";
  NAME := "GenerateToAddressRequest";
  FULL_NAME := "cusf.mainchain.v1.GenerateToAddressRequest";
  TYPE_URL := "type.googleapis.com/cusf.mainchain.v1.GenerateToAddressRequest";
|}.
#[global] Existing Instance GenerateToAddressRequestView_name.
#[global] Instance GenerateToAddressRequestView_message : Message GenerateToAddressRequestView := {
  default_message := mkGenerateToAddressRequestView None EmptyString; compute_size := compute_size; write_to := write_to;
  merge_field := merge_view_field;
}.
#[global] Instance GenerateToAddressRequestView_spec : MessageSpec GenerateToAddressRequestView := {
  records self := r_message 1 (blocks self) ++ r_string 2 (address self);
  schema := [(1, LengthDelimited); (2, LengthDelimited)];
  well_formed self := from_option well_formed True (blocks self) ∧ string_ok (address self);
  levels := 1;
}.
#[global] Instance GenerateToAddressRequestView_own : ToOwned GenerateToAddressRequestView GenerateToAddressRequest.GenerateToAddressRequest := {
  to_owned_from_source := to_owned_from_source;
}.
#[global] Instance blocks_lens : Lens blocks with_blocks.
Proof. lens. Qed.
#[global] Instance address_lens : Lens address with_address.
Proof. lens. Qed.

Context `{!BuffaLaws, !BuffaTypesLaws, !BuffaViewsLaws, !BuffaTypeViewsLaws}.
#[global] Instance GenerateToAddressRequestView_laws : MessageLaws GenerateToAddressRequestView.
Proof. message_laws compute_size write_to merge_view_field. Qed.
Definition borrow (self : GenerateToAddressRequest.GenerateToAddressRequest) : GenerateToAddressRequestView :=
  mkGenerateToAddressRequestView (view_of <$> GenerateToAddressRequest.blocks self)
    (GenerateToAddressRequest.address self).
#[global] Instance GenerateToAddressRequestView_view : View GenerateToAddressRequestView GenerateToAddressRequest.GenerateToAddressRequest.
Proof. view_laws borrow to_owned_from_source. Defined.
End methods.
End GenerateToAddressRequestView.

(** The view of [cusf.mainchain.v1.GenerateToAddressResponse]. *)
Module GenerateToAddressResponseView.
Section methods.
Context `{BuffaTypeViews}.

Record GenerateToAddressResponseView := mkGenerateToAddressResponseView {
  block_hashes : list ReverseHexView.ReverseHexView;
}.
Definition with_block_hashes v (self : GenerateToAddressResponseView) : GenerateToAddressResponseView :=
  mkGenerateToAddressResponseView v.

Definition compute_size (self : GenerateToAddressResponseView) (__cache : SizeCache) : Z * SizeCache :=
  (size_repeated 1 (block_hashes self)) (0, __cache).
Definition write_to (self : GenerateToAddressResponseView) : write_stmt :=
  write_repeated 1 (block_hashes self).
Definition merge_view_field : merge_fn GenerateToAddressResponseView := λ view tag cur ctx,
  match field_number tag with
  | 1 => view_repeated (block_hashes view) (λ v, with_block_hashes v view) tag cur ctx
  | _ => merge_unknown view tag cur ctx
  end.
Definition to_owned_from_source (self : GenerateToAddressResponseView) : outcome DecodeError GenerateToAddressResponse.GenerateToAddressResponse :=
  block_hashes ← own_repeated (block_hashes self);
  Ok (GenerateToAddressResponse.mkGenerateToAddressResponse block_hashes).

Definition GenerateToAddressResponseView_name : MessageName GenerateToAddressResponseView := {|
  PACKAGE := "cusf.mainchain.v1";
  NAME := "GenerateToAddressResponse";
  FULL_NAME := "cusf.mainchain.v1.GenerateToAddressResponse";
  TYPE_URL := "type.googleapis.com/cusf.mainchain.v1.GenerateToAddressResponse";
|}.
#[global] Existing Instance GenerateToAddressResponseView_name.
#[global] Instance GenerateToAddressResponseView_message : Message GenerateToAddressResponseView := {
  default_message := mkGenerateToAddressResponseView []; compute_size := compute_size; write_to := write_to;
  merge_field := merge_view_field;
}.
#[global] Instance GenerateToAddressResponseView_spec : MessageSpec GenerateToAddressResponseView := {
  records self := r_repeated 1 (block_hashes self);
  schema := [(1, LengthDelimited)];
  well_formed self := Forall well_formed (block_hashes self);
  levels := 2;
}.
#[global] Instance GenerateToAddressResponseView_own : ToOwned GenerateToAddressResponseView GenerateToAddressResponse.GenerateToAddressResponse := {
  to_owned_from_source := to_owned_from_source;
}.
#[global] Instance block_hashes_lens : Lens block_hashes with_block_hashes.
Proof. lens. Qed.

Context `{!BuffaLaws, !BuffaTypesLaws, !BuffaViewsLaws, !BuffaTypeViewsLaws}.
#[global] Instance GenerateToAddressResponseView_laws : MessageLaws GenerateToAddressResponseView.
Proof. message_laws compute_size write_to merge_view_field. Qed.
Definition borrow (self : GenerateToAddressResponse.GenerateToAddressResponse) : GenerateToAddressResponseView :=
  mkGenerateToAddressResponseView (view_of <$> GenerateToAddressResponse.block_hashes self).
#[global] Instance GenerateToAddressResponseView_view : View GenerateToAddressResponseView GenerateToAddressResponse.GenerateToAddressResponse.
Proof. view_laws borrow to_owned_from_source. Defined.
End methods.
End GenerateToAddressResponseView.

(** The view of [cusf.mainchain.v1.BlockHeaderInfo]. *)
Module BlockHeaderInfoView.
Section methods.
Context `{BuffaTypeViews}.

Record BlockHeaderInfoView := mkBlockHeaderInfoView {
  block_hash : option ReverseHexView.ReverseHexView;
  prev_block_hash : option ReverseHexView.ReverseHexView;
  height : Z; (* u32 *)
  work : option ConsensusHexView.ConsensusHexView;
  timestamp : Z; (* u64 *)
}.
Definition with_block_hash v (self : BlockHeaderInfoView) : BlockHeaderInfoView :=
  mkBlockHeaderInfoView v (prev_block_hash self) (height self) (work self) (timestamp self).
Definition with_prev_block_hash v (self : BlockHeaderInfoView) : BlockHeaderInfoView :=
  mkBlockHeaderInfoView (block_hash self) v (height self) (work self) (timestamp self).
Definition with_height v (self : BlockHeaderInfoView) : BlockHeaderInfoView :=
  mkBlockHeaderInfoView (block_hash self) (prev_block_hash self) v (work self) (timestamp self).
Definition with_work v (self : BlockHeaderInfoView) : BlockHeaderInfoView :=
  mkBlockHeaderInfoView (block_hash self) (prev_block_hash self) (height self) v (timestamp self).
Definition with_timestamp v (self : BlockHeaderInfoView) : BlockHeaderInfoView :=
  mkBlockHeaderInfoView (block_hash self) (prev_block_hash self) (height self) (work self) v.

Definition compute_size (self : BlockHeaderInfoView) (__cache : SizeCache) : Z * SizeCache :=
  (size_message 1 (block_hash self) ▷
   size_message 1 (prev_block_hash self) ▷
   size_uint32 1 (height self) ▷
   size_message 1 (work self) ▷
   size_uint64 1 (timestamp self)) (0, __cache).
Definition write_to (self : BlockHeaderInfoView) : write_stmt :=
  write_message 1 (block_hash self) ▷
  write_message 2 (prev_block_hash self) ▷
  write_uint32 3 (height self) ▷
  write_message 4 (work self) ▷
  write_uint64 5 (timestamp self).
Definition merge_view_field : merge_fn BlockHeaderInfoView := λ view tag cur ctx,
  match field_number tag with
  | 1 => view_message (block_hash view) (λ v, with_block_hash v view) tag cur ctx
  | 2 => view_message (prev_block_hash view) (λ v, with_prev_block_hash v view) tag cur ctx
  | 3 => merge_scalar Varint decode_uint32 (λ v, with_height v view) tag cur
  | 4 => view_message (work view) (λ v, with_work v view) tag cur ctx
  | 5 => merge_scalar Varint decode_uint64 (λ v, with_timestamp v view) tag cur
  | _ => merge_unknown view tag cur ctx
  end.
Definition to_owned_from_source (self : BlockHeaderInfoView) : outcome DecodeError BlockHeaderInfo.BlockHeaderInfo :=
  block_hash ← own_message (block_hash self);
  prev_block_hash ← own_message (prev_block_hash self);
  work ← own_message (work self);
  Ok (BlockHeaderInfo.mkBlockHeaderInfo block_hash prev_block_hash (height self) work (timestamp self)).

Definition BlockHeaderInfoView_name : MessageName BlockHeaderInfoView := {|
  PACKAGE := "cusf.mainchain.v1";
  NAME := "BlockHeaderInfo";
  FULL_NAME := "cusf.mainchain.v1.BlockHeaderInfo";
  TYPE_URL := "type.googleapis.com/cusf.mainchain.v1.BlockHeaderInfo";
|}.
#[global] Existing Instance BlockHeaderInfoView_name.
#[global] Instance BlockHeaderInfoView_message : Message BlockHeaderInfoView := {
  default_message := mkBlockHeaderInfoView None None 0 None 0; compute_size := compute_size; write_to := write_to;
  merge_field := merge_view_field;
}.
#[global] Instance BlockHeaderInfoView_spec : MessageSpec BlockHeaderInfoView := {
  records self := r_message 1 (block_hash self) ++ r_message 2 (prev_block_hash self) ++
    r_int 3 (height self) ++ r_message 4 (work self) ++ r_int 5 (timestamp self);
  schema := [(1, LengthDelimited); (2, LengthDelimited); (3, Varint); (4, LengthDelimited); (5, Varint)];
  well_formed self := from_option well_formed True (block_hash self) ∧
    from_option well_formed True (prev_block_hash self) ∧ in_u 32 (height self) ∧
    from_option well_formed True (work self) ∧ in_u 64 (timestamp self);
  levels := 2;
}.
#[global] Instance BlockHeaderInfoView_own : ToOwned BlockHeaderInfoView BlockHeaderInfo.BlockHeaderInfo := {
  to_owned_from_source := to_owned_from_source;
}.
#[global] Instance block_hash_lens : Lens block_hash with_block_hash.
Proof. lens. Qed.
#[global] Instance prev_block_hash_lens : Lens prev_block_hash with_prev_block_hash.
Proof. lens. Qed.
#[global] Instance height_lens : Lens height with_height.
Proof. lens. Qed.
#[global] Instance work_lens : Lens work with_work.
Proof. lens. Qed.
#[global] Instance timestamp_lens : Lens timestamp with_timestamp.
Proof. lens. Qed.

Context `{!BuffaLaws, !BuffaTypesLaws, !BuffaViewsLaws, !BuffaTypeViewsLaws}.
#[global] Instance BlockHeaderInfoView_laws : MessageLaws BlockHeaderInfoView.
Proof. message_laws compute_size write_to merge_view_field. Qed.
Definition borrow (self : BlockHeaderInfo.BlockHeaderInfo) : BlockHeaderInfoView :=
  mkBlockHeaderInfoView (view_of <$> BlockHeaderInfo.block_hash self)
    (view_of <$> BlockHeaderInfo.prev_block_hash self) (BlockHeaderInfo.height self)
    (view_of <$> BlockHeaderInfo.work self) (BlockHeaderInfo.timestamp self).
#[global] Instance BlockHeaderInfoView_view : View BlockHeaderInfoView BlockHeaderInfo.BlockHeaderInfo.
Proof. view_laws borrow to_owned_from_source. Defined.
End methods.
End BlockHeaderInfoView.

(** The view of [cusf.mainchain.v1.BlockInfo]. *)
Module BlockInfoView.
Section methods.
Context `{BuffaTypeViews}.

Record BlockInfoView := mkBlockInfoView {}.

Definition compute_size (self : BlockInfoView) (__cache : SizeCache) : Z * SizeCache :=
  (0, __cache).
Definition write_to (self : BlockInfoView) : write_stmt :=
  id.
Definition merge_view_field : merge_fn BlockInfoView := λ view tag cur ctx,
  match field_number tag with
  | _ => merge_unknown view tag cur ctx
  end.
Definition to_owned_from_source (self : BlockInfoView) : outcome DecodeError BlockInfo.BlockInfo :=
  Ok BlockInfo.mkBlockInfo.

Definition BlockInfoView_name : MessageName BlockInfoView := {|
  PACKAGE := "cusf.mainchain.v1";
  NAME := "BlockInfo";
  FULL_NAME := "cusf.mainchain.v1.BlockInfo";
  TYPE_URL := "type.googleapis.com/cusf.mainchain.v1.BlockInfo";
|}.
#[global] Existing Instance BlockInfoView_name.
#[global] Instance BlockInfoView_message : Message BlockInfoView := {
  default_message := mkBlockInfoView; compute_size := compute_size; write_to := write_to;
  merge_field := merge_view_field;
}.
#[global] Instance BlockInfoView_spec : MessageSpec BlockInfoView := {
  records self := [];
  schema := [];
  well_formed self := True;
  levels := 0;
}.
#[global] Instance BlockInfoView_own : ToOwned BlockInfoView BlockInfo.BlockInfo := {
  to_owned_from_source := to_owned_from_source;
}.

Context `{!BuffaLaws, !BuffaTypesLaws, !BuffaViewsLaws, !BuffaTypeViewsLaws}.
#[global] Instance BlockInfoView_laws : MessageLaws BlockInfoView.
Proof. message_laws compute_size write_to merge_view_field. Qed.
Definition borrow (self : BlockInfo.BlockInfo) : BlockInfoView :=
  mkBlockInfoView.
#[global] Instance BlockInfoView_view : View BlockInfoView BlockInfo.BlockInfo.
Proof. view_laws borrow to_owned_from_source. Defined.
End methods.
End BlockInfoView.

(** The view of [cusf.mainchain.v1.GetBlockHeaderInfoRequest]. *)
Module GetBlockHeaderInfoRequestView.
Section methods.
Context `{BuffaTypeViews}.

Record GetBlockHeaderInfoRequestView := mkGetBlockHeaderInfoRequestView {
  block_hash : option ReverseHexView.ReverseHexView;
  max_ancestors : option Z; (* u32 *)
}.
Definition with_block_hash v (self : GetBlockHeaderInfoRequestView) : GetBlockHeaderInfoRequestView :=
  mkGetBlockHeaderInfoRequestView v (max_ancestors self).
Definition with_max_ancestors v (self : GetBlockHeaderInfoRequestView) : GetBlockHeaderInfoRequestView :=
  mkGetBlockHeaderInfoRequestView (block_hash self) v.

Definition compute_size (self : GetBlockHeaderInfoRequestView) (__cache : SizeCache) : Z * SizeCache :=
  (size_message 1 (block_hash self) ▷
   size_some_uint32 1 (max_ancestors self)) (0, __cache).
Definition write_to (self : GetBlockHeaderInfoRequestView) : write_stmt :=
  write_message 1 (block_hash self) ▷
  write_some_uint32 2 (max_ancestors self).
Definition merge_view_field : merge_fn GetBlockHeaderInfoRequestView := λ view tag cur ctx,
  match field_number tag with
  | 1 => view_message (block_hash view) (λ v, with_block_hash v view) tag cur ctx
  | 2 => merge_scalar Varint decode_uint32 (λ v, with_max_ancestors (Some v) view) tag cur
  | _ => merge_unknown view tag cur ctx
  end.
Definition to_owned_from_source (self : GetBlockHeaderInfoRequestView) : outcome DecodeError GetBlockHeaderInfoRequest.GetBlockHeaderInfoRequest :=
  block_hash ← own_message (block_hash self);
  Ok (GetBlockHeaderInfoRequest.mkGetBlockHeaderInfoRequest block_hash (max_ancestors self)).

Definition GetBlockHeaderInfoRequestView_name : MessageName GetBlockHeaderInfoRequestView := {|
  PACKAGE := "cusf.mainchain.v1";
  NAME := "GetBlockHeaderInfoRequest";
  FULL_NAME := "cusf.mainchain.v1.GetBlockHeaderInfoRequest";
  TYPE_URL := "type.googleapis.com/cusf.mainchain.v1.GetBlockHeaderInfoRequest";
|}.
#[global] Existing Instance GetBlockHeaderInfoRequestView_name.
#[global] Instance GetBlockHeaderInfoRequestView_message : Message GetBlockHeaderInfoRequestView := {
  default_message := mkGetBlockHeaderInfoRequestView None None; compute_size := compute_size; write_to := write_to;
  merge_field := merge_view_field;
}.
#[global] Instance GetBlockHeaderInfoRequestView_spec : MessageSpec GetBlockHeaderInfoRequestView := {
  records self := r_message 1 (block_hash self) ++ r_some_int 2 (max_ancestors self);
  schema := [(1, LengthDelimited); (2, Varint)];
  well_formed self := from_option well_formed True (block_hash self) ∧
    from_option (in_u 32) True (max_ancestors self);
  levels := 2;
}.
#[global] Instance GetBlockHeaderInfoRequestView_own : ToOwned GetBlockHeaderInfoRequestView GetBlockHeaderInfoRequest.GetBlockHeaderInfoRequest := {
  to_owned_from_source := to_owned_from_source;
}.
#[global] Instance block_hash_lens : Lens block_hash with_block_hash.
Proof. lens. Qed.
#[global] Instance max_ancestors_lens : Lens max_ancestors with_max_ancestors.
Proof. lens. Qed.

Context `{!BuffaLaws, !BuffaTypesLaws, !BuffaViewsLaws, !BuffaTypeViewsLaws}.
#[global] Instance GetBlockHeaderInfoRequestView_laws : MessageLaws GetBlockHeaderInfoRequestView.
Proof. message_laws compute_size write_to merge_view_field. Qed.
Definition borrow (self : GetBlockHeaderInfoRequest.GetBlockHeaderInfoRequest) : GetBlockHeaderInfoRequestView :=
  mkGetBlockHeaderInfoRequestView (view_of <$> GetBlockHeaderInfoRequest.block_hash self)
    (GetBlockHeaderInfoRequest.max_ancestors self).
#[global] Instance GetBlockHeaderInfoRequestView_view : View GetBlockHeaderInfoRequestView GetBlockHeaderInfoRequest.GetBlockHeaderInfoRequest.
Proof. view_laws borrow to_owned_from_source. Defined.
End methods.
End GetBlockHeaderInfoRequestView.

(** The view of [cusf.mainchain.v1.GetBlockHeaderInfoResponse]. *)
Module GetBlockHeaderInfoResponseView.
Section methods.
Context `{BuffaTypeViews}.

Record GetBlockHeaderInfoResponseView := mkGetBlockHeaderInfoResponseView {
  header_infos : list BlockHeaderInfoView.BlockHeaderInfoView;
}.
Definition with_header_infos v (self : GetBlockHeaderInfoResponseView) : GetBlockHeaderInfoResponseView :=
  mkGetBlockHeaderInfoResponseView v.

Definition compute_size (self : GetBlockHeaderInfoResponseView) (__cache : SizeCache) : Z * SizeCache :=
  (size_repeated 1 (header_infos self)) (0, __cache).
Definition write_to (self : GetBlockHeaderInfoResponseView) : write_stmt :=
  write_repeated 1 (header_infos self).
Definition merge_view_field : merge_fn GetBlockHeaderInfoResponseView := λ view tag cur ctx,
  match field_number tag with
  | 1 => view_repeated (header_infos view) (λ v, with_header_infos v view) tag cur ctx
  | _ => merge_unknown view tag cur ctx
  end.
Definition to_owned_from_source (self : GetBlockHeaderInfoResponseView) : outcome DecodeError GetBlockHeaderInfoResponse.GetBlockHeaderInfoResponse :=
  header_infos ← own_repeated (header_infos self);
  Ok (GetBlockHeaderInfoResponse.mkGetBlockHeaderInfoResponse header_infos).

Definition GetBlockHeaderInfoResponseView_name : MessageName GetBlockHeaderInfoResponseView := {|
  PACKAGE := "cusf.mainchain.v1";
  NAME := "GetBlockHeaderInfoResponse";
  FULL_NAME := "cusf.mainchain.v1.GetBlockHeaderInfoResponse";
  TYPE_URL := "type.googleapis.com/cusf.mainchain.v1.GetBlockHeaderInfoResponse";
|}.
#[global] Existing Instance GetBlockHeaderInfoResponseView_name.
#[global] Instance GetBlockHeaderInfoResponseView_message : Message GetBlockHeaderInfoResponseView := {
  default_message := mkGetBlockHeaderInfoResponseView []; compute_size := compute_size; write_to := write_to;
  merge_field := merge_view_field;
}.
#[global] Instance GetBlockHeaderInfoResponseView_spec : MessageSpec GetBlockHeaderInfoResponseView := {
  records self := r_repeated 1 (header_infos self);
  schema := [(1, LengthDelimited)];
  well_formed self := Forall well_formed (header_infos self);
  levels := 3;
}.
#[global] Instance GetBlockHeaderInfoResponseView_own : ToOwned GetBlockHeaderInfoResponseView GetBlockHeaderInfoResponse.GetBlockHeaderInfoResponse := {
  to_owned_from_source := to_owned_from_source;
}.
#[global] Instance header_infos_lens : Lens header_infos with_header_infos.
Proof. lens. Qed.

Context `{!BuffaLaws, !BuffaTypesLaws, !BuffaViewsLaws, !BuffaTypeViewsLaws}.
#[global] Instance GetBlockHeaderInfoResponseView_laws : MessageLaws GetBlockHeaderInfoResponseView.
Proof. message_laws compute_size write_to merge_view_field. Qed.
Definition borrow (self : GetBlockHeaderInfoResponse.GetBlockHeaderInfoResponse) : GetBlockHeaderInfoResponseView :=
  mkGetBlockHeaderInfoResponseView (view_of <$> GetBlockHeaderInfoResponse.header_infos self).
#[global] Instance GetBlockHeaderInfoResponseView_view : View GetBlockHeaderInfoResponseView GetBlockHeaderInfoResponse.GetBlockHeaderInfoResponse.
Proof. view_laws borrow to_owned_from_source. Defined.
End methods.
End GetBlockHeaderInfoResponseView.

(** The view of [cusf.mainchain.v1.GetBlockInfoRequest]. *)
Module GetBlockInfoRequestView.
Section methods.
Context `{BuffaTypeViews}.

Record GetBlockInfoRequestView := mkGetBlockInfoRequestView {
  block_hash : option ReverseHexView.ReverseHexView;
  max_ancestors : option Z; (* u32 *)
}.
Definition with_block_hash v (self : GetBlockInfoRequestView) : GetBlockInfoRequestView :=
  mkGetBlockInfoRequestView v (max_ancestors self).
Definition with_max_ancestors v (self : GetBlockInfoRequestView) : GetBlockInfoRequestView :=
  mkGetBlockInfoRequestView (block_hash self) v.

Definition compute_size (self : GetBlockInfoRequestView) (__cache : SizeCache) : Z * SizeCache :=
  (size_message 1 (block_hash self) ▷
   size_some_uint32 1 (max_ancestors self)) (0, __cache).
Definition write_to (self : GetBlockInfoRequestView) : write_stmt :=
  write_message 1 (block_hash self) ▷
  write_some_uint32 3 (max_ancestors self).
Definition merge_view_field : merge_fn GetBlockInfoRequestView := λ view tag cur ctx,
  match field_number tag with
  | 1 => view_message (block_hash view) (λ v, with_block_hash v view) tag cur ctx
  | 3 => merge_scalar Varint decode_uint32 (λ v, with_max_ancestors (Some v) view) tag cur
  | _ => merge_unknown view tag cur ctx
  end.
Definition to_owned_from_source (self : GetBlockInfoRequestView) : outcome DecodeError GetBlockInfoRequest.GetBlockInfoRequest :=
  block_hash ← own_message (block_hash self);
  Ok (GetBlockInfoRequest.mkGetBlockInfoRequest block_hash (max_ancestors self)).

Definition GetBlockInfoRequestView_name : MessageName GetBlockInfoRequestView := {|
  PACKAGE := "cusf.mainchain.v1";
  NAME := "GetBlockInfoRequest";
  FULL_NAME := "cusf.mainchain.v1.GetBlockInfoRequest";
  TYPE_URL := "type.googleapis.com/cusf.mainchain.v1.GetBlockInfoRequest";
|}.
#[global] Existing Instance GetBlockInfoRequestView_name.
#[global] Instance GetBlockInfoRequestView_message : Message GetBlockInfoRequestView := {
  default_message := mkGetBlockInfoRequestView None None; compute_size := compute_size; write_to := write_to;
  merge_field := merge_view_field;
}.
#[global] Instance GetBlockInfoRequestView_spec : MessageSpec GetBlockInfoRequestView := {
  records self := r_message 1 (block_hash self) ++ r_some_int 3 (max_ancestors self);
  schema := [(1, LengthDelimited); (3, Varint)];
  well_formed self := from_option well_formed True (block_hash self) ∧
    from_option (in_u 32) True (max_ancestors self);
  levels := 2;
}.
#[global] Instance GetBlockInfoRequestView_own : ToOwned GetBlockInfoRequestView GetBlockInfoRequest.GetBlockInfoRequest := {
  to_owned_from_source := to_owned_from_source;
}.
#[global] Instance block_hash_lens : Lens block_hash with_block_hash.
Proof. lens. Qed.
#[global] Instance max_ancestors_lens : Lens max_ancestors with_max_ancestors.
Proof. lens. Qed.

Context `{!BuffaLaws, !BuffaTypesLaws, !BuffaViewsLaws, !BuffaTypeViewsLaws}.
#[global] Instance GetBlockInfoRequestView_laws : MessageLaws GetBlockInfoRequestView.
Proof. message_laws compute_size write_to merge_view_field. Qed.
Definition borrow (self : GetBlockInfoRequest.GetBlockInfoRequest) : GetBlockInfoRequestView :=
  mkGetBlockInfoRequestView (view_of <$> GetBlockInfoRequest.block_hash self)
    (GetBlockInfoRequest.max_ancestors self).
#[global] Instance GetBlockInfoRequestView_view : View GetBlockInfoRequestView GetBlockInfoRequest.GetBlockInfoRequest.
Proof. view_laws borrow to_owned_from_source. Defined.
End methods.
End GetBlockInfoRequestView.

(** The view of [cusf.mainchain.v1.GetBlockInfoResponse.Info]. *)
Module GetBlockInfoResponse_InfoView.
Section methods.
Context `{BuffaTypeViews}.

Record InfoView := mkInfoView {
  header_info : option BlockHeaderInfoView.BlockHeaderInfoView;
  block_info : option BlockInfoView.BlockInfoView;
}.
Definition with_header_info v (self : InfoView) : InfoView := mkInfoView v (block_info self).
Definition with_block_info v (self : InfoView) : InfoView := mkInfoView (header_info self) v.

Definition compute_size (self : InfoView) (__cache : SizeCache) : Z * SizeCache :=
  (size_message 1 (header_info self) ▷
   size_message 1 (block_info self)) (0, __cache).
Definition write_to (self : InfoView) : write_stmt :=
  write_message 1 (header_info self) ▷
  write_message 2 (block_info self).
Definition merge_view_field : merge_fn InfoView := λ view tag cur ctx,
  match field_number tag with
  | 1 => view_message (header_info view) (λ v, with_header_info v view) tag cur ctx
  | 2 => view_message (block_info view) (λ v, with_block_info v view) tag cur ctx
  | _ => merge_unknown view tag cur ctx
  end.
Definition to_owned_from_source (self : InfoView) : outcome DecodeError GetBlockInfoResponse_Info.Info :=
  header_info ← own_message (header_info self);
  block_info ← own_message (block_info self);
  Ok (GetBlockInfoResponse_Info.mkInfo header_info block_info).

Definition InfoView_name : MessageName InfoView := {|
  PACKAGE := "cusf.mainchain.v1";
  NAME := "GetBlockInfoResponse.Info";
  FULL_NAME := "cusf.mainchain.v1.GetBlockInfoResponse.Info";
  TYPE_URL := "type.googleapis.com/cusf.mainchain.v1.GetBlockInfoResponse.Info";
|}.
#[global] Existing Instance InfoView_name.
#[global] Instance InfoView_message : Message InfoView := {
  default_message := mkInfoView None None; compute_size := compute_size; write_to := write_to;
  merge_field := merge_view_field;
}.
#[global] Instance InfoView_spec : MessageSpec InfoView := {
  records self := r_message 1 (header_info self) ++ r_message 2 (block_info self);
  schema := [(1, LengthDelimited); (2, LengthDelimited)];
  well_formed self := from_option well_formed True (header_info self) ∧
    from_option well_formed True (block_info self);
  levels := 3;
}.
#[global] Instance InfoView_own : ToOwned InfoView GetBlockInfoResponse_Info.Info := {
  to_owned_from_source := to_owned_from_source;
}.
#[global] Instance header_info_lens : Lens header_info with_header_info.
Proof. lens. Qed.
#[global] Instance block_info_lens : Lens block_info with_block_info.
Proof. lens. Qed.

Context `{!BuffaLaws, !BuffaTypesLaws, !BuffaViewsLaws, !BuffaTypeViewsLaws}.
#[global] Instance InfoView_laws : MessageLaws InfoView.
Proof. message_laws compute_size write_to merge_view_field. Qed.
Definition borrow (self : GetBlockInfoResponse_Info.Info) : InfoView :=
  mkInfoView (view_of <$> GetBlockInfoResponse_Info.header_info self)
    (view_of <$> GetBlockInfoResponse_Info.block_info self).
#[global] Instance InfoView_view : View InfoView GetBlockInfoResponse_Info.Info.
Proof. view_laws borrow to_owned_from_source. Defined.
End methods.
End GetBlockInfoResponse_InfoView.

(** The view of [cusf.mainchain.v1.GetBlockInfoResponse]. *)
Module GetBlockInfoResponseView.
Section methods.
Context `{BuffaTypeViews}.

Record GetBlockInfoResponseView := mkGetBlockInfoResponseView {
  infos : list GetBlockInfoResponse_InfoView.InfoView;
}.
Definition with_infos v (self : GetBlockInfoResponseView) : GetBlockInfoResponseView := mkGetBlockInfoResponseView v.

Definition compute_size (self : GetBlockInfoResponseView) (__cache : SizeCache) : Z * SizeCache :=
  (size_repeated 1 (infos self)) (0, __cache).
Definition write_to (self : GetBlockInfoResponseView) : write_stmt :=
  write_repeated 1 (infos self).
Definition merge_view_field : merge_fn GetBlockInfoResponseView := λ view tag cur ctx,
  match field_number tag with
  | 1 => view_repeated (infos view) (λ v, with_infos v view) tag cur ctx
  | _ => merge_unknown view tag cur ctx
  end.
Definition to_owned_from_source (self : GetBlockInfoResponseView) : outcome DecodeError GetBlockInfoResponse.GetBlockInfoResponse :=
  infos ← own_repeated (infos self);
  Ok (GetBlockInfoResponse.mkGetBlockInfoResponse infos).

Definition GetBlockInfoResponseView_name : MessageName GetBlockInfoResponseView := {|
  PACKAGE := "cusf.mainchain.v1";
  NAME := "GetBlockInfoResponse";
  FULL_NAME := "cusf.mainchain.v1.GetBlockInfoResponse";
  TYPE_URL := "type.googleapis.com/cusf.mainchain.v1.GetBlockInfoResponse";
|}.
#[global] Existing Instance GetBlockInfoResponseView_name.
#[global] Instance GetBlockInfoResponseView_message : Message GetBlockInfoResponseView := {
  default_message := mkGetBlockInfoResponseView []; compute_size := compute_size; write_to := write_to;
  merge_field := merge_view_field;
}.
#[global] Instance GetBlockInfoResponseView_spec : MessageSpec GetBlockInfoResponseView := {
  records self := r_repeated 1 (infos self);
  schema := [(1, LengthDelimited)];
  well_formed self := Forall well_formed (infos self);
  levels := 4;
}.
#[global] Instance GetBlockInfoResponseView_own : ToOwned GetBlockInfoResponseView GetBlockInfoResponse.GetBlockInfoResponse := {
  to_owned_from_source := to_owned_from_source;
}.
#[global] Instance infos_lens : Lens infos with_infos.
Proof. lens. Qed.

Context `{!BuffaLaws, !BuffaTypesLaws, !BuffaViewsLaws, !BuffaTypeViewsLaws}.
#[global] Instance GetBlockInfoResponseView_laws : MessageLaws GetBlockInfoResponseView.
Proof. message_laws compute_size write_to merge_view_field. Qed.
Definition borrow (self : GetBlockInfoResponse.GetBlockInfoResponse) : GetBlockInfoResponseView :=
  mkGetBlockInfoResponseView (view_of <$> GetBlockInfoResponse.infos self).
#[global] Instance GetBlockInfoResponseView_view : View GetBlockInfoResponseView GetBlockInfoResponse.GetBlockInfoResponse.
Proof. view_laws borrow to_owned_from_source. Defined.
End methods.
End GetBlockInfoResponseView.

(** The view of [cusf.mainchain.v1.GetChainInfoRequest]. *)
Module GetChainInfoRequestView.
Section methods.
Context `{BuffaTypeViews}.

Record GetChainInfoRequestView := mkGetChainInfoRequestView {}.

Definition compute_size (self : GetChainInfoRequestView) (__cache : SizeCache) : Z * SizeCache :=
  (0, __cache).
Definition write_to (self : GetChainInfoRequestView) : write_stmt :=
  id.
Definition merge_view_field : merge_fn GetChainInfoRequestView := λ view tag cur ctx,
  match field_number tag with
  | _ => merge_unknown view tag cur ctx
  end.
Definition to_owned_from_source (self : GetChainInfoRequestView) : outcome DecodeError GetChainInfoRequest.GetChainInfoRequest :=
  Ok GetChainInfoRequest.mkGetChainInfoRequest.

Definition GetChainInfoRequestView_name : MessageName GetChainInfoRequestView := {|
  PACKAGE := "cusf.mainchain.v1";
  NAME := "GetChainInfoRequest";
  FULL_NAME := "cusf.mainchain.v1.GetChainInfoRequest";
  TYPE_URL := "type.googleapis.com/cusf.mainchain.v1.GetChainInfoRequest";
|}.
#[global] Existing Instance GetChainInfoRequestView_name.
#[global] Instance GetChainInfoRequestView_message : Message GetChainInfoRequestView := {
  default_message := mkGetChainInfoRequestView; compute_size := compute_size; write_to := write_to;
  merge_field := merge_view_field;
}.
#[global] Instance GetChainInfoRequestView_spec : MessageSpec GetChainInfoRequestView := {
  records self := [];
  schema := [];
  well_formed self := True;
  levels := 0;
}.
#[global] Instance GetChainInfoRequestView_own : ToOwned GetChainInfoRequestView GetChainInfoRequest.GetChainInfoRequest := {
  to_owned_from_source := to_owned_from_source;
}.

Context `{!BuffaLaws, !BuffaTypesLaws, !BuffaViewsLaws, !BuffaTypeViewsLaws}.
#[global] Instance GetChainInfoRequestView_laws : MessageLaws GetChainInfoRequestView.
Proof. message_laws compute_size write_to merge_view_field. Qed.
Definition borrow (self : GetChainInfoRequest.GetChainInfoRequest) : GetChainInfoRequestView :=
  mkGetChainInfoRequestView.
#[global] Instance GetChainInfoRequestView_view : View GetChainInfoRequestView GetChainInfoRequest.GetChainInfoRequest.
Proof. view_laws borrow to_owned_from_source. Defined.
End methods.
End GetChainInfoRequestView.

(** The view of [cusf.mainchain.v1.GetChainInfoResponse]. *)
Module GetChainInfoResponseView.
Section methods.
Context `{BuffaTypeViews}.

Record GetChainInfoResponseView := mkGetChainInfoResponseView {
  network : EnumValue Network.Network;
  activation_height : Z; (* u32 *)
}.
Definition with_network v (self : GetChainInfoResponseView) : GetChainInfoResponseView :=
  mkGetChainInfoResponseView v (activation_height self).
Definition with_activation_height v (self : GetChainInfoResponseView) : GetChainInfoResponseView :=
  mkGetChainInfoResponseView (network self) v.

Definition compute_size (self : GetChainInfoResponseView) (__cache : SizeCache) : Z * SizeCache :=
  (size_enum 1 (network self) ▷
   size_uint32 1 (activation_height self)) (0, __cache).
Definition write_to (self : GetChainInfoResponseView) : write_stmt :=
  write_enum 1 (network self) ▷
  write_uint32 3 (activation_height self).
Definition merge_view_field : merge_fn GetChainInfoResponseView := λ view tag cur ctx,
  match field_number tag with
  | 1 => merge_scalar Varint decode_int32 (λ v, with_network (enum_from v) view) tag cur
  | 3 => merge_scalar Varint decode_uint32 (λ v, with_activation_height v view) tag cur
  | _ => merge_unknown view tag cur ctx
  end.
Definition to_owned_from_source (self : GetChainInfoResponseView) : outcome DecodeError GetChainInfoResponse.GetChainInfoResponse :=
  Ok (GetChainInfoResponse.mkGetChainInfoResponse (network self) (activation_height self)).

Definition GetChainInfoResponseView_name : MessageName GetChainInfoResponseView := {|
  PACKAGE := "cusf.mainchain.v1";
  NAME := "GetChainInfoResponse";
  FULL_NAME := "cusf.mainchain.v1.GetChainInfoResponse";
  TYPE_URL := "type.googleapis.com/cusf.mainchain.v1.GetChainInfoResponse";
|}.
#[global] Existing Instance GetChainInfoResponseView_name.
#[global] Instance GetChainInfoResponseView_message : Message GetChainInfoResponseView := {
  default_message := mkGetChainInfoResponseView (enum_from 0) 0; compute_size := compute_size; write_to := write_to;
  merge_field := merge_view_field;
}.
#[global] Instance GetChainInfoResponseView_spec : MessageSpec GetChainInfoResponseView := {
  records self := r_enum 1 (network self) ++ r_int 3 (activation_height self);
  schema := [(1, Varint); (3, Varint)];
  well_formed self := enum_ok (network self) ∧ in_u 32 (activation_height self);
  levels := 0;
}.
#[global] Instance GetChainInfoResponseView_own : ToOwned GetChainInfoResponseView GetChainInfoResponse.GetChainInfoResponse := {
  to_owned_from_source := to_owned_from_source;
}.
#[global] Instance network_lens : Lens network with_network.
Proof. lens. Qed.
#[global] Instance activation_height_lens : Lens activation_height with_activation_height.
Proof. lens. Qed.

Context `{!BuffaLaws, !BuffaTypesLaws, !BuffaViewsLaws, !BuffaTypeViewsLaws}.
#[global] Instance GetChainInfoResponseView_laws : MessageLaws GetChainInfoResponseView.
Proof. message_laws compute_size write_to merge_view_field. Qed.
Definition borrow (self : GetChainInfoResponse.GetChainInfoResponse) : GetChainInfoResponseView :=
  mkGetChainInfoResponseView (GetChainInfoResponse.network self) (GetChainInfoResponse.activation_height self).
#[global] Instance GetChainInfoResponseView_view : View GetChainInfoResponseView GetChainInfoResponse.GetChainInfoResponse.
Proof. view_laws borrow to_owned_from_source. Defined.
End methods.
End GetChainInfoResponseView.

(** The view of [cusf.mainchain.v1.GetChainTipRequest]. *)
Module GetChainTipRequestView.
Section methods.
Context `{BuffaTypeViews}.

Record GetChainTipRequestView := mkGetChainTipRequestView {}.

Definition compute_size (self : GetChainTipRequestView) (__cache : SizeCache) : Z * SizeCache :=
  (0, __cache).
Definition write_to (self : GetChainTipRequestView) : write_stmt :=
  id.
Definition merge_view_field : merge_fn GetChainTipRequestView := λ view tag cur ctx,
  match field_number tag with
  | _ => merge_unknown view tag cur ctx
  end.
Definition to_owned_from_source (self : GetChainTipRequestView) : outcome DecodeError GetChainTipRequest.GetChainTipRequest :=
  Ok GetChainTipRequest.mkGetChainTipRequest.

Definition GetChainTipRequestView_name : MessageName GetChainTipRequestView := {|
  PACKAGE := "cusf.mainchain.v1";
  NAME := "GetChainTipRequest";
  FULL_NAME := "cusf.mainchain.v1.GetChainTipRequest";
  TYPE_URL := "type.googleapis.com/cusf.mainchain.v1.GetChainTipRequest";
|}.
#[global] Existing Instance GetChainTipRequestView_name.
#[global] Instance GetChainTipRequestView_message : Message GetChainTipRequestView := {
  default_message := mkGetChainTipRequestView; compute_size := compute_size; write_to := write_to;
  merge_field := merge_view_field;
}.
#[global] Instance GetChainTipRequestView_spec : MessageSpec GetChainTipRequestView := {
  records self := [];
  schema := [];
  well_formed self := True;
  levels := 0;
}.
#[global] Instance GetChainTipRequestView_own : ToOwned GetChainTipRequestView GetChainTipRequest.GetChainTipRequest := {
  to_owned_from_source := to_owned_from_source;
}.

Context `{!BuffaLaws, !BuffaTypesLaws, !BuffaViewsLaws, !BuffaTypeViewsLaws}.
#[global] Instance GetChainTipRequestView_laws : MessageLaws GetChainTipRequestView.
Proof. message_laws compute_size write_to merge_view_field. Qed.
Definition borrow (self : GetChainTipRequest.GetChainTipRequest) : GetChainTipRequestView :=
  mkGetChainTipRequestView.
#[global] Instance GetChainTipRequestView_view : View GetChainTipRequestView GetChainTipRequest.GetChainTipRequest.
Proof. view_laws borrow to_owned_from_source. Defined.
End methods.
End GetChainTipRequestView.

(** The view of [cusf.mainchain.v1.GetChainTipResponse]. *)
Module GetChainTipResponseView.
Section methods.
Context `{BuffaTypeViews}.

Record GetChainTipResponseView := mkGetChainTipResponseView {
  block_header_info : option BlockHeaderInfoView.BlockHeaderInfoView;
}.
Definition with_block_header_info v (self : GetChainTipResponseView) : GetChainTipResponseView :=
  mkGetChainTipResponseView v.

Definition compute_size (self : GetChainTipResponseView) (__cache : SizeCache) : Z * SizeCache :=
  (size_message 1 (block_header_info self)) (0, __cache).
Definition write_to (self : GetChainTipResponseView) : write_stmt :=
  write_message 1 (block_header_info self).
Definition merge_view_field : merge_fn GetChainTipResponseView := λ view tag cur ctx,
  match field_number tag with
  | 1 => view_message (block_header_info view) (λ v, with_block_header_info v view) tag cur ctx
  | _ => merge_unknown view tag cur ctx
  end.
Definition to_owned_from_source (self : GetChainTipResponseView) : outcome DecodeError GetChainTipResponse.GetChainTipResponse :=
  block_header_info ← own_message (block_header_info self);
  Ok (GetChainTipResponse.mkGetChainTipResponse block_header_info).

Definition GetChainTipResponseView_name : MessageName GetChainTipResponseView := {|
  PACKAGE := "cusf.mainchain.v1";
  NAME := "GetChainTipResponse";
  FULL_NAME := "cusf.mainchain.v1.GetChainTipResponse";
  TYPE_URL := "type.googleapis.com/cusf.mainchain.v1.GetChainTipResponse";
|}.
#[global] Existing Instance GetChainTipResponseView_name.
#[global] Instance GetChainTipResponseView_message : Message GetChainTipResponseView := {
  default_message := mkGetChainTipResponseView None; compute_size := compute_size; write_to := write_to;
  merge_field := merge_view_field;
}.
#[global] Instance GetChainTipResponseView_spec : MessageSpec GetChainTipResponseView := {
  records self := r_message 1 (block_header_info self);
  schema := [(1, LengthDelimited)];
  well_formed self := from_option well_formed True (block_header_info self);
  levels := 3;
}.
#[global] Instance GetChainTipResponseView_own : ToOwned GetChainTipResponseView GetChainTipResponse.GetChainTipResponse := {
  to_owned_from_source := to_owned_from_source;
}.
#[global] Instance block_header_info_lens : Lens block_header_info with_block_header_info.
Proof. lens. Qed.

Context `{!BuffaLaws, !BuffaTypesLaws, !BuffaViewsLaws, !BuffaTypeViewsLaws}.
#[global] Instance GetChainTipResponseView_laws : MessageLaws GetChainTipResponseView.
Proof. message_laws compute_size write_to merge_view_field. Qed.
Definition borrow (self : GetChainTipResponse.GetChainTipResponse) : GetChainTipResponseView :=
  mkGetChainTipResponseView (view_of <$> GetChainTipResponse.block_header_info self).
#[global] Instance GetChainTipResponseView_view : View GetChainTipResponseView GetChainTipResponse.GetChainTipResponse.
Proof. view_laws borrow to_owned_from_source. Defined.
End methods.
End GetChainTipResponseView.

(** The view of [cusf.mainchain.v1.SubscribeEventsRequest]. *)
Module SubscribeEventsRequestView.
Section methods.
Context `{BuffaTypeViews}.

Record SubscribeEventsRequestView := mkSubscribeEventsRequestView {}.

Definition compute_size (self : SubscribeEventsRequestView) (__cache : SizeCache) : Z * SizeCache :=
  (0, __cache).
Definition write_to (self : SubscribeEventsRequestView) : write_stmt :=
  id.
Definition merge_view_field : merge_fn SubscribeEventsRequestView := λ view tag cur ctx,
  match field_number tag with
  | _ => merge_unknown view tag cur ctx
  end.
Definition to_owned_from_source (self : SubscribeEventsRequestView) : outcome DecodeError SubscribeEventsRequest.SubscribeEventsRequest :=
  Ok SubscribeEventsRequest.mkSubscribeEventsRequest.

Definition SubscribeEventsRequestView_name : MessageName SubscribeEventsRequestView := {|
  PACKAGE := "cusf.mainchain.v1";
  NAME := "SubscribeEventsRequest";
  FULL_NAME := "cusf.mainchain.v1.SubscribeEventsRequest";
  TYPE_URL := "type.googleapis.com/cusf.mainchain.v1.SubscribeEventsRequest";
|}.
#[global] Existing Instance SubscribeEventsRequestView_name.
#[global] Instance SubscribeEventsRequestView_message : Message SubscribeEventsRequestView := {
  default_message := mkSubscribeEventsRequestView; compute_size := compute_size; write_to := write_to;
  merge_field := merge_view_field;
}.
#[global] Instance SubscribeEventsRequestView_spec : MessageSpec SubscribeEventsRequestView := {
  records self := [];
  schema := [];
  well_formed self := True;
  levels := 0;
}.
#[global] Instance SubscribeEventsRequestView_own : ToOwned SubscribeEventsRequestView SubscribeEventsRequest.SubscribeEventsRequest := {
  to_owned_from_source := to_owned_from_source;
}.

Context `{!BuffaLaws, !BuffaTypesLaws, !BuffaViewsLaws, !BuffaTypeViewsLaws}.
#[global] Instance SubscribeEventsRequestView_laws : MessageLaws SubscribeEventsRequestView.
Proof. message_laws compute_size write_to merge_view_field. Qed.
Definition borrow (self : SubscribeEventsRequest.SubscribeEventsRequest) : SubscribeEventsRequestView :=
  mkSubscribeEventsRequestView.
#[global] Instance SubscribeEventsRequestView_view : View SubscribeEventsRequestView SubscribeEventsRequest.SubscribeEventsRequest.
Proof. view_laws borrow to_owned_from_source. Defined.
End methods.
End SubscribeEventsRequestView.

(** The view of [cusf.mainchain.v1.SubscribeEventsResponse.Event.ConnectBlock]. *)
Module SubscribeEventsResponse_Event_ConnectBlockView.
Section methods.
Context `{BuffaTypeViews}.

Record ConnectBlockView := mkConnectBlockView {
  header_info : option BlockHeaderInfoView.BlockHeaderInfoView;
  block_info : option BlockInfoView.BlockInfoView;
}.
Definition with_header_info v (self : ConnectBlockView) : ConnectBlockView := mkConnectBlockView v (block_info self).
Definition with_block_info v (self : ConnectBlockView) : ConnectBlockView := mkConnectBlockView (header_info self) v.

Definition compute_size (self : ConnectBlockView) (__cache : SizeCache) : Z * SizeCache :=
  (size_message 1 (header_info self) ▷
   size_message 1 (block_info self)) (0, __cache).
Definition write_to (self : ConnectBlockView) : write_stmt :=
  write_message 1 (header_info self) ▷
  write_message 2 (block_info self).
Definition merge_view_field : merge_fn ConnectBlockView := λ view tag cur ctx,
  match field_number tag with
  | 1 => view_message (header_info view) (λ v, with_header_info v view) tag cur ctx
  | 2 => view_message (block_info view) (λ v, with_block_info v view) tag cur ctx
  | _ => merge_unknown view tag cur ctx
  end.
Definition to_owned_from_source (self : ConnectBlockView) : outcome DecodeError SubscribeEventsResponse_Event_ConnectBlock.ConnectBlock :=
  header_info ← own_message (header_info self);
  block_info ← own_message (block_info self);
  Ok (SubscribeEventsResponse_Event_ConnectBlock.mkConnectBlock header_info block_info).

Definition ConnectBlockView_name : MessageName ConnectBlockView := {|
  PACKAGE := "cusf.mainchain.v1";
  NAME := "SubscribeEventsResponse.Event.ConnectBlock";
  FULL_NAME := "cusf.mainchain.v1.SubscribeEventsResponse.Event.ConnectBlock";
  TYPE_URL := "type.googleapis.com/cusf.mainchain.v1.SubscribeEventsResponse.Event.ConnectBlock";
|}.
#[global] Existing Instance ConnectBlockView_name.
#[global] Instance ConnectBlockView_message : Message ConnectBlockView := {
  default_message := mkConnectBlockView None None; compute_size := compute_size; write_to := write_to;
  merge_field := merge_view_field;
}.
#[global] Instance ConnectBlockView_spec : MessageSpec ConnectBlockView := {
  records self := r_message 1 (header_info self) ++ r_message 2 (block_info self);
  schema := [(1, LengthDelimited); (2, LengthDelimited)];
  well_formed self := from_option well_formed True (header_info self) ∧
    from_option well_formed True (block_info self);
  levels := 3;
}.
#[global] Instance ConnectBlockView_own : ToOwned ConnectBlockView SubscribeEventsResponse_Event_ConnectBlock.ConnectBlock := {
  to_owned_from_source := to_owned_from_source;
}.
#[global] Instance header_info_lens : Lens header_info with_header_info.
Proof. lens. Qed.
#[global] Instance block_info_lens : Lens block_info with_block_info.
Proof. lens. Qed.

Context `{!BuffaLaws, !BuffaTypesLaws, !BuffaViewsLaws, !BuffaTypeViewsLaws}.
#[global] Instance ConnectBlockView_laws : MessageLaws ConnectBlockView.
Proof. message_laws compute_size write_to merge_view_field. Qed.
Definition borrow (self : SubscribeEventsResponse_Event_ConnectBlock.ConnectBlock) : ConnectBlockView :=
  mkConnectBlockView (view_of <$> SubscribeEventsResponse_Event_ConnectBlock.header_info self)
    (view_of <$> SubscribeEventsResponse_Event_ConnectBlock.block_info self).
#[global] Instance ConnectBlockView_view : View ConnectBlockView SubscribeEventsResponse_Event_ConnectBlock.ConnectBlock.
Proof. view_laws borrow to_owned_from_source. Defined.
End methods.
End SubscribeEventsResponse_Event_ConnectBlockView.

(** The view of [cusf.mainchain.v1.SubscribeEventsResponse.Event.DisconnectBlock]. *)
Module SubscribeEventsResponse_Event_DisconnectBlockView.
Section methods.
Context `{BuffaTypeViews}.

Record DisconnectBlockView := mkDisconnectBlockView {
  block_hash : option ReverseHexView.ReverseHexView;
}.
Definition with_block_hash v (self : DisconnectBlockView) : DisconnectBlockView := mkDisconnectBlockView v.

Definition compute_size (self : DisconnectBlockView) (__cache : SizeCache) : Z * SizeCache :=
  (size_message 1 (block_hash self)) (0, __cache).
Definition write_to (self : DisconnectBlockView) : write_stmt :=
  write_message 1 (block_hash self).
Definition merge_view_field : merge_fn DisconnectBlockView := λ view tag cur ctx,
  match field_number tag with
  | 1 => view_message (block_hash view) (λ v, with_block_hash v view) tag cur ctx
  | _ => merge_unknown view tag cur ctx
  end.
Definition to_owned_from_source (self : DisconnectBlockView) : outcome DecodeError SubscribeEventsResponse_Event_DisconnectBlock.DisconnectBlock :=
  block_hash ← own_message (block_hash self);
  Ok (SubscribeEventsResponse_Event_DisconnectBlock.mkDisconnectBlock block_hash).

Definition DisconnectBlockView_name : MessageName DisconnectBlockView := {|
  PACKAGE := "cusf.mainchain.v1";
  NAME := "SubscribeEventsResponse.Event.DisconnectBlock";
  FULL_NAME := "cusf.mainchain.v1.SubscribeEventsResponse.Event.DisconnectBlock";
  TYPE_URL := "type.googleapis.com/cusf.mainchain.v1.SubscribeEventsResponse.Event.DisconnectBlock";
|}.
#[global] Existing Instance DisconnectBlockView_name.
#[global] Instance DisconnectBlockView_message : Message DisconnectBlockView := {
  default_message := mkDisconnectBlockView None; compute_size := compute_size; write_to := write_to;
  merge_field := merge_view_field;
}.
#[global] Instance DisconnectBlockView_spec : MessageSpec DisconnectBlockView := {
  records self := r_message 1 (block_hash self);
  schema := [(1, LengthDelimited)];
  well_formed self := from_option well_formed True (block_hash self);
  levels := 2;
}.
#[global] Instance DisconnectBlockView_own : ToOwned DisconnectBlockView SubscribeEventsResponse_Event_DisconnectBlock.DisconnectBlock := {
  to_owned_from_source := to_owned_from_source;
}.
#[global] Instance block_hash_lens : Lens block_hash with_block_hash.
Proof. lens. Qed.

Context `{!BuffaLaws, !BuffaTypesLaws, !BuffaViewsLaws, !BuffaTypeViewsLaws}.
#[global] Instance DisconnectBlockView_laws : MessageLaws DisconnectBlockView.
Proof. message_laws compute_size write_to merge_view_field. Qed.
Definition borrow (self : SubscribeEventsResponse_Event_DisconnectBlock.DisconnectBlock) : DisconnectBlockView :=
  mkDisconnectBlockView (view_of <$> SubscribeEventsResponse_Event_DisconnectBlock.block_hash self).
#[global] Instance DisconnectBlockView_view : View DisconnectBlockView SubscribeEventsResponse_Event_DisconnectBlock.DisconnectBlock.
Proof. view_laws borrow to_owned_from_source. Defined.
End methods.
End SubscribeEventsResponse_Event_DisconnectBlockView.

(** The view of [cusf.mainchain.v1.SubscribeEventsResponse.Event]. *)
Module SubscribeEventsResponse_EventView.
Section methods.
Context `{BuffaTypeViews}.

Inductive EventOneof :=
| ConnectBlock (v : SubscribeEventsResponse_Event_ConnectBlockView.ConnectBlockView)
| DisconnectBlock (v : SubscribeEventsResponse_Event_DisconnectBlockView.DisconnectBlockView).
Record EventView := mkEventView { event : option EventOneof }.

Definition compute_size (self : EventView) (__cache : SizeCache) : Z * SizeCache :=
  (match event self with
   | Some (ConnectBlock x) => size_nested 1 x
   | Some (DisconnectBlock x) => size_nested 1 x
   | None => id
   end) (0, __cache).
Definition write_to (self : EventView) : write_stmt :=
  match event self with
  | Some (ConnectBlock x) => write_nested 1 x
  | Some (DisconnectBlock x) => write_nested 2 x
  | None => id
  end.
Definition merge_view_field : merge_fn EventView := λ view tag cur ctx,
  match field_number tag with
  | 1 => view_message (match event view with Some (ConnectBlock existing) => Some existing | _ => None end)
           (λ v, mkEventView (ConnectBlock <$> v)) tag cur ctx
  | 2 => view_message (match event view with Some (DisconnectBlock existing) => Some existing | _ => None end)
           (λ v, mkEventView (DisconnectBlock <$> v)) tag cur ctx
  | _ => merge_unknown view tag cur ctx
  end.
Definition to_owned_from_source (self : EventView) : outcome DecodeError SubscribeEventsResponse_Event.Event :=
  match event self with
  | Some (ConnectBlock v) =>
      v ← WireView.to_owned_from_source v;
      Ok (SubscribeEventsResponse_Event.mkEvent (Some (SubscribeEventsResponse_Event.ConnectBlock v)))
  | Some (DisconnectBlock v) =>
      v ← WireView.to_owned_from_source v;
      Ok (SubscribeEventsResponse_Event.mkEvent (Some (SubscribeEventsResponse_Event.DisconnectBlock v)))
  | None => Ok (SubscribeEventsResponse_Event.mkEvent None)
  end.

Definition EventView_name : MessageName EventView := {|
  PACKAGE := "cusf.mainchain.v1";
  NAME := "SubscribeEventsResponse.Event";
  FULL_NAME := "cusf.mainchain.v1.SubscribeEventsResponse.Event";
  TYPE_URL := "type.googleapis.com/cusf.mainchain.v1.SubscribeEventsResponse.Event";
|}.
#[global] Existing Instance EventView_name.
#[global] Instance EventView_message : Message EventView := {
  default_message := mkEventView None; compute_size := compute_size; write_to := write_to;
  merge_field := merge_view_field;
}.
#[global] Instance EventView_spec : MessageSpec EventView := {
  records self :=
    match event self with
    | Some (ConnectBlock v) => [(1, VMessage (records v))]
    | Some (DisconnectBlock v) => [(2, VMessage (records v))]
    | None => []
    end;
  schema := [(1, LengthDelimited); (2, LengthDelimited)];
  well_formed self :=
    match event self with
    | Some (ConnectBlock v) => well_formed v
    | Some (DisconnectBlock v) => well_formed v
    | None => True
    end;
  levels := 4;
}.
#[global] Instance EventView_own : ToOwned EventView SubscribeEventsResponse_Event.Event := {
  to_owned_from_source := to_owned_from_source;
}.

Context `{!BuffaLaws, !BuffaTypesLaws, !BuffaViewsLaws, !BuffaTypeViewsLaws}.
#[global] Instance EventView_laws : MessageLaws EventView.
Proof. oneof_laws compute_size write_to merge_view_field. Qed.
Definition borrow (self : SubscribeEventsResponse_Event.Event) : EventView :=
  mkEventView match SubscribeEventsResponse_Event.event self with
              | Some (SubscribeEventsResponse_Event.ConnectBlock v) => Some (ConnectBlock (view_of v))
              | Some (SubscribeEventsResponse_Event.DisconnectBlock v) => Some (DisconnectBlock (view_of v))
              | None => None
              end.
#[global] Instance EventView_view : View EventView SubscribeEventsResponse_Event.Event.
Proof.
  refine {| view_of := borrow |}.
  - intros [[[v|v]|]]; [apply (f_equal (λ r, [(1, VMessage r)])), view_records|
      apply (f_equal (λ r, [(2, VMessage r)])), view_records|done].
  - intros [[[v|v]|]] Hv; [by apply view_well_formed..|done].
  - intros m; change (to_owned_from_source (borrow m) = Ok m); destruct m as [[[v|v]|]];
      cbn -[WireView.to_owned_from_source view_of]; [by rewrite view_owned..|done].
Defined.
End methods.
End SubscribeEventsResponse_EventView.

(** The view of [cusf.mainchain.v1.SubscribeEventsResponse]. *)
Module SubscribeEventsResponseView.
Section methods.
Context `{BuffaTypeViews}.

Record SubscribeEventsResponseView := mkSubscribeEventsResponseView {
  event : option SubscribeEventsResponse_EventView.EventView;
}.
Definition with_event v (self : SubscribeEventsResponseView) : SubscribeEventsResponseView :=
  mkSubscribeEventsResponseView v.

Definition compute_size (self : SubscribeEventsResponseView) (__cache : SizeCache) : Z * SizeCache :=
  (size_message 1 (event self)) (0, __cache).
Definition write_to (self : SubscribeEventsResponseView) : write_stmt :=
  write_message 1 (event self).
Definition merge_view_field : merge_fn SubscribeEventsResponseView := λ view tag cur ctx,
  match field_number tag with
  | 1 => view_message (event view) (λ v, with_event v view) tag cur ctx
  | _ => merge_unknown view tag cur ctx
  end.
Definition to_owned_from_source (self : SubscribeEventsResponseView) : outcome DecodeError SubscribeEventsResponse.SubscribeEventsResponse :=
  event ← own_message (event self);
  Ok (SubscribeEventsResponse.mkSubscribeEventsResponse event).

Definition SubscribeEventsResponseView_name : MessageName SubscribeEventsResponseView := {|
  PACKAGE := "cusf.mainchain.v1";
  NAME := "SubscribeEventsResponse";
  FULL_NAME := "cusf.mainchain.v1.SubscribeEventsResponse";
  TYPE_URL := "type.googleapis.com/cusf.mainchain.v1.SubscribeEventsResponse";
|}.
#[global] Existing Instance SubscribeEventsResponseView_name.
#[global] Instance SubscribeEventsResponseView_message : Message SubscribeEventsResponseView := {
  default_message := mkSubscribeEventsResponseView None; compute_size := compute_size; write_to := write_to;
  merge_field := merge_view_field;
}.
#[global] Instance SubscribeEventsResponseView_spec : MessageSpec SubscribeEventsResponseView := {
  records self := r_message 1 (event self);
  schema := [(1, LengthDelimited)];
  well_formed self := from_option well_formed True (event self);
  levels := 5;
}.
#[global] Instance SubscribeEventsResponseView_own : ToOwned SubscribeEventsResponseView SubscribeEventsResponse.SubscribeEventsResponse := {
  to_owned_from_source := to_owned_from_source;
}.
#[global] Instance event_lens : Lens event with_event.
Proof. lens. Qed.

Context `{!BuffaLaws, !BuffaTypesLaws, !BuffaViewsLaws, !BuffaTypeViewsLaws}.
#[global] Instance SubscribeEventsResponseView_laws : MessageLaws SubscribeEventsResponseView.
Proof. message_laws compute_size write_to merge_view_field. Qed.
Definition borrow (self : SubscribeEventsResponse.SubscribeEventsResponse) : SubscribeEventsResponseView :=
  mkSubscribeEventsResponseView (view_of <$> SubscribeEventsResponse.event self).
#[global] Instance SubscribeEventsResponseView_view : View SubscribeEventsResponseView SubscribeEventsResponse.SubscribeEventsResponse.
Proof. view_laws borrow to_owned_from_source. Defined.
End methods.
End SubscribeEventsResponseView.

(** The view of [cusf.mainchain.v1.SubscribeHeaderSyncProgressRequest]. *)
Module SubscribeHeaderSyncProgressRequestView.
Section methods.
Context `{BuffaTypeViews}.

Record SubscribeHeaderSyncProgressRequestView := mkSubscribeHeaderSyncProgressRequestView {}.

Definition compute_size (self : SubscribeHeaderSyncProgressRequestView) (__cache : SizeCache) : Z * SizeCache :=
  (0, __cache).
Definition write_to (self : SubscribeHeaderSyncProgressRequestView) : write_stmt :=
  id.
Definition merge_view_field : merge_fn SubscribeHeaderSyncProgressRequestView := λ view tag cur ctx,
  match field_number tag with
  | _ => merge_unknown view tag cur ctx
  end.
Definition to_owned_from_source (self : SubscribeHeaderSyncProgressRequestView) : outcome DecodeError SubscribeHeaderSyncProgressRequest.SubscribeHeaderSyncProgressRequest :=
  Ok SubscribeHeaderSyncProgressRequest.mkSubscribeHeaderSyncProgressRequest.

Definition SubscribeHeaderSyncProgressRequestView_name : MessageName SubscribeHeaderSyncProgressRequestView := {|
  PACKAGE := "cusf.mainchain.v1";
  NAME := "SubscribeHeaderSyncProgressRequest";
  FULL_NAME := "cusf.mainchain.v1.SubscribeHeaderSyncProgressRequest";
  TYPE_URL := "type.googleapis.com/cusf.mainchain.v1.SubscribeHeaderSyncProgressRequest";
|}.
#[global] Existing Instance SubscribeHeaderSyncProgressRequestView_name.
#[global] Instance SubscribeHeaderSyncProgressRequestView_message : Message SubscribeHeaderSyncProgressRequestView := {
  default_message := mkSubscribeHeaderSyncProgressRequestView; compute_size := compute_size; write_to := write_to;
  merge_field := merge_view_field;
}.
#[global] Instance SubscribeHeaderSyncProgressRequestView_spec : MessageSpec SubscribeHeaderSyncProgressRequestView := {
  records self := [];
  schema := [];
  well_formed self := True;
  levels := 0;
}.
#[global] Instance SubscribeHeaderSyncProgressRequestView_own : ToOwned SubscribeHeaderSyncProgressRequestView SubscribeHeaderSyncProgressRequest.SubscribeHeaderSyncProgressRequest := {
  to_owned_from_source := to_owned_from_source;
}.

Context `{!BuffaLaws, !BuffaTypesLaws, !BuffaViewsLaws, !BuffaTypeViewsLaws}.
#[global] Instance SubscribeHeaderSyncProgressRequestView_laws : MessageLaws SubscribeHeaderSyncProgressRequestView.
Proof. message_laws compute_size write_to merge_view_field. Qed.
Definition borrow (self : SubscribeHeaderSyncProgressRequest.SubscribeHeaderSyncProgressRequest) : SubscribeHeaderSyncProgressRequestView :=
  mkSubscribeHeaderSyncProgressRequestView.
#[global] Instance SubscribeHeaderSyncProgressRequestView_view : View SubscribeHeaderSyncProgressRequestView SubscribeHeaderSyncProgressRequest.SubscribeHeaderSyncProgressRequest.
Proof. view_laws borrow to_owned_from_source. Defined.
End methods.
End SubscribeHeaderSyncProgressRequestView.

(** The view of [cusf.mainchain.v1.SubscribeHeaderSyncProgressResponse]. *)
Module SubscribeHeaderSyncProgressResponseView.
Section methods.
Context `{BuffaTypeViews}.

Record SubscribeHeaderSyncProgressResponseView := mkSubscribeHeaderSyncProgressResponseView {
  current_height : option UInt32ValueView;
}.
Definition with_current_height v (self : SubscribeHeaderSyncProgressResponseView) : SubscribeHeaderSyncProgressResponseView :=
  mkSubscribeHeaderSyncProgressResponseView v.

Definition compute_size (self : SubscribeHeaderSyncProgressResponseView) (__cache : SizeCache) : Z * SizeCache :=
  (size_message 1 (current_height self)) (0, __cache).
Definition write_to (self : SubscribeHeaderSyncProgressResponseView) : write_stmt :=
  write_message 1 (current_height self).
Definition merge_view_field : merge_fn SubscribeHeaderSyncProgressResponseView := λ view tag cur ctx,
  match field_number tag with
  | 1 => view_message (current_height view) (λ v, with_current_height v view) tag cur ctx
  | _ => merge_unknown view tag cur ctx
  end.
Definition to_owned_from_source (self : SubscribeHeaderSyncProgressResponseView) : outcome DecodeError SubscribeHeaderSyncProgressResponse.SubscribeHeaderSyncProgressResponse :=
  current_height ← own_message (current_height self);
  Ok (SubscribeHeaderSyncProgressResponse.mkSubscribeHeaderSyncProgressResponse current_height).

Definition SubscribeHeaderSyncProgressResponseView_name : MessageName SubscribeHeaderSyncProgressResponseView := {|
  PACKAGE := "cusf.mainchain.v1";
  NAME := "SubscribeHeaderSyncProgressResponse";
  FULL_NAME := "cusf.mainchain.v1.SubscribeHeaderSyncProgressResponse";
  TYPE_URL := "type.googleapis.com/cusf.mainchain.v1.SubscribeHeaderSyncProgressResponse";
|}.
#[global] Existing Instance SubscribeHeaderSyncProgressResponseView_name.
#[global] Instance SubscribeHeaderSyncProgressResponseView_message : Message SubscribeHeaderSyncProgressResponseView := {
  default_message := mkSubscribeHeaderSyncProgressResponseView None; compute_size := compute_size; write_to := write_to;
  merge_field := merge_view_field;
}.
#[global] Instance SubscribeHeaderSyncProgressResponseView_spec : MessageSpec SubscribeHeaderSyncProgressResponseView := {
  records self := r_message 1 (current_height self);
  schema := [(1, LengthDelimited)];
  well_formed self := from_option well_formed True (current_height self);
  levels := 1;
}.
#[global] Instance SubscribeHeaderSyncProgressResponseView_own : ToOwned SubscribeHeaderSyncProgressResponseView SubscribeHeaderSyncProgressResponse.SubscribeHeaderSyncProgressResponse := {
  to_owned_from_source := to_owned_from_source;
}.
#[global] Instance current_height_lens : Lens current_height with_current_height.
Proof. lens. Qed.

Context `{!BuffaLaws, !BuffaTypesLaws, !BuffaViewsLaws, !BuffaTypeViewsLaws}.
#[global] Instance SubscribeHeaderSyncProgressResponseView_laws : MessageLaws SubscribeHeaderSyncProgressResponseView.
Proof. message_laws compute_size write_to merge_view_field. Qed.
Definition borrow (self : SubscribeHeaderSyncProgressResponse.SubscribeHeaderSyncProgressResponse) : SubscribeHeaderSyncProgressResponseView :=
  mkSubscribeHeaderSyncProgressResponseView (view_of <$> SubscribeHeaderSyncProgressResponse.current_height self).
#[global] Instance SubscribeHeaderSyncProgressResponseView_view : View SubscribeHeaderSyncProgressResponseView SubscribeHeaderSyncProgressResponse.SubscribeHeaderSyncProgressResponse.
Proof. view_laws borrow to_owned_from_source. Defined.
End methods.
End SubscribeHeaderSyncProgressResponseView.

(** The view of [cusf.mainchain.v1.StopRequest]. *)
Module StopRequestView.
Section methods.
Context `{BuffaTypeViews}.

Record StopRequestView := mkStopRequestView {}.

Definition compute_size (self : StopRequestView) (__cache : SizeCache) : Z * SizeCache :=
  (0, __cache).
Definition write_to (self : StopRequestView) : write_stmt :=
  id.
Definition merge_view_field : merge_fn StopRequestView := λ view tag cur ctx,
  match field_number tag with
  | _ => merge_unknown view tag cur ctx
  end.
Definition to_owned_from_source (self : StopRequestView) : outcome DecodeError StopRequest.StopRequest :=
  Ok StopRequest.mkStopRequest.

Definition StopRequestView_name : MessageName StopRequestView := {|
  PACKAGE := "cusf.mainchain.v1";
  NAME := "StopRequest";
  FULL_NAME := "cusf.mainchain.v1.StopRequest";
  TYPE_URL := "type.googleapis.com/cusf.mainchain.v1.StopRequest";
|}.
#[global] Existing Instance StopRequestView_name.
#[global] Instance StopRequestView_message : Message StopRequestView := {
  default_message := mkStopRequestView; compute_size := compute_size; write_to := write_to;
  merge_field := merge_view_field;
}.
#[global] Instance StopRequestView_spec : MessageSpec StopRequestView := {
  records self := [];
  schema := [];
  well_formed self := True;
  levels := 0;
}.
#[global] Instance StopRequestView_own : ToOwned StopRequestView StopRequest.StopRequest := {
  to_owned_from_source := to_owned_from_source;
}.

Context `{!BuffaLaws, !BuffaTypesLaws, !BuffaViewsLaws, !BuffaTypeViewsLaws}.
#[global] Instance StopRequestView_laws : MessageLaws StopRequestView.
Proof. message_laws compute_size write_to merge_view_field. Qed.
Definition borrow (self : StopRequest.StopRequest) : StopRequestView :=
  mkStopRequestView.
#[global] Instance StopRequestView_view : View StopRequestView StopRequest.StopRequest.
Proof. view_laws borrow to_owned_from_source. Defined.
End methods.
End StopRequestView.

(** The view of [cusf.mainchain.v1.StopResponse]. *)
Module StopResponseView.
Section methods.
Context `{BuffaTypeViews}.

Record StopResponseView := mkStopResponseView {}.

Definition compute_size (self : StopResponseView) (__cache : SizeCache) : Z * SizeCache :=
  (0, __cache).
Definition write_to (self : StopResponseView) : write_stmt :=
  id.
Definition merge_view_field : merge_fn StopResponseView := λ view tag cur ctx,
  match field_number tag with
  | _ => merge_unknown view tag cur ctx
  end.
Definition to_owned_from_source (self : StopResponseView) : outcome DecodeError StopResponse.StopResponse :=
  Ok StopResponse.mkStopResponse.

Definition StopResponseView_name : MessageName StopResponseView := {|
  PACKAGE := "cusf.mainchain.v1";
  NAME := "StopResponse";
  FULL_NAME := "cusf.mainchain.v1.StopResponse";
  TYPE_URL := "type.googleapis.com/cusf.mainchain.v1.StopResponse";
|}.
#[global] Existing Instance StopResponseView_name.
#[global] Instance StopResponseView_message : Message StopResponseView := {
  default_message := mkStopResponseView; compute_size := compute_size; write_to := write_to;
  merge_field := merge_view_field;
}.
#[global] Instance StopResponseView_spec : MessageSpec StopResponseView := {
  records self := [];
  schema := [];
  well_formed self := True;
  levels := 0;
}.
#[global] Instance StopResponseView_own : ToOwned StopResponseView StopResponse.StopResponse := {
  to_owned_from_source := to_owned_from_source;
}.

Context `{!BuffaLaws, !BuffaTypesLaws, !BuffaViewsLaws, !BuffaTypeViewsLaws}.
#[global] Instance StopResponseView_laws : MessageLaws StopResponseView.
Proof. message_laws compute_size write_to merge_view_field. Qed.
Definition borrow (self : StopResponse.StopResponse) : StopResponseView :=
  mkStopResponseView.
#[global] Instance StopResponseView_view : View StopResponseView StopResponse.StopResponse.
Proof. view_laws borrow to_owned_from_source. Defined.
End methods.
End StopResponseView.
