(* ===== verification/ProtoWalletView.v ===== *)
(** The views of the messages of `wallet.proto` (`proto/generated/buffa/cusf.mainchain.v1.rs`). *)
From Stdlib Require Import ZArith Lia Strings.Byte Strings.String.
From stdpp Require Import base list gmap strings.
From S2P Require Import Prelude Wire WireTypes WireView ProtoCommon ProtoWallet ProtoCommonView.
#[local] Open Scope Z_scope.

(** The view of [cusf.mainchain.v1.WalletTransaction.Confirmation]. *)
Module WalletTransaction_ConfirmationView.
Section methods.
Context `{BuffaTypeViews}.

Record ConfirmationView := mkConfirmationView {
  height : Z; (* u32 *)
  block_hash : option ReverseHexView.ReverseHexView;
  timestamp : option TimestampView;
}.
Definition with_height v (self : ConfirmationView) : ConfirmationView :=
  mkConfirmationView v (block_hash self) (timestamp self).
Definition with_block_hash v (self : ConfirmationView) : ConfirmationView :=
  mkConfirmationView (height self) v (timestamp self).
Definition with_timestamp v (self : ConfirmationView) : ConfirmationView :=
  mkConfirmationView (height self) (block_hash self) v.

Definition compute_size (self : ConfirmationView) (__cache : SizeCache) : Z * SizeCache :=
  (size_uint32 1 (height self) ▷
   size_message 1 (block_hash self) ▷
   size_message 1 (timestamp self)) (0, __cache).
Definition write_to (self : ConfirmationView) : write_stmt :=
  write_uint32 1 (height self) ▷
  write_message 2 (block_hash self) ▷
  write_message 3 (timestamp self).
Definition merge_view_field : merge_fn ConfirmationView := λ view tag cur ctx,
  match field_number tag with
  | 1 => merge_scalar Varint decode_uint32 (λ v, with_height v view) tag cur
  | 2 => view_message (block_hash view) (λ v, with_block_hash v view) tag cur ctx
  | 3 => view_message (timestamp view) (λ v, with_timestamp v view) tag cur ctx
  | _ => merge_unknown view tag cur ctx
  end.
Definition to_owned_from_source (self : ConfirmationView) : outcome DecodeError WalletTransaction_Confirmation.Confirmation :=
  block_hash ← own_message (block_hash self);
  timestamp ← own_message (timestamp self);
  Ok (WalletTransaction_Confirmation.mkConfirmation (height self) block_hash timestamp).

Definition ConfirmationView_name : MessageName ConfirmationView := {|
  PACKAGE := "cusf.mainchain.v1";
  NAME := "WalletTransaction.Confirmation";
  FULL_NAME := "cusf.mainchain.v1.WalletTransaction.Confirmation";
  TYPE_URL := "type.googleapis.com/cusf.mainchain.v1.WalletTransaction.Confirmation";
|}.
#[global] Existing Instance ConfirmationView_name.
#[global] Instance ConfirmationView_message : Message ConfirmationView := {
  default_message := mkConfirmationView 0 None None; compute_size := compute_size; write_to := write_to;
  merge_field := merge_view_field;
}.
#[global] Instance ConfirmationView_spec : MessageSpec ConfirmationView := {
  records self := r_int 1 (height self) ++ r_message 2 (block_hash self) ++ r_message 3 (timestamp self);
  schema := [(1, Varint); (2, LengthDelimited); (3, LengthDelimited)];
  well_formed self := in_u 32 (height self) ∧ from_option well_formed True (block_hash self) ∧
    from_option well_formed True (timestamp self);
  levels := 2;
}.
#[global] Instance ConfirmationView_own : ToOwned ConfirmationView WalletTransaction_Confirmation.Confirmation := {
  to_owned_from_source := to_owned_from_source;
}.
#[global] Instance height_lens : Lens height with_height.
Proof. lens. Qed.
#[global] Instance block_hash_lens : Lens block_hash with_block_hash.
Proof. lens. Qed.
#[global] Instance timestamp_lens : Lens timestamp with_timestamp.
Proof. lens. Qed.

Context `{!BuffaLaws, !BuffaTypesLaws, !BuffaViewsLaws, !BuffaTypeViewsLaws}.
#[global] Instance ConfirmationView_laws : MessageLaws ConfirmationView.
Proof. message_laws compute_size write_to merge_view_field. Qed.
Definition borrow (self : WalletTransaction_Confirmation.Confirmation) : ConfirmationView :=
  mkConfirmationView (WalletTransaction_Confirmation.height self)
    (view_of <$> WalletTransaction_Confirmation.block_hash self)
    (view_of <$> WalletTransaction_Confirmation.timestamp self).
#[global] Instance ConfirmationView_view : View ConfirmationView WalletTransaction_Confirmation.Confirmation.
Proof. view_laws borrow to_owned_from_source. Defined.
End methods.
End WalletTransaction_ConfirmationView.

(** The view of [cusf.mainchain.v1.WalletTransaction]. *)
Module WalletTransactionView.
Section methods.
Context `{BuffaTypeViews}.

Record WalletTransactionView := mkWalletTransactionView {
  txid : option ReverseHexView.ReverseHexView;
  raw_transaction : option ConsensusHexView.ConsensusHexView;
  fee_sats : Z; (* u64 *)
  received_sats : Z; (* u64 *)
  sent_sats : Z; (* u64 *)
  confirmation_info : option WalletTransaction_ConfirmationView.ConfirmationView;
}.
Definition with_txid v (self : WalletTransactionView) : WalletTransactionView :=
  mkWalletTransactionView v (raw_transaction self) (fee_sats self) (received_sats self) (sent_sats self) (confirmation_info self).
Definition with_raw_transaction v (self : WalletTransactionView) : WalletTransactionView :=
  mkWalletTransactionView (txid self) v (fee_sats self) (received_sats self) (sent_sats self) (confirmation_info self).
Definition with_fee_sats v (self : WalletTransactionView) : WalletTransactionView :=
  mkWalletTransactionView (txid self) (raw_transaction self) v (received_sats self) (sent_sats self) (confirmation_info self).
Definition with_received_sats v (self : WalletTransactionView) : WalletTransactionView :=
  mkWalletTransactionView (txid self) (raw_transaction self) (fee_sats self) v (sent_sats self) (confirmation_info self).
Definition with_sent_sats v (self : WalletTransactionView) : WalletTransactionView :=
  mkWalletTransactionView (txid self) (raw_transaction self) (fee_sats self) (received_sats self) v (confirmation_info self).
Definition with_confirmation_info v (self : WalletTransactionView) : WalletTransactionView :=
  mkWalletTransactionView (txid self) (raw_transaction self) (fee_sats self) (received_sats self) (sent_sats self) v.

Definition compute_size (self : WalletTransactionView) (__cache : SizeCache) : Z * SizeCache :=
  (size_message 1 (txid self) ▷
   size_uint64 1 (fee_sats self) ▷
   size_uint64 1 (received_sats self) ▷
   size_uint64 1 (sent_sats self) ▷
   size_message 1 (confirmation_info self) ▷
   size_message 1 (raw_transaction self)) (0, __cache).
Definition write_to (self : WalletTransactionView) : write_stmt :=
  write_message 1 (txid self) ▷
  write_uint64 2 (fee_sats self) ▷
  write_uint64 3 (received_sats self) ▷
  write_uint64 4 (sent_sats self) ▷
  write_message 5 (confirmation_info self) ▷
  write_message 6 (raw_transaction self).
Definition merge_view_field : merge_fn WalletTransactionView := λ view tag cur ctx,
  match field_number tag with
  | 1 => view_message (txid view) (λ v, with_txid v view) tag cur ctx
  | 6 => view_message (raw_transaction view) (λ v, with_raw_transaction v view) tag cur ctx
  | 2 => merge_scalar Varint decode_uint64 (λ v, with_fee_sats v view) tag cur
  | 3 => merge_scalar Varint decode_uint64 (λ v, with_received_sats v view) tag cur
  | 4 => merge_scalar Varint decode_uint64 (λ v, with_sent_sats v view) tag cur
  | 5 => view_message (confirmation_info view) (λ v, with_confirmation_info v view) tag cur ctx
  | _ => merge_unknown view tag cur ctx
  end.
Definition to_owned_from_source (self : WalletTransactionView) : outcome DecodeError WalletTransaction.WalletTransaction :=
  txid ← own_message (txid self);
  raw_transaction ← own_message (raw_transaction self);
  confirmation_info ← own_message (confirmation_info self);
  Ok (WalletTransaction.mkWalletTransaction txid raw_transaction (fee_sats self) (received_sats self) (sent_sats self) confirmation_info).

Definition WalletTransactionView_name : MessageName WalletTransactionView := {|
  PACKAGE := "cusf.mainchain.v1";
  NAME := "WalletTransaction";
  FULL_NAME := "cusf.mainchain.v1.WalletTransaction";
  TYPE_URL := "type.googleapis.com/cusf.mainchain.v1.WalletTransaction";
|}.
#[global] Existing Instance WalletTransactionView_name.
#[global] Instance WalletTransactionView_message : Message WalletTransactionView := {
  default_message := mkWalletTransactionView None None 0 0 0 None; compute_size := compute_size; write_to := write_to;
  merge_field := merge_view_field;
}.
#[global] Instance WalletTransactionView_spec : MessageSpec WalletTransactionView := {
  records self := r_message 1 (txid self) ++ r_int 2 (fee_sats self) ++ r_int 3 (received_sats self) ++
    r_int 4 (sent_sats self) ++ r_message 5 (confirmation_info self) ++ r_message 6 (raw_transaction self);
  schema := [(1, LengthDelimited); (2, Varint); (3, Varint); (4, Varint); (5, LengthDelimited); (6, LengthDelimited)];
  well_formed self := from_option well_formed True (txid self) ∧
    from_option well_formed True (raw_transaction self) ∧ in_u 64 (fee_sats self) ∧
    in_u 64 (received_sats self) ∧ in_u 64 (sent_sats self) ∧ from_option well_formed True (confirmation_info self);
  levels := 3;
}.
#[global] Instance WalletTransactionView_own : ToOwned WalletTransactionView WalletTransaction.WalletTransaction := {
  to_owned_from_source := to_owned_from_source;
}.
#[global] Instance txid_lens : Lens txid with_txid.
Proof. lens. Qed.
#[global] Instance raw_transaction_lens : Lens raw_transaction with_raw_transaction.
Proof. lens. Qed.
#[global] Instance fee_sats_lens : Lens fee_sats with_fee_sats.
Proof. lens. Qed.
#[global] Instance received_sats_lens : Lens received_sats with_received_sats.
Proof. lens. Qed.
#[global] Instance sent_sats_lens : Lens sent_sats with_sent_sats.
Proof. lens. Qed.
#[global] Instance confirmation_info_lens : Lens confirmation_info with_confirmation_info.
Proof. lens. Qed.

Context `{!BuffaLaws, !BuffaTypesLaws, !BuffaViewsLaws, !BuffaTypeViewsLaws}.
#[global] Instance WalletTransactionView_laws : MessageLaws WalletTransactionView.
Proof. message_laws compute_size write_to merge_view_field. Qed.
Definition borrow (self : WalletTransaction.WalletTransaction) : WalletTransactionView :=
  mkWalletTransactionView (view_of <$> WalletTransaction.txid self)
    (view_of <$> WalletTransaction.raw_transaction self) (WalletTransaction.fee_sats self)
    (WalletTransaction.received_sats self) (WalletTransaction.sent_sats self)
    (view_of <$> WalletTransaction.confirmation_info self).
#[global] Instance WalletTransactionView_view : View WalletTransactionView WalletTransaction.WalletTransaction.
Proof. view_laws borrow to_owned_from_source. Defined.
End methods.
End WalletTransactionView.

(** The view of [cusf.mainchain.v1.CreateP2mrAddressRequest]. *)
Module CreateP2mrAddressRequestView.
Section methods.
Context `{BuffaTypeViews}.

Record CreateP2mrAddressRequestView := mkCreateP2mrAddressRequestView {
  scheme : EnumValue P2mrScheme.P2mrScheme;
}.
Definition with_scheme v (self : CreateP2mrAddressRequestView) : CreateP2mrAddressRequestView :=
  mkCreateP2mrAddressRequestView v.

Definition compute_size (self : CreateP2mrAddressRequestView) (__cache : SizeCache) : Z * SizeCache :=
  (size_enum 1 (scheme self)) (0, __cache).
Definition write_to (self : CreateP2mrAddressRequestView) : write_stmt :=
  write_enum 1 (scheme self).
Definition merge_view_field : merge_fn CreateP2mrAddressRequestView := λ view tag cur ctx,
  match field_number tag with
  | 1 => merge_scalar Varint decode_int32 (λ v, with_scheme (enum_from v) view) tag cur
  | _ => merge_unknown view tag cur ctx
  end.
Definition to_owned_from_source (self : CreateP2mrAddressRequestView) : outcome DecodeError CreateP2mrAddressRequest.CreateP2mrAddressRequest :=
  Ok (CreateP2mrAddressRequest.mkCreateP2mrAddressRequest (scheme self)).

Definition CreateP2mrAddressRequestView_name : MessageName CreateP2mrAddressRequestView := {|
  PACKAGE := "cusf.mainchain.v1";
  NAME := "CreateP2mrAddressRequest";
  FULL_NAME := "cusf.mainchain.v1.CreateP2mrAddressRequest";
  TYPE_URL := "type.googleapis.com/cusf.mainchain.v1.CreateP2mrAddressRequest";
|}.
#[global] Existing Instance CreateP2mrAddressRequestView_name.
#[global] Instance CreateP2mrAddressRequestView_message : Message CreateP2mrAddressRequestView := {
  default_message := mkCreateP2mrAddressRequestView (enum_from 0); compute_size := compute_size; write_to := write_to;
  merge_field := merge_view_field;
}.
#[global] Instance CreateP2mrAddressRequestView_spec : MessageSpec CreateP2mrAddressRequestView := {
  records self := r_enum 1 (scheme self);
  schema := [(1, Varint)];
  well_formed self := enum_ok (scheme self);
  levels := 0;
}.
#[global] Instance CreateP2mrAddressRequestView_own : ToOwned CreateP2mrAddressRequestView CreateP2mrAddressRequest.CreateP2mrAddressRequest := {
  to_owned_from_source := to_owned_from_source;
}.
#[global] Instance scheme_lens : Lens scheme with_scheme.
Proof. lens. Qed.

Context `{!BuffaLaws, !BuffaTypesLaws, !BuffaViewsLaws, !BuffaTypeViewsLaws}.
#[global] Instance CreateP2mrAddressRequestView_laws : MessageLaws CreateP2mrAddressRequestView.
Proof. message_laws compute_size write_to merge_view_field. Qed.
Definition borrow (self : CreateP2mrAddressRequest.CreateP2mrAddressRequest) : CreateP2mrAddressRequestView :=
  mkCreateP2mrAddressRequestView (CreateP2mrAddressRequest.scheme self).
#[global] Instance CreateP2mrAddressRequestView_view : View CreateP2mrAddressRequestView CreateP2mrAddressRequest.CreateP2mrAddressRequest.
Proof. view_laws borrow to_owned_from_source. Defined.
End methods.
End CreateP2mrAddressRequestView.

(** The view of [cusf.mainchain.v1.CreateP2mrAddressResponse]. *)
Module CreateP2mrAddressResponseView.
Section methods.
Context `{BuffaTypeViews}.

Record CreateP2mrAddressResponseView := mkCreateP2mrAddressResponseView {
  address : string;
  script_pubkey : option ConsensusHexView.ConsensusHexView;
  scheme : EnumValue P2mrScheme.P2mrScheme;
}.
Definition with_address v (self : CreateP2mrAddressResponseView) : CreateP2mrAddressResponseView :=
  mkCreateP2mrAddressResponseView v (script_pubkey self) (scheme self).
Definition with_script_pubkey v (self : CreateP2mrAddressResponseView) : CreateP2mrAddressResponseView :=
  mkCreateP2mrAddressResponseView (address self) v (scheme self).
Definition with_scheme v (self : CreateP2mrAddressResponseView) : CreateP2mrAddressResponseView :=
  mkCreateP2mrAddressResponseView (address self) (script_pubkey self) v.

Definition compute_size (self : CreateP2mrAddressResponseView) (__cache : SizeCache) : Z * SizeCache :=
  (size_string 1 (address self) ▷
   size_message 1 (script_pubkey self) ▷
   size_enum 1 (scheme self)) (0, __cache).
Definition write_to (self : CreateP2mrAddressResponseView) : write_stmt :=
  write_string 1 (address self) ▷
  write_message 2 (script_pubkey self) ▷
  write_enum 3 (scheme self).
Definition merge_view_field : merge_fn CreateP2mrAddressResponseView := λ view tag cur ctx,
  match field_number tag with
  | 1 => merge_scalar LengthDelimited borrow_str (λ v, with_address v view) tag cur
  | 2 => view_message (script_pubkey view) (λ v, with_script_pubkey v view) tag cur ctx
  | 3 => merge_scalar Varint decode_int32 (λ v, with_scheme (enum_from v) view) tag cur
  | _ => merge_unknown view tag cur ctx
  end.
Definition to_owned_from_source (self : CreateP2mrAddressResponseView) : outcome DecodeError CreateP2mrAddressResponse.CreateP2mrAddressResponse :=
  script_pubkey ← own_message (script_pubkey self);
  Ok (CreateP2mrAddressResponse.mkCreateP2mrAddressResponse (address self) script_pubkey (scheme self)).

Definition CreateP2mrAddressResponseView_name : MessageName CreateP2mrAddressResponseView := {|
  PACKAGE := "cusf.mainchain.v1";
  NAME := "CreateP2mrAddressResponse";
  FULL_NAME := "cusf.mainchain.v1.CreateP2mrAddressResponse";
  TYPE_URL := "type.googleapis.com/cusf.mainchain.v1.CreateP2mrAddressResponse";
|}.
#[global] Existing Instance CreateP2mrAddressResponseView_name.
#[global] Instance CreateP2mrAddressResponseView_message : Message CreateP2mrAddressResponseView := {
  default_message := mkCreateP2mrAddressResponseView EmptyString None (enum_from 0); compute_size := compute_size; write_to := write_to;
  merge_field := merge_view_field;
}.
#[global] Instance CreateP2mrAddressResponseView_spec : MessageSpec CreateP2mrAddressResponseView := {
  records self := r_string 1 (address self) ++ r_message 2 (script_pubkey self) ++ r_enum 3 (scheme self);
  schema := [(1, LengthDelimited); (2, LengthDelimited); (3, Varint)];
  well_formed self := string_ok (address self) ∧ from_option well_formed True (script_pubkey self) ∧
    enum_ok (scheme self);
  levels := 2;
}.
#[global] Instance CreateP2mrAddressResponseView_own : ToOwned CreateP2mrAddressResponseView CreateP2mrAddressResponse.CreateP2mrAddressResponse := {
  to_owned_from_source := to_owned_from_source;
}.
#[global] Instance address_lens : Lens address with_address.
Proof. lens. Qed.
#[global] Instance script_pubkey_lens : Lens script_pubkey with_script_pubkey.
Proof. lens. Qed.
#[global] Instance scheme_lens : Lens scheme with_scheme.
Proof. lens. Qed.

Context `{!BuffaLaws, !BuffaTypesLaws, !BuffaViewsLaws, !BuffaTypeViewsLaws}.
#[global] Instance CreateP2mrAddressResponseView_laws : MessageLaws CreateP2mrAddressResponseView.
Proof. message_laws compute_size write_to merge_view_field. Qed.
Definition borrow (self : CreateP2mrAddressResponse.CreateP2mrAddressResponse) : CreateP2mrAddressResponseView :=
  mkCreateP2mrAddressResponseView (CreateP2mrAddressResponse.address self)
    (view_of <$> CreateP2mrAddressResponse.script_pubkey self) (CreateP2mrAddressResponse.scheme self).
#[global] Instance CreateP2mrAddressResponseView_view : View CreateP2mrAddressResponseView CreateP2mrAddressResponse.CreateP2mrAddressResponse.
Proof. view_laws borrow to_owned_from_source. Defined.
End methods.
End CreateP2mrAddressResponseView.

(** The view of [cusf.mainchain.v1.ListP2mrOutputsRequest]. *)
Module ListP2mrOutputsRequestView.
Section methods.
Context `{BuffaTypeViews}.

Record ListP2mrOutputsRequestView := mkListP2mrOutputsRequestView {}.

Definition compute_size (self : ListP2mrOutputsRequestView) (__cache : SizeCache) : Z * SizeCache :=
  (0, __cache).
Definition write_to (self : ListP2mrOutputsRequestView) : write_stmt :=
  id.
Definition merge_view_field : merge_fn ListP2mrOutputsRequestView := λ view tag cur ctx,
  match field_number tag with
  | _ => merge_unknown view tag cur ctx
  end.
Definition to_owned_from_source (self : ListP2mrOutputsRequestView) : outcome DecodeError ListP2mrOutputsRequest.ListP2mrOutputsRequest :=
  Ok ListP2mrOutputsRequest.mkListP2mrOutputsRequest.

Definition ListP2mrOutputsRequestView_name : MessageName ListP2mrOutputsRequestView := {|
  PACKAGE := "cusf.mainchain.v1";
  NAME := "ListP2mrOutputsRequest";
  FULL_NAME := "cusf.mainchain.v1.ListP2mrOutputsRequest";
  TYPE_URL := "type.googleapis.com/cusf.mainchain.v1.ListP2mrOutputsRequest";
|}.
#[global] Existing Instance ListP2mrOutputsRequestView_name.
#[global] Instance ListP2mrOutputsRequestView_message : Message ListP2mrOutputsRequestView := {
  default_message := mkListP2mrOutputsRequestView; compute_size := compute_size; write_to := write_to;
  merge_field := merge_view_field;
}.
#[global] Instance ListP2mrOutputsRequestView_spec : MessageSpec ListP2mrOutputsRequestView := {
  records self := [];
  schema := [];
  well_formed self := True;
  levels := 0;
}.
#[global] Instance ListP2mrOutputsRequestView_own : ToOwned ListP2mrOutputsRequestView ListP2mrOutputsRequest.ListP2mrOutputsRequest := {
  to_owned_from_source := to_owned_from_source;
}.

Context `{!BuffaLaws, !BuffaTypesLaws, !BuffaViewsLaws, !BuffaTypeViewsLaws}.
#[global] Instance ListP2mrOutputsRequestView_laws : MessageLaws ListP2mrOutputsRequestView.
Proof. message_laws compute_size write_to merge_view_field. Qed.
Definition borrow (self : ListP2mrOutputsRequest.ListP2mrOutputsRequest) : ListP2mrOutputsRequestView :=
  mkListP2mrOutputsRequestView.
#[global] Instance ListP2mrOutputsRequestView_view : View ListP2mrOutputsRequestView ListP2mrOutputsRequest.ListP2mrOutputsRequest.
Proof. view_laws borrow to_owned_from_source. Defined.
End methods.
End ListP2mrOutputsRequestView.

(** The view of [cusf.mainchain.v1.ListP2mrOutputsResponse.Output]. *)
Module ListP2mrOutputsResponse_OutputView.
Section methods.
Context `{BuffaTypeViews}.

Record OutputView := mkOutputView {
  txid : option ReverseHexView.ReverseHexView;
  vout : Z; (* u32 *)
  value_sats : Z; (* u64 *)
  script_pubkey : option ConsensusHexView.ConsensusHexView;
  is_mine : bool;
}.
Definition with_txid v (self : OutputView) : OutputView :=
  mkOutputView v (vout self) (value_sats self) (script_pubkey self) (is_mine self).
Definition with_vout v (self : OutputView) : OutputView :=
  mkOutputView (txid self) v (value_sats self) (script_pubkey self) (is_mine self).
Definition with_value_sats v (self : OutputView) : OutputView :=
  mkOutputView (txid self) (vout self) v (script_pubkey self) (is_mine self).
Definition with_script_pubkey v (self : OutputView) : OutputView :=
  mkOutputView (txid self) (vout self) (value_sats self) v (is_mine self).
Definition with_is_mine v (self : OutputView) : OutputView :=
  mkOutputView (txid self) (vout self) (value_sats self) (script_pubkey self) v.

Definition compute_size (self : OutputView) (__cache : SizeCache) : Z * SizeCache :=
  (size_message 1 (txid self) ▷
   size_uint32 1 (vout self) ▷
   size_uint64 1 (value_sats self) ▷
   size_message 1 (script_pubkey self) ▷
   size_bool 1 (is_mine self)) (0, __cache).
Definition write_to (self : OutputView) : write_stmt :=
  write_message 1 (txid self) ▷
  write_uint32 2 (vout self) ▷
  write_uint64 3 (value_sats self) ▷
  write_message 4 (script_pubkey self) ▷
  write_bool 5 (is_mine self).
Definition merge_view_field : merge_fn OutputView := λ view tag cur ctx,
  match field_number tag with
  | 1 => view_message (txid view) (λ v, with_txid v view) tag cur ctx
  | 2 => merge_scalar Varint decode_uint32 (λ v, with_vout v view) tag cur
  | 3 => merge_scalar Varint decode_uint64 (λ v, with_value_sats v view) tag cur
  | 4 => view_message (script_pubkey view) (λ v, with_script_pubkey v view) tag cur ctx
  | 5 => merge_scalar Varint decode_bool (λ v, with_is_mine v view) tag cur
  | _ => merge_unknown view tag cur ctx
  end.
Definition to_owned_from_source (self : OutputView) : outcome DecodeError ListP2mrOutputsResponse_Output.Output :=
  txid ← own_message (txid self);
  script_pubkey ← own_message (script_pubkey self);
  Ok (ListP2mrOutputsResponse_Output.mkOutput txid (vout self) (value_sats self) script_pubkey (is_mine self)).

Definition OutputView_name : MessageName OutputView := {|
  PACKAGE := "cusf.mainchain.v1";
  NAME := "ListP2mrOutputsResponse.Output";
  FULL_NAME := "cusf.mainchain.v1.ListP2mrOutputsResponse.Output";
  TYPE_URL := "type.googleapis.com/cusf.mainchain.v1.ListP2mrOutputsResponse.Output";
|}.
#[global] Existing Instance OutputView_name.
#[global] Instance OutputView_message : Message OutputView := {
  default_message := mkOutputView None 0 0 None false; compute_size := compute_size; write_to := write_to;
  merge_field := merge_view_field;
}.
#[global] Instance OutputView_spec : MessageSpec OutputView := {
  records self := r_message 1 (txid self) ++ r_int 2 (vout self) ++ r_int 3 (value_sats self) ++
    r_message 4 (script_pubkey self) ++ r_bool 5 (is_mine self);
  schema := [(1, LengthDelimited); (2, Varint); (3, Varint); (4, LengthDelimited); (5, Varint)];
  well_formed self := from_option well_formed True (txid self) ∧ in_u 32 (vout self) ∧
    in_u 64 (value_sats self) ∧ from_option well_formed True (script_pubkey self);
  levels := 2;
}.
#[global] Instance OutputView_own : ToOwned OutputView ListP2mrOutputsResponse_Output.Output := {
  to_owned_from_source := to_owned_from_source;
}.
#[global] Instance txid_lens : Lens txid with_txid.
Proof. lens. Qed.
#[global] Instance vout_lens : Lens vout with_vout.
Proof. lens. Qed.
#[global] Instance value_sats_lens : Lens value_sats with_value_sats.
Proof. lens. Qed.
#[global] Instance script_pubkey_lens : Lens script_pubkey with_script_pubkey.
Proof. lens. Qed.
#[global] Instance is_mine_lens : Lens is_mine with_is_mine.
Proof. lens. Qed.

Context `{!BuffaLaws, !BuffaTypesLaws, !BuffaViewsLaws, !BuffaTypeViewsLaws}.
#[global] Instance OutputView_laws : MessageLaws OutputView.
Proof. message_laws compute_size write_to merge_view_field. Qed.
Definition borrow (self : ListP2mrOutputsResponse_Output.Output) : OutputView :=
  mkOutputView (view_of <$> ListP2mrOutputsResponse_Output.txid self)
    (ListP2mrOutputsResponse_Output.vout self) (ListP2mrOutputsResponse_Output.value_sats self)
    (view_of <$> ListP2mrOutputsResponse_Output.script_pubkey self) (ListP2mrOutputsResponse_Output.is_mine self).
#[global] Instance OutputView_view : View OutputView ListP2mrOutputsResponse_Output.Output.
Proof. view_laws borrow to_owned_from_source. Defined.
End methods.
End ListP2mrOutputsResponse_OutputView.

(** The view of [cusf.mainchain.v1.ListP2mrOutputsResponse]. *)
Module ListP2mrOutputsResponseView.
Section methods.
Context `{BuffaTypeViews}.

Record ListP2mrOutputsResponseView := mkListP2mrOutputsResponseView {
  outputs : list ListP2mrOutputsResponse_OutputView.OutputView;
}.
Definition with_outputs v (self : ListP2mrOutputsResponseView) : ListP2mrOutputsResponseView :=
  mkListP2mrOutputsResponseView v.

Definition compute_size (self : ListP2mrOutputsResponseView) (__cache : SizeCache) : Z * SizeCache :=
  (size_repeated 1 (outputs self)) (0, __cache).
Definition write_to (self : ListP2mrOutputsResponseView) : write_stmt :=
  write_repeated 1 (outputs self).
Definition merge_view_field : merge_fn ListP2mrOutputsResponseView := λ view tag cur ctx,
  match field_number tag with
  | 1 => view_repeated (outputs view) (λ v, with_outputs v view) tag cur ctx
  | _ => merge_unknown view tag cur ctx
  end.
Definition to_owned_from_source (self : ListP2mrOutputsResponseView) : outcome DecodeError ListP2mrOutputsResponse.ListP2mrOutputsResponse :=
  outputs ← own_repeated (outputs self);
  Ok (ListP2mrOutputsResponse.mkListP2mrOutputsResponse outputs).

Definition ListP2mrOutputsResponseView_name : MessageName ListP2mrOutputsResponseView := {|
  PACKAGE := "cusf.mainchain.v1";
  NAME := "ListP2mrOutputsResponse";
  FULL_NAME := "cusf.mainchain.v1.ListP2mrOutputsResponse";
  TYPE_URL := "type.googleapis.com/cusf.mainchain.v1.ListP2mrOutputsResponse";
|}.
#[global] Existing Instance ListP2mrOutputsResponseView_name.
#[global] Instance ListP2mrOutputsResponseView_message : Message ListP2mrOutputsResponseView := {
  default_message := mkListP2mrOutputsResponseView []; compute_size := compute_size; write_to := write_to;
  merge_field := merge_view_field;
}.
#[global] Instance ListP2mrOutputsResponseView_spec : MessageSpec ListP2mrOutputsResponseView := {
  records self := r_repeated 1 (outputs self);
  schema := [(1, LengthDelimited)];
  well_formed self := Forall well_formed (outputs self);
  levels := 3;
}.
#[global] Instance ListP2mrOutputsResponseView_own : ToOwned ListP2mrOutputsResponseView ListP2mrOutputsResponse.ListP2mrOutputsResponse := {
  to_owned_from_source := to_owned_from_source;
}.
#[global] Instance outputs_lens : Lens outputs with_outputs.
Proof. lens. Qed.

Context `{!BuffaLaws, !BuffaTypesLaws, !BuffaViewsLaws, !BuffaTypeViewsLaws}.
#[global] Instance ListP2mrOutputsResponseView_laws : MessageLaws ListP2mrOutputsResponseView.
Proof. message_laws compute_size write_to merge_view_field. Qed.
Definition borrow (self : ListP2mrOutputsResponse.ListP2mrOutputsResponse) : ListP2mrOutputsResponseView :=
  mkListP2mrOutputsResponseView (view_of <$> ListP2mrOutputsResponse.outputs self).
#[global] Instance ListP2mrOutputsResponseView_view : View ListP2mrOutputsResponseView ListP2mrOutputsResponse.ListP2mrOutputsResponse.
Proof. view_laws borrow to_owned_from_source. Defined.
End methods.
End ListP2mrOutputsResponseView.

(** The view of [cusf.mainchain.v1.SpendP2mrRequest]. *)
Module SpendP2mrRequestView.
Section methods.
Context `{BuffaTypeViews}.

Record SpendP2mrRequestView := mkSpendP2mrRequestView {
  txid : option ReverseHexView.ReverseHexView;
  vout : Z; (* u32 *)
  destination : string;
  amount_sats : Z; (* u64 *)
  fee_sats : option UInt64ValueView;
}.
Definition with_txid v (self : SpendP2mrRequestView) : SpendP2mrRequestView :=
  mkSpendP2mrRequestView v (vout self) (destination self) (amount_sats self) (fee_sats self).
Definition with_vout v (self : SpendP2mrRequestView) : SpendP2mrRequestView :=
  mkSpendP2mrRequestView (txid self) v (destination self) (amount_sats self) (fee_sats self).
Definition with_destination v (self : SpendP2mrRequestView) : SpendP2mrRequestView :=
  mkSpendP2mrRequestView (txid self) (vout self) v (amount_sats self) (fee_sats self).
Definition with_amount_sats v (self : SpendP2mrRequestView) : SpendP2mrRequestView :=
  mkSpendP2mrRequestView (txid self) (vout self) (destination self) v (fee_sats self).
Definition with_fee_sats v (self : SpendP2mrRequestView) : SpendP2mrRequestView :=
  mkSpendP2mrRequestView (txid self) (vout self) (destination self) (amount_sats self) v.

Definition compute_size (self : SpendP2mrRequestView) (__cache : SizeCache) : Z * SizeCache :=
  (size_message 1 (txid self) ▷
   size_uint32 1 (vout self) ▷
   size_string 1 (destination self) ▷
   size_uint64 1 (amount_sats self) ▷
   size_message 1 (fee_sats self)) (0, __cache).
Definition write_to (self : SpendP2mrRequestView) : write_stmt :=
  write_message 1 (txid self) ▷
  write_uint32 2 (vout self) ▷
  write_string 3 (destination self) ▷
  write_uint64 4 (amount_sats self) ▷
  write_message 5 (fee_sats self).
Definition merge_view_field : merge_fn SpendP2mrRequestView := λ view tag cur ctx,
  match field_number tag with
  | 1 => view_message (txid view) (λ v, with_txid v view) tag cur ctx
  | 2 => merge_scalar Varint decode_uint32 (λ v, with_vout v view) tag cur
  | 3 => merge_scalar LengthDelimited borrow_str (λ v, with_destination v view) tag cur
  | 4 => merge_scalar Varint decode_uint64 (λ v, with_amount_sats v view) tag cur
  | 5 => view_message (fee_sats view) (λ v, with_fee_sats v view) tag cur ctx
  | _ => merge_unknown view tag cur ctx
  end.
Definition to_owned_from_source (self : SpendP2mrRequestView) : outcome DecodeError SpendP2mrRequest.SpendP2mrRequest :=
  txid ← own_message (txid self);
  fee_sats ← own_message (fee_sats self);
  Ok (SpendP2mrRequest.mkSpendP2mrRequest txid (vout self) (destination self) (amount_sats self) fee_sats).

Definition SpendP2mrRequestView_name : MessageName SpendP2mrRequestView := {|
  PACKAGE := "cusf.mainchain.v1";
  NAME := "SpendP2mrRequest";
  FULL_NAME := "cusf.mainchain.v1.SpendP2mrRequest";
  TYPE_URL := "type.googleapis.com/cusf.mainchain.v1.SpendP2mrRequest";
|}.
#[global] Existing Instance SpendP2mrRequestView_name.
#[global] Instance SpendP2mrRequestView_message : Message SpendP2mrRequestView := {
  default_message := mkSpendP2mrRequestView None 0 EmptyString 0 None; compute_size := compute_size; write_to := write_to;
  merge_field := merge_view_field;
}.
#[global] Instance SpendP2mrRequestView_spec : MessageSpec SpendP2mrRequestView := {
  records self := r_message 1 (txid self) ++ r_int 2 (vout self) ++ r_string 3 (destination self) ++
    r_int 4 (amount_sats self) ++ r_message 5 (fee_sats self);
  schema := [(1, LengthDelimited); (2, Varint); (3, LengthDelimited); (4, Varint); (5, LengthDelimited)];
  well_formed self := from_option well_formed True (txid self) ∧ in_u 32 (vout self) ∧
    string_ok (destination self) ∧ in_u 64 (amount_sats self) ∧ from_option well_formed True (fee_sats self);
  levels := 2;
}.
#[global] Instance SpendP2mrRequestView_own : ToOwned SpendP2mrRequestView SpendP2mrRequest.SpendP2mrRequest := {
  to_owned_from_source := to_owned_from_source;
}.
#[global] Instance txid_lens : Lens txid with_txid.
Proof. lens. Qed.
#[global] Instance vout_lens : Lens vout with_vout.
Proof. lens. Qed.
#[global] Instance destination_lens : Lens destination with_destination.
Proof. lens. Qed.
#[global] Instance amount_sats_lens : Lens amount_sats with_amount_sats.
Proof. lens. Qed.
#[global] Instance fee_sats_lens : Lens fee_sats with_fee_sats.
Proof. lens. Qed.

Context `{!BuffaLaws, !BuffaTypesLaws, !BuffaViewsLaws, !BuffaTypeViewsLaws}.
#[global] Instance SpendP2mrRequestView_laws : MessageLaws SpendP2mrRequestView.
Proof. message_laws compute_size write_to merge_view_field. Qed.
Definition borrow (self : SpendP2mrRequest.SpendP2mrRequest) : SpendP2mrRequestView :=
  mkSpendP2mrRequestView (view_of <$> SpendP2mrRequest.txid self) (SpendP2mrRequest.vout self)
    (SpendP2mrRequest.destination self) (SpendP2mrRequest.amount_sats self)
    (view_of <$> SpendP2mrRequest.fee_sats self).
#[global] Instance SpendP2mrRequestView_view : View SpendP2mrRequestView SpendP2mrRequest.SpendP2mrRequest.
Proof. view_laws borrow to_owned_from_source. Defined.
End methods.
End SpendP2mrRequestView.

(** The view of [cusf.mainchain.v1.SpendP2mrResponse]. *)
Module SpendP2mrResponseView.
Section methods.
Context `{BuffaTypeViews}.

Record SpendP2mrResponseView := mkSpendP2mrResponseView {
  txid : option ReverseHexView.ReverseHexView;
  change_address : string;
  change_sats : Z; (* u64 *)
}.
Definition with_txid v (self : SpendP2mrResponseView) : SpendP2mrResponseView :=
  mkSpendP2mrResponseView v (change_address self) (change_sats self).
Definition with_change_address v (self : SpendP2mrResponseView) : SpendP2mrResponseView :=
  mkSpendP2mrResponseView (txid self) v (change_sats self).
Definition with_change_sats v (self : SpendP2mrResponseView) : SpendP2mrResponseView :=
  mkSpendP2mrResponseView (txid self) (change_address self) v.

Definition compute_size (self : SpendP2mrResponseView) (__cache : SizeCache) : Z * SizeCache :=
  (size_message 1 (txid self) ▷
   size_string 1 (change_address self) ▷
   size_uint64 1 (change_sats self)) (0, __cache).
Definition write_to (self : SpendP2mrResponseView) : write_stmt :=
  write_message 1 (txid self) ▷
  write_string 2 (change_address self) ▷
  write_uint64 3 (change_sats self).
Definition merge_view_field : merge_fn SpendP2mrResponseView := λ view tag cur ctx,
  match field_number tag with
  | 1 => view_message (txid view) (λ v, with_txid v view) tag cur ctx
  | 2 => merge_scalar LengthDelimited borrow_str (λ v, with_change_address v view) tag cur
  | 3 => merge_scalar Varint decode_uint64 (λ v, with_change_sats v view) tag cur
  | _ => merge_unknown view tag cur ctx
  end.
Definition to_owned_from_source (self : SpendP2mrResponseView) : outcome DecodeError SpendP2mrResponse.SpendP2mrResponse :=
  txid ← own_message (txid self);
  Ok (SpendP2mrResponse.mkSpendP2mrResponse txid (change_address self) (change_sats self)).

Definition SpendP2mrResponseView_name : MessageName SpendP2mrResponseView := {|
  PACKAGE := "cusf.mainchain.v1";
  NAME := "SpendP2mrResponse";
  FULL_NAME := "cusf.mainchain.v1.SpendP2mrResponse";
  TYPE_URL := "type.googleapis.com/cusf.mainchain.v1.SpendP2mrResponse";
|}.
#[global] Existing Instance SpendP2mrResponseView_name.
#[global] Instance SpendP2mrResponseView_message : Message SpendP2mrResponseView := {
  default_message := mkSpendP2mrResponseView None EmptyString 0; compute_size := compute_size; write_to := write_to;
  merge_field := merge_view_field;
}.
#[global] Instance SpendP2mrResponseView_spec : MessageSpec SpendP2mrResponseView := {
  records self := r_message 1 (txid self) ++ r_string 2 (change_address self) ++ r_int 3 (change_sats self);
  schema := [(1, LengthDelimited); (2, LengthDelimited); (3, Varint)];
  well_formed self := from_option well_formed True (txid self) ∧ string_ok (change_address self) ∧
    in_u 64 (change_sats self);
  levels := 2;
}.
#[global] Instance SpendP2mrResponseView_own : ToOwned SpendP2mrResponseView SpendP2mrResponse.SpendP2mrResponse := {
  to_owned_from_source := to_owned_from_source;
}.
#[global] Instance txid_lens : Lens txid with_txid.
Proof. lens. Qed.
#[global] Instance change_address_lens : Lens change_address with_change_address.
Proof. lens. Qed.
#[global] Instance change_sats_lens : Lens change_sats with_change_sats.
Proof. lens. Qed.

Context `{!BuffaLaws, !BuffaTypesLaws, !BuffaViewsLaws, !BuffaTypeViewsLaws}.
#[global] Instance SpendP2mrResponseView_laws : MessageLaws SpendP2mrResponseView.
Proof. message_laws compute_size write_to merge_view_field. Qed.
Definition borrow (self : SpendP2mrResponse.SpendP2mrResponse) : SpendP2mrResponseView :=
  mkSpendP2mrResponseView (view_of <$> SpendP2mrResponse.txid self) (SpendP2mrResponse.change_address self)
    (SpendP2mrResponse.change_sats self).
#[global] Instance SpendP2mrResponseView_view : View SpendP2mrResponseView SpendP2mrResponse.SpendP2mrResponse.
Proof. view_laws borrow to_owned_from_source. Defined.
End methods.
End SpendP2mrResponseView.

(** The view of [cusf.mainchain.v1.CreateNewAddressRequest]. *)
Module CreateNewAddressRequestView.
Section methods.
Context `{BuffaTypeViews}.

Record CreateNewAddressRequestView := mkCreateNewAddressRequestView {}.

Definition compute_size (self : CreateNewAddressRequestView) (__cache : SizeCache) : Z * SizeCache :=
  (0, __cache).
Definition write_to (self : CreateNewAddressRequestView) : write_stmt :=
  id.
Definition merge_view_field : merge_fn CreateNewAddressRequestView := λ view tag cur ctx,
  match field_number tag with
  | _ => merge_unknown view tag cur ctx
  end.
Definition to_owned_from_source (self : CreateNewAddressRequestView) : outcome DecodeError CreateNewAddressRequest.CreateNewAddressRequest :=
  Ok CreateNewAddressRequest.mkCreateNewAddressRequest.

Definition CreateNewAddressRequestView_name : MessageName CreateNewAddressRequestView := {|
  PACKAGE := "cusf.mainchain.v1";
  NAME := "CreateNewAddressRequest";
  FULL_NAME := "cusf.mainchain.v1.CreateNewAddressRequest";
  TYPE_URL := "type.googleapis.com/cusf.mainchain.v1.CreateNewAddressRequest";
|}.
#[global] Existing Instance CreateNewAddressRequestView_name.
#[global] Instance CreateNewAddressRequestView_message : Message CreateNewAddressRequestView := {
  default_message := mkCreateNewAddressRequestView; compute_size := compute_size; write_to := write_to;
  merge_field := merge_view_field;
}.
#[global] Instance CreateNewAddressRequestView_spec : MessageSpec CreateNewAddressRequestView := {
  records self := [];
  schema := [];
  well_formed self := True;
  levels := 0;
}.
#[global] Instance CreateNewAddressRequestView_own : ToOwned CreateNewAddressRequestView CreateNewAddressRequest.CreateNewAddressRequest := {
  to_owned_from_source := to_owned_from_source;
}.

Context `{!BuffaLaws, !BuffaTypesLaws, !BuffaViewsLaws, !BuffaTypeViewsLaws}.
#[global] Instance CreateNewAddressRequestView_laws : MessageLaws CreateNewAddressRequestView.
Proof. message_laws compute_size write_to merge_view_field. Qed.
Definition borrow (self : CreateNewAddressRequest.CreateNewAddressRequest) : CreateNewAddressRequestView :=
  mkCreateNewAddressRequestView.
#[global] Instance CreateNewAddressRequestView_view : View CreateNewAddressRequestView CreateNewAddressRequest.CreateNewAddressRequest.
Proof. view_laws borrow to_owned_from_source. Defined.
End methods.
End CreateNewAddressRequestView.

(** The view of [cusf.mainchain.v1.CreateNewAddressResponse]. *)
Module CreateNewAddressResponseView.
Section methods.
Context `{BuffaTypeViews}.

Record CreateNewAddressResponseView := mkCreateNewAddressResponseView {
  address : string;
}.
Definition with_address v (self : CreateNewAddressResponseView) : CreateNewAddressResponseView :=
  mkCreateNewAddressResponseView v.

Definition compute_size (self : CreateNewAddressResponseView) (__cache : SizeCache) : Z * SizeCache :=
  (size_string 1 (address self)) (0, __cache).
Definition write_to (self : CreateNewAddressResponseView) : write_stmt :=
  write_string 1 (address self).
Definition merge_view_field : merge_fn CreateNewAddressResponseView := λ view tag cur ctx,
  match field_number tag with
  | 1 => merge_scalar LengthDelimited borrow_str (λ v, with_address v view) tag cur
  | _ => merge_unknown view tag cur ctx
  end.
Definition to_owned_from_source (self : CreateNewAddressResponseView) : outcome DecodeError CreateNewAddressResponse.CreateNewAddressResponse :=
  Ok (CreateNewAddressResponse.mkCreateNewAddressResponse (address self)).

Definition CreateNewAddressResponseView_name : MessageName CreateNewAddressResponseView := {|
  PACKAGE := "cusf.mainchain.v1";
  NAME := "CreateNewAddressResponse";
  FULL_NAME := "cusf.mainchain.v1.CreateNewAddressResponse";
  TYPE_URL := "type.googleapis.com/cusf.mainchain.v1.CreateNewAddressResponse";
|}.
#[global] Existing Instance CreateNewAddressResponseView_name.
#[global] Instance CreateNewAddressResponseView_message : Message CreateNewAddressResponseView := {
  default_message := mkCreateNewAddressResponseView EmptyString; compute_size := compute_size; write_to := write_to;
  merge_field := merge_view_field;
}.
#[global] Instance CreateNewAddressResponseView_spec : MessageSpec CreateNewAddressResponseView := {
  records self := r_string 1 (address self);
  schema := [(1, LengthDelimited)];
  well_formed self := string_ok (address self);
  levels := 0;
}.
#[global] Instance CreateNewAddressResponseView_own : ToOwned CreateNewAddressResponseView CreateNewAddressResponse.CreateNewAddressResponse := {
  to_owned_from_source := to_owned_from_source;
}.
#[global] Instance address_lens : Lens address with_address.
Proof. lens. Qed.

Context `{!BuffaLaws, !BuffaTypesLaws, !BuffaViewsLaws, !BuffaTypeViewsLaws}.
#[global] Instance CreateNewAddressResponseView_laws : MessageLaws CreateNewAddressResponseView.
Proof. message_laws compute_size write_to merge_view_field. Qed.
Definition borrow (self : CreateNewAddressResponse.CreateNewAddressResponse) : CreateNewAddressResponseView :=
  mkCreateNewAddressResponseView (CreateNewAddressResponse.address self).
#[global] Instance CreateNewAddressResponseView_view : View CreateNewAddressResponseView CreateNewAddressResponse.CreateNewAddressResponse.
Proof. view_laws borrow to_owned_from_source. Defined.
End methods.
End CreateNewAddressResponseView.

(** The view of [cusf.mainchain.v1.CreateWalletRequest]. *)
Module CreateWalletRequestView.
Section methods.
Context `{BuffaTypeViews}.

Record CreateWalletRequestView := mkCreateWalletRequestView {
  mnemonic_words : list string;
  mnemonic_path : string;
  password : string;
}.
Definition with_mnemonic_words v (self : CreateWalletRequestView) : CreateWalletRequestView :=
  mkCreateWalletRequestView v (mnemonic_path self) (password self).
Definition with_mnemonic_path v (self : CreateWalletRequestView) : CreateWalletRequestView :=
  mkCreateWalletRequestView (mnemonic_words self) v (password self).
Definition with_password v (self : CreateWalletRequestView) : CreateWalletRequestView :=
  mkCreateWalletRequestView (mnemonic_words self) (mnemonic_path self) v.

Definition compute_size (self : CreateWalletRequestView) (__cache : SizeCache) : Z * SizeCache :=
  (size_strings 1 (mnemonic_words self) ▷
   size_string 1 (mnemonic_path self) ▷
   size_string 1 (password self)) (0, __cache).
Definition write_to (self : CreateWalletRequestView) : write_stmt :=
  write_strings 1 (mnemonic_words self) ▷
  write_string 2 (mnemonic_path self) ▷
  write_string 3 (password self).
Definition merge_view_field : merge_fn CreateWalletRequestView := λ view tag cur ctx,
  match field_number tag with
  | 2 => merge_scalar LengthDelimited borrow_str (λ v, with_mnemonic_path v view) tag cur
  | 3 => merge_scalar LengthDelimited borrow_str (λ v, with_password v view) tag cur
  | 1 => merge_scalar LengthDelimited borrow_str (λ v, with_mnemonic_words (mnemonic_words view ++ [v]) view) tag cur
  | _ => merge_unknown view tag cur ctx
  end.
Definition to_owned_from_source (self : CreateWalletRequestView) : outcome DecodeError CreateWalletRequest.CreateWalletRequest :=
  Ok (CreateWalletRequest.mkCreateWalletRequest (mnemonic_words self) (mnemonic_path self) (password self)).

Definition CreateWalletRequestView_name : MessageName CreateWalletRequestView := {|
  PACKAGE := "cusf.mainchain.v1";
  NAME := "CreateWalletRequest";
  FULL_NAME := "cusf.mainchain.v1.CreateWalletRequest";
  TYPE_URL := "type.googleapis.com/cusf.mainchain.v1.CreateWalletRequest";
|}.
#[global] Existing Instance CreateWalletRequestView_name.
#[global] Instance CreateWalletRequestView_message : Message CreateWalletRequestView := {
  default_message := mkCreateWalletRequestView [] EmptyString EmptyString; compute_size := compute_size; write_to := write_to;
  merge_field := merge_view_field;
}.
#[global] Instance CreateWalletRequestView_spec : MessageSpec CreateWalletRequestView := {
  records self := r_strings 1 (mnemonic_words self) ++ r_string 2 (mnemonic_path self) ++ r_string 3 (password self);
  schema := [(1, LengthDelimited); (2, LengthDelimited); (3, LengthDelimited)];
  well_formed self := Forall string_ok (mnemonic_words self) ∧ string_ok (mnemonic_path self) ∧
    string_ok (password self);
  levels := 0;
}.
#[global] Instance CreateWalletRequestView_own : ToOwned CreateWalletRequestView CreateWalletRequest.CreateWalletRequest := {
  to_owned_from_source := to_owned_from_source;
}.
#[global] Instance mnemonic_words_lens : Lens mnemonic_words with_mnemonic_words.
Proof. lens. Qed.
#[global] Instance mnemonic_path_lens : Lens mnemonic_path with_mnemonic_path.
Proof. lens. Qed.
#[global] Instance password_lens : Lens password with_password.
Proof. lens. Qed.

Context `{!BuffaLaws, !BuffaTypesLaws, !BuffaViewsLaws, !BuffaTypeViewsLaws}.
#[global] Instance CreateWalletRequestView_laws : MessageLaws CreateWalletRequestView.
Proof. message_laws compute_size write_to merge_view_field. Qed.
Definition borrow (self : CreateWalletRequest.CreateWalletRequest) : CreateWalletRequestView :=
  mkCreateWalletRequestView (CreateWalletRequest.mnemonic_words self)
    (CreateWalletRequest.mnemonic_path self) (CreateWalletRequest.password self).
#[global] Instance CreateWalletRequestView_view : View CreateWalletRequestView CreateWalletRequest.CreateWalletRequest.
Proof. view_laws borrow to_owned_from_source. Defined.
End methods.
End CreateWalletRequestView.

(** The view of [cusf.mainchain.v1.CreateWalletResponse]. *)
Module CreateWalletResponseView.
Section methods.
Context `{BuffaTypeViews}.

Record CreateWalletResponseView := mkCreateWalletResponseView {}.

Definition compute_size (self : CreateWalletResponseView) (__cache : SizeCache) : Z * SizeCache :=
  (0, __cache).
Definition write_to (self : CreateWalletResponseView) : write_stmt :=
  id.
Definition merge_view_field : merge_fn CreateWalletResponseView := λ view tag cur ctx,
  match field_number tag with
  | _ => merge_unknown view tag cur ctx
  end.
Definition to_owned_from_source (self : CreateWalletResponseView) : outcome DecodeError CreateWalletResponse.CreateWalletResponse :=
  Ok CreateWalletResponse.mkCreateWalletResponse.

Definition CreateWalletResponseView_name : MessageName CreateWalletResponseView := {|
  PACKAGE := "cusf.mainchain.v1";
  NAME := "CreateWalletResponse";
  FULL_NAME := "cusf.mainchain.v1.CreateWalletResponse";
  TYPE_URL := "type.googleapis.com/cusf.mainchain.v1.CreateWalletResponse";
|}.
#[global] Existing Instance CreateWalletResponseView_name.
#[global] Instance CreateWalletResponseView_message : Message CreateWalletResponseView := {
  default_message := mkCreateWalletResponseView; compute_size := compute_size; write_to := write_to;
  merge_field := merge_view_field;
}.
#[global] Instance CreateWalletResponseView_spec : MessageSpec CreateWalletResponseView := {
  records self := [];
  schema := [];
  well_formed self := True;
  levels := 0;
}.
#[global] Instance CreateWalletResponseView_own : ToOwned CreateWalletResponseView CreateWalletResponse.CreateWalletResponse := {
  to_owned_from_source := to_owned_from_source;
}.

Context `{!BuffaLaws, !BuffaTypesLaws, !BuffaViewsLaws, !BuffaTypeViewsLaws}.
#[global] Instance CreateWalletResponseView_laws : MessageLaws CreateWalletResponseView.
Proof. message_laws compute_size write_to merge_view_field. Qed.
Definition borrow (self : CreateWalletResponse.CreateWalletResponse) : CreateWalletResponseView :=
  mkCreateWalletResponseView.
#[global] Instance CreateWalletResponseView_view : View CreateWalletResponseView CreateWalletResponse.CreateWalletResponse.
Proof. view_laws borrow to_owned_from_source. Defined.
End methods.
End CreateWalletResponseView.

(** The view of [cusf.mainchain.v1.GetBalanceRequest]. *)
Module GetBalanceRequestView.
Section methods.
Context `{BuffaTypeViews}.

Record GetBalanceRequestView := mkGetBalanceRequestView {}.

Definition compute_size (self : GetBalanceRequestView) (__cache : SizeCache) : Z * SizeCache :=
  (0, __cache).
Definition write_to (self : GetBalanceRequestView) : write_stmt :=
  id.
Definition merge_view_field : merge_fn GetBalanceRequestView := λ view tag cur ctx,
  match field_number tag with
  | _ => merge_unknown view tag cur ctx
  end.
Definition to_owned_from_source (self : GetBalanceRequestView) : outcome DecodeError GetBalanceRequest.GetBalanceRequest :=
  Ok GetBalanceRequest.mkGetBalanceRequest.

Definition GetBalanceRequestView_name : MessageName GetBalanceRequestView := {|
  PACKAGE := "cusf.mainchain.v1";
  NAME := "GetBalanceRequest";
  FULL_NAME := "cusf.mainchain.v1.GetBalanceRequest";
  TYPE_URL := "type.googleapis.com/cusf.mainchain.v1.GetBalanceRequest";
|}.
#[global] Existing Instance GetBalanceRequestView_name.
#[global] Instance GetBalanceRequestView_message : Message GetBalanceRequestView := {
  default_message := mkGetBalanceRequestView; compute_size := compute_size; write_to := write_to;
  merge_field := merge_view_field;
}.
#[global] Instance GetBalanceRequestView_spec : MessageSpec GetBalanceRequestView := {
  records self := [];
  schema := [];
  well_formed self := True;
  levels := 0;
}.
#[global] Instance GetBalanceRequestView_own : ToOwned GetBalanceRequestView GetBalanceRequest.GetBalanceRequest := {
  to_owned_from_source := to_owned_from_source;
}.

Context `{!BuffaLaws, !BuffaTypesLaws, !BuffaViewsLaws, !BuffaTypeViewsLaws}.
#[global] Instance GetBalanceRequestView_laws : MessageLaws GetBalanceRequestView.
Proof. message_laws compute_size write_to merge_view_field. Qed.
Definition borrow (self : GetBalanceRequest.GetBalanceRequest) : GetBalanceRequestView :=
  mkGetBalanceRequestView.
#[global] Instance GetBalanceRequestView_view : View GetBalanceRequestView GetBalanceRequest.GetBalanceRequest.
Proof. view_laws borrow to_owned_from_source. Defined.
End methods.
End GetBalanceRequestView.

(** The view of [cusf.mainchain.v1.GetBalanceResponse]. *)
Module GetBalanceResponseView.
Section methods.
Context `{BuffaTypeViews}.

Record GetBalanceResponseView := mkGetBalanceResponseView {
  confirmed_sats : Z; (* u64 *)
  pending_sats : Z; (* u64 *)
  has_synced : bool;
}.
Definition with_confirmed_sats v (self : GetBalanceResponseView) : GetBalanceResponseView :=
  mkGetBalanceResponseView v (pending_sats self) (has_synced self).
Definition with_pending_sats v (self : GetBalanceResponseView) : GetBalanceResponseView :=
  mkGetBalanceResponseView (confirmed_sats self) v (has_synced self).
Definition with_has_synced v (self : GetBalanceResponseView) : GetBalanceResponseView :=
  mkGetBalanceResponseView (confirmed_sats self) (pending_sats self) v.

Definition compute_size (self : GetBalanceResponseView) (__cache : SizeCache) : Z * SizeCache :=
  (size_uint64 1 (confirmed_sats self) ▷
   size_uint64 1 (pending_sats self) ▷
   size_bool 1 (has_synced self)) (0, __cache).
Definition write_to (self : GetBalanceResponseView) : write_stmt :=
  write_uint64 1 (confirmed_sats self) ▷
  write_uint64 2 (pending_sats self) ▷
  write_bool 3 (has_synced self).
Definition merge_view_field : merge_fn GetBalanceResponseView := λ view tag cur ctx,
  match field_number tag with
  | 1 => merge_scalar Varint decode_uint64 (λ v, with_confirmed_sats v view) tag cur
  | 2 => merge_scalar Varint decode_uint64 (λ v, with_pending_sats v view) tag cur
  | 3 => merge_scalar Varint decode_bool (λ v, with_has_synced v view) tag cur
  | _ => merge_unknown view tag cur ctx
  end.
Definition to_owned_from_source (self : GetBalanceResponseView) : outcome DecodeError GetBalanceResponse.GetBalanceResponse :=
  Ok (GetBalanceResponse.mkGetBalanceResponse (confirmed_sats self) (pending_sats self) (has_synced self)).

Definition GetBalanceResponseView_name : MessageName GetBalanceResponseView := {|
  PACKAGE := "cusf.mainchain.v1";
  NAME := "GetBalanceResponse";
  FULL_NAME := "cusf.mainchain.v1.GetBalanceResponse";
  TYPE_URL := "type.googleapis.com/cusf.mainchain.v1.GetBalanceResponse";
|}.
#[global] Existing Instance GetBalanceResponseView_name.
#[global] Instance GetBalanceResponseView_message : Message GetBalanceResponseView := {
  default_message := mkGetBalanceResponseView 0 0 false; compute_size := compute_size; write_to := write_to;
  merge_field := merge_view_field;
}.
#[global] Instance GetBalanceResponseView_spec : MessageSpec GetBalanceResponseView := {
  records self := r_int 1 (confirmed_sats self) ++ r_int 2 (pending_sats self) ++ r_bool 3 (has_synced self);
  schema := [(1, Varint); (2, Varint); (3, Varint)];
  well_formed self := in_u 64 (confirmed_sats self) ∧ in_u 64 (pending_sats self);
  levels := 0;
}.
#[global] Instance GetBalanceResponseView_own : ToOwned GetBalanceResponseView GetBalanceResponse.GetBalanceResponse := {
  to_owned_from_source := to_owned_from_source;
}.
#[global] Instance confirmed_sats_lens : Lens confirmed_sats with_confirmed_sats.
Proof. lens. Qed.
#[global] Instance pending_sats_lens : Lens pending_sats with_pending_sats.
Proof. lens. Qed.
#[global] Instance has_synced_lens : Lens has_synced with_has_synced.
Proof. lens. Qed.

Context `{!BuffaLaws, !BuffaTypesLaws, !BuffaViewsLaws, !BuffaTypeViewsLaws}.
#[global] Instance GetBalanceResponseView_laws : MessageLaws GetBalanceResponseView.
Proof. message_laws compute_size write_to merge_view_field. Qed.
Definition borrow (self : GetBalanceResponse.GetBalanceResponse) : GetBalanceResponseView :=
  mkGetBalanceResponseView (GetBalanceResponse.confirmed_sats self) (GetBalanceResponse.pending_sats self)
    (GetBalanceResponse.has_synced self).
#[global] Instance GetBalanceResponseView_view : View GetBalanceResponseView GetBalanceResponse.GetBalanceResponse.
Proof. view_laws borrow to_owned_from_source. Defined.
End methods.
End GetBalanceResponseView.

(** The view of [cusf.mainchain.v1.ListTransactionsRequest]. *)
Module ListTransactionsRequestView.
Section methods.
Context `{BuffaTypeViews}.

Record ListTransactionsRequestView := mkListTransactionsRequestView {}.

Definition compute_size (self : ListTransactionsRequestView) (__cache : SizeCache) : Z * SizeCache :=
  (0, __cache).
Definition write_to (self : ListTransactionsRequestView) : write_stmt :=
  id.
Definition merge_view_field : merge_fn ListTransactionsRequestView := λ view tag cur ctx,
  match field_number tag with
  | _ => merge_unknown view tag cur ctx
  end.
Definition to_owned_from_source (self : ListTransactionsRequestView) : outcome DecodeError ListTransactionsRequest.ListTransactionsRequest :=
  Ok ListTransactionsRequest.mkListTransactionsRequest.

Definition ListTransactionsRequestView_name : MessageName ListTransactionsRequestView := {|
  PACKAGE := "cusf.mainchain.v1";
  NAME := "ListTransactionsRequest";
  FULL_NAME := "cusf.mainchain.v1.ListTransactionsRequest";
  TYPE_URL := "type.googleapis.com/cusf.mainchain.v1.ListTransactionsRequest";
|}.
#[global] Existing Instance ListTransactionsRequestView_name.
#[global] Instance ListTransactionsRequestView_message : Message ListTransactionsRequestView := {
  default_message := mkListTransactionsRequestView; compute_size := compute_size; write_to := write_to;
  merge_field := merge_view_field;
}.
#[global] Instance ListTransactionsRequestView_spec : MessageSpec ListTransactionsRequestView := {
  records self := [];
  schema := [];
  well_formed self := True;
  levels := 0;
}.
#[global] Instance ListTransactionsRequestView_own : ToOwned ListTransactionsRequestView ListTransactionsRequest.ListTransactionsRequest := {
  to_owned_from_source := to_owned_from_source;
}.

Context `{!BuffaLaws, !BuffaTypesLaws, !BuffaViewsLaws, !BuffaTypeViewsLaws}.
#[global] Instance ListTransactionsRequestView_laws : MessageLaws ListTransactionsRequestView.
Proof. message_laws compute_size write_to merge_view_field. Qed.
Definition borrow (self : ListTransactionsRequest.ListTransactionsRequest) : ListTransactionsRequestView :=
  mkListTransactionsRequestView.
#[global] Instance ListTransactionsRequestView_view : View ListTransactionsRequestView ListTransactionsRequest.ListTransactionsRequest.
Proof. view_laws borrow to_owned_from_source. Defined.
End methods.
End ListTransactionsRequestView.

(** The view of [cusf.mainchain.v1.ListTransactionsResponse]. *)
Module ListTransactionsResponseView.
Section methods.
Context `{BuffaTypeViews}.

Record ListTransactionsResponseView := mkListTransactionsResponseView {
  transactions : list WalletTransactionView.WalletTransactionView;
}.
Definition with_transactions v (self : ListTransactionsResponseView) : ListTransactionsResponseView :=
  mkListTransactionsResponseView v.

Definition compute_size (self : ListTransactionsResponseView) (__cache : SizeCache) : Z * SizeCache :=
  (size_repeated 1 (transactions self)) (0, __cache).
Definition write_to (self : ListTransactionsResponseView) : write_stmt :=
  write_repeated 1 (transactions self).
Definition merge_view_field : merge_fn ListTransactionsResponseView := λ view tag cur ctx,
  match field_number tag with
  | 1 => view_repeated (transactions view) (λ v, with_transactions v view) tag cur ctx
  | _ => merge_unknown view tag cur ctx
  end.
Definition to_owned_from_source (self : ListTransactionsResponseView) : outcome DecodeError ListTransactionsResponse.ListTransactionsResponse :=
  transactions ← own_repeated (transactions self);
  Ok (ListTransactionsResponse.mkListTransactionsResponse transactions).

Definition ListTransactionsResponseView_name : MessageName ListTransactionsResponseView := {|
  PACKAGE := "cusf.mainchain.v1";
  NAME := "ListTransactionsResponse";
  FULL_NAME := "cusf.mainchain.v1.ListTransactionsResponse";
  TYPE_URL := "type.googleapis.com/cusf.mainchain.v1.ListTransactionsResponse";
|}.
#[global] Existing Instance ListTransactionsResponseView_name.
#[global] Instance ListTransactionsResponseView_message : Message ListTransactionsResponseView := {
  default_message := mkListTransactionsResponseView []; compute_size := compute_size; write_to := write_to;
  merge_field := merge_view_field;
}.
#[global] Instance ListTransactionsResponseView_spec : MessageSpec ListTransactionsResponseView := {
  records self := r_repeated 1 (transactions self);
  schema := [(1, LengthDelimited)];
  well_formed self := Forall well_formed (transactions self);
  levels := 4;
}.
#[global] Instance ListTransactionsResponseView_own : ToOwned ListTransactionsResponseView ListTransactionsResponse.ListTransactionsResponse := {
  to_owned_from_source := to_owned_from_source;
}.
#[global] Instance transactions_lens : Lens transactions with_transactions.
Proof. lens. Qed.

Context `{!BuffaLaws, !BuffaTypesLaws, !BuffaViewsLaws, !BuffaTypeViewsLaws}.
#[global] Instance ListTransactionsResponseView_laws : MessageLaws ListTransactionsResponseView.
Proof. message_laws compute_size write_to merge_view_field. Qed.
Definition borrow (self : ListTransactionsResponse.ListTransactionsResponse) : ListTransactionsResponseView :=
  mkListTransactionsResponseView (view_of <$> ListTransactionsResponse.transactions self).
#[global] Instance ListTransactionsResponseView_view : View ListTransactionsResponseView ListTransactionsResponse.ListTransactionsResponse.
Proof. view_laws borrow to_owned_from_source. Defined.
End methods.
End ListTransactionsResponseView.

(** The view of [cusf.mainchain.v1.SendTransactionRequest.FeeRate]. *)
Module SendTransactionRequest_FeeRateView.
Section methods.
Context `{BuffaTypeViews}.

Inductive Fee := SatPerVbyte (v : Z) (* u64 *) | Sats (v : Z). (* u64 *)
Record FeeRateView := mkFeeRateView { fee : option Fee }.

Definition compute_size (self : FeeRateView) (__cache : SizeCache) : Z * SizeCache :=
  (match fee self with
   | Some (SatPerVbyte v) => add_size (1 + wrap_u 32 (uint64_encoded_len v))
   | Some (Sats v) => add_size (1 + wrap_u 32 (uint64_encoded_len v))
   | None => id
   end) (0, __cache).
Definition write_to (self : FeeRateView) : write_stmt :=
  match fee self with
  | Some (SatPerVbyte x) => append (put_uint64_field 1 x)
  | Some (Sats x) => append (put_uint64_field 2 x)
  | None => id
  end.
Definition merge_view_field : merge_fn FeeRateView := λ view tag cur ctx,
  match field_number tag with
  | 1 => merge_scalar Varint decode_uint64 (λ v, mkFeeRateView (Some (SatPerVbyte v))) tag cur
  | 2 => merge_scalar Varint decode_uint64 (λ v, mkFeeRateView (Some (Sats v))) tag cur
  | _ => merge_unknown view tag cur ctx
  end.
Definition to_owned_from_source (self : FeeRateView) : outcome DecodeError SendTransactionRequest_FeeRate.FeeRate :=
  Ok (SendTransactionRequest_FeeRate.mkFeeRate
        match fee self with
        | Some (SatPerVbyte v) => Some (SendTransactionRequest_FeeRate.SatPerVbyte v)
        | Some (Sats v) => Some (SendTransactionRequest_FeeRate.Sats v)
        | None => None
        end).

Definition FeeRateView_name : MessageName FeeRateView := {|
  PACKAGE := "cusf.mainchain.v1";
  NAME := "SendTransactionRequest.FeeRate";
  FULL_NAME := "cusf.mainchain.v1.SendTransactionRequest.FeeRate";
  TYPE_URL := "type.googleapis.com/cusf.mainchain.v1.SendTransactionRequest.FeeRate";
|}.
#[global] Existing Instance FeeRateView_name.
#[global] Instance FeeRateView_message : Message FeeRateView := {
  default_message := mkFeeRateView None; compute_size := compute_size; write_to := write_to;
  merge_field := merge_view_field;
}.
#[global] Instance FeeRateView_spec : MessageSpec FeeRateView := {
  records self :=
    match fee self with
    | Some (SatPerVbyte v) => [(1, VInt v)]
    | Some (Sats v) => [(2, VInt v)]
    | None => []
    end;
  schema := [(1, Varint); (2, Varint)];
  well_formed self := match fee self with Some (SatPerVbyte v) => in_u 64 v | Some (Sats v) => in_u 64 v | None => True end;
  levels := 0;
}.
#[global] Instance FeeRateView_own : ToOwned FeeRateView SendTransactionRequest_FeeRate.FeeRate := {
  to_owned_from_source := to_owned_from_source;
}.

Context `{!BuffaLaws, !BuffaTypesLaws, !BuffaViewsLaws, !BuffaTypeViewsLaws}.
#[global] Instance FeeRateView_laws : MessageLaws FeeRateView.
Proof. oneof_laws compute_size write_to merge_view_field. Qed.
Definition borrow (self : SendTransactionRequest_FeeRate.FeeRate) : FeeRateView :=
  mkFeeRateView match SendTransactionRequest_FeeRate.fee self with
                | Some (SendTransactionRequest_FeeRate.SatPerVbyte v) => Some (SatPerVbyte v)
                | Some (SendTransactionRequest_FeeRate.Sats v) => Some (Sats v)
                | None => None
                end.
#[global] Instance FeeRateView_view : View FeeRateView SendTransactionRequest_FeeRate.FeeRate.
Proof. by refine {| view_of := borrow |}; intros [[[v|v]|]]. Defined.
End methods.
End SendTransactionRequest_FeeRateView.

(** The view of [cusf.mainchain.v1.SendTransactionRequest.RequiredUtxo]. *)
Module SendTransactionRequest_RequiredUtxoView.
Section methods.
Context `{BuffaTypeViews}.

Record RequiredUtxoView := mkRequiredUtxoView {
  txid : option ReverseHexView.ReverseHexView;
  vout : Z; (* u32 *)
}.
Definition with_txid v (self : RequiredUtxoView) : RequiredUtxoView := mkRequiredUtxoView v (vout self).
Definition with_vout v (self : RequiredUtxoView) : RequiredUtxoView := mkRequiredUtxoView (txid self) v.

Definition compute_size (self : RequiredUtxoView) (__cache : SizeCache) : Z * SizeCache :=
  (size_message 1 (txid self) ▷
   size_uint32 1 (vout self)) (0, __cache).
Definition write_to (self : RequiredUtxoView) : write_stmt :=
  write_message 1 (txid self) ▷
  write_uint32 2 (vout self).
Definition merge_view_field : merge_fn RequiredUtxoView := λ view tag cur ctx,
  match field_number tag with
  | 1 => view_message (txid view) (λ v, with_txid v view) tag cur ctx
  | 2 => merge_scalar Varint decode_uint32 (λ v, with_vout v view) tag cur
  | _ => merge_unknown view tag cur ctx
  end.
Definition to_owned_from_source (self : RequiredUtxoView) : outcome DecodeError SendTransactionRequest_RequiredUtxo.RequiredUtxo :=
  txid ← own_message (txid self);
  Ok (SendTransactionRequest_RequiredUtxo.mkRequiredUtxo txid (vout self)).

Definition RequiredUtxoView_name : MessageName RequiredUtxoView := {|
  PACKAGE := "cusf.mainchain.v1";
  NAME := "SendTransactionRequest.RequiredUtxo";
  FULL_NAME := "cusf.mainchain.v1.SendTransactionRequest.RequiredUtxo";
  TYPE_URL := "type.googleapis.com/cusf.mainchain.v1.SendTransactionRequest.RequiredUtxo";
|}.
#[global] Existing Instance RequiredUtxoView_name.
#[global] Instance RequiredUtxoView_message : Message RequiredUtxoView := {
  default_message := mkRequiredUtxoView None 0; compute_size := compute_size; write_to := write_to;
  merge_field := merge_view_field;
}.
#[global] Instance RequiredUtxoView_spec : MessageSpec RequiredUtxoView := {
  records self := r_message 1 (txid self) ++ r_int 2 (vout self);
  schema := [(1, LengthDelimited); (2, Varint)];
  well_formed self := from_option well_formed True (txid self) ∧ in_u 32 (vout self);
  levels := 2;
}.
#[global] Instance RequiredUtxoView_own : ToOwned RequiredUtxoView SendTransactionRequest_RequiredUtxo.RequiredUtxo := {
  to_owned_from_source := to_owned_from_source;
}.
#[global] Instance txid_lens : Lens txid with_txid.
Proof. lens. Qed.
#[global] Instance vout_lens : Lens vout with_vout.
Proof. lens. Qed.

Context `{!BuffaLaws, !BuffaTypesLaws, !BuffaViewsLaws, !BuffaTypeViewsLaws}.
#[global] Instance RequiredUtxoView_laws : MessageLaws RequiredUtxoView.
Proof. message_laws compute_size write_to merge_view_field. Qed.
Definition borrow (self : SendTransactionRequest_RequiredUtxo.RequiredUtxo) : RequiredUtxoView :=
  mkRequiredUtxoView (view_of <$> SendTransactionRequest_RequiredUtxo.txid self)
    (SendTransactionRequest_RequiredUtxo.vout self).
#[global] Instance RequiredUtxoView_view : View RequiredUtxoView SendTransactionRequest_RequiredUtxo.RequiredUtxo.
Proof. view_laws borrow to_owned_from_source. Defined.
End methods.
End SendTransactionRequest_RequiredUtxoView.

(** The view of [cusf.mainchain.v1.SendTransactionRequest]. *)
Module SendTransactionRequestView.
Section methods.
Context `{BuffaTypeViews}.

Record SendTransactionRequestView := mkSendTransactionRequestView {
  destinations : list (string * Z);
  fee_rate : option SendTransactionRequest_FeeRateView.FeeRateView;
  op_return_message : option HexView.HexView;
  required_utxos : list SendTransactionRequest_RequiredUtxoView.RequiredUtxoView;
  drain_wallet_to : option string;
}.
Definition with_destinations v (self : SendTransactionRequestView) : SendTransactionRequestView :=
  mkSendTransactionRequestView v (fee_rate self) (op_return_message self) (required_utxos self) (drain_wallet_to self).
Definition with_fee_rate v (self : SendTransactionRequestView) : SendTransactionRequestView :=
  mkSendTransactionRequestView (destinations self) v (op_return_message self) (required_utxos self) (drain_wallet_to self).
Definition with_op_return_message v (self : SendTransactionRequestView) : SendTransactionRequestView :=
  mkSendTransactionRequestView (destinations self) (fee_rate self) v (required_utxos self) (drain_wallet_to self).
Definition with_required_utxos v (self : SendTransactionRequestView) : SendTransactionRequestView :=
  mkSendTransactionRequestView (destinations self) (fee_rate self) (op_return_message self) v (drain_wallet_to self).
Definition with_drain_wallet_to v (self : SendTransactionRequestView) : SendTransactionRequestView :=
  mkSendTransactionRequestView (destinations self) (fee_rate self) (op_return_message self) (required_utxos self) v.

Definition compute_size (self : SendTransactionRequestView) (__cache : SizeCache) : Z * SizeCache :=
  (size_entries Uint64 1 (destinations self) ▷
   size_message 1 (fee_rate self) ▷
   size_message 1 (op_return_message self) ▷
   size_repeated 1 (required_utxos self) ▷
   size_some_string 1 (drain_wallet_to self)) (0, __cache).
Definition write_to (self : SendTransactionRequestView) : write_stmt :=
  write_entries Uint64 1 (destinations self) ▷
  write_message 2 (fee_rate self) ▷
  write_message 3 (op_return_message self) ▷
  write_repeated 4 (required_utxos self) ▷
  write_some_string 5 (drain_wallet_to self).
Definition merge_view_field : merge_fn SendTransactionRequestView := λ view tag cur ctx,
  match field_number tag with
  | 2 => view_message (fee_rate view) (λ v, with_fee_rate v view) tag cur ctx
  | 3 => view_message (op_return_message view) (λ v, with_op_return_message v view) tag cur ctx
  | 5 => merge_scalar LengthDelimited borrow_str (λ v, with_drain_wallet_to (Some v) view) tag cur
  | 4 => view_repeated (required_utxos view) (λ v, with_required_utxos v view) tag cur ctx
  | 1 => view_map Uint64 (destinations view) (λ v, with_destinations v view) tag cur ctx
  | _ => merge_unknown view tag cur ctx
  end.
Definition to_owned_from_source (self : SendTransactionRequestView) : outcome DecodeError SendTransactionRequest.SendTransactionRequest :=
  fee_rate ← own_message (fee_rate self);
  op_return_message ← own_message (op_return_message self);
  required_utxos ← own_repeated (required_utxos self);
  Ok (SendTransactionRequest.mkSendTransactionRequest (own_map (destinations self)) fee_rate op_return_message required_utxos (drain_wallet_to self)).

Definition SendTransactionRequestView_name : MessageName SendTransactionRequestView := {|
  PACKAGE := "cusf.mainchain.v1";
  NAME := "SendTransactionRequest";
  FULL_NAME := "cusf.mainchain.v1.SendTransactionRequest";
  TYPE_URL := "type.googleapis.com/cusf.mainchain.v1.SendTransactionRequest";
|}.
#[global] Existing Instance SendTransactionRequestView_name.
#[global] Instance SendTransactionRequestView_message : Message SendTransactionRequestView := {
  default_message := mkSendTransactionRequestView [] None None [] None; compute_size := compute_size; write_to := write_to;
  merge_field := merge_view_field;
}.
#[global] Instance SendTransactionRequestView_spec : MessageSpec SendTransactionRequestView := {
  records self := r_entries Uint64 1 (destinations self) ++ r_message 2 (fee_rate self) ++
    r_message 3 (op_return_message self) ++ r_repeated 4 (required_utxos self) ++
    r_some_string 5 (drain_wallet_to self);
  schema := [(1, LengthDelimited); (2, LengthDelimited); (3, LengthDelimited); (4, LengthDelimited);
    (5, LengthDelimited)];
  well_formed self := entries_ok Uint64 (destinations self) ∧ from_option well_formed True (fee_rate self) ∧
    from_option well_formed True (op_return_message self) ∧ Forall well_formed (required_utxos self) ∧
    from_option string_ok True (drain_wallet_to self);
  levels := 3;
}.
#[global] Instance SendTransactionRequestView_own : ToOwned SendTransactionRequestView SendTransactionRequest.SendTransactionRequest := {
  to_owned_from_source := to_owned_from_source;
}.
#[global] Instance destinations_lens : Lens destinations with_destinations.
Proof. lens. Qed.
#[global] Instance fee_rate_lens : Lens fee_rate with_fee_rate.
Proof. lens. Qed.
#[global] Instance op_return_message_lens : Lens op_return_message with_op_return_message.
Proof. lens. Qed.
#[global] Instance required_utxos_lens : Lens required_utxos with_required_utxos.
Proof. lens. Qed.
#[global] Instance drain_wallet_to_lens : Lens drain_wallet_to with_drain_wallet_to.
Proof. lens. Qed.

Context `{!BuffaLaws, !BuffaTypesLaws, !BuffaViewsLaws, !BuffaTypeViewsLaws}.
#[global] Instance SendTransactionRequestView_laws : MessageLaws SendTransactionRequestView.
Proof. message_laws compute_size write_to merge_view_field. Qed.
Definition borrow (self : SendTransactionRequest.SendTransactionRequest) : SendTransactionRequestView :=
  mkSendTransactionRequestView (map_iter (SendTransactionRequest.destinations self))
    (view_of <$> SendTransactionRequest.fee_rate self)
    (view_of <$> SendTransactionRequest.op_return_message self)
    (view_of <$> SendTransactionRequest.required_utxos self) (SendTransactionRequest.drain_wallet_to self).
#[global] Instance SendTransactionRequestView_view : View SendTransactionRequestView SendTransactionRequest.SendTransactionRequest.
Proof. view_laws borrow to_owned_from_source. Defined.
End methods.
End SendTransactionRequestView.

(** The view of [cusf.mainchain.v1.SendTransactionResponse]. *)
Module SendTransactionResponseView.
Section methods.
Context `{BuffaTypeViews}.

Record SendTransactionResponseView := mkSendTransactionResponseView {
  txid : option ReverseHexView.ReverseHexView;
}.
Definition with_txid v (self : SendTransactionResponseView) : SendTransactionResponseView :=
  mkSendTransactionResponseView v.

Definition compute_size (self : SendTransactionResponseView) (__cache : SizeCache) : Z * SizeCache :=
  (size_message 1 (txid self)) (0, __cache).
Definition write_to (self : SendTransactionResponseView) : write_stmt :=
  write_message 1 (txid self).
Definition merge_view_field : merge_fn SendTransactionResponseView := λ view tag cur ctx,
  match field_number tag with
  | 1 => view_message (txid view) (λ v, with_txid v view) tag cur ctx
  | _ => merge_unknown view tag cur ctx
  end.
Definition to_owned_from_source (self : SendTransactionResponseView) : outcome DecodeError SendTransactionResponse.SendTransactionResponse :=
  txid ← own_message (txid self);
  Ok (SendTransactionResponse.mkSendTransactionResponse txid).

Definition SendTransactionResponseView_name : MessageName SendTransactionResponseView := {|
  PACKAGE := "cusf.mainchain.v1";
  NAME := "SendTransactionResponse";
  FULL_NAME := "cusf.mainchain.v1.SendTransactionResponse";
  TYPE_URL := "type.googleapis.com/cusf.mainchain.v1.SendTransactionResponse";
|}.
#[global] Existing Instance SendTransactionResponseView_name.
#[global] Instance SendTransactionResponseView_message : Message SendTransactionResponseView := {
  default_message := mkSendTransactionResponseView None; compute_size := compute_size; write_to := write_to;
  merge_field := merge_view_field;
}.
#[global] Instance SendTransactionResponseView_spec : MessageSpec SendTransactionResponseView := {
  records self := r_message 1 (txid self);
  schema := [(1, LengthDelimited)];
  well_formed self := from_option well_formed True (txid self);
  levels := 2;
}.
#[global] Instance SendTransactionResponseView_own : ToOwned SendTransactionResponseView SendTransactionResponse.SendTransactionResponse := {
  to_owned_from_source := to_owned_from_source;
}.
#[global] Instance txid_lens : Lens txid with_txid.
Proof. lens. Qed.

Context `{!BuffaLaws, !BuffaTypesLaws, !BuffaViewsLaws, !BuffaTypeViewsLaws}.
#[global] Instance SendTransactionResponseView_laws : MessageLaws SendTransactionResponseView.
Proof. message_laws compute_size write_to merge_view_field. Qed.
Definition borrow (self : SendTransactionResponse.SendTransactionResponse) : SendTransactionResponseView :=
  mkSendTransactionResponseView (view_of <$> SendTransactionResponse.txid self).
#[global] Instance SendTransactionResponseView_view : View SendTransactionResponseView SendTransactionResponse.SendTransactionResponse.
Proof. view_laws borrow to_owned_from_source. Defined.
End methods.
End SendTransactionResponseView.

(** The view of [cusf.mainchain.v1.UnlockWalletRequest]. *)
Module UnlockWalletRequestView.
Section methods.
Context `{BuffaTypeViews}.

Record UnlockWalletRequestView := mkUnlockWalletRequestView {
  password : string;
}.
Definition with_password v (self : UnlockWalletRequestView) : UnlockWalletRequestView := mkUnlockWalletRequestView v.

Definition compute_size (self : UnlockWalletRequestView) (__cache : SizeCache) : Z * SizeCache :=
  (size_string 1 (password self)) (0, __cache).
Definition write_to (self : UnlockWalletRequestView) : write_stmt :=
  write_string 1 (password self).
Definition merge_view_field : merge_fn UnlockWalletRequestView := λ view tag cur ctx,
  match field_number tag with
  | 1 => merge_scalar LengthDelimited borrow_str (λ v, with_password v view) tag cur
  | _ => merge_unknown view tag cur ctx
  end.
Definition to_owned_from_source (self : UnlockWalletRequestView) : outcome DecodeError UnlockWalletRequest.UnlockWalletRequest :=
  Ok (UnlockWalletRequest.mkUnlockWalletRequest (password self)).

Definition UnlockWalletRequestView_name : MessageName UnlockWalletRequestView := {|
  PACKAGE := "cusf.mainchain.v1";
  NAME := "UnlockWalletRequest";
  FULL_NAME := "cusf.mainchain.v1.UnlockWalletRequest";
  TYPE_URL := "type.googleapis.com/cusf.mainchain.v1.UnlockWalletRequest";
|}.
#[global] Existing Instance UnlockWalletRequestView_name.
#[global] Instance UnlockWalletRequestView_message : Message UnlockWalletRequestView := {
  default_message := mkUnlockWalletRequestView EmptyString; compute_size := compute_size; write_to := write_to;
  merge_field := merge_view_field;
}.
#[global] Instance UnlockWalletRequestView_spec : MessageSpec UnlockWalletRequestView := {
  records self := r_string 1 (password self);
  schema := [(1, LengthDelimited)];
  well_formed self := string_ok (password self);
  levels := 0;
}.
#[global] Instance UnlockWalletRequestView_own : ToOwned UnlockWalletRequestView UnlockWalletRequest.UnlockWalletRequest := {
  to_owned_from_source := to_owned_from_source;
}.
#[global] Instance password_lens : Lens password with_password.
Proof. lens. Qed.

Context `{!BuffaLaws, !BuffaTypesLaws, !BuffaViewsLaws, !BuffaTypeViewsLaws}.
#[global] Instance UnlockWalletRequestView_laws : MessageLaws UnlockWalletRequestView.
Proof. message_laws compute_size write_to merge_view_field. Qed.
Definition borrow (self : UnlockWalletRequest.UnlockWalletRequest) : UnlockWalletRequestView :=
  mkUnlockWalletRequestView (UnlockWalletRequest.password self).
#[global] Instance UnlockWalletRequestView_view : View UnlockWalletRequestView UnlockWalletRequest.UnlockWalletRequest.
Proof. view_laws borrow to_owned_from_source. Defined.
End methods.
End UnlockWalletRequestView.

(** The view of [cusf.mainchain.v1.UnlockWalletResponse]. *)
Module UnlockWalletResponseView.
Section methods.
Context `{BuffaTypeViews}.

Record UnlockWalletResponseView := mkUnlockWalletResponseView {}.

Definition compute_size (self : UnlockWalletResponseView) (__cache : SizeCache) : Z * SizeCache :=
  (0, __cache).
Definition write_to (self : UnlockWalletResponseView) : write_stmt :=
  id.
Definition merge_view_field : merge_fn UnlockWalletResponseView := λ view tag cur ctx,
  match field_number tag with
  | _ => merge_unknown view tag cur ctx
  end.
Definition to_owned_from_source (self : UnlockWalletResponseView) : outcome DecodeError UnlockWalletResponse.UnlockWalletResponse :=
  Ok UnlockWalletResponse.mkUnlockWalletResponse.

Definition UnlockWalletResponseView_name : MessageName UnlockWalletResponseView := {|
  PACKAGE := "cusf.mainchain.v1";
  NAME := "UnlockWalletResponse";
  FULL_NAME := "cusf.mainchain.v1.UnlockWalletResponse";
  TYPE_URL := "type.googleapis.com/cusf.mainchain.v1.UnlockWalletResponse";
|}.
#[global] Existing Instance UnlockWalletResponseView_name.
#[global] Instance UnlockWalletResponseView_message : Message UnlockWalletResponseView := {
  default_message := mkUnlockWalletResponseView; compute_size := compute_size; write_to := write_to;
  merge_field := merge_view_field;
}.
#[global] Instance UnlockWalletResponseView_spec : MessageSpec UnlockWalletResponseView := {
  records self := [];
  schema := [];
  well_formed self := True;
  levels := 0;
}.
#[global] Instance UnlockWalletResponseView_own : ToOwned UnlockWalletResponseView UnlockWalletResponse.UnlockWalletResponse := {
  to_owned_from_source := to_owned_from_source;
}.

Context `{!BuffaLaws, !BuffaTypesLaws, !BuffaViewsLaws, !BuffaTypeViewsLaws}.
#[global] Instance UnlockWalletResponseView_laws : MessageLaws UnlockWalletResponseView.
Proof. message_laws compute_size write_to merge_view_field. Qed.
Definition borrow (self : UnlockWalletResponse.UnlockWalletResponse) : UnlockWalletResponseView :=
  mkUnlockWalletResponseView.
#[global] Instance UnlockWalletResponseView_view : View UnlockWalletResponseView UnlockWalletResponse.UnlockWalletResponse.
Proof. view_laws borrow to_owned_from_source. Defined.
End methods.
End UnlockWalletResponseView.

(** The view of [cusf.mainchain.v1.GetInfoRequest]. *)
Module GetInfoRequestView.
Section methods.
Context `{BuffaTypeViews}.

Record GetInfoRequestView := mkGetInfoRequestView {}.

Definition compute_size (self : GetInfoRequestView) (__cache : SizeCache) : Z * SizeCache :=
  (0, __cache).
Definition write_to (self : GetInfoRequestView) : write_stmt :=
  id.
Definition merge_view_field : merge_fn GetInfoRequestView := λ view tag cur ctx,
  match field_number tag with
  | _ => merge_unknown view tag cur ctx
  end.
Definition to_owned_from_source (self : GetInfoRequestView) : outcome DecodeError GetInfoRequest.GetInfoRequest :=
  Ok GetInfoRequest.mkGetInfoRequest.

Definition GetInfoRequestView_name : MessageName GetInfoRequestView := {|
  PACKAGE := "cusf.mainchain.v1";
  NAME := "GetInfoRequest";
  FULL_NAME := "cusf.mainchain.v1.GetInfoRequest";
  TYPE_URL := "type.googleapis.com/cusf.mainchain.v1.GetInfoRequest";
|}.
#[global] Existing Instance GetInfoRequestView_name.
#[global] Instance GetInfoRequestView_message : Message GetInfoRequestView := {
  default_message := mkGetInfoRequestView; compute_size := compute_size; write_to := write_to;
  merge_field := merge_view_field;
}.
#[global] Instance GetInfoRequestView_spec : MessageSpec GetInfoRequestView := {
  records self := [];
  schema := [];
  well_formed self := True;
  levels := 0;
}.
#[global] Instance GetInfoRequestView_own : ToOwned GetInfoRequestView GetInfoRequest.GetInfoRequest := {
  to_owned_from_source := to_owned_from_source;
}.

Context `{!BuffaLaws, !BuffaTypesLaws, !BuffaViewsLaws, !BuffaTypeViewsLaws}.
#[global] Instance GetInfoRequestView_laws : MessageLaws GetInfoRequestView.
Proof. message_laws compute_size write_to merge_view_field. Qed.
Definition borrow (self : GetInfoRequest.GetInfoRequest) : GetInfoRequestView :=
  mkGetInfoRequestView.
#[global] Instance GetInfoRequestView_view : View GetInfoRequestView GetInfoRequest.GetInfoRequest.
Proof. view_laws borrow to_owned_from_source. Defined.
End methods.
End GetInfoRequestView.

(** The view of [cusf.mainchain.v1.GetInfoResponse.Tip]. *)
Module GetInfoResponse_TipView.
Section methods.
Context `{BuffaTypeViews}.

Record TipView := mkTipView {
  height : Z; (* u32 *)
  hash : option ReverseHexView.ReverseHexView;
}.
Definition with_height v (self : TipView) : TipView := mkTipView v (hash self).
Definition with_hash v (self : TipView) : TipView := mkTipView (height self) v.

Definition compute_size (self : TipView) (__cache : SizeCache) : Z * SizeCache :=
  (size_uint32 1 (height self) ▷
   size_message 1 (hash self)) (0, __cache).
Definition write_to (self : TipView) : write_stmt :=
  write_uint32 1 (height self) ▷
  write_message 2 (hash self).
Definition merge_view_field : merge_fn TipView := λ view tag cur ctx,
  match field_number tag with
  | 1 => merge_scalar Varint decode_uint32 (λ v, with_height v view) tag cur
  | 2 => view_message (hash view) (λ v, with_hash v view) tag cur ctx
  | _ => merge_unknown view tag cur ctx
  end.
Definition to_owned_from_source (self : TipView) : outcome DecodeError GetInfoResponse_Tip.Tip :=
  hash ← own_message (hash self);
  Ok (GetInfoResponse_Tip.mkTip (height self) hash).

Definition TipView_name : MessageName TipView := {|
  PACKAGE := "cusf.mainchain.v1";
  NAME := "GetInfoResponse.Tip";
  FULL_NAME := "cusf.mainchain.v1.GetInfoResponse.Tip";
  TYPE_URL := "type.googleapis.com/cusf.mainchain.v1.GetInfoResponse.Tip";
|}.
#[global] Existing Instance TipView_name.
#[global] Instance TipView_message : Message TipView := {
  default_message := mkTipView 0 None; compute_size := compute_size; write_to := write_to;
  merge_field := merge_view_field;
}.
#[global] Instance TipView_spec : MessageSpec TipView := {
  records self := r_int 1 (height self) ++ r_message 2 (hash self);
  schema := [(1, Varint); (2, LengthDelimited)];
  well_formed self := in_u 32 (height self) ∧ from_option well_formed True (hash self);
  levels := 2;
}.
#[global] Instance TipView_own : ToOwned TipView GetInfoResponse_Tip.Tip := {
  to_owned_from_source := to_owned_from_source;
}.
#[global] Instance height_lens : Lens height with_height.
Proof. lens. Qed.
#[global] Instance hash_lens : Lens hash with_hash.
Proof. lens. Qed.

Context `{!BuffaLaws, !BuffaTypesLaws, !BuffaViewsLaws, !BuffaTypeViewsLaws}.
#[global] Instance TipView_laws : MessageLaws TipView.
Proof. message_laws compute_size write_to merge_view_field. Qed.
Definition borrow (self : GetInfoResponse_Tip.Tip) : TipView :=
  mkTipView (GetInfoResponse_Tip.height self) (view_of <$> GetInfoResponse_Tip.hash self).
#[global] Instance TipView_view : View TipView GetInfoResponse_Tip.Tip.
Proof. view_laws borrow to_owned_from_source. Defined.
End methods.
End GetInfoResponse_TipView.

(** The view of [cusf.mainchain.v1.GetInfoResponse]. *)
Module GetInfoResponseView.
Section methods.
Context `{BuffaTypeViews}.

Record GetInfoResponseView := mkGetInfoResponseView {
  network : string;
  transaction_count : Z; (* u32 *)
  unspent_output_count : Z; (* u32 *)
  descriptors : list (string * string);
  tip : option GetInfoResponse_TipView.TipView;
}.
Definition with_network v (self : GetInfoResponseView) : GetInfoResponseView :=
  mkGetInfoResponseView v (transaction_count self) (unspent_output_count self) (descriptors self) (tip self).
Definition with_transaction_count v (self : GetInfoResponseView) : GetInfoResponseView :=
  mkGetInfoResponseView (network self) v (unspent_output_count self) (descriptors self) (tip self).
Definition with_unspent_output_count v (self : GetInfoResponseView) : GetInfoResponseView :=
  mkGetInfoResponseView (network self) (transaction_count self) v (descriptors self) (tip self).
Definition with_descriptors v (self : GetInfoResponseView) : GetInfoResponseView :=
  mkGetInfoResponseView (network self) (transaction_count self) (unspent_output_count self) v (tip self).
Definition with_tip v (self : GetInfoResponseView) : GetInfoResponseView :=
  mkGetInfoResponseView (network self) (transaction_count self) (unspent_output_count self) (descriptors self) v.

Definition compute_size (self : GetInfoResponseView) (__cache : SizeCache) : Z * SizeCache :=
  (size_string 1 (network self) ▷
   size_uint32 1 (transaction_count self) ▷
   size_uint32 1 (unspent_output_count self) ▷
   size_entries Str 1 (descriptors self) ▷
   size_message 1 (tip self)) (0, __cache).
Definition write_to (self : GetInfoResponseView) : write_stmt :=
  write_string 1 (network self) ▷
  write_uint32 2 (transaction_count self) ▷
  write_uint32 3 (unspent_output_count self) ▷
  write_entries Str 4 (descriptors self) ▷
  write_message 5 (tip self).
Definition merge_view_field : merge_fn GetInfoResponseView := λ view tag cur ctx,
  match field_number tag with
  | 1 => merge_scalar LengthDelimited borrow_str (λ v, with_network v view) tag cur
  | 2 => merge_scalar Varint decode_uint32 (λ v, with_transaction_count v view) tag cur
  | 3 => merge_scalar Varint decode_uint32 (λ v, with_unspent_output_count v view) tag cur
  | 5 => view_message (tip view) (λ v, with_tip v view) tag cur ctx
  | 4 => view_map Str (descriptors view) (λ v, with_descriptors v view) tag cur ctx
  | _ => merge_unknown view tag cur ctx
  end.
Definition to_owned_from_source (self : GetInfoResponseView) : outcome DecodeError GetInfoResponse.GetInfoResponse :=
  tip ← own_message (tip self);
  Ok (GetInfoResponse.mkGetInfoResponse (network self) (transaction_count self) (unspent_output_count self) (own_map (descriptors self)) tip).

Definition GetInfoResponseView_name : MessageName GetInfoResponseView := {|
  PACKAGE := "cusf.mainchain.v1";
  NAME := "GetInfoResponse";
  FULL_NAME := "cusf.mainchain.v1.GetInfoResponse";
  TYPE_URL := "type.googleapis.com/cusf.mainchain.v1.GetInfoResponse";
|}.
#[global] Existing Instance GetInfoResponseView_name.
#[global] Instance GetInfoResponseView_message : Message GetInfoResponseView := {
  default_message := mkGetInfoResponseView EmptyString 0 0 [] None; compute_size := compute_size; write_to := write_to;
  merge_field := merge_view_field;
}.
#[global] Instance GetInfoResponseView_spec : MessageSpec GetInfoResponseView := {
  records self := r_string 1 (network self) ++ r_int 2 (transaction_count self) ++
    r_int 3 (unspent_output_count self) ++ r_entries Str 4 (descriptors self) ++ r_message 5 (tip self);
  schema := [(1, LengthDelimited); (2, Varint); (3, Varint); (4, LengthDelimited); (5, LengthDelimited)];
  well_formed self := string_ok (network self) ∧ in_u 32 (transaction_count self) ∧
    in_u 32 (unspent_output_count self) ∧ entries_ok Str (descriptors self) ∧ from_option well_formed True (tip self);
  levels := 3;
}.
#[global] Instance GetInfoResponseView_own : ToOwned GetInfoResponseView GetInfoResponse.GetInfoResponse := {
  to_owned_from_source := to_owned_from_source;
}.
#[global] Instance network_lens : Lens network with_network.
Proof. lens. Qed.
#[global] Instance transaction_count_lens : Lens transaction_count with_transaction_count.
Proof. lens. Qed.
#[global] Instance unspent_output_count_lens : Lens unspent_output_count with_unspent_output_count.
Proof. lens. Qed.
#[global] Instance descriptors_lens : Lens descriptors with_descriptors.
Proof. lens. Qed.
#[global] Instance tip_lens : Lens tip with_tip.
Proof. lens. Qed.

Context `{!BuffaLaws, !BuffaTypesLaws, !BuffaViewsLaws, !BuffaTypeViewsLaws}.
#[global] Instance GetInfoResponseView_laws : MessageLaws GetInfoResponseView.
Proof. message_laws compute_size write_to merge_view_field. Qed.
Definition borrow (self : GetInfoResponse.GetInfoResponse) : GetInfoResponseView :=
  mkGetInfoResponseView (GetInfoResponse.network self) (GetInfoResponse.transaction_count self)
    (GetInfoResponse.unspent_output_count self) (map_iter (GetInfoResponse.descriptors self))
    (view_of <$> GetInfoResponse.tip self).
#[global] Instance GetInfoResponseView_view : View GetInfoResponseView GetInfoResponse.GetInfoResponse.
Proof. view_laws borrow to_owned_from_source. Defined.
End methods.
End GetInfoResponseView.

(** The view of [cusf.mainchain.v1.ListUnspentOutputsRequest]. *)
Module ListUnspentOutputsRequestView.
Section methods.
Context `{BuffaTypeViews}.

Record ListUnspentOutputsRequestView := mkListUnspentOutputsRequestView {}.

Definition compute_size (self : ListUnspentOutputsRequestView) (__cache : SizeCache) : Z * SizeCache :=
  (0, __cache).
Definition write_to (self : ListUnspentOutputsRequestView) : write_stmt :=
  id.
Definition merge_view_field : merge_fn ListUnspentOutputsRequestView := λ view tag cur ctx,
  match field_number tag with
  | _ => merge_unknown view tag cur ctx
  end.
Definition to_owned_from_source (self : ListUnspentOutputsRequestView) : outcome DecodeError ListUnspentOutputsRequest.ListUnspentOutputsRequest :=
  Ok ListUnspentOutputsRequest.mkListUnspentOutputsRequest.

Definition ListUnspentOutputsRequestView_name : MessageName ListUnspentOutputsRequestView := {|
  PACKAGE := "cusf.mainchain.v1";
  NAME := "ListUnspentOutputsRequest";
  FULL_NAME := "cusf.mainchain.v1.ListUnspentOutputsRequest";
  TYPE_URL := "type.googleapis.com/cusf.mainchain.v1.ListUnspentOutputsRequest";
|}.
#[global] Existing Instance ListUnspentOutputsRequestView_name.
#[global] Instance ListUnspentOutputsRequestView_message : Message ListUnspentOutputsRequestView := {
  default_message := mkListUnspentOutputsRequestView; compute_size := compute_size; write_to := write_to;
  merge_field := merge_view_field;
}.
#[global] Instance ListUnspentOutputsRequestView_spec : MessageSpec ListUnspentOutputsRequestView := {
  records self := [];
  schema := [];
  well_formed self := True;
  levels := 0;
}.
#[global] Instance ListUnspentOutputsRequestView_own : ToOwned ListUnspentOutputsRequestView ListUnspentOutputsRequest.ListUnspentOutputsRequest := {
  to_owned_from_source := to_owned_from_source;
}.

Context `{!BuffaLaws, !BuffaTypesLaws, !BuffaViewsLaws, !BuffaTypeViewsLaws}.
#[global] Instance ListUnspentOutputsRequestView_laws : MessageLaws ListUnspentOutputsRequestView.
Proof. message_laws compute_size write_to merge_view_field. Qed.
Definition borrow (self : ListUnspentOutputsRequest.ListUnspentOutputsRequest) : ListUnspentOutputsRequestView :=
  mkListUnspentOutputsRequestView.
#[global] Instance ListUnspentOutputsRequestView_view : View ListUnspentOutputsRequestView ListUnspentOutputsRequest.ListUnspentOutputsRequest.
Proof. view_laws borrow to_owned_from_source. Defined.
End methods.
End ListUnspentOutputsRequestView.

(** The view of [cusf.mainchain.v1.ListUnspentOutputsResponse.Output]. *)
Module ListUnspentOutputsResponse_OutputView.
Section methods.
Context `{BuffaTypeViews}.

Record OutputView := mkOutputView {
  txid : option ReverseHexView.ReverseHexView;
  vout : Z; (* u32 *)
  value_sats : Z; (* u64 *)
  is_internal : bool;
  is_confirmed : bool;
  confirmed_at_block : Z; (* u32 *)
  confirmed_at_time : option TimestampView;
  confirmed_transitively : option ReverseHexView.ReverseHexView;
  unconfirmed_last_seen : option TimestampView;
  address : option StringValueView;
}.
Definition with_txid v (self : OutputView) : OutputView :=
  mkOutputView v (vout self) (value_sats self) (is_internal self) (is_confirmed self) (confirmed_at_block self) (confirmed_at_time self) (confirmed_transitively self) (unconfirmed_last_seen self) (address self).
Definition with_vout v (self : OutputView) : OutputView :=
  mkOutputView (txid self) v (value_sats self) (is_internal self) (is_confirmed self) (confirmed_at_block self) (confirmed_at_time self) (confirmed_transitively self) (unconfirmed_last_seen self) (address self).
Definition with_value_sats v (self : OutputView) : OutputView :=
  mkOutputView (txid self) (vout self) v (is_internal self) (is_confirmed self) (confirmed_at_block self) (confirmed_at_time self) (confirmed_transitively self) (unconfirmed_last_seen self) (address self).
Definition with_is_internal v (self : OutputView) : OutputView :=
  mkOutputView (txid self) (vout self) (value_sats self) v (is_confirmed self) (confirmed_at_block self) (confirmed_at_time self) (confirmed_transitively self) (unconfirmed_last_seen self) (address self).
Definition with_is_confirmed v (self : OutputView) : OutputView :=
  mkOutputView (txid self) (vout self) (value_sats self) (is_internal self) v (confirmed_at_block self) (confirmed_at_time self) (confirmed_transitively self) (unconfirmed_last_seen self) (address self).
Definition with_confirmed_at_block v (self : OutputView) : OutputView :=
  mkOutputView (txid self) (vout self) (value_sats self) (is_internal self) (is_confirmed self) v (confirmed_at_time self) (confirmed_transitively self) (unconfirmed_last_seen self) (address self).
Definition with_confirmed_at_time v (self : OutputView) : OutputView :=
  mkOutputView (txid self) (vout self) (value_sats self) (is_internal self) (is_confirmed self) (confirmed_at_block self) v (confirmed_transitively self) (unconfirmed_last_seen self) (address self).
Definition with_confirmed_transitively v (self : OutputView) : OutputView :=
  mkOutputView (txid self) (vout self) (value_sats self) (is_internal self) (is_confirmed self) (confirmed_at_block self) (confirmed_at_time self) v (unconfirmed_last_seen self) (address self).
Definition with_unconfirmed_last_seen v (self : OutputView) : OutputView :=
  mkOutputView (txid self) (vout self) (value_sats self) (is_internal self) (is_confirmed self) (confirmed_at_block self) (confirmed_at_time self) (confirmed_transitively self) v (address self).
Definition with_address v (self : OutputView) : OutputView :=
  mkOutputView (txid self) (vout self) (value_sats self) (is_internal self) (is_confirmed self) (confirmed_at_block self) (confirmed_at_time self) (confirmed_transitively self) (unconfirmed_last_seen self) v.

Definition compute_size (self : OutputView) (__cache : SizeCache) : Z * SizeCache :=
  (size_message 1 (txid self) ▷
   size_uint32 1 (vout self) ▷
   size_uint64 1 (value_sats self) ▷
   size_bool 1 (is_internal self) ▷
   size_bool 1 (is_confirmed self) ▷
   size_uint32 1 (confirmed_at_block self) ▷
   size_message 1 (confirmed_at_time self) ▷
   size_message 1 (confirmed_transitively self) ▷
   size_message 1 (unconfirmed_last_seen self) ▷
   size_message 1 (address self)) (0, __cache).
Definition write_to (self : OutputView) : write_stmt :=
  write_message 1 (txid self) ▷
  write_uint32 2 (vout self) ▷
  write_uint64 3 (value_sats self) ▷
  write_bool 4 (is_internal self) ▷
  write_bool 5 (is_confirmed self) ▷
  write_uint32 6 (confirmed_at_block self) ▷
  write_message 7 (confirmed_at_time self) ▷
  write_message 8 (confirmed_transitively self) ▷
  write_message 9 (unconfirmed_last_seen self) ▷
  write_message 10 (address self).
Definition merge_view_field : merge_fn OutputView := λ view tag cur ctx,
  match field_number tag with
  | 1 => view_message (txid view) (λ v, with_txid v view) tag cur ctx
  | 2 => merge_scalar Varint decode_uint32 (λ v, with_vout v view) tag cur
  | 3 => merge_scalar Varint decode_uint64 (λ v, with_value_sats v view) tag cur
  | 4 => merge_scalar Varint decode_bool (λ v, with_is_internal v view) tag cur
  | 5 => merge_scalar Varint decode_bool (λ v, with_is_confirmed v view) tag cur
  | 6 => merge_scalar Varint decode_uint32 (λ v, with_confirmed_at_block v view) tag cur
  | 7 => view_message (confirmed_at_time view) (λ v, with_confirmed_at_time v view) tag cur ctx
  | 8 => view_message (confirmed_transitively view) (λ v, with_confirmed_transitively v view) tag cur ctx
  | 9 => view_message (unconfirmed_last_seen view) (λ v, with_unconfirmed_last_seen v view) tag cur ctx
  | 10 => view_message (address view) (λ v, with_address v view) tag cur ctx
  | _ => merge_unknown view tag cur ctx
  end.
Definition to_owned_from_source (self : OutputView) : outcome DecodeError ListUnspentOutputsResponse_Output.Output :=
  txid ← own_message (txid self);
  confirmed_at_time ← own_message (confirmed_at_time self);
  confirmed_transitively ← own_message (confirmed_transitively self);
  unconfirmed_last_seen ← own_message (unconfirmed_last_seen self);
  address ← own_message (address self);
  Ok (ListUnspentOutputsResponse_Output.mkOutput txid (vout self) (value_sats self) (is_internal self) (is_confirmed self) (confirmed_at_block self) confirmed_at_time confirmed_transitively unconfirmed_last_seen address).

Definition OutputView_name : MessageName OutputView := {|
  PACKAGE := "cusf.mainchain.v1";
  NAME := "ListUnspentOutputsResponse.Output";
  FULL_NAME := "cusf.mainchain.v1.ListUnspentOutputsResponse.Output";
  TYPE_URL := "type.googleapis.com/cusf.mainchain.v1.ListUnspentOutputsResponse.Output";
|}.
#[global] Existing Instance OutputView_name.
#[global] Instance OutputView_message : Message OutputView := {
  default_message := mkOutputView None 0 0 false false 0 None None None None; compute_size := compute_size; write_to := write_to;
  merge_field := merge_view_field;
}.
#[global] Instance OutputView_spec : MessageSpec OutputView := {
  records self := r_message 1 (txid self) ++ r_int 2 (vout self) ++ r_int 3 (value_sats self) ++
    r_bool 4 (is_internal self) ++ r_bool 5 (is_confirmed self) ++ r_int 6 (confirmed_at_block self) ++
    r_message 7 (confirmed_at_time self) ++ r_message 8 (confirmed_transitively self) ++
    r_message 9 (unconfirmed_last_seen self) ++ r_message 10 (address self);
  schema := [(1, LengthDelimited); (2, Varint); (3, Varint); (4, Varint); (5, Varint); (6, Varint);
    (7, LengthDelimited); (8, LengthDelimited); (9, LengthDelimited); (10, LengthDelimited)];
  well_formed self := from_option well_formed True (txid self) ∧ in_u 32 (vout self) ∧
    in_u 64 (value_sats self) ∧ in_u 32 (confirmed_at_block self) ∧
    from_option well_formed True (confirmed_at_time self) ∧
    from_option well_formed True (confirmed_transitively self) ∧
    from_option well_formed True (unconfirmed_last_seen self) ∧ from_option well_formed True (address self);
  levels := 2;
}.
#[global] Instance OutputView_own : ToOwned OutputView ListUnspentOutputsResponse_Output.Output := {
  to_owned_from_source := to_owned_from_source;
}.
#[global] Instance txid_lens : Lens txid with_txid.
Proof. lens. Qed.
#[global] Instance vout_lens : Lens vout with_vout.
Proof. lens. Qed.
#[global] Instance value_sats_lens : Lens value_sats with_value_sats.
Proof. lens. Qed.
#[global] Instance is_internal_lens : Lens is_internal with_is_internal.
Proof. lens. Qed.
#[global] Instance is_confirmed_lens : Lens is_confirmed with_is_confirmed.
Proof. lens. Qed.
#[global] Instance confirmed_at_block_lens : Lens confirmed_at_block with_confirmed_at_block.
Proof. lens. Qed.
#[global] Instance confirmed_at_time_lens : Lens confirmed_at_time with_confirmed_at_time.
Proof. lens. Qed.
#[global] Instance confirmed_transitively_lens : Lens confirmed_transitively with_confirmed_transitively.
Proof. lens. Qed.
#[global] Instance unconfirmed_last_seen_lens : Lens unconfirmed_last_seen with_unconfirmed_last_seen.
Proof. lens. Qed.
#[global] Instance address_lens : Lens address with_address.
Proof. lens. Qed.

Context `{!BuffaLaws, !BuffaTypesLaws, !BuffaViewsLaws, !BuffaTypeViewsLaws}.
#[global] Instance OutputView_laws : MessageLaws OutputView.
Proof. message_laws compute_size write_to merge_view_field. Qed.
Definition borrow (self : ListUnspentOutputsResponse_Output.Output) : OutputView :=
  mkOutputView (view_of <$> ListUnspentOutputsResponse_Output.txid self)
    (ListUnspentOutputsResponse_Output.vout self) (ListUnspentOutputsResponse_Output.value_sats self)
    (ListUnspentOutputsResponse_Output.is_internal self)
    (ListUnspentOutputsResponse_Output.is_confirmed self)
    (ListUnspentOutputsResponse_Output.confirmed_at_block self)
    (view_of <$> ListUnspentOutputsResponse_Output.confirmed_at_time self)
    (view_of <$> ListUnspentOutputsResponse_Output.confirmed_transitively self)
    (view_of <$> ListUnspentOutputsResponse_Output.unconfirmed_last_seen self)
    (view_of <$> ListUnspentOutputsResponse_Output.address self).
#[global] Instance OutputView_view : View OutputView ListUnspentOutputsResponse_Output.Output.
Proof. view_laws borrow to_owned_from_source. Defined.
End methods.
End ListUnspentOutputsResponse_OutputView.

(** The view of [cusf.mainchain.v1.ListUnspentOutputsResponse]. *)
Module ListUnspentOutputsResponseView.
Section methods.
Context `{BuffaTypeViews}.

Record ListUnspentOutputsResponseView := mkListUnspentOutputsResponseView {
  outputs : list ListUnspentOutputsResponse_OutputView.OutputView;
}.
Definition with_outputs v (self : ListUnspentOutputsResponseView) : ListUnspentOutputsResponseView :=
  mkListUnspentOutputsResponseView v.

Definition compute_size (self : ListUnspentOutputsResponseView) (__cache : SizeCache) : Z * SizeCache :=
  (size_repeated 1 (outputs self)) (0, __cache).
Definition write_to (self : ListUnspentOutputsResponseView) : write_stmt :=
  write_repeated 1 (outputs self).
Definition merge_view_field : merge_fn ListUnspentOutputsResponseView := λ view tag cur ctx,
  match field_number tag with
  | 1 => view_repeated (outputs view) (λ v, with_outputs v view) tag cur ctx
  | _ => merge_unknown view tag cur ctx
  end.
Definition to_owned_from_source (self : ListUnspentOutputsResponseView) : outcome DecodeError ListUnspentOutputsResponse.ListUnspentOutputsResponse :=
  outputs ← own_repeated (outputs self);
  Ok (ListUnspentOutputsResponse.mkListUnspentOutputsResponse outputs).

Definition ListUnspentOutputsResponseView_name : MessageName ListUnspentOutputsResponseView := {|
  PACKAGE := "cusf.mainchain.v1";
  NAME := "ListUnspentOutputsResponse";
  FULL_NAME := "cusf.mainchain.v1.ListUnspentOutputsResponse";
  TYPE_URL := "type.googleapis.com/cusf.mainchain.v1.ListUnspentOutputsResponse";
|}.
#[global] Existing Instance ListUnspentOutputsResponseView_name.
#[global] Instance ListUnspentOutputsResponseView_message : Message ListUnspentOutputsResponseView := {
  default_message := mkListUnspentOutputsResponseView []; compute_size := compute_size; write_to := write_to;
  merge_field := merge_view_field;
}.
#[global] Instance ListUnspentOutputsResponseView_spec : MessageSpec ListUnspentOutputsResponseView := {
  records self := r_repeated 1 (outputs self);
  schema := [(1, LengthDelimited)];
  well_formed self := Forall well_formed (outputs self);
  levels := 3;
}.
#[global] Instance ListUnspentOutputsResponseView_own : ToOwned ListUnspentOutputsResponseView ListUnspentOutputsResponse.ListUnspentOutputsResponse := {
  to_owned_from_source := to_owned_from_source;
}.
#[global] Instance outputs_lens : Lens outputs with_outputs.
Proof. lens. Qed.

Context `{!BuffaLaws, !BuffaTypesLaws, !BuffaViewsLaws, !BuffaTypeViewsLaws}.
#[global] Instance ListUnspentOutputsResponseView_laws : MessageLaws ListUnspentOutputsResponseView.
Proof. message_laws compute_size write_to merge_view_field. Qed.
Definition borrow (self : ListUnspentOutputsResponse.ListUnspentOutputsResponse) : ListUnspentOutputsResponseView :=
  mkListUnspentOutputsResponseView (view_of <$> ListUnspentOutputsResponse.outputs self).
#[global] Instance ListUnspentOutputsResponseView_view : View ListUnspentOutputsResponseView ListUnspentOutputsResponse.ListUnspentOutputsResponse.
Proof. view_laws borrow to_owned_from_source. Defined.
End methods.
End ListUnspentOutputsResponseView.
