(* ===== verification/Proto.v ===== *)
(** The generated messages together: what holds of every message of the four packages. *)
From Stdlib Require Import ZArith Lia Strings.Byte Strings.String.
From stdpp Require Import base list gmap strings.
From S2P Require Import Prelude Wire WireTypes WireView WireRef.
From S2P Require Import ProtoCommon ProtoCrypto ProtoValidator ProtoWallet.
From S2P Require Import ProtoCommonView ProtoCryptoView ProtoValidatorView ProtoWalletView.
#[local] Open Scope Z_scope.

(** The messages of the four packages as one family. *)
Inductive message_type :=
| ConsensusHex
| Hex
| ReverseHex
| HmacSha512Request
| HmacSha512Response
| Ripemd160Request
| Ripemd160Response
| Secp256k1SecretKeyToPublicKeyRequest
| Secp256k1SecretKeyToPublicKeyResponse
| Secp256k1SignRequest
| Secp256k1SignResponse
| Secp256k1VerifyRequest
| Secp256k1VerifyResponse
| OutPoint
| GenerateToAddressRequest
| GenerateToAddressResponse
| BlockHeaderInfo
| BlockInfo
| GetBlockHeaderInfoRequest
| GetBlockHeaderInfoResponse
| GetBlockInfoRequest
| GetBlockInfoResponse_Info
| GetBlockInfoResponse
| GetChainInfoRequest
| GetChainInfoResponse
| GetChainTipRequest
| GetChainTipResponse
| SubscribeEventsRequest
| SubscribeEventsResponse_Event_ConnectBlock
| SubscribeEventsResponse_Event_DisconnectBlock
| SubscribeEventsResponse_Event
| SubscribeEventsResponse
| SubscribeHeaderSyncProgressRequest
| SubscribeHeaderSyncProgressResponse
| StopRequest
| StopResponse
| WalletTransaction_Confirmation
| WalletTransaction
| CreateP2mrAddressRequest
| CreateP2mrAddressResponse
| ListP2mrOutputsRequest
| ListP2mrOutputsResponse_Output
| ListP2mrOutputsResponse
| SpendP2mrRequest
| SpendP2mrResponse
| CreateNewAddressRequest
| CreateNewAddressResponse
| CreateWalletRequest
| CreateWalletResponse
| GetBalanceRequest
| GetBalanceResponse
| ListTransactionsRequest
| ListTransactionsResponse
| SendTransactionRequest_FeeRate
| SendTransactionRequest_RequiredUtxo
| SendTransactionRequest
| SendTransactionResponse
| UnlockWalletRequest
| UnlockWalletResponse
| GetInfoRequest
| GetInfoResponse_Tip
| GetInfoResponse
| ListUnspentOutputsRequest
| ListUnspentOutputsResponse_Output
| ListUnspentOutputsResponse.
#[export] Instance message_type_eq_dec : EqDecision message_type.
Proof. solve_decision. Defined.

Section families.
Context `{BuffaTypeViews}.
Definition message (t : message_type) : Type :=
  match t with
  | ConsensusHex => ConsensusHex.ConsensusHex
  | Hex => Hex.Hex
  | ReverseHex => ReverseHex.ReverseHex
  | HmacSha512Request => HmacSha512Request.HmacSha512Request
  | HmacSha512Response => HmacSha512Response.HmacSha512Response
  | Ripemd160Request => Ripemd160Request.Ripemd160Request
  | Ripemd160Response => Ripemd160Response.Ripemd160Response
  | Secp256k1SecretKeyToPublicKeyRequest => Secp256k1SecretKeyToPublicKeyRequest.Secp256k1SecretKeyToPublicKeyRequest
  | Secp256k1SecretKeyToPublicKeyResponse => Secp256k1SecretKeyToPublicKeyResponse.Secp256k1SecretKeyToPublicKeyResponse
  | Secp256k1SignRequest => Secp256k1SignRequest.Secp256k1SignRequest
  | Secp256k1SignResponse => Secp256k1SignResponse.Secp256k1SignResponse
  | Secp256k1VerifyRequest => Secp256k1VerifyRequest.Secp256k1VerifyRequest
  | Secp256k1VerifyResponse => Secp256k1VerifyResponse.Secp256k1VerifyResponse
  | OutPoint => OutPoint.OutPoint
  | GenerateToAddressRequest => GenerateToAddressRequest.GenerateToAddressRequest
  | GenerateToAddressResponse => GenerateToAddressResponse.GenerateToAddressResponse
  | BlockHeaderInfo => BlockHeaderInfo.BlockHeaderInfo
  | BlockInfo => BlockInfo.BlockInfo
  | GetBlockHeaderInfoRequest => GetBlockHeaderInfoRequest.GetBlockHeaderInfoRequest
  | GetBlockHeaderInfoResponse => GetBlockHeaderInfoResponse.GetBlockHeaderInfoResponse
  | GetBlockInfoRequest => GetBlockInfoRequest.GetBlockInfoRequest
  | GetBlockInfoResponse_Info => GetBlockInfoResponse_Info.Info
  | GetBlockInfoResponse => GetBlockInfoResponse.GetBlockInfoResponse
  | GetChainInfoRequest => GetChainInfoRequest.GetChainInfoRequest
  | GetChainInfoResponse => GetChainInfoResponse.GetChainInfoResponse
  | GetChainTipRequest => GetChainTipRequest.GetChainTipRequest
  | GetChainTipResponse => GetChainTipResponse.GetChainTipResponse
  | SubscribeEventsRequest => SubscribeEventsRequest.SubscribeEventsRequest
  | SubscribeEventsResponse_Event_ConnectBlock => SubscribeEventsResponse_Event_ConnectBlock.ConnectBlock
  | SubscribeEventsResponse_Event_DisconnectBlock => SubscribeEventsResponse_Event_DisconnectBlock.DisconnectBlock
  | SubscribeEventsResponse_Event => SubscribeEventsResponse_Event.Event
  | SubscribeEventsResponse => SubscribeEventsResponse.SubscribeEventsResponse
  | SubscribeHeaderSyncProgressRequest => SubscribeHeaderSyncProgressRequest.SubscribeHeaderSyncProgressRequest
  | SubscribeHeaderSyncProgressResponse => SubscribeHeaderSyncProgressResponse.SubscribeHeaderSyncProgressResponse
  | StopRequest => StopRequest.StopRequest
  | StopResponse => StopResponse.StopResponse
  | WalletTransaction_Confirmation => WalletTransaction_Confirmation.Confirmation
  | WalletTransaction => WalletTransaction.WalletTransaction
  | CreateP2mrAddressRequest => CreateP2mrAddressRequest.CreateP2mrAddressRequest
  | CreateP2mrAddressResponse => CreateP2mrAddressResponse.CreateP2mrAddressResponse
  | ListP2mrOutputsRequest => ListP2mrOutputsRequest.ListP2mrOutputsRequest
  | ListP2mrOutputsResponse_Output => ListP2mrOutputsResponse_Output.Output
  | ListP2mrOutputsResponse => ListP2mrOutputsResponse.ListP2mrOutputsResponse
  | SpendP2mrRequest => SpendP2mrRequest.SpendP2mrRequest
  | SpendP2mrResponse => SpendP2mrResponse.SpendP2mrResponse
  | CreateNewAddressRequest => CreateNewAddressRequest.CreateNewAddressRequest
  | CreateNewAddressResponse => CreateNewAddressResponse.CreateNewAddressResponse
  | CreateWalletRequest => CreateWalletRequest.CreateWalletRequest
  | CreateWalletResponse => CreateWalletResponse.CreateWalletResponse
  | GetBalanceRequest => GetBalanceRequest.GetBalanceRequest
  | GetBalanceResponse => GetBalanceResponse.GetBalanceResponse
  | ListTransactionsRequest => ListTransactionsRequest.ListTransactionsRequest
  | ListTransactionsResponse => ListTransactionsResponse.ListTransactionsResponse
  | SendTransactionRequest_FeeRate => SendTransactionRequest_FeeRate.FeeRate
  | SendTransactionRequest_RequiredUtxo => SendTransactionRequest_RequiredUtxo.RequiredUtxo
  | SendTransactionRequest => SendTransactionRequest.SendTransactionRequest
  | SendTransactionResponse => SendTransactionResponse.SendTransactionResponse
  | UnlockWalletRequest => UnlockWalletRequest.UnlockWalletRequest
  | UnlockWalletResponse => UnlockWalletResponse.UnlockWalletResponse
  | GetInfoRequest => GetInfoRequest.GetInfoRequest
  | GetInfoResponse_Tip => GetInfoResponse_Tip.Tip
  | GetInfoResponse => GetInfoResponse.GetInfoResponse
  | ListUnspentOutputsRequest => ListUnspentOutputsRequest.ListUnspentOutputsRequest
  | ListUnspentOutputsResponse_Output => ListUnspentOutputsResponse_Output.Output
  | ListUnspentOutputsResponse => ListUnspentOutputsResponse.ListUnspentOutputsResponse
  end.
Definition view (t : message_type) : Type :=
  match t with
  | ConsensusHex => ConsensusHexView.ConsensusHexView
  | Hex => HexView.HexView
  | ReverseHex => ReverseHexView.ReverseHexView
  | HmacSha512Request => HmacSha512RequestView.HmacSha512RequestView
  | HmacSha512Response => HmacSha512ResponseView.HmacSha512ResponseView
  | Ripemd160Request => Ripemd160RequestView.Ripemd160RequestView
  | Ripemd160Response => Ripemd160ResponseView.Ripemd160ResponseView
  | Secp256k1SecretKeyToPublicKeyRequest => Secp256k1SecretKeyToPublicKeyRequestView.Secp256k1SecretKeyToPublicKeyRequestView
  | Secp256k1SecretKeyToPublicKeyResponse => Secp256k1SecretKeyToPublicKeyResponseView.Secp256k1SecretKeyToPublicKeyResponseView
  | Secp256k1SignRequest => Secp256k1SignRequestView.Secp256k1SignRequestView
  | Secp256k1SignResponse => Secp256k1SignResponseView.Secp256k1SignResponseView
  | Secp256k1VerifyRequest => Secp256k1VerifyRequestView.Secp256k1VerifyRequestView
  | Secp256k1VerifyResponse => Secp256k1VerifyResponseView.Secp256k1VerifyResponseView
  | OutPoint => OutPointView.OutPointView
  | GenerateToAddressRequest => GenerateToAddressRequestView.GenerateToAddressRequestView
  | GenerateToAddressResponse => GenerateToAddressResponseView.GenerateToAddressResponseView
  | BlockHeaderInfo => BlockHeaderInfoView.BlockHeaderInfoView
  | BlockInfo => BlockInfoView.BlockInfoView
  | GetBlockHeaderInfoRequest => GetBlockHeaderInfoRequestView.GetBlockHeaderInfoRequestView
  | GetBlockHeaderInfoResponse => GetBlockHeaderInfoResponseView.GetBlockHeaderInfoResponseView
  | GetBlockInfoRequest => GetBlockInfoRequestView.GetBlockInfoRequestView
  | GetBlockInfoResponse_Info => GetBlockInfoResponse_InfoView.InfoView
  | GetBlockInfoResponse => GetBlockInfoResponseView.GetBlockInfoResponseView
  | GetChainInfoRequest => GetChainInfoRequestView.GetChainInfoRequestView
  | GetChainInfoResponse => GetChainInfoResponseView.GetChainInfoResponseView
  | GetChainTipRequest => GetChainTipRequestView.GetChainTipRequestView
  | GetChainTipResponse => GetChainTipResponseView.GetChainTipResponseView
  | SubscribeEventsRequest => SubscribeEventsRequestView.SubscribeEventsRequestView
  | SubscribeEventsResponse_Event_ConnectBlock => SubscribeEventsResponse_Event_ConnectBlockView.ConnectBlockView
  | SubscribeEventsResponse_Event_DisconnectBlock => SubscribeEventsResponse_Event_DisconnectBlockView.DisconnectBlockView
  | SubscribeEventsResponse_Event => SubscribeEventsResponse_EventView.EventView
  | SubscribeEventsResponse => SubscribeEventsResponseView.SubscribeEventsResponseView
  | SubscribeHeaderSyncProgressRequest => SubscribeHeaderSyncProgressRequestView.SubscribeHeaderSyncProgressRequestView
  | SubscribeHeaderSyncProgressResponse => SubscribeHeaderSyncProgressResponseView.SubscribeHeaderSyncProgressResponseView
  | StopRequest => StopRequestView.StopRequestView
  | StopResponse => StopResponseView.StopResponseView
  | WalletTransaction_Confirmation => WalletTransaction_ConfirmationView.ConfirmationView
  | WalletTransaction => WalletTransactionView.WalletTransactionView
  | CreateP2mrAddressRequest => CreateP2mrAddressRequestView.CreateP2mrAddressRequestView
  | CreateP2mrAddressResponse => CreateP2mrAddressResponseView.CreateP2mrAddressResponseView
  | ListP2mrOutputsRequest => ListP2mrOutputsRequestView.ListP2mrOutputsRequestView
  | ListP2mrOutputsResponse_Output => ListP2mrOutputsResponse_OutputView.OutputView
  | ListP2mrOutputsResponse => ListP2mrOutputsResponseView.ListP2mrOutputsResponseView
  | SpendP2mrRequest => SpendP2mrRequestView.SpendP2mrRequestView
  | SpendP2mrResponse => SpendP2mrResponseView.SpendP2mrResponseView
  | CreateNewAddressRequest => CreateNewAddressRequestView.CreateNewAddressRequestView
  | CreateNewAddressResponse => CreateNewAddressResponseView.CreateNewAddressResponseView
  | CreateWalletRequest => CreateWalletRequestView.CreateWalletRequestView
  | CreateWalletResponse => CreateWalletResponseView.CreateWalletResponseView
  | GetBalanceRequest => GetBalanceRequestView.GetBalanceRequestView
  | GetBalanceResponse => GetBalanceResponseView.GetBalanceResponseView
  | ListTransactionsRequest => ListTransactionsRequestView.ListTransactionsRequestView
  | ListTransactionsResponse => ListTransactionsResponseView.ListTransactionsResponseView
  | SendTransactionRequest_FeeRate => SendTransactionRequest_FeeRateView.FeeRateView
  | SendTransactionRequest_RequiredUtxo => SendTransactionRequest_RequiredUtxoView.RequiredUtxoView
  | SendTransactionRequest => SendTransactionRequestView.SendTransactionRequestView
  | SendTransactionResponse => SendTransactionResponseView.SendTransactionResponseView
  | UnlockWalletRequest => UnlockWalletRequestView.UnlockWalletRequestView
  | UnlockWalletResponse => UnlockWalletResponseView.UnlockWalletResponseView
  | GetInfoRequest => GetInfoRequestView.GetInfoRequestView
  | GetInfoResponse_Tip => GetInfoResponse_TipView.TipView
  | GetInfoResponse => GetInfoResponseView.GetInfoResponseView
  | ListUnspentOutputsRequest => ListUnspentOutputsRequestView.ListUnspentOutputsRequestView
  | ListUnspentOutputsResponse_Output => ListUnspentOutputsResponse_OutputView.OutputView
  | ListUnspentOutputsResponse => ListUnspentOutputsResponseView.ListUnspentOutputsResponseView
  end.
#[export] Instance message_name t : MessageName (message t).
Proof. destruct t; exact _. Defined.
#[export] Instance view_name t : MessageName (view t).
Proof. destruct t; exact _. Defined.
#[export] Instance message_message t : Message (message t).
Proof. destruct t; exact _. Defined.
#[export] Instance message_clear t : Clear (message t).
Proof. destruct t; exact _. Defined.
#[export] Instance message_spec t : MessageSpec (message t).
Proof. destruct t; exact _. Defined.
#[export] Instance view_message t : Message (view t).
Proof. destruct t; exact _. Defined.
#[export] Instance view_spec t : MessageSpec (view t).
Proof. destruct t; exact _. Defined.
#[export] Instance view_own t : ToOwned (view t) (message t).
Proof. destruct t; exact _. Defined.

Context `{!BuffaLaws, !BuffaTypesLaws, !BuffaViewsLaws, !BuffaTypeViewsLaws}.
#[export] Instance message_laws t : MessageLaws (message t).
Proof. destruct t; exact _. Qed.
#[export] Instance message_clear_laws t : ClearLaws (message t).
Proof. destruct t; exact _. Qed.
#[export] Instance view_laws t : MessageLaws (view t).
Proof. destruct t; exact _. Qed.
#[export] Instance view_view t : View (view t) (message t).
Proof. destruct t; exact _. Defined.

Lemma message_levels t : (levels (message t) ≤ 100)%nat.
Proof. destruct t; cbn; lia. Qed.
Lemma view_levels t : (levels (view t) ≤ 100)%nat.
Proof. destruct t; cbn; lia. Qed.
Lemma view_schema t : schema (view t) = schema (message t).
Proof. by destruct t. Qed.
End families.

(** ** What holds of every message *)
Definition typed (S : list (Z * WireType)) (l : list record) : Prop := Forall (λ r, (r.1, type_of r.2) ∈ S) l.

Section theorems.
Context `{BuffaTypeViewsLaws}.

Lemma interleaved_view t l l' :
  interleaved (M := message t) l l' → interleaved (M := view t) l l'.
Proof.
  induction 1 as [|r l l' _ IH|r l l' Hn Hv Hl _ IH]; constructor; try done. by rewrite view_schema.
Qed.

(** The fields of a message have distinct numbers, of one byte. *)
Lemma schema_numbers t : NoDup (schema (message t)).*1 ∧ Forall (λ f, 1 ≤ f.1 < 16) (schema (message t)).
Proof.
  split; [|by destruct t; cbn; repeat constructor].
  apply (bool_decide_unpack _). by destruct t.
Qed.

(** The fields a message has are those of its schema. *)
Lemma typed_of {A} S n w (f : A → value) l :
  (n, w) ∈ S → (∀ a, type_of (f a) = w) → typed S ((λ a, (n, f a)) <$> l).
Proof. intros Hn Hf. apply Forall_fmap, Forall_true. intros a. cbn. by rewrite Hf. Qed.
Lemma typed_one S n v : (n, type_of v) ∈ S → typed S [(n, v)].
Proof. intros Hn. by repeat constructor. Qed.
Lemma typed_int S n v : (n, Varint) ∈ S → typed S (r_int n v).
Proof. intros Hn. unfold r_int. case_match; [constructor|by apply typed_one]. Qed.
Ltac in_schema := repeat first [apply list_elem_of_here | apply list_elem_of_further].
Ltac typed_step :=
  unfold r_message, r_repeated, r_some_int, r_bool, r_string, r_some_string, r_strings, r_enum, map_records;
  first [ apply Forall_app_2
        | apply Forall_nil_2
        | apply typed_int; in_schema
        | apply typed_one; in_schema
        | eapply typed_of; [in_schema|intros []; done]
        | eapply typed_of; [in_schema|done]
        | case_match ].
Lemma records_schema t (m : message t) : typed (schema (message t)) (records m).
Proof. destruct t; cbn [message_spec]; unfold_records; repeat typed_step. Qed.

(** A type URL is the one of the message's full name, the same for its view, and of no other message. *)
Lemma type_url t :
  FULL_NAME (message t) = (PACKAGE (message t) ++ "." ++ NAME (message t))%string ∧
  TYPE_URL (message t) = ("type.googleapis.com/" ++ FULL_NAME (message t))%string ∧
  TYPE_URL (view t) = TYPE_URL (message t).
Proof. by destruct t. Qed.
Lemma full_name_inj t u : FULL_NAME (message t) = FULL_NAME (message u) → t = u.
Proof. destruct t, u; intros Hn; first [reflexivity|discriminate Hn]. Qed.

(** Sizing with a new cache. *)
Lemma sized_from_new `{!Message M, !MessageSpec M, !FieldLaws M} (m : M) :
  well_formed m → len (encode (records m)) < max_len →
  ∃ c, compute_size m cache_new = (len (encode (records m)), c) ∧ cache_slots c = slots (records m).
Proof.
  intros Hm Hl. assert (max_len ≤ 2 ^ 32) by done. destruct cache_new_spec as [Hs _].
  destruct (compute_size_spec m cache_new) as (c & Hc & Hs' & _); [done|lia|].
  exists c. by rewrite Hc, Hs', Hs.
Qed.

(** C36: What is written is the wire format, and the size reserved for it is exact. For every
    message type and every well-formed message whose encoding is below the 2 GiB a message may
    have: [compute_size] is the length of its encoding, without overflow of the 32-bit sum, and
    fills the cache with the lengths of the nested messages, in the order in which [write_to]
    reads them; [write_to] appends the fields at their numbers and wire types, those of the
    schema and no others, leaving out those that have their default; and the view of the
    message has the same size, fills the cache with the same lengths and is written the same. *)
Theorem message_encoding t (m : message t) : well_formed m → len (encode (records m)) < max_len →
  (∃ c, compute_size m cache_new = (len (encode (records m)), c) ∧ cache_slots c = slots (records m)) ∧
  (∃ c, compute_size (view_of (V := view t) m) cache_new = (len (encode (records m)), c) ∧
    cache_slots c = slots (records m)) ∧
  encode_message m = encode (records m) ∧
  encode_message (view_of (V := view t) m) = encode (records m) ∧
  typed (schema (message t)) (records m).
Proof.
  intros Hm Hl. split_and!.
  - by apply sized_from_new.
  - rewrite <- (view_records (V := view t) m).
    apply sized_from_new; [by apply view_well_formed|by rewrite view_records].
  - by apply encode_message_spec.
  - rewrite <- (view_records m). apply encode_message_spec; [by apply view_well_formed|by rewrite view_records].
  - apply records_schema.
Qed.

(** C35: Messages are read back: any well-formed message below 2 GiB is read back from what was
    written, and also from any encoding that has further fields, of other numbers, anywhere
    between its own (what a newer peer may send). *)
Theorem message_roundtrip t (m : message t) l : well_formed m →
  interleaved (M := message t) (records m) l → len (encode l) < max_len →
  decode_message (encode_message m) = Ok m ∧ decode_message (encode l) = Ok m.
Proof.
  intros Hm Hi Hl. pose proof (message_levels t). pose proof (interleaved_len _ _ Hi).
  split; [apply decode_encode_message|by apply decode_interleaved]; [done..|lia].
Qed.

(** C37: Views agree with messages, on what a peer writes of a well-formed message. For every
    message type, every well-formed message and every encoding of it below 2 GiB, that is,
    its fields in the order in which [write_to] has them, and further fields, of numbers the
    schema does not have, anywhere between: the bytes are read as the view that borrows all
    of the message, and making that view owned gives what reading the bytes as the owned
    message gives. Nothing is said of other input: fields that are malformed, repeated or in
    another order, or unknown fields inside a nested message. *)
Theorem view_agrees t (m : message t) l : well_formed m →
  interleaved (M := message t) (records m) l → len (encode l) < max_len →
  decode_view (encode l) = Ok (view_of (V := view t) m) ∧
  (v ← decode_view (V := view t) (encode l); to_owned_from_source v) = decode_message (M := message t) (encode l).
Proof.
  intros Hm Hi Hl. pose proof (message_levels t). pose proof (view_levels t).
  rewrite (decode_view_spec m l), (decode_interleaved m l) by eauto using interleaved_view.
  split; [done|]. apply view_owned.
Qed.

(** Wrong type *)
Lemma wrong_wire_type t (m : message t) (v : view t) n w w' buf ctx : (n, w) ∈ schema (message t) → w ≠ w' →
  (∃ e, merge_field m (mkTag n w') buf ctx = Err e) ∧
  (∃ e, merge_field v (mkTag n w') buf ctx = Err e).
Proof.
  intros Hn Hw. split; [by apply (merge_field_wire_type m n w)|].
  rewrite <- view_schema in Hn. by apply (merge_field_wire_type v n w).
Qed.
End theorems.

(** ** The enumerations *)
Class EnumerationLaws (E : Type) `{Enumeration E} := {
  from_to_i32 (e : E) : from_i32 (to_i32 e) = Some e;
  to_from_i32 v (e : E) : from_i32 v = Some e → to_i32 e = v;
  to_i32_range (e : E) : in_i 32 (to_i32 e);
  from_to_name (e : E) : from_proto_name (proto_name e) = Some e;
  to_from_name s (e : E) : from_proto_name s = Some e → proto_name e = s;
  values_complete (e : E) : e ∈ values;
  values_distinct : NoDup (values (E := E));
}.
Ltac enumeration_laws from_name :=
  split;
  [ by intros []
  | intros v e; destruct v as [|p|p]; [by intros [= <-]| |done];
    cbn; repeat (case_match; try discriminate); intros [= <-]; reflexivity
  | by intros []
  | by intros []
  | intros s e; change (from_name s = Some e → proto_name e = s); unfold from_name;
    repeat match goal with
    | |- context [String.eqb s ?x] => destruct (String.eqb_spec s x) as [->|_]; [by intros [= <-]|]
    end; done
  | intros []; cbn; repeat first [apply list_elem_of_here | apply list_elem_of_further]
  | apply (bool_decide_unpack _); by vm_compute ].
#[export] Instance network_eq_dec : EqDecision Network.Network.
Proof. solve_decision. Defined.
#[export] Instance scheme_eq_dec : EqDecision P2mrScheme.P2mrScheme.
Proof. solve_decision. Defined.
#[export] Instance network_laws : EnumerationLaws Network.Network.
Proof. enumeration_laws Network.from_proto_name. Qed.
#[export] Instance scheme_laws : EnumerationLaws P2mrScheme.P2mrScheme.
Proof. enumeration_laws P2mrScheme.from_proto_name. Qed.
(** In JSON an enumeration is written as its name and read from its name, its number or null. *)
Lemma network_json e :
  Network.visit_str (Network.serialize e) = Ok e ∧
  Network.visit_i64 (Network.to_i32 e) = Ok e ∧ Network.visit_u64 (Network.to_i32 e) = Ok e.
Proof. by destruct e. Qed.
Lemma scheme_json e :
  P2mrScheme.visit_str (P2mrScheme.serialize e) = Ok e ∧
  P2mrScheme.visit_i64 (P2mrScheme.to_i32 e) = Ok e ∧ P2mrScheme.visit_u64 (P2mrScheme.to_i32 e) = Ok e.
Proof. by destruct e. Qed.
Lemma scheme_visit_str s e : P2mrScheme.visit_str s = Ok e ↔ s = P2mrScheme.proto_name e.
Proof.
  unfold P2mrScheme.visit_str. split; [|intros ->; by destruct e].
  destruct (P2mrScheme.from_proto_name s) as [e'|] eqn:Hs; intros [= <-].
  symmetry. exact (to_from_name s e' Hs).
Qed.

(** ** On the reference runtime *)
Section examples.
Local Open Scope string_scope.
Definition example_txid : ReverseHex.ReverseHex := ReverseHex.mkReverseHex (Some (mkStringRef "00ff")).
Definition example_request : message SendTransactionRequest :=
  SendTransactionRequest.mkSendTransactionRequest {["bc1q" := 5000; "bc1p" := 300]}
    (Some (SendTransactionRequest_FeeRate.mkFeeRate (Some (SendTransactionRequest_FeeRate.SatPerVbyte 2))))
    (Some (Hex.mkHex None))
    [SendTransactionRequest_RequiredUtxo.mkRequiredUtxo (Some example_txid) 1;
     SendTransactionRequest_RequiredUtxo.mkRequiredUtxo None 0]
    (Some "").
(** The same with a field a later version could have, and one in another wire type's clothes. *)
Definition example_extended : list record :=
  (9, VString "later") :: records example_request ++ [(20, VMessage [(1, VInt 7)])].
End examples.

Lemma example_well_formed : well_formed example_request.
Proof.
  split; [|by repeat constructor].
  apply map_Forall_insert_2; [done|]. apply map_Forall_singleton. done.
Defined.
Lemma example_interleaved : interleaved (M := message SendTransactionRequest) (records example_request) example_extended.
Proof.
  apply inter_unknown; [intros w Hw; cbn in Hw; set_solver|done|done|].
  cut (∀ l, interleaved (M := message SendTransactionRequest) l (l ++ [(20, VMessage [(1, VInt 7)])])); [intros Hl; apply Hl|].
  induction l as [|r l IH]; [|by constructor].
  apply inter_unknown; [intros w Hw; cbn in Hw; set_solver|done|done|constructor].
Defined.
Lemma message_encoding_witness :
  encode_message example_request = encode (records example_request) ∧
  len (encode_message example_request) = 46 ∧
  typed (schema (message SendTransactionRequest)) (records example_request).
Proof.
  destruct (message_encoding SendTransactionRequest example_request) as (_ & _ & He & _ & Ht);
    [exact example_well_formed|by vm_compute|].
  split_and!; [exact He|by vm_compute|exact Ht].
Defined.
Lemma message_roundtrip_witness :
  decode_message (encode_message example_request) = Ok example_request ∧
  decode_message (encode example_extended) = Ok example_request.
Proof.
  apply (message_roundtrip SendTransactionRequest example_request);
    [exact example_well_formed|exact example_interleaved|by vm_compute].
Defined.
Lemma view_agrees_witness :
  decode_view (encode example_extended) = Ok (view_of (V := view SendTransactionRequest) example_request).
Proof.
  apply (view_agrees SendTransactionRequest example_request);
    [exact example_well_formed|exact example_interleaved|by vm_compute].
Defined.
Lemma wrong_wire_type_witness :
  ∃ e, merge_field example_request (mkTag 2 Varint) [] 100%nat = Err e.
Proof.
  apply (wrong_wire_type SendTransactionRequest example_request (view_of example_request) 2 LengthDelimited Varint);
    [by repeat constructor|done].
Defined.
