(* ===== verification/Connect.v ===== *)
(** The Connect runtime (`connectrpc`) as the generated services call it, and the
    statements their servers and clients repeat.

    [Connect], [Routing] and [Client] hold the runtime, third-party code and so a
    parameter; the classes of laws say what it is documented to do when both sides speak
    protobuf.  A generated service is a class of handlers, a dispatcher that selects the
    handler by the path of a request, a registration of the handlers with a router, and a
    client with a method per handler; its arms are the definitions below. *)
From Stdlib Require Import ZArith Lia Strings.Byte Strings.String.
From stdpp Require Import base list.
From S2P Require Import Prelude Text Wire WireTypes WireView.
#[local] Open Scope Z_scope.

Inductive StreamType := Unary | ServerStream.
Module IdempotencyLevel.
Inductive IdempotencyLevel := Unknown | NoSideEffects | Idempotent.
End IdempotencyLevel.

(** ** The runtime *)

(** [ServiceRequest]: the view of a request and the bytes it borrows from; and [OwnedView],
    which keeps the two together. *)
Record ServiceRequest (V : Type) := from_parts { request_view : V; request_body : bytes }.
Arguments from_parts {V} request_view request_body.
Arguments request_view {V} s.
Arguments request_body {V} s.
Record OwnedView (V : Type) := mkOwnedView { reborrow : V; view_bytes : bytes }.
Arguments mkOwnedView {V} reborrow view_bytes.
Arguments reborrow {V} o.
Arguments view_bytes {V} o.

Class Connect `{BuffaViews} := {
  ConnectError : Type;
  RequestContext : Type;
  CodecFormat : Type;
  Payload : Type;
  RequestStream : Type;
  (** a body with its headers and trailers *)
  Response : Type → Type;
  body {A} : Response A → A;
  map_body {A B} : (A → B) → Response A → Response B;
  Spec : Type;
  Spec_server : string → StreamType → Spec;
  with_idempotency_level : IdempotencyLevel.IdempotencyLevel → Spec → Spec;
  MethodDescriptor : Type;
  unary : bool → MethodDescriptor;
  server_streaming : MethodDescriptor;
  with_spec : Spec → MethodDescriptor → MethodDescriptor;
  encoded : Payload → outcome ConnectError bytes;
  (** the request in protobuf, converted if it came in another format *)
  request_proto_bytes {M} `{!Message M} : bytes → CodecFormat → outcome ConnectError bytes;
  decode_borrowed_request_view {V} `{!Message V} : bytes → outcome ConnectError V;
  encode_response {M} `{!Message M} : Response M → CodecFormat → outcome ConnectError (Response bytes);
  encode_item {M} `{!Message M} : M → CodecFormat → outcome ConnectError bytes;
  unimplemented {A} : string → outcome ConnectError A;
}.

(** A stream of results: its item at each position, until it ends. *)
Definition ServiceStream `{Connect} (A : Type) : Type := nat → option (outcome ConnectError A).
(** [encode_response_stream(s, format)] *)
Definition encode_response_stream `{Connect} {M} `{!Message M} (s : ServiceStream M) (format : CodecFormat) :
    ServiceStream bytes :=
  λ k, (λ item, m ← item; encode_item m format) <$> s k.

(** [Dispatcher] *)
Record Dispatcher `{Connect} (S : Type) := mkDispatcher {
  lookup : string → option MethodDescriptor;
  call_unary : string → RequestContext → Payload → CodecFormat → st S ConnectError (Response bytes);
  call_server_streaming : string → RequestContext → bytes → CodecFormat →
    st S ConnectError (Response (ServiceStream bytes));
  call_client_streaming : string → RequestContext → RequestStream → CodecFormat → st S ConnectError (Response bytes);
  call_bidi_streaming : string → RequestContext → RequestStream → CodecFormat →
    st S ConnectError (Response (ServiceStream bytes));
}.
Arguments mkDispatcher {_ _ _} S _ _ _ _ _.
Arguments lookup {_ _ _ S} d path.
Arguments call_unary {_ _ _ S} d path ctx request format.
Arguments call_server_streaming {_ _ _ S} d path ctx request format.
Arguments call_client_streaming {_ _ _ S} d path ctx requests format.
Arguments call_bidi_streaming {_ _ _ S} d path ctx requests format.

(** Routers, for handlers that work on the state [S]. *)
Class Routing (S : Type) `{Connect} := {
  Router : Type;
  Router_new : Router;
  route_view {V} `{!Message V} : string → string →
    (RequestContext → OwnedView V → CodecFormat → st S ConnectError (Response bytes)) → Router → Router;
  route_view_idempotent {V} `{!Message V} : string → string →
    (RequestContext → OwnedView V → CodecFormat → st S ConnectError (Response bytes)) → Router → Router;
  route_view_server_stream {V M} `{!Message V, !Message M} : string → string →
    (RequestContext → OwnedView V → st S ConnectError (Response (ServiceStream M))) → Router → Router;
  router_with_spec : Spec → Router → Router;
  (** what a router does with the requests of a connection *)
  serve : Router → Dispatcher S;
}.
(** The services that come with the runtime (`connectrpc-health`, `connectrpc-reflection`),
    over the names of the services they report. *)
Class RuntimeServices (S : Type) `{Connect, !Routing S} := {
  Reflector : Type;
  reflector_with_services : list string → Reflector → Reflector;
  install : Router → Reflector → Router;
  StaticChecker : Type;
  checker_with_services : list string → StaticChecker;
  health_register : StaticChecker → Router → Router;
}.
(** Clients, of servers that work on the state [S]. *)
Class Client (S : Type) `{Connect} := {
  Transport : Type;
  ClientConfig : Type;
  CallOptions : Type;
  default_options : CallOptions;
  client_call_unary {M V} `{!Message M, !Message V} : Transport → ClientConfig → string → string → M →
    CallOptions → st S ConnectError (Response V);
  client_call_server_stream {M V} `{!Message M, !Message V} : Transport → ClientConfig → string → string → M →
    CallOptions → st S ConnectError (ServiceStream V);
  (** a transport to the server with the given dispatcher *)
  connection : Dispatcher S → Transport;
}.

(** ** The statements of the generated services *)
Section statements.
Context `{Connect} {S : Type}.
Context {Req V Res : Type} `{!Message Req, !Message V, !Message Res}.

(** An arm of [call_unary]. *)
Definition unary_arm (handler : RequestContext → ServiceRequest V → st S ConnectError (Response Res))
    (ctx : RequestContext) (request : Payload) (format : CodecFormat) : st S ConnectError (Response bytes) :=
  request ← st_lift (encoded request);
  body ← st_lift (request_proto_bytes (M := Req) request format);
  req ← st_lift (decode_borrowed_request_view body);
  res ← handler ctx (from_parts req body);
  st_lift (encode_response res format).
(** An arm of [call_server_streaming]. *)
Definition streaming_arm
    (handler : RequestContext → ServiceRequest V → st S ConnectError (Response (ServiceStream Res)))
    (ctx : RequestContext) (request : bytes) (format : CodecFormat) :
    st S ConnectError (Response (ServiceStream bytes)) :=
  body ← st_lift (request_proto_bytes (M := Req) request format);
  req ← st_lift (decode_borrowed_request_view body);
  resp ← handler ctx (from_parts req body);
  mret (map_body (λ s, encode_response_stream s format) resp).
(** The closures given to [view_handler_fn] and [view_streaming_handler_fn]. *)
Definition view_handler (handler : RequestContext → ServiceRequest V → st S ConnectError (Response Res))
    (ctx : RequestContext) (req : OwnedView V) (format : CodecFormat) : st S ConnectError (Response bytes) :=
  res ← handler ctx (from_parts (reborrow req) (view_bytes req));
  st_lift (encode_response res format).
Definition view_streaming_handler
    (handler : RequestContext → ServiceRequest V → st S ConnectError (Response (ServiceStream Res)))
    (ctx : RequestContext) (req : OwnedView V) : st S ConnectError (Response (ServiceStream Res)) :=
  handler ctx (from_parts (reborrow req) (view_bytes req)).
End statements.

(** ** What the runtime is documented to do with protobuf *)
Class ConnectLaws `{BuffaViewsLaws, !Connect} := {
  Proto : CodecFormat;
  kind_of : MethodDescriptor → StreamType;
  kind_of_unary idem : kind_of (unary idem) = Unary;
  kind_of_streaming : kind_of server_streaming = ServerStream;
  kind_of_with_spec sp d : kind_of (with_spec sp d) = kind_of d;
  body_map {A B} (f : A → B) r : body (map_body f r) = f (body r);
  map_body_ext {A B} (f g : A → B) r : f (body r) = g (body r) → map_body f r = map_body g r;
  map_body_map {A B C} (f : A → B) (g : B → C) r : map_body g (map_body f r) = map_body (λ a, g (f a)) r;
  request_proto_bytes_spec {M} `{!Message M} b : request_proto_bytes (M := M) b Proto = Ok b;
  decode_borrowed_request_view_spec {V} `{!Message V} b (v : V) :
    decode_view b = Ok v → decode_borrowed_request_view b = Ok v;
  encode_item_spec {M} `{!Message M, !MessageSpec M, !MessageLaws M} (m : M) :
    well_formed m → len (encode (records m)) < max_len → encode_item m Proto = Ok (encode_message m);
  encode_response_spec {M} `{!Message M, !MessageSpec M, !MessageLaws M} (r : Response M) :
    well_formed (body r) → len (encode (records (body r))) < max_len →
    encode_response r Proto = Ok (map_body encode_message r);
  unimplemented_spec {A} path : ∃ e, unimplemented (A := A) path = Err e;
  (** the size up to which the two sides take a message, when neither sets one *)
  message_limit : Z;
}.

(** The path of a method. *)
Definition path_of (service method : string) : string := (service ++ "/" ++ method)%string.

Section routing.
Context {S : Type} `{ConnectLaws, !Routing S}.

(** The kind of method a dispatcher has at a path. *)
Definition kind (d : Dispatcher S) (path : string) : option StreamType := kind_of <$> lookup d path.
(** [d] serves the unary method [handler] at [path], or the streaming one. *)
Definition serves_unary {V Res} `{!Message V, !Message Res} (d : Dispatcher S) (path : string)
    (handler : RequestContext → ServiceRequest V → st S ConnectError (Response Res)) : Prop :=
  kind d path = Some Unary ∧
  ∀ ctx p σ, call_unary d path ctx p Proto σ =
    (b ← st_lift (encoded p); v ← st_lift (decode_borrowed_request_view b);
     res ← handler ctx (from_parts v b); st_lift (encode_response res Proto)) σ.
Definition serves_streaming {V Res} `{!Message V, !Message Res} (d : Dispatcher S) (path : string)
    (handler : RequestContext → ServiceRequest V → st S ConnectError (Response (ServiceStream Res))) : Prop :=
  kind d path = Some ServerStream ∧
  ∀ ctx b σ, call_server_streaming d path ctx b Proto σ =
    (v ← st_lift (decode_borrowed_request_view b); res ← handler ctx (from_parts v b);
     mret (map_body (λ i, encode_response_stream i Proto) res)) σ.
(** [d] has no method at [path]. *)
Definition serves_none (d : Dispatcher S) (path : string) : Prop :=
  kind d path = None ∧
  (∀ ctx p σ, call_unary d path ctx p Proto σ = (unimplemented path, σ)) ∧
  (∀ ctx b σ, call_server_streaming d path ctx b Proto σ = (unimplemented path, σ)).
(** [d] and [d'] serve the same at [path]. *)
Definition serves_same (d d' : Dispatcher S) (path : string) : Prop :=
  kind d path = kind d' path ∧
  (∀ ctx p σ, call_unary d path ctx p Proto σ = call_unary d' path ctx p Proto σ) ∧
  (∀ ctx b σ, call_server_streaming d path ctx b Proto σ = call_server_streaming d' path ctx b Proto σ).
End routing.

(** A router calls the handler of the route with the path of the request, on the decoded
    request. *)
Class RoutingLaws (S : Type) `{ConnectLaws, !Routing S} := {
  serve_new path : serves_none (serve Router_new) path;
  serve_with_spec sp r path : serves_same (serve (router_with_spec sp r)) (serve r) path;
  route_view_here {V Res} `{!Message V, !Message Res} s m
      (h : RequestContext → ServiceRequest V → st S ConnectError (Response Res)) r :
    serves_unary (serve (route_view s m (view_handler h) r)) (path_of s m) h;
  route_view_other {V} `{!Message V} s m h r path : path ≠ path_of s m →
    serves_same (serve (route_view (V := V) s m h r)) (serve r) path;
  route_view_idempotent_here {V Res} `{!Message V, !Message Res} s m
      (h : RequestContext → ServiceRequest V → st S ConnectError (Response Res)) r :
    serves_unary (serve (route_view_idempotent s m (view_handler h) r)) (path_of s m) h;
  route_view_idempotent_other {V} `{!Message V} s m h r path : path ≠ path_of s m →
    serves_same (serve (route_view_idempotent (V := V) s m h r)) (serve r) path;
  route_stream_here {V Res} `{!Message V, !Message Res} s m
      (h : RequestContext → ServiceRequest V → st S ConnectError (Response (ServiceStream Res))) r :
    serves_streaming (serve (route_view_server_stream s m (view_streaming_handler h) r)) (path_of s m) h;
  route_stream_other {V Res} `{!Message V, !Message Res} s m
      (h : RequestContext → OwnedView V → st S ConnectError (Response (ServiceStream Res))) r path :
    path ≠ path_of s m → serves_same (serve (route_view_server_stream s m h r)) (serve r) path;
}.

(** They are the services of the gRPC health and server reflection protocols, and register
    no other path. *)
Definition HEALTH_SERVICE : string := "grpc.health.v1.Health".
Definition REFLECTION_SERVICES : list string :=
  ["grpc.reflection.v1.ServerReflection"; "grpc.reflection.v1alpha.ServerReflection"]%string.
Class RuntimeServicesLaws (S : Type) `{RoutingLaws S, !RuntimeServices S} := {
  install_other r reflector path : (∀ s m, s ∈ REFLECTION_SERVICES → path ≠ path_of s m) →
    serves_same (serve (install r reflector)) (serve r) path;
  health_other checker r path : (∀ m, path ≠ path_of HEALTH_SERVICE m) →
    serves_same (serve (health_register checker r)) (serve r) path;
}.

(** A client configured for protobuf sends its request to the path of the method, if the
    server has such a method, and reads the response, as long as the messages keep to the
    limit; nothing is said of larger ones. *)
Class ClientLaws (S : Type) `{ConnectLaws, !Client S} := {
  uses_proto : ClientConfig → Prop;
  read_response {V} `{!Message V} : Response bytes → outcome ConnectError (Response V);
  read_response_spec {V} `{!Message V} (r : Response bytes) (v : V) :
    len (body r) ≤ message_limit → decode_view (body r) = Ok v → read_response r = Ok (map_body (λ _, v) r);
  read_item {V} `{!Message V} : bytes → outcome ConnectError V;
  read_item_spec {V} `{!Message V} b (v : V) :
    len b ≤ message_limit → decode_view b = Ok v → read_item b = Ok v;
  client_call_unary_spec {M V} `{!Message M, !Message V} (d : Dispatcher S) cfg s m (req : M) opts :
    uses_proto cfg → kind d (path_of s m) = Some Unary → len (encode_message req) ≤ message_limit →
    ∃ ctx p, encoded p = Ok (encode_message req) ∧ ∀ σ,
      client_call_unary (V := V) (connection d) cfg s m req opts σ =
      (res ← call_unary d (path_of s m) ctx p Proto; st_lift (read_response res)) σ;
  client_call_server_stream_spec {M V} `{!Message M, !Message V} (d : Dispatcher S) cfg s m (req : M) opts :
    uses_proto cfg → kind d (path_of s m) = Some ServerStream → len (encode_message req) ≤ message_limit →
    ∃ ctx, ∀ σ,
      client_call_server_stream (V := V) (connection d) cfg s m req opts σ =
      (res ← call_server_streaming d (path_of s m) ctx (encode_message req) Proto;
       mret (λ k, (λ item, b ← item; read_item b) <$> body res k)) σ;
}.

(** ** What follows for any service *)
Section services.
Context {S : Type} `{ConnectLaws}.
Context {Req V Res VRes : Type} `{!Message Req, !MessageSpec Req, !MessageLaws Req}.
Context `{!Message V, !MessageSpec V, !MessageLaws V, !ToOwned V Req, !View V Req}.
Context `{!Message Res, !MessageSpec Res, !MessageLaws Res}.
Context `{!Message VRes, !MessageSpec VRes, !MessageLaws VRes, !ToOwned VRes Res, !View VRes Res}.

Lemma serves_same_unary (d d' : Dispatcher S) path (h : RequestContext → ServiceRequest V → st S ConnectError (Response Res)) :
  serves_same d d' path → serves_unary d' path h → serves_unary d path h.
Proof. intros (Hk & Hu & _) [Hk' Hu']. split; [by rewrite Hk|]. intros. by rewrite Hu. Qed.
Lemma serves_same_streaming (d d' : Dispatcher S) path
    (h : RequestContext → ServiceRequest V → st S ConnectError (Response (ServiceStream Res))) :
  serves_same d d' path → serves_streaming d' path h → serves_streaming d path h.
Proof. intros (Hk & _ & Hs) [Hk' Hs']. split; [by rewrite Hk|]. intros. by rewrite Hs. Qed.
Lemma serves_same_refl (d : Dispatcher S) path : serves_same d d path.
Proof. done. Qed.
Lemma serves_same_trans (d d' d'' : Dispatcher S) path :
  serves_same d d' path → serves_same d' d'' path → serves_same d d'' path.
Proof.
  intros (Hk & Hu & Hs) (Hk' & Hu' & Hs'). split; [by rewrite Hk|].
  split; intros; [rewrite Hu; apply Hu'|rewrite Hs; apply Hs'].
Qed.
Lemma serves_same_none (d d' : Dispatcher S) path :
  serves_same d d' path → serves_none d' path → serves_none d path.
Proof.
  intros (Hk & Hu & Hs) (Hk' & Hu' & Hs'). split; [by rewrite Hk|].
  split; intros; [rewrite Hu|rewrite Hs]; auto.
Qed.

Context `{!Client S, !ClientLaws S}.
Context (levels_V : (levels V ≤ 100)%nat) (levels_VRes : (levels VRes ≤ 100)%nat).

(** A message that can be sent. *)
Definition sendable {M} `{!Message M, !MessageSpec M} (m : M) : Prop :=
  well_formed m ∧ len (encode (records m)) < max_len ∧ len (encode (records m)) ≤ message_limit.
Lemma decode_view_sent (m : Req) : sendable m → decode_view (encode_message m) = Ok (view_of (V := V) m).
Proof.
  intros (Hm & Hl & _). rewrite encode_message_spec by done.
  apply decode_view_spec; [done|done|apply interleaved_refl|done].
Qed.
Lemma sendable_limit (m : Req) : sendable m → len (encode_message m) ≤ message_limit.
Proof. intros (Hm & Hl & Hlim). by rewrite encode_message_spec. Qed.

(** A unary call runs the handler on the client's request and gives the client the
    handler's response. *)
Definition call_gives {A B} (call : outcome ConnectError B * S) (handled : outcome ConnectError A * S)
    (answer : A → Prop) (read : A → B) : Prop :=
  match handled with
  | (Ok res, σ') => answer res → call = (Ok (read res), σ')
  | (Err e, σ') => call = (Err e, σ')
  | (Panic, σ') => call = (Panic, σ')
  end.
End services.

Section remote.
Context {S : Type} `{ConnectLaws, !Client S, !ClientLaws S}.
Context {Req V Res VRes : Type} `{!Message Req, !MessageSpec Req, !MessageLaws Req}.
Context `{!Message V, !MessageSpec V, !MessageLaws V, !ToOwned V Req, !View V Req}.
Context `{!Message Res, !MessageSpec Res, !MessageLaws Res}.
Context `{!Message VRes, !MessageSpec VRes, !MessageLaws VRes, !ToOwned VRes Res, !View VRes Res}.

Lemma remote_unary (d : Dispatcher S) cfg s m (req : Req) opts
    (h : RequestContext → ServiceRequest V → st S ConnectError (Response Res)) :
  (levels V ≤ 100)%nat → (levels VRes ≤ 100)%nat →
  uses_proto cfg → serves_unary d (path_of s m) h → sendable req →
  ∃ ctx, ∀ σ, call_gives
    (client_call_unary (V := VRes) (connection d) cfg s m req opts σ)
    (h ctx (from_parts (view_of req) (encode_message req)) σ)
    (λ res, sendable (body res)) (map_body view_of).
Proof.
  intros HV HR Hcfg [Hk Hu] Hreq.
  destruct (client_call_unary_spec (V := VRes) d cfg s m req opts) as (ctx & p & Hp & Hc);
    [done..|by apply sendable_limit|].
  exists ctx. intros σ. rewrite Hc. unfold mbind, st_bind. rewrite Hu.
  unfold mbind, st_bind, st_lift. rewrite Hp.
  rewrite (decode_borrowed_request_view_spec _ (view_of req)) by by apply decode_view_sent.
  destruct (h _ _ σ) as [[res|e|] σ']; cbn [call_gives]; try done. intros Hres.
  rewrite encode_response_spec by apply Hres.
  rewrite (read_response_spec _ (view_of (body res)))
    by (rewrite body_map; first [by apply sendable_limit|by apply decode_view_sent]).
  rewrite map_body_map. do 2 f_equal. by apply map_body_ext.
Qed.

(** The items of a stream reach the client one by one. *)
Definition items_sendable (s : ServiceStream Res) : Prop := ∀ k m, s k = Some (Ok m) → sendable m.
Lemma remote_streaming (d : Dispatcher S) cfg s m (req : Req) opts
    (h : RequestContext → ServiceRequest V → st S ConnectError (Response (ServiceStream Res))) :
  (levels V ≤ 100)%nat → (levels VRes ≤ 100)%nat →
  uses_proto cfg → serves_streaming d (path_of s m) h → sendable req →
  ∃ ctx, ∀ σ, match h ctx (from_parts (view_of req) (encode_message req)) σ with
  | (Ok res, σ') => items_sendable (body res) → ∃ items,
      client_call_server_stream (V := VRes) (connection d) cfg s m req opts σ = (Ok items, σ') ∧
      ∀ k, items k = (λ item, m ← item; Ok (view_of m)) <$> body res k
  | (Err e, σ') => client_call_server_stream (V := VRes) (connection d) cfg s m req opts σ = (Err e, σ')
  | (Panic, σ') => client_call_server_stream (V := VRes) (connection d) cfg s m req opts σ = (Panic, σ')
  end.
Proof.
  intros HV HR Hcfg [Hk Hs] Hreq.
  destruct (client_call_server_stream_spec (V := VRes) d cfg s m req opts) as (ctx & Hc);
    [done..|by apply sendable_limit|].
  exists ctx. intros σ. rewrite Hc. unfold mbind, st_bind. rewrite Hs.
  unfold mbind, st_bind, st_lift.
  rewrite (decode_borrowed_request_view_spec _ (view_of req)) by by apply decode_view_sent.
  destruct (h _ _ σ) as [[res|e|] σ']; try done. intros Hitems. eexists. split; [done|].
  intros k. cbn. rewrite body_map. unfold encode_response_stream.
  destruct (body res k) as [[m'|e|]|] eqn:Hk'; [|done..]. specialize (Hitems k m' Hk'). cbn.
  rewrite encode_item_spec by apply Hitems. cbn. by rewrite (read_item_spec _ (view_of m')) by first [by apply sendable_limit|by apply decode_view_sent].
Qed.
End remote.
