(* ===== verification/Services.v ===== *)
(** The generated services (`proto/generated/connect/cusf.crypto.v1.rs`,
    `cusf.mainchain.v1.rs`): for each service its names, the class of its handlers, the
    registration of the handlers with a router, the dispatcher and the client. *)
From Stdlib Require Import ZArith Lia Strings.Byte Strings.String.
From stdpp Require Import base list.
From S2P Require Import Prelude Text Wire WireTypes WireView Connect.
From S2P Require Import ProtoCommon ProtoCrypto ProtoValidator ProtoWallet.
From S2P Require Import ProtoCommonView ProtoCryptoView ProtoValidatorView ProtoWalletView.
#[local] Open Scope Z_scope.

(** ** [cusf.crypto.v1.CryptoService] *)
Module CryptoService.
Definition CRYPTO_SERVICE_SERVICE_NAME : string := "cusf.crypto.v1.CryptoService".
Section service.
Context `{BuffaTypeViews, !Connect}.

Definition CRYPTO_SERVICE_HMAC_SHA512_SPEC : Spec :=
  with_idempotency_level IdempotencyLevel.Unknown (Spec_server "/cusf.crypto.v1.CryptoService/HmacSha512" Unary).
Definition CRYPTO_SERVICE_RIPEMD160_SPEC : Spec :=
  with_idempotency_level IdempotencyLevel.Unknown (Spec_server "/cusf.crypto.v1.CryptoService/Ripemd160" Unary).
Definition CRYPTO_SERVICE_SECP256K1_SECRET_KEY_TO_PUBLIC_KEY_SPEC : Spec :=
  with_idempotency_level IdempotencyLevel.Unknown (Spec_server "/cusf.crypto.v1.CryptoService/Secp256k1SecretKeyToPublicKey" Unary).
Definition CRYPTO_SERVICE_SECP256K1_SIGN_SPEC : Spec :=
  with_idempotency_level IdempotencyLevel.Unknown (Spec_server "/cusf.crypto.v1.CryptoService/Secp256k1Sign" Unary).
Definition CRYPTO_SERVICE_SECP256K1_VERIFY_SPEC : Spec :=
  with_idempotency_level IdempotencyLevel.Unknown (Spec_server "/cusf.crypto.v1.CryptoService/Secp256k1Verify" Unary).

(** The handlers, on the server state [S]. *)
Class CryptoService (S : Type) := {
  hmac_sha512 : RequestContext → ServiceRequest HmacSha512RequestView.HmacSha512RequestView →
    st S ConnectError (Response HmacSha512Response.HmacSha512Response);
  ripemd160 : RequestContext → ServiceRequest Ripemd160RequestView.Ripemd160RequestView →
    st S ConnectError (Response Ripemd160Response.Ripemd160Response);
  secp256k1_secret_key_to_public_key : RequestContext → ServiceRequest Secp256k1SecretKeyToPublicKeyRequestView.Secp256k1SecretKeyToPublicKeyRequestView →
    st S ConnectError (Response Secp256k1SecretKeyToPublicKeyResponse.Secp256k1SecretKeyToPublicKeyResponse);
  secp256k1_sign : RequestContext → ServiceRequest Secp256k1SignRequestView.Secp256k1SignRequestView →
    st S ConnectError (Response Secp256k1SignResponse.Secp256k1SignResponse);
  secp256k1_verify : RequestContext → ServiceRequest Secp256k1VerifyRequestView.Secp256k1VerifyRequestView →
    st S ConnectError (Response Secp256k1VerifyResponse.Secp256k1VerifyResponse);
}.

Context {S : Type} `{!CryptoService S}.
Definition register `{!Routing S} (router : Router) : Router :=
  let router := route_view CRYPTO_SERVICE_SERVICE_NAME "HmacSha512"
    (view_handler hmac_sha512) router in
  let router := router_with_spec CRYPTO_SERVICE_HMAC_SHA512_SPEC router in
  let router := route_view CRYPTO_SERVICE_SERVICE_NAME "Ripemd160"
    (view_handler ripemd160) router in
  let router := router_with_spec CRYPTO_SERVICE_RIPEMD160_SPEC router in
  let router := route_view CRYPTO_SERVICE_SERVICE_NAME "Secp256k1SecretKeyToPublicKey"
    (view_handler secp256k1_secret_key_to_public_key) router in
  let router := router_with_spec CRYPTO_SERVICE_SECP256K1_SECRET_KEY_TO_PUBLIC_KEY_SPEC router in
  let router := route_view CRYPTO_SERVICE_SERVICE_NAME "Secp256k1Sign"
    (view_handler secp256k1_sign) router in
  let router := router_with_spec CRYPTO_SERVICE_SECP256K1_SIGN_SPEC router in
  let router := route_view CRYPTO_SERVICE_SERVICE_NAME "Secp256k1Verify"
    (view_handler secp256k1_verify) router in
  let router := router_with_spec CRYPTO_SERVICE_SECP256K1_VERIFY_SPEC router in
  router.
Definition lookup (path : string) : option MethodDescriptor :=
  method ← strip_prefix "cusf.crypto.v1.CryptoService/" path;
  if String.eqb method "HmacSha512" then Some (with_spec CRYPTO_SERVICE_HMAC_SHA512_SPEC (unary false))
  else if String.eqb method "Ripemd160" then Some (with_spec CRYPTO_SERVICE_RIPEMD160_SPEC (unary false))
  else if String.eqb method "Secp256k1SecretKeyToPublicKey" then Some (with_spec CRYPTO_SERVICE_SECP256K1_SECRET_KEY_TO_PUBLIC_KEY_SPEC (unary false))
  else if String.eqb method "Secp256k1Sign" then Some (with_spec CRYPTO_SERVICE_SECP256K1_SIGN_SPEC (unary false))
  else if String.eqb method "Secp256k1Verify" then Some (with_spec CRYPTO_SERVICE_SECP256K1_VERIFY_SPEC (unary false))
  else None.
Definition call_unary (path : string) (ctx : RequestContext) (request : Payload) (format : CodecFormat) :
    st S ConnectError (Response bytes) :=
  match strip_prefix "cusf.crypto.v1.CryptoService/" path with
  | None => st_lift (unimplemented path)
  | Some method =>
      if String.eqb method "HmacSha512"
      then unary_arm (Req := HmacSha512Request.HmacSha512Request) hmac_sha512 ctx request format
      else if String.eqb method "Ripemd160"
      then unary_arm (Req := Ripemd160Request.Ripemd160Request) ripemd160 ctx request format
      else if String.eqb method "Secp256k1SecretKeyToPublicKey"
      then unary_arm (Req := Secp256k1SecretKeyToPublicKeyRequest.Secp256k1SecretKeyToPublicKeyRequest) secp256k1_secret_key_to_public_key ctx request format
      else if String.eqb method "Secp256k1Sign"
      then unary_arm (Req := Secp256k1SignRequest.Secp256k1SignRequest) secp256k1_sign ctx request format
      else if String.eqb method "Secp256k1Verify"
      then unary_arm (Req := Secp256k1VerifyRequest.Secp256k1VerifyRequest) secp256k1_verify ctx request format
      else st_lift (unimplemented path)
  end.
Definition call_server_streaming (path : string) (ctx : RequestContext) (request : bytes) (format : CodecFormat) :
    st S ConnectError (Response (ServiceStream bytes)) :=
  match strip_prefix "cusf.crypto.v1.CryptoService/" path with
  | None => st_lift (unimplemented path)
  | Some _ => st_lift (unimplemented path)
  end.
Definition call_client_streaming (path : string) (ctx : RequestContext) (requests : RequestStream) (format : CodecFormat) :
    st S ConnectError (Response bytes) :=
  match strip_prefix "cusf.crypto.v1.CryptoService/" path with
  | None => st_lift (unimplemented path)
  | Some _ => st_lift (unimplemented path)
  end.
Definition call_bidi_streaming (path : string) (ctx : RequestContext) (requests : RequestStream) (format : CodecFormat) :
    st S ConnectError (Response (ServiceStream bytes)) :=
  match strip_prefix "cusf.crypto.v1.CryptoService/" path with
  | None => st_lift (unimplemented path)
  | Some _ => st_lift (unimplemented path)
  end.
Definition CryptoServiceServer : Dispatcher S :=
  mkDispatcher S lookup call_unary call_server_streaming call_client_streaming call_bidi_streaming.
End service.
End CryptoService.

Module CryptoServiceClient.
Section client.
Context {S : Type} `{BuffaTypeViews, !Connect, !Client S}.

Record CryptoServiceClient := new { transport : Transport; config : ClientConfig }.
Definition config_mut (config : ClientConfig) (self : CryptoServiceClient) : CryptoServiceClient := new (transport self) config.
Definition hmac_sha512_with_options (self : CryptoServiceClient) (request : HmacSha512Request.HmacSha512Request)
    (options : CallOptions) : st S ConnectError (Response HmacSha512ResponseView.HmacSha512ResponseView) :=
  client_call_unary (transport self) (config self) CryptoService.CRYPTO_SERVICE_SERVICE_NAME "HmacSha512" request options.
Definition hmac_sha512 (self : CryptoServiceClient) (request : HmacSha512Request.HmacSha512Request) :
    st S ConnectError (Response HmacSha512ResponseView.HmacSha512ResponseView) :=
  hmac_sha512_with_options self request default_options.
Definition ripemd160_with_options (self : CryptoServiceClient) (request : Ripemd160Request.Ripemd160Request)
    (options : CallOptions) : st S ConnectError (Response Ripemd160ResponseView.Ripemd160ResponseView) :=
  client_call_unary (transport self) (config self) CryptoService.CRYPTO_SERVICE_SERVICE_NAME "Ripemd160" request options.
Definition ripemd160 (self : CryptoServiceClient) (request : Ripemd160Request.Ripemd160Request) :
    st S ConnectError (Response Ripemd160ResponseView.Ripemd160ResponseView) :=
  ripemd160_with_options self request default_options.
Definition secp256k1_secret_key_to_public_key_with_options (self : CryptoServiceClient) (request : Secp256k1SecretKeyToPublicKeyRequest.Secp256k1SecretKeyToPublicKeyRequest)
    (options : CallOptions) : st S ConnectError (Response Secp256k1SecretKeyToPublicKeyResponseView.Secp256k1SecretKeyToPublicKeyResponseView) :=
  client_call_unary (transport self) (config self) CryptoService.CRYPTO_SERVICE_SERVICE_NAME "Secp256k1SecretKeyToPublicKey" request options.
Definition secp256k1_secret_key_to_public_key (self : CryptoServiceClient) (request : Secp256k1SecretKeyToPublicKeyRequest.Secp256k1SecretKeyToPublicKeyRequest) :
    st S ConnectError (Response Secp256k1SecretKeyToPublicKeyResponseView.Secp256k1SecretKeyToPublicKeyResponseView) :=
  secp256k1_secret_key_to_public_key_with_options self request default_options.
Definition secp256k1_sign_with_options (self : CryptoServiceClient) (request : Secp256k1SignRequest.Secp256k1SignRequest)
    (options : CallOptions) : st S ConnectError (Response Secp256k1SignResponseView.Secp256k1SignResponseView) :=
  client_call_unary (transport self) (config self) CryptoService.CRYPTO_SERVICE_SERVICE_NAME "Secp256k1Sign" request options.
Definition secp256k1_sign (self : CryptoServiceClient) (request : Secp256k1SignRequest.Secp256k1SignRequest) :
    st S ConnectError (Response Secp256k1SignResponseView.Secp256k1SignResponseView) :=
  secp256k1_sign_with_options self request default_options.
Definition secp256k1_verify_with_options (self : CryptoServiceClient) (request : Secp256k1VerifyRequest.Secp256k1VerifyRequest)
    (options : CallOptions) : st S ConnectError (Response Secp256k1VerifyResponseView.Secp256k1VerifyResponseView) :=
  client_call_unary (transport self) (config self) CryptoService.CRYPTO_SERVICE_SERVICE_NAME "Secp256k1Verify" request options.
Definition secp256k1_verify (self : CryptoServiceClient) (request : Secp256k1VerifyRequest.Secp256k1VerifyRequest) :
    st S ConnectError (Response Secp256k1VerifyResponseView.Secp256k1VerifyResponseView) :=
  secp256k1_verify_with_options self request default_options.
End client.
End CryptoServiceClient.

(** ** [cusf.mainchain.v1.MiningService] *)
Module MiningService.
Definition MINING_SERVICE_SERVICE_NAME : string := "cusf.mainchain.v1.MiningService".
Section service.
Context `{BuffaTypeViews, !Connect}.

Definition MINING_SERVICE_GENERATE_TO_ADDRESS_SPEC : Spec :=
  with_idempotency_level IdempotencyLevel.Unknown (Spec_server "/cusf.mainchain.v1.MiningService/GenerateToAddress" Unary).

(** The handlers, on the server state [S]. *)
Class MiningService (S : Type) := {
  generate_to_address : RequestContext → ServiceRequest GenerateToAddressRequestView.GenerateToAddressRequestView →
    st S ConnectError (Response GenerateToAddressResponse.GenerateToAddressResponse);
}.

Context {S : Type} `{!MiningService S}.
Definition register `{!Routing S} (router : Router) : Router :=
  let router := route_view MINING_SERVICE_SERVICE_NAME "GenerateToAddress"
    (view_handler generate_to_address) router in
  let router := router_with_spec MINING_SERVICE_GENERATE_TO_ADDRESS_SPEC router in
  router.
Definition lookup (path : string) : option MethodDescriptor :=
  method ← strip_prefix "cusf.mainchain.v1.MiningService/" path;
  if String.eqb method "GenerateToAddress" then Some (with_spec MINING_SERVICE_GENERATE_TO_ADDRESS_SPEC (unary false))
  else None.
Definition call_unary (path : string) (ctx : RequestContext) (request : Payload) (format : CodecFormat) :
    st S ConnectError (Response bytes) :=
  match strip_prefix "cusf.mainchain.v1.MiningService/" path with
  | None => st_lift (unimplemented path)
  | Some method =>
      if String.eqb method "GenerateToAddress"
      then unary_arm (Req := GenerateToAddressRequest.GenerateToAddressRequest) generate_to_address ctx request format
      else st_lift (unimplemented path)
  end.
Definition call_server_streaming (path : string) (ctx : RequestContext) (request : bytes) (format : CodecFormat) :
    st S ConnectError (Response (ServiceStream bytes)) :=
  match strip_prefix "cusf.mainchain.v1.MiningService/" path with
  | None => st_lift (unimplemented path)
  | Some _ => st_lift (unimplemented path)
  end.
Definition call_client_streaming (path : string) (ctx : RequestContext) (requests : RequestStream) (format : CodecFormat) :
    st S ConnectError (Response bytes) :=
  match strip_prefix "cusf.mainchain.v1.MiningService/" path with
  | None => st_lift (unimplemented path)
  | Some _ => st_lift (unimplemented path)
  end.
Definition call_bidi_streaming (path : string) (ctx : RequestContext) (requests : RequestStream) (format : CodecFormat) :
    st S ConnectError (Response (ServiceStream bytes)) :=
  match strip_prefix "cusf.mainchain.v1.MiningService/" path with
  | None => st_lift (unimplemented path)
  | Some _ => st_lift (unimplemented path)
  end.
Definition MiningServiceServer : Dispatcher S :=
  mkDispatcher S lookup call_unary call_server_streaming call_client_streaming call_bidi_streaming.
End service.
End MiningService.

Module MiningServiceClient.
Section client.
Context {S : Type} `{BuffaTypeViews, !Connect, !Client S}.

Record MiningServiceClient := new { transport : Transport; config : ClientConfig }.
Definition config_mut (config : ClientConfig) (self : MiningServiceClient) : MiningServiceClient := new (transport self) config.
Definition generate_to_address_with_options (self : MiningServiceClient) (request : GenerateToAddressRequest.GenerateToAddressRequest)
    (options : CallOptions) : st S ConnectError (Response GenerateToAddressResponseView.GenerateToAddressResponseView) :=
  client_call_unary (transport self) (config self) MiningService.MINING_SERVICE_SERVICE_NAME "GenerateToAddress" request options.
Definition generate_to_address (self : MiningServiceClient) (request : GenerateToAddressRequest.GenerateToAddressRequest) :
    st S ConnectError (Response GenerateToAddressResponseView.GenerateToAddressResponseView) :=
  generate_to_address_with_options self request default_options.
End client.
End MiningServiceClient.

(** ** [cusf.mainchain.v1.ValidatorService] *)
Module ValidatorService.
Definition VALIDATOR_SERVICE_SERVICE_NAME : string := "cusf.mainchain.v1.ValidatorService".
Section service.
Context `{BuffaTypeViews, !Connect}.

Definition VALIDATOR_SERVICE_GET_BLOCK_HEADER_INFO_SPEC : Spec :=
  with_idempotency_level IdempotencyLevel.NoSideEffects (Spec_server "/cusf.mainchain.v1.ValidatorService/GetBlockHeaderInfo" Unary).
Definition VALIDATOR_SERVICE_GET_BLOCK_INFO_SPEC : Spec :=
  with_idempotency_level IdempotencyLevel.NoSideEffects (Spec_server "/cusf.mainchain.v1.ValidatorService/GetBlockInfo" Unary).
Definition VALIDATOR_SERVICE_GET_CHAIN_INFO_SPEC : Spec :=
  with_idempotency_level IdempotencyLevel.NoSideEffects (Spec_server "/cusf.mainchain.v1.ValidatorService/GetChainInfo" Unary).
Definition VALIDATOR_SERVICE_GET_CHAIN_TIP_SPEC : Spec :=
  with_idempotency_level IdempotencyLevel.NoSideEffects (Spec_server "/cusf.mainchain.v1.ValidatorService/GetChainTip" Unary).
Definition VALIDATOR_SERVICE_SUBSCRIBE_EVENTS_SPEC : Spec :=
  with_idempotency_level IdempotencyLevel.NoSideEffects (Spec_server "/cusf.mainchain.v1.ValidatorService/SubscribeEvents" ServerStream).
Definition VALIDATOR_SERVICE_SUBSCRIBE_HEADER_SYNC_PROGRESS_SPEC : Spec :=
  with_idempotency_level IdempotencyLevel.NoSideEffects (Spec_server "/cusf.mainchain.v1.ValidatorService/SubscribeHeaderSyncProgress" ServerStream).
Definition VALIDATOR_SERVICE_STOP_SPEC : Spec :=
  with_idempotency_level IdempotencyLevel.Idempotent (Spec_server "/cusf.mainchain.v1.ValidatorService/Stop" Unary).

(** The handlers, on the server state [S]. *)
Class ValidatorService (S : Type) := {
  get_block_header_info : RequestContext → ServiceRequest GetBlockHeaderInfoRequestView.GetBlockHeaderInfoRequestView →
    st S ConnectError (Response GetBlockHeaderInfoResponse.GetBlockHeaderInfoResponse);
  get_block_info : RequestContext → ServiceRequest GetBlockInfoRequestView.GetBlockInfoRequestView →
    st S ConnectError (Response GetBlockInfoResponse.GetBlockInfoResponse);
  get_chain_info : RequestContext → ServiceRequest GetChainInfoRequestView.GetChainInfoRequestView →
    st S ConnectError (Response GetChainInfoResponse.GetChainInfoResponse);
  get_chain_tip : RequestContext → ServiceRequest GetChainTipRequestView.GetChainTipRequestView →
    st S ConnectError (Response GetChainTipResponse.GetChainTipResponse);
  subscribe_events : RequestContext → ServiceRequest SubscribeEventsRequestView.SubscribeEventsRequestView →
    st S ConnectError (Response (ServiceStream SubscribeEventsResponse.SubscribeEventsResponse));
  subscribe_header_sync_progress : RequestContext → ServiceRequest SubscribeHeaderSyncProgressRequestView.SubscribeHeaderSyncProgressRequestView →
    st S ConnectError (Response (ServiceStream SubscribeHeaderSyncProgressResponse.SubscribeHeaderSyncProgressResponse));
  stop : RequestContext → ServiceRequest StopRequestView.StopRequestView →
    st S ConnectError (Response StopResponse.StopResponse);
}.

Context {S : Type} `{!ValidatorService S}.
Definition register `{!Routing S} (router : Router) : Router :=
  let router := route_view_idempotent VALIDATOR_SERVICE_SERVICE_NAME "GetBlockHeaderInfo"
    (view_handler get_block_header_info) router in
  let router := router_with_spec VALIDATOR_SERVICE_GET_BLOCK_HEADER_INFO_SPEC router in
  let router := route_view_idempotent VALIDATOR_SERVICE_SERVICE_NAME "GetBlockInfo"
    (view_handler get_block_info) router in
  let router := router_with_spec VALIDATOR_SERVICE_GET_BLOCK_INFO_SPEC router in
  let router := route_view_idempotent VALIDATOR_SERVICE_SERVICE_NAME "GetChainInfo"
    (view_handler get_chain_info) router in
  let router := router_with_spec VALIDATOR_SERVICE_GET_CHAIN_INFO_SPEC router in
  let router := route_view_idempotent VALIDATOR_SERVICE_SERVICE_NAME "GetChainTip"
    (view_handler get_chain_tip) router in
  let router := router_with_spec VALIDATOR_SERVICE_GET_CHAIN_TIP_SPEC router in
  let router := route_view_server_stream VALIDATOR_SERVICE_SERVICE_NAME "SubscribeEvents"
    (view_streaming_handler subscribe_events) router in
  let router := router_with_spec VALIDATOR_SERVICE_SUBSCRIBE_EVENTS_SPEC router in
  let router := route_view_server_stream VALIDATOR_SERVICE_SERVICE_NAME "SubscribeHeaderSyncProgress"
    (view_streaming_handler subscribe_header_sync_progress) router in
  let router := router_with_spec VALIDATOR_SERVICE_SUBSCRIBE_HEADER_SYNC_PROGRESS_SPEC router in
  let router := route_view VALIDATOR_SERVICE_SERVICE_NAME "Stop"
    (view_handler stop) router in
  let router := router_with_spec VALIDATOR_SERVICE_STOP_SPEC router in
  router.
Definition lookup (path : string) : option MethodDescriptor :=
  method ← strip_prefix "cusf.mainchain.v1.ValidatorService/" path;
  if String.eqb method "GetBlockHeaderInfo" then Some (with_spec VALIDATOR_SERVICE_GET_BLOCK_HEADER_INFO_SPEC (unary true))
  else if String.eqb method "GetBlockInfo" then Some (with_spec VALIDATOR_SERVICE_GET_BLOCK_INFO_SPEC (unary true))
  else if String.eqb method "GetChainInfo" then Some (with_spec VALIDATOR_SERVICE_GET_CHAIN_INFO_SPEC (unary true))
  else if String.eqb method "GetChainTip" then Some (with_spec VALIDATOR_SERVICE_GET_CHAIN_TIP_SPEC (unary true))
  else if String.eqb method "SubscribeEvents" then Some (with_spec VALIDATOR_SERVICE_SUBSCRIBE_EVENTS_SPEC server_streaming)
  else if String.eqb method "SubscribeHeaderSyncProgress" then Some (with_spec VALIDATOR_SERVICE_SUBSCRIBE_HEADER_SYNC_PROGRESS_SPEC server_streaming)
  else if String.eqb method "Stop" then Some (with_spec VALIDATOR_SERVICE_STOP_SPEC (unary false))
  else None.
Definition call_unary (path : string) (ctx : RequestContext) (request : Payload) (format : CodecFormat) :
    st S ConnectError (Response bytes) :=
  match strip_prefix "cusf.mainchain.v1.ValidatorService/" path with
  | None => st_lift (unimplemented path)
  | Some method =>
      if String.eqb method "GetBlockHeaderInfo"
      then unary_arm (Req := GetBlockHeaderInfoRequest.GetBlockHeaderInfoRequest) get_block_header_info ctx request format
      else if String.eqb method "GetBlockInfo"
      then unary_arm (Req := GetBlockInfoRequest.GetBlockInfoRequest) get_block_info ctx request format
      else if String.eqb method "GetChainInfo"
      then unary_arm (Req := GetChainInfoRequest.GetChainInfoRequest) get_chain_info ctx request format
      else if String.eqb method "GetChainTip"
      then unary_arm (Req := GetChainTipRequest.GetChainTipRequest) get_chain_tip ctx request format
      else if String.eqb method "Stop"
      then unary_arm (Req := StopRequest.StopRequest) stop ctx request format
      else st_lift (unimplemented path)
  end.
Definition call_server_streaming (path : string) (ctx : RequestContext) (request : bytes) (format : CodecFormat) :
    st S ConnectError (Response (ServiceStream bytes)) :=
  match strip_prefix "cusf.mainchain.v1.ValidatorService/" path with
  | None => st_lift (unimplemented path)
  | Some method =>
      if String.eqb method "SubscribeEvents"
      then streaming_arm (Req := SubscribeEventsRequest.SubscribeEventsRequest) subscribe_events ctx request format
      else if String.eqb method "SubscribeHeaderSyncProgress"
      then streaming_arm (Req := SubscribeHeaderSyncProgressRequest.SubscribeHeaderSyncProgressRequest) subscribe_header_sync_progress ctx request format
      else st_lift (unimplemented path)
  end.
Definition call_client_streaming (path : string) (ctx : RequestContext) (requests : RequestStream) (format : CodecFormat) :
    st S ConnectError (Response bytes) :=
  match strip_prefix "cusf.mainchain.v1.ValidatorService/" path with
  | None => st_lift (unimplemented path)
  | Some _ => st_lift (unimplemented path)
  end.
Definition call_bidi_streaming (path : string) (ctx : RequestContext) (requests : RequestStream) (format : CodecFormat) :
    st S ConnectError (Response (ServiceStream bytes)) :=
  match strip_prefix "cusf.mainchain.v1.ValidatorService/" path with
  | None => st_lift (unimplemented path)
  | Some _ => st_lift (unimplemented path)
  end.
Definition ValidatorServiceServer : Dispatcher S :=
  mkDispatcher S lookup call_unary call_server_streaming call_client_streaming call_bidi_streaming.
End service.
End ValidatorService.

Module ValidatorServiceClient.
Section client.
Context {S : Type} `{BuffaTypeViews, !Connect, !Client S}.

Record ValidatorServiceClient := new { transport : Transport; config : ClientConfig }.
Definition config_mut (config : ClientConfig) (self : ValidatorServiceClient) : ValidatorServiceClient := new (transport self) config.
Definition get_block_header_info_with_options (self : ValidatorServiceClient) (request : GetBlockHeaderInfoRequest.GetBlockHeaderInfoRequest)
    (options : CallOptions) : st S ConnectError (Response GetBlockHeaderInfoResponseView.GetBlockHeaderInfoResponseView) :=
  client_call_unary (transport self) (config self) ValidatorService.VALIDATOR_SERVICE_SERVICE_NAME "GetBlockHeaderInfo" request options.
Definition get_block_header_info (self : ValidatorServiceClient) (request : GetBlockHeaderInfoRequest.GetBlockHeaderInfoRequest) :
    st S ConnectError (Response GetBlockHeaderInfoResponseView.GetBlockHeaderInfoResponseView) :=
  get_block_header_info_with_options self request default_options.
Definition get_block_info_with_options (self : ValidatorServiceClient) (request : GetBlockInfoRequest.GetBlockInfoRequest)
    (options : CallOptions) : st S ConnectError (Response GetBlockInfoResponseView.GetBlockInfoResponseView) :=
  client_call_unary (transport self) (config self) ValidatorService.VALIDATOR_SERVICE_SERVICE_NAME "GetBlockInfo" request options.
Definition get_block_info (self : ValidatorServiceClient) (request : GetBlockInfoRequest.GetBlockInfoRequest) :
    st S ConnectError (Response GetBlockInfoResponseView.GetBlockInfoResponseView) :=
  get_block_info_with_options self request default_options.
Definition get_chain_info_with_options (self : ValidatorServiceClient) (request : GetChainInfoRequest.GetChainInfoRequest)
    (options : CallOptions) : st S ConnectError (Response GetChainInfoResponseView.GetChainInfoResponseView) :=
  client_call_unary (transport self) (config self) ValidatorService.VALIDATOR_SERVICE_SERVICE_NAME "GetChainInfo" request options.
Definition get_chain_info (self : ValidatorServiceClient) (request : GetChainInfoRequest.GetChainInfoRequest) :
    st S ConnectError (Response GetChainInfoResponseView.GetChainInfoResponseView) :=
  get_chain_info_with_options self request default_options.
Definition get_chain_tip_with_options (self : ValidatorServiceClient) (request : GetChainTipRequest.GetChainTipRequest)
    (options : CallOptions) : st S ConnectError (Response GetChainTipResponseView.GetChainTipResponseView) :=
  client_call_unary (transport self) (config self) ValidatorService.VALIDATOR_SERVICE_SERVICE_NAME "GetChainTip" request options.
Definition get_chain_tip (self : ValidatorServiceClient) (request : GetChainTipRequest.GetChainTipRequest) :
    st S ConnectError (Response GetChainTipResponseView.GetChainTipResponseView) :=
  get_chain_tip_with_options self request default_options.
Definition subscribe_events_with_options (self : ValidatorServiceClient) (request : SubscribeEventsRequest.SubscribeEventsRequest)
    (options : CallOptions) : st S ConnectError (ServiceStream SubscribeEventsResponseView.SubscribeEventsResponseView) :=
  client_call_server_stream (transport self) (config self) ValidatorService.VALIDATOR_SERVICE_SERVICE_NAME "SubscribeEvents" request options.
Definition subscribe_events (self : ValidatorServiceClient) (request : SubscribeEventsRequest.SubscribeEventsRequest) :
    st S ConnectError (ServiceStream SubscribeEventsResponseView.SubscribeEventsResponseView) :=
  subscribe_events_with_options self request default_options.
Definition subscribe_header_sync_progress_with_options (self : ValidatorServiceClient) (request : SubscribeHeaderSyncProgressRequest.SubscribeHeaderSyncProgressRequest)
    (options : CallOptions) : st S ConnectError (ServiceStream SubscribeHeaderSyncProgressResponseView.SubscribeHeaderSyncProgressResponseView) :=
  client_call_server_stream (transport self) (config self) ValidatorService.VALIDATOR_SERVICE_SERVICE_NAME "SubscribeHeaderSyncProgress" request options.
Definition subscribe_header_sync_progress (self : ValidatorServiceClient) (request : SubscribeHeaderSyncProgressRequest.SubscribeHeaderSyncProgressRequest) :
    st S ConnectError (ServiceStream SubscribeHeaderSyncProgressResponseView.SubscribeHeaderSyncProgressResponseView) :=
  subscribe_header_sync_progress_with_options self request default_options.
Definition stop_with_options (self : ValidatorServiceClient) (request : StopRequest.StopRequest)
    (options : CallOptions) : st S ConnectError (Response StopResponseView.StopResponseView) :=
  client_call_unary (transport self) (config self) ValidatorService.VALIDATOR_SERVICE_SERVICE_NAME "Stop" request options.
Definition stop (self : ValidatorServiceClient) (request : StopRequest.StopRequest) :
    st S ConnectError (Response StopResponseView.StopResponseView) :=
  stop_with_options self request default_options.
End client.
End ValidatorServiceClient.

(** ** [cusf.mainchain.v1.WalletService] *)
Module WalletService.
Definition WALLET_SERVICE_SERVICE_NAME : string := "cusf.mainchain.v1.WalletService".
Section service.
Context `{BuffaTypeViews, !Connect}.

Definition WALLET_SERVICE_CREATE_NEW_ADDRESS_SPEC : Spec :=
  with_idempotency_level IdempotencyLevel.Unknown (Spec_server "/cusf.mainchain.v1.WalletService/CreateNewAddress" Unary).
Definition WALLET_SERVICE_CREATE_WALLET_SPEC : Spec :=
  with_idempotency_level IdempotencyLevel.Unknown (Spec_server "/cusf.mainchain.v1.WalletService/CreateWallet" Unary).
Definition WALLET_SERVICE_GET_BALANCE_SPEC : Spec :=
  with_idempotency_level IdempotencyLevel.NoSideEffects (Spec_server "/cusf.mainchain.v1.WalletService/GetBalance" Unary).
Definition WALLET_SERVICE_LIST_TRANSACTIONS_SPEC : Spec :=
  with_idempotency_level IdempotencyLevel.NoSideEffects (Spec_server "/cusf.mainchain.v1.WalletService/ListTransactions" Unary).
Definition WALLET_SERVICE_LIST_UNSPENT_OUTPUTS_SPEC : Spec :=
  with_idempotency_level IdempotencyLevel.NoSideEffects (Spec_server "/cusf.mainchain.v1.WalletService/ListUnspentOutputs" Unary).
Definition WALLET_SERVICE_GET_INFO_SPEC : Spec :=
  with_idempotency_level IdempotencyLevel.NoSideEffects (Spec_server "/cusf.mainchain.v1.WalletService/GetInfo" Unary).
Definition WALLET_SERVICE_SEND_TRANSACTION_SPEC : Spec :=
  with_idempotency_level IdempotencyLevel.Unknown (Spec_server "/cusf.mainchain.v1.WalletService/SendTransaction" Unary).
Definition WALLET_SERVICE_UNLOCK_WALLET_SPEC : Spec :=
  with_idempotency_level IdempotencyLevel.Idempotent (Spec_server "/cusf.mainchain.v1.WalletService/UnlockWallet" Unary).
Definition WALLET_SERVICE_CREATE_P2MR_ADDRESS_SPEC : Spec :=
  with_idempotency_level IdempotencyLevel.Unknown (Spec_server "/cusf.mainchain.v1.WalletService/CreateP2mrAddress" Unary).
Definition WALLET_SERVICE_LIST_P2MR_OUTPUTS_SPEC : Spec :=
  with_idempotency_level IdempotencyLevel.NoSideEffects (Spec_server "/cusf.mainchain.v1.WalletService/ListP2mrOutputs" Unary).
Definition WALLET_SERVICE_SPEND_P2MR_SPEC : Spec :=
  with_idempotency_level IdempotencyLevel.Unknown (Spec_server "/cusf.mainchain.v1.WalletService/SpendP2mr" Unary).

(** The handlers, on the server state [S]. *)
Class WalletService (S : Type) := {
  create_new_address : RequestContext → ServiceRequest CreateNewAddressRequestView.CreateNewAddressRequestView →
    st S ConnectError (Response CreateNewAddressResponse.CreateNewAddressResponse);
  create_wallet : RequestContext → ServiceRequest CreateWalletRequestView.CreateWalletRequestView →
    st S ConnectError (Response CreateWalletResponse.CreateWalletResponse);
  get_balance : RequestContext → ServiceRequest GetBalanceRequestView.GetBalanceRequestView →
    st S ConnectError (Response GetBalanceResponse.GetBalanceResponse);
  list_transactions : RequestContext → ServiceRequest ListTransactionsRequestView.ListTransactionsRequestView →
    st S ConnectError (Response ListTransactionsResponse.ListTransactionsResponse);
  list_unspent_outputs : RequestContext → ServiceRequest ListUnspentOutputsRequestView.ListUnspentOutputsRequestView →
    st S ConnectError (Response ListUnspentOutputsResponse.ListUnspentOutputsResponse);
  get_info : RequestContext → ServiceRequest GetInfoRequestView.GetInfoRequestView →
    st S ConnectError (Response GetInfoResponse.GetInfoResponse);
  send_transaction : RequestContext → ServiceRequest SendTransactionRequestView.SendTransactionRequestView →
    st S ConnectError (Response SendTransactionResponse.SendTransactionResponse);
  unlock_wallet : RequestContext → ServiceRequest UnlockWalletRequestView.UnlockWalletRequestView →
    st S ConnectError (Response UnlockWalletResponse.UnlockWalletResponse);
  create_p2mr_address : RequestContext → ServiceRequest CreateP2mrAddressRequestView.CreateP2mrAddressRequestView →
    st S ConnectError (Response CreateP2mrAddressResponse.CreateP2mrAddressResponse);
  list_p2mr_outputs : RequestContext → ServiceRequest ListP2mrOutputsRequestView.ListP2mrOutputsRequestView →
    st S ConnectError (Response ListP2mrOutputsResponse.ListP2mrOutputsResponse);
  spend_p2mr : RequestContext → ServiceRequest SpendP2mrRequestView.SpendP2mrRequestView →
    st S ConnectError (Response SpendP2mrResponse.SpendP2mrResponse);
}.

Context {S : Type} `{!WalletService S}.
Definition register `{!Routing S} (router : Router) : Router :=
  let router := route_view WALLET_SERVICE_SERVICE_NAME "CreateNewAddress"
    (view_handler create_new_address) router in
  let router := router_with_spec WALLET_SERVICE_CREATE_NEW_ADDRESS_SPEC router in
  let router := route_view WALLET_SERVICE_SERVICE_NAME "CreateWallet"
    (view_handler create_wallet) router in
  let router := router_with_spec WALLET_SERVICE_CREATE_WALLET_SPEC router in
  let router := route_view_idempotent WALLET_SERVICE_SERVICE_NAME "GetBalance"
    (view_handler get_balance) router in
  let router := router_with_spec WALLET_SERVICE_GET_BALANCE_SPEC router in
  let router := route_view_idempotent WALLET_SERVICE_SERVICE_NAME "ListTransactions"
    (view_handler list_transactions) router in
  let router := router_with_spec WALLET_SERVICE_LIST_TRANSACTIONS_SPEC router in
  let router := route_view_idempotent WALLET_SERVICE_SERVICE_NAME "ListUnspentOutputs"
    (view_handler list_unspent_outputs) router in
  let router := router_with_spec WALLET_SERVICE_LIST_UNSPENT_OUTPUTS_SPEC router in
  let router := route_view_idempotent WALLET_SERVICE_SERVICE_NAME "GetInfo"
    (view_handler get_info) router in
  let router := router_with_spec WALLET_SERVICE_GET_INFO_SPEC router in
  let router := route_view WALLET_SERVICE_SERVICE_NAME "SendTransaction"
    (view_handler send_transaction) router in
  let router := router_with_spec WALLET_SERVICE_SEND_TRANSACTION_SPEC router in
  let router := route_view WALLET_SERVICE_SERVICE_NAME "UnlockWallet"
    (view_handler unlock_wallet) router in
  let router := router_with_spec WALLET_SERVICE_UNLOCK_WALLET_SPEC router in
  let router := route_view WALLET_SERVICE_SERVICE_NAME "CreateP2mrAddress"
    (view_handler create_p2mr_address) router in
  let router := router_with_spec WALLET_SERVICE_CREATE_P2MR_ADDRESS_SPEC router in
  let router := route_view_idempotent WALLET_SERVICE_SERVICE_NAME "ListP2mrOutputs"
    (view_handler list_p2mr_outputs) router in
  let router := router_with_spec WALLET_SERVICE_LIST_P2MR_OUTPUTS_SPEC router in
  let router := route_view WALLET_SERVICE_SERVICE_NAME "SpendP2mr"
    (view_handler spend_p2mr) router in
  let router := router_with_spec WALLET_SERVICE_SPEND_P2MR_SPEC router in
  router.
Definition lookup (path : string) : option MethodDescriptor :=
  method ← strip_prefix "cusf.mainchain.v1.WalletService/" path;
  if String.eqb method "CreateNewAddress" then Some (with_spec WALLET_SERVICE_CREATE_NEW_ADDRESS_SPEC (unary false))
  else if String.eqb method "CreateWallet" then Some (with_spec WALLET_SERVICE_CREATE_WALLET_SPEC (unary false))
  else if String.eqb method "GetBalance" then Some (with_spec WALLET_SERVICE_GET_BALANCE_SPEC (unary true))
  else if String.eqb method "ListTransactions" then Some (with_spec WALLET_SERVICE_LIST_TRANSACTIONS_SPEC (unary true))
  else if String.eqb method "ListUnspentOutputs" then Some (with_spec WALLET_SERVICE_LIST_UNSPENT_OUTPUTS_SPEC (unary true))
  else if String.eqb method "GetInfo" then Some (with_spec WALLET_SERVICE_GET_INFO_SPEC (unary true))
  else if String.eqb method "SendTransaction" then Some (with_spec WALLET_SERVICE_SEND_TRANSACTION_SPEC (unary false))
  else if String.eqb method "UnlockWallet" then Some (with_spec WALLET_SERVICE_UNLOCK_WALLET_SPEC (unary false))
  else if String.eqb method "CreateP2mrAddress" then Some (with_spec WALLET_SERVICE_CREATE_P2MR_ADDRESS_SPEC (unary false))
  else if String.eqb method "ListP2mrOutputs" then Some (with_spec WALLET_SERVICE_LIST_P2MR_OUTPUTS_SPEC (unary true))
  else if String.eqb method "SpendP2mr" then Some (with_spec WALLET_SERVICE_SPEND_P2MR_SPEC (unary false))
  else None.
Definition call_unary (path : string) (ctx : RequestContext) (request : Payload) (format : CodecFormat) :
    st S ConnectError (Response bytes) :=
  match strip_prefix "cusf.mainchain.v1.WalletService/" path with
  | None => st_lift (unimplemented path)
  | Some method =>
      if String.eqb method "CreateNewAddress"
      then unary_arm (Req := CreateNewAddressRequest.CreateNewAddressRequest) create_new_address ctx request format
      else if String.eqb method "CreateWallet"
      then unary_arm (Req := CreateWalletRequest.CreateWalletRequest) create_wallet ctx request format
      else if String.eqb method "GetBalance"
      then unary_arm (Req := GetBalanceRequest.GetBalanceRequest) get_balance ctx request format
      else if String.eqb method "ListTransactions"
      then unary_arm (Req := ListTransactionsRequest.ListTransactionsRequest) list_transactions ctx request format
      else if String.eqb method "ListUnspentOutputs"
      then unary_arm (Req := ListUnspentOutputsRequest.ListUnspentOutputsRequest) list_unspent_outputs ctx request format
      else if String.eqb method "GetInfo"
      then unary_arm (Req := GetInfoRequest.GetInfoRequest) get_info ctx request format
      else if String.eqb method "SendTransaction"
      then unary_arm (Req := SendTransactionRequest.SendTransactionRequest) send_transaction ctx request format
      else if String.eqb method "UnlockWallet"
      then unary_arm (Req := UnlockWalletRequest.UnlockWalletRequest) unlock_wallet ctx request format
      else if String.eqb method "CreateP2mrAddress"
      then unary_arm (Req := CreateP2mrAddressRequest.CreateP2mrAddressRequest) create_p2mr_address ctx request format
      else if String.eqb method "ListP2mrOutputs"
      then unary_arm (Req := ListP2mrOutputsRequest.ListP2mrOutputsRequest) list_p2mr_outputs ctx request format
      else if String.eqb method "SpendP2mr"
      then unary_arm (Req := SpendP2mrRequest.SpendP2mrRequest) spend_p2mr ctx request format
      else st_lift (unimplemented path)
  end.
Definition call_server_streaming (path : string) (ctx : RequestContext) (request : bytes) (format : CodecFormat) :
    st S ConnectError (Response (ServiceStream bytes)) :=
  match strip_prefix "cusf.mainchain.v1.WalletService/" path with
  | None => st_lift (unimplemented path)
  | Some _ => st_lift (unimplemented path)
  end.
Definition call_client_streaming (path : string) (ctx : RequestContext) (requests : RequestStream) (format : CodecFormat) :
    st S ConnectError (Response bytes) :=
  match strip_prefix "cusf.mainchain.v1.WalletService/" path with
  | None => st_lift (unimplemented path)
  | Some _ => st_lift (unimplemented path)
  end.
Definition call_bidi_streaming (path : string) (ctx : RequestContext) (requests : RequestStream) (format : CodecFormat) :
    st S ConnectError (Response (ServiceStream bytes)) :=
  match strip_prefix "cusf.mainchain.v1.WalletService/" path with
  | None => st_lift (unimplemented path)
  | Some _ => st_lift (unimplemented path)
  end.
Definition WalletServiceServer : Dispatcher S :=
  mkDispatcher S lookup call_unary call_server_streaming call_client_streaming call_bidi_streaming.
End service.
End WalletService.

Module WalletServiceClient.
Section client.
Context {S : Type} `{BuffaTypeViews, !Connect, !Client S}.

Record WalletServiceClient := new { transport : Transport; config : ClientConfig }.
Definition config_mut (config : ClientConfig) (self : WalletServiceClient) : WalletServiceClient := new (transport self) config.
Definition create_new_address_with_options (self : WalletServiceClient) (request : CreateNewAddressRequest.CreateNewAddressRequest)
    (options : CallOptions) : st S ConnectError (Response CreateNewAddressResponseView.CreateNewAddressResponseView) :=
  client_call_unary (transport self) (config self) WalletService.WALLET_SERVICE_SERVICE_NAME "CreateNewAddress" request options.
Definition create_new_address (self : WalletServiceClient) (request : CreateNewAddressRequest.CreateNewAddressRequest) :
    st S ConnectError (Response CreateNewAddressResponseView.CreateNewAddressResponseView) :=
  create_new_address_with_options self request default_options.
Definition create_wallet_with_options (self : WalletServiceClient) (request : CreateWalletRequest.CreateWalletRequest)
    (options : CallOptions) : st S ConnectError (Response CreateWalletResponseView.CreateWalletResponseView) :=
  client_call_unary (transport self) (config self) WalletService.WALLET_SERVICE_SERVICE_NAME "CreateWallet" request options.
Definition create_wallet (self : WalletServiceClient) (request : CreateWalletRequest.CreateWalletRequest) :
    st S ConnectError (Response CreateWalletResponseView.CreateWalletResponseView) :=
  create_wallet_with_options self request default_options.
Definition get_balance_with_options (self : WalletServiceClient) (request : GetBalanceRequest.GetBalanceRequest)
    (options : CallOptions) : st S ConnectError (Response GetBalanceResponseView.GetBalanceResponseView) :=
  client_call_unary (transport self) (config self) WalletService.WALLET_SERVICE_SERVICE_NAME "GetBalance" request options.
Definition get_balance (self : WalletServiceClient) (request : GetBalanceRequest.GetBalanceRequest) :
    st S ConnectError (Response GetBalanceResponseView.GetBalanceResponseView) :=
  get_balance_with_options self request default_options.
Definition list_transactions_with_options (self : WalletServiceClient) (request : ListTransactionsRequest.ListTransactionsRequest)
    (options : CallOptions) : st S ConnectError (Response ListTransactionsResponseView.ListTransactionsResponseView) :=
  client_call_unary (transport self) (config self) WalletService.WALLET_SERVICE_SERVICE_NAME "ListTransactions" request options.
Definition list_transactions (self : WalletServiceClient) (request : ListTransactionsRequest.ListTransactionsRequest) :
    st S ConnectError (Response ListTransactionsResponseView.ListTransactionsResponseView) :=
  list_transactions_with_options self request default_options.
Definition list_unspent_outputs_with_options (self : WalletServiceClient) (request : ListUnspentOutputsRequest.ListUnspentOutputsRequest)
    (options : CallOptions) : st S ConnectError (Response ListUnspentOutputsResponseView.ListUnspentOutputsResponseView) :=
  client_call_unary (transport self) (config self) WalletService.WALLET_SERVICE_SERVICE_NAME "ListUnspentOutputs" request options.
Definition list_unspent_outputs (self : WalletServiceClient) (request : ListUnspentOutputsRequest.ListUnspentOutputsRequest) :
    st S ConnectError (Response ListUnspentOutputsResponseView.ListUnspentOutputsResponseView) :=
  list_unspent_outputs_with_options self request default_options.
Definition get_info_with_options (self : WalletServiceClient) (request : GetInfoRequest.GetInfoRequest)
    (options : CallOptions) : st S ConnectError (Response GetInfoResponseView.GetInfoResponseView) :=
  client_call_unary (transport self) (config self) WalletService.WALLET_SERVICE_SERVICE_NAME "GetInfo" request options.
Definition get_info (self : WalletServiceClient) (request : GetInfoRequest.GetInfoRequest) :
    st S ConnectError (Response GetInfoResponseView.GetInfoResponseView) :=
  get_info_with_options self request default_options.
Definition send_transaction_with_options (self : WalletServiceClient) (request : SendTransactionRequest.SendTransactionRequest)
    (options : CallOptions) : st S ConnectError (Response SendTransactionResponseView.SendTransactionResponseView) :=
  client_call_unary (transport self) (config self) WalletService.WALLET_SERVICE_SERVICE_NAME "SendTransaction" request options.
Definition send_transaction (self : WalletServiceClient) (request : SendTransactionRequest.SendTransactionRequest) :
    st S ConnectError (Response SendTransactionResponseView.SendTransactionResponseView) :=
  send_transaction_with_options self request default_options.
Definition unlock_wallet_with_options (self : WalletServiceClient) (request : UnlockWalletRequest.UnlockWalletRequest)
    (options : CallOptions) : st S ConnectError (Response UnlockWalletResponseView.UnlockWalletResponseView) :=
  client_call_unary (transport self) (config self) WalletService.WALLET_SERVICE_SERVICE_NAME "UnlockWallet" request options.
Definition unlock_wallet (self : WalletServiceClient) (request : UnlockWalletRequest.UnlockWalletRequest) :
    st S ConnectError (Response UnlockWalletResponseView.UnlockWalletResponseView) :=
  unlock_wallet_with_options self request default_options.
Definition create_p2mr_address_with_options (self : WalletServiceClient) (request : CreateP2mrAddressRequest.CreateP2mrAddressRequest)
    (options : CallOptions) : st S ConnectError (Response CreateP2mrAddressResponseView.CreateP2mrAddressResponseView) :=
  client_call_unary (transport self) (config self) WalletService.WALLET_SERVICE_SERVICE_NAME "CreateP2mrAddress" request options.
Definition create_p2mr_address (self : WalletServiceClient) (request : CreateP2mrAddressRequest.CreateP2mrAddressRequest) :
    st S ConnectError (Response CreateP2mrAddressResponseView.CreateP2mrAddressResponseView) :=
  create_p2mr_address_with_options self request default_options.
Definition list_p2mr_outputs_with_options (self : WalletServiceClient) (request : ListP2mrOutputsRequest.ListP2mrOutputsRequest)
    (options : CallOptions) : st S ConnectError (Response ListP2mrOutputsResponseView.ListP2mrOutputsResponseView) :=
  client_call_unary (transport self) (config self) WalletService.WALLET_SERVICE_SERVICE_NAME "ListP2mrOutputs" request options.
Definition list_p2mr_outputs (self : WalletServiceClient) (request : ListP2mrOutputsRequest.ListP2mrOutputsRequest) :
    st S ConnectError (Response ListP2mrOutputsResponseView.ListP2mrOutputsResponseView) :=
  list_p2mr_outputs_with_options self request default_options.
Definition spend_p2mr_with_options (self : WalletServiceClient) (request : SpendP2mrRequest.SpendP2mrRequest)
    (options : CallOptions) : st S ConnectError (Response SpendP2mrResponseView.SpendP2mrResponseView) :=
  client_call_unary (transport self) (config self) WalletService.WALLET_SERVICE_SERVICE_NAME "SpendP2mr" request options.
Definition spend_p2mr (self : WalletServiceClient) (request : SpendP2mrRequest.SpendP2mrRequest) :
    st S ConnectError (Response SpendP2mrResponseView.SpendP2mrResponseView) :=
  spend_p2mr_with_options self request default_options.
End client.
End WalletServiceClient.
