(* ===== verification/Remote.v ===== *)
(** The services end to end: what the server of `app/main.rs` serves, and what a call of a
    generated client does there. *)
From Stdlib Require Import ZArith Lia Strings.Byte Strings.String.
From stdpp Require Import base list sets.
From S2P Require Import Prelude Text Http Wire WireTypes WireView WireRef Connect Services.
From S2P Require Import ProtoCommon ProtoCrypto ProtoValidator ProtoWallet.
From S2P Require Import ProtoCommonView ProtoCryptoView ProtoValidatorView ProtoWalletView Proto.
#[local] Open Scope Z_scope.

(** ** The methods of the four services *)
Inductive unary_method :=
| HmacSha512
| Ripemd160
| Secp256k1SecretKeyToPublicKey
| Secp256k1Sign
| Secp256k1Verify
| GenerateToAddress
| GetBlockHeaderInfo
| GetBlockInfo
| GetChainInfo
| GetChainTip
| Stop
| CreateNewAddress
| CreateWallet
| GetBalance
| ListTransactions
| ListUnspentOutputs
| GetInfo
| SendTransaction
| UnlockWallet
| CreateP2mrAddress
| ListP2mrOutputs
| SpendP2mr.
Definition service (m : unary_method) : string :=
  match m with
  | HmacSha512 => CryptoService.CRYPTO_SERVICE_SERVICE_NAME
  | Ripemd160 => CryptoService.CRYPTO_SERVICE_SERVICE_NAME
  | Secp256k1SecretKeyToPublicKey => CryptoService.CRYPTO_SERVICE_SERVICE_NAME
  | Secp256k1Sign => CryptoService.CRYPTO_SERVICE_SERVICE_NAME
  | Secp256k1Verify => CryptoService.CRYPTO_SERVICE_SERVICE_NAME
  | GenerateToAddress => MiningService.MINING_SERVICE_SERVICE_NAME
  | GetBlockHeaderInfo => ValidatorService.VALIDATOR_SERVICE_SERVICE_NAME
  | GetBlockInfo => ValidatorService.VALIDATOR_SERVICE_SERVICE_NAME
  | GetChainInfo => ValidatorService.VALIDATOR_SERVICE_SERVICE_NAME
  | GetChainTip => ValidatorService.VALIDATOR_SERVICE_SERVICE_NAME
  | Stop => ValidatorService.VALIDATOR_SERVICE_SERVICE_NAME
  | CreateNewAddress => WalletService.WALLET_SERVICE_SERVICE_NAME
  | CreateWallet => WalletService.WALLET_SERVICE_SERVICE_NAME
  | GetBalance => WalletService.WALLET_SERVICE_SERVICE_NAME
  | ListTransactions => WalletService.WALLET_SERVICE_SERVICE_NAME
  | ListUnspentOutputs => WalletService.WALLET_SERVICE_SERVICE_NAME
  | GetInfo => WalletService.WALLET_SERVICE_SERVICE_NAME
  | SendTransaction => WalletService.WALLET_SERVICE_SERVICE_NAME
  | UnlockWallet => WalletService.WALLET_SERVICE_SERVICE_NAME
  | CreateP2mrAddress => WalletService.WALLET_SERVICE_SERVICE_NAME
  | ListP2mrOutputs => WalletService.WALLET_SERVICE_SERVICE_NAME
  | SpendP2mr => WalletService.WALLET_SERVICE_SERVICE_NAME
  end.
Definition method_name (m : unary_method) : string :=
  match m with
  | HmacSha512 => "HmacSha512"
  | Ripemd160 => "Ripemd160"
  | Secp256k1SecretKeyToPublicKey => "Secp256k1SecretKeyToPublicKey"
  | Secp256k1Sign => "Secp256k1Sign"
  | Secp256k1Verify => "Secp256k1Verify"
  | GenerateToAddress => "GenerateToAddress"
  | GetBlockHeaderInfo => "GetBlockHeaderInfo"
  | GetBlockInfo => "GetBlockInfo"
  | GetChainInfo => "GetChainInfo"
  | GetChainTip => "GetChainTip"
  | Stop => "Stop"
  | CreateNewAddress => "CreateNewAddress"
  | CreateWallet => "CreateWallet"
  | GetBalance => "GetBalance"
  | ListTransactions => "ListTransactions"
  | ListUnspentOutputs => "ListUnspentOutputs"
  | GetInfo => "GetInfo"
  | SendTransaction => "SendTransaction"
  | UnlockWallet => "UnlockWallet"
  | CreateP2mrAddress => "CreateP2mrAddress"
  | ListP2mrOutputs => "ListP2mrOutputs"
  | SpendP2mr => "SpendP2mr"
  end.
Definition request (m : unary_method) : message_type :=
  match m with
  | HmacSha512 => Proto.HmacSha512Request
  | Ripemd160 => Proto.Ripemd160Request
  | Secp256k1SecretKeyToPublicKey => Proto.Secp256k1SecretKeyToPublicKeyRequest
  | Secp256k1Sign => Proto.Secp256k1SignRequest
  | Secp256k1Verify => Proto.Secp256k1VerifyRequest
  | GenerateToAddress => Proto.GenerateToAddressRequest
  | GetBlockHeaderInfo => Proto.GetBlockHeaderInfoRequest
  | GetBlockInfo => Proto.GetBlockInfoRequest
  | GetChainInfo => Proto.GetChainInfoRequest
  | GetChainTip => Proto.GetChainTipRequest
  | Stop => Proto.StopRequest
  | CreateNewAddress => Proto.CreateNewAddressRequest
  | CreateWallet => Proto.CreateWalletRequest
  | GetBalance => Proto.GetBalanceRequest
  | ListTransactions => Proto.ListTransactionsRequest
  | ListUnspentOutputs => Proto.ListUnspentOutputsRequest
  | GetInfo => Proto.GetInfoRequest
  | SendTransaction => Proto.SendTransactionRequest
  | UnlockWallet => Proto.UnlockWalletRequest
  | CreateP2mrAddress => Proto.CreateP2mrAddressRequest
  | ListP2mrOutputs => Proto.ListP2mrOutputsRequest
  | SpendP2mr => Proto.SpendP2mrRequest
  end.
Definition response (m : unary_method) : message_type :=
  match m with
  | HmacSha512 => Proto.HmacSha512Response
  | Ripemd160 => Proto.Ripemd160Response
  | Secp256k1SecretKeyToPublicKey => Proto.Secp256k1SecretKeyToPublicKeyResponse
  | Secp256k1Sign => Proto.Secp256k1SignResponse
  | Secp256k1Verify => Proto.Secp256k1VerifyResponse
  | GenerateToAddress => Proto.GenerateToAddressResponse
  | GetBlockHeaderInfo => Proto.GetBlockHeaderInfoResponse
  | GetBlockInfo => Proto.GetBlockInfoResponse
  | GetChainInfo => Proto.GetChainInfoResponse
  | GetChainTip => Proto.GetChainTipResponse
  | Stop => Proto.StopResponse
  | CreateNewAddress => Proto.CreateNewAddressResponse
  | CreateWallet => Proto.CreateWalletResponse
  | GetBalance => Proto.GetBalanceResponse
  | ListTransactions => Proto.ListTransactionsResponse
  | ListUnspentOutputs => Proto.ListUnspentOutputsResponse
  | GetInfo => Proto.GetInfoResponse
  | SendTransaction => Proto.SendTransactionResponse
  | UnlockWallet => Proto.UnlockWalletResponse
  | CreateP2mrAddress => Proto.CreateP2mrAddressResponse
  | ListP2mrOutputs => Proto.ListP2mrOutputsResponse
  | SpendP2mr => Proto.SpendP2mrResponse
  end.
Inductive stream_method :=
| SubscribeEvents
| SubscribeHeaderSyncProgress.
Definition stream_service (m : stream_method) : string :=
  match m with
  | SubscribeEvents => ValidatorService.VALIDATOR_SERVICE_SERVICE_NAME
  | SubscribeHeaderSyncProgress => ValidatorService.VALIDATOR_SERVICE_SERVICE_NAME
  end.
Definition stream_method_name (m : stream_method) : string :=
  match m with
  | SubscribeEvents => "SubscribeEvents"
  | SubscribeHeaderSyncProgress => "SubscribeHeaderSyncProgress"
  end.
Definition stream_request (m : stream_method) : message_type :=
  match m with
  | SubscribeEvents => Proto.SubscribeEventsRequest
  | SubscribeHeaderSyncProgress => Proto.SubscribeHeaderSyncProgressRequest
  end.
Definition stream_response (m : stream_method) : message_type :=
  match m with
  | SubscribeEvents => Proto.SubscribeEventsResponse
  | SubscribeHeaderSyncProgress => Proto.SubscribeHeaderSyncProgressResponse
  end.

Section services.
Context {S : Type} `{BuffaTypeViews, !Connect}.
Context `{!CryptoService.CryptoService S}.
Context `{!MiningService.MiningService S}.
Context `{!ValidatorService.ValidatorService S}.
Context `{!WalletService.WalletService S}.
Definition handler (m : unary_method) :
    RequestContext → ServiceRequest (view (request m)) → st S ConnectError (Response (message (response m))) :=
  match m with
  | HmacSha512 => CryptoService.hmac_sha512
  | Ripemd160 => CryptoService.ripemd160
  | Secp256k1SecretKeyToPublicKey => CryptoService.secp256k1_secret_key_to_public_key
  | Secp256k1Sign => CryptoService.secp256k1_sign
  | Secp256k1Verify => CryptoService.secp256k1_verify
  | GenerateToAddress => MiningService.generate_to_address
  | GetBlockHeaderInfo => ValidatorService.get_block_header_info
  | GetBlockInfo => ValidatorService.get_block_info
  | GetChainInfo => ValidatorService.get_chain_info
  | GetChainTip => ValidatorService.get_chain_tip
  | Stop => ValidatorService.stop
  | CreateNewAddress => WalletService.create_new_address
  | CreateWallet => WalletService.create_wallet
  | GetBalance => WalletService.get_balance
  | ListTransactions => WalletService.list_transactions
  | ListUnspentOutputs => WalletService.list_unspent_outputs
  | GetInfo => WalletService.get_info
  | SendTransaction => WalletService.send_transaction
  | UnlockWallet => WalletService.unlock_wallet
  | CreateP2mrAddress => WalletService.create_p2mr_address
  | ListP2mrOutputs => WalletService.list_p2mr_outputs
  | SpendP2mr => WalletService.spend_p2mr
  end.
Definition stream_handler (m : stream_method) :
    RequestContext → ServiceRequest (view (stream_request m)) →
    st S ConnectError (Response (ServiceStream (message (stream_response m)))) :=
  match m with
  | SubscribeEvents => ValidatorService.subscribe_events
  | SubscribeHeaderSyncProgress => ValidatorService.subscribe_header_sync_progress
  end.
Definition generated (service : string) : Dispatcher S :=
  if String.eqb service CryptoService.CRYPTO_SERVICE_SERVICE_NAME then CryptoService.CryptoServiceServer
  else if String.eqb service MiningService.MINING_SERVICE_SERVICE_NAME then MiningService.MiningServiceServer
  else if String.eqb service ValidatorService.VALIDATOR_SERVICE_SERVICE_NAME then ValidatorService.ValidatorServiceServer
  else WalletService.WalletServiceServer.

Context `{!Client S}.
Definition client (m : unary_method) (transport : Transport) (config : ClientConfig) :
    message (request m) → st S ConnectError (Response (view (response m))) :=
  match m with
  | HmacSha512 => CryptoServiceClient.hmac_sha512 (CryptoServiceClient.new transport config)
  | Ripemd160 => CryptoServiceClient.ripemd160 (CryptoServiceClient.new transport config)
  | Secp256k1SecretKeyToPublicKey => CryptoServiceClient.secp256k1_secret_key_to_public_key (CryptoServiceClient.new transport config)
  | Secp256k1Sign => CryptoServiceClient.secp256k1_sign (CryptoServiceClient.new transport config)
  | Secp256k1Verify => CryptoServiceClient.secp256k1_verify (CryptoServiceClient.new transport config)
  | GenerateToAddress => MiningServiceClient.generate_to_address (MiningServiceClient.new transport config)
  | GetBlockHeaderInfo => ValidatorServiceClient.get_block_header_info (ValidatorServiceClient.new transport config)
  | GetBlockInfo => ValidatorServiceClient.get_block_info (ValidatorServiceClient.new transport config)
  | GetChainInfo => ValidatorServiceClient.get_chain_info (ValidatorServiceClient.new transport config)
  | GetChainTip => ValidatorServiceClient.get_chain_tip (ValidatorServiceClient.new transport config)
  | Stop => ValidatorServiceClient.stop (ValidatorServiceClient.new transport config)
  | CreateNewAddress => WalletServiceClient.create_new_address (WalletServiceClient.new transport config)
  | CreateWallet => WalletServiceClient.create_wallet (WalletServiceClient.new transport config)
  | GetBalance => WalletServiceClient.get_balance (WalletServiceClient.new transport config)
  | ListTransactions => WalletServiceClient.list_transactions (WalletServiceClient.new transport config)
  | ListUnspentOutputs => WalletServiceClient.list_unspent_outputs (WalletServiceClient.new transport config)
  | GetInfo => WalletServiceClient.get_info (WalletServiceClient.new transport config)
  | SendTransaction => WalletServiceClient.send_transaction (WalletServiceClient.new transport config)
  | UnlockWallet => WalletServiceClient.unlock_wallet (WalletServiceClient.new transport config)
  | CreateP2mrAddress => WalletServiceClient.create_p2mr_address (WalletServiceClient.new transport config)
  | ListP2mrOutputs => WalletServiceClient.list_p2mr_outputs (WalletServiceClient.new transport config)
  | SpendP2mr => WalletServiceClient.spend_p2mr (WalletServiceClient.new transport config)
  end.
Definition stream_client (m : stream_method) (transport : Transport) (config : ClientConfig) :
    message (stream_request m) → st S ConnectError (ServiceStream (view (stream_response m))) :=
  match m with
  | SubscribeEvents => ValidatorServiceClient.subscribe_events (ValidatorServiceClient.new transport config)
  | SubscribeHeaderSyncProgress => ValidatorServiceClient.subscribe_header_sync_progress (ValidatorServiceClient.new transport config)
  end.
End services.

(** ** What the server serves *)

(** The services [run_connect_server] registers. *)
Section server.
Context {S : Type} `{BuffaTypeViewsLaws, !Connect, !ConnectLaws}.
Context `{!CryptoService.CryptoService S} `{!MiningService.MiningService S}.
Context `{!ValidatorService.ValidatorService S} `{!WalletService.WalletService S}.

(** The router of the server; [reflector] is the one over the embedded descriptors, without
    which the server does not start. *)
Definition connect_router `{!Routing S, !RuntimeServices S} (reflector : Reflector) (mining wallet : bool) : Router :=
  let router := Router_new in
  let router := CryptoService.register router in
  let router := ValidatorService.register router in
  let service_names := [Http.CRYPTO_SERVICE_SERVICE_NAME; Http.VALIDATOR_SERVICE_SERVICE_NAME] in
  let '(service_names, router) :=
    if mining then (service_names ++ [Http.MINING_SERVICE_SERVICE_NAME], MiningService.register router)
    else (service_names, router) in
  let '(service_names, router) :=
    if wallet then (service_names ++ [Http.WALLET_SERVICE_SERVICE_NAME], WalletService.register router)
    else (service_names, router) in
  let reflector := reflector_with_services service_names reflector in
  let health_checker := checker_with_services service_names in
  let router := health_register health_checker router in
  install router reflector.

(** The generated dispatchers serve their methods. *)
Lemma arm_serves {Req V Res : Type} `{!Message Req, !Message V, !Message Res} (d : Dispatcher S) path
    (h : RequestContext → ServiceRequest V → st S ConnectError (Response Res)) :
  kind d path = Some Unary →
  (∀ ctx p, call_unary d path ctx p Proto = unary_arm (Req := Req) h ctx p Proto) → serves_unary d path h.
Proof.
  intros Hk Hc. split; [done|]. intros ctx p σ. rewrite Hc. unfold unary_arm, mbind, st_bind, st_lift.
  destruct (encoded p) as [b|e|]; [|done..]. by rewrite request_proto_bytes_spec.
Qed.
Lemma streaming_arm_serves {Req V Res : Type} `{!Message Req, !Message V, !Message Res} (d : Dispatcher S) path
    (h : RequestContext → ServiceRequest V → st S ConnectError (Response (ServiceStream Res))) :
  kind d path = Some ServerStream →
  (∀ ctx p, call_server_streaming d path ctx p Proto = streaming_arm (Req := Req) h ctx p Proto) →
  serves_streaming d path h.
Proof.
  intros Hk Hc. split; [done|]. intros ctx p σ. rewrite Hc. unfold streaming_arm, mbind, st_bind, st_lift.
  by rewrite request_proto_bytes_spec.
Qed.
Lemma kind_with_spec (d : Dispatcher S) path sp desc k :
  lookup d path = Some (with_spec sp desc) → kind_of desc = k → kind d path = Some k.
Proof. intros Hd Hk. unfold kind. rewrite Hd. cbn. by rewrite kind_of_with_spec, Hk. Qed.
Ltac dispatcher_kind := eapply kind_with_spec; [reflexivity|first [apply kind_of_unary|apply kind_of_streaming]].
Lemma generated_serves m :
  serves_unary (generated (service m)) (path_of (service m) (method_name m)) (handler m).
Proof.
  apply (arm_serves (Req := message (request m))); [destruct m; dispatcher_kind|destruct m; reflexivity].
Qed.
Lemma generated_serves_stream m :
  serves_streaming (generated (stream_service m)) (path_of (stream_service m) (stream_method_name m)) (stream_handler m).
Proof.
  apply (streaming_arm_serves (Req := message (stream_request m))); [destruct m; dispatcher_kind|destruct m; reflexivity].
Qed.

Context `{!Routing S, !RoutingLaws S, !RuntimeServices S, !RuntimeServicesLaws S}.

(** A registration adds the methods its dispatcher looks up, and no others. *)
Ltac other_path := let H := fresh in intros H; vm_compute in H; discriminate H.
Ltac absent Hp := let H := fresh in intros H; rewrite H in Hp; vm_compute in Hp; discriminate Hp.
Ltac same_by tac := first
  [ apply serve_with_spec | apply route_view_other; tac | apply route_view_idempotent_other; tac
  | apply route_stream_other; tac ].
Ltac register_other Hp :=
  cbv zeta;
  repeat (eapply serves_same_trans; [same_by ltac:(absent Hp)|]); apply serves_same_refl.
Ltac register_here :=
  cbv zeta;
  repeat first
    [ apply route_view_here | apply route_view_idempotent_here | apply route_stream_here
    | (eapply serves_same_unary || eapply serves_same_streaming); [same_by other_path|] ].

Lemma crypto_other r path : CryptoService.lookup path = None →
  serves_same (serve (CryptoService.register r)) (serve r) path.
Proof. intros Hp. unfold CryptoService.register. register_other Hp. Qed.
Lemma validator_other r path : ValidatorService.lookup path = None →
  serves_same (serve (ValidatorService.register r)) (serve r) path.
Proof. intros Hp. unfold ValidatorService.register. register_other Hp. Qed.
Lemma mining_other r path : MiningService.lookup path = None →
  serves_same (serve (MiningService.register r)) (serve r) path.
Proof. intros Hp. unfold MiningService.register. register_other Hp. Qed.
Lemma wallet_other r path : WalletService.lookup path = None →
  serves_same (serve (WalletService.register r)) (serve r) path.
Proof. intros Hp. unfold WalletService.register. register_other Hp. Qed.

(** The registration of the service with the given name. *)
Definition registered (s : string) (r : Router) : Router :=
  if String.eqb s CryptoService.CRYPTO_SERVICE_SERVICE_NAME then CryptoService.register r
  else if String.eqb s MiningService.MINING_SERVICE_SERVICE_NAME then MiningService.register r
  else if String.eqb s ValidatorService.VALIDATOR_SERVICE_SERVICE_NAME then ValidatorService.register r
  else WalletService.register r.
Ltac select_service :=
  match goal with |- context [serve ?r] =>
    let r' := eval lazy beta iota zeta delta [registered String.eqb Ascii.eqb Bool.eqb
      CryptoService.CRYPTO_SERVICE_SERVICE_NAME MiningService.MINING_SERVICE_SERVICE_NAME
      ValidatorService.VALIDATOR_SERVICE_SERVICE_NAME WalletService.WALLET_SERVICE_SERVICE_NAME
      CryptoService.register MiningService.register ValidatorService.register WalletService.register] in r in
    change r with r'
  end.
Lemma registered_serves m r :
  serves_unary (serve (registered (service m) r)) (path_of (service m) (method_name m)) (handler m).
Proof. destruct m; cbn [service method_name handler]; select_service; register_here. Qed.
Lemma registered_serves_stream m r :
  serves_streaming (serve (registered (stream_service m) r))
    (path_of (stream_service m) (stream_method_name m)) (stream_handler m).
Proof. destruct m; cbn [stream_service stream_method_name stream_handler]; select_service; register_here. Qed.
Lemma registered_other s r path : lookup (generated s) path = None →
  serves_same (serve (registered s r)) (serve r) path.
Proof.
  unfold generated, registered. repeat case_match; intros Hp;
    [by apply crypto_other|by apply mining_other|by apply validator_other|by apply wallet_other].
Qed.

(** The server registers the services whose names it publishes, in their order. *)
Lemma connect_router_registered reflector mining wallet :
  let names := Http.service_names mining wallet in
  connect_router reflector mining wallet =
  install (health_register (checker_with_services names) (foldl (λ r s, registered s r) Router_new names))
    (reflector_with_services names reflector).
Proof. by destruct mining, wallet. Qed.
Lemma registered_all_other r names path : (∀ s, s ∈ names → lookup (generated s) path = None) →
  serves_same (serve (foldl (λ r s, registered s r) r names)) (serve r) path.
Proof.
  revert r. induction names as [|s names IH]; intros r Hn; [apply serves_same_refl|]. cbn.
  eapply serves_same_trans; [apply IH; set_solver|]. apply registered_other. set_solver.
Qed.
Lemma registered_all_serves {P : Dispatcher S → Prop} service path r names :
  (∀ d d', serves_same d d' path → P d' → P d) → (∀ r, P (serve (registered service r))) →
  (∀ s, s ∈ names → s ≠ service → lookup (generated s) path = None) → service ∈ names → NoDup names →
  P (serve (foldl (λ r s, registered s r) r names)).
Proof.
  intros Hsame Hhere Hother (l1 & l2 & ->)%list_elem_of_split (_ & _ & [Hn _]%NoDup_cons)%NoDup_app.
  rewrite foldl_app. cbn. eapply Hsame; [|apply Hhere]. apply registered_all_other. intros s Hs.
  apply Hother; set_solver.
Qed.
Lemma other_services m s : s ∈ Http.service_names true true → s ≠ service m →
  lookup (generated s) (path_of (service m) (method_name m)) = None.
Proof.
  intros Hs%list_elem_of_In. cbn in Hs. revert Hs. intros [<-|[<-|[<-|[<-|[]]]]];
    destruct m; intros Hs; first [reflexivity|by destruct Hs].
Qed.
Lemma other_stream_services m s : s ∈ Http.service_names true true → s ≠ stream_service m →
  lookup (generated s) (path_of (stream_service m) (stream_method_name m)) = None.
Proof.
  intros Hs%list_elem_of_In. cbn in Hs. revert Hs. intros [<-|[<-|[<-|[<-|[]]]]];
    destruct m; intros Hs; first [reflexivity|by destruct Hs].
Qed.
Lemma service_names_all mining wallet s : s ∈ Http.service_names mining wallet → s ∈ Http.service_names true true.
Proof. destruct mining, wallet; cbn; set_solver. Qed.
Lemma service_names_distinct mining wallet : NoDup (Http.service_names mining wallet).
Proof. apply (bool_decide_unpack _). by destruct mining, wallet. Qed.

(** The health and reflection services leave every other path as it is. *)
Definition runtime_services : list string := HEALTH_SERVICE :: REFLECTION_SERVICES.
Lemma router_serves_same reflector mining wallet path :
  (∀ s m, s ∈ runtime_services → path ≠ path_of s m) →
  serves_same (serve (connect_router reflector mining wallet))
    (serve (foldl (λ r s, registered s r) Router_new (Http.service_names mining wallet))) path.
Proof.
  intros Hp. rewrite connect_router_registered. cbv zeta.
  eapply serves_same_trans; [apply install_other; intros s m Hs; apply Hp; unfold runtime_services; set_solver|].
  apply health_other. intros m. apply Hp. apply list_elem_of_here.
Qed.
(** The methods of the four services are none of theirs. *)
Lemma method_not_runtime m s method : s ∈ runtime_services → path_of (service m) (method_name m) ≠ path_of s method.
Proof. intros Hs%list_elem_of_In. cbn in Hs. destruct Hs as [<-|[<-|[<-|[]]]]; by destruct m. Qed.
Lemma stream_not_runtime m s method :
  s ∈ runtime_services → path_of (stream_service m) (stream_method_name m) ≠ path_of s method.
Proof. intros Hs%list_elem_of_In. cbn in Hs. destruct Hs as [<-|[<-|[<-|[]]]]; by destruct m. Qed.

Lemma router_serves reflector mining wallet m : service m ∈ Http.service_names mining wallet →
  serves_unary (serve (connect_router reflector mining wallet)) (path_of (service m) (method_name m)) (handler m).
Proof.
  intros Hm. eapply serves_same_unary; [apply router_serves_same, method_not_runtime|].
  apply (registered_all_serves (service m) (path_of (service m) (method_name m))
    (P := λ d, serves_unary d _ (handler m))); [| | |done|apply service_names_distinct].
  - intros d d'. apply serves_same_unary.
  - apply registered_serves.
  - intros s Hs. by apply other_services, (service_names_all mining wallet).
Qed.
Lemma router_serves_stream reflector mining wallet m :
  serves_streaming (serve (connect_router reflector mining wallet))
    (path_of (stream_service m) (stream_method_name m)) (stream_handler m).
Proof.
  eapply serves_same_streaming; [apply router_serves_same, stream_not_runtime|].
  apply (registered_all_serves (stream_service m) (path_of (stream_service m) (stream_method_name m))
    (P := λ d, serves_streaming d _ (stream_handler m))); [| | | |apply service_names_distinct].
  - intros d d'. apply serves_same_streaming.
  - apply registered_serves_stream.
  - intros s Hs. by apply other_stream_services, (service_names_all mining wallet).
  - destruct m, mining, wallet; cbn; set_solver.
Qed.

(** C34: What the server serves. Whatever services are enabled, a request for one of their
    methods runs the handler of that name, through the router that [run_connect_server]
    builds as through the generated dispatcher of the service; and a path that no enabled
    service has, a disabled service's among them, is answered as unimplemented without
    running anything, unless it is a path of the gRPC health service or of the server
    reflection services, which the router has besides (third-party, not described here). *)
Theorem server_methods reflector mining wallet :
  (∀ m, service m ∈ Http.service_names mining wallet →
    serves_unary (serve (connect_router reflector mining wallet)) (path_of (service m) (method_name m)) (handler m)) ∧
  (∀ m, serves_unary (generated (service m)) (path_of (service m) (method_name m)) (handler m)) ∧
  (∀ m, serves_streaming (serve (connect_router reflector mining wallet))
    (path_of (stream_service m) (stream_method_name m)) (stream_handler m)) ∧
  (∀ m, serves_streaming (generated (stream_service m))
    (path_of (stream_service m) (stream_method_name m)) (stream_handler m)) ∧
  (∀ path, (∀ s, s ∈ Http.service_names mining wallet → lookup (generated s) path = None) →
    (∀ s m, s ∈ runtime_services → path ≠ path_of s m) →
    serves_none (serve (connect_router reflector mining wallet)) path) ∧
  (∀ m, service m ∉ Http.service_names mining wallet →
    serves_none (serve (connect_router reflector mining wallet)) (path_of (service m) (method_name m))).
Proof.
  assert (∀ path, (∀ s, s ∈ Http.service_names mining wallet → lookup (generated s) path = None) →
    (∀ s m, s ∈ runtime_services → path ≠ path_of s m) →
    serves_none (serve (connect_router reflector mining wallet)) path) as Hnone.
  { intros path Hp Hr. eapply serves_same_none; [by apply router_serves_same|].
    eapply serves_same_none; [|apply serve_new]. by apply registered_all_other. }
  split_and!; [apply router_serves|apply generated_serves|apply router_serves_stream|
    apply generated_serves_stream|exact Hnone|].
  intros m Hm. apply Hnone; [|apply method_not_runtime].
  intros s Hs. apply other_services; [by eapply service_names_all|]. by intros ->.
Qed.

Context `{!Client S, !ClientLaws S}.

(** A call of a client runs the handler of its method. *)
Lemma call_handled reflector mining wallet m cfg (req : message (request m)) :
  uses_proto cfg → service m ∈ Http.service_names mining wallet → sendable req →
  ∃ ctx, ∀ σ, call_gives
    (client m (connection (serve (connect_router reflector mining wallet))) cfg req σ)
    (handler m ctx (from_parts (view_of req) (encode_message req)) σ)
    (λ res, sendable (body res)) (map_body view_of).
Proof.
  intros Hcfg Hm Hreq.
  destruct (remote_unary (VRes := view (response m)) (serve (connect_router reflector mining wallet)) cfg
    (service m) (method_name m) req default_options (handler m)) as (ctx & Hctx);
    [apply view_levels|apply view_levels|done|by apply router_serves|done|].
  exists ctx. intros σ. specialize (Hctx σ). by destruct m.
Qed.

(** The items of a remote stream are those of the handler's stream. *)
Lemma remote_stream reflector mining wallet m cfg (req : message (stream_request m)) :
  uses_proto cfg → sendable req →
  ∃ ctx, ∀ σ, match stream_handler m ctx (from_parts (view_of req) (encode_message req)) σ with
  | (Ok res, σ') => items_sendable (body res) → ∃ items,
      stream_client m (connection (serve (connect_router reflector mining wallet))) cfg req σ = (Ok items, σ') ∧
      ∀ k, items k = (λ item, m ← item; Ok (view_of m)) <$> body res k
  | (Err e, σ') => stream_client m (connection (serve (connect_router reflector mining wallet))) cfg req σ = (Err e, σ')
  | (Panic, σ') => stream_client m (connection (serve (connect_router reflector mining wallet))) cfg req σ = (Panic, σ')
  end.
Proof.
  intros Hcfg Hreq.
  destruct (remote_streaming (VRes := view (stream_response m)) (serve (connect_router reflector mining wallet)) cfg
    (stream_service m) (stream_method_name m) req default_options (stream_handler m)) as (ctx & Hctx);
    [apply view_levels|apply view_levels|done|by apply router_serves_stream|done|].
  exists ctx. intros σ. specialize (Hctx σ). by destruct m.
Qed.
End server.

(** ** On a reference runtime

    Errors are strings, a response is its body, a transport is the dispatcher behind it;
    the handlers answer with a default message and count the calls. *)
#[export] Instance ref_connect : Connect := {
  ConnectError := string;
  RequestContext := unit;
  CodecFormat := unit;
  Payload := bytes;
  RequestStream := list bytes;
  Response A := A;
  body A r := r;
  map_body A B f r := f r;
  Spec := unit;
  Spec_server _ _ := tt;
  with_idempotency_level _ s := s;
  MethodDescriptor := StreamType;
  unary _ := Unary;
  server_streaming := ServerStream;
  with_spec _ d := d;
  encoded b := Ok b;
  request_proto_bytes _ _ b _ := Ok b;
  decode_borrowed_request_view _ _ b := map_err (λ _, "malformed request"%string) (decode_view b);
  encode_response _ _ m _ := Ok (encode_message m);
  encode_item _ _ m _ := Ok (encode_message m);
  unimplemented _ path := Err path;
}.
#[export] Instance ref_connect_laws : ConnectLaws.
Proof.
  refine {| Proto := tt : CodecFormat; kind_of := (λ d, d) : MethodDescriptor → StreamType; message_limit := 4194304 |}; try done.
  - intros V Hv b v Hb. change (map_err (λ _, "malformed request"%string) (decode_view b) = Ok v). by rewrite Hb.
  - intros A path. by eexists.
Defined.

Definition ref_route {S} (d : Dispatcher S) (path : string) (k : StreamType)
    (call : RequestContext → Payload → CodecFormat → st S ConnectError (Response bytes))
    (streaming : RequestContext → bytes → CodecFormat → st S ConnectError (Response (ServiceStream bytes))) :
    Dispatcher S :=
  mkDispatcher S (λ p, if String.eqb p path then Some k else lookup d p)
    (λ p, if String.eqb p path then call else call_unary d p)
    (λ p, if String.eqb p path then streaming else call_server_streaming d p)
    (λ p _ _ _, st_lift (Err p)) (λ p _ _ _, st_lift (Err p)).
Definition ref_unary_route {S V} `{!Message V} (path : string)
    (h : RequestContext → OwnedView V → CodecFormat → st S ConnectError (Response bytes)) (d : Dispatcher S) :
    Dispatcher S :=
  ref_route d path Unary
    (λ ctx b f, v ← st_lift (decode_borrowed_request_view b); h ctx (mkOwnedView v b) f)
    (λ _ _ _, st_lift (Err path)).
#[export] Instance ref_routing S : Routing S := {
  Router := Dispatcher S;
  Router_new := mkDispatcher S (λ _, None) (λ p _ _ _, st_lift (Err p)) (λ p _ _ _, st_lift (Err p))
    (λ p _ _ _, st_lift (Err p)) (λ p _ _ _, st_lift (Err p));
  route_view V _ s m h d := ref_unary_route (path_of s m) h d;
  route_view_idempotent V _ s m h d := ref_unary_route (path_of s m) h d;
  route_view_server_stream V M _ _ s m h d := ref_route d (path_of s m) ServerStream
    (λ _ _ _, st_lift (Err (path_of s m)))
    (λ ctx b f, v ← st_lift (decode_borrowed_request_view b); res ← h ctx (mkOwnedView v b);
      mret (encode_response_stream res f));
  router_with_spec _ d := d;
  serve d := d;
}.
Lemma ref_route_here {S} (d : Dispatcher S) path k call streaming :
  kind (ref_route d path k call streaming) path = Some k ∧
  call_unary (ref_route d path k call streaming) path = call ∧
  call_server_streaming (ref_route d path k call streaming) path = streaming.
Proof. unfold kind, ref_route. cbn. by rewrite String.eqb_refl. Qed.
Lemma ref_route_other {S} (d : Dispatcher S) path k call streaming p : p ≠ path →
  serves_same (ref_route d path k call streaming) d p.
Proof.
  intros Hp%String.eqb_neq. unfold serves_same, kind, ref_route. cbn. by rewrite Hp.
Qed.
#[export] Instance ref_routing_laws S : RoutingLaws S.
Proof.
  split.
  - done.
  - done.
  - intros V Res ? ? s m h r. destruct (ref_route_here r (path_of s m) Unary
      (λ ctx b f, v ← st_lift (decode_borrowed_request_view b); view_handler h ctx (mkOwnedView v b) f)
      (λ _ _ _, st_lift (Err (path_of s m)))) as (Hk & Hc & _).
    split; [exact Hk|]. intros ctx p σ. exact (f_equal (λ g, g ctx p tt σ) Hc).
  - intros. by apply ref_route_other.
  - intros V Res ? ? s m h r. destruct (ref_route_here r (path_of s m) Unary
      (λ ctx b f, v ← st_lift (decode_borrowed_request_view b); view_handler h ctx (mkOwnedView v b) f)
      (λ _ _ _, st_lift (Err (path_of s m)))) as (Hk & Hc & _).
    split; [exact Hk|]. intros ctx p σ. exact (f_equal (λ g, g ctx p tt σ) Hc).
  - intros. by apply ref_route_other.
  - intros V Res ? ? s m h r. destruct (ref_route_here r (path_of s m) ServerStream
      (λ _ _ _, st_lift (Err (path_of s m)))
      (λ ctx b f, v ← st_lift (decode_borrowed_request_view b); res ← view_streaming_handler h ctx (mkOwnedView v b);
        mret (encode_response_stream res f))) as (Hk & _ & Hc).
    split; [exact Hk|]. intros ctx p σ. exact (f_equal (λ g, g ctx p tt σ) Hc).
  - intros. by apply ref_route_other.
Qed.

Definition ref_read {V} `{!Message V} (b : bytes) : outcome ConnectError V :=
  map_err (λ _, "malformed response"%string) (decode_view b).
#[export] Instance ref_runtime S : RuntimeServices S := {
  Reflector := list string;
  reflector_with_services names _ := names;
  install r names := ref_route r (path_of "grpc.reflection.v1.ServerReflection" "ServerReflectionInfo") Unary
    (λ _ _ _, st_lift (Ok (names ≫= list_byte_of_string))) (λ _ _ _, st_lift (Err "unary"%string));
  StaticChecker := list string;
  checker_with_services names := names;
  health_register names r := ref_route r (path_of HEALTH_SERVICE "Check") Unary
    (λ _ _ _, st_lift (Ok (names ≫= list_byte_of_string))) (λ _ _ _, st_lift (Err "unary"%string));
}.
#[export] Instance ref_runtime_laws S : RuntimeServicesLaws S.
Proof.
  split.
  - intros r names path Hp. apply ref_route_other, Hp, list_elem_of_here.
  - intros names r path Hp. apply ref_route_other, Hp.
Qed.

#[export] Instance ref_client S : Client S := {
  Transport := Dispatcher S;
  ClientConfig := unit;
  CallOptions := unit;
  default_options := tt;
  client_call_unary M V _ _ d _ s m req _ :=
    res ← call_unary d (path_of s m) tt (encode_message req) tt; st_lift (ref_read res);
  client_call_server_stream M V _ _ d _ s m req _ :=
    res ← call_server_streaming d (path_of s m) tt (encode_message req) tt;
    mret (λ k, (λ item, b ← item; ref_read b) <$> res k);
  connection d := d;
}.
#[export] Instance ref_client_laws S : ClientLaws S.
Proof.
  refine {| uses_proto _ := True; read_response V _ := ref_read (V := V) : Response bytes → outcome ConnectError (Response V);
            read_item V _ := ref_read (V := V) |}.
  - intros V ? r v _ Hr. unfold ref_read. change (decode_view r = Ok v) in Hr. by rewrite Hr.
  - intros V ? r v _ Hr. unfold ref_read. by rewrite Hr.
  - intros M V ? ? d cfg s m req opts _ _ _. by exists tt, (encode_message req).
  - intros M V ? ? d cfg s m req opts _ _ _. by exists tt.
Defined.

Definition ref_handler {V M} `{!Message M} (ctx : RequestContext) (req : ServiceRequest V) : st nat ConnectError (Response M) :=
  λ n, (Ok default_message, S n).
Definition ref_stream_handler {V M} `{!Message M} (ctx : RequestContext) (req : ServiceRequest V) :
    st nat ConnectError (Response (ServiceStream M)) :=
  λ n, (Ok (λ k, if (k <? 3)%nat then Some (Ok default_message) else None), S n).
#[export] Instance ref_crypto : CryptoService.CryptoService nat := {
  CryptoService.hmac_sha512 := ref_handler;
  CryptoService.ripemd160 := ref_handler;
  CryptoService.secp256k1_secret_key_to_public_key := ref_handler;
  CryptoService.secp256k1_sign := ref_handler;
  CryptoService.secp256k1_verify := ref_handler;
}.
#[export] Instance ref_mining : MiningService.MiningService nat := {
  MiningService.generate_to_address := ref_handler;
}.
#[export] Instance ref_validator : ValidatorService.ValidatorService nat := {
  ValidatorService.get_block_header_info := ref_handler;
  ValidatorService.get_block_info := ref_handler;
  ValidatorService.get_chain_info := ref_handler;
  ValidatorService.get_chain_tip := ref_handler;
  ValidatorService.subscribe_events := ref_stream_handler;
  ValidatorService.subscribe_header_sync_progress := ref_stream_handler;
  ValidatorService.stop := ref_handler;
}.
#[export] Instance ref_wallet : WalletService.WalletService nat := {
  WalletService.create_new_address := ref_handler;
  WalletService.create_wallet := ref_handler;
  WalletService.get_balance := ref_handler;
  WalletService.list_transactions := ref_handler;
  WalletService.list_unspent_outputs := ref_handler;
  WalletService.get_info := ref_handler;
  WalletService.send_transaction := ref_handler;
  WalletService.unlock_wallet := ref_handler;
  WalletService.create_p2mr_address := ref_handler;
  WalletService.list_p2mr_outputs := ref_handler;
  WalletService.spend_p2mr := ref_handler;
}.

Definition example_spend : message (request SpendP2mr) :=
  SpendP2mrRequest.mkSpendP2mrRequest (Some example_txid) 1 "bc1p"%string 5000 (Some (mkUint64Ref 200)).
Definition ref_config : ClientConfig (S := nat) := tt.
Definition ref_reflector : Reflector (S := nat) := [] : list string.
(** Without the wallet and the mining service: the crypto service is served, the wallet
    service is not. *)
Lemma server_methods_witness :
  serves_unary (S := nat) (serve (connect_router ref_reflector false false)) (path_of (service Ripemd160) (method_name Ripemd160))
    (handler Ripemd160) ∧
  serves_none (S := nat) (serve (connect_router ref_reflector false false)) (path_of (service SpendP2mr) (method_name SpendP2mr)).
Proof.
  destruct (server_methods (S := nat) ref_reflector false false) as (Hserved & _ & _ & _ & _ & Hnone).
  split; [apply Hserved|apply Hnone]; cbn; set_solver.
Defined.
