(* ===== verification/RemoteCrypto.v ===== *)
(** The crypto service end to end: the handlers of [Server] behind the generated service,
    on its messages ([CryptoServiceServer] of `server/crypto.rs`), and what a client that
    calls them over the wire gets. *)
From Stdlib Require Import ZArith Lia Strings.Byte Strings.String.
From stdpp Require Import base list sets.
From S2P Require Import Prelude Bitcoin Rpc Concrete Server.
From S2P Require Import Wire WireTypes WireView WireRef Connect Services.
From S2P Require Import ProtoCommon ProtoCrypto ProtoCommonView ProtoCryptoView Proto Remote.
#[local] Open Scope Z_scope.

(** ** The server *)

(** The strings of the well-known wrapper; a response with no headers, the conversion of an
    error's code, and a view copied out of its buffer. *)
Class Answers `{BuffaTypeViews, !Connect} := {
  StringValue_new : string → StringValue;
  Response_new {A} : A → Response A;
  connect_error : Rpc.ConnectError → ConnectError;
  to_owned_message {V M} `{!ToOwned V M, !Message M} : ServiceRequest V → M;
}.
Class AnswersLaws `{BuffaTypeViewsLaws, !Connect, !ConnectLaws, !Answers} : Prop := {
  StringValue_new_value s : string_value (StringValue_new s) = s;
  StringValue_new_plain s : string_plain (StringValue_new s);
  body_Response_new {A} (a : A) : body (Response_new a) = a;
  to_owned_message_spec {V M} `{!ToOwned V M, !Message M} (r : ServiceRequest V) (m : M) :
    to_owned_from_source (request_view r) = Ok m → to_owned_message r = m;
}.

Section server.
Context `{Answers}.

(** [wrap_string], [unwrap_string] *)
Definition wrap_string (value : string) : option StringValue := Some (StringValue_new value).
Definition unwrap_string (field : option StringValue) : option string := string_value <$> field.

(** The hex fields of [Rpc] and the generated messages they are. *)
Definition hex_of (h : ProtoCommon.Hex.Hex) : Rpc.Hex := Rpc.mkHex (unwrap_string (ProtoCommon.Hex.hex h)).
Definition consensus_hex_of (h : ProtoCommon.ConsensusHex.ConsensusHex) : Rpc.ConsensusHex :=
  Rpc.mkConsensusHex (unwrap_string (ProtoCommon.ConsensusHex.hex h)).
Definition hex_message (h : Rpc.Hex) : ProtoCommon.Hex.Hex :=
  ProtoCommon.Hex.mkHex (Rpc.hex h ≫= wrap_string).
Definition consensus_hex_message (h : Rpc.ConsensusHex) : ProtoCommon.ConsensusHex.ConsensusHex :=
  ProtoCommon.ConsensusHex.mkConsensusHex (Rpc.consensus_hex h ≫= wrap_string).

Context {S : Type} `{HexLib} `{CodecLib} `{HashLib} `{CryptoLib}.
(** [usize::to_string] *)
Variable show : Z → string.

(** A handler that keeps no state: [f] on the request, its result in a new response. *)
Definition pure_handler {V Req Res} `{!ToOwned V Req, !Message Req} (f : Req → outcome Rpc.ConnectError Res)
    (_ctx : RequestContext) (request : ServiceRequest V) : st S ConnectError (Response Res) :=
  let request := to_owned_message request in
  res ← st_lift (map_err connect_error (f request));
  mret (Response_new res).

Definition ripemd160_message (request : ProtoCrypto.Ripemd160Request.Ripemd160Request) :
    outcome Rpc.ConnectError ProtoCrypto.Ripemd160Response.Ripemd160Response :=
  digest ← Server.ripemd160_service (hex_of <$> ProtoCrypto.Ripemd160Request.msg request);
  Ok (ProtoCrypto.Ripemd160Response.mkRipemd160Response (Some (hex_message digest))).
Definition hmac_sha512_message (request : ProtoCrypto.HmacSha512Request.HmacSha512Request) :
    outcome Rpc.ConnectError ProtoCrypto.HmacSha512Response.HmacSha512Response :=
  hmac ← Server.hmac_sha512 (hex_of <$> ProtoCrypto.HmacSha512Request.key request)
           (hex_of <$> ProtoCrypto.HmacSha512Request.msg request);
  Ok (ProtoCrypto.HmacSha512Response.mkHmacSha512Response (Some (hex_message hmac))).
Definition secret_key_to_public_key_message
    (request : ProtoCrypto.Secp256k1SecretKeyToPublicKeyRequest.Secp256k1SecretKeyToPublicKeyRequest) :
    outcome Rpc.ConnectError ProtoCrypto.Secp256k1SecretKeyToPublicKeyResponse.Secp256k1SecretKeyToPublicKeyResponse :=
  public_key ← Server.secp256k1_secret_key_to_public_key
    (consensus_hex_of <$> ProtoCrypto.Secp256k1SecretKeyToPublicKeyRequest.secret_key request);
  Ok (ProtoCrypto.Secp256k1SecretKeyToPublicKeyResponse.mkSecp256k1SecretKeyToPublicKeyResponse
        (Some (consensus_hex_message public_key))).
Definition sign_message (request : ProtoCrypto.Secp256k1SignRequest.Secp256k1SignRequest) :
    outcome Rpc.ConnectError ProtoCrypto.Secp256k1SignResponse.Secp256k1SignResponse :=
  signature ← Server.secp256k1_sign (hex_of <$> ProtoCrypto.Secp256k1SignRequest.message request)
    (consensus_hex_of <$> ProtoCrypto.Secp256k1SignRequest.secret_key request);
  Ok (ProtoCrypto.Secp256k1SignResponse.mkSecp256k1SignResponse (Some (hex_message signature))).
Definition verify_message (request : ProtoCrypto.Secp256k1VerifyRequest.Secp256k1VerifyRequest) :
    outcome Rpc.ConnectError ProtoCrypto.Secp256k1VerifyResponse.Secp256k1VerifyResponse :=
  valid ← Server.secp256k1_verify show (hex_of <$> ProtoCrypto.Secp256k1VerifyRequest.message request)
    (hex_of <$> ProtoCrypto.Secp256k1VerifyRequest.signature request)
    (consensus_hex_of <$> ProtoCrypto.Secp256k1VerifyRequest.public_key request);
  Ok (ProtoCrypto.Secp256k1VerifyResponse.mkSecp256k1VerifyResponse valid).

(** [impl CryptoService for CryptoServiceServer] *)
Definition CryptoServiceServer : CryptoService.CryptoService S := {|
  CryptoService.hmac_sha512 := pure_handler hmac_sha512_message;
  CryptoService.ripemd160 := pure_handler ripemd160_message;
  CryptoService.secp256k1_secret_key_to_public_key := pure_handler secret_key_to_public_key_message;
  CryptoService.secp256k1_sign := pure_handler sign_message;
  CryptoService.secp256k1_verify := pure_handler verify_message;
|}.
End server.

(** * Lemmas *)

(** Hex digits are ASCII, two for a byte, with no header for an array; and the length
    of an HMAC. *)
Class HexText `{Buffa, HexLib, CodecLib, CryptoLib} : Prop := {
  hex_encode_ok b : string_ok (hex_encode b);
  hex_encode_len b : len (list_byte_of_string (hex_encode b)) = 2 * len b;
  array_hex_ok n b : string_ok (@serialize_hex _ (array_codec n) b);
  array_hex_len n b : len (list_byte_of_string (@serialize_hex _ (array_codec n) b)) = 2 * len b;
  hmac_len k m : len (hmac_sha512_hash k m) = 64;
}.

(** A message field is its message and at most eleven bytes. *)
Lemma len_r_message `{Buffa} {M} `{!MessageSpec M} n (m : M) : 1 ≤ n < 16 →
  len (encode (r_message n (Some m))) ≤ 11 + len (encode (records m)).
Proof.
  intros Hn. unfold r_message. rewrite encode_single, len_record by done. rewrite payload_message, len_delimited.
  pose proof (len_varint (len (encode (records m)))). lia.
Qed.
Lemma len_r_string n s : 1 ≤ n < 16 → len (encode (r_string n s)) ≤ 11 + len (list_byte_of_string s).
Proof.
  intros Hn. unfold r_string. pose proof (len_nonneg (list_byte_of_string s)).
  destruct (String.eqb s ""); [change (len (encode [])) with 0; lia|].
  rewrite encode_single, len_record by done. cbn [payload]. rewrite len_delimited.
  pose proof (len_varint (len (list_byte_of_string s))). lia.
Qed.

Section messages.
Context `{AnswersLaws}.

Lemma hex_of_message h : hex_of (hex_message h) = h.
Proof. destruct h as [[s|]]; [|done]. unfold hex_of, unwrap_string. cbn. by rewrite StringValue_new_value. Qed.
Lemma consensus_hex_of_message h : consensus_hex_of (consensus_hex_message h) = h.
Proof. destruct h as [[s|]]; [|done]. unfold consensus_hex_of, unwrap_string. cbn. by rewrite StringValue_new_value. Qed.

(** What the fields of [Rpc] are as messages. *)
Lemma string_field_len s : len (encode (r_message 1 (wrap_string s))) ≤ 22 + len (list_byte_of_string s).
Proof.
  unfold wrap_string. etrans; [apply len_r_message; lia|]. change (records (StringValue_new s)) with (r_string 1 (string_value (StringValue_new s))).
  rewrite StringValue_new_value. pose proof (len_r_string 1 s). lia.
Qed.
Lemma string_field_ok s : string_ok s → from_option well_formed True (wrap_string s).
Proof. intros Hs. cbn. rewrite StringValue_new_value. split; [done|apply StringValue_new_plain]. Qed.

Context `{HexLib} `{CodecLib} `{HashLib} `{CryptoLib} `{!HexText}.
Lemma hex_field_sent n b : 1 ≤ n < 16 →
  from_option well_formed True (Some (hex_message (encode_hex b))) ∧
  len (encode (r_message n (Some (hex_message (encode_hex b))))) ≤ 33 + 2 * len b.
Proof.
  intros Hn. split; [apply string_field_ok, hex_encode_ok|].
  etrans; [by apply len_r_message|]. pose proof (string_field_len (hex_encode b)). rewrite hex_encode_len in *.
  change (records (hex_message (encode_hex b))) with (r_message 1 (wrap_string (hex_encode b))). lia.
Qed.
Lemma array_field_sent n k b : 1 ≤ n < 16 →
  from_option well_formed True (Some (consensus_hex_message (@encode_consensus_hex _ (array_codec k) b))) ∧
  len (encode (r_message n (Some (consensus_hex_message (@encode_consensus_hex _ (array_codec k) b))))) ≤ 33 + 2 * len b.
Proof.
  intros Hn. split; [apply string_field_ok, array_hex_ok|].
  etrans; [by apply len_r_message|]. pose proof (string_field_len (@serialize_hex _ (array_codec k) b)).
  rewrite array_hex_len in *.
  change (records (consensus_hex_message (@encode_consensus_hex _ (array_codec k) b)))
    with (r_message 1 (wrap_string (@serialize_hex _ (array_codec k) b))). lia.
Qed.
End messages.

(** ** The answers *)

Inductive crypto_method := Ripemd160Call | HmacSha512Call | PublicKeyCall | SignCall | VerifyCall.
Definition method (m : crypto_method) : unary_method :=
  match m with
  | Ripemd160Call => Ripemd160
  | HmacSha512Call => HmacSha512
  | PublicKeyCall => Secp256k1SecretKeyToPublicKey
  | SignCall => Secp256k1Sign
  | VerifyCall => Secp256k1Verify
  end.

Section answers.
Context `{AnswersLaws} `{HexLib} `{CodecLib} `{HashLib} `{CryptoLib}.
Variable show : Z → string.

(** What the service computes for a request. *)
Definition answer (m : crypto_method) :
    message (request (method m)) → outcome Rpc.ConnectError (message (response (method m))) :=
  match m with
  | Ripemd160Call => ripemd160_message
  | HmacSha512Call => hmac_sha512_message
  | PublicKeyCall => secret_key_to_public_key_message
  | SignCall => sign_message
  | VerifyCall => verify_message show
  end.

(** The client's result is the answer: its view is that of the same message, its error is
    an invalid argument. *)
Definition answers {V M} `{!ToOwned V M} (a : outcome Rpc.ConnectError M) (r : outcome ConnectError (Response V)) : Prop :=
  match a, r with
  | Ok res, Ok v => to_owned_from_source (body v) = Ok res
  | Err e, Err e' => e' = connect_error e ∧ ce_code e = InvalidArgument
  | _, _ => False
  end.

(** A service of hex fields answers, or refuses its arguments. *)
Definition answers_or_refuses {A} (o : outcome Rpc.ConnectError A) : Prop :=
  match o with Ok _ => True | Err e => ce_code e = InvalidArgument | Panic => False end.
Lemma refuses_bind {X Y} (o : outcome Rpc.ConnectError X) (f : X → outcome Rpc.ConnectError Y) :
  answers_or_refuses o → (∀ a, o = Ok a → answers_or_refuses (f a)) → answers_or_refuses (a ← o; f a).
Proof. destruct o; cbn; [|done..]. intros _ Hf. by apply Hf. Qed.
Lemma hex_field_refuses m f h : answers_or_refuses (hex_field m f h).
Proof.
  unfold hex_field, required, decode_status, decode_hex. destruct h as [[[s|]]|]; [|done..]. cbn.
  by destruct (Rpc.hex_decode s).
Qed.
Lemma array_field_refuses m f n h : answers_or_refuses (array_field m f n h).
Proof.
  unfold array_field, required, decode_status, decode_consensus_hex. destruct h as [[[s|]]|]; [|done..]. cbn.
  by destruct (deserialize_hex s).
Qed.
Lemma ok_or_refuses {A} (o : option A) m f v : answers_or_refuses (ok_or o (invalid_field_value m f v)).
Proof. by destruct o. Qed.
Lemma reject_refuses b m f v : answers_or_refuses (reject_if b (invalid_field_value m f v)).
Proof. by destruct b. Qed.
Lemma answer_refuses m req : answers_or_refuses (answer m req).
Proof.
  destruct m; cbn [answer]; repeat first
    [ done | apply hex_field_refuses | apply array_field_refuses | apply ok_or_refuses | apply reject_refuses
    | apply refuses_bind; [|intros ? _] ].
Qed.

(** What it answers is short. *)
Context `{!HashLaws, !CryptoLaws, !HexText}.
Lemma answer_sendable m req res : 512 ≤ message_limit → answer m req = Ok res → sendable res.
Proof.
  intros Hlim. assert (∀ b, len b ≤ 64 → sendable (M := ProtoCrypto.Ripemd160Response.Ripemd160Response)
    (ProtoCrypto.Ripemd160Response.mkRipemd160Response (Some (hex_message (encode_hex b))))) as Hhex.
  { intros b Hb. destruct (hex_field_sent 1 b) as [Hok Hl]; [lia|]. split; [exact Hok|].
    unfold max_len. split; [eapply Z.le_lt_trans|etrans]; (exact Hl || lia). }
  destruct m; cbn [answer]; intros Hres; apply bind_Ok in Hres as (h & Hh & [= <-]).
  - apply bind_Ok in Hh as (b & _ & [= <-]). apply Hhex. rewrite len_ripemd160. lia.
  - apply bind_Ok in Hh as (k & _ & Hh). apply bind_Ok in Hh as (b & _ & [= <-]).
    apply Hhex. rewrite hmac_len. lia.
  - apply bind_Ok in Hh as (b & _ & Hh). apply bind_Ok in Hh as (sk & _ & [= <-]).
    destruct (array_field_sent 1 SECP256K1_PUBLIC_KEY_LENGTH (public_key_serialize (public_key_of sk))) as [Hok Hl]; [lia|].
    rewrite public_key_length in Hl. split; [exact Hok|].
    unfold max_len. split; [eapply Z.le_lt_trans|etrans]; (exact Hl || lia).
  - apply bind_Ok in Hh as (b & _ & Hh). apply bind_Ok in Hh as (skb & _ & Hh). apply bind_Ok in Hh as (sk & _ & [= <-]).
    apply Hhex. rewrite signature_length. lia.
  - split; [done|]. assert (len (encode (records (ProtoCrypto.Secp256k1VerifyResponse.mkSecp256k1VerifyResponse h))) ≤ 2) as Hl
      by by destruct h.
    unfold max_len. split; [eapply Z.le_lt_trans|etrans]; (exact Hl || lia).
Qed.
End answers.

Section remote.
Context {S : Type} `{AnswersLaws} `{HexLib} `{!HexLaws} `{CodecLib} `{!CodecLaws} `{HashLib} `{CryptoLib}.
Context `{!HashLaws, !CryptoLaws, !HexText}.
Variable show : Z → string.
#[local] Instance crypto_server : CryptoService.CryptoService S := CryptoServiceServer show.
Context `{!MiningService.MiningService S} `{!ValidatorService.ValidatorService S} `{!WalletService.WalletService S}.
Context `{!Routing S, !RoutingLaws S, !RuntimeServices S, !RuntimeServicesLaws S} `{!Client S, !ClientLaws S}.

Lemma pure_handler_runs {V Req Res} `{!Message Req, !MessageSpec V, !MessageSpec Req, !ToOwned V Req, !View V Req}
    (f : Req → outcome Rpc.ConnectError Res)
    ctx req b (σ : S) :
  pure_handler f ctx (from_parts (view_of req) b) σ =
  (res ← map_err connect_error (f req); Ok (Response_new res), σ).
Proof.
  unfold pure_handler. rewrite (to_owned_message_spec _ req) by apply view_owned. cbn.
  by destruct (f req).
Qed.

Lemma method_handler m :
  handler (S := S) (method m) = pure_handler (V := view (request (method m))) (answer show m).
Proof. by destruct m. Qed.

(** A call of a crypto method over the wire answers, keeping the server's state. *)
Lemma remote_answers reflector mining wallet cfg m (req : message (request (method m))) :
  uses_proto cfg → 512 ≤ message_limit → sendable req →
  ∃ r, (∀ σ, client (method m) (connection (serve (connect_router reflector mining wallet))) cfg req σ = (r, σ)) ∧
    answers (M := message (response (method m))) (answer show m req) r.
Proof.
  intros Hcfg Hlim Hreq.
  assert (service (method m) ∈ Http.service_names mining wallet) as Hm by (destruct m, mining, wallet; cbn; set_solver).
  destruct (call_handled reflector mining wallet (method m) cfg req Hcfg Hm Hreq) as (ctx & Hctx).
  pose proof (answer_refuses show m req) as Hans.
  pose proof (λ res, answer_sendable show m req res Hlim) as Hsend.
  assert (∀ σ, call_gives (client (method m) (connection (serve (connect_router reflector mining wallet))) cfg req σ)
    (res ← map_err connect_error (answer show m req); Ok (Response_new res), σ)
    (λ res, sendable (body res)) (map_body view_of)) as Hcall.
  { intros σ. specialize (Hctx σ). rewrite method_handler in Hctx. rewrite pure_handler_runs in Hctx. exact Hctx. }
  destruct (answer show m req) as [res|e|]; [| |done]; cbn [map_err mbind outcome_bind call_gives] in Hcall.
  - exists (Ok (map_body view_of (Response_new res))). split.
    + intros σ. apply Hcall. rewrite body_Response_new. by apply Hsend.
    + cbn [answers]. rewrite body_map, body_Response_new. apply view_owned.
  - exists (Err (connect_error e)). split; [exact Hcall|done].
Qed.

(** The fields of a key, a message, a signature. *)
Definition key_field (n : Z) (b : bytes) : option ProtoCommon.ConsensusHex.ConsensusHex :=
  Some (consensus_hex_message (@encode_consensus_hex _ (array_codec n) b)).
Definition bytes_field (b : bytes) : option ProtoCommon.Hex.Hex := Some (hex_message (encode_hex b)).
Definition key_request skb : message (request (method PublicKeyCall)) :=
  ProtoCrypto.Secp256k1SecretKeyToPublicKeyRequest.mkSecp256k1SecretKeyToPublicKeyRequest (key_field 32 skb).
Definition sign_request b skb : message (request (method SignCall)) :=
  ProtoCrypto.Secp256k1SignRequest.mkSecp256k1SignRequest (bytes_field b) (key_field 32 skb).
Definition verify_request b signature public_key : message (request (method VerifyCall)) :=
  ProtoCrypto.Secp256k1VerifyRequest.mkSecp256k1VerifyRequest (bytes_field b) signature public_key.

Lemma key_field_read m f n b : len b = n → array_field m f n (consensus_hex_of <$> key_field n b) = Ok b.
Proof. intros Hb. unfold key_field. cbn [fmap option_fmap option_map]. rewrite consensus_hex_of_message. by apply array_field_encode. Qed.
Lemma bytes_field_read m f b : hex_field m f (hex_of <$> bytes_field b) = Ok b.
Proof. unfold bytes_field. cbn [fmap option_fmap option_map]. rewrite hex_of_message. apply hex_field_encode. Qed.

Section signature.
Variables (skb : bytes) (sk : SecretKey) (b : bytes).
Hypothesis skb_length : len skb = 32.
Hypothesis skb_key : secret_key_from_slice skb = Some sk.
Let public_key := key_field 33 (public_key_serialize (public_key_of sk)).
Let signature := bytes_field (serialize_compact (sign_ecdsa (sha256 b) sk)).

Lemma key_answer : answer show PublicKeyCall (key_request skb) =
  Ok (ProtoCrypto.Secp256k1SecretKeyToPublicKeyResponse.mkSecp256k1SecretKeyToPublicKeyResponse public_key).
Proof.
  unfold answer, key_request, secret_key_to_public_key_message, secp256k1_secret_key_to_public_key.
  cbn [ProtoCrypto.Secp256k1SecretKeyToPublicKeyRequest.secret_key]. change SECP256K1_SECRET_KEY_LENGTH with 32.
  rewrite key_field_read by done. cbn [mbind outcome_bind]. by rewrite skb_key.
Qed.
Lemma sign_answer : answer show SignCall (sign_request b skb) =
  Ok (ProtoCrypto.Secp256k1SignResponse.mkSecp256k1SignResponse signature).
Proof.
  unfold answer, sign_request, sign_message, secp256k1_sign.
  cbn [ProtoCrypto.Secp256k1SignRequest.message ProtoCrypto.Secp256k1SignRequest.secret_key]. change SECP256K1_SECRET_KEY_LENGTH with 32.
  rewrite bytes_field_read. cbn [mbind outcome_bind]. rewrite key_field_read by done. cbn [mbind outcome_bind].
  by rewrite skb_key.
Qed.
Lemma verify_answer : answer show VerifyCall (verify_request b signature public_key) =
  Ok (ProtoCrypto.Secp256k1VerifyResponse.mkSecp256k1VerifyResponse true).
Proof.
  unfold answer, verify_request, verify_message, secp256k1_verify.
  cbn [ProtoCrypto.Secp256k1VerifyRequest.message ProtoCrypto.Secp256k1VerifyRequest.signature ProtoCrypto.Secp256k1VerifyRequest.public_key].
  unfold signature. rewrite !bytes_field_read. cbn [mbind outcome_bind]. rewrite signature_length.
  cbn [Z.eqb Pos.eqb negb reject_if SECP256K1_SIGNATURE_COMPACT_SERIALIZATION_LENGTH mbind outcome_bind].
  rewrite signature_roundtrip. cbn [ok_or mbind outcome_bind].
  unfold public_key. change SECP256K1_PUBLIC_KEY_LENGTH with 33. rewrite key_field_read by apply public_key_length.
  cbn [mbind outcome_bind]. rewrite public_key_roundtrip. cbn [ok_or mbind outcome_bind]. by rewrite verify_sign.
Qed.

Hypothesis b_length : 2 * len b + 512 ≤ message_limit.
Hypothesis b_size : len b < 2 ^ 29.
Lemma signature_requests_sendable :
  sendable (key_request skb) ∧ sendable (sign_request b skb) ∧ sendable (verify_request b signature public_key).
Proof.
  assert (∀ n h, 1 ≤ n < 16 → len h < 2 ^ 29 → from_option well_formed True (bytes_field h) ∧
    len (encode (r_message n (bytes_field h))) ≤ 33 + 2 * len h) as Hhex by (intros; by apply hex_field_sent).
  assert (∀ n k h, 1 ≤ n < 16 → from_option well_formed True (key_field k h) ∧
    len (encode (r_message n (key_field k h))) ≤ 33 + 2 * len h) as Hkey by (intros; by apply array_field_sent).
  pose proof (public_key_length (public_key_of sk)) as Hpk.
  pose proof (signature_length (sign_ecdsa (sha256 b) sk)) as Hsig.
  pose proof (Hkey 1 32 skb ltac:(lia)) as [? ?]. pose proof (Hkey 2 32 skb ltac:(lia)) as [? ?].
  pose proof (Hhex 1 b ltac:(lia) b_size) as [? ?].
  pose proof (Hhex 2 (serialize_compact (sign_ecdsa (sha256 b) sk)) ltac:(lia) ltac:(by rewrite Hsig)) as [? ?].
  pose proof (Hkey 3 33 (public_key_serialize (public_key_of sk)) ltac:(lia)) as [? ?].
  assert (∀ M `{!Message M, !MessageSpec M} (m : M),
    well_formed m → len (encode (records m)) ≤ 2 * len b + 512 → sendable m) as Hsend.
  { intros M ? ? m Hm Hl. split; [done|]. unfold max_len. split; lia. }
  rewrite skb_length, ?Hsig, ?Hpk in *. split_and!; (apply Hsend; [repeat (assumption || split)|]).
  - change (records (key_request skb)) with (r_message 1 (key_field 32 skb)). pose proof (len_nonneg b). lia.
  - change (records (sign_request b skb)) with (r_message 1 (bytes_field b) ++ r_message 2 (key_field 32 skb)).
    rewrite len_encode_app. lia.
  - change (records (verify_request b signature public_key))
      with (r_message 1 (bytes_field b) ++ r_message 2 signature ++ r_message 3 public_key).
    rewrite !len_encode_app. unfold signature, public_key. lia.
Qed.
End signature.

(** * Properties *)

End remote.

(** * On the reference runtime *)

(** The [hex] crate's digits. *)
Definition hex_digit (n : Z) : byte := z2b (if n <? 10 then 48 + n else 87 + n).
Definition digit_value (c : byte) : Z := if b2z c <? 58 then b2z c - 48 else b2z c - 87.
Definition hex_digits (b : bytes) : bytes := flat_map (λ x, [hex_digit (b2z x / 16); hex_digit (b2z x mod 16)]) b.
Fixpoint from_digits (l : bytes) : bytes :=
  match l with x :: y :: l => z2b (16 * digit_value x + digit_value y) :: from_digits l | _ => [] end.

Lemma hex_digit_read n : 0 ≤ n < 16 → digit_value (hex_digit n) = n ∧ b2z (hex_digit n) < 128.
Proof.
  intros Hn. unfold digit_value, hex_digit. rewrite b2z_z2b.
  destruct (n <? 10) eqn:Hd; rewrite Z.mod_small by lia; case_match; lia.
Qed.
Lemma digits_of_byte x : let (h, l) := (b2z x / 16, b2z x mod 16) in 0 ≤ h < 16 ∧ 0 ≤ l < 16.
Proof. pose proof (b2z_range x). split; [|apply Z.mod_pos_bound; lia]. split; [apply Z.div_pos; lia|apply Z.div_lt_upper_bound; lia]. Qed.
Lemma hex_digits_cons x b :
  hex_digits (x :: b) = hex_digit (b2z x / 16) :: hex_digit (b2z x mod 16) :: hex_digits b.
Proof. done. Qed.
Lemma from_digits_hex b : from_digits (hex_digits b) = b.
Proof.
  induction b as [|x b IH]; [done|]. destruct (digits_of_byte x) as [Hh Hl].
  rewrite hex_digits_cons. cbn [from_digits]. rewrite IH. f_equal.
  rewrite (proj1 (hex_digit_read _ Hh)), (proj1 (hex_digit_read _ Hl)), <- Z.div_mod by lia. apply z2b_b2z.
Qed.
Lemma utf8_hex b : utf8_bytes (hex_digits b) = true.
Proof.
  induction b as [|x b IH]; [done|]. destruct (digits_of_byte x) as [Hh Hl].
  rewrite hex_digits_cons. cbn [utf8_bytes]. by rewrite (proj2 (Z.ltb_lt _ _) (proj2 (hex_digit_read _ Hh))),
    (proj2 (Z.ltb_lt _ _) (proj2 (hex_digit_read _ Hl))).
Qed.
Lemma len_hex b : len (hex_digits b) = 2 * len b.
Proof. induction b as [|x b IH]; [done|]. rewrite hex_digits_cons, !len_cons, IH. lia. Qed.

Definition ref_hex_string (b : bytes) : string := string_of_list_byte (hex_digits b).
Definition ref_from_hex (s : string) : option bytes := Some (from_digits (list_byte_of_string s)).
#[export] Instance ref_hex : HexLib := { hex_encode := ref_hex_string; hex_decode := ref_from_hex }.
Lemma ref_from_hex_string b : ref_from_hex (ref_hex_string b) = Some b.
Proof. unfold ref_from_hex, ref_hex_string. by rewrite list_byte_of_string_of_list_byte, from_digits_hex. Qed.
#[export] Instance ref_hex_laws : HexLaws.
Proof. split. exact ref_from_hex_string. Qed.
Definition ref_bytes_codec : ConsensusType bytes := {|
  serialize b := b; deserialize b := Some b; serialize_hex := ref_hex_string; deserialize_hex := ref_from_hex
|}.
#[export] Instance ref_codec : CodecLib :=
  {| hash_codec := ref_bytes_codec; array_codec _ := ref_bytes_codec; vec_codec := ref_bytes_codec |}.
#[export] Instance ref_codec_laws : CodecLaws.
Proof. split; [split; [done|exact ref_from_hex_string]|]. intros n b _. apply ref_from_hex_string. Qed.
#[export] Instance ref_hash : HashLib := toy_hash.
#[export] Instance ref_hash_laws : HashLaws := toy_hash_laws.
#[export] Instance ref_crypto_lib : CryptoLib := toy_crypto.
#[export] Instance ref_crypto_laws : CryptoLaws := toy_crypto_laws.
Lemma ref_hex_ok b : utf8_bytes (list_byte_of_string (ref_hex_string b)) = true.
Proof. unfold ref_hex_string. by rewrite list_byte_of_string_of_list_byte, utf8_hex. Qed.
Lemma ref_hex_len b : len (list_byte_of_string (ref_hex_string b)) = 2 * len b.
Proof. unfold ref_hex_string. by rewrite list_byte_of_string_of_list_byte, len_hex. Qed.
#[export] Instance ref_hex_text : HexText.
Proof.
  split; [exact ref_hex_ok|exact ref_hex_len|intros n b; exact (ref_hex_ok b)|intros n b; exact (ref_hex_len b)|].
  intros k m. apply len_toy_digest.
Qed.

#[export] Instance ref_answers : Answers := {
  StringValue_new := mkStringRef;
  Response_new A a := a;
  connect_error e := match ce_code e with InvalidArgument => "invalid argument" | _ => "another error" end%string;
  to_owned_message V M _ _ r := match to_owned_from_source (request_view r) with Ok m => m | _ => default_message end;
}.
#[export] Instance ref_answers_laws : AnswersLaws.
Proof. split; [done|done|done|]. intros V M ? ? r m Hr. cbn. by rewrite Hr. Qed.

(** Without the wallet and the mining service, with the odd key of [toy_crypto]; and a request
    with no key is refused. *)
Definition no_key : message (request (method SignCall)) :=
  ProtoCrypto.Secp256k1SignRequest.mkSecp256k1SignRequest (bytes_field [x01; x02]) None.
#[local] Instance ref_crypto_service : CryptoService.CryptoService nat := CryptoServiceServer (λ _, EmptyString).
